(* ===== verification/_CoqProject ===== *)
-Q . S2P
Prelude.v
PyStr.v
PyTime.v
Calendar.v
PyValue.v
PyFloat.v
Hashing.v
Schemas.v
Pydantic.v
Store.v
AuditChain.v
Policy.v
Broker.v
Playbook.v
Detection.v
Correlation.v
IdentityRules.v
NetworkRules.v
EndpointRules.v
BlueQL.v
EntityGraph.v
ProcessTree.v
Normalize.v
Syslog.v
Replay.v
Catalog.v
Sigma.v
Fabric.v
Access.v
Routes.v
Intel.v
Enrichment.v
EvidenceLocker.v
DetectionService.v
GraphService.v
Incidents.v
Ingestion.v
IngestAdapters.v
Vulns.v
Hunting.v
Gateway.v
RuleLifecycle.v
Coverage.v
Architecture.v
Improve.v
Connectors.v
Yara.v
DataClients.v
SqlHunts.v
ObjectStore.v
Redpanda.v
DualWrite.v
Quality.v
QualityChecks.v
Dfir.v
Startup.v
Console.v
Operations.v
Command.v
Http.v
