(* ===== verification/Prelude.v ===== *)
(** * Blue Team OS: a verification library

    Blue Team OS is a security-operations platform. Telemetry is normalised to canonical
    events, enriched, matched with indicators and stored; detection rules turn windows of
    events into findings; findings are stored with sealed evidence and alerts; a correlation
    engine tells storylines from findings and groups them into incidents, which analysts
    hunt through and work on; playbooks and an execution broker propose and run response
    actions behind a policy engine; reports (coverage, quality, health, forensics) are
    computed from what is stored; every write is recorded in a hash-chained audit log. This
    library is a shallow embedding of that program in Rocq: functions of the program are
    functions here, state is passed explicitly, exceptions are values. Paths below are
    relative to src/; services/ and api/ mean services/api/app/services and
    services/api/app/api, core/ and models/ their siblings.

    ** Conventions

    - A call that shares state is [M S A], a function from a state to a [result] and a new
      state; the state reached is kept when the call raises ([Prelude]). [get_db] of
      [Store] adds what a request does at its end: commit, or roll back.
    - A pydantic model or a table row is a record, a [Literal] an inductive type or its
      string. A dict is an association list in insertion order ([dget], [dset] of
      [PyValue]), a set of strings a list. A JSON column that holds a dumped model holds
      the model.
    - Strings are sequences of code points below 256 ([PyStr]); datetimes are a wall clock
      and an offset ([PyTime]). A naive one exists only where text is read ([py_datetime]);
      an event with a naive time stops at [settled], as the program's comparisons do. Floats
      are IEEE doubles ([PyValue], [PyFloat]); SHA-256 and canonical JSON are computed
      ([Hashing]).
    - Identifiers and clock readings come from an [Oracle]; [draws] counts how many were
      taken. [OracleLaws] says identifiers do not repeat.
    - Objects that live as long as the process (the replay lab, the gateway, the broker, the
      playbook engine, the stores of architecture and metrics) are the second half of
      [process G], which a request that fails does not roll back ([Routes]).
    - A route is [served permission headers request_id body] or [in_session] over a process
      ([Routes]); bodies of requests are taken as FastAPI has validated them.
    - Sessions are created with [autoflush=False]: a row that was added is seen by queries
      only after the next flush. The tables for which this matters have pending rows.
    - The file system of [ObjectStore] maps absolute paths to files and directories and has
      no symbolic links. What leaves the process is the log [world] of [DataClients].

    ** Parameters

    Code outside the repository is a class, and what is relied on about it a class of laws:
    [IpLib] (IPv6 in [ipaddress]), [IsoLib] (the rarer ISO formats), [Pydantic] with
    [PydanticLaws], [PydanticJson], [JsonDump] and [JsonLoads] (conversions and dumps),
    [SetOrder] (the order of a set), [AuthLib] and [PasswordLib] (jwt and bcrypt), [Opa] and
    [BrokerEnv] (the OPA binary, processes and the engines the broker calls), [YaraLib]
    (libYARA), [Executor] (what a playbook step runs), [Outside], [KafkaLib] with
    [EnvelopeJson] and [Probing] (servers and clusters), [PythonNames] (class names, URL
    paths), and what is on disk: [ScenarioFiles], [RangeFiles], [HuntFiles], [QualityFiles].
    [Normalizer] with [NormalizerLaws] is the interface between [Ingestion] and the adapters:
    the service is proved against it and [IngestAdapters] discharges it. [DataPlane] is what
    ingestion sees of the dual write. Theorems that assume laws have witnesses with concrete
    instances.

    ** Files

    Foundations
    - [Prelude], [PyStr], [PyTime], [Calendar], [PyValue], [PyFloat], [Hashing]: the monad and
      its loops, sorting, queries, Python's strings, datetimes and their texts, values,
      doubles, SHA-256 and canonical JSON (packages/python-common).
    - [Schemas], [Pydantic]: packages/schemas; the second fills an event from dynamic values
      and collects every failing field. [Store]: models/ and core/db.py.
    - [AuditChain]: services/audit.py. Every log the program writes verifies; two
      verifying logs of the same length and last hash agree on every hashed field, or two of
      their rows exhibit a collision of SHA-256; timestamps are not covered.
    - [Access]: services/auth.py, core/deps.py, core/security.py, domain/permissions.py: who
      passes a permission dependency, by which credential. [Routes]: what routes share. [Startup]: services/seed.py,
      main.py, api/auth.py: starting and signing in. [Http]: core/middleware.py,
      core/errors.py, core/schema_patches.py: what is answered to whom, and older databases.

    From telemetry to incidents
    - [Normalize], [Syslog], [IngestAdapters]: packages/network-adapters, endpoint-adapters,
      ingest-adapters. Whatever a payload says, the event is of the caller's tenant.
    - [Enrichment], [Intel], [Ingestion]: packages/enrichment, services/intel.py and
      ingestion.py with their routes. Every payload of a batch is accounted for; a payload
      sent again stores nothing; indicators over every interleaving of requests.
    - [Detection], [IdentityRules], [NetworkRules], [EndpointRules], [Catalog], [Sigma]:
      packages/detection-sdk, detections/python, packages/sigma-compiler. [RuleSound] is
      what a rule promises the registry; every rule of the catalogue is an instance, so every
      finding is sound. The catalogue takes compiled Sigma rules as an argument; [Sigma] says
      which files compile and when the compiled rule fires.
    - [Correlation]: packages/correlation. Storylines cite only what they were given; the
      declarative rules fire exactly when due, and what defeats them.
    - [EvidenceLocker], [DetectionService], [RuleLifecycle]: services/evidence.py,
      suppression.py, detection.py, rules.py. Stored findings are new, evidenced and alerted;
      rules move along declared transitions; the gate can be passed by.
    - [Incidents]: services/incidents.py and api/incidents.py. The life of incidents over
      every interleaving of requests, groupings and additions of evidence; every request
      is authorised and audited; how grouping fails.
    - [Fabric], [Redpanda], [DataClients], [ObjectStore], [DualWrite]: packages/event-fabric,
      clickhouse-store, dataplane-clients, object-store, services/dataplane.py. At-most-once
      delivery, complete drains and the messages that are lost; an object put is found again;
      a projection never raises; retention deletes exactly what is old.

    Acting
    - [Policy], [Broker], [Playbook], [Operations]: packages/rego-engine, execution-broker,
      playbook-sdk, and their routes with blue_range.py and languages.py. No mutating action
      is executed, processes are confined to the registered scripts, steps run only when
      granted and in order, what is submitted is recorded.
    - [Connectors]: packages/connectors, cloud-adapters and api/connectors.py. Endpoint
      actions never execute. [Gateway]: services/ai-gateway and api/ai_analyst.py. What is
      redacted, that nothing is dispatched, that an answer cites stored evidence.
    - [Replay], [Improve]: packages/blue-range, replay-engine, self-improvement. The
      regression gate opens exactly for rules whose latest covering job passed; no
      candidate is promoted.

    Looking
    - [BlueQL], [Hunting], [SqlHunts], [Yara]: packages/blueql, services/hunting.py,
      packages/sql-hunts, yara-engine. Parsing returns what was printed; sequences report
      the occurrences; structured search is the filter it stands for; SQL hunts only read,
      and only the tenant's rows.
    - [EntityGraph], [GraphService], [ProcessTree]: packages/entity-graph,
      services/graph.py, the process tree and sessions. The stored graph refines the
      observed one.
    - [Coverage], [Vulns], [Architecture], [Dfir], [Quality], [QualityChecks], [Console],
      [Command]: packages/attack-coverage, telemetry-health, vuln-engine, architecture,
      observability, dfir, quality-engine with services/quality.py, and the reading routes.
      Reports say what is stored, for one tenant; the quality index is what honest checks
      earned; the health report and its limits.

    ** Reading the theorems

    Invariants are proved by induction over step relations ([audit_reachable], [ir_step],
    [rule_step], [lab_step], the operations of [Fabric] and [Intel]), whose steps are the
    modelled operations, failed ones included, and frame steps for the rest of the program.
    Theorems about a route say who is answered, what the answer is, and what is left in the
    database in either outcome. Theorems that a call returns are stated as such. Where a loop
    of the code is not structural, the model takes fuel and a lemma shows it is enough: the
    passes of a playbook run (one per pending step, [run_passes_inv]), the chunks of a drain
    (the length of the queue, [consume_all_spec]), the parser of [BlueQL] (the tokens left,
    [parse_total]); digits of floats are searched up to 17, which always suffices for
    doubles.

    ** Not modelled

    The command-line scripts and the migrations of the database (tools of deployment), the
    binding of libYARA (calls through ctypes; the class [YaraLib]), logging, the creation of
    engines and connection pools, pydantic's validation of request bodies, CORS beyond the
    origins it is given, and the front end. Python's recursion limit is not modelled, nor
    concurrent requests inside one handler: a handler runs as one step, as its session is its
    own until it commits. *)
From Stdlib Require Export ZArith Lia Ascii String.
From stdpp Require Export base tactics strings list sorting gmap.
#[export] Set Default Goal Selector "!".

(** ** Notations, databases and tactics of the library *)

Declare Scope py_scope.
Delimit Scope py_scope with py.

Create HintDb btos.
Create Rewrite HintDb btos_rw.

(** Split every [if], [match] and boolean test of the goal or the context. *)
Ltac py_cases :=
  repeat match goal with
  | |- context [match ?x with _ => _ end] => destruct x eqn:?; simplify_eq/=
  | H : context [match ?x with _ => _ end] |- _ => destruct x eqn:?; simplify_eq/=
  end.

(** Turn the boolean tests of the code into propositions. *)
Ltac py_bool :=
  repeat match goal with
  | H : (_ && _) = true |- _ => apply andb_prop in H as [? ?]
  | H : (_ || _) = false |- _ => apply orb_false_elim in H as [? ?]
  | H : negb _ = true |- _ => apply negb_true_iff in H
  | H : negb _ = false |- _ => apply negb_false_iff in H
  | H : bool_decide _ = true |- _ => apply bool_decide_eq_true_1 in H
  | H : bool_decide _ = false |- _ => apply bool_decide_eq_false_1 in H
  | H : (_ =? _)%string = true |- _ => apply String.eqb_eq in H
  | H : (_ =? _)%string = false |- _ => apply String.eqb_neq in H
  | H : (_ =? _)%Z = true |- _ => apply Z.eqb_eq in H
  | H : (_ =? _)%Z = false |- _ => apply Z.eqb_neq in H
  | H : (_ <=? _)%Z = true |- _ => apply Z.leb_le in H
  | H : (_ <=? _)%Z = false |- _ => apply Z.leb_gt in H
  | H : (_ <? _)%Z = true |- _ => apply Z.ltb_lt in H
  | H : (_ <? _)%Z = false |- _ => apply Z.ltb_ge in H
  | H : (_ <=? _)%nat = true |- _ => apply Nat.leb_le in H
  | H : (_ <=? _)%nat = false |- _ => apply Nat.leb_gt in H
  | H : (_ <? _)%nat = true |- _ => apply Nat.ltb_lt in H
  | H : (_ <? _)%nat = false |- _ => apply Nat.ltb_ge in H
  end.

(** ** Exceptions and the state-and-exception monad

    A Python call is a function of the state it shares that returns a value or
    raises; the state reached is kept in both cases. *)

Inductive exn : Type :=
| BlueTeamError (code message : string) (status_code : Z)
| ValueError (message : string)
| TypeError (message : string)
| KeyError (key : string)
| PermissionError (message : string)
| MultipleResultsFound
| OtherError (message : string).

#[export] Instance exn_eq_dec : EqDecision exn.
Proof. solve_decision. Defined.

Definition NotFoundError (message : string) : exn := BlueTeamError "NOT_FOUND" message 404.
(** [str(exc)] *)
Definition exn_str (e : exn) : string :=
  match e with
  | BlueTeamError _ m _ | ValueError m | TypeError m | KeyError m | PermissionError m
  | OtherError m => m
  | MultipleResultsFound => "Multiple rows were found when one or none was required"
  end.
Definition PermissionDeniedError (message : string) : exn :=
  BlueTeamError "PERMISSION_DENIED" message 403.
Definition UnauthorizedError (message : string) : exn := BlueTeamError "UNAUTHORIZED" message 401.

Inductive result (A : Type) : Type :=
| Ok (a : A)
| Raise (e : exn).
Arguments Ok {A} a.
Arguments Raise {A} e.

#[export] Instance result_ret : MRet result := λ A a, Ok a.
#[export] Instance result_bind : MBind result := λ A B f m,
  match m with Ok a => f a | Raise e => Raise e end.

#[export] Instance result_fmap : FMap result := λ A B f m,
  match m with Ok a => Ok (f a) | Raise e => Raise e end.

Definition is_ok {A} (r : result A) : bool := match r with Ok _ => true | Raise _ => false end.

Lemma result_bind_ok {A B} (m : result A) (f : A → result B) b :
  m ≫= f = Ok b → ∃ a, m = Ok a ∧ f a = Ok b.
Proof. destruct m; [eauto | discriminate]. Qed.

(** [M S A]: a call that reads and writes a shared state of type [S]. *)
Definition M (S A : Type) : Type := S → result A * S.
#[export] Instance M_ret {S} : MRet (M S) := λ A a s, (Ok a, s).
#[export] Instance M_bind {S} : MBind (M S) := λ A B f m s,
  match m s with
  | (Ok a, s') => f a s'
  | (Raise e, s') => (Raise e, s')
  end.
#[export] Instance M_fmap {S} : FMap (M S) := λ A B f m s,
  match m s with (Ok a, s') => (Ok (f a), s') | (Raise e, s') => (Raise e, s') end.
Definition raise {S A} (e : exn) : M S A := λ s, (Raise e, s).
Definition get {S} : M S S := λ s, (Ok s, s).
Definition gets {S A} (f : S → A) : M S A := λ s, (Ok (f s), s).
Definition modify {S} (f : S → S) : M S unit := λ s, (Ok tt, f s).
Definition lift {S A} (r : result A) : M S A := λ s, (r, s).

(** [for x in l: acc = f(acc, x)] with a body that may raise. *)
Fixpoint foldM {S A B} (f : B → A → M S B) (b : B) (l : list A) : M S B :=
  match l with
  | [] => mret b
  | x :: l' => b' ← f b x; foldM f b' l'
  end.

Fixpoint mapM' {S A B} (f : A → M S B) (l : list A) : M S (list B) :=
  match l with
  | [] => mret []
  | x :: l' => y ← f x; ys ← mapM' f l'; mret (y :: ys)
  end.

Lemma M_bind_ok {S A B} (m : M S A) (f : A → M S B) s b s' :
  (m ≫= f) s = (Ok b, s') → ∃ a s1, m s = (Ok a, s1) ∧ f a s1 = (Ok b, s').
Proof. unfold mbind, M_bind. destruct (m s) as [[a|e] s1]; [eauto | discriminate]. Qed.

Lemma M_bind_eval {S A B} (m : M S A) (f : A → M S B) s a s1 :
  m s = (Ok a, s1) → (m ≫= f) s = f a s1.
Proof. unfold mbind, M_bind. by intros ->. Qed.

(** A property of the state kept by every call of a loop is kept by the loop,
    whether the loop ends normally or by an exception. *)
Lemma foldM_state_inv {S A B} (P : S → Prop) (f : B → A → M S B) l b s :
  (∀ b x s, x ∈ l → P s → P (snd (f b x s))) → P s → P (snd (foldM f b l s)).
Proof.
  revert b s. induction l as [|x l IH]; intros b s Hf HP; simpl; [done|].
  unfold mbind, M_bind. specialize (Hf b x s) as Hx.
  destruct (f b x s) as [[b'|e] s1]; simpl in *; [|apply Hx; [constructor|done]].
  apply IH; [|apply Hx; [constructor|done]].
  intros b'' y s'' Hy. apply Hf. by constructor.
Qed.

(** What every call of a loop that returned keeps holds at its end. *)
Lemma foldM_ok_inv {S A B} (P : B → S → Prop) (f : B → A → M S B) l b s b' s' :
  (∀ b x s b' s', x ∈ l → P b s → f b x s = (Ok b', s') → P b' s') → P b s →
  foldM f b l s = (Ok b', s') → P b' s'.
Proof.
  revert b s. induction l as [|x l IH]; intros b s Hf HP He; simpl in He; [by injection He as <- <-|].
  apply M_bind_ok in He as (b1 & s1 & Hx & He). eapply IH; [|eapply Hf; [by left | done | done]|done].
  intros b2 y s2 b3 s3 Hy. apply Hf. by right.
Qed.

Lemma foldM_app_ok {S A B} (f : B → A → M S B) l l' b s b' s' :
  foldM f b (l ++ l') s = (Ok b', s') →
  ∃ b1 s1, foldM f b l s = (Ok b1, s1) ∧ foldM f b1 l' s1 = (Ok b', s').
Proof.
  revert b s. induction l as [|x l IH]; intros b s He; simpl in *; [by exists b, s|].
  apply M_bind_ok in He as (b0 & s0 & Hx & He). apply IH in He as (b1 & s1 & Hl & He).
  exists b1, s1. by rewrite (M_bind_eval _ _ _ _ _ Hx).
Qed.

(** A loop whose body always returns and keeps [P] returns and keeps [P]. *)
Lemma foldM_total {S A B} (P : B → S → Prop) (f : B → A → M S B) l b s :
  (∀ b x s, x ∈ l → P b s → ∃ b' s', f b x s = (Ok b', s') ∧ P b' s') → P b s →
  ∃ b' s', foldM f b l s = (Ok b', s') ∧ P b' s'.
Proof.
  revert b s. induction l as [|x l IH]; intros b s Hf HP; simpl; [by eexists _, _|].
  destruct (Hf b x s) as (b' & s1 & Hx & HP'); [by left | done|].
  rewrite (M_bind_eval _ _ _ _ _ Hx). apply IH; [|done].
  intros b'' y s'' Hy. apply Hf. by right.
Qed.

(** A comprehension whose elements can fail. *)
Lemma mapM_result_ok {A B} (f : A → result B) l k : mapM f l = Ok k ↔ Forall2 (λ x y, f x = Ok y) l k.
Proof.
  revert k. induction l as [|x l IH]; intros k; simpl; [split; [by intros [= <-] | by intros ->%Forall2_nil_inv_l]|].
  split.
  - unfold mbind, result_bind. destruct (f x) as [y|] eqn:E; [|done]. destruct (mapM f l) as [ys|]; [|done].
    intros [= <-]. constructor; [done | by apply IH].
  - intros (y & ys & Hx & Hl%IH & ->)%Forall2_cons_inv_l. by rewrite Hx, Hl.
Qed.

(** What a call returned and left, without computing either. *)
Lemma pair_inj {A S} (a b : A) (s s' : S) : (a, s) = (b, s') → a = b ∧ s = s'.
Proof. by intros [= -> ->]. Qed.

Ltac inv_bind H :=
  let a := fresh "a" in let s := fresh "s" in let Ha := fresh "Ha" in
  apply M_bind_ok in H as (a & s & Ha & H).

(** ** Stable sorting: [sorted(l, key=...)]

    [le x y] is the comparison of the keys; for [reverse=True] it is the converse
    comparison, which keeps the order of equal elements as Python does. *)

Section sorting.
Context {A : Type} (le : A → A → bool).

Fixpoint insert_by (x : A) (l : list A) : list A :=
  match l with
  | [] => [x]
  | y :: l' => if le x y then x :: l else y :: insert_by x l'
  end.
Definition sort_by (l : list A) : list A := foldr insert_by [] l.

Lemma insert_by_perm x l : insert_by x l ≡ₚ x :: l.
Proof.
  induction l as [|y l IH]; simpl; [done|]. destruct (le x y); [done|].
  rewrite IH. apply Permutation_swap.
Qed.
Lemma sort_by_perm l : sort_by l ≡ₚ l.
Proof. induction l as [|x l IH]; simpl; [done|]. by rewrite insert_by_perm, IH. Qed.
Lemma elem_of_sort_by x l : x ∈ sort_by l ↔ x ∈ l.
Proof. by rewrite sort_by_perm. Qed.
Lemma length_sort_by l : length (sort_by l) = length l.
Proof. by rewrite sort_by_perm. Qed.

Definition sorted_by : list A → Prop := StronglySorted (λ x y, le x y = true).

Lemma insert_by_sorted x l :
  (∀ a b, le a b = false → le b a = true) → (∀ a b c, le a b = true → le b c = true → le a c = true) →
  sorted_by l → sorted_by (insert_by x l).
Proof.
  intros Htot Htr Hl. induction Hl as [|y l Hl IH Hy]; simpl; [repeat constructor|].
  destruct (le x y) eqn:E.
  - constructor; [by constructor|]. constructor; [done|].
    eapply Forall_impl; [exact Hy|]. simpl. intros z Hz. by eapply Htr.
  - constructor; [done|]. apply Forall_forall. intros z Hz.
    rewrite insert_by_perm in Hz. apply elem_of_cons in Hz as [->|Hz]; [by apply Htot|].
    rewrite Forall_forall in Hy. by apply Hy.
Qed.
Lemma sort_by_sorted l :
  (∀ a b, le a b = false → le b a = true) → (∀ a b c, le a b = true → le b c = true → le a c = true) →
  sorted_by (sort_by l).
Proof. intros Ht Htr. induction l; simpl; [constructor | by apply insert_by_sorted]. Qed.
(** The same where the order is one only on the elements of the list. *)
Lemma sort_by_sorted_on (P : A → Prop) l : Forall P l →
  (∀ a b, P a → P b → le a b = false → le b a = true) →
  (∀ a b c, P a → P b → P c → le a b = true → le b c = true → le a c = true) → sorted_by (sort_by l).
Proof.
  intros Hl Ht Htr. induction Hl as [|x l Hx Hl IH]; simpl; [constructor|].
  assert (Forall P (sort_by l)) as Hs by by rewrite sort_by_perm. revert IH Hs. generalize (sort_by l). clear Hl l.
  induction 1 as [|y l Hl IH Hy]; intros Hs; simpl; [repeat constructor|]. apply Forall_cons in Hs as [HPy Hs].
  destruct (le x y) eqn:E.
  - constructor; [by constructor|]. constructor; [done|]. rewrite Forall_forall in Hy, Hs. apply Forall_forall.
    intros z Hz. eapply (Htr x y z); auto.
  - constructor; [by apply IH|]. apply Forall_forall. intros z Hz.
    rewrite insert_by_perm in Hz. rewrite Forall_forall in Hy. apply elem_of_cons in Hz as [->|Hz]; auto.
Qed.
Lemma sort_by_id l : sorted_by l → sort_by l = l.
Proof.
  induction 1 as [|x l Hl IH Hx]; simpl; [done|]. rewrite IH.
  destruct Hx as [|y l Hy Hx]; simpl; [done|]. by rewrite Hy.
Qed.
(** The last element comes first when the order puts it before all others. *)
Lemma sort_snoc_first l x : (∀ y, y ∈ l → le y x = false) → ∃ t, sort_by (l ++ [x]) = x :: t.
Proof.
  induction l as [|y l IH]; intros H; [by exists []|].
  destruct IH as [t Ht]; [intros; apply H; by right|]. simpl. rewrite Ht. simpl.
  rewrite H by by left. by eexists.
Qed.
End sorting.

(** The first element satisfying a test: [next((x for x in l if p(x)), None)]. *)
Definition find_first {A} (p : A → bool) (l : list A) : option A := List.find p l.
Lemma find_first_Some {A} (p : A → bool) l x : find_first p l = Some x → x ∈ l ∧ p x = true.
Proof. intros H. apply List.find_some in H as [Hin Hp]. by rewrite list_elem_of_In. Qed.
Lemma find_first_None {A} (p : A → bool) l x : find_first p l = None → x ∈ l → p x = false.
Proof. intros H Hin. eapply List.find_none; [done|]. by apply list_elem_of_In. Qed.

(** [filter] with a boolean test, as the comprehensions of the program write it. *)
Definition select {A} (p : A → bool) (l : list A) : list A := filter (λ x, p x = true) l.
Lemma elem_of_select {A} (p : A → bool) l x : x ∈ select p l ↔ x ∈ l ∧ p x = true.
Proof. unfold select. rewrite list_elem_of_filter. naive_solver. Qed.
Lemma select_app {A} (p : A → bool) l l' : select p (l ++ l') = select p l ++ select p l'.
Proof. apply filter_app. Qed.
Lemma select_length {A} (p : A → bool) l : length (select p l) ≤ length l.
Proof. apply length_filter. Qed.
Lemma select_one {A} (p : A → bool) x : select p [x] = if p x then [x] else [].
Proof. unfold select. rewrite filter_cons. by destruct (p x). Qed.
Lemma select_select {A} (p q : A → bool) l : select p (select q l) = select (λ x, q x && p x) l.
Proof.
  unfold select. induction l as [|x l IH]; [done|]. rewrite !filter_cons.
  destruct (q x); simpl; [|done]. rewrite filter_cons. by rewrite IH.
Qed.
Lemma select_ext {A} (p q : A → bool) l : (∀ x, x ∈ l → p x = q x) → select p l = select q l.
Proof.
  unfold select. induction l as [|x l IH]; intros H; [done|]. rewrite !filter_cons, (H x) by by left.
  by rewrite IH by (intros; apply H; by right).
Qed.
(** Selecting commutes with sorting by a total order. *)
Lemma select_insert_by {A} (le : A → A → bool) (p : A → bool) x l :
  (∀ a b c, le a b = true → le b c = true → le a c = true) → sorted_by le l →
  select p (insert_by le x l) = if p x then insert_by le x (select p l) else select p l.
Proof.
  intros Htr Hl. unfold select. induction Hl as [|y l Hl IH Hy]; simpl.
  { rewrite filter_cons. by destruct (p x). }
  destruct (le x y) eqn:E.
  - rewrite filter_cons. destruct (p x) eqn:Ex; simpl; [|done].
    assert (∀ z, z ∈ filter (λ x, p x = true) (y :: l) → le x z = true) as Hz.
    { intros z [_ [->|Hz]%elem_of_cons]%list_elem_of_filter; [done|].
      rewrite Forall_forall in Hy. eapply Htr; [done | by apply Hy]. }
    destruct (filter _ (y :: l)) as [|z r]; simpl; [done|]. by rewrite Hz by by left.
  - rewrite !filter_cons, IH. destruct (p y) eqn:Ey, (p x) eqn:Ex; simpl; by rewrite ?E.
Qed.
Lemma select_sort_by {A} (le : A → A → bool) (p : A → bool) l :
  (∀ a b, le a b = false → le b a = true) → (∀ a b c, le a b = true → le b c = true → le a c = true) →
  select p (sort_by le l) = sort_by le (select p l).
Proof.
  intros Ht Htr. induction l as [|x l IH]; simpl; [done|].
  rewrite select_insert_by by (done || by apply sort_by_sorted). rewrite IH. unfold select.
  rewrite filter_cons. by destruct (p x).
Qed.
Lemma select_nil_iff {A} (p : A → bool) l : select p l = [] ↔ ∀ x, x ∈ l → p x = false.
Proof.
  split.
  - intros H x Hx. destruct (p x) eqn:E; [|done].
    assert (x ∈ select p l) as Hin by (by apply elem_of_select). rewrite H in Hin. set_solver.
  - intros H. destruct (select p l) as [|x r] eqn:E; [done|].
    assert (x ∈ select p l) as Hin by (rewrite E; set_solver).
    apply elem_of_select in Hin as [Hin Hp]. by rewrite H in Hp.
Qed.

(** [scalar_one_or_none()] on the rows a query returned. *)
Definition scalar_one_or_none {A} (rows : list A) : result (option A) :=
  match rows with
  | [] => Ok None
  | [r] => Ok (Some r)
  | _ => Raise MultipleResultsFound
  end.
Lemma scalar_one_Some {A} (rows : list A) r : scalar_one_or_none rows = Ok (Some r) ↔ rows = [r].
Proof. destruct rows as [|x [|y rows]]; simpl; split; intros H; congruence. Qed.
Lemma scalar_one_None {A} (rows : list A) : scalar_one_or_none rows = Ok None ↔ rows = [].
Proof. destruct rows as [|x [|y rows]]; simpl; split; intros H; congruence. Qed.

Lemma elem_of_rev {A} (l : list A) x : x ∈ rev l ↔ x ∈ l.
Proof. by rewrite !list_elem_of_In, <-in_rev. Qed.

(** Rows with distinct keys are equal when their keys are. *)
Lemma NoDup_fmap_eq {A B} (f : A → B) l x y :
  NoDup (f <$> l) → x ∈ l → y ∈ l → f x = f y → x = y.
Proof.
  induction l as [|z l IH]; simpl; [by intros _ ?%not_elem_of_nil|].
  intros [Hz Hnd]%NoDup_cons [->|Hx]%elem_of_cons [->|Hy]%elem_of_cons Hf; [done | | |by apply IH].
  - exfalso. apply Hz. rewrite Hf. by apply list_elem_of_fmap_2.
  - exfalso. apply Hz. rewrite <-Hf. by apply list_elem_of_fmap_2.
Qed.
(** A test that only one row passes selects that row. *)
Lemma select_unique {A B} (f : A → B) (p : A → bool) l x :
  NoDup (f <$> l) → x ∈ l → p x = true → (∀ y, y ∈ l → p y = true → f y = f x) → select p l = [x].
Proof.
  unfold select. induction l as [|y l IH]; simpl; [by intros _ ?%not_elem_of_nil|].
  intros [Hy Hnd]%NoDup_cons Hx Hp Hall. rewrite filter_cons.
  apply elem_of_cons in Hx as [->|Hx].
  - rewrite decide_True by done. f_equal. apply select_nil_iff. intros z Hz.
    destruct (p z) eqn:Hpz; [|done]. exfalso. apply Hy. rewrite <-(Hall z) by (done || by right).
    by apply list_elem_of_fmap_2.
  - case_decide as Hpy.
    + exfalso. apply Hy. rewrite (Hall y) by (done || by left). by apply list_elem_of_fmap_2.
    + apply IH; try done. intros z Hz. apply Hall. by right.
Qed.

#[export] Hint Resolve insert_by_perm sort_by_perm : btos.
#[export] Hint Rewrite @elem_of_select @elem_of_sort_by @length_sort_by : btos_rw.

(** Elements of related lists. *)
Lemma Forall2_in_l {A B} (R : A → B → Prop) l k x : Forall2 R l k → x ∈ l → ∃ y, y ∈ k ∧ R x y.
Proof. induction 1; [by intros ?%not_elem_of_nil|]. intros [->|Hx]%elem_of_cons; set_solver. Qed.
Lemma Forall2_in_r {A B} (R : A → B → Prop) l k y : Forall2 R l k → y ∈ k → ∃ x, x ∈ l ∧ R x y.
Proof. induction 1; [by intros ?%not_elem_of_nil|]. intros [->|Hy]%elem_of_cons; set_solver. Qed.
Lemma NoDup_snoc {A} (l : list A) x : x ∉ l → NoDup l → NoDup (l ++ [x]).
Proof. intros Hx Hl. apply NoDup_app. split_and!; [done | set_solver | apply NoDup_singleton]. Qed.
(** An update that leaves the elements passing a test as they are. *)
Lemma select_map_id {A} (p : A → bool) (g : A → A) l :
  (∀ x, x ∈ l → p (g x) = p x ∧ (p x = true → g x = x)) → select p (map g l) = select p l.
Proof.
  unfold select. induction l as [|x l IH]; intros Hg; [done|]. cbn [map]. rewrite !filter_cons, IH by (intros; apply Hg; by right).
  destruct (Hg x) as [-> Hx]; [by left|]. destruct (p x); simpl; [by rewrite Hx | done].
Qed.
Lemma select_NoDup {A B} (f : A → B) (p : A → bool) l : NoDup (f <$> l) → NoDup (f <$> select p l).
Proof.
  unfold select. induction l as [|x l IH]; [done|]. rewrite fmap_cons, NoDup_cons, filter_cons. intros [Hx Hl].
  destruct (p x); simpl; [|by apply IH]. apply NoDup_cons. split; [|by apply IH].
  intros (y & He & [_ Hy]%list_elem_of_filter)%list_elem_of_fmap. apply Hx. rewrite He. by apply list_elem_of_fmap_2.
Qed.
Lemma select_map {A} (p : A → bool) (g : A → A) l : (∀ x, p (g x) = p x) → select p (map g l) = map g (select p l).
Proof.
  unfold select. intros Hg. induction l as [|x l IH]; [done|]. cbn [map]. rewrite !filter_cons, IH, Hg. by destruct (p x).
Qed.

(** ** Framing

    A call that, however it ends, relates the state before to the state after. *)
Section keeps.
Context {S : Type} (R : S → S → Prop) `{!PreOrder R}.
Definition keeps {A} (m : M S A) : Prop := ∀ s, R s (snd (m s)).
Lemma keeps_pure {A} (r : result A) : keeps (λ s, (r, s)).
Proof. by intros s. Qed.
Lemma keeps_gets {A} (f : S → A) : keeps (gets f).
Proof. by intros s. Qed.
Lemma keeps_bind {A B} (m : M S A) (k : A → M S B) : keeps m → (∀ a, keeps (k a)) → keeps (m ≫= k).
Proof.
  intros Hm Hk s. unfold mbind, M_bind. specialize (Hm s). destruct (m s) as [[a|e] s1]; simpl in *; [|done].
  etrans; [exact Hm | apply Hk].
Qed.
Lemma keeps_get_bind {B} (k : S → M S B) : (∀ s, keeps (k s)) → keeps (get ≫= k).
Proof. intros Hk s. apply Hk. Qed.
Lemma keeps_fmap {A B} (g : A → B) (m : M S A) : keeps m → keeps (g <$> m).
Proof. intros Hm s. unfold fmap, M_fmap. specialize (Hm s). by destruct (m s) as [[a|e] s1]. Qed.
Lemma keeps_foldM {A B} (g : B → A → M S B) l b : (∀ b x, keeps (g b x)) → keeps (foldM g b l).
Proof.
  intros Hg. revert b. induction l as [|x l IH]; intros b; [apply keeps_pure|].
  apply keeps_bind; [apply Hg | intros; apply IH].
Qed.
Lemma keeps_mapM {A B} (g : A → M S B) l : (∀ x, keeps (g x)) → keeps (mapM' g l).
Proof.
  intros Hg. induction l as [|x l IH]; [apply keeps_pure|].
  apply keeps_bind; [apply Hg|]. intros y. apply keeps_bind; [apply IH | intros; apply keeps_pure].
Qed.
Lemma keeps_ok {A} (m : M S A) s a s' : keeps m → m s = (Ok a, s') → R s s'.
Proof. intros Hm E. specialize (Hm s). by rewrite E in Hm. Qed.
End keeps.
(** One step of a framing proof; what is left are the writes. *)
Create HintDb keeps discriminated.
Ltac keeps_step :=
  match goal with
  | |- keeps _ (get ≫= _) => apply keeps_get_bind; intros ?
  | |- keeps _ (_ ≫= _) => apply (keeps_bind _); [|intros ?]
  | |- keeps _ (_ <$> _) => apply keeps_fmap
  | |- keeps _ (mret ?a) => exact (keeps_pure _ (Ok a))
  | |- keeps _ (raise ?e) => exact (keeps_pure _ (Raise e))
  | |- keeps _ (lift ?r) => exact (keeps_pure _ r)
  | |- keeps _ (λ s, (?r, s)) => exact (keeps_pure _ r)
  | |- keeps _ (gets ?f) => exact (keeps_gets _ f)
  | |- keeps _ (foldM _ _ _) => apply (keeps_foldM _); intros ? ?
  | |- keeps _ (mapM' _ _) => apply (keeps_mapM _); intros ?
  | |- keeps _ (match ?x with _ => _ end) => destruct x
  | |- keeps _ (if ?x then _ else _) => destruct x
  | |- keeps _ (let '(_, _) := ?x in _) => destruct x
  end.
