(* ===== verification/PyStr.v ===== *)
(** * Python strings

    A [str] is modelled as a Rocq [string] read as a sequence of Unicode code
    points below 256; the methods below follow CPython on that range. *)
From S2P Require Export Prelude.
From Stdlib Require Import DecimalString DecimalZ DecimalPos DecimalN.

#[global] Arguments String.append !_ _ /.

Definition code (c : ascii) : N := N_of_ascii c.
Definition chr (n : N) : ascii := ascii_of_N n.
Definition in_range (lo hi : N) (c : ascii) : bool := (lo <=? code c)%N && (code c <=? hi)%N.

(** *** Character classes *)

Definition is_digit (c : ascii) : bool := in_range 48 57 c.
Definition is_upper (c : ascii) : bool :=
  in_range 65 90 c || (in_range 192 222 c && negb (code c =? 215)%N).
Definition lower_char (c : ascii) : ascii := if is_upper c then chr (code c + 32) else c.
(** [str.isspace] on code points below 256. *)
Definition is_space (c : ascii) : bool :=
  in_range 9 13 c || in_range 28 32 c || (code c =? 133)%N || (code c =? 160)%N.
Definition is_letter (c : ascii) : bool := in_range 65 90 c || in_range 97 122 c.
(** [str.isalnum]: letters, digits, the ordinal indicators, superscripts and fractions. *)
Definition is_alnum (c : ascii) : bool :=
  is_letter c || is_digit c || existsb (N.eqb (code c)) [170; 178; 179; 181; 185; 186; 188; 189; 190]%N
  || (in_range 192 255 c && negb (code c =? 215)%N && negb (code c =? 247)%N).
(** [str.upper] keeps the length on this range except for two letters, which the
    callers of the program never compare. *)
Definition upper_char (c : ascii) : ascii :=
  if in_range 97 122 c || (in_range 224 254 c && negb (code c =? 247)%N)
  then chr (code c - 32) else c.

Fixpoint str_map (f : ascii → ascii) (s : string) : string :=
  match s with EmptyString => "" | String c s' => String (f c) (str_map f s') end.
Fixpoint str_all (f : ascii → bool) (s : string) : bool :=
  match s with EmptyString => true | String c s' => f c && str_all f s' end.

(** *** Methods *)

Definition lower (s : string) : string := str_map lower_char s.
Definition upper (s : string) : string := str_map upper_char s.
Definition startswith (s p : string) : bool := String.prefix p s.
Definition nonempty (s : string) : bool := negb (s =? "")%string.

(** [sub in s] *)
Fixpoint contains (s sub : string) : bool :=
  String.prefix sub s || match s with EmptyString => false | String _ s' => contains s' sub end.

(** [s[n:]] *)
Fixpoint str_drop (n : nat) (s : string) : string :=
  match n, s with
  | O, _ => s
  | S n', String _ s' => str_drop n' s'
  | S _, EmptyString => ""
  end.
(** [s[:n]] *)
Fixpoint str_take (n : nat) (s : string) : string :=
  match n, s with
  | S n', String c s' => String c (str_take n' s')
  | _, _ => ""
  end.

(** [s.split(sep)] for a one-character separator. *)
Fixpoint split_on (sep : ascii) (s : string) : list string :=
  match s with
  | EmptyString => [""]
  | String c s' =>
      if Ascii.eqb c sep then "" :: split_on sep s'
      else match split_on sep s' with
           | [] => [String c ""]
           | w :: ws => String c w :: ws
           end
  end.

(** [s.split()]: the words between runs of white space. *)
Fixpoint split_spaces (s : string) : list string :=
  match s with
  | EmptyString => [""]
  | String c s' =>
      if is_space c then "" :: split_spaces s'
      else match split_spaces s' with
           | [] => [String c ""]
           | w :: ws => String c w :: ws
           end
  end.
Definition split_ws (s : string) : list string := select nonempty (split_spaces s).

(** [s.split(sep, 1)]: the text before the first separator and, if there is one,
    the text after it. *)
Fixpoint split_once (sep : ascii) (s : string) : string * option string :=
  match s with
  | EmptyString => ("", None)
  | String c s' =>
      if Ascii.eqb c sep then ("", Some s')
      else let '(w, r) := split_once sep s' in (String c w, r)
  end.

(** [sep.join(parts)] *)
Fixpoint join (sep : string) (parts : list string) : string :=
  match parts with
  | [] => ""
  | [p] => p
  | p :: ps => p +:+ sep +:+ join sep ps
  end.

Fixpoint lstrip (s : string) : string :=
  match s with
  | EmptyString => ""
  | String c s' => if is_space c then lstrip s' else s
  end.
Fixpoint rstrip (s : string) : string :=
  match s with
  | EmptyString => ""
  | String c s' =>
      match rstrip s' with
      | EmptyString => if is_space c then "" else String c ""
      | r => String c r
      end
  end.
Definition strip (s : string) : string := rstrip (lstrip s).

(** Membership in a literal set of strings: [s in {..}]. *)
Definition mem (s : string) (l : list string) : bool := existsb (String.eqb s) l.
(** [x or y] on strings, and on optional strings. *)
Definition str_or (s t : string) : string := if nonempty s then s else t.
Definition ostr (o : option string) : string := default "" o.
(** Truth value of an optional string. *)
Definition otrue (o : option string) : bool := match o with Some s => nonempty s | None => false end.
Definition oor (o o' : option string) : option string := if otrue o then o else o'.
Definition oeqb (o : option string) (s : string) : bool :=
  match o with Some t => (t =? s)%string | None => false end.

(** [a <= b] on strings: by code points. *)
Definition str_le (a b : string) : bool := String.leb a b.

(** [str(n)] for an integer. *)
Definition str_of_Z (z : Z) : string := NilZero.string_of_int (Z.to_int z).
Definition str_of_nat (n : nat) : string := str_of_Z (Z.of_nat n).

(** *** Lemmas *)

Lemma app_assoc_str (a b c : string) : (a +:+ b) +:+ c = a +:+ (b +:+ c).
Proof. induction a as [|x a IH]; simpl; [done|]. by f_equal. Qed.
Lemma app_nil_r_str (a : string) : a +:+ "" = a.
Proof. induction a as [|x a IH]; simpl; [done|]. by f_equal. Qed.
Lemma length_app_str (a b : string) : String.length (a +:+ b) = String.length a + String.length b.
Proof. induction a as [|x a IH]; simpl; [done|]. by rewrite IH. Qed.

Lemma app_inj_length (a b c d : string) :
  String.length a = String.length c → a +:+ b = c +:+ d → a = c ∧ b = d.
Proof.
  revert c. induction a as [|x a IH]; intros [|y c] Hl He; simpl in *; try discriminate; [done|].
  injection Hl as Hl. injection He as -> He. by destruct (IH c Hl He) as [-> ->].
Qed.

Lemma str_take_drop n (s : string) : str_take n s +:+ str_drop n s = s.
Proof. revert s. induction n as [|n IH]; intros [|c s]; simpl; [done..|]. by rewrite IH. Qed.

Lemma mem_spec s l : mem s l = true ↔ s ∈ l.
Proof.
  unfold mem. rewrite existsb_exists. split.
  - intros (x & Hin & He). apply String.eqb_eq in He as ->. by apply list_elem_of_In.
  - intros Hin. exists s. split; [by apply list_elem_of_In | apply String.eqb_refl].
Qed.

Lemma mem_false s l : mem s l = false ↔ s ∉ l.
Proof. rewrite <-mem_spec. destruct (mem s l); naive_solver. Qed.

Lemma prefix_app p s : String.prefix p (p +:+ s) = true.
Proof. induction p as [|x p IH]; simpl; [by destruct s|]. by destruct (ascii_dec x x). Qed.

Lemma prefix_spec p s : String.prefix p s = true ↔ ∃ r, s = p +:+ r.
Proof.
  split; [|intros [r ->]; apply prefix_app].
  revert s. induction p as [|x p IH]; intros [|y s] H; simpl in *; eauto; [discriminate|].
  destruct (ascii_dec x y) as [->|]; [|discriminate].
  destruct (IH s H) as [r ->]. by exists r.
Qed.

Lemma contains_spec s sub : contains s sub = true ↔ ∃ a b, s = a +:+ sub +:+ b.
Proof.
  split.
  - induction s as [|c s IH]; cbn [contains]; intros H.
    + rewrite orb_false_r in H. apply prefix_spec in H as [r Hr]. by exists "", r.
    + apply orb_prop in H as [H|H].
      * apply prefix_spec in H as [r Hr]. by exists "", r.
      * destruct (IH H) as (a & b & ->). by exists (String c a), b.
  - intros (a & b & ->). induction a as [|c a IH].
    + change ("" +:+ sub +:+ b) with (sub +:+ b).
      pose proof (prefix_app sub b) as Hp.
      destruct (sub +:+ b); cbn [contains]; by rewrite Hp.
    + change (String c a +:+ sub +:+ b) with (String c (a +:+ sub +:+ b)).
      cbn [contains]. by rewrite IH, orb_true_r.
Qed.

Lemma oeqb_spec o s : oeqb o s = true ↔ o = Some s.
Proof. destruct o as [t|]; simpl; [rewrite String.eqb_eq|]; naive_solver. Qed.

Lemma nonempty_spec s : nonempty s = true ↔ s ≠ "".
Proof. unfold nonempty. rewrite negb_true_iff. apply String.eqb_neq. Qed.

Lemma str_of_Z_inj z z' : str_of_Z z = str_of_Z z' → z = z'.
Proof.
  unfold str_of_Z. intros H. rewrite <-(DecimalZ.of_to z), <-(DecimalZ.of_to z').
  assert (∀ z, NilZero.int_of_string (NilZero.string_of_int (Z.to_int z)) = Some (Z.to_int z)) as Hr.
  { intros x. apply NilZero.isi; intros He; pose proof (DecimalZ.of_to x) as Hx;
      rewrite He in Hx; cbn in Hx; subst x; discriminate He. }
  f_equal. specialize (Hr z) as H1. specialize (Hr z') as H2. rewrite H in H1. congruence.
Qed.

#[export] Hint Rewrite app_assoc_str app_nil_r_str length_app_str : btos_rw.
#[export] Hint Resolve prefix_app : btos.

Example lower_ex : lower "PowerShell.EXE" = "powershell.exe". Proof. reflexivity. Qed.
Example strip_ex : strip "  a b " = "a b". Proof. reflexivity. Qed.
Example split_ws_ex : split_ws " a  bc " = ["a"; "bc"]. Proof. reflexivity. Qed.
Example split_ex : split_on "." "a.bc..d" = ["a"; "bc"; ""; "d"]. Proof. reflexivity. Qed.
Example join_ex : join ", " ["a"; "b"; "c"] = "a, b, c". Proof. reflexivity. Qed.
Example str_of_Z_ex : str_of_Z (-120) = "-120" ∧ str_of_Z 0 = "0". Proof. split; reflexivity. Qed.

(** Stripping twice, and stripping and lowering in either order. *)
Lemma lstrip_idem s : lstrip (lstrip s) = lstrip s.
Proof. induction s as [|c s IH]; simpl; [done|]. destruct (is_space c) eqn:E; simpl; [done | by rewrite E]. Qed.
Lemma rstrip_idem s : rstrip (rstrip s) = rstrip s.
Proof.
  induction s as [|c s IH]; simpl; [done|]. destruct (rstrip s) as [|d r] eqn:E.
  - destruct (is_space c) eqn:Ec; simpl; [done | by rewrite Ec].
  - cbn [rstrip] in IH |- *. by rewrite IH.
Qed.
Lemma lstrip_rstrip s : lstrip (rstrip (lstrip s)) = rstrip (lstrip s).
Proof.
  induction s as [|c s IH]; simpl; [done|]. destruct (is_space c) eqn:E; [done|].
  simpl. destruct (rstrip s); rewrite ?E; simpl; rewrite ?E; done.
Qed.
Lemma strip_idem s : strip (strip s) = strip s.
Proof. unfold strip. by rewrite lstrip_rstrip, rstrip_idem. Qed.
Lemma is_space_lower c : is_space (lower_char c) = is_space c.
Proof. by destruct c as [[] [] [] [] [] [] [] []]. Qed.
Lemma lower_char_idem c : lower_char (lower_char c) = lower_char c.
Proof. by destruct c as [[] [] [] [] [] [] [] []]. Qed.
Lemma lower_idem s : lower (lower s) = lower s.
Proof. unfold lower. induction s as [|c s IH]; simpl; [done|]. by rewrite lower_char_idem, IH. Qed.
Lemma lstrip_lower s : lstrip (lower s) = lower (lstrip s).
Proof.
  unfold lower. induction s as [|c s IH]; simpl; [done|]. rewrite is_space_lower.
  by destruct (is_space c).
Qed.
Lemma rstrip_lower s : rstrip (lower s) = lower (rstrip s).
Proof.
  unfold lower. induction s as [|c s IH]; simpl; [done|]. rewrite IH. destruct (rstrip s); simpl; [|done].
  rewrite is_space_lower. by destruct (is_space c).
Qed.
Lemma strip_lower s : strip (lower s) = lower (strip s).
Proof. unfold strip. by rewrite lstrip_lower, rstrip_lower. Qed.
