(* ===== verification/PyTime.v ===== *)
(** * Timezone-aware [datetime] values

    A [datetime] keeps its wall clock (microseconds since 1970-01-01T00:00:00 of
    the proleptic Gregorian calendar) and its UTC offset. Comparisons and
    differences use the instant; [replace], [date] and [isoformat] use the wall
    clock. A text may also give a naive value ([py_datetime]), which has no instant. *)
From S2P Require Export PyStr.
Local Open Scope Z_scope.

Record datetime := MkDatetime { dt_wall : Z; dt_offset : Z }.
#[export] Instance datetime_eq_dec : EqDecision datetime.
Proof. solve_decision. Defined.

(** A [timedelta] is its number of microseconds. *)
Definition second : Z := 1000000.
Definition seconds (n : Z) : Z := n * second.
Definition minutes (n : Z) : Z := seconds (60 * n).
Definition hours (n : Z) : Z := seconds (3600 * n).
Definition day_us : Z := 86400000000.

Definition instant (d : datetime) : Z := dt_wall d - dt_offset d.
Definition dt_lt (a b : datetime) : bool := instant a <? instant b.
Definition dt_le (a b : datetime) : bool := instant a <=? instant b.
Definition dt_eqb (a b : datetime) : bool := instant a =? instant b.
Definition dt_sub (a b : datetime) : Z := instant a - instant b.
Definition dt_add (a : datetime) (delta : Z) : datetime :=
  {| dt_wall := dt_wall a + delta; dt_offset := dt_offset a |}.

(** [replace(second=0, microsecond=0)], [replace(minute=0, ...)] and
    [replace(minute=minute // 10 * 10, ...)]: truncation of the wall clock. *)
Definition trunc (unit_us : Z) (d : datetime) : datetime :=
  {| dt_wall := dt_wall d - dt_wall d mod unit_us; dt_offset := dt_offset d |}.
Definition trunc_minute : datetime → datetime := trunc (minutes 1).
Definition trunc_10min : datetime → datetime := trunc (minutes 10).
Definition trunc_hour : datetime → datetime := trunc (hours 1).

(** Civil date of a day number (days since 1970-01-01). *)
Definition civil_from_days (z0 : Z) : Z * Z * Z :=
  let z := z0 + 719468 in
  let era := z / 146097 in
  let doe := z - era * 146097 in
  let yoe := (doe - doe / 1460 + doe / 36524 - doe / 146096) / 365 in
  let doy := doe - (365 * yoe + yoe / 4 - yoe / 100) in
  let mp := (5 * doy + 2) / 153 in
  let d := doy - (153 * mp + 2) / 5 + 1 in
  let m := if mp <? 10 then mp + 3 else mp - 9 in
  (yoe + era * 400 + (if m <=? 2 then 1 else 0), m, d).

Definition pad (width : nat) (z : Z) : string :=
  let s := str_of_Z z in
  Nat.iter (width - String.length s) (λ t, "0" +:+ t) s.

Definition date_iso (d : datetime) : string :=
  let '(y, m, dd) := civil_from_days (dt_wall d / day_us) in
  pad 4 y +:+ "-" +:+ pad 2 m +:+ "-" +:+ pad 2 dd.

Definition offset_iso (off : Z) : string :=
  let a := Z.abs off / second in
  (if off <? 0 then "-" else "+") +:+ pad 2 (a / 3600) +:+ ":" +:+ pad 2 (a / 60 mod 60)
  +:+ (if a mod 60 =? 0 then "" else ":" +:+ pad 2 (a mod 60)).

Definition isoformat (d : datetime) : string :=
  let us := dt_wall d mod day_us in
  let s := us / second in
  date_iso d +:+ "T" +:+ pad 2 (s / 3600) +:+ ":" +:+ pad 2 (s / 60 mod 60) +:+ ":"
  +:+ pad 2 (s mod 60)
  +:+ (if us mod second =? 0 then "" else "." +:+ pad 6 (us mod second))
  +:+ offset_iso (dt_offset d).

(** [value.astimezone(UTC)]: the same instant on the UTC wall clock. *)
Definition as_utc (d : datetime) : datetime := {| dt_wall := instant d; dt_offset := 0 |}.

(** [max] and [min] of a non-empty list of datetimes: the first extreme one. *)
Definition dt_max (a b : datetime) : datetime := if dt_lt a b then b else a.
Definition dt_min (a b : datetime) : datetime := if dt_lt b a then b else a.
Definition dt_max_list (d : datetime) (l : list datetime) : datetime := foldl dt_max d l.
Definition dt_min_list (d : datetime) (l : list datetime) : datetime := foldl dt_min d l.

Lemma dt_le_spec a b : dt_le a b = true ↔ instant a ≤ instant b.
Proof. apply Z.leb_le. Qed.
Lemma dt_lt_spec a b : dt_lt a b = true ↔ instant a < instant b.
Proof. apply Z.ltb_lt. Qed.

Lemma instant_add d delta : instant (dt_add d delta) = instant d + delta.
Proof. unfold instant, dt_add; simpl; lia. Qed.

Lemma dt_min_list_le l d : instant (dt_min_list d l) ≤ instant d
  ∧ (∀ x, x ∈ l → instant (dt_min_list d l) ≤ instant x).
Proof.
  revert d. induction l as [|y l IH]; intros d; [simpl; split; [lia | set_solver]|].
  unfold dt_min_list in *; simpl. destruct (IH (dt_min d y)) as [H1 H2].
  assert (instant (dt_min d y) ≤ instant d ∧ instant (dt_min d y) ≤ instant y) as [Ha Hb].
  { unfold dt_min, dt_lt. destruct (Z.ltb_spec (instant y) (instant d)); lia. }
  split; [lia|]. intros x [->|Hx]%elem_of_cons; [lia | auto].
Qed.

Lemma dt_max_list_ge l d : instant d ≤ instant (dt_max_list d l)
  ∧ (∀ x, x ∈ l → instant x ≤ instant (dt_max_list d l)).
Proof.
  revert d. induction l as [|y l IH]; intros d; [simpl; split; [lia | set_solver]|].
  unfold dt_max_list in *; simpl. destruct (IH (dt_max d y)) as [H1 H2].
  assert (instant d ≤ instant (dt_max d y) ∧ instant y ≤ instant (dt_max d y)) as [Ha Hb].
  { unfold dt_max, dt_lt. destruct (Z.ltb_spec (instant d) (instant y)); lia. }
  split; [lia|]. intros x [->|Hx]%elem_of_cons; [lia | auto].
Qed.

Lemma dt_min_list_elem l d : dt_min_list d l ∈ d :: l.
Proof.
  revert d. induction l as [|y l IH]; intros d; simpl; [by left|].
  specialize (IH (dt_min d y)). unfold dt_min_list in *. simpl in *. revert IH.
  generalize (foldl dt_min (dt_min d y) l). unfold dt_min. case_match; set_solver.
Qed.
Lemma dt_max_list_elem l d : dt_max_list d l ∈ d :: l.
Proof.
  revert d. induction l as [|y l IH]; intros d; simpl; [by left|].
  specialize (IH (dt_max d y)). unfold dt_max_list in *. simpl in *. revert IH.
  generalize (foldl dt_max (dt_max d y) l). unfold dt_max. case_match; set_solver.
Qed.

Lemma trunc_le u d : 0 < u → instant (trunc u d) ≤ instant d < instant (trunc u d) + u.
Proof.
  intros Hu. unfold instant, trunc; simpl.
  pose proof (Z.mod_pos_bound (dt_wall d) u Hu). lia.
Qed.

(** A UTC instant from calendar fields, for examples. *)
Definition utc (days secs : Z) : datetime :=
  {| dt_wall := days * day_us + secs * second; dt_offset := 0 |}.

Example iso_ex : isoformat (MkDatetime (20000 * day_us + 3661000005) 7200000000)
  = "2024-10-04T01:01:01.000005+02:00". Proof. vm_compute. reflexivity. Qed.
Example iso_leap : isoformat (utc 19782 0) = "2024-02-29T00:00:00+00:00".
Proof. vm_compute. reflexivity. Qed.

(** ** The sources of nondeterminism

    [uuid.uuid4().hex] and [datetime.now(UTC)] are read from an oracle: the
    [n]-th identifier drawn and the [n]-th reading of the clock. *)
Class Oracle := {
  uuid_hex : nat → string;
  clock : nat → datetime;
}.

(** What the program relies on of [uuid4]: identifiers do not repeat. (An unbounded
    supply of distinct names stands for the 122 random bits.) *)
Class OracleLaws (o : Oracle) := {
  uuid_hex_inj : Inj (=) (=) uuid_hex;
}.

(** A later reading of the clock is later. *)
Definition clock_increases `{Oracle} : Prop := ∀ n m, (n < m)%nat → instant (clock n) < instant (clock m).

(** How many identifiers and clock readings were drawn so far. *)
Record draws := MkDraws { n_uuid : nat; n_clock : nat }.

Definition fresh_uuid (d : draws) : draws := {| n_uuid := S (n_uuid d); n_clock := n_clock d |}.
Definition tick (d : draws) : draws := {| n_uuid := n_uuid d; n_clock := S (n_clock d) |}.

(** ** [datetime.fromisoformat]

    The extended format, [YYYY-MM-DD], any separator, [HH:MM], and optionally seconds, a
    fraction and an offset, is written out; what else the standard library accepts (basic
    and week dates, hours alone) is a parameter. *)
Inductive py_datetime := Aware (d : datetime) | Naive (wall : Z).
Class IsoLib := { other_iso : string → option py_datetime }.

(** Day number of a civil date. *)
Definition days_from_civil (y m d : Z) : Z :=
  let y := if m <=? 2 then y - 1 else y in
  let era := y / 400 in
  let yoe := y - era * 400 in
  let doy := (153 * (if m <=? 2 then m + 9 else m - 3) + 2) / 5 + d - 1 in
  let doe := yoe * 365 + yoe / 4 - yoe / 100 + doy in
  era * 146097 + doe - 719468.
Definition leap_year (y : Z) : bool := (y mod 4 =? 0) && (negb (y mod 100 =? 0) || (y mod 400 =? 0)).
Definition days_in_month (y m : Z) : Z :=
  if m =? 2 then (if leap_year y then 29 else 28)
  else if (m =? 4) || (m =? 6) || (m =? 9) || (m =? 11) then 30 else 31.

(** [n] digits, and what follows them. *)
Fixpoint exact_digits (n : nat) (acc : Z) (s : string) : option (Z * string) :=
  match n, s with
  | O, _ => Some (acc, s)
  | S n, String c s' => if is_digit c then exact_digits n (10 * acc + (Z.of_N (code c) - 48)) s' else None
  | S _, EmptyString => None
  end.
Definition skip_char (c : ascii) (s : string) : option string :=
  match s with String d s' => if Ascii.eqb c d then Some s' else None | EmptyString => None end.
Definition upto (bound : Z) (r : option (Z * string)) : option (Z * string) :=
  zr ← r; if zr.1 <=? bound then Some zr else None.
Definition colon : ascii := ":".
(** [:SS], if there is one. *)
Definition iso_seconds (s : string) : option (Z * string) :=
  match skip_char colon s with
  | Some s' => upto 59 (exact_digits 2 0 s')
  | None => Some (0, s)
  end.
(** The digits of a fraction: the first six count, as microseconds. *)
Fixpoint iso_fraction (width : nat) (acc : Z) (s : string) : Z * string :=
  match s with
  | String c s' =>
      if is_digit c then
        match width with
        | O => iso_fraction O acc s'
        | S w => iso_fraction w (10 * acc + (Z.of_N (code c) - 48)) s'
        end
      else (acc * 10 ^ Z.of_nat width, s)
  | EmptyString => (acc * 10 ^ Z.of_nat width, s)
  end.
Definition iso_micros (s : string) : option (Z * string) :=
  match s with
  | String c (String d s') =>
      if Ascii.eqb c "." || Ascii.eqb c "," then (if is_digit d then Some (iso_fraction 6 0 (String d s')) else None)
      else Some (0, s)
  | _ => Some (0, s)
  end.
(** [HH:MM[:SS]] in seconds. *)
Definition iso_clock (s : string) : option (Z * string) :=
  '(h, s) ← upto 23 (exact_digits 2 0 s);
  s ← skip_char colon s;
  '(m, s) ← upto 59 (exact_digits 2 0 s);
  '(sec, s) ← iso_seconds s;
  Some (3600 * h + 60 * m + sec, s).
Definition iso_offset (s : string) : option (option Z) :=
  match s with
  | EmptyString => Some None
  | String c s' =>
      '(off, rest) ← (if Ascii.eqb c "+" || Ascii.eqb c "-" then iso_clock s' else None);
      if (rest =? "")%string then Some (Some (seconds (if Ascii.eqb c "-" then - off else off))) else None
  end.
Definition dash : ascii := "-".
Definition iso_extended (s : string) : option py_datetime :=
  '(y, s) ← exact_digits 4 0 s;
  s ← skip_char dash s;
  '(m, s) ← upto 12 (exact_digits 2 0 s);
  s ← skip_char dash s;
  '(d, s) ← upto (days_in_month y m) (exact_digits 2 0 s);
  if (y <? 1) || (m <? 1) || (d <? 1) then None
  else
    let day := days_from_civil y m d * day_us in
    match s with
    | EmptyString => Some (Naive day)
    | String _ s =>
        '(sec, s) ← iso_clock s;
        '(us, s) ← iso_micros s;
        off ← iso_offset s;
        let wall := day + seconds sec + us in
        Some match off with Some off => Aware (MkDatetime wall off) | None => Naive wall end
    end.
Definition fromisoformat `{IsoLib} (s : string) : option py_datetime :=
  match iso_extended s with Some d => Some d | None => other_iso s end.

(** [s.replace(c, t)] for a character [c]. *)
Fixpoint replace_char (c : ascii) (t s : string) : string :=
  match s with
  | EmptyString => ""
  | String d s' => if Ascii.eqb c d then t +:+ replace_char c t s' else String d (replace_char c t s')
  end.

Example iso_read : iso_extended "2024-10-04T01:01:01.000005+02:00"
  = Some (Aware (MkDatetime (20000 * day_us + 3661000005) 7200000000)).
Proof. vm_compute. reflexivity. Qed.
Example iso_read_naive : iso_extended "2024-02-29 23:59" = Some (Naive (19782 * day_us + 86340000000))
  ∧ iso_extended "2023-02-29" = None ∧ iso_extended "2024-10-04T25:00" = None.
Proof. vm_compute. auto. Qed.
