(* ===== verification/Calendar.v ===== *)
(** * The calendar and ISO texts

    Facts of [PyTime]: the civil date of a day and back, the digits of a padded number, that
    [fromisoformat] reads what [isoformat] writes, and that the texts of times with one
    offset are in the order of the times. *)
From Stdlib Require Import DecimalPos DecimalZ DecimalString.
From S2P Require Export PyTime.
Local Open Scope Z_scope.

(** ** Digits *)

Definition digit (d : Z) : ascii := chr (Z.to_N (48 + d)).
Fixpoint digits (width : nat) (z : Z) : string :=
  match width with O => "" | S w => digits w (z / 10) +:+ String (digit (z mod 10)) "" end.
Lemma below_ten (P : Z → Prop) : P 0 → P 1 → P 2 → P 3 → P 4 → P 5 → P 6 → P 7 → P 8 → P 9 → ∀ d, 0 ≤ d < 10 → P d.
Proof.
  intros. assert (d = 0 ∨ d = 1 ∨ d = 2 ∨ d = 3 ∨ d = 4 ∨ d = 5 ∨ d = 6 ∨ d = 7 ∨ d = 8 ∨ d = 9) as Hd by lia.
  repeat (destruct Hd as [->|Hd]; [done|]). by subst.
Qed.
Lemma text_revapp d e : NilEmpty.string_of_uint (Decimal.revapp d e)
  = NilEmpty.string_of_uint (Decimal.revapp d Decimal.Nil) +:+ NilEmpty.string_of_uint e.
Proof.
  revert e. induction d as [|d IH|d IH|d IH|d IH|d IH|d IH|d IH|d IH|d IH|d IH]; intros e; [done|..];
    cbn [Decimal.revapp]; rewrite IH, (IH (_ Decimal.Nil)), app_assoc_str; reflexivity.
Qed.
(** The little-endian digits of a number and one more digit. *)
Lemma digits_of_pos p d : 0 ≤ d < 10 →
  NilEmpty.string_of_uint (Decimal.rev (Unsigned.to_lu (Z.to_N (10 * Z.pos p + d))))
  = NilEmpty.string_of_uint (Decimal.rev (Unsigned.to_lu (N.pos p))) +:+ String (digit d) "".
Proof.
  intros Hd.
  assert (∀ n, Unsigned.to_lu (Nat.iter n N.succ (10 * N.pos p)%N) = Nat.iter n Decimal.Little.succ (Decimal.D0 (Unsigned.to_lu (N.pos p)))) as Hn.
  { induction n as [|n IH]; [exact (Unsigned.to_ldec_tenfold p)|]. cbn [Nat.iter nat_rect]. rewrite Unsigned.to_lu_succ. by f_equal. }
  assert (Z.to_N (10 * Z.pos p + d) = Nat.iter (Z.to_nat d) N.succ (10 * N.pos p)%N) as ->.
  { assert (∀ n m, Nat.iter n N.succ m = (N.of_nat n + m)%N) as Hi; [|rewrite Hi; lia].
    induction n as [|n IH]; intros m; [done|]. change (Nat.iter (S n) N.succ m) with (N.succ (Nat.iter n N.succ m)). rewrite IH. lia. }
  rewrite Hn. unfold Decimal.rev. revert d Hd. apply below_ten;
    cbv [Z.to_nat Pos.to_nat Pos.iter_op Nat.iter nat_rect Nat.add Decimal.Little.succ]; cbn [Decimal.revapp]; exact (text_revapp _ _).
Qed.
Lemma str_of_Z_small d : 0 ≤ d < 10 → str_of_Z d = String (digit d) "".
Proof. revert d. by apply below_ten. Qed.
Lemma str_of_pos p : str_of_Z (Z.pos p) = NilEmpty.string_of_uint (Decimal.rev (Unsigned.to_lu (N.pos p))).
Proof.
  unfold str_of_Z. cbn [Z.to_int NilZero.string_of_int]. unfold NilZero.string_of_uint.
  pose proof (Unsigned.to_uint_nonnil p) as Hp. change (Decimal.rev (Unsigned.to_lu (N.pos p))) with (Pos.to_uint p).
  by destruct (Pos.to_uint p).
Qed.
Lemma str_of_Z_ten z d : 0 < z → 0 ≤ d < 10 → str_of_Z (10 * z + d) = str_of_Z z +:+ String (digit d) "".
Proof.
  intros Hz Hd. destruct z as [|p|p]; [lia| |lia]. rewrite str_of_pos, <-digits_of_pos by done.
  destruct (10 * Z.pos p + d) as [|q|q] eqn:E; [lia| |lia]. by rewrite str_of_pos.
Qed.
Lemma iter_S {A} n (f : A → A) x : Nat.iter (S n) f x = f (Nat.iter n f x).
Proof. reflexivity. Qed.
Lemma pad_S w z d : 0 ≤ z → 0 ≤ d < 10 → pad (S (S w)) (10 * z + d) = pad (S w) z +:+ String (digit d) "".
Proof.
  intros Hz Hd. assert (∀ n s t, Nat.iter n (λ t, "0" +:+ t) (s +:+ t) = Nat.iter n (λ t, "0" +:+ t) s +:+ t) as Hi.
  { induction n as [|n IH]; intros s t; [done|]. by rewrite !iter_S, IH, app_assoc_str. }
  unfold pad. destruct (decide (z = 0)) as [->|Hne].
  - rewrite Z.add_0_l, str_of_Z_small by done. cbn [String.length]. rewrite <-Hi.
    change (S (S w) - 1)%nat with (S w). change (S w - String.length (str_of_Z 0))%nat with (w - 0)%nat. rewrite Nat.sub_0_r.
    change (str_of_Z 0) with "0". rewrite iter_S. clear. induction w as [|w IH]; [done|]. by rewrite iter_S, IH.
  - rewrite str_of_Z_ten, length_app_str, Hi by lia. cbn [String.length]. do 2 f_equal. lia.
Qed.
(** A number that fits is written with its digits. *)
Lemma pad_digits w z : 0 ≤ z < 10 ^ Z.of_nat (S w) → pad (S w) z = digits (S w) z.
Proof.
  revert z. induction w as [|w IH]; intros z Hz.
  - change (10 ^ Z.of_nat 1) with 10 in Hz. cbn [digits]. rewrite Z.mod_small by done. unfold pad. rewrite str_of_Z_small by done. reflexivity.
  - rewrite Nat2Z.inj_succ, Z.pow_succ_r in Hz by lia. rewrite (Z.div_mod z 10) at 1 by lia.
    pose proof (Z.mod_pos_bound z 10 ltac:(lia)). rewrite pad_S by (done || apply Z.div_pos; lia).
    rewrite IH by (split; [apply Z.div_pos; lia | apply Z.div_lt_upper_bound; lia]). reflexivity.
Qed.
(** The value that is read of digits. *)
Lemma exact_digits_snoc n acc s : exact_digits (n + 1) acc s = (r ← exact_digits n acc s; exact_digits 1 r.1 r.2).
Proof.
  revert acc s. induction n as [|n IH]; intros acc s; [done|]. cbn [Nat.add exact_digits]. destruct s as [|c s]; [done|].
  destruct (is_digit c); [apply IH | done].
Qed.
Lemma digit_read d : 0 ≤ d < 10 → is_digit (digit d) = true ∧ Z.of_N (code (digit d)) - 48 = d.
Proof. revert d. apply below_ten; split; reflexivity. Qed.
Lemma digits_read w acc z s : exact_digits w acc (digits w z +:+ s) = Some (acc * 10 ^ Z.of_nat w + z mod 10 ^ Z.of_nat w, s).
Proof.
  revert acc z s. induction w as [|w IH]; intros acc z s.
  - cbn [digits exact_digits append]. rewrite Z.mod_1_r. do 2 f_equal. lia.
  - cbn [digits]. rewrite app_assoc_str. replace (S w) with (w + 1)%nat at 1 by lia. rewrite exact_digits_snoc, IH.
    cbn [mbind option_bind fst snd append exact_digits]. pose proof (Z.mod_pos_bound z 10 ltac:(lia)) as Hd.
    destruct (digit_read _ Hd) as [-> ->]. do 2 f_equal. rewrite Nat2Z.inj_succ, Z.pow_succ_r by lia.
    rewrite Z.rem_mul_r by (try apply Z.pow_pos_nonneg; lia). ring.
Qed.
Lemma pad_read w z s : 0 ≤ z < 10 ^ Z.of_nat (S w) → exact_digits (S w) 0 (pad (S w) z +:+ s) = Some (z, s).
Proof. intros Hz. rewrite pad_digits, digits_read, Z.mod_small by done. done. Qed.
(** *** Digits compare as the numbers do *)

Definition lex (c d : comparison) : comparison := match c with Eq => d | r => r end.
Lemma compare_scaled n p q r s : 0 ≤ r < n → 0 ≤ s < n → (n * p + r ?= n * q + s) = lex (p ?= q) (r ?= s).
Proof.
  intros Hr Hs. destruct (Z.compare_spec p q) as [->|Hlt|Hgt]; cbn [lex].
  - destruct (Z.compare_spec r s) as [->|?|?]; [apply Z.compare_refl | apply Z.compare_lt_iff; lia | apply Z.compare_gt_iff; lia].
  - apply Z.compare_lt_iff. nia.
  - apply Z.compare_gt_iff. nia.
Qed.
Lemma compare_prefix p s t : String.compare (p +:+ s) (p +:+ t) = String.compare s t.
Proof. induction p as [|c p IH]; [done|]. cbn [append String.compare]. unfold Ascii.compare. rewrite N.compare_refl. exact IH. Qed.
Lemma compare_digit c d s t : 0 ≤ c < 10 → 0 ≤ d < 10 →
  String.compare (String (digit c) s) (String (digit d) t) = lex (c ?= d) (String.compare s t).
Proof.
  intros Hc Hd. cbn [String.compare]. unfold Ascii.compare.
  destruct (digit_read c Hc) as [_ Ec], (digit_read d Hd) as [_ Ed]. unfold code in Ec, Ed.
  assert (N.compare (N_of_ascii (digit c)) (N_of_ascii (digit d)) = (c ?= d)) as ->; [|by destruct (c ?= d)].
  rewrite <-N2Z.inj_compare. rewrite <-Ec at 2. rewrite <-Ed at 2.
  destruct (Z.compare_spec (Z.of_N (N_of_ascii (digit c)) - 48) (Z.of_N (N_of_ascii (digit d)) - 48));
    [apply Z.compare_eq_iff | apply Z.compare_lt_iff | apply Z.compare_gt_iff]; lia.
Qed.
Lemma digits_compare w x y s t : 0 ≤ x < 10 ^ Z.of_nat w → 0 ≤ y < 10 ^ Z.of_nat w →
  String.compare (digits w x +:+ s) (digits w y +:+ t) = lex (x ?= y) (String.compare s t).
Proof.
  revert x y s t. induction w as [|w IH]; intros x y s t Hx Hy.
  - change (10 ^ Z.of_nat 0) with 1 in *. replace x with 0 by lia. replace y with 0 by lia. done.
  - cbn [digits]. rewrite Nat2Z.inj_succ, Z.pow_succ_r in Hx, Hy by lia. rewrite !app_assoc_str.
    rewrite IH by (split; [apply Z.div_pos; lia | apply Z.div_lt_upper_bound; lia]). cbn [append].
    rewrite compare_digit by (apply Z.mod_pos_bound; lia).
    rewrite (Z.div_mod x 10), (Z.div_mod y 10) at 3 by lia. rewrite compare_scaled by (apply Z.mod_pos_bound; lia).
    by destruct (x / 10 ?= y / 10).
Qed.
Lemma pad_compare w x y s t : 0 ≤ x < 10 ^ Z.of_nat (S w) → 0 ≤ y < 10 ^ Z.of_nat (S w) →
  String.compare (pad (S w) x +:+ s) (pad (S w) y +:+ t) = lex (x ?= y) (String.compare s t).
Proof. intros Hx Hy. rewrite !pad_digits by done. by apply digits_compare. Qed.

(** ** The civil calendar *)

Lemma below (n : nat) (p : Z → bool) : forallb (λ i, p (Z.of_nat i)) (seq 0 n) = true → ∀ z, 0 ≤ z < Z.of_nat n → p z = true.
Proof.
  intros Hp z Hz. rewrite forallb_forall in Hp. rewrite <-(Z2Nat.id z) by lia. apply Hp, in_seq. lia.
Qed.
(** Years that begin on the first of March: their first day, their length, and the month and
    day of a day of one. *)
Definition march_first (y : Z) : Z := 365 * y + y / 4 - y / 100 + y / 400.
Definition march_month (doy : Z) : Z := let mp := (5 * doy + 2) / 153 in if mp <? 10 then mp + 3 else mp - 9.
Definition march_day (doy : Z) : Z := doy - (153 * ((5 * doy + 2) / 153) + 2) / 5 + 1.
Definition wraps (doy : Z) : Z := if march_month doy <=? 2 then 1 else 0.
Lemma march_length y : march_first (y + 1) - march_first y = if leap_year (y + 1) then 366 else 365.
Proof.
  unfold march_first, leap_year. destruct (Z.eqb_spec ((y + 1) mod 4) 0), (Z.eqb_spec ((y + 1) mod 100) 0), (Z.eqb_spec ((y + 1) mod 400) 0);
    cbn [andb orb negb]; Z.to_euclidean_division_equations; lia.
Qed.
Lemma march_mono x y : x ≤ y → march_first x ≤ march_first y.
Proof. unfold march_first. intros. Z.to_euclidean_division_equations; lia. Qed.
Lemma march_era era yoe : 0 ≤ yoe < 400 → march_first (400 * era + yoe) = 146097 * era + march_first yoe.
Proof. unfold march_first. intros. Z.to_euclidean_division_equations; lia. Qed.
(** What the division of a four-century cycle into years comes to. *)
Definition year_of (doe : Z) : Z := (doe - doe / 1460 + doe / 36524 - doe / 146096) / 365.
Lemma year_of_mono d e : 0 ≤ d ≤ e → e < 146097 → year_of d ≤ year_of e.
Proof.
  intros Hd He. apply Z.div_le_mono; [lia|].
  assert (∀ n : nat, d + Z.of_nat n < 146097 → d - d / 1460 + d / 36524 - d / 146096
    ≤ (d + Z.of_nat n) - (d + Z.of_nat n) / 1460 + (d + Z.of_nat n) / 36524 - (d + Z.of_nat n) / 146096) as Hn.
  { induction n as [|n IH]; intros Hn; [rewrite Z.add_0_r; lia|].
    specialize (IH ltac:(lia)). etransitivity; [exact IH|]. rewrite Nat2Z.inj_succ. clear -Hn Hd.
    replace (d + Z.succ (Z.of_nat n)) with (d + Z.of_nat n + 1) in * by lia. set (x := d + Z.of_nat n) in *.
    assert (0 ≤ x < 146096) as Hx by lia. clearbody x. clear -Hx. Z.to_euclidean_division_equations; lia. }
  specialize (Hn (Z.to_nat (e - d))). rewrite Z2Nat.id in Hn by lia. replace (d + (e - d)) with e in Hn by lia. apply Hn. lia.
Qed.
Lemma year_of_march y : 0 ≤ y < 400 → year_of (march_first y) = y ∧ year_of (march_first (y + 1) - 1) = y.
Proof.
  intros Hy. assert ((year_of (march_first y) =? y) && (year_of (march_first (y + 1) - 1) =? y) = true) as Hp.
  { revert y Hy. apply (below 400 (λ y, _)). vm_compute. reflexivity. }
  apply andb_true_iff in Hp as [Ha Hb]. split; by apply Z.eqb_eq.
Qed.
Lemma march_year doe : 0 ≤ doe < 146097 → ∃ y, 0 ≤ y < 400 ∧ march_first y ≤ doe < march_first (y + 1).
Proof.
  intros Hd. assert (∀ n : nat, doe < march_first (Z.of_nat n) → ∃ y, 0 ≤ y < Z.of_nat n ∧ march_first y ≤ doe < march_first (y + 1)) as Hn.
  { induction n as [|n IH]; intros Hn; [change (march_first (Z.of_nat 0)) with 0 in Hn; lia|].
    destruct (decide (doe < march_first (Z.of_nat n))) as [Hlt|Hge].
    - destruct (IH Hlt) as (y & Hy & H). exists y. lia.
    - exists (Z.of_nat n). rewrite Nat2Z.inj_succ in Hn. unfold Z.succ in Hn. lia. }
  destruct (Hn 400%nat) as (y & Hy & H); [exact (proj2 Hd)|]. by exists y.
Qed.
Lemma year_of_day y doe : 0 ≤ y < 400 → march_first y ≤ doe < march_first (y + 1) → year_of doe = y.
Proof.
  intros Hy Hd. destruct (year_of_march y Hy) as [Ha Hb].
  assert (0 ≤ march_first y) by (apply (march_mono 0); lia).
  assert (march_first (y + 1) ≤ 146097) by (apply (march_mono _ 400); lia).
  apply Z.le_antisymm; [rewrite <-Hb | rewrite <-Ha]; apply year_of_mono; lia.
Qed.
(** The civil date of a day: the year of March it is in and its day there. *)
Lemma civil_march z : ∃ y doy, z + 719468 = march_first y + doy ∧ 0 ≤ doy < march_first (y + 1) - march_first y
  ∧ civil_from_days z = (y + wraps doy, march_month doy, march_day doy).
Proof.
  set (era := (z + 719468) / 146097). set (doe := z + 719468 - era * 146097).
  assert (0 ≤ doe < 146097) as Hdoe by (subst doe era; Z.to_euclidean_division_equations; lia).
  destruct (march_year doe Hdoe) as (yoe & Hy & Hd). pose proof (year_of_day yoe doe Hy Hd) as Hyear.
  exists (400 * era + yoe), (doe - march_first yoe).
  rewrite <-Z.add_assoc, march_era by done.
  assert (march_first (400 * era + (yoe + 1)) = 146097 * era + march_first (yoe + 1)) as ->.
  { unfold march_first. Z.to_euclidean_division_equations; lia. }
  split; [subst doe; lia|]. split; [lia|]. unfold civil_from_days. fold era doe. fold (year_of doe). rewrite Hyear.
  assert (doe - (365 * yoe + yoe / 4 - yoe / 100) = doe - march_first yoe) as ->.
  { unfold march_first. rewrite (Z.div_small yoe 400) by done. lia. }
  unfold wraps, march_month, march_day. cbv zeta. f_equal. f_equal. lia.
Qed.
(** Within such a year the month and the day say which day it is, and grow with it. *)
Definition march_key (doy : Z) : Z := 10000 * wraps doy + 100 * march_month doy + march_day doy.
Lemma march_within doy : 0 ≤ doy < 366 →
  1 ≤ march_month doy ≤ 12 ∧ 1 ≤ march_day doy ≤ 31 ∧ 301 ≤ march_key doy < 10301
  ∧ (153 * (if march_month doy <=? 2 then march_month doy + 9 else march_month doy - 3) + 2) / 5 + march_day doy - 1 = doy
  ∧ (march_day doy ≤ days_in_month 1 (march_month doy) ∨ doy = 365 ∧ march_month doy = 2 ∧ march_day doy = 29).
Proof.
  intros Hd.
  assert ((1 <=? march_month doy) && (march_month doy <=? 12) && ((1 <=? march_day doy) && (march_day doy <=? 31))
    && ((301 <=? march_key doy) && (march_key doy <? 10301))
    && ((153 * (if march_month doy <=? 2 then march_month doy + 9 else march_month doy - 3) + 2) / 5 + march_day doy - 1 =? doy)
    && ((march_day doy <=? days_in_month 1 (march_month doy)) || (doy =? 365) && (march_month doy =? 2) && (march_day doy =? 29)) = true) as Hp.
  { revert doy Hd. apply (below 366 (λ doy, _)). vm_compute. reflexivity. }
  lia.
Qed.
Lemma march_key_mono d e : 0 ≤ d < e → e < 366 → march_key d < march_key e.
Proof.
  intros Hd He. assert (∀ x, 0 ≤ x < 365 → march_key x < march_key (x + 1)) as Hs.
  { intros x Hx. apply Z.ltb_lt. revert x Hx. apply (below 365 (λ x, _)). vm_compute. reflexivity. }
  assert (∀ n : nat, d + 1 + Z.of_nat n < 366 → march_key d < march_key (d + 1 + Z.of_nat n)) as Hn.
  { induction n as [|n IH]; intros Hn; [rewrite Z.add_0_r; apply Hs; lia|].
    etransitivity; [apply IH; lia|]. replace (d + 1 + Z.of_nat (S n)) with (d + 1 + Z.of_nat n + 1) by lia. apply Hs. lia. }
  specialize (Hn (Z.to_nat (e - d - 1))). rewrite Z2Nat.id in Hn by lia. replace (d + 1 + (e - d - 1)) with e in Hn by lia. apply Hn. lia.
Qed.
Lemma civil_valid z y m d : civil_from_days z = (y, m, d) →
  1 ≤ m ≤ 12 ∧ 1 ≤ d ≤ days_in_month y m ∧ d ≤ 31 ∧ days_from_civil y m d = z.
Proof.
  destruct (civil_march z) as (y0 & doy & Hz & Hdoy & ->). intros [= <- <- <-]. pose proof (march_length y0) as Hl.
  destruct (march_within doy) as (Hm & Hd & _ & Hback & Hmonth); [destruct (leap_year (y0 + 1)); lia|].
  split; [done|]. split; [|split; [lia|]].
  - split; [lia|]. destruct Hmonth as [Hle|(-> & Hm2 & Hd29)].
    + etransitivity; [exact Hle|]. unfold days_in_month. change (leap_year 1) with false. destruct (march_month doy =? 2); [|reflexivity]. by destruct (leap_year (y0 + wraps doy)).
    + unfold wraps, days_in_month. rewrite Hm2, Hd29. cbn [Z.leb Z.eqb Z.compare Pos.compare Pos.compare_cont Pos.eqb].
      destruct (leap_year (y0 + 1)); lia.
  - unfold days_from_civil, wraps. rewrite <-Z.add_sub_assoc, Hback.
    set (m := march_month doy) in *. assert ((if m <=? 2 then y0 + (if m <=? 2 then 1 else 0) - 1 else y0 + (if m <=? 2 then 1 else 0)) = y0) as ->
      by (destruct (m <=? 2); lia).
    pose proof (march_era (y0 / 400) (y0 - y0 / 400 * 400)) as He. rewrite (Z.add_comm (400 * _)), (Z.mul_comm 400), Z.sub_add in He.
    rewrite He in Hz by (Z.to_euclidean_division_equations; lia). unfold march_first in Hz.
    rewrite (Z.div_small (y0 - y0 / 400 * 400) 400) in Hz by (Z.to_euclidean_division_equations; lia). lia.
Qed.
(** Days are in the order of their dates. *)
Definition date_compare (a b : Z * Z * Z) : comparison := lex (a.1.1 ?= b.1.1) (lex (a.1.2 ?= b.1.2) (a.2 ?= b.2)).
Lemma civil_order a b : date_compare (civil_from_days a) (civil_from_days b) = (a ?= b).
Proof.
  assert (∀ a b, a < b → let '(y, m, d) := civil_from_days a in let '(y', m', d') := civil_from_days b in
    10000 * y + 100 * m + d < 10000 * y' + 100 * m' + d') as Hmono.
  { clear a b. intros a b Hab. destruct (civil_march a) as (y & e & Ha & He & ->), (civil_march b) as (y' & e' & Hb & He' & ->).
    pose proof (march_length y) as Hl. pose proof (march_length y') as Hl'.
    assert (0 ≤ e < 366 ∧ 0 ≤ e' < 366) as [H H'] by (destruct (leap_year (y + 1)), (leap_year (y' + 1)); lia).
    pose proof (march_within e H) as (_ & _ & Hk & _). pose proof (march_within e' H') as (_ & _ & Hk' & _).
    unfold march_key in Hk, Hk'. destruct (Z.lt_trichotomy y y') as [Hlt|[->|Hgt]].
    - lia.
    - assert (e < e') as Hee by lia. pose proof (march_key_mono e e' ltac:(lia) ltac:(lia)) as Hkk. unfold march_key in Hkk. lia.
    - exfalso. pose proof (march_mono (y' + 1) y ltac:(lia)). lia. }
  assert (∀ z, let '(y, m, d) := civil_from_days z in 0 ≤ m < 100 ∧ 0 ≤ d < 100) as Hb.
  { intros z. destruct (civil_from_days z) as [[y m] d] eqn:E. apply civil_valid in E. lia. }
  pose proof (Hmono a b) as Hlt. pose proof (Hmono b a) as Hgt. pose proof (Hb a) as Hba. pose proof (Hb b) as Hbb.
  destruct (Z.eq_dec a b) as [->|Hne].
  { unfold date_compare. by rewrite !Z.compare_refl. }
  destruct (civil_from_days a) as [[y m] d], (civil_from_days b) as [[y' m'] d']. unfold date_compare. cbn [fst snd].
  rewrite <-(compare_scaled 100) by lia.
  rewrite <-(compare_scaled 10000) by lia. rewrite !Z.add_assoc.
  destruct (Z.compare_spec a b) as [?|H|H]; [done | apply Z.compare_lt_iff; by apply Hlt | apply Z.compare_gt_iff; by apply Hgt].
Qed.
(** The times that Python has: of the years 1 to 9999. *)
Definition in_years (wall : Z) : Prop := days_from_civil 1 1 1 * day_us ≤ wall < days_from_civil 10000 1 1 * day_us.
Lemma civil_years z : days_from_civil 1 1 1 ≤ z < days_from_civil 10000 1 1 → 1 ≤ (civil_from_days z).1.1 ≤ 9999.
Proof.
  intros [H1 H2]. pose proof (civil_order (days_from_civil 1 1 1) z) as Ha. pose proof (civil_order z (days_from_civil 10000 1 1)) as Hb.
  apply Z.le_lteq in H1. rewrite (proj2 (Z.compare_lt_iff _ _) H2) in Hb.
  destruct (civil_from_days z) as [[y m] d] eqn:E. apply civil_valid in E as (Hm & Hd & Hd' & _).
  change (civil_from_days (days_from_civil 1 1 1)) with (1, 1, 1) in Ha. change (civil_from_days (days_from_civil 10000 1 1)) with (10000, 1, 1) in Hb.
  unfold date_compare in Ha, Hb. cbn [fst snd] in *. split.
  - destruct (Z.compare_spec 1 y) as [|?|?]; cbn [lex] in Ha; [lia | lia|]. exfalso.
    destruct H1 as [H1|H1]; [rewrite (proj2 (Z.compare_lt_iff _ _) H1) in Ha | rewrite (proj2 (Z.compare_eq_iff _ _) H1) in Ha]; discriminate.
  - destruct (Z.compare_spec y 10000) as [->|?|?]; cbn [lex] in Hb; [|lia | discriminate]. exfalso.
    destruct (Z.compare_spec m 1) as [->|?|?]; cbn [lex] in Hb; [|lia | discriminate].
    destruct (Z.compare_spec d 1) as [->|?|?]; [discriminate | lia | discriminate].
Qed.

(** ** Texts of times *)

Definition no_digit_first (s : string) : bool := match s with String c _ => negb (is_digit c) | EmptyString => true end.
Definition no_colon_first (s : string) : bool := match s with String c _ => negb (Ascii.eqb colon c) | EmptyString => true end.
Lemma pad2_read bound z s : 0 ≤ z ≤ bound → bound < 100 → upto bound (exact_digits 2 0 (pad 2 z +:+ s)) = Some (z, s).
Proof.
  intros Hz Hb. rewrite pad_read by (change (10 ^ Z.of_nat 2) with 100; lia). cbn.
  destruct (Z.leb_spec z bound); [done | lia].
Qed.
Definition clock_text (sec : Z) (with_seconds : bool) : string :=
  pad 2 (sec / 3600) +:+ ":" +:+ pad 2 (sec / 60 mod 60) +:+ (if with_seconds then ":" +:+ pad 2 (sec mod 60) else "").
Lemma clock_read sec b rest : 0 ≤ sec < 86400 → (b = true ∨ sec mod 60 = 0) → no_colon_first rest = true →
  iso_clock (clock_text sec b +:+ rest) = Some (sec, rest).
Proof.
  intros Hs Hb Hr. unfold iso_clock, clock_text. rewrite !app_assoc_str, (pad2_read 23) by (Z.to_euclidean_division_equations; lia).
  cbn [mbind option_bind append skip_char]. rewrite Ascii.eqb_refl. cbn [mbind option_bind].
  rewrite (pad2_read 59) by (Z.to_euclidean_division_equations; lia). cbn [mbind option_bind].
  assert (iso_seconds ((if b then String ":" (pad 2 (sec mod 60)) else "") +:+ rest) = Some (sec mod 60, rest)) as ->.
  { unfold iso_seconds. destruct b.
    - cbn [append skip_char]. rewrite Ascii.eqb_refl, (pad2_read 59); [done | | lia].
      Z.to_euclidean_division_equations; lia.
    - destruct Hb as [|Hb]; [done|]. cbn [append]. rewrite Hb. destruct rest as [|c rest]; [done|]. unfold no_colon_first in Hr. cbn [skip_char].
      by destruct (Ascii.eqb colon c). }
  cbn [mbind option_bind]. do 2 f_equal. Z.to_euclidean_division_equations; lia.
Qed.
Lemma fraction_read w acc s v s' : exact_digits w acc s = Some (v, s') → no_digit_first s' = true → iso_fraction w acc s = (v, s').
Proof.
  revert acc s. induction w as [|w IH]; intros acc s; cbn [exact_digits].
  - intros [= <- <-] Hn. destruct s as [|c s]; cbn in *; [by rewrite Z.mul_1_r|].
    destruct (is_digit c); [done|]. by rewrite Z.mul_1_r.
  - destruct s as [|c s]; [done|]. cbn [iso_fraction]. destruct (is_digit c); [apply IH | done].
Qed.
(** A fraction and the offset after it. *)
Definition fraction_text (us : Z) : string := if us =? 0 then "" else "." +:+ pad 6 us.
Lemma micros_read us c rest : 0 ≤ us < 1000000 → (c = "+"%char ∨ c = "-"%char) →
  iso_micros (fraction_text us +:+ String c rest) = Some (us, String c rest).
Proof.
  intros Hu Hc. unfold fraction_text. destruct (Z.eqb_spec us 0) as [->|Hne].
  - cbn [append iso_micros]. destruct rest; [|destruct Hc as [-> | ->]]; done.
  - assert (no_digit_first (String c rest) = true) as Hn by (destruct Hc as [-> | ->]; done).
    pose proof (pad_read 5 us (String c rest) ltac:(done)) as Hp. pose proof (fraction_read _ _ _ _ _ Hp Hn) as Hf.
    rewrite app_assoc_str. cbn [append iso_micros]. destruct (pad 6 us +:+ String c rest) as [|d t] eqn:E; [discriminate Hp|].
    cbn [exact_digits] in Hp. destruct (is_digit d); [|discriminate Hp]. by rewrite Hf.
Qed.
Lemma isoformat_parts d : isoformat d =
  let '(y, m, dd) := civil_from_days (dt_wall d / day_us) in
  pad 4 y +:+ "-" +:+ pad 2 m +:+ "-" +:+ pad 2 dd +:+ "T" +:+ clock_text (dt_wall d mod day_us / second) true
  +:+ fraction_text (dt_wall d mod day_us mod second) +:+ offset_iso (dt_offset d).
Proof.
  unfold isoformat, date_iso, clock_text, fraction_text. destruct (civil_from_days _) as [[y m] dd].
  by rewrite !app_assoc_str.
Qed.
Lemma offset_parts off : ∃ c, (c = "+"%char ∨ c = "-"%char) ∧ (c = "-"%char ↔ off < 0)
  ∧ offset_iso off = String c (clock_text (Z.abs off / second) (negb (Z.abs off / second mod 60 =? 0))).
Proof.
  exists (if off <? 0 then "-"%char else "+"%char). destruct (Z.ltb_spec off 0) as [Hlt|Hge].
  - split; [by right|]. split; [done|]. unfold offset_iso, clock_text. rewrite (proj2 (Z.ltb_lt _ _) Hlt). cbn [append].
    by destruct (_ =? 0).
  - split; [by left|]. split; [split; [discriminate | lia]|]. unfold offset_iso, clock_text. rewrite (proj2 (Z.ltb_ge _ _) Hge). cbn [append].
    by destruct (_ =? 0).
Qed.
(** An offset as Python has them, in seconds. *)
Definition proper_offset (off : Z) : Prop := Z.abs off < day_us ∧ off mod second = 0.
Lemma offset_read off : proper_offset off → iso_offset (offset_iso off) = Some (Some off).
Proof.
  intros [Hoff Hsec]. destruct (offset_parts off) as (c & Hc & Hneg & ->). cbn [iso_offset].
  assert (Ascii.eqb c "+" || Ascii.eqb c "-" = true) as -> by by destruct Hc as [-> | ->].
  set (sec := Z.abs off / second). assert (0 ≤ sec < 86400) as Hs.
  { subst sec. unfold second, day_us in *. Z.to_euclidean_division_equations; lia. }
  pose proof (clock_read sec (negb (sec mod 60 =? 0)) "" Hs) as Hr. rewrite app_nil_r_str in Hr. rewrite Hr; [|destruct (Z.eqb_spec (sec mod 60) 0); auto|done].
  cbn [mbind option_bind]. rewrite String.eqb_refl. do 2 f_equal.
  assert (off = if decide (off < 0) then - (sec * second) else sec * second) as Hval.
  { subst sec. unfold second in *. destruct (decide (off < 0)); Z.to_euclidean_division_equations; lia. }
  rewrite Hval at 1. unfold seconds. destruct (decide (off < 0)) as [Hlt|Hge].
  - rewrite (proj2 Hneg Hlt). cbn. lia.
  - destruct Hc as [-> | ->]; [done|]. exfalso. by apply Hge, Hneg.
Qed.
(** [fromisoformat] reads the time that [isoformat] wrote. *)
Lemma isoformat_read d : in_years (dt_wall d) → proper_offset (dt_offset d) → iso_extended (isoformat d) = Some (Aware d).
Proof.
  intros Hw Hoff. rewrite isoformat_parts. set (day := dt_wall d / day_us).
  assert (days_from_civil 1 1 1 ≤ day < days_from_civil 10000 1 1) as Hday.
  { unfold in_years in Hw. subst day. split; [apply Z.div_le_lower_bound | apply Z.div_lt_upper_bound]; [done| | done|]; lia. }
  pose proof (civil_years _ Hday) as Hy. destruct (civil_from_days day) as [[y m] dd] eqn:E. cbn [fst] in Hy.
  apply civil_valid in E as (Hm & Hd & Hd31 & Hback). set (us := dt_wall d mod day_us).
  assert (0 ≤ us < day_us) as Hus by (apply Z.mod_pos_bound; done).
  unfold iso_extended. rewrite pad_read by (change (10 ^ Z.of_nat 4) with 10000; lia).
  cbn [mbind option_bind append skip_char]. rewrite Ascii.eqb_refl. cbn [mbind option_bind].
  rewrite (pad2_read 12) by lia. cbn [mbind option_bind append skip_char]. rewrite Ascii.eqb_refl. cbn [mbind option_bind].
  assert (days_in_month y m ≤ 31) as Hmonth.
  { unfold days_in_month. destruct (m =? 2); [by destruct (leap_year y)|]. by destruct (_ || _). }
  rewrite (pad2_read (days_in_month y m)) by lia. cbn [mbind option_bind].
  destruct (Z.ltb_spec y 1), (Z.ltb_spec m 1), (Z.ltb_spec dd 1); try lia. cbn [orb append].
  destruct (offset_parts (dt_offset d)) as (c & Hc & _ & Ho). pose proof (offset_read _ Hoff) as Hro. rewrite Ho in Hro |- *.
  assert (0 ≤ us mod second < 1000000) as Hmicro by (apply Z.mod_pos_bound; done).
  rewrite clock_read; [|unfold second, day_us in *; Z.to_euclidean_division_equations; lia | by left|].
  2:{ unfold fraction_text. destruct (us mod second =? 0); [by destruct Hc as [-> | ->] | done]. }
  cbn [mbind option_bind]. rewrite micros_read by done. cbn [mbind option_bind]. rewrite Hro. cbn [mbind option_bind].
  do 2 f_equal. destruct d as [wall off]. cbn in *. f_equal. rewrite Hback. unfold seconds. subst us day.
  pose proof (Z.div_mod wall day_us ltac:(done)). pose proof (Z.div_mod (wall mod day_us) second ltac:(done)). lia.
Qed.

(** *** Texts in the order of times *)

Lemma compare_self s : String.compare s s = Eq.
Proof. rewrite <-(app_nil_r_str s), compare_prefix. done. Qed.
Lemma fraction_compare us us' c rest : 0 ≤ us < 1000000 → 0 ≤ us' < 1000000 → (c = "+"%char ∨ c = "-"%char) →
  String.compare (fraction_text us +:+ String c rest) (fraction_text us' +:+ String c rest) = (us ?= us').
Proof.
  intros Hu Hu' Hc. unfold fraction_text. destruct (Z.eqb_spec us 0) as [->|Hne], (Z.eqb_spec us' 0) as [->|Hne'].
  - apply compare_self.
  - rewrite (proj2 (Z.compare_lt_iff _ _)) by lia. destruct Hc as [-> | ->]; done.
  - rewrite (proj2 (Z.compare_gt_iff _ _)) by lia. destruct Hc as [-> | ->]; done.
  - rewrite !app_assoc_str, compare_prefix, pad_compare, compare_self by done. by destruct (us ?= us').
Qed.
Lemma pad2_compare x y s t : 0 ≤ x < 100 → 0 ≤ y < 100 → String.compare (pad 2 x +:+ s) (pad 2 y +:+ t) = lex (x ?= y) (String.compare s t).
Proof. apply (pad_compare 1). Qed.
Lemma lex_assoc a b c : lex (lex a b) c = lex a (lex b c).
Proof. by destruct a. Qed.
Lemma clock_compare x y s t : 0 ≤ x < 86400 → 0 ≤ y < 86400 →
  String.compare (clock_text x true +:+ s) (clock_text y true +:+ t) = lex (x ?= y) (String.compare s t).
Proof.
  intros Hx Hy. unfold clock_text.
  assert (∀ z, 0 ≤ z < 86400 → 0 ≤ z / 3600 < 100 ∧ 0 ≤ z / 60 mod 60 < 60 ∧ 0 ≤ z mod 60 < 60
    ∧ z = 60 * (60 * (z / 3600) + z / 60 mod 60) + z mod 60) as Hp.
  { intros z Hz. split_and!; Z.to_euclidean_division_equations; lia. }
  destruct (Hp x Hx) as (H1 & H2 & H3 & E), (Hp y Hy) as (H1' & H2' & H3' & E'). rewrite E at 4. rewrite E' at 4.
  rewrite !app_assoc_str, pad2_compare, compare_prefix, pad2_compare, compare_prefix, pad2_compare by lia.
  by rewrite !compare_scaled, !lex_assoc by lia.
Qed.
Lemma date_text_compare day day' s t : 1 ≤ (civil_from_days day).1.1 ≤ 9999 → 1 ≤ (civil_from_days day').1.1 ≤ 9999 →
  (let '(y, m, d) := civil_from_days day in let '(y', m', d') := civil_from_days day' in
   String.compare (pad 4 y +:+ "-" +:+ pad 2 m +:+ "-" +:+ pad 2 d +:+ s) (pad 4 y' +:+ "-" +:+ pad 2 m' +:+ "-" +:+ pad 2 d' +:+ t))
  = lex (day ?= day') (String.compare s t).
Proof.
  intros Hy Hy'. rewrite <-civil_order. unfold date_compare.
  destruct (civil_from_days day) as [[y m] d] eqn:E, (civil_from_days day') as [[y' m'] d'] eqn:E'. cbn [fst snd] in *.
  apply civil_valid in E, E'. rewrite (pad_compare 3) by (change (10 ^ Z.of_nat 4) with 10000; lia).
  by rewrite compare_prefix, pad2_compare, compare_prefix, pad2_compare, !lex_assoc by lia.
Qed.
(** Times with one offset are in the order of their texts. *)
Lemma isoformat_order a b : in_years (dt_wall a) → in_years (dt_wall b) → dt_offset a = dt_offset b →
  String.compare (isoformat a) (isoformat b) = (instant a ?= instant b).
Proof.
  intros Ha Hb Hoff. rewrite !isoformat_parts, Hoff.
  assert (∀ wall, in_years wall → days_from_civil 1 1 1 ≤ wall / day_us < days_from_civil 10000 1 1) as Hday.
  { intros w Hw. unfold in_years in Hw. split; [apply Z.div_le_lower_bound | apply Z.div_lt_upper_bound]; [done| |done|]; lia. }
  pose proof (civil_years _ (Hday _ Ha)) as Hy. pose proof (civil_years _ (Hday _ Hb)) as Hy'. clear Hday.
  destruct (offset_parts (dt_offset b)) as (c & Hc & _ & ->). set (o := clock_text (Z.abs (dt_offset b) / second) _).
  pose proof (date_text_compare _ _ ("T" +:+ clock_text (dt_wall a mod day_us / second) true
      +:+ fraction_text (dt_wall a mod day_us mod second) +:+ String c o)
    ("T" +:+ clock_text (dt_wall b mod day_us / second) true +:+ fraction_text (dt_wall b mod day_us mod second) +:+ String c o) Hy Hy') as Hd.
  destruct (civil_from_days (dt_wall a / day_us)) as [[y m] d], (civil_from_days (dt_wall b / day_us)) as [[y' m'] d']. rewrite Hd.
  assert (∀ wall, 0 ≤ wall mod day_us / second < 86400 ∧ 0 ≤ wall mod day_us mod second < second ∧ 0 ≤ wall mod day_us < day_us
    ∧ wall = day_us * (wall / day_us) + wall mod day_us
    ∧ wall mod day_us = second * (wall mod day_us / second) + wall mod day_us mod second) as Hp.
  { intros w. pose proof (Z.mod_pos_bound w day_us ltac:(done)) as Hw. split_and!; try apply Z.mod_pos_bound; try apply Z.div_mod; try done.
    - apply Z.div_pos; [apply Hw | done].
    - apply Z.div_lt_upper_bound; [done | apply Hw]. }
  destruct (Hp (dt_wall a)) as (H1 & H2 & H3 & E & F), (Hp (dt_wall b)) as (H1' & H2' & H3' & E' & F').
  rewrite compare_prefix, clock_compare, fraction_compare by done.
  rewrite <-(compare_scaled second), <-F, <-F', <-(compare_scaled day_us), <-E, <-E' by done.
  unfold instant. rewrite Hoff. destruct (Z.compare_spec (dt_wall a) (dt_wall b)) as [->|?|?]; symmetry;
    [apply Z.compare_refl | apply Z.compare_lt_iff; lia | apply Z.compare_gt_iff; lia].
Qed.
Lemma isoformat_le a b : in_years (dt_wall a) → in_years (dt_wall b) → dt_offset a = dt_offset b →
  str_le (isoformat a) (isoformat b) = dt_le a b.
Proof.
  intros Ha Hb Hoff. unfold str_le, String.leb, dt_le. rewrite (isoformat_order a b Ha Hb Hoff). unfold Z.leb. by destruct (_ ?= _).
Qed.
