(* ===== verification/PyValue.v ===== *)
(** * Dynamic Python values

    [float] is IEEE binary64 computed with the Standard Library's [SpecFloat]
    (integer mantissas, so everything evaluates); [pyval] is the JSON-like universe
    of the program's [Any]. A [dict] keeps its insertion order. *)
From S2P Require Export PyTime.
From Stdlib Require Import DecimalString DecimalZ DecimalPos DecimalN.
From Stdlib Require Export SpecFloat.
Local Open Scope Z_scope.

(** ** Floats *)

Abbreviation float := spec_float.
Definition fprec : Z := 53.
Definition femax : Z := 1024.
Definition fl_of_Z (z : Z) : float := binary_normalize fprec femax z 0 false.
Definition fl_add : float → float → float := SFadd fprec femax.
Definition fl_sub : float → float → float := SFsub fprec femax.
Definition fl_mul : float → float → float := SFmul fprec femax.
Definition fl_div : float → float → float := SFdiv fprec femax.
Definition fl_lt (a b : float) : bool := SFltb a b.
Definition fl_le (a b : float) : bool := SFleb a b.
Definition fl_eqb (a b : float) : bool := SFeqb a b.

#[export] Instance float_eq_dec : EqDecision float.
Proof. solve_decision. Defined.

(** The double nearest to [num / den], ties to even; [den] is positive. *)
Definition fl_of_ratio (neg : bool) (num den : Z) : float :=
  if num =? 0 then S754_zero neg
  else let '(q, e, l) := SFdiv_core_binary fprec femax num 0 den 0 in
       binary_round_aux fprec femax neg q e l.
(** The double a decimal literal [m * 10^e] denotes. *)
Definition fl_of_decimal (neg : bool) (m e : Z) : float :=
  if 0 <=? e then fl_of_ratio neg (m * 10 ^ e) 1 else fl_of_ratio neg m (10 ^ (- e)).

(** A finite non-zero double as an exact positive ratio. *)
Definition ratio_of (m : positive) (e : Z) : Z * Z :=
  if 0 <=? e then (Z.pos m * 2 ^ e, 1) else (Z.pos m, 2 ^ (- e)).

(** *** [repr]: the shortest decimal that reads back as the same double *)

Definition cmp_pow10 (num den k : Z) : bool := (* num / den < 10^k *)
  if 0 <=? k then num <? den * 10 ^ k else num * 10 ^ (- k) <? den.
Fixpoint fix_exp10 (fuel : nat) (num den k : Z) : Z :=
  match fuel with
  | O => k
  | S fuel' => if cmp_pow10 num den k then fix_exp10 fuel' num den (k - 1)
               else if cmp_pow10 num den (k + 1) then k else fix_exp10 fuel' num den (k + 1)
  end.
(** [floor (log10 (num / den))]: an estimate from the binary logarithm, adjusted. *)
Definition exp10_of (num den : Z) : Z :=
  fix_exp10 5 num den ((Z.log2 num - Z.log2 den) * 30103 / 100000).
(** Nearest integer to [num / den], ties to even. *)
Definition round_ratio (num den : Z) : Z :=
  let q := num / den in
  let r := num mod den in
  if (2 * r <? den) then q else if (den <? 2 * r) then q + 1 else if Z.even q then q else q + 1.
Definition digits_of (num den k n : Z) : Z :=
  let s := n - 1 - k in
  if 0 <=? s then round_ratio (num * 10 ^ s) den else round_ratio num (den * 10 ^ (- s)).
Fixpoint shortest (fuel : nat) (m : positive) (e num den k n : Z) : Z * Z :=
  let d := digits_of num den k n in
  match fuel with
  | O => (d, k - n + 1)
  | S fuel' =>
      if decide (fl_of_decimal false d (k - n + 1) = S754_finite false m e) then (d, k - n + 1)
      else shortest fuel' m e num den k (n + 1)
  end.

Fixpoint rstrip_zeros (s : string) : string :=
  match s with
  | EmptyString => ""
  | String c s' =>
      match rstrip_zeros s' with
      | EmptyString => if Ascii.eqb c "0" then "" else String c ""
      | r => String c r
      end
  end.
Definition zeros (n : Z) : string := Nat.iter (Z.to_nat n) (λ t, "0" +:+ t) "".

(** Python switches to the exponent form outside [1e-4, 1e16). *)
Definition fl_format (d e : Z) : string :=
  let ds := str_of_Z d in
  let len := Z.of_nat (String.length ds) in
  let point := len + e in
  if (-4 <? point) && (point <=? 16) then
    if point <=? 0 then "0." +:+ zeros (- point) +:+ rstrip_zeros ds
    else
      let ip := if len <=? point then ds +:+ zeros (point - len) else str_take (Z.to_nat point) ds in
      let fp := rstrip_zeros (str_drop (Z.to_nat point) ds) in
      ip +:+ "." +:+ str_or fp "0"
  else
    let x := point - 1 in
    let fp := rstrip_zeros (str_drop 1 ds) in
    str_take 1 ds +:+ (if nonempty fp then "." +:+ fp else "")
    +:+ "e" +:+ (if x <? 0 then "-" else "+") +:+ pad 2 (Z.abs x).

Definition fl_repr (f : float) : string :=
  match f with
  | S754_zero s => if s then "-0.0" else "0.0"
  | S754_infinity s => if s then "-inf" else "inf"
  | S754_nan => "nan"
  | S754_finite s m e =>
      let '(num, den) := ratio_of m e in
      let '(d, x) := shortest 17 m e num den (exp10_of num den) 1 in
      (if s then "-" else "") +:+ fl_format d x
  end.

(** *** Fixed-point formatting and rounding

    [f"{x:.nf}"] and [round(x, n)] both round the exact value of the double, ties to even. *)

Definition fl_scaled (n : Z) (m : positive) (e : Z) : Z :=
  let '(num, den) := ratio_of m e in round_ratio (num * 10 ^ n) den.
Definition fl_fixed (n : Z) (f : float) : string :=
  let show (s : bool) (d : Z) :=
    (if s then "-" else "") +:+ str_of_Z (d / 10 ^ n) +:+ "." +:+ pad (Z.to_nat n) (d mod 10 ^ n) in
  match f with
  | S754_zero s => show s 0
  | S754_finite s m e => show s (fl_scaled n m e)
  | S754_infinity s => if s then "-inf" else "inf"
  | S754_nan => "nan"
  end.
Definition fl_round (n : Z) (f : float) : float :=
  match f with
  | S754_finite s m e => fl_of_decimal s (fl_scaled n m e) (- n)
  | _ => f
  end.
Example fl_fixed_ex : fl_fixed 3 (fl_of_decimal false 12345 (-4)) = "1.234"
  ∧ fl_fixed 3 (fl_of_Z 5) = "5.000" ∧ fl_round 2 (fl_of_decimal false 2675 (-3)) = fl_of_decimal false 267 (-2).
Proof. vm_compute. auto. Qed.

(** *** [float(text)] and [int(text)] *)

Definition digit_val (c : ascii) : Z := Z.of_N (code c) - 48.
(** Leading digits (an underscore may stand between two of them): their value, how
    many there were, and the rest. *)
Fixpoint take_digits (s : string) (acc : Z) (n : nat) : Z * nat * string :=
  match s with
  | String c s' =>
      if is_digit c then take_digits s' (10 * acc + digit_val c) (S n)
      else match s' with
           | String c' s'' =>
               if (code c =? 95)%N && is_digit c' && (0 <? n)%nat
               then take_digits s'' (10 * acc + digit_val c') (S n) else (acc, n, s)
           | EmptyString => (acc, n, s)
           end
  | EmptyString => (acc, n, s)
  end.
Definition take_sign (s : string) : bool * string :=
  match s with
  | String c s' => if (code c =? 45)%N then (true, s')
                   else if (code c =? 43)%N then (false, s') else (false, s)
  | EmptyString => (false, s)
  end.

Definition int_of_str (s : string) : option Z :=
  let '(neg, s1) := take_sign (strip s) in
  match take_digits s1 0 0 with
  | (v, S _, EmptyString) => Some (if neg then - v else v)
  | _ => None
  end.

Definition exponent_part (s : string) : option Z :=
  match s with
  | EmptyString => Some 0
  | String c s' =>
      if (code (lower_char c) =? 101)%N then
        let '(neg, s1) := take_sign s' in
        match take_digits s1 0 0 with
        | (v, S _, EmptyString) => Some (if neg then - v else v)
        | _ => None
        end
      else None
  end.

Definition fl_of_str (s : string) : option float :=
  let '(neg, s1) := take_sign (strip s) in
  let w := lower s1 in
  if mem w ["inf"; "infinity"] then Some (S754_infinity neg)
  else if (w =? "nan")%string then Some S754_nan
  else
    let '(ip, ni, s2) := take_digits s1 0 0 in
    let '(m, nf, s3) :=
      match s2 with
      | String c s' => if (code c =? 46)%N then take_digits s' ip 0 else (ip, 0%nat, s2)
      | EmptyString => (ip, 0%nat, s2)
      end in
    if (ni + nf =? 0)%nat then None
    else x ← exponent_part s3; Some (fl_of_decimal neg m (x - Z.of_nat nf)).

Example repr_ex : map fl_repr [fl_of_decimal false 95 (-2); fl_of_decimal false 1 22;
    fl_of_decimal true 125 (-7); fl_of_Z 40; fl_add (fl_of_decimal false 1 (-1)) (fl_of_decimal false 2 (-1))]
  = ["0.95"; "1e+22"; "-1.25e-05"; "40.0"; "0.30000000000000004"].
Proof. vm_compute. reflexivity. Qed.
Example fl_of_str_ex : fl_repr <$> fl_of_str " -12.50e1 " = Some "-125.0".
Proof. vm_compute. reflexivity. Qed.

(** ** Values *)

#[warnings="-register-all"]
Inductive pyval : Type :=
| VNone
| VBool (b : bool)
| VInt (z : Z)
| VFloat (f : float)
| VStr (s : string)
| VList (l : list pyval)
| VDict (d : list (string * pyval)).

Abbreviation pydict := (list (string * pyval)).

Section pyval_ind.
Context (P : pyval → Prop).
Context (HN : P VNone) (HB : ∀ b, P (VBool b)) (HI : ∀ z, P (VInt z)) (HF : ∀ f, P (VFloat f))
  (HS : ∀ s, P (VStr s)) (HL : ∀ l, Forall P l → P (VList l))
  (HD : ∀ d : pydict, Forall (λ kv, P kv.2) d → P (VDict d)).
Fixpoint pyval_nested_ind (v : pyval) : P v :=
  match v with
  | VNone => HN | VBool b => HB b | VInt z => HI z | VFloat f => HF f | VStr s => HS s
  | VList l => HL l ((fix go l := match l return Forall P l with
                      | [] => Forall_nil_2 _
                      | x :: l' => Forall_cons_2 _ _ _ (pyval_nested_ind x) (go l') end) l)
  | VDict d => HD d ((fix go (d : pydict) := match d return Forall (λ kv, P kv.2) d with
                      | [] => Forall_nil_2 _
                      | x :: d' => Forall_cons_2 _ _ _ (pyval_nested_ind x.2) (go d') end) d)
  end.
End pyval_ind.

(** [d.get(k)] and [d[k] = v] on an insertion-ordered dict. *)
Fixpoint dget {A} (k : string) (d : list (string * A)) : option A :=
  match d with
  | [] => None
  | (k', v) :: d' => if (k' =? k)%string then Some v else dget k d'
  end.
Fixpoint dset {A} (k : string) (v : A) (d : list (string * A)) : list (string * A) :=
  match d with
  | [] => [(k, v)]
  | (k', v') :: d' => if (k' =? k)%string then (k, v) :: d' else (k', v') :: dset k v d'
  end.
(** [del d[k]] for a key that is present, and [d.pop(k, None)]. *)
Definition ddel {A} (k : string) (d : list (string * A)) : list (string * A) :=
  filter (λ kv, kv.1 ≠ k) d.
Definition dkeys {A} (d : list (string * A)) : list string := d.*1.
Definition dhas {A} (k : string) (d : list (string * A)) : bool :=
  match dget k d with Some _ => true | None => false end.
(** [{**d, **d'}] *)
Definition dupdate {A} (d d' : list (string * A)) : list (string * A) :=
  foldl (λ acc kv, dset kv.1 kv.2 acc) d d'.

(** [bool(v)] *)
Definition vtrue (v : pyval) : bool :=
  match v with
  | VNone => false
  | VBool b => b
  | VInt z => negb (z =? 0)
  | VFloat f => match f with S754_zero _ => false | _ => true end
  | VStr s => nonempty s
  | VList l => negb (bool_decide (length l = 0%nat))
  | VDict d => negb (bool_decide (length d = 0%nat))
  end.
Definition otruev (o : option pyval) : bool := match o with Some v => vtrue v | None => false end.
(** [d.get(k) or d.get(k')], [None] for an absent key. *)
Definition vor (a b : pyval) : pyval := if vtrue a then a else b.
Definition dgetv (k : string) (d : pydict) : pyval := default VNone (dget k d).
Definition dget_or (k : string) (dflt : pyval) (d : pydict) : pyval := default dflt (dget k d).

Definition setdefault (k : string) (v : pyval) (d : pydict) : pydict := if dhas k d then d else d ++ [(k, v)].
(** An optional string or number as a value. *)
Definition vostr (o : option string) : pyval := match o with Some s => VStr s | None => VNone end.
Definition vint (o : option Z) : pyval := match o with Some z => VInt z | None => VNone end.

(** *** [repr] and [str] *)

Definition hex_digit (n : N) : ascii := chr (if (n <? 10)%N then 48 + n else 87 + n).
Definition hex2 (n : N) : string := String (hex_digit (n / 16)) (String (hex_digit (n mod 16)) "").
Definition is_printable (c : ascii) : bool :=
  in_range 32 126 c || (in_range 161 255 c && negb (code c =? 173)%N).
Definition repr_char (quote c : ascii) : string :=
  if (code c =? 92)%N then String "\" "\"
  else if Ascii.eqb c quote then String "\" (String c "")
  else if (code c =? 10)%N then "\n" else if (code c =? 13)%N then "\r"
  else if (code c =? 9)%N then "\t"
  else if is_printable c then String c "" else "\x" +:+ hex2 (code c).
Fixpoint str_concat_map (f : ascii → string) (s : string) : string :=
  match s with EmptyString => "" | String c s' => f c +:+ str_concat_map f s' end.
Definition quote_ch : ascii := chr 39.
Definition dquote_ch : ascii := chr 34.
Definition repr_str (s : string) : string :=
  let has c := negb (str_all (λ x, negb (Ascii.eqb x c)) s) in
  let q := if has quote_ch && negb (has dquote_ch) then dquote_ch else quote_ch in
  String q (str_concat_map (repr_char q) s +:+ String q "").

Fixpoint py_repr (v : pyval) : string :=
  match v with
  | VNone => "None"
  | VBool b => if b then "True" else "False"
  | VInt z => str_of_Z z
  | VFloat f => fl_repr f
  | VStr s => repr_str s
  | VList l => "[" +:+ join ", " (map py_repr l) +:+ "]"
  | VDict d => "{" +:+ join ", " (map (λ kv, repr_str kv.1 +:+ ": " +:+ py_repr kv.2) d) +:+ "}"
  end.
Definition py_str (v : pyval) : string := match v with VStr s => s | _ => py_repr v end.

(** [float(v)] and [int(v)]. *)
Definition py_float (v : pyval) : result float :=
  match v with
  | VBool b => Ok (fl_of_Z (if b then 1 else 0))
  | VInt z => match fl_of_Z z with
              | S754_infinity _ => Raise (OtherError "OverflowError: int too large to convert to float")
              | f => Ok f
              end
  | VFloat f => Ok f
  | VStr s => match fl_of_str s with
              | Some f => Ok f
              | None => Raise (ValueError ("could not convert string to float: " +:+ repr_str s))
              end
  | _ => Raise (TypeError "float() argument must be a string or a real number")
  end.
Definition fl_trunc (f : float) : result Z :=
  match f with
  | S754_zero _ => Ok 0
  | S754_finite s m e =>
      let '(num, den) := ratio_of m e in Ok (if s then - (num / den) else num / den)
  | S754_nan => Raise (ValueError "cannot convert float NaN to integer")
  | S754_infinity _ => Raise (OtherError "OverflowError: cannot convert float infinity to integer")
  end.
Definition py_int (v : pyval) : result Z :=
  match v with
  | VBool b => Ok (if b then 1 else 0)
  | VInt z => Ok z
  | VFloat f => fl_trunc f
  | VStr s => match int_of_str s with
              | Some z => Ok z
              | None => Raise (ValueError ("invalid literal for int() with base 10: " +:+ repr_str s))
              end
  | _ => Raise (TypeError "int() argument must be a string, a bytes-like object or a real number")
  end.

(** *** Dict lemmas *)

Section dict.
Context {A : Type}.
Implicit Types d : list (string * A).

Lemma dget_dset_eq k v d : dget k (dset k v d) = Some v.
Proof.
  induction d as [|[k' v'] d IH]; simpl; [by rewrite String.eqb_refl|].
  destruct (k' =? k)%string eqn:E; simpl; [by rewrite String.eqb_refl | by rewrite E].
Qed.

Lemma dget_dset_ne k k' v d : k ≠ k' → dget k (dset k' v d) = dget k d.
Proof.
  intros Hne. induction d as [|[k1 v1] d IH]; simpl.
  - by destruct (String.eqb_spec k' k).
  - destruct (String.eqb_spec k1 k') as [->|]; simpl; [by destruct (String.eqb_spec k' k)|].
    by destruct (k1 =? k)%string.
Qed.

Lemma dget_dset k k' v d : dget k (dset k' v d) = if decide (k = k') then Some v else dget k d.
Proof. case_decide as H; [subst; apply dget_dset_eq | by apply dget_dset_ne]. Qed.

Lemma dget_elem_of k v d : dget k d = Some v → (k, v) ∈ d.
Proof.
  induction d as [|[k' v'] d IH]; simpl; [done|].
  destruct (String.eqb_spec k' k) as [->|]; intros ?; simplify_eq; set_solver.
Qed.

Lemma dget_None k d : dget k d = None ↔ k ∉ dkeys d.
Proof.
  unfold dkeys. induction d as [|[k' v'] d IH]; simpl.
  - split; [intros _; apply not_elem_of_nil | done].
  - rewrite not_elem_of_cons. destruct (String.eqb_spec k' k) as [Heq|Hne].
    + split; [discriminate | intros [Hk _]; by destruct Hk].
    + rewrite IH. split; [intros Hk; split; [by intros -> | done] | by intros [_ ?]].
Qed.

Lemma dget_is_Some k d : is_Some (dget k d) ↔ k ∈ dkeys d.
Proof.
  rewrite <-not_eq_None_Some, dget_None. destruct (decide (k ∈ dkeys d)); naive_solver.
Qed.

Lemma elem_of_dget k v d : NoDup (dkeys d) → (k, v) ∈ d → dget k d = Some v.
Proof.
  unfold dkeys. induction d as [|[k' v'] d IH]; simpl; [set_solver|].
  intros [Hn Hd]%NoDup_cons [?|Hin]%elem_of_cons; simplify_eq; [by rewrite String.eqb_refl|].
  destruct (String.eqb_spec k' k) as [->|]; [|by apply IH].
  destruct Hn. apply list_elem_of_fmap. by exists (k, v).
Qed.

Lemma dkeys_dset k v d :
  dkeys (dset k v d) = if bool_decide (k ∈ dkeys d) then dkeys d else dkeys d ++ [k].
Proof.
  unfold dkeys. induction d as [|[k' v'] d IH]; cbn [dset].
  - by rewrite bool_decide_eq_false_2 by set_solver.
  - destruct (String.eqb_spec k' k) as [->|]; [by rewrite bool_decide_eq_true_2 by set_solver|].
    rewrite !fmap_cons, IH. simpl. destruct (decide (k ∈ d.*1)).
    + by rewrite !bool_decide_eq_true_2 by set_solver.
    + by rewrite !bool_decide_eq_false_2 by set_solver.
Qed.

Lemma NoDup_dset k v d : NoDup (dkeys d) → NoDup (dkeys (dset k v d)).
Proof.
  intros H. rewrite dkeys_dset. case_bool_decide; [done|].
  apply NoDup_app; split_and!; [done | set_solver | apply NoDup_singleton].
Qed.

Lemma elem_of_dset k v d k' v' : (k', v') ∈ dset k v d → (k' = k ∧ v' = v) ∨ (k', v') ∈ d.
Proof.
  induction d as [|[k1 v1] d IH]; simpl; [set_solver|].
  destruct (String.eqb_spec k1 k) as [->|]; set_solver.
Qed.

(** Membership of keys and pairs after [del d[k]]. *)
Lemma elem_of_ddel k d kv : kv ∈ ddel k d ↔ kv ∈ d ∧ kv.1 ≠ k.
Proof. unfold ddel. rewrite list_elem_of_filter. naive_solver. Qed.

Lemma dget_ddel_ne k k' d : k ≠ k' → dget k (ddel k' d) = dget k d.
Proof.
  intros Hne. unfold ddel. induction d as [|[k1 v1] d IH]; [done|].
  rewrite filter_cons. case_decide as H; simpl in *; [by rewrite IH|].
  destruct (String.eqb_spec k1 k); naive_solver.
Qed.

Lemma NoDup_ddel k d : NoDup (dkeys d) → NoDup (dkeys (ddel k d)).
Proof.
  unfold dkeys, ddel. induction d as [|[k1 v1] d IH]; [done|].
  rewrite filter_cons. intros [Hn Hd]%NoDup_cons. case_decide; [|auto].
  simpl. constructor; [|auto]. intros ([a b] & -> & Hin)%list_elem_of_fmap.
  apply list_elem_of_filter in Hin as [_ Hin]. apply Hn. apply list_elem_of_fmap. by exists (a, b).
Qed.

Lemma dset_fresh k v d : k ∉ dkeys d → dset k v d = d ++ [(k, v)].
Proof.
  induction d as [|[k' v'] d IH]; simpl; [done|]. intros Hn.
  destruct (String.eqb_spec k' k) as [->|]; [exfalso; apply Hn; by left|].
  f_equal. apply IH. intros Hk. apply Hn. by right.
Qed.
Lemma length_ddel k d : k ∈ dkeys d → (length (ddel k d) < length d)%nat.
Proof.
  unfold dkeys, ddel. induction d as [|[k1 v1] d IH]; simpl; [set_solver|].
  rewrite filter_cons. intros Hin. simpl. case_decide as H; simpl in *.
  - apply elem_of_cons in Hin as [->|Hin]; [done|]. specialize (IH Hin). lia.
  - pose proof (length_filter (λ kv : string * A, kv.1 ≠ k) d). lia.
Qed.
End dict.

#[export] Hint Rewrite @dget_dset_eq : btos_rw.
#[export] Hint Resolve NoDup_dset NoDup_ddel : btos.

Example repr_dict_ex : py_str (VDict [("a", VList [VInt 1; VStr "x"]); ("b", VNone)])
  = "{'a': [1, 'x'], 'b': None}".
Proof. reflexivity. Qed.

(** *** [int(str(z)) == z] *)

Lemma uint_digits d : str_all is_digit (NilEmpty.string_of_uint d) = true.
Proof. induction d as [|d IH|d IH|d IH|d IH|d IH|d IH|d IH|d IH|d IH|d IH]; [done|..]; exact IH. Qed.
Lemma take_digit c s acc n : is_digit c = true →
  take_digits (String c s) acc n = take_digits s (10 * acc + digit_val c) (S n).
Proof. intros H. cbn [take_digits]. by rewrite H. Qed.
Lemma take_digits_acc d acc n :
  take_digits (NilEmpty.string_of_uint d) (Zpos acc) n
  = (Zpos (Pos.of_uint_acc d acc), (n + String.length (NilEmpty.string_of_uint d))%nat, "").
Proof.
  revert acc n.
  induction d as [|d IH|d IH|d IH|d IH|d IH|d IH|d IH|d IH|d IH|d IH]; intros acc n;
    [simpl; by rewrite Nat.add_0_r|..];
    cbn [NilEmpty.string_of_uint]; rewrite take_digit by done;
    match goal with |- context [digit_val ?c] =>
      let v := eval vm_compute in (digit_val c) in change (digit_val c) with v end;
    cbn [Pos.of_uint_acc];
    match goal with |- take_digits _ ?a _ = (Zpos (Pos.of_uint_acc _ ?p), _, _) =>
      replace a with (Zpos p) by lia end;
    rewrite IH; f_equal; f_equal; cbn [String.length]; lia.
Qed.
Lemma take_digits_zero d n :
  take_digits (NilEmpty.string_of_uint d) 0 n
  = (Z.of_N (Pos.of_uint d), (n + String.length (NilEmpty.string_of_uint d))%nat, "").
Proof.
  revert n. induction d as [|d IH|d IH|d IH|d IH|d IH|d IH|d IH|d IH|d IH|d IH]; intros n;
    [simpl; by rewrite Nat.add_0_r|..];
    cbn [NilEmpty.string_of_uint]; rewrite take_digit by done;
    match goal with |- context [digit_val ?c] =>
      let v := eval vm_compute in (digit_val c) in change (digit_val c) with v end;
    match goal with |- take_digits _ ?a _ = _ => let v := eval vm_compute in a in change a with v end;
    cbn [Pos.of_uint]; rewrite ?IH, ?take_digits_acc;
    f_equal; f_equal; cbn [String.length]; lia.
Qed.

(** The decimal text of an integer: a sign for a negative one, then its digits. *)
Definition digits_text (d : Decimal.uint) : string := NilZero.string_of_uint d.
Lemma digits_text_spec d : d ≠ Decimal.Nil →
  digits_text d = NilEmpty.string_of_uint d ∧ ∃ c s, NilEmpty.string_of_uint d = String c s ∧ is_digit c = true.
Proof. destruct d; [done|..]; intros _; (split; [done|]); eexists _, _; by split. Qed.
Lemma str_of_Z_cases z : ∃ c s, str_all is_digit (String c s) = true ∧
  ((z < 0 ∧ str_of_Z z = String "-" (String c s) ∧ take_digits (String c s) 0 0 = (- z, S (String.length s), ""))
   ∨ (0 ≤ z ∧ str_of_Z z = String c s ∧ take_digits (String c s) 0 0 = (z, S (String.length s), ""))).
Proof.
  unfold str_of_Z. assert (∀ u, u ≠ Decimal.Nil → ∃ c s, NilZero.string_of_uint u = String c s
    ∧ str_all is_digit (String c s) = true
    ∧ take_digits (String c s) 0 0 = (Z.of_N (Pos.of_uint u), S (String.length s), "")) as Hu.
  { intros u Hu. destruct (digits_text_spec u Hu) as (E & c & s & Hs & _). exists c, s.
    unfold digits_text in E. rewrite E, Hs. split; [done|]. rewrite <-Hs, uint_digits.
    split; [done|]. rewrite take_digits_zero, Hs. done. }
  destruct z as [|p|p].
  - exists "0"%char, "". split; [done|]. right. split; [lia|]. split; reflexivity.
  - destruct (Hu (Pos.to_uint p)) as (c & s & H1 & H2 & H3).
    { pose proof (DecimalPos.Unsigned.to_uint_nonnil p). done. }
    exists c, s. split; [done|]. right. split; [lia|]. split; [exact H1|]. rewrite H3.
    pose proof (DecimalPos.Unsigned.of_to p) as Hp. rewrite Hp. done.
  - destruct (Hu (Pos.to_uint p)) as (c & s & H1 & H2 & H3).
    { pose proof (DecimalPos.Unsigned.to_uint_nonnil p). done. }
    exists c, s. split; [done|]. left. split; [lia|]. split; [cbn; by rewrite H1|]. rewrite H3.
    pose proof (DecimalPos.Unsigned.of_to p) as Hp. rewrite Hp. done.
Qed.
Lemma digit_not_space c : is_digit c = true → is_space c = false.
Proof.
  unfold is_digit, is_space, in_range. intros H. apply andb_prop in H as [H1 H2].
  apply N.leb_le in H1, H2. rewrite !orb_false_iff, !andb_false_iff, !N.leb_gt, !N.eqb_neq. lia.
Qed.
Lemma strip_tight c s : is_space c = false → str_all (λ c, negb (is_space c)) s = true →
  strip (String c s) = String c s.
Proof.
  intros Hc Hs. unfold strip. simpl. rewrite Hc. assert (rstrip s = s) as Hr.
  { induction s as [|d s IH]; [done|]. simpl in Hs. apply andb_prop in Hs as [Hd Hs].
    apply negb_true_iff in Hd. simpl. rewrite (IH Hs). destruct s; [by rewrite Hd | done]. }
  simpl. rewrite Hr. destruct s; [by rewrite Hc | done].
Qed.
Lemma str_all_impl (p q : ascii → bool) s :
  (∀ c, p c = true → q c = true) → str_all p s = true → str_all q s = true.
Proof.
  intros H. induction s as [|c s IH]; simpl; [done|]. intros [Hc Hs]%andb_prop. by rewrite (H _ Hc), IH.
Qed.
Lemma int_of_str_of_Z z : int_of_str (str_of_Z z) = Some z.
Proof.
  destruct (str_of_Z_cases z) as (c & s & Hd & Hz). simpl in Hd. apply andb_prop in Hd as [Hc Hs].
  assert (str_all (λ c, negb (is_space c)) s = true) as Hns.
  { eapply str_all_impl; [|exact Hs]. intros x Hx. by rewrite (digit_not_space _ Hx). }
  unfold int_of_str. destruct Hz as [(Hz & -> & Ht)|(Hz & -> & Ht)].
  - rewrite strip_tight; [|done|simpl; by rewrite (digit_not_space _ Hc)].
    change (take_sign (String "-" (String c s))) with (true, String c s). cbv beta iota.
    rewrite Ht. f_equal. lia.
  - rewrite strip_tight by (done || by apply digit_not_space). unfold take_sign.
    assert ((code c =? 45)%N = false ∧ (code c =? 43)%N = false) as [-> ->].
    { unfold is_digit, in_range in Hc. apply andb_prop in Hc as [H1 _]. apply N.leb_le in H1.
      rewrite !N.eqb_neq. lia. }
    by rewrite Ht.
Qed.

(** *** Signs

    A double that is zero or positive; the sum of two, the product with a positive one and
    the rounding of one are again such. *)

Definition fl_nonneg (f : float) : bool :=
  match f with S754_zero _ | S754_finite false _ _ | S754_infinity false => true | _ => false end.
Definition fl_finite_pos (f : float) : bool := match f with S754_finite false _ _ => true | _ => false end.

Lemma fl_nonneg_spec f : fl_nonneg f = fl_le (fl_of_Z 0) f.
Proof. by destruct f as [[]|[]| |[]]. Qed.
Lemma shr_1_nonneg r : 0 ≤ shr_m r → 0 ≤ shr_m (shr_1 r).
Proof. destruct r as [[|[]|[]] ? ?]; simpl; lia. Qed.
Lemma iter_shr_nonneg p r : 0 ≤ shr_m r → 0 ≤ shr_m (SpecFloat.iter_pos shr_1 p r).
Proof. revert r. induction p as [p IH|p IH|]; intros r H; simpl; auto using shr_1_nonneg. Qed.
Lemma shr_fexp_nonneg m e l : 0 ≤ m → 0 ≤ shr_m (fst (shr_fexp fprec femax m e l)).
Proof.
  intros H. unfold shr_fexp, shr. assert (0 ≤ shr_m (shr_record_of_loc m l)) by (destruct l as [|[]]; done).
  case_match; simpl; auto using iter_shr_nonneg.
Qed.
Lemma round_even_nonneg m l : 0 ≤ m → 0 ≤ round_nearest_even m l.
Proof. destruct l as [|[]]; simpl; repeat case_match; lia. Qed.
Lemma round_aux_nonneg m e l : 0 ≤ m → fl_nonneg (binary_round_aux fprec femax false m e l) = true.
Proof.
  intros H. unfold binary_round_aux. pose proof (shr_fexp_nonneg m e l H) as H1.
  destruct (shr_fexp fprec femax m e l) as [r1 e1]. simpl in H1.
  pose proof (shr_fexp_nonneg _ e1 loc_Exact (round_even_nonneg _ (loc_of_shr_record r1) H1)) as H2.
  destruct (shr_fexp _ _ _ e1 loc_Exact) as [r2 e2]. simpl in H2.
  destruct (shr_m r2); [done| |lia]. by destruct (e2 <=? _).
Qed.
Lemma fl_add_nonneg a b : fl_nonneg a = true → fl_nonneg b = true → fl_nonneg (fl_add a b) = true.
Proof.
  destruct a as [[]|[]| |[] m e], b as [[]|[]| |[] m' e']; try done. intros _ _.
  unfold fl_add, SFadd. cbv zeta. set (p := fst _). set (q := fst _). cbn [cond_Zopp].
  change (Z.pos p + Z.pos q) with (Z.pos (p + q)). unfold binary_normalize, binary_round.
  clearbody p q. destruct (shl_align _ _ _) as [mz ez]. by apply round_aux_nonneg.
Qed.
Lemma fl_mul_nonneg a b : fl_nonneg a = true → fl_finite_pos b = true → fl_nonneg (fl_mul a b) = true.
Proof.
  destruct a as [[]|[]| |[] m e], b as [[]|[]| |[] m' e']; try done. intros _ _.
  unfold fl_mul, SFmul. by apply round_aux_nonneg.
Qed.
Lemma round_ratio_nonneg num den : 0 ≤ num → 0 < den → 0 ≤ round_ratio num den.
Proof. intros Hn Hd. unfold round_ratio. pose proof (Z.div_pos num den Hn Hd). repeat case_match; lia. Qed.
Lemma fl_of_ratio_nonneg num den : 0 ≤ num → 0 < den → fl_nonneg (fl_of_ratio false num den) = true.
Proof.
  intros Hn Hd. unfold fl_of_ratio. destruct (num =? 0); [done|]. unfold SFdiv_core_binary.
  set (m' := match _ with Z0 => num | Zpos _ => _ | Zneg _ => _ end).
  assert (0 ≤ m') as Hm.
  { unfold m'. case_match; [done | by apply Z.shiftl_nonneg | done]. }
  pose proof (Z_div_mod m' den ltac:(lia)) as H. destruct (Z.div_eucl m' den) as [q r].
  apply round_aux_nonneg. nia.
Qed.
Lemma ratio_of_pos m e : 0 < fst (ratio_of m e) ∧ 0 < snd (ratio_of m e).
Proof.
  unfold ratio_of. destruct (Z.leb_spec 0 e); simpl.
  - pose proof (Z.pow_pos_nonneg 2 e). nia.
  - pose proof (Z.pow_pos_nonneg 2 (- e)). lia.
Qed.
Lemma fl_round_nonneg n f : 0 ≤ n → fl_nonneg f = true → fl_nonneg (fl_round n f) = true.
Proof.
  intros Hn. destruct f as [[]|[]| |[] m e]; try done. intros _. unfold fl_round, fl_scaled, fl_of_decimal.
  destruct (ratio_of_pos m e) as [H1 H2]. destruct (ratio_of m e) as [num den]. simpl in *.
  assert (0 ≤ round_ratio (num * 10 ^ n) den) as Hr.
  { apply round_ratio_nonneg; [|done]. pose proof (Z.pow_nonneg 10 n). nia. }
  pose proof (Z.pow_nonneg 10 (- n)). pose proof (Z.pow_pos_nonneg 10 (- - n)).
  destruct (Z.leb_spec 0 (- n)); apply fl_of_ratio_nonneg; nia.
Qed.
