(* ===== verification/PyFloat.v ===== *)
(** * Bounds on doubles

    [SpecFloat] computes a double without a proof that the mantissa it returns fits its 53
    bits. This file has that proof for what the arithmetic returns, the order of the values
    that are numbers, and what it gives: rounding to decimals does not leave an interval
    whose ends are decimals. *)
From S2P Require Export PyValue.
Local Open Scope Z_scope.

(** ** Order *)

Definition fl_num (f : float) : bool := match f with S754_nan => false | _ => true end.
(** Numbers are compared by sign, then exponent, then mantissa. *)
Definition fl_key (f : float) : Z * Z * Z :=
  match f with
  | S754_infinity s => (if s then -2 else 2, 0, 0)
  | S754_finite s m e => if s then (-1, - e, - Z.pos m) else (1, e, Z.pos m)
  | _ => (0, 0, 0)
  end.
Definition key_le (a b : Z * Z * Z) : Prop :=
  a.1.1 < b.1.1 ∨ a.1.1 = b.1.1 ∧ (a.1.2 < b.1.2 ∨ a.1.2 = b.1.2 ∧ a.2 <= b.2).
Lemma fl_le_key a b : fl_num a = true → fl_num b = true → fl_le a b = true ↔ key_le (fl_key a) (fl_key b).
Proof.
  unfold fl_le, SFleb, SFcompare, key_le. destruct a as [[]|[]| |[] m e], b as [[]|[]| |[] m' e']; try done; intros _ _; simpl;
    repeat change (Pos.compare_cont Eq ?x ?y) with (x ?= y)%positive;
    try (destruct (Z.compare_spec e e'); try destruct (Pos.compare_spec m m'); simpl; split; intros; try done; lia);
    split; intros; try done; lia.
Qed.
Lemma fl_le_total a b : fl_num a = true → fl_num b = true → fl_le a b = false → fl_le b a = true.
Proof.
  intros Ha Hb H. apply fl_le_key; [done..|]. apply not_true_iff_false in H. rewrite fl_le_key in H by done.
  unfold key_le in *. lia.
Qed.
Lemma fl_le_trans a b c : fl_num a = true → fl_num b = true → fl_num c = true →
  fl_le a b = true → fl_le b c = true → fl_le a c = true.
Proof. intros Ha Hb Hc. rewrite !fl_le_key by done. unfold key_le. lia. Qed.
Lemma fl_lt_le a b : fl_lt a b = true → fl_le a b = true.
Proof. unfold fl_lt, fl_le, SFltb, SFleb. by destruct (SFcompare a b) as [[]|]. Qed.
Lemma fl_lt_key a b : fl_num a = true → fl_num b = true → fl_lt a b = true ↔ ¬ key_le (fl_key b) (fl_key a).
Proof.
  unfold fl_lt, SFltb, SFcompare, key_le. destruct a as [[]|[]| |[] m e], b as [[]|[]| |[] m' e']; try done; intros _ _; simpl;
    repeat change (Pos.compare_cont Eq ?x ?y) with (x ?= y)%positive;
    try (destruct (Z.compare_spec e e'); try destruct (Pos.compare_spec m m'); simpl; split; intros; try done; lia);
    split; intros; try done; lia.
Qed.
Lemma fl_not_lt a b : fl_num a = true → fl_num b = true → fl_lt a b = false → fl_le b a = true.
Proof.
  intros Ha Hb H. apply fl_le_key; [done..|]. apply not_true_iff_false in H. rewrite fl_lt_key in H by done.
  unfold key_le in *. lia.
Qed.

(** ** Mantissas *)

(** The mantissa of a double fits its bits. *)
Definition fl_fits (f : float) : bool := match f with S754_finite _ m _ => Z.pos m <? 2 ^ 53 | _ => true end.
Lemma digits2_bound m : 0 <= m → m < 2 ^ Zdigits2 m.
Proof.
  destruct m as [|p|p]; simpl; [done| |lia]. intros _. induction p as [p IH|p IH|]; cbn [digits2_pos]; [| |done];
    rewrite Pos2Z.inj_succ, Z.pow_succ_r by done; lia.
Qed.
Lemma shr_1_half r : 0 <= shr_m r → shr_m (shr_1 r) = shr_m r / 2.
Proof. destruct r as [[|[p|p|]|p] ? ?]; cbn [shr_m shr_1]; intros; try done;
  rewrite ?Pos2Z.inj_xI, ?(Pos2Z.inj_xO p); Z.div_mod_to_equations; lia.
Qed.
Lemma iter_shr_half p r : 0 <= shr_m r → shr_m (SpecFloat.iter_pos shr_1 p r) = shr_m r / 2 ^ Z.pos p.
Proof.
  revert r. induction p as [p IH|p IH|]; intros r H; simpl; [| |by apply shr_1_half].
  - pose proof (shr_1_nonneg r H) as H1. pose proof (iter_shr_nonneg p _ H1) as H2.
    rewrite IH, IH, shr_1_half, !Z.div_div by (done || lia). f_equal.
    replace (Z.pos p~1) with (1 + (Z.pos p + Z.pos p)) by lia. rewrite !Z.pow_add_r by lia. ring.
  - pose proof (iter_shr_nonneg p _ H) as H1. rewrite IH, IH, Z.div_div by (done || lia). f_equal.
    replace (Z.pos p~0) with (Z.pos p + Z.pos p) by lia. by rewrite Z.pow_add_r by lia.
Qed.
Lemma shr_fexp_fits m e l : 0 <= m → shr_m (fst (shr_fexp fprec femax m e l)) < 2 ^ 53.
Proof.
  intros H. unfold shr_fexp, shr, fexp. assert (shr_m (shr_record_of_loc m l) = m) as Hm by (by destruct l as [|[]]).
  pose proof (digits2_bound m H) as Hd. set (d := Zdigits2 m) in *. set (emin' := emin fprec femax).
  assert (0 <= d) by (subst d; by destruct m).
  destruct (Z.max (d + e - fprec) emin' - e) as [|n|n] eqn:E; simpl; rewrite ?Hm;
    try (eapply Z.lt_le_trans; [exact Hd|]; apply Z.pow_le_mono_r; unfold fprec in *; lia).
  rewrite iter_shr_half, Hm by lia. apply Z.div_lt_upper_bound; [lia|]. eapply Z.lt_le_trans; [exact Hd|].
  rewrite <-Z.pow_add_r by lia. apply Z.pow_le_mono_r; unfold fprec in *; lia.
Qed.
Lemma round_aux_fits s m e l : 0 <= m → fl_fits (binary_round_aux fprec femax s m e l) = true.
Proof.
  intros H. unfold binary_round_aux. pose proof (shr_fexp_nonneg m e l H) as H1.
  destruct (shr_fexp fprec femax m e l) as [r1 e1]. simpl in H1.
  pose proof (round_even_nonneg _ (loc_of_shr_record r1) H1) as H2. pose proof (shr_fexp_fits _ e1 loc_Exact H2) as H3.
  destruct (shr_fexp _ _ _ e1 loc_Exact) as [r2 e2]. simpl in H3.
  destruct (shr_m r2); [done| |done]. destruct (e2 <=? _); [|done]. simpl. lia.
Qed.
Lemma fl_mul_fits a b : fl_fits (fl_mul a b) = true.
Proof. destruct a as [[]|[]| |[] m e], b as [[]|[]| |[] m' e']; try done; unfold fl_mul, SFmul; by apply round_aux_fits. Qed.
Lemma normalize_fits m e s : fl_fits (binary_normalize fprec femax m e s) = true.
Proof.
  destruct m as [|p|p]; [done|..]; unfold binary_normalize, binary_round; destruct (shl_align _ _ _) as [mz ez]; by apply round_aux_fits.
Qed.
Lemma fl_add_fits a b : fl_fits a = true → fl_fits b = true → fl_fits (fl_add a b) = true.
Proof. destruct a as [[]|[]| |[] m e], b as [[]|[]| |[] m' e']; try done; intros _ _; unfold fl_add, SFadd; apply normalize_fits. Qed.
Lemma fl_of_ratio_fits s num den : 0 <= num → 0 < den → fl_fits (fl_of_ratio s num den) = true.
Proof.
  intros Hn Hd. unfold fl_of_ratio. destruct (num =? 0); [done|]. unfold SFdiv_core_binary.
  set (m' := match _ with Z0 => num | Zpos _ => _ | Zneg _ => _ end).
  assert (0 <= m') as Hm by (unfold m'; case_match; [done | by apply Z.shiftl_nonneg | done]).
  pose proof (Z_div_mod m' den ltac:(lia)) as H. destruct (Z.div_eucl m' den) as [q r]. apply round_aux_fits. nia.
Qed.

(** ** Rounding within a percentage *)

Lemma round_ratio_le num den k : 0 < den → num <= k * den → round_ratio num den <= k.
Proof.
  intros Hd Hn. unfold round_ratio. pose proof (Z.div_mod num den ltac:(lia)). pose proof (Z.mod_pos_bound num den Hd).
  assert (num / den <= k) by (apply Z.div_le_upper_bound; lia).
  assert (num / den = k → num mod den = 0) by nia. repeat case_match; lia.
Qed.
Definition fl_hundred : float := fl_of_Z 100.
Definition fl_percent (f : float) : bool := fl_le (fl_of_Z 0) f && fl_le f fl_hundred.
Lemma fl_percent_num f : fl_percent f = true → fl_num f = true.
Proof. by destruct f as [[]|[]| |[]]. Qed.
Lemma hundredths_percent k : 0 <= k <= 10000 → fl_percent (fl_of_decimal false k (-2)) = true.
Proof.
  assert (forallb (λ n, fl_percent (fl_of_decimal false (Z.of_nat n) (-2))) (seq 0 (Z.to_nat 10001)) = true) as H by (vm_compute; reflexivity).
  rewrite forallb_forall in H. intros Hk. specialize (H (Z.to_nat k)). rewrite Z2Nat.id in H by lia. apply H, in_seq. lia.
Qed.
Lemma fl_percent_cases f : fl_percent f = true →
  (∃ s, f = S754_zero s) ∨ ∃ m e, f = S754_finite false m e ∧ (e < -46 ∨ e = -46 ∧ Z.pos m <= 100 * 2 ^ 46).
Proof.
  intros Hf. pose proof (fl_percent_num f Hf) as Hn. apply andb_prop in Hf as [H0 H1].
  destruct f as [[]|[]| |[] m e]; try done; eauto. right. exists m, e. split; [done|].
  apply fl_le_key in H1; [|done..]. revert H1. unfold fl_hundred. change (fl_key (fl_of_Z 100)) with (1, -46, 100 * 2 ^ 46).
  unfold key_le. simpl. lia.
Qed.
(** A percentage is still one when it is rounded to two decimals. *)
Lemma fl_round_percent f : fl_fits f = true → fl_percent f = true → fl_percent (fl_round 2 f) = true.
Proof.
  intros Hf [[s ->]|(m & e & -> & He)]%fl_percent_cases; [by destruct s|]. simpl in Hf. unfold fl_round. change (- 2) with (-2).
  apply hundredths_percent. unfold fl_scaled. unfold ratio_of. destruct (Z.leb_spec 0 e) as [|_]; [lia|].
  assert (2 ^ 46 <= 2 ^ (- e)) as Hp by (apply Z.pow_le_mono_r; lia).
  split; [apply round_ratio_nonneg; [|lia]; change (10 ^ 2) with 100; lia|].
  apply round_ratio_le; [lia|]. change (10 ^ 2) with 100. destruct He as [He|[-> He]]; [|lia].
  assert (2 ^ 47 <= 2 ^ (- e)) by (apply Z.pow_le_mono_r; lia). lia.
Qed.

(** ** [sum] of doubles

    Since Python 3.12 the sum carries the rounding error of each addition along and adds it
    at the end. *)
Definition fl_abs (f : float) : float := SFabs f.
Definition sum_step (acc : float * float) (x : float) : float * float :=
  let (total, c) := acc in
  let t := fl_add total x in
  let lost := if fl_le (fl_abs x) (fl_abs total) then fl_add (fl_sub total t) x else fl_add (fl_sub x t) total in
  (t, fl_add c lost).
Definition fl_finite (f : float) : bool := match f with S754_zero _ | S754_finite _ _ _ => true | _ => false end.
Definition fl_sum (l : list float) : float :=
  match l with
  | [] => fl_of_Z 0
  | x :: rest =>
      let (total, c) := foldl sum_step (x, fl_of_Z 0) rest in
      if negb (fl_eqb c (fl_of_Z 0)) && fl_finite c then fl_add total c else total
  end.
(** Ten tenths are one. *)
Example ten_tenths : fl_repr (fl_sum (replicate 10 (fl_of_decimal false 1 (-1)))) = "1.0"
  ∧ fl_repr (foldl fl_add (fl_of_Z 0) (replicate 10 (fl_of_decimal false 1 (-1)))) = "0.9999999999999999".
Proof. vm_compute. auto. Qed.
