(* ===== verification/Hashing.v ===== *)
(** * Hashing: SHA-256, canonical JSON and the audit hash link

    Models [packages/python-common/blueteam_common/hashing.py]. SHA-256 is written
    out on 32-bit words so that digests evaluate; [canonical_json] is
    [json.dumps(payload, sort_keys=True, separators=(",", ":"))] with the default
    ASCII escaping. The main lemma is that canonical JSON is injective up to the
    order of object members, which makes the hash link unambiguous. *)
From S2P Require Export PyValue.
From Stdlib Require Import DecimalString DecimalZ.

Module Sha256.
Local Open Scope N_scope.

Definition wmask : N := 0xffffffff.
Definition wadd (a b : N) : N := N.land (a + b) wmask.
Definition rotr (n x : N) : N := N.lor (N.shiftr x n) (N.land (N.shiftl x (32 - n)) wmask).
Definition wnot (x : N) : N := N.lxor x wmask.

(** The round constants are the first 32 bits of the fractional parts of the cube
    roots of the first 64 primes; the initial state uses square roots of the first 8. *)
Definition is_prime (n : N) : bool :=
  (2 <=? n) && forallb (λ d, negb (n mod N.of_nat d =? 0)) (seq 2 (N.to_nat n - 2)).
Definition primes : list N :=
  Eval vm_compute in select is_prime (N.of_nat <$> seq 2 310).
Fixpoint cube_root (bits : nat) (acc n : N) : N :=
  match bits with
  | O => acc
  | S b => let x := acc + N.shiftl 1 (N.of_nat b) in
           cube_root b (if x * x * x <=? n then x else acc) n
  end.
Definition frac_cbrt (p : N) : N := N.land (cube_root 36 0 (N.shiftl p 96)) wmask.
Definition frac_sqrt (p : N) : N := N.land (N.sqrt (N.shiftl p 64)) wmask.
Definition K : list N := Eval vm_compute in frac_cbrt <$> take 64 primes.

Record state := St { ra : N; rb : N; rc : N; rd : N; re : N; rf : N; rg : N; rh : N }.
Definition init : state :=
  Eval vm_compute in
    St (frac_sqrt 2) (frac_sqrt 3) (frac_sqrt 5) (frac_sqrt 7) (frac_sqrt 11) (frac_sqrt 13)
       (frac_sqrt 17) (frac_sqrt 19).

(** The message schedule: the 16 block words, then 48 derived ones. *)
Definition sched_step (w : list N) : list N :=
  let at_ i := nth i w 0 in
  let s0 x := N.lxor (N.lxor (rotr 7 x) (rotr 18 x)) (N.shiftr x 3) in
  let s1 x := N.lxor (N.lxor (rotr 17 x) (rotr 19 x)) (N.shiftr x 10) in
  (* [w] is kept newest first: [at_ 0] is w[t-1] *)
  wadd (wadd (s1 (at_ 1%nat)) (at_ 6%nat)) (wadd (s0 (at_ 14%nat)) (at_ 15%nat)) :: w.
Definition schedule (block : list N) : list N := rev (Nat.iter 48 sched_step (rev block)).

Definition round (st : state) (kw : N * N) : state :=
  let '(St a b c d e f g h) := st in
  let S1 := N.lxor (N.lxor (rotr 6 e) (rotr 11 e)) (rotr 25 e) in
  let ch := N.lxor (N.land e f) (N.land (wnot e) g) in
  let t1 := wadd (wadd (wadd h S1) (wadd ch kw.1)) kw.2 in
  let S0 := N.lxor (N.lxor (rotr 2 a) (rotr 13 a)) (rotr 22 a) in
  let maj := N.lxor (N.lxor (N.land a b) (N.land a c)) (N.land b c) in
  St (wadd t1 (wadd S0 maj)) a b c (wadd d t1) e f g.

Definition compress (st : state) (block : list N) : state :=
  let st' := foldl round st (combine K (schedule block)) in
  St (wadd (ra st) (ra st')) (wadd (rb st) (rb st')) (wadd (rc st) (rc st')) (wadd (rd st) (rd st'))
     (wadd (re st) (re st')) (wadd (rf st) (rf st')) (wadd (rg st) (rg st')) (wadd (rh st) (rh st')).

Definition be_bytes (k : nat) (n : N) : list N :=
  map (λ i, N.land (N.shiftr n (8 * N.of_nat i)) 255) (rev (seq 0 k)).
Fixpoint words (bytes : list N) : list N :=
  match bytes with
  | a :: b :: c :: d :: rest =>
      (N.shiftl a 24 + N.shiftl b 16 + N.shiftl c 8 + d) :: words rest
  | _ => []
  end.
Definition padded (bytes : list N) : list N :=
  let n := N.of_nat (length bytes) in
  bytes ++ [128] ++ repeat 0 (N.to_nat ((119 - n mod 64) mod 64)) ++ be_bytes 8 (8 * n).
Fixpoint blocks (fuel : nat) (ws : list N) : list (list N) :=
  match fuel, ws with
  | S fuel', _ :: _ => take 16 ws :: blocks fuel' (drop 16 ws)
  | _, _ => []
  end.
Definition digest (bytes : list N) : state :=
  let ws := words (padded bytes) in foldl compress init (blocks (length ws) ws).

Definition hex_word (n : N) : string :=
  let h i := hex_digit (N.land (N.shiftr n i) 15) in
  String (h 28) (String (h 24) (String (h 20) (String (h 16)
    (String (h 12) (String (h 8) (String (h 4) (String (h 0) ""))))))).
Definition hexdigest (st : state) : string :=
  hex_word (ra st) +:+ hex_word (rb st) +:+ hex_word (rc st) +:+ hex_word (rd st)
  +:+ hex_word (re st) +:+ hex_word (rf st) +:+ hex_word (rg st) +:+ hex_word (rh st).
End Sha256.

(** [data.encode("utf-8")] *)
Definition utf8_char (c : ascii) : list N :=
  let n := code c in
  if (n <? 128)%N then [n] else [192 + n / 64; 128 + n mod 64]%N.
Fixpoint utf8 (s : string) : list N :=
  match s with EmptyString => [] | String c s' => utf8_char c ++ utf8 s' end.

Definition sha256_hex (data : string) : string := Sha256.hexdigest (Sha256.digest (utf8 data)).

Example sha256_empty : sha256_hex ""
  = "e3b0c44298fc1c149afbf4c8996fb92427ae41e4649b934ca495991b7852b855".
Proof. vm_compute. reflexivity. Qed.
Example sha256_two_blocks : sha256_hex "abcdbcdecdefdefgefghfghighijhijkijkljklmklmnlmnomnopnopq"
  = "248d6a61d20638b8e5c026930c3e6039a33ce45964ff2167f6ecedd419db06c1".
Proof. vm_compute. reflexivity. Qed.

Lemma sha256_hex_length s : String.length (sha256_hex s) = 64.
Proof. unfold sha256_hex, Sha256.hexdigest. by rewrite !length_app_str. Qed.

(** ** Canonical JSON *)

Definition json_char (c : ascii) : string :=
  match code c with
  | 34%N | 92%N => String "\" (String c "")
  | 10%N => "\n" | 13%N => "\r" | 9%N => "\t" | 12%N => "\f" | 8%N => "\b"
  | n => if in_range 32 126 c then String c "" else "\u00" +:+ hex2 n
  end.
Definition json_str (s : string) : string :=
  String dquote_ch (str_concat_map json_char s +:+ String dquote_ch "").
Definition json_float (f : float) : string :=
  match f with
  | S754_nan => "NaN"
  | S754_infinity s => if s then "-Infinity" else "Infinity"
  | _ => fl_repr f
  end.

Fixpoint json_enc (v : pyval) : string :=
  match v with
  | VNone => "null"
  | VBool b => if b then "true" else "false"
  | VInt z => str_of_Z z
  | VFloat f => json_float f
  | VStr s => json_str s
  | VList l => String "[" (join "," (map json_enc l) +:+ "]")
  | VDict d => String "{" (join "," (map (λ kv, json_str kv.1 +:+ ":" +:+ json_enc kv.2) d) +:+ "}")
  end.

(** [sort_keys=True]: the members of every object in key order. *)
Definition key_le {A} (a b : string * A) : Prop := String.le a.1 b.1.
#[export] Instance key_le_dec {A} (a b : string * A) : Decision (key_le a b).
Proof. unfold key_le. apply _. Defined.
Definition sort_items {A} (d : list (string * A)) : list (string * A) := merge_sort key_le d.
Fixpoint json_norm (v : pyval) : pyval :=
  match v with
  | VList l => VList (map json_norm l)
  | VDict d => VDict (sort_items (map (λ kv, (kv.1, json_norm kv.2)) d))
  | _ => v
  end.

Definition canonical_json (payload : pyval) : string := json_enc (json_norm payload).
Definition chained_hash (previous_hash : string) (payload : pyval) : string :=
  sha256_hex (previous_hash +:+ "|" +:+ canonical_json payload).

(** ** Injectivity of the encoder *)

(** Values without floats: the ones whose text determines them here. *)
Fixpoint float_free (v : pyval) : bool :=
  match v with
  | VFloat _ => false
  | VList l => forallb float_free l
  | VDict d => forallb (λ kv, float_free kv.2) d
  | _ => true
  end.

Definition hex_val (c : ascii) : N := if is_digit c then code c - 48 else code c - 87.
(** Reads one encoded character back. *)
Definition json_unchar (s : string) : option (ascii * string) :=
  match s with
  | String "\" (String "u" (String _ (String _ (String a (String b r))))) =>
      Some (chr (16 * hex_val a + hex_val b), r)
  | String "\" (String e r) =>
      Some (match e with "n" => chr 10 | "r" => chr 13 | "t" => chr 9 | "f" => chr 12
            | "b" => chr 8 | _ => e end%char, r)
  | String c r => if Ascii.eqb c dquote_ch then None else Some (c, r)
  | EmptyString => None
  end.

Lemma json_unchar_char c r : json_unchar (json_char c +:+ r) = Some (c, r).
Proof. destruct c as [[] [] [] [] [] [] [] []]; reflexivity. Qed.

Lemma json_chars_inj s t r1 r2 :
  str_concat_map json_char s +:+ String dquote_ch r1
    = str_concat_map json_char t +:+ String dquote_ch r2 → s = t ∧ r1 = r2.
Proof.
  revert t. induction s as [|c s IH]; intros [|d t] H; cbn [str_concat_map] in H;
    rewrite ?app_assoc_str in H; apply (f_equal json_unchar) in H as H';
    rewrite ?json_unchar_char in H'; try discriminate H'.
  - by injection H as ->.
  - injection H' as -> H'. by destruct (IH t H') as [-> ->].
Qed.

Lemma json_str_inj s t r1 r2 : json_str s +:+ r1 = json_str t +:+ r2 → s = t ∧ r1 = r2.
Proof.
  unfold json_str. intros H. injection H as H. rewrite !app_assoc_str in H.
  by apply json_chars_inj.
Qed.

Definition int_char (c : ascii) : bool := is_digit c || (code c =? 45)%N.
(** What may follow a value: the end, or a character no number continues with. *)
Definition delimited (r : string) : Prop :=
  match r with EmptyString => True | String c _ => int_char c = false end.

Lemma uint_chars d : str_all int_char (NilEmpty.string_of_uint d) = true.
Proof. induction d; simpl; done. Qed.
Lemma int_chars z : str_all int_char (str_of_Z z) = true.
Proof.
  assert (∀ d, str_all int_char (NilZero.string_of_uint d) = true) as Hu.
  { intros []; [done|..]; apply uint_chars. }
  unfold str_of_Z. destruct (Z.to_int z); simpl; apply Hu.
Qed.
Lemma int_head z : ∃ c r, str_of_Z z = String c r ∧ int_char c = true.
Proof.
  pose proof (int_chars z) as H.
  destruct (str_of_Z z) as [|c r] eqn:E.
  - unfold str_of_Z in E. by destruct (Z.to_int z) as [[]|[]].
  - exists c, r. apply andb_prop in H as [H _]. done.
Qed.

Lemma all_chars_inj a b r1 r2 :
  str_all int_char a = true → str_all int_char b = true → delimited r1 → delimited r2 →
  a +:+ r1 = b +:+ r2 → a = b ∧ r1 = r2.
Proof.
  revert b. induction a as [|c a IH]; intros [|d b] Ha Hb H1 H2 H; simpl in *; py_bool.
  - done.
  - subst r1. simpl in H1. congruence.
  - subst r2. simpl in H2. congruence.
  - injection H as -> H. by destruct (IH b) as [-> ->].
Qed.

(** *** Comma-separated sequences *)

Section seq.
Context {A : Type} (f : A → string) (close : ascii).
Context (Hclose : int_char close = false) (Hcomma : close ≠ ","%char).

Fixpoint tail_of (l : list A) : string :=
  match l with [] => "" | x :: l' => "," +:+ f x +:+ tail_of l' end.

Lemma join_cons x l : join "," (map f (x :: l)) = f x +:+ tail_of l.
Proof.
  revert x. induction l as [|y l IH]; intros x; simpl; [by rewrite app_nil_r_str|].
  specialize (IH y). simpl in IH. by rewrite IH.
Qed.

Lemma tail_delimited l r : delimited (tail_of l +:+ String close r).
Proof. by destruct l. Qed.

(** [x] is read back unambiguously among the values satisfying [ok]. *)
Definition readable (ok : A → Prop) (x : A) : Prop := ∀ y r1 r2,
  ok y → delimited r1 → delimited r2 → f x +:+ r1 = f y +:+ r2 → x = y ∧ r1 = r2.

Lemma tail_inj ok l l' r1 r2 :
  Forall (readable ok) l → Forall ok l' →
  tail_of l +:+ String close r1 = tail_of l' +:+ String close r2 → l = l' ∧ r1 = r2.
Proof.
  intros Hl. revert l'. induction Hl as [|x l Hx Hl IH]; intros l' Hl' H; destruct Hl' as [|y l' Hy Hl'].
  - by injection H as ->.
  - injection H as H. by destruct Hcomma.
  - injection H as H. by destruct Hcomma.
  - cbn [tail_of] in H. rewrite !app_assoc_str in H. injection H as H.
    destruct (Hx y _ _ Hy (tail_delimited _ _) (tail_delimited _ _) H) as [-> H'].
    by destruct (IH l' Hl' H') as [-> ->].
Qed.

Lemma join_inj ok l l' r1 r2 :
  Forall (readable ok) l → Forall ok l → Forall ok l' →
  (∀ x r r', ok x → f x +:+ r ≠ String close r') →
  join "," (map f l) +:+ String close r1 = join "," (map f l') +:+ String close r2 →
  l = l' ∧ r1 = r2.
Proof.
  intros Hl Hok Hl' Hne H.
  destruct l as [|x l], l' as [|y l']; rewrite ?join_cons, ?app_assoc_str in H.
  - by injection H as ->.
  - apply Forall_cons_1 in Hl' as [Hy _]. by destruct (Hne y (tail_of l' +:+ String close r2) r1 Hy).
  - apply Forall_cons_1 in Hok as [Hx _]. by destruct (Hne x (tail_of l +:+ String close r1) r2 Hx).
  - clear Hok. inversion_clear Hl as [|? ? Hx Hl2]. inversion_clear Hl' as [|? ? Hy Hl2'].
    destruct (Hx y _ _ Hy (tail_delimited _ _) (tail_delimited _ _) H) as [-> H'].
    by destruct (tail_inj ok l l' r1 r2 Hl2 Hl2' H') as [-> ->].
Qed.
End seq.

(** *** Values *)

(** The constructor of a value, read off the first character of its text. *)
Definition head_tag (s : string) : nat :=
  match s with
  | EmptyString => 9
  | String c _ =>
      match c with
      | "n" => 0 | "t" => 1 | "f" => 2 | "[" => 4 | "{" => 5
      | _ => if Ascii.eqb c dquote_ch then 6 else if int_char c then 3 else 8
      end%char
  end.
Definition value_tag (v : pyval) : nat :=
  match v with
  | VNone => 0 | VBool true => 1 | VBool false => 2 | VInt _ => 3 | VList _ => 4 | VDict _ => 5
  | VStr _ => 6 | VFloat _ => 7
  end.

Lemma int_char_tag c r : int_char c = true → head_tag (String c r) = 3.
Proof. destruct c as [[] [] [] [] [] [] [] []]; intros H; first [discriminate H | reflexivity]. Qed.

Lemma enc_tag v r : float_free v = true → head_tag (json_enc v +:+ r) = value_tag v.
Proof.
  destruct v as [|[]|z|f|s|l|d]; intros Hf; try done.
  destruct (int_head z) as (c & t & Hz & Hc). cbn [json_enc]. rewrite Hz. by apply int_char_tag.
Qed.

Lemma enc_not_close v r r' : float_free v = true → json_enc v +:+ r ≠ String "]" r'.
Proof. intros Hf H. apply (f_equal head_tag) in H. rewrite enc_tag in H by done. by destruct v as [|[]|?|?|?|?|?]. Qed.

Definition ff_readable : pyval → Prop := readable json_enc (λ v, float_free v = true).

Definition json_pair (kv : string * pyval) : string := json_str kv.1 +:+ ":" +:+ json_enc kv.2.

Lemma pair_readable kv :
  ff_readable kv.2 → readable json_pair (λ kv, float_free kv.2 = true) kv.
Proof.
  destruct kv as [k v]; intros Hv [k' v'] r1 r2 Hy H1 H2 H. unfold json_pair in H; cbn [fst snd] in *.
  rewrite !(app_assoc_str (json_str _)) in H. apply json_str_inj in H as [-> H]. injection H as H.
  by destruct (Hv v' r1 r2 Hy H1 H2 H) as [-> ->].
Qed.

Lemma forallb_Forall {A} (p : A → bool) l : forallb p l = true ↔ Forall (λ x, p x = true) l.
Proof. rewrite forallb_forall, List.Forall_forall. done. Qed.

Theorem json_enc_readable v : float_free v = true → ff_readable v.
Proof.
  induction v as [|b|z|f|s|l IH|d IH] using pyval_nested_ind; intros Hv w r1 r2 Hw H1 H2 H;
    pose proof (f_equal head_tag H) as Ht; rewrite !enc_tag in Ht by done.
  - destruct w as [|[]|?|?|?|?|?]; try discriminate Ht. by injection H as ->.
  - destruct b, w as [|[]|?|?|?|?|?]; try discriminate Ht; by injection H as ->.
  - destruct w as [|[]|z'|?|?|?|?]; try discriminate Ht. cbn [json_enc] in H.
    apply all_chars_inj in H as [Hz ->]; [|apply int_chars | apply int_chars | done | done].
    by apply str_of_Z_inj in Hz as ->.
  - done.
  - destruct w as [|[]|?|?|s'|?|?]; try discriminate Ht. cbn [json_enc] in H.
    by apply json_str_inj in H as [-> ->].
  - destruct w as [|[]|?|?|?|l'|?]; try discriminate Ht. cbn [json_enc] in H.
    injection H as H. rewrite !app_assoc_str in H. simpl in Hv, Hw.
    apply forallb_Forall in Hv, Hw.
    apply (join_inj json_enc "]" eq_refl ltac:(discriminate) (λ v, float_free v = true)) in H as [-> ->];
      [done | | done | done | intros x ? ? Hx; by apply enc_not_close].
    apply Forall_forall. intros x Hx. rewrite Forall_forall in IH, Hv. by apply IH, Hv.
  - destruct w as [|[]|?|?|?|?|d']; try discriminate Ht. cbn [json_enc] in H.
    injection H as H. rewrite !app_assoc_str in H. simpl in Hv, Hw.
    apply forallb_Forall in Hv, Hw.
    apply (join_inj json_pair "}" eq_refl ltac:(discriminate) (λ kv, float_free kv.2 = true))
      in H as [-> ->]; [done | | done | done | intros [k x] ? ? Hx; discriminate].
    apply Forall_forall. intros x Hx. rewrite Forall_forall in IH, Hv.
    by apply pair_readable, IH, Hv.
Qed.

Lemma float_free_norm v : float_free (json_norm v) = float_free v.
Proof.
  induction v as [| | | | |l IH|d IH] using pyval_nested_ind; try done; cbn [json_norm float_free].
  - apply eq_true_iff_eq. rewrite !forallb_Forall, Forall_map. rewrite Forall_forall in IH.
    rewrite !Forall_forall. split; intros H x Hx; specialize (H x Hx); simpl in *; [by rewrite <-IH | by rewrite IH].
  - apply eq_true_iff_eq. rewrite !forallb_Forall, !Forall_forall. rewrite Forall_forall in IH.
    unfold sort_items. setoid_rewrite (merge_sort_Permutation key_le). split.
    + intros H x Hx. rewrite <-IH by done. apply (H (x.1, json_norm x.2)).
      apply list_elem_of_fmap. by exists x.
    + intros H x (y & -> & Hy)%list_elem_of_fmap. simpl. rewrite IH by done. by apply H.
Qed.

(** Two float-free payloads with the same canonical text are equal up to the
    order of object members. *)
Theorem canonical_json_inj v w :
  float_free v = true → float_free w = true →
  canonical_json v = canonical_json w → json_norm v = json_norm w.
Proof.
  intros Hv Hw H. unfold canonical_json in H.
  assert (float_free (json_norm v) = true) as Hv' by by rewrite float_free_norm.
  assert (float_free (json_norm w) = true) as Hw' by by rewrite float_free_norm.
  destruct (json_enc_readable _ Hv' _ "" "" Hw' I I) as [He _]; [|done].
  by rewrite !app_nil_r_str.
Qed.

(** Two texts that SHA-256 does not tell apart. *)
Definition collide (x y : string) : Prop := x ≠ y ∧ sha256_hex x = sha256_hex y.
(** The text that is hashed for a link of a chain. *)
Definition link_text (previous : string) (v : pyval) : string := previous +:+ "|" +:+ canonical_json v.

(** Equal links come from equal previous hashes and equal payloads, or their two texts
    collide. *)
Theorem chained_hash_inj p q v w :
  String.length p = String.length q → float_free v = true → float_free w = true →
  chained_hash p v = chained_hash q w →
  (p = q ∧ json_norm v = json_norm w) ∨ collide (link_text p v) (link_text q w).
Proof.
  intros Hl Hv Hw H. unfold chained_hash in H.
  destruct (decide (p +:+ "|" +:+ canonical_json v = q +:+ "|" +:+ canonical_json w)) as [He|Hne].
  - left. apply app_inj_length in He as [-> He]; [|done]. injection He as He.
    auto using canonical_json_inj.
  - right. by split.
Qed.
