(* ===== verification/Schemas.v ===== *)
(** * Typed contracts

    The records of [packages/schemas/blueteam_schemas] that the engines exchange.
    A pydantic model is a [Record]; a [Literal] type is an [Inductive] with its
    string form; a field validator is a [validate_*] function that raises what
    pydantic raises. *)
From S2P Require Export PyValue.
Local Open Scope Z_scope.

Definition SCHEMA_VERSION : string := "1.0.0".

Inductive Severity := Informational | Low | Medium | High | Critical.
Inductive Outcome := Success | Failure | Unknown.
#[export] Instance Severity_eq_dec : EqDecision Severity. Proof. solve_decision. Defined.
#[export] Instance Outcome_eq_dec : EqDecision Outcome. Proof. solve_decision. Defined.

Definition severity_str (s : Severity) : string :=
  match s with
  | Informational => "informational" | Low => "low" | Medium => "medium"
  | High => "high" | Critical => "critical"
  end.
Definition outcome_str (o : Outcome) : string :=
  match o with Success => "success" | Failure => "failure" | Unknown => "unknown" end.

(** ** [ids.py] *)

Definition new_id `{Oracle} {S} (get_draws : S → draws) (put_draws : draws → S → S)
    (prefix : string) : M S string :=
  λ s, (Ok (prefix +:+ "_" +:+ uuid_hex (n_uuid (get_draws s))),
        put_draws (fresh_uuid (get_draws s)) s).
Definition utcnow `{Oracle} {S} (get_draws : S → draws) (put_draws : draws → S → S) : M S datetime :=
  λ s, (Ok (clock (n_clock (get_draws s))), put_draws (tick (get_draws s)) s).
Definition is_prefixed (value prefix : string) : bool :=
  startswith value (prefix +:+ "_")
  && (String.length value =? String.length prefix + 1 + 32)%nat.

(** ** [events.py] *)

Record CanonicalUser := {
  u_name : option string; u_id : option string; u_email : option string; u_domain : option string }.
Record CanonicalHost := {
  h_name : option string; h_id : option string; h_os : option string; h_ip : option string }.
Record CanonicalProcess := {
  p_name : option string; p_pid : option Z; p_command_line : option string;
  p_hash : option string; p_path : option string }.
Record CanonicalFile := {
  f_name : option string; f_path : option string; f_hash_md5 : option string;
  f_hash_sha1 : option string; f_hash_sha256 : option string; f_size : option Z }.
Record CanonicalIdentity := {
  i_id : option string; i_type : option string; i_provider : option string }.
Record CanonicalCloudResource := {
  c_provider : option string; c_account_id : option string; c_resource_id : option string;
  c_resource_type : option string; c_region : option string }.

Record CanonicalEvent := {
  e_id : string;
  e_tenant_id : string;
  e_timestamp : datetime;
  e_ingested_at : datetime;
  e_source : string;
  e_source_type : string;
  e_event_type : string;
  e_category : string;
  e_user : option CanonicalUser;
  e_host : option CanonicalHost;
  e_process : option CanonicalProcess;
  e_parent_process : option CanonicalProcess;
  e_src_ip : option string;
  e_dst_ip : option string;
  e_src_port : option Z;
  e_dst_port : option Z;
  e_protocol : option string;
  e_domain : option string;
  e_url : option string;
  e_file : option CanonicalFile;
  e_hash : option string;
  e_identity : option CanonicalIdentity;
  e_cloud_resource : option CanonicalCloudResource;
  e_action : option string;
  e_outcome : option Outcome;
  e_severity : Severity;
  e_confidence : float;
  e_risk_score : float;
  e_raw_event : pydict;
  e_schema_version : string;
  e_attributes : pydict;
  e_idempotency_key : option string;
  e_correlation_id : option string;
  e_trace_id : option string;
  e_raw_hash : option string;
}.

(** [_bounded] and [_tenant_required]. *)
Definition score_in_bounds (value : float) : bool :=
  negb (fl_lt value (fl_of_Z 0) || fl_lt (fl_of_Z 100) value).
Definition tenant_ok (value : string) : bool := nonempty value && startswith value "ten_".
Definition validate_event (e : CanonicalEvent) : result CanonicalEvent :=
  if negb (score_in_bounds (e_confidence e) && score_in_bounds (e_risk_score e))
  then Raise (ValueError "score must be between 0 and 100")
  else if negb (tenant_ok (e_tenant_id e))
  then Raise (ValueError "tenant_id must be a ten_ prefixed identifier")
  else Ok e.

(** [event.user.name if event.user else None] and the like. *)
Definition user_name (e : CanonicalEvent) : option string := u ← e_user e; u_name u.
Definition host_name (e : CanonicalEvent) : option string := h ← e_host e; h_name h.
Definition process_name (e : CanonicalEvent) : option string := p ← e_process e; p_name p.
(** [event.user and event.user.name] as a condition. *)
Definition has_user_name (e : CanonicalEvent) : bool := otrue (user_name e).

(** An event with the default of every optional field, for examples. *)
Definition blank_event (id tenant : string) (ts : datetime) : CanonicalEvent := {|
  e_id := id; e_tenant_id := tenant; e_timestamp := ts; e_ingested_at := ts;
  e_source := "test"; e_source_type := "test"; e_event_type := "unknown"; e_category := "unknown";
  e_user := None; e_host := None; e_process := None; e_parent_process := None;
  e_src_ip := None; e_dst_ip := None; e_src_port := None; e_dst_port := None;
  e_protocol := None; e_domain := None; e_url := None; e_file := None; e_hash := None;
  e_identity := None; e_cloud_resource := None; e_action := None; e_outcome := None;
  e_severity := Informational; e_confidence := fl_of_Z 1; e_risk_score := fl_of_Z 0;
  e_raw_event := []; e_schema_version := SCHEMA_VERSION; e_attributes := [];
  e_idempotency_key := None; e_correlation_id := None; e_trace_id := None; e_raw_hash := None |}.

(** ** [findings.py] *)

Inductive EvidenceRole := Trigger | Supporting | ContextRole.
#[export] Instance EvidenceRole_eq_dec : EqDecision EvidenceRole. Proof. solve_decision. Defined.
Record FindingEvidence := {
  fe_evidence_id : string; fe_event_id : option string; fe_role : EvidenceRole }.
Record Finding := {
  fi_id : string;
  fi_tenant_id : string;
  fi_rule_id : string;
  fi_rule_version : string;
  fi_title : string;
  fi_description : string;
  fi_severity : Severity;
  fi_confidence : float;
  fi_fingerprint : string;
  fi_mitre_tactics : list string;
  fi_mitre_techniques : list string;
  fi_event_ids : list string;
  fi_evidence : list FindingEvidence;
  fi_explanation : string;
  fi_created_at : datetime;
  fi_attributes : list (string * string);
}.
(** [finding.attributes.get(k)] *)
Definition fattr (k : string) (f : Finding) : option string := dget k (fi_attributes f).

(** ** [storylines.py] *)

Record StorylineStage := {
  st_name : string; st_rule_ids : list string; st_event_ids : list string;
  st_evidence_ids : list string; st_timestamp : option datetime }.
Record Storyline := {
  sl_storyline_id : string;
  sl_tenant_id : string;
  sl_title : string;
  sl_entities : list (string * list string);
  sl_stages : list StorylineStage;
  sl_confidence : float;
  sl_evidence_ids : list string;
  sl_event_ids : list string;
  sl_mitre_techniques : list string;
  sl_start : datetime;
  sl_end : datetime;
  sl_attributes : list (string * string);
}.

(** ** [evidence.py] *)

Inductive ConfidenceLevel :=
| PRIMARY_TELEMETRY | DETERMINISTIC_DERIVED | STATISTICAL_INFERENCE | AI_INTERPRETATION
| ANALYST_ASSESSMENT.
Definition confidence_level_value (c : ConfidenceLevel) : Z :=
  match c with
  | PRIMARY_TELEMETRY => 1 | DETERMINISTIC_DERIVED => 2 | STATISTICAL_INFERENCE => 3
  | AI_INTERPRETATION => 4 | ANALYST_ASSESSMENT => 5
  end.
Record IncidentClaim := {
  cl_id : string; cl_tenant_id : string; cl_incident_id : option string; cl_claim_text : string;
  cl_confidence : float;
  cl_supporting_evidence_ids : list string; cl_contradicting_evidence_ids : list string;
  cl_inference_type : ConfidenceLevel; cl_model_or_rule_version : string;
  cl_unknowns : list string; cl_analyst_disposition : option string }.
Definition validate_evidence_refs (c : IncidentClaim) (known_ids : list string) : result unit :=
  let missing := select (λ eid, negb (mem eid known_ids)) (cl_supporting_evidence_ids c) in
  if negb (bool_decide (missing = []))
  then Raise (ValueError ("unsupported evidence references: " +:+ py_str (VList (VStr <$> missing))))
  else
    let missing_c := select (λ eid, negb (mem eid known_ids)) (cl_contradicting_evidence_ids c) in
    if negb (bool_decide (missing_c = []))
    then Raise (ValueError ("unsupported contradicting evidence references: "
                            +:+ py_str (VList (VStr <$> missing_c))))
    else Ok tt.

Lemma validate_evidence_refs_ok c known :
  validate_evidence_refs c known = Ok tt ↔
  (∀ i, i ∈ cl_supporting_evidence_ids c → i ∈ known)
  ∧ (∀ i, i ∈ cl_contradicting_evidence_ids c → i ∈ known).
Proof.
  assert (∀ l, select (λ i, negb (mem i known)) l = [] ↔ ∀ i, i ∈ l → i ∈ known) as Hs.
  { intros l. rewrite select_nil_iff. split; intros H i Hi; specialize (H i Hi);
      [apply mem_spec; by apply negb_false_iff | apply negb_false_iff; by apply mem_spec]. }
  unfold validate_evidence_refs. rewrite <-!Hs. repeat case_bool_decide; simpl; naive_solver.
Qed.
