(* ===== verification/Pydantic.v ===== *)
(** * Validated models

    [CanonicalEvent] and its parts as [packages/schemas/blueteam_schemas/events.py] declares
    them, filled from dynamic values. How pydantic converts one value to one type is a
    parameter; which fields there are, which are required, their defaults and validators
    are the source's. *)
From S2P Require Export Schemas.
Local Open Scope Z_scope.

(** What a value becomes in a field of a type, if it is accepted there, and the text of the
    [ValidationError] for the fields that failed and their values. *)
Class Pydantic := {
  as_str : pyval → option string; as_int : pyval → option Z; as_float : pyval → option float;
  as_datetime : pyval → option py_datetime; validation_message : list (string * pyval) → string }.
(** A string field takes strings, unchanged, and nothing else; numbers of the right type
    are taken unchanged. *)
Class PydanticLaws (P : Pydantic) := {
  as_str_iff : ∀ v s, as_str v = Some s ↔ v = VStr s;
  as_int_int : ∀ z, as_int (VInt z) = Some z;
  as_float_int : ∀ z, as_float (VInt z) = Some (fl_of_Z z);
  as_float_float : ∀ f, as_float (VFloat f) = Some f }.

(** ** Validation collects every failure *)

Inductive checked (A : Type) := Good (a : A) | Bad (failing : list (string * pyval)).
Arguments Good {A} a.
Arguments Bad {A} failing.
Definition with_field {A B} (f : checked (A → B)) (x : checked A) : checked B :=
  match f, x with
  | Good f, Good a => Good (f a)
  | Bad l, Bad l' => Bad (l ++ l')
  | Bad l, Good _ | Good _, Bad l => Bad l
  end.
Infix "⊛" := with_field (at level 61, left associativity) : py_scope.
Local Open Scope py_scope.
Lemma with_field_good {A B} (f : checked (A → B)) x b :
  f ⊛ x = Good b → ∃ g a, f = Good g ∧ x = Good a ∧ b = g a.
Proof. destruct f, x; try discriminate. intros [= <-]. eauto. Qed.

(** A field [T], a field [T | None = None], a field with a default, and a nested model. *)
Definition required {A} (conv : pyval → option A) (k : string) (d : pydict) : checked A :=
  match v ← dget k d; conv v with Some a => Good a | None => Bad [(k, dgetv k d)] end.
Definition optional {A} (conv : pyval → option A) (v : pyval) : option (option A) :=
  match v with VNone => Some None | _ => Some <$> conv v end.
Definition defaulted {A} (conv : pyval → option A) (a : A) (k : string) (d : pydict) : checked A :=
  match dget k d with Some _ => required conv k d | None => Good a end.
Definition nullable {A} (conv : pyval → option A) : string → pydict → checked (option A) :=
  defaulted (optional conv) None.
Definition nested {A} (model : pydict → checked A) (k : string) (d : pydict) : checked (option A) :=
  match dgetv k d with
  | VNone => Good None
  | VDict d' => match model d' with
                | Good a => Good (Some a)
                | Bad l => Bad ((λ f, (k +:+ "." +:+ f.1, f.2)) <$> l)
                end
  | v => Bad [(k, v)]
  end.
Definition dict_value (v : pyval) : option pydict := match v with VDict d => Some d | _ => None end.
(** [Literal[...]] *)
Definition as_severity (v : pyval) : option Severity :=
  match v with VStr s => find_first (λ x, severity_str x =? s)%string [Informational; Low; Medium; High; Critical] | _ => None end.
Definition as_outcome (v : pyval) : option Outcome :=
  match v with VStr s => find_first (λ x, outcome_str x =? s)%string [Success; Failure; Unknown] | _ => None end.

Section models.
Context `{Pydantic}.
Definition validated {A} (c : checked A) : result A :=
  match c with Good a => Ok a | Bad failing => Raise (ValueError (validation_message failing)) end.
Definition text (k : string) (d : pydict) : checked (option string) := nullable as_str k d.
Definition user_model (d : pydict) : checked CanonicalUser :=
  Good Build_CanonicalUser ⊛ text "name" d ⊛ text "id" d ⊛ text "email" d ⊛ text "domain" d.
Definition host_model (d : pydict) : checked CanonicalHost :=
  Good Build_CanonicalHost ⊛ text "name" d ⊛ text "id" d ⊛ text "os" d ⊛ text "ip" d.
Definition process_model (d : pydict) : checked CanonicalProcess :=
  Good Build_CanonicalProcess ⊛ text "name" d ⊛ nullable as_int "pid" d ⊛ text "command_line" d ⊛ text "hash" d
  ⊛ text "path" d.
Definition file_model (d : pydict) : checked CanonicalFile :=
  Good Build_CanonicalFile ⊛ text "name" d ⊛ text "path" d ⊛ text "hash_md5" d ⊛ text "hash_sha1" d
  ⊛ text "hash_sha256" d ⊛ nullable as_int "size" d.
Definition identity_model (d : pydict) : checked CanonicalIdentity :=
  Good Build_CanonicalIdentity ⊛ text "id" d ⊛ text "type" d ⊛ text "provider" d.
Definition cloud_model (d : pydict) : checked CanonicalCloudResource :=
  Good Build_CanonicalCloudResource ⊛ text "provider" d ⊛ text "account_id" d ⊛ text "resource_id" d
  ⊛ text "resource_type" d ⊛ text "region" d.

(** [_bounded] and [_tenant_required] on the converted value. *)
Definition as_score (v : pyval) : option float := f ← as_float v; if score_in_bounds f then Some f else None.
Definition as_tenant (v : pyval) : option string := s ← as_str v; if tenant_ok s then Some s else None.

(** An event before it is known that its two times have an offset. *)
Record Draft := {
  dr_timestamp : py_datetime; dr_ingested_at : py_datetime; dr_event : datetime → datetime → CanonicalEvent }.
(** The parts that are no plain values: times and nested models, already built by an
    adapter or read from the dict. *)
Record Parts := {
  pt_timestamp : checked py_datetime; pt_ingested_at : checked py_datetime;
  pt_user : checked (option CanonicalUser); pt_host : checked (option CanonicalHost);
  pt_process : checked (option CanonicalProcess); pt_parent_process : checked (option CanonicalProcess);
  pt_file : checked (option CanonicalFile) }.
Definition draft (id tenant : string) (timestamp ingested_at : py_datetime) (source source_type event_type category : string)
    (user : option CanonicalUser) (host : option CanonicalHost) (process parent : option CanonicalProcess)
    (src dst : option string) (sport dport : option Z) (protocol domain url : option string) (file : option CanonicalFile)
    (hash : option string) (identity : option CanonicalIdentity) (cloud : option CanonicalCloudResource)
    (action : option string) (outcome : option Outcome) (severity : Severity) (confidence risk : float)
    (raw_event : pydict) (version : string) (attributes : pydict) (key correlation trace raw_hash : option string) : Draft := {|
  dr_timestamp := timestamp; dr_ingested_at := ingested_at;
  dr_event := λ t i, {|
    e_id := id; e_tenant_id := tenant; e_timestamp := t; e_ingested_at := i; e_source := source;
    e_source_type := source_type; e_event_type := event_type; e_category := category; e_user := user; e_host := host;
    e_process := process; e_parent_process := parent; e_src_ip := src; e_dst_ip := dst; e_src_port := sport;
    e_dst_port := dport; e_protocol := protocol; e_domain := domain; e_url := url; e_file := file; e_hash := hash;
    e_identity := identity; e_cloud_resource := cloud; e_action := action; e_outcome := outcome; e_severity := severity;
    e_confidence := confidence; e_risk_score := risk; e_raw_event := raw_event; e_schema_version := version;
    e_attributes := attributes; e_idempotency_key := key; e_correlation_id := correlation; e_trace_id := trace;
    e_raw_hash := raw_hash |} |}.
(** The fields of [CanonicalEvent] in order. *)
Definition event_model (p : Parts) (d : pydict) : checked Draft :=
  Good draft ⊛ required as_str "id" d ⊛ required as_tenant "tenant_id" d ⊛ pt_timestamp p ⊛ pt_ingested_at p
  ⊛ required as_str "source" d ⊛ required as_str "source_type" d ⊛ required as_str "event_type" d
  ⊛ required as_str "category" d ⊛ pt_user p ⊛ pt_host p ⊛ pt_process p ⊛ pt_parent_process p ⊛ text "src_ip" d
  ⊛ text "dst_ip" d ⊛ nullable as_int "src_port" d ⊛ nullable as_int "dst_port" d ⊛ text "protocol" d ⊛ text "domain" d
  ⊛ text "url" d ⊛ pt_file p ⊛ text "hash" d ⊛ nested identity_model "identity" d
  ⊛ nested cloud_model "cloud_resource" d ⊛ text "action" d ⊛ nullable as_outcome "outcome" d
  ⊛ defaulted as_severity Informational "severity" d ⊛ defaulted as_score (fl_of_Z 1) "confidence" d
  ⊛ defaulted as_score (fl_of_Z 0) "risk_score" d ⊛ defaulted dict_value [] "raw_event" d
  ⊛ defaulted as_str SCHEMA_VERSION "schema_version" d ⊛ defaulted dict_value [] "attributes" d
  ⊛ text "idempotency_key" d ⊛ text "correlation_id" d ⊛ text "trace_id" d ⊛ text "raw_hash" d.
(** [CanonicalEvent.model_validate(payload)] *)
Definition model_validate (d : pydict) : result Draft :=
  validated (event_model {|
    pt_timestamp := required as_datetime "timestamp" d; pt_ingested_at := required as_datetime "ingested_at" d;
    pt_user := nested user_model "user" d; pt_host := nested host_model "host" d;
    pt_process := nested process_model "process" d; pt_parent_process := nested process_model "parent_process" d;
    pt_file := nested file_model "file" d |} d).
(** [CanonicalEvent(timestamp=..., user=..., **d)] with parts that are models already. *)
Record Args := {
  ar_timestamp : py_datetime; ar_ingested_at : datetime; ar_user : option CanonicalUser; ar_host : option CanonicalHost;
  ar_process : option CanonicalProcess; ar_parent_process : option CanonicalProcess; ar_file : option CanonicalFile }.
Definition canonical_event (a : Args) (d : pydict) : result Draft :=
  validated (event_model {|
    pt_timestamp := Good (ar_timestamp a); pt_ingested_at := Good (Aware (ar_ingested_at a));
    pt_user := Good (ar_user a); pt_host := Good (ar_host a); pt_process := Good (ar_process a);
    pt_parent_process := Good (ar_parent_process a); pt_file := Good (ar_file a) |} d).
End models.

(** ** What a model that was built holds *)

Section model_facts.
Context `{P : Pydantic}.

Lemma validated_ok {A} (c : checked A) a : validated c = Ok a ↔ c = Good a.
Proof. destruct c; simpl; split; congruence. Qed.
Lemma required_good {A} (conv : pyval → option A) k d a :
  required conv k d = Good a ↔ ∃ v, dget k d = Some v ∧ conv v = Some a.
Proof.
  unfold required. destruct (dget k d) as [v|]; simpl; [|by split; [|intros (v & ? & _)]].
  destruct (conv v) eqn:E; split; try done; [intros [= ->]; eauto | intros (v' & [= ->] & ?); congruence | intros (v' & [= ->] & ?); congruence].
Qed.
Lemma defaulted_good {A} (conv : pyval → option A) x k d a :
  defaulted conv x k d = Good a ↔ (dget k d = None ∧ a = x) ∨ (∃ v, dget k d = Some v ∧ conv v = Some a).
Proof.
  unfold defaulted. destruct (dget k d) as [v|] eqn:E; [rewrite required_good, E|]; naive_solver.
Qed.
Lemma as_score_ok v f : as_score v = Some f → score_in_bounds f = true.
Proof. unfold as_score. destruct (as_float v) as [g|]; simpl; [|done]. by destruct (score_in_bounds g) eqn:E; intros [= <-]. Qed.
Lemma as_tenant_ok v t : as_tenant v = Some t → as_str v = Some t ∧ tenant_ok t = true.
Proof. unfold as_tenant. destruct (as_str v) as [s|]; simpl; [|done]. by destruct (tenant_ok s) eqn:E; intros [= <-]. Qed.

(** The facts of a draft that no later step changes. *)
Record drafted (p : Parts) (d : pydict) (dr : Draft) : Prop := {
  df_timestamp : pt_timestamp p = Good (dr_timestamp dr);
  df_ingested_at : pt_ingested_at p = Good (dr_ingested_at dr);
  df_times t i : let e := dr_event dr t i in e_timestamp e = t ∧ e_ingested_at e = i;
  df_id t i : required as_str "id" d = Good (e_id (dr_event dr t i));
  df_tenant t i : required as_tenant "tenant_id" d = Good (e_tenant_id (dr_event dr t i));
  df_source t i : required as_str "source" d = Good (e_source (dr_event dr t i));
  df_source_type t i : required as_str "source_type" d = Good (e_source_type (dr_event dr t i));
  df_event_type t i : required as_str "event_type" d = Good (e_event_type (dr_event dr t i));
  df_category t i : required as_str "category" d = Good (e_category (dr_event dr t i));
  df_user t i : pt_user p = Good (e_user (dr_event dr t i));
  df_host t i : pt_host p = Good (e_host (dr_event dr t i));
  df_process t i : pt_process p = Good (e_process (dr_event dr t i));
  df_parent t i : pt_parent_process p = Good (e_parent_process (dr_event dr t i));
  df_src_ip t i : text "src_ip" d = Good (e_src_ip (dr_event dr t i));
  df_dst_ip t i : text "dst_ip" d = Good (e_dst_ip (dr_event dr t i));
  df_outcome t i : nullable as_outcome "outcome" d = Good (e_outcome (dr_event dr t i));
  df_severity t i : defaulted as_severity Informational "severity" d = Good (e_severity (dr_event dr t i));
  df_confidence t i : defaulted as_score (fl_of_Z 1) "confidence" d = Good (e_confidence (dr_event dr t i));
  df_risk t i : defaulted as_score (fl_of_Z 0) "risk_score" d = Good (e_risk_score (dr_event dr t i));
  df_raw_event t i : defaulted dict_value [] "raw_event" d = Good (e_raw_event (dr_event dr t i));
  df_attributes t i : defaulted dict_value [] "attributes" d = Good (e_attributes (dr_event dr t i));
  df_raw_hash t i : text "raw_hash" d = Good (e_raw_hash (dr_event dr t i)) }.
Lemma event_model_good p d dr : event_model p d = Good dr → drafted p d dr.
Proof.
  unfold event_model. intros Hd.
  repeat (apply with_field_good in Hd; let g := fresh "g" in let a := fresh "a" in let H1 := fresh "Hf" in
          let H2 := fresh "Hx" in destruct Hd as (g & a & Hd & H2 & H1); try subst g; subst).
  injection Hd as <-. by constructor.
Qed.

(** Whatever the payload claims, an event that was built has a tenant identifier and scores
    in their bounds. *)
Lemma drafted_valid p d dr t i : drafted p d dr → validate_event (dr_event dr t i) = Ok (dr_event dr t i).
Proof.
  intros D. unfold validate_event.
  pose proof (df_tenant _ _ _ D t i) as (v & _ & [_ Ht]%as_tenant_ok)%required_good.
  assert (score_in_bounds (e_confidence (dr_event dr t i)) = true) as ->.
  { pose proof (df_confidence _ _ _ D t i) as [[_ ->]|(w & _ & Hw)]%defaulted_good; [done | by eapply as_score_ok]. }
  assert (score_in_bounds (e_risk_score (dr_event dr t i)) = true) as ->.
  { pose proof (df_risk _ _ _ D t i) as [[_ ->]|(w & _ & Hw)]%defaulted_good; [done | by eapply as_score_ok]. }
  by rewrite Ht.
Qed.
End model_facts.
