(* ===== verification/Store.v ===== *)
(** * The control-plane database

    The tables of [services/api/app/models] as lists of rows in insertion order,
    and one record for the whole session. A row stores the JSON dump of a pydantic
    model as the model itself. [db.add; db.flush] appends; [select(..).where(..)] is
    [select]; a unique column is checked when a row is added, as the flush does. *)
From S2P Require Export Schemas.
Local Open Scope Z_scope.

Record SecurityEvent := {
  se_id : string; se_tenant_id : string; se_timestamp : datetime; se_ingested_at : datetime;
  se_source : string; se_source_type : string; se_event_type : string; se_category : string;
  se_action : option string; se_outcome : option Outcome; se_src_ip : option string;
  se_user_name : option string; se_idempotency_key : option string; se_raw_hash : string;
  se_payload : CanonicalEvent }.
Record DeadLetterEvent := {
  dl_id : string; dl_tenant_id : option string; dl_reason : string; dl_raw_payload : pydict;
  dl_created_at : datetime }.
Record FindingRecord := {
  fr_id : string; fr_tenant_id : string; fr_rule_id : string; fr_rule_version : string;
  fr_title : string; fr_severity : Severity; fr_confidence : float; fr_fingerprint : string;
  fr_explanation : string; fr_mitre_techniques : list string; fr_event_ids : list string;
  fr_evidence_ids : list string; fr_payload : Finding; fr_created_at : datetime }.
Record Alert := {
  al_id : string; al_tenant_id : string; al_finding_id : string; al_title : string;
  al_severity : string; al_status : string; al_created_at : datetime }.

(** One entry of [evidence.payload["chain_of_custody"]]. *)
Record Custody := {
  cu_id : option string; cu_action : string; cu_actor_id : string; cu_timestamp : datetime;
  cu_integrity_hash : option string; cu_notes : option string }.
(** One entry of [evidence.transformation_history]: a step name, or a link record. *)
Inductive Transformation :=
| TStep (name : string)
| TLink (at_ actor_id incident_id integrity_hash : string).
Record Evidence := {
  ev_id : string; ev_tenant_id : string; ev_incident_id : option string; ev_source : string;
  ev_acquisition_method : string; ev_original_timestamp : datetime; ev_ingested_at : datetime;
  ev_collector_identity : string; ev_integrity_hash : string; ev_object_uri : option string;
  ev_parser_version : string; ev_transformation_history : list Transformation;
  ev_confidence_level : Z; ev_payload_event_id : string; ev_payload_raw_hash : string;
  ev_chain_of_custody : list Custody; ev_sealed : bool }.

Record AuditLog := {
  au_id : string; au_sequence : Z; au_tenant_id : option string; au_actor_type : string;
  au_actor_id : string; au_request_id : string; au_action : string; au_target_type : string;
  au_target_id : option string; au_reason : option string; au_policy_decision : option string;
  au_approval_status : option string; au_before_state : pydict; au_after_state : pydict;
  au_result : string; au_timestamp : datetime; au_previous_hash : string; au_record_hash : string }.

Record Suppression := {
  su_id : string; su_tenant_id : string; su_rule_id : string; su_entity_key : string;
  su_entity_value : string; su_reason : string; su_created_by : string;
  su_expires_at : option datetime; su_created_at : datetime }.
Record DetectionException := {
  ex_id : string; ex_tenant_id : string; ex_rule_id : string; ex_entity_key : string;
  ex_entity_value : string; ex_reason : string; ex_created_by : string; ex_created_at : datetime }.
Record RuleRevision := {
  rr_id : string; rr_rule_id : string; rr_version : string; rr_status : string; rr_name : string;
  rr_checksum : string; rr_mitre_techniques : list string; rr_execution : string;
  rr_created_at : datetime; rr_created_by : string }.
Record StorylineRecord := {
  sr_id : string; sr_tenant_id : string; sr_incident_id : option string; sr_title : string;
  sr_fingerprint : string; sr_confidence : float; sr_payload : Storyline; sr_created_at : datetime }.

(** Entries of the JSON columns [notes], [tasks] and [timeline] of an incident. *)
Record Note := { nt_id : string; nt_at : string; nt_author_id : string; nt_body : string }.
Record Task := {
  tk_id : string; tk_title : string; tk_status : string; tk_created_at : string;
  tk_created_by : string }.
Record TimelineEvent := {
  tl_id : string; tl_at : string; tl_kind : string; tl_actor_id : string; tl_summary : string;
  tl_detail : pydict }.
(** The JSON column [payload] of an incident: where it came from. *)
Inductive IncidentPayload :=
| FromStory (story : Storyline)
| FromAlert (alert_id finding_id : string).
Record IncidentRecord := {
  in_id : string; in_tenant_id : string; in_fingerprint : string; in_title : string;
  in_status : string; in_severity : string; in_assignee_user_id : option string;
  in_assignee_email : option string; in_source_alert_id : option string;
  in_storyline_ids : list string; in_finding_rule_ids : list string; in_event_ids : list string;
  in_evidence_ids : list string; in_related_entity_ids : list string;
  in_mitre_techniques : list string; in_notes : list Note; in_tasks : list Task;
  in_timeline : list TimelineEvent; in_root_cause : option string;
  in_lessons_learned : option string; in_payload : IncidentPayload; in_created_at : datetime; in_updated_at : datetime }.

Record Tenant := {
  te_id : string; te_slug : string; te_name : string; te_status : string; te_created_at : datetime }.
Record User := {
  us_id : string; us_email : string; us_display_name : string; us_password_hash : string;
  us_status : string; us_is_platform_admin : bool }.
Record Membership := { me_id : string; me_tenant_id : string; me_user_id : string; me_role_key : string }.
Record ApiKey := {
  ak_id : string; ak_tenant_id : string; ak_name : string; ak_key_prefix : string;
  ak_key_hash : string; ak_status : string }.

Record EntityRecord := {
  er_id : string; er_tenant_id : string; er_entity_type : string; er_key : string;
  er_display_name : string; er_criticality : string; er_risk_score : float;
  er_risk_components : list pyval; er_event_ids : list string; er_finding_ids : list string;
  er_first_seen : datetime; er_last_seen : datetime; er_attributes : list (string * string) }.
Record RelationshipRecord := {
  rl_id : string; rl_tenant_id : string; rl_src_id : string; rl_dst_id : string;
  rl_relation : string; rl_event_ids : list string; rl_manufactured : bool }.
Record IndicatorOfCompromise := {
  io_id : string; io_tenant_id : string; io_indicator_type : string; io_value : string;
  io_source : string; io_confidence : float; io_ttl_hours : Z; io_expires_at : datetime;
  io_malware : option string; io_actor : option string; io_campaign : option string;
  io_mitre_techniques : list string; io_tags : list string; io_sightings : Z;
  io_last_seen_at : option datetime; io_provenance : pydict; io_active : bool;
  io_created_at : datetime; io_created_by : string; io_updated_at : datetime }.
Record SavedHunt := {
  sh_id : string; sh_tenant_id : string; sh_name : string; sh_description : string;
  sh_hunt_type : string; sh_query : pydict; sh_created_by : string; sh_created_at : datetime;
  sh_updated_at : datetime }.
Record VulnerabilityRecord := {
  vu_id : string; vu_tenant_id : string; vu_cve_id : string; vu_title : string; vu_cvss : float;
  vu_exploitability : float; vu_asset_id : string; vu_asset_criticality : float;
  vu_threat_activity : float; vu_priority : float; vu_band : string; vu_sla_days : Z;
  vu_scanner : string; vu_status : string; vu_formula : string; vu_created_at : datetime;
  vu_updated_at : datetime }.

Record QualitySnapshot := {
  qs_id : string; qs_tenant_id : option string; qs_model_version : string; qs_total : Z; qs_band : string;
  qs_domains : pydict; qs_checks : list pydict; qs_computed_at : datetime }.

(** The session. The engine is created with [autoflush=False], so a row that was
    added is not seen by a query before the next flush: the tables that are queried
    between an [add] and its flush have a list of pending rows. *)
Record db := {
  d_events : list SecurityEvent;
  d_dead_letters : list DeadLetterEvent;
  d_findings : list FindingRecord;
  d_alerts : list Alert;
  d_evidence : list Evidence;
  d_audit : list AuditLog;
  d_suppressions : list Suppression;
  d_exceptions : list DetectionException;
  d_revisions : list RuleRevision;
  d_storylines : list StorylineRecord;
  d_incidents : list IncidentRecord;
  d_users : list User;
  d_memberships : list Membership;
  d_api_keys : list ApiKey;
  d_entities : list EntityRecord;
  d_relationships : list RelationshipRecord;
  d_indicators : list IndicatorOfCompromise;
  d_hunts : list SavedHunt;
  d_vulns : list VulnerabilityRecord;
  d_quality : list QualitySnapshot;
  d_tenants : list Tenant;
  d_pend_findings : list FindingRecord;
  d_pend_alerts : list Alert;
  d_pend_storylines : list StorylineRecord;
  d_pend_dead_letters : list DeadLetterEvent;
  d_draws : draws;
}.

Definition empty_db : db := {|
  d_events := []; d_dead_letters := []; d_findings := []; d_alerts := []; d_evidence := []; d_audit
  := []; d_suppressions := []; d_exceptions := []; d_revisions := []; d_storylines := [];
  d_incidents := []; d_users := []; d_memberships := []; d_api_keys := []; d_entities := [];
  d_relationships := []; d_indicators := []; d_hunts := []; d_vulns := []; d_quality := []; d_tenants := [];
  d_pend_findings := []; d_pend_alerts := []; d_pend_storylines := []; d_pend_dead_letters := [];
  d_draws := {| n_uuid := 0; n_clock := 0 |} |}.

(** ** Column writers *)

Definition set_events (f : _ → _) (s : db) : db := {|
  d_events := f (d_events s); d_dead_letters := d_dead_letters s; d_findings := d_findings s;
  d_alerts := d_alerts s; d_evidence := d_evidence s; d_audit := d_audit s; d_suppressions :=
  d_suppressions s; d_exceptions := d_exceptions s; d_revisions := d_revisions s; d_storylines :=
  d_storylines s; d_incidents := d_incidents s; d_users := d_users s; d_memberships := d_memberships
  s; d_api_keys := d_api_keys s; d_entities := d_entities s; d_relationships := d_relationships s;
  d_indicators := d_indicators s; d_hunts := d_hunts s; d_vulns := d_vulns s; d_quality := d_quality
  s; d_tenants := d_tenants s; d_pend_findings := d_pend_findings s; d_pend_alerts := d_pend_alerts s; d_pend_storylines :=
  d_pend_storylines s; d_pend_dead_letters := d_pend_dead_letters s; d_draws := d_draws s |}.
Definition set_dead_letters (f : _ → _) (s : db) : db := {|
  d_events := d_events s; d_dead_letters := f (d_dead_letters s); d_findings := d_findings s;
  d_alerts := d_alerts s; d_evidence := d_evidence s; d_audit := d_audit s; d_suppressions :=
  d_suppressions s; d_exceptions := d_exceptions s; d_revisions := d_revisions s; d_storylines :=
  d_storylines s; d_incidents := d_incidents s; d_users := d_users s; d_memberships := d_memberships
  s; d_api_keys := d_api_keys s; d_entities := d_entities s; d_relationships := d_relationships s;
  d_indicators := d_indicators s; d_hunts := d_hunts s; d_vulns := d_vulns s; d_quality := d_quality
  s; d_tenants := d_tenants s; d_pend_findings := d_pend_findings s; d_pend_alerts := d_pend_alerts s; d_pend_storylines :=
  d_pend_storylines s; d_pend_dead_letters := d_pend_dead_letters s; d_draws := d_draws s |}.
Definition set_findings (f : _ → _) (s : db) : db := {|
  d_events := d_events s; d_dead_letters := d_dead_letters s; d_findings := f (d_findings s);
  d_alerts := d_alerts s; d_evidence := d_evidence s; d_audit := d_audit s; d_suppressions :=
  d_suppressions s; d_exceptions := d_exceptions s; d_revisions := d_revisions s; d_storylines :=
  d_storylines s; d_incidents := d_incidents s; d_users := d_users s; d_memberships := d_memberships
  s; d_api_keys := d_api_keys s; d_entities := d_entities s; d_relationships := d_relationships s;
  d_indicators := d_indicators s; d_hunts := d_hunts s; d_vulns := d_vulns s; d_quality := d_quality
  s; d_tenants := d_tenants s; d_pend_findings := d_pend_findings s; d_pend_alerts := d_pend_alerts s; d_pend_storylines :=
  d_pend_storylines s; d_pend_dead_letters := d_pend_dead_letters s; d_draws := d_draws s |}.
Definition set_alerts (f : _ → _) (s : db) : db := {|
  d_events := d_events s; d_dead_letters := d_dead_letters s; d_findings := d_findings s; d_alerts
  := f (d_alerts s); d_evidence := d_evidence s; d_audit := d_audit s; d_suppressions :=
  d_suppressions s; d_exceptions := d_exceptions s; d_revisions := d_revisions s; d_storylines :=
  d_storylines s; d_incidents := d_incidents s; d_users := d_users s; d_memberships := d_memberships
  s; d_api_keys := d_api_keys s; d_entities := d_entities s; d_relationships := d_relationships s;
  d_indicators := d_indicators s; d_hunts := d_hunts s; d_vulns := d_vulns s; d_quality := d_quality
  s; d_tenants := d_tenants s; d_pend_findings := d_pend_findings s; d_pend_alerts := d_pend_alerts s; d_pend_storylines :=
  d_pend_storylines s; d_pend_dead_letters := d_pend_dead_letters s; d_draws := d_draws s |}.
Definition set_evidence (f : _ → _) (s : db) : db := {|
  d_events := d_events s; d_dead_letters := d_dead_letters s; d_findings := d_findings s; d_alerts
  := d_alerts s; d_evidence := f (d_evidence s); d_audit := d_audit s; d_suppressions :=
  d_suppressions s; d_exceptions := d_exceptions s; d_revisions := d_revisions s; d_storylines :=
  d_storylines s; d_incidents := d_incidents s; d_users := d_users s; d_memberships := d_memberships
  s; d_api_keys := d_api_keys s; d_entities := d_entities s; d_relationships := d_relationships s;
  d_indicators := d_indicators s; d_hunts := d_hunts s; d_vulns := d_vulns s; d_quality := d_quality
  s; d_tenants := d_tenants s; d_pend_findings := d_pend_findings s; d_pend_alerts := d_pend_alerts s; d_pend_storylines :=
  d_pend_storylines s; d_pend_dead_letters := d_pend_dead_letters s; d_draws := d_draws s |}.
Definition set_audit (f : _ → _) (s : db) : db := {|
  d_events := d_events s; d_dead_letters := d_dead_letters s; d_findings := d_findings s; d_alerts
  := d_alerts s; d_evidence := d_evidence s; d_audit := f (d_audit s); d_suppressions :=
  d_suppressions s; d_exceptions := d_exceptions s; d_revisions := d_revisions s; d_storylines :=
  d_storylines s; d_incidents := d_incidents s; d_users := d_users s; d_memberships := d_memberships
  s; d_api_keys := d_api_keys s; d_entities := d_entities s; d_relationships := d_relationships s;
  d_indicators := d_indicators s; d_hunts := d_hunts s; d_vulns := d_vulns s; d_quality := d_quality
  s; d_tenants := d_tenants s; d_pend_findings := d_pend_findings s; d_pend_alerts := d_pend_alerts s; d_pend_storylines :=
  d_pend_storylines s; d_pend_dead_letters := d_pend_dead_letters s; d_draws := d_draws s |}.
Definition set_suppressions (f : _ → _) (s : db) : db := {|
  d_events := d_events s; d_dead_letters := d_dead_letters s; d_findings := d_findings s; d_alerts
  := d_alerts s; d_evidence := d_evidence s; d_audit := d_audit s; d_suppressions := f
  (d_suppressions s); d_exceptions := d_exceptions s; d_revisions := d_revisions s; d_storylines :=
  d_storylines s; d_incidents := d_incidents s; d_users := d_users s; d_memberships := d_memberships
  s; d_api_keys := d_api_keys s; d_entities := d_entities s; d_relationships := d_relationships s;
  d_indicators := d_indicators s; d_hunts := d_hunts s; d_vulns := d_vulns s; d_quality := d_quality
  s; d_tenants := d_tenants s; d_pend_findings := d_pend_findings s; d_pend_alerts := d_pend_alerts s; d_pend_storylines :=
  d_pend_storylines s; d_pend_dead_letters := d_pend_dead_letters s; d_draws := d_draws s |}.
Definition set_exceptions (f : _ → _) (s : db) : db := {|
  d_events := d_events s; d_dead_letters := d_dead_letters s; d_findings := d_findings s; d_alerts
  := d_alerts s; d_evidence := d_evidence s; d_audit := d_audit s; d_suppressions := d_suppressions
  s; d_exceptions := f (d_exceptions s); d_revisions := d_revisions s; d_storylines := d_storylines
  s; d_incidents := d_incidents s; d_users := d_users s; d_memberships := d_memberships s;
  d_api_keys := d_api_keys s; d_entities := d_entities s; d_relationships := d_relationships s;
  d_indicators := d_indicators s; d_hunts := d_hunts s; d_vulns := d_vulns s; d_quality := d_quality
  s; d_tenants := d_tenants s; d_pend_findings := d_pend_findings s; d_pend_alerts := d_pend_alerts s; d_pend_storylines :=
  d_pend_storylines s; d_pend_dead_letters := d_pend_dead_letters s; d_draws := d_draws s |}.
Definition set_revisions (f : _ → _) (s : db) : db := {|
  d_events := d_events s; d_dead_letters := d_dead_letters s; d_findings := d_findings s; d_alerts
  := d_alerts s; d_evidence := d_evidence s; d_audit := d_audit s; d_suppressions := d_suppressions
  s; d_exceptions := d_exceptions s; d_revisions := f (d_revisions s); d_storylines := d_storylines
  s; d_incidents := d_incidents s; d_users := d_users s; d_memberships := d_memberships s;
  d_api_keys := d_api_keys s; d_entities := d_entities s; d_relationships := d_relationships s;
  d_indicators := d_indicators s; d_hunts := d_hunts s; d_vulns := d_vulns s; d_quality := d_quality
  s; d_tenants := d_tenants s; d_pend_findings := d_pend_findings s; d_pend_alerts := d_pend_alerts s; d_pend_storylines :=
  d_pend_storylines s; d_pend_dead_letters := d_pend_dead_letters s; d_draws := d_draws s |}.
Definition set_storylines (f : _ → _) (s : db) : db := {|
  d_events := d_events s; d_dead_letters := d_dead_letters s; d_findings := d_findings s; d_alerts
  := d_alerts s; d_evidence := d_evidence s; d_audit := d_audit s; d_suppressions := d_suppressions
  s; d_exceptions := d_exceptions s; d_revisions := d_revisions s; d_storylines := f (d_storylines
  s); d_incidents := d_incidents s; d_users := d_users s; d_memberships := d_memberships s;
  d_api_keys := d_api_keys s; d_entities := d_entities s; d_relationships := d_relationships s;
  d_indicators := d_indicators s; d_hunts := d_hunts s; d_vulns := d_vulns s; d_quality := d_quality
  s; d_tenants := d_tenants s; d_pend_findings := d_pend_findings s; d_pend_alerts := d_pend_alerts s; d_pend_storylines :=
  d_pend_storylines s; d_pend_dead_letters := d_pend_dead_letters s; d_draws := d_draws s |}.
Definition set_incidents (f : _ → _) (s : db) : db := {|
  d_events := d_events s; d_dead_letters := d_dead_letters s; d_findings := d_findings s; d_alerts
  := d_alerts s; d_evidence := d_evidence s; d_audit := d_audit s; d_suppressions := d_suppressions
  s; d_exceptions := d_exceptions s; d_revisions := d_revisions s; d_storylines := d_storylines s;
  d_incidents := f (d_incidents s); d_users := d_users s; d_memberships := d_memberships s;
  d_api_keys := d_api_keys s; d_entities := d_entities s; d_relationships := d_relationships s;
  d_indicators := d_indicators s; d_hunts := d_hunts s; d_vulns := d_vulns s; d_quality := d_quality
  s; d_tenants := d_tenants s; d_pend_findings := d_pend_findings s; d_pend_alerts := d_pend_alerts s; d_pend_storylines :=
  d_pend_storylines s; d_pend_dead_letters := d_pend_dead_letters s; d_draws := d_draws s |}.
Definition set_users (f : _ → _) (s : db) : db := {|
  d_events := d_events s; d_dead_letters := d_dead_letters s; d_findings := d_findings s; d_alerts
  := d_alerts s; d_evidence := d_evidence s; d_audit := d_audit s; d_suppressions := d_suppressions
  s; d_exceptions := d_exceptions s; d_revisions := d_revisions s; d_storylines := d_storylines s;
  d_incidents := d_incidents s; d_users := f (d_users s); d_memberships := d_memberships s;
  d_api_keys := d_api_keys s; d_entities := d_entities s; d_relationships := d_relationships s;
  d_indicators := d_indicators s; d_hunts := d_hunts s; d_vulns := d_vulns s; d_quality := d_quality
  s; d_tenants := d_tenants s; d_pend_findings := d_pend_findings s; d_pend_alerts := d_pend_alerts s; d_pend_storylines :=
  d_pend_storylines s; d_pend_dead_letters := d_pend_dead_letters s; d_draws := d_draws s |}.
Definition set_memberships (f : _ → _) (s : db) : db := {|
  d_events := d_events s; d_dead_letters := d_dead_letters s; d_findings := d_findings s; d_alerts
  := d_alerts s; d_evidence := d_evidence s; d_audit := d_audit s; d_suppressions := d_suppressions
  s; d_exceptions := d_exceptions s; d_revisions := d_revisions s; d_storylines := d_storylines s;
  d_incidents := d_incidents s; d_users := d_users s; d_memberships := f (d_memberships s);
  d_api_keys := d_api_keys s; d_entities := d_entities s; d_relationships := d_relationships s;
  d_indicators := d_indicators s; d_hunts := d_hunts s; d_vulns := d_vulns s; d_quality := d_quality
  s; d_tenants := d_tenants s; d_pend_findings := d_pend_findings s; d_pend_alerts := d_pend_alerts s; d_pend_storylines :=
  d_pend_storylines s; d_pend_dead_letters := d_pend_dead_letters s; d_draws := d_draws s |}.
Definition set_api_keys (f : _ → _) (s : db) : db := {|
  d_events := d_events s; d_dead_letters := d_dead_letters s; d_findings := d_findings s; d_alerts
  := d_alerts s; d_evidence := d_evidence s; d_audit := d_audit s; d_suppressions := d_suppressions
  s; d_exceptions := d_exceptions s; d_revisions := d_revisions s; d_storylines := d_storylines s;
  d_incidents := d_incidents s; d_users := d_users s; d_memberships := d_memberships s; d_api_keys
  := f (d_api_keys s); d_entities := d_entities s; d_relationships := d_relationships s;
  d_indicators := d_indicators s; d_hunts := d_hunts s; d_vulns := d_vulns s; d_quality := d_quality
  s; d_tenants := d_tenants s; d_pend_findings := d_pend_findings s; d_pend_alerts := d_pend_alerts s; d_pend_storylines :=
  d_pend_storylines s; d_pend_dead_letters := d_pend_dead_letters s; d_draws := d_draws s |}.
Definition set_entities (f : _ → _) (s : db) : db := {|
  d_events := d_events s; d_dead_letters := d_dead_letters s; d_findings := d_findings s; d_alerts
  := d_alerts s; d_evidence := d_evidence s; d_audit := d_audit s; d_suppressions := d_suppressions
  s; d_exceptions := d_exceptions s; d_revisions := d_revisions s; d_storylines := d_storylines s;
  d_incidents := d_incidents s; d_users := d_users s; d_memberships := d_memberships s; d_api_keys
  := d_api_keys s; d_entities := f (d_entities s); d_relationships := d_relationships s;
  d_indicators := d_indicators s; d_hunts := d_hunts s; d_vulns := d_vulns s; d_quality := d_quality
  s; d_tenants := d_tenants s; d_pend_findings := d_pend_findings s; d_pend_alerts := d_pend_alerts s; d_pend_storylines :=
  d_pend_storylines s; d_pend_dead_letters := d_pend_dead_letters s; d_draws := d_draws s |}.
Definition set_relationships (f : _ → _) (s : db) : db := {|
  d_events := d_events s; d_dead_letters := d_dead_letters s; d_findings := d_findings s; d_alerts
  := d_alerts s; d_evidence := d_evidence s; d_audit := d_audit s; d_suppressions := d_suppressions
  s; d_exceptions := d_exceptions s; d_revisions := d_revisions s; d_storylines := d_storylines s;
  d_incidents := d_incidents s; d_users := d_users s; d_memberships := d_memberships s; d_api_keys
  := d_api_keys s; d_entities := d_entities s; d_relationships := f (d_relationships s);
  d_indicators := d_indicators s; d_hunts := d_hunts s; d_vulns := d_vulns s; d_quality := d_quality
  s; d_tenants := d_tenants s; d_pend_findings := d_pend_findings s; d_pend_alerts := d_pend_alerts s; d_pend_storylines :=
  d_pend_storylines s; d_pend_dead_letters := d_pend_dead_letters s; d_draws := d_draws s |}.
Definition set_indicators (f : _ → _) (s : db) : db := {|
  d_events := d_events s; d_dead_letters := d_dead_letters s; d_findings := d_findings s; d_alerts
  := d_alerts s; d_evidence := d_evidence s; d_audit := d_audit s; d_suppressions := d_suppressions
  s; d_exceptions := d_exceptions s; d_revisions := d_revisions s; d_storylines := d_storylines s;
  d_incidents := d_incidents s; d_users := d_users s; d_memberships := d_memberships s; d_api_keys
  := d_api_keys s; d_entities := d_entities s; d_relationships := d_relationships s; d_indicators :=
  f (d_indicators s); d_hunts := d_hunts s; d_vulns := d_vulns s; d_quality := d_quality s;
  d_tenants := d_tenants s; d_pend_findings := d_pend_findings s; d_pend_alerts := d_pend_alerts s; d_pend_storylines :=
  d_pend_storylines s; d_pend_dead_letters := d_pend_dead_letters s; d_draws := d_draws s |}.
Definition set_hunts (f : _ → _) (s : db) : db := {|
  d_events := d_events s; d_dead_letters := d_dead_letters s; d_findings := d_findings s; d_alerts
  := d_alerts s; d_evidence := d_evidence s; d_audit := d_audit s; d_suppressions := d_suppressions
  s; d_exceptions := d_exceptions s; d_revisions := d_revisions s; d_storylines := d_storylines s;
  d_incidents := d_incidents s; d_users := d_users s; d_memberships := d_memberships s; d_api_keys
  := d_api_keys s; d_entities := d_entities s; d_relationships := d_relationships s; d_indicators :=
  d_indicators s; d_hunts := f (d_hunts s); d_vulns := d_vulns s; d_quality := d_quality s;
  d_tenants := d_tenants s; d_pend_findings := d_pend_findings s; d_pend_alerts := d_pend_alerts s; d_pend_storylines :=
  d_pend_storylines s; d_pend_dead_letters := d_pend_dead_letters s; d_draws := d_draws s |}.
Definition set_vulns (f : _ → _) (s : db) : db := {|
  d_events := d_events s; d_dead_letters := d_dead_letters s; d_findings := d_findings s; d_alerts
  := d_alerts s; d_evidence := d_evidence s; d_audit := d_audit s; d_suppressions := d_suppressions
  s; d_exceptions := d_exceptions s; d_revisions := d_revisions s; d_storylines := d_storylines s;
  d_incidents := d_incidents s; d_users := d_users s; d_memberships := d_memberships s; d_api_keys
  := d_api_keys s; d_entities := d_entities s; d_relationships := d_relationships s; d_indicators :=
  d_indicators s; d_hunts := d_hunts s; d_vulns := f (d_vulns s); d_quality := d_quality s;
  d_tenants := d_tenants s; d_pend_findings := d_pend_findings s; d_pend_alerts := d_pend_alerts s; d_pend_storylines :=
  d_pend_storylines s; d_pend_dead_letters := d_pend_dead_letters s; d_draws := d_draws s |}.
Definition set_quality (f : _ → _) (s : db) : db := {|
  d_events := d_events s; d_dead_letters := d_dead_letters s; d_findings := d_findings s; d_alerts
  := d_alerts s; d_evidence := d_evidence s; d_audit := d_audit s; d_suppressions := d_suppressions
  s; d_exceptions := d_exceptions s; d_revisions := d_revisions s; d_storylines := d_storylines s;
  d_incidents := d_incidents s; d_users := d_users s; d_memberships := d_memberships s; d_api_keys
  := d_api_keys s; d_entities := d_entities s; d_relationships := d_relationships s; d_indicators :=
  d_indicators s; d_hunts := d_hunts s; d_vulns := d_vulns s; d_quality := f (d_quality s);
  d_tenants := d_tenants s; d_pend_findings := d_pend_findings s; d_pend_alerts := d_pend_alerts s; d_pend_storylines :=
  d_pend_storylines s; d_pend_dead_letters := d_pend_dead_letters s; d_draws := d_draws s |}.
Definition set_tenants (f : _ → _) (s : db) : db := {|
  d_events := d_events s; d_dead_letters := d_dead_letters s; d_findings := d_findings s; d_alerts
  := d_alerts s; d_evidence := d_evidence s; d_audit := d_audit s; d_suppressions := d_suppressions
  s; d_exceptions := d_exceptions s; d_revisions := d_revisions s; d_storylines := d_storylines s;
  d_incidents := d_incidents s; d_users := d_users s; d_memberships := d_memberships s; d_api_keys
  := d_api_keys s; d_entities := d_entities s; d_relationships := d_relationships s; d_indicators :=
  d_indicators s; d_hunts := d_hunts s; d_vulns := d_vulns s; d_quality := d_quality s;
  d_tenants := f (d_tenants s); d_pend_findings := d_pend_findings s; d_pend_alerts := d_pend_alerts s; d_pend_storylines :=
  d_pend_storylines s; d_pend_dead_letters := d_pend_dead_letters s; d_draws := d_draws s |}.
Definition set_pend_findings (f : _ → _) (s : db) : db := {|
  d_events := d_events s; d_dead_letters := d_dead_letters s; d_findings := d_findings s; d_alerts
  := d_alerts s; d_evidence := d_evidence s; d_audit := d_audit s; d_suppressions := d_suppressions
  s; d_exceptions := d_exceptions s; d_revisions := d_revisions s; d_storylines := d_storylines s;
  d_incidents := d_incidents s; d_users := d_users s; d_memberships := d_memberships s; d_api_keys
  := d_api_keys s; d_entities := d_entities s; d_relationships := d_relationships s; d_indicators :=
  d_indicators s; d_hunts := d_hunts s; d_vulns := d_vulns s; d_quality := d_quality s;
  d_tenants := d_tenants s; d_pend_findings := f (d_pend_findings s); d_pend_alerts := d_pend_alerts s; d_pend_storylines :=
  d_pend_storylines s; d_pend_dead_letters := d_pend_dead_letters s; d_draws := d_draws s |}.
Definition set_pend_alerts (f : _ → _) (s : db) : db := {|
  d_events := d_events s; d_dead_letters := d_dead_letters s; d_findings := d_findings s; d_alerts
  := d_alerts s; d_evidence := d_evidence s; d_audit := d_audit s; d_suppressions := d_suppressions
  s; d_exceptions := d_exceptions s; d_revisions := d_revisions s; d_storylines := d_storylines s;
  d_incidents := d_incidents s; d_users := d_users s; d_memberships := d_memberships s; d_api_keys
  := d_api_keys s; d_entities := d_entities s; d_relationships := d_relationships s; d_indicators :=
  d_indicators s; d_hunts := d_hunts s; d_vulns := d_vulns s; d_quality := d_quality s;
  d_tenants := d_tenants s; d_pend_findings := d_pend_findings s; d_pend_alerts := f (d_pend_alerts s); d_pend_storylines :=
  d_pend_storylines s; d_pend_dead_letters := d_pend_dead_letters s; d_draws := d_draws s |}.
Definition set_pend_storylines (f : _ → _) (s : db) : db := {|
  d_events := d_events s; d_dead_letters := d_dead_letters s; d_findings := d_findings s; d_alerts
  := d_alerts s; d_evidence := d_evidence s; d_audit := d_audit s; d_suppressions := d_suppressions
  s; d_exceptions := d_exceptions s; d_revisions := d_revisions s; d_storylines := d_storylines s;
  d_incidents := d_incidents s; d_users := d_users s; d_memberships := d_memberships s; d_api_keys
  := d_api_keys s; d_entities := d_entities s; d_relationships := d_relationships s; d_indicators :=
  d_indicators s; d_hunts := d_hunts s; d_vulns := d_vulns s; d_quality := d_quality s;
  d_tenants := d_tenants s; d_pend_findings := d_pend_findings s; d_pend_alerts := d_pend_alerts s; d_pend_storylines := f
  (d_pend_storylines s); d_pend_dead_letters := d_pend_dead_letters s; d_draws := d_draws s |}.
Definition set_pend_dead_letters (f : _ → _) (s : db) : db := {|
  d_events := d_events s; d_dead_letters := d_dead_letters s; d_findings := d_findings s; d_alerts
  := d_alerts s; d_evidence := d_evidence s; d_audit := d_audit s; d_suppressions := d_suppressions
  s; d_exceptions := d_exceptions s; d_revisions := d_revisions s; d_storylines := d_storylines s;
  d_incidents := d_incidents s; d_users := d_users s; d_memberships := d_memberships s; d_api_keys
  := d_api_keys s; d_entities := d_entities s; d_relationships := d_relationships s; d_indicators :=
  d_indicators s; d_hunts := d_hunts s; d_vulns := d_vulns s; d_quality := d_quality s;
  d_tenants := d_tenants s; d_pend_findings := d_pend_findings s; d_pend_alerts := d_pend_alerts s; d_pend_storylines :=
  d_pend_storylines s; d_pend_dead_letters := f (d_pend_dead_letters s); d_draws := d_draws s |}.
Definition set_draws (f : _ → _) (s : db) : db := {|
  d_events := d_events s; d_dead_letters := d_dead_letters s; d_findings := d_findings s; d_alerts
  := d_alerts s; d_evidence := d_evidence s; d_audit := d_audit s; d_suppressions := d_suppressions
  s; d_exceptions := d_exceptions s; d_revisions := d_revisions s; d_storylines := d_storylines s;
  d_incidents := d_incidents s; d_users := d_users s; d_memberships := d_memberships s; d_api_keys
  := d_api_keys s; d_entities := d_entities s; d_relationships := d_relationships s; d_indicators :=
  d_indicators s; d_hunts := d_hunts s; d_vulns := d_vulns s; d_quality := d_quality s;
  d_tenants := d_tenants s; d_pend_findings := d_pend_findings s; d_pend_alerts := d_pend_alerts s; d_pend_storylines :=
  d_pend_storylines s; d_pend_dead_letters := d_pend_dead_letters s; d_draws := f (d_draws s) |}.

(** ** Session operations *)

Definition new_id_db `{Oracle} : string → M db string := new_id d_draws (λ d, set_draws (λ _, d)).
Definition utcnow_db `{Oracle} : M db datetime := utcnow d_draws (λ d, set_draws (λ _, d)).

(** [db.flush()]: pending rows become visible to queries. Only findings wait with a unique
    column: the flush at the end of an evaluation, which meets them, checks it
    ([DetectionService.flush_findings]), so that what is flushed elsewhere has passed it. *)
Definition flush_pending (s : db) : db := {|
  d_events := d_events s; d_dead_letters := d_dead_letters s ++ d_pend_dead_letters s; d_findings :=
  d_findings s ++ d_pend_findings s; d_alerts := d_alerts s ++ d_pend_alerts s; d_evidence :=
  d_evidence s; d_audit := d_audit s; d_suppressions := d_suppressions s; d_exceptions :=
  d_exceptions s; d_revisions := d_revisions s; d_storylines := d_storylines s ++ d_pend_storylines
  s; d_incidents := d_incidents s; d_users := d_users s; d_memberships := d_memberships s;
  d_api_keys := d_api_keys s; d_entities := d_entities s; d_relationships := d_relationships s;
  d_indicators := d_indicators s; d_hunts := d_hunts s; d_vulns := d_vulns s; d_quality := d_quality
  s; d_tenants := d_tenants s; d_pend_findings := []; d_pend_alerts := []; d_pend_storylines := []; d_pend_dead_letters := [];
  d_draws := d_draws s |}.
Definition flush : M db unit := modify flush_pending.

(** [db.add(row)] followed by the flush that checks its unique column. *)
Definition add_unique {A} (get_rows : db → list A) (set_rows : (list A → list A) → db → db)
    (same : A → A → bool) (row : A) : M db unit := λ s,
  let s' := flush_pending s in
  if existsb (same row) (get_rows s')
  then (Raise (OtherError "IntegrityError: UNIQUE constraint failed"), s')
  else (Ok tt, set_rows (λ rows, rows ++ [row]) s').

(** [get_db]: the session of a request commits when the handler returns and rolls
    back when it raises; identifiers and clock readings stay drawn. *)
Definition get_db {A} (handler : M db A) : M db A := λ s,
  match handler s with
  | (Ok a, s') => (Ok a, flush_pending s')
  | (Raise e, s') => (Raise e, set_draws (λ _, d_draws s') s)
  end.

Lemma add_unique_ok {A} get_rows set_rows same (row : A) s u s' :
  add_unique get_rows set_rows same row s = (Ok u, s') →
  s' = set_rows (λ rows, rows ++ [row]) (flush_pending s)
  ∧ existsb (same row) (get_rows (flush_pending s)) = false.
Proof. unfold add_unique. case_match; naive_solver. Qed.

(** A request that fails leaves no trace. *)
Lemma get_db_raise {A} (h : M db A) s e s' : get_db h s = (Raise e, s') → s' = set_draws (λ _, d_draws s') s.
Proof. unfold get_db. destruct (h s) as [[?|?] ?]; naive_solver. Qed.
Lemma get_db_ok {A} (h : M db A) s a s' :
  get_db h s = (Ok a, s') → ∃ s1, h s = (Ok a, s1) ∧ s' = flush_pending s1.
Proof. unfold get_db. destruct (h s) as [[?|?] ?]; naive_solver. Qed.

Lemma flush_idem s : flush_pending (flush_pending s) = flush_pending s.
Proof. unfold flush_pending. simpl. by rewrite !app_nil_r. Qed.

(** ** Tables

    What a table's reader and writer promise, and adding many rows to one. *)
Class Table {B} (get_rows : db → list B) (set_rows : (list B → list B) → db → db) : Prop := {
  table_get : ∀ f s, get_rows (set_rows f s) = f (get_rows s);
  table_flush : ∀ f s, flush_pending (set_rows f s) = set_rows f (flush_pending s);
  table_set : ∀ f g s, set_rows f (set_rows g s) = set_rows (λ l, f (g l)) s;
  table_ext : ∀ f g s, f (get_rows s) = g (get_rows s) → set_rows f s = set_rows g s;
  table_id : ∀ s, set_rows (λ l, l) s = s;
}.
#[export] Instance entities_table : Table d_entities set_entities.
Proof. constructor; try reflexivity; [intros f g s H; unfold set_entities; by rewrite H | by intros []]. Qed.
#[export] Instance relationships_table : Table d_relationships set_relationships.
Proof. constructor; try reflexivity; [intros f g s H; unfold set_relationships; by rewrite H | by intros []]. Qed.
#[export] Instance indicators_table : Table d_indicators set_indicators.
Proof. constructor; try reflexivity; [intros f g s H; unfold set_indicators; by rewrite H | by intros []]. Qed.
#[export] Instance hunts_table : Table d_hunts set_hunts.
Proof. constructor; try reflexivity; [intros f g s H; unfold set_hunts; by rewrite H | by intros []]. Qed.
#[export] Instance vulns_table : Table d_vulns set_vulns.
Proof. constructor; try reflexivity; [intros f g s H; unfold set_vulns; by rewrite H | by intros []]. Qed.

#[export] Instance tenants_table : Table d_tenants set_tenants.
Proof. constructor; try reflexivity; [intros f g s H; unfold set_tenants; by rewrite H | by intros []]. Qed.
#[export] Instance quality_table : Table d_quality set_quality.
Proof. constructor; try reflexivity; [intros f g s H; unfold set_quality; by rewrite H | by intros []]. Qed.

Section add_rows.
Context {A B : Type} (get_rows : db → list B) (set_rows : (list B → list B) → db → db)
  `{!Table get_rows set_rows} (same : B → B → bool) (row : A → B).

(** [for a in l: db.add(row(a))] and the flush that checks the unique columns. *)
Definition add_rows (l : list A) : M db unit :=
  foldM (λ _ a, add_unique get_rows set_rows same (row a)) tt l.

Lemma add_rows_ok l s u s' : flush_pending s = s → add_rows l s = (Ok u, s') →
  s' = set_rows (λ rows, rows ++ (row <$> l)) s.
Proof.
  unfold add_rows. revert s. induction l as [|a l IH]; intros s Hs He; simpl in He.
  { injection He as _ <-. rewrite <-(table_id s) at 1. apply table_ext. by rewrite app_nil_r. }
  inv_bind He. apply add_unique_ok in Ha as [-> _]. rewrite Hs in He. destruct a0.
  rewrite (IH _ ltac:(by rewrite table_flush, Hs) He), table_set. apply table_ext. by rewrite <-app_assoc.
Qed.
Lemma add_rows_total l s : flush_pending s = s →
  (∀ a r, a ∈ l → r ∈ get_rows s → same (row a) r = false) →
  (∀ pre a mid b post, l = pre ++ a :: mid ++ b :: post → same (row b) (row a) = false) →
  ∃ s', add_rows l s = (Ok tt, s').
Proof.
  unfold add_rows. revert s. induction l as [|a l IH]; intros s Hs Hold Hnew; simpl; [by eexists|].
  assert (add_unique get_rows set_rows same (row a) s = (Ok tt, set_rows (λ rows, rows ++ [row a]) s)) as E.
  { unfold add_unique. rewrite Hs. assert (existsb (same (row a)) (get_rows s) = false) as ->; [|done].
    apply not_true_iff_false. rewrite existsb_exists. intros (r & Hr & Hsame).
    rewrite Hold in Hsame; [done | by left | by apply list_elem_of_In]. }
  rewrite (M_bind_eval _ _ _ _ _ E). apply IH.
  - by rewrite table_flush, Hs.
  - intros b r Hb. rewrite table_get. intros [Hr|Hr]%elem_of_app; [apply Hold; [by right | done]|].
    apply list_elem_of_singleton in Hr as ->. apply list_elem_of_split in Hb as (mid & post & ->).
    by apply (Hnew [] a mid b post).
  - intros pre x mid y post ->. by apply (Hnew (a :: pre) x mid y post).
Qed.
End add_rows.
