(* ===== verification/AuditChain.v ===== *)
(** * The hash-chained audit log

    Models [services/api/app/services/audit.py] over the [d_audit] table: the
    sequence and previous hash are read from the table, the record hash links the
    payload to the previous record, and [verify_audit_chain] replays the links. *)
From S2P Require Export Store Hashing.
Local Open Scope Z_scope.

Definition GENESIS_HASH : string := Nat.iter 64 (λ t, "0" +:+ t) "".

Definition vopt (o : option string) : pyval := match o with Some s => VStr s | None => VNone end.

(** The fields the record hash covers. *)
Record AuditBody := {
  b_tenant_id : option string; b_actor_type : string; b_actor_id : string; b_request_id : string;
  b_action : string; b_target_type : string; b_target_id : option string; b_reason : option string;
  b_policy_decision : option string; b_approval_status : option string;
  b_before_state : option pydict; b_after_state : option pydict; b_result : string }.

Definition body_payload (sequence : Z) (b : AuditBody) : pyval := VDict [
  ("sequence", VInt sequence);
  ("tenant_id", vopt (b_tenant_id b));
  ("actor_type", VStr (b_actor_type b));
  ("actor_id", VStr (b_actor_id b));
  ("request_id", VStr (b_request_id b));
  ("action", VStr (b_action b));
  ("target_type", VStr (b_target_type b));
  ("target_id", vopt (b_target_id b));
  ("reason", vopt (b_reason b));
  ("policy_decision", vopt (b_policy_decision b));
  ("approval_status", vopt (b_approval_status b));
  ("before_state", VDict (default [] (b_before_state b)));
  ("after_state", VDict (default [] (b_after_state b)));
  ("result", VStr (b_result b))].

(** The payload [verify_audit_chain] rebuilds from a row. *)
Definition row_payload (row : AuditLog) : pyval := VDict [
  ("sequence", VInt (au_sequence row));
  ("tenant_id", vopt (au_tenant_id row));
  ("actor_type", VStr (au_actor_type row));
  ("actor_id", VStr (au_actor_id row));
  ("request_id", VStr (au_request_id row));
  ("action", VStr (au_action row));
  ("target_type", VStr (au_target_type row));
  ("target_id", vopt (au_target_id row));
  ("reason", vopt (au_reason row));
  ("policy_decision", vopt (au_policy_decision row));
  ("approval_status", vopt (au_approval_status row));
  ("before_state", VDict (au_before_state row));
  ("after_state", VDict (au_after_state row));
  ("result", VStr (au_result row))].

(** ** Operations *)

Definition seq_desc (a b : AuditLog) : bool := au_sequence b <=? au_sequence a.
Definition seq_asc (a b : AuditLog) : bool := au_sequence a <=? au_sequence b.

Definition next_sequence (rows : list AuditLog) : Z :=
  match rows with
  | [] => 1
  | r :: rows' => foldl Z.max (au_sequence r) (au_sequence <$> rows') + 1
  end.
Definition latest_hash (rows : list AuditLog) : string :=
  match sort_by seq_desc rows with
  | r :: _ => str_or (au_record_hash r) GENESIS_HASH
  | [] => GENESIS_HASH
  end.

Definition same_audit_key (a b : AuditLog) : bool :=
  (au_id a =? au_id b)%string || (au_sequence a =? au_sequence b)
  || (au_record_hash a =? au_record_hash b)%string.

Definition write_audit `{Oracle} (b : AuditBody) : M db AuditLog :=
  rows ← gets d_audit;
  let sequence := next_sequence rows in
  let previous := latest_hash rows in
  i ← new_id_db "aud";
  now ← utcnow_db;
  let record := {|
    au_id := i; au_sequence := sequence; au_tenant_id := b_tenant_id b;
    au_actor_type := b_actor_type b; au_actor_id := b_actor_id b; au_request_id := b_request_id b;
    au_action := b_action b; au_target_type := b_target_type b; au_target_id := b_target_id b;
    au_reason := b_reason b; au_policy_decision := b_policy_decision b;
    au_approval_status := b_approval_status b;
    au_before_state := default [] (b_before_state b);
    au_after_state := default [] (b_after_state b); au_result := b_result b; au_timestamp := now;
    au_previous_hash := previous;
    au_record_hash := chained_hash previous (body_payload sequence b) |} in
  add_unique d_audit set_audit same_audit_key record;;
  mret record.

Fixpoint verify_rows (previous : string) (rows : list AuditLog) : bool * string :=
  match rows with
  | [] => (true, "ok")
  | row :: rows' =>
      let expected := chained_hash previous (row_payload row) in
      if negb (au_previous_hash row =? previous)%string || negb (au_record_hash row =? expected)%string
      then (false, "audit chain break at sequence " +:+ str_of_Z (au_sequence row))
      else verify_rows (au_record_hash row) rows'
  end.
Definition verify_audit_chain (rows : list AuditLog) : bool * string :=
  verify_rows GENESIS_HASH (sort_by seq_asc rows).

Definition list_audit (rows : list AuditLog) (tenant_id : option string) (include_platform : bool)
    : list AuditLog :=
  if include_platform then sort_by seq_desc rows
  else sort_by seq_desc (select (λ r, bool_decide (au_tenant_id r = tenant_id)) rows).

(** ** The chain as a relation *)

(** [linked prev rows last]: each row extends the previous hash, ending at [last]. *)
Inductive linked : string → list AuditLog → string → Prop :=
| linked_nil h : linked h [] h
| linked_cons h r rows h' :
    au_previous_hash r = h → au_record_hash r = chained_hash h (row_payload r) →
    linked (au_record_hash r) rows h' → linked h (r :: rows) h'.

Lemma verify_rows_linked prev rows : verify_rows prev rows = (true, "ok") ↔ ∃ h, linked prev rows h.
Proof.
  revert prev. induction rows as [|r rows IH]; intros prev; simpl.
  - split; [intros _; exists prev; constructor | done].
  - destruct (String.eqb_spec (au_previous_hash r) prev) as [Hp|Hp]; simpl.
    + destruct (String.eqb_spec (au_record_hash r) (chained_hash prev (row_payload r))) as [Hh|Hh]; simpl.
      * rewrite IH. split; intros [h Hl]; exists h; [by constructor | by inversion Hl].
      * split; [discriminate | intros [h Hl]; by inversion Hl].
    + split; [discriminate | intros [h Hl]; by inversion Hl].
Qed.

Lemma linked_app h rows h1 rows' h2 : linked h rows h1 → linked h1 rows' h2 → linked h (rows ++ rows') h2.
Proof. induction 1; simpl; [done|]. intros. constructor; auto. Qed.

Lemma linked_app_inv h rows rows' h2 :
  linked h (rows ++ rows') h2 → ∃ h1, linked h rows h1 ∧ linked h1 rows' h2.
Proof.
  revert h. induction rows as [|r rows IH]; intros h Hl; simpl in Hl.
  - exists h. split; [constructor | done].
  - inversion Hl as [|? ? ? ? Hp Hh Hr]; subst. destruct (IH _ Hr) as (h1 & H1 & H2).
    exists h1. split; [by constructor | done].
Qed.

(** The hash after a chain: the record hash of the last row. *)
Lemma linked_last h rows r h' : linked h (rows ++ [r]) h' → h' = au_record_hash r.
Proof.
  intros (h1 & _ & H2)%linked_app_inv. inversion H2 as [|? ? ? ? ? ? H3]; subst. by inversion H3.
Qed.

Lemma linked_end h rows h' : linked h rows h' → h' = default h (au_record_hash <$> last rows).
Proof.
  destruct rows as [|r rows _] using rev_ind; [by inversion 1|].
  rewrite last_snoc. simpl. apply linked_last.
Qed.

Lemma linked_length h rows h' : String.length h = 64%nat → linked h rows h' → String.length h' = 64%nat.
Proof.
  intros Hh Hl. induction Hl as [|h r rows h' Hp Hr Hl IH]; [done|]. apply IH.
  rewrite Hr. apply sha256_hex_length.
Qed.

(** Well-formed tables: rows are numbered 1, 2, ... in insertion order and linked. *)
Definition chain_inv (rows : list AuditLog) : Prop :=
  au_sequence <$> rows = Z.of_nat <$> seq 1 (length rows) ∧ ∃ h, linked GENESIS_HASH rows h.

Lemma seq_sorted rows k :
  au_sequence <$> rows = Z.of_nat <$> seq k (length rows) → sorted_by seq_asc rows.
Proof.
  revert k. induction rows as [|r rows IH]; intros k H; [constructor|].
  cbn [length seq] in H. rewrite !fmap_cons in H. injection H as Hr H. constructor; [by eapply IH|].
  apply Forall_forall. intros r' Hr'. unfold seq_asc. apply Z.leb_le.
  assert (au_sequence r' ∈ au_sequence <$> rows) as Hin by (apply list_elem_of_fmap; eauto).
  rewrite H in Hin. apply list_elem_of_fmap in Hin as (n & -> & Hn%elem_of_seq). lia.
Qed.

Lemma verify_chain_inv rows : chain_inv rows → verify_audit_chain rows = (true, "ok").
Proof.
  intros [Hs Hl]. unfold verify_audit_chain. rewrite sort_by_id by (by eapply seq_sorted).
  by apply verify_rows_linked.
Qed.

Lemma seq_max rows k r :
  au_sequence <$> (r :: rows) = Z.of_nat <$> seq k (length (r :: rows)) →
  foldl Z.max (au_sequence r) (au_sequence <$> rows) = Z.of_nat (k + length rows).
Proof.
  revert k r. induction rows as [|r' rows IH]; intros k r H.
  - cbn in H. injection H as ->. simpl. f_equal. lia.
  - cbn [length seq] in H. rewrite !fmap_cons in H. injection H as Hr Hr' H.
    rewrite fmap_cons. cbn [foldl length].
    replace (Z.max (au_sequence r) (au_sequence r')) with (au_sequence r') by lia.
    rewrite (IH (S k) r'); [f_equal; lia|]. cbn [length seq]. rewrite !fmap_cons. by f_equal.
Qed.

Lemma next_sequence_inv rows : chain_inv rows → next_sequence rows = Z.of_nat (S (length rows)).
Proof.
  intros [Hs _]. unfold next_sequence. destruct rows as [|r rows]; [done|].
  rewrite (seq_max rows 1 r Hs). simpl. lia.
Qed.

Lemma sort_desc_snoc rows r :
  (∀ x, x ∈ rows → au_sequence x < au_sequence r) → ∃ t, sort_by seq_desc (rows ++ [r]) = r :: t.
Proof.
  intros H. apply sort_snoc_first. intros y Hy. unfold seq_desc. apply Z.leb_gt. by apply H.
Qed.

Lemma latest_hash_inv rows h :
  chain_inv rows → linked GENESIS_HASH rows h → latest_hash rows = h.
Proof.
  intros [Hs _] Hl. unfold latest_hash.
  destruct rows as [|r rows _] using rev_ind; [by inversion Hl|].
  destruct (sort_desc_snoc rows r) as [t ->].
  - intros x Hx. apply list_elem_of_lookup in Hx as [i Hi].
    assert ((au_sequence <$> (rows ++ [r])) !! i = Some (au_sequence x)) as H1.
    { rewrite list_lookup_fmap, lookup_app_l by (by eapply lookup_lt_Some). by rewrite Hi. }
    assert ((au_sequence <$> (rows ++ [r])) !! length rows = Some (au_sequence r)) as H2.
    { by rewrite list_lookup_fmap, list_lookup_middle by done. }
    apply lookup_lt_Some in Hi. rewrite Hs, list_lookup_fmap in H1, H2. rewrite length_app in H1, H2.
    rewrite lookup_seq_lt in H1, H2 by (simpl; lia). simpl in *. simplify_eq. lia.
  - rewrite (linked_last _ _ _ _ Hl).
    assert (String.length (au_record_hash r) = 64%nat) as Hlen.
    { rewrite <-(linked_last _ _ _ _ Hl). by eapply linked_length; [|exact Hl]. }
    unfold str_or, nonempty. destruct (String.eqb_spec (au_record_hash r) "") as [He|]; [|done].
    by rewrite He in Hlen.
Qed.

(** ** Theorems *)

Section audit.
Context `{Oracle}.

(** Rows written by one call: the table before, and what the call did to it. *)
Lemma write_audit_spec b s r s' :
  write_audit b s = (Ok r, s') →
  d_audit s' = d_audit s ++ [r]
  ∧ au_sequence r = next_sequence (d_audit s)
  ∧ au_previous_hash r = latest_hash (d_audit s)
  ∧ row_payload r = body_payload (next_sequence (d_audit s)) b
  ∧ au_record_hash r = chained_hash (latest_hash (d_audit s)) (row_payload r).
Proof.
  unfold write_audit. intros Hw. inv_bind Hw. injection Ha as <- <-. inv_bind Hw.
  injection Ha as <- <-. inv_bind Hw. injection Ha as <- <-. inv_bind Hw.
  apply add_unique_ok in Ha as [-> _]. injection Hw as <- <-. done.
Qed.

Lemma write_audit_chain b s r s' :
  chain_inv (d_audit s) → write_audit b s = (Ok r, s') → chain_inv (d_audit s').
Proof.
  intros Hi Hw. apply write_audit_spec in Hw as (-> & Hseq & Hprev & _ & Hrec).
  pose proof Hi as [Hs [h Hl]]. split.
  - rewrite fmap_app, Hs, length_app, seq_app, fmap_app. f_equal.
    change (au_sequence <$> [r]) with [au_sequence r].
    by rewrite Hseq, (next_sequence_inv _ Hi).
  - rewrite (latest_hash_inv _ _ Hi Hl) in Hprev, Hrec.
    exists (au_record_hash r). eapply linked_app; [done|]. constructor; [done|done|constructor].
Qed.

(** The states of the log that calls of [write_audit] produce from an empty table. *)
Inductive audit_reachable : db → Prop :=
| audit_start s : d_audit s = [] → audit_reachable s
| audit_step s b r s' : audit_reachable s → write_audit b s = (Ok r, s') → audit_reachable s'
| audit_frame s s' : audit_reachable s → d_audit s' = d_audit s → audit_reachable s'.

Lemma reachable_chain s : audit_reachable s → chain_inv (d_audit s).
Proof.
  induction 1 as [s Hs|s b r s' _ IH Hw|s s' _ IH Hs].
  - rewrite Hs. split; [done|]. eexists. constructor.
  - by eapply write_audit_chain.
  - by rewrite Hs.
Qed.

(** C4. Every log the program can write verifies, whatever the interleaving of
    audit writes with other changes of the database, and its rows are numbered
    1, 2, 3, ... without a gap. *)
Theorem audit_log_verifies s :
  audit_reachable s →
  verify_audit_chain (d_audit s) = (true, "ok")
  ∧ au_sequence <$> d_audit s = Z.of_nat <$> seq 1 (length (d_audit s)).
Proof.
  intros Hr%reachable_chain. split; [by apply verify_chain_inv | apply Hr].
Qed.
End audit.

(** *** Tamper evidence *)

Definition states_float_free (r : AuditLog) : bool :=
  forallb (λ kv, float_free kv.2) (au_before_state r) && forallb (λ kv, float_free kv.2) (au_after_state r).

Lemma row_payload_float_free r : states_float_free r = true → float_free (row_payload r) = true.
Proof.
  unfold states_float_free, row_payload. intros [Hb Ha]%andb_prop.
  assert (∀ o, float_free (vopt o) = true) as Ho by by intros [].
  cbn [float_free forallb snd]. by rewrite Hb, Ha, !Ho.
Qed.

(** What two rows agree on when the hash agrees: all hashed fields, with the JSON
    states up to the order of their members. *)
Definition same_content (a b : AuditLog) : Prop := json_norm (row_payload a) = json_norm (row_payload b).

(** The text whose hash is the record hash of a row, and two rows whose texts collide. *)
Definition hashed_text (r : AuditLog) : string := link_text (au_previous_hash r) (row_payload r).
Definition colliding_rows (a b : list AuditLog) : Prop :=
  ∃ i r r', a !! i = Some r ∧ b !! i = Some r' ∧ collide (hashed_text r) (hashed_text r').

Lemma linked_same a b h1 h2 h :
  String.length h1 = 64%nat → String.length h2 = 64%nat → length a = length b →
  Forall (λ r, states_float_free r = true) a → Forall (λ r, states_float_free r = true) b →
  linked h1 a h → linked h2 b h → (h1 = h2 ∧ Forall2 same_content a b) ∨ colliding_rows a b.
Proof.
  intros H1 H2 Hlen Ha Hb La. revert h2 b H2 Hlen Hb.
  induction La as [h|h r rows h' Hp Hr La IH]; intros h2 b H2 Hlen Hb Lb; destruct b as [|r' b]; try done.
  - left. inversion Lb; subst. by split.
  - apply Forall_cons_1 in Ha as [Har Ha]. apply Forall_cons_1 in Hb as [Hbr Hb].
    inversion Lb as [|? ? ? ? Hp' Hr' Lb']; subst h2. simpl in Hlen.
    destruct (IH ltac:(rewrite Hr; apply sha256_hex_length) Ha (au_record_hash r') b)
      as [[He Hf]|Hx]; [rewrite Hr'; apply sha256_hex_length | lia | done | done | | destruct Hx as (i & x & y & Hx); right; by exists (S i), x, y].
    rewrite Hr, Hr' in He.
    destruct (chained_hash_inj h (au_previous_hash r') (row_payload r) (row_payload r'))
      as [[-> Hpay]|]; [congruence | by apply row_payload_float_free
      | by apply row_payload_float_free | done | | right; exists 0%nat, r, r'; unfold hashed_text; by rewrite Hp].
    left. split; [done|]. by constructor.
Qed.

(** C5. Tamper evidence: two logs that both verify, have the same number of rows, no floats
    in their JSON states and end in the same record hash agree on every hashed field of every
    row; or else the two logs have, at one position, rows whose hashed texts differ and have
    the same SHA-256. So a change of a hashed field goes unnoticed to a reader who kept the
    last record hash only if the changed log exhibits a collision with the original. *)
Theorem audit_tamper_evident rows rows' :
  verify_audit_chain rows = (true, "ok") → verify_audit_chain rows' = (true, "ok") →
  forallb states_float_free rows = true → forallb states_float_free rows' = true →
  length rows = length rows' →
  au_record_hash <$> last (sort_by seq_asc rows) = au_record_hash <$> last (sort_by seq_asc rows') →
  Forall2 same_content (sort_by seq_asc rows) (sort_by seq_asc rows') ∨ colliding_rows (sort_by seq_asc rows) (sort_by seq_asc rows').
Proof.
  intros [h Hv]%verify_rows_linked [h' Hv']%verify_rows_linked Hf%forallb_Forall Hf'%forallb_Forall Hlen He.
  assert (h = h') as <-.
  { apply linked_end in Hv, Hv'. rewrite Hv, Hv', He. done. }
  destruct (linked_same (sort_by seq_asc rows) (sort_by seq_asc rows') GENESIS_HASH GENESIS_HASH h)
    as [[_ ?]|]; [done | done | | | | done | done | by left | by right].
  - by rewrite !length_sort_by.
  - by rewrite sort_by_perm.
  - by rewrite sort_by_perm.
Qed.

(** The same row with another timestamp and identifier. *)
Definition restamp (f : AuditLog → datetime) (g : AuditLog → string) (r : AuditLog) : AuditLog := {|
  au_id := g r; au_sequence := au_sequence r; au_tenant_id := au_tenant_id r;
  au_actor_type := au_actor_type r; au_actor_id := au_actor_id r;
  au_request_id := au_request_id r; au_action := au_action r; au_target_type := au_target_type r;
  au_target_id := au_target_id r; au_reason := au_reason r;
  au_policy_decision := au_policy_decision r; au_approval_status := au_approval_status r;
  au_before_state := au_before_state r; au_after_state := au_after_state r;
  au_result := au_result r; au_timestamp := f r; au_previous_hash := au_previous_hash r;
  au_record_hash := au_record_hash r |}.

Lemma restamp_sort f g rows : sort_by seq_asc (restamp f g <$> rows) = restamp f g <$> sort_by seq_asc rows.
Proof.
  assert (∀ x l, insert_by seq_asc (restamp f g x) (restamp f g <$> l)
                 = restamp f g <$> insert_by seq_asc x l) as Hi.
  { intros x l. induction l as [|y l IH]; [done|]. rewrite fmap_cons. cbn [insert_by].
    change (seq_asc (restamp f g x) (restamp f g y)) with (seq_asc x y).
    destruct (seq_asc x y); [done|]. by rewrite fmap_cons, IH. }
  induction rows as [|x rows IH]; [done|]. rewrite fmap_cons. cbn [sort_by foldr].
  unfold sort_by in *. by rewrite IH, Hi.
Qed.

(** What the chain does not cover: the record hash is not computed from the
    [timestamp] and [id] columns, so rewriting them leaves the verdict unchanged. *)
Theorem audit_timestamp_not_covered f g rows :
  verify_audit_chain (restamp f g <$> rows) = verify_audit_chain rows.
Proof.
  unfold verify_audit_chain. rewrite restamp_sort. generalize GENESIS_HASH (sort_by seq_asc rows).
  intros h l. revert h. induction l as [|r l IH]; intros h; [done|].
  rewrite fmap_cons. cbn [verify_rows]. rewrite <-IH. done.
Qed.

(** Tenant isolation of the audit listing: without platform scope it returns
    exactly the rows of the tenant, newest sequence first. *)
Theorem list_audit_isolated rows tenant r :
  (r ∈ list_audit rows tenant false ↔ r ∈ rows ∧ au_tenant_id r = tenant)
  ∧ sorted_by seq_desc (list_audit rows tenant false).
Proof.
  unfold list_audit. split.
  - rewrite elem_of_sort_by, elem_of_select, bool_decide_eq_true. done.
  - apply sort_by_sorted; unfold seq_desc; intros; py_bool; apply Z.leb_le; lia.
Qed.

(** ** Examples *)

Section example.
#[local] Instance demo_oracle : Oracle := {|
  uuid_hex n := str_of_nat n; clock n := utc 20000 (Z.of_nat n) |}.
Definition demo_body (a : string) : AuditBody := {|
  b_tenant_id := Some "ten_a"; b_actor_type := "user"; b_actor_id := "usr_1"; b_request_id := "req_1";
  b_action := a; b_target_type := "incident"; b_target_id := None; b_reason := None;
  b_policy_decision := None; b_approval_status := None;
  b_before_state := Some [("status", VStr "new")]; b_after_state := None; b_result := "success" |}.
Definition demo_log : db := snd ((write_audit (demo_body "a");; write_audit (demo_body "b")) empty_db).
Definition set_action (a : string) (r : AuditLog) : AuditLog := {|
  au_id := au_id r; au_sequence := au_sequence r; au_tenant_id := au_tenant_id r;
  au_actor_type := au_actor_type r; au_actor_id := au_actor_id r;
  au_request_id := au_request_id r; au_action := a; au_target_type := au_target_type r;
  au_target_id := au_target_id r; au_reason := au_reason r;
  au_policy_decision := au_policy_decision r; au_approval_status := au_approval_status r;
  au_before_state := au_before_state r; au_after_state := au_after_state r;
  au_result := au_result r; au_timestamp := au_timestamp r; au_previous_hash := au_previous_hash r;
  au_record_hash := au_record_hash r |}.
Definition demo_tampered : list AuditLog :=
  match d_audit demo_log with
  | r :: rest => restamp (λ _, utc 0 0) au_id r :: rest
  | [] => []
  end.


Lemma audit_log_verifies_witness :
  verify_audit_chain (d_audit demo_log) = (true, "ok")
  ∧ au_sequence <$> d_audit demo_log = Z.of_nat <$> seq 1 (length (d_audit demo_log)).
Proof.
  apply (audit_log_verifies demo_log).
  eapply (audit_step (snd (write_audit (demo_body "a") empty_db)) (demo_body "b")).
  - eapply (audit_step empty_db (demo_body "a")); [by apply audit_start|].
    vm_compute. reflexivity.
  - vm_compute. reflexivity.
Defined.

Lemma audit_tamper_evident_witness :
  Forall2 same_content (sort_by seq_asc (d_audit demo_log)) (sort_by seq_asc demo_tampered)
  ∨ colliding_rows (sort_by seq_asc (d_audit demo_log)) (sort_by seq_asc demo_tampered).
Proof.
  apply (audit_tamper_evident (d_audit demo_log) demo_tampered).
  - vm_compute. reflexivity.
  - vm_compute. reflexivity.
  - vm_compute. reflexivity.
  - vm_compute. reflexivity.
  - vm_compute. reflexivity.
  - vm_compute. reflexivity.
Defined.

(** Changing a hashed field of the first row is reported at that row. *)
Example demo_break :
  verify_audit_chain (match d_audit demo_log with
    | r :: rest => restamp au_timestamp au_id (set_action "other" r) :: rest | [] => [] end)
  = (false, "audit chain break at sequence 1").
Proof. vm_compute. reflexivity. Qed.
End example.
