(* ===== verification/Policy.v ===== *)
(** * Response policy

    Models [packages/playbook-sdk/blueteam_playbook/policy.py] (the action tiers)
    and [packages/rego-engine/blueteam_rego/{engine,opa}.py] (the decision engine).
    The OPA process is outside the repository: the class [Opa] holds what the code
    observes of it. The built-in subset is modelled in full. *)
From S2P Require Export PyValue.
Local Open Scope Z_scope.

Inductive PolicyDecision := ALLOW | DENY | REQUIRE_APPROVAL.
#[export] Instance PolicyDecision_eq_dec : EqDecision PolicyDecision.
Proof. solve_decision. Defined.

(** ** Action tiers *)

Inductive ActionTier := T0 | T1 | T2.
#[export] Instance ActionTier_eq_dec : EqDecision ActionTier.
Proof. solve_decision. Defined.
(** [ActionTier(n)]: the enum constructor raises on an unknown value. *)
Definition action_tier (n : Z) : result ActionTier :=
  if n =? 0 then Ok T0 else if n =? 1 then Ok T1 else if n =? 2 then Ok T2
  else Raise (ValueError (str_of_Z n +:+ " is not a valid ActionTier")).

Definition TIER2_ACTIONS : list string := [
  "isolate_host"; "isolate.host"; "disable_user"; "revoke_privileged_access"; "modify_firewall";
  "push_production_detection"; "alter_platform_policy"; "delete_evidence"].
Definition TIER1_ACTIONS : list string :=
  ["contain_session"; "disable_stale_token"; "quarantine_mailbox_rule"].

Definition evaluate_action (action_type : string) (tier : option ActionTier) : PolicyDecision :=
  if mem action_type TIER2_ACTIONS || bool_decide (tier = Some T2) then REQUIRE_APPROVAL
  else if mem action_type TIER1_ACTIONS || bool_decide (tier = Some T1) then REQUIRE_APPROVAL
  else ALLOW.

(** ** The policy document *)

(** [v.get(k)] on a value that must be a dict. *)
Definition vget (v : pyval) (k : string) (dflt : pyval) : result pyval :=
  match v with
  | VDict d => Ok (dget_or k dflt d)
  | _ => Raise (OtherError "AttributeError: object has no attribute 'get'")
  end.

Record PolicyResult := {
  pr_decision : PolicyDecision; pr_reason : string; pr_policy : string; pr_engine : string }.
Definition policy_result (d : PolicyDecision) (reason : string) : PolicyResult := {|
  pr_decision := d; pr_reason := reason; pr_policy := "blueteam.response.v1";
  pr_engine := "blueteam_rego.subset" |}.

(** What [_subset_evaluate] reads from the input document, coerced as it coerces. *)
Record PolicyInput := {
  pi_action_type : string; pi_tier : Z; pi_read_only : bool; pi_dry_run : bool;
  pi_environment : string; pi_confidence : float; pi_auto : bool; pi_requested_by_ai : bool;
  pi_domain : string }.

Definition read_input (input_doc : pydict) : result PolicyInput :=
  let action := vor (dgetv "action" input_doc) (VDict []) in
  ty ← vget action "type" (VStr "");
  tier_v ← vget action "tier" (VInt 2);
  tier ← py_int tier_v;
  ro ← vget action "read_only" (VBool false);
  dry ← vget action "dry_run" (VBool true);
  conf ← py_float (dget_or "confidence" (VInt 0) input_doc);
  mret {| pi_action_type := py_str ty; pi_tier := tier; pi_read_only := vtrue ro;
          pi_dry_run := vtrue dry;
          pi_environment := py_str (dget_or "environment" (VStr "unknown") input_doc);
          pi_confidence := conf;
          pi_auto := vtrue (dget_or "auto_containment" (VBool false) input_doc);
          pi_requested_by_ai := vtrue (dget_or "requested_by_ai" (VBool false) input_doc);
          pi_domain := py_str (dget_or "domain" (VStr "") input_doc) |}.

Definition confidence_bar : float := fl_of_decimal false 95 (-2).

(** The decision list of [_subset_evaluate]. *)
Definition decide_input (i : PolicyInput) : PolicyResult :=
  if mem (pi_action_type i) ["delete_evidence"; "alter_platform_policy"] then
    policy_result DENY "Destructive or policy-altering actions are denied"
  else if startswith (pi_action_type i) "ai." || startswith (pi_action_type i) "llm."
          || pi_requested_by_ai i then
    policy_result DENY "AI cannot request execution authority"
  else if pi_dry_run i && pi_read_only i then
    policy_result ALLOW "Read-only dry-run is permitted"
  else if 2 <=? pi_tier i then
    policy_result REQUIRE_APPROVAL "Tier-2 actions always require a human"
  else if negb (pi_read_only i) && (lower (pi_environment i) =? "production")%string then
    policy_result REQUIRE_APPROVAL "Production impact requires approval even at high confidence"
  else if mem (pi_domain i) ["identity"; "endpoint"; "network"; "cloud"; "tenant"]
          && negb (pi_read_only i) then
    policy_result REQUIRE_APPROVAL (pi_domain i +:+ " mutation requires approval")
  else if negb (pi_read_only i) && (negb (pi_auto i) || fl_lt (pi_confidence i) confidence_bar) then
    policy_result REQUIRE_APPROVAL "Containment requires auto_containment and confidence >= 0.95"
  else if pi_read_only i && (pi_tier i =? 0) then
    policy_result ALLOW "Tier-0 read-only collection is permitted"
  else policy_result DENY "Default deny".

Definition subset_evaluate (input_doc : pydict) : result PolicyResult :=
  decide_input <$> read_input input_doc.

(** ** OPA *)

(** What [subprocess.run] reports of the [opa eval] process. *)
Record completed := { cp_returncode : Z; cp_stdout_json : result pyval; cp_stderr : string }.
Class Opa := {
  opa_binary : option string;            (** [shutil.which("opa")] *)
  opa_policy_files : list string;        (** the policy files found under the repository *)
  opa_run : string → list string → pydict → result completed;
}.

Definition str_last (n : nat) (s : string) : string := str_drop (String.length s - n) s.
(** [l[0].get(k) or []] on a list of dicts. *)
Definition first_get (l : list pyval) (k : string) : result pyval :=
  match l with
  | [] => Raise (OtherError "IndexError: list index out of range")
  | v :: _ => vget v k VNone
  end.
Definition as_list (v : pyval) : result (list pyval) :=
  match v with
  | VList l => Ok l
  | _ => if vtrue v then Raise (TypeError "object is not subscriptable") else Ok []
  end.

Section opa.
Context `{Opa}.

Definition opa_available : bool := match opa_binary with Some _ => true | None => false end.

Definition deny_doc (reason : string) : pydict :=
  [("decision", VStr "DENY"); ("reason", VStr reason); ("engine", VStr "opa")].

Definition evaluate_opa (input_doc : pydict) : result pydict :=
  match opa_binary with
  | None => Raise (OtherError "opa binary is not installed")
  | Some binary =>
      if bool_decide (opa_policy_files = []) then Raise (OtherError "no Rego policy files found")
      else
        c ← opa_run binary opa_policy_files input_doc;
        if negb (cp_returncode c =? 0)
        then Raise (OtherError (str_or (str_last 1000 (cp_stderr c)) "opa eval failed"))
        else
          payload ← cp_stdout_json c;
          results_v ← vget payload "result" VNone;
          results ← as_list results_v;
          if bool_decide (length results = 0%nat)
          then Ok (deny_doc "OPA returned no result — default deny")
          else
            exprs_v ← first_get results "expressions";
            exprs ← as_list exprs_v;
            value ← (if bool_decide (length exprs = 0%nat) then Ok (VDict [("decision", VStr "DENY")])
                     else first_get exprs "value");
            match value with
            | VStr s => Ok [("decision", VStr s); ("reason", VStr "OPA decision"); ("engine", VStr "opa")]
            | VDict d => Ok [
                ("decision", VStr (py_str (dget_or "decision" (VStr "DENY") d)));
                ("reason", VStr (py_str (dget_or "reason" (VStr "OPA decision") d)));
                ("engine", VStr "opa");
                ("policy", VStr (py_str (dget_or "policy" (VStr "blueteam.policy") d)))]
            | _ => Ok (deny_doc "unrecognised OPA result — default deny")
            end
  end.

Definition decision_of (s : string) : PolicyDecision :=
  if (s =? "ALLOW")%string then ALLOW
  else if (s =? "REQUIRE_APPROVAL")%string then REQUIRE_APPROVAL else DENY.

Definition evaluate (input_doc : pydict) (prefer_opa : bool) : result PolicyResult :=
  if prefer_opa && opa_available then
    match evaluate_opa input_doc with
    | Ok raw => Ok {|
        pr_decision := decision_of (py_str (dget_or "decision" (VStr "DENY") raw));
        pr_reason := py_str (dget_or "reason" (VStr "OPA decision") raw);
        pr_policy := py_str (dget_or "policy" (VStr "blueteam.policy.v1") raw);
        pr_engine := "opa" |}
    | Raise exc => (λ fallback, {|
        pr_decision := pr_decision fallback;
        pr_reason := pr_reason fallback +:+ " (OPA failed: " +:+ exn_str exc +:+ ")";
        pr_policy := pr_policy fallback; pr_engine := "blueteam_rego.subset" |})
        <$> subset_evaluate input_doc
    end
  else subset_evaluate input_doc.

Definition active_engine : string := if opa_available then "opa" else "blueteam_rego.subset".

Definition as_dict (r : PolicyResult) : pydict := [
  ("decision", VStr (match pr_decision r with ALLOW => "ALLOW" | DENY => "DENY"
                     | REQUIRE_APPROVAL => "REQUIRE_APPROVAL" end));
  ("reason", VStr (pr_reason r)); ("policy", VStr (pr_policy r)); ("engine", VStr (pr_engine r))].
End opa.

(** ** Lemmas *)

Lemma evaluate_action_T2 ty : evaluate_action ty (Some T2) = REQUIRE_APPROVAL.
Proof. unfold evaluate_action. by rewrite orb_true_r. Qed.

Lemma evaluate_action_not_deny ty t : evaluate_action ty t ≠ DENY.
Proof. unfold evaluate_action. by repeat case_match. Qed.

Lemma evaluate_action_allow ty t :
  evaluate_action ty t = ALLOW ↔
  ty ∉ TIER2_ACTIONS ∧ ty ∉ TIER1_ACTIONS ∧ t ≠ Some T2 ∧ t ≠ Some T1.
Proof.
  unfold evaluate_action. rewrite <-!mem_false.
  destruct (mem ty TIER2_ACTIONS), (mem ty TIER1_ACTIONS); repeat case_bool_decide; naive_solver.
Qed.

(** The decision list, read as the conditions under which each verdict is reached. *)
Definition ai_origin (i : PolicyInput) : bool :=
  startswith (pi_action_type i) "ai." || startswith (pi_action_type i) "llm." || pi_requested_by_ai i.
Definition destructive (i : PolicyInput) : bool :=
  mem (pi_action_type i) ["delete_evidence"; "alter_platform_policy"].

(** The complete condition under which the built-in policy allows an action: it is
    neither destructive nor AI-originated, it is read-only, and it is a dry run or a
    tier-0 collection. No environment, confidence or auto-containment flag widens it. *)
Theorem subset_allow_iff i :
  pr_decision (decide_input i) = ALLOW ↔
  destructive i = false ∧ ai_origin i = false ∧ pi_read_only i = true ∧
  (pi_dry_run i = true ∨ pi_tier i = 0).
Proof.
  unfold decide_input, destructive, ai_origin.
  destruct (mem _ _) eqn:Hd; [simpl; naive_solver|].
  destruct (startswith _ _ || _ || _) eqn:Ha; [simpl; naive_solver|].
  destruct (pi_dry_run i) eqn:Hdry, (pi_read_only i) eqn:Hro; simpl; rewrite ?andb_false_r; simpl;
    repeat (case_match; simpl); py_bool; split; intros; destruct_and?; try naive_solver lia.
Qed.
