(* ===== verification/Broker.v ===== *)
(** * Execution broker

    Models [packages/execution-broker/blueteam_broker/{registry,broker}.py] and
    [packages/schemas/blueteam_schemas/actions.py]. What the broker does to the
    outside world is recorded in an effect log: a handler call or a process started. *)
From S2P Require Export Policy Hashing Schemas.
Local Open Scope Z_scope.

(** ** Contracts *)

Inductive Language := LPython | LPowershell | LBash | LGo | LRust | LSigma | LYara | LSql | LBlueql
  | LRego | LEbpf | LCpp.
#[export] Instance Language_eq_dec : EqDecision Language. Proof. solve_decision. Defined.
Definition language_str (l : Language) : string :=
  match l with
  | LPython => "python" | LPowershell => "powershell" | LBash => "bash" | LGo => "go"
  | LRust => "rust" | LSigma => "sigma" | LYara => "yara" | LSql => "sql" | LBlueql => "blueql"
  | LRego => "rego" | LEbpf => "ebpf" | LCpp => "cpp"
  end.

Record ActionSpec := {
  as_action_type : string; as_language : Language; as_description : string; as_tier : Z;
  as_read_only : bool; as_required_permission : string; as_allowed_params : list string;
  as_script_path : option string; as_rollback_available : bool }.

Record ActionRequest := {
  aq_action_id : string; aq_action_type : string; aq_tenant_id : string; aq_target : pydict;
  aq_params : pydict; aq_reason : string; aq_requested_by : string; aq_dry_run : bool;
  aq_actor_roles : list string; aq_permissions : list string }.

Record ActionResult := {
  ar_action_id : string; ar_action_type : string; ar_tenant_id : string;
  ar_policy_decision : PolicyDecision; ar_approval_status : option string; ar_executor : string;
  ar_rollback_available : bool; ar_status : string; ar_dry_run : bool; ar_outputs : pydict;
  ar_evidence_ids : list string; ar_skip_reason : option string; ar_error : option string;
  ar_completed_at : option datetime }.

(** The literals pydantic accepts for [status]. *)
Definition ActionStatus : list string :=
  ["planned"; "denied"; "awaiting_approval"; "executed"; "skipped"; "failed"; "verified"].

(** ** The registry *)

Section registry.
Context (REPO_ROOT : string).

Definition powershell_spec (ty desc : string) (params : list string) (script : string) : ActionSpec := {|
  as_action_type := ty; as_language := LPowershell; as_description := desc; as_tier := 0;
  as_read_only := true; as_required_permission := "response:tier0"; as_allowed_params := params;
  as_script_path := Some (REPO_ROOT +:+ "/security-languages/powershell/windows/" +:+ script);
  as_rollback_available := false |}.
Definition bash_spec (ty desc : string) (params : list string) (script : string) : ActionSpec := {|
  as_action_type := ty; as_language := LBash; as_description := desc; as_tier := 0;
  as_read_only := true; as_required_permission := "response:tier0"; as_allowed_params := params;
  as_script_path := Some (REPO_ROOT +:+ "/security-languages/shell/linux/" +:+ script);
  as_rollback_available := false |}.
Definition engine_spec (ty : string) (lang : Language) (desc perm : string) (params : list string)
    : ActionSpec := {|
  as_action_type := ty; as_language := lang; as_description := desc; as_tier := 0;
  as_read_only := true; as_required_permission := perm; as_allowed_params := params;
  as_script_path := None; as_rollback_available := false |}.
Definition response_spec (ty desc : string) (params : list string) (rollback : bool) : ActionSpec := {|
  as_action_type := ty; as_language := LPython; as_description := desc; as_tier := 2;
  as_read_only := false; as_required_permission := "response:tier2"; as_allowed_params := params;
  as_script_path := None; as_rollback_available := rollback |}.

Definition registry_specs : list ActionSpec := [
  powershell_spec "collect.windows.processes" "Read-only local process inventory (Windows)."
    ["limit"] "Get-BtosProcesses.ps1";
  powershell_spec "collect.windows.defender" "Read-only Microsoft Defender status."
    [] "Get-BtosDefenderStatus.ps1";
  powershell_spec "collect.windows.scheduled_tasks" "Read-only scheduled task inventory."
    ["limit"] "Get-BtosScheduledTasks.ps1";
  powershell_spec "collect.windows.services" "Read-only service inventory."
    ["limit"] "Get-BtosServices.ps1";
  powershell_spec "collect.windows.local_admins" "Read-only local Administrators group membership."
    [] "Get-BtosLocalAdmins.ps1";
  powershell_spec "collect.windows.events" "Read-only recent Windows Security events."
    ["max_events"] "Get-BtosWindowsEvents.ps1";
  powershell_spec "collect.windows.auth_events" "Read-only authentication event query template."
    ["hours"; "max_events"] "Get-BtosAuthEvents.ps1";
  bash_spec "collect.linux.processes" "Read-only process inventory (Linux/POSIX)."
    ["limit"] "collect_processes.sh";
  bash_spec "collect.linux.sessions" "Read-only user session inspection." [] "collect_sessions.sh";
  bash_spec "collect.linux.sockets" "Read-only listening sockets." [] "collect_sockets.sh";
  bash_spec "collect.linux.systemd" "Read-only systemd unit inventory." [] "collect_systemd.sh";
  bash_spec "collect.linux.cron" "Read-only crontab listing." [] "collect_cron.sh";
  bash_spec "collect.linux.ssh" "Read-only SSH auth log tail." [] "collect_ssh.sh";
  bash_spec "collect.linux.audit" "Read-only audit log tail." [] "collect_audit.sh";
  engine_spec "scan.yara.bytes" LYara "Scan provided bytes with approved YARA rules."
    "detections:read" ["rule_id"; "content_b64"; "filename"];
  engine_spec "hunt.blueql" LBlueql "Compile and execute a BlueQL hunt against provided events."
    "hunts:execute" ["query"; "dry_run"];
  engine_spec "hunt.sql" LSql "Execute a registered, parameterized SQL hunt."
    "hunts:execute" ["query_id"; "params"];
  engine_spec "policy.evaluate" LRego "Evaluate a proposed response against Rego policy."
    "response:tier0" ["proposed_action"; "environment"; "confidence"; "auto_containment"];
  response_spec "isolate.host" "Host isolation request. Always policy-gated."
    ["host_id"; "environment"; "confidence"; "auto_containment"] true;
  response_spec "identity.disable_user" "Disable a user account. Policy-gated identity action."
    ["user_id"; "environment"; "confidence"; "auto_containment"] false;
  response_spec "identity.revoke_token" "Revoke an access token. Policy-gated identity action."
    ["token_id"; "environment"; "confidence"; "auto_containment"] false;
  response_spec "network.block_ioc" "Block an IOC. Policy-gated network action."
    ["indicator"; "environment"; "confidence"; "auto_containment"] false].

Definition default_registry : list (string * ActionSpec) :=
  (λ s, (as_action_type s, s)) <$> registry_specs.
End registry.

(** ** What surrounds the broker

    The file system, the process runner and the sibling scan and hunt engines. *)

Record process_result := { ps_returncode : Z; ps_stdout : string; ps_stderr : string }.

Class BrokerEnv := {
  script_exists : string → bool;
  script_bytes : string → string;
  which : string → option string;
  run_process : list string → result process_result;
  scan_b64 : pydict → result pydict;                       (** [blueteam_yara.engine] *)
  blueql_explain : string → result (pyval * pyval);        (** [blueteam_blueql.engine]: parse, explain *)
  sql_describe : string → result pydict;                   (** [blueteam_sql.engine] *)
}.

Inductive effect :=
| EHandler (action_type : string) (request : ActionRequest)
| ESubprocess (cmd : list string).

Record bstate := { b_draws : draws; b_effects : list effect }.
Definition add_effect (e : effect) (s : bstate) : bstate :=
  {| b_draws := b_draws s; b_effects := b_effects s ++ [e] |}.

Record ExecutionBroker := {
  br_registry : list (string * ActionSpec);
  br_handlers : list (string * (ActionRequest → ActionSpec → result pydict)) }.

(** [__init__]: [registry or default_registry()]. *)
Definition make_broker (root : string) (registry : option (list (string * ActionSpec)))
    (handlers : list (string * (ActionRequest → ActionSpec → result pydict))) : ExecutionBroker := {|
  br_registry := match registry with Some (_ :: _ as r) => r | _ => default_registry root end;
  br_handlers := handlers |}.

Definition FORBIDDEN_ACTION_PREFIXES : list string :=
  ["shell.exec"; "powershell.invoke_raw"; "bash.eval"; "os.system"].
Definition forbidden (ty : string) : bool := existsb (startswith ty) FORBIDDEN_ACTION_PREFIXES.

(** [set(params) - allowed | set(target) - allowed]. *)
Definition extra_params (request : ActionRequest) (spec : ActionSpec) : list string :=
  remove_dups (select (λ k, negb (mem k (as_allowed_params spec)))
                      (dkeys (aq_params request) ++ dkeys (aq_target request))).
Definition permitted (request : ActionRequest) (spec : ActionSpec) : bool :=
  mem (as_required_permission spec) (aq_permissions request)
  || mem "admin:platform" (aq_permissions request).

(** The document the policy engine is asked about. *)
Definition policy_doc (request : ActionRequest) (spec : ActionSpec) : result pydict :=
  let params := aq_params request in
  conf ← py_float (dget_or "confidence" (VInt 0) params);
  mret [
    ("action", VDict [
       ("type", VStr (aq_action_type request)); ("tier", VInt (as_tier spec));
       ("read_only", VBool (as_read_only spec)); ("dry_run", VBool (aq_dry_run request))]);
    ("environment", dget_or "environment" (VStr "unknown") params);
    ("confidence", VFloat conf);
    ("auto_containment", VBool (vtrue (dget_or "auto_containment" (VBool false) params)));
    ("domain", dget_or "domain" (VStr (fst (split_once "." (aq_action_type request)))) params);
    ("requested_by_ai", VBool (vtrue (dget_or "requested_by_ai" (VBool false) params)))].

(** The document built for a [policy.evaluate] action. *)
Definition proposed_doc (request : ActionRequest) : result pydict :=
  let params := aq_params request in
  conf ← py_float (dget_or "confidence" (VInt 0) params);
  mret [
    ("action", VDict [
       ("type", VStr (py_str (dget_or "proposed_action" (VStr "unknown") params)));
       ("tier", VInt (if startswith (py_str (dget_or "proposed_action" (VStr "") params)) "isolate"
                      then 2 else 0));
       ("read_only", VBool false); ("dry_run", VBool (aq_dry_run request))]);
    ("environment", dget_or "environment" (VStr "unknown") params);
    ("confidence", VFloat conf);
    ("auto_containment", VBool (vtrue (dget_or "auto_containment" (VBool false) params)))].

Definition safe_command (spec : ActionSpec) (script binary : string) (request : ActionRequest)
    : result (list string) :=
  let int_flag (key flag : string) (cmd : list string) : result (list string) :=
    match dget key (aq_params request) with
    | Some v => n ← py_int v; mret (cmd ++ [flag; str_of_Z n])
    | None => mret cmd
    end in
  if bool_decide (as_language spec = LPowershell) then
    let cmd := [binary; "-NoProfile"; "-NonInteractive"; "-File"; script]
               ++ (if aq_dry_run request then ["-DryRun"] else []) in
    cmd ← int_flag "limit" "-Limit" cmd;
    int_flag "max_events" "-MaxEvents" cmd
  else
    let cmd := [binary; script] ++ (if aq_dry_run request then ["--dry-run"] else []) in
    int_flag "limit" "--limit" cmd.

Section broker.
Context `{Oracle} `{Opa} `{BrokerEnv}.
Implicit Types (request : ActionRequest) (spec : ActionSpec).

Definition script_runtime spec : string :=
  if bool_decide (as_language spec = LPowershell) then "pwsh" else "bash".
Definition script_binary spec : option string :=
  if bool_decide (as_language spec = LPowershell)
  then oor (which (script_runtime spec)) (which "powershell") else which "bash".
Definition planned_doc request spec (script : string) : pydict := [
  ("script", VStr script); ("script_sha256", VStr (sha256_hex (script_bytes script)));
  ("runtime", VStr (script_runtime spec));
  ("args", VDict (aq_params request)); ("dry_run", VBool (aq_dry_run request));
  ("invoke_expression", VBool false); ("arbitrary_shell", VBool false)].

Definition plan_or_run_script request spec : M bstate pydict :=
  match as_script_path spec with
  | None => mret [("skip_reason", VStr "script missing"); ("status", VStr "skipped")]
  | Some script =>
      if negb (script_exists script)
      then mret [("skip_reason", VStr "script missing"); ("status", VStr "skipped")]
      else
        let planned := planned_doc request spec script in
        match script_binary spec with
        | None => mret (planned ++ [("skip_reason", VStr (script_runtime spec +:+ " not installed"));
                                    ("status", VStr "skipped")])
        | Some binary =>
            if aq_dry_run request then mret (planned ++ [("status", VStr "planned")])
            else
              cmd ← lift (safe_command spec script binary request);
              modify (add_effect (ESubprocess cmd));;
              completed ← lift (run_process cmd);
              mret (dset "dry_run" (VBool false) planned ++ [
                ("exit_code", VInt (ps_returncode completed));
                ("stdout", VStr (str_last 4000 (ps_stdout completed)));
                ("stderr", VStr (str_last 1000 (ps_stderr completed)));
                ("status", VStr (if ps_returncode completed =? 0 then "executed" else "failed"))])
        end
  end.

Definition execute (br : ExecutionBroker) request spec : M bstate pydict :=
  match dget (as_action_type spec) (br_handlers br) with
  | Some h => modify (add_effect (EHandler (as_action_type spec) request));; lift (h request spec)
  | None =>
      match as_language spec with
      | LPowershell | LBash => plan_or_run_script request spec
      | LYara => lift (scan_b64 (aq_params request))
      | LBlueql => lift (
          ae ← blueql_explain (py_str (dget_or "query" (VStr "") (aq_params request)));
          mret [("ast", fst ae); ("explain", snd ae); ("dry_run", VBool true)])
      | LSql => lift (sql_describe (py_str (dget_or "query_id" (VStr "") (aq_params request))))
      | LRego => lift (doc ← proposed_doc request; as_dict <$> evaluate doc true)
      | lang => mret [("planned", VBool true); ("executor", VStr (language_str lang))]
      end
  end.

Definition new_id_b : string → M bstate string :=
  new_id b_draws (λ d s, {| b_draws := d; b_effects := b_effects s |}).
Definition utcnow_b : M bstate datetime :=
  utcnow b_draws (λ d s, {| b_draws := d; b_effects := b_effects s |}).

(** Pydantic's checks of the two fields taken from the outputs. *)
Definition status_field (v : pyval) : result string :=
  match v with
  | VStr s => if mem s ActionStatus then Ok s else Raise (ValueError "status: literal_error")
  | _ => Raise (ValueError "status: literal_error")
  end.
Definition optional_str_field (v : pyval) : result (option string) :=
  match v with
  | VNone => Ok None
  | VStr s => Ok (Some s)
  | _ => Raise (ValueError "skip_reason: string_type")
  end.

Definition mk_result request spec (decision : PolicyDecision) (status : pyval) (outputs : pydict)
    (skip_reason : pyval) (error approval : option string) : M bstate ActionResult :=
  action_id ← (if nonempty (aq_action_id request) then mret (aq_action_id request)
               else new_id_b "act");
  now ← utcnow_b;
  st ← lift (status_field status);
  skip ← lift (optional_str_field skip_reason);
  mret {| ar_action_id := action_id; ar_action_type := aq_action_type request;
          ar_tenant_id := aq_tenant_id request; ar_policy_decision := decision;
          ar_approval_status := approval; ar_executor := language_str (as_language spec);
          ar_rollback_available := as_rollback_available spec; ar_status := st;
          ar_dry_run := aq_dry_run request; ar_outputs := outputs; ar_evidence_ids := [];
          ar_skip_reason := skip; ar_error := error; ar_completed_at := Some now |}.

(** The checks before any policy question. *)
Definition admit_request (br : ExecutionBroker) request : result ActionSpec :=
  if forbidden (aq_action_type request)
  then Raise (BlueTeamError "ACTION_FORBIDDEN"
                "Arbitrary command execution is not a registered action" 403)
  else
    match dget (aq_action_type request) (br_registry br) with
    | None => Raise (BlueTeamError "ACTION_UNREGISTERED"
                       ("Action " +:+ aq_action_type request +:+ " is not registered") 400)
    | Some spec =>
        let extra := extra_params request spec in
        if negb (bool_decide (extra = []))
        then Raise (BlueTeamError "ACTION_SCHEMA"
               ("Unsupported parameters: " +:+ py_repr (VList (VStr <$> sort_by str_le extra))) 422)
        else if negb (permitted request spec)
        then Raise (PermissionDeniedError ("Missing permission " +:+ as_required_permission spec))
        else Ok spec
    end.

(** The decision: the playbook tier can only make the policy engine stricter. *)
Definition decide_action request spec : result (PolicyDecision * string) :=
  tier ← action_tier (as_tier spec);
  let playbook := evaluate_action (aq_action_type request) (Some tier) in
  doc ← policy_doc request spec;
  policy ← evaluate doc true;
  mret (if bool_decide (playbook = REQUIRE_APPROVAL) && bool_decide (pr_decision policy = ALLOW)
        then REQUIRE_APPROVAL else pr_decision policy, pr_reason policy).

Definition submit (br : ExecutionBroker) request : M bstate ActionResult :=
  spec ← lift (admit_request br request);
  dr ← lift (decide_action request spec);
  let '(decision, reason) := dr in
  if bool_decide (decision = DENY)
  then mk_result request spec decision (VStr "denied") [] VNone (Some reason) None
  else if bool_decide (decision = REQUIRE_APPROVAL) && negb (aq_dry_run request)
  then mk_result request spec decision (VStr "awaiting_approval") [] VNone None (Some "required")
  else if aq_dry_run request || as_read_only spec then
    outputs ← execute br request spec;
    mk_result request spec decision
      (if aq_dry_run request then VStr "planned" else dget_or "status" (VStr "executed") outputs)
      outputs (dgetv "skip_reason" outputs) None None
  else mk_result request spec decision (VStr "denied") [] VNone
         (Some "Non-read-only execution requires approval") None.
End broker.

(** ** Lemmas *)

Section broker_facts.
Context `{Oracle} `{Opa} `{BrokerEnv}.
Implicit Types (request : ActionRequest) (spec : ActionSpec) (br : ExecutionBroker).

Lemma mk_result_effects request spec d st out sk err ap s :
  b_effects (snd (mk_result request spec d st out sk err ap s)) = b_effects s.
Proof.
  unfold mk_result, mbind, M_bind, lift, new_id_b, utcnow_b, new_id, utcnow, mret, M_ret.
  destruct (nonempty _), (status_field st), (optional_str_field sk); reflexivity.
Qed.

Lemma mk_result_ok request spec d st out sk err ap s r s' :
  mk_result request spec d st out sk err ap s = (Ok r, s') →
  ar_policy_decision r = d ∧ ar_error r = err ∧ ar_approval_status r = ap ∧ ar_outputs r = out
  ∧ st = VStr (ar_status r) ∧ ar_dry_run r = aq_dry_run request.
Proof.
  unfold mk_result. intros Hr. do 4 inv_bind Hr. injection Hr as <- <-. simpl.
  unfold lift in Ha1. injection Ha1 as Hst _. unfold status_field in Hst.
  destruct st as [| | | |st| |]; try discriminate.
  destruct (mem st ActionStatus); [injection Hst as ->; tauto | discriminate].
Qed.

Lemma admit_request_ok br request spec :
  admit_request br request = Ok spec →
  forbidden (aq_action_type request) = false
  ∧ dget (aq_action_type request) (br_registry br) = Some spec
  ∧ (∀ k, k ∈ dkeys (aq_params request) ++ dkeys (aq_target request) → k ∈ as_allowed_params spec)
  ∧ (as_required_permission spec ∈ aq_permissions request
     ∨ "admin:platform" ∈ aq_permissions request).
Proof.
  unfold admit_request. destruct (forbidden _); [discriminate|].
  destruct (dget _ _) as [sp|]; [|discriminate].
  case_bool_decide as He; simpl; [|discriminate].
  destruct (permitted request sp) eqn:Hp; simpl; [|discriminate]. intros [= ->].
  split_and!; try done.
  - intros k Hk. destruct (mem k (as_allowed_params spec)) eqn:Hm; [by apply mem_spec|].
    assert (k ∈ extra_params request spec) as Hin.
    { apply elem_of_remove_dups, elem_of_select. by rewrite Hm. }
    rewrite He in Hin. set_solver.
  - unfold permitted in Hp. apply orb_prop in Hp as [Hp|Hp]; apply mem_spec in Hp; auto.
Qed.

(** An ALLOW needs tier 0 and a type outside the approval lists, whatever the policy
    engine answers. *)
Lemma decide_action_allow request spec reason :
  decide_action request spec = Ok (ALLOW, reason) →
  as_tier spec = 0 ∧ aq_action_type request ∉ TIER2_ACTIONS ∧ aq_action_type request ∉ TIER1_ACTIONS.
Proof.
  unfold decide_action. intros Hd.
  apply result_bind_ok in Hd as (t & Ht & Hd). apply result_bind_ok in Hd as (doc & _ & Hd).
  apply result_bind_ok in Hd as (pol & _ & Hd). unfold mret, result_ret in Hd.
  injection Hd as Hd _. destruct (evaluate_action (aq_action_type request) (Some t)) eqn:E;
    [|by apply evaluate_action_not_deny in E|].
  - apply evaluate_action_allow in E as (? & ? & Hn2 & Hn1). unfold action_tier in Ht.
    destruct (Z.eqb_spec (as_tier spec) 0); [done|].
    destruct (Z.eqb_spec (as_tier spec) 1); simplify_eq/=.
    destruct (Z.eqb_spec (as_tier spec) 2); simplify_eq/=.
  - destruct (pr_decision pol); simpl in Hd; discriminate.
Qed.

(** How the argument vector is built. *)
Definition decimal_arg (v : string) : Prop := ∃ n, v = str_of_Z n.
Definition flag_pair (flags cmd : list string) : Prop :=
  ∃ f v, f ∈ flags ∧ decimal_arg v ∧ cmd = [f; v].

Lemma safe_command_shape spec script binary request cmd :
  safe_command spec script binary request = Ok cmd → aq_dry_run request = false →
  ∃ fixed pairs, cmd = binary :: fixed ++ script :: concat pairs
    ∧ fixed = (if bool_decide (as_language spec = LPowershell)
               then ["-NoProfile"; "-NonInteractive"; "-File"] else [])
    ∧ Forall (flag_pair ["-Limit"; "-MaxEvents"; "--limit"]) pairs.
Proof.
  intros Hc Hd. unfold safe_command in Hc. rewrite Hd in Hc. cbv beta iota zeta in Hc.
  rewrite !app_nil_r in Hc.
  assert (∀ key flag (c c' : list string), flag ∈ ["-Limit"; "-MaxEvents"; "--limit"] →
    match dget key (aq_params request) with
    | Some v => n ← py_int v; mret (c ++ [flag; str_of_Z n])
    | None => mret c end = Ok c' →
    ∃ ps, c' = c ++ concat ps ∧ Forall (flag_pair ["-Limit"; "-MaxEvents"; "--limit"]) ps) as Hf.
  { intros key flag c c' Hin He. destruct (dget key _) as [v|].
    - apply result_bind_ok in He as (n & _ & He). injection He as <-.
      exists [[flag; str_of_Z n]]. split; [done|]. constructor; [|constructor].
      exists flag, (str_of_Z n). split_and!; [done | by exists n | done].
    - injection He as <-. exists []. by rewrite app_nil_r. }
  case_bool_decide.
  - apply result_bind_ok in Hc as (c1 & Hc1 & Hc2).
    apply Hf in Hc1 as (p1 & -> & F1); [|set_solver]. apply Hf in Hc2 as (p2 & -> & F2); [|set_solver].
    exists ["-NoProfile"; "-NonInteractive"; "-File"], (p1 ++ p2). rewrite concat_app.
    split_and!; [by rewrite <-app_assoc | done | by apply Forall_app].
  - apply Hf in Hc as (ps & -> & F); [|set_solver]. by exists [], ps.
Qed.

(** What one call of [_execute] can do: nothing, one registered handler, or one
    script run outside a dry run. *)
Definition script_run request spec (cmd : list string) : Prop :=
  ∃ script binary, as_script_path spec = Some script ∧ script_exists script = true ∧ script_binary spec = Some binary
    ∧ aq_dry_run request = false ∧ safe_command spec script binary request = Ok cmd.
Inductive execute_step (br : ExecutionBroker) request spec : list effect → Prop :=
| es_none : execute_step br request spec []
| es_handler h : dget (as_action_type spec) (br_handlers br) = Some h →
    execute_step br request spec [EHandler (as_action_type spec) request]
| es_script cmd : script_run request spec cmd → execute_step br request spec [ESubprocess cmd].

Lemma plan_or_run_script_effects br request spec s :
  ∃ l, b_effects (snd (plan_or_run_script request spec s)) = b_effects s ++ l
       ∧ execute_step br request spec l.
Proof.
  assert (∀ l, l = [] → b_effects s = b_effects s ++ l) as Hnil by (intros ? ->; by rewrite app_nil_r).
  unfold plan_or_run_script. destruct (as_script_path spec) as [script|] eqn:Hs;
    [|exists []; split; [by apply Hnil | constructor]].
  destruct (script_exists script) eqn:Hex; simpl; [|exists []; split; [by apply Hnil | constructor]].
  destruct (script_binary spec) as [binary|] eqn:Hb;
    [|exists []; split; [by apply Hnil | constructor]].
  destruct (aq_dry_run request) eqn:Hd; [exists []; split; [by apply Hnil | constructor]|].
  unfold mbind, M_bind, lift, modify.
  destruct (safe_command spec script binary request) as [cmd|e] eqn:Hc;
    [|exists []; split; [by apply Hnil | constructor]].
  exists [ESubprocess cmd]. split; [by destruct (run_process cmd)|].
  constructor. by exists script, binary.
Qed.

Lemma execute_effects br request spec s :
  ∃ l, b_effects (snd (execute br request spec s)) = b_effects s ++ l
       ∧ execute_step br request spec l.
Proof.
  unfold execute. destruct (dget _ _) as [h|] eqn:Hh.
  { exists [EHandler (as_action_type spec) request]. split; [reflexivity | by eapply es_handler]. }
  destruct (as_language spec);
    try (exists []; split; [by rewrite app_nil_r | constructor]);
    apply plan_or_run_script_effects.
Qed.

(** The whole of [submit], seen from its effects. *)
Lemma submit_effects br request s :
  ∃ l, b_effects (snd (submit br request s)) = b_effects s ++ l ∧
    (l = [] ∨ ∃ spec d reason,
       admit_request br request = Ok spec ∧ decide_action request spec = Ok (d, reason)
       ∧ execute_step br request spec l
       ∧ (aq_dry_run request = true ∨ (d = ALLOW ∧ as_read_only spec = true))).
Proof.
  assert (∀ s', b_effects s' = b_effects s → ∃ l : list effect, b_effects s' = b_effects s ++ l
    ∧ (l = [] ∨ ∃ spec d reason,
       admit_request br request = Ok spec ∧ decide_action request spec = Ok (d, reason)
       ∧ execute_step br request spec l
       ∧ (aq_dry_run request = true ∨ (d = ALLOW ∧ as_read_only spec = true)))) as Hnil.
  { intros s' ->. exists []. rewrite app_nil_r. auto. }
  unfold submit, lift. unfold mbind at 1, M_bind at 1.
  destruct (admit_request br request) as [spec|e] eqn:Ha; [|by apply Hnil].
  unfold mbind at 1, M_bind at 1.
  destruct (decide_action request spec) as [[d reason]|e] eqn:Hd; [|by apply Hnil].
  case_bool_decide as HD; [apply Hnil, mk_result_effects|].
  destruct (bool_decide (d = REQUIRE_APPROVAL) && negb (aq_dry_run request)) eqn:Hr;
    [apply Hnil, mk_result_effects|].
  destruct (aq_dry_run request || as_read_only spec) eqn:Hx; [|apply Hnil, mk_result_effects].
  destruct (execute_effects br request spec s) as (l & Hl & Hstep). exists l.
  split; [|right; exists spec, d, reason; split_and!; try done].
  - unfold mbind at 1, M_bind at 1. destruct (execute br request spec s) as [[out|e] s1];
      simpl in Hl; [by rewrite mk_result_effects | done].
  - destruct (aq_dry_run request); [by left | right]. simpl in Hx. split; [|done].
    rewrite andb_true_r in Hr. apply bool_decide_eq_false_1 in Hr. by destruct d.
Qed.

(** Every statement of the result of a submission that did not execute. *)
Lemma submit_not_executed br request spec s r s' :
  admit_request br request = Ok spec → as_read_only spec = false → aq_dry_run request = false →
  submit br request s = (Ok r, s') →
  (ar_status r = "denied" ∧ is_Some (ar_error r))
  ∨ (ar_status r = "awaiting_approval" ∧ ar_approval_status r = Some "required").
Proof.
  intros Ha Hro Hd Hs. unfold submit, lift in Hs. rewrite Ha in Hs.
  unfold mbind at 1, M_bind at 1 in Hs. inv_bind Hs. destruct a as [d reason].
  rewrite Hd, Hro in Hs. simpl in Hs. rewrite andb_true_r in Hs.
  repeat case_bool_decide; apply mk_result_ok in Hs as (_ & He & Hap & _ & Hst & _);
    injection Hst as Hst; rewrite <-Hst, He, Hap; naive_solver.
Qed.

(** C2. No submission changes anything outside the platform: for an action that is not
    read-only, outside a dry run, the broker runs no handler and starts no process,
    whatever the registry, the handlers and the answer of the policy engine are, and a
    result it returns is either a denial or a request for approval. *)
Theorem broker_never_mutates br request spec s :
  dget (aq_action_type request) (br_registry br) = Some spec →
  as_read_only spec = false → aq_dry_run request = false →
  b_effects (snd (submit br request s)) = b_effects s ∧
  ∀ r s', submit br request s = (Ok r, s') →
    (ar_status r = "denied" ∧ is_Some (ar_error r))
    ∨ (ar_status r = "awaiting_approval" ∧ ar_approval_status r = Some "required").
Proof.
  intros Hreg Hro Hd. split.
  - destruct (submit_effects br request s) as (l & -> & [->|Hl]); [by rewrite app_nil_r|].
    destruct Hl as (sp & d & reason & Ha & _ & _ & [Hdry|[_ Hro']]); [congruence|].
    apply admit_request_ok in Ha as (_ & Hreg' & _). congruence.
  - intros r s' Hs. destruct (admit_request br request) as [sp|e] eqn:Ha.
    + pose proof Ha as Ha'. apply admit_request_ok in Ha' as (_ & Hreg' & _).
      assert (sp = spec) as -> by congruence. by eapply submit_not_executed.
    + unfold submit, lift in Hs. rewrite Ha in Hs. discriminate.
Qed.

(** The scripts the default registry names. *)
Definition collector (root script : string) : Prop :=
  ∃ name, (name ∈ ["Get-BtosProcesses.ps1"; "Get-BtosDefenderStatus.ps1"; "Get-BtosScheduledTasks.ps1";
                    "Get-BtosServices.ps1"; "Get-BtosLocalAdmins.ps1"; "Get-BtosWindowsEvents.ps1";
                    "Get-BtosAuthEvents.ps1"]
           ∧ script = root +:+ "/security-languages/powershell/windows/" +:+ name)
        ∨ (name ∈ ["collect_processes.sh"; "collect_sessions.sh"; "collect_sockets.sh";
                    "collect_systemd.sh"; "collect_cron.sh"; "collect_ssh.sh"; "collect_audit.sh"]
           ∧ script = root +:+ "/security-languages/shell/linux/" +:+ name).

Lemma dget_default_registry root ty spec :
  dget ty (default_registry root) = Some spec → spec ∈ registry_specs root ∧ as_action_type spec = ty.
Proof.
  intros Hg. apply dget_elem_of in Hg. unfold default_registry in Hg.
  apply list_elem_of_fmap in Hg as (sp & [= -> ->] & Hin). done.
Qed.

Lemma registry_scripts root :
  Forall (λ spec, ∀ script, as_script_path spec = Some script →
            collector root script ∧ as_read_only spec = true) (registry_specs root).
Proof.
  unfold registry_specs. repeat (apply Forall_cons_2; [|]); try apply Forall_nil_2;
    intros script Hs; try discriminate Hs; injection Hs as <-;
    (split; [eexists | reflexivity]);
    first [left; split; [|reflexivity]; set_solver | right; split; [|reflexivity]; set_solver].
Qed.

(** The executable is one of the two runtimes, where the system has it. *)
Definition runtime spec (binary : string) : Prop :=
  if bool_decide (as_language spec = LPowershell) then which "pwsh" = Some binary ∨ which "powershell" = Some binary
  else which "bash" = Some binary.
Lemma script_binary_runtime spec binary : script_binary spec = Some binary → runtime spec binary.
Proof.
  unfold script_binary, runtime, script_runtime. case_bool_decide; [|done]. unfold oor. destruct (otrue _); auto.
Qed.
(** A started process: who asked, under which decision, and what was run. *)
Definition confined (root : string) request (cmd : list string) : Prop :=
  ∃ spec reason binary script fixed pairs,
    spec ∈ registry_specs root ∧ as_action_type spec = aq_action_type request
    ∧ (as_required_permission spec ∈ aq_permissions request
       ∨ "admin:platform" ∈ aq_permissions request)
    ∧ decide_action request spec = Ok (ALLOW, reason) ∧ aq_dry_run request = false
    ∧ as_script_path spec = Some script ∧ collector root script ∧ runtime spec binary
    ∧ cmd = binary :: fixed ++ script :: concat pairs
    ∧ fixed = (if bool_decide (as_language spec = LPowershell)
               then ["-NoProfile"; "-NonInteractive"; "-File"] else [])
    ∧ Forall (flag_pair ["-Limit"; "-MaxEvents"; "--limit"]) pairs.

(** C15. With the default registry, a process is only ever started for a registered
    collector the caller holds the permission for, outside a dry run, with an ALLOW
    decision; its argument vector is the executable the system has for pwsh, powershell or
    bash, fixed flags, the collector's script of the repository and decimal integers behind
    known flags, so that no request can inject anything. *)
Theorem broker_subprocess_confined root handlers request s cmd :
  let br := make_broker root None handlers in
  ESubprocess cmd ∈ b_effects (snd (submit br request s)) → ESubprocess cmd ∉ b_effects s →
  confined root request cmd.
Proof.
  intros br Hin Hnew. destruct (submit_effects br request s) as (l & Hl & Hcase).
  rewrite Hl in Hin. apply elem_of_app in Hin as [Hin|Hin]; [done|].
  destruct Hcase as [->|(spec & d & reason & Ha & Hdec & Hstep & Hwhen)]; [by apply not_elem_of_nil in Hin|].
  apply admit_request_ok in Ha as (_ & Hreg & _ & Hperm).
  apply dget_default_registry in Hreg as [Hspec Hty].
  inversion Hstep as [|h Hh Hl'|cmd' (script & binary & Hs & _ & Hb & Hd & Hc) Hl']; subst l;
    apply list_elem_of_singleton in Hin || apply not_elem_of_nil in Hin; try done; simplify_eq.
  pose proof (registry_scripts root) as Hcol. rewrite Forall_forall in Hcol.
  destruct (Hcol spec Hspec script Hs) as [Hcs _].
  destruct (safe_command_shape _ _ _ _ _ Hc Hd) as (fixed & pairs & -> & Hfix & Hpairs).
  destruct Hwhen as [Hdry|[-> _]]; [congruence|].
  apply script_binary_runtime in Hb. by exists spec, reason, binary, script, fixed, pairs.
Qed.

Lemma vor_dict_cons kv d w : vor (VDict (kv :: d)) w = VDict (kv :: d).
Proof. reflexivity. Qed.

(** The policy document of a response action of the default registry. *)
Lemma decide_response root request spec conf :
  opa_binary = None → spec ∈ registry_specs root → as_read_only spec = false →
  as_action_type spec = aq_action_type request → aq_dry_run request = false →
  (∀ k, k ∈ dkeys (aq_params request) → k ∈ as_allowed_params spec) →
  py_float (dget_or "confidence" (VInt 0) (aq_params request)) = Ok conf →
  ∃ reason, decide_action request spec = Ok (REQUIRE_APPROVAL, reason).
Proof.
  intros Hopa Hin Hro Hty Hdry Hpar Hconf.
  assert (dget "requested_by_ai" (aq_params request) = None) as Hai.
  { apply dget_None. intros Hk. apply Hpar in Hk. revert Hk Hro. clear -Hin. unfold registry_specs in Hin.
    repeat (apply elem_of_cons in Hin as [->|Hin];
            [intros Hk Hro; first [discriminate Hro | apply mem_spec in Hk; discriminate Hk]|]).
    set_solver. }
  assert (as_tier spec = 2 ∧ mem (aq_action_type request) ["delete_evidence"; "alter_platform_policy"] = false
    ∧ startswith (aq_action_type request) "ai." = false
    ∧ startswith (aq_action_type request) "llm." = false) as (Ht & Hm & Hs1 & Hs2).
  { rewrite <-Hty. clear -Hin Hro. unfold registry_specs in Hin.
    repeat (apply elem_of_cons in Hin as [->|Hin];
            [first [discriminate Hro | split_and!; reflexivity]|]). set_solver. }
  unfold decide_action, policy_doc. rewrite Ht, Hconf. unfold mbind, result_bind, mret, result_ret.
  change (action_tier 2) with (Ok T2). cbv beta iota zeta. rewrite evaluate_action_T2.
  unfold evaluate, opa_available. rewrite Hopa, andb_false_r. unfold subset_evaluate, read_input.
  assert (dget_or "requested_by_ai" (VBool false) (aq_params request) = VBool false) as -> by
    (unfold dget_or; by rewrite Hai).
  rewrite Hro, Hdry. unfold fmap, result_fmap, mbind, result_bind, mret, result_ret.
  cbn -[mem startswith decide_input vor]. rewrite !vor_dict_cons.
  cbn -[mem startswith decide_input].
  unfold decide_input. cbn -[mem startswith]. rewrite Hm, Hs1, Hs2. simpl. by eexists.
Qed.

(** An admitted one with a readable confidence waits. *)
Lemma awaiting root request spec conf s br :
  opa_binary = None → spec ∈ registry_specs root → as_action_type spec = aq_action_type request →
  as_read_only spec = false → aq_dry_run request = false → admit_request br request = Ok spec →
  py_float (dget_or "confidence" (VInt 0) (aq_params request)) = Ok conf →
  ∃ r s', submit br request s = (Ok r, s')
    ∧ ar_status r = "awaiting_approval" ∧ ar_policy_decision r = REQUIRE_APPROVAL
    ∧ ar_approval_status r = Some "required" ∧ ar_outputs r = []
    ∧ b_effects s' = b_effects s.
Proof.
  intros Hopa Hin Hty Hro Hdry Ha Hconf.
  pose proof (admit_request_ok _ _ _ Ha) as (_ & _ & Hpar & _).
  destruct (decide_response root request spec conf) as [reason Hdec]; try done.
  { intros k Hk. apply Hpar. apply elem_of_app. by left. }
  pose proof (mk_result_effects request spec REQUIRE_APPROVAL (VStr "awaiting_approval") [] VNone
    None (Some "required") s) as Heff.
  assert (submit br request s = mk_result request spec REQUIRE_APPROVAL (VStr "awaiting_approval") []
    VNone None (Some "required") s) as Hsub.
  { unfold submit, lift. rewrite Ha. unfold mbind at 1, M_bind at 1. rewrite Hdec.
    unfold mbind at 1, M_bind at 1. by rewrite Hdry. }
  rewrite Hsub. destruct (mk_result _ _ _ _ _ _ _ _ s) as [[r|e] s'] eqn:Hr.
  - exists r, s'. apply mk_result_ok in Hr as (-> & _ & -> & -> & Hst & _).
    injection Hst as Hst. by rewrite <-Hst.
  - exfalso. clear -Hr. unfold mk_result, mbind, M_bind, mret, M_ret, lift in Hr.
    destruct (nonempty _); simpl in Hr; discriminate.
Qed.

(** C16. Under the built-in policy, a permitted live response action of the default
    registry (host isolation, account or token revocation, blocking) is never carried out:
    nothing is executed, whatever its parameters are. With known parameters and a confidence
    that reads as a number there is exactly one answer: it waits for a human approval, and no
    confidence and no auto-containment flag short-cuts it. An unknown parameter is refused with
    422, and a confidence that is no number raises what reading it raises. *)
Theorem response_actions_await_approval root handlers request spec s :
  let br := make_broker root None handlers in
  opa_binary = None → dget (aq_action_type request) (default_registry root) = Some spec →
  as_read_only spec = false → aq_dry_run request = false → permitted request spec = true →
  ∃ r s', submit br request s = (r, s') ∧ b_effects s' = b_effects s ∧
    if bool_decide (extra_params request spec = []) then
      match py_float (dget_or "confidence" (VInt 0) (aq_params request)) with
      | Ok _ => ∃ res, r = Ok res ∧ ar_status res = "awaiting_approval" ∧ ar_policy_decision res = REQUIRE_APPROVAL
          ∧ ar_approval_status res = Some "required" ∧ ar_outputs res = []
      | Raise e => r = Raise e
      end
    else ∃ message, r = Raise (BlueTeamError "ACTION_SCHEMA" message 422).
Proof.
  intros br Hopa Hreg Hro Hdry Hperm. destruct (dget_default_registry _ _ _ Hreg) as [Hin Hty].
  assert (forbidden (aq_action_type request) = false) as Hforb.
  { rewrite <-Hty. clear -Hin. unfold registry_specs in Hin.
    repeat (apply elem_of_cons in Hin as [->|Hin]; [reflexivity|]). set_solver. }
  case_bool_decide as Hex.
  2:{ eexists _, s. split; [|split; [done | eexists; reflexivity]]. unfold submit, lift, admit_request.
      change (br_registry br) with (default_registry root). rewrite Hforb, Hreg, bool_decide_false by done. reflexivity. }
  assert (admit_request br request = Ok spec) as Ha.
  { unfold admit_request. change (br_registry br) with (default_registry root). by rewrite Hforb, Hreg, Hex, Hperm. }
  destruct (py_float _) as [conf|e] eqn:Hconf.
  - destruct (awaiting root request spec conf s br) as (r & s' & ? & ? & ? & ? & ? & ?); try done.
    exists (Ok r), s'. split; [done|]. split; [done|]. by exists r.
  - exists (Raise e), s. split; [|done]. unfold submit, lift. rewrite Ha. unfold mbind at 1, M_bind at 1.
    assert (decide_action request spec = Raise e) as ->; [|done]. unfold decide_action, policy_doc.
    assert (∃ t, action_tier (as_tier spec) = Ok t) as [t ->]; [|by rewrite Hconf].
    clear -Hin. unfold registry_specs in Hin. repeat (apply elem_of_cons in Hin as [->|Hin]; [by eexists|]). set_solver.
Qed.
End broker_facts.

(** ** A concrete environment *)

#[local] Instance demo_oracle : Oracle :=
  {| uuid_hex := λ n, pad 32 (Z.of_nat n); clock := λ n, utc 20000 (Z.of_nat n) |}.
#[local] Instance demo_no_opa : Opa :=
  {| opa_binary := None; opa_policy_files := []; opa_run := λ _ _ _, Raise (OtherError "no opa") |}.
#[local] Instance demo_env : BrokerEnv := {|
  script_exists := λ _, true; script_bytes := λ _, "ps"; which := λ b, Some ("/usr/bin/" +:+ b);
  run_process := λ _, Ok {| ps_returncode := 0; ps_stdout := "pid"; ps_stderr := "" |};
  scan_b64 := λ _, Ok []; blueql_explain := λ _, Ok (VNone, VNone); sql_describe := λ _, Ok [] |}.
Definition demo_request (ty perm : string) (params : pydict) : ActionRequest := {|
  aq_action_id := "act_1"; aq_action_type := ty; aq_tenant_id := "ten_a"; aq_target := [];
  aq_params := params; aq_reason := "triage"; aq_requested_by := "usr_1"; aq_dry_run := false;
  aq_actor_roles := []; aq_permissions := [perm] |}.
Definition demo_collect := demo_request "collect.linux.processes" "response:tier0" [("limit", VStr "10")].
Definition demo_isolate := demo_request "isolate.host" "response:tier2"
  [("host_id", VStr "h1"); ("confidence", VFloat (fl_of_Z 1)); ("auto_containment", VBool true)].
Definition demo_state : bstate := {| b_draws := MkDraws 0 0; b_effects := [] |}.
Definition demo_cmd : list string :=
  ["/usr/bin/bash"; "/r/security-languages/shell/linux/collect_processes.sh"; "--limit"; "10"].

Lemma broker_never_mutates_witness :
  b_effects (snd (submit (make_broker "/r" None []) demo_isolate demo_state)) = b_effects demo_state.
Proof.
  refine (proj1 (broker_never_mutates (make_broker "/r" None []) demo_isolate
            (response_spec "isolate.host" "Host isolation request. Always policy-gated."
               ["host_id"; "environment"; "confidence"; "auto_containment"] true) demo_state _ _ _));
    reflexivity.
Defined.

Lemma broker_subprocess_confined_witness : confined "/r" demo_collect demo_cmd.
Proof.
  refine (broker_subprocess_confined "/r" [] demo_collect demo_state demo_cmd _ _).
  - vm_compute. left.
  - apply not_elem_of_nil.
Defined.

Lemma response_actions_await_approval_witness :
  ∃ r s', submit (make_broker "/r" None []) demo_isolate demo_state = (r, s')
    ∧ b_effects s' = b_effects demo_state ∧ ∃ res, r = Ok res ∧ ar_status res = "awaiting_approval".
Proof.
  destruct (response_actions_await_approval "/r" [] demo_isolate
            (response_spec "isolate.host" "Host isolation request. Always policy-gated."
               ["host_id"; "environment"; "confidence"; "auto_containment"] true)
            demo_state) as (r & s' & Hs & He & Hr); [reflexivity..|].
  exists r, s'. split; [exact Hs|]. split; [exact He|]. destruct Hr as (res & Hr & Hst & _). by exists res.
Defined.
(** A confidence that is no number, and a parameter nobody declared. *)
Definition demo_asked (params : pydict) : result ActionResult :=
  fst (submit (make_broker "/r" None []) (demo_request "isolate.host" "response:tier2" params) demo_state).
Example high_confidence : demo_asked [("confidence", VStr "high")] = Raise (ValueError "could not convert string to float: 'high'").
Proof. vm_compute. reflexivity. Qed.
Example unknown_param : demo_asked [("force", VBool true)] = Raise (BlueTeamError "ACTION_SCHEMA" "Unsupported parameters: ['force']" 422).
Proof. vm_compute. reflexivity. Qed.
