(* ===== verification/Playbook.v ===== *)
(** * Playbook engine

    Models [packages/playbook-sdk/blueteam_playbook/engine.py]: the DAG run with
    retries, approvals and idempotent replay. The executor is an arbitrary function of
    the calls made before, so that it may fail now and succeed on a retry; the calls
    are logged. *)
From S2P Require Export Policy Schemas.
Local Open Scope Z_scope.

Inductive StepStatus := Success | Skipped | Failed | AwaitingApproval | Denied.
#[export] Instance StepStatus_eq_dec : EqDecision StepStatus. Proof. solve_decision. Defined.
Definition step_status_str (s : StepStatus) : string :=
  match s with
  | Success => "success" | Skipped => "skipped" | Failed => "failed"
  | AwaitingApproval => "awaiting_approval" | Denied => "denied"
  end.

Record PlaybookStepDef := {
  ps_id : string; ps_action_type : string; ps_depends_on : list string; ps_tier : Z;
  ps_retries : Z; ps_params : pydict; ps_rollback_action : option string }.
Record PlaybookDef := {
  pb_playbook_id : string; pb_name : string; pb_steps : list PlaybookStepDef;
  pb_description : string }.
Record StepRun := {
  sr_step_id : string; sr_action_type : string; sr_status : StepStatus; sr_attempts : Z;
  sr_outputs : pydict; sr_error : option string; sr_rollback_hook : option string }.
Record PlaybookRun := {
  pr_run_id : string; pr_playbook_id : string; pr_tenant_id : string; pr_status : string;
  pr_dry_run : bool; pr_idempotency_key : string; pr_steps : list StepRun;
  pr_approval_required : list string; pr_started_at : string; pr_finished_at : option string }.

Definition ostr_val (o : option string) : pyval := match o with Some s => VStr s | None => VNone end.
Definition step_as_dict (step : StepRun) : pyval := VDict [
  ("step_id", VStr (sr_step_id step)); ("action_type", VStr (sr_action_type step));
  ("status", VStr (step_status_str (sr_status step))); ("attempts", VInt (sr_attempts step));
  ("outputs", VDict (sr_outputs step)); ("error", ostr_val (sr_error step));
  ("rollback_hook", ostr_val (sr_rollback_hook step))].
Definition run_as_dict (run : PlaybookRun) : pydict := [
  ("run_id", VStr (pr_run_id run)); ("playbook_id", VStr (pr_playbook_id run));
  ("tenant_id", VStr (pr_tenant_id run)); ("status", VStr (pr_status run));
  ("dry_run", VBool (pr_dry_run run)); ("idempotency_key", VStr (pr_idempotency_key run));
  ("approval_required", VList (VStr <$> pr_approval_required run));
  ("started_at", VStr (pr_started_at run)); ("finished_at", ostr_val (pr_finished_at run));
  ("steps", VList (step_as_dict <$> pr_steps run))].

(** One call of the executor: action type, parameters, dry-run flag. *)
Record call := { cl_action : string; cl_params : pydict; cl_dry_run : bool }.
(** The executor sees the calls made so far, latest last. *)
Definition Executor : Type := list call → call → result pydict.
Definition default_executor : Executor := λ _ c, Ok [
  ("action_type", VStr (cl_action c)); ("params", VDict (cl_params c));
  ("dry_run", VBool (cl_dry_run c));
  ("status", VStr (if cl_dry_run c then "planned" else "executed"));
  ("note", VStr "Default playbook executor — wire broker for live actions.")].

(** The engine: its two dictionaries, what it drew, and the calls it made. *)
Record PlaybookEngine := {
  en_runs : list (string * PlaybookRun); en_by_idempotency : list (string * string);
  en_draws : draws; en_calls : list call }.
Definition set_draws_en (d : draws) (s : PlaybookEngine) : PlaybookEngine := {|
  en_runs := en_runs s; en_by_idempotency := en_by_idempotency s; en_draws := d;
  en_calls := en_calls s |}.
Definition log_call (c : call) (s : PlaybookEngine) : PlaybookEngine := {|
  en_runs := en_runs s; en_by_idempotency := en_by_idempotency s; en_draws := en_draws s;
  en_calls := en_calls s ++ [c] |}.
Definition forget_key (k : string) (s : PlaybookEngine) : PlaybookEngine := {|
  en_runs := en_runs s; en_by_idempotency := ddel k (en_by_idempotency s);
  en_draws := en_draws s; en_calls := en_calls s |}.
(** [_store] *)
Definition store (run : PlaybookRun) (s : PlaybookEngine) : PlaybookEngine := {|
  en_runs := dset (pr_run_id run) run (en_runs s);
  en_by_idempotency := dset (pr_idempotency_key run) (pr_run_id run) (en_by_idempotency s);
  en_draws := en_draws s; en_calls := en_calls s |}.

(** The local variables of [run]. *)
Record progress := {
  pg_completed : list string; pg_pending : list (string * PlaybookStepDef);
  pg_steps : list StepRun; pg_required : list string }.
Definition drop_pending (id : string) (p : progress) : progress := {|
  pg_completed := pg_completed p; pg_pending := ddel id (pg_pending p); pg_steps := pg_steps p;
  pg_required := pg_required p |}.
Definition add_step (sr : StepRun) (p : progress) : progress := {|
  pg_completed := pg_completed p; pg_pending := pg_pending p; pg_steps := pg_steps p ++ [sr];
  pg_required := pg_required p |}.
Definition add_required (id : string) (p : progress) : progress := {|
  pg_completed := pg_completed p; pg_pending := pg_pending p; pg_steps := pg_steps p;
  pg_required := pg_required p ++ [id] |}.
Definition add_completed (id : string) (p : progress) : progress := {|
  pg_completed := id :: pg_completed p; pg_pending := pg_pending p; pg_steps := pg_steps p;
  pg_required := pg_required p |}.

(** Either the loop goes on, or the run ends early as failed. *)
Inductive flow := Continue (p : progress) | Stop (p : progress).
Definition flow_progress (f : flow) : progress := match f with Continue p | Stop p => p end.

Section engine.
Context `{Oracle} (executor : Executor).

Definition new_id_en : string → M PlaybookEngine string := new_id en_draws set_draws_en.
Definition utcnow_en : M PlaybookEngine datetime := utcnow en_draws set_draws_en.

Definition call_executor (c : call) : M PlaybookEngine (result pydict) :=
  s ← get;
  modify (log_call c);;
  mret (executor (en_calls s) c).

(** [while attempts <= step.retries]: at most [n] more iterations. *)
Fixpoint attempt (n : nat) (attempts : Z) (last_error : option string) (c : call)
    : M PlaybookEngine (Z * option string * pydict) :=
  match n with
  | O => mret (attempts, last_error, [])
  | S n' =>
      r ← call_executor c;
      match r with
      | Ok outputs => mret (attempts + 1, None, outputs)
      | Raise exc => attempt n' (attempts + 1) (Some (exn_str exc)) c
      end
  end.
Definition max_attempts (step : PlaybookStepDef) : nat := Z.to_nat (ps_retries step + 1).

Definition run_step (dry_run : bool) (approved : list string) (p : progress)
    (step_id : string) (step : PlaybookStepDef) : M PlaybookEngine flow :=
  let p := drop_pending step_id p in
  tier ← lift (action_tier (ps_tier step));
  let decision := evaluate_action (ps_action_type step) (Some tier) in
  if bool_decide (decision = REQUIRE_APPROVAL) && negb dry_run && negb (mem step_id approved) then
    mret (Continue (add_required step_id (add_step {|
      sr_step_id := step_id; sr_action_type := ps_action_type step; sr_status := AwaitingApproval;
      sr_attempts := 0; sr_outputs := []; sr_error := None;
      sr_rollback_hook := ps_rollback_action step |} p)))
  else if bool_decide (decision = DENY) then
    mret (Stop (add_step {|
      sr_step_id := step_id; sr_action_type := ps_action_type step; sr_status := Denied;
      sr_attempts := 1; sr_outputs := []; sr_error := None; sr_rollback_hook := None |} p))
  else
    a ← attempt (max_attempts step) 0 None
          {| cl_action := ps_action_type step; cl_params := ps_params step; cl_dry_run := dry_run |};
    let '(attempts, last_error, outputs) := a in
    if otrue last_error then
      mret (Stop (add_step {|
        sr_step_id := step_id; sr_action_type := ps_action_type step; sr_status := Failed;
        sr_attempts := attempts; sr_outputs := []; sr_error := last_error;
        sr_rollback_hook := ps_rollback_action step |} p))
    else
      mret (Continue (add_completed step_id (add_step {|
        sr_step_id := step_id; sr_action_type := ps_action_type step; sr_status := Success;
        sr_attempts := attempts; sr_outputs := outputs; sr_error := None;
        sr_rollback_hook := ps_rollback_action step |} p))).

Definition blocked (p : progress) (step : PlaybookStepDef) : bool :=
  existsb (λ dep, negb (mem dep (pg_completed p))) (ps_depends_on step).

(** [for step_id, step in list(pending.items())]: the new state, and whether any step
    was taken. *)
Fixpoint one_pass (dry_run : bool) (approved : list string)
    (items : list (string * PlaybookStepDef)) (p : progress) (progressed : bool)
    : M PlaybookEngine (flow * bool) :=
  match items with
  | [] => mret (Continue p, progressed)
  | (step_id, step) :: items' =>
      if blocked p step then one_pass dry_run approved items' p progressed
      else
        f ← run_step dry_run approved p step_id step;
        match f with
        | Stop p' => mret (Stop p', true)
        | Continue p' => one_pass dry_run approved items' p' true
        end
  end.

(** [while pending]: every pass that goes on removes a step, so the number of steps is
    enough fuel ([run_passes_inv]). *)
Fixpoint run_passes (fuel : nat) (dry_run : bool) (approved : list string) (p : progress)
    : M PlaybookEngine flow :=
  match pg_pending p with
  | [] => mret (Continue p)
  | _ :: _ =>
      match fuel with
      | O => raise (OtherError "out of fuel")
      | S fuel' =>
          fb ← one_pass dry_run approved (pg_pending p) p false;
          match fb with
          | (Stop p', _) => mret (Stop p')
          | (Continue p', false) => mret (Continue p')
          | (Continue p', true) => run_passes fuel' dry_run approved p'
          end
      end
  end.

(** [{step.id: step for step in playbook.steps}] *)
Definition pending_of (playbook : PlaybookDef) : list (string * PlaybookStepDef) :=
  foldl (λ d step, dset (ps_id step) step d) [] (pb_steps playbook).

Definition dag_failure : StepRun := {|
  sr_step_id := "dag"; sr_action_type := "playbook.dag"; sr_status := Failed; sr_attempts := 0;
  sr_outputs := []; sr_error := Some "Unresolved dependencies or cycle"; sr_rollback_hook := None |}.

(** The status and the steps once the loop is over. *)
Definition settle (f : flow) : string * list StepRun :=
  match f with
  | Stop p => ("failed", pg_steps p)
  | Continue p =>
      if negb (bool_decide (pg_required p = [])) then ("awaiting_approval", pg_steps p)
      else if negb (bool_decide (length (pg_pending p) = 0%nat))
      then ("failed", pg_steps p ++ [dag_failure])
      else ("completed", pg_steps p)
  end.

Definition run (playbook : PlaybookDef) (tenant_id : string) (dry_run : bool)
    (idempotency_key : option string) (approved_steps : list string) : M PlaybookEngine PlaybookRun :=
  let key := ostr (oor idempotency_key
                       (Some (pb_playbook_id playbook +:+ ":" +:+ tenant_id +:+ ":auto"))) in
  s ← get;
  match dget key (en_by_idempotency s) with
  | Some rid => lift (match dget rid (en_runs s) with Some r => Ok r | None => Raise (KeyError rid) end)
  | None =>
      run_id ← new_id_en "pbr";
      started ← utcnow_en;
      let p0 := {| pg_completed := []; pg_pending := pending_of playbook; pg_steps := [];
                   pg_required := [] |} in
      f ← run_passes (length (pending_of playbook)) dry_run approved_steps p0;
      finished ← utcnow_en;
      let r := {|
        pr_run_id := run_id; pr_playbook_id := pb_playbook_id playbook; pr_tenant_id := tenant_id;
        pr_status := fst (settle f); pr_dry_run := dry_run; pr_idempotency_key := key;
        pr_steps := snd (settle f); pr_approval_required := pg_required (flow_progress f);
        pr_started_at := isoformat started; pr_finished_at := Some (isoformat finished) |} in
      modify (store r);;
      mret r
  end.

Definition approve (run_id : string) (step_ids : list string) (playbook : PlaybookDef)
    : M PlaybookEngine PlaybookRun :=
  s ← get;
  match dget run_id (en_runs s) with
  | None => raise (KeyError run_id)
  | Some prior =>
      modify (forget_key (pr_idempotency_key prior));;
      run playbook (pr_tenant_id prior) (pr_dry_run prior)
        (Some (pr_idempotency_key prior +:+ ":approved:" +:+ join "," (sort_by String.leb step_ids)))
        (step_ids ++ pr_approval_required prior)
  end.

Definition get_run (run_id : string) : M PlaybookEngine (option PlaybookRun) :=
  gets (λ s, dget run_id (en_runs s)).
End engine.

(** ** The catalogue *)

Definition step_def (id action : string) (deps : list string) (tier retries : Z)
    (rollback : option string) : PlaybookStepDef := {|
  ps_id := id; ps_action_type := action; ps_depends_on := deps; ps_tier := tier;
  ps_retries := retries; ps_params := []; ps_rollback_action := rollback |}.
Definition CATALOGUE : list (string * PlaybookDef) := [
  ("pb.contain_host_t0", {|
     pb_playbook_id := "pb.contain_host_t0"; pb_name := "Collect then plan isolate";
     pb_description := "T0 collect processes, then T2 isolate (approval required when not dry-run).";
     pb_steps := [
       step_def "collect" "collect.windows.processes" [] 0 1 None;
       step_def "isolate" "isolate.host" ["collect"] 2 0 (Some "release.host")] |});
  ("pb.enrich_only", {|
     pb_playbook_id := "pb.enrich_only"; pb_name := "Read-only enrichment chain";
     pb_description := "T0 DAG with two collect steps.";
     pb_steps := [
       step_def "a" "collect.windows.processes" [] 0 0 None;
       step_def "b" "collect.windows.events" ["a"] 0 0 None] |});
  ("pb.autopilot_investigate", {|
     pb_playbook_id := "pb.autopilot_investigate"; pb_name := "Blue Autopilot investigate";
     pb_description := "Automated investigation DAG: collect auth + processes, then policy-gated contain suggestion.";
     pb_steps := [
       step_def "collect_auth" "collect.windows.auth_events" [] 0 1 None;
       step_def "collect_procs" "collect.windows.processes" ["collect_auth"] 0 0 None;
       step_def "suggest_contain" "isolate.host" ["collect_procs"] 2 0 (Some "release.host")] |})].
Definition get_playbook (playbook_id : string) : result PlaybookDef :=
  match dget playbook_id CATALOGUE with
  | Some pb => Ok pb
  | None => Raise (BlueTeamError "UNKNOWN_PLAYBOOK" ("Playbook " +:+ playbook_id +:+ " not found") 404)
  end.

(** ** The routes of [services/api/app/api/playbooks.py]

    The calls of the one engine all tenants share; the audit record the routes write
    afterwards is [AuditChain.write_audit]. *)
Section routes.
Context `{Oracle} (executor : Executor).

Definition run_playbook (actor_tenant playbook_id : string) (dry_run : bool)
    (idempotency_key : option string) : M PlaybookEngine pydict :=
  playbook ← lift (get_playbook playbook_id);
  run_as_dict <$> run executor playbook actor_tenant dry_run idempotency_key [].
Definition get_run_route (actor_tenant run_id : string) : M PlaybookEngine pydict :=
  r ← get_run run_id;
  match r with
  | None => raise (BlueTeamError "NOT_FOUND" ("Playbook run " +:+ run_id +:+ " not found") 404)
  | Some r => mret (run_as_dict r)
  end.
Definition approve_run (actor_tenant run_id : string) (step_ids : list string)
    : M PlaybookEngine pydict :=
  r ← get_run run_id;
  match r with
  | None => raise (BlueTeamError "NOT_FOUND" ("Playbook run " +:+ run_id +:+ " not found") 404)
  | Some prior =>
      playbook ← lift (get_playbook (pr_playbook_id prior));
      run_as_dict <$> approve executor run_id
        (if bool_decide (step_ids = []) then pr_approval_required prior else step_ids) playbook
  end.
End routes.

(** ** Invariants of a run *)

(** Each successful step comes after the success of everything it depends on, was
    declared by the playbook, and took at most [retries + 1] attempts. *)
Definition succeeded (id : string) (l : list StepRun) : Prop :=
  ∃ sr, sr ∈ l ∧ sr_step_id sr = id ∧ sr_status sr = Success.
Definition supported (declared : list (string * PlaybookStepDef)) (l : list StepRun) (sr : StepRun) : Prop :=
  ∃ step, (sr_step_id sr, step) ∈ declared ∧ sr_action_type sr = ps_action_type step
    ∧ 0 ≤ sr_attempts sr ≤ Z.max 0 (ps_retries step + 1)
    ∧ ∀ dep, dep ∈ ps_depends_on step → succeeded dep l.
Inductive dependency_ordered (declared : list (string * PlaybookStepDef)) : list StepRun → Prop :=
| do_nil : dependency_ordered declared []
| do_snoc l sr : dependency_ordered declared l →
    (sr_status sr = Success → supported declared l sr) → dependency_ordered declared (l ++ [sr]).

Lemma succeeded_app id l l' : succeeded id l → succeeded id (l ++ l').
Proof. intros (sr & ? & ?). exists sr. split; [apply elem_of_app; by left | done]. Qed.

(** The calls a run may make. *)
Definition granted (declared : list (string * PlaybookStepDef)) (dry_run : bool)
    (approved : list string) (c : call) : Prop :=
  cl_dry_run c = dry_run ∧ ∃ id step, (id, step) ∈ declared
    ∧ cl_action c = ps_action_type step ∧ cl_params c = ps_params step
    ∧ (dry_run = true ∨ id ∈ approved
       ∨ ∃ tier, action_tier (ps_tier step) = Ok tier
                 ∧ evaluate_action (ps_action_type step) (Some tier) = ALLOW).
Definition only_granted declared dry_run approved (s s' : PlaybookEngine) : Prop :=
  ∃ l, en_calls s' = en_calls s ++ l ∧ Forall (granted declared dry_run approved) l.

Lemma only_granted_refl declared d a s : only_granted declared d a s s.
Proof. exists []. by rewrite app_nil_r. Qed.
Lemma only_granted_trans declared d a s1 s2 s3 :
  only_granted declared d a s1 s2 → only_granted declared d a s2 s3 → only_granted declared d a s1 s3.
Proof.
  intros (l & El & Fl) (l' & El' & Fl'). exists (l ++ l').
  split; [by rewrite El', El, app_assoc | by apply Forall_app].
Qed.
#[local] Hint Resolve only_granted_refl : btos.

Record run_inv (declared : list (string * PlaybookStepDef)) (p : progress) : Prop := {
  ri_ordered : dependency_ordered declared (pg_steps p);
  ri_completed : ∀ id, id ∈ pg_completed p → succeeded id (pg_steps p);
  ri_pending : pg_pending p ⊆ declared;
  ri_covered : ∀ id, id ∈ dkeys declared →
    id ∈ dkeys (pg_pending p) ∨ ∃ sr, sr ∈ pg_steps p ∧ sr_step_id sr = id;
}.
(** While the run goes on, a step that did not succeed waits for an approval. *)
Definition none_failed (p : progress) : Prop :=
  ∀ sr, sr ∈ pg_steps p → sr_status sr = Success ∨ pg_required p ≠ [].

Section engine_facts.
Context `{Oracle} (executor : Executor).

Lemma attempt_spec n a e c s :
  ∃ k a' e' o s', attempt executor n a e c s = (Ok (a', e', o), s') ∧ (k ≤ n)%nat
    ∧ a' = a + Z.of_nat k ∧ en_calls s' = en_calls s ++ replicate k c.
Proof.
  revert a e s. induction n as [|n IH]; intros a e s; simpl.
  - exists 0%nat, a, e, [], s. rewrite app_nil_r. split_and!; [done | lia | lia | done].
  - rewrite (M_bind_eval _ _ _ (executor (en_calls s) c) (log_call c s)) by reflexivity.
    destruct (executor (en_calls s) c) as [o|exc].
    + exists 1%nat, (a + 1), None, o, (log_call c s). split_and!; [done | lia | lia | done].
    + destruct (IH (a + 1) (Some (exn_str exc)) (log_call c s)) as (k & a' & e' & o & s' & Heq & Hk & Ha & Hc).
      exists (S k), a', e', o, s'. split_and!; [done | lia | lia |].
      rewrite Hc. simpl. by rewrite <-app_assoc.
Qed.

Lemma dependency_snoc declared l sr :
  dependency_ordered declared l → sr_status sr ≠ Success → dependency_ordered declared (l ++ [sr]).
Proof. intros. apply do_snoc; naive_solver. Qed.

Lemma dkeys_ddel {A} id k (d : list (string * A)) : k ∈ dkeys (ddel id d) ↔ k ∈ dkeys d ∧ k ≠ id.
Proof.
  unfold dkeys, ddel. rewrite !list_elem_of_fmap. split.
  - intros ([k' v] & -> & Hin). apply list_elem_of_filter in Hin as [Hne Hin]. simpl in *.
    split; [by exists (k', v) | done].
  - intros [([k' v] & -> & Hin) Hne]. exists (k', v). split; [done|]. by apply list_elem_of_filter.
Qed.

(** Adding a step run keeps the invariant; the step leaves the pending ones. *)
Lemma run_inv_add declared p id sr p' :
  run_inv declared p → pg_steps p' = pg_steps p ++ [sr] → sr_step_id sr = id →
  pg_pending p' = ddel id (pg_pending p) →
  (pg_completed p' = pg_completed p ∨ (pg_completed p' = id :: pg_completed p ∧ sr_status sr = Success)) →
  (sr_status sr = Success → supported declared (pg_steps p) sr) → run_inv declared p'.
Proof.
  intros [Ho Hc Hp Hcov] Es Hid Ep Ec Hsup. constructor; rewrite ?Ep, ?Es.
  - by apply do_snoc.
  - intros x Hx. destruct Ec as [Ec|[Ec Hsr]]; rewrite Ec in Hx; [by apply succeeded_app, Hc|].
    apply elem_of_cons in Hx as [->|Hx]; [|by apply succeeded_app, Hc].
    exists sr. split; [apply elem_of_app; right; by left | done].
  - intros x [_ Hx]%list_elem_of_filter. by apply Hp.
  - intros x Hx. destruct (decide (x = id)) as [->|Hne].
    + right. exists sr. split; [apply elem_of_app; right; by left | done].
    + destruct (Hcov x Hx) as [Hk|(sr' & Hin & Heq)].
      * left. by apply dkeys_ddel.
      * right. exists sr'. split; [apply elem_of_app; by left | done].
Qed.

(** One step: the calls it makes are granted and the invariant is kept. *)
Lemma run_step_inv declared dry approved p id step s :
  run_inv declared p → (id, step) ∈ declared → blocked p step = false →
  ∃ o s', run_step executor dry approved p id step s = (o, s')
    ∧ only_granted declared dry approved s s'
    ∧ match o with
      | Ok f => run_inv declared (flow_progress f)
                ∧ pg_pending (flow_progress f) = ddel id (pg_pending p)
                ∧ (∀ p', f = Continue p' → none_failed p → none_failed p')
      | Raise e => action_tier (ps_tier step) = Raise e
      end.
Proof.
  intros Hinv Hin Hblk. unfold run_step, lift. unfold mbind at 1, M_bind at 1.
  destruct (action_tier (ps_tier step)) as [tier|e] eqn:Ht;
    [|exists (Raise e), s; split; [done | split; [apply only_granted_refl | done]]].
  destruct (bool_decide _ && negb dry && _) eqn:Hgate.
  { eexists (Ok (Continue _)), s. split; [reflexivity|]. split; [apply only_granted_refl|].
    split; [|split; [done|]].
    - eapply (run_inv_add declared p id _ _ Hinv); [reflexivity.. | by left | discriminate].
    - intros p' [= <-] Hnf sr _. right. simpl. by destruct (pg_required p). }
  destruct (bool_decide (_ = DENY)) eqn:Hdeny.
  { eexists (Ok (Stop _)), s. split; [reflexivity|]. split; [apply only_granted_refl|].
    split; [|split; done].
    eapply (run_inv_add declared p id _ _ Hinv); [reflexivity.. | by left | discriminate]. }
  set (c := {| cl_action := _; cl_params := _; cl_dry_run := _ |}).
  destruct (attempt_spec (max_attempts step) 0 None c s) as (k & a & e & out & s' & Hatt & Hk & Ha & Hcalls).
  unfold mbind at 1, M_bind at 1. rewrite Hatt.
  assert (only_granted declared dry approved s s') as Hgr.
  { exists (replicate k c). split; [done|]. apply Forall_replicate. split; [done|].
    exists id, step. split_and!; try done.
    destruct dry; [by left|]. destruct (mem id approved) eqn:Hm; [right; left; by apply mem_spec|].
    right. right. exists tier. split; [done|]. simpl in Hgate. rewrite !andb_true_r in Hgate.
    apply bool_decide_eq_false_1 in Hgate.
    by destruct (evaluate_action (ps_action_type step) (Some tier)). }
  destruct (otrue e).
  - eexists (Ok (Stop _)), s'. split; [reflexivity|]. split; [done|]. split; [|split; done].
    eapply (run_inv_add declared p id _ _ Hinv); [reflexivity.. | by left | discriminate].
  - eexists (Ok (Continue _)), s'. split; [reflexivity|]. split; [done|]. split; [|split; [done|]].
    + eapply (run_inv_add declared p id _ _ Hinv); [reflexivity.. | by right |]. intros _.
      exists step. split_and!; simpl; try done; [lia | unfold max_attempts in Hk; lia |].
      intros dep Hdep. apply (ri_completed _ _ Hinv). unfold blocked in Hblk.
      destruct (mem dep (pg_completed p)) eqn:Hm; [by apply mem_spec|]. exfalso.
      assert (existsb (λ dep, negb (mem dep (pg_completed p))) (ps_depends_on step) = true) as Hex;
        [|congruence].
      apply existsb_exists. exists dep. split; [by apply list_elem_of_In | by rewrite Hm].
    + intros p' [= <-] Hnf sr Hsr. simpl in *.
      apply elem_of_app in Hsr as [Hsr|Hsr]; [by apply Hnf|].
      apply list_elem_of_singleton in Hsr as ->. by left.
Qed.

Lemma length_drop_le {A} id (d : list (string * A)) : (length (ddel id d) ≤ length d)%nat.
Proof. apply length_filter. Qed.
Lemma length_drop_lt {A} id v (d : list (string * A)) :
  (id, v) ∈ d → (length (ddel id d) < length d)%nat.
Proof.
  intros Hin. apply list_elem_of_split in Hin as (l1 & l2 & ->). unfold ddel.
  rewrite filter_app, filter_cons_False by naive_solver. rewrite !length_app. simpl.
  pose proof (length_filter (λ kv : string * A, kv.1 ≠ id) l1).
  pose proof (length_filter (λ kv : string * A, kv.1 ≠ id) l2). lia.
Qed.

(** What a pass or a whole loop ended with: a state that satisfies the invariant, or the
    error of a step whose tier is not one of the three. *)
Definition ended declared (items : list (string * PlaybookStepDef)) (o : result flow) : Prop :=
  match o with
  | Ok f => run_inv declared (flow_progress f) ∧ (∀ p', f = Continue p' → none_failed p')
  | Raise e => ∃ id step, (id, step) ∈ items ∧ action_tier (ps_tier step) = Raise e
  end.

Lemma one_pass_inv declared dry approved items p b s :
  run_inv declared p → none_failed p → items ⊆ declared →
  ∃ o s', one_pass executor dry approved items p b s = (o, s')
    ∧ only_granted declared dry approved s s' ∧ ended declared items (fst <$> o)
    ∧ ∀ f b', o = Ok (f, b') →
        (length (pg_pending (flow_progress f)) ≤ length (pg_pending p))%nat
        ∧ (b' = false → b = false ∧ f = Continue p)
        ∧ (b = false → b' = true → items ⊆ pg_pending p →
           (length (pg_pending (flow_progress f)) < length (pg_pending p))%nat).
Proof.
  revert p b s. induction items as [|[id step] items IH]; intros p b s Hinv Hnf Hsub; simpl.
  { exists (Ok (Continue p, b)), s. split; [done|]. split; [apply only_granted_refl|].
    split; [split; [done | by intros p' [= <-]]|]. intros f b' [= <- <-]. simpl.
    split_and!; [lia | by intros -> | congruence]. }
  assert ((id, step) ∈ declared) as Hin by (apply Hsub; by left).
  assert (items ⊆ declared) as Hsub' by (intros x Hx; apply Hsub; by right).
  destruct (blocked p step) eqn:Hblk.
  { destruct (IH p b s Hinv Hnf Hsub') as (o & s' & Heq & Hgr & Hend & Hlen).
    exists o, s'. split; [done|]. split; [done|]. split.
    - destruct o as [[f b']|e]; [done|]. destruct Hend as (i & st & Hi & He).
      exists i, st. split; [by right | done].
    - intros f b' Ho. destruct (Hlen f b' Ho) as (H1 & H2 & H3). split_and!; [done | done|].
      intros Hb Hb' Hs. apply H3; try done. intros x Hx. apply Hs. by right. }
  destruct (run_step_inv declared dry approved p id step s Hinv Hin Hblk)
    as (o & s1 & Hstep & Hgr & Ho).
  unfold mbind, M_bind. rewrite Hstep. destruct o as [[p1|p1]|e].
  - destruct Ho as (Hinv1 & Hp1 & Hnf1). specialize (Hnf1 p1 eq_refl Hnf). simpl in *.
    destruct (IH p1 true s1 Hinv1 Hnf1 Hsub') as (o & s' & Heq & Hgr' & Hend & Hlen).
    pose proof (length_drop_le id (pg_pending p)) as Hle. rewrite <-Hp1 in Hle.
    exists o, s'. split; [done|]. split; [by eapply only_granted_trans|]. split.
    + destruct o as [[f b']|e]; [done|]. destruct Hend as (i & st & Hi & He).
      exists i, st. split; [by right | done].
    + intros f b' Hof. destruct (Hlen f b' Hof) as (H1 & H2 & _). split_and!; [lia | |].
      * intros ->. by destruct H2.
      * intros _ _ Hs. pose proof (length_drop_lt id step (pg_pending p)) as Hlt.
        rewrite <-Hp1 in Hlt. specialize (Hlt (Hs _ (list_elem_of_here _ _))). lia.
  - destruct Ho as (Hinv1 & Hp1 & _). simpl in *. exists (Ok (Stop p1, true)), s1.
    split; [done|]. split; [done|]. split; [split; [done | discriminate]|].
    intros f b' [= <- <-]. simpl. rewrite Hp1. split_and!; [apply length_drop_le | discriminate|].
    intros _ _ Hs. by apply (length_drop_lt id step), Hs, list_elem_of_here.
  - exists (Raise e), s1. split; [done|]. split; [done|]. split; [|discriminate].
    exists id, step. split; [by left | done].
Qed.

(** The loop ends within as many passes as there are pending steps. *)
Lemma run_passes_inv declared dry approved fuel p s :
  run_inv declared p → none_failed p → (length (pg_pending p) ≤ fuel)%nat →
  ∃ o s', run_passes executor fuel dry approved p s = (o, s')
    ∧ only_granted declared dry approved s s' ∧ ended declared declared o.
Proof.
  revert p s. induction fuel as [|fuel IH]; intros p s Hinv Hnf Hf.
  - destruct (pg_pending p) as [|x l] eqn:Hp; simpl in *; [|lia]. rewrite Hp.
    exists (Ok (Continue p)), s. split; [done|]. split; [apply only_granted_refl|].
    split; [done | by intros p' [= <-]].
  - simpl. destruct (pg_pending p) as [|x l] eqn:Hp.
    { exists (Ok (Continue p)), s. split; [done|]. split; [apply only_granted_refl|].
      split; [done | by intros p' [= <-]]. }
    rewrite <-Hp. pose proof (ri_pending _ _ Hinv) as Hsub.
    destruct (one_pass_inv declared dry approved (pg_pending p) p false s Hinv Hnf Hsub)
      as (o & s1 & Heq & Hgr & Hend & Hlen).
    unfold mbind, M_bind. rewrite Heq. destruct o as [[[p1|p1] [|]]|e].
    + destruct Hend as [Hinv1 Hnf1]. simpl in Hinv1.
      destruct (Hlen _ _ eq_refl) as (_ & _ & Hlt). specialize (Hlt eq_refl eq_refl (reflexivity _)).
      simpl in Hlt. rewrite Hp in Hlt. simpl in *.
      destruct (IH p1 s1 Hinv1 (Hnf1 p1 eq_refl)) as (o & s' & Heq' & Hgr' & Hend'); [lia|].
      exists o, s'. split; [done|]. split; [by eapply only_granted_trans | done].
    + by exists (Ok (Continue p1)), s1.
    + by exists (Ok (Stop p1)), s1.
    + by exists (Ok (Stop p1)), s1.
    + exists (Raise e), s1. split; [done|]. split; [done|]. destruct Hend as (id & st & Hin & He).
      exists id, st. split; [by apply Hsub | done].
Qed.

(** The start of a run satisfies the invariant. *)
Lemma run_inv_start declared :
  let p0 := {| pg_completed := []; pg_pending := declared; pg_steps := []; pg_required := [] |} in
  run_inv declared p0 ∧ none_failed p0.
Proof.
  split; [constructor; simpl|].
  - constructor.
  - intros id Hid. by apply not_elem_of_nil in Hid.
  - done.
  - auto.
  - intros sr Hsr. by apply not_elem_of_nil in Hsr.
Qed.

Definition run_key (playbook : PlaybookDef) (tenant_id : string) (key : option string) : string :=
  ostr (oor key (Some (pb_playbook_id playbook +:+ ":" +:+ tenant_id +:+ ":auto"))).

Lemma run_replay playbook tenant dry key approved s rid r :
  dget (run_key playbook tenant key) (en_by_idempotency s) = Some rid →
  dget rid (en_runs s) = Some r →
  run executor playbook tenant dry key approved s = (Ok r, s).
Proof.
  intros Hk Hr. unfold run, get. unfold mbind, M_bind. unfold run_key in Hk. rewrite Hk.
  unfold lift. by rewrite Hr.
Qed.

(** A step that needs no approval, or has it, and whose first attempt succeeds. *)
Lemma run_step_success dry approved p id step s tier out n :
  action_tier (ps_tier step) = Ok tier →
  bool_decide (evaluate_action (ps_action_type step) (Some tier) = REQUIRE_APPROVAL)
    && negb dry && negb (mem id approved) = false →
  let c := {| cl_action := ps_action_type step; cl_params := ps_params step; cl_dry_run := dry |} in
  max_attempts step = S n → executor (en_calls s) c = Ok out →
  run_step executor dry approved p id step s
  = (Ok (Continue (add_completed id (add_step {|
        sr_step_id := id; sr_action_type := ps_action_type step; sr_status := Success;
        sr_attempts := 1; sr_outputs := out; sr_error := None;
        sr_rollback_hook := ps_rollback_action step |} (drop_pending id p)))), log_call c s).
Proof.
  intros Ht Hg c Hn Hex. unfold run_step, lift. rewrite Ht. unfold mbind at 1, M_bind at 1.
  rewrite Hg. rewrite bool_decide_eq_false_2 by apply evaluate_action_not_deny.
  fold c. rewrite Hn. cbn [attempt].
  rewrite (M_bind_eval _ _ s (1, None, out) (log_call c s)); [reflexivity|].
  rewrite (M_bind_eval _ _ s (executor (en_calls s) c) (log_call c s)) by reflexivity.
  by rewrite Hex.
Qed.

Lemma one_pass_take dry approved id step items p b s p' s' r :
  blocked p step = false → run_step executor dry approved p id step s = (Ok (Continue p'), s') →
  one_pass executor dry approved items p' true s' = r →
  one_pass executor dry approved ((id, step) :: items) p b s = r.
Proof. intros Hb Hr <-. simpl. rewrite Hb. by rewrite (M_bind_eval _ _ _ _ _ Hr). Qed.

Lemma run_passes_once fuel dry approved p s p' s' :
  pg_pending p ≠ [] →
  one_pass executor dry approved (pg_pending p) p false s = (Ok (Continue p', true), s') →
  pg_pending p' = [] →
  run_passes executor (S fuel) dry approved p s = (Ok (Continue p'), s').
Proof.
  intros Hne Hp Hp'. simpl. destruct (pg_pending p) eqn:E; [done|].
  rewrite (M_bind_eval _ _ _ _ _ Hp). destruct fuel; simpl; by rewrite Hp'.
Qed.

(** The record [run] stores when the loop ended with [f]. *)
Definition run_record playbook tenant dry key (s : PlaybookEngine) (f : flow) (s3 : PlaybookEngine)
    : PlaybookRun := {|
  pr_run_id := "pbr_" +:+ uuid_hex (n_uuid (en_draws s));
  pr_playbook_id := pb_playbook_id playbook; pr_tenant_id := tenant;
  pr_status := fst (settle f); pr_dry_run := dry; pr_idempotency_key := run_key playbook tenant key;
  pr_steps := snd (settle f); pr_approval_required := pg_required (flow_progress f);
  pr_started_at := isoformat (clock (n_clock (en_draws s)));
  pr_finished_at := Some (isoformat (clock (n_clock (en_draws s3)))) |}.
Lemma run_unfold playbook tenant dry key approved s :
  dget (run_key playbook tenant key) (en_by_idempotency s) = None →
  run executor playbook tenant dry key approved s =
    let s2 := set_draws_en (tick (fresh_uuid (en_draws s))) s in
    let p0 := {| pg_completed := []; pg_pending := pending_of playbook; pg_steps := [];
                 pg_required := [] |} in
    match run_passes executor (length (pending_of playbook)) dry approved p0 s2 with
    | (Ok f, s3) =>
        let r := run_record playbook tenant dry key s f s3 in
        (Ok r, store r (set_draws_en (tick (en_draws s3)) s3))
    | (Raise e, s3) => (Raise e, s3)
    end.
Proof.
  intros Hk. unfold run, run_key, get, mbind, M_bind in *. rewrite Hk.
  unfold new_id_en, new_id, utcnow_en, utcnow. cbv zeta.
  change (set_draws_en (tick (en_draws (set_draws_en (fresh_uuid (en_draws s)) s)))
            (set_draws_en (fresh_uuid (en_draws s)) s))
    with (set_draws_en (tick (fresh_uuid (en_draws s))) s).
  by destruct (run_passes _ _ _ _ _ _) as [[f|e] s3].
Qed.

(** A fresh run, with its calls and what it ended with. *)
Lemma run_fresh playbook tenant dry key approved s :
  dget (run_key playbook tenant key) (en_by_idempotency s) = None →
  let declared := pending_of playbook in
  ∃ o s', run executor playbook tenant dry key approved s = (o, s')
    ∧ only_granted declared dry approved s s'
    ∧ match o with
      | Raise e => ∃ id step, (id, step) ∈ declared ∧ action_tier (ps_tier step) = Raise e
      | Ok r => ∃ f, ended declared declared (Ok f)
          ∧ pr_status r = fst (settle f) ∧ pr_steps r = snd (settle f)
          ∧ pr_tenant_id r = tenant ∧ pr_dry_run r = dry
          ∧ pr_idempotency_key r = run_key playbook tenant key
          ∧ pr_approval_required r = pg_required (flow_progress f)
          ∧ dget (pr_run_id r) (en_runs s') = Some r
          ∧ dget (run_key playbook tenant key) (en_by_idempotency s') = Some (pr_run_id r)
      end.
Proof.
  intros Hk declared. rewrite run_unfold by done. cbv zeta.
  destruct (run_inv_start declared) as [Hinv Hnf]. set (p0 := {| pg_completed := _ |}) in *.
  set (s2 := set_draws_en _ _).
  destruct (run_passes_inv declared dry approved (length (pg_pending p0)) p0 s2 Hinv Hnf (le_n _))
    as (o & s3 & Heq & (l & Hl & Hg) & Hend).
  change (length (pending_of playbook)) with (length (pg_pending p0)). rewrite Heq.
  destruct o as [f|e].
  - eexists (Ok _), _. split; [reflexivity|]. split; [by exists l|].
    exists f. simpl. rewrite !dget_dset_eq. split_and!; try done; apply Hend.
  - exists (Raise e), s3. split; [done|]. split; [by exists l | done].
Qed.
End engine_facts.

(** ** Properties *)

Lemma ended_settle declared f :
  ended declared declared (Ok f) →
  dependency_ordered declared (snd (settle f))
  ∧ (fst (settle f) = "completed" → ∀ id, id ∈ dkeys declared → succeeded id (snd (settle f))).
Proof.
  intros [[Ho Hc Hp Hcov] Hnf]. destruct f as [p|p]; simpl in *; [|done].
  specialize (Hnf p eq_refl). case_bool_decide as Hr; simpl; [|done].
  case_bool_decide as Hl; simpl; [|split; [by apply dependency_snoc | done]].
  split; [done|]. intros _ id Hid. destruct (Hcov id Hid) as [Hk|(sr & Hin & Heq)].
  - destruct (pg_pending p); [by apply not_elem_of_nil in Hk | done].
  - exists sr. split_and!; try done. by destruct (Hnf sr Hin).
Qed.

Section properties.
Context `{Oracle} (executor : Executor).

(** C18. A fresh playbook run is sound, whatever the executor does: a step is reported
    successful only after the success of every step it depends on and within its
    attempts, and a run reported completed has a success for every declared step. *)
Theorem playbook_run_sound playbook tenant dry key approved s r s' :
  dget (run_key playbook tenant key) (en_by_idempotency s) = None →
  run executor playbook tenant dry key approved s = (Ok r, s') →
  dependency_ordered (pending_of playbook) (pr_steps r)
  ∧ (pr_status r = "completed" →
     ∀ id, id ∈ dkeys (pending_of playbook) → succeeded id (pr_steps r)).
Proof.
  intros Hk Hrun. destruct (run_fresh executor playbook tenant dry key approved s Hk)
    as (o & s1 & Heq & _ & Ho). rewrite Hrun in Heq. injection Heq as <- <-.
  destruct Ho as (f & Hend & -> & -> & _). by apply ended_settle.
Qed.

(** C1. The executor is only ever called for what the playbook declares and the tiers
    allow: every call carries the run's dry-run flag, and a live call is for a step that
    was approved by name or that the policy allows outright. This holds whether the run
    returns or raises, and for a replayed run, which makes no call. *)
Theorem playbook_calls_granted playbook tenant dry key approved s :
  ∃ l, en_calls (snd (run executor playbook tenant dry key approved s)) = en_calls s ++ l
       ∧ Forall (granted (pending_of playbook) dry approved) l.
Proof.
  destruct (dget (run_key playbook tenant key) (en_by_idempotency s)) as [rid|] eqn:Hk.
  - exists []. split; [|done]. rewrite app_nil_r. unfold run, get, mbind, M_bind. unfold run_key in Hk.
    by rewrite Hk.
  - destruct (run_fresh executor playbook tenant dry key approved s Hk) as (o & s1 & -> & Hgr & _).
    apply Hgr.
Qed.

(** C19. A run always ends: when every step has one of the three tiers, [run] returns a
    run (there is no cycle of dependencies or failing executor that makes it loop or
    raise), and asking again under the same key returns that run and changes nothing. *)
Theorem playbook_run_returns_once playbook tenant dry key approved s :
  dget (run_key playbook tenant key) (en_by_idempotency s) = None →
  (∀ id step, (id, step) ∈ pending_of playbook → is_ok (action_tier (ps_tier step)) = true) →
  ∃ r s', run executor playbook tenant dry key approved s = (Ok r, s')
    ∧ pr_status r ∈ ["completed"; "failed"; "awaiting_approval"]
    ∧ ∀ dry' approved', run executor playbook tenant dry' key approved' s' = (Ok r, s').
Proof.
  intros Hk Ht. destruct (run_fresh executor playbook tenant dry key approved s Hk)
    as (o & s' & Heq & _ & Ho). destruct o as [r|e].
  - destruct Ho as (f & _ & Hst & _ & _ & _ & _ & _ & Hr & Hi).
    exists r, s'. split; [done|]. split.
    + rewrite Hst. destruct f; simpl; [repeat case_bool_decide; simpl|]; set_solver.
    + intros dry' approved'. by eapply run_replay.
  - destruct Ho as (id & step & Hin & He). specialize (Ht id step Hin). by rewrite He in Ht.
Qed.

(** Idempotency keys given by clients are not scoped by tenant: a key used by one
    tenant gives every other tenant that run, its outputs included, whichever playbook
    the other tenant asked for, and the other tenant's playbook is not run. *)
Theorem playbook_key_shared_across_tenants tenant_a tenant_b pb_a pb_b_id pb_b dry key s r s' :
  key ≠ "" → dget key (en_by_idempotency s) = None → get_playbook pb_b_id = Ok pb_b →
  run executor pb_a tenant_a dry (Some key) [] s = (Ok r, s') →
  pr_tenant_id r = tenant_a
  ∧ run_playbook executor tenant_b pb_b_id dry (Some key) s' = (Ok (run_as_dict r), s').
Proof.
  intros Hne Hk Hpb Hrun. apply nonempty_spec in Hne.
  assert (∀ pb t, run_key pb t (Some key) = key) as Hkey.
  { intros pb t. unfold run_key, oor, otrue. by rewrite Hne. }
  destruct (run_fresh executor pb_a tenant_a dry (Some key) [] s) as (o & s1 & Heq & _ & Ho);
    [by rewrite Hkey|].
  rewrite Hrun in Heq. injection Heq as <- <-.
  destruct Ho as (f & _ & _ & _ & Ht & _ & _ & _ & Hr & Hi). split; [done|].
  unfold run_playbook, lift. rewrite Hpb. unfold mbind at 1, M_bind at 1.
  unfold fmap, M_fmap. rewrite Hkey in Hi.
  by rewrite (run_replay executor pb_b tenant_b dry (Some key) [] s' (pr_run_id r) r) by
    (rewrite ?Hkey; done).
Qed.
End properties.

(** ** Concrete runs *)

#[local] Instance demo_oracle : Oracle :=
  {| uuid_hex := λ n, pad 32 (Z.of_nat n); clock := λ n, utc 20000 (Z.of_nat n) |}.
Definition empty_engine : PlaybookEngine := {|
  en_runs := []; en_by_idempotency := []; en_draws := MkDraws 0 0; en_calls := [] |}.
Definition the_playbook (id : string) : PlaybookDef :=
  match get_playbook id with Ok pb => pb | Raise _ =>
    {| pb_playbook_id := ""; pb_name := ""; pb_steps := []; pb_description := "" |} end.
Definition contain_host := the_playbook "pb.contain_host_t0".
Definition value_of {A} (r : result A) (d : A) : A := match r with Ok a => a | Raise _ => d end.
Definition blank_run : PlaybookRun := {|
  pr_run_id := ""; pr_playbook_id := ""; pr_tenant_id := ""; pr_status := ""; pr_dry_run := true;
  pr_idempotency_key := ""; pr_steps := []; pr_approval_required := []; pr_started_at := "";
  pr_finished_at := None |}.

(** An executor whose every call raises an exception without a message. *)
Definition silent_failure : Executor := λ _ _, Raise (ValueError "").

(** A step whose every attempt raised is reported as a success when the exception has
    no message: with such an executor a whole catalogue playbook is reported completed. *)
Theorem silent_exception_is_success :
  let out := run silent_failure contain_host "ten_a" true None [] empty_engine in
  let r := value_of (fst out) blank_run in
  is_ok (fst out) = true ∧ pr_status r = "completed"
  ∧ (λ sr, (sr_step_id sr, sr_status sr, sr_attempts sr)) <$> pr_steps r
    = [("collect", Success, 2); ("isolate", Success, 1)].
Proof. vm_compute. auto. Qed.

(** The live run of [pb.contain_host_t0]: the isolation waits for an approval. *)
Definition waiting_engine : PlaybookEngine :=
  snd (run default_executor contain_host "ten_a" false (Some "k") [] empty_engine).
Definition waiting_run_id : string := "pbr_00000000000000000000000000000000".
Example waiting_run : (pr_status <$> dget waiting_run_id (en_runs waiting_engine)) = Some "awaiting_approval"
  ∧ cl_action <$> en_calls waiting_engine = ["collect.windows.processes"].
Proof. vm_compute. auto. Qed.

(** A live pass over that playbook in which the isolation is approved. *)
Lemma contain_host_pass ap s :
  mem "isolate" ap = true →
  let call_of action := {| cl_action := action; cl_params := []; cl_dry_run := false |} in
  ∃ p, run_passes default_executor 2 false ap
         {| pg_completed := []; pg_pending := pending_of contain_host; pg_steps := [];
            pg_required := [] |} s
       = (Ok (Continue p), log_call (call_of "isolate.host")
                             (log_call (call_of "collect.windows.processes") s))
     ∧ settle (Continue p) = ("completed", pg_steps p).
Proof.
  intros Hm call_of. set (p0 := {| pg_completed := _ |}).
  assert (∃ p, one_pass default_executor false ap (pg_pending p0) p0 false s
    = (Ok (Continue p, true), log_call (call_of "isolate.host")
                             (log_call (call_of "collect.windows.processes") s))
    ∧ pg_pending p = [] ∧ settle (Continue p) = ("completed", pg_steps p)) as (p & Hp & He & Hset).
  { eexists. split; [|split].
    - eapply one_pass_take; [reflexivity | by eapply (run_step_success _ _ _ _ _ _ _ T0) |].
      eapply one_pass_take; [reflexivity | eapply (run_step_success _ _ _ _ _ _ _ T2); try reflexivity |].
      + exact (f_equal (λ b, true && negb b) Hm).
      + reflexivity.
    - reflexivity.
    - reflexivity. }
  exists p. split; [|done]. by apply run_passes_once.
Qed.

(** Resuming that run with any approval list that names the isolation. *)
Lemma resume_waiting k ap :
  mem "isolate" ap = true →
  let out := run default_executor contain_host "ten_a" false (Some ("k:approved:" +:+ k)) ap
               (forget_key "k" waiting_engine) in
  pr_status (value_of (fst out) blank_run) = "completed"
  ∧ (λ c, (cl_action c, cl_dry_run c)) <$> en_calls (snd out)
    = [("collect.windows.processes", false); ("collect.windows.processes", false);
       ("isolate.host", false)].
Proof.
  intros Hm out. subst out. rewrite run_unfold by reflexivity. cbv zeta.
  change (length (pending_of contain_host)) with 2%nat.
  match goal with |- context [run_passes _ _ _ _ _ ?s] => 
    destruct (contain_host_pass ap s Hm) as (p & -> & Hset) end.
  split; [|reflexivity]. unfold run_record. cbn [fst value_of pr_status]. by rewrite Hset.
Qed.

Definition waiting_prior : PlaybookRun :=
  Eval vm_compute in default blank_run (dget waiting_run_id (en_runs waiting_engine)).
Lemma approve_waiting step_ids :
  approve default_executor waiting_run_id step_ids contain_host waiting_engine
  = run default_executor contain_host "ten_a" false
      (Some ("k:approved:" +:+ join "," (sort_by String.leb step_ids))) (step_ids ++ ["isolate"])
      (forget_key "k" waiting_engine).
Proof.
  unfold approve, get. unfold mbind at 1, M_bind at 1.
  assert (dget waiting_run_id (en_runs waiting_engine) = Some waiting_prior) as -> by
    (vm_compute; reflexivity).
  reflexivity.
Qed.

(** Approving a waiting run approves every step that waits, whatever steps the
    approver named, even none of them: the host is isolated live, and the collection
    step that had already run is run again. *)
Theorem approve_ignores_step_ids step_ids :
  let out := approve default_executor waiting_run_id step_ids contain_host waiting_engine in
  pr_status (value_of (fst out) blank_run) = "completed"
  ∧ (λ c, (cl_action c, cl_dry_run c)) <$> en_calls (snd out)
    = [("collect.windows.processes", false); ("collect.windows.processes", false);
       ("isolate.host", false)].
Proof.
  intros out. subst out. rewrite approve_waiting. apply resume_waiting.
  apply mem_spec, elem_of_app. right. by left.
Qed.

Lemma playbook_run_sound_witness :
  let r := value_of (fst (run default_executor contain_host "ten_a" true None [] empty_engine)) blank_run in
  dependency_ordered (pending_of contain_host) (pr_steps r).
Proof.
  refine (proj1 (playbook_run_sound default_executor contain_host "ten_a" true None [] empty_engine _
    (snd (run default_executor contain_host "ten_a" true None [] empty_engine)) _ _));
    vm_compute; reflexivity.
Defined.

Lemma playbook_run_returns_once_witness :
  ∃ r s', run default_executor contain_host "ten_a" false (Some "k") [] empty_engine = (Ok r, s')
    ∧ pr_status r ∈ ["completed"; "failed"; "awaiting_approval"]
    ∧ ∀ dry' approved', run default_executor contain_host "ten_a" dry' (Some "k") approved' s' = (Ok r, s').
Proof.
  refine (playbook_run_returns_once default_executor contain_host "ten_a" false (Some "k") []
    empty_engine _ _); [reflexivity|].
  intros id step Hin. vm_compute in Hin.
  repeat (apply elem_of_cons in Hin as [[= -> ->]|Hin]; [reflexivity|]).
  by apply not_elem_of_nil in Hin.
Defined.

Lemma playbook_key_shared_across_tenants_witness :
  let out := run default_executor contain_host "ten_a" false (Some "k") [] empty_engine in
  let r := value_of (fst out) blank_run in
  pr_tenant_id r = "ten_a"
  ∧ run_playbook default_executor "ten_b" "pb.enrich_only" false (Some "k") (snd out)
    = (Ok (run_as_dict r), snd out).
Proof.
  refine (playbook_key_shared_across_tenants default_executor "ten_a" "ten_b" contain_host
    "pb.enrich_only" (the_playbook "pb.enrich_only") false "k" empty_engine _ _ _ _ _ _);
    [discriminate | vm_compute; reflexivity..].
Defined.
