(* ===== verification/Detection.v ===== *)
(** * Detection SDK

    Models [packages/detection-sdk/blueteam_detection/{context,registry,rule}.py] and the
    two [finding_from_events] of [detections/python]. A rule's [evaluate] either finds
    nothing or proposes one [Hit] (the related events, the fingerprint and the
    explanation); [emit] is the common end of every [evaluate]: nothing when the
    fingerprint is already open, else one finding. *)
From S2P Require Export Schemas.
Local Open Scope Z_scope.

Record RuleMeta := {
  rm_rule_id : string; rm_name : string; rm_description : string; rm_version : string;
  rm_severity : Severity; rm_confidence : Z; rm_mitre_tactics : list string;
  rm_mitre_techniques : list string; rm_data_sources : list string; rm_author : string;
  rm_status : string; rm_execution : string }.
(** The defaults of the dataclass. *)
Definition rule_meta (rule_id name description : string) (severity : Severity) (confidence : Z)
    (tactics techniques sources : list string) : RuleMeta := {|
  rm_rule_id := rule_id; rm_name := name; rm_description := description; rm_version := "1.0.0";
  rm_severity := severity; rm_confidence := confidence; rm_mitre_tactics := tactics;
  rm_mitre_techniques := techniques; rm_data_sources := sources; rm_author := "blueteam-os";
  rm_status := "tested"; rm_execution := "realtime" |}.

(** ** Event windows *)

Abbreviation EventWindow := (list CanonicalEvent).
Record filters := {
  q_event_type : option string; q_category : option string; q_outcome : option Outcome;
  q_src_ip : option string; q_user_name : option string; q_action : option string }.
Definition no_filter : filters := {|
  q_event_type := None; q_category := None; q_outcome := None; q_src_ip := None;
  q_user_name := None; q_action := None |}.

(** [if f and value != f: continue], for a value that is a string or may be [None]. *)
Definition filter_str (f : option string) (value : string) : bool :=
  negb (otrue f) || oeqb f value.
Definition filter_ostr (f value : option string) : bool :=
  negb (otrue f) || bool_decide (value = f).

Definition window_match (tenant_id : string) (since : datetime) (until : option datetime)
    (q : filters) (event : CanonicalEvent) : bool :=
  (e_tenant_id event =? tenant_id)%string
  && negb (dt_lt (e_timestamp event) since)
  && match until with Some u => negb (dt_lt u (e_timestamp event)) | None => true end
  && filter_str (q_event_type q) (e_event_type event)
  && filter_str (q_category q) (e_category event)
  && match q_outcome q with Some o => bool_decide (e_outcome event = Some o) | None => true end
  && filter_ostr (q_src_ip q) (e_src_ip event)
  && filter_ostr (q_user_name q) (user_name event)
  && filter_ostr (q_action q) (e_action event).
Definition query (w : EventWindow) (tenant_id : string) (since : datetime) (until : option datetime)
    (q : filters) : list CanonicalEvent := select (window_match tenant_id since until q) w.

Record DetectionContext := {
  dc_window : EventWindow; dc_open_fingerprints : list string; dc_scheduled : bool }.
Definition events_in_window (ctx : DetectionContext) (event : CanonicalEvent) (secs : Z)
    (q : filters) : list CanonicalEvent :=
  query (dc_window ctx) (e_tenant_id event) (dt_add (e_timestamp event) (- seconds secs))
        (Some (e_timestamp event)) q.
Definition already_open (ctx : DetectionContext) (fingerprint : string) : bool :=
  mem fingerprint (dc_open_fingerprints ctx).
Definition open_fingerprint (fingerprint : string) (ctx : DetectionContext) : DetectionContext := {|
  dc_window := dc_window ctx; dc_open_fingerprints := fingerprint :: dc_open_fingerprints ctx;
  dc_scheduled := dc_scheduled ctx |}.

(** ** Findings *)

Record Hit := {
  hit_related : list CanonicalEvent; hit_fingerprint : string; hit_explanation : string }.

(** f-string rendering of an optional value. *)
Definition fmt (o : option string) : string := default "None" o.

Definition evidence_of (trigger event : CanonicalEvent) : FindingEvidence := {|
  fe_evidence_id := "evi_pending_" +:+ e_id event; fe_event_id := Some (e_id event);
  fe_role := if (e_id event =? e_id trigger)%string then Trigger else Supporting |}.
Definition event_ids_of (trigger : CanonicalEvent) (related : list CanonicalEvent) : list string :=
  let ids := e_id <$> related in
  if mem (e_id trigger) ids then ids else e_id trigger :: ids.

Section findings.
Context `{Oracle}.

Definition new_id_d : string → M draws string := new_id id (λ d _, d).
Definition utcnow_d : M draws datetime := utcnow id (λ d _, d).

Definition finding_with (attributes : result (list (string * string))) (meta : RuleMeta)
    (trigger : CanonicalEvent) (h : Hit) : M draws Finding :=
  i ← new_id_d "fnd";
  now ← utcnow_d;
  attrs ← lift attributes;
  mret {|
    fi_id := i; fi_tenant_id := e_tenant_id trigger; fi_rule_id := rm_rule_id meta;
    fi_rule_version := rm_version meta; fi_title := rm_name meta;
    fi_description := rm_description meta; fi_severity := rm_severity meta;
    fi_confidence := fl_of_Z (rm_confidence meta); fi_fingerprint := hit_fingerprint h;
    fi_mitre_tactics := rm_mitre_tactics meta; fi_mitre_techniques := rm_mitre_techniques meta;
    fi_event_ids := event_ids_of trigger (hit_related h);
    fi_evidence := evidence_of trigger <$> hit_related h;
    fi_explanation := hit_explanation h; fi_created_at := now; fi_attributes := attrs |}.

(** [detections/python/shared.py] *)
Definition shared_attributes (trigger : CanonicalEvent) : list (string * string) := [
  ("src_ip", ostr (e_src_ip trigger)); ("dst_ip", ostr (e_dst_ip trigger));
  ("user", ostr (user_name trigger)); ("host", ostr (host_name trigger));
  ("process", ostr (process_name trigger))].
Definition finding_from_events (meta : RuleMeta) (trigger : CanonicalEvent) (h : Hit)
    : M draws Finding :=
  finding_with (Ok (shared_attributes trigger)) meta trigger h.

(** [detections/python/identity/_common.py]: the user attribute is the name of the
    trigger's user, so that pydantic refuses a user without a name. *)
Definition identity_attributes (trigger : CanonicalEvent) : result (list (string * string)) :=
  match e_user trigger with
  | None => Ok [("src_ip", ostr (e_src_ip trigger)); ("user", "")]
  | Some u =>
      match u_name u with
      | Some name => Ok [("src_ip", ostr (e_src_ip trigger)); ("user", name)]
      | None => Raise (ValueError "attributes.user: Input should be a valid string")
      end
  end.
Definition identity_finding_from_events (meta : RuleMeta) (trigger : CanonicalEvent) (h : Hit)
    : M draws Finding :=
  finding_with (identity_attributes trigger) meta trigger h.

End findings.

(** ** Rules and the registry *)

Record DetectionRule := {
  dr_meta : RuleMeta;
  dr_evaluate : CanonicalEvent → DetectionContext → M draws (list Finding) }.

(** The end of every [evaluate]. *)
Definition emit (make : RuleMeta → CanonicalEvent → Hit → M draws Finding) (meta : RuleMeta)
    (detect : CanonicalEvent → DetectionContext → result (option Hit))
    (event : CanonicalEvent) (ctx : DetectionContext) : M draws (list Finding) :=
  h ← lift (detect event ctx);
  match h with
  | None => mret []
  | Some h =>
      if already_open ctx (hit_fingerprint h) then mret []
      else f ← make meta event h; mret [f]
  end.

Abbreviation DetectionRegistry := (list (string * DetectionRule)).
Definition register (rule : DetectionRule) (r : DetectionRegistry) : DetectionRegistry :=
  dset (rm_rule_id (dr_meta rule)) rule r.
Definition get_rule (r : DetectionRegistry) (rule_id : string) : result DetectionRule :=
  match dget rule_id r with Some x => Ok x | None => Raise (KeyError rule_id) end.
Definition all_rules (r : DetectionRegistry) : list DetectionRule := r.*2.

(** The [continue] of the two execution modes. *)
Definition skipped (rule : DetectionRule) (ctx : DetectionContext) : bool :=
  let execution := rm_execution (dr_meta rule) in
  ((execution =? "scheduled")%string && negb (dc_scheduled ctx))
  || ((execution =? "realtime")%string && dc_scheduled ctx).
Definition evaluate_registry (r : DetectionRegistry) (event : CanonicalEvent) (ctx : DetectionContext)
    : M draws (list Finding) :=
  foldM (λ findings rule,
           if skipped rule ctx then mret findings
           else fs ← dr_evaluate rule event ctx; mret (findings ++ fs))
        [] (all_rules r).

(** ** Soundness of a finding *)

Definition day : Z := 24 * 3600.
(** [x] is an event of the trigger's tenant in the last [secs] seconds. *)
Definition in_window (ctx : DetectionContext) (event : CanonicalEvent) (secs : Z) (x : CanonicalEvent) : Prop :=
  x ∈ dc_window ctx ∧ e_tenant_id x = e_tenant_id event
  ∧ instant (e_timestamp event) - seconds secs ≤ instant (e_timestamp x) ≤ instant (e_timestamp event).
Definition related_ok (ctx : DetectionContext) (event x : CanonicalEvent) : Prop :=
  x = event ∨ in_window ctx event day x.

Record sound_finding (meta : RuleMeta) (event : CanonicalEvent) (ctx : DetectionContext) (f : Finding)
    : Prop := {
  sf_tenant : fi_tenant_id f = e_tenant_id event;
  sf_rule : fi_rule_id f = rm_rule_id meta ∧ fi_rule_version f = rm_version meta
            ∧ fi_severity f = rm_severity meta ∧ fi_mitre_techniques f = rm_mitre_techniques meta;
  sf_new : fi_fingerprint f ∉ dc_open_fingerprints ctx;
  sf_trigger : e_id event ∈ fi_event_ids f;
  sf_events : ∀ i, i ∈ fi_event_ids f → ∃ x, e_id x = i ∧ related_ok ctx event x;
  sf_evidence : ∀ v, v ∈ fi_evidence f →
    ∃ i, i ∈ fi_event_ids f ∧ fe_event_id v = Some i ∧ fe_evidence_id v = "evi_pending_" +:+ i
         ∧ (fe_role v = Trigger ↔ i = e_id event);
}.

(** What a rule promises the registry: at most one finding per event, and a sound one; it
    draws identifiers forward only. *)
Class RuleSound `{Oracle} (rule : DetectionRule) : Prop := {
  rule_findings : ∀ event ctx d fs d',
    dr_evaluate rule event ctx d = (Ok fs, d') →
    (length fs ≤ 1)%nat ∧ Forall (sound_finding (dr_meta rule) event ctx) fs;
  rule_draws : ∀ event ctx d r d',
    dr_evaluate rule event ctx d = (r, d') → (n_uuid d ≤ n_uuid d')%nat;
}.

Lemma filter_str_some v s : nonempty v = true → filter_str (Some v) s = true ↔ s = v.
Proof.
  intros Hv. unfold filter_str, otrue, oeqb. rewrite Hv. simpl. rewrite String.eqb_eq. naive_solver.
Qed.
Lemma filter_ostr_some v o : nonempty v = true → filter_ostr (Some v) o = true ↔ o = Some v.
Proof. intros Hv. unfold filter_ostr, otrue. rewrite Hv. simpl. apply bool_decide_eq_true. Qed.
Lemma window_match_iff t since u q e :
  window_match t since (Some u) q e = true ↔
  e_tenant_id e = t ∧ instant since ≤ instant (e_timestamp e) ≤ instant u
  ∧ filter_str (q_event_type q) (e_event_type e) = true
  ∧ filter_str (q_category q) (e_category e) = true
  ∧ (∀ o, q_outcome q = Some o → e_outcome e = Some o)
  ∧ filter_ostr (q_src_ip q) (e_src_ip e) = true
  ∧ filter_ostr (q_user_name q) (user_name e) = true
  ∧ filter_ostr (q_action q) (e_action e) = true.
Proof.
  unfold window_match, dt_lt. rewrite !andb_true_iff, String.eqb_eq, !negb_true_iff, !Z.ltb_ge.
  assert (match q_outcome q with Some o => bool_decide (e_outcome e = Some o) | None => true end = true
    ↔ ∀ o, q_outcome q = Some o → e_outcome e = Some o) as ->; [|tauto].
  destruct (q_outcome q) as [o|]; [rewrite bool_decide_eq_true|]; naive_solver.
Qed.

Lemma events_in_window_spec ctx event secs q x :
  x ∈ events_in_window ctx event secs q ↔
  in_window ctx event secs x ∧ window_match (e_tenant_id event)
    (dt_add (e_timestamp event) (- seconds secs)) (Some (e_timestamp event)) q x = true.
Proof.
  unfold events_in_window, query, in_window. rewrite elem_of_select. split; [|tauto].
  intros [Hin Hm]. split; [|done]. unfold window_match in Hm. py_bool.
  unfold dt_lt in *. py_bool. rewrite instant_add in *. split_and!; auto; lia.
Qed.

Lemma in_window_le ctx event secs secs' x :
  secs ≤ secs' → in_window ctx event secs x → in_window ctx event secs' x.
Proof. unfold in_window, seconds, second. intros Hs (? & ? & ?). split_and!; auto; lia. Qed.

Lemma related_in_window ctx event secs q x :
  secs ≤ day → x ∈ events_in_window ctx event secs q → related_ok ctx event x.
Proof.
  intros Hs Hx. right. apply events_in_window_spec in Hx as [Hx _]. by eapply in_window_le.
Qed.
#[export] Hint Extern 2 (related_ok _ ?e ?e) => left; reflexivity : btos.

Lemma elem_of_event_ids trigger related i :
  i ∈ event_ids_of trigger related ↔ i = e_id trigger ∨ ∃ x, x ∈ related ∧ e_id x = i.
Proof.
  unfold event_ids_of. destruct (mem _ _) eqn:Hm; rewrite ?elem_of_cons, list_elem_of_fmap.
  - apply mem_spec, list_elem_of_fmap in Hm as (y & Hy & Hin). naive_solver.
  - naive_solver.
Qed.

Section soundness.
Context `{Oracle}.

Lemma finding_with_sound attrs meta event ctx h d f d' :
  finding_with attrs meta event h d = (Ok f, d') →
  already_open ctx (hit_fingerprint h) = false →
  (∀ x, x ∈ hit_related h → related_ok ctx event x) →
  sound_finding meta event ctx f.
Proof.
  unfold finding_with. intros Hf Hopen Hrel. do 3 inv_bind Hf. injection Hf as <- <-.
  constructor; simpl; try done.
  - by apply mem_false.
  - apply elem_of_event_ids. by left.
  - intros i [->|(x & Hx & <-)]%elem_of_event_ids; [exists event; split; [done | by left]|].
    exists x. split; [done | by apply Hrel].
  - intros v (x & -> & Hx)%list_elem_of_fmap. exists (e_id x). split; [|split; [done | split; [done|]]].
    + apply elem_of_event_ids. right. by exists x.
    + unfold evidence_of. simpl. destruct (String.eqb_spec (e_id x) (e_id event)); naive_solver.
Qed.

Lemma finding_with_draws attrs meta event h d r d' :
  finding_with attrs meta event h d = (r, d') → (n_uuid d ≤ n_uuid d')%nat.
Proof.
  unfold finding_with, new_id_d, new_id, utcnow_d, utcnow, lift, mbind, M_bind, mret, M_ret.
  destruct attrs; intros [= _ <-]; simpl; lia.
Qed.

(** How a finding is made: either of the two functions. *)
Definition maker (make : RuleMeta → CanonicalEvent → Hit → M draws Finding) : Prop :=
  make = finding_from_events ∨ make = identity_finding_from_events.

Lemma emit_inv make meta detect event ctx d fs d' :
  emit make meta detect event ctx d = (Ok fs, d') →
  (fs = [] ∧ d' = d ∧ (detect event ctx = Ok None ∨ ∃ h, detect event ctx = Ok (Some h)
                        ∧ already_open ctx (hit_fingerprint h) = true))
  ∨ ∃ h f, detect event ctx = Ok (Some h) ∧ already_open ctx (hit_fingerprint h) = false
           ∧ make meta event h d = (Ok f, d') ∧ fs = [f].
Proof.
  unfold emit, lift. intros He. unfold mbind at 1, M_bind at 1 in He.
  destruct (detect event ctx) as [[h|]|e] eqn:Hd; [| |discriminate].
  - destruct (already_open ctx _) eqn:Ho.
    + injection He as <- <-. left. eauto 10.
    + inv_bind He. injection He as <- <-. right. eauto 10.
  - injection He as <- <-. auto.
Qed.

Lemma emit_none make meta detect event ctx d :
  detect event ctx = Ok None → emit make meta detect event ctx d = (Ok [], d).
Proof. intros Hd. unfold emit, lift. by rewrite Hd. Qed.
Lemma emit_hit make meta detect event ctx d h :
  detect event ctx = Ok (Some h) →
  emit make meta detect event ctx d =
    if already_open ctx (hit_fingerprint h) then (Ok [], d)
    else (f ← make meta event h; mret [f]) d.
Proof.
  intros Hd. unfold emit, lift. rewrite Hd. unfold mbind at 1, M_bind at 1.
  by destruct (already_open _ _).
Qed.

(** The obligation left to each rule: where its related events come from. *)
Lemma rule_sound_intro make rule_meta detect :
  maker make →
  (∀ event ctx h x, detect event ctx = Ok (Some h) → x ∈ hit_related h → related_ok ctx event x) →
  RuleSound {| dr_meta := rule_meta; dr_evaluate := emit make rule_meta detect |}.
Proof.
  intros Hmk Hrel. split; simpl.
  - intros event ctx d fs d' He.
    apply emit_inv in He as [(-> & _)|(h & f & Hd & Ho & Hf & ->)]; [simpl; auto|].
    split; [simpl; lia|]. apply Forall_singleton.
    destruct Hmk as [->| ->]; eapply finding_with_sound; eauto.
  - intros event ctx d r d' He. unfold emit, lift in He. unfold mbind at 1, M_bind at 1 in He.
    destruct (detect event ctx) as [[h|]|e]; [| by injection He as _ <- ..].
    destruct (already_open ctx _); [by injection He as _ <-|].
    unfold mbind, M_bind in He. destruct (make rule_meta event h d) as [[f|e] d1] eqn:Hm;
      injection He as _ <-;
      (assert (∃ attrs, make rule_meta event h d = finding_with attrs rule_meta event h d) as [attrs Hmk']
         by (destruct Hmk as [->| ->]; by eexists));
      rewrite Hmk' in Hm; eapply finding_with_draws; exact Hm.
Qed.

(** What one rule contributes: nothing when it does not run in this mode, and otherwise at
    most one finding. *)
Definition by_rule (event : CanonicalEvent) (ctx : DetectionContext) (rule : DetectionRule) (l : list Finding) : Prop :=
  (length l ≤ 1)%nat ∧ (skipped rule ctx = true → l = []) ∧ Forall (sound_finding (dr_meta rule) event ctx) l.
(** The registry returns what its rules contribute, in order. *)
Lemma evaluate_registry_by_rule (r : DetectionRegistry) event ctx d fs d' :
  Forall RuleSound (all_rules r) → evaluate_registry r event ctx d = (Ok fs, d') →
  ∃ per, fs = concat per ∧ Forall2 (by_rule event ctx) (all_rules r) per.
Proof.
  unfold evaluate_registry. intros Hr.
  assert (∀ fs0 d0, foldM (λ findings rule, if skipped rule ctx then mret findings
           else fs ← dr_evaluate rule event ctx; mret (findings ++ fs)) fs0 (all_rules r) d0 = (Ok fs, d') →
    ∃ per, fs = fs0 ++ concat per ∧ Forall2 (by_rule event ctx) (all_rules r) per) as Hgen; [|apply Hgen].
  induction Hr as [|rule rules Hrule Hr IH]; intros fs0 d0 Hf; cbn [foldM] in Hf.
  { injection Hf as <- <-. exists []. split; [by rewrite app_nil_r | constructor]. }
  inv_bind Hf. destruct (skipped rule ctx) eqn:Hsk.
  - injection Ha as <- <-. destruct (IH _ _ Hf) as (per & -> & Hper). exists ([] :: per). split; [done|].
    constructor; [|done]. split; [simpl; lia|]. split; [done | constructor].
  - inv_bind Ha. injection Ha as <- <-. destruct (IH _ _ Hf) as (per & -> & Hper). exists (a0 :: per).
    split; [by rewrite <-app_assoc|]. constructor; [|done]. destruct Hrule as [Hrule _].
    destruct (Hrule _ _ _ _ _ Ha0) as [Hlen Hs]. split; [done|]. split; [congruence | done].
Qed.
Lemma by_rule_sound event ctx rules per : Forall2 (by_rule event ctx) rules per →
  Forall (λ f, ∃ rule, rule ∈ rules ∧ skipped rule ctx = false ∧ sound_finding (dr_meta rule) event ctx f) (concat per).
Proof.
  induction 1 as [|rule l rules per (_ & Hsk & Hl) _ IH]; [constructor|]. cbn [concat]. apply Forall_app. split.
  - destruct (skipped rule ctx) eqn:E; [rewrite Hsk by done; constructor|]. eapply Forall_impl; [exact Hl|].
    intros f Hf. exists rule. split; [left | done].
  - eapply Forall_impl; [exact IH|]. intros f (x & Hx & ?). exists x. split; [by right | done].
Qed.
(** Rules of different identifiers never report under one. *)
Lemma by_rule_once event ctx rules per i : Forall2 (by_rule event ctx) rules per →
  NoDup (rm_rule_id ∘ dr_meta <$> rules) → (length (select (λ f, fi_rule_id f =? i)%string (concat per)) ≤ 1)%nat.
Proof.
  induction 1 as [|rule l rules per (Hlen & _ & Hl) Hper IH]; [simpl; lia|].
  rewrite fmap_cons. cbn [concat]. intros [Hn Hnd]%NoDup_cons. specialize (IH Hnd). rewrite select_app, length_app.
  pose proof (select_length (λ f, fi_rule_id f =? i)%string l).
  destruct (decide (i = rm_rule_id (dr_meta rule))) as [->|Hi].
  - assert (select (λ f, fi_rule_id f =? rm_rule_id (dr_meta rule))%string (concat per) = []) as ->; [|simpl; lia].
    apply select_nil_iff. intros f Hf. apply String.eqb_neq. intros He. apply Hn, list_elem_of_fmap.
    pose proof (by_rule_sound _ _ _ _ Hper) as Hs. rewrite Forall_forall in Hs.
    destruct (Hs f Hf) as (x & Hx & _ & Hsx). exists x. split; [|done]. cbn. rewrite <-He. apply (proj1 (sf_rule _ _ _ _ Hsx)).
  - assert (select (λ f, fi_rule_id f =? i)%string l = []) as ->; [|simpl; lia].
    apply select_nil_iff. intros f Hf. apply String.eqb_neq. rewrite Forall_forall in Hl.
    rewrite (proj1 (sf_rule _ _ _ _ (Hl f Hf))). congruence.
Qed.

Lemma evaluate_registry_draws (r : DetectionRegistry) event ctx d o d' :
  Forall RuleSound (all_rules r) → evaluate_registry r event ctx d = (o, d') →
  (n_uuid d ≤ n_uuid d')%nat.
Proof.
  unfold evaluate_registry. intros Hr He. rewrite Forall_forall in Hr.
  pose proof (foldM_state_inv (λ x, (n_uuid d ≤ n_uuid x)%nat) (λ findings rule,
    if skipped rule ctx then mret findings
    else fs ← dr_evaluate rule event ctx; mret (findings ++ fs)) (all_rules r) [] d) as Hinv.
  rewrite He in Hinv. apply Hinv; [|done]. intros fs rule s Hin Hs.
  destruct (skipped rule ctx); [done|]. unfold mbind, M_bind.
  destruct (dr_evaluate rule event ctx s) as [[x|e] s1] eqn:Hx;
    pose proof (rule_draws (RuleSound := Hr rule Hin) _ _ _ _ _ Hx); simpl; lia.
Qed.
End soundness.

(** Where an element of a list of related events comes from. *)
Ltac related_events :=
  repeat match goal with
  | Hx : _ ∈ [] |- _ => by apply not_elem_of_nil in Hx
  | Hx : _ ∈ _ :: _ |- _ => apply elem_of_cons in Hx as [->|Hx]
  | Hx : _ ∈ _ ++ _ |- _ => apply elem_of_app in Hx as [Hx|Hx]
  | Hx : _ ∈ select _ _ |- _ => apply elem_of_select in Hx as [Hx _]
  | Hx : _ ∈ events_in_window _ _ _ _ |- _ =>
      eapply related_in_window; [|exact Hx]; unfold day; lia
  | |- related_ok _ ?e ?e => left; reflexivity
  end.
(** Follow every branch of a detection to the hits it returns. *)
Ltac detect_cases Hd :=
  repeat first
    [ discriminate Hd
    | apply result_bind_ok in Hd as (? & ? & Hd)
    | match type of Hd with
      | context [if ?b then _ else _] => destruct b eqn:?
      | context [match ?o with None => _ | Some _ => _ end] => destruct o as [?|] eqn:?
      | context [let (_, _) := ?p in _] => destruct p eqn:?
      end ];
  try (injection Hd as Hd; rewrite <-Hd in *; simpl in * ).
Ltac rule_sound detect :=
  apply rule_sound_intro; [first [by left | by right]|];
  intros event ctx h x Hd Hx; unfold detect in Hd; detect_cases Hd; related_events.
