(* ===== verification/Correlation.v ===== *)
(** * Storylines

    Models [packages/correlation/blueteam_correlation/{engine,rules}.py]: the three fixed
    storylines, the declarative correlation rules, and the fingerprint that identifies an
    incident. Nothing here keeps a state but the identifiers drawn. *)
From S2P Require Export Detection.
Local Open Scope Z_scope.

Definition OFFICE_RULES : list string :=
  ["sigma.office-spawns-powershell"; "endpoint.office_spawns_shell"; "endpoint.encoded_powershell"].
Definition BEACON_RULES : list string :=
  ["network.repetitive_beacon"; "endpoint.process_network_chain"].

Definition of_rule (rule_id : string) (f : Finding) : bool := (fi_rule_id f =? rule_id)%string.
Definition of_rules (ids : list string) (f : Finding) : bool := mem (fi_rule_id f) ids.
Definition evidence_ids_of (f : Finding) : list string := fe_evidence_id <$> fi_evidence f.

Definition stage (name : string) (rule_ids event_ids : list string) (timestamp : datetime)
    : StorylineStage := {|
  st_name := name; st_rule_ids := rule_ids; st_event_ids := event_ids; st_evidence_ids := [];
  st_timestamp := Some timestamp |}.
(** The stage of one finding. *)
Definition finding_stage (name : string) (f : Finding) : StorylineStage :=
  stage name [fi_rule_id f] (fi_event_ids f) (fi_created_at f).

Definition _overlap_user (left right : Finding) : bool :=
  otrue (fattr "user" left) && bool_decide (fattr "user" left = fattr "user" right).
Definition _near (left right : Finding) : bool :=
  Z.abs (dt_sub (fi_created_at left) (fi_created_at right)) <=? seconds 7200.

(** [{event.id: event for event in events}] *)
Definition events_by_id (events : list CanonicalEvent) : list (string * CanonicalEvent) :=
  foldl (λ d event, dset (e_id event) event d) [] events.

Section correlation.
Context `{Oracle}.

Definition _story (tenant_id title : string) (stages : list StorylineStage)
    (techniques evidence_ids event_ids : list string) (entities : list (string * list string))
    (confidence : Z) : M draws Storyline :=
  match omap st_timestamp stages with
  | [] => raise (ValueError "min() iterable argument is empty")
  | t :: ts =>
      i ← new_id_d "stl";
      mret {|
        sl_storyline_id := i; sl_tenant_id := tenant_id; sl_title := title;
        sl_entities := (λ kv, (kv.1, select nonempty kv.2)) <$> entities; sl_stages := stages;
        sl_confidence := fl_of_Z confidence; sl_evidence_ids := evidence_ids;
        sl_event_ids := event_ids; sl_mitre_techniques := techniques;
        sl_start := dt_min_list t ts; sl_end := dt_max_list t ts; sl_attributes := [] |}
  end.

(** ** The fixed storylines *)

Definition success_after (spray : Finding) (event : CanonicalEvent) : bool :=
  (e_category event =? "authentication")%string && bool_decide (e_outcome event = Some Success)
  && bool_decide (e_src_ip event = fattr "src_ip" spray)
  && negb (dt_lt (e_timestamp event) (dt_add (fi_created_at spray) (- hours 2))).
(** The body of the loop over the sprays. *)
Definition spray_chain (successes grants : list Finding) (by_id : list (string * CanonicalEvent))
    (out : list Storyline) (spray : Finding) : M draws (list Storyline) :=
  let grant := find_first (λ item, _overlap_user spray item || _near spray item) grants in
  let later_success := select (success_after spray) (by_id.*2) in
  if bool_decide (grant = None) && bool_decide (later_success = []) && bool_decide (successes = [])
  then mret out
  else
    s ← _story (fi_tenant_id spray) "Password spray to privilege"
          ([finding_stage "password_spray" spray]
           ++ match later_success with
              | [] => []
              | first :: _ =>
                  [stage "authentication_success" [] (e_id <$> later_success) (e_timestamp first)]
              end
           ++ match grant with Some g => [finding_stage "privilege_grant" g] | None => [] end)
          ["T1110.003"; "T1098"]
          (evidence_ids_of spray ++ match grant with Some g => evidence_ids_of g | None => [] end)
          (fi_event_ids spray ++ match grant with Some g => fi_event_ids g | None => [] end)
          [("user", [ostr (fattr "user" spray)]); ("ip", [ostr (fattr "src_ip" spray)])] 80;
    mret (out ++ [s]).
Definition _identity_chain (findings : list Finding) (by_id : list (string * CanonicalEvent))
    : M draws (list Storyline) :=
  let sprays := select (of_rule "identity.password_spray") findings in
  let successes := select (of_rule "identity.brute_force") findings in
  let grants := select (of_rule "identity.privilege_grant") findings in
  foldM (spray_chain successes grants by_id) [] sprays.

Definition beacon_matches (host : option string) (item : Finding) : bool :=
  negb (otrue host) || bool_decide (fattr "host" item = host) || otrue (fattr "src_ip" item).
Definition office_chain (beacons : list Finding) (out : list Storyline) (spawn : Finding)
    : M draws (list Storyline) :=
  let host := fattr "host" spawn in
  match find_first (beacon_matches host) beacons with
  | None => mret out
  | Some item =>
      s ← _story (fi_tenant_id spawn) "Office to PowerShell to beacon"
            [finding_stage "office_process" spawn; finding_stage "powershell" spawn;
             finding_stage "external_beacon" item]
            ["T1059.001"; "T1204.002"; "T1071"]
            (evidence_ids_of spawn ++ evidence_ids_of item) (fi_event_ids spawn ++ fi_event_ids item)
            [("host", [ostr host]); ("ip", [ostr (fattr "dst_ip" item)]);
             ("process", [ostr (fattr "process" spawn)])] 85;
      mret (out ++ [s])
  end.
Definition _office_c2 (findings : list Finding) : M draws (list Storyline) :=
  let office := select (of_rules OFFICE_RULES) findings in
  let beacons := select (of_rules BEACON_RULES) findings in
  if bool_decide (office = []) || bool_decide (beacons = []) then mret []
  else foldM (office_chain beacons) [] office.

Definition _lateral_c2 (findings : list Finding) : M draws (list Storyline) :=
  match select (of_rule "network.unusual_east_west") findings, select (of_rules BEACON_RULES) findings with
  | spawn :: _, beacon :: _ =>
      s ← _story (fi_tenant_id spawn) "Endpoint to lateral movement to C2"
            [stage "compromised_endpoint" [] (fi_event_ids spawn) (fi_created_at spawn);
             finding_stage "smb_rdp_movement" spawn;
             stage "second_endpoint" [] (fi_event_ids spawn) (fi_created_at spawn);
             finding_stage "c2" beacon]
            ["T1021"; "T1071"] (evidence_ids_of spawn ++ evidence_ids_of beacon)
            (fi_event_ids spawn ++ fi_event_ids beacon)
            [("ip", [ostr (fattr "src_ip" spawn); ostr (fattr "dst_ip" spawn);
                     ostr (fattr "dst_ip" beacon)]);
             ("host", [ostr (fattr "host" spawn)])] 78;
      mret [s]
  | _, _ => mret []
  end.
End correlation.

(** ** Declarative rules *)

Record CorrelationRule := {
  cr_rule_id : string; cr_title : string; cr_required_rule_ids : list string; cr_entity_key : string;
  cr_window_seconds : Z; cr_mitre_techniques : list string; cr_min_findings : Z }.
Definition DEFAULT_CORRELATION_RULES : list CorrelationRule := [
  {| cr_rule_id := "corr.identity.spray_then_grant";
     cr_title := "Password spray correlated with privilege grant";
     cr_required_rule_ids := ["identity.password_spray"; "identity.privilege_grant"];
     cr_entity_key := "user"; cr_window_seconds := 7200;
     cr_mitre_techniques := ["T1110.003"; "T1098"]; cr_min_findings := 2 |};
  {| cr_rule_id := "corr.endpoint.office_c2";
     cr_title := "Office execution correlated with beacon";
     cr_required_rule_ids := ["endpoint.office_spawns_shell"; "network.repetitive_beacon"];
     cr_entity_key := "host"; cr_window_seconds := 3600;
     cr_mitre_techniques := ["T1059.001"; "T1071"]; cr_min_findings := 2 |};
  {| cr_rule_id := "corr.network.lateral_c2";
     cr_title := "East-west movement correlated with C2";
     cr_required_rule_ids := ["network.unusual_east_west"; "network.repetitive_beacon"];
     cr_entity_key := "ip"; cr_window_seconds := 3600;
     cr_mitre_techniques := ["T1021"; "T1071"]; cr_min_findings := 2 |}].

(** [len({item.rule_id for item in fs})] *)
Definition distinct_rules (fs : list Finding) : nat := length (remove_dups (fi_rule_id <$> fs)).
Definition group_key (entity_key : string) (item : Finding) : string :=
  ostr (oor (fattr entity_key item) (fattr "src_ip" item)).
(** [groups.setdefault(key, []).append(item)] for every matched finding. *)
Definition group_findings (entity_key : string) (matched : list Finding) : list (string * list Finding) :=
  foldl (λ groups item,
           let key := group_key entity_key item in
           dset key (default [] (dget key groups) ++ [item]) groups) [] matched.
Definition created_le (a b : Finding) : bool := dt_le (fi_created_at a) (fi_created_at b).

Section rules.
Context `{Oracle}.

Definition rule_story (rule : CorrelationRule) (stories : list Storyline) (eg : string * list Finding)
    : M draws (list Storyline) :=
  let '(entity, group) := eg in
  if (distinct_rules group <? length (cr_required_rule_ids rule))%nat then mret stories
  else if Z.of_nat (length group) <? cr_min_findings rule then mret stories
  else
    match group with
    | [] => raise (ValueError "max() iterable argument is empty")
    | first :: _ =>
        let latest := dt_max_list (fi_created_at first) (fi_created_at <$> tail group) in
        let earliest := dt_min_list (fi_created_at first) (fi_created_at <$> tail group) in
        if seconds (cr_window_seconds rule) <? dt_sub latest earliest then mret stories
        else
          i ← new_id_d "stl";
          mret (stories ++ [{|
            sl_storyline_id := i; sl_tenant_id := fi_tenant_id first; sl_title := cr_title rule;
            sl_entities := [(cr_entity_key rule, if nonempty entity then [entity] else [])];
            sl_stages := (λ item, finding_stage (fi_rule_id item) item) <$> sort_by created_le group;
            sl_confidence := fl_of_Z 75; sl_evidence_ids := group ≫= evidence_ids_of;
            sl_event_ids := group ≫= fi_event_ids; sl_mitre_techniques := cr_mitre_techniques rule;
            sl_start := earliest; sl_end := latest;
            sl_attributes := [("correlation_rule_id", cr_rule_id rule)] |}])
    end.
Definition apply_rule (findings : list Finding) (stories : list Storyline) (rule : CorrelationRule)
    : M draws (list Storyline) :=
  let matched := select (of_rules (cr_required_rule_ids rule)) findings in
  if (distinct_rules matched <? length (cr_required_rule_ids rule))%nat then mret stories
  else foldM (rule_story rule) stories (group_findings (cr_entity_key rule) matched).
Definition apply_correlation_rules (findings : list Finding) (rules : list CorrelationRule)
    : M draws (list Storyline) := foldM (apply_rule findings) [] rules.

(** ** All storylines *)

Definition story_key (s : Storyline) : string * list string := (sl_title s, sl_event_ids s).
(** A storyline is added unless one with its title and events is already there. *)
Definition add_story (storylines : list Storyline) (extra : Storyline) : list Storyline :=
  if bool_decide (story_key extra ∈ story_key <$> storylines) then storylines
  else storylines ++ [extra].
Definition correlate (events : list CanonicalEvent) (findings : list Finding)
    : M draws (list Storyline) :=
  if bool_decide (findings = []) then mret []
  else
    let by_id := events_by_id events in
    identity ← _identity_chain findings by_id;
    office ← _office_c2 findings;
    lateral ← _lateral_c2 findings;
    extras ← apply_correlation_rules findings DEFAULT_CORRELATION_RULES;
    mret (foldl add_story (identity ++ office ++ lateral) extras).
End rules.

Definition incident_fingerprint (s : Storyline) : string :=
  let entities := sort_by (λ a b, str_le a.1 b.1) (sl_entities s) in
  sl_title s +:+ "|"
  +:+ join "|" ((λ kv, kv.1 +:+ "=" +:+ join "," (sort_by str_le (select nonempty kv.2))) <$> entities).

(** ** The index of events by entity *)

Definition index_add (key : option string) (event_id : string) (keys : list (string * list string))
    : list (string * list string) :=
  match key with
  | Some k => dset k (default [] (dget k keys) ++ [event_id]) keys
  | None => keys
  end.
(** The key of an optional entity name: nothing when it is absent or empty. *)
Definition entity_key (prefix : string) (o : option string) : option string :=
  if otrue o then Some (prefix +:+ ":" +:+ ostr o) else None.
Definition event_keys (event : CanonicalEvent) : list (option string) := [
  entity_key "user" (user_name event);
  entity_key "host" (h ← e_host event; oor (h_id h) (h_name h));
  entity_key "ip" (e_src_ip event);
  entity_key "process" (process_name event);
  entity_key "domain" (e_domain event);
  entity_key "hash" (e_hash event);
  entity_key "session" (e_correlation_id event)].
Definition index_by_keys (events : list CanonicalEvent) : list (string * list string) :=
  foldl (λ keys event, foldl (λ keys k, index_add k (e_id event) keys) keys (event_keys event))
        [] events.

(** ** What a storyline may claim *)

(** A stage lies in the storyline's period, and shows either one of the cited findings or
    successful authentications among the events. *)
Definition stage_sound (events : list CanonicalEvent) (st : Storyline) (cited : list Finding)
    (g : StorylineStage) : Prop :=
  (∃ t, st_timestamp g = Some t ∧ instant (sl_start st) ≤ instant t ≤ instant (sl_end st))
  ∧ ((∃ f, f ∈ cited ∧ st_rule_ids g ⊆ [fi_rule_id f] ∧ st_event_ids g = fi_event_ids f)
     ∨ (st_rule_ids g = []
        ∧ ∀ i, i ∈ st_event_ids g → ∃ x, x ∈ events ∧ e_id x = i
            ∧ e_category x = "authentication" ∧ e_outcome x = Some Success)).
Record story_sound (events : list CanonicalEvent) (findings : list Finding) (st : Storyline)
    (cited : list Finding) : Prop := {
  ss_cited : cited ⊆ findings;
  ss_tenant : ∃ f, head cited = Some f ∧ sl_tenant_id st = fi_tenant_id f;
  ss_events : sl_event_ids st = cited ≫= fi_event_ids;
  ss_evidence : sl_evidence_ids st = cited ≫= evidence_ids_of;
  ss_stages : Forall (stage_sound events st cited) (sl_stages st);
  ss_confidence : ∃ c, c ∈ [75; 78; 80; 85] ∧ sl_confidence st = fl_of_Z c;
}.
Definition sound_story (events : list CanonicalEvent) (findings : list Finding) (st : Storyline) : Prop :=
  ∃ cited, story_sound events findings st cited.

Section correlation_facts.
Context `{o : Oracle} {laws : OracleLaws o}.

(** [made]: the storylines of a computation that started with [d] and is now at [d'] are
    sound and carry distinct identifiers drawn in between. *)
Definition stl (n : nat) : string := "stl_" +:+ uuid_hex n.
Definition drawn (d d' : draws) (st : Storyline) : Prop :=
  ∃ n, (n_uuid d ≤ n < n_uuid d')%nat ∧ sl_storyline_id st = stl n.
Record made (events : list CanonicalEvent) (findings : list Finding) (d : draws)
    (stories : list Storyline) (d' : draws) : Prop := {
  md_le : (n_uuid d ≤ n_uuid d')%nat;
  md_clock : n_clock d' = n_clock d;
  md_sound : ∀ st, st ∈ stories → sound_story events findings st;
  md_drawn : ∀ st, st ∈ stories → drawn d d' st;
  md_ids : NoDup (sl_storyline_id <$> stories);
}.

Lemma stl_inj n m : stl n = stl m → n = m.
Proof. unfold stl. simpl. intros [= Hs]. by apply uuid_hex_inj. Qed.

Lemma made_nil events findings d : made events findings d [] d.
Proof. split; [done | done | by intros ? ?%not_elem_of_nil.. | constructor]. Qed.
Lemma made_sublist events findings d l l' d' :
  l `sublist_of` l' → made events findings d l' d' → made events findings d l d'.
Proof.
  intros Hsub [Hle Hc Hs Hd Hi]. split; [done | done | | |].
  1, 2: intros st Hst; (apply Hs || apply Hd); by eapply elem_of_submseteq, sublist_submseteq.
  eapply sublist_NoDup; [done|]. by apply fmap_sublist.
Qed.
Lemma made_app events findings d l d1 l' d2 :
  made events findings d l d1 → made events findings d1 l' d2 → made events findings d (l ++ l') d2.
Proof.
  intros [H1 Hc1 Hs1 Hd1 Hi1] [H2 Hc2 Hs2 Hd2 Hi2]. split; [lia | congruence | | |].
  - intros st [Hst|Hst]%elem_of_app; auto.
  - intros st [Hst|Hst]%elem_of_app;
      [destruct (Hd1 st Hst) as (n & Hn & Hs) | destruct (Hd2 st Hst) as (n & Hn & Hs)];
      exists n; (split; [lia | done]).
  - rewrite fmap_app. apply NoDup_app. split_and!; [done| |done].
    intros i (a & -> & Ha)%list_elem_of_fmap (b & Hab & Hb)%list_elem_of_fmap.
    destruct (Hd1 a Ha) as (n & Hn & Hsn), (Hd2 b Hb) as (m & Hm & Hsm).
    rewrite Hsn, Hsm in Hab. apply stl_inj in Hab. lia.
Qed.
Lemma made_one events findings d st :
  sound_story events findings st → sl_storyline_id st = stl (n_uuid d) →
  made events findings d [st] (fresh_uuid d).
Proof.
  intros Hs Hi. split; simpl; [lia | done | | |apply NoDup_singleton].
  - by intros x ->%list_elem_of_singleton.
  - intros x ->%list_elem_of_singleton. exists (n_uuid d). simpl. split; [lia | done].
Qed.
Lemma add_story_sublist l l' : foldl add_story l l' `sublist_of` l ++ l'.
Proof.
  revert l. induction l' as [|x l' IH]; intros l; simpl; [by rewrite app_nil_r|].
  etrans; [apply IH|]. unfold add_story. case_bool_decide; [|by rewrite <-app_assoc].
  apply sublist_app; [done|]. by constructor.
Qed.

(** [_story] returns, and every stage lies between its start and its end. *)
Lemma story_made events findings cited tenant title stages tech evi evs ents c d :
  cited ⊆ findings → (∃ f, head cited = Some f ∧ tenant = fi_tenant_id f) →
  evs = cited ≫= fi_event_ids → evi = cited ≫= evidence_ids_of → c ∈ [75; 78; 80; 85] →
  stages ≠ [] → Forall (λ g, is_Some (st_timestamp g)) stages →
  Forall (λ g, (∃ f, f ∈ cited ∧ st_rule_ids g ⊆ [fi_rule_id f] ∧ st_event_ids g = fi_event_ids f)
     ∨ (st_rule_ids g = [] ∧ ∀ i, i ∈ st_event_ids g → ∃ x, x ∈ events ∧ e_id x = i
            ∧ e_category x = "authentication" ∧ e_outcome x = Some Success)) stages →
  ∃ st, _story tenant title stages tech evi evs ents c d = (Ok st, fresh_uuid d)
        ∧ made events findings d [st] (fresh_uuid d).
Proof.
  intros Hc Ht -> -> Hconf Hne Hts Hst. unfold _story.
  assert (∀ g t, g ∈ stages → st_timestamp g = Some t → t ∈ omap st_timestamp stages) as Hin.
  { intros g t Hg Hgt. apply list_elem_of_omap. eauto. }
  destruct (omap st_timestamp stages) as [|t ts] eqn:Ho.
  { destruct stages as [|g gs]; [done|]. apply Forall_cons in Hts as [[t Hg] _].
    destruct (not_elem_of_nil t). apply (Hin g); [by left | done]. }
  eexists. split; [reflexivity|]. apply made_one; [|reflexivity].
  exists cited. split; simpl; [done | done | done | done | | by eexists].
  apply Forall_forall. intros g Hg. split; simpl; [|by rewrite Forall_forall in Hst; apply Hst].
  rewrite Forall_forall in Hts. destruct (Hts g Hg) as [t' Ht']. exists t'. split; [done|].
  specialize (Hin g t' Hg Ht'). destruct (dt_min_list_le ts t), (dt_max_list_ge ts t).
  apply elem_of_cons in Hin as [->|Hin]; [lia|]. split; auto.
Qed.

(** A storyline added at the end of a loop's list. *)
Lemma made_snoc {A} events findings d out d1 st (k : Storyline → M draws A) (m : M draws Storyline) :
  made events findings d out d1 → m d1 = (Ok st, fresh_uuid d1) →
  made events findings d1 [st] (fresh_uuid d1) →
  (m ≫= k) d1 = k st (fresh_uuid d1) ∧ made events findings d (out ++ [st]) (fresh_uuid d1).
Proof. intros Ho Hm Hs. split; [by rewrite (M_bind_eval _ _ _ _ _ Hm) | by eapply made_app]. Qed.

Lemma events_by_id_elem events x : x ∈ (events_by_id events).*2 → x ∈ events.
Proof.
  intros ((k & y) & -> & Hy)%list_elem_of_fmap. simpl. revert Hy. unfold events_by_id.
  assert (∀ l (d : list (string * CanonicalEvent)),
    (k, y) ∈ foldl (λ d event, dset (e_id event) event d) d l → (k, y) ∈ d ∨ y ∈ l) as Hgen.
  { induction l as [|e l IH]; intros dd; simpl; [by left|].
    intros [Hd|Hl]%IH; [|by right; right].
    apply elem_of_dset in Hd as [[_ ->]|Hd]; [right; by left | by left]. }
  intros [Hn|?]%Hgen; [by apply not_elem_of_nil in Hn | done].
Qed.
Lemma success_after_auth spray x :
  success_after spray x = true → e_category x = "authentication" ∧ e_outcome x = Some Success.
Proof. unfold success_after. intros Hs. by py_bool. Qed.

Lemma select_sub {A} (p : A → bool) l x : x ∈ select p l → x ∈ l.
Proof. rewrite elem_of_select. by intros []. Qed.

Ltac own_stage f := left; exists f; split_and!; [set_solver | first [done | by intros ? ?%not_elem_of_nil] | done].

Lemma identity_chain_made events findings d :
  ∃ l d', _identity_chain findings (events_by_id events) d = (Ok l, d')
          ∧ made events findings d l d'.
Proof.
  unfold _identity_chain. apply foldM_total; [|apply made_nil].
  intros out spray d1 Hsp%select_sub Hout. unfold spray_chain.
  set (later := select (success_after spray) _).
  set (grant := find_first _ _). case_match; [by eexists _, _|].
  assert (∀ x, x ∈ later → x ∈ events ∧ e_category x = "authentication" ∧ e_outcome x = Some Success) as Hl.
  { intros x [Hx%events_by_id_elem Hs]%elem_of_select. split; [done | by eapply success_after_auth]. }
  assert (∀ g, grant = Some g → g ∈ findings) as Hg.
  { intros g Hg. by apply find_first_Some in Hg as [Hg%select_sub _]. }
  edestruct (story_made events findings (spray :: option_list grant)) as (st & Hst & Hmade);
    [..|destruct (made_snoc _ _ _ _ _ _ (λ s, mret (out ++ [s])) _ Hout Hst Hmade) as [He Hm];
        rewrite He; by eexists _, _].
  - intros x [->|Hx]%elem_of_cons; [done|]. destruct grant; set_solver.
  - by eexists.
  - destruct grant; simpl; by rewrite ?app_nil_r.
  - destruct grant; simpl; by rewrite ?app_nil_r.
  - set_solver.
  - done.
  - destruct later, grant; repeat constructor; by eexists.
  - apply Forall_app. split; [apply Forall_singleton; own_stage spray|]. apply Forall_app. split.
    + destruct later as [|x xs]; [constructor|]. apply Forall_singleton. right. split; [done|].
      cbn [st_event_ids stage]. intros i (y & -> & Hy)%list_elem_of_fmap. exists y.
      destruct (Hl y Hy) as (? & ? & ?). by split_and!.
    + destruct grant as [g|]; [|constructor]. apply Forall_singleton. own_stage g.
Qed.

Lemma office_c2_made events findings d :
  ∃ l d', _office_c2 findings d = (Ok l, d') ∧ made events findings d l d'.
Proof.
  unfold _office_c2. case_match; [eexists _, _; split; [done | apply made_nil]|].
  apply foldM_total; [|apply made_nil]. intros out spawn d1 Hsp%select_sub Hout. unfold office_chain.
  destruct (find_first _ _) as [item|] eqn:Hf; [|by eexists _, _].
  apply find_first_Some in Hf as [Hi%select_sub _].
  edestruct (story_made events findings [spawn; item]) as (st & Hst & Hmade);
    [..|destruct (made_snoc _ _ _ _ _ _ (λ s, mret (out ++ [s])) _ Hout Hst Hmade) as [He Hm];
        rewrite He; by eexists _, _].
  - set_solver.
  - by eexists.
  - simpl. by rewrite app_nil_r.
  - simpl. by rewrite app_nil_r.
  - set_solver.
  - done.
  - repeat constructor; by eexists.
  - repeat (apply Forall_cons_2; [|]); [own_stage spawn | own_stage spawn | own_stage item | done].
Qed.

Lemma lateral_c2_made events findings d :
  ∃ l d', _lateral_c2 findings d = (Ok l, d') ∧ made events findings d l d'.
Proof.
  unfold _lateral_c2.
  destruct (select (of_rule _) findings) as [|spawn east] eqn:He;
    [eexists _, _; split; [done | apply made_nil]|].
  destruct (select (of_rules _) findings) as [|beacon beacons] eqn:Hb;
    [eexists _, _; split; [done | apply made_nil]|].
  assert (spawn ∈ findings) as Hs by (eapply select_sub; rewrite He; by left).
  assert (beacon ∈ findings) as Hbe by (eapply select_sub; rewrite Hb; by left).
  edestruct (story_made events findings [spawn; beacon]) as (st & Hst & Hmade);
    [..|rewrite (M_bind_eval _ _ _ _ _ Hst); by eexists _, _].
  - set_solver.
  - by eexists.
  - simpl. by rewrite app_nil_r.
  - simpl. by rewrite app_nil_r.
  - set_solver.
  - done.
  - repeat constructor; by eexists.
  - repeat (apply Forall_cons_2; [|]);
    [own_stage spawn | own_stage spawn | own_stage spawn | own_stage beacon | done].
Qed.

(** *** Declarative rules *)

(** The findings a rule groups for one entity. *)
Definition entity_group (rule : CorrelationRule) (findings : list Finding) (entity : string) : list Finding :=
  select (λ f, of_rules (cr_required_rule_ids rule) f
               && (group_key (cr_entity_key rule) f =? entity)%string) findings.
(** What such a group needs: a finding of every required rule, enough findings, and all of
    them inside the window. *)
Definition due (rule : CorrelationRule) (group : list Finding) : Prop :=
  (∀ r, r ∈ cr_required_rule_ids rule → ∃ f, f ∈ group ∧ fi_rule_id f = r)
  ∧ cr_min_findings rule ≤ Z.of_nat (length group)
  ∧ (∀ a b, a ∈ group → b ∈ group →
       dt_sub (fi_created_at a) (fi_created_at b) ≤ seconds (cr_window_seconds rule)).
(** The storyline of a group. *)
Definition tells (rule : CorrelationRule) (entity : string) (group : list Finding) (st : Storyline) : Prop :=
  sl_title st = cr_title rule
  ∧ sl_entities st = [(cr_entity_key rule, if nonempty entity then [entity] else [])]
  ∧ sl_event_ids st = group ≫= fi_event_ids ∧ sl_evidence_ids st = group ≫= evidence_ids_of
  ∧ sl_mitre_techniques st = cr_mitre_techniques rule.
Definition span (group : list Finding) : Z :=
  match fi_created_at <$> group with
  | [] => 0
  | t :: ts => dt_sub (dt_max_list t ts) (dt_min_list t ts)
  end.
Definition fires (rule : CorrelationRule) (group : list Finding) : bool :=
  (length (cr_required_rule_ids rule) <=? distinct_rules group)%nat
  && (cr_min_findings rule <=? Z.of_nat (length group))
  && (span group <=? seconds (cr_window_seconds rule)).

Lemma rule_story_spec events findings rule stories entity group d :
  group ≠ [] → group ⊆ findings →
  if fires rule group
  then ∃ st, rule_story rule stories (entity, group) d = (Ok (stories ++ [st]), fresh_uuid d)
             ∧ tells rule entity group st ∧ made events findings d [st] (fresh_uuid d)
  else rule_story rule stories (entity, group) d = (Ok stories, d).
Proof.
  intros Hne Hsub. unfold rule_story, fires. rewrite Nat.ltb_antisym, Z.ltb_antisym.
  destruct (_ <=? distinct_rules group)%nat; [simpl|done].
  destruct (cr_min_findings rule <=? _); [simpl|done].
  destruct group as [|f rest]; [done|]. cbn [span fmap list_fmap tail].
  rewrite Z.ltb_antisym. destruct (_ <=? seconds _) eqn:Hw; simpl; [|done].
  eexists. split; [reflexivity|]. split; [by split_and!|]. apply made_one; [|reflexivity].
  exists (f :: rest). split; cbn [sl_tenant_id sl_event_ids sl_evidence_ids sl_stages sl_confidence];
    [done | by eexists | done | done | | by exists 75; split; [left|]].
  apply Forall_forall. intros g (x & -> & Hx)%list_elem_of_fmap. apply (elem_of_sort_by created_le x (f :: rest)) in Hx.
  split; [|left; exists x; by split_and!]. exists (fi_created_at x). split; [done|].
  cbn [sl_start sl_end]. destruct (dt_min_list_le (fi_created_at <$> rest) (fi_created_at f)) as [H1 H2],
    (dt_max_list_ge (fi_created_at <$> rest) (fi_created_at f)) as [H3 H4].
  apply elem_of_cons in Hx as [->|Hx]; [lia|].
  apply (list_elem_of_fmap_2 fi_created_at) in Hx. split; auto.
Qed.

Lemma rule_fold events findings rule egs stories d :
  Forall (λ eg, eg.2 ≠ [] ∧ eg.2 ⊆ findings) egs →
  ∃ new d', foldM (rule_story rule) stories egs d = (Ok (stories ++ new), d')
    ∧ Forall2 (λ eg st, tells rule eg.1 eg.2 st) (select (λ eg, fires rule eg.2) egs) new
    ∧ made events findings d new d'.
Proof.
  revert stories d. induction egs as [|(entity & group) egs IH]; intros stories d Hall.
  { exists [], d. rewrite app_nil_r. split_and!; [done | constructor | apply made_nil]. }
  apply Forall_cons in Hall as [[Hne Hsub] Hall]. simpl in Hne, Hsub.
  pose proof (rule_story_spec events findings rule stories entity group d Hne Hsub) as Hs.
  unfold select in *. rewrite filter_cons. simpl. destruct (fires rule group).
  - destruct Hs as (st & He & Ht & Hm). rewrite (M_bind_eval _ _ _ _ _ He).
    destruct (IH (stories ++ [st]) (fresh_uuid d) Hall) as (new & d' & -> & Hf & Hm').
    exists (st :: new), d'. rewrite <-app_assoc, decide_True by done.
    split_and!; [done | by constructor | by apply (made_app _ _ _ [st] _ new _ Hm)].
  - rewrite (M_bind_eval _ _ _ _ _ Hs), decide_False by done. by apply IH.
Qed.

(** The groups are the findings of each key, in order, under distinct keys. *)
Lemma group_findings_spec ek matched :
  NoDup (dkeys (group_findings ek matched))
  ∧ ∀ k, dget k (group_findings ek matched)
         = match select (λ f, group_key ek f =? k)%string matched with [] => None | l => Some l end.
Proof.
  induction matched as [|x l [IHn IHd]] using rev_ind; [split; [constructor | done]|].
  unfold group_findings in *. rewrite foldl_app. simpl. split; [by apply NoDup_dset|].
  intros k. rewrite dget_dset, select_app. case_decide as Hk.
  - subst k. rewrite IHd. unfold select at 3. rewrite filter_cons, decide_True by apply String.eqb_refl.
    by destruct (select _ l).
  - unfold select at 2. rewrite filter_cons, decide_False, app_nil_r, IHd; [done|].
    intros He%String.eqb_eq. congruence.
Qed.
Lemma elem_of_group_findings ek matched k g :
  (k, g) ∈ group_findings ek matched ↔ g = select (λ f, group_key ek f =? k)%string matched ∧ g ≠ [].
Proof.
  destruct (group_findings_spec ek matched) as [Hn Hd]. split.
  - intros Hin%elem_of_dget; [|done]. rewrite Hd in Hin. destruct (select _ _); naive_solver.
  - intros [-> Hne]. apply dget_elem_of. rewrite Hd. by destruct (select _ _).
Qed.

Lemma distinct_rules_covers required group :
  NoDup required → (∀ f, f ∈ group → fi_rule_id f ∈ required) →
  (length required ≤ distinct_rules group)%nat ↔ (∀ r, r ∈ required → ∃ f, f ∈ group ∧ fi_rule_id f = r).
Proof.
  intros Hnd Hin. unfold distinct_rules. set (ids := remove_dups (fi_rule_id <$> group)).
  assert (∀ r, r ∈ ids ↔ ∃ f, f ∈ group ∧ fi_rule_id f = r) as Hids.
  { intros r. unfold ids. rewrite elem_of_remove_dups, list_elem_of_fmap. naive_solver. }
  assert (NoDup ids) as Hni by apply NoDup_remove_dups. split.
  - intros Hlen r Hr. apply Hids. assert (ids ⊆+ required) as Hsub.
    { apply NoDup_submseteq; [done|]. intros x (f & Hf & <-)%Hids. by apply Hin. }
    pose proof (submseteq_length_Permutation _ _ Hsub Hlen) as Hp. by rewrite Hp.
  - intros Hall. apply submseteq_length, NoDup_submseteq; [done|]. intros r Hr. by apply Hids, Hall.
Qed.
Lemma span_le group w :
  group ≠ [] →
  span group ≤ w ↔ (∀ a b, a ∈ group → b ∈ group → dt_sub (fi_created_at a) (fi_created_at b) ≤ w).
Proof.
  intros Hne. destruct group as [|f rest]; [done|]. cbn [span fmap list_fmap]. unfold dt_sub.
  set (ts := fi_created_at <$> rest). set (t := fi_created_at f).
  assert (∀ x, x ∈ f :: rest → instant (dt_min_list t ts) ≤ instant (fi_created_at x)
                               ≤ instant (dt_max_list t ts)) as Hb.
  { destruct (dt_min_list_le ts t) as [H1 H2], (dt_max_list_ge ts t) as [H3 H4].
    intros x [->|Hx]%elem_of_cons; [unfold t in *; lia|].
    apply (list_elem_of_fmap_2 fi_created_at) in Hx. split; auto. }
  split.
  - intros Hs a b Ha%Hb Hbb%Hb. lia.
  - intros Hall. 
    destruct (list_elem_of_fmap_1 fi_created_at (f :: rest) _ (dt_max_list_elem ts t)) as (a & -> & Ha).
    destruct (list_elem_of_fmap_1 fi_created_at (f :: rest) _ (dt_min_list_elem ts t)) as (b & -> & Hbb).
    by apply Hall.
Qed.
Lemma fires_due rule group :
  NoDup (cr_required_rule_ids rule) → group ≠ [] →
  (∀ f, f ∈ group → fi_rule_id f ∈ cr_required_rule_ids rule) → fires rule group = true ↔ due rule group.
Proof.
  intros Hnd Hne Hin. unfold fires, due.
  rewrite !andb_true_iff, Nat.leb_le, !Z.leb_le, span_le, distinct_rules_covers by done. tauto.
Qed.
Lemma entity_group_rule rule findings entity f :
  f ∈ entity_group rule findings entity → f ∈ findings ∧ fi_rule_id f ∈ cr_required_rule_ids rule.
Proof.
  unfold entity_group. rewrite elem_of_select, andb_true_iff. intros (? & Hr & _).
  split; [done | by apply mem_spec].
Qed.

Lemma apply_rule_made events findings stories rule d :
  ∃ new d', apply_rule findings stories rule d = (Ok (stories ++ new), d')
    ∧ made events findings d new d'
    ∧ (NoDup (cr_required_rule_ids rule) → 
       (∀ st, st ∈ new → ∃ entity group,
          group = entity_group rule findings entity ∧ due rule group ∧ tells rule entity group st)
       ∧ (∀ entity group, group = entity_group rule findings entity → group ≠ [] → due rule group →
            ∃ st, st ∈ new ∧ tells rule entity group st)).
Proof.
  unfold apply_rule. set (matched := select _ findings).
  assert (∀ entity group, (entity, group) ∈ group_findings (cr_entity_key rule) matched ↔
    group = entity_group rule findings entity ∧ group ≠ []) as Hg.
  { intros. rewrite elem_of_group_findings. unfold entity_group, matched. by rewrite select_select. }
  case_match eqn:Hcut.
  { exists [], d. rewrite app_nil_r. split_and!; [done | apply made_nil|]. intros Hnd.
    split; [by intros ? ?%not_elem_of_nil|]. intros entity group -> Hne [Hdue _]. exfalso.
    apply Nat.ltb_lt in Hcut. apply Nat.lt_nge in Hcut. apply Hcut, distinct_rules_covers; [done | |].
    - intros f [_ Hf]%elem_of_select. by apply mem_spec.
    - intros r (f & Hf & <-)%Hdue. exists f. split; [|done].
      apply entity_group_rule in Hf as [Hf Hr]. apply elem_of_select. split; [done | by apply mem_spec]. }
  destruct (rule_fold events findings rule (group_findings (cr_entity_key rule) matched) stories d)
    as (new & d' & He & Hf & Hm).
  { apply Forall_forall. intros (entity & group) [-> Hne]%Hg. split; [done|]. simpl.
    by intros f [Hf _]%entity_group_rule. }
  exists new, d'. split_and!; [done | done|]. intros Hnd.
  assert (∀ entity group, (entity, group) ∈ select (λ eg, fires rule eg.2) (group_findings (cr_entity_key rule) matched)
    ↔ group = entity_group rule findings entity ∧ group ≠ [] ∧ due rule group) as Hsel.
  { intros entity group. rewrite elem_of_select, Hg. simpl. split.
    - intros ([-> Hne] & Hfi). split_and!; [done | done|]. apply fires_due in Hfi; try done.
      by intros f [_ Hf']%entity_group_rule.
    - intros (-> & Hne & Hdue). split; [done|]. apply fires_due; try done.
      by intros f [_ Hf']%entity_group_rule. }
  split.
  - intros st Hst. apply list_elem_of_lookup in Hst as [i Hi].
    destruct (Forall2_lookup_r _ _ _ _ _ Hf Hi) as ((entity & group) & Hl & Ht).
    apply list_elem_of_lookup_2 in Hl. apply Hsel in Hl as (-> & Hne & Hdue). by eexists entity, _.
  - intros entity group Hgr Hne Hdue. assert ((entity, group) ∈ select (λ eg, fires rule eg.2)
      (group_findings (cr_entity_key rule) matched)) as Hin by (by apply Hsel).
    apply list_elem_of_lookup in Hin as [i Hi].
    destruct (Forall2_lookup_l _ _ _ _ _ Hf Hi) as (st & Hl & Ht).
    exists st. split; [by eapply list_elem_of_lookup_2 | done].
Qed.

Lemma apply_rules_made events findings rules stories d :
  ∃ new d', foldM (apply_rule findings) stories rules d = (Ok (stories ++ new), d')
    ∧ made events findings d new d'
    ∧ (Forall (λ rule, NoDup (cr_required_rule_ids rule)) rules →
       (∀ st, st ∈ new → ∃ rule entity group,
          rule ∈ rules ∧ group = entity_group rule findings entity ∧ due rule group
          ∧ tells rule entity group st)
       ∧ (∀ rule entity group, rule ∈ rules → group = entity_group rule findings entity →
            group ≠ [] → due rule group → ∃ st, st ∈ new ∧ tells rule entity group st)).
Proof.
  revert stories d. induction rules as [|rule rules IH]; intros stories d; simpl.
  { exists [], d. rewrite app_nil_r. split_and!; [done | apply made_nil|]. intros _.
    split; [by intros ? ?%not_elem_of_nil | by intros ??? ?%not_elem_of_nil]. }
  destruct (apply_rule_made events findings stories rule d) as (new1 & d1 & He1 & Hm1 & Hf1).
  rewrite (M_bind_eval _ _ _ _ _ He1).
  destruct (IH (stories ++ new1) d1) as (new2 & d2 & He2 & Hm2 & Hf2).
  exists (new1 ++ new2), d2. rewrite app_assoc. split_and!; [done | by eapply made_app|].
  intros [Hnd Hall]%Forall_cons. destruct (Hf1 Hnd) as [Ha1 Hb1], (Hf2 Hall) as [Ha2 Hb2]. split.
  - intros st [Hst|Hst]%elem_of_app.
    + destruct (Ha1 st Hst) as (entity & group & ? & ? & ?). exists rule, entity, group.
      by split_and!; [left|..].
    + destruct (Ha2 st Hst) as (r & entity & group & ? & ? & ? & ?). exists r, entity, group.
      by split_and!; [right|..].
  - intros r entity group [->|Hr]%elem_of_cons Hg Hne Hdue.
    + destruct (Hb1 entity group Hg Hne Hdue) as (st & Hst & Ht). exists st.
      split; [apply elem_of_app; by left | done].
    + destruct (Hb2 r entity group Hr Hg Hne Hdue) as (st & Hst & Ht). exists st.
      split; [apply elem_of_app; by right | done].
Qed.

Lemma correlate_made events findings d :
  ∃ stories d', correlate events findings d = (Ok stories, d') ∧ made events findings d stories d'.
Proof.
  unfold correlate. case_match; [by eexists _, _; split; [|apply made_nil]|].
  destruct (identity_chain_made events findings d) as (l1 & d1 & He1 & Hm1).
  destruct (office_c2_made events findings d1) as (l2 & d2 & He2 & Hm2).
  destruct (lateral_c2_made events findings d2) as (l3 & d3 & He3 & Hm3).
  destruct (apply_rules_made events findings DEFAULT_CORRELATION_RULES [] d3) as (l4 & d4 & He4 & Hm4 & _).
  rewrite (M_bind_eval _ _ _ _ _ He1), (M_bind_eval _ _ _ _ _ He2), (M_bind_eval _ _ _ _ _ He3).
  unfold apply_correlation_rules. rewrite (M_bind_eval _ _ _ _ _ He4).
  eexists _, _. split; [reflexivity|]. eapply made_sublist; [apply add_story_sublist|].
  simpl. eapply made_app; [|exact Hm4]. eapply made_app; [exact Hm1|]. by eapply made_app.
Qed.

(** C17. Correlation always returns, whatever the events and the findings, and claims
    nothing without evidence: each storyline cites findings it was given, starting with
    one of its own tenant; its events and its evidence are exactly those of the cited
    findings, every stage lies between its start and its end and shows either one cited
    finding or successful authentications that occurred; and no two storylines share an
    identifier. *)
Theorem correlate_sound events findings d :
  ∃ stories d', correlate events findings d = (Ok stories, d')
    ∧ Forall (sound_story events findings) stories ∧ NoDup (sl_storyline_id <$> stories).
Proof.
  destruct (correlate_made events findings d) as (stories & d' & He & Hm).
  exists stories, d'. destruct Hm. split_and!; [done | by apply Forall_forall | done].
Qed.

Lemma tells_inj rule rule' entity entity' group group' st :
  tells rule entity group st → tells rule' entity' group' st → cr_entity_key rule = cr_entity_key rule' →
  entity = entity'.
Proof.
  intros (_ & H1 & _) (_ & H2 & _) _. rewrite H1 in H2. revert H2. unfold nonempty.
  destruct (String.eqb_spec entity ""), (String.eqb_spec entity' ""); simpl; congruence.
Qed.

(** C27. The declarative rules tell exactly the storylines they describe: for rules with
    distinct titles, a rule tells a storyline about an entity iff, among the findings of
    its required rules about that entity, every required rule occurs, there are enough of
    them and all of them lie within the window; the storyline then cites all of them. *)
Theorem correlation_rules_fire_iff findings rules d :
  NoDup (cr_title <$> rules) → Forall (λ rule, NoDup (cr_required_rule_ids rule)) rules →
  ∃ stories d', apply_correlation_rules findings rules d = (Ok stories, d')
    ∧ ∀ rule entity, rule ∈ rules → entity_group rule findings entity ≠ [] →
        due rule (entity_group rule findings entity)
        ↔ ∃ st, st ∈ stories ∧ tells rule entity (entity_group rule findings entity) st.
Proof.
  intros Htitle Hnd. unfold apply_correlation_rules.
  destruct (apply_rules_made [] findings rules [] d) as (new & d' & He & _ & Hf).
  exists new, d'. split; [done|]. destruct (Hf Hnd) as [Ha Hb]. intros rule entity Hr Hne. split.
  - intros Hdue. by apply Hb.
  - intros (st & Hst & Ht). destruct (Ha st Hst) as (rule' & entity' & group' & Hr' & -> & Hdue & Ht').
    assert (rule' = rule) as ->.
    { eapply (NoDup_fmap_eq cr_title); [done..|]. destruct Ht as [Ht _], Ht' as [Ht' _]. congruence. }
    by rewrite (tells_inj _ _ _ _ _ _ _ Ht Ht' eq_refl).
Qed.

(** One old finding hides a correlation for good: when the findings of an entity
    satisfy a rule, adding a single finding of one of the required rules about the same
    entity that is older than the window makes the rule silent about the entity, because
    the window is measured over all findings ever stored and not over those that
    correlate. *)
Theorem old_finding_hides_correlation rule findings entity old recent d :
  NoDup (cr_required_rule_ids rule) → due rule (entity_group rule findings entity) →
  recent ∈ entity_group rule findings entity →
  fi_rule_id old ∈ cr_required_rule_ids rule → group_key (cr_entity_key rule) old = entity →
  seconds (cr_window_seconds rule) < dt_sub (fi_created_at recent) (fi_created_at old) →
  (∃ st stories d', apply_correlation_rules findings [rule] d = (Ok stories, d')
     ∧ st ∈ stories ∧ tells rule entity (entity_group rule findings entity) st)
  ∧ ∃ stories d', apply_correlation_rules (findings ++ [old]) [rule] d = (Ok stories, d')
     ∧ ∀ st group, st ∈ stories → ¬ tells rule entity group st.
Proof.
  intros Hnd Hdue Hrec Hold Hkey Hw. unfold apply_correlation_rules. split.
  - destruct (apply_rules_made [] findings [rule] [] d) as (new & d' & He & _ & Hf).
    destruct Hf as [_ Hb]; [by apply Forall_singleton|].
    destruct (Hb rule entity _ (list_elem_of_here _ _) eq_refl) as (st & Hst & Ht);
      [intros Hn; rewrite Hn in Hrec; by apply not_elem_of_nil in Hrec | done|].
    by exists st, new, d'.
  - destruct (apply_rules_made [] (findings ++ [old]) [rule] [] d) as (new & d' & He & _ & Hf).
    destruct Hf as [Ha _]; [by apply Forall_singleton|]. exists new, d'. split; [done|].
    intros st group Hst Ht. destruct (Ha st Hst) as (r & entity' & g & Hr & -> & (_ & _ & Hspan) & Ht').
    apply list_elem_of_singleton in Hr as ->. assert (entity' = entity) as -> by by eapply tells_inj.
    specialize (Hspan recent old). unfold entity_group in Hspan. rewrite select_app in Hspan.
    assert (of_rules (cr_required_rule_ids rule) old && (group_key (cr_entity_key rule) old =? entity)%string
            = true) as Hp by (apply andb_true_iff; split; [by apply mem_spec | by apply String.eqb_eq]).
    enough (dt_sub (fi_created_at recent) (fi_created_at old) ≤ seconds (cr_window_seconds rule)) by lia.
    apply Hspan; apply elem_of_app; [by left|]. right. apply elem_of_select. split; [by left | done].
Qed.

(** A storyline "Password spray to privilege" with technique T1098 needs no grant: a
    spray and a brute-force finding, of whatever users, sources and times, are enough, and
    the storyline then has the spray as its only stage. *)
Theorem spray_story_without_grant spray brute d :
  fi_rule_id spray = "identity.password_spray" → fi_rule_id brute = "identity.brute_force" →
  ∃ st d', correlate [] [spray; brute] d = (Ok [st], d')
    ∧ sl_title st = "Password spray to privilege" ∧ "T1098" ∈ sl_mitre_techniques st
    ∧ sl_stages st = [finding_stage "password_spray" spray] ∧ sl_event_ids st = fi_event_ids spray.
Proof.
  intros Hs Hb. destruct spray, brute. simpl in Hs, Hb. subst.
  eexists _, _. split; [vm_compute; reflexivity|].
  split_and!; [reflexivity | right; left | reflexivity | apply app_nil_r].
Qed.
End correlation_facts.

(** ** A concrete spray and grant *)

#[local] Instance demo_oracle : Oracle :=
  {| uuid_hex := λ n, str_of_nat n; clock := λ n, utc 20000 (Z.of_nat n) |}.
#[local] Instance demo_laws : OracleLaws demo_oracle.
Proof. constructor. intros a b Hab. apply str_of_Z_inj in Hab. lia. Defined.

(** A finding of a rule about a user, at a second of a day, on one event. *)
Definition demo_finding (rule_id event_id user : string) (at_ : Z) : Finding := {|
  fi_id := "fnd_" +:+ event_id; fi_tenant_id := "ten_a"; fi_rule_id := rule_id;
  fi_rule_version := "1.0.0"; fi_title := rule_id; fi_description := ""; fi_severity := High;
  fi_confidence := fl_of_Z 80; fi_fingerprint := rule_id +:+ ":" +:+ event_id;
  fi_mitre_tactics := []; fi_mitre_techniques := []; fi_event_ids := [event_id];
  fi_evidence := [{| fe_evidence_id := "evi_pending_" +:+ event_id; fe_event_id := Some event_id;
                     fe_role := Trigger |}];
  fi_explanation := ""; fi_created_at := utc 20000 at_;
  fi_attributes := [("src_ip", "203.0.113.7"); ("user", user)] |}.
Definition demo_spray : Finding := demo_finding "identity.password_spray" "evt_1" "alice" 50000.
Definition demo_grant : Finding := demo_finding "identity.privilege_grant" "evt_2" "alice" 50600.
Definition demo_old : Finding := demo_finding "identity.password_spray" "evt_0" "alice" 1000.
Definition demo_brute : Finding := demo_finding "identity.brute_force" "evt_3" "bob" 70000.
Definition told (findings : list Finding) : list string :=
  match fst (correlate [] findings (MkDraws 0 0)) with
  | Ok l => incident_fingerprint <$> l | Raise _ => ["raised"] end.
Example spray_and_grant_told : told [demo_spray; demo_grant] =
  ["Password spray to privilege|ip=203.0.113.7|user=alice";
   "Password spray correlated with privilege grant|user=alice"].
Proof. vm_compute. reflexivity. Qed.

Lemma correlate_sound_witness :
  ∃ stories d', correlate [] [demo_spray; demo_grant] (MkDraws 0 0) = (Ok stories, d')
    ∧ Forall (sound_story [] [demo_spray; demo_grant]) stories ∧ NoDup (sl_storyline_id <$> stories).
Proof. apply correlate_sound. Defined.

Definition spray_then_grant : CorrelationRule := {|
  cr_rule_id := "corr.identity.spray_then_grant";
  cr_title := "Password spray correlated with privilege grant";
  cr_required_rule_ids := ["identity.password_spray"; "identity.privilege_grant"];
  cr_entity_key := "user"; cr_window_seconds := 7200;
  cr_mitre_techniques := ["T1110.003"; "T1098"]; cr_min_findings := 2 |}.
Lemma demo_due : due spray_then_grant (entity_group spray_then_grant [demo_spray; demo_grant] "alice").
Proof.
  apply fires_due.
  - apply (bool_decide_unpack _). vm_compute. exact I.
  - vm_compute. discriminate.
  - by intros f [_ Hf]%entity_group_rule.
  - vm_compute. reflexivity.
Qed.
Lemma correlation_rules_fire_iff_witness :
  ∃ stories d', apply_correlation_rules [demo_spray; demo_grant] DEFAULT_CORRELATION_RULES (MkDraws 0 0)
                = (Ok stories, d')
    ∧ ∀ rule entity, rule ∈ DEFAULT_CORRELATION_RULES →
        entity_group rule [demo_spray; demo_grant] entity ≠ [] →
        due rule (entity_group rule [demo_spray; demo_grant] entity)
        ↔ ∃ st, st ∈ stories
              ∧ tells rule entity (entity_group rule [demo_spray; demo_grant] entity) st.
Proof.
  apply (correlation_rules_fire_iff [demo_spray; demo_grant] DEFAULT_CORRELATION_RULES (MkDraws 0 0)).
  - apply (bool_decide_unpack _). vm_compute. exact I.
  - apply (bool_decide_unpack _). vm_compute. exact I.
Defined.
Lemma old_finding_hides_correlation_witness :
  ∃ stories d', apply_correlation_rules [demo_spray; demo_grant; demo_old] [spray_then_grant] (MkDraws 0 0)
                = (Ok stories, d')
    ∧ ∀ st group, st ∈ stories → ¬ tells spray_then_grant "alice" group st.
Proof.
  refine (proj2 (old_finding_hides_correlation spray_then_grant [demo_spray; demo_grant] "alice"
    demo_old demo_grant (MkDraws 0 0) _ demo_due _ _ _ _)).
  - apply (bool_decide_unpack _). vm_compute. exact I.
  - vm_compute. right. left.
  - left.
  - reflexivity.
  - vm_compute. reflexivity.
Defined.
Lemma spray_story_without_grant_witness :
  ∃ st d', correlate [] [demo_spray; demo_brute] (MkDraws 0 0) = (Ok [st], d')
    ∧ sl_title st = "Password spray to privilege" ∧ "T1098" ∈ sl_mitre_techniques st
    ∧ sl_stages st = [finding_stage "password_spray" demo_spray]
    ∧ sl_event_ids st = fi_event_ids demo_spray.
Proof. apply (spray_story_without_grant demo_spray demo_brute); reflexivity. Defined.
