(* ===== verification/IdentityRules.v ===== *)
(** * Identity detections

    Models the nine rules of [detections/python/identity] and the scheduled sweep of
    [detections/python/scheduled/window_sweep.py]. *)
From S2P Require Export Detection.
Local Open Scope Z_scope.

Definition no_hit : result (option Hit) := Ok None.
Definition hit (related : list CanonicalEvent) (fingerprint explanation : string)
    : result (option Hit) :=
  Ok (Some {| hit_related := related; hit_fingerprint := fingerprint;
              hit_explanation := explanation |}).

Definition LOGIN_TYPES : list string := ["login"; "authentication"; "logon"].
Definition is_auth_failure (event : CanonicalEvent) : bool :=
  (e_category event =? "authentication")%string && mem (e_event_type event) LOGIN_TYPES
  && bool_decide (e_outcome event = Some Failure).
Definition is_auth_success (event : CanonicalEvent) : bool :=
  (e_category event =? "authentication")%string && mem (e_event_type event) LOGIN_TYPES
  && bool_decide (e_outcome event = Some Success).

(** [{item.user.name for item in related if item.user and item.user.name}] *)
Definition user_names (related : list CanonicalEvent) : list string :=
  remove_dups (omap (λ x, if has_user_name x then user_name x else None) related).
(** The name of the user, once the guard has checked there is one. *)
Definition the_user (event : CanonicalEvent) : string := ostr (user_name event).
(** [x.attributes.get(k)] *)
Definition attr (k : string) (event : CanonicalEvent) : pyval := dgetv k (e_attributes event).

Definition auth_failures : filters := {|
  q_event_type := None; q_category := Some "authentication"; q_outcome := Some Failure;
  q_src_ip := None; q_user_name := None; q_action := None |}.
Definition for_user (name : string) (q : filters) : filters := {|
  q_event_type := q_event_type q; q_category := q_category q; q_outcome := q_outcome q;
  q_src_ip := q_src_ip q; q_user_name := Some name; q_action := q_action q |}.
Definition from_ip (ip : option string) (q : filters) : filters := {|
  q_event_type := q_event_type q; q_category := q_category q; q_outcome := q_outcome q;
  q_src_ip := ip; q_user_name := q_user_name q; q_action := q_action q |}.
Definition with_outcome (o : option Outcome) (q : filters) : filters := {|
  q_event_type := q_event_type q; q_category := q_category q; q_outcome := o;
  q_src_ip := q_src_ip q; q_user_name := q_user_name q; q_action := q_action q |}.

(** The prefix of every fingerprint. *)
Definition fp (meta : RuleMeta) (event : CanonicalEvent) (rest : string) : string :=
  rm_rule_id meta +:+ ":" +:+ e_tenant_id event +:+ ":" +:+ rest.

(** ** Brute force *)

Definition brute_force_meta : RuleMeta :=
  rule_meta "identity.brute_force" "Authentication brute force"
    "Repeated authentication failures against one account inside a short window (T1110.001)."
    High 80 ["credential-access"] ["T1110.001"] ["authentication"; "identity"].
Definition user_failures (ctx : DetectionContext) (event : CanonicalEvent) (secs : Z) : list CanonicalEvent :=
  events_in_window ctx event secs (for_user (the_user event) auth_failures).
Definition brute_force_detect (event : CanonicalEvent) (ctx : DetectionContext) : result (option Hit) :=
  if negb (is_auth_failure event) || negb (has_user_name event) then no_hit
  else
    let related := user_failures ctx event 600 in
    if (length related <? 8)%nat then no_hit
    else if (2 <? length (user_names related))%nat then no_hit
    else hit related
      (fp brute_force_meta event
         (the_user event +:+ ":" +:+ isoformat (trunc_10min (e_timestamp event))))
      ("Account " +:+ the_user event +:+ " recorded " +:+ str_of_nat (length related)
       +:+ " failed authentications within 600s.").

(** ** Dormant account *)

Definition dormant_account_meta : RuleMeta :=
  rule_meta "identity.dormant_account" "Dormant account activity"
    "Successful login for an account marked dormant or long-idle in directory enrichment."
    Medium 72 ["persistence"; "initial-access"] ["T1078"] ["authentication"; "identity"].
Definition truthy_text (v : pyval) : bool := mem (lower (py_str v)) ["true"; "1"; "yes"].
(** [int(directory.get("last_login_days") or 0) >= 90], with the two exceptions the code
    catches; an infinite float raises a third one. *)
Definition long_idle (directory : pydict) : result bool :=
  match py_int (vor (dgetv "last_login_days" directory) (VInt 0)) with
  | Ok n => Ok (90 <=? n)
  | Raise (TypeError _) | Raise (ValueError _) => Ok false
  | Raise e => Raise e
  end.
Definition is_dormant (event : CanonicalEvent) : result bool :=
  let marked := truthy_text (dget_or "dormant" (VStr "") (e_attributes event)) in
  match vor (attr "directory" event) (VDict []) with
  | VDict directory =>
      if truthy_text (dget_or "dormant" (VStr "") directory) then Ok true
      else idle ← long_idle directory; mret (idle || marked)
  | _ => Ok marked
  end.
Definition dormant_account_detect (event : CanonicalEvent) (ctx : DetectionContext)
    : result (option Hit) :=
  if negb (is_auth_success event) || negb (has_user_name event) then no_hit
  else
    dormant ← is_dormant event;
    if negb dormant then no_hit
    else hit [event]
      (fp dormant_account_meta event (the_user event +:+ ":" +:+ date_iso (e_timestamp event)))
      ("Dormant/long-idle account " +:+ the_user event +:+ " authenticated successfully from "
       +:+ fmt (e_src_ip event) +:+ ".").

(** ** Impossible travel *)

Definition impossible_travel_meta : RuleMeta :=
  rule_meta "identity.impossible_travel" "Impossible travel abstraction"
    "Two successful authentications for one account from different GeoIP countries inside a short window. Uses fixture/enrichment country codes only — not live travel math."
    High 70 ["initial-access"] ["T1078"] ["authentication"; "identity"].
(** A list or a dict cannot be tested for membership in a set. *)
Definition country (event : CanonicalEvent) : result (option string) :=
  match vor (attr "geoip" event) (VDict []) with
  | VDict geo =>
      let c := dgetv "country" geo in
      if negb (vtrue c) then Ok None
      else match c with
           | VList _ | VDict _ => Raise (TypeError "unhashable type")
           | VStr s => Ok (if mem s ["unknown"; "private"] then None else Some s)
           | v => Ok (Some (py_str v))
           end
  | _ => Ok None
  end.
(** The first earlier login from another country. *)
Fixpoint other_country (current : string) (prior : list CanonicalEvent)
    : result (option (CanonicalEvent * string)) :=
  match prior with
  | [] => Ok None
  | item :: prior' =>
      o ← country item;
      match o with
      | Some other => if nonempty other && negb (other =? current)%string
                      then Ok (Some (item, other)) else other_country current prior'
      | None => other_country current prior'
      end
  end.
Definition impossible_travel_detect (event : CanonicalEvent) (ctx : DetectionContext)
    : result (option Hit) :=
  if negb (is_auth_success event) || negb (has_user_name event) then no_hit
  else
    c ← country event;
    if negb (otrue c) then no_hit
    else
      let current := ostr c in
      let prior := select (λ item, negb (e_id item =? e_id event)%string && is_auth_success item)
        (events_in_window ctx event 7200
           (for_user (the_user event) (with_outcome (Some Success) auth_failures))) in
      o ← other_country current prior;
      match o with
      | None => no_hit
      | Some (item, other) => hit [item; event]
          (fp impossible_travel_meta event
             (the_user event +:+ ":" +:+ other +:+ "->" +:+ current +:+ ":"
              +:+ date_iso (e_timestamp event)))
          ("Account " +:+ the_user event +:+ " authenticated from " +:+ other +:+ " then " +:+ current
           +:+ " within 7200s (GeoIP fixture abstraction).")
      end.

(** ** MFA fatigue *)

Definition mfa_fatigue_meta : RuleMeta :=
  rule_meta "identity.mfa_fatigue" "MFA fatigue"
    "Burst of MFA challenges or denials against one account (T1621 abstraction)."
    High 80 ["credential-access"] ["T1621"] ["authentication"; "identity"].
Definition MFA_ACTIONS : list string := ["mfa_challenge"; "mfa_deny"; "mfa_push"; "mfa_reject"].
Definition is_mfa (event : CanonicalEvent) : bool :=
  (e_category event =? "authentication")%string
  && (mem (lower (ostr (e_action event))) MFA_ACTIONS || mem (lower (e_event_type event)) MFA_ACTIONS
      || vtrue (attr "mfa" event)).
Definition mfa_fatigue_detect (event : CanonicalEvent) (ctx : DetectionContext) : result (option Hit) :=
  if negb (is_mfa event) || negb (has_user_name event) then no_hit
  else
    let related := select is_mfa
      (events_in_window ctx event 600 (for_user (the_user event) (with_outcome None auth_failures))) in
    if (length related <? 5)%nat then no_hit
    else hit related
      (fp mfa_fatigue_meta event
         (the_user event +:+ ":" +:+ isoformat (trunc_10min (e_timestamp event))))
      ("Account " +:+ the_user event +:+ " received " +:+ str_of_nat (length related)
       +:+ " MFA challenge/deny events within 600s.").

(** ** Password spray *)

Definition password_spray_meta : RuleMeta :=
  rule_meta "identity.password_spray" "Password spraying"
    "Many distinct usernames failing authentication from one source IP inside a short window. Classic password-spray pattern (T1110.003)."
    High 85 ["credential-access"] ["T1110.003"] ["authentication"; "identity"].
Definition password_spray_detect (event : CanonicalEvent) (ctx : DetectionContext)
    : result (option Hit) :=
  if negb (is_auth_failure event) || negb (otrue (e_src_ip event)) then no_hit
  else
    let related := events_in_window ctx event 600 (from_ip (e_src_ip event) auth_failures) in
    let users := user_names related in
    if (length users <? 5)%nat then no_hit
    else hit related
      (fp password_spray_meta event
         (fmt (e_src_ip event) +:+ ":" +:+ isoformat (trunc_minute (e_timestamp event))))
      (str_of_nat (length users) +:+ " distinct accounts failed authentication from "
       +:+ fmt (e_src_ip event) +:+ " within 600s. Accounts: "
       +:+ join ", " (sort_by String.leb users) +:+ ".").

(** ** Privilege grant *)

Definition privilege_grant_meta : RuleMeta :=
  rule_meta "identity.privilege_grant" "Privileged group or role grant"
    "A principal was added to an administrative group or granted a privileged role."
    High 90 ["privilege-escalation"; "persistence"] ["T1098"; "T1078"] ["identity"; "directory"].
Definition PRIVILEGED_MARKERS : list string := [
  "domain admins"; "enterprise admins"; "administrators"; "global admin";
  "privileged role administrator"; "organization management"; "sudo"; "root"].
Definition grant_target (event : CanonicalEvent) : string :=
  lower (py_str (vor (vor (attr "group" event) (attr "role" event)) (VStr ""))).
Definition privilege_grant_detect (event : CanonicalEvent) (ctx : DetectionContext)
    : result (option Hit) :=
  if negb (mem (e_category event) ["identity"; "directory"]) then no_hit
  else if negb (existsb (oeqb (e_action event)) ["add_to_group"; "grant_role"; "add_member"; "elevate"])
  then no_hit
  else
    let target := grant_target event in
    if negb (existsb (contains target) PRIVILEGED_MARKERS) then no_hit
    else
      let actor := if has_user_name event then the_user event else "unknown" in
      hit [event] (fp privilege_grant_meta event (e_id event))
        (actor +:+ " granted privileged membership '" +:+ target +:+ "' (action="
         +:+ fmt (e_action event) +:+ ", outcome="
         +:+ match e_outcome event with Some o => outcome_str o | None => "unknown" end +:+ ").").

(** ** Repeated failures *)

Definition repeated_failures_meta : RuleMeta :=
  rule_meta "identity.repeated_failures" "Repeated failed login"
    "Repeated authentication failures for one account (lower intensity than brute force)."
    Medium 75 ["credential-access"] ["T1110"] ["authentication"; "identity"].
Definition repeated_failures_detect (event : CanonicalEvent) (ctx : DetectionContext)
    : result (option Hit) :=
  if negb (is_auth_failure event) || negb (has_user_name event) then no_hit
  else
    let related := user_failures ctx event 900 in
    if negb (length related =? 5)%nat then no_hit
    else hit related
      (fp repeated_failures_meta event
         (the_user event +:+ ":" +:+ isoformat (trunc_hour (e_timestamp event))))
      ("Account " +:+ the_user event +:+ " had " +:+ str_of_nat (length related)
       +:+ " failed logins within 900s.").

(** ** Service account misuse *)

Definition service_account_misuse_meta : RuleMeta :=
  rule_meta "identity.service_account_misuse" "Service account misuse"
    "Interactive or unusual authentication by a service account."
    High 82 ["persistence"; "privilege-escalation"] ["T1078.001"] ["authentication"; "identity"].
Definition INTERACTIVE : list string :=
  ["interactive"; "2"; "10"; "11"; "remoteinteractive"; "unlocked"].
Definition is_service (event : CanonicalEvent) : bool :=
  let name := lower (the_user event) in
  startswith name "svc-" || startswith name "svc_"
  || match vor (attr "directory" event) (VDict []) with
     | VDict directory => (lower (py_str (dget_or "type" (VStr "") directory)) =? "service")%string
     | _ => false
     end
  || (lower (py_str (dget_or "account_type" (VStr "") (e_attributes event))) =? "service")%string.
Definition is_interactive (event : CanonicalEvent) : bool :=
  let logon := lower (py_str (vor (vor (attr "logon_type" event) (attr "LogonType" event)) (VStr ""))) in
  mem logon INTERACTIVE
  || mem (lower (ostr (e_action event))) ["interactive_login"; "rdp"; "console"].
Definition service_account_misuse_detect (event : CanonicalEvent) (ctx : DetectionContext)
    : result (option Hit) :=
  if negb (is_auth_success event) || negb (has_user_name event) then no_hit
  else if negb (is_service event) then no_hit
  else if negb (is_interactive event) then no_hit
  else hit [event]
    (fp service_account_misuse_meta event
       (the_user event +:+ ":" +:+ isoformat (trunc_hour (e_timestamp event))))
    ("Service account " +:+ the_user event +:+ " performed interactive authentication from "
     +:+ fmt (e_src_ip event) +:+ ".").

(** ** Unusual success *)

Definition unusual_success_meta : RuleMeta :=
  rule_meta "identity.unusual_success" "Unusual successful login"
    "Successful authentication after recent failures for the same account."
    High 78 ["credential-access"; "initial-access"] ["T1078"; "T1110"] ["authentication"; "identity"].
Definition unusual_success_detect (event : CanonicalEvent) (ctx : DetectionContext)
    : result (option Hit) :=
  if negb (is_auth_success event) || negb (has_user_name event) then no_hit
  else
    let failures := select is_auth_failure (user_failures ctx event 1800) in
    if (length failures <? 3)%nat then no_hit
    else hit (failures ++ [event])
      (fp unusual_success_meta event
         (the_user event +:+ ":" +:+ isoformat (trunc_minute (e_timestamp event))))
      ("Account " +:+ the_user event +:+ " succeeded after " +:+ str_of_nat (length failures)
       +:+ " failures in 1800s from " +:+ fmt (e_src_ip event) +:+ ".").

(** ** Scheduled sweep *)

Definition auth_failure_sweep_meta : RuleMeta := {|
  rm_rule_id := "scheduled.auth_failure_sweep"; rm_name := "Scheduled authentication failure sweep";
  rm_description := "Window sweep for repeated authentication failures. Runs only on the scheduled runner.";
  rm_version := "1.0.0"; rm_severity := Medium; rm_confidence := 70;
  rm_mitre_tactics := ["credential-access"]; rm_mitre_techniques := ["T1110"];
  rm_data_sources := ["authentication"]; rm_author := "blueteam-os"; rm_status := "tested";
  rm_execution := "scheduled" |}.
Definition auth_failure_sweep_detect (event : CanonicalEvent) (ctx : DetectionContext)
    : result (option Hit) :=
  if negb (dc_scheduled ctx) then no_hit
  else if negb ((e_category event =? "authentication")%string
                && bool_decide (e_outcome event = Some Failure)) then no_hit
  else
    let related := query (dc_window ctx) (e_tenant_id event)
      (dt_add (e_timestamp event) (- hours 24)) (Some (e_timestamp event))
      (from_ip (e_src_ip event) auth_failures) in
    if (length related <? 8)%nat then no_hit
    else
      hit related
        ("scheduled.auth_failure_sweep|" +:+ e_tenant_id event +:+ "|" +:+ fmt (e_src_ip event))
        ("Scheduled sweep observed " +:+ str_of_nat (length related)
         +:+ " authentication failures from " +:+ fmt (e_src_ip event) +:+ " across "
         +:+ str_of_nat (length (user_names related)) +:+ " users.").

(** ** The rules *)

Section rules.
Context `{Oracle}.
Definition BruteForceRule : DetectionRule := {| dr_meta := brute_force_meta;
  dr_evaluate := emit identity_finding_from_events brute_force_meta brute_force_detect |}.
Definition DormantAccountRule : DetectionRule := {| dr_meta := dormant_account_meta;
  dr_evaluate := emit identity_finding_from_events dormant_account_meta dormant_account_detect |}.
Definition ImpossibleTravelRule : DetectionRule := {| dr_meta := impossible_travel_meta;
  dr_evaluate := emit identity_finding_from_events impossible_travel_meta impossible_travel_detect |}.
Definition MfaFatigueRule : DetectionRule := {| dr_meta := mfa_fatigue_meta;
  dr_evaluate := emit identity_finding_from_events mfa_fatigue_meta mfa_fatigue_detect |}.
Definition PasswordSprayRule : DetectionRule := {| dr_meta := password_spray_meta;
  dr_evaluate := emit identity_finding_from_events password_spray_meta password_spray_detect |}.
Definition PrivilegeGrantRule : DetectionRule := {| dr_meta := privilege_grant_meta;
  dr_evaluate := emit identity_finding_from_events privilege_grant_meta privilege_grant_detect |}.
Definition RepeatedFailuresRule : DetectionRule := {| dr_meta := repeated_failures_meta;
  dr_evaluate := emit identity_finding_from_events repeated_failures_meta repeated_failures_detect |}.
Definition ServiceAccountMisuseRule : DetectionRule := {| dr_meta := service_account_misuse_meta;
  dr_evaluate := emit identity_finding_from_events service_account_misuse_meta service_account_misuse_detect |}.
Definition UnusualSuccessRule : DetectionRule := {| dr_meta := unusual_success_meta;
  dr_evaluate := emit identity_finding_from_events unusual_success_meta unusual_success_detect |}.
Definition ScheduledAuthFailureSweep : DetectionRule := {| dr_meta := auth_failure_sweep_meta;
  dr_evaluate := emit finding_from_events auth_failure_sweep_meta auth_failure_sweep_detect |}.
End rules.

(** ** Soundness of each rule *)

Lemma other_country_elem current prior item other :
  other_country current prior = Ok (Some (item, other)) →
  item ∈ prior ∧ country item = Ok (Some other) ∧ other ≠ current.
Proof.
  induction prior as [|y prior IH]; simpl; [discriminate|]. intros Ho.
  apply result_bind_ok in Ho as (o & Hc & Ho). destruct o as [oc|].
  - destruct (nonempty oc && negb (oc =? current)%string) eqn:E.
    + injection Ho as -> ->. py_bool. split_and!; [by left | done | done].
    + destruct (IH Ho) as (? & ? & ?). split_and!; [by right | done | done].
  - destruct (IH Ho) as (? & ? & ?). split_and!; [by right | done | done].
Qed.

Section sound.
Context `{Oracle}.
#[export] Instance brute_force_sound : RuleSound BruteForceRule.
Proof. rule_sound brute_force_detect; unfold user_failures in *; related_events. Qed.
#[export] Instance dormant_account_sound : RuleSound DormantAccountRule.
Proof. rule_sound dormant_account_detect. Qed.
#[export] Instance impossible_travel_sound : RuleSound ImpossibleTravelRule.
Proof.
  rule_sound impossible_travel_detect.
  match goal with Ho : other_country _ _ = Ok (Some (?i, _)) |- _ =>
    apply other_country_elem in Ho as [Ho _] end. related_events.
Qed.
#[export] Instance mfa_fatigue_sound : RuleSound MfaFatigueRule.
Proof. rule_sound mfa_fatigue_detect. Qed.
#[export] Instance password_spray_sound : RuleSound PasswordSprayRule.
Proof. rule_sound password_spray_detect. Qed.
#[export] Instance privilege_grant_sound : RuleSound PrivilegeGrantRule.
Proof. rule_sound privilege_grant_detect. Qed.
#[export] Instance repeated_failures_sound : RuleSound RepeatedFailuresRule.
Proof. rule_sound repeated_failures_detect; unfold user_failures in *; related_events. Qed.
#[export] Instance service_account_misuse_sound : RuleSound ServiceAccountMisuseRule.
Proof. rule_sound service_account_misuse_detect. Qed.
#[export] Instance unusual_success_sound : RuleSound UnusualSuccessRule.
Proof. rule_sound unusual_success_detect; unfold user_failures in *; related_events. Qed.
#[export] Instance auth_failure_sweep_sound : RuleSound ScheduledAuthFailureSweep.
Proof.
  rule_sound auth_failure_sweep_detect.
  match goal with Hx : ?x ∈ query _ _ _ _ ?q |- _ =>
    change (x ∈ events_in_window ctx event day q) in Hx end. related_events.
Qed.
End sound.
