(* ===== verification/NetworkRules.v ===== *)
(** * Network detections

    Models the six rules of [detections/python/network]. [ipaddress.ip_address(..)
    .is_private] is written out for IPv4 (CPython 3.12.4 and later); reading an IPv6
    address is a parameter, [None] standing for the [ValueError]. *)
From S2P Require Export IdentityRules.
Local Open Scope Z_scope.

(** ** Private addresses *)

Class IpLib := { ipv6_private : string → option bool }.

Definition octet (s : string) : option Z :=
  if (String.length s =? 0)%nat || (3 <? String.length s)%nat || negb (str_all is_digit s) then None
  else if (1 <? String.length s)%nat && startswith s "0" then None
  else n ← int_of_str s; if n <=? 255 then Some n else None.
Definition ipv4_value (s : string) : option Z :=
  match split_on "." s with
  | [a; b; c; d] =>
      a ← octet a; b ← octet b; c ← octet c; d ← octet d;
      Some (((a * 256 + b) * 256 + c) * 256 + d)
  | _ => None
  end.
Definition in_net (ip a b c d prefix : Z) : bool :=
  Z.shiftr ip (32 - prefix) =? Z.shiftr (((a * 256 + b) * 256 + c) * 256 + d) (32 - prefix).
Definition ipv4_private (ip : Z) : bool :=
  (in_net ip 0 0 0 0 8 || in_net ip 10 0 0 0 8 || in_net ip 127 0 0 0 8 || in_net ip 169 254 0 0 16
   || in_net ip 172 16 0 0 12 || in_net ip 192 0 0 0 24 || in_net ip 192 0 0 170 31
   || in_net ip 192 0 2 0 24 || in_net ip 192 168 0 0 16 || in_net ip 198 18 0 0 15
   || in_net ip 198 51 100 0 24 || in_net ip 203 0 113 0 24 || in_net ip 240 0 0 0 4
   || in_net ip 255 255 255 255 32)
  && negb (in_net ip 192 0 0 9 32 || in_net ip 192 0 0 10 32).
Definition ip_private `{IpLib} (s : string) : option bool :=
  match ipv4_value s with
  | Some ip => Some (ipv4_private ip)
  | None => ipv6_private s
  end.

Definition from_source (event : CanonicalEvent) : filters := from_ip (e_src_ip event) no_filter.
Definition fmt_port (o : option Z) : string := match o with Some p => str_of_Z p | None => "None" end.
(** [if event.dst_port]: zero is false. *)
Definition port_true (o : option Z) : bool := match o with Some p => negb (p =? 0) | None => false end.
Definition has_endpoints (event : CanonicalEvent) : bool :=
  otrue (e_src_ip event) && otrue (e_dst_ip event).
Definition network_or_alert (event : CanonicalEvent) : bool := mem (e_category event) ["network"; "alert"].
Definition is_network (event : CanonicalEvent) : bool := (e_category event =? "network")%string.
Definition src (event : CanonicalEvent) : string := fmt (e_src_ip event).
Definition dst (event : CanonicalEvent) : string := fmt (e_dst_ip event).

(** ** Horizontal scan *)

Definition horizontal_scan_meta : RuleMeta :=
  rule_meta "network.horizontal_scan" "Horizontal network scan"
    "One source contacts many distinct destinations on a shared port."
    Medium 80 ["discovery"] ["T1046"] ["network"; "zeek"; "suricata"].
Definition horizontal_scan_detect (event : CanonicalEvent) (ctx : DetectionContext)
    : result (option Hit) :=
  if negb (network_or_alert event) || negb (has_endpoints event) then no_hit
  else
    let related := select (λ item, network_or_alert item && otrue (e_dst_ip item)
                                   && bool_decide (e_dst_port item = e_dst_port event))
                     (events_in_window ctx event 120 (from_source event)) in
    let destinations := remove_dups (e_dst_ip <$> related) in
    if (length destinations <? 8)%nat then no_hit
    else hit related
      (fp horizontal_scan_meta event (src event +:+ ":" +:+ fmt_port (e_dst_port event)))
      (src event +:+ " contacted " +:+ str_of_nat (length destinations) +:+ " distinct hosts on port "
       +:+ fmt_port (e_dst_port event) +:+ " within 120s.").

(** ** Vertical scan *)

Definition vertical_scan_meta : RuleMeta :=
  rule_meta "network.vertical_scan" "Vertical port scan"
    "One source probes many ports on a single destination."
    Medium 80 ["discovery"] ["T1046"] ["network"; "zeek"; "suricata"].
Definition vertical_scan_detect (event : CanonicalEvent) (ctx : DetectionContext)
    : result (option Hit) :=
  if negb (network_or_alert event) || negb (has_endpoints event) then no_hit
  else
    let related := select (λ item, bool_decide (e_dst_ip item = e_dst_ip event)
                                   && port_true (e_dst_port item))
                     (events_in_window ctx event 120 (from_source event)) in
    let ports := remove_dups (e_dst_port <$> related) in
    if (length ports <? 8)%nat then no_hit
    else hit related
      (fp vertical_scan_meta event (src event +:+ ":" +:+ dst event))
      (src event +:+ " probed " +:+ str_of_nat (length ports) +:+ " ports on " +:+ dst event +:+ ".").

(** ** Rare destination *)

Definition rare_destination_meta : RuleMeta :=
  rule_meta "network.rare_destination" "Rare destination"
    "First observed outbound destination from a host in the recent window."
    Low 65 ["command-and-control"] ["T1071"] ["network"].
(** [dest_counts], as a dict from address to count. *)
Definition dest_counts (peers : list CanonicalEvent) : list (string * Z) :=
  foldl (λ d item, let ip := ostr (e_dst_ip item) in dset ip (default 0 (dget ip d) + 1) d) [] peers.
Definition rare_destination_detect (event : CanonicalEvent) (ctx : DetectionContext)
    : result (option Hit) :=
  if negb (is_network event) || negb (has_endpoints event) then no_hit
  else
    let peers := select (λ item, is_network item && otrue (e_dst_ip item))
                   (events_in_window ctx event 3600 (from_source event)) in
    let counts := dest_counts peers in
    if negb (default 0 (dget (ostr (e_dst_ip event)) counts) =? 1) then no_hit
    else if (foldr Z.max 0 counts.*2 <? 3) || (length counts <? 2)%nat then no_hit
    else hit peers
      (fp rare_destination_meta event (src event +:+ ":" +:+ dst event))
      (src event +:+ " reached rare destination " +:+ dst event +:+ ".").

(** ** Repetitive beacon *)

Definition repetitive_beacon_meta : RuleMeta :=
  rule_meta "network.repetitive_beacon" "Repetitive beacon"
    "Regular outbound connections from one host to one destination."
    High 82 ["command-and-control"] ["T1071"] ["network"].
Definition repetitive_beacon_detect (event : CanonicalEvent) (ctx : DetectionContext)
    : result (option Hit) :=
  if negb (is_network event) || negb (has_endpoints event) then no_hit
  else
    let related := select (λ item, bool_decide (e_dst_ip item = e_dst_ip event) && is_network item)
                     (events_in_window ctx event 600 (from_source event)) in
    if (length related <? 4)%nat then no_hit
    else hit related
      (fp repetitive_beacon_meta event (src event +:+ ":" +:+ dst event))
      (str_of_nat (length related) +:+ " outbound connections from " +:+ src event +:+ " to "
       +:+ dst event +:+ ".").

(** ** Suspicious DNS *)

Definition suspicious_dns_meta : RuleMeta :=
  rule_meta "network.suspicious_dns" "Suspicious DNS"
    "Unusually long DNS query labels consistent with tunneling or DGA-like names."
    Medium 70 ["command-and-control"; "exfiltration"] ["T1071.004"] ["dns"].
Definition longest_label (domain : string) : nat :=
  foldr Nat.max 0%nat (String.length <$> split_on "." domain).
Definition suspicious_dns_detect (event : CanonicalEvent) (ctx : DetectionContext)
    : result (option Hit) :=
  if negb (e_category event =? "dns")%string || negb (otrue (e_domain event)) then no_hit
  else
    let domain := ostr (e_domain event) in
    let long_label := longest_label domain in
    if (long_label <? 40)%nat && negb (contains (lower domain) "tunnel") then no_hit
    else hit [event] (fp suspicious_dns_meta event domain)
      ("DNS query " +:+ domain +:+ " has a " +:+ str_of_nat long_label +:+ "-character label.").

(** ** Unusual east-west traffic *)

Definition unusual_east_west_meta : RuleMeta :=
  rule_meta "network.unusual_east_west" "Unusual east-west traffic"
    "Internal-to-internal SMB/RDP/WinRM after or alongside other suspicious activity."
    High 75 ["lateral-movement"] ["T1021.002"; "T1021.001"] ["network"].
Definition ADMIN_PORTS : list Z := [445; 3389; 5985; 5986].
Definition unusual_east_west_detect `{IpLib} (event : CanonicalEvent) (ctx : DetectionContext)
    : result (option Hit) :=
  if negb (is_network event) || negb (has_endpoints event) || negb (port_true (e_dst_port event))
  then no_hit
  else if negb (existsb (λ p, bool_decide (e_dst_port event = Some p)) ADMIN_PORTS) then no_hit
  else
    match ip_private (ostr (e_src_ip event)) with
    | Some true =>
        match ip_private (ostr (e_dst_ip event)) with
        | Some true => hit [event]
            (fp unusual_east_west_meta event
               (src event +:+ ":" +:+ dst event +:+ ":" +:+ fmt_port (e_dst_port event)))
            ("East-west " +:+ (if otrue (e_protocol event) then ostr (e_protocol event) else "tcp")
             +:+ "/" +:+ fmt_port (e_dst_port event) +:+ " from " +:+ src event +:+ " to "
             +:+ dst event +:+ ".")
        | _ => no_hit
        end
    | _ => no_hit
    end.

Section rules.
Context `{Oracle} `{IpLib}.
Definition HorizontalScanRule : DetectionRule := {| dr_meta := horizontal_scan_meta;
  dr_evaluate := emit finding_from_events horizontal_scan_meta horizontal_scan_detect |}.
Definition VerticalScanRule : DetectionRule := {| dr_meta := vertical_scan_meta;
  dr_evaluate := emit finding_from_events vertical_scan_meta vertical_scan_detect |}.
Definition RareDestinationRule : DetectionRule := {| dr_meta := rare_destination_meta;
  dr_evaluate := emit finding_from_events rare_destination_meta rare_destination_detect |}.
Definition RepetitiveBeaconRule : DetectionRule := {| dr_meta := repetitive_beacon_meta;
  dr_evaluate := emit finding_from_events repetitive_beacon_meta repetitive_beacon_detect |}.
Definition SuspiciousDnsRule : DetectionRule := {| dr_meta := suspicious_dns_meta;
  dr_evaluate := emit finding_from_events suspicious_dns_meta suspicious_dns_detect |}.
Definition UnusualEastWestRule : DetectionRule := {| dr_meta := unusual_east_west_meta;
  dr_evaluate := emit finding_from_events unusual_east_west_meta unusual_east_west_detect |}.
Definition NETWORK_RULES : list DetectionRule := [
  HorizontalScanRule; VerticalScanRule; RareDestinationRule; RepetitiveBeaconRule;
  SuspiciousDnsRule; UnusualEastWestRule].

#[export] Instance horizontal_scan_sound : RuleSound HorizontalScanRule.
Proof. rule_sound horizontal_scan_detect. Qed.
#[export] Instance vertical_scan_sound : RuleSound VerticalScanRule.
Proof. rule_sound vertical_scan_detect. Qed.
#[export] Instance rare_destination_sound : RuleSound RareDestinationRule.
Proof. rule_sound rare_destination_detect. Qed.
#[export] Instance repetitive_beacon_sound : RuleSound RepetitiveBeaconRule.
Proof. rule_sound repetitive_beacon_detect. Qed.
#[export] Instance suspicious_dns_sound : RuleSound SuspiciousDnsRule.
Proof. rule_sound suspicious_dns_detect. Qed.
#[export] Instance unusual_east_west_sound : RuleSound UnusualEastWestRule.
Proof. rule_sound @unusual_east_west_detect. Qed.
End rules.

Example ipv4_private_ex : map (λ s, ipv4_private <$> ipv4_value s)
    ["10.1.2.3"; "172.31.255.1"; "172.32.0.1"; "192.168.0.9"; "8.8.8.8"; "192.0.0.9"; "01.2.3.4"; "1.2.3"]
  = [Some true; Some true; Some false; Some true; Some false; Some false; None; None].
Proof. vm_compute. reflexivity. Qed.
