(* ===== verification/EndpointRules.v ===== *)
(** * Endpoint detections

    Models the nine rules of [detections/python/endpoint]. *)
From S2P Require Export NetworkRules.
Local Open Scope Z_scope.

Definition proc_name (p : CanonicalProcess) : string := lower (ostr (p_name p)).
Definition is_process (event : CanonicalEvent) : bool := (e_category event =? "process")%string.
(** The three-part fingerprint most endpoint rules use. *)
Definition by_event (meta : RuleMeta) (event : CanonicalEvent) : string := fp meta event (e_id event).

(** ** Office spawns a shell *)

Definition office_shell_meta : RuleMeta :=
  rule_meta "endpoint.office_spawns_shell" "Office spawns a shell"
    "Office process launches powershell, cmd, or wscript."
    High 88 ["execution"] ["T1059.001"; "T1204.002"] ["endpoint"; "process"].
Definition OFFICE : list string := ["winword.exe"; "excel.exe"; "powerpnt.exe"; "outlook.exe"].
Definition SHELLS : list string :=
  ["powershell.exe"; "pwsh.exe"; "cmd.exe"; "wscript.exe"; "cscript.exe"].
Definition office_shell_detect (event : CanonicalEvent) (ctx : DetectionContext) : result (option Hit) :=
  if negb (is_process event) then no_hit
  else
    match e_process event with
    | None => no_hit
    | Some p =>
        match e_parent_process event with
        | None => no_hit
        | Some pp =>
            let child := proc_name p in
            let parent := proc_name pp in
            if negb (mem parent OFFICE) || negb (mem child SHELLS) then no_hit
            else hit [event]
              (fp office_shell_meta event (parent +:+ ":" +:+ child +:+ ":" +:+ e_id event))
              (parent +:+ " spawned " +:+ child +:+ ".")
        end
    end.

(** ** Encoded PowerShell *)

Definition encoded_powershell_meta : RuleMeta :=
  rule_meta "endpoint.encoded_powershell" "Encoded PowerShell"
    "PowerShell launched with encoded command switches."
    High 86 ["defense-evasion"; "execution"] ["T1027"; "T1059.001"] ["endpoint"; "process"].
Definition MARKERS : list string := [" -enc "; " -encodedcommand "; " -e "; "frombase64string"].
Definition encoded_powershell_detect (event : CanonicalEvent) (ctx : DetectionContext)
    : result (option Hit) :=
  if negb (is_process event) then no_hit
  else
    match e_process event with
    | None => no_hit
    | Some p =>
        let cmd := lower (ostr (p_command_line p)) in
        if negb (mem (proc_name p) ["powershell.exe"; "pwsh.exe"])
           || negb (existsb (contains (" " +:+ cmd +:+ " ")) MARKERS) then no_hit
        else hit [event] (by_event encoded_powershell_meta event)
               "PowerShell command line contains an encoded-command marker."
    end.

(** ** Suspicious script interpreter *)

Definition script_interpreter_meta : RuleMeta :=
  rule_meta "endpoint.suspicious_script_interpreter" "Suspicious script interpreter"
    "Script host or interpreter launched from user content paths."
    Medium 74 ["execution"] ["T1059"] ["endpoint"; "process"].
Definition INTERPRETERS : list string :=
  ["wscript.exe"; "cscript.exe"; "mshta.exe"; "python.exe"; "wmic.exe"].
Definition USER_PATHS : list string := ["\users\"; "/home/"; "\appdata\"; "\temp\"].
Definition script_interpreter_detect (event : CanonicalEvent) (ctx : DetectionContext)
    : result (option Hit) :=
  if negb (is_process event) then no_hit
  else
    match e_process event with
    | None => no_hit
    | Some p =>
        let name := proc_name p in
        let path := lower (ostr (oor (p_path p) (p_command_line p))) in
        if negb (mem name INTERPRETERS) then no_hit
        else if negb (existsb (contains path) USER_PATHS) then no_hit
        else hit [event] (fp script_interpreter_meta event (name +:+ ":" +:+ e_id event))
               (name +:+ " executed from a user/content path.")
    end.

(** ** Persistence *)

Definition persist (event : CanonicalEvent) (meta : RuleMeta) (explanation : string)
    : result (option Hit) := hit [event] (by_event meta event) explanation.

Definition service_persistence_meta : RuleMeta :=
  rule_meta "endpoint.service_persistence" "Service persistence"
    "New or modified service creation from endpoint telemetry."
    Medium 78 ["persistence"] ["T1543.003"] ["endpoint"].
Definition service_persistence_detect (event : CanonicalEvent) (ctx : DetectionContext)
    : result (option Hit) :=
  let service := (e_event_type event =? "service")%string in
  if negb service && negb (e_category event =? "persistence")%string then no_hit
  else if negb (existsb (oeqb (e_action event)) ["service"; "service_start"; "service_create"])
          && negb service then no_hit
  else if negb service then no_hit
  else persist event service_persistence_meta "Service persistence event observed.".

Definition scheduled_task_persistence_meta : RuleMeta :=
  rule_meta "endpoint.scheduled_task_persistence" "Scheduled-task persistence"
    "Scheduled task creation or modification."
    Medium 78 ["persistence"] ["T1053.005"] ["endpoint"].
Definition scheduled_task_persistence_detect (event : CanonicalEvent) (ctx : DetectionContext)
    : result (option Hit) :=
  if negb (e_event_type event =? "scheduled_task")%string then no_hit
  else persist event scheduled_task_persistence_meta "Scheduled-task persistence event observed.".

Definition registry_persistence_meta : RuleMeta :=
  rule_meta "endpoint.registry_persistence" "Registry persistence"
    "Run-key or similar registry persistence write."
    Medium 80 ["persistence"] ["T1547.001"] ["endpoint"].
Definition registry_path (event : CanonicalEvent) : string :=
  let file_path := f ← e_file event; f_path f in
  lower (if otrue file_path then ostr file_path
         else py_str (vor (dgetv "TargetObject" (e_raw_event event)) (VStr ""))).
Definition registry_persistence_detect (event : CanonicalEvent) (ctx : DetectionContext)
    : result (option Hit) :=
  if negb (e_category event =? "registry")%string then no_hit
  else
    let path := registry_path event in
    if negb (contains path "\currentversion\run") && negb (contains path "runonce") then no_hit
    else persist event registry_persistence_meta ("Registry persistence write: " +:+ path).

(** ** Unusual child process *)

Definition unusual_child_meta : RuleMeta :=
  rule_meta "endpoint.unusual_child_process" "Unusual child process"
    "Trusted parent launches an unexpected LOLBin or payload-like child."
    Medium 72 ["execution"] ["T1204"] ["endpoint"].
Definition PARENTS : list string := ["explorer.exe"; "services.exe"].
Definition CHILDREN : list string :=
  ["powershell.exe"; "cmd.exe"; "mshta.exe"; "rundll32.exe"; "regsvr32.exe"; "payload.exe"].
Definition unusual_child_detect (event : CanonicalEvent) (ctx : DetectionContext) : result (option Hit) :=
  if negb (is_process event) then no_hit
  else
    match e_process event with
    | None => no_hit
    | Some p =>
        match e_parent_process event with
        | None => no_hit
        | Some pp =>
            let parent := proc_name pp in
            let child := proc_name p in
            let path := lower (ostr (p_path p)) in
            if negb (mem parent PARENTS) || negb (mem child CHILDREN) then no_hit
            else if (parent =? "explorer.exe")%string && mem child ["powershell.exe"; "cmd.exe"]
                    && negb (contains path "\temp\") && negb (contains path "\users\")
                    && negb (child =? "payload.exe")%string then no_hit
            else hit [event]
              (fp unusual_child_meta event (parent +:+ ":" +:+ child +:+ ":" +:+ e_id event))
              ("Unusual child " +:+ child +:+ " from " +:+ parent +:+ ".")
        end
    end.

(** ** Rare executable path *)

Definition rare_path_meta : RuleMeta :=
  rule_meta "endpoint.rare_executable_path" "Rare executable path"
    "Executable launched from a world-writable or user-temp path."
    Medium 70 ["defense-evasion"] ["T1036"] ["endpoint"].
Definition RARE : list string := ["\temp\"; "\appdata\local\temp\"; "/tmp/"; "\users\public\"].
Definition rare_path_detect (event : CanonicalEvent) (ctx : DetectionContext) : result (option Hit) :=
  if negb (is_process event) then no_hit
  else
    match e_process event with
    | None => no_hit
    | Some p =>
        let path := lower (ostr (p_path p)) in
        if negb (nonempty path) || negb (existsb (contains path) RARE) then no_hit
        else hit [event] (fp rare_path_meta event path)
               ("Process launched from rare path " +:+ path +:+ ".")
    end.

(** ** Process to network chain *)

Definition process_network_meta : RuleMeta :=
  rule_meta "endpoint.process_network_chain" "Process to network chain"
    "A newly created process on a host is followed by an outbound connection."
    High 80 ["command-and-control"] ["T1071"] ["endpoint"; "network"].
Definition INTERESTING : list string :=
  ["powershell.exe"; "pwsh.exe"; "cmd.exe"; "payload.exe"; "wscript.exe"].
Definition host_key (event : CanonicalEvent) : option string :=
  h ← e_host event; oor (h_name h) (h_id h).
Definition interesting_process (event : CanonicalEvent) : bool :=
  is_process event
  && match e_process event with Some p => mem (proc_name p) INTERESTING | None => false end.
Definition process_network_detect (event : CanonicalEvent) (ctx : DetectionContext)
    : result (option Hit) :=
  if negb (is_network event) || negb (otrue (e_dst_ip event)) then no_hit
  else
    let host := host_key event in
    if negb (otrue host) then no_hit
    else
      let processes := select (λ item, interesting_process item && bool_decide (host_key item = host))
                         (events_in_window ctx event 180 no_filter) in
      match last processes with
      | None => no_hit
      | Some latest => hit (processes ++ [event])
          (fp process_network_meta event (ostr host +:+ ":" +:+ dst event))
          ("Host " +:+ ostr host +:+ " ran " +:+ fmt (process_name latest) +:+ " then connected to "
           +:+ dst event +:+ ".")
      end.

Section rules.
Context `{Oracle}.
Definition OfficeSpawnsShellRule : DetectionRule := {| dr_meta := office_shell_meta;
  dr_evaluate := emit finding_from_events office_shell_meta office_shell_detect |}.
Definition EncodedPowershellRule : DetectionRule := {| dr_meta := encoded_powershell_meta;
  dr_evaluate := emit finding_from_events encoded_powershell_meta encoded_powershell_detect |}.
Definition SuspiciousScriptInterpreterRule : DetectionRule := {| dr_meta := script_interpreter_meta;
  dr_evaluate := emit finding_from_events script_interpreter_meta script_interpreter_detect |}.
Definition ServicePersistenceRule : DetectionRule := {| dr_meta := service_persistence_meta;
  dr_evaluate := emit finding_from_events service_persistence_meta service_persistence_detect |}.
Definition ScheduledTaskPersistenceRule : DetectionRule := {|
  dr_meta := scheduled_task_persistence_meta;
  dr_evaluate := emit finding_from_events scheduled_task_persistence_meta scheduled_task_persistence_detect |}.
Definition RegistryPersistenceRule : DetectionRule := {| dr_meta := registry_persistence_meta;
  dr_evaluate := emit finding_from_events registry_persistence_meta registry_persistence_detect |}.
Definition UnusualChildProcessRule : DetectionRule := {| dr_meta := unusual_child_meta;
  dr_evaluate := emit finding_from_events unusual_child_meta unusual_child_detect |}.
Definition RareExecutablePathRule : DetectionRule := {| dr_meta := rare_path_meta;
  dr_evaluate := emit finding_from_events rare_path_meta rare_path_detect |}.
Definition ProcessNetworkChainRule : DetectionRule := {| dr_meta := process_network_meta;
  dr_evaluate := emit finding_from_events process_network_meta process_network_detect |}.
Definition ENDPOINT_RULES : list DetectionRule := [
  OfficeSpawnsShellRule; EncodedPowershellRule; SuspiciousScriptInterpreterRule;
  ServicePersistenceRule; ScheduledTaskPersistenceRule; RegistryPersistenceRule;
  UnusualChildProcessRule; RareExecutablePathRule; ProcessNetworkChainRule].

#[export] Instance office_shell_sound : RuleSound OfficeSpawnsShellRule.
Proof. rule_sound office_shell_detect. Qed.
#[export] Instance encoded_powershell_sound : RuleSound EncodedPowershellRule.
Proof. rule_sound encoded_powershell_detect. Qed.
#[export] Instance script_interpreter_sound : RuleSound SuspiciousScriptInterpreterRule.
Proof. rule_sound script_interpreter_detect. Qed.
#[export] Instance service_persistence_sound : RuleSound ServicePersistenceRule.
Proof. rule_sound service_persistence_detect. Qed.
#[export] Instance scheduled_task_persistence_sound : RuleSound ScheduledTaskPersistenceRule.
Proof. rule_sound scheduled_task_persistence_detect. Qed.
#[export] Instance registry_persistence_sound : RuleSound RegistryPersistenceRule.
Proof. rule_sound registry_persistence_detect. Qed.
#[export] Instance unusual_child_sound : RuleSound UnusualChildProcessRule.
Proof. rule_sound unusual_child_detect. Qed.
#[export] Instance rare_path_sound : RuleSound RareExecutablePathRule.
Proof. rule_sound rare_path_detect. Qed.
#[export] Instance process_network_sound : RuleSound ProcessNetworkChainRule.
Proof. rule_sound process_network_detect. Qed.
End rules.
