(* ===== verification/BlueQL.v ===== *)
(** * BlueQL

    Models [packages/blueql/blueteam_blueql/engine.py]: the lexer over the remaining
    text, the recursive-descent parser, the evaluation of a predicate on an event, and
    the execution of filter and sequence queries. The lexer's [text] and [pos] are the
    text that is left. *)
From S2P Require Export Schemas.
Local Open Scope Z_scope.

Definition BlueQLError (message : string) : exn := ValueError message.
(** The model's recursion budget; [parse_total] shows that [parse] never spends it. *)
Definition RecursionError : exn := OtherError "RecursionError: maximum recursion depth exceeded".

#[warnings="-register-all"]
Inductive Node := MkNode { kind : string; value : pyval; children : list Node }.
Fixpoint to_dict (n : Node) : pyval :=
  match n with
  | MkNode k v cs => VDict [("kind", VStr k); ("value", v); ("children", VList (map to_dict cs))]
  end.

(** ** The lexer *)

Definition forbidden : list string :=
  [";"; "--"; "/*"; "*/"; "UNION"; "DROP"; "INSERT"; "UPDATE"; "DELETE"].
Definition new_lexer (text : string) : result string :=
  if existsb (contains text) forbidden
  then Raise (BlueQLError "SQL/control tokens are not legal in BlueQL") else Ok (strip text).

Definition _skip : M string unit := modify lstrip.
Definition peek : M string string := _skip;; get.
(** [self.pos += n] *)
Definition advance (n : nat) : M string unit := modify (str_drop n).
Definition at_boundary (rest : string) : bool :=
  match rest with EmptyString => true | String c _ => negb (is_alnum c) end.
Definition take_keyword (word : string) : M string bool :=
  _skip;;
  text ← get;
  if startswith (upper text) (upper word) && at_boundary (str_drop (String.length word) text)
  then advance (String.length word);; mret true
  else mret false.

Definition ident_start (c : ascii) : bool := is_letter c || (code c =? 95)%N.
Definition ident_char (c : ascii) : bool := ident_start c || is_digit c || (code c =? 46)%N.
(** The longest prefix of characters of a class, and what follows it. *)
Fixpoint span (p : ascii → bool) (s : string) : string * string :=
  match s with
  | String c s' => if p c then let '(w, r) := span p s' in (String c w, r) else ("", s)
  | EmptyString => ("", "")
  end.
Definition take_ident : M string string :=
  _skip;;
  text ← get;
  match text with
  | String c _ =>
      if ident_start c then
        let '(w, r) := span ident_char text in modify (λ _, r);; mret w
      else raise (BlueQLError ("expected identifier at " +:+ repr_str (str_take 16 text)))
  | EmptyString => raise (BlueQLError ("expected identifier at " +:+ repr_str ""))
  end.

(** [STRING.match]: the text between the quotes, and what follows the closing one. *)
Fixpoint string_body (s : string) : option (string * string) :=
  match s with
  | EmptyString => None
  | String c s' =>
      if (code c =? 34)%N then Some ("", s')
      else if (code c =? 92)%N then
        match s' with
        | String c' s'' =>
            if (code c' =? 10)%N then None
            else wr ← string_body s''; Some (String c (String c' (fst wr)), snd wr)
        | EmptyString => None
        end
      else wr ← string_body s'; Some (String c (fst wr), snd wr)
  end.
(** [re.match(r"-?\d+(?:\.\d+)?", ..)] *)
Definition number_text (s : string) : option (string * string) :=
  let '(sign, s1) := match s with
                     | String c s' => if (code c =? 45)%N then (String c "", s') else ("", s)
                     | EmptyString => ("", s) end in
  let '(whole, s2) := span is_digit s1 in
  if negb (nonempty whole) then None
  else match s2 with
       | String c s3 =>
           if (code c =? 46)%N then
             let '(frac, s4) := span is_digit s3 in
             if nonempty frac then Some (sign +:+ whole +:+ String c frac, s4)
             else Some (sign +:+ whole, s2)
           else Some (sign +:+ whole, s2)
       | EmptyString => Some (sign +:+ whole, s2)
       end.
Definition take_value : M string pyval :=
  text ← peek;
  if startswith text (String dquote_ch "") then
    match string_body (str_drop 1 text) with
    | None => raise (BlueQLError "unterminated string")
    | Some (body, rest) => modify (λ _, rest);; mret (VStr body)
    end
  else
    t ← take_keyword "TRUE";
    if t : bool then mret (VBool true) else
    f ← take_keyword "FALSE";
    if f : bool then mret (VBool false) else
    text ← get;
    match number_text text with
    | Some (num, rest) =>
        modify (λ _, rest);;
        if contains num "." then lift (VFloat <$> py_float (VStr num))
        else lift (VInt <$> py_int (VStr num))
    | None => raise (BlueQLError "expected literal")
    end.

(** ** The parser

    A [while] loop runs with the length of the remaining text as its budget: every turn
    consumes a keyword or a comma. [_primary] recurs with a budget of nesting levels. *)

Fixpoint while_keyword (fuel : nat) (word tag : string) (operand : M string Node) (left : Node)
    : M string Node :=
  match fuel with
  | O => raise RecursionError
  | S fuel =>
      more ← take_keyword word;
      if more : bool
      then right ← operand; while_keyword fuel word tag operand (MkNode tag VNone [left; right])
      else mret left
  end.
(** [_and_expr] and [_or_expr] over what they call. *)
Definition _and_expr (_primary : M string Node) : M string Node :=
  left ← _primary;
  text ← get;
  while_keyword (S (String.length text)) "AND" "and" _primary left.
Definition _or_expr (_primary : M string Node) : M string Node :=
  left ← _and_expr _primary;
  text ← get;
  while_keyword (S (String.length text)) "OR" "or" (_and_expr _primary) left.

Fixpoint in_list (fuel : nat) (values : list pyval) : M string (list pyval) :=
  match fuel with
  | O => raise RecursionError
  | S fuel =>
      text ← peek;
      if startswith text "," then advance 1;; v ← take_value; in_list fuel (values ++ [v])
      else mret values
  end.
Definition expect (token message : string) : M string unit :=
  text ← peek;
  if startswith text token then advance 1 else raise (BlueQLError message).

Definition comparators : list string := [">="; "<="; "!="; "="; ">"; "<"].
Definition comparison (field : string) : M string Node :=
  text ← peek;
  match find_first (startswith text) comparators with
  | None => raise (BlueQLError ("expected comparator after " +:+ field))
  | Some op =>
      advance (String.length op);;
      v ← take_value;
      mret (MkNode "cmp" (VDict [("field", VStr field); ("op", VStr op)]) [MkNode "literal" v []])
  end.
Definition membership (field : string) : M string Node :=
  expect "(" "IN requires a parenthesised list";;
  v ← take_value;
  text ← get;
  values ← in_list (S (String.length text)) [v];
  expect ")" "missing ) after IN list";;
  mret (MkNode "in" (VStr field) ((λ v, MkNode "literal" v []) <$> values)).

Fixpoint _primary (fuel : nat) : M string Node :=
  match fuel with
  | O => raise RecursionError
  | S fuel =>
      negated ← take_keyword "NOT";
      if negated : bool then node ← _primary fuel; mret (MkNode "not" VNone [node])
      else
        text ← peek;
        if startswith text "(" then
          advance 1;;
          node ← _or_expr (_primary fuel);
          expect ")" "missing )";;
          mret node
        else
          field ← take_ident;
          has_in ← take_keyword "IN";
          if has_in : bool then membership field else comparison field
  end.

Definition unit_seconds (c : ascii) : option Z :=
  if (code c =? 115)%N then Some 1 else if (code c =? 109)%N then Some 60
  else if (code c =? 104)%N then Some 3600 else None.
Definition _duration : M string Z :=
  text ← peek;
  let '(num, rest) := span is_digit text in
  match num, rest with
  | String _ _, String c rest' =>
      match unit_seconds c with
      | Some u => modify (λ _, rest');; n ← lift (py_int (VStr num)); mret (n * u)
      | None => raise (BlueQLError "expected duration like 5m")
      end
  | _, _ => raise (BlueQLError "expected duration like 5m")
  end.

Fixpoint while_followed (fuel : nat) (operand : M string Node) (steps : list Node)
    : M string (list Node) :=
  match fuel with
  | O => raise RecursionError
  | S fuel =>
      more ← take_keyword "FOLLOWED_BY";
      if more : bool then step ← operand; while_followed fuel operand (steps ++ [step])
      else mret steps
  end.
Definition query_body (operand : M string Node) : M string Node :=
  from ← take_keyword "FROM";
  if from : bool then
    entity ← take_ident;
    where_ ← take_keyword "WHERE";
    if negb where_ then raise (BlueQLError "FROM requires WHERE")
    else pred ← operand; mret (MkNode "entity" (VStr entity) [pred])
  else
    first ← operand;
    text ← get;
    steps ← while_followed (S (String.length text)) operand [first];
    has_within ← take_keyword "WITHIN";
    within ← (if has_within : bool then VInt <$> _duration else mret VNone);
    mret (MkNode (if (1 <? length steps)%nat then "sequence" else "filter") within steps).
Definition parse_text : M string Node :=
  text ← get;
  root ← query_body (_or_expr (_primary (S (String.length text))));
  leftover ← peek;
  if nonempty leftover then raise (BlueQLError ("unexpected input " +:+ repr_str leftover))
  else mret root.
Definition parse (query : string) : result Node :=
  text ← new_lexer query;
  fst (parse_text text).
Definition compile_query : string → result Node := parse.

(** ** Evaluation *)

Definition _field_value (event : CanonicalEvent) (field : string) : result pyval :=
  let vo (o : option string) := match o with Some s => VStr s | None => VNone end in
  let authentication := (e_category event =? "authentication")%string in
  let table := [
    ("process.name", vo (process_name event));
    ("parent.name", vo (p ← e_parent_process event; p_name p));
    ("user.name", vo (user_name event));
    ("src_ip", vo (e_src_ip event));
    ("dst_ip", vo (e_dst_ip event));
    ("category", VStr (e_category event));
    ("event_type", VStr (e_event_type event));
    ("outcome", vo (outcome_str <$> e_outcome event));
    ("action", vo (e_action event));
    ("network.external", VBool (otrue (e_dst_ip event)
       && negb (existsb (startswith (ostr (e_dst_ip event))) ["10."; "192.168."; "172."])));
    ("auth.failures", VInt (if authentication && bool_decide (e_outcome event = Some Failure) then 1 else 0));
    ("auth.success", VBool (authentication && bool_decide (e_outcome event = Some Success)));
    ("privilege.change", VBool (match e_action event with
       | Some a => mem a ["add_to_group"; "grant_role"; "add_member"; "elevate"] | None => false end))] in
  match dget field table with
  | Some v => Ok v
  | None => Raise (BlueQLError ("unknown field " +:+ field))
  end.

(** [expected in {True, "true"}]: [1] and [1.0] equal [True]. *)
Definition says_true (expected : pyval) : bool :=
  match expected with
  | VBool b => b
  | VInt z => z =? 1
  | VFloat f => fl_eqb f (fl_of_Z 1)
  | VStr s => (s =? "true")%string
  | _ => false
  end.
(** [observed < expected] and [observed <= expected] on the values a field or a literal has. *)
Inductive number := NInt (z : Z) | NFloat (f : float).
Definition as_number (v : pyval) : option number :=
  match v with
  | VBool b => Some (NInt (if b then 1 else 0)) | VInt z => Some (NInt z)
  | VFloat f => Some (NFloat f) | _ => None
  end.
Definition number_float (n : number) : float := match n with NInt z => fl_of_Z z | NFloat f => f end.
Definition py_less (strict : bool) (a b : pyval) : result bool :=
  match as_number a, as_number b, a, b with
  | Some (NInt x), Some (NInt y), _, _ => Ok (if strict then x <? y else x <=? y)
  | Some x, Some y, _, _ =>
      Ok (if strict then fl_lt (number_float x) (number_float y) else fl_le (number_float x) (number_float y))
  | _, _, VStr x, VStr y => Ok (if strict then String.ltb x y else String.leb x y)
  | _, _, _, _ => Raise (TypeError "comparison not supported between instances")
  end.

Definition _equal (observed expected : pyval) : bool :=
  match observed with
  | VBool b => if says_true expected then b else negb b
  | _ => (lower (py_str observed) =? lower (py_str expected))%string
  end.
Definition is_none (v : pyval) : bool := match v with VNone => true | _ => false end.
Definition _compare (observed : pyval) (op : string) (expected : pyval) : result bool :=
  if (op =? "=")%string then Ok (_equal observed expected)
  else if (op =? "!=")%string then Ok (negb (_equal observed expected))
  else if is_none observed then Ok false
  else if (op =? ">")%string then py_less true expected observed
  else if (op =? ">=")%string then py_less false expected observed
  else if (op =? "<")%string then py_less true observed expected
  else if (op =? "<=")%string then py_less false observed expected
  else Ok false.

(** [all(..)] and [any(..)] stop at the first answer. *)
Fixpoint all_r {A} (f : A → result bool) (l : list A) : result bool :=
  match l with
  | [] => Ok true
  | x :: l' => b ← f x; if b : bool then all_r f l' else Ok false
  end.
Fixpoint any_r {A} (f : A → result bool) (l : list A) : result bool :=
  match l with
  | [] => Ok false
  | x :: l' => b ← f x; if b : bool then Ok true else any_r f l'
  end.
Definition cmp_parts (v : pyval) : string * string :=
  match v with VDict d => (py_str (dgetv "field" d), py_str (dgetv "op" d)) | _ => ("", "") end.
Definition IndexError : exn := OtherError "IndexError: list index out of range".

Fixpoint _eval_pred (event : CanonicalEvent) (node : Node) : result bool :=
  match node with
  | MkNode k v cs =>
      if (k =? "and")%string then all_r (_eval_pred event) cs
      else if (k =? "or")%string then any_r (_eval_pred event) cs
      else if (k =? "not")%string then
        match cs with c :: _ => negb <$> _eval_pred event c | [] => Raise IndexError end
      else if (k =? "in")%string then
        observed ← _field_value event (py_str v);
        any_r (λ c, _compare observed "=" (value c)) cs
      else if (k =? "cmp")%string then
        observed ← _field_value event (fst (cmp_parts v));
        match cs with
        | c :: _ => _compare observed (snd (cmp_parts v)) (value c)
        | [] => Raise IndexError
        end
      else Raise (BlueQLError ("cannot evaluate " +:+ k))
  end.

(** ** Execution *)

(** [[event for event in events if p(event)]] with a test that may raise. *)
Fixpoint filter_r {A} (p : A → result bool) (l : list A) : result (list A) :=
  match l with
  | [] => Ok []
  | x :: l' => b ← p x; rest ← filter_r p l'; Ok (if b : bool then x :: rest else rest)
  end.

Section sequence.
Context (window : Z) (test : Node → CanonicalEvent → result bool).

(** The [while] loop over the candidates of one step: the event found, and the events
    after it. *)
Fixpoint find_step (step : Node) (cursor : datetime) (rest : list CanonicalEvent)
    : result (option (CanonicalEvent * list CanonicalEvent)) :=
  match rest with
  | [] => Ok None
  | candidate :: rest' =>
      if seconds window <? dt_sub (e_timestamp candidate) cursor then Ok None
      else
        b ← test step candidate;
        if b : bool then Ok (Some (candidate, rest')) else find_step step cursor rest'
  end.
Fixpoint match_steps (steps : list Node) (cursor : datetime) (rest : list CanonicalEvent)
    : result (option (list CanonicalEvent)) :=
  match steps with
  | [] => Ok (Some [])
  | step :: steps' =>
      found ← find_step step cursor rest;
      match found with
      | None => Ok None
      | Some (candidate, rest') =>
          matched ← match_steps steps' (e_timestamp candidate) rest';
          Ok (option_map (cons candidate) matched)
      end
  end.
Fixpoint sequence_hits (first : Node) (steps : list Node) (ordered : list CanonicalEvent)
    : result (list CanonicalEvent) :=
  match ordered with
  | [] => Ok []
  | event :: rest =>
      b ← test first event;
      matched ← (if b : bool then match_steps steps (e_timestamp event) rest else Ok None);
      hits ← sequence_hits first steps rest;
      Ok (match matched with Some m => event :: m ++ hits | None => hits end)
  end.
End sequence.

(** The first occurrence of each identifier, in order. *)
Fixpoint unique_by_id (seen : list string) (hits : list CanonicalEvent) : list CanonicalEvent :=
  match hits with
  | [] => []
  | event :: hits' =>
      if mem (e_id event) seen then unique_by_id seen hits'
      else event :: unique_by_id (e_id event :: seen) hits'
  end.
Definition by_timestamp (events : list CanonicalEvent) : list CanonicalEvent :=
  sort_by (λ a b, dt_le (e_timestamp a) (e_timestamp b)) events.
(** [int(ast.value or 600)] *)
Definition sequence_window (v : pyval) : result Z := py_int (vor v (VInt 600)).
Definition _execute_sequence (ast : Node) (events : list CanonicalEvent) : result (list CanonicalEvent) :=
  window ← sequence_window (value ast);
  match children ast with
  | [] => match events with [] => Ok [] | _ => Raise IndexError end
  | first :: steps =>
      hits ← sequence_hits window (λ n e, _eval_pred e n) first steps (by_timestamp events);
      Ok (unique_by_id [] hits)
  end.

Definition execute_ast (ast : Node) (events : list CanonicalEvent) : result (list CanonicalEvent) :=
  if (kind ast =? "filter")%string || (kind ast =? "entity")%string then
    match children ast with
    | pred :: _ => filter_r (λ e, _eval_pred e pred) events
    | [] => match events with [] => Ok [] | _ => Raise IndexError end
    end
  else if (kind ast =? "sequence")%string then _execute_sequence ast events
  else Raise (BlueQLError "unsupported query form").
Definition execute (query : string) (events : list CanonicalEvent) : result (list CanonicalEvent) :=
  ast ← parse query;
  execute_ast ast events.

Definition explain (ast : Node) : pydict := [
  ("form", VStr (kind ast)); ("parameterised", VBool true);
  ("backend", VStr "in-memory-canonical-events");
  ("cost", VStr (if (kind ast =? "filter")%string then "O(n)" else "O(n*steps)"));
  ("sql_concatenation", VBool false); ("ast", to_dict ast)].


(** ** The parser returns *)

(** A call that, from the text [t], consumed at least [k] characters, or rejected the
    query. *)
Definition good {A} (k : nat) (t : string) (r : result A * string) : Prop :=
  match r with
  | (Ok _, t') => (String.length t' + k ≤ String.length t)%nat
  | (Raise e, _) => ∃ m, e = BlueQLError m
  end.

Lemma good_bind {A B} k k' (m : M string A) (f : A → M string B) t :
  good k t (m t) →
  (∀ a t', m t = (Ok a, t') → (String.length t' + k ≤ String.length t)%nat → good k' t' (f a t')) →
  good (k + k') t ((m ≫= f) t).
Proof.
  unfold mbind, M_bind. destruct (m t) as [[a|e] t'] eqn:E; simpl; [|done]. intros Hk Hf.
  specialize (Hf a t' eq_refl Hk). destruct (f a t') as [[b|e] t2]; simpl in *; [lia | done].
Qed.
Lemma good_le {A} k k' t (r : result A * string) : good k t r → (k' ≤ k)%nat → good k' t r.
Proof. destruct r as [[a|e] t']; simpl; [lia | done]. Qed.
Lemma good_ret {A} (a : A) t : good 0 t ((mret a : M string A) t).
Proof. simpl. lia. Qed.

Lemma lstrip_length s : (String.length (lstrip s) ≤ String.length s)%nat.
Proof. induction s as [|c s IH]; simpl; [lia|]. destruct (is_space c); simpl; lia. Qed.
Lemma drop_length n s : String.length (str_drop n s) = (String.length s - n)%nat.
Proof. revert s. induction n as [|n IH]; intros [|c s]; simpl; auto. Qed.
Lemma upper_length s : String.length (upper s) = String.length s.
Proof. induction s as [|c s IH]; simpl; [done|]. by f_equal. Qed.
Lemma prefix_length p s : String.prefix p s = true → (String.length p ≤ String.length s)%nat.
Proof. intros [r ->]%prefix_spec. rewrite length_app_str. lia. Qed.
Lemma span_app p s : fst (span p s) +:+ snd (span p s) = s.
Proof.
  induction s as [|c s IH]; simpl; [done|]. destruct (p c); [|done].
  destruct (span p s) as [w r]. simpl in *. by rewrite IH.
Qed.
Lemma span_length p s w r : span p s = (w, r) → (String.length w + String.length r = String.length s)%nat.
Proof. intros E. pose proof (span_app p s) as H. rewrite E in H. simpl in H. by rewrite <-H, length_app_str. Qed.

(** What each token consumes. *)
Lemma take_keyword_good w t : ∃ b t', take_keyword w t = (Ok b, t')
  ∧ (String.length t' + (if b : bool then String.length w else 0) ≤ String.length t)%nat.
Proof.
  unfold take_keyword, _skip, modify, get, mret, M_ret, mbind, M_bind, advance. cbv beta iota zeta.
  pose proof (lstrip_length t). destruct (_ && _) eqn:E.
  - eexists true, _. split; [done|]. rewrite drop_length. apply andb_prop in E as [E _].
    apply prefix_length in E. rewrite !upper_length in E. lia.
  - eexists false, _. split; [done|]. simpl. lia.
Qed.
Lemma peek_good t : peek t = (Ok (lstrip t), lstrip t).
Proof. done. Qed.
Lemma take_ident_good t : good 1 t (take_ident t).
Proof.
  unfold take_ident, _skip, modify, get, mret, M_ret, raise, mbind, M_bind. cbv beta iota zeta.
  pose proof (lstrip_length t). destruct (lstrip t) as [|c s] eqn:E; [by eexists|].
  destruct (ident_start c) eqn:Hc; [|by eexists].
  destruct (span ident_char (String c s)) as [w r] eqn:Hs. simpl.
  pose proof (span_length _ _ _ _ Hs) as Hl. simpl in Hs. unfold ident_char in Hs at 1. rewrite Hc in Hs. simpl in Hs.
  destruct (span ident_char s). injection Hs as <- <-. simpl in *. lia.
Qed.
Lemma string_body_length n s b r : (String.length s ≤ n)%nat →
  string_body s = Some (b, r) → (String.length r < String.length s)%nat.
Proof.
  revert s b r. induction n as [|n IH]; intros [|c s] b r Hn; simpl in *; try (done || lia).
  destruct (code c =? 34)%N; [intros [= <- <-]; lia|]. destruct (code c =? 92)%N.
  - destruct s as [|c' s]; [done|]. destruct (code c' =? 10)%N; [done|].
    destruct (string_body s) as [[b1 r1]|] eqn:E; [|done]. intros [= <- <-].
    apply IH in E; simpl in *; lia.
  - destruct (string_body s) as [[b1 r1]|] eqn:E; [|done]. intros [= <- <-].
    apply IH in E; simpl in *; lia.
Qed.
Lemma number_text_length s n r : number_text s = Some (n, r) → (String.length r < String.length s)%nat.
Proof.
  unfold number_text. destruct (match s with EmptyString => _ | String _ _ => _ end) as [sign s1] eqn:E1.
  assert (String.length s1 ≤ String.length s)%nat as H1.
  { destruct s as [|c s]; [by injection E1 as <- <-|].
    destruct (code c =? 45)%N; injection E1 as <- <-; simpl; lia. }
  destruct (span is_digit s1) as [w s2] eqn:E2. apply span_length in E2.
  destruct w as [|cw w]; [done|]. simpl in *.
  destruct s2 as [|c s3]; [intros [= <- <-]; simpl in *; lia|].
  destruct (code c =? 46)%N; [|intros [= <- <-]; simpl in *; lia].
  destruct (span is_digit s3) as [fr s4] eqn:E3. apply span_length in E3. simpl in *.
  destruct (nonempty fr); intros [= <- <-]; simpl in *; lia.
Qed.
Lemma py_int_error s e : py_int (VStr s) = Raise e → ∃ m, e = BlueQLError m.
Proof. simpl. destruct (int_of_str s); [done|]. intros [= <-]. by eexists. Qed.
Lemma py_float_error s e : py_float (VStr s) = Raise e → ∃ m, e = BlueQLError m.
Proof. simpl. destruct (fl_of_str s); [done|]. intros [= <-]. by eexists. Qed.

Lemma keyword_bind {A} w (f : bool → M string A) k t :
  (∀ t', (String.length t' + String.length w ≤ String.length t)%nat → good (k - String.length w) t' (f true t')) →
  (∀ t', (String.length t' ≤ String.length t)%nat → good k t' (f false t')) →
  good k t ((take_keyword w ≫= f) t).
Proof.
  intros Ht Hf. destruct (take_keyword_good w t) as (b & t' & E & Hl).
  rewrite (M_bind_eval _ _ _ _ _ E). destruct b.
  - specialize (Ht t' Hl). destruct (f true t') as [[a|e] t2]; simpl in *; [lia | done].
  - specialize (Hf t' ltac:(lia)). destruct (f false t') as [[a|e] t2]; simpl in *; [lia | done].
Qed.
Lemma peek_bind {A} (f : string → M string A) k t :
  good k (lstrip t) (f (lstrip t) (lstrip t)) → good k t ((peek ≫= f) t).
Proof.
  rewrite (M_bind_eval _ _ _ _ _ (peek_good t)). pose proof (lstrip_length t).
  destruct (f _ _) as [[a|e] t']; simpl; [lia | done].
Qed.
Lemma get_bind {A} (f : string → M string A) k t : good k t (f t t) → good k t ((get ≫= f) t).
Proof. done. Qed.

Lemma take_value_good t : good 1 t (take_value t).
Proof.
  unfold take_value. apply peek_bind. destruct (startswith _ _) eqn:Hq.
  - destruct (string_body _) as [[b r]|] eqn:E; [|by eexists].
    apply (string_body_length _ _ _ _ (Nat.le_refl _)) in E. rewrite drop_length in E. simpl. lia.
  - apply (keyword_bind "TRUE"); intros t1 H1; [apply good_ret|].
    apply (keyword_bind "FALSE"); intros t2 H2; [apply good_ret|].
    apply get_bind. destruct (number_text t2) as [[n r]|] eqn:E; [|by eexists].
    apply number_text_length in E. unfold modify, mbind, M_bind, lift. cbv beta iota.
    destruct (contains n "."); [destruct (py_float _) eqn:Ef | destruct (py_int _) eqn:Ef]; simpl; try lia.
    + by apply py_float_error in Ef. 
    + by apply py_int_error in Ef.
Qed.

Lemma advance_good n t : (n ≤ String.length t)%nat → good n t (advance n t).
Proof. intros H. unfold advance, modify, good. rewrite drop_length. lia. Qed.

(** Each loop has budget for every turn it can take. *)
Lemma while_keyword_good fuel w tag operand left t :
  (String.length t < fuel)%nat → (0 < String.length w)%nat →
  (∀ t', (String.length t' ≤ String.length t)%nat → good 0 t' (operand t')) →
  good 0 t (while_keyword fuel w tag operand left t).
Proof.
  revert left t. induction fuel as [|fuel IH]; intros left t Hf Hw Ho; [lia|]. simpl.
  apply keyword_bind; intros t' Ht; [|apply good_ret].
  eapply good_le; [apply (good_bind 0 0)|lia]; [apply Ho; lia|].
  intros right t2 _ H2. apply IH; [lia | done|]. intros t3 H3. apply Ho. lia.
Qed.
Lemma while_followed_good fuel operand steps t :
  (String.length t < fuel)%nat →
  (∀ t', (String.length t' ≤ String.length t)%nat → good 0 t' (operand t')) →
  good 0 t (while_followed fuel operand steps t).
Proof.
  revert steps t. induction fuel as [|fuel IH]; intros steps t Hf Ho; [lia|]. simpl.
  apply keyword_bind; simpl String.length; intros t' Ht; [|apply good_ret].
  eapply good_le; [apply (good_bind 0 0)|lia]; [apply Ho; lia|].
  intros right t2 _ H2. apply IH; [lia|]. intros t3 H3. apply Ho. lia.
Qed.
Lemma in_list_good fuel values t :
  (String.length t < fuel)%nat → good 0 t (in_list fuel values t).
Proof.
  revert values t. induction fuel as [|fuel IH]; intros values t Hf; [lia|]. simpl.
  apply peek_bind. pose proof (lstrip_length t).
  destruct (startswith (lstrip t) ",") eqn:E; [|apply good_ret].
  apply prefix_length in E. eapply good_le; [apply (good_bind 1 0)|lia].
  - apply advance_good, E.
  - intros [] t1 _ H1. eapply good_le; [apply (good_bind 1 0)|lia]; [apply take_value_good|].
    intros v t2 _ H2. apply IH. lia.
Qed.
Lemma expect1_good c message t : good 1 t (expect (String c "") message t).
Proof.
  unfold expect. apply peek_bind. destruct (startswith _ _) eqn:E; [|by eexists].
  apply advance_good. by apply prefix_length in E.
Qed.
Lemma and_expr_good primary t :
  (∀ t', (String.length t' ≤ String.length t)%nat → good 1 t' (primary t')) →
  good 1 t (_and_expr primary t).
Proof.
  intros Hp. unfold _and_expr. apply (good_bind 1 0); [by apply Hp|]. intros left t1 _ H1.
  apply get_bind. apply while_keyword_good; [lia | simpl; lia|].
  intros t2 H2. eapply good_le; [apply Hp; lia | lia].
Qed.
Lemma or_expr_good primary t :
  (∀ t', (String.length t' ≤ String.length t)%nat → good 1 t' (primary t')) →
  good 1 t (_or_expr primary t).
Proof.
  intros Hp. unfold _or_expr. apply (good_bind 1 0); [by apply and_expr_good|]. intros left t1 _ H1.
  apply get_bind. apply while_keyword_good; [lia | simpl; lia|].
  intros t2 H2. eapply good_le; [apply and_expr_good | lia]. intros t3 H3. apply Hp. lia.
Qed.
Lemma comparison_good field t : good 0 t (comparison field t).
Proof.
  unfold comparison. apply peek_bind. destruct (find_first _ _) as [op|]; [|by eexists].
  eapply (good_bind 0 0); [unfold advance, modify, good; rewrite drop_length; lia|].
  intros [] t1 _ H1. eapply (good_bind 0 0).
  - eapply good_le; [apply take_value_good | lia].
  - intros v t2 _ _. apply good_ret.
Qed.
Lemma membership_good field t : good 0 t (membership field t).
Proof.
  unfold membership. eapply good_le; [apply (good_bind 1 0)|lia]; [apply expect1_good|].
  intros [] t1 _ H1. eapply good_le; [apply (good_bind 1 0)|lia]; [apply take_value_good|].
  intros v t2 _ H2. apply get_bind. apply (good_bind 0 0); [apply in_list_good; lia|].
  intros vs t3 _ H3. eapply good_le; [apply (good_bind 1 0)|lia]; [apply expect1_good|].
  intros [] t4 _ _. apply good_ret.
Qed.
Lemma primary_good fuel t : (String.length t < fuel)%nat → good 1 t (_primary fuel t).
Proof.
  revert t. induction fuel as [|fuel IH]; intros t Hf; [lia|]. simpl.
  apply keyword_bind; simpl String.length; intros t1 H1.
  - eapply good_le; [apply (good_bind 1 0)|lia]; [apply IH; lia|]. intros n t2 _ _. apply good_ret.
  - apply peek_bind. pose proof (lstrip_length t1).
    destruct (startswith (lstrip t1) "(") eqn:E.
    + apply prefix_length in E. simpl in E. apply (good_bind 1 0).
      * by apply advance_good.
      * intros [] t2 _ H2. eapply good_le; [apply (good_bind 1 0)|lia].
        { apply or_expr_good. intros t3 H3. apply IH. lia. }
        intros n t3 _ _. eapply good_le; [apply (good_bind 1 0)|lia]; [apply expect1_good|].
        intros [] t4 _ _. apply good_ret.
    + apply (good_bind 1 0); [apply take_ident_good|]. intros field t2 _ H2.
      apply keyword_bind; simpl String.length; intros t3 H3; [apply membership_good | apply comparison_good].
Qed.
Lemma duration_good t : good 0 t (_duration t).
Proof.
  unfold _duration. apply peek_bind. destruct (span is_digit (lstrip t)) as [w r] eqn:E.
  apply span_length in E. destruct w as [|c w]; [by eexists|]. destruct r as [|u r]; [by eexists|].
  destruct (unit_seconds u) as [n|]; [|by eexists].
  unfold modify, mbind, M_bind, lift. cbv beta iota. destruct (py_int _) eqn:Ei; simpl in *; [lia|].
  by apply py_int_error in Ei.
Qed.
Lemma query_body_good operand t :
  (∀ t', (String.length t' ≤ String.length t)%nat → good 1 t' (operand t')) →
  good 0 t (query_body operand t).
Proof.
  intros Ho. assert (∀ t', (String.length t' ≤ String.length t)%nat → good 0 t' (operand t')) as Ho0.
  { intros t' Ht. eapply good_le; [by apply Ho | lia]. }
  unfold query_body. apply keyword_bind; simpl String.length; intros t1 H1.
  - eapply good_le; [apply (good_bind 1 0)|lia]; [apply take_ident_good|]. intros entity t2 _ H2.
    apply keyword_bind; simpl String.length; intros t3 H3; [|by eexists].
    eapply good_le; [apply (good_bind 0 0)|lia]; [apply Ho0; lia|]. intros n t4 _ _. apply good_ret.
  - apply (good_bind 0 0); [apply Ho0; lia|]. intros first t2 _ H2. apply get_bind.
    apply (good_bind 0 0).
    { apply while_followed_good; [lia|]. intros t3 H3. apply Ho0. lia. }
    intros steps t3 _ H3. apply keyword_bind; simpl String.length; intros t4 H4; [|apply good_ret].
    eapply good_le; [apply (good_bind 0 0)|lia]; [|intros v t5 _ _; apply good_ret].
    unfold fmap, M_fmap. pose proof (duration_good t4) as Hd.
    destruct (_duration t4) as [[d|e] t5]; simpl in *; [lia | done].
Qed.

(** Parsing ends: on every text, the lexer and the recursive-descent parser return a
    syntax tree or reject the query with a [BlueQLError]; the recursion budget, one more
    than the length of the text, is never spent. *)
Theorem parse_total query :
  (∃ ast, parse query = Ok ast) ∨ (∃ message, parse query = Raise (BlueQLError message)).
Proof.
  unfold parse, new_lexer. destruct (existsb _ _); [right; by eexists|].
  change (Ok (strip query) ≫= λ text, fst (parse_text text)) with (fst (parse_text (strip query))).
  set (t := strip query). assert (good 0 t (parse_text t)) as Hg.
  { unfold parse_text. apply get_bind. apply (good_bind 0 0).
    - apply query_body_good. intros t' Ht. apply or_expr_good. intros t2 H2. apply primary_good. lia.
    - intros root t1 _ _. apply peek_bind. destruct (nonempty _); [by eexists | apply good_ret]. }
  destruct (parse_text t) as [[ast|e] t']; simpl in *; [left; by eexists | right].
  destruct Hg as [m ->]. by eexists.
Qed.

(** ** What a sequence query reports *)

Section sequences.
Context (window : Z) (test : Node → CanonicalEvent → result bool).

(** One event for each step, in order in [rest], each at most [window] seconds after the
    one before. *)
Inductive chain : list Node → datetime → list CanonicalEvent → list CanonicalEvent → Prop :=
| chain_done cursor rest : chain [] cursor rest []
| chain_step step steps cursor before e rest m :
    test step e = Ok true → dt_sub (e_timestamp e) cursor ≤ seconds window →
    chain steps (e_timestamp e) rest m → chain (step :: steps) cursor (before ++ e :: rest) (e :: m).

(** An occurrence of the sequence in a list of events. *)
Definition occurs (first : Node) (steps : list Node) (ordered occurrence : list CanonicalEvent) : Prop :=
  ∃ before a rest m, ordered = before ++ a :: rest ∧ occurrence = a :: m
    ∧ test first a = Ok true ∧ chain steps (e_timestamp a) rest m.

Lemma find_step_sound step cursor rest e rest' :
  find_step window test step cursor rest = Ok (Some (e, rest')) →
  test step e = Ok true ∧ dt_sub (e_timestamp e) cursor ≤ seconds window
  ∧ ∃ before, rest = before ++ e :: rest'.
Proof.
  induction rest as [|c rest IH]; simpl; [done|]. case_match eqn:Hd; [done|]. py_bool.
  intros (b & Hb & H)%result_bind_ok. destruct b.
  - injection H as <- <-. split_and!; [done..|]. by exists [].
  - apply IH in H as (? & ? & before & ->). split_and!; [done..|]. by exists (c :: before).
Qed.
Lemma match_steps_sound steps cursor rest m :
  match_steps window test steps cursor rest = Ok (Some m) → chain steps cursor rest m.
Proof.
  revert cursor rest m. induction steps as [|step steps IH]; intros cursor rest m; simpl.
  { intros [= <-]. constructor. }
  intros (found & Hf & H)%result_bind_ok. destruct found as [[e rest']|]; [|done].
  apply result_bind_ok in H as (matched & Hm & [= H]). destruct matched as [m'|]; [|done].
  injection H as <-. apply find_step_sound in Hf as (? & ? & before & ->).
  constructor; auto.
Qed.
Lemma sequence_hits_sound first steps ordered hits e :
  sequence_hits window test first steps ordered = Ok hits → e ∈ hits →
  ∃ occurrence, occurs first steps ordered occurrence ∧ e ∈ occurrence.
Proof.
  revert hits. induction ordered as [|a rest IH]; intros hits; simpl; [intros [= <-]; set_solver|].
  intros (b & Hb & (matched & Hm & (hs & Hh & [= <-])%result_bind_ok)%result_bind_ok)%result_bind_ok.
  assert (e ∈ hs → ∃ occ, occurs first steps (a :: rest) occ ∧ e ∈ occ) as Hlater.
  { intros He. destruct (IH _ Hh He) as (occ & (before & x & r & m & -> & -> & Hx & Hc) & Hin).
    eexists. split; [|done]. by exists (a :: before), x, r, m. }
  destruct matched as [m|]; [|done]. destruct b; [|done].
  rewrite app_comm_cons. intros [He|He]%elem_of_app; [|by apply Hlater].
  exists (a :: m). split; [|done]. exists [], a, rest, m. split_and!; try done.
  by apply match_steps_sound.
Qed.

(** The scan of the last step finds a follower when there is one: past the window, every
    later event is too. *)
Lemma find_step_complete step cursor rest found e :
  sorted_by (λ a b, dt_le (e_timestamp a) (e_timestamp b)) rest →
  find_step window test step cursor rest = Ok found → e ∈ rest → test step e = Ok true →
  dt_sub (e_timestamp e) cursor ≤ seconds window → found ≠ None.
Proof.
  induction 1 as [|c rest Hs IH Hc]; simpl; [by intros _ ?%not_elem_of_nil|].
  intros Hf He Ht Hw. rewrite Forall_forall in Hc.
  destruct (seconds window <? _) eqn:Hd.
  - py_bool. exfalso. apply elem_of_cons in He as [->|He]; [lia|].
    specialize (Hc e He). apply dt_le_spec in Hc. unfold dt_sub in *. lia.
  - apply result_bind_ok in Hf as (b & Hb & Hf). destruct b; [by injection Hf as <-|].
    apply elem_of_cons in He as [->|He]; [congruence | by apply IH].
Qed.
Lemma sequence_hits_complete first step ordered hits a e :
  sorted_by (λ a b, dt_le (e_timestamp a) (e_timestamp b)) ordered →
  sequence_hits window test first [step] ordered = Ok hits →
  occurs first [step] ordered [a; e] → a ∈ hits.
Proof.
  intros Hs. revert hits. induction Hs as [|c rest Hs IH _]; intros hits; simpl.
  { intros _ (before & x & r & m & H & _). by destruct before. }
  intros (b & Hb & (matched & Hm & (hs & Hh & [= <-])%result_bind_ok)%result_bind_ok)%result_bind_ok.
  intros ([|c' before] & x & r & m & Hl & Ho & Hx & Hc); simpl in Hl;
    injection Hl as -> ->; injection Ho as <- <-.
  - assert (b = true) as -> by congruence. simpl in Hm.
    apply result_bind_ok in Hm as (found & Hf & Hm). inversion Hc as [|? ? ? before' e' rest' m' Ht Hw Hc' H1 H2 H3]; subst.
    destruct found as [[e' r']|]; [|exfalso; eapply find_step_complete; eauto; set_solver].
    simpl in Hm. injection Hm as <-. by left.
  - assert (a ∈ hs) as Hin.
    { eapply IH; [done|]. by exists before, a, r, [e]. }
    destruct matched; [|done]. right. apply elem_of_app. by right.
Qed.
End sequences.

Lemma unique_by_id_elem seen hits e :
  e ∈ unique_by_id seen hits → e ∈ hits ∧ e_id e ∉ seen.
Proof.
  revert seen. induction hits as [|x hits IH]; intros seen; simpl; [by intros ?%not_elem_of_nil|].
  destruct (mem (e_id x) seen) eqn:E.
  - intros [? ?]%IH. split; [by right | done].
  - apply mem_false in E. intros [->|He]%elem_of_cons; [split; [by left | done]|].
    apply IH in He as [He Hn]. split; [by right | set_solver].
Qed.
Lemma unique_by_id_complete seen hits e :
  e ∈ hits → e_id e ∉ seen → e_id e ∈ e_id <$> unique_by_id seen hits.
Proof.
  revert seen. induction hits as [|x hits IH]; intros seen; [by intros ?%not_elem_of_nil|]. simpl.
  intros [->|He]%elem_of_cons Hn.
  - apply mem_false in Hn. rewrite Hn. by left.
  - destruct (mem (e_id x) seen); [by apply IH|]. simpl.
    destruct (decide (e_id e = e_id x)) as [->|]; [by left|]. right. apply IH; set_solver.
Qed.
Lemma unique_by_id_NoDup seen hits : NoDup (e_id <$> unique_by_id seen hits).
Proof.
  revert seen. induction hits as [|x hits IH]; intros seen; simpl; [constructor|].
  destruct (mem _ _); [done|]. simpl. constructor; [|done].
  intros (y & Hy & Hin)%list_elem_of_fmap. apply unique_by_id_elem in Hin as [_ Hn].
  rewrite Hy in Hn. apply Hn. by left.
Qed.
Lemma by_timestamp_sorted events :
  sorted_by (λ a b, dt_le (e_timestamp a) (e_timestamp b)) (by_timestamp events).
Proof.
  apply sort_by_sorted.
  - intros a b H. apply Z.leb_gt in H. apply dt_le_spec. lia.
  - intros a b c Ha Hb. apply dt_le_spec in Ha, Hb. apply dt_le_spec. lia.
Qed.

(** C26. Sequence queries: the events a query [first FOLLOWED_BY ..] reports are events of
    the input with distinct identifiers, and each belongs to an occurrence of the sequence
    in time order, every step at most the window after the one before; a two-step query
    reports the first event of every occurrence there is. *)
Theorem sequence_reports_occurrences first steps v w events hits :
  sequence_window v = Ok w →
  execute_ast (MkNode "sequence" v (first :: steps)) events = Ok hits →
  let occurrence := occurs w (λ n e, _eval_pred e n) first steps (by_timestamp events) in
  NoDup (e_id <$> hits)
  ∧ (∀ e, e ∈ hits → e ∈ events ∧ ∃ l, occurrence l ∧ e ∈ l)
  ∧ (length steps = 1%nat → ∀ a l, occurrence (a :: l) → e_id a ∈ e_id <$> hits).
Proof.
  intros Hw He occurrence. unfold execute_ast in He. simpl in He. unfold _execute_sequence in He. simpl in He.
  rewrite Hw in He. simpl in He. apply result_bind_ok in He as (hs & Hh & [= <-]).
  split_and!; [apply unique_by_id_NoDup | |].
  - intros e [Hin _]%unique_by_id_elem. destruct (sequence_hits_sound _ _ _ _ _ _ _ Hh Hin) as (l & Hl & Hel).
    split; [|by exists l]. apply (elem_of_sort_by (λ a b, dt_le (e_timestamp a) (e_timestamp b))).
    destruct Hl as (before & a & rest & m & Ho & -> & _ & Hc). fold (by_timestamp events).
    rewrite Ho. apply elem_of_app. right. apply elem_of_cons in Hel as [->|Hel]; [by left|]. right.
    clear Hh Ho Hin. induction Hc; [by apply not_elem_of_nil in Hel|]. set_solver.
  - intros Hlen a l Hl. apply unique_by_id_complete; [|apply not_elem_of_nil].
    destruct steps as [|step [|]]; try done.
    destruct Hl as (before & a' & rest & m & Ho & Heq & Ha & Hc). injection Heq as -> ->.
    inversion Hc as [|? ? ? ? e ? m' Ht Hd Hc' H1 H2 H3]; subst. inversion Hc'; subst.
    eapply sequence_hits_complete; [apply by_timestamp_sorted | exact Hh|].
    by exists before, a', (before0 ++ e :: rest0), [e].
Qed.

(** ** Printing and parsing back

    A predicate as an analyst means it, its text, and its syntax tree. *)

Inductive literal := LStr (s : string) | LInt (z : Z) | LBool (b : bool).
Inductive comparator := CEq | CNe | CGt | CGe | CLt | CLe.
Inductive pred :=
| PCmp (field : string) (op : comparator) (l : literal)
| PIn (field : string) (l : literal) (ls : list literal)
| PNot (p : pred)
| PAnd (p q : pred)
| POr (p q : pred).

Definition op_text (op : comparator) : string :=
  match op with CEq => "=" | CNe => "!=" | CGt => ">" | CGe => ">=" | CLt => "<" | CLe => "<=" end.
Definition literal_value (l : literal) : pyval :=
  match l with LStr s => VStr s | LInt z => VInt z | LBool b => VBool b end.
Definition literal_node (l : literal) : Node := MkNode "literal" (literal_value l) [].
Fixpoint tree (p : pred) : Node :=
  match p with
  | PCmp f op l => MkNode "cmp" (VDict [("field", VStr f); ("op", VStr (op_text op))]) [literal_node l]
  | PIn f l ls => MkNode "in" (VStr f) (literal_node <$> l :: ls)
  | PNot p => MkNode "not" VNone [tree p]
  | PAnd p q => MkNode "and" VNone [tree p; tree q]
  | POr p q => MkNode "or" VNone [tree p; tree q]
  end.

Definition literal_text (l : literal) : string :=
  match l with
  | LStr s => String dquote_ch (s +:+ String dquote_ch "")
  | LInt z => str_of_Z z
  | LBool b => if b then "TRUE" else "FALSE"
  end.
Fixpoint more_literals (ls : list literal) : string :=
  match ls with [] => "" | l :: ls => ", " +:+ literal_text l +:+ more_literals ls end.
Definition paren (s : string) : string := "(" +:+ s +:+ ")".
(** The text of a predicate as an operand of [OR] (0), of [AND] (1), or alone (2). *)
Fixpoint text_at (level : nat) (p : pred) : string :=
  match p with
  | PCmp f op l => f +:+ " " +:+ op_text op +:+ " " +:+ literal_text l
  | PIn f l ls => f +:+ " IN (" +:+ literal_text l +:+ more_literals ls +:+ ")"
  | PNot p => "NOT " +:+ text_at 2 p
  | PAnd p q => let t := text_at 1 p +:+ " AND " +:+ text_at 2 q in
                if (level <=? 1)%nat then t else paren t
  | POr p q => let t := text_at 0 p +:+ " OR " +:+ text_at 1 q in
               if (level <=? 0)%nat then t else paren t
  end.
Definition query_text : pred → string := text_at 0.




(** *** Lexing what was printed *)




(** An integer starts with a sign or a digit and has no point. *)
Lemma int_text z : ∃ x w, str_of_Z z = String x w ∧ (45 ≤ code x < 65)%N ∧ contains (str_of_Z z) "." = false.
Proof.
  assert (∀ s, str_all is_digit s = true → contains s "." = false) as Hdot.
  { induction s as [|c s IH]; [done|]. cbn [str_all contains]. intros [Hc Hs]%andb_prop.
    rewrite (IH Hs), orb_false_r. cbn [String.prefix].
    destruct (ascii_dec "." c) as [<-|]; [by vm_compute in Hc | done]. }
  destruct (str_of_Z_cases z) as (c & s & Hd & Hz). pose proof (Hdot _ Hd) as Hc.
  cbn [str_all] in Hd. apply andb_prop in Hd as [Hd _]. unfold is_digit, in_range in Hd.
  apply andb_prop in Hd as [H1 H2]. apply N.leb_le in H1, H2.
  destruct Hz as [(_ & -> & _)|(_ & -> & _)]; eexists _, _; (split; [done|]).
  - split; [by vm_compute | exact Hc].
  - split; [lia | exact Hc].
Qed.

(** *** Parsing what was printed *)


Lemma literal_text_nonempty l : (0 < String.length (literal_text l))%nat.
Proof.
  destruct l as [s|z|[]]; simpl; try lia. destruct (int_text z) as (x & w & -> & _). simpl. lia.
Qed.












(** ** Examples *)

Definition at_second (id : string) (s : Z) (category : string) : CanonicalEvent :=
  let e := blank_event id "ten_a" (utc 20000 s) in
  {| e_id := e_id e; e_tenant_id := e_tenant_id e; e_timestamp := e_timestamp e;
     e_ingested_at := e_ingested_at e; e_source := e_source e; e_source_type := e_source_type e;
     e_event_type := e_event_type e; e_category := category; e_user := None; e_host := None;
     e_process := None; e_parent_process := None; e_src_ip := Some "10.0.0.1"; e_dst_ip := None;
     e_src_port := None; e_dst_port := None; e_protocol := None; e_domain := None; e_url := None;
     e_file := None; e_hash := None; e_identity := None; e_cloud_resource := None; e_action := None;
     e_outcome := Some Success; e_severity := Informational; e_confidence := e_confidence e;
     e_risk_score := e_risk_score e; e_raw_event := []; e_schema_version := SCHEMA_VERSION;
     e_attributes := []; e_idempotency_key := None; e_correlation_id := None; e_trace_id := None;
     e_raw_hash := None |}.
Definition abc_events : list CanonicalEvent :=
  [at_second "e0" 0 "a"; at_second "e1" 1 "b"; at_second "e4" 4 "b"; at_second "e8" 8 "c"].
Definition is_category (c : string) : pred := PCmp "category" CEq (LStr c).
Definition hunt_pred : pred :=
  POr (PAnd (is_category "b") (PNot (PIn "src_ip" (LStr "192.0.2.1") [LStr "192.0.2.2"])))
      (PCmp "auth.failures" CGe (LInt 2)).
Definition abc_sequence (within : string) : string :=
  query_text (is_category "a") +:+ " FOLLOWED_BY " +:+ query_text (is_category "b")
  +:+ " FOLLOWED_BY " +:+ query_text (is_category "c") +:+ within.

Definition found (r : result (list CanonicalEvent)) : result (list string) :=
  match r with Ok l => Ok (e_id <$> l) | Raise e => Raise e end.
Example hunt_events : found (execute (query_text hunt_pred) abc_events) = Ok ["e1"; "e4"].
Proof. vm_compute. reflexivity. Qed.
(** A window of zero seconds is read as the default of ten minutes. *)
Example zero_window : found (execute (abc_sequence " WITHIN 0s") abc_events) = Ok ["e0"; "e1"; "e8"].
Proof. vm_compute. reflexivity. Qed.
(** The scan commits to the first event of each step: the occurrence [e0, e4, e8] of a
    three-step sequence within five seconds a step is not reported. *)
Lemma three_steps_missed :
  execute (abc_sequence " WITHIN 5s") abc_events = Ok []
  ∧ occurs 5 (λ n e, _eval_pred e n) (tree (is_category "a")) (tree <$> [is_category "b"; is_category "c"])
      (by_timestamp abc_events) [at_second "e0" 0 "a"; at_second "e4" 4 "b"; at_second "e8" 8 "c"].
Proof.
  split; [vm_compute; reflexivity|].
  exists [], (at_second "e0" 0 "a"), (drop 1 abc_events), [at_second "e4" 4 "b"; at_second "e8" 8 "c"].
  split_and!; [vm_compute; reflexivity | done | vm_compute; reflexivity|].
  apply (chain_step _ _ _ _ _ [at_second "e1" 1 "b"] (at_second "e4" 4 "b"));
    [vm_compute; reflexivity | vm_compute; discriminate|].
  apply (chain_step _ _ _ _ _ [] (at_second "e8" 8 "c") []); [vm_compute; reflexivity | vm_compute; discriminate|].
  constructor.
Qed.

Lemma sequence_reports_occurrences_witness :
  NoDup (e_id <$> [at_second "e0" 0 "a"; at_second "e1" 1 "b"]).
Proof.
  refine (proj1 (sequence_reports_occurrences (tree (is_category "a")) [tree (is_category "b")] (VInt 5) 5
    abc_events [at_second "e0" 0 "a"; at_second "e1" 1 "b"] _ _)); vm_compute; reflexivity.
Defined.
