(* ===== verification/EntityGraph.v ===== *)
(** * The entity graph

    Models [packages/entity-graph/blueteam_graph/engine.py] with the contracts of
    [schemas/graph.py]: entities and relationships read off the events, and the risk of an
    entity from the findings that touch it. The two dicts of [build_graph] are the state
    of its loop. *)
From S2P Require Export PyFloat Schemas Hashing.
Local Open Scope Z_scope.

Inductive EntityType := EUser | EHost | EIp | EDomain | EProcess | ECloudResource.
Inductive RelationType := UsedFrom | OnHost | Ran | ChildOf | ConnectedTo | Queried | Owns.
#[export] Instance EntityType_eq_dec : EqDecision EntityType. Proof. solve_decision. Defined.
#[export] Instance RelationType_eq_dec : EqDecision RelationType. Proof. solve_decision. Defined.
Definition entity_type_str (t : EntityType) : string :=
  match t with
  | EUser => "user" | EHost => "host" | EIp => "ip" | EDomain => "domain" | EProcess => "process"
  | ECloudResource => "cloud_resource"
  end.
Definition relation_str (r : RelationType) : string :=
  match r with
  | UsedFrom => "used_from" | OnHost => "on_host" | Ran => "ran" | ChildOf => "child_of"
  | ConnectedTo => "connected_to" | Queried => "queried" | Owns => "owns"
  end.

Record RiskComponent := {
  rc_source : string; rc_kind : string; rc_points : float; rc_explanation : string }.
Record GraphEntity := {
  ge_id : string; ge_tenant_id : string; ge_entity_type : EntityType; ge_key : string;
  ge_display_name : string; ge_criticality : string; ge_risk_score : float;
  ge_risk_components : list RiskComponent; ge_event_ids : list string;
  ge_finding_ids : list string; ge_first_seen : datetime; ge_last_seen : datetime;
  ge_attributes : list (string * string) }.
Record GraphRelationship := {
  gr_id : string; gr_tenant_id : string; gr_src_id : string; gr_dst_id : string;
  gr_relation : RelationType; gr_event_ids : list string; gr_manufactured : bool }.
Record EntityGraph := {
  eg_tenant_id : string; eg_entities : list GraphEntity;
  eg_relationships : list GraphRelationship; eg_manufactured_edges : bool }.

Definition severity_points (s : Severity) : float :=
  fl_of_Z match s with Critical => 40 | High => 25 | Medium => 12 | Low => 5 | Informational => 1 end.
Definition CRITICALITY_FACTOR : list (string * float) := [
  ("unknown", fl_of_Z 1); ("low", fl_of_decimal false 8 (-1)); ("medium", fl_of_Z 1);
  ("high", fl_of_decimal false 125 (-2)); ("crown_jewel", fl_of_decimal false 15 (-1))].

Definition entity_id (tenant_id : string) (entity_type : EntityType) (key : string) : string :=
  "ent_" +:+ str_take 32 (sha256_hex (tenant_id +:+ "|" +:+ entity_type_str entity_type +:+ "|" +:+ lower key)).
Definition relationship_id (tenant_id src_id : string) (relation : RelationType) (dst_id : string) : string :=
  "rel_" +:+ str_take 32 (sha256_hex (tenant_id +:+ "|" +:+ src_id +:+ "|" +:+ relation_str relation +:+ "|" +:+ dst_id)).

(** ** The loop over the events *)

Record graph_state := {
  gs_entities : list (string * GraphEntity); gs_relationships : list (string * GraphRelationship) }.
Definition put_entity (eid : string) (e : GraphEntity) (g : graph_state) : graph_state :=
  {| gs_entities := dset eid e (gs_entities g); gs_relationships := gs_relationships g |}.
Definition put_relationship (rid : string) (r : GraphRelationship) (g : graph_state) : graph_state :=
  {| gs_entities := gs_entities g; gs_relationships := dset rid r (gs_relationships g) |}.
Definition add_id (i : string) (ids : list string) : list string := if mem i ids then ids else ids ++ [i].

(** An entity already met: one more event, and the span of its sightings. *)
Definition seen_again (event : CanonicalEvent) (e : GraphEntity) : GraphEntity := {|
  ge_id := ge_id e; ge_tenant_id := ge_tenant_id e; ge_entity_type := ge_entity_type e;
  ge_key := ge_key e; ge_display_name := ge_display_name e; ge_criticality := ge_criticality e;
  ge_risk_score := ge_risk_score e; ge_risk_components := ge_risk_components e;
  ge_event_ids := add_id (e_id event) (ge_event_ids e); ge_finding_ids := ge_finding_ids e;
  ge_first_seen := if dt_lt (e_timestamp event) (ge_first_seen e) then e_timestamp event else ge_first_seen e;
  ge_last_seen := if dt_lt (ge_last_seen e) (e_timestamp event) then e_timestamp event else ge_last_seen e;
  ge_attributes := ge_attributes e |}.
Definition cite (event_id : string) (r : GraphRelationship) : GraphRelationship := {|
  gr_id := gr_id r; gr_tenant_id := gr_tenant_id r; gr_src_id := gr_src_id r; gr_dst_id := gr_dst_id r;
  gr_relation := gr_relation r; gr_event_ids := add_id event_id (gr_event_ids r);
  gr_manufactured := gr_manufactured r |}.

Definition upsert (tenant_id : string) (entity_type : EntityType) (key name : string)
    (event : CanonicalEvent) (attrs : list (string * string)) : M graph_state string :=
  let eid := entity_id tenant_id entity_type key in
  g ← get;
  modify (put_entity eid
    match dget eid (gs_entities g) with
    | None => {|
        ge_id := eid; ge_tenant_id := tenant_id; ge_entity_type := entity_type; ge_key := lower key;
        ge_display_name := name; ge_criticality := "unknown"; ge_risk_score := fl_of_Z 0;
        ge_risk_components := []; ge_event_ids := [e_id event]; ge_finding_ids := [];
        ge_first_seen := e_timestamp event; ge_last_seen := e_timestamp event;
        ge_attributes := select (λ kv, nonempty kv.2) attrs |}
    | Some existing => seen_again event existing
    end);;
  mret eid.
Definition relate (tenant_id src : string) (relation : RelationType) (dst event_id : string)
    : M graph_state unit :=
  let rid := relationship_id tenant_id src relation dst in
  g ← get;
  modify (put_relationship rid
    match dget rid (gs_relationships g) with
    | None => {|
        gr_id := rid; gr_tenant_id := tenant_id; gr_src_id := src; gr_dst_id := dst;
        gr_relation := relation; gr_event_ids := [event_id]; gr_manufactured := false |}
    | Some existing => cite event_id existing
    end).

(** [x or ""] on an optional string, and the key of a process. *)
Definition host_key (h : CanonicalHost) : string := ostr (oor (h_id h) (h_name h)).
Definition process_key (p : CanonicalProcess) : string :=
  ostr (p_name p) +:+ ":" +:+
  match p_pid p with Some pid => if pid =? 0 then "na" else str_of_Z pid | None => "na" end.
(** [if c: x = upsert(..)] *)
Definition when_some {A} (o : option A) (f : A → M graph_state string) : M graph_state (option string) :=
  match o with Some a => Some <$> f a | None => mret None end.
Definition relate_if (tenant_id : string) (src : option string) (relation : RelationType)
    (dst : option string) (event_id : string) : M graph_state unit :=
  match src, dst with
  | Some s, Some d => relate tenant_id s relation d event_id
  | _, _ => mret tt
  end.

(** The parts of an event the loop tests: [event.user and event.user.name] and so on. *)
Definition named_user (e : CanonicalEvent) : option CanonicalUser :=
  u ← e_user e; if otrue (u_name u) then Some u else None.
Definition named_host (e : CanonicalEvent) : option CanonicalHost :=
  h ← e_host e; if otrue (h_id h) || otrue (h_name h) then Some h else None.
Definition named (p : option CanonicalProcess) : option CanonicalProcess :=
  p ← p; if otrue (p_name p) then Some p else None.
Definition filled (o : option string) : option string := s ← o; if nonempty s then Some s else None.
Definition cloud_of (e : CanonicalEvent) : option CanonicalCloudResource :=
  c ← e_cloud_resource e; if otrue (c_resource_id c) || otrue (c_account_id c) then Some c else None.

Definition graph_event (tenant_id : string) (event : CanonicalEvent) : M graph_state unit :=
  let up := upsert tenant_id in
  let rel := λ s r d, relate_if tenant_id s r d (e_id event) in
  user_id ← when_some (named_user event) (λ u,
    up EUser (ostr (u_name u)) (ostr (u_name u)) event [("user_id", ostr (u_id u))]);
  host_id ← when_some (named_host event) (λ h,
    up EHost (host_key h) (str_or (ostr (h_name h)) (host_key h)) event [("os", ostr (h_os h))]);
  proc_id ← when_some (named (e_process event)) (λ p,
    up EProcess (process_key p) (ostr (p_name p)) event
      [("path", ostr (p_path p)); ("command_line", ostr (p_command_line p))]);
  src_ip ← when_some (filled (e_src_ip event)) (λ ip, up EIp ip ip event [("role", "src")]);
  rel user_id UsedFrom src_ip;;
  rel host_id ConnectedTo src_ip;;
  dst_ip ← when_some (filled (e_dst_ip event)) (λ ip, up EIp ip ip event [("role", "dst")]);
  rel host_id ConnectedTo dst_ip;;
  rel proc_id ConnectedTo dst_ip;;
  domain_id ← when_some (filled (e_domain event)) (λ d, up EDomain d d event []);
  rel (entity_id tenant_id EIp <$> filled (e_src_ip event)) Queried domain_id;;
  when_some (cloud_of event) (λ c,
    let cloud_key := ostr (oor (c_resource_id c) (c_account_id c)) in
    up ECloudResource cloud_key (str_or (ostr (c_resource_type c)) cloud_key) event
      [("provider", ostr (c_provider c)); ("account_id", ostr (c_account_id c))]);;
  rel user_id OnHost host_id;;
  rel host_id Ran proc_id;;
  match proc_id with
  | None => mret tt
  | Some _ =>
      parent_id ← when_some (named (e_parent_process event)) (λ p,
        up EProcess (process_key p) (ostr (p_name p)) event []);
      rel proc_id ChildOf parent_id
  end.

(** ** Risk *)

Definition fattr_or_empty (k : string) (f : Finding) : string := lower (ostr (fattr k f)).
Definition _finding_touches (entity : GraphEntity) (finding : Finding) : bool :=
  let key := ge_key entity in
  existsb (λ i, mem i (fi_event_ids finding)) (ge_event_ids entity)
  || match ge_entity_type entity with
     | EUser => (fattr_or_empty "user" finding =? key)%string
     | EHost => (fattr_or_empty "host" finding =? key)%string
     | EIp => mem key [fattr_or_empty "src_ip" finding; fattr_or_empty "dst_ip" finding]
     | EProcess => nonempty (fattr_or_empty "process" finding) && contains key (fattr_or_empty "process" finding)
     | _ => false
     end.
Definition finding_component (f : Finding) : RiskComponent :=
  let points := severity_points (fi_severity f) in {|
  rc_source := fi_id f;
  rc_kind := if startswith (fi_rule_id f) "intel." then "intel" else "detection"; rc_points := points;
  rc_explanation := fi_rule_id f +:+ " (" +:+ severity_str (fi_severity f) +:+ ") contributed "
                    +:+ fl_repr points +:+ " points." |}.
Definition criticality_factor (criticality : string) : float :=
  default (fl_of_Z 1) (dget criticality CRITICALITY_FACTOR).
(** [min(100.0, x)] *)
Definition cap_100 (x : float) : float := if fl_lt x (fl_of_Z 100) then x else fl_of_Z 100.
Definition touching (entity : GraphEntity) (findings : list Finding) : list Finding :=
  select (λ f, (fi_tenant_id f =? ge_tenant_id entity)%string && _finding_touches entity f) findings.
Definition raw_points (findings : list Finding) : float :=
  foldl (λ raw f, fl_add raw (severity_points (fi_severity f))) (fl_of_Z 0) findings.
Definition apply_risk (entity : GraphEntity) (findings : list Finding) : GraphEntity :=
  let touched := touching entity findings in
  let raw := raw_points touched in
  let criticality := ge_criticality entity in
  let factor := criticality_factor criticality in
  {| ge_id := ge_id entity; ge_tenant_id := ge_tenant_id entity; ge_entity_type := ge_entity_type entity;
     ge_key := ge_key entity; ge_display_name := ge_display_name entity; ge_criticality := criticality;
     ge_risk_score := cap_100 (fl_round 2 (fl_mul raw factor));
     ge_risk_components := (finding_component <$> touched) ++
       (if fl_eqb factor (fl_of_Z 1) then [] else [{|
          rc_source := "criticality:" +:+ criticality; rc_kind := "criticality";
          rc_points := fl_round 2 (fl_mul raw (fl_sub factor (fl_of_Z 1)));
          rc_explanation := "Asset criticality " +:+ criticality +:+ " applies factor " +:+ fl_repr factor +:+ "." |}]);
     ge_event_ids := ge_event_ids entity; ge_finding_ids := fi_id <$> touched;
     ge_first_seen := ge_first_seen entity; ge_last_seen := ge_last_seen entity;
     ge_attributes := ge_attributes entity |}.
Definition with_criticality (c : string) (e : GraphEntity) : GraphEntity := {|
  ge_id := ge_id e; ge_tenant_id := ge_tenant_id e; ge_entity_type := ge_entity_type e;
  ge_key := ge_key e; ge_display_name := ge_display_name e; ge_criticality := c;
  ge_risk_score := ge_risk_score e; ge_risk_components := ge_risk_components e;
  ge_event_ids := ge_event_ids e; ge_finding_ids := ge_finding_ids e;
  ge_first_seen := ge_first_seen e; ge_last_seen := ge_last_seen e; ge_attributes := ge_attributes e |}.

(** The dicts at the end of the loop. *)
Definition graph_events (tenant_id : string) (events : list CanonicalEvent) : graph_state :=
  snd (foldM (λ _, graph_event tenant_id) tt events {| gs_entities := []; gs_relationships := [] |}).
Definition build_graph (events : list CanonicalEvent) (findings : list Finding)
    (criticality : list (string * string)) : EntityGraph :=
  match events with
  | [] => {| eg_tenant_id := match findings with f :: _ => fi_tenant_id f | [] => "" end;
             eg_entities := []; eg_relationships := []; eg_manufactured_edges := false |}
  | first :: _ =>
      let g := graph_events (e_tenant_id first) events in
      let scored := (λ kv : string * GraphEntity,
        apply_risk (with_criticality (default "unknown" (dget (ge_id kv.2) criticality)) kv.2) findings)
        <$> gs_entities g in
      {| eg_tenant_id := e_tenant_id first;
         eg_entities := sort_by (λ a b, fl_le (ge_risk_score b) (ge_risk_score a)) scored;
         eg_relationships := snd <$> gs_relationships g; eg_manufactured_edges := false |}
  end.

(** ** What an event shows

    A node is what an entity stands for; an edge joins two nodes that one event names. *)
Definition node : Type := EntityType * string.
Record edge := MkEdge { ed_src : node; ed_relation : RelationType; ed_dst : node }.
Definition node_id (t : string) (n : node) : string := entity_id t n.1 n.2.
Definition edge_id (t : string) (e : edge) : string :=
  relationship_id t (node_id t (ed_src e)) (ed_relation e) (node_id t (ed_dst e)).

Definition user_node (ev : CanonicalEvent) : option node := (λ u, (EUser, ostr (u_name u))) <$> named_user ev.
Definition host_node (ev : CanonicalEvent) : option node := (λ h, (EHost, host_key h)) <$> named_host ev.
Definition process_node (p : option CanonicalProcess) : option node :=
  (λ p, (EProcess, process_key p)) <$> named p.
Definition ip_node (ip : option string) : option node := pair EIp <$> filled ip.
Definition domain_node (ev : CanonicalEvent) : option node := pair EDomain <$> filled (e_domain ev).
Definition cloud_node (ev : CanonicalEvent) : option node :=
  (λ c, (ECloudResource, ostr (oor (c_resource_id c) (c_account_id c)))) <$> cloud_of ev.
(** The parent of a process is read when the process itself is named. *)
Definition parent_node (ev : CanonicalEvent) : option node :=
  _ ← process_node (e_process ev); process_node (e_parent_process ev).
Definition mentions (ev : CanonicalEvent) : list node :=
  option_list (user_node ev) ++ option_list (host_node ev) ++ option_list (process_node (e_process ev))
  ++ option_list (ip_node (e_src_ip ev)) ++ option_list (ip_node (e_dst_ip ev))
  ++ option_list (domain_node ev) ++ option_list (cloud_node ev) ++ option_list (parent_node ev).
Definition joined (s : option node) (r : RelationType) (d : option node) : list edge :=
  match s, d with Some s, Some d => [MkEdge s r d] | _, _ => [] end.
Definition edges (ev : CanonicalEvent) : list edge :=
  joined (user_node ev) UsedFrom (ip_node (e_src_ip ev))
  ++ joined (host_node ev) ConnectedTo (ip_node (e_src_ip ev))
  ++ joined (host_node ev) ConnectedTo (ip_node (e_dst_ip ev))
  ++ joined (process_node (e_process ev)) ConnectedTo (ip_node (e_dst_ip ev))
  ++ joined (ip_node (e_src_ip ev)) Queried (domain_node ev)
  ++ joined (user_node ev) OnHost (host_node ev)
  ++ joined (host_node ev) Ran (process_node (e_process ev))
  ++ joined (process_node (e_process ev)) ChildOf (parent_node ev).

(** The graph of some events, said without the loop. *)
Record observed (t : string) (events : list CanonicalEvent) (entities : list GraphEntity)
    (relationships : list GraphRelationship) : Prop := {
  ob_entity : ∀ e, e ∈ entities → ge_tenant_id e = t ∧
    (∃ ev n, ev ∈ events ∧ n ∈ mentions ev ∧ ge_id e = node_id t n ∧ ge_entity_type e = n.1 ∧ ge_key e = lower n.2)
    ∧ ∀ i, i ∈ ge_event_ids e → ∃ ev n, ev ∈ events ∧ e_id ev = i ∧ n ∈ mentions ev ∧ ge_id e = node_id t n;
  ob_mention : ∀ ev n, ev ∈ events → n ∈ mentions ev → ∃ e, e ∈ entities ∧ ge_id e = node_id t n
    ∧ e_id ev ∈ ge_event_ids e ∧ instant (ge_first_seen e) ≤ instant (e_timestamp ev) ≤ instant (ge_last_seen e);
  ob_relationship : ∀ r, r ∈ relationships → gr_tenant_id r = t ∧ gr_manufactured r = false ∧ gr_event_ids r ≠ []
    ∧ (∃ ev d, ev ∈ events ∧ d ∈ edges ev ∧ gr_src_id r = node_id t (ed_src d)
         ∧ gr_relation r = ed_relation d ∧ gr_dst_id r = node_id t (ed_dst d) ∧ gr_id r = edge_id t d)
    ∧ (∀ i, i ∈ gr_event_ids r → ∃ ev d, ev ∈ events ∧ e_id ev = i ∧ d ∈ edges ev ∧ gr_id r = edge_id t d)
    ∧ gr_src_id r ∈ ge_id <$> entities ∧ gr_dst_id r ∈ ge_id <$> entities;
  ob_edge : ∀ ev d, ev ∈ events → d ∈ edges ev →
    ∃ r, r ∈ relationships ∧ gr_id r = edge_id t d ∧ e_id ev ∈ gr_event_ids r;
  ob_ids : NoDup (ge_id <$> entities) ∧ NoDup (gr_id <$> relationships);
}.

Lemma elem_of_add_id i j l : i ∈ add_id j l ↔ i = j ∨ i ∈ l.
Proof.
  unfold add_id. destruct (mem j l) eqn:E; [apply mem_spec in E; naive_solver|]. set_solver.
Qed.

Section loop.
Context (t : string).

(** Entry [x] of a dict is an entity (a relationship) of node [n] (edge [d]). *)
Definition entity_for (x : string) (e : GraphEntity) (n : node) : Prop :=
  ge_id e = x ∧ ge_tenant_id e = t ∧ x = node_id t n ∧ ge_entity_type e = n.1 ∧ ge_key e = lower n.2.
Definition relationship_for (x : string) (r : GraphRelationship) (d : edge) : Prop :=
  gr_id r = x ∧ gr_tenant_id r = t ∧ x = edge_id t d ∧ gr_manufactured r = false
  ∧ gr_src_id r = node_id t (ed_src d) ∧ gr_relation r = ed_relation d ∧ gr_dst_id r = node_id t (ed_dst d).

(** The dicts once the nodes [N] and the edges [E] were met, each in its event. *)
Record built (N : list (CanonicalEvent * node)) (E : list (CanonicalEvent * edge)) (g : graph_state) : Prop := {
  bt_entity : ∀ x e, dget x (gs_entities g) = Some e →
    (∃ ev n, (ev, n) ∈ N ∧ entity_for x e n)
    ∧ ∀ i, i ∈ ge_event_ids e → ∃ ev n, (ev, n) ∈ N ∧ e_id ev = i ∧ x = node_id t n;
  bt_node : ∀ ev n, (ev, n) ∈ N → ∃ e, dget (node_id t n) (gs_entities g) = Some e
    ∧ e_id ev ∈ ge_event_ids e ∧ instant (ge_first_seen e) ≤ instant (e_timestamp ev) ≤ instant (ge_last_seen e);
  bt_relationship : ∀ x r, dget x (gs_relationships g) = Some r → gr_event_ids r ≠ []
    ∧ (∃ ev d, (ev, d) ∈ E ∧ relationship_for x r d)
    ∧ ∀ i, i ∈ gr_event_ids r → ∃ ev d, (ev, d) ∈ E ∧ e_id ev = i ∧ x = edge_id t d;
  bt_edge : ∀ ev d, (ev, d) ∈ E → ∃ r, dget (edge_id t d) (gs_relationships g) = Some r ∧ e_id ev ∈ gr_event_ids r;
  bt_keys : NoDup (dkeys (gs_entities g)) ∧ NoDup (dkeys (gs_relationships g));
}.

Lemma built_empty : built [] [] {| gs_entities := []; gs_relationships := [] |}.
Proof. constructor; simpl; try done; [by intros ? ? ?%not_elem_of_nil.. | split; constructor]. Qed.

Lemma entity_for_again x e n ev : entity_for x e n → entity_for x (seen_again ev e) n.
Proof. by intros (? & ? & ? & ? & ?). Qed.
Lemma relationship_for_again x r d i : relationship_for x r d → relationship_for x (cite i r) d.
Proof. by intros (? & ? & ? & ? & ? & ? & ?). Qed.
Lemma first_seen_le ev e : instant (ge_first_seen (seen_again ev e)) ≤ instant (ge_first_seen e)
  ∧ instant (ge_first_seen (seen_again ev e)) ≤ instant (e_timestamp ev).
Proof. simpl. destruct (dt_lt _ _) eqn:E; unfold dt_lt in E; py_bool; lia. Qed.
Lemma last_seen_ge ev e : instant (ge_last_seen e) ≤ instant (ge_last_seen (seen_again ev e))
  ∧ instant (e_timestamp ev) ≤ instant (ge_last_seen (seen_again ev e)).
Proof. simpl. destruct (dt_lt _ _) eqn:E; unfold dt_lt in E; py_bool; lia. Qed.

Lemma upsert_built N E g ev ty key name attrs : built N E g →
  ∃ g', upsert t ty key name ev attrs g = (Ok (node_id t (ty, key)), g') ∧ built (N ++ [(ev, (ty, key))]) E g'.
Proof.
  intros [Be Bn Br Bd [Bk Bk']]. eexists. split; [reflexivity|]. set (eid := entity_id t ty key).
  constructor; simpl.
  - intros x e. rewrite dget_dset. case_decide as Hx; [subst x; intros [= <-] | intros H].
    + destruct (dget eid (gs_entities g)) as [e0|] eqn:E0.
      * destruct (Be _ _ E0) as [(ev0 & n & Hn & Hf) Hi]. split.
        { exists ev0, n. split; [set_solver | by apply entity_for_again]. }
        intros i [->|Hin]%elem_of_add_id; [exists ev, (ty, key); split; [set_solver | done]|].
        destruct (Hi i Hin) as (ev1 & n1 & ? & ? & ?). exists ev1, n1. set_solver.
      * split; [exists ev, (ty, key); split; [set_solver | done]|]. simpl. intros i ->%list_elem_of_singleton.
        exists ev, (ty, key). split; [set_solver | done].
    + destruct (Be _ _ H) as [(ev0 & n & Hn & Hf) Hi]. split; [exists ev0, n; set_solver|].
      intros i Hin. destruct (Hi i Hin) as (ev1 & n1 & ? & ? & ?). exists ev1, n1. set_solver.
  - intros ev0 n. rewrite elem_of_app, list_elem_of_singleton, dget_dset. intros [Hn|[= -> ->]].
    + destruct (Bn _ _ Hn) as (e & He & Hi & H1 & H2). case_decide as Hx; [|by exists e].
      fold eid in Hx. rewrite Hx in He. rewrite He. eexists. split; [done|].
      pose proof (first_seen_le ev e). pose proof (last_seen_ge ev e).
      split; [apply elem_of_add_id; by right | lia].
    + fold eid. rewrite decide_True by done. eexists. split; [done|].
      destruct (dget eid (gs_entities g)) as [e|]; [|simpl; split; [by left | lia]].
      pose proof (first_seen_le ev e). pose proof (last_seen_ge ev e).
      split; [apply elem_of_add_id; by left | lia].
  - done.
  - done.
  - split; [by apply NoDup_dset | done].
Qed.

Lemma relate_built N E g ev s r d : built N E g →
  ∃ g', relate t (node_id t s) r (node_id t d) (e_id ev) g = (Ok tt, g') ∧ built N (E ++ [(ev, MkEdge s r d)]) g'.
Proof.
  intros [Be Bn Br Bd [Bk Bk']]. eexists. split; [reflexivity|]. set (rid := relationship_id _ _ _ _).
  constructor; simpl; try done.
  - intros x rel. rewrite dget_dset. case_decide as Hx; [subst x; intros [= <-] | intros H].
    + destruct (dget rid (gs_relationships g)) as [r0|] eqn:E0.
      * destruct (Br _ _ E0) as (Hne & (ev0 & d0 & Hd & Hf) & Hi). split_and!.
        { simpl. unfold add_id. case_match; [done|]. by intros [_ ?]%app_eq_nil. }
        { exists ev0, d0. split; [set_solver | by apply relationship_for_again]. }
        intros i [->|Hin]%elem_of_add_id; [exists ev, (MkEdge s r d); split; [set_solver | done]|].
        destruct (Hi i Hin) as (ev1 & n1 & ? & ? & ?). exists ev1, n1. set_solver.
      * split_and!; [done | exists ev, (MkEdge s r d); split; [set_solver | done]|].
        simpl. intros i ->%list_elem_of_singleton. exists ev, (MkEdge s r d). split; [set_solver | done].
    + destruct (Br _ _ H) as (Hne & (ev0 & d0 & Hd & Hf) & Hi). split_and!; [done | exists ev0, d0; set_solver|].
      intros i Hin. destruct (Hi i Hin) as (ev1 & n1 & ? & ? & ?). exists ev1, n1. set_solver.
  - intros ev0 d0. rewrite elem_of_app, list_elem_of_singleton, dget_dset. intros [Hn|[= -> ->]].
    + destruct (Bd _ _ Hn) as (r0 & He & Hi). case_decide as Hx; [|by exists r0].
      rewrite Hx in He. fold rid in He. rewrite He. eexists. split; [done|]. apply elem_of_add_id. by right.
    + rewrite decide_True by done. fold rid. eexists. split; [done|].
      destruct (dget rid (gs_relationships g)) as [r0|]; [apply elem_of_add_id; by left | by left].
  - split; [done | by apply NoDup_dset].
Qed.

(** The rest of the loop body after an optional call. *)
Definition ends (P : graph_state → Prop) (r : result unit * graph_state) : Prop :=
  ∃ g', r = (Ok tt, g') ∧ P g'.
Lemma meet_then {A} (k : option string → M graph_state unit) P N E g ev (o : option A) ty
    (key name : A → string) (attrs : A → list (string * string)) :
  built N E g →
  (∀ g', built (N ++ (pair ev <$> option_list ((λ a, (ty, key a)) <$> o))) E g' →
    ends P (k (node_id t <$> ((λ a, (ty, key a)) <$> o)) g')) →
  ends P ((when_some o (λ a, upsert t ty (key a) (name a) ev (attrs a)) ≫= k) g).
Proof.
  intros Hb Hk. destruct o as [a|]; simpl.
  - destruct (upsert_built N E g ev ty (key a) (name a) (attrs a) Hb) as (g' & E' & Hb').
    unfold fmap at 1, M_fmap, mbind, M_bind. rewrite E'. by apply (Hk g').
  - simpl in Hk. rewrite app_nil_r in Hk. by apply Hk.
Qed.
Lemma join_then (k : () → M graph_state unit) P N E g ev s r d : built N E g →
  (∀ g', built N (E ++ (pair ev <$> joined s r d)) g' → ends P (k tt g')) →
  ends P ((relate_if t (node_id t <$> s) r (node_id t <$> d) (e_id ev) ≫= k) g).
Proof.
  intros Hb Hk. destruct s as [s|], d as [d|]; simpl in *; rewrite ?app_nil_r in Hk; try by apply Hk.
  destruct (relate_built N E g ev s r d Hb) as (g' & E' & Hb'). rewrite (M_bind_eval _ _ _ _ _ E').
  by apply Hk.
Qed.
Lemma join_last P N E g ev s r d : built N E g →
  (∀ g', built N (E ++ (pair ev <$> joined s r d)) g' → P g') →
  ends P (relate_if t (node_id t <$> s) r (node_id t <$> d) (e_id ev) g).
Proof.
  intros Hb Hk. destruct s as [s|], d as [d|]; simpl in *; rewrite ?app_nil_r in Hk;
    try (exists g; split; [done | by apply Hk]).
  destruct (relate_built N E g ev s r d Hb) as (g' & E' & Hb'). exists g'. split; [done | by apply Hk].
Qed.

Lemma graph_event_built N E g ev : built N E g →
  ends (built (N ++ (pair ev <$> mentions ev)) (E ++ (pair ev <$> edges ev))) (graph_event t ev g).
Proof.
  intros Hb. unfold graph_event. cbv zeta.
  eapply (meet_then _ _ _ _ _ ev); [exact Hb|]. clear g Hb. intros g Hb.
  eapply (meet_then _ _ _ _ _ ev); [exact Hb|]. clear g Hb. intros g Hb.
  eapply (meet_then _ _ _ _ _ ev); [exact Hb|]. clear g Hb. intros g Hb.
  eapply (meet_then _ _ _ _ _ ev); [exact Hb|]. clear g Hb. intros g Hb.
  fold (user_node ev) (host_node ev) (process_node (e_process ev)) in *.
  change ((λ a, (EIp, a)) <$> filled (e_src_ip ev)) with (ip_node (e_src_ip ev)) in *.
  eapply (join_then _ _ _ _ _ ev); [exact Hb|]. clear g Hb. intros g Hb.
  eapply (join_then _ _ _ _ _ ev); [exact Hb|]. clear g Hb. intros g Hb.
  eapply (meet_then _ _ _ _ _ ev); [exact Hb|]. clear g Hb. intros g Hb.
  change ((λ a, (EIp, a)) <$> filled (e_dst_ip ev)) with (ip_node (e_dst_ip ev)) in *.
  eapply (join_then _ _ _ _ _ ev); [exact Hb|]. clear g Hb. intros g Hb.
  eapply (join_then _ _ _ _ _ ev); [exact Hb|]. clear g Hb. intros g Hb.
  eapply (meet_then _ _ _ _ _ ev); [exact Hb|]. clear g Hb. intros g Hb.
  change ((λ a, (EDomain, a)) <$> filled (e_domain ev)) with (domain_node ev) in *.
  assert (entity_id t EIp <$> filled (e_src_ip ev) = node_id t <$> ip_node (e_src_ip ev)) as ->.
  { unfold ip_node. by destruct (filled (e_src_ip ev)). }
  eapply (join_then _ _ _ _ _ ev); [exact Hb|]. clear g Hb. intros g Hb.
  eapply (meet_then _ _ _ _ _ ev); [exact Hb|]. clear g Hb. intros g Hb.
  fold (cloud_node ev) in *.
  eapply (join_then _ _ _ _ _ ev); [exact Hb|]. clear g Hb. intros g Hb.
  eapply (join_then _ _ _ _ _ ev); [exact Hb|]. clear g Hb. intros g Hb.
  unfold mentions, edges, parent_node. rewrite !fmap_app, !app_assoc.
  destruct (process_node (e_process ev)) as [p|].
  - eapply (meet_then _ _ _ _ _ ev); [exact Hb|]. clear g Hb. intros g Hb.
    change (Some (node_id t p)) with (node_id t <$> Some p).
    eapply (join_last _ _ _ _ ev); [exact Hb|]. clear g Hb. intros g Hb. exact Hb.
  - exists g. split; [done|]. simpl in *. rewrite !app_nil_r in *. exact Hb.
Qed.
End loop.

(** ** Theorems *)

Lemma graph_events_built t events :
  built t (ev ← events; pair ev <$> mentions ev) (ev ← events; pair ev <$> edges ev) (graph_events t events).
Proof.
  unfold graph_events. assert (∀ N E g, built t N E g →
    built t (N ++ (ev ← events; pair ev <$> mentions ev)) (E ++ (ev ← events; pair ev <$> edges ev))
      (snd (foldM (λ _, graph_event t) tt events g))) as H; [|apply (H [] [] _ (built_empty t))].
  induction events as [|ev events IH]; intros N E g Hb; simpl; [by rewrite !app_nil_r|].
  destruct (graph_event_built t N E g ev Hb) as (g' & Eq & Hb'). rewrite (M_bind_eval _ _ _ _ _ Eq).
  rewrite !app_assoc. by apply IH.
Qed.
Lemma elem_of_per_event {A} (f : CanonicalEvent → list A) events ev a :
  (ev, a) ∈ (ev ← events; pair ev <$> f ev) ↔ ev ∈ events ∧ a ∈ f ev.
Proof.
  rewrite list_elem_of_bind. split.
  - intros (ev' & (a' & [= <- <-] & Ha)%list_elem_of_fmap & He). done.
  - intros [He Ha]. exists ev. split; [by apply list_elem_of_fmap_2 | done].
Qed.
Lemma elem_of_option_list {A} (o : option A) a : a ∈ option_list o ↔ o = Some a.
Proof. destruct o; simpl; [rewrite list_elem_of_singleton; naive_solver|]. split; [by intros ?%not_elem_of_nil | done]. Qed.
Lemma elem_of_joined d s r e : d ∈ joined s r e ↔ s = Some (ed_src d) ∧ e = Some (ed_dst d) ∧ ed_relation d = r.
Proof.
  destruct s as [s|], e as [e|], d as [a q b]; simpl; rewrite ?list_elem_of_singleton; try naive_solver.
  all: split; [by intros ?%not_elem_of_nil | naive_solver].
Qed.
Lemma edge_ends_mentioned ev d : d ∈ edges ev → ed_src d ∈ mentions ev ∧ ed_dst d ∈ mentions ev.
Proof.
  unfold edges, mentions. rewrite !elem_of_app, !elem_of_joined, !elem_of_option_list. tauto.
Qed.
Lemma dict_values {A} (d : list (string * A)) (key : A → string) :
  NoDup (dkeys d) → (∀ k a, dget k d = Some a → key a = k) →
  (∀ a, a ∈ snd <$> d ↔ dget (key a) d = Some a) ∧ (key <$> (snd <$> d)) = dkeys d.
Proof.
  intros Hnd Hk. assert (∀ k a, (k, a) ∈ d → key a = k) as Hk'.
  { intros k a Hin. apply Hk. by apply elem_of_dget. }
  split.
  - intros a. rewrite list_elem_of_fmap. split.
    + intros ([k a'] & -> & Hin). simpl. rewrite (Hk' _ _ Hin). by apply elem_of_dget.
    + intros H%dget_elem_of. by exists (key a, a).
  - clear Hk Hnd. induction d as [|[k a] d IH]; [done|]. unfold dkeys in *. simpl. f_equal.
    + apply Hk'. by left.
    + apply IH. intros k' a' Hin. apply Hk'. by right.
Qed.

(** [apply_risk] and the override keep what the loop read off the events. *)
Definition scored (findings : list Finding) (criticality : list (string * string)) (e : GraphEntity) : GraphEntity :=
  apply_risk (with_criticality (default "unknown" (dget (ge_id e) criticality)) e) findings.
Lemma elem_of_entities first rest findings crit e' :
  e' ∈ eg_entities (build_graph (first :: rest) findings crit) ↔
  ∃ e, e ∈ snd <$> gs_entities (graph_events (e_tenant_id first) (first :: rest)) ∧ e' = scored findings crit e.
Proof.
  unfold build_graph. cbn [eg_entities]. rewrite elem_of_sort_by, list_elem_of_fmap. split.
  - intros (kv & -> & Hin). exists (snd kv). split; [by apply list_elem_of_fmap_2 | done].
  - intros (e & (kv & -> & Hin)%list_elem_of_fmap & ->). by exists kv.
Qed.

Section graph_dicts.
Context (t : string) (events : list CanonicalEvent).
Definition graph_entities : list GraphEntity := snd <$> gs_entities (graph_events t events).
Definition graph_relationships : list GraphRelationship := snd <$> gs_relationships (graph_events t events).

Lemma graph_entities_dict :
  (∀ e, e ∈ graph_entities ↔ dget (ge_id e) (gs_entities (graph_events t events)) = Some e)
  ∧ (ge_id <$> graph_entities) = dkeys (gs_entities (graph_events t events)).
Proof.
  pose proof (graph_events_built t events) as [Be _ _ _ [Hk _]]. apply dict_values; [done|].
  intros k e He. by destruct (Be _ _ He) as [(ev & n & _ & Hid & _) _].
Qed.
Lemma graph_relationships_dict :
  (∀ r, r ∈ graph_relationships ↔ dget (gr_id r) (gs_relationships (graph_events t events)) = Some r)
  ∧ (gr_id <$> graph_relationships) = dkeys (gs_relationships (graph_events t events)).
Proof.
  pose proof (graph_events_built t events) as [_ _ Br _ [_ Hk]]. apply dict_values; [done|].
  intros k r Hr. by destruct (Br _ _ Hr) as (_ & (ev & d & _ & Hid & _) & _).
Qed.

Lemma graph_mention ev n : ev ∈ events → n ∈ mentions ev → ∃ e, e ∈ graph_entities ∧ ge_id e = node_id t n
  ∧ e_id ev ∈ ge_event_ids e ∧ instant (ge_first_seen e) ≤ instant (e_timestamp ev) ≤ instant (ge_last_seen e).
Proof.
  intros Hev Hn. pose proof (graph_events_built t events) as [Be Bn _ _ _].
  destruct (Bn ev n) as (e & He & Hi & Ht); [by apply elem_of_per_event|]. exists e.
  assert (ge_id e = node_id t n) as Hid by by destruct (Be _ _ He) as [(ev' & n' & _ & ? & _) _].
  split_and!; try done; try lia. apply graph_entities_dict. by rewrite Hid.
Qed.

Lemma graph_observed : observed t events graph_entities graph_relationships.
Proof.
  pose proof (graph_events_built t events) as [Be Bn Br Bd [Hk Hk']]. constructor.
  - intros e [(ev & n & Hin & _ & Ht & Hx & Hty & Hkey) Hids]%graph_entities_dict%Be.
    apply elem_of_per_event in Hin as [Hev Hn]. split_and!; [done | by exists ev, n|].
    intros i Hi. destruct (Hids i Hi) as (ev' & n' & [? ?]%elem_of_per_event & ? & ?). by exists ev', n'.
  - apply graph_mention.
  - intros r Hr. apply graph_relationships_dict in Hr.
    destruct (Br _ _ Hr) as (Hne & (ev & d & Hin & _ & Ht & Hx & Hm & Hs & Hrel & Hd) & Hids).
    apply elem_of_per_event in Hin as [Hev Hin]. destruct (edge_ends_mentioned _ _ Hin) as [Hms Hmd].
    split_and!; try done.
    + by exists ev, d.
    + intros i Hi. destruct (Hids i Hi) as (ev' & d' & [? ?]%elem_of_per_event & ? & ?). by exists ev', d'.
    + rewrite Hs. destruct (graph_mention _ _ Hev Hms) as (e & He & <- & _). by apply list_elem_of_fmap_2.
    + rewrite Hd. destruct (graph_mention _ _ Hev Hmd) as (e & He & <- & _). by apply list_elem_of_fmap_2.
  - intros ev d Hev Hd. destruct (Bd ev d) as (r & Hr & Hi); [by apply elem_of_per_event|]. exists r.
    assert (gr_id r = edge_id t d) as Hid by by destruct (Br _ _ Hr) as (_ & (ev' & d' & _ & ? & _) & _).
    split_and!; [|done..]. apply graph_relationships_dict. by rewrite Hid.
  - rewrite (proj2 graph_entities_dict), (proj2 graph_relationships_dict). done.
Qed.
End graph_dicts.

Lemma observed_scored t events es rs findings crit es' :
  es' ≡ₚ (scored findings crit <$> es) → observed t events es rs → observed t events es' rs.
Proof.
  intros Hp [O1 O2 O3 O4 [O5 O6]].
  assert (ge_id <$> es' ≡ₚ ge_id <$> es) as Hids by (rewrite Hp, <-list_fmap_compose; done).
  constructor; auto.
  - intros e. rewrite Hp. intros (e0 & -> & He)%list_elem_of_fmap. apply (O1 e0 He).
  - intros ev n Hev Hn. destruct (O2 ev n Hev Hn) as (e & He & Hrest). exists (scored findings crit e).
    split; [|exact Hrest]. rewrite Hp. by apply list_elem_of_fmap_2.
  - intros r Hr. destruct (O3 r Hr) as (? & ? & ? & ? & ? & ? & ?). by rewrite Hids.
  - split; [by rewrite Hids | done].
Qed.

(** The graph is exactly what the events show: an entity for every node an event
    mentions and for nothing else, seen from the first to the last of its events; a
    relationship for every edge an event shows and for nothing else, never manufactured,
    citing at least one event and only events that show it, between entities of the graph;
    identifiers are distinct. *)
Theorem build_graph_observed events findings criticality :
  let G := build_graph events findings criticality in
  observed (eg_tenant_id G) events (eg_entities G) (eg_relationships G) ∧ eg_manufactured_edges G = false.
Proof.
  destruct events as [|first rest]; simpl.
  { split; [|done]. constructor; simpl; try (by intros ? ?%not_elem_of_nil);
      try (by intros ? ? ?%not_elem_of_nil). split; constructor. }
  split; [|done]. set (t := e_tenant_id first).
  apply (observed_scored t _ (graph_entities t (first :: rest)) _ findings criticality); [|apply graph_observed].
  rewrite sort_by_perm. unfold graph_entities. by rewrite <-list_fmap_compose.
Qed.

Lemma raw_points_nonneg findings : fl_nonneg (raw_points findings) = true.
Proof.
  unfold raw_points. assert (∀ a, fl_nonneg a = true → fl_nonneg (foldl (λ raw f,
    fl_add raw (severity_points (fi_severity f))) a findings) = true) as H; [|by apply H].
  induction findings as [|f fs IH]; intros a Ha; simpl; [done|]. apply IH, fl_add_nonneg; [done|].
  by destruct (fi_severity f).
Qed.
Lemma factor_positive c : fl_finite_pos (criticality_factor c) = true.
Proof.
  unfold criticality_factor, CRITICALITY_FACTOR. cbn [dget]. by repeat case_match.
Qed.

(** Risk is bounded: every entity of the graph has a score from 0 to 100, which is the
    points of the findings of its tenant that touch it, times the factor of its
    criticality, rounded to two digits and capped; those findings are the ones it lists;
    and no finding means a score of zero. *)
Theorem risk_bounded events findings criticality e :
  e ∈ eg_entities (build_graph events findings criticality) →
  fl_le (fl_of_Z 0) (ge_risk_score e) = true ∧ fl_le (ge_risk_score e) (fl_of_Z 100) = true
  ∧ ge_criticality e = default "unknown" (dget (ge_id e) criticality)
  ∧ ge_finding_ids e = fi_id <$> touching e findings
  ∧ ge_risk_score e = cap_100 (fl_round 2 (fl_mul (raw_points (touching e findings)) (criticality_factor (ge_criticality e))))
  ∧ (touching e findings = [] → fl_eqb (ge_risk_score e) (fl_of_Z 0) = true).
Proof.
  destruct events as [|first rest]; [by intros ?%not_elem_of_nil|].
  rewrite elem_of_entities. intros (e0 & _ & ->). unfold scored.
  set (e1 := with_criticality _ e0).
  assert (touching (apply_risk e1 findings) findings = touching e1 findings) as Ht by done.
  rewrite Ht. cbn [apply_risk ge_risk_score ge_finding_ids ge_criticality].
  set (x := fl_round 2 _). assert (fl_nonneg x = true) as Hx.
  { apply fl_round_nonneg; [lia|]. apply fl_mul_nonneg; [apply raw_points_nonneg | apply factor_positive]. }
  split_and!; try done.
  - rewrite <-fl_nonneg_spec. unfold cap_100. by destruct (fl_lt x (fl_of_Z 100)).
  - unfold cap_100. destruct (fl_lt x (fl_of_Z 100)) eqn:E; [by apply fl_lt_le | done].
  - intros Hn. unfold x. rewrite Hn. unfold cap_100, raw_points. cbn [foldl].
    pose proof (factor_positive (ge_criticality e1)) as Hf.
    destruct (criticality_factor _) as [[]|[]| |[] m e]; done.
Qed.

(** ** A concrete graph *)

Definition demo_user : CanonicalUser := {| u_name := Some "Alice"; u_id := None; u_email := None; u_domain := None |}.
Definition demo_login (id : string) (s : Z) : CanonicalEvent :=
  let e := blank_event id "ten_a" (utc 20000 s) in
  {| e_id := e_id e; e_tenant_id := e_tenant_id e; e_timestamp := e_timestamp e;
     e_ingested_at := e_ingested_at e; e_source := e_source e; e_source_type := e_source_type e;
     e_event_type := e_event_type e; e_category := "authentication"; e_user := Some demo_user;
     e_host := None; e_process := None; e_parent_process := None; e_src_ip := Some "10.0.0.1";
     e_dst_ip := None; e_src_port := None; e_dst_port := None; e_protocol := None; e_domain := None;
     e_url := None; e_file := None; e_hash := None; e_identity := None; e_cloud_resource := None;
     e_action := None; e_outcome := Some Failure; e_severity := Informational;
     e_confidence := e_confidence e; e_risk_score := e_risk_score e; e_raw_event := [];
     e_schema_version := SCHEMA_VERSION; e_attributes := []; e_idempotency_key := None;
     e_correlation_id := None; e_trace_id := None; e_raw_hash := None |}.
Definition graph_finding : Finding := {|
  fi_id := "fnd_1"; fi_tenant_id := "ten_a"; fi_rule_id := "identity.brute_force"; fi_rule_version := "1";
  fi_title := ""; fi_description := ""; fi_severity := High; fi_confidence := fl_of_Z 80;
  fi_fingerprint := "fp"; fi_mitre_tactics := []; fi_mitre_techniques := []; fi_event_ids := ["e1"];
  fi_evidence := []; fi_explanation := ""; fi_created_at := utc 20000 9; fi_attributes := [] |}.
Definition demo_graph (n : nat) : EntityGraph :=
  build_graph [demo_login "e1" 1; demo_login "e2" 2] (repeat graph_finding n)
    [(entity_id "ten_a" EUser "alice", "high")].
Example demo_graph_shape :
  ((λ e, (ge_key e, ge_event_ids e, fl_repr (ge_risk_score e))) <$> eg_entities (demo_graph 1))
    = [("alice", ["e1"; "e2"], "31.25"); ("10.0.0.1", ["e1"; "e2"], "25.0")]
  ∧ ((λ r, (relation_str (gr_relation r), gr_event_ids r)) <$> eg_relationships (demo_graph 1))
    = [("used_from", ["e1"; "e2"])].
Proof. vm_compute. auto. Qed.
Definition demo_entity : GraphEntity := match eg_entities (demo_graph 4) with e :: _ => e | [] =>
  with_criticality "" (seen_again (demo_login "" 0) {| ge_id := ""; ge_tenant_id := ""; ge_entity_type := EUser;
    ge_key := ""; ge_display_name := ""; ge_criticality := ""; ge_risk_score := fl_of_Z 0;
    ge_risk_components := []; ge_event_ids := []; ge_finding_ids := []; ge_first_seen := utc 0 0;
    ge_last_seen := utc 0 0; ge_attributes := [] |}) end.
(** Four high findings at factor 1.25 make 125 points: the score is capped. *)
Lemma risk_bounded_witness :
  fl_le (fl_of_Z 0) (ge_risk_score demo_entity) = true ∧ fl_repr (ge_risk_score demo_entity) = "100.0".
Proof.
  split; [|vm_compute; reflexivity].
  refine (proj1 (risk_bounded [demo_login "e1" 1; demo_login "e2" 2] (repeat graph_finding 4)
    [(entity_id "ten_a" EUser "alice", "high")] demo_entity _)).
  vm_compute. left.
Defined.
