(* ===== verification/ProcessTree.v ===== *)
(** * Process trees and network sessions

    Models [packages/endpoint-adapters/blueteam_endpoint/process_tree.py] and
    [sessions_from_events] of [packages/network-adapters/blueteam_network/normalize.py]:
    the two views that investigation and hunting derive from the events. *)
From S2P Require Export EntityGraph.
Local Open Scope Z_scope.

(** [f"{x}"] of an optional string. *)
Definition show (o : option string) : string := default "None" o.

(** ** [process_tree.py] *)

(** [process.pid or process.name] *)
Definition pid_true (p : CanonicalProcess) : bool := match p_pid p with Some z => negb (z =? 0) | None => false end.
Definition identified (p : CanonicalProcess) : bool := pid_true p || otrue (p_name p).
Definition host_of (event : CanonicalEvent) : string :=
  match e_host event with Some h => show (oor (h_id h) (h_name h)) | None => "host" end.
Definition _node_id (event : CanonicalEvent) : string :=
  let pid := p ← e_process event; p_pid p in
  let name := match e_process event with Some p => show (p_name p) | None => "unknown" end in
  match pid with
  | Some pid => host_of event +:+ ":" +:+ str_of_Z pid +:+ ":" +:+ name
  | None => host_of event +:+ ":" +:+ e_id event +:+ ":" +:+ name
  end.
Definition _parent_id (event : CanonicalEvent) : option string :=
  parent ← e_parent_process event;
  if negb (identified parent) then None
  else match p_pid parent with
  | Some pid => Some (host_of event +:+ ":" +:+ str_of_Z pid +:+ ":" +:+ str_or (ostr (p_name parent)) "parent")
  | None => Some (host_of event +:+ ":name:" +:+ show (p_name parent))
  end.

(** The node of the process of an event, and of a parent no event is about. *)
Definition tree_node (event : CanonicalEvent) (p : CanonicalProcess) : pydict := [
  ("id", VStr (_node_id event)); ("event_id", VStr (e_id event)); ("name", vostr (p_name p)); ("pid", vint (p_pid p));
  ("path", vostr (p_path p)); ("command_line", vostr (p_command_line p)); ("host", vostr (host_name event));
  ("timestamp", VStr (isoformat (e_timestamp event)))].
Definition inferred_node (parent_id : string) (event : CanonicalEvent) : pydict :=
  let parent {A} (f : CanonicalProcess → option A) : option A := p ← e_parent_process event; f p in [
  ("id", VStr parent_id); ("event_id", VNone); ("name", vostr (parent p_name)); ("pid", vint (parent p_pid));
  ("path", vostr (parent p_path)); ("command_line", vostr (parent p_command_line)); ("host", vostr (host_name event));
  ("timestamp", VStr (isoformat (e_timestamp event))); ("inferred_from_child", VBool true)].
Record tree_edge := { te_parent : string; te_child : string; te_event_id : string }.
Record tree := { tr_nodes : list (string * pydict); tr_edges : list tree_edge }.

Definition grow (t : tree) (event : CanonicalEvent) : tree :=
  match e_process event with
  | None => t
  | Some p =>
      if negb (identified p) then t
      else
        let nodes := dset (_node_id event) (tree_node event p) (tr_nodes t) in
        match _parent_id event with
        | None => {| tr_nodes := nodes; tr_edges := tr_edges t |}
        | Some parent_id =>
            (* an empty identifier is not possible: it has a separator *)
            {| tr_nodes := if dhas parent_id nodes then nodes else dset parent_id (inferred_node parent_id event) nodes;
               tr_edges := tr_edges t ++ [{| te_parent := parent_id; te_child := _node_id event; te_event_id := e_id event |}] |}
        end
  end.
Definition tree_of (events : list CanonicalEvent) : tree := foldl grow {| tr_nodes := []; tr_edges := [] |} events.
Definition edge_dict (e : tree_edge) : pydict :=
  [("parent", VStr (te_parent e)); ("child", VStr (te_child e)); ("event_id", VStr (te_event_id e))].
Definition build_process_tree (events : list CanonicalEvent) : pydict := [
  ("nodes", VList ((λ n : string * pydict, VDict n.2) <$> tr_nodes (tree_of events)));
  ("edges", VList ((λ e, VDict (edge_dict e)) <$> tr_edges (tree_of events))); ("manufactured_edges", VBool false)].

(** ** [sessions_from_events] *)

Record NetworkSession := {
  ns_session_id : string; ns_tenant_id : string; ns_src : string; ns_dst : string; ns_protocol : string;
  ns_start : datetime; ns_end : datetime; ns_duration_ms : Z; ns_bytes_in : Z; ns_bytes_out : Z; ns_packets : Z;
  ns_dns : list string; ns_tls : list string; ns_http : list string; ns_zeek_refs : list string;
  ns_suricata_refs : list string; ns_risk : float }.

Definition session_key (event : CanonicalEvent) : string :=
  join "|" [e_tenant_id event; ostr (e_src_ip event); ostr (e_dst_ip event); ostr (e_protocol event);
            match e_dst_port event with Some p => if p =? 0 then "" else str_of_Z p | None => "" end].
(** [buckets.setdefault(key, []).append(event)] for events with two addresses. *)
Definition in_bucket (b : list (string * list CanonicalEvent)) (event : CanonicalEvent)
    : list (string * list CanonicalEvent) :=
  if otrue (e_src_ip event) && otrue (e_dst_ip event)
  then dset (session_key event) (default [] (dget (session_key event) b) ++ [event]) b
  else b.
Definition buckets (events : list CanonicalEvent) : list (string * list CanonicalEvent) := foldl in_bucket [] events.

(** [int(delta.total_seconds() * 1000)] of a number of microseconds. *)
Definition delta_ms (us : Z) : result Z :=
  fl_trunc (fl_mul (fl_of_ratio (us <? 0) (Z.abs us) second) (fl_of_Z 1000)).
(** [sum(int(item.attributes.get(k) or 0) for item in group)] *)
Fixpoint sum_attribute (k : string) (group : list CanonicalEvent) : result Z :=
  match group with
  | [] => Ok 0
  | item :: rest =>
      n ← py_int (vor (dgetv k (e_attributes item)) (VInt 0));
      m ← sum_attribute k rest;
      Ok (n + m)
  end.
Definition sorted_set (l : list string) : list string := sort_by str_le (remove_dups l).
Definition domains_of (category : string) (group : list CanonicalEvent) : list string :=
  sorted_set (omap (λ e, if (e_category e =? category)%string then filled (e_domain e) else None) group).
Definition refs_of (source_type : string) (group : list CanonicalEvent) : list string :=
  e_id <$> select (λ e, e_source_type e =? source_type)%string group.

Definition session_of (key : string) (group : list CanonicalEvent) : result (option NetworkSession) :=
  let group := sort_by (λ a b, dt_le (e_timestamp a) (e_timestamp b)) group in
  match group, last group with
  | first :: _, Some last =>
      duration ← delta_ms (dt_sub (e_timestamp last) (e_timestamp first));
      bytes_out ← sum_attribute "bytes_out" group;
      bytes_in ← sum_attribute "bytes_in" group;
      Ok (Some {|
        ns_session_id := "ses_" +:+ str_take 24 (sha256_hex key); ns_tenant_id := e_tenant_id first;
        ns_src := ostr (e_src_ip first); ns_dst := ostr (e_dst_ip first); ns_protocol := ostr (e_protocol first);
        ns_start := e_timestamp first; ns_end := e_timestamp last; ns_duration_ms := Z.max duration 0;
        ns_bytes_in := bytes_in; ns_bytes_out := bytes_out; ns_packets := Z.of_nat (length group);
        ns_dns := domains_of "dns" group; ns_tls := domains_of "tls" group;
        ns_http := sorted_set (omap (λ e, filled (e_url e)) group); ns_zeek_refs := refs_of "zeek" group;
        ns_suricata_refs := refs_of "suricata" group;
        ns_risk := fl_of_Z (if existsb (λ e, e_category e =? "alert")%string group then 80 else 10) |})
  | _, _ => Ok None
  end.
Fixpoint sessions_of (b : list (string * list CanonicalEvent)) : result (list NetworkSession) :=
  match b with
  | [] => Ok []
  | (key, group) :: rest =>
      o ← session_of key group;
      sessions ← sessions_of rest;
      Ok (option_list o ++ sessions)
  end.
Definition sessions_from_events (events : list CanonicalEvent) : result (list NetworkSession) :=
  sessions_of (buckets events).

(** ** The tree is what the events say *)

Definition ran (event : CanonicalEvent) (p : CanonicalProcess) : Prop :=
  e_process event = Some p ∧ identified p = true.
Record tree_sound (events : list CanonicalEvent) (t : tree) : Prop := {
  ts_ids : NoDup (dkeys (tr_nodes t));
  ts_node : ∀ k n, dget k (tr_nodes t) = Some n →
    (∃ ev p, ev ∈ events ∧ ran ev p ∧ k = _node_id ev ∧ n = tree_node ev p)
    ∨ ((∃ ev, ev ∈ events ∧ _parent_id ev = Some k ∧ n = inferred_node k ev)
       ∧ ∀ ev p, ev ∈ events → ran ev p → _node_id ev ≠ k);
  ts_event : ∀ ev p, ev ∈ events → ran ev p → _node_id ev ∈ dkeys (tr_nodes t);
  ts_edge : ∀ e, e ∈ tr_edges t → (te_parent e ∈ dkeys (tr_nodes t) ∧ te_child e ∈ dkeys (tr_nodes t))
    ∧ ∃ ev p, ev ∈ events ∧ ran ev p ∧ te_event_id e = e_id ev ∧ te_child e = _node_id ev
              ∧ _parent_id ev = Some (te_parent e);
  ts_parent : ∀ ev p parent, ev ∈ events → ran ev p → _parent_id ev = Some parent →
    {| te_parent := parent; te_child := _node_id ev; te_event_id := e_id ev |} ∈ tr_edges t;
}.
Lemma elem_of_dkeys_dset {A} k k' (v : A) d : k ∈ dkeys (dset k' v d) ↔ k = k' ∨ k ∈ dkeys d.
Proof. rewrite <-!dget_is_Some, dget_dset. case_decide; naive_solver. Qed.
Lemma dhas_dkeys {A} k (d : list (string * A)) : dhas k d = true ↔ k ∈ dkeys d.
Proof. unfold dhas. rewrite <-dget_is_Some. destruct (dget k d); naive_solver. Qed.
Lemma tree_sound_skip events t ev : (∀ p, ¬ ran ev p) → tree_sound events t → tree_sound (events ++ [ev]) t.
Proof.
  intros Hn [T1 T2 T3 T4 T5].
  assert (∀ ev' p, ev' ∈ events ++ [ev] → ran ev' p → ev' ∈ events) as Hin.
  { intros ev' p [Hold|Hlast%list_elem_of_singleton]%elem_of_app Hr; [done|]. subst. by apply Hn in Hr. }
  constructor; try done; eauto.
  - intros k n Hk. destruct (T2 k n Hk) as [(e & p & ? & ?)|[(e & ? & ?) Hno]]; [left; exists e, p | right; split; [exists e|]]; set_solver.
  - intros e He. destruct (T4 e He) as [? (ev' & p & ? & ?)]. split; [done|]. exists ev', p. set_solver.
Qed.
Lemma tree_sound_step events t ev p : ran ev p → tree_sound events t → tree_sound (events ++ [ev]) (grow t ev).
Proof.
  intros [Hp Hi] [T1 T2 T3 T4 T5]. unfold grow. rewrite Hp, Hi. cbn [negb].
  set (nodes := dset (_node_id ev) (tree_node ev p) (tr_nodes t)).
  assert (∀ ev' p', ev' ∈ events ++ [ev] → ran ev' p' → _node_id ev' ∈ dkeys nodes) as Hev.
  { intros ev' p' [Hold| ->%list_elem_of_singleton]%elem_of_app Hr; apply elem_of_dkeys_dset; eauto. }
  assert (∀ k n, dget k nodes = Some n →
    (∃ ev' p', ev' ∈ events ++ [ev] ∧ ran ev' p' ∧ k = _node_id ev' ∧ n = tree_node ev' p')
    ∨ ((∃ ev', ev' ∈ events ++ [ev] ∧ _parent_id ev' = Some k ∧ n = inferred_node k ev')
       ∧ ∀ ev' p', ev' ∈ events ++ [ev] → ran ev' p' → _node_id ev' ≠ k)) as Hnode.
  { intros k n. unfold nodes. rewrite dget_dset. case_decide as Hk.
    - intros [= <-]. left. exists ev, p. rewrite elem_of_app, list_elem_of_singleton. by split_and!; [right| |..].
    - intros Hd. destruct (T2 k n Hd) as [(e & q & ? & ?)|[(e & ? & ?) Hno]].
      + left. exists e, q. by rewrite elem_of_app; split; [left|].
      + right. split; [exists e; by rewrite elem_of_app; split; [left|]|].
        intros ev' p' [Hold| ->%list_elem_of_singleton]%elem_of_app; [by apply Hno | intros _; congruence]. }
  assert (∀ e, e ∈ tr_edges t → (te_parent e ∈ dkeys nodes ∧ te_child e ∈ dkeys nodes)
    ∧ ∃ ev' p', ev' ∈ events ++ [ev] ∧ ran ev' p' ∧ te_event_id e = e_id ev' ∧ te_child e = _node_id ev'
              ∧ _parent_id ev' = Some (te_parent e)) as Hedge.
  { intros e He. destruct (T4 e He) as [[? ?] (ev' & q & ? & ?)]. unfold nodes. rewrite !elem_of_dkeys_dset.
    split; [by split; right|]. exists ev', q. by rewrite elem_of_app; split; [left|]. }
  assert (NoDup (dkeys nodes)) as Hnd by by apply NoDup_dset.
  destruct (_parent_id ev) as [parent|] eqn:Hpar.
  2: { constructor; simpl; try done. intros ev' p' par [Hold| ->%list_elem_of_singleton]%elem_of_app Hr Hpa; [by eapply T5 | congruence]. }
  assert (_node_id ev ∈ dkeys nodes) as Hself by (apply elem_of_dkeys_dset; by left).
  assert (∀ k, k ∈ dkeys nodes → k ∈ dkeys (if dhas parent nodes then nodes else dset parent (inferred_node parent ev) nodes)) as Hmore.
  { intros k Hk. destruct (dhas parent nodes); [done|]. apply elem_of_dkeys_dset. by right. }
  constructor; simpl.
  - destruct (dhas parent nodes); [done | by apply NoDup_dset].
  - intros k n. destruct (dhas parent nodes) eqn:Hhas; [by apply Hnode|]. rewrite dget_dset. case_decide as Hk; [|by apply Hnode].
    intros [= <-]. subst k. right. split; [exists ev; split_and!; [set_solver | done | done]|].
    intros ev' p' Hin Hr Heq. apply not_true_iff_false in Hhas. apply Hhas, dhas_dkeys. rewrite <-Heq. by eapply Hev.
  - intros ev' p' Hin Hr. apply Hmore. by eapply Hev.
  - intros e [He| ->%list_elem_of_singleton]%elem_of_app.
    + destruct (Hedge e He) as [[? ?] ?]. split; [split; by apply Hmore | done].
    + split; [split; [|by apply Hmore]|].
      * simpl. destruct (dhas parent nodes) eqn:Hhas; [by apply dhas_dkeys|]. apply elem_of_dkeys_dset. by left.
      * exists ev, p. by split_and!; [set_solver|..].
  - intros ev' p' par [Hold| ->%list_elem_of_singleton]%elem_of_app Hr Hpa; apply elem_of_app; [left; by eapply T5|].
    right. apply list_elem_of_singleton. congruence.
Qed.

(** The process tree is exactly what the events say: one node per identifier; a node is
    the process of an event, or, when no event is about it, a parent an event names, with
    no event identifier; every event about a process has its node and, when it names a
    parent, its edge; and every edge joins two nodes of the tree and cites the event that
    names the parent. *)
Theorem process_tree_sound events : tree_sound events (tree_of events).
Proof.
  unfold tree_of. induction events as [|ev events IH] using rev_ind.
  { constructor; simpl; try (by intros ? ? ?%not_elem_of_nil); try (by intros ? ?%not_elem_of_nil);
      try (by intros ? ? ? ?%not_elem_of_nil); [constructor | done]. }
  rewrite foldl_app. simpl. destruct (e_process ev) as [p|] eqn:Hp.
  - destruct (identified p) eqn:Hi; [by apply (tree_sound_step _ _ _ p)|]. unfold grow at 1. rewrite Hp, Hi. simpl.
    apply tree_sound_skip; [|done]. intros q [Hq Hq']. congruence.
  - unfold grow at 1. rewrite Hp. apply tree_sound_skip; [|done]. intros q [Hq _]. congruence.
Qed.

(** ** Sessions partition the traffic *)

Definition two_ended (e : CanonicalEvent) : bool := otrue (e_src_ip e) && otrue (e_dst_ip e).
Definition bucket_ok (kg : string * list CanonicalEvent) : Prop :=
  kg.2 ≠ [] ∧ ∀ e, e ∈ kg.2 → session_key e = kg.1.
Lemma mjoin_dset_perm k (e : CanonicalEvent) b :
  mjoin (snd <$> dset k (default [] (dget k b) ++ [e]) b) ≡ₚ mjoin (snd <$> b) ++ [e].
Proof.
  induction b as [|[k' g] b IH]; simpl; [done|]. destruct (k' =? k)%string; simpl.
  - rewrite <-!app_assoc. f_equiv. apply Permutation_app_comm.
  - by rewrite IH, app_assoc.
Qed.
Lemma buckets_spec events : NoDup (dkeys (buckets events)) ∧ Forall bucket_ok (buckets events)
  ∧ mjoin (snd <$> buckets events) ≡ₚ select two_ended events.
Proof.
  unfold buckets. induction events as [|e events (IH1 & IH2 & IH3)] using rev_ind; [by split_and!; constructor|].
  rewrite foldl_app, select_app, select_one. simpl. unfold in_bucket at 1 3 5. fold (two_ended e).
  destruct (two_ended e); [|by rewrite app_nil_r]. set (b := foldl in_bucket [] events) in *. split_and!.
  - by apply NoDup_dset.
  - apply Forall_forall. intros [k g] [[-> ->]|Hin]%elem_of_dset; [|by rewrite Forall_forall in IH2; apply IH2].
    split; simpl; [by destruct (default _ _)|]. intros x [Hx| ->%list_elem_of_singleton]%elem_of_app; [|done].
    destruct (dget (session_key e) b) as [g|] eqn:Hg; simpl in Hx; [|by apply not_elem_of_nil in Hx].
    apply dget_elem_of in Hg. rewrite Forall_forall in IH2. by apply (IH2 _ Hg).
  - by rewrite mjoin_dset_perm, IH3.
Qed.
(** What a session says of its events. *)
Record session_for (group : list CanonicalEvent) (n : NetworkSession) : Prop := {
  sf_packets : ns_packets n = Z.of_nat (length group) ∧ 1 ≤ ns_packets n;
  sf_duration : 0 ≤ ns_duration_ms n;
  sf_span : ∀ e, e ∈ group → instant (ns_start n) ≤ instant (e_timestamp e) ≤ instant (ns_end n);
  sf_ends : ∃ e, e ∈ group ∧ ns_tenant_id n = e_tenant_id e ∧ ns_src n = ostr (e_src_ip e) ∧ ns_dst n = ostr (e_dst_ip e)
    ∧ ns_protocol n = ostr (e_protocol e) ∧ ns_session_id n = "ses_" +:+ str_take 24 (sha256_hex (session_key e));
  sf_refs : ∀ i, i ∈ ns_zeek_refs n ++ ns_suricata_refs n → i ∈ e_id <$> group;
}.
Lemma sorted_last {A} (le : A → A → bool) x l y : (∀ a, le a a = true) →
  sorted_by le (x :: l) → last (x :: l) = Some y → ∀ z, z ∈ x :: l → le x z = true ∧ le z y = true.
Proof.
  intros Hrefl. revert x. induction l as [|x' l IH]; intros x Hs Hl z Hz.
  - injection Hl as <-. apply list_elem_of_singleton in Hz as ->. auto.
  - apply StronglySorted_inv in Hs as [Hs Hx]. rewrite Forall_forall in Hx.
    change (last (x' :: l) = Some y) in Hl. specialize (IH x' Hs Hl).
    apply elem_of_cons in Hz as [->|Hz]; [|split; [by apply Hx | by apply IH]]. split; [done|].
    apply Hx, last_Some_elem_of, Hl.
Qed.
Lemma session_of_ok key group n : group ≠ [] → (∀ e, e ∈ group → session_key e = key) →
  session_of key group = Ok (Some n) → session_for group n.
Proof.
  intros Hne Hk. unfold session_of. set (le := λ a b, dt_le (e_timestamp a) (e_timestamp b)).
  pose proof (sort_by_perm le group) as Hp.
  assert (sorted_by le (sort_by le group)) as Hs.
  { apply sort_by_sorted; unfold le; intros *; rewrite ?dt_le_spec; [|lia]. intros Hn.
    apply not_true_iff_false in Hn. rewrite dt_le_spec in Hn. lia. }
  destruct (sort_by le group) as [|first rest] eqn:Eg; [done|].
  destruct (last (first :: rest)) as [l|] eqn:El; [|done].
  intros (duration & _ & (bo & _ & (bi & _ & [= <-])%result_bind_ok)%result_bind_ok)%result_bind_ok.
  assert (first ∈ group) as Hf by (rewrite <-Hp; by left). constructor; simpl.
  - apply Permutation_length in Hp. simpl in Hp. lia.
  - lia.
  - intros e He. rewrite <-Hp in He.
    destruct (sorted_last le first rest l) with (z := e) as [H1 H2]; try done; [intros a; by apply dt_le_spec|].
    unfold le in H1, H2. rewrite dt_le_spec in H1, H2. lia.
  - exists first. split_and!; try done. by rewrite (Hk first Hf).
  - intros i Hi. unfold refs_of in Hi. rewrite <-Hp. apply elem_of_app in Hi as [Hi|Hi];
      apply list_elem_of_fmap in Hi as (e & -> & [He _]%elem_of_select); by apply list_elem_of_fmap_2.
Qed.
Lemma session_of_some key group o : group ≠ [] → session_of key group = Ok o → is_Some o.
Proof.
  intros Hne. unfold session_of. set (le := λ a b, dt_le (e_timestamp a) (e_timestamp b)).
  pose proof (length_sort_by le group) as Hl. destruct (sort_by le group) as [|x l]; [by destruct group|].
  destruct (last (x :: l)) eqn:El; [|by rewrite last_None in El].
  by intros (? & _ & (? & _ & (? & _ & [= <-])%result_bind_ok)%result_bind_ok)%result_bind_ok.
Qed.

(** Sessions partition the traffic: when the events have readable byte counts, there is
    one session per group of events that share tenant, addresses, protocol and port; the
    groups are, together, exactly the events with two addresses, each once; a session
    counts its events, spans them, never lasts a negative time and cites only them. *)
Theorem sessions_partition events sessions : sessions_from_events events = Ok sessions →
  ∃ groups, Forall2 session_for groups sessions ∧ mjoin groups ≡ₚ select two_ended events
    ∧ ∀ i j gi gj ei ej, groups !! i = Some gi → groups !! j = Some gj → ei ∈ gi → ej ∈ gj →
        (session_key ei = session_key ej ↔ i = j).
Proof.
  unfold sessions_from_events. destruct (buckets_spec events) as (Hnd & Hok & Hperm). intros Hs.
  exists (snd <$> buckets events). split; [|split; [done|]].
  - revert sessions Hs. clear Hnd Hperm. induction Hok as [|[k g] b [Hne Hk] Hok IH]; intros sessions Hs; simpl in Hs.
    { injection Hs as <-. constructor. }
    apply result_bind_ok in Hs as (o & Ho & (rest & Hr & [= <-])%result_bind_ok).
    destruct (session_of_some _ _ _ Hne Ho) as [n ->]. constructor; [by eapply session_of_ok | by apply IH].
  - intros i j gi gj ei ej Hi Hj Hei Hej. rewrite list_lookup_fmap in Hi, Hj.
    destruct (buckets events !! i) as [[ki g]|] eqn:Ei; [|done]. injection Hi as ->.
    destruct (buckets events !! j) as [[kj g]|] eqn:Ej; [|done]. injection Hj as ->.
    rewrite Forall_forall in Hok. pose proof (proj2 (Hok _ (list_elem_of_lookup_2 _ _ _ Ei)) ei Hei) as Ki.
    pose proof (proj2 (Hok _ (list_elem_of_lookup_2 _ _ _ Ej)) ej Hej) as Kj. simpl in Ki, Kj. rewrite Ki, Kj. split.
    + intros ->. eapply (NoDup_lookup (dkeys (buckets events))); [done|..]; unfold dkeys; rewrite list_lookup_fmap;
        [by rewrite Ei | by rewrite Ej].
    + intros ->. rewrite Ei in Ej. by injection Ej as -> _.
Qed.

(** ** Concrete views *)

Definition demo_process (name : option string) (pid : Z) : CanonicalProcess :=
  {| p_name := name; p_pid := Some pid; p_command_line := None; p_hash := None; p_path := None |}.
Definition demo_exec (id : string) (s : Z) (p : CanonicalProcess) (parent : option CanonicalProcess)
    (src dst : option string) : CanonicalEvent :=
  let e := blank_event id "ten_a" (utc 20000 s) in
  {| e_id := e_id e; e_tenant_id := e_tenant_id e; e_timestamp := e_timestamp e;
     e_ingested_at := e_ingested_at e; e_source := e_source e; e_source_type := "zeek";
     e_event_type := e_event_type e; e_category := "process"; e_user := None; e_host := None;
     e_process := Some p; e_parent_process := parent; e_src_ip := src; e_dst_ip := dst; e_src_port := None;
     e_dst_port := None; e_protocol := None; e_domain := None; e_url := None; e_file := None; e_hash := None;
     e_identity := None; e_cloud_resource := None; e_action := None; e_outcome := None;
     e_severity := Informational; e_confidence := e_confidence e; e_risk_score := e_risk_score e;
     e_raw_event := []; e_schema_version := SCHEMA_VERSION; e_attributes := [("bytes_out", VStr "12")];
     e_idempotency_key := None; e_correlation_id := None; e_trace_id := None; e_raw_hash := None |}.
Definition shell : CanonicalEvent := demo_exec "evt_1" 1 (demo_process (Some "bash") 12) None (Some "10.0.0.1") (Some "10.0.0.2").
Definition listing : CanonicalEvent :=
  demo_exec "evt_2" 2 (demo_process (Some "ls") 13) (Some (demo_process None 12)) (Some "10.0.0.1") (Some "10.0.0.2").
(** A parent given by its process number alone, as osquery and Linux audit give it, never
    meets the node of that process: the shell that ran [ls] is not its parent in the tree. *)
Example parent_disconnected :
  dkeys (tr_nodes (tree_of [shell; listing])) = ["host:12:bash"; "host:13:ls"; "host:12:parent"]
  ∧ (te_parent <$> tr_edges (tree_of [shell; listing])) = ["host:12:parent"].
Proof. vm_compute. auto. Qed.
Lemma sessions_partition_witness : ∃ sessions, sessions_from_events [shell; listing] = Ok sessions
  ∧ ((λ n, (ns_packets n, ns_bytes_out n, ns_duration_ms n)) <$> sessions) = [(2, 24, 1000)]
  ∧ ∃ groups, mjoin groups ≡ₚ select two_ended [shell; listing].
Proof.
  assert (is_ok (sessions_from_events [shell; listing]) = true) as Hok by (vm_compute; reflexivity).
  destruct (sessions_from_events [shell; listing]) as [sessions|e] eqn:E; [|discriminate Hok].
  exists sessions. split; [reflexivity|]. split.
  - transitivity ((λ n, (ns_packets n, ns_bytes_out n, ns_duration_ms n)) <$>
      match sessions_from_events [shell; listing] with Ok l => l | Raise _ => [] end); [by rewrite E | vm_compute; reflexivity].
  - destruct (sessions_partition [shell; listing] sessions E) as (groups & _ & Hp & _). by exists groups.
Defined.
