(* ===== verification/Normalize.v ===== *)
(** * Network, endpoint and generic normalisers

    Models [packages/network-adapters/blueteam_network/normalize.py] (Zeek, Suricata),
    [packages/endpoint-adapters/blueteam_endpoint/normalize.py] (Sysmon, Wazuh, osquery,
    Linux audit) and [services/api/app/services/normalizer.py]: the mappings from a record
    of a vendor to a canonical event, with every way in which a record makes them fail. *)
From S2P Require Export Pydantic Detection ProcessTree.
Local Open Scope Z_scope.

(** ** Failures of dynamic values *)

Definition type_name (v : pyval) : string :=
  match v with
  | VNone => "NoneType" | VBool _ => "bool" | VInt _ => "int" | VFloat _ => "float" | VStr _ => "str"
  | VList _ => "list" | VDict _ => "dict"
  end.
Definition AttributeError (v : pyval) (attribute : string) : exn :=
  OtherError ("AttributeError: '" +:+ type_name v +:+ "' object has no attribute '" +:+ attribute +:+ "'").
(** [v.get], and a method of strings. *)
Definition dict_of (v : pyval) : result pydict :=
  match v with VDict d => Ok d | _ => Raise (AttributeError v "get") end.
Definition str_of (attribute : string) (v : pyval) : result string :=
  match v with VStr s => Ok s | _ => Raise (AttributeError v attribute) end.
(** [v in {...}] of a set of strings. *)
Definition in_set (v : pyval) (l : list string) : result bool :=
  match v with
  | VStr s => Ok (mem s l)
  | VList _ | VDict _ => Raise (TypeError ("unhashable type: '" +:+ type_name v +:+ "'"))
  | _ => Ok false
  end.
(** [for x in v] *)
Definition iterate (v : pyval) : result (list pyval) :=
  match v with
  | VList l => Ok l
  | VDict d => Ok (VStr <$> dkeys d)
  | VStr s => Ok ((λ c, VStr (String c "")) <$> list_ascii_of_string s)
  | _ => Raise (TypeError ("'" +:+ type_name v +:+ "' object is not iterable"))
  end.
(** [x or {}], [str(x or "")] and [int(x) if x else None]. *)
Definition or_empty (v : pyval) : pyval := vor v (VDict []).
Definition str_or_empty (v : pyval) : pyval := VStr (py_str (vor v (VStr ""))).
Definition int_or_none (v : pyval) : result pyval := if vtrue v then VInt <$> py_int v else Ok VNone.
Definition raw_digest (raw : pydict) : pyval := VStr (sha256_hex (canonical_json (VDict raw))).

(** ** Times *)

(** [datetime.fromtimestamp(x, tz=UTC)]: the whole seconds, and the fraction rounded to the
    nearest microsecond. *)
Definition fromtimestamp (x : float) : result datetime :=
  whole ← fl_trunc x;
  us ← fl_trunc (fl_round 0 (fl_mul (fl_sub x (fl_of_Z whole)) (fl_of_Z second)));
  let wall := seconds whole + us in
  if (days_from_civil 1 1 1 * day_us <=? wall) && (wall <? days_from_civil 10000 1 1 * day_us)
  then Ok {| dt_wall := wall; dt_offset := 0 |}
  else Raise (ValueError "year is out of range").
(** [parsed if parsed.tzinfo else parsed.replace(tzinfo=UTC)] *)
Definition assume_utc (d : py_datetime) : datetime :=
  match d with Aware d => d | Naive wall => {| dt_wall := wall; dt_offset := 0 |} end.

Section normalizers.
Context `{Oracle} `{IsoLib} `{Pydantic}.

Definition parse_iso (text : string) : result py_datetime :=
  match fromisoformat (replace_char "Z" "+00:00" text) with
  | Some d => Ok d
  | None => Raise (ValueError ("Invalid isoformat string: " +:+ repr_str (replace_char "Z" "+00:00" text)))
  end.
Definition network_ts (value : pyval) : result datetime :=
  match value with
  | VBool _ | VInt _ | VFloat _ => x ← py_float value; fromtimestamp x
  | _ => assume_utc <$> parse_iso (py_str value)
  end.
Definition endpoint_ts (value : pyval) : result datetime := assume_utc <$> parse_iso (py_str value).
(** [_ts(value or utcnow())] *)
Definition ts_or_now (ts : pyval → result datetime) (value : pyval) : M draws datetime :=
  if vtrue value then lift (ts value) else utcnow_d.

(** ** Zeek and Suricata *)

Definition ZEEK_SOURCES : list string := ["conn"; "dns"; "http"; "ssl"; "tls"; "files"; "notice"].
Definition SURICATA_SOURCES : list string := ["alert"; "flow"; "dns"; "http"; "tls"; "fileinfo"].

(** [_event] *)
Definition network_event (tenant_id source source_type event_type category : string) (raw : pydict)
    (host : option CanonicalHost) (file : option CanonicalFile) (fields : pydict) : M draws Draft :=
  let given := vor (vor (dgetv "uid" raw) (dgetv "flow_id" raw)) (dgetv "id" raw) in
  event_id ← (if vtrue given then mret (py_str given) else new_id_d "evt");
  event_id ← (if startswith event_id "evt_" then mret event_id else new_id_d "evt");
  timestamp ← ts_or_now network_ts (vor (dgetv "ts" raw) (dgetv "timestamp" raw));
  now ← utcnow_d;
  lift (canonical_event {|
    ar_timestamp := Aware timestamp; ar_ingested_at := now; ar_user := None; ar_host := host; ar_process := None;
    ar_parent_process := None; ar_file := file |} ([
      ("id", VStr event_id); ("tenant_id", VStr tenant_id); ("source", VStr source); ("source_type", VStr source_type);
      ("event_type", VStr event_type); ("category", VStr category); ("schema_version", VStr "1.0.0");
      ("raw_event", VDict raw); ("raw_hash", raw_digest raw)] ++ fields)).

Definition zeek_category (kind : string) : string :=
  default "" (dget kind [("conn", "network"); ("dns", "dns"); ("http", "http"); ("ssl", "tls"); ("tls", "tls");
                         ("files", "file"); ("notice", "notice")]).
(** [raw.get("id.k") or raw.get("k") or id_obj.get("k")] *)
Definition zeek_end (k : string) (raw : pydict) : pyval :=
  let id_obj := match dgetv "id" raw with VDict d => d | _ => [] end in
  vor (vor (dgetv ("id." +:+ k) raw) (dgetv k raw)) (dgetv k id_obj).
Definition zeek_file (raw : pydict) : result CanonicalFile :=
  validated (file_model [("path", dgetv "filename" raw); ("hash_sha256", dgetv "sha256" raw); ("hash_md5", dgetv "md5" raw)]).
Definition host_at (src : pyval) : result (option CanonicalHost) :=
  if vtrue src then Some <$> validated (host_model [("ip", src)]) else Ok None.
Definition first_of (raw : pydict) (k k' : string) : pyval := vor (dgetv k raw) (dgetv k' raw).
(** What is known of the record before the event is made: its kind, host, file, the record
    that is kept, and the fields. *)
Definition zeek_fields (raw : pydict) (log_type : option string)
    : result (string * option CanonicalHost * option CanonicalFile * pydict * pydict) :=
  kind ← lower <$> str_of "lower" (vor (vor (vor (vostr log_type) (dgetv "_path" raw)) (dgetv "log_type" raw)) (VStr "conn"));
  if negb (mem kind ZEEK_SOURCES) then Raise (ValueError ("unsupported Zeek log type " +:+ kind))
  else
    let src := zeek_end "orig_h" raw in
    let dst := zeek_end "resp_h" raw in
    let sport := zeek_end "orig_p" raw in
    let dport := zeek_end "resp_p" raw in
    let proto := first_of raw "proto" "protocol" in
    file_obj ← (if (kind =? "files")%string then Some <$> zeek_file raw else Ok None);
    let raw := if (kind =? "files")%string then dset "file_hash" (first_of raw "sha256" "md5") raw else raw in
    src_port ← int_or_none sport;
    dst_port ← int_or_none dport;
    host ← host_at src;
    failed ← in_set (dgetv "rcode_name" raw) ["NXDOMAIN"; "SERVFAIL"];
    Ok (kind, host, file_obj, raw, [
      ("src_ip", src); ("dst_ip", dst); ("src_port", src_port); ("dst_port", dst_port);
      ("protocol", if vtrue proto then VStr (py_str proto) else VNone);
      ("domain", vor (first_of raw "query" "server_name") (dgetv "host" raw)); ("url", dgetv "uri" raw);
      ("action", vor (first_of raw "note" "method") (VStr kind)); ("outcome", VStr (if failed : bool then "failure" else "success"));
      ("attributes", VDict [
        ("zeek_uid", str_or_empty (dgetv "uid" raw));
        ("bytes_out", str_or_empty (first_of raw "orig_bytes" "request_body_len"));
        ("bytes_in", str_or_empty (first_of raw "resp_bytes" "response_body_len"));
        ("raw_reference", raw_digest raw)])]).
Definition normalize_zeek (raw : pydict) (tenant_id : string) (log_type : option string) : M draws Draft :=
  '(kind, host, file_obj, raw, fields) ← lift (zeek_fields raw log_type);
  network_event tenant_id ("zeek." +:+ kind) "zeek" kind (zeek_category kind) raw host file_obj fields.

Definition suricata_severity (level : Z) : string :=
  if level =? 1 then "high" else if level =? 2 then "medium" else "low".
(** [(raw.get(k) or {}).get(k')] *)
Definition sub_value (k k' : string) (raw : pydict) : result pyval :=
  d ← dict_of (or_empty (dgetv k raw)); Ok (dgetv k' d).
Definition or_sub (v : result pyval) (k k' : string) (raw : pydict) : result pyval :=
  x ← v; if vtrue x then Ok x else sub_value k k' raw.
Definition suricata_file (fileinfo : pyval) (wanted : bool) : result (option CanonicalFile) :=
  if wanted || vtrue fileinfo then
    d ← dict_of fileinfo;
    Some <$> validated (file_model [("path", dgetv "filename" d); ("size", dgetv "size" d);
                                    ("hash_sha256", dgetv "sha256" d); ("hash_md5", dgetv "md5" d)])
  else Ok None.
Definition suricata_fields (raw : pydict) : result (string * option CanonicalHost * option CanonicalFile * pydict) :=
  let kind := lower (py_str (vor (dgetv "event_type" raw) (VStr ""))) in
  if negb (mem kind SURICATA_SOURCES) then Raise (ValueError ("unsupported Suricata event_type " +:+ kind))
  else
    let src := dgetv "src_ip" raw in
    let alerting := (kind =? "alert")%string in
    alert ← dict_of (or_empty (dgetv "alert" raw));
    level ← py_int (vor (dgetv "severity" alert) (VInt 3));
    file_obj ← suricata_file (or_empty (dgetv "fileinfo" raw)) (kind =? "fileinfo")%string;
    domain ← or_sub (or_sub (sub_value "dns" "rrname" raw) "tls" "sni" raw) "http" "hostname" raw;
    url ← sub_value "http" "url" raw;
    host ← host_at src;
    Ok (kind, host, file_obj, [
      ("src_ip", src); ("dst_ip", dgetv "dest_ip" raw); ("src_port", dgetv "src_port" raw);
      ("dst_port", dgetv "dest_port" raw); ("protocol", dgetv "proto" raw); ("domain", domain); ("url", url);
      ("action", vor (dgetv "signature" alert) (VStr kind));
      ("severity", VStr (if alerting then suricata_severity level else "informational"));
      ("confidence", VInt (if alerting then 70 else 100));
      ("attributes", VDict [
        ("suricata_flow_id", str_or_empty (dgetv "flow_id" raw)); ("signature", str_or_empty (dgetv "signature" alert));
        ("signature_id", str_or_empty (dgetv "signature_id" alert)); ("category", str_or_empty (dgetv "category" alert));
        ("confirmed_compromise", VStr "false"); ("raw_reference", raw_digest raw)])]).
Definition suricata_category (kind : string) : string :=
  if (kind =? "alert")%string then "alert" else if (kind =? "flow")%string then "network" else kind.
Definition normalize_suricata (raw : pydict) (tenant_id : string) : M draws Draft :=
  '(kind, host, file_obj, fields) ← lift (suricata_fields raw);
  network_event tenant_id ("suricata." +:+ kind) "suricata" kind (suricata_category kind) raw host file_obj fields.

(** ** Endpoints *)

(** [_canonical] *)
Definition endpoint_event (tenant_id source event_type category : string) (raw : pydict)
    (user : option CanonicalUser) (host : option CanonicalHost) (process parent : option CanonicalProcess)
    (file : option CanonicalFile) (fields : pydict) : M draws Draft :=
  event_id ← (if vtrue (dgetv "id" raw) then mret (py_str (dgetv "id" raw)) else new_id_d "evt");
  timestamp ← ts_or_now endpoint_ts (vor (first_of raw "UtcTime" "timestamp") (dgetv "TimeCreated" raw));
  now ← utcnow_d;
  lift (canonical_event {|
    ar_timestamp := Aware timestamp; ar_ingested_at := now; ar_user := user; ar_host := host; ar_process := process;
    ar_parent_process := parent; ar_file := file |} ([
      ("id", VStr event_id); ("tenant_id", VStr tenant_id); ("source", VStr source); ("source_type", VStr "endpoint");
      ("event_type", VStr event_type); ("category", VStr category); ("schema_version", VStr "1.0.0");
      ("raw_event", VDict raw); ("raw_hash", raw_digest raw)] ++ fields)).
Definition user_named (name : pyval) : result CanonicalUser := validated (user_model [("name", name)]).
Definition host_named (name i : pyval) : result CanonicalHost := validated (host_model [("name", name); ("id", i)]).

Definition backslash : ascii := chr 92.
Definition slash : ascii := "/".
Definition _basename (path : pyval) : result pyval :=
  if vtrue path then
    s ← str_of "replace" path;
    Ok (VStr (default "" (last (split_on slash (replace_char backslash "/" s)))))
  else Ok VNone.
Definition sysmon_kind (event_id : Z) : string * string :=
  if event_id =? 1 then ("process_creation", "process") else if event_id =? 5 then ("process_termination", "process")
  else if event_id =? 11 then ("file_creation", "file") else if event_id =? 13 then ("registry", "registry")
  else if event_id =? 3 then ("network", "network") else if event_id =? 7 then ("module_load", "module")
  else ("process_creation", "process").
Definition sysmon_parent (raw : pydict) : result CanonicalProcess :=
  pid ← int_or_none (dgetv "ParentProcessId" raw);
  validated (process_model [("name", first_of raw "ParentImage" "parent_image"); ("pid", pid);
                            ("command_line", dgetv "ParentCommandLine" raw); ("path", dgetv "ParentImage" raw)]).
Definition sysmon_process (raw : pydict) : result CanonicalProcess :=
  name ← _basename (first_of raw "Image" "process_name");
  pid ← int_or_none (dgetv "ProcessId" raw);
  validated (process_model [("name", name); ("pid", pid); ("command_line", first_of raw "CommandLine" "command_line");
                            ("path", dgetv "Image" raw); ("hash", first_of raw "Hashes" "hash")]).
Definition normalize_sysmon (raw : pydict) (tenant_id : string) : M draws Draft :=
  event_id ← lift (py_int (vor (first_of raw "EventID" "event_id") (VInt 0)));
  let '(event_type, category) := sysmon_kind event_id in
  parent ← lift (sysmon_parent raw);
  process ← lift (sysmon_process raw);
  user ← lift (user_named (first_of raw "User" "user"));
  host ← lift (host_named (first_of raw "Computer" "hostname") (dgetv "host_id" raw));
  file ← lift (validated (file_model [("path", first_of raw "TargetFilename" "Image"); ("hash_sha256", dgetv "sha256" raw)]));
  endpoint_event tenant_id "sysmon" event_type category raw (Some user) (Some host) (Some process)
    (if identified parent then Some parent else None) (Some file) [
    ("src_ip", first_of raw "SourceIp" "src_ip"); ("dst_ip", first_of raw "DestinationIp" "dst_ip");
    ("src_port", dgetv "SourcePort" raw); ("dst_port", dgetv "DestinationPort" raw); ("protocol", dgetv "Protocol" raw);
    ("action", VStr event_type);
    ("attributes", VDict [
      ("sysmon_event_id", VStr (str_of_Z event_id)); ("parent_pid", str_or_empty (dgetv "ParentProcessId" raw));
      ("pid", str_or_empty (dgetv "ProcessId" raw)); ("raw_reference", raw_digest raw)])].

Definition normalize_wazuh (raw : pydict) (tenant_id : string) : M draws Draft :=
  let data := vor (dgetv "data" raw) (VDict raw) in
  let rule := or_empty (dgetv "rule" raw) in
  data ← lift (dict_of data);
  process ← lift (validated (process_model [("name", dgetv "process_name" data); ("command_line", dgetv "command_line" data);
                                            ("path", dgetv "image" data)]));
  parent ← lift (validated (process_model [("name", dgetv "parent_name" data)]));
  user_name ← (if vtrue (dgetv "user" data) then mret (dgetv "user" data)
               else agent ← lift (dict_of (dget_or "agent" (VDict []) raw)); mret (dgetv "name" agent));
  user ← lift (user_named user_name);
  agent ← lift (dict_of (or_empty (dgetv "agent" raw)));
  host ← lift (host_named (dgetv "name" agent) (dgetv "id" agent));
  rule ← lift (dict_of rule);
  level ← lift (py_int (vor (dgetv "level" rule) (VInt 0)));
  endpoint_event tenant_id "wazuh" (py_str (vor (dgetv "event_type" data) (VStr "process_creation")))
    (py_str (vor (dgetv "category" data) (VStr "process"))) raw (Some user) (Some host) (Some process) (Some parent) None [
    ("action", VStr (py_str (vor (dgetv "description" rule) (VStr "wazuh"))));
    ("severity", VStr (if 10 <=? level then "high" else "medium"));
    ("attributes", VDict [("wazuh_rule_id", str_or_empty (dgetv "id" rule)); ("raw_reference", raw_digest raw)])].

Definition osquery_event_type (name : string) : string :=
  default "process_creation" (dget name [
    ("processes", "process_creation"); ("process_events", "process_creation"); ("socket_events", "network");
    ("file_events", "file_creation"); ("scheduled_tasks", "scheduled_task"); ("startup_items", "service");
    ("logged_in_users", "authentication")]).
Definition osquery_category (event_type : string) : string :=
  if (event_type =? "authentication")%string then "authentication"
  else if (event_type =? "scheduled_task")%string then "persistence"
  else if (event_type =? "network")%string then "network"
  else if contains event_type "file" then "file" else "process".
Definition normalize_osquery (raw : pydict) (tenant_id : string) : M draws Draft :=
  let name := py_str (vor (first_of raw "name" "table") (VStr "processes")) in
  let event_type := osquery_event_type name in
  columns ← lift (dict_of (vor (dgetv "columns" raw) (VDict raw)));
  pid ← lift (int_or_none (dgetv "pid" columns));
  process ← lift (validated (process_model [("name", first_of columns "name" "path"); ("path", dgetv "path" columns); ("pid", pid)]));
  ppid ← lift (int_or_none (dgetv "parent" columns));
  parent ← lift (validated (process_model [("pid", ppid)]));
  user ← lift (user_named (first_of columns "username" "user"));
  host ← lift (validated (host_model [("name", first_of raw "hostIdentifier" "hostname")]));
  endpoint_event tenant_id "osquery" event_type (osquery_category event_type) raw
    (Some user) (Some host) (Some process) (Some parent) None [
    ("action", VStr name); ("attributes", VDict [("osquery_name", VStr name); ("raw_reference", raw_digest raw)])].

Definition audit_kind (event_type : string) : string * string :=
  default ("process_creation", "process") (dget event_type [
    ("execve", ("process_creation", "process")); ("syscall", ("process_creation", "process"));
    ("user_login", ("authentication", "authentication")); ("user_auth", ("authentication", "authentication"));
    ("service_start", ("service", "persistence")); ("user_acct", ("privilege", "identity"))]).
Definition normalize_linux_audit (raw : pydict) (tenant_id : string) : M draws Draft :=
  let event_type := lower (py_str (vor (first_of raw "type" "event_type") (VStr "SYSCALL"))) in
  let mapped := audit_kind event_type in
  pid ← lift (int_or_none (dgetv "pid" raw));
  process ← lift (validated (process_model [("name", first_of raw "exe" "comm"); ("command_line", first_of raw "cmdline" "a0");
                                            ("pid", pid)]));
  ppid ← lift (int_or_none (dgetv "ppid" raw));
  parent ← lift (validated (process_model [("pid", ppid)]));
  user ← lift (user_named (first_of raw "uid" "acct"));
  host ← lift (validated (host_model [("name", first_of raw "host" "node")]));
  endpoint_event tenant_id "linux-audit" mapped.1 mapped.2 raw (Some user) (Some host) (Some process) (Some parent) None [
    ("action", VStr event_type);
    ("outcome", VStr (if mem (lower (py_str (vor (dgetv "res" raw) (VStr "success")))) ["success"; "yes"]
                      then "success" else "failure"));
    ("attributes", VDict [("audit_type", VStr event_type); ("raw_reference", raw_digest raw)])].

Definition normalize_endpoint (raw : pydict) (tenant_id : string) : M draws Draft :=
  let source := lower (py_str (vor (first_of raw "source" "encoder") (VStr "sysmon"))) in
  if mem source ["wazuh"] then normalize_wazuh raw tenant_id
  else if mem source ["osquery"] then normalize_osquery raw tenant_id
  else if mem source ["audit"; "linux-audit"; "auditd"] then normalize_linux_audit raw tenant_id
  else normalize_sysmon raw tenant_id.

(** ** Generic JSON *)

(** [current = current[part]] along a dotted key. *)
Fixpoint dig (parts : list string) (current : pyval) : option pyval :=
  match parts with
  | [] => Some current
  | part :: rest => match current with VDict d => v ← dget part d; dig rest v | _ => None end
  end.
(** [v not in (None, "")] *)
Definition given (v : pyval) : bool := match v with VNone | VStr "" => false | _ => true end.
Definition dot : ascii := ".".
Fixpoint _first (payload : pydict) (keys : list string) : pyval :=
  match keys with
  | [] => VNone
  | key :: rest =>
      match (if contains key "." then dig (split_on dot key) (VDict payload) else dget key payload) with
      | Some v => if given v then v else _first payload rest
      | None => _first payload rest
      end
  end.
Definition epoch : datetime := {| dt_wall := 0; dt_offset := 0 |}.
(** [event.tenant_id], which the times do not change. *)
Definition dr_tenant (dr : Draft) : string := e_tenant_id (dr_event dr epoch epoch).
Definition or_text (v : pyval) (dflt : string) : pyval := VStr (py_str (vor v (VStr dflt))).
Definition normalize_generic (payload : pydict) (tenant_id : string) : M draws Draft :=
  if vtrue (dgetv "schema_version" payload) && vtrue (dgetv "id" payload) && vtrue (dgetv "tenant_id" payload) then
    event ← lift (model_validate payload);
    if negb (dr_tenant event =? tenant_id)%string
    then raise (ValueError "event tenant_id does not match request tenant") else mret event
  else
    parsed ← (match _first payload ["timestamp"; "time"; "@timestamp"; "event_time"] with
              | VStr timestamp => lift (parse_iso timestamp)
              | _ => now ← utcnow_d; mret (Aware now)
              end);
    let user_name := _first payload ["user"; "username"; "user.name"; "account"] in
    user ← (if vtrue user_name then Some <$> lift (user_named (VStr (py_str user_name))) else mret None);
    let given_id := _first payload ["id"; "event_id"] in
    event_id ← (if vtrue given_id then mret (py_str given_id) else new_id_d "evt");
    now ← utcnow_d;
    lift (canonical_event {|
      ar_timestamp := parsed; ar_ingested_at := now; ar_user := user; ar_host := None; ar_process := None;
      ar_parent_process := None; ar_file := None |} [
        ("id", VStr event_id); ("tenant_id", VStr tenant_id);
        ("source", or_text (_first payload ["source"; "vendor"]) "generic-json");
        ("source_type", or_text (_first payload ["source_type"; "product"]) "unknown");
        ("event_type", or_text (_first payload ["event_type"; "type"]) "unknown");
        ("category", or_text (_first payload ["category"]) "unknown");
        ("src_ip", _first payload ["src_ip"; "source_ip"; "client_ip"; "source.ip"]);
        ("dst_ip", _first payload ["dst_ip"; "destination_ip"; "destination.ip"]);
        ("action", _first payload ["action"]); ("outcome", _first payload ["outcome"; "result"]);
        ("raw_event", VDict payload);
        ("attributes", VDict ((λ kv, (kv.1, VStr (py_str kv.2))) <$> select (λ kv, mem kv.1 ["group"; "role"; "member"]) payload))]).
End normalizers.

(** ** How network records are graded *)

Section grading.
Context `{Oracle} `{IsoLib} `{P : Pydantic} `{!PydanticLaws P}.

(** Constants go through the model unchanged. *)
Lemma required_text k d s x : dget k d = Some (VStr s) → required as_str k d = Good x → x = s.
Proof. intros Hk (v & Hv & Hs)%required_good. apply as_str_iff in Hs. congruence. Qed.
Lemma given_severity k d s x : dget k d = Some (VStr (severity_str s)) → defaulted as_severity Informational k d = Good x → x = s.
Proof. intros Hk [[? _]|(v & Hv & Hs)]%defaulted_good; [congruence|]. rewrite Hk in Hv. injection Hv as <-. by destruct s; vm_compute in Hs; congruence. Qed.
Lemma given_score k d n x f : dget k d = Some (VInt n) → defaulted as_score f k d = Good x → x = fl_of_Z n.
Proof.
  intros Hk [[? _]|(v & Hv & Hs)]%defaulted_good; [congruence|]. rewrite Hk in Hv. injection Hv as <-.
  unfold as_score in Hs. rewrite as_float_int in Hs. simpl in Hs. destruct (score_in_bounds _); congruence.
Qed.
Lemma given_outcome k d o x : dget k d = Some (VStr (outcome_str o)) → nullable as_outcome k d = Good x → x = Some o.
Proof. intros Hk [[? _]|(v & Hv & Hs)]%defaulted_good; [congruence|]. rewrite Hk in Hv. injection Hv as <-. by destruct o; vm_compute in Hs; congruence. Qed.
Lemma given_dict k d a x : dget k d = Some (VDict a) → defaulted dict_value [] k d = Good x → x = a.
Proof. intros Hk [[? _]|(v & Hv & Hs)]%defaulted_good; [congruence|]. rewrite Hk in Hv. injection Hv as <-. simpl in Hs. congruence. Qed.

Definition name_error (raw : pydict) : bool :=
  match dgetv "rcode_name" raw with VStr code => mem code ["NXDOMAIN"; "SERVFAIL"] | _ => false end.
Definition graded (level : Z) : Severity := if level =? 1 then High else if level =? 2 then Medium else Low.
Lemma graded_str level : suricata_severity level = severity_str (graded level).
Proof. unfold suricata_severity, graded. by destruct (level =? 1), (level =? 2). Qed.
Lemma network_event_drafted tenant_id source ty et c raw host file fields s dr s' :
  network_event tenant_id source ty et c raw host file fields s = (Ok dr, s') → ∃ p event_id,
  drafted p ([("id", VStr event_id); ("tenant_id", VStr tenant_id); ("source", VStr source); ("source_type", VStr ty);
      ("event_type", VStr et); ("category", VStr c); ("schema_version", VStr "1.0.0");
      ("raw_event", VDict raw); ("raw_hash", raw_digest raw)] ++ fields) dr.
Proof.
  intros He. unfold network_event in He. do 4 inv_bind He. injection He as He _.
  apply validated_ok, event_model_good in He. eauto.
Qed.

(** A Suricata record becomes an event of one of the kinds known, never one of a
    confirmed compromise; an alert, and nothing else, is graded: high, medium or low by the
    level the sensor gave it (3 when it gave none), with confidence 70. A Zeek record of a
    known log is a failure exactly when the answer's code is NXDOMAIN or SERVFAIL. *)
Theorem network_records_graded raw tenant_id s dr s' :
  (normalize_suricata raw tenant_id s = (Ok dr, s') → ∃ kind level alert,
     mem kind SURICATA_SOURCES = true ∧ or_empty (dgetv "alert" raw) = VDict alert
     ∧ py_int (vor (dgetv "severity" alert) (VInt 3)) = Ok level
     ∧ ∀ t i, let e := dr_event dr t i in
       e_source e = "suricata." +:+ kind ∧ e_event_type e = kind
       ∧ dget "confirmed_compromise" (e_attributes e) = Some (VStr "false")
       ∧ (if (kind =? "alert")%string then e_severity e = graded level ∧ e_confidence e = fl_of_Z 70
          else e_severity e = Informational ∧ e_confidence e = fl_of_Z 100))
  ∧ (normalize_zeek raw tenant_id None s = (Ok dr, s') → ∃ kind,
     mem kind ZEEK_SOURCES = true
     ∧ ∀ t i, let e := dr_event dr t i in
       e_source e = "zeek." +:+ kind ∧ e_severity e = Informational
       ∧ e_outcome e = Some (if name_error raw then Failure else Success)).
Proof.
  split; intros He.
  - unfold normalize_suricata in He. inv_bind He. injection Ha as Hf <-. destruct a as [[[kind host] file] fields].
    apply network_event_drafted in He as (p & event_id & D). unfold suricata_fields in Hf.
    set (k := lower _) in Hf. destruct (mem k SURICATA_SOURCES) eqn:Hk; [|done]. cbn [negb] in Hf.
    apply result_bind_ok in Hf as (alert & Hal & Hf). apply result_bind_ok in Hf as (level & Hlv & Hf).
    do 4 (apply result_bind_ok in Hf as (? & _ & Hf)). injection Hf as <- _ _ <-.
    exists k, level, alert. split; [done|]. split; [by destruct (or_empty _); try done; injection Hal as ->|]. split; [done|].
    intros t i. split; [eapply required_text; [|exact (df_source _ _ _ D t i)]; reflexivity|].
    split; [eapply required_text; [|exact (df_event_type _ _ _ D t i)]; reflexivity|].
    split; [pose proof (df_attributes _ _ _ D t i) as Ha; eapply given_dict in Ha; [|reflexivity]; by rewrite Ha|].
    pose proof (df_severity _ _ _ D t i) as Hs. pose proof (df_confidence _ _ _ D t i) as Hc.
    destruct (k =? "alert")%string.
    + split; [|eapply given_score; [|exact Hc]; reflexivity]. eapply given_severity; [|exact Hs]. simpl. by rewrite graded_str.
    + split; [|eapply given_score; [|exact Hc]; reflexivity]. by eapply (given_severity _ _ Informational); [|exact Hs].
  - unfold normalize_zeek in He. inv_bind He. injection Ha as Hf <-. destruct a as [[[[kind host] file] raw'] fields].
    apply network_event_drafted in He as (p & event_id & D). unfold zeek_fields in Hf.
    apply result_bind_ok in Hf as (k & _ & Hf). destruct (mem k ZEEK_SOURCES) eqn:Hk; [|done]. cbn [negb] in Hf.
    do 4 (apply result_bind_ok in Hf as (? & _ & Hf)). apply result_bind_ok in Hf as (failed & Hfail & Hf).
    injection Hf as <- _ _ _ <-. exists k. split; [done|]. intros t i.
    split; [eapply required_text; [|exact (df_source _ _ _ D t i)]; reflexivity|].
    split; [by pose proof (df_severity _ _ _ D t i) as [[_ ?]|(? & ? & _)]%defaulted_good|].
    assert (in_set (dgetv "rcode_name" raw) ["NXDOMAIN"; "SERVFAIL"] = Ok failed) as Hin.
    { unfold dgetv in *. destruct (k =? "files")%string; [by rewrite dget_dset_ne in Hfail | done]. }
    assert (failed = name_error raw) as -> by (unfold name_error; destruct (dgetv "rcode_name" raw); unfold in_set in Hin; congruence).
    eapply given_outcome; [|exact (df_outcome _ _ _ D t i)]. simpl. by destruct (name_error raw).
Qed.
End grading.
