(* ===== verification/Syslog.v ===== *)
(** * Syslog lines

    Models [packages/ingest-adapters/blueteam_ingest/syslog.py]. The regular expressions
    are written as the scanners they are: in each, a run of one class of characters is
    followed by a character outside the class, so a greedy match never has to be undone. *)
From S2P Require Export Normalize.
Local Open Scope Z_scope.

(** ** Scanners *)

Section scan.
Context (p : ascii → bool).
(** The longest prefix in a class, and the rest. *)
Fixpoint span (s : string) : string * string :=
  match s with
  | String c s' => if p c then let '(a, b) := span s' in (String c a, b) else ("", s)
  | EmptyString => ("", "")
  end.
(** [p+] and [p{lo,hi}] followed by anything outside [p]. *)
Definition some (s : string) : option (string * string) :=
  let '(a, b) := span s in if nonempty a then Some (a, b) else None.
Definition between (lo hi : nat) (s : string) : option (string * string) :=
  let '(a, b) := span s in
  if (lo <=? String.length a)%nat && (String.length a <=? hi)%nat then Some (a, b) else None.
End scan.
Definition non_space (c : ascii) : bool := negb (is_space c).
(** [\S+\s+], the word alone kept, and [<\d+>] *)
Definition word (s : string) : option (string * string) :=
  '(w, s) ← some non_space s; '(_, s) ← some is_space s; Some (w, s).
Definition lt_char : ascii := "<".
Definition gt_char : ascii := ">".
Definition priority (s : string) : option (string * string) :=
  s ← skip_char lt_char s; '(pri, s) ← some is_digit s; s ← skip_char gt_char s; Some (pri, s).
Definition newline_char (c : ascii) : bool := (code c =? 10)%N.
(** [(?P<rest>.* )$] on a text that does not end in a newline. *)
Definition to_the_end (s : string) : option string := if str_all (λ c, negb (newline_char c)) s then Some s else None.

(** ** The two formats *)

(** [RFC5424.match(text).groupdict()] *)
Definition rfc5424 (text : string) : option (list (string * string)) :=
  '(pri, s) ← priority text;
  '(version, s) ← some is_digit s;
  '(_, s) ← some is_space s;
  '(ts, s) ← word s;
  '(host, s) ← word s;
  '(app, s) ← word s;
  '(proc, s) ← word s;
  '(msgid, s) ← word s;
  rest ← to_the_end s;
  Some [("pri", pri); ("version", version); ("ts", ts); ("host", host); ("app", app); ("proc", proc); ("msgid", msgid);
        ("rest", rest)].
Definition is_capital (c : ascii) : bool := in_range 65 90 c.
Definition is_small (c : ascii) : bool := in_range 97 122 c.
(** [[A-Z][a-z]{2}\s+\d{1,2}\s+\d{2}:\d{2}:\d{2}] *)
Definition exactly (p : ascii → bool) (s : string) : option (string * string) :=
  match s with String c s' => if p c then Some (String c "", s') else None | EmptyString => None end.
Definition two_digits (s : string) : option (string * string) :=
  '(a, s) ← exactly is_digit s; '(b, s) ← exactly is_digit s; Some (a +:+ b, s).
Definition bsd_time (s : string) : option (string * string) :=
  '(a, s) ← exactly is_capital s;
  '(b, s) ← exactly is_small s;
  '(c, s) ← exactly is_small s;
  '(sp, s) ← some is_space s;
  '(day, s) ← between is_digit 1 2 s;
  '(sp', s) ← some is_space s;
  '(hour, s) ← two_digits s;
  s ← skip_char colon s;
  '(minute, s) ← two_digits s;
  s ← skip_char colon s;
  '(sec, s) ← two_digits s;
  Some (a +:+ b +:+ c +:+ sp +:+ day +:+ sp' +:+ hour +:+ ":" +:+ minute +:+ ":" +:+ sec, s).
Definition rfc3164 (text : string) : option (list (string * string)) :=
  '(pri, s) ← priority text;
  '(ts, s) ← bsd_time s;
  '(_, s) ← some is_space s;
  '(host, s) ← word s;
  rest ← to_the_end s;
  Some [("pri", pri); ("ts", ts); ("host", host); ("rest", rest)].

(** ** What a message mentions *)

Definition name_char (c : ascii) : bool := is_letter c || is_digit c || existsb (N.eqb (code c)) [95; 46; 45]%N.
(** [(?:user|account|for)\s+([A-Za-z0-9_.-]+)] at the start of a text, in any case. *)
Definition user_here (s : string) : option string :=
  find_first (λ _, true) (omap (λ k,
    if startswith (lower s) k then
      '(_, s) ← some is_space (str_drop (String.length k) s); '(name, _) ← some name_char s; Some name
    else None) ["user"; "account"; "for"]).
Fixpoint user_in (s : string) : option string :=
  match user_here s with
  | Some name => Some name
  | None => match s with String _ s' => user_in s' | EmptyString => None end
  end.
(** [\w], and [(?:\d{1,3}\.){3}\d{1,3}\b] at the start of a text. *)
Definition word_char (c : ascii) : bool := is_alnum c || (code c =? 95)%N.
Definition starts_word (s : string) : bool := match s with String c _ => word_char c | EmptyString => false end.
Definition octet (s : string) : option (string * string) := between is_digit 1 3 s.
Definition dotted (s : string) : option (string * string) := '(a, s) ← octet s; s ← skip_char dot s; Some (a +:+ ".", s).
Definition ip_here (s : string) : option string :=
  '(a, s) ← dotted s; '(b, s) ← dotted s; '(c, s) ← dotted s; '(d, s) ← octet s;
  if starts_word s then None else Some (a +:+ b +:+ c +:+ d).
(** [IP_RE.findall]: a match starts where no word character precedes, and the search goes
    on after its last character. *)
Fixpoint ips_in (skip : nat) (inside : bool) (s : string) : list string :=
  match s, skip with
  | EmptyString, _ => []
  | String c s', S skip => ips_in skip (word_char c) s'
  | String c s', O =>
      match (if inside then None else ip_here s) with
      | Some ip => ip :: ips_in (String.length ip - 1) true s'
      | None => ips_in 0 (word_char c) s'
      end
  end.
Definition mentions (words : list string) (message : string) : bool := existsb (contains (lower message)) words.

(** ** [parse_syslog_line] *)

Definition bracket : ascii := "]".
(** The structured data, or its absence, before a message. *)
Definition message_of (rest : string) : string :=
  if startswith rest "- " then str_drop 2 rest
  else if startswith rest "[" then let '(a, b) := split_once bracket rest in strip (default a b)
  else rest.

Section syslog.
Context `{Oracle} `{IsoLib} `{Pydantic}.
Definition syslog_ts (value : string) : M draws py_datetime :=
  if mem value ["-"; ""] then now ← utcnow_d; mret (Aware now) else lift (parse_iso value).
(** What was parsed, the time, host, application and message. *)
Definition parse_line (text : string) : M draws (list (string * string) * py_datetime * string * string * string) :=
  match rfc5424 text with
  | Some parsed =>
      let get k := default "" (dget k parsed) in
      timestamp ← syslog_ts (get "ts");
      mret (parsed, timestamp, get "host", get "app", message_of (get "rest"))
  | None =>
      now ← utcnow_d;
      match rfc3164 text with
      | Some parsed =>
          let get k := default "" (dget k parsed) in
          mret (parsed, Aware now, get "host", "syslog", get "rest")
      | None => mret ([("raw", text)], Aware now, "unknown", "syslog", text)
      end
  end.
Definition syslog_raw (text message : string) (parsed : list (string * string)) : pydict :=
  dupdate [("syslog_raw", VStr text); ("message", VStr message)]
    ((λ kv, (kv.1, VStr kv.2)) <$> select (λ kv, negb (kv.1 =? "rest")%string) parsed).
Definition parse_syslog_line (line tenant_id : string) : M draws Draft :=
  let text := strip line in
  if negb (nonempty text) then raise (ValueError "empty syslog line")
  else
    '(parsed, timestamp, host, app, message) ← parse_line text;
    user ← (match user_in message with Some name => Some <$> lift (user_named (VStr name)) | None => mret None end);
    let ips := ips_in 0 false message in
    let outcome := if mentions ["fail"; "denied"; "invalid"; "refused"] message then "failure" else "success" in
    let category := if mentions ["password"; "login"; "auth"; "sshd"] message then "authentication" else "log" in
    event_id ← new_id_d "evt";
    now ← utcnow_d;
    host ← lift (validated (host_model [("name", if mem host ["-"; "unknown"] then VNone else VStr host)]));
    lift (canonical_event {|
      ar_timestamp := timestamp; ar_ingested_at := now; ar_user := user; ar_host := Some host; ar_process := None;
      ar_parent_process := None; ar_file := None |} [
        ("id", VStr event_id); ("tenant_id", VStr tenant_id); ("source", VStr "syslog");
        ("source_type", VStr (str_or app "syslog")); ("event_type", VStr "syslog"); ("category", VStr category);
        ("src_ip", vostr (ips !! 0%nat)); ("dst_ip", vostr (ips !! 1%nat)); ("action", VStr "log"); ("outcome", VStr outcome);
        ("raw_event", VDict (syslog_raw text message parsed));
        ("attributes", VDict [("adapter", VStr "syslog"); ("message", VStr (str_take 400 message))])]).
End syslog.
Example syslog_words :
  user_in "Failed password for invalid user bob from 10.0.0.5 port 22" = Some "invalid"
  ∧ ips_in 0 false "from 10.0.0.5 to 1.2.3.4.5, not 1234.5.6.7 or a1.2.3.4" = ["10.0.0.5"; "1.2.3.4"]
  ∧ rfc3164 "<34>Oct 11 22:14:15 mymachine su: 'su root' failed" =
      Some [("pri", "34"); ("ts", "Oct 11 22:14:15"); ("host", "mymachine"); ("rest", "su: 'su root' failed")]
  ∧ mbind (dget "rest") (rfc5424 "<165>1 2003-10-11T22:14:15Z host app 123 ID47 - hello world") = Some "- hello world".
Proof. vm_compute. auto. Qed.

(** ** Lines that are written are read back *)

Lemma scan_app p a b : str_all p a = true → (match b with String c _ => p c | EmptyString => false end) = false →
  span p (a +:+ b) = (a, b).
Proof.
  intros Ha Hb. induction a as [|c a IH]; simpl in *.
  - destruct b as [|c b]; simpl; [done|]. by rewrite Hb.
  - apply andb_prop in Ha as [-> Ha]. by rewrite IH.
Qed.
Lemma some_app p a b : nonempty a = true → str_all p a = true →
  (match b with String c _ => p c | EmptyString => false end) = false → some p (a +:+ b) = Some (a, b).
Proof. intros Hn Ha Hb. unfold some. by rewrite scan_app, Hn. Qed.
Lemma str_all_first p c s : str_all p (String c s) = true → p c = true.
Proof. intros [? _]%andb_prop. done. Qed.
(** A word, a space and what follows, if that does not start with a space. *)
Definition starts_clean (s : string) : bool := match s with String c _ => non_space c | EmptyString => true end.
Lemma starts_clean_space s : starts_clean s = true → (match s with String c _ => is_space c | EmptyString => false end) = false.
Proof. destruct s; [done|]. simpl. unfold non_space. by intros ->%negb_true_iff. Qed.
Definition proper (p : ascii → bool) (w : string) : bool := nonempty w && str_all p w.
Lemma word_app w s : proper non_space w = true → starts_clean s = true → word (w +:+ String " " s) = Some (w, s).
Proof.
  intros [Hn Hw]%andb_prop Hs. unfold word. rewrite some_app by done. simpl.
  change (String " " s) with (" " +:+ s). rewrite some_app; [done..|]. by apply starts_clean_space.
Qed.
Lemma proper_clean w s : proper non_space w = true → starts_clean (w +:+ s) = true.
Proof. unfold proper. destruct w; [done|]. simpl. intros [? _]%andb_prop. done. Qed.
Record syslog_header := { sy_pri : string; sy_version : string; sy_ts : string; sy_host : string; sy_app : string;
  sy_proc : string; sy_msgid : string }.
Definition render (h : syslog_header) (rest : string) : string :=
  "<" +:+ sy_pri h +:+ ">" +:+ sy_version h +:+ " " +:+ sy_ts h +:+ " " +:+ sy_host h +:+ " " +:+ sy_app h +:+ " "
  +:+ sy_proc h +:+ " " +:+ sy_msgid h +:+ " " +:+ rest.
Definition well_formed (h : syslog_header) (rest : string) : bool :=
  proper is_digit (sy_pri h) && proper is_digit (sy_version h) && forallb (proper non_space) [sy_ts h; sy_host h; sy_app h; sy_proc h; sy_msgid h]
  && starts_clean rest && str_all (λ c, negb (newline_char c)) rest.
Lemma rfc5424_render h rest : well_formed h rest = true → rfc5424 (render h rest) = Some [
  ("pri", sy_pri h); ("version", sy_version h); ("ts", sy_ts h); ("host", sy_host h); ("app", sy_app h);
  ("proc", sy_proc h); ("msgid", sy_msgid h); ("rest", rest)].
Proof.
  unfold well_formed. intros [[[[Hp Hv]%andb_prop Hw]%andb_prop Hc]%andb_prop Hr]%andb_prop.
  simpl in Hw. rewrite !andb_true_iff in Hw. destruct Hw as (H1 & H2 & H3 & H4 & H5 & _).
  apply andb_prop in Hp as [Hp1 Hp2], Hv as [Hv1 Hv2].
  unfold rfc5424, render, priority. simpl. rewrite some_app by done. simpl. rewrite some_app by done. simpl.
  match goal with |- context [some is_space (String _ ?s)] => change (some is_space (String _ s)) with (some is_space (" " +:+ s)) end.
  rewrite some_app; [|done..|by apply starts_clean_space, proper_clean]. simpl.
  do 4 (rewrite word_app by (done || by apply proper_clean); simpl). rewrite word_app by done. simpl.
  unfold to_the_end. by rewrite Hr.
Qed.

Lemma strip_clean s : starts_clean s = true → rstrip s = s → strip s = s.
Proof.
  intros Hc Hr. unfold strip. assert (lstrip s = s) as -> by (destruct s; [done|]; simpl in *; unfold non_space in Hc; by apply negb_true_iff in Hc as ->). done.
Qed.
Lemma message_after_nil m : message_of ("- " +:+ m) = m.
Proof. unfold message_of, startswith. by rewrite prefix_app. Qed.
Section reading.
Context `{Oracle} `{IsoLib} `{P : Pydantic} `{!PydanticLaws P}.
Lemma as_str_str s : as_str (VStr s) = Some s.
Proof. by apply as_str_iff. Qed.
Lemma text_str k s d : dget k d = Some (VStr s) → text k d = Good (Some s).
Proof. intros Hk. unfold text, nullable, defaulted, required. rewrite Hk. simpl. by rewrite as_str_str. Qed.
Lemma text_ostr k o d : dget k d = Some (vostr o) → text k d = Good o.
Proof. destruct o; [by apply text_str|]. intros Hk. unfold text, nullable, defaulted, required. by rewrite Hk. Qed.
Lemma required_str k s d : dget k d = Some (VStr s) → required as_str k d = Good s.
Proof. intros Hk. unfold required. rewrite Hk. simpl. by rewrite as_str_str. Qed.
Lemma named_user s : user_named (VStr s) = Ok {| u_name := Some s; u_id := None; u_email := None; u_domain := None |}.
Proof. unfold user_named, user_model. by rewrite (text_str _ s). Qed.

Lemma outcome_given d o : dget "outcome" d = Some (VStr (outcome_str o)) → nullable as_outcome "outcome" d = Good (Some o).
Proof. intros Hk. unfold nullable, defaulted, required. rewrite Hk. by destruct o. Qed.
Lemma outcome_text (b : bool) : (if b then "failure" else "success") = outcome_str (if b then Failure else Success).
Proof. by destruct b. Qed.
(** The event of an adapter whose plain fields are all strings of its own. *)
Lemma syslog_event_total a i tenant_id app c src dst o raw attrs : tenant_ok tenant_id = true → ∃ dr,
  canonical_event a [
    ("id", VStr i); ("tenant_id", VStr tenant_id); ("source", VStr "syslog"); ("source_type", VStr app);
    ("event_type", VStr "syslog"); ("category", VStr c); ("src_ip", vostr src); ("dst_ip", vostr dst); ("action", VStr "log");
    ("outcome", VStr (outcome_str o)); ("raw_event", VDict raw); ("attributes", VDict attrs)] = Ok dr.
Proof.
  intros Ht. eexists. apply validated_ok. unfold event_model. set (d := _ :: _).
  assert (required as_tenant "tenant_id" d = Good tenant_id) as -> by (unfold required, as_tenant; simpl; by rewrite as_str_str; simpl; rewrite Ht).
  rewrite (required_str "id" _ d eq_refl), (required_str "source" _ d eq_refl), (required_str "source_type" _ d eq_refl),
    (required_str "event_type" _ d eq_refl), (required_str "category" _ d eq_refl), (text_ostr "src_ip" src d eq_refl), (text_ostr "dst_ip" dst d eq_refl),
    (text_str "action" _ d eq_refl), (outcome_given d o eq_refl). reflexivity.
Qed.

(** A line written in the format of RFC 5424 is read back: the adapter returns an event
    of the tenant with the time, host and application of the header, a failure exactly when
    the message speaks of one, and keeps the line and the message, which is what was written
    after the nil structured data. *)
Theorem syslog_roundtrip h rest tenant_id time s :
  well_formed h rest = true → rstrip (render h rest) = render h rest → tenant_ok tenant_id = true →
  mem (sy_ts h) ["-"; ""] = false → parse_iso (sy_ts h) = Ok time →
  ∃ dr s', parse_syslog_line (render h rest) tenant_id s = (Ok dr, s')
  ∧ dr_timestamp dr = time ∧ ∀ t i, let e := dr_event dr t i in
    e_tenant_id e = tenant_id ∧ e_source_type e = sy_app h
    ∧ host_name e = (if mem (sy_host h) ["-"; "unknown"] then None else Some (sy_host h))
    ∧ dget "syslog_raw" (e_raw_event e) = Some (VStr (render h rest))
    ∧ dget "message" (e_raw_event e) = Some (VStr (message_of rest))
    ∧ (∀ message, rest = "- " +:+ message → message_of rest = message)
    ∧ e_outcome e = Some (if mentions ["fail"; "denied"; "invalid"; "refused"] (message_of rest) then Failure else Success).
Proof.
  intros Hw Hr Ht Hts Hiso. unfold parse_syslog_line. rewrite (strip_clean (render h rest)) by done.
  change (nonempty (render h rest)) with true. cbn [negb]. unfold parse_line. rewrite rfc5424_render by done.
  match goal with |- context [("pri", sy_pri h) :: ?l] => set (parsed := ("pri", sy_pri h) :: l) end. unfold syslog_ts. change (default "" (dget "ts" parsed)) with (sy_ts h). rewrite Hts, Hiso.
  change (default "" (dget "rest" parsed)) with rest. change (default "" (dget "host" parsed)) with (sy_host h).
  change (default "" (dget "app" parsed)) with (sy_app h). set (message := message_of rest).
  set (o := if mentions ["fail"; "denied"; "invalid"; "refused"] message then Failure else Success).
  set (u := user_in message). set (ips := ips_in 0 false message).
  set (name := if mem (sy_host h) ["-"; "unknown"] then None else Some (sy_host h)).
  set (user := (λ n, {| u_name := Some n; u_id := None; u_email := None; u_domain := None |}) <$> u).
  set (host := {| h_name := name; h_id := None; h_os := None; h_ip := None |}).
  destruct (syslog_event_total {| ar_timestamp := time; ar_ingested_at := clock (n_clock s); ar_user := user; ar_host := Some host;
    ar_process := None; ar_parent_process := None; ar_file := None |} ("evt_" +:+ uuid_hex (n_uuid s)) tenant_id (str_or (sy_app h) "syslog")
    (if mentions ["password"; "login"; "auth"; "sshd"] message then "authentication" else "log") (ips !! 0%nat) (ips !! 1%nat) o
    (syslog_raw (render h rest) message parsed) [("adapter", VStr "syslog"); ("message", VStr (str_take 400 message))] Ht) as [dr Hdr].
  exists dr. eexists. split.
  - assert ((match u with Some n => Some <$> lift (user_named (VStr n)) | None => mret None end : M draws (option CanonicalUser)) s
      = (Ok user, s)) as Hu.
    { subst user. destruct u; [|done]. unfold fmap at 1, M_fmap, lift. by rewrite named_user. }
    etrans; [exact (M_bind_eval _ _ _ _ _ Hu)|]. unfold mbind, M_bind, lift.
    cbv beta iota delta [new_id_d new_id utcnow_d utcnow id].
    assert (validated (host_model [("name", if mem (sy_host h) ["-"; "unknown"] then VNone else VStr (sy_host h))]) = Ok host) as ->.
    { subst host name. unfold host_model. destruct (mem (sy_host h) _); [done | by rewrite (text_str "name" (sy_host h)) by done]. }
    rewrite outcome_text.
    f_equal. exact Hdr.
  - apply validated_ok, event_model_good in Hdr as D. split; [by pose proof (df_timestamp _ _ _ D) as [= <-]|]. intros t i.
    assert (tenant_id = e_tenant_id (dr_event dr t i)) as <-.
    { pose proof (df_tenant _ _ _ D t i) as (v & Hv & [Hs _]%as_tenant_ok)%required_good. apply as_str_iff in Hs as ->. by injection Hv. }
    assert (str_or (sy_app h) "syslog" = sy_app h) as Happ.
    { unfold well_formed in Hw. rewrite !andb_true_iff in Hw. simpl in Hw. rewrite !andb_true_iff in Hw.
      destruct Hw as [[[_ (_ & _ & [Hn _]%andb_prop & _)] _] _]. unfold str_or. by rewrite Hn. }
    pose proof (df_source_type _ _ _ D t i) as Hs. eapply required_text in Hs; [|reflexivity].
    pose proof (df_host _ _ _ D t i) as Hh. pose proof (df_raw_event _ _ _ D t i) as Hraw.
    eapply given_dict in Hraw; [|reflexivity]. pose proof (df_outcome _ _ _ D t i) as Ho. eapply given_outcome in Ho; [|reflexivity].
    injection Hh as Hh. split_and!; [done | by rewrite Hs | unfold host_name; by rewrite <-Hh | by rewrite Hraw | by rewrite Hraw | intros m E; subst message; rewrite E; apply message_after_nil | exact Ho].
Qed.
End reading.

(** *** A line *)

#[local] Instance demo_oracle : Oracle :=
  {| uuid_hex := λ n, str_of_nat n; clock := λ n, utc 20000 (60 * Z.of_nat n) |}.
#[local] Instance demo_iso : IsoLib := {| other_iso := λ _, None |}.
#[local] Instance demo_pydantic : Pydantic := {|
  as_str := λ v, match v with VStr s => Some s | _ => None end;
  as_int := λ v, match v with VInt z => Some z | _ => None end;
  as_float := λ v, match v with VFloat f => Some f | VInt z => Some (fl_of_Z z) | _ => None end;
  as_datetime := λ _, None; validation_message := λ _, "validation errors" |}.
#[local] Instance demo_pydantic_laws : PydanticLaws demo_pydantic.
Proof. constructor; try reflexivity. intros [] x; simpl; split; congruence. Defined.
Definition demo_header : syslog_header := {|
  sy_pri := "165"; sy_version := "1"; sy_ts := "2024-10-04T00:00:02Z"; sy_host := "gw"; sy_app := "sshd"; sy_proc := "7";
  sy_msgid := "ID47" |}.
Lemma syslog_roundtrip_witness : ∃ dr s',
  parse_syslog_line (render demo_header "- Failed password for invalid user bob") "ten_a" {| n_uuid := 0; n_clock := 0 |} = (Ok dr, s')
  ∧ dr_timestamp dr = Aware (utc 20000 2).
Proof.
  destruct (syslog_roundtrip demo_header "- Failed password for invalid user bob" "ten_a" (Aware (utc 20000 2))
    {| n_uuid := 0; n_clock := 0 |} eq_refl eq_refl eq_refl eq_refl eq_refl) as (dr & s' & E & Ht & _).
  exists dr, s'. split; [exact E | exact Ht].
Defined.
