(* ===== verification/Replay.v ===== *)
(** * Blue Range scenarios and the replay lab

    Models [packages/blue-range/blueteam_range/{models,runner}.py] and
    [packages/replay-engine/blueteam_replay/__init__.py]: a scenario is run against a
    registry, a job over a dataset of scenarios records for every rule it covers whether
    the job passed, and that record gates promotions. The scenario files, which
    [loader.py] reads with PyYAML, are the class [ScenarioFiles]. *)
From S2P Require Export Detection Hashing PyFloat.
Local Open Scope Z_scope.

Record ExpectedDetection := {
  xd_rule_id : string; xd_min_count : Z; xd_mitre_techniques : list string }.
Record RangeScenario := {
  rs_id : string; rs_family : string; rs_name : string; rs_description : string;
  rs_attack_techniques : list string; rs_max_detection_latency_seconds : float;
  rs_allowed_false_positive_envelope : Z; rs_events : list CanonicalEvent;
  rs_expected_event_count : Z; rs_expected_detections : list ExpectedDetection;
  rs_expected_mitre : list string; rs_attributes : pydict }.
Record DetectionAssertion := {
  da_rule_id : string; da_expected_min : Z; da_observed : Z; da_passed : bool }.
Record RangeResult := {
  rr_scenario_id : string; rr_passed : bool; rr_started_at : datetime; rr_finished_at : datetime;
  rr_latency_seconds : float; rr_event_count : Z; rr_findings : list Finding;
  rr_assertions : list DetectionAssertion; rr_unexpected_rule_ids : list string;
  rr_errors : list string }.

(** [(finished - started).total_seconds()] *)
Definition total_seconds (delta : Z) : float := fl_of_ratio (delta <? 0) (Z.abs delta) second.

(** [{item.rule_id: item for item in expected_detections}] *)
Definition expected_rules (scenario : RangeScenario) : list (string * ExpectedDetection) :=
  foldl (λ d item, dset (xd_rule_id item) item d) [] (rs_expected_detections scenario).
(** [observed[rule_id] = observed.get(rule_id, 0) + 1] for every finding. *)
Definition observe (findings : list Finding) : list (string * Z) :=
  foldl (λ d f, dset (fi_rule_id f) (default 0 (dget (fi_rule_id f) d) + 1) d) [] findings.
Definition assertion_of (observed : list (string * Z)) (rule_id : string) (spec : ExpectedDetection)
    : DetectionAssertion :=
  let count := default 0 (dget rule_id observed) in
  {| da_rule_id := rule_id; da_expected_min := xd_min_count spec; da_observed := count;
     da_passed := xd_min_count spec <=? count |}.
Definition distinct_tenants (events : list CanonicalEvent) : nat :=
  length (remove_dups (e_tenant_id <$> events)).

Section range.
Context `{Oracle}.

(** The loop over the events: what a rule reports stays open for the later events. *)
Definition run_event (registry : DetectionRegistry) (acc : list Finding * DetectionContext)
    (event : CanonicalEvent) : M draws (list Finding * DetectionContext) :=
  let '(findings, context) := acc in
  produced ← evaluate_registry registry event context;
  mret (findings ++ produced,
        foldl (λ c f, open_fingerprint (fi_fingerprint f) c) context produced).

Definition run_scenario (registry : DetectionRegistry) (scenario : RangeScenario)
    : M draws RangeResult :=
  started ← utcnow_d;
  let events := rs_events scenario in
  let errors1 :=
    if Z.of_nat (length events) =? rs_expected_event_count scenario then []
    else ["fixture event count " +:+ str_of_nat (length events) +:+ " != declared "
          +:+ str_of_Z (rs_expected_event_count scenario)] in
  let errors2 :=
    if (distinct_tenants events =? 1)%nat then []
    else ["Blue Range scenario must be single-tenant"] in
  acc ← foldM (run_event registry)
          ([], {| dc_window := events; dc_open_fingerprints := []; dc_scheduled := false |}) events;
  let findings := fst acc in
  let expected := expected_rules scenario in
  let observed := observe findings in
  let assertions := (λ kv, assertion_of observed kv.1 kv.2) <$> expected in
  let unexpected := select (λ r, negb (dhas r expected)) (dkeys observed) in
  let errors3 :=
    if rs_allowed_false_positive_envelope scenario <? Z.of_nat (length unexpected)
    then ["unexpected detections exceed envelope: " +:+ py_repr (VList (VStr <$> unexpected))]
    else [] in
  finished ← utcnow_d;
  let latency := total_seconds (dt_sub finished started) in
  let errors4 :=
    if fl_lt (rs_max_detection_latency_seconds scenario) latency
    then ["detection latency " +:+ fl_fixed 3 latency +:+ "s exceeded "
          +:+ fl_repr (rs_max_detection_latency_seconds scenario) +:+ "s"]
    else [] in
  let errors := errors1 ++ errors2 ++ errors3 ++ errors4 in
  mret {|
    rr_scenario_id := rs_id scenario;
    rr_passed := bool_decide (errors = []) && forallb da_passed assertions;
    rr_started_at := started; rr_finished_at := finished; rr_latency_seconds := latency;
    rr_event_count := Z.of_nat (length events); rr_findings := findings;
    rr_assertions := assertions; rr_unexpected_rule_ids := unexpected; rr_errors := errors |}.
End range.

(** ** The replay lab *)

(** A resolved path is its list of parts. *)
Abbreviation path := (list string).
Class ScenarioFiles := {
  scenario_root : path;
  resolve_under : string → path;                       (** [(root / relative).resolve()] *)
  path_exists : path → bool;
  path_is_dir : path → bool;
  load_scenarios : path → result (list RangeScenario); (** all [*.yaml] below a directory *)
}.
Definition parent (p : path) : path := take (length p - 1) p.
Definition path_str (p : path) : string := "/" +:+ join "/" p.

Record ReplayDataset := {
  ds_dataset_id : string; ds_name : string; ds_path : path; ds_checksum : string;
  ds_scenario_ids : list string }.
Record Comparison := {
  cm_current_passed : Z; cm_candidate_passed : Z; cm_current_latency : float;
  cm_candidate_latency : float; cm_regressions : list string }.
Record ReplayJob := {
  rj_job_id : string; rj_dataset_id : string; rj_mode : string; rj_passed : bool;
  rj_started_at : string; rj_finished_at : string; rj_latency_seconds : float;
  rj_results : list RangeResult; rj_comparison : option Comparison; rj_rule_ids : list string }.
Record ReplayLab := {
  rl_datasets : list (string * ReplayDataset); rl_jobs : list (string * ReplayJob);
  rl_rule_pass : list (string * bool); rl_draws : draws }.
Definition new_lab (d : draws) : ReplayLab :=
  {| rl_datasets := []; rl_jobs := []; rl_rule_pass := []; rl_draws := d |}.

Definition count_passed (results : list RangeResult) : Z := Z.of_nat (length (select rr_passed results)).
Definition sum_latency (results : list RangeResult) : float :=
  fl_sum (rr_latency_seconds <$> results).
Definition regressions (current candidate : list RangeResult) : list string :=
  (λ cc, rr_scenario_id cc.2) <$>
    select (λ cc, rr_passed cc.1 && negb (rr_passed cc.2)) (zip current candidate).
Definition compare (current candidate : list RangeResult) : Comparison := {|
  cm_current_passed := count_passed current; cm_candidate_passed := count_passed candidate;
  cm_current_latency := fl_round 4 (sum_latency current);
  cm_candidate_latency := fl_round 4 (sum_latency candidate);
  cm_regressions := regressions current candidate |}.
Definition all_passed (results : list RangeResult) : bool := forallb rr_passed results.
(** Which results a job reports, its comparison, and whether it passed. *)
Definition judge (current : list RangeResult) (candidate : option (list RangeResult)) (mode : string)
    : list RangeResult * option Comparison * bool :=
  match candidate with
  | Some cand =>
      let comparison := compare current cand in
      if (mode =? "candidate")%string then (cand, Some comparison, all_passed cand)
      else (current, Some comparison,
            all_passed current && bool_decide (cm_regressions comparison = []))
  | None => (current, None, all_passed current)
  end.
Definition covered_rules (results : list RangeResult) : list string :=
  sort_by str_le (remove_dups (results ≫= λ r, da_rule_id <$> rr_assertions r)).

Section lab.
Context `{Oracle} `{ScenarioFiles}.

Definition put_draws (d : draws) (l : ReplayLab) : ReplayLab := {|
  rl_datasets := rl_datasets l; rl_jobs := rl_jobs l; rl_rule_pass := rl_rule_pass l; rl_draws := d |}.
Definition drawing {A} (m : M draws A) : M ReplayLab A := λ l,
  let '(r, d) := m (rl_draws l) in (r, put_draws d l).

Definition register_dataset (name relative_path : string) : M ReplayLab ReplayDataset :=
  let p := resolve_under relative_path in
  if negb (bool_decide (p = scenario_root))
     && negb (bool_decide (scenario_root `prefix_of` p ∧ p ≠ scenario_root))
  then raise (ValueError "dataset path must stay under Blue Range scenario root")
  else if negb (path_exists p) then raise (ValueError ("dataset path missing: " +:+ path_str p))
  else
    let dir := if path_is_dir p then p else parent p in
    scenarios ← lift (load_scenarios dir);
    let checksum := sha256_hex (join "|" (sort_by str_le (rs_id <$> scenarios))) in
    i ← drawing (new_id_d "rds");
    let dataset := {| ds_dataset_id := i; ds_name := name; ds_path := dir; ds_checksum := checksum;
                      ds_scenario_ids := rs_id <$> scenarios |} in
    modify (λ l, {| rl_datasets := dset i dataset (rl_datasets l); rl_jobs := rl_jobs l;
                    rl_rule_pass := rl_rule_pass l; rl_draws := rl_draws l |});;
    mret dataset.

(** The job stored, and its verdict recorded for every rule it covers. *)
Definition record_job (job : ReplayJob) (l : ReplayLab) : ReplayLab := {|
  rl_datasets := rl_datasets l; rl_jobs := dset (rj_job_id job) job (rl_jobs l);
  rl_rule_pass := foldl (λ d r, dset r (rj_passed job) d) (rl_rule_pass l) (rj_rule_ids job);
  rl_draws := rl_draws l |}.
Definition run_job (dataset_id : string) (current : DetectionRegistry)
    (candidate : option DetectionRegistry) (mode : string) : M ReplayLab ReplayJob :=
  l ← get;
  match dget dataset_id (rl_datasets l) with
  | None => raise (KeyError dataset_id)
  | Some dataset =>
      started ← drawing utcnow_d;
      scenarios ← lift (load_scenarios (ds_path dataset));
      current_results ← drawing (mapM' (run_scenario current) scenarios);
      candidate_results ←
        match candidate with
        | Some registry =>
            if mem mode ["candidate"; "compare"]
            then Some <$> drawing (mapM' (run_scenario registry) scenarios)
            else mret None
        | None => mret None
        end;
      let '(results, comparison, passed) := judge current_results candidate_results mode in
      finished ← drawing utcnow_d;
      let rule_ids := covered_rules results in
      i ← drawing (new_id_d "rpl");
      let job := {|
        rj_job_id := i; rj_dataset_id := dataset_id; rj_mode := mode; rj_passed := passed;
        rj_started_at := isoformat started; rj_finished_at := isoformat finished;
        rj_latency_seconds := total_seconds (dt_sub finished started);
        rj_results := results; rj_comparison := comparison; rj_rule_ids := rule_ids |} in
      modify (record_job job);;
      mret job
  end.
Definition clear (l : ReplayLab) : ReplayLab := new_lab (rl_draws l).
Definition rule_regression_passed (rule_id : string) (l : ReplayLab) : bool :=
  default false (dget rule_id (rl_rule_pass l)).
Definition latest_job (l : ReplayLab) : option ReplayJob := last (rl_jobs l).*2.
End lab.

(** ** What an open gate means *)

(** A result tells the truth about its findings. *)
Definition observed_count (rule_id : string) (r : RangeResult) : Z :=
  Z.of_nat (length (select (λ f, fi_rule_id f =? rule_id)%string (rr_findings r))).
Definition result_honest (r : RangeResult) : Prop :=
  (∀ a, a ∈ rr_assertions r → da_observed a = observed_count (da_rule_id a) r
                              ∧ da_passed a = (da_expected_min a <=? da_observed a))
  ∧ (rr_passed r = true → rr_errors r = [] ∧ ∀ a, a ∈ rr_assertions r → da_passed a = true).

Lemma dget_observe rule_id findings :
  default 0 (dget rule_id (observe findings))
  = Z.of_nat (length (select (λ f, fi_rule_id f =? rule_id)%string findings)).
Proof.
  unfold observe. induction findings as [|f l IH] using rev_ind; [done|].
  rewrite foldl_app, select_app, length_app. simpl. rewrite dget_dset. unfold select at 2. rewrite filter_cons.
  case_decide as Hk.
  - subst rule_id. rewrite decide_True by apply String.eqb_refl. simpl. rewrite IH. lia.
  - rewrite decide_False by (intros He%String.eqb_eq; congruence). simpl. rewrite IH. lia.
Qed.

Section range_facts.
Context `{Oracle}.

Lemma run_scenario_honest registry sc d r d' :
  run_scenario registry sc d = (Ok r, d') → result_honest r.
Proof.
  unfold run_scenario. intros Hr. inv_bind Hr. inv_bind Hr. inv_bind Hr. injection Hr as <- <-.
  split; simpl.
  - intros x ((k & spec) & -> & _)%list_elem_of_fmap. simpl. split; [apply dget_observe | done].
  - intros [He Hp]%andb_prop. apply bool_decide_eq_true_1 in He. split; [done|].
    intros x Hx. rewrite forallb_forall in Hp. by apply Hp, list_elem_of_In.
Qed.

(** Calls that draw identifiers forward only, whether they return or raise. *)
Definition forward {A} (m : M draws A) : Prop := ∀ d, (n_uuid d ≤ n_uuid (snd (m d)))%nat.
Lemma forward_bind {A B} (m : M draws A) (k : A → M draws B) :
  forward m → (∀ a, forward (k a)) → forward (m ≫= k).
Proof.
  intros Hm Hk d. unfold mbind, M_bind. specialize (Hm d). destruct (m d) as [[a|e] d1]; simpl in *; [|done].
  specialize (Hk a d1). lia.
Qed.
Lemma forward_foldM {A B} (f : B → A → M draws B) l b : (∀ b x, forward (f b x)) → forward (foldM f b l).
Proof.
  intros Hf. revert b. induction l as [|x l IH]; intros b; [by intros d|].
  apply forward_bind; [apply Hf | intros b'; apply IH].
Qed.
Lemma forward_mapM {A B} (f : A → M draws B) l : (∀ x, forward (f x)) → forward (mapM' f l).
Proof.
  intros Hf. induction l as [|x l IH]; [by intros d|].
  apply forward_bind; [apply Hf|]. intros y. apply forward_bind; [apply IH | by intros ys d].
Qed.
Lemma forward_scenario registry sc :
  Forall RuleSound (all_rules registry) → forward (run_scenario registry sc).
Proof.
  intros Hr. unfold run_scenario. apply forward_bind; [by intros d; simpl; lia|]. intros started.
  apply forward_bind.
  - apply forward_foldM. intros [fs c] e. unfold run_event. apply forward_bind; [|by intros p d].
    intros d. destruct (evaluate_registry registry e c d) as [o d'] eqn:He.
    by eapply evaluate_registry_draws.
  - intros acc. apply forward_bind; [by intros d; simpl; lia|]. by intros finished d.
Qed.
End range_facts.

Lemma mapM_Forall {S A B} (P : B → Prop) (f : A → M S B) l s ys s' :
  (∀ x s y s', f x s = (Ok y, s') → P y) → mapM' f l s = (Ok ys, s') → Forall P ys.
Proof.
  intros Hf. revert s ys s'.
  induction l as [|x l IH]; intros s ys s' Hm; simpl in Hm; [by injection Hm as <- _|].
  inv_bind Hm. inv_bind Hm. injection Hm as <- _. constructor; [by eapply Hf | by eapply IH].
Qed.

Section lab_facts.
Context `{o : Oracle} {laws : OracleLaws o} `{ScenarioFiles}.

Definition covering (rule_id : string) (l : ReplayLab) : list ReplayJob :=
  select (λ j, mem rule_id (rj_rule_ids j)) (rl_jobs l).*2.
Definition job_honest (j : ReplayJob) : Prop :=
  Forall result_honest (rj_results j) ∧ rj_rule_ids j = covered_rules (rj_results j)
  ∧ (rj_passed j = true → Forall (λ r, rr_passed r = true) (rj_results j)).
Record lab_inv (l : ReplayLab) : Prop := {
  lv_ids : ∀ i, i ∈ dkeys (rl_jobs l) → ∃ n, (n < n_uuid (rl_draws l))%nat ∧ i = "rpl_" +:+ uuid_hex n;
  lv_pass : ∀ rule_id, dget rule_id (rl_rule_pass l) = rj_passed <$> last (covering rule_id l);
  lv_jobs : ∀ j, j ∈ (rl_jobs l).*2 → job_honest j;
}.

Lemma dget_fold_set {A} (v : A) keys d k :
  dget k (foldl (λ d r, dset r v d) d keys) = if mem k keys then Some v else dget k d.
Proof.
  revert d. induction keys as [|r keys IH]; intros d; simpl; [done|].
  rewrite IH, dget_dset. destruct (String.eqb_spec k r), (mem k keys); simpl; by try case_decide.
Qed.
Lemma judge_passed current candidate mode results comparison passed :
  judge current candidate mode = (results, comparison, passed) →
  (results = current ∨ candidate = Some results) ∧ (passed = true → Forall (λ r, rr_passed r = true) results).
Proof.
  assert (∀ l, all_passed l = true → Forall (λ r, rr_passed r = true) l) as Hall.
  { intros l Hl. unfold all_passed in Hl. rewrite forallb_forall in Hl. apply Forall_forall.
    intros r Hr. by apply Hl, list_elem_of_In. }
  unfold judge. destruct candidate as [cand|]; [destruct (mode =? "candidate")%string|];
    intros [= <- _ <-]; (split; [auto|]); [apply Hall | intros [? _]%andb_prop; by apply Hall | apply Hall].
Qed.

Lemma record_job_inv job l :
  lab_inv l → (∃ n, n_uuid (rl_draws l) = S n ∧ rj_job_id job = "rpl_" +:+ uuid_hex n
                    ∧ rj_job_id job ∉ dkeys (rl_jobs l)) →
  job_honest job → lab_inv (record_job job l).
Proof.
  intros [Hids Hpass Hjobs] (n & Hn & Hid & Hfresh) Hh.
  assert (rl_jobs (record_job job l) = rl_jobs l ++ [(rj_job_id job, job)]) as Hj.
  { simpl. by apply dset_fresh. }
  split.
  - rewrite Hj. unfold dkeys. rewrite fmap_app. intros i [Hi|Hi%list_elem_of_singleton]%elem_of_app.
    + destruct (Hids i Hi) as (m & Hm & ->). exists m. simpl. split; [done | done].
    + exists n. simpl in *. rewrite Hn, Hi, Hid. split; [lia | done].
  - intros rule_id. unfold covering. rewrite Hj, fmap_app, select_app. simpl.
    rewrite dget_fold_set, Hpass, select_one.
    destruct (mem rule_id (rj_rule_ids job)); [by rewrite last_snoc | by rewrite app_nil_r].
  - rewrite Hj, fmap_app. intros j [Hj'|Hj'%list_elem_of_singleton]%elem_of_app; [auto | by subst].
Qed.

(** A call that keeps the invariant, whose answers satisfy [Q]. *)
Definition keeps_lab {A} (Q : A → Prop) (m : M ReplayLab A) : Prop := ∀ l, lab_inv l →
  lab_inv (snd (m l)) ∧ ∀ a, fst (m l) = Ok a → Q a.
Lemma keeps_lab_bind {A B} (Q : A → Prop) (R : B → Prop) (m : M ReplayLab A) (k : A → M ReplayLab B) :
  keeps_lab Q m → (∀ a, Q a → keeps_lab R (k a)) → keeps_lab R (m ≫= k).
Proof.
  intros Hm Hk l Hl. destruct (Hm l Hl) as [Hinv HQ]. unfold mbind, M_bind.
  destruct (m l) as [[a|e] l1]; simpl in *; [|by split]. by apply Hk; [apply HQ|].
Qed.
Lemma keeps_lab_pure {A} (Q : A → Prop) (r : result A) :
  (∀ a, r = Ok a → Q a) → keeps_lab Q (λ l, (r, l)).
Proof. intros HQ l Hl. by split. Qed.
Lemma keeps_lab_get {B} (R : B → Prop) (k : ReplayLab → M ReplayLab B) :
  (∀ l, keeps_lab R (k l)) → keeps_lab R (get ≫= k).
Proof. intros Hk l Hl. by apply Hk. Qed.
Lemma keeps_lab_drawing {A} (Q : A → Prop) (m : M draws A) :
  forward m → (∀ d a d', m d = (Ok a, d') → Q a) → keeps_lab Q (drawing m).
Proof.
  intros Hf HQ l [Hids Hpass Hjobs]. unfold drawing. specialize (Hf (rl_draws l)).
  destruct (m (rl_draws l)) as [r d] eqn:Hm. simpl in *. split.
  - split; try done. intros i Hi. destruct (Hids i Hi) as (n & Hn & ->). exists n. simpl. split; [lia | done].
  - intros a ->. by eapply HQ.
Qed.
Lemma keeps_lab_scenarios registry scenarios :
  Forall RuleSound (all_rules registry) →
  keeps_lab (Forall result_honest) (drawing (mapM' (run_scenario registry) scenarios)).
Proof.
  intros Hr. apply keeps_lab_drawing.
  - apply forward_mapM. intros x. by apply forward_scenario.
  - intros d rs d' Hm. eapply mapM_Forall; [|exact Hm]. intros. by eapply run_scenario_honest.
Qed.
Lemma keeps_lab_now : keeps_lab (λ _, True) (drawing utcnow_d).
Proof. apply keeps_lab_drawing; [intros d; simpl; lia | done]. Qed.

(** A job recorded under a fresh identifier. *)
Lemma keeps_lab_record (job : string → ReplayJob) :
  (∀ i, rj_job_id (job i) = i ∧ job_honest (job i)) →
  keeps_lab (λ _, True) (i ← drawing (new_id_d "rpl"); modify (record_job (job i));; mret (job i)).
Proof.
  intros Hjob l Hl. set (n := n_uuid (rl_draws l)). set (i := "rpl_" +:+ uuid_hex n).
  set (l1 := put_draws (fresh_uuid (rl_draws l)) l).
  assert (lab_inv l1) as Hl1.
  { destruct Hl as [Hids Hpass Hjobs]. split; try done. intros x Hx.
    destruct (Hids x Hx) as (m & Hm & ->). exists m. simpl. split; [lia | done]. }
  assert (drawing (new_id_d "rpl") l = (Ok i, l1)) as Hd by done.
  rewrite (M_bind_eval _ _ _ _ _ Hd). split; [|done]. simpl. apply record_job_inv; [done | |apply Hjob].
  exists n. destruct (Hjob i) as [-> _]. split_and!; [done | done|]. intros Hx.
  destruct (lv_ids _ Hl i Hx) as (m & Hm & He). injection He as He. apply uuid_hex_inj in He.
  subst. unfold n in Hm. lia.
Qed.

Lemma keeps_lab_run dataset_id current candidate mode :
  Forall RuleSound (all_rules current) →
  (∀ registry, candidate = Some registry → Forall RuleSound (all_rules registry)) →
  keeps_lab (λ _, True) (run_job dataset_id current candidate mode).
Proof.
  intros Hcur Hcand. unfold run_job. apply keeps_lab_get. intros l0.
  destruct (dget dataset_id (rl_datasets l0)) as [ds|]; [|by apply (keeps_lab_pure _ (Raise _))].
  apply (keeps_lab_bind (λ _, True)); [apply keeps_lab_now|]. intros started _.
  apply (keeps_lab_bind (λ _, True)); [by apply keeps_lab_pure|]. intros scenarios _.
  apply (keeps_lab_bind (Forall result_honest)); [by apply keeps_lab_scenarios|]. intros res Hres.
  apply (keeps_lab_bind (λ c, ∀ rs, c = Some rs → Forall result_honest rs)).
  { destruct candidate as [registry|]; [|by apply (keeps_lab_pure _ (Ok None)); intros a [= <-]].
    destruct (mem mode _); [|by apply (keeps_lab_pure _ (Ok None)); intros a [= <-]].
    intros l Hl. destruct (keeps_lab_scenarios registry scenarios (Hcand _ eq_refl) l Hl) as [Hi Hh].
    unfold fmap, M_fmap. destruct (drawing _ l) as [[rs|e] l1]; simpl in *; (split; [done|]); [|done].
    intros a [= <-] rs' [= <-]. by apply Hh. }
  intros cand Hc. destruct (judge res cand mode) as [[results comparison] passed] eqn:Hj.
  apply judge_passed in Hj as [Hres' Hp].
  assert (Forall result_honest results) as Hhon by (destruct Hres' as [->|Hx]; [done | by apply Hc]).
  apply (keeps_lab_bind (λ _, True)); [apply keeps_lab_now|]. intros finished _.
  by apply (keeps_lab_record (λ i, {| rj_job_id := i |})).
Qed.

(** Everything that happens to the lab. The rules of the registries it is given are sound
    in the sense of the detection SDK. *)
Inductive lab_step : ReplayLab → ReplayLab → Prop :=
| lab_register name relative l : lab_step l (snd (register_dataset name relative l))
| lab_run dataset_id current candidate mode l :
    Forall RuleSound (all_rules current) →
    (∀ registry, candidate = Some registry → Forall RuleSound (all_rules registry)) →
    lab_step l (snd (run_job dataset_id current candidate mode l))
| lab_clear l : lab_step l (clear l).

Lemma keeps_lab_register name relative : keeps_lab (λ _, True) (register_dataset name relative).
Proof.
  unfold register_dataset. destruct (_ && _); [by apply (keeps_lab_pure _ (Raise _))|].
  destruct (negb _); [by apply (keeps_lab_pure _ (Raise _))|].
  apply (keeps_lab_bind (λ _, True)); [by apply keeps_lab_pure|]. intros scenarios _.
  apply (keeps_lab_bind (λ _, True)); [apply keeps_lab_drawing; [intros d; simpl; lia | done]|]. intros i _.
  apply (keeps_lab_bind (λ _, True)); [|intros; by apply (keeps_lab_pure _ (Ok _))].
  intros l [Hids Hpass Hjobs]. by split.
Qed.
Lemma new_lab_inv d : lab_inv (new_lab d).
Proof. split; [by intros i Hi%not_elem_of_nil | done | by intros j Hj%not_elem_of_nil]. Qed.
Lemma lab_steps_inv l l' : lab_inv l → rtc lab_step l l' → lab_inv l'.
Proof.
  intros Hl Hst. induction Hst as [l|l l1 l2 H1 _ IH]; [done|]. apply IH.
  destruct H1 as [name rel l|ds cur cand mode l Hcur Hcand|l].
  - by apply keeps_lab_register.
  - by apply keeps_lab_run.
  - apply new_lab_inv.
Qed.

(** The regression gate is open for a rule exactly when the latest replay job that
    covers the rule passed; that job asserts something about the rule, none of its
    scenarios reported an error, and every rule it asserts was found at least as often as
    expected among the findings the registry really produced. *)
Theorem gate_means_passing_job d l rule_id :
  rtc lab_step (new_lab d) l →
  (rule_regression_passed rule_id l = true
   ↔ ∃ job, last (covering rule_id l) = Some job ∧ rj_passed job = true)
  ∧ ∀ job, last (covering rule_id l) = Some job → rj_passed job = true →
      (∃ r a, r ∈ rj_results job ∧ a ∈ rr_assertions r ∧ da_rule_id a = rule_id)
      ∧ ∀ r a, r ∈ rj_results job → a ∈ rr_assertions r →
          rr_errors r = [] ∧ da_expected_min a ≤ observed_count (da_rule_id a) r.
Proof.
  intros Hst. destruct (lab_steps_inv _ _ (new_lab_inv d) Hst) as [_ Hpass Hjobs].
  unfold rule_regression_passed. rewrite Hpass. split.
  - destruct (last (covering rule_id l)) as [j|]; simpl; split; [by eauto | | done|].
    + by intros (job & [= <-] & ?).
    + by intros (job & ? & _).
  - intros job Hl Hp. apply last_Some in Hl as [pre Hl].
    assert (job ∈ covering rule_id l) as Hin by (rewrite Hl; set_solver).
    apply elem_of_select in Hin as [Hin Hm]. destruct (Hjobs job Hin) as (Hh & Hids & Hall).
    specialize (Hall Hp). rewrite Forall_forall in Hh, Hall. split.
    + apply mem_spec in Hm. rewrite Hids in Hm. unfold covered_rules in Hm.
      apply elem_of_sort_by, elem_of_remove_dups, list_elem_of_bind in Hm as (r & Hr & Hrin).
      apply list_elem_of_fmap in Hr as (a & -> & Ha). by exists r, a.
    + intros r a Hr Ha. destruct (Hh r Hr) as [Hobs Hok]. destruct (Hok (Hall r Hr)) as [He Hpa].
      split; [done|]. destruct (Hobs a Ha) as [Ho Hc]. rewrite (Hpa a Ha) in Hc. symmetry in Hc.
      apply Z.leb_le in Hc. lia.
Qed.
End lab_facts.

(** ** A concrete job *)

#[local] Instance demo_oracle : Oracle :=
  {| uuid_hex := λ n, str_of_nat n; clock := λ n, utc 20000 (Z.of_nat n) |}.
#[local] Instance demo_laws : OracleLaws demo_oracle.
Proof. constructor. intros a b Hab. apply str_of_Z_inj in Hab. lia. Defined.

(** A rule that reports every event. *)
Definition echo_meta : RuleMeta :=
  rule_meta "demo.echo" "Echo" "Reports every event." Low 50 [] [] [].
Definition echo_detect (event : CanonicalEvent) (ctx : DetectionContext) : result (option Hit) :=
  Ok (Some {| hit_related := [event]; hit_fingerprint := e_id event; hit_explanation := "" |}).
Definition EchoRule : DetectionRule :=
  {| dr_meta := echo_meta; dr_evaluate := emit finding_from_events echo_meta echo_detect |}.
Lemma echo_sound : RuleSound EchoRule.
Proof. rule_sound echo_detect. Qed.
Definition echo_registry : DetectionRegistry := register EchoRule [].
Definition echo_scenario (min_count : Z) : RangeScenario := {|
  rs_id := "br-echo"; rs_family := "demo"; rs_name := "Echo"; rs_description := "";
  rs_attack_techniques := []; rs_max_detection_latency_seconds := fl_of_Z 5;
  rs_allowed_false_positive_envelope := 0;
  rs_events := [blank_event "evt_1" "ten_a" (utc 20000 0); blank_event "evt_2" "ten_a" (utc 20000 1)];
  rs_expected_event_count := 2;
  rs_expected_detections := [{| xd_rule_id := "demo.echo"; xd_min_count := min_count;
                                xd_mitre_techniques := [] |}];
  rs_expected_mitre := []; rs_attributes := [] |}.
#[local] Instance demo_files : ScenarioFiles := {|
  scenario_root := ["range"];
  resolve_under := λ rel, if (rel =? ".")%string then ["range"] else ["range"; rel];
  path_exists := λ _, true; path_is_dir := λ _, true;
  load_scenarios := λ p, if bool_decide (p = ["range"; "hard"]) then Ok [echo_scenario 3]
                         else Ok [echo_scenario 2] |}.
Definition lab0 : ReplayLab := new_lab (MkDraws 0 0).
Definition lab1 : ReplayLab := snd (register_dataset "all" "." lab0).
Definition lab2 : ReplayLab := snd (run_job "rds_0" echo_registry None "current" lab1).
Definition lab3 : ReplayLab := snd (register_dataset "hard" "hard" lab2).
Definition lab4 : ReplayLab := snd (run_job "rds_4" echo_registry None "current" lab3).
(** The gate opens with the first job and closes with the second. *)
Example gate_opens_and_closes :
  (rule_regression_passed "demo.echo" <$> [lab0; lab1; lab2; lab3; lab4]) = [false; false; true; true; false].
Proof. vm_compute. reflexivity. Qed.

Lemma gate_means_passing_job_witness :
  ∃ job, last (covering "demo.echo" lab2) = Some job ∧ rj_passed job = true
    ∧ ∃ r a, r ∈ rj_results job ∧ a ∈ rr_assertions r ∧ da_rule_id a = "demo.echo".
Proof.
  destruct (gate_means_passing_job (MkDraws 0 0) lab2 "demo.echo") as [Hiff Hjob].
  { eapply rtc_l; [apply (lab_register "all" ".")|]. apply rtc_once, lab_run.
    - apply Forall_singleton, echo_sound.
    - done. }
  destruct (proj1 Hiff) as (job & Hl & Hp); [vm_compute; reflexivity|].
  exists job. split; [done|]. split; [done|]. by apply Hjob.
Defined.
