(* ===== verification/Catalog.v ===== *)
(** * The detection catalogue

    Models [detections/python/catalog.py] and [detections/lint.py]. The compiled Sigma
    rules the catalogue appends are an argument, rules that satisfy the same interface;
    [Sigma] has the compiler they come from. *)
From S2P Require Export EndpointRules.
Local Open Scope Z_scope.

Section catalog.
Context `{Oracle} `{IpLib}.

Definition python_rules : list DetectionRule :=
  [PasswordSprayRule; BruteForceRule; PrivilegeGrantRule; RepeatedFailuresRule; UnusualSuccessRule;
   ImpossibleTravelRule; MfaFatigueRule; DormantAccountRule; ServiceAccountMisuseRule]
  ++ NETWORK_RULES ++ ENDPOINT_RULES ++ [ScheduledAuthFailureSweep].
Definition build_default_registry (sigma : list DetectionRule) : DetectionRegistry :=
  foldl (λ r rule, register rule r) [] (python_rules ++ sigma).

Definition ALLOWED_STATUS : list string := ["draft"; "tested"; "promoted"; "disabled"].
Definition ALLOWED_EXECUTION : list string := ["realtime"; "scheduled"; "threshold"].
Definition lint_one (seen : list string) (meta : RuleMeta) : list string :=
  (if mem (rm_rule_id meta) seen then ["duplicate rule_id " +:+ rm_rule_id meta] else [])
  ++ (if negb (nonempty (rm_version meta)) || negb (contains (rm_version meta) ".")
      then [rm_rule_id meta +:+ ": version must be semver-like"] else [])
  ++ (if negb (mem (rm_status meta) ALLOWED_STATUS)
      then [rm_rule_id meta +:+ ": invalid status " +:+ rm_status meta] else [])
  ++ (if negb (mem (rm_execution meta) ALLOWED_EXECUTION)
      then [rm_rule_id meta +:+ ": invalid execution " +:+ rm_execution meta] else [])
  ++ (if bool_decide (rm_mitre_techniques meta = [])
      then [rm_rule_id meta +:+ ": ATT&CK techniques required"] else [])
  ++ (if (rm_rule_id meta =? "sigma.identity.failed_logon_burst")%string
      then ["sigma/identity/failed_logon_burst.yml must not be in the default registry"] else []).
Fixpoint lint_loop (seen : list string) (metas : list RuleMeta) : list string :=
  match metas with
  | [] => []
  | meta :: metas' =>
      if negb (nonempty (rm_rule_id meta)) then "rule missing rule_id" :: lint_loop seen metas'
      else lint_one seen meta ++ lint_loop (rm_rule_id meta :: seen) metas'
  end.
Definition lint_rules (r : DetectionRegistry) : list string :=
  lint_loop [] (dr_meta <$> all_rules r)
  ++ (if (length (all_rules r) <? 3)%nat then ["production catalogue has too few rules"] else []).

(** ** The registry holds sound rules *)

Lemma all_rules_register (P : DetectionRule → Prop) rule r :
  P rule → Forall P (all_rules r) → Forall P (all_rules (register rule r)).
Proof.
  unfold all_rules, register. intros Hp. induction r as [|[k v] r IH]; simpl; [by constructor|].
  intros [Hv Hr]%Forall_cons. destruct (k =? _)%string; simpl; constructor; auto.
Qed.
Lemma all_rules_build (P : DetectionRule → Prop) rules :
  Forall P rules → Forall P (all_rules (foldl (λ r rule, register rule r) [] rules)).
Proof.
  assert (∀ r, Forall P (all_rules r) → Forall P rules →
    Forall P (all_rules (foldl (λ r rule, register rule r) r rules))) as Hg.
  { induction rules as [|x rules IH]; intros r Hr; simpl; [done|].
    intros [Hx Hrules]%Forall_cons. by apply IH, Hrules; apply all_rules_register. }
  intros Hf. apply Hg; [constructor | done].
Qed.
Lemma python_rules_sound : Forall RuleSound python_rules.
Proof. repeat (apply Forall_cons_2; [apply _|]). apply Forall_nil_2. Qed.

(** A registry holds one rule for an identifier, the identifier of its metadata. *)
Definition keyed (r : DetectionRegistry) : Prop := NoDup (r.*1) ∧ Forall (λ kv, kv.1 = rm_rule_id (dr_meta kv.2)) r.
Lemma register_keyed rule r : keyed r → keyed (register rule r).
Proof.
  unfold keyed, register. set (k := rm_rule_id (dr_meta rule)). assert (k = rm_rule_id (dr_meta rule)) as Hk by done. clearbody k.
  intros [Hnd Hr]. induction r as [|[k' v] r IH]; cbn.
  - split; [apply NoDup_singleton | by apply Forall_singleton].
  - apply Forall_cons in Hr as [Hv Hr]. apply NoDup_cons in Hnd as [Hn Hnd].
    destruct (String.eqb_spec k' k) as [->|Hne]; cbn.
    + split; [by constructor | by constructor].
    + destruct (IH Hnd Hr) as [IH1 IH2]. split; [|by constructor]. constructor; [|done]. intros Hin.
      apply list_elem_of_fmap in Hin as ([k2 v2] & -> & Hin). apply elem_of_dset in Hin as [[-> ->]|Hin]; [done|].
      apply Hn, list_elem_of_fmap. by exists (k2, v2).
Qed.
Lemma build_keyed sigma : keyed (build_default_registry sigma).
Proof.
  unfold build_default_registry. generalize (python_rules ++ sigma). intros l.
  assert (∀ r, keyed r → keyed (foldl (λ r rule, register rule r) r l)) as Hg; [|apply Hg; split; constructor].
  induction l as [|x l IH]; intros r Hr; [done|]. cbn. apply IH, register_keyed, Hr.
Qed.
Lemma keyed_ids r : keyed r → NoDup (rm_rule_id ∘ dr_meta <$> all_rules r).
Proof.
  intros [Hnd Hr]. assert (rm_rule_id ∘ dr_meta <$> all_rules r = r.*1) as ->; [|done]. unfold all_rules.
  rewrite <-list_fmap_compose. apply list_fmap_ext. intros i kv Hi. rewrite Forall_forall in Hr.
  symmetry. by eapply Hr, list_elem_of_lookup_2.
Qed.

(** ** Properties *)

(** C13. Whatever the whole catalogue reports about an event is sound: every finding
    belongs to the event's tenant, carries the identity of a registered rule that runs in
    this mode, has a fingerprint that was not open, names the event among its events, and
    every other event it names, and every evidence reference it makes, is an event of the
    same tenant in the last day of the window. No rule reports an event twice: the findings
    are what each rule of the registry contributes, in order, at most one each, and no two
    findings have one rule identifier. *)
Theorem catalog_findings_sound sigma event ctx d fs d' :
  Forall RuleSound sigma →
  evaluate_registry (build_default_registry sigma) event ctx d = (Ok fs, d') →
  Forall (λ f, ∃ rule, rule ∈ all_rules (build_default_registry sigma)
                       ∧ skipped rule ctx = false
                       ∧ sound_finding (dr_meta rule) event ctx f) fs
  ∧ (∃ per, fs = concat per ∧ Forall2 (by_rule event ctx) (all_rules (build_default_registry sigma)) per)
  ∧ ∀ rule_id, (length (select (λ f, fi_rule_id f =? rule_id)%string fs) ≤ 1)%nat.
Proof.
  intros Hs He. destruct (evaluate_registry_by_rule (build_default_registry sigma) event ctx d fs d') as (per & -> & Hper); [|done|].
  { apply all_rules_build, Forall_app. split; [apply python_rules_sound | done]. }
  split; [by apply by_rule_sound|]. split; [by exists per|]. intros i.
  eapply by_rule_once; [exact Hper | apply keyed_ids, build_keyed].
Qed.

(** What the window query of the account rules selects, stated on the events. *)
Definition failed_login_of (event x : CanonicalEvent) : Prop :=
  e_category x = "authentication" ∧ e_outcome x = Some Failure ∧ user_name x = user_name event.

Lemma has_user_name_some event : has_user_name event = true → user_name event = Some (the_user event).
Proof. unfold has_user_name, the_user. by destruct (user_name event). Qed.

Lemma user_failures_spec ctx event secs x :
  has_user_name event = true →
  x ∈ user_failures ctx event secs ↔ in_window ctx event secs x ∧ failed_login_of event x.
Proof.
  intros Hu. unfold user_failures. rewrite events_in_window_spec. unfold failed_login_of.
  pose proof (has_user_name_some event Hu) as Hn. rewrite Hn. unfold has_user_name in Hu.
  rewrite Hn in Hu. simpl in Hu.
  rewrite window_match_iff. unfold in_window. simpl.
  rewrite filter_str_some, filter_ostr_some, instant_add by done. unfold seconds.
  split; [naive_solver | intros ((? & ? & ?) & -> & -> & ->)]. split_and!; naive_solver lia.
Qed.

(** All the failures counted belong to one account. *)
Lemma user_failures_one_user ctx event secs :
  has_user_name event = true → (length (user_names (user_failures ctx event secs)) ≤ 1)%nat.
Proof.
  intros Hu. unfold user_names.
  assert (∀ y, y ∈ omap (λ x, if has_user_name x then user_name x else None)
                        (user_failures ctx event secs) → y = the_user event) as Hall.
  { intros y Hy. apply list_elem_of_omap in Hy as (x & Hx & Hy).
    apply user_failures_spec in Hx as [_ (_ & _ & Hn)]; [|done].
    pose proof (has_user_name_some event Hu). destruct (has_user_name x); congruence. }
  revert Hall. generalize (omap (λ x, if has_user_name x then user_name x else None)
                             (user_failures ctx event secs)).
  intros l. induction l as [|y l IH]; intros Hall; simpl; [lia|].
  destruct (decide_rel _ y l) as [Hy|Hy]; [apply IH; intros z Hz; apply Hall; by right|].
  simpl. destruct l as [|z l]; [simpl; lia|]. exfalso. apply Hy.
  rewrite (Hall y) by left. rewrite (Hall z) by (right; left). left.
Qed.

(** The brute-force rule fires exactly when it should: it reports a failed login of a
    named account iff at least eight failed authentications of that account, in that
    tenant, lie in the last ten minutes of the window and the ten-minute fingerprint is
    not open; the finding then names exactly those events and the trigger. The rule's
    exclusion of many-user bursts never applies. *)
Theorem brute_force_fires_iff event ctx d :
  let r := dr_evaluate BruteForceRule event ctx d in
  let failures := user_failures ctx event 600 in
  let fingerprint := fp brute_force_meta event
        (the_user event +:+ ":" +:+ isoformat (trunc_10min (e_timestamp event))) in
  (∀ x, has_user_name event = true →
     x ∈ failures ↔ in_window ctx event 600 x ∧ failed_login_of event x)
  ∧ (is_auth_failure event = true ∧ has_user_name event = true ∧ (8 ≤ length failures)%nat
     ∧ fingerprint ∉ dc_open_fingerprints ctx
     → ∃ f d', r = (Ok [f], d') ∧ fi_fingerprint f = fingerprint
               ∧ fi_event_ids f = event_ids_of event failures)
  ∧ (¬ (is_auth_failure event = true ∧ has_user_name event = true ∧ (8 ≤ length failures)%nat
        ∧ fingerprint ∉ dc_open_fingerprints ctx) → r = (Ok [], d)).
Proof.
  intros r failures fingerprint. split; [intros x Hu; by apply user_failures_spec|].
  subst r. cbn [dr_evaluate BruteForceRule].
  assert (∀ P : Prop, (brute_force_detect event ctx = no_hit → ¬ P →
    (P → ∃ f d', emit identity_finding_from_events brute_force_meta brute_force_detect event ctx d
                 = (Ok [f], d') ∧ fi_fingerprint f = fingerprint
                 ∧ fi_event_ids f = event_ids_of event failures)
    ∧ (¬ P → emit identity_finding_from_events brute_force_meta brute_force_detect event ctx d
             = (Ok [], d)))) as Hno.
  { intros P Hd HP. split; [done|]. intros _. by rewrite (emit_none _ _ _ _ _ _ Hd). }
  destruct (is_auth_failure event) eqn:Hf;
    [|apply Hno; [unfold brute_force_detect; by rewrite Hf | naive_solver]].
  destruct (has_user_name event) eqn:Hu;
    [|apply Hno; [unfold brute_force_detect; by rewrite Hf, Hu | naive_solver]].
  pose proof (user_failures_one_user ctx event 600 Hu) as Hone. fold failures in Hone.
  destruct (Nat.ltb_spec (length failures) 8) as [Hlt|Hge];
    [apply Hno; [unfold brute_force_detect; rewrite Hf, Hu; fold failures; by apply Nat.ltb_lt in Hlt as -> | lia]|].
  assert (∃ h, brute_force_detect event ctx = Ok (Some h) ∧ hit_fingerprint h = fingerprint
               ∧ hit_related h = failures) as (h & Hd & Hfp & Hrel).
  { unfold brute_force_detect. rewrite Hf, Hu. fold failures. apply Nat.ltb_ge in Hge as ->.
    assert ((2 <? length (user_names failures))%nat = false) as -> by (apply Nat.ltb_ge; lia).
    by eexists. }
  rewrite (emit_hit _ _ _ _ _ _ h Hd), Hfp. unfold already_open.
  destruct (mem fingerprint (dc_open_fingerprints ctx)) eqn:Ho.
  - apply mem_spec in Ho. split; [naive_solver | done].
  - apply mem_false in Ho. split; [|naive_solver lia]. intros _.
    apply has_user_name_some in Hu. unfold user_name in Hu.
    destruct (e_user event) as [u|] eqn:Heu; [|done]. simpl in Hu.
    unfold identity_finding_from_events, finding_with, identity_attributes. rewrite Heu, Hu.
    eexists _, _. split; [reflexivity|]. simpl. by rewrite Hrel.
Qed.

(** The identity findings copy the user's name into a string attribute, so an event
    whose user has no name cannot be reported: a privileged grant by such a user makes
    the rule raise, although the rule means to report it with the actor "unknown". *)
Theorem privilege_grant_nameless_user_raises event ctx d u :
  e_category event ∈ ["identity"; "directory"] →
  (∃ a, a ∈ ["add_to_group"; "grant_role"; "add_member"; "elevate"] ∧ e_action event = Some a) →
  (∃ m, m ∈ PRIVILEGED_MARKERS ∧ contains (grant_target event) m = true) →
  fp privilege_grant_meta event (e_id event) ∉ dc_open_fingerprints ctx →
  e_user event = Some u → u_name u = None →
  ∃ msg d', dr_evaluate PrivilegeGrantRule event ctx d = (Raise (ValueError msg), d').
Proof.
  intros Hc (a & Ha & Hact) (m & Hm & Hmark) Ho Hu Hn. cbn [dr_evaluate PrivilegeGrantRule].
  assert (existsb (oeqb (e_action event)) ["add_to_group"; "grant_role"; "add_member"; "elevate"] = true) as Hx.
  { apply existsb_exists. exists a. split; [by apply list_elem_of_In | by apply oeqb_spec]. }
  assert (existsb (contains (grant_target event)) PRIVILEGED_MARKERS = true) as Hy.
  { apply existsb_exists. exists m. split; [by apply list_elem_of_In | done]. }
  assert (∃ h, privilege_grant_detect event ctx = Ok (Some h)
               ∧ hit_fingerprint h = fp privilege_grant_meta event (e_id event)) as (h & Hd & Hfp).
  { apply mem_spec in Hc. unfold privilege_grant_detect. cbv zeta. rewrite Hc, Hx, Hy. by eexists. }
  rewrite (emit_hit _ _ _ _ _ _ h Hd), Hfp. unfold already_open. apply mem_false in Ho. rewrite Ho.
  unfold identity_finding_from_events, finding_with, identity_attributes. rewrite Hu, Hn.
  eexists _, _. reflexivity.
Qed.

(** The catalogue of the repository passes its own lint: it registers twenty-five
    rules under distinct non-empty identifiers, and the gate reports no error. *)
Theorem default_catalog_lints :
  lint_rules (build_default_registry []) = []
  ∧ length (all_rules (build_default_registry [])) = 25%nat
  ∧ NoDup (dkeys (build_default_registry [])).
Proof.
  split; [vm_compute; reflexivity|]. split; [vm_compute; reflexivity|].
  apply (bool_decide_unpack _). vm_compute. exact I.
Qed.
End catalog.

(** ** A concrete burst *)

#[local] Instance demo_oracle : Oracle :=
  {| uuid_hex := λ n, pad 32 (Z.of_nat n); clock := λ n, utc 20000 (Z.of_nat n) |}.
#[local] Instance demo_ip : IpLib := {| ipv6_private := λ _, None |}.

Definition with_auth (o : Outcome) (user : option CanonicalUser) (e : CanonicalEvent) : CanonicalEvent := {|
  e_id := e_id e; e_tenant_id := e_tenant_id e; e_timestamp := e_timestamp e;
  e_ingested_at := e_ingested_at e; e_source := e_source e; e_source_type := e_source_type e;
  e_event_type := "login"; e_category := "authentication"; e_user := user; e_host := None;
  e_process := None; e_parent_process := None; e_src_ip := Some "203.0.113.7"; e_dst_ip := None;
  e_src_port := None; e_dst_port := None; e_protocol := None; e_domain := None; e_url := None;
  e_file := None; e_hash := None; e_identity := None; e_cloud_resource := None; e_action := None;
  e_outcome := Some o; e_severity := Informational; e_confidence := fl_of_Z 1;
  e_risk_score := fl_of_Z 0; e_raw_event := []; e_schema_version := SCHEMA_VERSION;
  e_attributes := []; e_idempotency_key := None; e_correlation_id := None; e_trace_id := None;
  e_raw_hash := None |}.
Definition user_named (name : option string) : CanonicalUser :=
  {| u_name := name; u_id := None; u_email := None; u_domain := None |}.
Definition failed_login (n : nat) : CanonicalEvent :=
  with_auth Failure (Some (user_named (Some "alice")))
    (blank_event ("evt_" +:+ str_of_nat n) "ten_a" (utc 20000 (Z.of_nat n * 60))).
Definition burst (n : nat) : list CanonicalEvent := failed_login <$> seq 0 n.
Definition burst_ctx (n : nat) : DetectionContext :=
  {| dc_window := burst n; dc_open_fingerprints := []; dc_scheduled := false |}.
Definition reported (n : nat) (trigger : CanonicalEvent) : list string :=
  match fst (evaluate_registry (build_default_registry []) trigger (burst_ctx n) (MkDraws 0 0)) with
  | Ok fs => fi_rule_id <$> fs
  | Raise _ => ["raised"]
  end.
Example burst_of_eight : reported 8 (failed_login 7) = ["identity.brute_force"].
Proof. vm_compute. reflexivity. Qed.
Example burst_of_five : reported 5 (failed_login 4) = ["identity.repeated_failures"].
Proof. vm_compute. reflexivity. Qed.
(** Six and seven failures are reported by neither rule. *)
Example burst_of_six : reported 6 (failed_login 5) = [] ∧ reported 7 (failed_login 6) = [].
Proof. vm_compute. auto. Qed.

Definition grant_event : CanonicalEvent := {|
  e_id := "evt_g"; e_tenant_id := "ten_a"; e_timestamp := utc 20000 0; e_ingested_at := utc 20000 0;
  e_source := "ad"; e_source_type := "ad"; e_event_type := "group"; e_category := "directory";
  e_user := Some (user_named None); e_host := None; e_process := None; e_parent_process := None;
  e_src_ip := None; e_dst_ip := None; e_src_port := None; e_dst_port := None; e_protocol := None;
  e_domain := None; e_url := None; e_file := None; e_hash := None; e_identity := None;
  e_cloud_resource := None; e_action := Some "add_to_group"; e_outcome := None;
  e_severity := Informational; e_confidence := fl_of_Z 1; e_risk_score := fl_of_Z 0;
  e_raw_event := []; e_schema_version := SCHEMA_VERSION;
  e_attributes := [("group", VStr "Domain Admins")]; e_idempotency_key := None;
  e_correlation_id := None; e_trace_id := None; e_raw_hash := None |}.

Definition burst_findings : list Finding :=
  match fst (evaluate_registry (build_default_registry []) (failed_login 7) (burst_ctx 8) (MkDraws 0 0)) with
  | Ok fs => fs | Raise _ => [] end.

Lemma catalog_findings_sound_witness :
  length burst_findings = 1%nat
  ∧ Forall (λ f, ∃ rule, rule ∈ all_rules (build_default_registry [])
                        ∧ skipped rule (burst_ctx 8) = false
                        ∧ sound_finding (dr_meta rule) (failed_login 7) (burst_ctx 8) f) burst_findings.
Proof.
  split; [vm_compute; reflexivity|].
  refine (proj1 (catalog_findings_sound [] (failed_login 7) (burst_ctx 8) (MkDraws 0 0) burst_findings
    (snd (evaluate_registry (build_default_registry []) (failed_login 7) (burst_ctx 8) (MkDraws 0 0)))
    (Forall_nil_2 _) _)).
  vm_compute. reflexivity.
Defined.

Lemma privilege_grant_nameless_user_raises_witness :
  ∃ msg d', dr_evaluate PrivilegeGrantRule grant_event (burst_ctx 0) (MkDraws 0 0)
            = (Raise (ValueError msg), d').
Proof.
  apply (privilege_grant_nameless_user_raises grant_event (burst_ctx 0) (MkDraws 0 0) (user_named None)).
  - by apply mem_spec.
  - exists "add_to_group". split; [by apply mem_spec | done].
  - exists "domain admins". split; [by apply mem_spec | done].
  - apply not_elem_of_nil.
  - reflexivity.
  - reflexivity.
Defined.
