(* ===== verification/Sigma.v ===== *)
(** * Sigma rules

    Models [packages/sigma-compiler/blueteam_sigma/compiler.py]: a Sigma file, read by the
    YAML library to a dynamic value, is compiled to a rule of the detection SDK. The rules
    of the catalogue that are compiled from files are rules of this form. *)
From S2P Require Export Catalog Normalize.
Local Open Scope Z_scope.

Definition SigmaCompileError (message : string) : exn := ValueError message.

(** ** Matching *)

(** The fields of [mapping]; a field of it may be absent from the event. *)
Definition sigma_mapping (event : CanonicalEvent) : list (string * option string) :=
  let parent := p ← e_parent_process event; p_name p in
  let command_line := p ← e_process event; p_command_line p in [
  ("process.image", process_name event); ("process.name", process_name event); ("process.commandline", command_line);
  ("parent.image", parent); ("parent.name", parent); ("user.name", user_name event); ("src_ip", e_src_ip event);
  ("destination.ip", e_dst_ip event); ("event_type", Some (e_event_type event)); ("category", Some (e_category event));
  ("outcome", outcome_str <$> e_outcome event); ("action", e_action event); ("Image", process_name event);
  ("ParentImage", parent); ("CommandLine", command_line)].
Definition _canonical_field (event : CanonicalEvent) (field : string) : option string :=
  match dget field (sigma_mapping event) with
  | Some value => value
  | None => py_str <$> dget field (e_attributes event)
  end.
(** [s.endswith(t)] and [s[:-1]]. *)
Fixpoint endswith (s t : string) : bool :=
  (s =? t)%string || match s with EmptyString => false | String _ s' => endswith s' t end.
Definition butlast (s : string) : string := str_take (String.length s - 1) s.
Definition glob (text value : string) : bool :=
  if endswith text "*" && startswith text "*" then contains value (butlast (str_drop 1 text))
  else if endswith text "*" then startswith value (butlast text)
  else if startswith text "*" then endswith value (str_drop 1 text)
  else (value =? text)%string.
Fixpoint match_present (observed : string) (expected : pyval) : bool :=
  match expected with
  | VList items => existsb (match_present observed) items
  | _ => glob (lower (py_str expected)) (lower observed)
  end.
Definition _match_value (observed : option string) (expected : pyval) : bool :=
  match observed with Some o => match_present o expected | None => false end.
(** [all(_match_value(_canonical_field(event, key), expected) for key, expected in d.items())] *)
Definition matches_all (event : CanonicalEvent) (d : pydict) : bool :=
  forallb (λ kv, _match_value (_canonical_field event kv.1) kv.2) d.

(** ** Compiling *)

(** ["condition" in v], and [v["condition"]]. *)
Definition has_condition (v : pyval) : result bool :=
  match v with
  | VDict d => Ok (dhas "condition" d)
  | VStr s => Ok (contains s "condition")
  | VList l => Ok (existsb (λ x, match x with VStr s => (s =? "condition")%string | _ => false end) l)
  | _ => Raise (TypeError ("argument of type '" +:+ type_name v +:+ "' is not iterable"))
  end.
Definition condition_of (v : pyval) : result pyval :=
  match v with
  | VDict d => Ok (dgetv "condition" d)
  | VStr _ => Raise (TypeError "string indices must be integers, not 'str'")
  | _ => Raise (TypeError "list indices must be integers or slices, not str")
  end.
Definition CONDITIONS : list string := ["selection"; "selection and not filter"].
Fixpoint missing_section (path : string) (raw : pydict) (required : list string) : result unit :=
  match required with
  | [] => Ok tt
  | k :: rest =>
      if dhas k raw then missing_section path raw rest
      else Raise (SigmaCompileError (path +:+ " missing " +:+ k))
  end.
(** [selection] and [filt]. *)
Definition sections (detection : pyval) : result (pydict * option pydict) :=
  conditional ← has_condition detection;
  if negb conditional then Raise (SigmaCompileError "detection.condition is required")
  else
    condition ← condition_of detection;
    supported ← in_set condition CONDITIONS;
    if negb supported then Raise (SigmaCompileError "unsupported condition — only selection[/not filter] is compiled")
    else
      d ← dict_of detection;
      match dgetv "selection" d with
      | VDict selection =>
          Ok (selection, if contains (py_str condition) "not filter"
                         then match dgetv "filter" d with VDict filt => Some filt | _ => None end else None)
      | _ => Raise (SigmaCompileError "selection must be an object")
      end.
Definition mitre_id (tag : pyval) : option string :=
  let text := lower (py_str tag) in
  if startswith text "attack.t" then Some ("T" +:+ upper (str_drop 8 text)) else None.
Definition sigma_level (raw : pydict) : Severity :=
  default Medium (dget (lower (py_str (dget_or "level" (VStr "medium") raw)))
    [("critical", Critical); ("high", High); ("medium", Medium); ("low", Low)]).
Definition sigma_meta (raw : pydict) : result RuleMeta :=
  tags ← iterate (vor (dgetv "tags" raw) (VList []));
  logsource ← dict_of (vor (dgetv "logsource" raw) (VDict []));
  tested ← in_set (dgetv "status" raw) ["test"; "stable"; "tested"];
  Ok {|
    rm_rule_id := "sigma." +:+ py_str (dgetv "id" raw); rm_name := py_str (dgetv "title" raw);
    rm_description := py_str (vor (dgetv "description" raw) (dgetv "title" raw));
    rm_version := py_str (vor (dgetv "version" raw) (VStr "1.0.0")); rm_severity := sigma_level raw; rm_confidence := 75;
    rm_mitre_tactics := []; rm_mitre_techniques := omap mitre_id tags;
    rm_data_sources := [py_str (vor (dgetv "product" logsource) (VStr "unknown"))];
    rm_author := py_str (vor (dgetv "author" raw) (VStr "blueteam-os"));
    rm_status := if tested : bool then "tested" else "draft"; rm_execution := "realtime" |}.

Section compiler.
Context `{Oracle}.
Definition excluded (event : CanonicalEvent) (filt : option pydict) : bool :=
  match filt with Some f => matches_all event f | None => false end.
Definition sigma_fingerprint (meta : RuleMeta) (event : CanonicalEvent) : string :=
  rm_rule_id meta +:+ ":" +:+ e_tenant_id event +:+ ":" +:+ e_id event.
Definition sigma_detect (meta : RuleMeta) (selection : pydict) (filt : option pydict) (event : CanonicalEvent)
    (context : DetectionContext) : result (option Hit) :=
  if negb (matches_all event selection) then Ok None
  else if excluded event filt then Ok None
  else Ok (Some {|
    hit_related := [event]; hit_fingerprint := sigma_fingerprint meta event;
    hit_explanation := "Sigma " +:+ rm_rule_id meta +:+ " matched selection on event " +:+ e_id event +:+ "." |}).
(** The finding has no attributes, and its version is a constant. *)
Definition versioned (meta : RuleMeta) : RuleMeta := {|
  rm_rule_id := rm_rule_id meta; rm_name := rm_name meta; rm_description := rm_description meta; rm_version := "1.0.0";
  rm_severity := rm_severity meta; rm_confidence := rm_confidence meta; rm_mitre_tactics := rm_mitre_tactics meta;
  rm_mitre_techniques := rm_mitre_techniques meta; rm_data_sources := rm_data_sources meta; rm_author := rm_author meta;
  rm_status := rm_status meta; rm_execution := rm_execution meta |}.
Definition sigma_finding (meta : RuleMeta) (event : CanonicalEvent) (h : Hit) : M draws Finding :=
  finding_with (Ok []) (versioned meta) event h.
Definition CompiledSigmaRule (meta : RuleMeta) (selection : pydict) (filt : option pydict) : DetectionRule := {|
  dr_meta := meta; dr_evaluate := emit sigma_finding meta (sigma_detect meta selection filt) |}.
(** [compile_rule(path)], for what the YAML library reads from the file. *)
Definition compile_rule (path name : string) (raw : pyval) : result DetectionRule :=
  match raw with
  | VDict raw =>
      missing_section name raw ["title"; "id"; "detection"; "logsource"];;
      '(selection, filt) ← sections (dgetv "detection" raw);
      meta ← sigma_meta raw;
      Ok (CompiledSigmaRule meta selection filt)
  | _ => Raise (SigmaCompileError (path +:+ " is not a mapping"))
  end.
Definition compile_rules_dir (files : list (string * string * pyval)) : result (list DetectionRule) :=
  mapM (λ f, compile_rule f.1.1 f.1.2 f.2) files.
End compiler.

(** ** Patterns *)

Definition star : ascii := "*".
(** What a pattern means: each asterisk stands for any text, every other character for
    itself. *)
Inductive wild : string → string → Prop :=
| wild_end : wild "" ""
| wild_char c p v : c ≠ star → wild p v → wild (String c p) (String c v)
| wild_star p a v : wild p v → wild (String star p) (a +:+ v).
Definition star_free (s : string) : bool := str_all (λ c, negb (Ascii.eqb c star)) s.
Definition edge (b : bool) : string := if b then "*" else "".

Lemma wild_nil v : wild "" v ↔ v = "".
Proof. split; [by inversion 1 | intros ->; constructor]. Qed.
Lemma wild_star_iff p v : wild (String star p) v ↔ ∃ a w, v = a +:+ w ∧ wild p w.
Proof. split; [inversion 1; [done | eauto] | intros (a & w & -> & Hw); by constructor]. Qed.
Lemma wild_free p q v : star_free p = true → wild (p +:+ q) v ↔ ∃ w, v = p +:+ w ∧ wild q w.
Proof.
  revert v. induction p as [|c p IH]; intros v Hp.
  { change ("" +:+ q) with q. split; [by exists v | by intros (w & -> & Hw)]. }
  unfold star_free in *. cbn [str_all] in Hp. apply andb_prop in Hp as [Hc Hp]. apply negb_true_iff in Hc.
  assert (c ≠ star) as Hne. { intros ->. by rewrite Ascii.eqb_refl in Hc. }
  change (String c p +:+ q) with (String c (p +:+ q)). split.
  - inversion 1 as [|? ? v' _ Hw|]; subst; [|done]. apply IH in Hw as (w & -> & Hw); [|done]. by exists w.
  - intros (w & -> & Hw). apply wild_char; [done|]. apply IH; [done|]. by exists w.
Qed.
Lemma endswith_spec s t : endswith s t = true ↔ ∃ a, s = a +:+ t.
Proof.
  split.
  - induction s as [|c s IH]; cbn [endswith]; intros [He|He]%orb_prop; try discriminate.
    + apply String.eqb_eq in He as ->. by exists "".
    + apply String.eqb_eq in He as <-. by exists "".
    + destruct (IH He) as [a ->]. by exists (String c a).
  - intros [a ->]. induction a as [|c a IH].
    + change ("" +:+ t) with t. destruct t; cbn [endswith]; by rewrite String.eqb_refl.
    + change (String c a +:+ t) with (String c (a +:+ t)). cbn [endswith]. by rewrite IH, orb_true_r.
Qed.
Lemma ends_free m : star_free m = true → endswith m "*" = false.
Proof.
  unfold star_free. induction m as [|c m IH]; [done|]. cbn [str_all]. intros [Hc Hm]%andb_prop. cbn [endswith].
  rewrite (IH Hm), orb_false_r. apply String.eqb_neq. by intros [= -> ->].
Qed.
Lemma ends_tail c m : m ≠ "" → endswith (String c m) "*" = endswith m "*".
Proof. intros Hm. cbn [endswith]. by destruct (String.eqb_spec (String c m) "*") as [[= _ ->]|]. Qed.
Lemma take_app_str m r : str_take (String.length m) (m +:+ r) = m.
Proof. induction m as [|c m IH]; [by destruct r|]. simpl. by rewrite IH. Qed.
Lemma butlast_star m : butlast (m +:+ "*") = m.
Proof. unfold butlast. rewrite length_app_str. simpl. replace (_ + 1 - 1)%nat with (String.length m) by lia. apply take_app_str. Qed.
Lemma starts_free m r : star_free m = true → m ≠ "" → startswith (m +:+ r) "*" = false.
Proof.
  unfold star_free, startswith. destruct m as [|c m]; [done|]. cbn [str_all]. intros [Hc _]%andb_prop _.
  change (String c m +:+ r) with (String c (m +:+ r)). cbn [String.prefix]. destruct (ascii_dec "*" c) as [<-|]; done.
Qed.
Lemma starts_star m : startswith (String star m) "*" = true.
Proof. unfold startswith. simpl. by destruct m. Qed.

(** A pattern with asterisks at its ends only matches exactly the texts it means: an
    asterisk stands for any text and everything else for itself. *)
Theorem glob_wild lead trail m value : star_free m = true →
  let text := edge lead +:+ m +:+ edge trail in
  glob text value = true ↔ wild text value.
Proof.
  intros Hm text. subst text. unfold glob. destruct lead, trail; cbn [edge].
  - change ("*" +:+ m +:+ "*") with (String star (m +:+ "*")). rewrite starts_star.
    assert (endswith (String star (m +:+ "*")) "*" = true) as -> by (apply endswith_spec; by exists (String star m)).
    cbn [andb str_drop]. rewrite butlast_star, contains_spec, wild_star_iff. split.
    + intros (a & b & ->). exists a, (m +:+ b). split; [done|]. apply wild_free; [done|]. exists b. split; [done|].
      apply wild_star_iff. exists b, "". by rewrite app_nil_r_str, wild_nil.
    + intros (a & w & -> & (b & -> & _)%wild_free); [|done]. by exists a, b.
  - rewrite app_nil_r_str. change ("*" +:+ m) with (String star m). rewrite starts_star.
    destruct (decide (m = "")) as [->|Hne].
    { change (endswith (String star "") "*") with true. cbn [andb str_drop]. rewrite wild_star_iff.
      change (butlast "") with "". split; [|intros _; apply contains_spec; by exists "", value].
      intros _. exists value, "". by rewrite app_nil_r_str, wild_nil. }
    rewrite ends_tail, (ends_free m Hm) by done. cbn [andb str_drop]. rewrite endswith_spec, wild_star_iff. split.
    + intros [a ->]. exists a, m. split; [done|]. rewrite <-(app_nil_r_str m) at 1. apply wild_free; [done|]. exists "".
      by rewrite app_nil_r_str, wild_nil.
    + intros (a & w & -> & Hw). exists a. rewrite <-(app_nil_r_str m) in Hw. apply wild_free in Hw as (b & -> & ->%wild_nil); [|done].
      by rewrite app_nil_r_str.
  - change ("" +:+ m +:+ "*") with (m +:+ "*"). destruct (decide (m = "")) as [->|Hne].
    { change (endswith ("" +:+ "*") "*" && startswith ("" +:+ "*") "*") with true.
      change ("" +:+ "*") with (String star ""). rewrite wild_star_iff. change (butlast (str_drop 1 (String star ""))) with "".
      split; [|intros _; apply contains_spec; by exists "", value]. intros _. exists value, "". by rewrite app_nil_r_str, wild_nil. }
    assert (endswith (m +:+ "*") "*" = true) as -> by (apply endswith_spec; by exists m).
    rewrite starts_free by done. cbn [andb]. rewrite butlast_star. unfold startswith. rewrite prefix_spec, wild_free by done.
    split; intros [r Hr]; exists r; [|by destruct Hr]. split; [done|]. apply wild_star_iff. exists r, "".
    by rewrite app_nil_r_str, wild_nil.
  - change ("" +:+ m +:+ "") with (m +:+ ""). rewrite app_nil_r_str, (ends_free m Hm). cbn [andb].
    assert (startswith m "*" = false) as ->.
    { destruct (decide (m = "")) as [->|Hne]; [done|]. rewrite <-(app_nil_r_str m). by apply starts_free. }
    rewrite String.eqb_eq. rewrite <-(app_nil_r_str m) at 2. rewrite wild_free by done. split.
    + intros ->. exists "". by rewrite app_nil_r_str, wild_nil.
    + intros (w & -> & ->%wild_nil). by rewrite app_nil_r_str.
Qed.

(** ** Compiled rules *)

Section rules.
Context `{Oracle}.

Lemma sigma_detect_hit meta selection filt event ctx h : sigma_detect meta selection filt event ctx = Ok (Some h) →
  matches_all event selection = true ∧ excluded event filt = false
  ∧ hit_related h = [event] ∧ hit_fingerprint h = sigma_fingerprint meta event.
Proof.
  unfold sigma_detect. destruct (matches_all event selection); [|done]. cbn [negb].
  destruct (excluded event filt); [done|]. by intros [= <-].
Qed.
(** A compiled rule keeps the promise of the registry, where it is of the version its
    findings claim. *)
Lemma sigma_sound meta selection filt : rm_version meta = "1.0.0" → RuleSound (CompiledSigmaRule meta selection filt).
Proof.
  intros Hv. assert (versioned meta = meta) as Hm by (destruct meta; simpl in *; by subst).
  split; cbn [dr_meta dr_evaluate CompiledSigmaRule].
  - intros event ctx d fs d' He. apply emit_inv in He as [(-> & _)|(h & f & Hd & Ho & Hf & ->)]; [simpl; auto|].
    split; [simpl; lia|]. apply Forall_singleton. apply sigma_detect_hit in Hd as (_ & _ & Hr & _).
    unfold sigma_finding in Hf. rewrite Hm in Hf. eapply finding_with_sound; [exact Hf | exact Ho|].
    rewrite Hr. intros x ->%list_elem_of_singleton. by left.
  - intros event ctx d r d' He. unfold emit, lift in He. unfold mbind at 1, M_bind at 1 in He.
    destruct (sigma_detect meta selection filt event ctx) as [[h|]|e]; [| by injection He as _ <- ..].
    destruct (already_open ctx _); [by injection He as _ <-|]. unfold mbind, M_bind in He.
    destruct (sigma_finding meta event h d) as [[f|e] d1] eqn:Hf; injection He as _ <-; by eapply finding_with_draws.
Qed.

Definition sigma_fires (meta : RuleMeta) (selection : pydict) (filt : option pydict) (event : CanonicalEvent)
    (ctx : DetectionContext) : Prop :=
  matches_all event selection = true ∧ excluded event filt = false
  ∧ sigma_fingerprint meta event ∉ dc_open_fingerprints ctx.
Lemma sigma_evaluates meta selection filt event ctx d :
  (sigma_fires meta selection filt event ctx → ∃ f d',
     dr_evaluate (CompiledSigmaRule meta selection filt) event ctx d = (Ok [f], d')
     ∧ fi_event_ids f = [e_id event] ∧ fi_tenant_id f = e_tenant_id event ∧ fi_rule_id f = rm_rule_id meta
     ∧ fi_severity f = rm_severity meta)
  ∧ (¬ sigma_fires meta selection filt event ctx →
     dr_evaluate (CompiledSigmaRule meta selection filt) event ctx d = (Ok [], d)).
Proof.
  cbn [dr_evaluate CompiledSigmaRule]. unfold sigma_fires.
  destruct (sigma_detect meta selection filt event ctx) as [[h|]|e] eqn:Hd.
  - rewrite (emit_hit _ _ _ _ _ _ h Hd). apply sigma_detect_hit in Hd as (Hm & Hx & Hr & Hf). rewrite Hf. unfold already_open.
    destruct (mem (sigma_fingerprint meta event) (dc_open_fingerprints ctx)) eqn:Ho.
    + apply mem_spec in Ho. split; [naive_solver | done].
    + apply mem_false in Ho. split; [|naive_solver]. intros _. eexists _, _. split; [reflexivity|]. simpl. rewrite Hr.
      unfold event_ids_of, mem. simpl. by rewrite String.eqb_refl.
  - rewrite (emit_none _ _ _ _ _ _ Hd). split; [|done]. unfold sigma_detect in Hd.
    destruct (matches_all event selection); [|naive_solver]. cbn [negb] in Hd. destruct (excluded event filt); naive_solver.
  - unfold sigma_detect in Hd. destruct (matches_all event selection); [|done]. by destruct (excluded event filt).
Qed.

(** What the file says: its sections, and the conditions that compile. *)
Record sigma_file (raw : pydict) (condition : string) (selection : pydict) (filt : option pydict) : Prop := {
  sg_sections : ∀ k, k ∈ ["title"; "id"; "detection"; "logsource"] → dhas k raw = true;
  sg_detection : ∃ d, dget "detection" raw = Some (VDict d) ∧ dget "condition" d = Some (VStr condition)
    ∧ dget "selection" d = Some (VDict selection)
    ∧ filt = if (condition =? "selection and not filter")%string
             then match dget "filter" d with Some (VDict f) => Some f | _ => None end else None;
  sg_condition : condition ∈ CONDITIONS }.
Lemma sections_ok raw selection filt : sections (dgetv "detection" raw) = Ok (selection, filt) →
  ∃ d condition, dget "detection" raw = Some (VDict d) ∧ dget "condition" d = Some (VStr condition)
    ∧ condition ∈ CONDITIONS ∧ dget "selection" d = Some (VDict selection)
    ∧ filt = if (condition =? "selection and not filter")%string
             then match dget "filter" d with Some (VDict f) => Some f | _ => None end else None.
Proof.
  unfold sections, dgetv. intros Hs. apply result_bind_ok in Hs as (c & Hc & Hs). destruct c; [|done]. cbn [negb] in Hs.
  apply result_bind_ok in Hs as (condition & Hcond & Hs). apply result_bind_ok in Hs as (b & Hb & Hs).
  destruct b; [|done]. cbn [negb] in Hs. apply result_bind_ok in Hs as (d & Hd & Hs).
  destruct (dget "detection" raw) as [v|]; [|done]. simpl in Hd, Hcond. destruct v as [| | | | | |d']; try done. injection Hd as ->.
  injection Hcond as <-. unfold dgetv in Hb, Hs. destruct (dget "condition" d) as [cv|] eqn:Ecv; [|done]. simpl in Hb, Hs.
  destruct cv as [| | | |condition| |]; try done. injection Hb as Hb. change (mem condition CONDITIONS = true) in Hb. apply mem_spec in Hb.
  destruct (dget "selection" d) as [sv|] eqn:Es; [|done]. simpl in Hs. destruct sv as [| | | | | |sel]; try done.
  injection Hs as <- <-. exists d, condition. split_and!; try done. unfold CONDITIONS in Hb.
  apply elem_of_cons in Hb as [->|[->|[]%not_elem_of_nil]%elem_of_cons]; [done|]. simpl.
  by destruct (dget "filter" d) as [[]|].
Qed.
Lemma missing_section_ok path raw l : missing_section path raw l = Ok tt → ∀ k, k ∈ l → dhas k raw = true.
Proof.
  induction l as [|k l IH]; simpl; [by intros _ k ?%not_elem_of_nil|]. destruct (dhas k raw) eqn:E; [|done].
  intros Hl j [->|Hj]%elem_of_cons; [done | by apply IH].
Qed.

(** C14. A file compiles only with its four sections, a selection and one of the two supported
    conditions; the rule it compiles to reports an event exactly when every field of the
    selection matches, the filter, if the condition names one and the file has it, does not,
    and the fingerprint is not open: then with one finding of the event alone, of the event's
    tenant, under the rule's identifier and severity. It never fails. *)
Theorem sigma_rule_exact path name raw rule : compile_rule path name (VDict raw) = Ok rule →
  ∃ condition selection filt, sigma_file raw condition selection filt
    ∧ rm_rule_id (dr_meta rule) = "sigma." +:+ py_str (dgetv "id" raw)
    ∧ rm_severity (dr_meta rule) = sigma_level raw
    ∧ ∀ event ctx d,
      (sigma_fires (dr_meta rule) selection filt event ctx → ∃ f d',
         dr_evaluate rule event ctx d = (Ok [f], d') ∧ fi_event_ids f = [e_id event] ∧ fi_tenant_id f = e_tenant_id event
         ∧ fi_rule_id f = rm_rule_id (dr_meta rule) ∧ fi_severity f = rm_severity (dr_meta rule))
      ∧ (¬ sigma_fires (dr_meta rule) selection filt event ctx → dr_evaluate rule event ctx d = (Ok [], d)).
Proof.
  intros Hc. unfold compile_rule in Hc. apply result_bind_ok in Hc as ([] & Hm & Hc).
  apply result_bind_ok in Hc as ([selection filt] & Hs & Hc). apply result_bind_ok in Hc as (meta & Hme & Hc). injection Hc as <-.
  apply sections_ok in Hs as (d & condition & Hd & Hcond & Hin & Hsel & Hf).
  exists condition, selection, filt. split; [|split; [|split]].
  - constructor; [by eapply missing_section_ok | eauto 10 | done].
  - unfold sigma_meta in Hme. do 3 (apply result_bind_ok in Hme as (? & _ & Hme)). by injection Hme as <-.
  - unfold sigma_meta in Hme. do 3 (apply result_bind_ok in Hme as (? & _ & Hme)). by injection Hme as <-.
  - intros event ctx draws. apply sigma_evaluates.
Qed.
End rules.

(** ** The rule of the repository *)

#[local] Instance demo_oracle : Oracle :=
  {| uuid_hex := λ n, pad 32 (Z.of_nat n); clock := λ n, utc 20000 (Z.of_nat n) |}.
#[local] Instance demo_ip : IpLib := {| ipv6_private := λ _, None |}.
(** [security-languages/sigma/windows/proc_office_spawns_powershell.yml] *)
Definition office_file : pydict := [
  ("title", VStr "Office application spawned PowerShell"); ("id", VStr "office-spawns-powershell"); ("status", VStr "test");
  ("description", VStr "Word or Excel launching powershell.exe"); ("author", VStr "blueteam-os"); ("level", VStr "high");
  ("tags", VList [VStr "attack.t1059.001"; VStr "attack.execution"]);
  ("logsource", VDict [("product", VStr "windows"); ("category", VStr "process_creation")]);
  ("detection", VDict [
    ("selection", VDict [
      ("process.name", VList [VStr "powershell.exe"; VStr "pwsh.exe"]);
      ("parent.name", VList [VStr "winword.exe"; VStr "excel.exe"; VStr "outlook.exe"])]);
    ("condition", VStr "selection")])].
Definition compiled (file : pydict) : list DetectionRule :=
  match compile_rule "rule.yml" "rule.yml" (VDict file) with Ok rule => [rule] | Raise _ => [] end.
Definition with_detection (detection : pydict) : pydict := dset "detection" (VDict detection) office_file.
Definition spawned (process parent : string) : CanonicalEvent :=
  let p name := Some {| p_name := Some name; p_pid := None; p_command_line := None; p_hash := None; p_path := None |} in {|
  e_id := "evt_p"; e_tenant_id := "ten_a"; e_timestamp := utc 20000 0; e_ingested_at := utc 20000 0;
  e_source := "sysmon"; e_source_type := "endpoint"; e_event_type := "process_creation"; e_category := "process";
  e_user := None; e_host := None; e_process := p process; e_parent_process := p parent;
  e_src_ip := None; e_dst_ip := None; e_src_port := None; e_dst_port := None; e_protocol := None;
  e_domain := None; e_url := None; e_file := None; e_hash := None; e_identity := None;
  e_cloud_resource := None; e_action := None; e_outcome := None; e_severity := Informational; e_confidence := fl_of_Z 1;
  e_risk_score := fl_of_Z 0; e_raw_event := []; e_schema_version := SCHEMA_VERSION; e_attributes := [];
  e_idempotency_key := None; e_correlation_id := None; e_trace_id := None; e_raw_hash := None |}.
Definition nothing_seen : DetectionContext := {| dc_window := []; dc_open_fingerprints := []; dc_scheduled := false |}.
Definition sigma_reports (file : pydict) (event : CanonicalEvent) : list nat :=
  (λ rule, match fst (dr_evaluate rule event nothing_seen (MkDraws 0 0)) with Ok fs => length fs | Raise _ => 99%nat end)
    <$> compiled file.

Lemma office_rule_sound : Forall RuleSound (compiled office_file).
Proof. cbv [compiled]. apply Forall_singleton. apply sigma_sound. vm_compute. reflexivity. Qed.
(** The catalogue as it is shipped: twenty-six rules that pass the lint. *)
Example shipped_catalogue : lint_rules (build_default_registry (compiled office_file)) = []
  ∧ length (all_rules (build_default_registry (compiled office_file))) = 26%nat.
Proof. vm_compute. auto. Qed.
Example office_rule : sigma_reports office_file (spawned "PowerShell.EXE" "winword.exe") = [1%nat]
  ∧ sigma_reports office_file (spawned "powershell.exe" "explorer.exe") = [0%nat].
Proof. vm_compute. auto. Qed.
(** A rule with an empty selection reports every event; one whose filter is not an object
    compiles and filters nothing; an asterisk inside a pattern stands for itself; the version of
    the file is not that of its findings. *)
Example sigma_surprises :
  sigma_reports (with_detection [("selection", VDict []); ("condition", VStr "selection")]) (spawned "a" "b") = [1%nat]
  ∧ sigma_reports (with_detection [("selection", VDict []); ("filter", VList [VDict [("process.name", VStr "a")]]);
                                   ("condition", VStr "selection and not filter")]) (spawned "a" "b") = [1%nat]
  ∧ glob "power*.exe" "powershell.exe" = false
  ∧ (match compiled (dset "version" (VStr "2.0.0") office_file) with
     | [rule] => match fst (dr_evaluate rule (spawned "pwsh.exe" "excel.exe") nothing_seen (MkDraws 0 0)) with
                 | Ok [f] => (rm_version (dr_meta rule), fi_rule_version f)
                 | _ => ("", "")
                 end
     | _ => ("", "")
     end = ("2.0.0", "1.0.0")).
Proof. vm_compute. auto. Qed.

Lemma glob_wild_witness : wild "*shell*" "powershell.exe".
Proof. apply (glob_wild true true "shell" "powershell.exe" eq_refl). vm_compute. reflexivity. Defined.
Lemma sigma_rule_exact_witness : ∃ rule condition selection filt,
  compile_rule "rule.yml" "rule.yml" (VDict office_file) = Ok rule ∧ sigma_file office_file condition selection filt.
Proof.
  assert (is_ok (compile_rule "rule.yml" "rule.yml" (VDict office_file)) = true) as Hok by (vm_compute; reflexivity).
  destruct (compile_rule "rule.yml" "rule.yml" (VDict office_file)) as [rule|e] eqn:E; [|discriminate Hok].
  destruct (sigma_rule_exact "rule.yml" "rule.yml" office_file rule E) as (condition & selection & filt & Hf & _).
  exists rule, condition, selection, filt. split; [reflexivity | exact Hf].
Defined.
