(* ===== verification/Fabric.v ===== *)
(** * Event fabric

    Models [packages/event-fabric/blueteam_fabric/{envelope,topics,memory,pipeline}.py].
    A payload that is the JSON dump of an event or a finding is that event or finding
    with the keys added to it later. *)
From S2P Require Export Catalog.
Local Open Scope Z_scope.

(** ** Envelopes and topics *)

Definition RAW : string := "telemetry.raw.v1".
Definition NORMALIZED : string := "telemetry.normalized.v1".
Definition FINDINGS : string := "detections.findings.v1".
Definition CORRELATION : string := "correlation.candidates.v1".
Definition INCIDENTS : string := "incidents.events.v1".
Definition EVIDENCE : string := "evidence.created.v1".
Definition HEALTH : string := "telemetry.health.v1".
Definition DEADLETTER : string := "deadletter.events.v1".
Definition ALL_TOPICS : list string :=
  [RAW; NORMALIZED; FINDINGS; CORRELATION; INCIDENTS; EVIDENCE; HEALTH; DEADLETTER].

Inductive payload :=
| PRaw (d : pydict)
| PEvent (e : CanonicalEvent) (extra : pydict)
| PFinding (f : Finding) (extra : pydict).
Definition payload_id (p : payload) : pyval :=
  match p with
  | PRaw d => dgetv "id" d
  | PEvent e _ => VStr (e_id e)
  | PFinding f _ => VStr (fi_id f)
  end.
Definition payload_with (p : payload) (extra : pydict) : payload :=
  match p with
  | PRaw d => PRaw (dupdate d extra)
  | PEvent e x => PEvent e (dupdate x extra)
  | PFinding f x => PFinding f (dupdate x extra)
  end.

Record FabricEnvelope := {
  mv_event_id : string; mv_tenant_id : string; mv_schema_version : string; mv_topic : string;
  mv_produced_at : datetime; mv_idempotency_key : string; mv_payload : payload; mv_attempt : Z;
  mv_poison : bool; mv_partition_key : string }.

(** ** The in-memory fabric *)

Record InMemoryFabric := {
  mf_topics : list (string * list FabricEnvelope); mf_consumed : list string;
  mf_offsets : list (string * Z); mf_published : list (string * Z); mf_lag : list (string * Z) }.
Definition new_fabric : InMemoryFabric := {|
  mf_topics := (λ t, (t, [])) <$> ALL_TOPICS; mf_consumed := []; mf_offsets := [];
  mf_published := []; mf_lag := [] |}.
Definition queue (topic : string) (f : InMemoryFabric) : list FabricEnvelope :=
  default [] (dget topic (mf_topics f)).
Definition bump (k : string) (n : Z) (d : list (string * Z)) : list (string * Z) :=
  dset k (default 0 (dget k d) + n) d.

Definition publish (message : FabricEnvelope) (f : InMemoryFabric) : result InMemoryFabric :=
  let topic := mv_topic message in
  match dget topic (mf_topics f) with
  | None => Raise (ValueError ("unknown topic " +:+ topic))
  | Some q => Ok {|
      mf_topics := dset topic (q ++ [message]) (mf_topics f); mf_consumed := mf_consumed f;
      mf_offsets := mf_offsets f; mf_published := bump topic 1 (mf_published f);
      mf_lag := dset topic (Z.of_nat (length q) + 1) (mf_lag f) |}
  end.

Definition consumed_key (group : string) (item : FabricEnvelope) : string :=
  group +:+ ":" +:+ mv_idempotency_key item.
(** The loop of [consume]: the batch, the rest of the queue and the consumed keys, with
    room for [room] more records. *)
Fixpoint consume_loop (group : string) (q : list FabricEnvelope) (room : nat) (consumed : list string)
    : list FabricEnvelope * list FabricEnvelope * list string :=
  match q with
  | [] => ([], [], consumed)
  | item :: q' =>
      match room with
      | O => ([], q, consumed)
      | S room' =>
          if mem (consumed_key group item) consumed then consume_loop group q' room consumed
          else
            let '(batch, rest, consumed') :=
              consume_loop group q' room' (consumed_key group item :: consumed) in
            (item :: batch, rest, consumed')
      end
  end.
Definition consume (topic : string) (max_records : Z) (group : string) (f : InMemoryFabric)
    : result (list FabricEnvelope * InMemoryFabric) :=
  match dget topic (mf_topics f) with
  | None => Raise (ValueError ("unknown topic " +:+ topic))
  | Some q =>
      let '(batch, rest, consumed) := consume_loop group q (Z.to_nat max_records) (mf_consumed f) in
      Ok (batch, {|
        mf_topics := dset topic rest (mf_topics f); mf_consumed := consumed;
        mf_offsets := if bool_decide (batch = []) then mf_offsets f
                      else bump (group +:+ ":" +:+ topic) (Z.of_nat (length batch)) (mf_offsets f);
        mf_published := mf_published f; mf_lag := dset topic (Z.of_nat (length rest)) (mf_lag f) |})
  end.

Definition with_attempt (n : Z) (m : FabricEnvelope) : FabricEnvelope := {|
  mv_event_id := mv_event_id m; mv_tenant_id := mv_tenant_id m;
  mv_schema_version := mv_schema_version m; mv_topic := mv_topic m;
  mv_produced_at := mv_produced_at m; mv_idempotency_key := mv_idempotency_key m;
  mv_payload := mv_payload m; mv_attempt := n; mv_poison := mv_poison m;
  mv_partition_key := mv_partition_key m |}.
Definition poisoned (m : FabricEnvelope) (reason : string) : FabricEnvelope := {|
  mv_event_id := mv_event_id m; mv_tenant_id := mv_tenant_id m;
  mv_schema_version := mv_schema_version m; mv_topic := DEADLETTER;
  mv_produced_at := mv_produced_at m; mv_idempotency_key := "dlq:" +:+ mv_idempotency_key m;
  mv_payload := payload_with (mv_payload m)
                  [("dlq_reason", VStr reason); ("original_topic", VStr (mv_topic m))];
  mv_attempt := mv_attempt m + 1; mv_poison := true; mv_partition_key := mv_partition_key m |}.
Definition dead_letter (m : FabricEnvelope) (reason : string) (f : InMemoryFabric)
    : result InMemoryFabric := publish (poisoned m reason) f.
Definition stats (f : InMemoryFabric) : pydict :=
  let counts d := VDict ((λ kv, (kv.1, VInt kv.2)) <$> d) in [
  ("backend", VStr "memory"); ("published", counts (mf_published f)); ("offsets", counts (mf_offsets f));
  ("lag", counts (mf_lag f)); ("idempotent_keys", VInt (Z.of_nat (length (mf_consumed f))))].

(** ** The pipeline *)

Record EventPipeline := {
  ep_fabric : InMemoryFabric; ep_normalized : list CanonicalEvent; ep_findings : list Finding;
  ep_draws : draws }.
Definition new_pipeline : EventPipeline := {|
  ep_fabric := new_fabric; ep_normalized := []; ep_findings := []; ep_draws := MkDraws 0 0 |}.
Definition set_fabric (f : InMemoryFabric) (p : EventPipeline) : EventPipeline := {|
  ep_fabric := f; ep_normalized := ep_normalized p; ep_findings := ep_findings p;
  ep_draws := ep_draws p |}.
Definition set_ep_draws (d : draws) (p : EventPipeline) : EventPipeline := {|
  ep_fabric := ep_fabric p; ep_normalized := ep_normalized p; ep_findings := ep_findings p;
  ep_draws := d |}.
Definition append_normalized (e : CanonicalEvent) (p : EventPipeline) : EventPipeline := {|
  ep_fabric := ep_fabric p; ep_normalized := ep_normalized p ++ [e]; ep_findings := ep_findings p;
  ep_draws := ep_draws p |}.
Definition append_finding (x : Finding) (p : EventPipeline) : EventPipeline := {|
  ep_fabric := ep_fabric p; ep_normalized := ep_normalized p; ep_findings := ep_findings p ++ [x];
  ep_draws := ep_draws p |}.

(** A call that only draws identifiers and times, and one on the fabric. *)
Definition drawing {A} (m : M draws A) : M EventPipeline A := λ p,
  let '(r, d) := m (ep_draws p) in (r, set_ep_draws d p).
Definition publish_ep (message : FabricEnvelope) : M EventPipeline string := λ p,
  match publish message (ep_fabric p) with
  | Ok f => (Ok (mv_event_id message), set_fabric f p)
  | Raise e => (Raise e, p)
  end.
Definition consume_ep (topic : string) (max_records : Z) (group : string)
    : M EventPipeline (list FabricEnvelope) := λ p,
  match consume topic max_records group (ep_fabric p) with
  | Ok (batch, f) => (Ok batch, set_fabric f p)
  | Raise e => (Raise e, p)
  end.
(** [try: m; except Exception as exc: handler(exc)] *)
Definition try_except {S A} (m : M S A) (handler : exn → M S A) : M S A := λ s,
  match m s with
  | (Ok a, s') => (Ok a, s')
  | (Raise e, s') => handler e s'
  end.

Section pipeline.
Context `{Oracle} (normalizer : payload → string → M draws CanonicalEvent)
  (model_validate : payload → result CanonicalEvent) (registry : option DetectionRegistry)
  (max_attempts : Z).

Definition envelope (topic tenant_id : string) (body : payload) (event_id : pyval)
    (idempotency_key : option string) : M draws FabricEnvelope :=
  eid ← (if vtrue event_id then mret event_id
         else if vtrue (payload_id body) then mret (payload_id body)
         else i ← new_id_d "evt"; mret (VStr i));
  now ← utcnow_d;
  if negb (tenant_ok tenant_id)
  then raise (ValueError "tenant_id is mandatory and must use the ten_ prefix")
  else mret {|
    mv_event_id := py_str eid; mv_tenant_id := tenant_id; mv_schema_version := SCHEMA_VERSION;
    mv_topic := topic; mv_produced_at := now;
    mv_idempotency_key := ostr (oor idempotency_key (Some (topic +:+ ":" +:+ py_str eid)));
    mv_payload := body; mv_attempt := 0; mv_poison := false; mv_partition_key := tenant_id |}.

Definition ingest_raw (tenant_id : string) (body : pydict) : M EventPipeline FabricEnvelope :=
  message ← drawing (envelope RAW tenant_id (PRaw body) (dgetv "id" body) None);
  publish_ep message;;
  mret message.

(** [_consume_all]: the queue shrinks with every chunk, so its length is enough fuel. *)
Fixpoint consume_chunks (fuel : nat) (topic group : string) : M EventPipeline (list FabricEnvelope) :=
  match fuel with
  | O => mret []
  | S fuel' =>
      chunk ← consume_ep topic 500 group;
      match chunk with
      | [] => mret []
      | _ :: _ => rest ← consume_chunks fuel' topic group; mret (chunk ++ rest)
      end
  end.
Definition consume_all (topic group : string) : M EventPipeline (list FabricEnvelope) := λ p,
  consume_chunks (S (length (queue topic (ep_fabric p)))) topic group p.

Definition drain_one (acc : Z * Z) (message : FabricEnvelope) : M EventPipeline (Z * Z) :=
  let '(accepted, dead) := acc in
  try_except
    (event ← drawing (normalizer (mv_payload message) (mv_tenant_id message));
     if negb (e_tenant_id event =? mv_tenant_id message)%string
     then raise (ValueError "tenant mismatch after normalize")
     else if negb (nonempty (e_schema_version event))
     then raise (ValueError "schema_version missing after normalize")
     else
       modify (append_normalized event);;
       out ← drawing (envelope NORMALIZED (e_tenant_id event) (PEvent event []) (VStr (e_id event)) None);
       publish_ep out;;
       mret (accepted + 1, dead))
    (λ exc,
       if max_attempts <=? mv_attempt message + 1
       then publish_ep (poisoned message ("poison: " +:+ exn_str exc));; mret (accepted, dead + 1)
       else publish_ep (with_attempt (mv_attempt message + 1) message);; mret (accepted, dead)).
Definition drain_raw (group : string) : M EventPipeline (Z * Z) :=
  batch ← consume_all RAW group;
  foldM drain_one (0, 0) batch.

Definition payload_event (m : FabricEnvelope) : result CanonicalEvent :=
  match mv_payload m with
  | PEvent e _ => Ok e
  | other => model_validate other
  end.
Definition publish_finding (created : Z) (finding : Finding) : M EventPipeline Z :=
  modify (append_finding finding);;
  out ← drawing (envelope FINDINGS (fi_tenant_id finding) (PFinding finding []) (VStr (fi_id finding)) None);
  publish_ep out;;
  mret (created + 1).
(** Each message gets a context of its own, without open fingerprints. *)
Definition detect_one (reg : DetectionRegistry) (created : Z) (message : FabricEnvelope)
    : M EventPipeline Z :=
  event ← lift (payload_event message);
  window ← gets ep_normalized;
  produced ← drawing (evaluate_registry reg event
    {| dc_window := window; dc_open_fingerprints := []; dc_scheduled := false |});
  foldM publish_finding created produced.
Definition drain_normalized (group : string) : M EventPipeline Z :=
  match registry with
  | None => mret 0
  | Some reg =>
      batch ← consume_all NORMALIZED group;
      foldM (detect_one reg) 0 batch
  end.

Definition publish_health (tenant_id : string) (body : pydict) : M EventPipeline string :=
  message ← drawing (envelope HEALTH tenant_id (PRaw body) (dgetv "id" body) None);
  publish_ep message.

Definition run_once (tenant_id : string) (payloads : list pydict) : M EventPipeline pydict :=
  foldM (λ _ p, ingest_raw tenant_id p;; mret tt) tt payloads;;
  norm ← drain_raw "normalizer";
  findings ← drain_normalized "detection";
  lag ← gets (λ p, mf_lag (ep_fabric p));
  mret [("backend", VStr "memory"); ("normalized", VInt (fst norm)); ("dead_lettered", VInt (snd norm));
        ("findings", VInt findings); ("lag", VDict ((λ kv, (kv.1, VInt kv.2)) <$> lag));
        ("dlq_topic", VStr DEADLETTER)].
End pipeline.

(** ** Delivery *)

(** Which keys a batch was delivered under. *)
Definition delivered (group : string) (batch : list FabricEnvelope) : list string :=
  consumed_key group <$> batch.

(** The loop removes a prefix of the queue, and delivers from it, in order, one message
    for each key that was not consumed before. *)
Lemma consume_loop_spec group q room consumed :
  let '(batch, rest, consumed') := consume_loop group q room consumed in
  ∃ taken, q = taken ++ rest ∧ batch `sublist_of` taken ∧ (length batch ≤ room)%nat
    ∧ (length batch = room ∨ rest = [])
    ∧ consumed' = rev (delivered group batch) ++ consumed
    ∧ NoDup (delivered group batch) ∧ (∀ k, k ∈ delivered group batch → k ∉ consumed)
    ∧ (∀ m, m ∈ taken → consumed_key group m ∈ consumed').
Proof.
  revert room consumed. induction q as [|item q IH]; intros room consumed; cbn [consume_loop].
  - exists []. split_and!; try done; [simpl; lia | by right | constructor | |];
      intros x Hx; by apply not_elem_of_nil in Hx.
  - destruct room as [|room].
    { exists []. split_and!; try done; [by left | constructor | |];
        intros x Hx; by apply not_elem_of_nil in Hx. }
    destruct (mem (consumed_key group item) consumed) eqn:Hm.
    + apply mem_spec in Hm. specialize (IH (S room) consumed).
      destruct (consume_loop group q (S room) consumed) as [[batch rest] c'].
      destruct IH as (taken & -> & Hsub & Hlen & Hfull & -> & Hnd & Hnew & Hall).
      exists (item :: taken). split_and!; try done.
      * by constructor.
      * intros m [->|Hin]%elem_of_cons; [apply elem_of_app; by right | by apply Hall].
    + apply mem_false in Hm. specialize (IH room (consumed_key group item :: consumed)).
      destruct (consume_loop group q room _) as [[batch rest] c'].
      destruct IH as (taken & -> & Hsub & Hlen & Hfull & -> & Hnd & Hnew & Hall).
      exists (item :: taken). unfold delivered. cbn [fmap list_fmap length rev]. fold (delivered group batch).
      split_and!; try done.
      * by constructor.
      * lia.
      * destruct Hfull; [left; congruence | by right].
      * by rewrite <-app_assoc.
      * constructor; [|done]. intros Hin. apply (Hnew _ Hin). by left.
      * intros k [->|Hin]%elem_of_cons; [done|]. intros Hc. apply (Hnew _ Hin). by right.
      * intros m [->|Hin]%elem_of_cons; [apply elem_of_app; right; by left | by apply Hall].
Qed.

(** What a drain of a topic leaves: the queue is empty, the other queues, the events and
    the findings are as before, and the delivered keys are consumed. *)
Record drained (topic group : string) (p p' : EventPipeline) (batch : list FabricEnvelope) : Prop := {
  dr_empty : queue topic (ep_fabric p') = [];
  dr_known : is_Some (dget topic (mf_topics (ep_fabric p')));
  dr_others : ∀ t, t ≠ topic → dget t (mf_topics (ep_fabric p')) = dget t (mf_topics (ep_fabric p));
  dr_order : batch `sublist_of` queue topic (ep_fabric p);
  dr_once : NoDup (delivered group batch);
  dr_new : ∀ k, k ∈ delivered group batch → k ∉ mf_consumed (ep_fabric p);
  dr_all : ∀ m, m ∈ queue topic (ep_fabric p) →
    consumed_key group m ∈ mf_consumed (ep_fabric p) ∨ consumed_key group m ∈ delivered group batch;
  dr_consumed : ∀ k, k ∈ mf_consumed (ep_fabric p') ↔
    k ∈ mf_consumed (ep_fabric p) ∨ k ∈ delivered group batch;
  dr_frame : ep_normalized p' = ep_normalized p ∧ ep_findings p' = ep_findings p
             ∧ ep_draws p' = ep_draws p;
}.

Lemma consume_ep_spec topic n group p q :
  dget topic (mf_topics (ep_fabric p)) = Some q →
  let '(batch, rest, consumed) := consume_loop group q (Z.to_nat n) (mf_consumed (ep_fabric p)) in
  ∃ p', consume_ep topic n group p = (Ok batch, p')
    ∧ queue topic (ep_fabric p') = rest ∧ mf_consumed (ep_fabric p') = consumed
    ∧ dget topic (mf_topics (ep_fabric p')) = Some rest
    ∧ (∀ t, t ≠ topic → dget t (mf_topics (ep_fabric p')) = dget t (mf_topics (ep_fabric p)))
    ∧ ep_normalized p' = ep_normalized p ∧ ep_findings p' = ep_findings p ∧ ep_draws p' = ep_draws p.
Proof.
  intros Hq. unfold consume_ep, consume. rewrite Hq.
  destruct (consume_loop _ _ _ _) as [[batch rest] consumed]. eexists. split; [reflexivity|].
  unfold queue. simpl. rewrite dget_dset_eq. split_and!; try done.
  intros t Ht. by apply dget_dset_ne.
Qed.

Lemma consume_chunks_spec topic group fuel p :
  is_Some (dget topic (mf_topics (ep_fabric p))) →
  (length (queue topic (ep_fabric p)) < fuel)%nat →
  ∃ batch p', consume_chunks fuel topic group p = (Ok batch, p') ∧ drained topic group p p' batch.
Proof.
  revert p. induction fuel as [|fuel IH]; intros p [q Hq] Hf; [lia|].
  cbn [consume_chunks]. pose proof (consume_ep_spec topic 500 group p q Hq) as Hc.
  pose proof (consume_loop_spec group q (Z.to_nat 500) (mf_consumed (ep_fabric p))) as Hl.
  assert (queue topic (ep_fabric p) = q) as Hqueue by (unfold queue; by rewrite Hq).
  destruct (consume_loop _ _ _ _) as [[batch rest] consumed].
  destruct Hc as (p1 & Heq & Hr1 & Hc1 & Hk1 & Ho1 & Hn1 & Hf1 & Hd1).
  destruct Hl as (taken & Htk & Hsub & Hlen & Hfull & Hcons & Hnd & Hnew & Hall).
  rewrite (M_bind_eval _ _ _ _ _ Heq). destruct batch as [|m batch].
  - destruct Hfull as [Hfull|Hrest]; [discriminate Hfull|]. exists [], p1. split; [done|].
    rewrite Hrest in *. rewrite app_nil_r in Htk. subst taken.
    constructor; rewrite ?Hqueue; try done.
    + intros x Hx. left. specialize (Hall x Hx). by rewrite Hcons in Hall.
    + intros k. rewrite Hc1, Hcons. simpl. set_solver.
  - destruct (IH p1) as (b2 & p2 & Heq2 & Hdr); [by eexists | |].
    { rewrite Hr1. rewrite Hqueue, Htk, length_app in Hf. apply sublist_length in Hsub.
      simpl in Hsub. lia. }
    rewrite (M_bind_eval _ _ _ _ _ Heq2). exists ((m :: batch) ++ b2), p2. split; [done|].
    destruct Hdr as [He Hk Ho Hord Honce Hnew2 Hall2 Hcons2 (Hn & Hfi & Hdr)].
    assert (∀ b, delivered group ((m :: batch) ++ b) = delivered group (m :: batch) ++ delivered group b)
      as Hdel by (intros b; unfold delivered; apply fmap_app).
    assert (∀ k, k ∈ mf_consumed (ep_fabric p1) ↔
      k ∈ delivered group (m :: batch) ∨ k ∈ mf_consumed (ep_fabric p)) as Hc1'.
    { intros k. by rewrite Hc1, Hcons, elem_of_app, elem_of_rev. }
    constructor; rewrite ?Hqueue; try done.
    + intros t Ht. rewrite Ho, Ho1; done.
    + rewrite Htk. apply sublist_app; [done | by rewrite <-Hr1].
    + rewrite Hdel. apply NoDup_app. split; [done|]. split; [|done].
      intros k Hk1' Hk2. apply Hnew2 in Hk2. apply Hk2, Hc1'. by left.
    + intros k. rewrite Hdel. intros [Hk'|Hk']%elem_of_app; [by apply Hnew|].
      intros Hin. apply (Hnew2 k Hk'), Hc1'. by right.
    + intros x. rewrite Hdel, Htk. intros [Hx|Hx]%elem_of_app.
      * apply Hall in Hx. rewrite <-Hc1 in Hx. apply Hc1' in Hx as [Hx|Hx]; [|by left].
        right. apply elem_of_app. by left.
      * rewrite <-Hr1 in Hx. apply Hall2 in Hx as [Hx|Hx].
        -- apply Hc1' in Hx as [Hx|Hx]; [right; apply elem_of_app; by left | by left].
        -- right. apply elem_of_app. by right.
    + intros k. rewrite Hcons2, Hc1', Hdel, elem_of_app. tauto.
    + split_and!; congruence.
Qed.

Lemma consume_all_spec topic group p :
  is_Some (dget topic (mf_topics (ep_fabric p))) →
  ∃ batch p', consume_all topic group p = (Ok batch, p') ∧ drained topic group p p' batch.
Proof. intros Hk. apply consume_chunks_spec; [done | lia]. Qed.

(** ** Sequences of operations *)

Inductive fabric_op :=
| OpPublish (m : FabricEnvelope)
| OpConsume (topic : string) (max_records : Z) (group : string).
(** The deliveries of one operation: a raised call changes nothing. *)
Definition run_op (op : fabric_op) (f : InMemoryFabric)
    : list (string * FabricEnvelope) * InMemoryFabric :=
  match op with
  | OpPublish m => ([], match publish m f with Ok f' => f' | Raise _ => f end)
  | OpConsume topic n group =>
      match consume topic n group f with
      | Ok (batch, f') => ((λ m, (group, m)) <$> batch, f')
      | Raise _ => ([], f)
      end
  end.
Fixpoint run_ops (ops : list fabric_op) (f : InMemoryFabric)
    : list (string * FabricEnvelope) * InMemoryFabric :=
  match ops with
  | [] => ([], f)
  | op :: ops' =>
      let '(ds, f1) := run_op op f in
      let '(ds', f2) := run_ops ops' f1 in (ds ++ ds', f2)
  end.
Definition delivery_key (d : string * FabricEnvelope) : string := consumed_key d.1 d.2.
Definition all_queued (f : InMemoryFabric) : list FabricEnvelope := concat (mf_topics f).*2.

Lemma queued_dset topic q f m consumed offsets published lag :
  m ∈ all_queued {| mf_topics := dset topic q (mf_topics f); mf_consumed := consumed;
                    mf_offsets := offsets; mf_published := published; mf_lag := lag |} →
  m ∈ q ∨ m ∈ all_queued f.
Proof.
  unfold all_queued. simpl. induction (mf_topics f) as [|[k v] l IH]; simpl.
  - rewrite app_nil_r. by left.
  - destruct (k =? topic)%string; simpl; rewrite !elem_of_app; naive_solver.
Qed.
Lemma queue_queued topic q f m : dget topic (mf_topics f) = Some q → m ∈ q → m ∈ all_queued f.
Proof.
  intros Hq Hm. apply dget_elem_of in Hq. unfold all_queued. apply list_elem_of_In, in_concat.
  exists q. split; [|by apply list_elem_of_In]. apply list_elem_of_In, list_elem_of_fmap.
  by exists (topic, q).
Qed.

(** One operation: what is delivered is new and was queued. *)
Lemma run_op_spec op f :
  let '(ds, f') := run_op op f in
  NoDup (delivery_key <$> ds)
  ∧ (∀ d, d ∈ ds → delivery_key d ∉ mf_consumed f ∧ d.2 ∈ all_queued f)
  ∧ (∀ k, k ∈ mf_consumed f' ↔ k ∈ mf_consumed f ∨ k ∈ delivery_key <$> ds)
  ∧ (∀ m, m ∈ all_queued f' → m ∈ all_queued f ∨ op = OpPublish m).
Proof.
  destruct op as [m|topic n group]; simpl.
  - unfold publish. destruct (dget (mv_topic m) (mf_topics f)) as [q|] eqn:Hq; simpl.
    + split_and!; [constructor | set_solver | set_solver |].
      intros x [Hx|Hx]%queued_dset; [|by left].
      apply elem_of_app in Hx as [Hx|Hx]; [left; by eapply queue_queued|].
      apply list_elem_of_singleton in Hx as ->. by right.
    + split_and!; [constructor | set_solver | set_solver | by left].
  - unfold consume. destruct (dget topic (mf_topics f)) as [q|] eqn:Hq; simpl;
      [|split_and!; [constructor | set_solver | set_solver | by left]].
    pose proof (consume_loop_spec group q (Z.to_nat n) (mf_consumed f)) as Hl.
    destruct (consume_loop _ _ _ _) as [[batch rest] consumed].
    destruct Hl as (taken & -> & Hsub & _ & _ & -> & Hnd & Hnew & _).
    assert (delivery_key <$> ((λ m, (group, m)) <$> batch) = delivered group batch) as Hdk
      by (rewrite <-list_fmap_compose; done).
    rewrite Hdk. split_and!.
    + done.
    + intros d (m & -> & Hm)%list_elem_of_fmap. split.
      * apply (Hnew (consumed_key group m)). unfold delivered. by apply list_elem_of_fmap_2.
      * eapply queue_queued; [exact Hq|]. apply elem_of_app. left. by eapply elem_of_sublist.
    + intros k. simpl. rewrite elem_of_app, elem_of_rev. tauto.
    + intros m [Hm|Hm]%queued_dset; [|by left]. left. eapply queue_queued; [exact Hq|].
      apply elem_of_app. by right.
Qed.

Lemma run_ops_spec ops f :
  let '(ds, f') := run_ops ops f in
  NoDup (delivery_key <$> ds)
  ∧ (∀ d, d ∈ ds → delivery_key d ∉ mf_consumed f
                   ∧ (d.2 ∈ all_queued f ∨ OpPublish d.2 ∈ ops)).
Proof.
  revert f. induction ops as [|op ops IH]; intros f; simpl; [split; [constructor | set_solver]|].
  pose proof (run_op_spec op f) as Hop. destruct (run_op op f) as [ds f1].
  specialize (IH f1). destruct (run_ops ops f1) as [ds' f2].
  destruct Hop as (Hnd & Hd & Hc & Hq). destruct IH as [Hnd' Hd']. split.
  - rewrite fmap_app. apply NoDup_app. split_and!; [done | | done].
    intros k Hk Hk'. apply list_elem_of_fmap in Hk' as (d & -> & Hin).
    destruct (Hd' d Hin) as [Hnew _]. apply Hnew, Hc. by right.
  - intros d [Hin|Hin]%elem_of_app; [destruct (Hd d Hin); set_solver|].
    destruct (Hd' d Hin) as [Hnew Hwhere]. split; [intros Hk; apply Hnew, Hc; by left|].
    destruct Hwhere as [Hw|Hw]; [|right; by right].
    destruct (Hq _ Hw) as [Hw'| ->]; [by left | right; by left].
Qed.

(** ** Properties *)

(** C20. No message is delivered twice: in every sequence of publications and
    consumptions on a new fabric, whatever the topics, groups and batch sizes, all
    deliveries have distinct (group, idempotency key) names, and only published messages
    are delivered. *)
Theorem fabric_delivers_at_most_once ops :
  let deliveries := fst (run_ops ops new_fabric) in
  NoDup (delivery_key <$> deliveries) ∧ ∀ d, d ∈ deliveries → OpPublish d.2 ∈ ops.
Proof.
  pose proof (run_ops_spec ops new_fabric) as Hr. destruct (run_ops ops new_fabric) as [ds f].
  destruct Hr as [Hnd Hd]. split; [done|]. intros d Hin.
  destruct (Hd d Hin) as [_ [Hq|Hp]]; [|done]. vm_compute in Hq. by apply not_elem_of_nil in Hq.
Qed.

(** C22. Draining a topic is complete and in order: the drain of a known topic always
    returns, it leaves the queue empty and every other queue as it was, it delivers
    messages in queue order and under distinct keys, and every queued message was
    delivered to this group under its key, now or before. *)
Theorem fabric_drain_complete topic group p :
  topic ∈ dkeys (mf_topics (ep_fabric p)) →
  ∃ batch p', consume_all topic group p = (Ok batch, p') ∧ drained topic group p p' batch.
Proof. intros Hk. apply consume_all_spec. by apply dget_is_Some. Qed.

(** The fabric removes what it delivers, so a second group finds an empty queue. *)
Lemma second_group_starves topic g g' p batch p' :
  topic ∈ dkeys (mf_topics (ep_fabric p)) →
  consume_all topic g p = (Ok batch, p') → ∃ p'', consume_all topic g' p' = (Ok [], p'').
Proof.
  intros Hk%dget_is_Some Hc. destruct (consume_all_spec topic g p Hk) as (b & p1 & Heq & Hdr).
  rewrite Heq in Hc. injection Hc as <- <-.
  destruct (consume_all_spec topic g' p1 (dr_known _ _ _ _ _ Hdr)) as (b2 & p2 & Heq2 & Hdr2).
  exists p2. rewrite Heq2. pose proof (dr_order _ _ _ _ _ Hdr2) as Hs.
  rewrite (dr_empty _ _ _ _ _ Hdr) in Hs. apply sublist_nil_r in Hs as ->. done.
Qed.

Section properties.
Context `{Oracle} (normalizer : payload → string → M draws CanonicalEvent) (max_attempts : Z).

Lemma drain_one_failure acc m p e d q :
  normalizer (mv_payload m) (mv_tenant_id m) (ep_draws p) = (Raise e, d) →
  mv_attempt m + 1 < max_attempts → dget (mv_topic m) (mf_topics (ep_fabric p)) = Some q →
  ∃ p', drain_one normalizer max_attempts acc m p = (Ok acc, p')
    ∧ dget (mv_topic m) (mf_topics (ep_fabric p')) = Some (q ++ [with_attempt (mv_attempt m + 1) m])
    ∧ (∀ t, t ≠ mv_topic m → dget t (mf_topics (ep_fabric p')) = dget t (mf_topics (ep_fabric p)))
    ∧ mf_consumed (ep_fabric p') = mf_consumed (ep_fabric p)
    ∧ ep_normalized p' = ep_normalized p ∧ ep_findings p' = ep_findings p.
Proof.
  intros Hn Hm Hq. destruct acc as [accepted dead]. unfold drain_one, try_except, drawing.
  unfold mbind at 1, M_bind at 1. rewrite Hn.
  assert ((max_attempts <=? mv_attempt m + 1) = false) as -> by lia.
  unfold publish_ep, publish, mbind, M_bind. simpl. rewrite Hq. eexists. split; [reflexivity|]. simpl.
  rewrite dget_dset_eq. split_and!; try done. intros t Ht. by apply dget_dset_ne.
Qed.

(** A message whose normalization fails is neither retried nor dead-lettered: its
    retry keeps the idempotency key that was consumed with the first attempt, so the next
    drain drops it, and the message is lost without reaching the dead-letter topic. *)
Theorem failed_message_is_lost m p group :
  dget RAW (mf_topics (ep_fabric p)) = Some [m] → mv_topic m = RAW →
  consumed_key group m ∉ mf_consumed (ep_fabric p) → mv_attempt m + 1 < max_attempts →
  (∀ d, is_ok (fst (normalizer (mv_payload m) (mv_tenant_id m) d)) = false) →
  ∃ p1 p2, drain_raw normalizer max_attempts group p = (Ok (0, 0), p1)
    ∧ drain_raw normalizer max_attempts group p1 = (Ok (0, 0), p2)
    ∧ queue RAW (ep_fabric p2) = []
    ∧ queue DEADLETTER (ep_fabric p2) = queue DEADLETTER (ep_fabric p)
    ∧ ep_normalized p2 = ep_normalized p.
Proof.
  intros Hq Ht Hnew Hatt Hfail.
  assert (queue RAW (ep_fabric p) = [m]) as Hqueue by (unfold queue; by rewrite Hq).
  destruct (consume_all_spec RAW group p) as (b & pa & Hc & [He Hk Ho Hord _ _ Hall Hcons (Hn & _)]);
    [by eexists|].
  assert (b = [m]) as ->.
  { rewrite Hqueue in *. destruct (Hall m) as [Hx|Hx]; [left | done |].
    apply sublist_cons_r in Hord as [Hb%sublist_nil_r|(b' & -> & Hb%sublist_nil_r)]; subst; [|done].
    by apply not_elem_of_nil in Hx. }
  destruct (normalizer (mv_payload m) (mv_tenant_id m) (ep_draws pa)) as [[ev|e] d] eqn:Hnz;
    [specialize (Hfail (ep_draws pa)); by rewrite Hnz in Hfail|].
  assert (dget (mv_topic m) (mf_topics (ep_fabric pa)) = Some []) as Hqa.
  { rewrite Ht. destruct Hk as [qa Hqa]. unfold queue in He. rewrite Hqa in *. simpl in He. congruence. }
  destruct (drain_one_failure (0, 0) m pa e d [] Hnz Hatt Hqa)
    as (p1 & Hd1 & Hq1 & Ho1 & Hc1 & Hn1 & _).
  set (retry := with_attempt (mv_attempt m + 1) m) in *. rewrite Ht in Hq1.
  assert (queue RAW (ep_fabric p1) = [retry]) as Hqueue1 by (unfold queue; by rewrite Hq1).
  destruct (consume_all_spec RAW group p1) as (b2 & p2 & Hc2 & [He2 _ Ho2 Hord2 _ Hnew2 _ _ (Hn2 & _)]);
    [by eexists|].
  assert (b2 = []) as ->.
  { rewrite Hqueue1 in Hord2.
    apply sublist_cons_r in Hord2 as [Hb%sublist_nil_r|(b' & -> & Hb%sublist_nil_r)]; subst; [done|].
    exfalso. apply (Hnew2 (consumed_key group retry)); [by left|]. rewrite Hc1. apply Hcons. right.
    by left. }
  exists p1, p2. unfold drain_raw. rewrite (M_bind_eval _ _ _ _ _ Hc).
  rewrite (M_bind_eval _ _ _ _ _ Hc2). cbn [foldM]. rewrite (M_bind_eval _ _ _ _ _ Hd1).
  split_and!; [done | done | done | | congruence].
  unfold queue. rewrite Ho2, Ho1, Ho by (rewrite ?Ht; discriminate). done.
Qed.

Lemma envelope_ok topic ten body i d :
  tenant_ok ten = true → nonempty i = true →
  ∃ m d', envelope topic ten body (VStr i) None d = (Ok m, d')
    ∧ mv_tenant_id m = ten ∧ mv_topic m = topic ∧ mv_idempotency_key m = topic +:+ ":" +:+ i.
Proof.
  intros Ht Hi. unfold envelope. cbn [vtrue]. rewrite Hi.
  unfold mbind, M_bind, mret, M_ret, utcnow_d, utcnow. rewrite Ht.
  eexists _, _. split; [reflexivity|]. split_and!; done.
Qed.

(** Raw ingestion does not separate tenants: the idempotency key is the topic and the
    payload's own id, so when two tenants send events with the same id, the second
    tenant's event is never handed to the normalizer. *)
Theorem same_id_other_tenant_is_lost ten_a ten_b body_a body_b i group p :
  tenant_ok ten_a = true → tenant_ok ten_b = true → i ≠ "" →
  dget "id" body_a = Some (VStr i) → dget "id" body_b = Some (VStr i) →
  dget RAW (mf_topics (ep_fabric p)) = Some [] →
  group +:+ ":" +:+ RAW +:+ ":" +:+ i ∉ mf_consumed (ep_fabric p) →
  ∃ ma p1 mb p2 p3,
    ingest_raw ten_a body_a p = (Ok ma, p1) ∧ ingest_raw ten_b body_b p1 = (Ok mb, p2)
    ∧ mv_tenant_id ma = ten_a ∧ mv_tenant_id mb = ten_b
    ∧ consume_all RAW group p2 = (Ok [ma], p3) ∧ queue RAW (ep_fabric p3) = [].
Proof.
  intros Ha Hb Hi Hia Hib Hq Hnew. apply nonempty_spec in Hi.
  assert (∀ ten body s q, tenant_ok ten = true → dget "id" body = Some (VStr i) →
    dget RAW (mf_topics (ep_fabric s)) = Some q →
    ∃ m s', ingest_raw ten body s = (Ok m, s') ∧ mv_tenant_id m = ten
      ∧ mv_idempotency_key m = RAW +:+ ":" +:+ i
      ∧ dget RAW (mf_topics (ep_fabric s')) = Some (q ++ [m])
      ∧ mf_consumed (ep_fabric s') = mf_consumed (ep_fabric s)) as Hing.
  { intros ten body s q Ht Hid Hs.
    destruct (envelope_ok RAW ten (PRaw body) i (ep_draws s) Ht Hi) as (m & d & Hen & Htn & Htp & Hk).
    exists m. unfold ingest_raw, drawing, dgetv. rewrite Hid. unfold mbind, M_bind. simpl default.
    rewrite Hen. unfold publish_ep, publish. rewrite Htp. cbn [ep_fabric set_ep_draws]. rewrite Hs.
    eexists. split; [reflexivity|]. split; [done|]. split; [done|]. simpl. by rewrite dget_dset_eq. }
  destruct (Hing ten_a body_a p [] Ha Hia Hq) as (ma & p1 & H1 & Hta & Hka & Hq1 & Hc1).
  destruct (Hing ten_b body_b p1 _ Hb Hib Hq1) as (mb & p2 & H2 & Htb & Hkb & Hq2 & Hc2).
  exists ma, p1, mb, p2.
  assert (∀ q c, dget RAW (mf_topics (ep_fabric p2)) = Some q → mf_consumed (ep_fabric p2) = c →
    consume_loop group q 500 c = ([ma], [], (group +:+ ":" +:+ RAW +:+ ":" +:+ i) :: c) →
    ∃ p3, consume_all RAW group p2 = (Ok [ma], p3) ∧ queue RAW (ep_fabric p3) = []) as Hgo.
  { intros q c Hqq Hcc Hl. destruct (consume_all_spec RAW group p2) as (b & p3 & Hcall & Hdr);
      [by eexists|].
    pose proof (dr_empty _ _ _ _ _ Hdr) as Hempty.
    unfold consume_all in *. rewrite Hcall. unfold queue in Hcall. rewrite Hqq in Hcall. simpl in Hcall.
    pose proof (consume_ep_spec RAW 500 group p2 q Hqq) as Hce. rewrite Hcc in Hce.
    change (Z.to_nat 500) with 500%nat in Hce. rewrite Hl in Hce.
    destruct Hce as (p4 & He4 & Hq4 & _ & Hk4 & _).
    cbn [consume_chunks] in Hcall. rewrite (M_bind_eval _ _ _ _ _ He4) in Hcall.
    assert (∀ n, consume_chunks n RAW group p4 = (Ok [], snd (consume_chunks n RAW group p4))) as Hnil.
    { intros [|n]; [done|]. cbn [consume_chunks].
      pose proof (consume_ep_spec RAW 500 group p4 [] Hk4) as (p5 & He5 & _).
      by rewrite (M_bind_eval _ _ _ _ _ He5). }
    rewrite (M_bind_eval _ _ _ _ _ (Hnil _)) in Hcall. unfold mret, M_ret in Hcall.
    injection Hcall as <- _. by exists p3. }
  destruct (Hgo _ _ Hq2 eq_refl) as (p3 & Hc3 & Hq3).
  { cbn [consume_loop app]. unfold consumed_key. rewrite Hka, Hkb, Hc2, Hc1.
    apply mem_false in Hnew. rewrite Hnew.
    assert (∀ k c, mem k (k :: c) = true) as Hself by (intros; apply mem_spec; by left).
    by rewrite Hself. }
  by exists p3.
Qed.
End properties.

(** ** Concrete runs *)

#[local] Instance demo_oracle : Oracle :=
  {| uuid_hex := λ n, pad 32 (Z.of_nat n); clock := λ n, utc 20000 (Z.of_nat n) |}.
#[local] Instance demo_ip : IpLib := {| ipv6_private := λ _, None |}.

(** A normalizer that reads the number of a failed login of [Catalog.failed_login]. *)
Definition demo_normalizer (body : payload) (tenant : string) : M draws CanonicalEvent :=
  match body with
  | PRaw d => match dget "n" d with
              | Some (VInt n) => mret (failed_login (Z.to_nat n))
              | _ => raise (ValueError "bad")
              end
  | _ => raise (ValueError "bad")
  end.
Definition login_payload (n : nat) : pydict :=
  [("id", VStr ("raw_" +:+ str_of_nat n)); ("n", VInt (Z.of_nat n))].
Definition demo_validate (_ : payload) : result CanonicalEvent := Raise (ValueError "bad").
Definition demo_run (n : nat) : result pydict * EventPipeline :=
  run_once demo_normalizer demo_validate (Some (build_default_registry [])) 3 "ten_a"
    (login_payload <$> seq 0 n) new_pipeline.

(** The pipeline forgets which fingerprints it reported: each message is evaluated
    with a context of its own whose fingerprints start empty, so nine failed logins of one
    account produce two brute-force findings with one and the same fingerprint. *)
Theorem pipeline_repeats_fingerprints :
  let p := snd (demo_run 9) in
  fi_rule_id <$> ep_findings p
    = ["identity.repeated_failures"; "identity.brute_force"; "identity.brute_force"]
  ∧ length (remove_dups (fi_fingerprint <$> ep_findings p)) = 2%nat.
Proof. vm_compute. auto. Qed.

Definition bad_message : FabricEnvelope := {|
  mv_event_id := "e1"; mv_tenant_id := "ten_a"; mv_schema_version := SCHEMA_VERSION; mv_topic := RAW;
  mv_produced_at := utc 20000 0; mv_idempotency_key := RAW +:+ ":e1"; mv_payload := PRaw [];
  mv_attempt := 0; mv_poison := false; mv_partition_key := "ten_a" |}.
Definition bad_pipeline : EventPipeline :=
  match publish bad_message new_fabric with Ok f => set_fabric f new_pipeline | Raise _ => new_pipeline end.

Lemma fabric_drain_complete_witness :
  ∃ batch p', consume_all RAW "g" bad_pipeline = (Ok batch, p') ∧ drained RAW "g" bad_pipeline p' batch.
Proof. apply (fabric_drain_complete RAW "g" bad_pipeline). by apply mem_spec. Defined.

Lemma failed_message_is_lost_witness :
  ∃ p1 p2, drain_raw demo_normalizer 3 "normalizer" bad_pipeline = (Ok (0, 0), p1)
    ∧ drain_raw demo_normalizer 3 "normalizer" p1 = (Ok (0, 0), p2)
    ∧ queue RAW (ep_fabric p2) = []
    ∧ queue DEADLETTER (ep_fabric p2) = queue DEADLETTER (ep_fabric bad_pipeline)
    ∧ ep_normalized p2 = ep_normalized bad_pipeline.
Proof.
  apply (failed_message_is_lost demo_normalizer 3 bad_message bad_pipeline "normalizer").
  - reflexivity.
  - reflexivity.
  - apply not_elem_of_nil.
  - reflexivity.
  - reflexivity.
Defined.

Lemma same_id_other_tenant_is_lost_witness :
  ∃ ma p1 mb p2 p3,
    ingest_raw "ten_a" [("id", VStr "1")] new_pipeline = (Ok ma, p1)
    ∧ ingest_raw "ten_b" [("id", VStr "1")] p1 = (Ok mb, p2)
    ∧ mv_tenant_id ma = "ten_a" ∧ mv_tenant_id mb = "ten_b"
    ∧ consume_all RAW "normalizer" p2 = (Ok [ma], p3) ∧ queue RAW (ep_fabric p3) = [].
Proof.
  apply (same_id_other_tenant_is_lost "ten_a" "ten_b" [("id", VStr "1")] [("id", VStr "1")] "1"
           "normalizer" new_pipeline); try reflexivity; [discriminate | apply not_elem_of_nil].
Defined.
