(* ===== verification/Access.v ===== *)
(** * Authentication and authorisation

    Models [services/api/app/domain/permissions.py], [services/api/app/services/auth.py],
    the token functions of [app/core/security.py] and the dependencies of
    [app/core/deps.py] every protected route goes through. The JWT and bcrypt libraries
    are the class [AuthLib]. *)
From S2P Require Export Store Hashing.
Local Open Scope Z_scope.

(** ** Roles *)

Definition PERMISSIONS : list string := [
  "tenants:read"; "tenants:write"; "users:read"; "users:write"; "roles:read"; "roles:write";
  "audit:read"; "events:ingest"; "events:read"; "detections:read"; "detections:write";
  "alerts:read"; "alerts:write"; "incidents:read"; "incidents:write"; "evidence:read";
  "evidence:write"; "evidence:export"; "quality:read"; "blue_range:execute"; "hunts:execute";
  "intel:read"; "intel:write"; "languages:read"; "broker:execute"; "response:tier0";
  "response:tier1"; "response:tier2"; "admin:platform"].
Definition ANALYST_PERMS : list string := [
  "tenants:read"; "users:read"; "roles:read"; "audit:read"; "events:read"; "detections:read";
  "alerts:read"; "incidents:read"; "incidents:write"; "evidence:read"; "quality:read";
  "languages:read"; "hunts:execute"; "intel:read"].
Definition HUNTER_PERMS : list string := ANALYST_PERMS ++ ["events:ingest"; "intel:write"].
Definition DETECTION_ENGINEER_PERMS : list string :=
  ANALYST_PERMS ++ ["detections:write"; "events:ingest"; "blue_range:execute"; "quality:read"].
Definition RESPONDER_PERMS : list string := ANALYST_PERMS ++ [
  "alerts:write"; "evidence:write"; "evidence:export"; "response:tier0"; "response:tier1";
  "response:tier2"; "broker:execute"].
Definition ADMIN_PERMS : list string := DETECTION_ENGINEER_PERMS ++ RESPONDER_PERMS
  ++ ["users:write"; "tenants:write"; "roles:write"; "intel:write"].

Record RoleDefinition := {
  ro_key : string; ro_name : string; ro_description : string; ro_permissions : list string }.
Definition role (key name description : string) (perms : list string) : string * RoleDefinition :=
  (key, {| ro_key := key; ro_name := name; ro_description := description; ro_permissions := perms |}).
Definition ROLE_CATALOG : list (string * RoleDefinition) := [
  role "platform_super_admin" "Platform Super Admin" "Cross-tenant platform administration"
    (ADMIN_PERMS ++ ["admin:platform"]);
  role "tenant_owner" "Tenant Owner" "Owns a tenant and its memberships" ADMIN_PERMS;
  role "security_admin" "Security Admin" "Security configuration and user administration" ADMIN_PERMS;
  role "soc_manager" "SOC Manager" "Operations management and quality review"
    (RESPONDER_PERMS ++ ["users:read"; "blue_range:execute"]);
  role "senior_analyst" "Senior Analyst" "Lead investigation and incident ownership" RESPONDER_PERMS;
  role "analyst" "Analyst" "Investigate alerts and incidents" ANALYST_PERMS;
  role "threat_hunter" "Threat Hunter" "Search telemetry and develop hunts" HUNTER_PERMS;
  role "detection_engineer" "Detection Engineer" "Author, test, and promote detections"
    DETECTION_ENGINEER_PERMS;
  role "incident_responder" "Incident Responder" "Containment and evidence handling" RESPONDER_PERMS;
  role "auditor" "Auditor" "Read-only access including audit and evidence" [
    "tenants:read"; "users:read"; "roles:read"; "audit:read"; "events:read"; "detections:read";
    "alerts:read"; "incidents:read"; "evidence:read"; "quality:read"];
  role "read_only" "Read Only" "Non-sensitive operational read access" [
    "tenants:read"; "alerts:read"; "incidents:read"; "detections:read"; "quality:read"]].

(** A set of strings as a list; only membership is used. *)
Definition permissions_for_roles (role_keys : list string) : list string :=
  role_keys ≫= λ key, match dget key ROLE_CATALOG with
                      | Some r => ro_permissions r
                      | None => []
                      end.

(** ** Actors *)

Inductive ActorType := UserActor | ApiKeyActor.
#[export] Instance ActorType_eq_dec : EqDecision ActorType. Proof. solve_decision. Defined.
Record Actor := {
  ac_user_id : string; ac_email : option string; ac_display_name : string;
  ac_is_platform_admin : bool; ac_tenant_ids : list string; ac_actor_type : ActorType;
  ac_request_id : string }.
Record TenantActor := {
  ta_actor : Actor; ta_tenant_id : string; ta_role_keys : list string;
  ta_permissions : list string }.

(** What the code uses of [jwt] and [bcrypt]. *)
Class AuthLib := {
  jwt_encode : pydict → string;
  jwt_decode : string → option pydict;          (** [None]: [InvalidTokenError] *)
  bcrypt_check : string → string → bool;        (** a malformed hash checks as false *)
}.

Section auth.
Context `{Oracle} `{AuthLib} (access_token_minutes : Z).

(** [int(t.timestamp())] for a time after 1970. *)
Definition timestamp (t : datetime) : Z := instant t / second.
Definition create_access_token (subject : string) (tenant_ids : list string)
    (is_platform_admin : bool) : M db string :=
  now ← utcnow_db;
  mret (jwt_encode [
    ("sub", VStr subject); ("iat", VInt (timestamp now));
    ("exp", VInt (timestamp (dt_add now (minutes access_token_minutes))));
    ("tenant_ids", VList (VStr <$> tenant_ids)); ("is_platform_admin", VBool is_platform_admin);
    ("typ", VStr "access")]).

Definition authenticate_password (email password : string) : M db User :=
  s ← get;
  found ← lift (scalar_one_or_none (select (λ u, us_email u =? lower email)%string (d_users s)));
  match found with
  | Some user =>
      if negb (us_status user =? "active")%string || negb (bcrypt_check password (us_password_hash user))
      then raise (UnauthorizedError "Invalid credentials") else mret user
  | None => raise (UnauthorizedError "Invalid credentials")
  end.

Definition memberships_of (user_id : string) (s : db) : list Membership :=
  select (λ m, me_user_id m =? user_id)%string (d_memberships s).
(** [sorted({item.tenant_id for item in memberships})] *)
Definition tenant_ids_of (user_id : string) (s : db) : list string :=
  sort_by String.leb (remove_dups (me_tenant_id <$> memberships_of user_id s)).

Definition issue_token (user : User) : M db string :=
  s ← get;
  create_access_token (us_id user) (tenant_ids_of (us_id user) s) (us_is_platform_admin user).

Definition actor_from_bearer (token request_id : string) : M db Actor :=
  match jwt_decode token with
  | None => raise (UnauthorizedError "Invalid token")
  | Some payload =>
      s ← get;
      match find_first (λ u, match dgetv "sub" payload with VStr i => us_id u =? i | _ => false end)%string
              (d_users s) with
      | Some user =>
          if negb (us_status user =? "active")%string
          then raise (UnauthorizedError "Invalid token subject")
          else mret {|
            ac_user_id := us_id user; ac_email := Some (us_email user);
            ac_display_name := us_display_name user;
            ac_is_platform_admin := us_is_platform_admin user;
            ac_tenant_ids := tenant_ids_of (us_id user) s; ac_actor_type := UserActor;
            ac_request_id := request_id |}
      | None => raise (UnauthorizedError "Invalid token subject")
      end
  end.

Definition actor_from_api_key (raw_key request_id : string) : M db Actor :=
  s ← get;
  found ← lift (scalar_one_or_none (select (λ k,
    (ak_key_hash k =? sha256_hex raw_key)%string && (ak_status k =? "active")%string) (d_api_keys s)));
  match found with
  | None => raise (UnauthorizedError "Invalid API key")
  | Some key => mret {|
      ac_user_id := ak_id key; ac_email := None; ac_display_name := ak_name key;
      ac_is_platform_admin := false; ac_tenant_ids := [ak_tenant_id key];
      ac_actor_type := ApiKeyActor; ac_request_id := request_id |}
  end.

Definition bind_tenant (actor : Actor) (tenant_id : string) : M db TenantActor :=
  if negb (mem tenant_id (ac_tenant_ids actor)) && negb (ac_is_platform_admin actor)
  then raise (PermissionDeniedError "Cross-tenant access denied")
  else
    s ← get;
    let memberships := select (λ m, (me_user_id m =? ac_user_id actor)%string
                                    && (me_tenant_id m =? tenant_id)%string) (d_memberships s) in
    let role_keys :=
      if bool_decide (ac_actor_type actor = ApiKeyActor) then ["detection_engineer"]
      else if ac_is_platform_admin actor && bool_decide (memberships = []) then ["platform_super_admin"]
      else me_role_key <$> memberships in
    if bool_decide (role_keys = []) && negb (ac_is_platform_admin actor)
    then raise (PermissionDeniedError "No membership in tenant")
    else mret {| ta_actor := actor; ta_tenant_id := tenant_id; ta_role_keys := role_keys;
                 ta_permissions := permissions_for_roles role_keys |}.

Definition require_permission (actor : TenantActor) (permission : string) : M db unit :=
  if ac_is_platform_admin (ta_actor actor) then mret tt
  else if negb (mem permission (ta_permissions actor))
  then raise (PermissionDeniedError ("Missing permission " +:+ permission))
  else mret tt.

(** ** [deps.py]: the headers of a request *)

Record headers := {
  hd_authorization : option string; hd_api_key : option string; hd_tenant_id : option string }.

Definition get_actor (h : headers) (request_id : string) : M db Actor :=
  if otrue (hd_api_key h) then actor_from_api_key (ostr (hd_api_key h)) request_id
  else if otrue (hd_authorization h) && startswith (lower (ostr (hd_authorization h))) "bearer "
  then actor_from_bearer (ostr (snd (split_once " " (ostr (hd_authorization h))))) request_id
  else raise (UnauthorizedError "Authentication required").

Definition get_tenant_actor (h : headers) (actor : Actor) : M db TenantActor :=
  if otrue (hd_tenant_id h) then bind_tenant actor (ostr (hd_tenant_id h))
  else match ac_tenant_ids actor with
       | [t] => bind_tenant actor t
       | _ => raise (UnauthorizedError "X-Tenant-ID is required")
       end.

(** [Depends(Permission(p))]: what a route runs before its body. *)
Definition require (permission : string) (h : headers) (request_id : string) : M db TenantActor :=
  actor ← get_actor h request_id;
  tenant_actor ← get_tenant_actor h actor;
  require_permission tenant_actor permission;;
  mret tenant_actor.
End auth.

(** ** Who a request may act for *)

(** The rows that authorise a user, by a role held in that tenant. *)
Definition role_grants (s : db) (user_id tenant_id permission : string) : Prop :=
  ∃ m r, m ∈ d_memberships s ∧ me_user_id m = user_id ∧ me_tenant_id m = tenant_id
         ∧ dget (me_role_key m) ROLE_CATALOG = Some r ∧ permission ∈ ro_permissions r.
(** The API key a request presents, when it presents one; and otherwise the subject its
    bearer token was issued to, when it has a token that decodes. *)
Inductive presents_key (h : headers) : string → Prop :=
| sent_key raw : hd_api_key h = Some raw → nonempty raw = true → presents_key h raw.
Inductive presents_subject `{AuthLib} (h : headers) : string → Prop :=
| sent_token header token payload subject :
    otrue (hd_api_key h) = false → hd_authorization h = Some header → startswith (lower header) "bearer " = true →
    snd (split_once " " header) = Some token → jwt_decode token = Some payload → dgetv "sub" payload = VStr subject →
    presents_subject h subject.
(** An actor that holds a permission in a tenant by the credential of the request: an active
    administrator or member who is the subject of its token, or the active key with the hash
    of the key it sent. *)
Inductive authorised `{AuthLib} (h : headers) (s : db) (tenant_id permission : string) (a : Actor) : Prop :=
| auth_admin u : presents_subject h (us_id u) → u ∈ d_users s → us_id u = ac_user_id a → us_status u = "active" →
    us_is_platform_admin u = true → authorised h s tenant_id permission a
| auth_member u : presents_subject h (us_id u) → u ∈ d_users s → us_id u = ac_user_id a → us_status u = "active" →
    role_grants s (ac_user_id a) tenant_id permission → authorised h s tenant_id permission a
| auth_key raw k : presents_key h raw → k ∈ d_api_keys s → ak_id k = ac_user_id a → ak_status k = "active" →
    ak_key_hash k = sha256_hex raw → ak_tenant_id k = tenant_id →
    permission ∈ DETECTION_ENGINEER_PERMS → authorised h s tenant_id permission a.

Lemma elem_of_permissions_for_roles p keys :
  p ∈ permissions_for_roles keys ↔
  ∃ k r, k ∈ keys ∧ dget k ROLE_CATALOG = Some r ∧ p ∈ ro_permissions r.
Proof.
  unfold permissions_for_roles. rewrite list_elem_of_bind. split.
  - intros (k & Hp & Hk). destruct (dget k ROLE_CATALOG) as [r|] eqn:E; [eauto|].
    by apply not_elem_of_nil in Hp.
  - intros (k & r & Hk & Hr & Hp). exists k. rewrite Hr. done.
Qed.

Section access_facts.
Context `{Oracle} `{AuthLib}.

(** Where an actor comes from. *)
Definition from_user (h : headers) (s : db) (a : Actor) : Prop :=
  ac_actor_type a = UserActor ∧ ∃ u, presents_subject h (us_id u) ∧ u ∈ d_users s ∧ us_id u = ac_user_id a ∧ us_status u = "active"
    ∧ us_is_platform_admin u = ac_is_platform_admin a.
Definition from_key (h : headers) (s : db) (a : Actor) : Prop :=
  ac_actor_type a = ApiKeyActor ∧ ac_is_platform_admin a = false ∧ ∃ k raw, presents_key h raw ∧ k ∈ d_api_keys s
    ∧ ak_id k = ac_user_id a ∧ ak_status k = "active" ∧ ak_key_hash k = sha256_hex raw
    ∧ ac_tenant_ids a = [ak_tenant_id k].

Lemma actor_from_bearer_ok token rid s a s' :
  actor_from_bearer token rid s = (Ok a, s') → s' = s ∧ ac_actor_type a = UserActor
  ∧ ∃ payload u, jwt_decode token = Some payload ∧ dgetv "sub" payload = VStr (us_id u) ∧ u ∈ d_users s
    ∧ us_id u = ac_user_id a ∧ us_status u = "active" ∧ us_is_platform_admin u = ac_is_platform_admin a.
Proof.
  unfold actor_from_bearer. destruct (jwt_decode token) as [payload|]; [|discriminate].
  unfold mbind, M_bind, get. destruct (find_first _ _) as [u|] eqn:Hf; [|discriminate].
  apply find_first_Some in Hf as [Hin Hsub]. destruct (us_status u =? "active")%string eqn:Hs; [|discriminate].
  intros [= <- <-]. py_bool. split; [done|]. split; [done|]. exists payload, u. split; [done|].
  destruct (dgetv "sub" payload) as [| | | |i| |]; try discriminate. apply String.eqb_eq in Hsub as <-. done.
Qed.

Lemma actor_from_api_key_ok raw rid s a s' :
  actor_from_api_key raw rid s = (Ok a, s') → s' = s ∧ ac_actor_type a = ApiKeyActor ∧ ac_is_platform_admin a = false
  ∧ ∃ k, k ∈ d_api_keys s ∧ ak_id k = ac_user_id a ∧ ak_status k = "active" ∧ ak_key_hash k = sha256_hex raw
    ∧ ac_tenant_ids a = [ak_tenant_id k].
Proof.
  unfold actor_from_api_key, lift. intros Hk. inv_bind Hk. injection Ha as <- <-. inv_bind Hk.
  injection Ha as Hfound <-. destruct a0 as [k|]; [|discriminate].
  apply scalar_one_Some in Hfound. assert (k ∈ [k]) as Hin by left. rewrite <-Hfound in Hin.
  apply elem_of_select in Hin as [Hin Hm]. apply andb_prop in Hm as [Hh Hst].
  apply String.eqb_eq in Hh, Hst. injection Hk as <- <-. split; [done|].
  split; [done|]. split; [done|]. by exists k.
Qed.

(** A bearer header has a space. *)
Lemma split_once_cons c text : is_Some (snd (split_once " " text)) → is_Some (snd (split_once " " (String c text))).
Proof. intros H1. cbn [split_once]. destruct (Ascii.eqb c " "); [done|]. by destruct (split_once " " text). Qed.
Lemma bearer_split header : startswith (lower header) "bearer " = true → ∃ token, snd (split_once " " header) = Some token.
Proof.
  unfold startswith, lower. do 6 (destruct header as [|? header]; [discriminate|]; cbn [str_map String.prefix];
    destruct (ascii_dec _ _); [|discriminate]; intros H1; revert H1).
  destruct header as [|c header]; [discriminate|]. cbn [str_map String.prefix]. destruct (ascii_dec " " (lower_char c)) as [Hc|]; [|discriminate].
  intros _. change (is_Some (snd (split_once " " (String a (String a0 (String a1 (String a2 (String a3 (String a4 (String c header)))))))))).
  do 6 apply split_once_cons. assert (c = " "%char) as ->; [|by eexists].
  destruct c as [[] [] [] [] [] [] [] []]; vm_compute in Hc; try discriminate Hc; done.
Qed.
Lemma get_actor_ok h rid s a s' :
  get_actor h rid s = (Ok a, s') → s' = s ∧ (from_user h s a ∨ from_key h s a).
Proof.
  unfold get_actor. destruct (otrue (hd_api_key h)) eqn:Ek.
  - intros (-> & Hty & Hadm & k & Hk)%actor_from_api_key_ok. split; [done|]. right. split; [done|]. split; [done|].
    exists k. eexists. split; [|exact Hk]. destruct (hd_api_key h) as [raw|] eqn:E; [by constructor | done].
  - destruct (hd_authorization h) as [header|] eqn:Eh; [|done]. change (ostr (Some header)) with header. destruct (_ && _) eqn:Eb; [|discriminate].
    apply andb_prop in Eb as [_ Eb]. destruct (bearer_split header Eb) as [token Et]. rewrite Et. change (ostr (Some token)) with token.
    intros (-> & Hty & payload & u & Hj & Hsub & Hu)%actor_from_bearer_ok. split; [done|]. left. split; [done|].
    exists u. split; [|done]. by eapply sent_token.
Qed.

Lemma bind_tenant_ok a t s ta s' :
  bind_tenant a t s = (Ok ta, s') →
  s' = s ∧ ta_actor ta = a ∧ ta_tenant_id ta = t
  ∧ (t ∈ ac_tenant_ids a ∨ ac_is_platform_admin a = true)
  ∧ ta_permissions ta = permissions_for_roles (ta_role_keys ta)
  ∧ (ac_actor_type a = ApiKeyActor → ta_role_keys ta = ["detection_engineer"])
  ∧ (ac_actor_type a = UserActor → ac_is_platform_admin a = false →
     ∀ k, k ∈ ta_role_keys ta → ∃ m, m ∈ d_memberships s ∧ me_user_id m = ac_user_id a
       ∧ me_tenant_id m = t ∧ me_role_key m = k).
Proof.
  unfold bind_tenant. destruct (negb _ && negb _) eqn:Hc; [discriminate|].
  unfold mbind, M_bind, get. destruct (bool_decide (_ = []) && _) eqn:Hr; [discriminate|].
  intros [= <- <-]. simpl. split_and!; try done.
  - destruct (mem t (ac_tenant_ids a)) eqn:Hm; [left; by apply mem_spec | right].
    simpl in Hc. by apply negb_false_iff in Hc.
  - intros ->. done.
  - intros -> -> k. simpl. intros (m & -> & Hm)%list_elem_of_fmap.
    apply elem_of_select in Hm as [Hm Hb]. py_bool. by exists m.
Qed.

Lemma get_tenant_actor_ok h a s ta s' :
  get_tenant_actor h a s = (Ok ta, s') → bind_tenant a (ta_tenant_id ta) s = (Ok ta, s')
  ∧ (otrue (hd_tenant_id h) = true → hd_tenant_id h = Some (ta_tenant_id ta)).
Proof.
  unfold get_tenant_actor. intros Hg.
  assert (∀ t, bind_tenant a t s = (Ok ta, s') → bind_tenant a (ta_tenant_id ta) s = (Ok ta, s')
                                                 ∧ ta_tenant_id ta = t) as Hb.
  { intros t Ht. pose proof Ht as Ht'. apply bind_tenant_ok in Ht' as (_ & _ & -> & _). done. }
  destruct (hd_tenant_id h) as [t|] eqn:Ht; simpl in *.
  - destruct (nonempty t); [apply Hb in Hg as [? <-]; by split|].
    destruct (ac_tenant_ids a) as [|t' [|]]; try discriminate. apply Hb in Hg as [? _]. by split.
  - destruct (ac_tenant_ids a) as [|t' [|]]; try discriminate. apply Hb in Hg as [? _]. by split.
Qed.

(** Where a request that passes the dependency comes from. *)
Lemma require_ok permission h rid s ta s' :
  require permission h rid s = (Ok ta, s') →
  s' = s ∧ authorised h s (ta_tenant_id ta) permission (ta_actor ta)
  ∧ (otrue (hd_tenant_id h) = true → hd_tenant_id h = Some (ta_tenant_id ta)).
Proof.
  unfold require. intros Hr. inv_bind Hr. apply get_actor_ok in Ha as [-> Hsrc].
  inv_bind Hr. apply get_tenant_actor_ok in Ha as [Ha Hh].
  apply bind_tenant_ok in Ha as (-> & Hact & _ & Hten & Hperm & Hkey & Huser).
  inv_bind Hr. unfold mret, M_ret in Hr. injection Hr as <- <-. unfold require_permission in Ha.
  rewrite Hact in *.
  destruct (ac_is_platform_admin a) eqn:Hadm.
  - injection Ha as <-. split; [done|]. split; [|done].
    destruct Hsrc as [(_ & u & Hsub & Hu & Hid & Hst & Hpa)|(_ & Hk & _)]; [|congruence].
    by eapply auth_admin; [..|rewrite Hpa].
  - destruct (mem permission (ta_permissions a0)) eqn:Hm; [|discriminate].
    injection Ha as <-. split; [done|]. split; [|done].
    apply mem_spec in Hm. rewrite Hperm in Hm.
    apply elem_of_permissions_for_roles in Hm as (k & r & Hk & Hrole & Hp).
    destruct Hsrc as [(Hty & u & Hsub & Hu & Hid & Hst & Hpa)|(Hty & _ & key & raw & Hraw & Hin & Hid & Hst & Hh' & Ht)].
    + destruct (Huser Hty eq_refl k Hk) as (m & Hm & Hmu & Hmt & Hmk). subst k.
      eapply auth_member; [exact Hsub | exact Hu | done | done |]. by exists m, r.
    + rewrite (Hkey Hty) in Hk. apply list_elem_of_singleton in Hk as ->.
      vm_compute in Hrole. injection Hrole as <-. destruct Hten as [Hten|]; [|done].
      rewrite Ht in Hten. apply list_elem_of_singleton in Hten.
      eapply auth_key; [exact Hraw | exact Hin | done | done | exact Hh' | done |]. exact Hp.
Qed.

(** C3. Every protected route acts only within its rights: a request that passes the
    dependency for a permission, for a tenant, presents a token whose subject is an active
    platform administrator, or an active user with a membership in that very tenant whose
    role grants the permission, or it presents an API key whose hash is that of an active key
    of that tenant, whose fixed role grants it; an API key comes before a token. The actor is
    that user or key. The tenant is the one the request named, when it named one, and the
    database is unchanged. *)
Theorem require_sound permission h rid s ta s' :
  require permission h rid s = (Ok ta, s') →
  s' = s ∧ authorised h s (ta_tenant_id ta) permission (ta_actor ta)
  ∧ (otrue (hd_tenant_id h) = true → hd_tenant_id h = Some (ta_tenant_id ta)).
Proof. apply require_ok. Qed.

(** The role catalogue is what its names say: every permission of a role is declared;
    platform administration is granted by exactly one role; the auditor and the
    read-only roles read only; and the triple of response tiers, broker execution and
    evidence export is held only by the roles that respond or administrate. *)
Theorem role_catalogue_separation :
  (∀ keys p, p ∈ permissions_for_roles keys → p ∈ PERMISSIONS)
  ∧ (∀ keys, "admin:platform" ∈ permissions_for_roles keys ↔ "platform_super_admin" ∈ keys)
  ∧ (∀ keys p, (∀ k, k ∈ keys → k ∈ ["auditor"; "read_only"]) →
       p ∈ permissions_for_roles keys → ∃ what, p = what +:+ ":read")
  ∧ (∀ keys p, p ∈ ["response:tier2"; "broker:execute"; "evidence:export"] →
       p ∈ permissions_for_roles keys →
       ∃ k, k ∈ keys ∧ k ∈ ["platform_super_admin"; "tenant_owner"; "security_admin"; "soc_manager";
                            "senior_analyst"; "incident_responder"]).
Proof.
  assert (∀ (P : string → RoleDefinition → bool) k r, dget k ROLE_CATALOG = Some r →
    forallb (λ kr, P kr.1 kr.2) ROLE_CATALOG = true → P k r = true) as Hall.
  { intros P k r Hg Hf. rewrite forallb_forall in Hf. apply (Hf (k, r)).
    apply list_elem_of_In. by apply dget_elem_of. }
  split_and!.
  - intros keys p (k & r & _ & Hr & Hp)%elem_of_permissions_for_roles.
    pose proof (Hall (λ _ r, forallb (λ p, mem p PERMISSIONS) (ro_permissions r)) k r Hr eq_refl) as Hx.
    rewrite forallb_forall in Hx. apply mem_spec, Hx. by apply list_elem_of_In.
  - intros keys. rewrite elem_of_permissions_for_roles. split.
    + intros (k & r & Hk & Hr & Hp).
      pose proof (Hall (λ k r, negb (mem "admin:platform" (ro_permissions r))
                               || (k =? "platform_super_admin")%string) k r Hr eq_refl) as Hx.
      cbv beta in Hx. apply mem_spec in Hp. rewrite Hp in Hx. simpl in Hx. by apply String.eqb_eq in Hx as <-.
    + intros Hk. eexists _, _. split; [exact Hk|]. split; [reflexivity|]. by apply mem_spec.
  - intros keys p Hkeys (k & r & Hk & Hr & Hp)%elem_of_permissions_for_roles.
    pose proof (Hall (λ k r, negb (mem k ["auditor"; "read_only"])
      || forallb (λ p, (str_drop (String.length p - 5) p =? ":read")%string) (ro_permissions r)) k r Hr eq_refl) as Hx.
    cbv beta in Hx. assert (mem k ["auditor"; "read_only"] = true) as Hm by (by apply mem_spec, Hkeys).
    rewrite Hm in Hx. rewrite orb_false_l, forallb_forall in Hx.
    assert (In p (ro_permissions r)) as Hin by (by apply list_elem_of_In). apply Hx in Hin.
    apply String.eqb_eq in Hin. exists (str_take (String.length p - 5) p). rewrite <-Hin.
    symmetry. apply str_take_drop.
  - intros keys p Hp (k & r & Hk & Hr & Hpr)%elem_of_permissions_for_roles. exists k. split; [done|].
    pose proof (Hall (λ k r, mem k ["platform_super_admin"; "tenant_owner"; "security_admin"; "soc_manager";
                            "senior_analyst"; "incident_responder"]
      || forallb (λ p, negb (mem p ["response:tier2"; "broker:execute"; "evidence:export"])) (ro_permissions r))
      k r Hr eq_refl) as Hx. cbv beta in Hx.
    apply orb_prop in Hx as [Hx|Hx]; [by apply mem_spec|].
    rewrite forallb_forall in Hx. specialize (Hx p). rewrite list_elem_of_In in Hpr.
    apply mem_spec in Hp. apply Hx in Hpr. by rewrite Hp in Hpr.
Qed.
End access_facts.

(** ** A concrete request *)

#[local] Instance demo_oracle : Oracle :=
  {| uuid_hex := λ n, pad 32 (Z.of_nat n); clock := λ n, utc 20000 (Z.of_nat n) |}.
#[local] Instance demo_auth : AuthLib := {|
  jwt_encode := λ _, "t"; bcrypt_check := λ _ _, true;
  jwt_decode := λ t, if (t =? "t")%string then Some [("sub", VStr "usr_1")] else None |}.
Definition demo_db : db :=
  set_memberships (λ _, [{| me_id := "mem_1"; me_tenant_id := "ten_a"; me_user_id := "usr_1";
                            me_role_key := "analyst" |}])
    (set_users (λ _, [{| us_id := "usr_1"; us_email := "a@x"; us_display_name := "A";
                         us_password_hash := "h"; us_status := "active";
                         us_is_platform_admin := false |}]) empty_db).
Definition demo_headers (tenant : option string) : headers :=
  {| hd_authorization := Some "Bearer t"; hd_api_key := None; hd_tenant_id := tenant |}.
Definition demo_require (permission : string) (tenant : option string) :=
  fst (require permission (demo_headers tenant) "req_1" demo_db).
Example analyst_reads : is_ok (demo_require "incidents:read" (Some "ten_a")) = true
  ∧ is_ok (demo_require "incidents:read" None) = true
  ∧ demo_require "broker:execute" None = Raise (PermissionDeniedError "Missing permission broker:execute")
  ∧ demo_require "incidents:read" (Some "ten_b") = Raise (PermissionDeniedError "Cross-tenant access denied").
Proof. vm_compute. auto. Qed.

Definition demo_tenant_actor : TenantActor := Eval vm_compute in
  match demo_require "incidents:read" (Some "ten_a") with
  | Ok ta => ta
  | Raise _ => {| ta_actor := {| ac_user_id := ""; ac_email := None; ac_display_name := "";
                    ac_is_platform_admin := false; ac_tenant_ids := []; ac_actor_type := UserActor;
                    ac_request_id := "" |}; ta_tenant_id := ""; ta_role_keys := []; ta_permissions := [] |}
  end.
Lemma require_sound_witness :
  authorised (demo_headers (Some "ten_a")) demo_db (ta_tenant_id demo_tenant_actor) "incidents:read" (ta_actor demo_tenant_actor).
Proof.
  refine (proj1 (proj2 (require_sound "incidents:read" (demo_headers (Some "ten_a")) "req_1" demo_db
                          demo_tenant_actor demo_db _))).
  vm_compute. reflexivity.
Defined.
