(* ===== verification/Routes.v ===== *)
(** * What the API routes share

    A route runs its permission dependency, then its body, in a session that commits when
    the body returns and rolls back when it raises; most bodies end in one call of
    [write_audit] with the actor's fields. *)
From S2P Require Export Access AuditChain.
Local Open Scope Z_scope.

Definition actor_type_str (t : ActorType) : string :=
  match t with UserActor => "user" | ApiKeyActor => "api_key" end.
Definition actor_user (actor : TenantActor) : string := ac_user_id (ta_actor actor).

Section routes.
Context `{Oracle} `{AuthLib}.

Definition audit_route (actor_type : string) (actor : TenantActor) (request_id action target_type : string)
    (target_id : option string) (after_state : option pydict) : M db AuditLog :=
  write_audit {|
    b_tenant_id := Some (ta_tenant_id actor); b_actor_type := actor_type;
    b_actor_id := actor_user actor; b_request_id := request_id; b_action := action;
    b_target_type := target_type; b_target_id := target_id; b_reason := None;
    b_policy_decision := None; b_approval_status := None; b_before_state := None;
    b_after_state := after_state; b_result := "success" |}.
(** With [actor_type="user"] and the request identifier of the dependency. *)
Definition audit_user (actor : TenantActor) (request_id : string) :=
  audit_route "user" actor request_id.
(** With the actor's own type and request identifier. *)
Definition audit_actor (actor : TenantActor) :=
  audit_route (actor_type_str (ac_actor_type (ta_actor actor))) actor (ac_request_id (ta_actor actor)).

Definition served {A} (permission : string) (h : headers) (request_id : string)
    (body : TenantActor → M db A) : M db A :=
  get_db (actor ← require permission h request_id; body actor).

Lemma served_ok {A} permission h rid (body : TenantActor → M db A) s a s' :
  served permission h rid body s = (Ok a, s') →
  ∃ actor s1, authorised h s (ta_tenant_id actor) permission (ta_actor actor)
    ∧ body actor s = (Ok a, s1) ∧ s' = flush_pending s1.
Proof.
  intros (s1 & He & ->)%get_db_ok. inv_bind He. apply require_ok in Ha as (-> & Hauth & _).
  by exists a0, s1.
Qed.
Lemma served_raise {A} permission h rid (body : TenantActor → M db A) s e s' :
  served permission h rid body s = (Raise e, s') → s' = set_draws (λ _, d_draws s') s.
Proof. apply get_db_raise. Qed.

(** What one record says, and what writing it leaves alone. *)
Definition record_of (actor : TenantActor) (action target_type : string) (target_id : option string)
    (r : AuditLog) : Prop :=
  au_tenant_id r = Some (ta_tenant_id actor) ∧ au_actor_id r = actor_user actor ∧ au_action r = action
  ∧ au_target_type r = target_type ∧ au_target_id r = target_id ∧ au_result r = "success".
Lemma write_audit_state b s r s' : write_audit b s = (Ok r, s') →
  ∃ d, s' = set_audit (λ rows, rows ++ [r]) (flush_pending (set_draws (λ _, d) s)).
Proof.
  unfold write_audit. intros Hw. inv_bind Hw. injection Ha as <- <-.
  inv_bind Hw. injection Ha as <- <-. inv_bind Hw. injection Ha as <- <-. inv_bind Hw.
  apply add_unique_ok in Ha as [-> _]. injection Hw as <- <-. by eexists.
Qed.
Lemma audit_route_ok ty actor rid action target_type target_id after s r s' :
  audit_route ty actor rid action target_type target_id after s = (Ok r, s') →
  record_of actor action target_type target_id r
  ∧ ∃ d, s' = set_audit (λ rows, rows ++ [r]) (flush_pending (set_draws (λ _, d) s)).
Proof.
  unfold audit_route. intros Hw. pose proof (write_audit_spec _ _ _ _ Hw) as (_ & _ & _ & Hp & _).
  split.
  { assert (∀ o o', vopt o = vopt o' → o = o') as Hv by (intros [] []; simpl; congruence).
    unfold row_payload, body_payload in Hp. simpl in Hp. injection Hp as ? Ht ? Hi ? Ha Hy Hg ? ? ? ? ? Hr.
    apply (Hv _ (Some _)) in Ht. apply Hv in Hg. by split_and!. }
  by eapply write_audit_state.
Qed.
Lemma audit_user_ok actor rid action target_type target_id after s r s' :
  audit_user actor rid action target_type target_id after s = (Ok r, s') →
  record_of actor action target_type target_id r
  ∧ ∃ d, s' = set_audit (λ rows, rows ++ [r]) (flush_pending (set_draws (λ _, d) s)).
Proof. exact (audit_route_ok "user" actor rid action target_type target_id after s r s'). Qed.
Lemma audit_actor_ok actor action target_type target_id after s r s' :
  audit_actor actor action target_type target_id after s = (Ok r, s') →
  record_of actor action target_type target_id r
  ∧ ∃ d, s' = set_audit (λ rows, rows ++ [r]) (flush_pending (set_draws (λ _, d) s)).
Proof. exact (audit_route_ok _ actor _ action target_type target_id after s r s'). Qed.
End routes.

(** *** The records a call leaves *)

#[export] Instance audit_table : Table d_audit set_audit.
Proof. constructor; try reflexivity; [intros f g s H; unfold set_audit; by rewrite H | by intros []]. Qed.
(** A record that says what [write_audit] was told. *)
Definition is_record (b : AuditBody) (r : AuditLog) : Prop := row_payload r = body_payload (au_sequence r) b.
(** A state that differs from [s] by these records and what was drawn. *)
Definition audited (recs : list AuditLog) (s s' : db) : Prop :=
  flush_pending s' = set_audit (λ l, l ++ recs) (flush_pending (set_draws (λ _, d_draws s') s)).
Lemma audited_draws s d : audited [] s (set_draws (λ _, d) s).
Proof.
  unfold audited. rewrite <-(table_id (get_rows := d_audit) (flush_pending (set_draws (λ _, d) s))) at 1.
  apply (table_ext (get_rows := d_audit)). by rewrite app_nil_r.
Qed.
Lemma set_draws_same s : set_draws (λ _, d_draws s) s = s.
Proof. by destruct s. Qed.
Lemma audited_same s : audited [] s s.
Proof. rewrite <-(set_draws_same s) at 2. apply audited_draws. Qed.
Lemma audited_snoc `{Oracle} recs s s1 b r s2 : audited recs s s1 → write_audit b s1 = (Ok r, s2) →
  audited (recs ++ [r]) s s2 ∧ is_record b r.
Proof.
  intros Hs Hw. pose proof (write_audit_spec _ _ _ _ Hw) as (_ & Hq & _ & Hp & _). split; [|unfold is_record; by rewrite Hq].
  apply write_audit_state in Hw as [d ->]. unfold audited in *.
  transitivity (set_audit (λ l, l ++ [r]) (set_draws (λ _, d) (flush_pending s1))).
  { exact (f_equal (λ x, set_audit (λ l, l ++ [r]) (set_draws (λ _, d) x)) (flush_idem s1)). }
  rewrite Hs. transitivity (set_audit (λ l, (l ++ recs) ++ [r]) (flush_pending (set_draws (λ _, d) s))); [reflexivity|].
  apply (table_ext (get_rows := d_audit)). by rewrite <-app_assoc.
Qed.

(** ** State of the process beside the database

    Some modules keep an object of their own as long as the process lives: a session commits
    and rolls back the database, never that object. *)
Record process (G : Type) := { pr_db : db; pr_module : G }.
Arguments Build_process {G} pr_db pr_module.
Arguments pr_db {G} p.
Arguments pr_module {G} p.
Section processes.
Context {G : Type}.
Definition on_db {A} (m : M db A) : M (process G) A := λ p,
  let (r, s) := m (pr_db p) in (r, {| pr_db := s; pr_module := pr_module p |}).
Definition on_module {A} (m : M G A) : M (process G) A := λ p,
  let (r, g) := m (pr_module p) in (r, {| pr_db := pr_db p; pr_module := g |}).
Definition in_session {A} (handler : M (process G) A) : M (process G) A := λ p,
  match handler p with
  | (Ok a, p') => (Ok a, {| pr_db := flush_pending (pr_db p'); pr_module := pr_module p' |})
  | (Raise e, p') => (Raise e, {| pr_db := set_draws (λ _, d_draws (pr_db p')) (pr_db p); pr_module := pr_module p' |})
  end.
Lemma on_db_ok {A} (m : M db A) p a p' : on_db m p = (Ok a, p') →
  m (pr_db p) = (Ok a, pr_db p') ∧ pr_module p' = pr_module p.
Proof. unfold on_db. destruct (m (pr_db p)) as [r s]. by intros [= -> <-]. Qed.
Lemma on_module_ok {A} (m : M G A) p a p' : on_module m p = (Ok a, p') →
  m (pr_module p) = (Ok a, pr_module p') ∧ pr_db p' = pr_db p.
Proof. unfold on_module. destruct (m (pr_module p)) as [r g]. by intros [= -> <-]. Qed.
Lemma session_ok {A} (handler : M (process G) A) p a p' : in_session handler p = (Ok a, p') →
  ∃ p1, handler p = (Ok a, p1) ∧ pr_db p' = flush_pending (pr_db p1) ∧ pr_module p' = pr_module p1.
Proof. unfold in_session. destruct (handler p) as [[b|e] p1]; [intros [= -> <-]; by exists p1 | done]. Qed.
Lemma session_raise {A} (handler : M (process G) A) p e p' : in_session handler p = (Raise e, p') →
  pr_db p' = set_draws (λ _, d_draws (pr_db p')) (pr_db p).
Proof. unfold in_session. destruct (handler p) as [[b|e'] p1]; [done | by intros [= _ <-]]. Qed.

(** A relation on the modules that every call keeps. *)
Context (R : G → G → Prop) `{!PreOrder R}.
Definition module_keeps (p p' : process G) : Prop := R (pr_module p) (pr_module p').
#[export] Instance module_keeps_preorder : PreOrder module_keeps.
Proof. split; [intros p; unfold module_keeps; reflexivity|]. intros a b c. unfold module_keeps. by etrans. Qed.
Lemma module_on_db {A} (m : M db A) : keeps module_keeps (on_db m).
Proof. intros p. unfold on_db, module_keeps. by destruct (m (pr_db p)). Qed.
Lemma module_on_module {A} (m : M G A) : keeps R m → keeps module_keeps (on_module m).
Proof. intros Hm p. unfold on_module, module_keeps. specialize (Hm (pr_module p)). by destruct (m (pr_module p)). Qed.
Lemma module_session {A} (handler : M (process G) A) : keeps module_keeps handler → keeps module_keeps (in_session handler).
Proof. intros Hm p. unfold in_session, module_keeps. specialize (Hm p). by destruct (handler p) as [[a|e] p']. Qed.
End processes.
