(* ===== verification/Intel.v ===== *)
(** * Threat intelligence

    Models [services/api/app/services/intel.py] and the routes of [api/intel.py]: the
    indicators of a tenant, their lifetime and their sightings. The candidates of
    [record_sightings] are a Python set of strings, whose order varies from one process
    to the next: the order is a parameter. *)
From S2P Require Export Routes.
Local Open Scope Z_scope.

(** The iteration order of a set display of strings. *)
Class SetOrder := { set_iter : list string → list string }.
Class SetOrderLaws (o : SetOrder) := {
  set_iter_perm : ∀ l, set_iter l ≡ₚ remove_dups l }.

Definition IOC_TYPES : list string := ["ip"; "domain"; "hash"; "url"; "email"].

(** The primary key and the unique constraint of the table. *)
Definition same_ioc (a b : IndicatorOfCompromise) : bool :=
  (io_id a =? io_id b)%string
  || ((io_tenant_id a =? io_tenant_id b)%string && (io_indicator_type a =? io_indicator_type b)%string
      && (io_value a =? io_value b)%string).
(** Assignments to the fields of the row with one primary key. *)
Definition edit_ioc (i : string) (f : IndicatorOfCompromise → IndicatorOfCompromise) : M db unit :=
  modify (set_indicators (map (λ r, if (io_id r =? i)%string then f r else r))).
Definition iocs_of (tenant_id : string) (s : db) : list IndicatorOfCompromise :=
  select (λ r, io_tenant_id r =? tenant_id)%string (d_indicators s).
Definition expired_at (now : datetime) (r : IndicatorOfCompromise) : bool := dt_le (as_utc (io_expires_at r)) now.
Definition live_at (now : datetime) (r : IndicatorOfCompromise) : bool := io_active r && negb (expired_at now r).

Record IocBody := {
  ib_indicator_type : string; ib_value : string; ib_source : string; ib_confidence : float;
  ib_ttl_hours : Z; ib_malware : option string; ib_actor : option string; ib_campaign : option string;
  ib_mitre_techniques : list string; ib_tags : list string; ib_provenance : pydict }.

Section intel.
Context `{Oracle} `{SetOrder}.

Definition ostrv (o : option string) : pyval := match o with Some x => VStr x | None => VNone end.
Definition serialize_ioc (row : IndicatorOfCompromise) : M db pydict :=
  now ← utcnow_db;
  let expired := expired_at now row in
  mret [("id", VStr (io_id row)); ("indicator_type", VStr (io_indicator_type row)); ("value", VStr (io_value row));
    ("source", VStr (io_source row)); ("confidence", VFloat (io_confidence row));
    ("ttl_hours", VInt (io_ttl_hours row)); ("expires_at", VStr (isoformat (as_utc (io_expires_at row))));
    ("expired", VBool expired); ("active", VBool (io_active row && negb expired));
    ("malware", ostrv (io_malware row)); ("actor", ostrv (io_actor row)); ("campaign", ostrv (io_campaign row));
    ("mitre_techniques", VList (VStr <$> io_mitre_techniques row)); ("tags", VList (VStr <$> io_tags row));
    ("sightings", VInt (io_sightings row));
    ("last_seen_at", ostrv (isoformat <$> (as_utc <$> io_last_seen_at row)));
    ("provenance", VDict (io_provenance row)); ("created_at", VStr (isoformat (as_utc (io_created_at row))));
    ("created_by", VStr (io_created_by row)); ("updated_at", VStr (isoformat (as_utc (io_updated_at row))))].

Definition list_iocs (tenant_id : string) (include_expired : bool) : M db (list IndicatorOfCompromise) :=
  rows ← gets (λ s, sort_by (λ a b, dt_le (io_updated_at b) (io_updated_at a)) (iocs_of tenant_id s));
  if include_expired then mret rows
  else now ← utcnow_db; mret (select (live_at now) rows).
Definition get_ioc (tenant_id ioc_id : string) : M db IndicatorOfCompromise :=
  found ← (λ s, (scalar_one_or_none (select (λ r, (io_tenant_id r =? tenant_id)%string && (io_id r =? ioc_id)%string)
                                       (d_indicators s)), s));
  match found with
  | None => raise (BlueTeamError "NOT_FOUND" "IOC not found" 404)
  | Some row => mret row
  end.

(** ** [upsert_ioc] *)

Definition clean_value (indicator_type value : string) : string :=
  if mem indicator_type ["domain"; "email"] then lower (strip value) else strip value.
Definition clamp_ttl (ttl_hours : Z) : Z := Z.max 1 (Z.min ttl_hours (24 * 365)).
Definition renewed (b : IocBody) (now : datetime) (r : IndicatorOfCompromise) : IndicatorOfCompromise := {|
  io_id := io_id r; io_tenant_id := io_tenant_id r; io_indicator_type := io_indicator_type r;
  io_value := io_value r; io_source := strip (ib_source b); io_confidence := ib_confidence b;
  io_ttl_hours := clamp_ttl (ib_ttl_hours b); io_expires_at := dt_add now (hours (clamp_ttl (ib_ttl_hours b)));
  io_malware := ib_malware b; io_actor := ib_actor b; io_campaign := ib_campaign b;
  io_mitre_techniques := ib_mitre_techniques b; io_tags := ib_tags b; io_sightings := io_sightings r;
  io_last_seen_at := io_last_seen_at r;
  io_provenance := if vtrue (VDict (ib_provenance b)) then dupdate (io_provenance r) (ib_provenance b)
                   else io_provenance r;
  io_active := true; io_created_at := io_created_at r; io_created_by := io_created_by r; io_updated_at := now |}.
Definition new_ioc (b : IocBody) (i tenant_id ty value actor_id : string) (now : datetime) : IndicatorOfCompromise := {|
  io_id := i; io_tenant_id := tenant_id; io_indicator_type := ty; io_value := value;
  io_source := strip (ib_source b); io_confidence := ib_confidence b;
  io_ttl_hours := clamp_ttl (ib_ttl_hours b); io_expires_at := dt_add now (hours (clamp_ttl (ib_ttl_hours b)));
  io_malware := ib_malware b; io_actor := ib_actor b; io_campaign := ib_campaign b;
  io_mitre_techniques := ib_mitre_techniques b; io_tags := ib_tags b; io_sightings := 0;
  io_last_seen_at := None;
  io_provenance := if vtrue (VDict (ib_provenance b)) then ib_provenance b
                   else [("first_seen_source", VStr (strip (ib_source b)))];
  io_active := true; io_created_at := now; io_created_by := actor_id; io_updated_at := now |}.
Definition upsert_ioc (tenant_id : string) (b : IocBody) (actor_id : string) : M db IndicatorOfCompromise :=
  let ty := strip (lower (ib_indicator_type b)) in
  let value := clean_value ty (ib_value b) in
  if negb (mem ty IOC_TYPES) then raise (BlueTeamError "INVALID_IOC_TYPE" ("Unsupported type " +:+ ty) 422)
  else if negb (nonempty value) || negb (nonempty (strip (ib_source b)))
  then raise (BlueTeamError "INVALID_IOC" "value and source required" 422)
  else if fl_lt (ib_confidence b) (fl_of_Z 0) || fl_lt (fl_of_Z 1) (ib_confidence b)
  then raise (BlueTeamError "INVALID_CONFIDENCE" "confidence must be 0..1" 422)
  else
    now ← utcnow_db;
    existing ← (λ s, (scalar_one_or_none (select (λ r, (io_tenant_id r =? tenant_id)%string
                        && (io_indicator_type r =? ty)%string && (io_value r =? value)%string) (d_indicators s)), s));
    match existing with
    | Some r => edit_ioc (io_id r) (renewed b now);; flush;; mret (renewed b now r)
    | None =>
        i ← new_id_db "ioc";
        let row := new_ioc b i tenant_id ty value actor_id now in
        add_unique d_indicators set_indicators same_ioc row;; mret row
    end.

(** ** Leaving and sightings *)

Definition deactivated (actor_id : string) (now now' : datetime) (r : IndicatorOfCompromise)
    : IndicatorOfCompromise := {|
  io_id := io_id r; io_tenant_id := io_tenant_id r; io_indicator_type := io_indicator_type r;
  io_value := io_value r; io_source := io_source r; io_confidence := io_confidence r;
  io_ttl_hours := io_ttl_hours r; io_expires_at := io_expires_at r; io_malware := io_malware r;
  io_actor := io_actor r; io_campaign := io_campaign r; io_mitre_techniques := io_mitre_techniques r;
  io_tags := io_tags r; io_sightings := io_sightings r; io_last_seen_at := io_last_seen_at r;
  io_provenance := dset "deactivated_at" (VStr (isoformat now'))
                     (dset "deactivated_by" (VStr actor_id) (io_provenance r));
  io_active := false; io_created_at := io_created_at r; io_created_by := io_created_by r; io_updated_at := now |}.
Definition deactivate_ioc (row : IndicatorOfCompromise) (actor_id : string) : M db IndicatorOfCompromise :=
  now ← utcnow_db;
  now' ← utcnow_db;
  edit_ioc (io_id row) (deactivated actor_id now now');;
  flush;;
  mret (deactivated actor_id now now' row).

Definition lapsed (now : datetime) (r : IndicatorOfCompromise) : IndicatorOfCompromise := {|
  io_id := io_id r; io_tenant_id := io_tenant_id r; io_indicator_type := io_indicator_type r;
  io_value := io_value r; io_source := io_source r; io_confidence := io_confidence r;
  io_ttl_hours := io_ttl_hours r; io_expires_at := io_expires_at r; io_malware := io_malware r;
  io_actor := io_actor r; io_campaign := io_campaign r; io_mitre_techniques := io_mitre_techniques r;
  io_tags := io_tags r; io_sightings := io_sightings r; io_last_seen_at := io_last_seen_at r;
  io_provenance := dset "expired_at" (VStr (isoformat now)) (io_provenance r);
  io_active := false; io_created_at := io_created_at r; io_created_by := io_created_by r; io_updated_at := now |}.
Definition expire_stale (tenant_id : string) : M db Z :=
  now ← utcnow_db;
  rows ← gets (λ s, select (λ r, (io_tenant_id r =? tenant_id)%string && io_active r) (d_indicators s));
  let expired_rows := select (expired_at now) rows in
  foldM (λ _ r, edit_ioc (io_id r) (lapsed now)) tt expired_rows;;
  (if bool_decide (expired_rows = []) then mret tt else flush);;
  mret (Z.of_nat (length expired_rows)).

Definition ioc_entry (row : IndicatorOfCompromise) : list (string * string) := [
  ("rule_id", "intel." +:+ io_indicator_type row); ("type", io_indicator_type row);
  ("confidence", fl_fixed 2 (io_confidence row)); ("source", io_source row); ("ioc_id", io_id row);
  ("malware", ostr (io_malware row)); ("actor", ostr (io_actor row)); ("campaign", ostr (io_campaign row))].
Definition active_intel_map (tenant_id : string) : M db (list (string * list (string * string))) :=
  rows ← list_iocs tenant_id false;
  mret (foldl (λ mapping row, dset (io_value row) (ioc_entry row) mapping) [] rows).

Definition sighted (now : datetime) (r : IndicatorOfCompromise) : IndicatorOfCompromise := {|
  io_id := io_id r; io_tenant_id := io_tenant_id r; io_indicator_type := io_indicator_type r;
  io_value := io_value r; io_source := io_source r; io_confidence := io_confidence r;
  io_ttl_hours := io_ttl_hours r; io_expires_at := io_expires_at r; io_malware := io_malware r;
  io_actor := io_actor r; io_campaign := io_campaign r; io_mitre_techniques := io_mitre_techniques r;
  io_tags := io_tags r; io_sightings := io_sightings r + 1; io_last_seen_at := Some now;
  io_provenance := io_provenance r; io_active := io_active r; io_created_at := io_created_at r;
  io_created_by := io_created_by r; io_updated_at := now |}.
Definition user_email (event : CanonicalEvent) : option string := u ← e_user event; u_email u.
(** The set display, less the [None] and the empty string that the loop skips. *)
Definition candidates (event : CanonicalEvent) : list string :=
  select nonempty (omap id [e_src_ip event; e_dst_ip event; e_domain event; e_hash event; e_url event; user_email event]).
Definition answers (tenant_id candidate : string) (r : IndicatorOfCompromise) : bool :=
  (io_tenant_id r =? tenant_id)%string && mem (io_value r) [strip candidate; lower (strip candidate)] && io_active r.
Definition sight_candidate (tenant_id : string) (now : datetime) (matched_ids : list string) (candidate : string)
    : M db (list string) :=
  rows ← gets (λ s, select (answers tenant_id candidate) (d_indicators s));
  foldM (λ matched_ids r,
    if expired_at now r then mret matched_ids
    else edit_ioc (io_id r) (sighted now);; mret (matched_ids ++ [io_id r])) matched_ids rows.
Definition record_sightings (tenant_id : string) (event : CanonicalEvent) : M db (list string) :=
  now ← utcnow_db;
  matched_ids ← foldM (sight_candidate tenant_id now) [] (set_iter (candidates event));
  (if bool_decide (matched_ids = []) then mret tt else flush);;
  mret matched_ids.
End intel.

(** ** Routes *)

Section intel_routes.
Context `{Oracle} `{AuthLib}.

Inductive intel_request :=
| GetIocs (include_expired : bool) | CreateIoc (body : IocBody) | ReadIoc (ioc_id : string)
| Deactivate (ioc_id : string) | Expire.
Definition intel_permission (req : intel_request) : string :=
  match req with GetIocs _ | ReadIoc _ => "intel:read" | _ => "intel:write" end.

Definition get_iocs (include_expired : bool) (actor : TenantActor) : M db pydict :=
  expire_stale (ta_tenant_id actor);;
  rows ← list_iocs (ta_tenant_id actor) include_expired;
  items ← mapM' serialize_ioc rows;
  mret [("items", VList (VDict <$> items)); ("count", VInt (Z.of_nat (length rows)))].
Definition create_ioc (body : IocBody) (actor : TenantActor) (request_id : string) : M db pydict :=
  row ← upsert_ioc (ta_tenant_id actor) body (actor_user actor);
  audit_user actor request_id "intel.ioc_upsert" "ioc" (Some (io_id row))
    (Some [("type", VStr (io_indicator_type row)); ("value", VStr (io_value row)); ("source", VStr (io_source row))]);;
  serialize_ioc row.
Definition read_ioc (ioc_id : string) (actor : TenantActor) : M db pydict :=
  row ← get_ioc (ta_tenant_id actor) ioc_id;
  serialize_ioc row.
Definition deactivate (ioc_id : string) (actor : TenantActor) (request_id : string) : M db pydict :=
  found ← get_ioc (ta_tenant_id actor) ioc_id;
  row ← deactivate_ioc found (actor_user actor);
  audit_user actor request_id "intel.ioc_deactivate" "ioc" (Some (io_id row)) None;;
  serialize_ioc row.
Definition expire (actor : TenantActor) (request_id : string) : M db pydict :=
  count ← expire_stale (ta_tenant_id actor);
  audit_user actor request_id "intel.expire" "ioc" None (Some [("expired", VInt count)]);;
  mret [("expired", VInt count)].
Definition intel_handler (req : intel_request) (request_id : string) (actor : TenantActor) : M db pydict :=
  match req with
  | GetIocs include_expired => get_iocs include_expired actor
  | CreateIoc body => create_ioc body actor request_id
  | ReadIoc i => read_ioc i actor
  | Deactivate i => deactivate i actor request_id
  | Expire => expire actor request_id
  end.
Definition serve_intel (h : headers) (request_id : string) (req : intel_request) : M db pydict :=
  served (intel_permission req) h request_id (intel_handler req request_id).
End intel_routes.

(** ** The table of indicators *)

Definition ioc_key (r : IndicatorOfCompromise) : string * string * string :=
  (io_tenant_id r, io_indicator_type r, io_value r).
Record ioc_ok (r : IndicatorOfCompromise) : Prop := {
  iok_type : io_indicator_type r ∈ IOC_TYPES;
  iok_value : io_value r ≠ "" ∧ strip (io_value r) = io_value r;
  iok_lower : io_indicator_type r ∈ ["domain"; "email"] → lower (io_value r) = io_value r;
  iok_source : io_source r ≠ "";
  iok_confidence : fl_lt (io_confidence r) (fl_of_Z 0) = false ∧ fl_lt (fl_of_Z 1) (io_confidence r) = false;
  iok_ttl : 1 ≤ io_ttl_hours r ≤ 8760;
  iok_sightings : 0 ≤ io_sightings r;
}.
Record intel_wf (s : db) : Prop := {
  iw_ids : NoDup (io_id <$> d_indicators s);
  iw_keys : NoDup (ioc_key <$> d_indicators s);
  iw_rows : ∀ r, r ∈ d_indicators s → ioc_ok r;
}.
(** What no operation changes of a row, and what one for tenant [t] may do to the table. *)
Definition ioc_kept (r r' : IndicatorOfCompromise) : Prop :=
  io_id r' = io_id r ∧ ioc_key r' = ioc_key r ∧ io_created_at r' = io_created_at r
  ∧ io_created_by r' = io_created_by r ∧ io_sightings r ≤ io_sightings r'.
Definition ioc_change (t : string) (r r' : IndicatorOfCompromise) : Prop :=
  ioc_kept r r' ∧ (io_tenant_id r ≠ t → r' = r).
Definition intel_delta (t : string) (l l' : list IndicatorOfCompromise) : Prop :=
  ∃ old new, l' = old ++ new ∧ Forall2 (ioc_change t) l old ∧ Forall (λ r, io_tenant_id r = t) new.
#[export] Instance ioc_kept_preorder : PreOrder ioc_kept.
Proof.
  split; [by intros r; split_and!|]. intros a b c (? & ? & ? & ? & ?) (? & ? & ? & ? & ?).
  split_and!; try congruence. lia.
Qed.
#[export] Instance ioc_change_preorder t : PreOrder (ioc_change t).
Proof.
  split; [by intros r; split|]. intros a b c [Hab Tab] [Hbc Tbc]. split; [by etrans|].
  intros Ht. rewrite <-(Tab Ht). apply Tbc. destruct Hab as (_ & Hk & _). injection Hk as Hk _ _. congruence.
Qed.
#[export] Instance intel_delta_preorder t : PreOrder (intel_delta t).
Proof.
  split; [intros l; exists l, []; split_and!; [by rewrite app_nil_r | reflexivity | constructor]|].
  intros a b c (o & n & -> & Ho & Hn) (o' & n' & -> & Ho' & Hn').
  apply Forall2_app_inv_l in Ho' as (p & q & Hp & Hq & ->). exists p, (q ++ n').
  split_and!; [by rewrite app_assoc | by etrans|]. apply Forall_app. split; [|done].
  rewrite Forall_forall in Hn |- *. intros r Hr. apply (Forall2_in_r _ _ _ _ Hq) in Hr as (r0 & Hr0 & [(_ & Hk & _) _]).
  injection Hk as -> _ _. by apply Hn.
Qed.

(** A state change for the tenant that keeps the table well-formed. *)
Definition good (t : string) (s s' : db) : Prop :=
  intel_wf s → intel_wf s' ∧ intel_delta t (d_indicators s) (d_indicators s').
#[export] Instance good_preorder t : PreOrder (good t).
Proof.
  split; [by intros s Hs; split|]. intros a b c Hab Hbc Ha.
  destruct (Hab Ha) as [Hb ?]. destruct (Hbc Hb) as [Hc ?]. split; [done | by etrans].
Qed.
Lemma good_same t s s' : d_indicators s' = d_indicators s → good t s s'.
Proof. intros He [H1 H2 H3]. split; [by constructor; rewrite He | by rewrite He]. Qed.
Lemma good_then {A B} t (m : M db A) (k : A → M db B) s :
  good t s (snd (m s)) → (∀ a s1, m s = (Ok a, s1) → good t s1 (snd (k a s1))) → good t s (snd ((m ≫= k) s)).
Proof.
  intros Hm Hk. unfold mbind, M_bind. destruct (m s) as [[a|e] s1] eqn:E; simpl in *; [|done].
  etrans; [exact Hm | by apply Hk].
Qed.

(** An edit of a row of the tenant. *)
Definition safe_edit (f : IndicatorOfCompromise → IndicatorOfCompromise) : Prop :=
  ∀ r, ioc_kept r (f r) ∧ (ioc_ok r → ioc_ok (f r)).
Definition has_ioc (t i : string) (s : db) : Prop := ∃ r, r ∈ d_indicators s ∧ io_id r = i ∧ io_tenant_id r = t.
Lemma has_ioc_here t r s : r ∈ d_indicators s → (io_tenant_id r =? t)%string = true → has_ioc t (io_id r) s.
Proof. intros Hr Ht%String.eqb_eq. by exists r. Qed.
Lemma edited_rows t i f l : safe_edit f →
  NoDup (io_id <$> l) → (∃ r, r ∈ l ∧ io_id r = i ∧ io_tenant_id r = t) →
  Forall2 (ioc_change t) l (map (λ r, if (io_id r =? i)%string then f r else r) l).
Proof.
  intros Hf Hnd (r0 & Hr0 & Hi & Ht). apply Forall2_fmap_r, Forall_Forall2_diag, Forall_forall.
  intros r Hr. unfold compose. destruct (String.eqb_spec (io_id r) i) as [Heq|]; [|reflexivity].
  split; [apply Hf|]. intros Hne. destruct Hne.
  by rewrite (NoDup_fmap_eq io_id l r r0 Hnd Hr Hr0) by congruence.
Qed.
Lemma kept_rows t l l' :
  Forall2 (ioc_change t) l l' → io_id <$> l' = io_id <$> l ∧ ioc_key <$> l' = ioc_key <$> l.
Proof. induction 1 as [|r r' l l' [(Hi & Hk & _) _] _ [IH IH']]; [done|]. by rewrite !fmap_cons, Hi, Hk, IH, IH'. Qed.
Lemma edit_good t i f s : safe_edit f → has_ioc t i s → good t s (snd (edit_ioc i f s)).
Proof.
  intros Hf Hi Hs. pose proof (edited_rows t i f _ Hf (iw_ids s Hs) Hi) as Hrows.
  destruct (kept_rows t _ _ Hrows) as [Hids Hkeys]. simpl. split.
  - constructor; cbn [set_indicators d_indicators]; rewrite ?Hids, ?Hkeys; [apply Hs..|].
    intros r (r0 & -> & Hr0)%list_elem_of_fmap. destruct (io_id r0 =? i)%string; [apply Hf|]; by apply Hs.
  - exists (map (λ r, if (io_id r =? i)%string then f r else r) (d_indicators s)), [].
    split_and!; [by rewrite app_nil_r | done | constructor].
Qed.
Lemma has_ioc_good t i s s' : intel_wf s → good t s s' → has_ioc t i s → has_ioc t i s'.
Proof.
  intros Hw Hg (r & Hr & Hi & Ht). destruct (Hg Hw) as [_ (old & new & Hn & Ho & _)].
  apply (Forall2_in_l _ _ _ _ Ho) in Hr as (r' & Hr' & [(Hi' & Hk & _) _]).
  exists r'. injection Hk as Hk _ _. rewrite Hn. split_and!; [set_solver | congruence | congruence].
Qed.

Lemma renewed_safe b now : fl_lt (ib_confidence b) (fl_of_Z 0) = false → fl_lt (fl_of_Z 1) (ib_confidence b) = false →
  strip (ib_source b) ≠ "" → safe_edit (renewed b now).
Proof.
  intros H0 H1 Hs r. split; [by split_and!|]. intros []. constructor; simpl; try done. unfold clamp_ttl. lia.
Qed.
Lemma deactivated_safe a now now' : safe_edit (deactivated a now now').
Proof. intros r. split; [by split_and!|]. by intros []. Qed.
Lemma lapsed_safe now : safe_edit (lapsed now).
Proof. intros r. split; [by split_and!|]. by intros []. Qed.
Lemma sighted_safe now : safe_edit (sighted now).
Proof. intros r. split; [split_and!; simpl; try done; lia|]. intros []. constructor; simpl; try done. lia. Qed.
Lemma new_ioc_ok b i t ty value a now : mem ty IOC_TYPES = true → value = clean_value ty (ib_value b) →
  nonempty value = true → strip (ib_source b) ≠ "" →
  fl_lt (ib_confidence b) (fl_of_Z 0) = false → fl_lt (fl_of_Z 1) (ib_confidence b) = false →
  ioc_ok (new_ioc b i t ty value a now).
Proof.
  intros Hty%mem_spec -> Hv%nonempty_spec Hs H0 H1. constructor; simpl; try done.
  - split; [done|]. unfold clean_value. case_match; rewrite ?strip_lower, ?strip_idem; done.
  - intros Hd%mem_spec. unfold clean_value. rewrite Hd. apply lower_idem.
  - unfold clamp_ttl. lia.
Qed.

Lemma ioc_lookup t (p : IndicatorOfCompromise → bool) s r :
  scalar_one_or_none (select p (d_indicators s)) = Ok (Some r) → (p r = true → io_tenant_id r = t) →
  has_ioc t (io_id r) s ∧ r ∈ d_indicators s ∧ io_tenant_id r = t ∧ p r = true.
Proof.
  rewrite scalar_one_Some. intros Hr Ht. assert (r ∈ select p (d_indicators s)) as Hin by (rewrite Hr; by left).
  apply elem_of_select in Hin as [Hin Hp]. specialize (Ht Hp). split_and!; try done. by exists r.
Qed.

Section intel_facts.
Context `{Oracle} `{SetOrder}.

Lemma draw_good {A} t (m : M db A) s : (d_indicators (snd (m s)) = d_indicators s) → good t s (snd (m s)).
Proof. apply good_same. Qed.
Lemma upsert_good t b a s : good t s (snd (upsert_ioc t b a s)).
Proof.
  unfold upsert_ioc. set (ty := strip _). set (value := clean_value _ _).
  destruct (mem ty IOC_TYPES) eqn:Hty; [|by apply good_same]. cbn [negb].
  destruct (nonempty value) eqn:Hv; [|by apply good_same].
  destruct (nonempty (strip (ib_source b))) eqn:Hs; [|by apply good_same]. apply nonempty_spec in Hs.
  destruct (fl_lt (ib_confidence b) (fl_of_Z 0)) eqn:Hc0; [by apply good_same|].
  destruct (fl_lt (fl_of_Z 1) (ib_confidence b)) eqn:Hc1; [by apply good_same|]. cbn [negb orb].
  apply good_then; [by apply good_same|]. intros now s1 E1. apply good_then; [by apply good_same|].
  intros existing s2 E2. injection E2 as E2 <-. destruct existing as [r|].
  - apply (ioc_lookup t) in E2 as [Hi _]; [|by intros [[? _]%andb_prop _]%andb_prop; apply String.eqb_eq]. apply good_then; [apply edit_good; [by apply renewed_safe | done]|].
    intros ? s3 _. by apply good_same.
  - apply good_then; [by apply good_same|]. intros i s3 E3. injection E3 as <- <-.
    apply good_then; [|intros ? ? _; by apply good_same]. unfold add_unique.
    destruct (existsb _ _) eqn:Hu; [by apply good_same|]. intros [Hids Hkeys Hrows]. simpl in Hu |- *.
    set (row := new_ioc b _ t ty value a now) in *.
    assert (∀ r, r ∈ d_indicators s1 → same_ioc row r = false) as Hnew.
    { intros r Hr. apply not_true_iff_false. intros Hx. apply not_true_iff_false in Hu. apply Hu, existsb_exists.
      exists r. by rewrite <-list_elem_of_In. }
    assert (∀ r, r ∈ d_indicators s1 → io_id r ≠ io_id row ∧ ioc_key r ≠ ioc_key row) as Hne.
    { intros r Hr. specialize (Hnew r Hr). unfold same_ioc in Hnew. apply orb_false_iff in Hnew as [Hn1 Hn2].
      apply String.eqb_neq in Hn1. split; [congruence|]. unfold ioc_key. intros Hk. injection Hk as K1 K2 K3.
      rewrite K1, K2, K3, !String.eqb_refl in Hn2. done. }
    split.
    + constructor; cbn [set_indicators d_indicators flush_pending].
      * rewrite fmap_app. apply NoDup_snoc; [|exact Hids]. intros (r & Hx & Hr)%list_elem_of_fmap.
        by apply (proj1 (Hne r Hr)).
      * rewrite fmap_app. apply NoDup_snoc; [|exact Hkeys]. intros (r & Hx & Hr)%list_elem_of_fmap.
        by apply (proj2 (Hne r Hr)).
      * intros r [Hr| ->%list_elem_of_singleton]%elem_of_app; [by apply Hrows|]. by apply new_ioc_ok.
    + exists (d_indicators s1), [row]. split_and!; [done | reflexivity | by apply Forall_singleton].
Qed.
Lemma foldM_good {A B} t (f : B → A → M db B) (i : A → string) l b s :
  (∀ b x s, x ∈ l → has_ioc t (i x) s → good t s (snd (f b x s))) → (∀ x, x ∈ l → has_ioc t (i x) s) →
  good t s (snd (foldM f b l s)).
Proof.
  revert b s. induction l as [|x l IH]; intros b s Hf Hl; [by apply good_same|]. simpl. intros Hw.
  apply good_then; [apply Hf; [by left | apply Hl; by left] | | done].
  intros b' s1 E. apply IH; [intros; apply Hf; [by right | done]|]. intros y Hy.
  apply (has_ioc_good t _ s); [done | | apply Hl; by right].
  replace s1 with (snd (f b x s)) by (by rewrite E). apply Hf; [by left | apply Hl; by left].
Qed.
Lemma flush_good t s : good t s (snd (flush s)).
Proof. by apply good_same. Qed.
Lemma expire_good t s : good t s (snd (expire_stale t s)).
Proof.
  unfold expire_stale. apply good_then; [by apply good_same|]. intros now s1 _.
  apply good_then; [by apply good_same|]. intros rows s2 E. injection E as <- <-.
  apply good_then.
  - apply (foldM_good t _ io_id); [intros _ r s' _; apply edit_good, lapsed_safe|].
    intros r [[Hr [Ht _]%andb_prop]%elem_of_select _]%elem_of_select. by apply has_ioc_here.
  - intros ? s3 _. apply good_then; [case_bool_decide; by apply good_same|]. intros. by apply good_same.
Qed.
Lemma deactivate_good t row a s : has_ioc t (io_id row) s → good t s (snd (deactivate_ioc row a s)).
Proof.
  intros Hi. unfold deactivate_ioc. apply good_then; [by apply good_same|]. intros now s1 E1. injection E1 as <- <-.
  apply good_then; [by apply good_same|]. intros now' s2 E2. injection E2 as <- <-.
  apply good_then; [apply edit_good; [apply deactivated_safe | done]|]. intros. by apply good_same.
Qed.
Lemma record_sightings_good t e s : good t s (snd (record_sightings t e s)).
Proof.
  unfold record_sightings. apply good_then; [by apply good_same|]. intros now s1 _.
  apply good_then; [|intros; apply good_then; [case_bool_decide|intros]; by apply good_same].
  generalize (set_iter (candidates e)) as l. intros l. generalize (@nil string) as acc. revert s1.
  induction l as [|c l IH]; intros s1 acc; [by apply good_same|]. simpl.
  apply good_then; [|intros; apply IH]. unfold sight_candidate. apply good_then; [by apply good_same|].
  intros rows s2 E. injection E as <- <-. apply (foldM_good t _ io_id).
  - intros m r s' _ Hr. destruct (expired_at now r); [by apply good_same|].
    apply good_then; [by apply edit_good; [apply sighted_safe|]|]. intros. by apply good_same.
  - intros r [Hr [[Ht _]%andb_prop _]%andb_prop]%elem_of_select. by apply has_ioc_here.
Qed.
Lemma serialize_good t r s : good t s (snd (serialize_ioc r s)).
Proof. by apply good_same. Qed.
Lemma audit_good `{AuthLib} t ty actor rid action target i after s :
  good t s (snd (audit_route ty actor rid action target i after s)).
Proof.
  unfold audit_route, write_audit. do 3 (apply good_then; [by apply good_same|]; intros ? ? _).
  apply good_then; [|intros; by apply good_same]. apply good_same. unfold add_unique. by destruct (existsb _ _).
Qed.
Lemma list_good t b s : good t s (snd (list_iocs t b s)).
Proof. destruct b; by apply good_same. Qed.
Lemma get_good t i s : good t s (snd (get_ioc t i s)).
Proof. unfold get_ioc. apply good_then; [by apply good_same|]. intros [] ? _; by apply good_same. Qed.
Lemma get_ioc_ok t i s row s' : get_ioc t i s = (Ok row, s') →
  s' = s ∧ has_ioc t (io_id row) s ∧ row ∈ d_indicators s ∧ io_tenant_id row = t ∧ io_id row = i.
Proof.
  intros He. unfold get_ioc in He. inv_bind He. destruct a as [r|]; [|discriminate He]. injection He as -> ->.
  injection Ha as Ha <-. apply (ioc_lookup t) in Ha as (Hi & Hr & Ht & [_ Hp%String.eqb_eq]%andb_prop);
    [done | intros [Ht _]%andb_prop; by apply String.eqb_eq].
Qed.
Lemma intel_handler_good `{AuthLib} req rid actor s :
  good (ta_tenant_id actor) s (snd (intel_handler req rid actor s)).
Proof.
  destruct req; simpl.
  - apply good_then; [apply expire_good|]. intros ? s1 _. apply good_then; [apply list_good|]. intros rows s2 _.
    apply good_then; [|intros; by apply good_same]. revert s2. induction rows as [|r rows IH]; intros s2; [by apply good_same|].
    simpl. apply good_then; [by apply good_same|]. intros. apply good_then; [apply IH|]. intros. by apply good_same.
  - apply good_then; [apply upsert_good|]. intros. apply good_then; [apply audit_good|]. intros. by apply good_same.
  - apply good_then; [apply get_good | intros; by apply good_same].
  - apply good_then; [apply get_good|]. intros found s1 (-> & Hi & _)%get_ioc_ok.
    apply good_then; [by apply deactivate_good|]. intros. apply good_then; [apply audit_good|]. intros. by apply good_same.
  - apply good_then; [apply expire_good|]. intros ? s1 _. apply good_then; [apply audit_good|]. intros. by apply good_same.
Qed.

Context `{AuthLib}.
Inductive intel_step : db → db → Prop :=
| intel_served h rid req s : intel_step s (snd (serve_intel h rid req s))
| intel_sighting tenant_id event s : intel_step s (snd (record_sightings tenant_id event s))
| intel_elsewhere s s' : d_indicators s' = d_indicators s → intel_step s s'.

Lemma serve_intel_ok h rid req s d s' : serve_intel h rid req s = (Ok d, s') →
  ∃ actor, authorised h s (ta_tenant_id actor) (intel_permission req) (ta_actor actor) ∧ good (ta_tenant_id actor) s s'.
Proof.
  intros (actor & s1 & Hauth & He & ->)%served_ok. exists actor. split; [done|].
  etrans; [|by apply (good_same _ s1)]. pose proof (intel_handler_good req rid actor s) as Hg. by rewrite He in Hg.
Qed.
Lemma intel_step_good s s' : intel_step s s' → ∃ t, good t s s'.
Proof.
  intros [h rid req s0 | t e s0 | s0 s1 Hs].
  - destruct (serve_intel h rid req s0) as [[d|e] s1] eqn:E; simpl.
    + apply serve_intel_ok in E as (actor & _ & Hg). by eexists.
    + apply served_raise in E. exists "". apply good_same. by rewrite E.
  - exists t. apply record_sightings_good.
  - exists "". by apply good_same.
Qed.

(** C29. The table of indicators over every interleaving of requests, sightings during
    ingestion and unrelated work: identifiers and the triple of tenant, type and value stay
    unique, types are the five supported ones, values are stripped (and lower case for
    domains and addresses), confidences and lifetimes stay in their bounds; no row is lost
    and its key, creation and author never change, and its count of sightings only grows. A
    request that succeeds is by an actor with the permission of the request in its tenant
    and leaves the rows of every other tenant as they were; one that fails leaves no trace. *)
Theorem intel_lifecycle s s' : intel_wf s → rtc intel_step s s' →
  intel_wf s' ∧ (∀ r, r ∈ d_indicators s → ∃ r', r' ∈ d_indicators s' ∧ ioc_kept r r')
  ∧ ∀ h rid req,
    (∀ d s2, serve_intel h rid req s' = (Ok d, s2) → ∃ actor,
       authorised h s' (ta_tenant_id actor) (intel_permission req) (ta_actor actor)
       ∧ intel_delta (ta_tenant_id actor) (d_indicators s') (d_indicators s2))
    ∧ (∀ e s2, serve_intel h rid req s' = (Raise e, s2) → s2 = set_draws (λ _, d_draws s2) s').
Proof.
  intros Hw Hr.
  assert (intel_wf s' ∧ (∀ r, r ∈ d_indicators s → ∃ r', r' ∈ d_indicators s' ∧ ioc_kept r r')) as [Hw' Hk].
  { revert Hw. induction Hr as [s|s1 s2 s3 Hs _ IH]; intros Hw; [split; [done|]; intros r Hr; by exists r|].
    destruct (intel_step_good _ _ Hs) as [t Hg]. destruct (Hg Hw) as [Hw2 (old & new & Hn & Ho & _)].
    destruct (IH Hw2) as [Hw3 Hk]. split; [done|]. intros r Hr. apply (Forall2_in_l _ _ _ _ Ho) in Hr as (r1 & Hr1 & [Hc _]).
    destruct (Hk r1) as (r2 & Hr2 & Hc2); [rewrite Hn; set_solver|]. exists r2. split; [done | by etrans]. }
  split; [done|]. split; [done|]. intros h rid req. split.
  - intros d s2 (actor & Ha & Hg)%serve_intel_ok. exists actor. split; [done | by apply Hg].
  - intros e s2. apply served_raise.
Qed.
End intel_facts.

(** ** Expiry *)

Lemma edit_each f l s : (∀ r, io_id (f r) = io_id r) → NoDup (io_id <$> l) →
  foldM (λ _ r, edit_ioc (io_id r) f) tt l s
  = (Ok tt, set_indicators (map (λ r, if mem (io_id r) (io_id <$> l) then f r else r)) s).
Proof.
  intros Hf. revert s. induction l as [|x l IH]; intros s Hnd.
  { simpl. f_equal. rewrite <-(@table_id _ d_indicators set_indicators _ s) at 1. apply (@table_ext _ d_indicators set_indicators _). symmetry. apply map_id. }
  rewrite fmap_cons in Hnd. apply NoDup_cons in Hnd as [Hx Hnd]. simpl.
  rewrite (M_bind_eval (edit_ioc (io_id x) f) _ s tt _ eq_refl), IH, (@table_set _ d_indicators set_indicators _) by done. f_equal. apply (@table_ext _ d_indicators set_indicators _).
  rewrite map_map. apply map_ext. intros r. destruct (String.eqb_spec (io_id r) (io_id x)) as [He|]; [|done].
  rewrite Hf, He. by rewrite (proj2 (mem_false _ _) Hx).
Qed.
Section expiry.
Context `{Oracle}.
Definition now_of (s : db) : datetime := clock (n_clock (d_draws s)).
Definition ticked (s : db) : db := set_draws (λ _, tick (d_draws s)) s.
Definition stale (t : string) (now : datetime) (r : IndicatorOfCompromise) : bool :=
  (io_tenant_id r =? t)%string && io_active r && expired_at now r.
Lemma expire_eval t s : NoDup (io_id <$> d_indicators s) →
  let rows := select (stale t (now_of s)) (d_indicators s) in
  ∃ s', expire_stale t s = (Ok (Z.of_nat (length rows)), s') ∧ d_draws s' = tick (d_draws s)
    ∧ d_indicators s' = map (λ r, if stale t (now_of s) r then lapsed (now_of s) r else r) (d_indicators s).
Proof.
  intros Hnd rows. unfold expire_stale. rewrite (M_bind_eval utcnow_db _ s (now_of s) (ticked s) eq_refl).
  rewrite (M_bind_eval (gets _) _ (ticked s) _ (ticked s) eq_refl). rewrite select_select. fold (stale t (now_of s)).
  change (d_indicators (ticked s)) with (d_indicators s).
  assert (∀ r, r ∈ d_indicators s → mem (io_id r) (io_id <$> rows) = stale t (now_of s) r) as Hmem.
  { intros r Hr. apply eq_true_iff_eq. rewrite mem_spec, list_elem_of_fmap. split.
    - intros (r' & He & [Hr' Hs]%elem_of_select). by rewrite (NoDup_fmap_eq io_id _ r r' Hnd Hr Hr' He).
    - intros Hs. exists r. split; [done|]. by apply elem_of_select. }
  rewrite (M_bind_eval _ _ _ tt _ (edit_each (lapsed (now_of s)) rows (ticked s) (λ _, eq_refl) (select_NoDup _ _ _ Hnd))).
  fold rows. destruct (bool_decide (rows = [])).
  all: eexists; split; [reflexivity|]; split; [done|]; cbn; apply map_ext_in; intros r Hr; by rewrite Hmem by by apply list_elem_of_In.
Qed.

Definition newest_first (a b : IndicatorOfCompromise) : bool := dt_le (io_updated_at b) (io_updated_at a).
Lemma list_active_eval t s : list_iocs t false s =
  (Ok (sort_by newest_first (select (live_at (now_of s)) (iocs_of t s))), ticked s).
Proof.
  unfold list_iocs. rewrite (M_bind_eval (gets _) _ s _ s eq_refl), (M_bind_eval utcnow_db _ s (now_of s) (ticked s) eq_refl).
  rewrite select_sort_by; [done|..]; intros *; rewrite ?dt_le_spec; [|lia].
  intros Hn. apply not_true_iff_false in Hn. rewrite dt_le_spec in Hn. lia.
Qed.
Lemma expired_later now now' r : instant now ≤ instant now' → expired_at now r = true → expired_at now' r = true.
Proof. unfold expired_at. rewrite !dt_le_spec. lia. Qed.

(** Sweeping is invisible to readers. The sweep always returns; it counts the active
    rows of the tenant past their expiry and leaves no such row, and no other row changes.
    Every list of active indicators, and the map used for enrichment, is the same with the
    sweep as without it, whatever lapse of time follows. *)
Theorem expiry_sweep_transparent t s : clock_increases → NoDup (io_id <$> d_indicators s) →
  ∃ n s1, expire_stale t s = (Ok n, s1)
    ∧ n = Z.of_nat (length (select (stale t (now_of s)) (d_indicators s)))
    ∧ select (stale t (now_of s)) (d_indicators s1) = []
    ∧ (∀ r, r ∈ d_indicators s → stale t (now_of s) r = false → r ∈ d_indicators s1)
    ∧ ∀ d, (n_clock (d_draws s1) ≤ n_clock d)%nat →
      fst (list_iocs t false (set_draws (λ _, d) s1)) = fst (list_iocs t false (set_draws (λ _, d) s))
      ∧ fst (active_intel_map t (set_draws (λ _, d) s1)) = fst (active_intel_map t (set_draws (λ _, d) s)).
Proof.
  intros Hclock Hnd. destruct (expire_eval t s Hnd) as (s1 & E & Hd & Hrows). eexists _, s1. split; [exact E|].
  split; [done|]. split.
  { apply select_nil_iff. intros r Hr. rewrite Hrows in Hr. apply list_elem_of_fmap in Hr as (r0 & -> & _).
    destruct (stale t (now_of s) r0) eqn:E0; [|done]. unfold stale. simpl. by rewrite andb_false_r. }
  split. { intros r Hr Hs. rewrite Hrows. apply list_elem_of_fmap. exists r. by rewrite Hs. }
  intros d Hle.
  assert (select (live_at (clock (n_clock d))) (iocs_of t s1) = select (live_at (clock (n_clock d))) (iocs_of t s)) as Hlive.
  { unfold iocs_of. rewrite !select_select, Hrows. apply select_map_id. intros r _.
    destruct (stale t (now_of s) r) eqn:Es; [|done]. unfold stale in Es.
    apply andb_prop in Es as [[Ht Ha]%andb_prop He]. assert (expired_at (clock (n_clock d)) r = true) as Hx.
    { eapply expired_later; [|exact He]. rewrite Hd in Hle. simpl in Hle. apply Z.lt_le_incl, Hclock. lia. }
    unfold live_at. rewrite Hx. simpl. by rewrite !andb_false_r. }
  unfold active_intel_map. rewrite !(M_bind_eval _ _ _ _ _ (list_active_eval _ _)), !list_active_eval.
  unfold now_of, iocs_of in *. cbn [fst set_draws d_draws d_indicators]. by rewrite Hlive.
Qed.

Lemma select_key_test t ty value l :
  select (λ r, (io_tenant_id r =? t)%string && (io_indicator_type r =? ty)%string && (io_value r =? value)%string) l
  = select (λ r, bool_decide (ioc_key r = (t, ty, value))) l.
Proof.
  apply select_ext. intros r _. apply eq_true_iff_eq. rewrite !andb_true_iff, !String.eqb_eq, bool_decide_eq_true.
  unfold ioc_key. naive_solver.
Qed.

(** Upserting an indicator: it succeeds only with a supported type, a value and a
    source and a confidence in bounds; the row returned has the cleaned type and value, is
    active until the clamped lifetime after the reading of the clock, and is the only row
    stored with its tenant, type and value; an earlier row keeps its identifier and its
    count of sightings; a wrong request is refused with 422 before anything is drawn. *)
Theorem upsert_functional `{SetOrder} t b a s r s' : upsert_ioc t b a s = (r, s') →
  let ty := strip (lower (ib_indicator_type b)) in let value := clean_value ty (ib_value b) in
  let earlier := select (λ x, bool_decide (ioc_key x = (t, ty, value))) (d_indicators s) in
  (negb (mem ty IOC_TYPES) || negb (nonempty value) || negb (nonempty (strip (ib_source b)))
     || fl_lt (ib_confidence b) (fl_of_Z 0) || fl_lt (fl_of_Z 1) (ib_confidence b) = true
   → s' = s ∧ ∃ code message, r = Raise (BlueTeamError code message 422))
  ∧ ∀ row, r = Ok row → ioc_key row = (t, ty, value) ∧ io_active row = true
    ∧ io_expires_at row = dt_add (now_of s) (hours (clamp_ttl (ib_ttl_hours b)))
    ∧ select (λ x, bool_decide (ioc_key x = (t, ty, value))) (d_indicators s') = [row]
    ∧ (io_id <$> earlier = [] ∧ io_sightings row = 0 ∧ io_created_by row = a
       ∨ ∃ old, earlier = [old] ∧ io_id row = io_id old ∧ io_sightings row = io_sightings old).
Proof.
  intros Hup ty value earlier. unfold upsert_ioc in Hup. fold ty in Hup. fold value in Hup.
  split.
  { rewrite !orb_true_iff, !negb_true_iff. intros Hbad.
    destruct (mem ty IOC_TYPES); cbn [negb] in Hup; [|injection Hup as <- <-; split; [done | by eexists _, _]].
    destruct (nonempty value); cbn [negb orb] in Hup; [|injection Hup as <- <-; split; [done | by eexists _, _]].
    destruct (nonempty (strip _)); cbn [negb orb] in Hup; [|injection Hup as <- <-; split; [done | by eexists _, _]].
    destruct (_ || _) eqn:Hc; [injection Hup as <- <-; split; [done | by eexists _, _]|].
    apply orb_false_iff in Hc as [Hc0 Hc1]. rewrite Hc0, Hc1 in Hbad. naive_solver. }
  intros row ->. case_match; [done|]. case_match; [done|]. case_match; [done|].
  inv_bind Hup. injection Ha as <- <-. inv_bind Hup. injection Ha as Ha <-.
  rewrite (select_key_test t ty value) in Ha. cbn [set_draws d_indicators] in Ha. fold earlier in Ha.
  destruct a0 as [old|].
  - apply scalar_one_Some in Ha. inv_bind Hup. injection Ha0 as _ <-. inv_bind Hup. injection Ha0 as _ <-.
    injection Hup as <- <-. assert (old ∈ earlier) as Hold by (rewrite Ha; by left).
    unfold earlier in Hold. apply elem_of_select in Hold as [_ Hk%bool_decide_eq_true].
    split_and!; [exact Hk | done | done | | right; by exists old].
    cbn [flush_pending set_indicators set_draws d_indicators]. rewrite select_map; [fold earlier; rewrite Ha; simpl; by rewrite String.eqb_refl|].
    intros x. by destruct (io_id x =? io_id old)%string.
  - apply scalar_one_None in Ha. inv_bind Hup. injection Ha0 as <- <-. inv_bind Hup.
    apply add_unique_ok in Ha0 as [-> _]. injection Hup as <- <-.
    split_and!; [done..| |left; by rewrite Ha].
    cbn [flush_pending set_indicators set_draws d_indicators]. rewrite select_app. fold earlier. rewrite Ha. simpl. rewrite select_one. by rewrite bool_decide_true.
Qed.
End expiry.

(** ** Sightings *)

Section sightings.
Context `{Oracle} `{SetOrder}.
(** A row after the sightings of a list of identifiers. *)
Definition tally (now : datetime) (ids : list string) (r : IndicatorOfCompromise) : IndicatorOfCompromise :=
  foldl (λ r i, if (io_id r =? i)%string then sighted now r else r) r ids.
Definition meets (t : string) (now : datetime) (candidate : string) (r : IndicatorOfCompromise) : bool :=
  answers t candidate r && negb (expired_at now r).
Lemma tally_snoc now ids i r :
  tally now (ids ++ [i]) r = if (io_id (tally now ids r) =? i)%string then sighted now (tally now ids r) else tally now ids r.
Proof. unfold tally. by rewrite foldl_app. Qed.
Lemma tally_keeps now ids r : io_id (tally now ids r) = io_id r ∧ ioc_key (tally now ids r) = ioc_key r
  ∧ io_active (tally now ids r) = io_active r ∧ io_expires_at (tally now ids r) = io_expires_at r.
Proof.
  induction ids as [|i ids IH] using rev_ind; [done|]. rewrite tally_snoc. by destruct (_ =? i)%string.
Qed.
Lemma tally_meets t now c ids r : answers t c (tally now ids r) = answers t c r
  ∧ expired_at now (tally now ids r) = expired_at now r.
Proof.
  destruct (tally_keeps now ids r) as (_ & Hk & Ha & He). unfold answers, expired_at. rewrite Ha, He.
  injection Hk as -> _ ->. done.
Qed.
Lemma tally_count now ids r :
  io_sightings (tally now ids r) = io_sightings r + Z.of_nat (length (select (String.eqb (io_id r)) ids)).
Proof.
  induction ids as [|i ids IH] using rev_ind; [simpl; lia|]. rewrite tally_snoc, select_app, select_one, length_app.
  rewrite (proj1 (tally_keeps now ids r)). destruct (io_id r =? i)%string; simpl; lia.
Qed.
Lemma sight_rows_eval now rows acc s l : d_indicators s = map (tally now acc) l →
  ∃ s', foldM (λ matched_ids r, if expired_at now r then mret matched_ids
                 else edit_ioc (io_id r) (sighted now);; mret (matched_ids ++ [io_id r])) acc rows s
        = (Ok (acc ++ (io_id <$> select (λ r, negb (expired_at now r)) rows)), s')
    ∧ d_indicators s' = map (tally now (acc ++ (io_id <$> select (λ r, negb (expired_at now r)) rows))) l.
Proof.
  revert acc s. induction rows as [|r rows IH]; intros acc s Hs; simpl.
  { exists s. by rewrite app_nil_r. }
  unfold select in *. rewrite filter_cons. destruct (expired_at now r) eqn:E; simpl.
  - by apply IH.
  - rewrite (M_bind_eval _ _ s (acc ++ [io_id r]) (set_indicators (map (λ r0, if (io_id r0 =? io_id r)%string then sighted now r0 else r0)) s) eq_refl).
    destruct (IH (acc ++ [io_id r]) (set_indicators (map (λ r0, if (io_id r0 =? io_id r)%string then sighted now r0 else r0)) s))
      as (s' & E' & Hs'); [|exists s'; by rewrite E', <-app_assoc in *].
    cbn [set_indicators d_indicators]. rewrite Hs, map_map. apply map_ext. intros r0. by rewrite tally_snoc.
Qed.
Lemma sight_candidate_eval t now c acc s l : d_indicators s = map (tally now acc) l →
  let ids := acc ++ (io_id <$> select (meets t now c) l) in
  ∃ s', sight_candidate t now acc c s = (Ok ids, s') ∧ d_indicators s' = map (tally now ids) l.
Proof.
  intros Hs ids. destruct (sight_rows_eval now (select (answers t c) (d_indicators s)) acc s l Hs) as (s2 & E2 & Hs2).
  assert (io_id <$> select (λ r, negb (expired_at now r)) (select (answers t c) (d_indicators s))
          = io_id <$> select (meets t now c) l) as Hids.
  { rewrite select_select, Hs. rewrite select_map.
    - rewrite <-list_fmap_compose. apply list_fmap_ext. intros i r _. apply tally_keeps.
    - intros r. by destruct (tally_meets t now c acc r) as [-> ->]. }
  rewrite Hids in E2, Hs2. exists s2. split; [|done]. unfold sight_candidate.
  by rewrite (M_bind_eval (gets _) _ s _ s eq_refl).
Qed.
Definition sighted_ids (t : string) (e : CanonicalEvent) (s : db) : list string :=
  mjoin ((λ c, io_id <$> select (meets t (now_of s) c) (d_indicators s)) <$> set_iter (candidates e)).
Lemma record_sightings_eval t e s : ∃ s', record_sightings t e s = (Ok (sighted_ids t e s), s')
  ∧ d_indicators s' = map (tally (now_of s) (sighted_ids t e s)) (d_indicators s).
Proof.
  unfold record_sightings. rewrite (M_bind_eval utcnow_db _ s (now_of s) (ticked s) eq_refl).
  set (now := now_of s). set (l := d_indicators s).
  assert (∀ cs acc s1, d_indicators s1 = map (tally now acc) l →
    let ids := acc ++ mjoin ((λ c, io_id <$> select (meets t now c) l) <$> cs) in
    ∃ s2, foldM (sight_candidate t now) acc cs s1 = (Ok ids, s2) ∧ d_indicators s2 = map (tally now ids) l) as Hloop.
  { intros cs. induction cs as [|c cs IH]; intros acc s1 Hs1; simpl; [exists s1; by rewrite app_nil_r|].
    destruct (sight_candidate_eval t now c acc s1 l Hs1) as (s2 & E2 & Hs2).
    rewrite (M_bind_eval _ _ _ _ _ E2), app_assoc. by apply IH. }
  destruct (Hloop (set_iter (candidates e)) [] (ticked s)) as (s2 & E2 & Hs2); [symmetry; apply map_id|].
  rewrite (M_bind_eval _ _ _ _ _ E2). change (mjoin _) with (sighted_ids t e s). unfold sighted_ids. fold now l. simpl in *.
  destruct (bool_decide _); eexists; (split; [reflexivity | exact Hs2]).
Qed.
Lemma elem_of_sighted_ids `{!SetOrderLaws _} t e s i : i ∈ sighted_ids t e s ↔
  ∃ r c, r ∈ d_indicators s ∧ io_id r = i ∧ c ∈ candidates e ∧ meets t (now_of s) c r = true.
Proof.
  unfold sighted_ids. rewrite list_elem_of_join. split.
  - intros (ids & Hi & (c & -> & Hc)%list_elem_of_fmap). apply list_elem_of_fmap in Hi as (r & -> & [Hr Hm]%elem_of_select).
    rewrite set_iter_perm, elem_of_remove_dups in Hc. by exists r, c.
  - intros (r & c & Hr & <- & Hc & Hm). exists (io_id <$> select (meets t (now_of s) c) (d_indicators s)).
    split; [by apply list_elem_of_fmap_2, elem_of_select|]. apply list_elem_of_fmap. exists c.
    split; [done|]. by rewrite set_iter_perm, elem_of_remove_dups.
Qed.
End sightings.

(** ** A concrete feed *)

#[local] Instance demo_oracle : Oracle :=
  {| uuid_hex := λ n, str_of_nat n; clock := λ n, utc 20000 (3600 * Z.of_nat n) |}.
#[local] Instance demo_order : SetOrder := {| set_iter := remove_dups |}.
#[local] Instance demo_order_laws : SetOrderLaws demo_order.
Proof. by constructor. Qed.
#[local] Instance demo_auth : AuthLib := {|
  jwt_encode := λ _, "t"; bcrypt_check := λ _ _, true;
  jwt_decode := λ t, if (t =? "t")%string then Some [("sub", VStr "usr_1")] else None |}.
Lemma demo_clock_increases : clock_increases.
Proof. intros n m Hnm. unfold instant. simpl. unfold second. lia. Qed.
Definition evil_body (ttl : Z) : IocBody := {|
  ib_indicator_type := " Domain"; ib_value := " EVIL.example "; ib_source := "feed"; ib_confidence := fl_of_decimal false 8 (-1);
  ib_ttl_hours := ttl; ib_malware := None; ib_actor := None; ib_campaign := None; ib_mitre_techniques := [];
  ib_tags := []; ib_provenance := [] |}.
Definition feed_db : db := snd (upsert_ioc "ten_a" (evil_body 0) "usr_1" Access.demo_db).
Example feed_rows : ((λ r, (io_value r, io_ttl_hours r, io_active r)) <$> d_indicators feed_db)
    = [("evil.example", 1, true)]
  ∧ fst (expire_stale "ten_a" feed_db) = Ok 1
  ∧ fst (list_iocs "ten_a" false feed_db) = Ok [].
Proof. vm_compute. auto. Qed.
(** [nan] is neither below 0 nor above 1. *)
Definition nan_body : IocBody := {|
  ib_indicator_type := "ip"; ib_value := "8.8.8.8"; ib_source := "feed"; ib_confidence := S754_nan;
  ib_ttl_hours := 1; ib_malware := None; ib_actor := None; ib_campaign := None; ib_mitre_techniques := [];
  ib_tags := []; ib_provenance := [] |}.
Example nan_accepted : is_ok (fst (upsert_ioc "ten_a" nan_body "usr_1" empty_db)) = true.
Proof. vm_compute. reflexivity. Qed.

Lemma feed_wf : intel_wf Access.demo_db.
Proof. split; [apply NoDup_nil_2 | apply NoDup_nil_2 | by intros ? ?%not_elem_of_nil]. Qed.
Lemma intel_lifecycle_witness : intel_wf (snd (serve_intel (demo_headers None) "req_1" (CreateIoc (evil_body 4)) Access.demo_db)).
Proof.
  exact (proj1 (intel_lifecycle _ _ feed_wf
    (rtc_once _ _ (intel_served (demo_headers None) "req_1" (CreateIoc (evil_body 4)) Access.demo_db)))).
Defined.
Lemma expiry_sweep_transparent_witness : ∃ n s1, expire_stale "ten_a" feed_db = (Ok n, s1)
  ∧ fst (active_intel_map "ten_a" s1) = fst (active_intel_map "ten_a" (set_draws (λ _, d_draws s1) feed_db)).
Proof.
  destruct (expiry_sweep_transparent "ten_a" feed_db demo_clock_increases) as (n & s1 & E & _ & _ & _ & Hd).
  { apply (bool_decide_unpack _). vm_compute. exact I. }
  exists n, s1. split; [exact E|]. destruct (Hd (d_draws s1) (le_n _)) as [_ <-]. by destruct s1.
Defined.
Lemma upsert_functional_witness :
  ∃ row, fst (upsert_ioc "ten_a" (evil_body 0) "usr_1" Access.demo_db) = Ok row ∧ io_active row = true.
Proof.
  destruct (upsert_ioc "ten_a" (evil_body 0) "usr_1" Access.demo_db) as [r s'] eqn:E.
  assert (is_ok (fst (upsert_ioc "ten_a" (evil_body 0) "usr_1" Access.demo_db)) = true) as Hok by (vm_compute; reflexivity).
  rewrite E in Hok. destruct r as [row|e]; [|discriminate Hok]. exists row. split; [reflexivity|].
  exact (proj1 (proj2 (proj2 (upsert_functional "ten_a" (evil_body 0) "usr_1" _ _ _ E) row eq_refl))).
Defined.
