(* ===== verification/Enrichment.v ===== *)
(** * Enrichment

    Models [packages/enrichment/blueteam_enrich/engine.py]: the fixtures, the location of
    an address, and [enrich_event], which assigns to the event it is given. *)
From S2P Require Export Intel NetworkRules.
Local Open Scope Z_scope.

Definition GEOIP_FIXTURES : list (string * list (string * string)) := [
  ("8.8.8.8", [("country", "US"); ("asn", "AS15169"); ("org", "Google")]);
  ("1.1.1.1", [("country", "AU"); ("asn", "AS13335"); ("org", "Cloudflare")]);
  ("203.0.113.77", [("country", "ZZ"); ("asn", "AS64500"); ("org", "TEST-NET-3")]);
  ("198.51.100.10", [("country", "ZZ"); ("asn", "AS64500"); ("org", "TEST-NET-2")]);
  ("203.0.113.10", [("country", "JP"); ("asn", "AS64501"); ("org", "TEST-NET-JP")]);
  ("198.51.100.88", [("country", "BR"); ("asn", "AS64502"); ("org", "TEST-NET-BR")])].
Definition DEFAULT_ASSETS : list (string * list (string * string)) := [
  ("ws-office-01", [("criticality", "high"); ("owner", "finance"); ("role", "workstation")]);
  ("dc-01", [("criticality", "critical"); ("owner", "identity"); ("role", "domain-controller")])].
Definition DEFAULT_DIRECTORY : list (string * list (string * string)) := [
  ("alice", [("id", "usr_alice"); ("department", "finance"); ("type", "human")]);
  ("bob", [("id", "usr_bob"); ("department", "engineering"); ("type", "human")]);
  ("svc-backup", [("id", "usr_svc_backup"); ("department", "platform"); ("type", "service")]);
  ("dormant-admin", [("id", "usr_dormant_admin"); ("department", "it"); ("type", "human");
                     ("dormant", "true"); ("last_login_days", "180")])].
Definition DEFAULT_INTEL : list (string * list (string * string)) := [
  ("198.51.100.10", [("rule_id", "intel.known_c2"); ("type", "ip"); ("confidence", "high")]);
  ("evil.example", [("rule_id", "intel.known_c2"); ("type", "domain"); ("confidence", "high")])].

(** [PRIVATE_NETS]: network address and prefix length. *)
Definition PRIVATE_NETS : list (Z * Z) :=
  [(10 * 2 ^ 24, 8); (172 * 2 ^ 24 + 16 * 2 ^ 16, 12); (192 * 2 ^ 24 + 168 * 2 ^ 16, 16); (127 * 2 ^ 24, 8)].
Definition in_net (ip : Z) (net : Z * Z) : bool :=
  Z.shiftr ip (32 - net.2) =? Z.shiftr net.1 (32 - net.2).

Record EnrichmentResult := {
  en_applied : list string; en_geo : list (string * string); en_asset : list (string * string);
  en_identity : list (string * string); en_intel : list (string * string) }.
Definition str_dict (d : list (string * string)) : pyval := VDict ((λ kv, (kv.1, VStr kv.2)) <$> d).

Definition with_attributes (f : pydict → pydict) (e : CanonicalEvent) : CanonicalEvent := {|
  e_id := e_id e; e_tenant_id := e_tenant_id e; e_timestamp := e_timestamp e; e_ingested_at := e_ingested_at e;
  e_source := e_source e; e_source_type := e_source_type e; e_event_type := e_event_type e;
  e_category := e_category e; e_user := e_user e; e_host := e_host e; e_process := e_process e;
  e_parent_process := e_parent_process e; e_src_ip := e_src_ip e; e_dst_ip := e_dst_ip e;
  e_src_port := e_src_port e; e_dst_port := e_dst_port e; e_protocol := e_protocol e; e_domain := e_domain e;
  e_url := e_url e; e_file := e_file e; e_hash := e_hash e; e_identity := e_identity e;
  e_cloud_resource := e_cloud_resource e; e_action := e_action e; e_outcome := e_outcome e;
  e_severity := e_severity e; e_confidence := e_confidence e; e_risk_score := e_risk_score e;
  e_raw_event := e_raw_event e; e_schema_version := e_schema_version e; e_attributes := f (e_attributes e);
  e_idempotency_key := e_idempotency_key e; e_correlation_id := e_correlation_id e; e_trace_id := e_trace_id e;
  e_raw_hash := e_raw_hash e |}.
Definition with_parties (user : option CanonicalUser) (host : option CanonicalHost)
    (identity : option CanonicalIdentity) (e : CanonicalEvent) : CanonicalEvent := {|
  e_id := e_id e; e_tenant_id := e_tenant_id e; e_timestamp := e_timestamp e; e_ingested_at := e_ingested_at e;
  e_source := e_source e; e_source_type := e_source_type e; e_event_type := e_event_type e;
  e_category := e_category e; e_user := user; e_host := host; e_process := e_process e;
  e_parent_process := e_parent_process e; e_src_ip := e_src_ip e; e_dst_ip := e_dst_ip e;
  e_src_port := e_src_port e; e_dst_port := e_dst_port e; e_protocol := e_protocol e; e_domain := e_domain e;
  e_url := e_url e; e_file := e_file e; e_hash := e_hash e; e_identity := identity;
  e_cloud_resource := e_cloud_resource e; e_action := e_action e; e_outcome := e_outcome e;
  e_severity := e_severity e; e_confidence := e_confidence e; e_risk_score := e_risk_score e;
  e_raw_event := e_raw_event e; e_schema_version := e_schema_version e; e_attributes := e_attributes e;
  e_idempotency_key := e_idempotency_key e; e_correlation_id := e_correlation_id e; e_trace_id := e_trace_id e;
  e_raw_hash := e_raw_hash e |}.
Definition set_attribute (k : string) (v : pyval) : CanonicalEvent → CanonicalEvent := with_attributes (dset k v).

Section enrichment.
Context `{IpLib}.

Definition _geo_for (ip : option string) : list (string * string) :=
  match ip with
  | None => []
  | Some ip =>
      if negb (nonempty ip) then []
      else match dget ip GEOIP_FIXTURES with
      | Some geo => geo
      | None =>
          match ipv4_value ip, ipv6_private ip with
          | Some addr, _ =>
              if existsb (in_net addr) PRIVATE_NETS
              then [("country", "private"); ("asn", "RFC1918"); ("org", "private")] else [("country", "unknown")]
          | None, Some _ => [("country", "unknown")]
          | None, None => [("country", "unknown"); ("reason", "unparseable_ip")]
          end
      end
  end.

Definition geo_of (event : CanonicalEvent) : list (string * string) :=
  match _geo_for (e_src_ip event) with [] => _geo_for (e_dst_ip event) | g => g end.
(** The steps of [enrich_event]: each takes the event and what was applied so far. *)
Definition enrich_geo (r : CanonicalEvent * EnrichmentResult) : CanonicalEvent * EnrichmentResult :=
  let '(event, result) := r in
  match geo_of event with
  | [] => r
  | geo => (set_attribute "geoip" (str_dict geo) event,
          {| en_applied := en_applied result ++ ["geoip"]; en_geo := geo; en_asset := en_asset result;
             en_identity := en_identity result; en_intel := en_intel result |})
  end.
Definition named_only (name : string) : CanonicalHost :=
  {| h_name := Some name; h_id := None; h_os := None; h_ip := None |}.
Definition asset_of (assets : list (string * list (string * string))) (event : CanonicalEvent)
    : option (string * list (string * string)) :=
  host_key ← oor (host_name event) (e_src_ip event);
  if nonempty host_key then pair host_key <$> dget host_key assets else None.
Definition enrich_asset (assets : list (string * list (string * string)))
    (r : CanonicalEvent * EnrichmentResult) : CanonicalEvent * EnrichmentResult :=
  let '(event, result) := r in
  match asset_of assets event with
  | None => r
  | Some (host_key, asset) =>
      let event := set_attribute "asset" (str_dict asset) event in
      let host := default (named_only host_key) (e_host event) in
      let event := with_parties (e_user event) (Some host) (e_identity event) event in
      let event := match dget "role" asset with
                   | Some role => if negb (otrue (h_os host)) && nonempty role
                                  then set_attribute "asset_role" (VStr role) event else event
                   | None => event end in
      (event, {| en_applied := en_applied result ++ ["asset"]; en_geo := en_geo result; en_asset := asset;
                 en_identity := en_identity result; en_intel := en_intel result |})
  end.
Definition known_user (directory : list (string * list (string * string))) (event : CanonicalEvent)
    : option (CanonicalUser * list (string * string)) :=
  u ← e_user event; name ← u_name u; if nonempty name then pair u <$> dget name directory else None.
Definition enrich_identity (directory : list (string * list (string * string)))
    (r : CanonicalEvent * EnrichmentResult) : CanonicalEvent * EnrichmentResult :=
  let '(event, result) := r in
  match known_user directory event with
  | None => r
  | Some (u, known) =>
      let event := set_attribute "directory" (str_dict known)
                     (set_attribute "identity_enrichment" (str_dict known) event) in
      (with_parties
         (Some {| u_name := u_name u; u_id := dget "id" known; u_email := u_email u; u_domain := u_domain u |})
         (e_host event)
         (Some {| i_id := dget "id" known; i_type := dget "type" known; i_provider := Some "directory-fixture" |})
         event,
       {| en_applied := en_applied result ++ ["identity"]; en_geo := en_geo result; en_asset := en_asset result;
          en_identity := known; en_intel := en_intel result |})
  end.
Definition indicators (event : CanonicalEvent) : list (option string) :=
  [e_src_ip event; e_dst_ip event; e_domain event; e_hash event].
Definition intel_hit (intel : list (string * list (string * string))) (event : CanonicalEvent)
    : option (string * list (string * string)) :=
  head (omap (λ o : option string, i ← o; if nonempty i then pair i <$> dget i intel else None) (indicators event)).
Definition enrich_intel (intel : list (string * list (string * string)))
    (r : CanonicalEvent * EnrichmentResult) : CanonicalEvent * EnrichmentResult :=
  let '(event, result) := r in
  match intel_hit intel event with
  | None => r
  | Some (indicator, entry) =>
      let hit := dset "indicator" indicator entry in
      (set_attribute "intel" (str_dict hit) event,
       {| en_applied := en_applied result ++ ["intel"]; en_geo := en_geo result; en_asset := en_asset result;
          en_identity := en_identity result; en_intel := hit |})
  end.
Definition enrich_event (event : CanonicalEvent) (assets directory intel : list (string * list (string * string)))
    : CanonicalEvent * EnrichmentResult :=
  let start := {| en_applied := []; en_geo := []; en_asset := []; en_identity := []; en_intel := [] |} in
  let '(event, result) := enrich_intel intel (enrich_identity directory (enrich_asset assets (enrich_geo (event, start)))) in
  (set_attribute "enrichment_applied" (VStr (join "," (en_applied result))) event, result).
End enrichment.

Definition mapped_fields : list string := [
  "id"; "tenant_id"; "timestamp"; "time"; "@timestamp"; "event_time"; "source"; "source_type"; "event_type"; "type";
  "category"; "user"; "username"; "src_ip"; "dst_ip"; "action"; "outcome"; "adapter"; "schema_version"; "raw_event"].
Definition schema_drift (payload : pydict) (event : CanonicalEvent) : list string :=
  select (λ key, negb (mem key mapped_fields) && negb (dhas key (e_attributes event))) (dkeys payload).

(** ** What enrichment does *)

Section enrichment_facts.
Context `{IpLib} (assets directory intel : list (string * list (string * string))).

Lemma dset_same {A} k (v : A) d : dget k d = Some v → dset k v d = d.
Proof.
  induction d as [|[k' v'] d IH]; simpl; [done|]. destruct (String.eqb_spec k' k) as [->|]; [by intros [= ->]|].
  intros Hd. by rewrite IH.
Qed.
(** The assignments of the steps, as functions of the event. *)
Definition adds (l : pydict) (e : CanonicalEvent) : pydict := foldl (λ d kv, dset kv.1 kv.2 d) (e_attributes e) l.
Definition geo_adds (e : CanonicalEvent) : pydict :=
  match geo_of e with [] => [] | geo => [("geoip", str_dict geo)] end.
Definition asset_host (e : CanonicalEvent) : option CanonicalHost :=
  match asset_of assets e with Some (k, _) => Some (default (named_only k) (e_host e)) | None => e_host e end.
Definition asset_adds (e : CanonicalEvent) : pydict :=
  match asset_of assets e with
  | None => []
  | Some (k, asset) => ("asset", str_dict asset) ::
      match dget "role" asset with
      | Some role => if negb (otrue (h_os (default (named_only k) (e_host e)))) && nonempty role
                     then [("asset_role", VStr role)] else []
      | None => []
      end
  end.
Definition identity_adds (e : CanonicalEvent) : pydict :=
  match known_user directory e with
  | None => []
  | Some (_, known) => [("identity_enrichment", str_dict known); ("directory", str_dict known)]
  end.
Definition known_as (e : CanonicalEvent) : option CanonicalUser * option CanonicalIdentity :=
  match known_user directory e with
  | None => (e_user e, e_identity e)
  | Some (u, known) =>
      (Some {| u_name := u_name u; u_id := dget "id" known; u_email := u_email u; u_domain := u_domain u |},
       Some {| i_id := dget "id" known; i_type := dget "type" known; i_provider := Some "directory-fixture" |})
  end.
Definition intel_adds (e : CanonicalEvent) : pydict :=
  match intel_hit intel e with
  | None => []
  | Some (indicator, entry) => [("intel", str_dict (dset "indicator" indicator entry))]
  end.
Definition result_of (e : CanonicalEvent) : EnrichmentResult := {|
  en_applied := match geo_of e with [] => [] | _ => ["geoip"] end
    ++ match asset_of assets e with None => [] | _ => ["asset"] end
    ++ match known_user directory e with None => [] | _ => ["identity"] end
    ++ match intel_hit intel e with None => [] | _ => ["intel"] end;
  en_geo := geo_of e;
  en_asset := match asset_of assets e with Some (_, a) => a | None => [] end;
  en_identity := match known_user directory e with Some (_, k) => k | None => [] end;
  en_intel := match intel_hit intel e with Some (i, entry) => dset "indicator" i entry | None => [] end |}.
Definition all_adds (e : CanonicalEvent) : pydict :=
  geo_adds e ++ asset_adds e ++ identity_adds e ++ intel_adds e
  ++ [("enrichment_applied", VStr (join "," (en_applied (result_of e))))].
Lemma set_attribute_host k v e : e_host (set_attribute k v e) = e_host e.
Proof. done. Qed.
Ltac reads e := repeat match goal with
  | Ha : (∀ x, _ → _ → asset_of _ x = _) |- context [asset_of _ ?x] =>
      tryif constr_eq x e then fail else rewrite (Ha x eq_refl eq_refl)
  | Hk : (∀ x, _ → known_user _ x = _) |- context [known_user _ ?x] =>
      tryif constr_eq x e then fail else rewrite (Hk x eq_refl)
  | Hi : (∀ x, _ → intel_hit _ x = _) |- context [intel_hit _ ?x] =>
      tryif constr_eq x e then fail else rewrite (Hi x eq_refl)
  end.
(** The steps together: a function of the event. *)
Lemma enrich_eval e : enrich_event e assets directory intel =
  (with_parties (known_as e).1 (asset_host e) (known_as e).2 (with_attributes (λ _, adds (all_adds e) e) e), result_of e).
Proof.
  unfold enrich_event, enrich_geo, enrich_asset, enrich_identity, enrich_intel, all_adds, result_of, asset_host,
    known_as, geo_adds, asset_adds, identity_adds, intel_adds.
  assert (∀ x, e_src_ip x = e_src_ip e → e_host x = e_host e → asset_of assets x = asset_of assets e) as Ha.
  { intros x H1 H2. unfold asset_of, host_name. by rewrite H1, H2. }
  assert (∀ x, e_user x = e_user e → known_user directory x = known_user directory e) as Hk.
  { intros x H1. unfold known_user. by rewrite H1. }
  assert (∀ x, indicators x = indicators e → intel_hit intel x = intel_hit intel e) as Hi.
  { intros x H1. unfold intel_hit. by rewrite H1. }
  destruct (geo_of e) as [|p g]; reads e; (destruct (asset_of assets e) as [[k asset]|];
    [destruct (dget "role" asset) as [role|];
      [rewrite ?set_attribute_host; destruct (negb (otrue (h_os (default (named_only k) (e_host e)))) && nonempty role) |] |]);
    reads e; (destruct (known_user directory e) as [[u known]|]); reads e;
    destruct (intel_hit intel e) as [[i entry]|]; reflexivity.
Qed.

Lemma dget_foldl_other {A} k (l : list (string * A)) d :
  k ∉ dkeys l → dget k (foldl (λ d kv, dset kv.1 kv.2 d) d l) = dget k d.
Proof.
  revert d. induction l as [|[k' v] l IH]; intros d Hk; simpl; [done|]. cbn in Hk. apply not_elem_of_cons in Hk as [Hne Hk].
  rewrite IH by done. by apply dget_dset_ne.
Qed.
Lemma foldl_dset_present {A} (l : list (string * A)) d :
  (∀ k v, (k, v) ∈ l → dget k d = Some v) → foldl (λ d kv, dset kv.1 kv.2 d) d l = d.
Proof.
  induction l as [|[k v] l IH]; intros Hd; simpl; [done|]. rewrite dset_same by (apply Hd; by left).
  apply IH. intros k' v' Hin. apply Hd. by right.
Qed.
Lemma dget_foldl_dset_in {A} (l : list (string * A)) d k v : NoDup (dkeys l) → (k, v) ∈ l →
  dget k (foldl (λ d kv, dset kv.1 kv.2 d) d l) = Some v.
Proof.
  revert d. induction l as [|[k' v'] l IH]; intros d; cbn; [by intros _ ?%not_elem_of_nil|].
  intros [Hk Hnd]%NoDup_cons [[= -> ->]|Hin]%elem_of_cons; [|by apply IH].
  rewrite dget_foldl_other by done. apply dget_dset_eq.
Qed.
Lemma foldl_dset_twice {A} (l : list (string * A)) d : NoDup (dkeys l) →
  foldl (λ d kv, dset kv.1 kv.2 d) (foldl (λ d kv, dset kv.1 kv.2 d) d l) l
  = foldl (λ d kv, dset kv.1 kv.2 d) d l.
Proof. intros Hnd. apply foldl_dset_present. intros k v Hin. by apply dget_foldl_dset_in. Qed.
Lemma all_adds_keys e : NoDup (dkeys (all_adds e)).
Proof.
  unfold all_adds, geo_adds, asset_adds, identity_adds, intel_adds.
  destruct (geo_of e), (asset_of assets e) as [[k asset]|], (known_user directory e) as [[u known]|],
    (intel_hit intel e) as [[i entry]|]; try destruct (dget "role" asset); try destruct (_ && nonempty _);
    apply (bool_decide_unpack _); vm_compute; exact I.
Qed.
Lemma asset_of_key e k asset : asset_of assets e = Some (k, asset) →
  nonempty k = true ∧ oor (host_name e) (e_src_ip e) = Some k ∧ dget k assets = Some asset.
Proof.
  unfold asset_of. destruct (oor _ _) as [x|]; simpl; [|done]. destruct (nonempty x) eqn:Hx; [|done].
  destruct (dget x assets) eqn:Hd; simpl; [|done]. by intros [= -> ->].
Qed.
Lemma known_user_spec e u known : known_user directory e = Some (u, known) →
  e_user e = Some u ∧ ∃ n, u_name u = Some n ∧ nonempty n = true ∧ dget n directory = Some known.
Proof.
  unfold known_user. destruct (e_user e) as [u0|]; simpl; [|done]. destruct (u_name u0) as [n|] eqn:En; simpl; [|done].
  destruct (nonempty n) eqn:Hn; [|done]. destruct (dget n directory) eqn:Ed; simpl; [|done]. intros [= -> ->].
  split; [done|]. by exists n.
Qed.
Lemma known_user_again e : known_user directory (fst (enrich_event e assets directory intel))
  = (λ uk, ({| u_name := u_name uk.1; u_id := dget "id" uk.2; u_email := u_email uk.1; u_domain := u_domain uk.1 |}, uk.2))
    <$> known_user directory e.
Proof.
  rewrite enrich_eval. unfold known_user at 1. cbn [fst with_parties e_user]. unfold known_as.
  destruct (known_user directory e) as [[u known]|] eqn:E; simpl; [|exact E].
  apply known_user_spec in E as (_ & n & En & Hn & Ed). unfold known_user. cbn [e_user]. simpl.
  rewrite En. simpl. by rewrite Hn, Ed.
Qed.
Lemma asset_of_again e : asset_of assets (fst (enrich_event e assets directory intel)) = asset_of assets e.
Proof.
  rewrite enrich_eval. cbn [fst]. destruct (asset_of assets e) as [[k asset]|] eqn:E.
  - destruct (asset_of_key _ _ _ E) as (Hk & Ho & Hd). unfold asset_of, host_name in *.
    cbn [with_parties with_attributes e_host e_src_ip]. unfold asset_host, asset_of, host_name. rewrite Ho. simpl.
    rewrite Hk, Hd. simpl. assert (oor (h_name (default (named_only k) (e_host e))) (e_src_ip e) = Some k) as ->; simpl; [|by rewrite Hk, Hd].
    destruct (e_host e) as [h|]; [exact Ho|]. simpl. unfold oor, otrue. simpl. by rewrite Hk.
  - assert (asset_host e = e_host e) as Hh by (unfold asset_host; by rewrite E).
    unfold asset_of, host_name in *. cbn [with_parties with_attributes e_host e_src_ip]. by rewrite Hh.
Qed.

(** Enriching is idempotent: enriching the enriched event changes nothing and reports
    the same result; and of the event it changes only the attributes, the host when there
    was none, the identity and the user's identifier, never what deduplication, storage
    and the detection rules key on. *)
Theorem enrich_idempotent e : let e1 := fst (enrich_event e assets directory intel) in
  enrich_event e1 assets directory intel = enrich_event e assets directory intel
  ∧ e1 = with_parties (e_user e1) (e_host e1) (e_identity e1) (with_attributes (λ _, e_attributes e1) e)
  ∧ user_name e1 = user_name e ∧ (∀ h, e_host e = Some h → e_host e1 = Some h)
  ∧ (∀ k, k ∉ dkeys (all_adds e) → dget k (e_attributes e1) = dget k (e_attributes e)).
Proof.
  intros e1. pose proof (enrich_eval e) as He. pose proof (known_user_again e) as Hk. pose proof (asset_of_again e) as Ha.
  fold e1 in Hk, Ha. assert (e1 = (enrich_event e assets directory intel).1) as He1 by done. rewrite He in He1. cbn [fst] in He1.
  split_and!.
  - assert (geo_of e1 = geo_of e ∧ intel_hit intel e1 = intel_hit intel e) as [Hg Hi] by (rewrite He1; done).
    assert (asset_host e1 = asset_host e ∧ known_as e1 = known_as e) as [Hah Hka].
    { split.
      - unfold asset_host at 1. rewrite Ha, He1. cbn [with_parties e_host]. unfold asset_host.
        by destruct (asset_of assets e) as [[]|].
      - unfold known_as at 1. rewrite Hk, He1. unfold known_as. by destruct (known_user directory e) as [[]|]. }
    assert (result_of e1 = result_of e) as Hr.
    { unfold result_of. rewrite Hg, Ha, Hk, Hi. by destruct (known_user directory e) as [[]|]. }
    assert (all_adds e1 = all_adds e) as Hadds.
    { unfold all_adds. rewrite Hr. unfold geo_adds, asset_adds, identity_adds, intel_adds. rewrite Hg, Ha, Hk, Hi.
      assert (∀ k asset, asset_of assets e = Some (k, asset) →
        default (named_only k) (e_host e1) = default (named_only k) (e_host e)) as Hd.
      { intros k asset E. rewrite He1. cbn [with_parties e_host]. unfold asset_host. by rewrite E. }
      destruct (asset_of assets e) as [[k asset]|]; [rewrite (Hd k asset eq_refl)|];
        by destruct (known_user directory e) as [[]|]. }
    rewrite (enrich_eval e1), He, Hah, Hka, Hr, Hadds, He1. f_equal.
    unfold adds. cbn [with_parties with_attributes e_attributes]. unfold with_parties, with_attributes. simpl. f_equal.
    apply foldl_dset_twice, all_adds_keys.
  - by rewrite He1.
  - rewrite He1. unfold user_name. cbn [with_parties e_user]. unfold known_as.
    destruct (known_user directory e) as [[u known]|] eqn:E; [|done]. simpl.
    apply known_user_spec in E as [-> _]. done.
  - intros h Hh. rewrite He1. cbn [with_parties e_host]. unfold asset_host. rewrite Hh. by destruct (asset_of assets e) as [[]|].
  - intros k Hn. rewrite He1. by apply dget_foldl_other.
Qed.
End enrichment_facts.
