(* ===== verification/EvidenceLocker.v ===== *)
(** * Evidence and suppressions

    Models [services/api/app/services/evidence.py] and [suppression.py] over the
    session of [Store]. *)
From S2P Require Export Store Hashing.
Local Open Scope Z_scope.

Section evidence.
Context `{Oracle}.

Definition find_evidence (tenant_id : string) (p : Evidence → bool) (s : db) : list Evidence :=
  select (λ e, (ev_tenant_id e =? tenant_id)%string && p e) (d_evidence s).
Definition find_event (tenant_id event_id : string) (s : db) : list SecurityEvent :=
  select (λ e, (se_tenant_id e =? tenant_id)%string && (se_id e =? event_id)%string) (d_events s).
Definition event_source (event_id : string) : string := "event:" +:+ event_id.

Definition custody (action actor_id : string) (at_ : datetime) (hash : option string) : Custody := {|
  cu_id := None; cu_action := action; cu_actor_id := actor_id; cu_timestamp := at_;
  cu_integrity_hash := hash; cu_notes := None |}.

Definition register_event_evidence (tenant_id event_id collector_identity : string) : M db string :=
  s ← get;
  existing ← lift (scalar_one_or_none
    (find_evidence tenant_id (λ e, (ev_source e =? event_source event_id)%string) s));
  match existing with
  | Some row => mret (ev_id row)
  | None =>
      event ← lift (scalar_one_or_none (find_event tenant_id event_id s));
      match event with
      | None => raise (BlueTeamError "EVIDENCE_SOURCE_MISSING"
                         ("event " +:+ event_id +:+ " not found in tenant") 404)
      | Some event =>
          i ← new_id_db "evi";
          now ← utcnow_db;
          t1 ← utcnow_db; t2 ← utcnow_db; t3 ← utcnow_db;
          let row := {|
            ev_id := i; ev_tenant_id := tenant_id; ev_incident_id := None;
            ev_source := event_source event_id; ev_acquisition_method := "ingestion";
            ev_original_timestamp := se_timestamp event; ev_ingested_at := now;
            ev_collector_identity := collector_identity; ev_integrity_hash := se_raw_hash event;
            ev_object_uri := None; ev_parser_version := "canonical-1.0.0";
            ev_transformation_history := TStep <$> ["normalize.generic"; "hash"; "seal"];
            ev_confidence_level := confidence_level_value PRIMARY_TELEMETRY;
            ev_payload_event_id := event_id; ev_payload_raw_hash := se_raw_hash event;
            ev_chain_of_custody := [
              custody "acquired" collector_identity t1 None;
              custody "hashed" "system" t2 (Some (se_raw_hash event));
              custody "sealed" "system" t3 None];
            ev_sealed := true |} in
          modify (set_evidence (λ rows, rows ++ [row]));;
          flush;;
          mret i
      end
  end.

Definition with_custody (chain : list Custody) (e : Evidence) : Evidence := {|
  ev_id := ev_id e; ev_tenant_id := ev_tenant_id e; ev_incident_id := ev_incident_id e;
  ev_source := ev_source e; ev_acquisition_method := ev_acquisition_method e;
  ev_original_timestamp := ev_original_timestamp e; ev_ingested_at := ev_ingested_at e;
  ev_collector_identity := ev_collector_identity e; ev_integrity_hash := ev_integrity_hash e;
  ev_object_uri := ev_object_uri e; ev_parser_version := ev_parser_version e;
  ev_transformation_history := ev_transformation_history e;
  ev_confidence_level := ev_confidence_level e; ev_payload_event_id := ev_payload_event_id e;
  ev_payload_raw_hash := ev_payload_raw_hash e; ev_chain_of_custody := chain;
  ev_sealed := ev_sealed e |}.
(** Assigning to the row the query returned updates the rows with its primary key. *)
Definition update_evidence (evidence_id : string) (f : Evidence → Evidence) : db → db :=
  set_evidence (map (λ e, if (ev_id e =? evidence_id)%string then f e else e)).

Definition append_custody (tenant_id evidence_id actor_id action : string) (notes : option string)
    : M db Custody :=
  s ← get;
  row ← lift (scalar_one_or_none
    (find_evidence tenant_id (λ e, (ev_id e =? evidence_id)%string) s));
  match row with
  | None => raise (NotFoundError "Evidence not found")
  | Some _ =>
      i ← new_id_db "coc";
      now ← utcnow_db;
      let event := {| cu_id := Some i; cu_action := action; cu_actor_id := actor_id;
                      cu_timestamp := now; cu_integrity_hash := None; cu_notes := notes |} in
      modify (update_evidence evidence_id
                (λ e, with_custody (ev_chain_of_custody e ++ [event]) e));;
      flush;;
      mret event
  end.

Definition list_evidence (tenant_id : string) (s : db) : list Evidence :=
  sort_by (λ a b, dt_le (ev_ingested_at b) (ev_ingested_at a)) (find_evidence tenant_id (λ _, true) s).

(** The verdict document: intact with its hash, or not intact. *)
Inductive verdict := Intact (integrity_hash : string) | NotIntact.
Definition verify_evidence (tenant_id evidence_id : string) (s : db) : result verdict :=
  row ← scalar_one_or_none (find_evidence tenant_id (λ e, (ev_id e =? evidence_id)%string) s);
  match row with
  | None => Raise (NotFoundError "Evidence not found")
  | Some row =>
      if startswith (ev_source row) "event:" then
        let event_id := ostr (snd (split_once ":" (ev_source row))) in
        event ← scalar_one_or_none (find_event tenant_id event_id s);
        match event with
        | Some event => if negb (se_raw_hash event =? ev_integrity_hash row)%string
                        then mret NotIntact else mret (Intact (ev_integrity_hash row))
        | None => mret NotIntact
        end
      else mret (Intact (ev_integrity_hash row))
  end.

Definition validate_claim (tenant_id : string) (claim : IncidentClaim) (s : db) : result unit :=
  match validate_evidence_refs claim (ev_id <$> find_evidence tenant_id (λ _, true) s) with
  | Raise (ValueError msg) => Raise (BlueTeamError "INVALID_EVIDENCE_REF" msg 422)
  | r => r
  end.

Definition evidence_manifest_hash (tenant_id : string) (s : db) : string :=
  sha256_hex (canonical_json (VList ((λ row, VDict [
    ("id", VStr (ev_id row)); ("integrity_hash", VStr (ev_integrity_hash row))])
    <$> list_evidence tenant_id s))).

(** ** Suppressions *)

Definition entity_matches (finding : Finding) (key value : string) : bool :=
  let v := ostr (fattr key finding) in nonempty v && (v =? value)%string.
(** [row.expires_at and row.expires_at < now] *)
Definition expired (row : Suppression) (now : datetime) : bool :=
  match su_expires_at row with Some t => dt_lt t now | None => false end.
Definition is_suppressed (tenant_id : string) (finding : Finding) : M db bool :=
  now ← utcnow_db;
  s ← get;
  let rows := select (λ r, (su_tenant_id r =? tenant_id)%string
                           && (su_rule_id r =? fi_rule_id finding)%string) (d_suppressions s) in
  let exceptions := select (λ r, (ex_tenant_id r =? tenant_id)%string
                           && (ex_rule_id r =? fi_rule_id finding)%string) (d_exceptions s) in
  mret (existsb (λ r, negb (expired r now)
                      && entity_matches finding (su_entity_key r) (su_entity_value r)) rows
        || existsb (λ r, entity_matches finding (ex_entity_key r) (ex_entity_value r)) exceptions).

Definition create_suppression (tenant_id rule_id entity_key entity_value reason actor_id : string)
    (expires_at : option datetime) : M db Suppression :=
  i ← new_id_db "sup";
  now ← utcnow_db;
  let row := {| su_id := i; su_tenant_id := tenant_id; su_rule_id := rule_id;
                su_entity_key := entity_key; su_entity_value := entity_value; su_reason := reason;
                su_created_by := actor_id; su_expires_at := expires_at; su_created_at := now |} in
  modify (set_suppressions (λ rows, rows ++ [row]));;
  flush;;
  mret row.
Definition create_exception (tenant_id rule_id entity_key entity_value reason actor_id : string)
    : M db DetectionException :=
  i ← new_id_db "exc";
  now ← utcnow_db;
  let row := {| ex_id := i; ex_tenant_id := tenant_id; ex_rule_id := rule_id;
                ex_entity_key := entity_key; ex_entity_value := entity_value; ex_reason := reason;
                ex_created_by := actor_id; ex_created_at := now |} in
  modify (set_exceptions (λ rows, rows ++ [row]));;
  flush;;
  mret row.
Definition list_suppressions (tenant_id : string) (s : db) : list Suppression :=
  select (λ r, su_tenant_id r =? tenant_id)%string (d_suppressions s).
Definition list_exceptions (tenant_id : string) (s : db) : list DetectionException :=
  select (λ r, ex_tenant_id r =? tenant_id)%string (d_exceptions s).
End evidence.

(** ** The evidence table *)

(** One row per tenant and source, one event per identifier. *)
Definition evidence_inv (s : db) : Prop :=
  NoDup (ev_id <$> d_evidence s)
  ∧ NoDup ((λ e, (ev_tenant_id e, ev_source e)) <$> d_evidence s)
  ∧ NoDup (se_id <$> d_events s).
(** Evidence [i] stands for an event of the tenant, with the hash the event had. *)
Definition backed (s : db) (tenant_id event_id i : string) : Prop :=
  ∃ row, row ∈ d_evidence s ∧ ev_id row = i ∧ ev_tenant_id row = tenant_id
         ∧ ev_source row = event_source event_id ∧ ev_sealed row = true.

Section evidence_facts.
Context `{O : Oracle} {laws : OracleLaws O}.

(** Evidence identifiers were drawn from the oracle. *)
Definition evidence_drawn (s : db) : Prop :=
  ∀ e, e ∈ d_evidence s → ∃ n, (n < n_uuid (d_draws s))%nat ∧ ev_id e = "evi_" +:+ uuid_hex n.
Definition locker_inv (s : db) : Prop := evidence_inv s ∧ evidence_drawn s.

Lemma find_evidence_source s t e row :
  evidence_inv s → row ∈ d_evidence s → ev_tenant_id row = t → ev_source row = event_source e →
  find_evidence t (λ x, (ev_source x =? event_source e)%string) s = [row].
Proof.
  intros (Hid & Hts & _) Hin Ht Hs. apply (select_unique ev_id); try done.
  - rewrite Ht, Hs, !String.eqb_refl. done.
  - intros y Hy Hp. py_bool. f_equal.
    apply (NoDup_fmap_eq (λ e, (ev_tenant_id e, ev_source e)) (d_evidence s)); try done. congruence.
Qed.
Lemma find_evidence_id s t row :
  evidence_inv s → row ∈ d_evidence s → ev_tenant_id row = t →
  find_evidence t (λ x, (ev_id x =? ev_id row)%string) s = [row].
Proof.
  intros (Hid & _ & _) Hin Ht. apply (select_unique ev_id); try done.
  - rewrite Ht, !String.eqb_refl. done.
  - intros y _ Hp. by py_bool.
Qed.
Lemma find_event_id s t x :
  evidence_inv s → x ∈ d_events s → se_tenant_id x = t → find_event t (se_id x) s = [x].
Proof.
  intros (_ & _ & He) Hin Ht. apply (select_unique se_id); try done.
  - rewrite Ht, !String.eqb_refl. done.
  - intros y _ Hp. by py_bool.
Qed.

(** One registration: the evidence returned stands for the event; nothing else about the
    evidence or the events changes. *)
Record registered (t e i : string) (s s' : db) : Prop := {
  rg_inv : locker_inv s';
  rg_backed : ∃ row, row ∈ d_evidence s' ∧ ev_id row = i ∧ ev_tenant_id row = t
    ∧ ev_source row = event_source e
    ∧ (row ∈ d_evidence s
       ∨ ∃ x, x ∈ d_events s ∧ se_id x = e ∧ se_tenant_id x = t
              ∧ ev_integrity_hash row = se_raw_hash x ∧ ev_sealed row = true);
  rg_kept : ∀ row, row ∈ d_evidence s → row ∈ d_evidence s';
  rg_events : d_events s' = d_events s;
  rg_rows : ∀ row, row ∈ d_evidence s' → row ∈ d_evidence s ∨ ev_id row = i;
}.

Lemma registered_step s s' row :
  locker_inv s →
  d_evidence s' = d_evidence s ++ [row] → d_events s' = d_events s →
  n_uuid (d_draws s') = S (n_uuid (d_draws s)) → ev_id row = "evi_" +:+ uuid_hex (n_uuid (d_draws s)) →
  (∀ e, e ∈ d_evidence s → (ev_tenant_id e, ev_source e) ≠ (ev_tenant_id row, ev_source row)) →
  locker_inv s'.
Proof.
  intros [(Hid & Hts & He) Hdr] Hev Hevs Hn Hrow Hnew. split; [split_and!|].
  - rewrite Hev, fmap_app. apply NoDup_app. split_and!; [done | | apply NoDup_singleton].
    intros x (e & -> & Hin)%list_elem_of_fmap Hx. apply list_elem_of_singleton in Hx.
    destruct (Hdr e Hin) as (n & Hlt & Heq). rewrite Hx, Hrow in Heq.
    apply (app_inj_length "evi_" _ "evi_") in Heq as [_ Heq]; [|done].
    apply uuid_hex_inj in Heq. lia.
  - rewrite Hev, fmap_app. apply NoDup_app. split_and!; [done | | apply NoDup_singleton].
    intros x (e & -> & Hin)%list_elem_of_fmap Hx. apply list_elem_of_singleton in Hx.
    by apply (Hnew e Hin).
  - by rewrite Hevs.
  - intros e. rewrite Hev, Hn. intros [Hin|Hin]%elem_of_app.
    + destruct (Hdr e Hin) as (n & ? & ?). exists n. split; [lia | done].
    + apply list_elem_of_singleton in Hin as ->. eexists. split; [|done]. lia.
Qed.

Lemma register_event_evidence_spec t e c s r s' :
  locker_inv s → register_event_evidence t e c s = (r, s') →
  match r with
  | Ok i => registered t e i s s'
  | Raise _ => s' = s
  end.
Proof.
  intros Hinv Hr. unfold register_event_evidence, get in Hr. unfold mbind at 1, M_bind at 1 in Hr.
  unfold lift in Hr. unfold mbind at 1, M_bind at 1 in Hr.
  destruct (scalar_one_or_none (find_evidence _ _ _)) as [[row|]|ex] eqn:Hf; [| |by injection Hr as <- <-].
  - injection Hr as <- <-. apply scalar_one_Some in Hf.
    assert (row ∈ [row]) as Hin by left. rewrite <-Hf in Hin. apply elem_of_select in Hin as [Hin Hp].
    py_bool. constructor; try done; [by exists row; auto 10 | by left].
  - apply scalar_one_None in Hf. unfold mbind at 1, M_bind at 1 in Hr.
    destruct (scalar_one_or_none (find_event _ _ _)) as [[x|]|ex] eqn:Hx; [| |by injection Hr as <- <-];
      [|by injection Hr as <- <-].
    apply scalar_one_Some in Hx. assert (x ∈ [x]) as Hin by left. rewrite <-Hx in Hin.
    apply elem_of_select in Hin as [Hin Hp]. py_bool.
    apply pair_inj in Hr as [<- Hs'].
    assert (locker_inv s') as Hinv'.
    { rewrite <-Hs'. eapply (registered_step s); [done | reflexivity.. |].
      simpl. intros y Hy [= Hyt Hys]. unfold find_evidence in Hf.
      rewrite select_nil_iff in Hf. specialize (Hf y Hy). cbv beta in Hf.
      rewrite Hyt, Hys, !String.eqb_refl in Hf. discriminate. }
    subst s'.
    constructor; [exact Hinv' | | | done |].
    + eexists. split; [apply elem_of_app; right; by left|]. split_and!; try done.
      right. by exists x.
    + intros y Hy. apply elem_of_app. by left.
    + intros y [Hy|Hy]%elem_of_app; [by left|]. apply list_elem_of_singleton in Hy as ->. by right.
Qed.

Lemma split_event_source e : split_once ":" (event_source e) = ("event", Some e).
Proof. reflexivity. Qed.

(** Registering evidence for an event works once and verifies: in a database whose
    rows have unique identifiers and whose evidence hashes match their events, a
    registration that returns leaves evidence of that tenant and event which
    [verify_evidence] reports intact with the hash of the event, keeps every other row,
    and a second registration by anybody returns the same identifier and changes
    nothing. *)
Theorem evidence_registered_and_intact t e c s i s' :
  locker_inv s →
  (∀ row x, row ∈ d_evidence s → x ∈ d_events s → ev_tenant_id row = se_tenant_id x →
     ev_source row = event_source (se_id x) → ev_integrity_hash row = se_raw_hash x) →
  (∃ x, x ∈ d_events s ∧ se_id x = e ∧ se_tenant_id x = t) →
  register_event_evidence t e c s = (Ok i, s') →
  (∃ x, x ∈ d_events s ∧ se_id x = e ∧ se_tenant_id x = t
        ∧ verify_evidence t i s' = Ok (Intact (se_raw_hash x)))
  ∧ (∀ row, row ∈ d_evidence s → row ∈ d_evidence s')
  ∧ ∀ c', register_event_evidence t e c' s' = (Ok i, s').
Proof.
  intros Hinv Hmatch (x & Hx & He & Ht) Hr.
  pose proof (register_event_evidence_spec _ _ _ _ _ _ Hinv Hr) as [Hinv' Hb Hk Hev _].
  destruct Hb as (row & Hrow & Hid & Htr & Hsrc & Hwhere).
  assert (ev_integrity_hash row = se_raw_hash x) as Hhash.
  { destruct Hwhere as [Hold|(y & Hy & Hye & Hyt & Hh & _)].
    - apply (Hmatch row x); congruence.
    - rewrite Hh. f_equal. destruct Hinv as [(_ & _ & Hnd) _].
      apply (NoDup_fmap_eq se_id (d_events s)); congruence. }
  split; [|split; [done|]].
  - exists x. split_and!; try done. unfold verify_evidence. rewrite <-Hid.
    rewrite (find_evidence_id s' t row (proj1 Hinv') Hrow Htr). unfold mbind, result_bind.
    cbn [scalar_one_or_none]. rewrite Hsrc.
    assert (startswith (event_source e) "event:" = true) as -> by apply prefix_app.
    rewrite split_event_source. change (ostr (snd ("event", Some e))) with e.
    assert (x ∈ d_events s') as Hx' by (by rewrite Hev).
    rewrite <-He, (find_event_id s' t x (proj1 Hinv') Hx' Ht). simpl.
    by rewrite Hhash, String.eqb_refl.
  - intros c'. unfold register_event_evidence, get, lift. unfold mbind at 1, M_bind at 1.
    rewrite (find_evidence_source s' t e row (proj1 Hinv') Hrow Htr Hsrc).
    unfold mbind at 1, M_bind at 1. simpl. by rewrite Hid.
Qed.

(** Verification compares two stored copies of the hash and never hashes anything:
    rewriting the payloads, the raw contents and every other field of the stored events
    except their identity and their hash column, and the whole custody chain of the
    evidence, leaves the verdict on every piece of evidence as it was. *)
Theorem verify_evidence_ignores_payload t i s (f : SecurityEvent → SecurityEvent)
    (chain : Evidence → list Custody) :
  (∀ x, se_id (f x) = se_id x ∧ se_tenant_id (f x) = se_tenant_id x ∧ se_raw_hash (f x) = se_raw_hash x) →
  verify_evidence t i (set_events (map f) (set_evidence (map (λ e, with_custody (chain e) e)) s))
  = verify_evidence t i s.
Proof.
  intros Hf. unfold verify_evidence, find_evidence, find_event.
  assert (∀ (p : Evidence → bool) l, (∀ e, p (with_custody (chain e) e) = p e) →
    select p (map (λ e, with_custody (chain e) e) l) = map (λ e, with_custody (chain e) e) (select p l)) as He.
  { intros p l Hp. unfold select. induction l as [|e l IH]; simpl; [done|].
    rewrite !filter_cons, Hp, IH. by case_decide. }
  assert (∀ (p : SecurityEvent → bool) l, (∀ x, p (f x) = p x) →
    select p (map f l) = map f (select p l)) as Hx.
  { intros p l Hp. unfold select. induction l as [|x l IH]; simpl; [done|].
    rewrite !filter_cons, Hp, IH. by case_decide. }
  simpl. rewrite He by done. destruct (select _ (d_evidence s)) as [|row [|row' rows]]; simpl; try done.
  destruct (startswith _ _); [|done].
  rewrite Hx by (intros x; destruct (Hf x) as (-> & -> & _); done).
  destruct (select _ (d_events s)) as [|x [|x' xs]]; simpl; try done.
  by destruct (Hf x) as (_ & _ & ->).
Qed.
End evidence_facts.

(** ** A concrete registration *)

#[local] Instance demo_oracle : Oracle :=
  {| uuid_hex := λ n, str_of_nat n; clock := λ n, utc 20000 (Z.of_nat n) |}.
#[local] Instance demo_laws : OracleLaws demo_oracle.
Proof. constructor. intros a b Hab. apply str_of_Z_inj in Hab. lia. Defined.
Definition demo_event : SecurityEvent := {|
  se_id := "evt_1"; se_tenant_id := "ten_a"; se_timestamp := utc 20000 0;
  se_ingested_at := utc 20000 0; se_source := "s"; se_source_type := "t"; se_event_type := "login";
  se_category := "authentication"; se_action := None; se_outcome := None; se_src_ip := None;
  se_user_name := None; se_idempotency_key := None; se_raw_hash := "h";
  se_payload := blank_event "evt_1" "ten_a" (utc 20000 0) |}.
Definition demo_db : db := set_events (λ _, [demo_event]) empty_db.
Definition demo_registered : result string * db := register_event_evidence "ten_a" "evt_1" "usr_1" demo_db.

Lemma evidence_registered_and_intact_witness :
  (∃ x, x ∈ d_events demo_db ∧ se_id x = "evt_1" ∧ se_tenant_id x = "ten_a"
        ∧ verify_evidence "ten_a" "evi_0" (snd demo_registered) = Ok (Intact (se_raw_hash x)))
  ∧ (∀ row, row ∈ d_evidence demo_db → row ∈ d_evidence (snd demo_registered))
  ∧ ∀ c', register_event_evidence "ten_a" "evt_1" c' (snd demo_registered)
          = (Ok "evi_0", snd demo_registered).
Proof.
  refine (evidence_registered_and_intact "ten_a" "evt_1" "usr_1" demo_db "evi_0" (snd demo_registered)
            _ _ _ _).
  - split; [split_and!; [constructor | constructor | apply NoDup_singleton]|].
    intros e He. by apply not_elem_of_nil in He.
  - intros row x Hrow. by apply not_elem_of_nil in Hrow.
  - exists demo_event. split_and!; [by left | reflexivity | reflexivity].
  - vm_compute. reflexivity.
Defined.

Lemma verify_evidence_ignores_payload_witness :
  verify_evidence "ten_a" "evi_0"
    (set_events (map (λ x, {| se_id := se_id x; se_tenant_id := se_tenant_id x;
        se_timestamp := utc 1 1; se_ingested_at := utc 1 1; se_source := "forged"; se_source_type := "";
        se_event_type := ""; se_category := ""; se_action := None; se_outcome := None; se_src_ip := None;
        se_user_name := None; se_idempotency_key := None; se_raw_hash := se_raw_hash x;
        se_payload := blank_event "forged" "ten_b" (utc 1 1) |}))
      (set_evidence (map (λ e, with_custody [] e)) (snd demo_registered)))
  = verify_evidence "ten_a" "evi_0" (snd demo_registered).
Proof.
  exact (verify_evidence_ignores_payload "ten_a" "evi_0" (snd demo_registered) _ (λ _, [])
           (λ x, conj eq_refl (conj eq_refl eq_refl))).
Defined.
