(* ===== verification/DetectionService.v ===== *)
(** * Detection service

    Models [services/api/app/services/detection.py] and [load_window] of
    [ingestion.py]: the catalogue evaluated over the stored window, findings stored with
    their evidence and alerts. The registry is that of [Catalog]. *)
From S2P Require Export Catalog EvidenceLocker.
Local Open Scope Z_scope.

Definition load_window (tenant_id : string) (s : db) : list CanonicalEvent :=
  se_payload <$> sort_by (λ a b, dt_le (se_timestamp a) (se_timestamp b))
                   (select (λ r, se_tenant_id r =? tenant_id)%string (d_events s)).
Definition list_findings (tenant_id : string) (s : db) : list FindingRecord :=
  sort_by (λ a b, dt_le (fr_created_at b) (fr_created_at a))
    (select (λ r, fr_tenant_id r =? tenant_id)%string (d_findings s)).
Definition list_alerts (tenant_id : string) (s : db) : list Alert :=
  sort_by (λ a b, dt_le (al_created_at b) (al_created_at a))
    (select (λ r, al_tenant_id r =? tenant_id)%string (d_alerts s)).

(** [finding.id.replace("fnd_", "alt_", 1)] for an id that starts with "fnd_". *)
Definition alert_id (finding_id : string) : string :=
  if startswith finding_id "fnd_" then "alt_" +:+ str_drop 4 finding_id else finding_id.

Definition add_pending_finding (r : FindingRecord) : db → db := set_pend_findings (λ l, l ++ [r]).
Definition add_pending_alert (r : Alert) : db → db := set_pend_alerts (λ l, l ++ [r]).

(** [db.flush()] where findings are pending: [uq_finding_fingerprint] refuses two of one
    tenant with one fingerprint. The pending findings are those of one evaluation, whose
    flush at its end meets them all; an exception before it is not caught either. *)
Definition same_finding (a b : FindingRecord) : bool :=
  (fr_tenant_id a =? fr_tenant_id b)%string && (fr_fingerprint a =? fr_fingerprint b)%string.
Fixpoint clashing (stored new : list FindingRecord) : bool :=
  match new with [] => false | r :: rest => existsb (same_finding r) stored || clashing (stored ++ [r]) rest end.
Definition flush_findings : M db unit := λ s,
  if clashing (d_findings s) (d_pend_findings s)
  then (Raise (OtherError "IntegrityError: UNIQUE constraint failed"), s) else flush s.
Lemma flush_findings_ok s u s' : flush_findings s = (Ok u, s') →
  s' = flush_pending s ∧ clashing (d_findings s) (d_pend_findings s) = false.
Proof. unfold flush_findings. destruct (clashing _ _); [done|]. by intros [= _ <-]. Qed.

Definition drawing_db {A} (m : M draws A) : M db A := λ s,
  let '(r, d) := m (d_draws s) in (r, set_draws (λ _, d) s).

Section service.
Context `{Oracle} (registry : DetectionRegistry).

Definition same_fingerprint (tenant_id fingerprint : string) (s : db) : list FindingRecord :=
  select (λ r, (fr_tenant_id r =? tenant_id)%string && (fr_fingerprint r =? fingerprint)%string)
    (d_findings s).

Definition finding_record (tenant_id : string) (finding : Finding) (evidence_ids : list string)
    : FindingRecord := {|
  fr_id := fi_id finding; fr_tenant_id := tenant_id; fr_rule_id := fi_rule_id finding;
  fr_rule_version := fi_rule_version finding; fr_title := fi_title finding;
  fr_severity := fi_severity finding; fr_confidence := fi_confidence finding;
  fr_fingerprint := fi_fingerprint finding; fr_explanation := fi_explanation finding;
  fr_mitre_techniques := fi_mitre_techniques finding; fr_event_ids := fi_event_ids finding;
  fr_evidence_ids := evidence_ids; fr_payload := finding; fr_created_at := fi_created_at finding |}.
Definition finding_alert (tenant_id : string) (finding : Finding) : Alert := {|
  al_id := alert_id (fi_id finding); al_tenant_id := tenant_id; al_finding_id := fi_id finding;
  al_title := fi_title finding; al_severity := severity_str (fi_severity finding);
  al_status := "open"; al_created_at := fi_created_at finding |}.

(** One finding of the loop. *)
Definition store_one (tenant_id actor_id : string) (acc : Z * DetectionContext) (finding : Finding)
    : M db (Z * DetectionContext) :=
  let '(created, context) := acc in
  suppressed ← is_suppressed tenant_id finding;
  if suppressed : bool then mret acc
  else
    s ← get;
    existing ← lift (scalar_one_or_none (same_fingerprint tenant_id (fi_fingerprint finding) s));
    match existing with
    | Some _ => mret acc
    | None =>
        evidence_ids ← mapM' (λ e, register_event_evidence tenant_id e actor_id) (fi_event_ids finding);
        modify (add_pending_finding (finding_record tenant_id finding evidence_ids));;
        modify (add_pending_alert (finding_alert tenant_id finding));;
        mret (created + 1, open_fingerprint (fi_fingerprint finding) context)
    end.

Definition evaluate_and_store_findings (tenant_id : string) (event : CanonicalEvent)
    (context : DetectionContext) (actor_id : string) : M db (Z * DetectionContext) :=
  findings ← drawing_db (evaluate_registry registry event context);
  acc ← foldM (store_one tenant_id actor_id) (0, context) findings;
  flush_findings;;
  mret acc.

Definition open_fingerprints (tenant_id : string) (s : db) : list string :=
  fr_fingerprint <$> select (λ r, fr_tenant_id r =? tenant_id)%string (d_findings s).
Definition service_context (tenant_id : string) (scheduled : bool) (s : db) : DetectionContext := {|
  dc_window := load_window tenant_id s; dc_open_fingerprints := open_fingerprints tenant_id s;
  dc_scheduled := scheduled |}.

Definition evaluate_and_store (tenant_id : string) (event : CanonicalEvent) (actor_id : string)
    : M db Z :=
  context ← gets (service_context tenant_id false);
  fst <$> evaluate_and_store_findings tenant_id event context actor_id.

Definition run_scheduled (tenant_id actor_id : string) : M db Z :=
  context ← gets (service_context tenant_id true);
  fst <$> foldM (λ acc event,
             let '(created, context) := acc in
             nc ← evaluate_and_store_findings tenant_id event context actor_id;
             mret (created + fst nc, snd nc))
            (0, context) (dc_window context).

(** [catalogue()] *)
Definition catalogue : list pydict :=
  (λ rule, let m := dr_meta rule in [
     ("rule_id", VStr (rm_rule_id m)); ("name", VStr (rm_name m)); ("version", VStr (rm_version m));
     ("severity", VStr (severity_str (rm_severity m)));
     ("mitre_techniques", VList (VStr <$> rm_mitre_techniques m)); ("status", VStr (rm_status m));
     ("execution", VStr (rm_execution m)); ("description", VStr (rm_description m))])
  <$> all_rules registry.
End service.

(** ** What is stored *)

(** The findings of the session, flushed or not. *)
Definition all_findings (s : db) : list FindingRecord := d_findings s ++ d_pend_findings s.
Definition all_alerts (s : db) : list Alert := d_alerts s ++ d_pend_alerts s.

Lemma all_findings_flush s : all_findings (flush_pending s) = all_findings s.
Proof. unfold all_findings. simpl. apply app_nil_r. Qed.
Lemma all_alerts_flush s : all_alerts (flush_pending s) = all_alerts s.
Proof. unfold all_alerts. simpl. apply app_nil_r. Qed.

(** A stored finding: of the tenant, with one piece of sealed evidence for each of its
    events, in order. *)
Definition evidenced (s : db) (t : string) (r : FindingRecord) : Prop :=
  fr_tenant_id r = t
  ∧ Forall2 (λ e i, ∃ row, row ∈ d_evidence s ∧ ev_id row = i ∧ ev_tenant_id row = t
                           ∧ ev_source row = event_source e) (fr_event_ids r) (fr_evidence_ids r).
(** An open alert for each stored finding, in order. *)
Definition alerted (t : string) (rs : list FindingRecord) (als : list Alert) : Prop :=
  Forall2 (λ r a, al_finding_id a = fr_id r ∧ al_tenant_id a = t ∧ al_status a = "open") rs als.

Section service_facts.
Context `{O : Oracle} {laws : OracleLaws O} (registry : DetectionRegistry).

(** A step that only adds evidence. *)
Record extends (s s' : db) : Prop := {
  ex_inv : locker_inv s → locker_inv s';
  ex_kept : ∀ row, row ∈ d_evidence s → row ∈ d_evidence s';
  ex_events : d_events s' = d_events s;
  ex_findings : all_findings s' = all_findings s;
  ex_alerts : all_alerts s' = all_alerts s;
  ex_stored : ∀ r, r ∈ d_findings s → r ∈ d_findings s';
}.
Lemma extends_refl s : extends s s.
Proof. by constructor. Qed.
Lemma extends_trans s1 s2 s3 : extends s1 s2 → extends s2 s3 → extends s1 s3.
Proof. intros [] []. constructor; eauto; congruence. Qed.

Lemma locker_inv_frame s s' :
  d_evidence s' = d_evidence s → d_events s' = d_events s →
  (n_uuid (d_draws s) ≤ n_uuid (d_draws s'))%nat → locker_inv s → locker_inv s'.
Proof.
  intros He Hv Hn [(H1 & H2 & H3) Hd]. split; [unfold evidence_inv; by rewrite He, Hv|].
  intros e. rewrite He. intros Hin. destruct (Hd e Hin) as (n & ? & ?). exists n. split; [lia | done].
Qed.

Lemma register_frame t e c s r s' :
  register_event_evidence t e c s = (r, s') →
  all_findings s' = all_findings s ∧ all_alerts s' = all_alerts s
  ∧ (∀ r, r ∈ d_findings s → r ∈ d_findings s').
Proof.
  unfold register_event_evidence, get, lift. unfold mbind at 1, M_bind at 1.
  unfold mbind at 1, M_bind at 1.
  destruct (scalar_one_or_none (find_evidence _ _ _)) as [[row|]|ex]; [by intros [= <- <-] | |by intros [= <- <-]].
  unfold mbind at 1, M_bind at 1.
  destruct (scalar_one_or_none (find_event _ _ _)) as [[x|]|ex]; [| by intros [= <- <-] ..].
  intros [<- <-]%pair_inj. split_and!.
  - etrans; [apply all_findings_flush | done].
  - etrans; [apply all_alerts_flush | done].
  - intros y Hy. simpl. apply elem_of_app. by left.
Qed.

Lemma register_all_spec t c es s r s' :
  locker_inv s → mapM' (λ e, register_event_evidence t e c) es s = (r, s') →
  extends s s' ∧
  match r with
  | Ok ids => Forall2 (λ e i, ∃ row, row ∈ d_evidence s' ∧ ev_id row = i ∧ ev_tenant_id row = t
                              ∧ ev_source row = event_source e) es ids
  | Raise _ => True
  end.
Proof.
  revert s r s'. induction es as [|e es IH]; intros s r s' Hinv Hm; simpl in Hm.
  { injection Hm as <- <-. split; [apply extends_refl | constructor]. }
  unfold mbind at 1, M_bind at 1 in Hm.
  destruct (register_event_evidence t e c s) as [[i|ex] s1] eqn:Hr.
  - pose proof (register_event_evidence_spec _ _ _ _ _ _ Hinv Hr) as [Hi Hb Hk Hev _].
    destruct (register_frame _ _ _ _ _ _ Hr) as (Hf & Ha & Hst).
    assert (extends s s1) as Hx by (by constructor).
    unfold mbind at 1, M_bind at 1 in Hm.
    destruct (mapM' _ es s1) as [[ids|ex] s2] eqn:Hm2; injection Hm as <- <-;
      destruct (IH _ _ _ Hi Hm2) as [Hx2 Hids]; (split; [by eapply extends_trans|]); [|done].
    constructor; [|done]. destruct Hb as (row & Hrow & Hid & Ht & Hs & _). exists row.
    split_and!; try done. by apply (ex_kept _ _ Hx2).
  - injection Hm as <- <-. pose proof (register_event_evidence_spec _ _ _ _ _ _ Hinv Hr) as ->.
    split; [apply extends_refl | done].
Qed.

Lemma is_suppressed_frame t f s r s' :
  is_suppressed t f s = (r, s') → extends s s' ∧ d_findings s' = d_findings s.
Proof.
  unfold is_suppressed, utcnow_db, utcnow, get, mbind, M_bind, mret, M_ret. intros [= <- <-].
  by split; [constructor|].
Qed.

(** What one finding of the loop, and then the loop, adds. *)
Record stored (t : string) (n : Z) (rs : list FindingRecord) (s s' : db) : Prop := {
  sd_inv : locker_inv s';
  sd_kept : ∀ row, row ∈ d_evidence s → row ∈ d_evidence s';
  sd_events : d_events s' = d_events s;
  sd_findings : all_findings s' = all_findings s ++ rs;
  sd_count : n = Z.of_nat (length rs);
  sd_alerts : ∃ als, all_alerts s' = all_alerts s ++ als ∧ alerted t rs als;
  sd_evidenced : Forall (evidenced s' t) rs;
  sd_new : Forall (λ r, ∀ r', r' ∈ d_findings s → fr_tenant_id r' = t → fr_fingerprint r' ≠ fr_fingerprint r) rs;
  sd_stored : ∀ r, r ∈ d_findings s → r ∈ d_findings s';
}.

Lemma evidenced_mono s s' t r :
  (∀ row, row ∈ d_evidence s → row ∈ d_evidence s') → evidenced s t r → evidenced s' t r.
Proof.
  intros Hk [Ht Hf]. split; [done|]. eapply Forall2_impl; [exact Hf|]. simpl.
  intros e i (row & ? & ?). exists row. auto.
Qed.

Lemma stored_trans t n1 n2 r1 r2 s1 s2 s3 :
  stored t n1 r1 s1 s2 → stored t n2 r2 s2 s3 → stored t (n1 + n2) (r1 ++ r2) s1 s3.
Proof.
  intros [A1 A2 A3 A4 A5 (als1 & A6 & A6') A7 A8 A9] [B1 B2 B3 B4 B5 (als2 & B6 & B6') B7 B8 B9].
  constructor; auto.
  - congruence.
  - by rewrite B4, A4, app_assoc.
  - rewrite length_app. lia.
  - exists (als1 ++ als2). split; [by rewrite B6, A6, app_assoc | by apply Forall2_app].
  - apply Forall_app. split; [|done]. eapply Forall_impl; [exact A7|]. intros r. by apply evidenced_mono.
  - apply Forall_app. split; [done|]. eapply Forall_impl; [exact B8|]. simpl. eauto.
Qed.

Lemma stored_extends t s s' : locker_inv s → extends s s' → stored t 0 [] s s'.
Proof.
  intros Hi []. constructor; auto; [by rewrite app_nil_r | exists []; by rewrite app_nil_r; split; [|constructor]].
Qed.

Lemma store_one_spec t actor acc f s acc' s' :
  locker_inv s → store_one t actor acc f s = (Ok acc', s') →
  ∃ n rs, stored t n rs s s' ∧ fst acc' = fst acc + n.
Proof.
  intros Hi Hs. destruct acc as [created ctx]. unfold store_one in Hs. inv_bind Hs.
  destruct (is_suppressed_frame _ _ _ _ _ Ha) as [Hx Hfs]. destruct a.
  { injection Hs as <- <-. exists 0, []. split; [by apply stored_extends | simpl; lia]. }
  inv_bind Hs. injection Ha0 as <- <-. inv_bind Hs. injection Ha0 as Hex <-.
  destruct a as [r|].
  { injection Hs as <- <-. exists 0, []. split; [by apply stored_extends | simpl; lia]. }
  apply scalar_one_None in Hex. inv_bind Hs. pose proof (ex_inv _ _ Hx Hi) as Hi1.
  destruct (register_all_spec _ _ _ _ _ _ Hi1 Ha0) as [Hx1 Hids].
  injection Hs as <- <-. pose proof (extends_trans _ _ _ Hx Hx1) as [E1 E2 E3 E4 E5 E6].
  exists 1, [finding_record t f a]. split; [|done]. constructor; auto.
  - rewrite <-E4. unfold all_findings. simpl. by rewrite app_assoc.
  - exists [finding_alert t f]. split; [|by constructor].
    rewrite <-E5. unfold all_alerts. simpl. by rewrite app_assoc.
  - apply Forall_singleton. split; [done|]. simpl. done.
  - apply Forall_singleton. simpl. intros r' Hr' Ht Hf.
    unfold same_fingerprint in Hex. rewrite select_nil_iff in Hex. rewrite <-Hfs in Hr'.
    specialize (Hex r' Hr'). cbv beta in Hex. rewrite Ht, Hf, !String.eqb_refl in Hex. discriminate.
Qed.

Lemma store_all_spec t actor fs acc s acc' s' :
  locker_inv s → foldM (store_one t actor) acc fs s = (Ok acc', s') →
  ∃ n rs, stored t n rs s s' ∧ fst acc' = fst acc + n.
Proof.
  revert acc s. induction fs as [|f fs IH]; intros acc s Hi Hf; simpl in Hf.
  { injection Hf as <- <-. exists 0, []. split; [by apply stored_extends, extends_refl | lia]. }
  inv_bind Hf. destruct (store_one_spec _ _ _ _ _ _ _ Hi Ha) as (n1 & r1 & H1 & E1).
  destruct (IH _ _ (sd_inv _ _ _ _ _ H1) Hf) as (n2 & r2 & H2 & E2).
  exists (n1 + n2), (r1 ++ r2). split; [by eapply stored_trans | lia].
Qed.

(** C9. Findings are stored with their evidence: whenever the service evaluates an event
    and returns, the number it returns is the number of finding records it added; every
    added record belongs to the tenant, has a fingerprint no finding of the tenant had
    before, cites for each of its events, in order, an evidence row of the tenant about
    that event, and has its own open alert. Evidence and events that were there are
    kept. *)
Theorem stored_findings_evidenced t event ctx actor s n ctx' s' :
  Forall RuleSound (all_rules registry) → locker_inv s →
  evaluate_and_store_findings registry t event ctx actor s = (Ok (n, ctx'), s') →
  ∃ rs, stored t n rs s s' ∧ d_pend_findings s' = [] ∧ d_pend_alerts s' = [].
Proof.
  intros Hr Hi He. unfold evaluate_and_store_findings in He. inv_bind He.
  assert (extends s s0) as Hx.
  { unfold drawing_db in Ha. destruct (evaluate_registry _ _ _ _) as [r d] eqn:Hev.
    injection Ha as -> <-. constructor; try done. apply locker_inv_frame; try done. simpl.
    by eapply evaluate_registry_draws. }
  inv_bind He. pose proof (ex_inv _ _ Hx Hi) as Hi0.
  destruct (store_all_spec _ _ _ _ _ _ _ Hi0 Ha0) as (n' & rs & Hst & Hn).
  inv_bind He. apply flush_findings_ok in Ha1 as [-> _]. injection He as -> <-. simpl in Hn. exists rs. split; [|done].
  pose proof (stored_trans _ _ _ _ _ _ _ _ (stored_extends t s s0 Hi Hx) Hst) as Hall.
  simpl in Hall. rewrite Z.add_0_l in Hn. subst n'. destruct Hall as [B1 B2 B3 B4 B5 B6 B7 B8 B9].
  constructor; auto.
  - by rewrite all_findings_flush.
  - by rewrite all_alerts_flush.
  - intros r Hr'. simpl. apply elem_of_app. left. auto.
Qed.
End service_facts.

(** ** A concrete burst of failed logins *)

#[local] Instance demo_oracle : Oracle :=
  {| uuid_hex := λ n, str_of_nat n; clock := λ n, utc 20000 (3600 + Z.of_nat n) |}.
#[local] Instance demo_laws : OracleLaws demo_oracle.
Proof. constructor. intros a b Hab. apply str_of_Z_inj in Hab. lia. Defined.
#[local] Instance demo_ip : IpLib := {| ipv6_private := λ _, None |}.

Definition event_row (tenant : string) (e : CanonicalEvent) : SecurityEvent := {|
  se_id := e_id e; se_tenant_id := tenant; se_timestamp := e_timestamp e;
  se_ingested_at := e_ingested_at e; se_source := e_source e; se_source_type := e_source_type e;
  se_event_type := e_event_type e; se_category := e_category e; se_action := e_action e;
  se_outcome := e_outcome e; se_src_ip := e_src_ip e; se_user_name := user_name e;
  se_idempotency_key := None; se_raw_hash := "h_" +:+ e_id e; se_payload := e |}.
Definition burst_db (n : nat) : db :=
  set_events (λ _, event_row "ten_a" <$> burst n) empty_db.
Definition demo_registry : DetectionRegistry := build_default_registry [].
Definition demo_store : result (Z * DetectionContext) * db :=
  evaluate_and_store_findings demo_registry "ten_a" (failed_login 7)
    (service_context "ten_a" false (burst_db 8)) "usr_1" (burst_db 8).
Example burst_stored :
  (fst <$> fst demo_store) = Ok 1
  ∧ (fr_rule_id <$> d_findings (snd demo_store)) = ["identity.brute_force"]
  ∧ length (d_evidence (snd demo_store)) = 8%nat ∧ length (d_alerts (snd demo_store)) = 1%nat.
Proof. vm_compute. auto. Qed.

Lemma burst_locker : locker_inv (burst_db 8).
Proof.
  split; [split_and!; [constructor | constructor |]|].
  - apply (bool_decide_unpack _). vm_compute. exact I.
  - intros e He. by apply not_elem_of_nil in He.
Qed.

Definition demo_context : DetectionContext :=
  match fst demo_store with Ok (_, c) => c | Raise _ => service_context "ten_a" false empty_db end.
Lemma stored_findings_evidenced_witness :
  ∃ rs, stored "ten_a" 1 rs (burst_db 8) (snd demo_store)
        ∧ d_pend_findings (snd demo_store) = [] ∧ d_pend_alerts (snd demo_store) = [].
Proof.
  refine (stored_findings_evidenced demo_registry "ten_a" (failed_login 7)
    (service_context "ten_a" false (burst_db 8)) "usr_1" (burst_db 8) 1 demo_context (snd demo_store)
    _ burst_locker _).
  - apply all_rules_build. rewrite app_nil_r. apply python_rules_sound.
  - vm_compute. reflexivity.
Defined.
