(* ===== verification/GraphService.v ===== *)
(** * The stored entity graph

    Models [services/api/app/services/graph.py] and the routes of [api/graph.py]: the
    graph of [EntityGraph] projected into the tables of a tenant, and the criticality an
    analyst sets. *)
From S2P Require Export EntityGraph Routes DetectionService.
Local Open Scope Z_scope.

Definition component_dict (c : RiskComponent) : pyval := VDict [
  ("source", VStr (rc_source c)); ("kind", VStr (rc_kind c)); ("points", VFloat (rc_points c));
  ("explanation", VStr (rc_explanation c))].
Definition entity_row (e : GraphEntity) : EntityRecord := {|
  er_id := ge_id e; er_tenant_id := ge_tenant_id e; er_entity_type := entity_type_str (ge_entity_type e);
  er_key := ge_key e; er_display_name := ge_display_name e; er_criticality := ge_criticality e;
  er_risk_score := ge_risk_score e; er_risk_components := component_dict <$> ge_risk_components e;
  er_event_ids := ge_event_ids e; er_finding_ids := ge_finding_ids e; er_first_seen := ge_first_seen e;
  er_last_seen := ge_last_seen e; er_attributes := ge_attributes e |}.
Definition relationship_row (r : GraphRelationship) : RelationshipRecord := {|
  rl_id := gr_id r; rl_tenant_id := gr_tenant_id r; rl_src_id := gr_src_id r; rl_dst_id := gr_dst_id r;
  rl_relation := relation_str (gr_relation r); rl_event_ids := gr_event_ids r; rl_manufactured := false |}.

(** The primary key and the unique constraint of each table. *)
Definition same_entity (a b : EntityRecord) : bool :=
  (er_id a =? er_id b)%string
  || ((er_tenant_id a =? er_tenant_id b)%string && (er_entity_type a =? er_entity_type b)%string
      && (er_key a =? er_key b)%string).
Definition same_relationship (a b : RelationshipRecord) : bool :=
  (rl_id a =? rl_id b)%string
  || ((rl_tenant_id a =? rl_tenant_id b)%string && (rl_src_id a =? rl_src_id b)%string
      && (rl_relation a =? rl_relation b)%string && (rl_dst_id a =? rl_dst_id b)%string).

Definition entities_of (tenant_id : string) (s : db) : list EntityRecord :=
  select (λ r, er_tenant_id r =? tenant_id)%string (d_entities s).
Definition relationships_of (tenant_id : string) (s : db) : list RelationshipRecord :=
  select (λ r, rl_tenant_id r =? tenant_id)%string (d_relationships s).

(** [_replace]: the rows of the tenant are deleted, then those of the graph added. *)
Definition delete_graph (tenant_id : string) (s : db) : db :=
  set_entities (select (λ r, negb (er_tenant_id r =? tenant_id)%string))
    (set_relationships (select (λ r, negb (rl_tenant_id r =? tenant_id)%string)) s).
Definition _replace (tenant_id : string) (graph : EntityGraph) : M db unit :=
  modify (delete_graph tenant_id);;
  flush;;
  add_rows d_entities set_entities same_entity entity_row (eg_entities graph);;
  add_rows d_relationships set_relationships same_relationship relationship_row (eg_relationships graph);;
  flush.

Record graph_stats := { gt_entities : Z; gt_relationships : Z; gt_manufactured_edges : bool }.
(** [{row.id: row.criticality ..}] *)
Definition stored_criticality (tenant_id : string) (s : db) : list (string * string) :=
  foldl (λ d r, dset (er_id r) (er_criticality r) d) [] (entities_of tenant_id s).
Definition tenant_graph (tenant_id : string) (events : list CanonicalEvent) (s : db) : EntityGraph :=
  build_graph events (fr_payload <$> select (λ r, fr_tenant_id r =? tenant_id)%string (d_findings s))
    (stored_criticality tenant_id s).
Definition project_graph (tenant_id : string) (events : list CanonicalEvent) : M db graph_stats :=
  graph ← gets (tenant_graph tenant_id events);
  _replace tenant_id graph;;
  mret {| gt_entities := Z.of_nat (length (eg_entities graph));
          gt_relationships := Z.of_nat (length (eg_relationships graph));
          gt_manufactured_edges := eg_manufactured_edges graph |}.

Definition list_entities (tenant_id : string) (s : db) : list EntityRecord :=
  sort_by (λ a b, fl_le (er_risk_score b) (er_risk_score a)) (entities_of tenant_id s).
Definition list_relationships (tenant_id : string) (s : db) : list RelationshipRecord :=
  relationships_of tenant_id s.
Definition get_entity (tenant_id i : string) : M db (option EntityRecord) := λ s,
  (scalar_one_or_none (select (λ r, (er_tenant_id r =? tenant_id)%string && (er_id r =? i)%string) (d_entities s)), s).

Definition CRITICALITIES : list string := ["unknown"; "low"; "medium"; "high"; "crown_jewel"].
Definition row_criticality (c : string) (r : EntityRecord) : EntityRecord := {|
  er_id := er_id r; er_tenant_id := er_tenant_id r; er_entity_type := er_entity_type r; er_key := er_key r;
  er_display_name := er_display_name r; er_criticality := c; er_risk_score := er_risk_score r;
  er_risk_components := er_risk_components r; er_event_ids := er_event_ids r;
  er_finding_ids := er_finding_ids r; er_first_seen := er_first_seen r; er_last_seen := er_last_seen r;
  er_attributes := er_attributes r |}.
Definition set_criticality (tenant_id i criticality : string) : M db (option EntityRecord) :=
  found ← get_entity tenant_id i;
  match found with
  | None => mret None
  | Some row =>
      if negb (mem criticality CRITICALITIES) then raise (ValueError "unsupported criticality")
      else
        modify (set_entities (map (λ r, if (er_id r =? er_id row)%string then row_criticality criticality r else r)));;
        flush;;
        mret (Some (row_criticality criticality row))
  end.

Definition serialize_entity (row : EntityRecord) : pydict := [
  ("id", VStr (er_id row)); ("entity_type", VStr (er_entity_type row)); ("key", VStr (er_key row));
  ("display_name", VStr (er_display_name row)); ("criticality", VStr (er_criticality row));
  ("risk_score", VFloat (er_risk_score row)); ("risk_components", VList (er_risk_components row));
  ("event_ids", VList (VStr <$> er_event_ids row)); ("finding_ids", VList (VStr <$> er_finding_ids row));
  ("first_seen", VStr (isoformat (er_first_seen row))); ("last_seen", VStr (isoformat (er_last_seen row)))].
Definition serialize_rel (row : RelationshipRecord) : pydict := [
  ("id", VStr (rl_id row)); ("src_id", VStr (rl_src_id row)); ("dst_id", VStr (rl_dst_id row));
  ("relation", VStr (rl_relation row)); ("event_ids", VList (VStr <$> rl_event_ids row));
  ("manufactured", VBool (rl_manufactured row))].

(** ** Routes *)

Section graph_routes.
Context `{Oracle}.

Definition graph (actor : TenantActor) : M db pydict :=
  s ← get;
  mret [("tenant_id", VStr (ta_tenant_id actor)); ("manufactured_edges", VBool false);
        ("entities", VList ((λ r, VDict (serialize_entity r)) <$> list_entities (ta_tenant_id actor) s));
        ("relationships", VList ((λ r, VDict (serialize_rel r)) <$> list_relationships (ta_tenant_id actor) s))].
Definition entities (actor : TenantActor) : M db pydict :=
  s ← get;
  mret [("items", VList ((λ r, VDict (serialize_entity r)) <$> list_entities (ta_tenant_id actor) s))].
Definition entity_detail (i : string) (actor : TenantActor) : M db pydict :=
  found ← get_entity (ta_tenant_id actor) i;
  match found with
  | None => raise (BlueTeamError "NOT_FOUND" "Entity not found" 404)
  | Some row =>
      s ← get;
      let neighbors := select (λ r, (rl_src_id r =? i)%string || (rl_dst_id r =? i)%string)
                         (list_relationships (ta_tenant_id actor) s) in
      mret (serialize_entity row ++ [("neighbors", VList ((λ r, VDict (serialize_rel r)) <$> neighbors))])
  end.
Definition stats_dict (st : graph_stats) : pydict := [
  ("entities", VInt (gt_entities st)); ("relationships", VInt (gt_relationships st));
  ("manufactured_edges", VBool (gt_manufactured_edges st))].
Definition project_window (tenant_id : string) : M db graph_stats :=
  events ← gets (load_window tenant_id);
  project_graph tenant_id events.
Definition rebuild_graph (actor : TenantActor) : M db pydict :=
  stats ← project_window (ta_tenant_id actor);
  audit_actor actor "graph.rebuild" "entity_graph" None (Some (stats_dict stats));;
  mret (stats_dict stats).
Definition update_criticality (i criticality : string) (actor : TenantActor) : M db pydict :=
  row ← (λ s, match set_criticality (ta_tenant_id actor) i criticality s with
              | (Raise (ValueError m), s') => (Raise (BlueTeamError "GRAPH_INVALID" m 422), s')
              | r => r end);
  match row with
  | None => raise (BlueTeamError "NOT_FOUND" "Entity not found" 404)
  | Some _ =>
      project_window (ta_tenant_id actor);;
      updated ← get_entity (ta_tenant_id actor) i;
      audit_actor actor "graph.criticality" "entity" (Some i) (Some [("criticality", VStr criticality)]);;
      match updated with
      | None => raise (OtherError "AssertionError")
      | Some row => mret (serialize_entity row)
      end
  end.
End graph_routes.

(** ** What projecting does *)

(** The tables once the tenant's graph is replaced. *)
Definition projected (t : string) (G : EntityGraph) (s : db) : db :=
  set_relationships (λ rows, select (λ r, negb (rl_tenant_id r =? t)%string) rows ++ (relationship_row <$> eg_relationships G))
    (set_entities (λ rows, select (λ r, negb (er_tenant_id r =? t)%string) rows ++ (entity_row <$> eg_entities G))
      (flush_pending s)).

Lemma project_graph_ok t events s st s' :
  project_graph t events s = (Ok st, s') →
  let G := tenant_graph t events s in
  s' = projected t G s ∧ gt_entities st = Z.of_nat (length (eg_entities G))
  ∧ gt_relationships st = Z.of_nat (length (eg_relationships G)).
Proof.
  intros He G. unfold project_graph in He. inv_bind He. injection Ha as <- <-. inv_bind He.
  injection He as <- <-. fold G in Ha |- *. simpl. split_and!; try done.
  unfold _replace in Ha. inv_bind Ha. injection Ha0 as <- <-. inv_bind Ha. injection Ha0 as <- <-.
  inv_bind Ha. apply (add_rows_ok _ _ _ _ _ _ _ _ (flush_idem _)) in Ha0 as ->.
  inv_bind Ha. apply (add_rows_ok d_relationships set_relationships) in Ha0 as ->;
    [|by rewrite table_flush, flush_idem].
  injection Ha as <- <-. unfold projected. rewrite !table_flush, flush_idem. done.
Qed.

Lemma entity_type_str_inj a b : entity_type_str a = entity_type_str b → a = b.
Proof. by destruct a, b. Qed.
Lemma relation_str_inj a b : relation_str a = relation_str b → a = b.
Proof. by destruct a, b. Qed.
Lemma NoDup_split_ne {A} (f : A → string) l pre a mid b post :
  NoDup (f <$> l) → l = pre ++ a :: mid ++ b :: post → f b ≠ f a.
Proof.
  intros Hnd ->. rewrite fmap_app, fmap_cons, fmap_app, fmap_cons in Hnd.
  apply NoDup_app in Hnd as (_ & _ & [Hn _]%NoDup_cons). intros Hf. apply Hn. rewrite <-Hf. set_solver.
Qed.

Section observed_rows.
Context (t : string) (events : list CanonicalEvent) (G : EntityGraph)
  (Hobs : observed t events (eg_entities G) (eg_relationships G)).

(** An identifier is determined by the columns of the unique constraint. *)
Lemma observed_entity_id a b : a ∈ eg_entities G → b ∈ eg_entities G →
  ge_entity_type a = ge_entity_type b → ge_key a = ge_key b → ge_id a = ge_id b.
Proof.
  intros (_ & (ev & n & _ & _ & Ia & Ta & Ka) & _)%(ob_entity _ _ _ _ Hobs)
         (_ & (ev' & n' & _ & _ & Ib & Tb & Kb) & _)%(ob_entity _ _ _ _ Hobs) Ht Hk.
  rewrite Ia, Ib. unfold node_id, entity_id. rewrite <-Ta, <-Tb, Ht, <-Ka, <-Kb, Hk. done.
Qed.
Lemma observed_relationship_id a : a ∈ eg_relationships G →
  gr_id a = relationship_id t (gr_src_id a) (gr_relation a) (gr_dst_id a).
Proof.
  intros (_ & _ & _ & (ev & d & _ & _ & -> & -> & -> & ->) & _)%(ob_relationship _ _ _ _ Hobs). done.
Qed.
Lemma entity_rows_distinct pre a mid b post : eg_entities G = pre ++ a :: mid ++ b :: post →
  same_entity (entity_row b) (entity_row a) = false.
Proof.
  intros Hl. pose proof (NoDup_split_ne ge_id _ _ _ _ _ _ (proj1 (ob_ids _ _ _ _ Hobs)) Hl) as Hne.
  unfold same_entity. simpl. apply orb_false_iff. split; [by apply String.eqb_neq|].
  apply not_true_iff_false. rewrite !andb_true_iff, !String.eqb_eq. intros [[_ Ht] Hk].
  apply Hne. apply observed_entity_id; [rewrite Hl; set_solver.. | by apply entity_type_str_inj | done].
Qed.
Lemma relationship_rows_distinct pre a mid b post : eg_relationships G = pre ++ a :: mid ++ b :: post →
  same_relationship (relationship_row b) (relationship_row a) = false.
Proof.
  intros Hl. pose proof (NoDup_split_ne gr_id _ _ _ _ _ _ (proj2 (ob_ids _ _ _ _ Hobs)) Hl) as Hne.
  unfold same_relationship. simpl. apply orb_false_iff. split; [by apply String.eqb_neq|].
  apply not_true_iff_false. rewrite !andb_true_iff, !String.eqb_eq. intros [[[_ Hs] Hr%relation_str_inj] Hd].
  apply Hne. rewrite !observed_relationship_id by (rewrite Hl; set_solver). by rewrite Hs, Hr, Hd.
Qed.
End observed_rows.

(** No row of another tenant has an identifier of the graph. *)
Definition graph_ids_free (t : string) (G : EntityGraph) (s : db) : Prop :=
  (∀ r, r ∈ d_entities s → er_tenant_id r ≠ t → er_id r ∉ ge_id <$> eg_entities G)
  ∧ (∀ r, r ∈ d_relationships s → rl_tenant_id r ≠ t → rl_id r ∉ gr_id <$> eg_relationships G).
Lemma not_same_foreign t r (row : string) : negb (row =? t)%string = true → (t =? row)%string && r = false.
Proof. rewrite negb_true_iff, String.eqb_neq. intros Hn. rewrite (proj2 (String.eqb_neq _ _)); [done | congruence]. Qed.

(** Replacing the rows of one tenant. *)
Lemma replaced_rows {A B} (tenant : B → string) (row : A → B) t u (rows : list B) (l : list A) :
  (∀ e, e ∈ l → tenant (row e) = t) →
  select (λ r, tenant r =? u)%string (select (λ r, negb (tenant r =? t)%string) rows ++ (row <$> l))
  = if (u =? t)%string then row <$> l else select (λ r, tenant r =? u)%string rows.
Proof.
  intros Hl. rewrite select_app, select_select.
  assert (select (λ r, tenant r =? u)%string (row <$> l) = if (u =? t)%string then row <$> l else []) as ->.
  { induction l as [|e l IH]; [by destruct (u =? t)%string|]. rewrite fmap_cons. unfold select in *.
    rewrite filter_cons, IH by (intros; apply Hl; by right). simpl. rewrite (Hl e) by by left.
    rewrite (String.eqb_sym t u). by destruct (u =? t)%string. }
  destruct (String.eqb_spec u t) as [->|Hne].
  - rewrite (proj2 (select_nil_iff _ _)); [done|]. intros r _. by destruct (tenant r =? t)%string.
  - rewrite app_nil_r. apply select_ext. intros r _. destruct (String.eqb_spec (tenant r) u) as [Hu|]; [|by rewrite andb_false_r].
    by rewrite Hu, (proj2 (String.eqb_neq _ _) Hne).
Qed.


Section projection.
Context (t : string) (events : list CanonicalEvent) (s : db).
Context (Hev : ∀ e, e ∈ events → e_tenant_id e = t).
Local Abbreviation G := (tenant_graph t events s).

Lemma tenant_graph_observed : observed (eg_tenant_id G) events (eg_entities G) (eg_relationships G).
Proof. apply build_graph_observed. Qed.
Lemma tenant_graph_tenant ev : ev ∈ events → eg_tenant_id G = t.
Proof.
  intros Hin. destruct events as [|e rest]; [by apply not_elem_of_nil in Hin|]. apply Hev. by left.
Qed.
Lemma graph_entity_tenant e : e ∈ eg_entities G → ge_tenant_id e = t.
Proof.
  intros (-> & (ev & _ & Hin & _) & _)%(ob_entity _ _ _ _ tenant_graph_observed). by eapply tenant_graph_tenant.
Qed.
Lemma graph_relationship_tenant r : r ∈ eg_relationships G → gr_tenant_id r = t.
Proof.
  intros (-> & _ & _ & (ev & _ & Hin & _) & _)%(ob_relationship _ _ _ _ tenant_graph_observed).
  by eapply tenant_graph_tenant.
Qed.

Lemma add_entities_total : graph_ids_free t G s →
  ∃ s', add_rows d_entities set_entities same_entity entity_row (eg_entities G)
          (flush_pending (delete_graph t s)) = (Ok tt, s').
Proof.
  intros [He _]. apply (add_rows_total d_entities set_entities); [apply flush_idem | |].
  - intros a r Ha. simpl. rewrite elem_of_select. intros [Hin Hf]. unfold same_entity. simpl.
    apply orb_false_iff. split; [|rewrite (graph_entity_tenant a Ha), <-andb_assoc; by apply not_same_foreign].
    apply String.eqb_neq. intros Hid. apply (He r Hin); [by apply String.eqb_neq, negb_true_iff|].
    rewrite <-Hid. by apply list_elem_of_fmap_2.
  - intros pre a mid b post. apply (entity_rows_distinct _ _ _ tenant_graph_observed).
Qed.
Lemma add_relationships_total s1 : graph_ids_free t G s → flush_pending s1 = s1 →
  d_relationships s1 = select (λ r, negb (rl_tenant_id r =? t)%string) (d_relationships s) →
  ∃ s', add_rows d_relationships set_relationships same_relationship relationship_row (eg_relationships G) s1
        = (Ok tt, s').
Proof.
  intros [_ Hr] Hs1 Hrows. apply (add_rows_total d_relationships set_relationships); [done| |].
  - intros a r Ha. rewrite Hrows, elem_of_select. intros [Hin Hf]. unfold same_relationship. simpl.
    apply orb_false_iff. split; [|rewrite (graph_relationship_tenant a Ha), <-!andb_assoc; by apply not_same_foreign].
    apply String.eqb_neq. intros Hid. apply (Hr r Hin); [by apply String.eqb_neq, negb_true_iff|].
    rewrite <-Hid. by apply list_elem_of_fmap_2.
  - intros pre a mid b post. apply (relationship_rows_distinct _ _ _ tenant_graph_observed).
Qed.
Lemma project_graph_total : graph_ids_free t G s → ∃ st s', project_graph t events s = (Ok st, s').
Proof.
  intros Hfree. destruct (add_entities_total Hfree) as (s2 & E2).
  pose proof (add_rows_ok _ _ _ _ _ _ _ _ (flush_idem _) E2) as Hs2.
  destruct (add_relationships_total s2 Hfree) as (s3 & E3).
  { by rewrite Hs2, table_flush, flush_idem. }
  { by rewrite Hs2. }
  eexists _, _. unfold project_graph. rewrite (M_bind_eval (gets _) _ s G s eq_refl).
  assert (_replace t G s = (Ok tt, flush_pending s3)) as Hrep.
  { unfold _replace. rewrite (M_bind_eval (modify (delete_graph t)) _ s tt _ eq_refl).
    rewrite (M_bind_eval flush _ _ tt _ eq_refl), (M_bind_eval _ _ _ _ _ E2).
    by rewrite (M_bind_eval _ _ _ _ _ E3). }
  by rewrite (M_bind_eval _ _ _ _ _ Hrep).
Qed.
Lemma projected_entities u : entities_of u (projected t G s) =
  if (u =? t)%string then entity_row <$> eg_entities G else entities_of u s.
Proof. apply (replaced_rows er_tenant_id), graph_entity_tenant. Qed.
Lemma projected_relationships u : relationships_of u (projected t G s) =
  if (u =? t)%string then relationship_row <$> eg_relationships G else relationships_of u s.
Proof. apply (replaced_rows rl_tenant_id), graph_relationship_tenant. Qed.
End projection.

(** C28. Projection refines the observed graph: for events of the tenant, and when no other
    tenant holds one of the identifiers, projecting returns the counts of the graph of the
    events; afterwards the tenant's rows are the entities and relationships of that graph
    and no others, which is exactly what the events show; the rows of every other tenant
    and every other table are as they were. *)
Theorem projection_refines t events s :
  (∀ e, e ∈ events → e_tenant_id e = t) → graph_ids_free t (tenant_graph t events s) s →
  ∃ st s' es rs, project_graph t events s = (Ok st, s')
    ∧ observed (eg_tenant_id (tenant_graph t events s)) events es rs
    ∧ gt_entities st = Z.of_nat (length es) ∧ gt_relationships st = Z.of_nat (length rs)
    ∧ entities_of t s' = entity_row <$> es ∧ relationships_of t s' = relationship_row <$> rs
    ∧ (∀ u, u ≠ t → entities_of u s' = entities_of u s ∧ relationships_of u s' = relationships_of u s)
    ∧ s' = set_relationships (λ _, d_relationships s') (set_entities (λ _, d_entities s') (flush_pending s)).
Proof.
  intros Hev Hfree. destruct (project_graph_total t events s Hev Hfree) as (st & s' & E).
  destruct (project_graph_ok _ _ _ _ _ E) as (Hs & Hn & Hm).
  exists st, s', (eg_entities (tenant_graph t events s)), (eg_relationships (tenant_graph t events s)).
  rewrite Hs. rewrite !projected_entities, !projected_relationships, String.eqb_refl by done.
  split_and!; try done; [by rewrite <-Hs | apply tenant_graph_observed|].
  intros u Hu. rewrite projected_entities, projected_relationships by done.
  by rewrite (proj2 (String.eqb_neq _ _) Hu).
Qed.

(** ** Criticality *)

Lemma graph_criticality events findings crit e : e ∈ eg_entities (build_graph events findings crit) →
  ge_criticality e = default "unknown" (dget (ge_id e) crit).
Proof.
  destruct events as [|first rest]; [by intros ?%not_elem_of_nil|].
  rewrite elem_of_entities. by intros (e0 & _ & ->).
Qed.
Lemma dget_foldl_dset {A B} (key : A → string) (val : A → B) i l d :
  dget i (foldl (λ d r, dset (key r) (val r) d) d l) =
  match last (select (λ r, key r =? i)%string l) with Some r => Some (val r) | None => dget i d end.
Proof.
  induction l as [|r l IH] using rev_ind; [done|]. rewrite foldl_app, select_app, select_one. simpl.
  destruct (String.eqb_spec (key r) i) as [->|Hne]; [by rewrite dget_dset_eq, last_snoc|].
  by rewrite app_nil_r, dget_dset_ne.
Qed.
(** The rows of a tenant with one identifier. *)
Definition rows_of (t i : string) (s : db) : list EntityRecord :=
  select (λ r, (er_tenant_id r =? t)%string && (er_id r =? i)%string) (d_entities s).
Lemma stored_criticality_one t i s r : rows_of t i s = [r] →
  dget i (stored_criticality t s) = Some (er_criticality r).
Proof.
  intros Hr. unfold stored_criticality. rewrite (dget_foldl_dset er_id er_criticality).
  unfold entities_of. rewrite select_select. fold (rows_of t i s). by rewrite Hr.
Qed.
Lemma get_entity_ok t i s r s' : get_entity t i s = (Ok (Some r), s') → s' = s ∧ rows_of t i s = [r].
Proof.
  unfold get_entity. fold (rows_of t i s). intros He. injection He as He <-.
  split; [done|]. by apply scalar_one_Some.
Qed.
Lemma rows_of_elem t i s r : rows_of t i s = [r] → r ∈ d_entities s ∧ er_tenant_id r = t ∧ er_id r = i.
Proof.
  intros Hr. assert (r ∈ rows_of t i s) as Hin by (rewrite Hr; by left).
  unfold rows_of in Hin. rewrite elem_of_select, andb_true_iff, !String.eqb_eq in Hin. tauto.
Qed.
Lemma rows_of_audited t i f g s :
  rows_of t i (flush_pending (set_audit f (flush_pending (set_draws g s)))) = rows_of t i s.
Proof. reflexivity. Qed.
Lemma audit_audited r g s :
  d_audit (flush_pending (set_audit (λ rows, rows ++ [r]) (flush_pending (set_draws g s)))) = d_audit s ++ [r].
Proof. reflexivity. Qed.
Lemma set_criticality_ok t i c s row s' : set_criticality t i c s = (Ok (Some row), s') →
  c ∈ CRITICALITIES ∧ rows_of t i s' = [row] ∧ er_criticality row = c ∧ d_findings s' = d_findings (flush_pending s)
  ∧ d_audit s' = d_audit s.
Proof.
  intros He. unfold set_criticality in He. inv_bind He. destruct a as [r|]; [|done].
  apply get_entity_ok in Ha as [-> Hr].
  destruct (mem c CRITICALITIES) eqn:Hc; [|done]. simpl in He. inv_bind He. injection Ha as <- <-.
  inv_bind He. injection Ha as <- <-. injection He as <- <-.
  split_and!; [by apply mem_spec | | done..].
  destruct (rows_of_elem _ _ _ _ Hr) as (_ & Ht & Hi). unfold rows_of in *. cbn [set_entities flush_pending d_entities].
  revert Hr. generalize (d_entities s) as l. rewrite Hi. intros l.
  assert (select (λ r0, (er_tenant_id r0 =? t)%string && (er_id r0 =? i)%string)
    (map (λ r0, if (er_id r0 =? i)%string then row_criticality c r0 else r0) l)
    = row_criticality c <$> select (λ r0, (er_tenant_id r0 =? t)%string && (er_id r0 =? i)%string) l) as ->.
  { induction l as [|x l IH]; [done|]. unfold select in *. cbn [map].
    rewrite !filter_cons, IH. destruct (er_id x =? i)%string eqn:E; simpl;
      rewrite ?E; by destruct (er_tenant_id x =? t)%string. }
  by intros ->.
Qed.
Lemma projected_row t G s i r : rows_of t i (projected t G s) = [r] →
  ∃ e, e ∈ eg_entities G ∧ r = entity_row e ∧ ge_id e = i.
Proof.
  intros (Hin & Ht & Hi)%rows_of_elem. cbn in Hin. apply elem_of_app in Hin as [Hin|Hin].
  - apply elem_of_select in Hin as [_ Hn]. by rewrite Ht, String.eqb_refl in Hn.
  - apply list_elem_of_fmap in Hin as (e & -> & He). by exists e.
Qed.

Lemma project_window_ok t s st s' : project_window t s = (Ok st, s') →
  s' = projected t (tenant_graph t (load_window t s) s) s.
Proof.
  intros He. unfold project_window in He. inv_bind He. injection Ha as <- <-.
  by apply project_graph_ok in He as (-> & _).
Qed.
Section update.
Context `{Oracle} `{AuthLib}.
Lemma update_criticality_ok i c actor s d s' : update_criticality i c actor s = (Ok d, s') →
  let t := ta_tenant_id actor in
  ∃ row0 s1 G row record f,
    set_criticality t i c s = (Ok (Some row0), s1)
    ∧ G = tenant_graph t (load_window t s1) s1 ∧ rows_of t i (projected t G s1) = [row]
    ∧ record_of actor "graph.criticality" "entity" (Some i) record ∧ d = serialize_entity row
    ∧ s' = set_audit (λ rows, rows ++ [record]) (flush_pending (set_draws f (projected t G s1))).
Proof.
  intros He t. unfold update_criticality in He. fold t in He. inv_bind He.
  destruct (set_criticality t i c s) as [[o|[]] s2]; try discriminate Ha. injection Ha as -> ->.
  destruct a as [row0|]; [|discriminate He].
  inv_bind He. apply project_window_ok in Ha. inv_bind He.
  destruct a0 as [row|]; [|inv_bind He; discriminate He]. apply get_entity_ok in Ha0 as [-> Hrow].
  inv_bind He. apply audit_actor_ok in Ha0 as (Hrec & draws & Hs3).
  injection He as <- <-. rewrite Ha in Hrow, Hs3. exists row0. eexists _, _, row, a0, _.
  split; [reflexivity|]. split; [reflexivity|]. split; [exact Hrow|]. split; [exact Hrec|].
  split; [reflexivity|]. exact Hs3.
Qed.
End update.

(** Setting a criticality: a call that succeeds was made by a holder of
    [incidents:write] in the tenant, with one of the five levels; the tenant has exactly one
    entity with that identifier, it has the level, the response is that entity, and its
    score is the rebuilt one; one audit record names the actor and the entity; and
    whatever events a later projection reads, the entity keeps the level. *)
Theorem criticality_kept `{Oracle} `{AuthLib} h rid i c s d s' :
  served "incidents:write" h rid (update_criticality i c) s = (Ok d, s') →
  ∃ actor row record, authorised h s (ta_tenant_id actor) "incidents:write" (ta_actor actor)
    ∧ c ∈ CRITICALITIES ∧ rows_of (ta_tenant_id actor) i s' = [row] ∧ er_criticality row = c
    ∧ d = serialize_entity row ∧ d_audit s' = d_audit s ++ [record]
    ∧ record_of actor "graph.criticality" "entity" (Some i) record
    ∧ ∀ events e, e ∈ eg_entities (tenant_graph (ta_tenant_id actor) events s') → ge_id e = i → ge_criticality e = c.
Proof.
  intros (actor & s1 & Hauth & He & ->)%served_ok. set (t := ta_tenant_id actor) in *.
  apply update_criticality_ok in He as (row0 & s2 & G & row & record & f & Hset & HG & Hrow & Hrec & -> & ->).
  apply set_criticality_ok in Hset as (Hc & Hrow0 & Hlevel & _ & Haud).
  destruct (projected_row _ _ _ _ _ Hrow) as (e & Hin & -> & Hi).
  assert (ge_criticality e = c) as Hcrit.
  { rewrite HG in Hin. rewrite (graph_criticality _ _ _ _ Hin), Hi, (stored_criticality_one _ _ _ _ Hrow0). exact Hlevel. }
  exists actor, (entity_row e), record. rewrite rows_of_audited, audit_audited.
  split; [exact Hauth|]. split; [exact Hc|]. split; [exact Hrow|]. split; [exact Hcrit|].
  split; [reflexivity|]. split; [by rewrite <-Haud|]. split; [exact Hrec|].
  intros events e' Hin' Hi'. rewrite (graph_criticality _ _ _ _ Hin'), Hi'.
  erewrite stored_criticality_one; [|rewrite rows_of_audited; exact Hrow]. exact Hcrit.
Qed.

(** ** A concrete graph in the store *)

#[local] Instance demo_oracle : Oracle :=
  {| uuid_hex := λ n, str_of_nat n; clock := λ n, utc 20000 (3600 + Z.of_nat n) |}.
#[local] Instance demo_auth : AuthLib := {|
  jwt_encode := λ _, "t"; bcrypt_check := λ _ _, true;
  jwt_decode := λ t, if (t =? "t")%string then Some [("sub", VStr "usr_1")] else None |}.
Definition window_db : db :=
  set_events (λ _, DetectionService.event_row "ten_a" <$> [demo_login "e1" 1; demo_login "e2" 2]) Access.demo_db.
Definition graph_db : db := snd (get_db (project_window "ten_a") window_db).
Definition alice : string := entity_id "ten_a" EUser "alice".
Local Abbreviation raise_alice :=
  (served "incidents:write" (demo_headers None) "req_1" (update_criticality alice "crown_jewel") graph_db).
Example alice_raised :
  ((λ r, (er_key r, er_criticality r)) <$> d_entities graph_db) = [("alice", "unknown"); ("10.0.0.1", "unknown")]
  ∧ ((λ r, (er_key r, er_criticality r)) <$> d_entities (snd raise_alice))
    = [("alice", "crown_jewel"); ("10.0.0.1", "unknown")].
Proof. vm_compute. auto. Qed.

Lemma projection_refines_witness : ∃ st s', project_graph "ten_a" (load_window "ten_a" window_db) window_db = (Ok st, s')
  ∧ entities_of "ten_a" s' ≠ [].
Proof.
  destruct (projection_refines "ten_a" (load_window "ten_a" window_db) window_db) as
    (st & s' & es & rs & E & Hobs & _ & _ & He & _).
  - intros e He. vm_compute in He. by repeat (apply elem_of_cons in He as [->|He]); [..|apply not_elem_of_nil in He].
  - split; intros r Hr; by apply not_elem_of_nil in Hr.
  - exists st, s'. split; [exact E|]. rewrite He. intros Hn%fmap_nil_inv.
    destruct (ob_mention _ _ _ _ Hobs (demo_login "e1" 1) (EUser, "Alice")) as (e & Hin & _).
    + vm_compute. left.
    + vm_compute. left.
    + rewrite Hn in Hin. by apply not_elem_of_nil in Hin.
Defined.
Lemma criticality_kept_witness : ∃ d s' actor row, raise_alice = (Ok d, s')
  ∧ rows_of (ta_tenant_id actor) alice s' = [row] ∧ er_criticality row = "crown_jewel".
Proof.
  assert (is_ok (fst raise_alice) = true) as Hok by (vm_compute; reflexivity).
  destruct raise_alice as [[d|e] s'] eqn:E; [|discriminate Hok].
  destruct (criticality_kept (demo_headers None) "req_1" alice "crown_jewel" graph_db d s' E)
    as (actor & row & record & _ & _ & Hr & Hc & _).
  exists d, s', actor, row. split; [reflexivity|]. split; [exact Hr | exact Hc].
Defined.
