(* ===== verification/Incidents.v ===== *)
(** * Incidents

    Models [services/api/app/services/incidents.py] and the routes of
    [services/api/app/api/incidents.py]: storylines grouped into incidents, alerts turned
    into incidents, and the operations of an analyst. An incident object is its row; an
    assignment to its attributes replaces the row. *)
From S2P Require Export Access Correlation DetectionService AuditChain.
Local Open Scope Z_scope.

Definition INCIDENT_STATUSES : list string :=
  ["grouped"; "new"; "triaging"; "investigating"; "contained"; "eradicated"; "recovered"; "closed"].
Definition SEVERITIES : list string := ["critical"; "high"; "medium"; "low"; "informational"].

(** ** Rows *)

Definition with_storylines (ids : list string) (now : datetime) (r : IncidentRecord) : IncidentRecord := {|
  in_id := in_id r; in_tenant_id := in_tenant_id r; in_fingerprint := in_fingerprint r;
  in_title := in_title r; in_status := in_status r; in_severity := in_severity r;
  in_assignee_user_id := in_assignee_user_id r; in_assignee_email := in_assignee_email r;
  in_source_alert_id := in_source_alert_id r; in_storyline_ids := ids;
  in_finding_rule_ids := in_finding_rule_ids r; in_event_ids := in_event_ids r;
  in_evidence_ids := in_evidence_ids r; in_related_entity_ids := in_related_entity_ids r;
  in_mitre_techniques := in_mitre_techniques r; in_notes := in_notes r; in_tasks := in_tasks r;
  in_timeline := in_timeline r; in_root_cause := in_root_cause r;
  in_lessons_learned := in_lessons_learned r; in_payload := in_payload r;
  in_created_at := in_created_at r; in_updated_at := now |}.
(** The columns the analyst operations assign, all at once. *)
Record edit := {
  ed_status : string; ed_assignee : option string * option string; ed_evidence_ids : list string;
  ed_notes : list Note; ed_tasks : list Task; ed_root_cause : option string;
  ed_lessons_learned : option string }.
Definition unedited (r : IncidentRecord) : edit := {|
  ed_status := in_status r; ed_assignee := (in_assignee_user_id r, in_assignee_email r);
  ed_evidence_ids := in_evidence_ids r; ed_notes := in_notes r; ed_tasks := in_tasks r;
  ed_root_cause := in_root_cause r; ed_lessons_learned := in_lessons_learned r |}.
Definition edited (e : edit) (entry : TimelineEvent) (now : datetime) (r : IncidentRecord) : IncidentRecord := {|
  in_id := in_id r; in_tenant_id := in_tenant_id r; in_fingerprint := in_fingerprint r;
  in_title := in_title r; in_status := ed_status e; in_severity := in_severity r;
  in_assignee_user_id := fst (ed_assignee e); in_assignee_email := snd (ed_assignee e);
  in_source_alert_id := in_source_alert_id r; in_storyline_ids := in_storyline_ids r;
  in_finding_rule_ids := in_finding_rule_ids r; in_event_ids := in_event_ids r;
  in_evidence_ids := ed_evidence_ids e; in_related_entity_ids := in_related_entity_ids r;
  in_mitre_techniques := in_mitre_techniques r; in_notes := ed_notes e; in_tasks := ed_tasks e;
  in_timeline := in_timeline r ++ [entry]; in_root_cause := ed_root_cause e;
  in_lessons_learned := ed_lessons_learned e; in_payload := in_payload r;
  in_created_at := in_created_at r; in_updated_at := now |}.

(** The row with the identifier of [row] becomes [row]. *)
Definition replace_incident (row : IncidentRecord) (rows : list IncidentRecord) : list IncidentRecord :=
  (λ r, if (in_id r =? in_id row)%string then row else r) <$> rows.
Definition save (row : IncidentRecord) : M db IncidentRecord :=
  modify (set_incidents (replace_incident row));; flush;; mret row.
Definition same_incident_key (a b : IncidentRecord) : bool :=
  (in_id a =? in_id b)%string
  || ((in_tenant_id a =? in_tenant_id b)%string && (in_fingerprint a =? in_fingerprint b)%string).

Section incidents.
Context `{Oracle}.

Definition _timeline_event (kind actor_id summary : string) (detail : pydict) : M db TimelineEvent :=
  i ← new_id_db "itl";
  now ← utcnow_db;
  mret {| tl_id := i; tl_at := isoformat now; tl_kind := kind; tl_actor_id := actor_id;
          tl_summary := summary; tl_detail := detail |}.

(** ** Storylines into incidents *)

Definition high_bar : float := fl_of_decimal false 8 (-1).
Definition story_rule_ids (story : Storyline) : list string :=
  sort_by str_le (remove_dups (
    (st_name <$> select (λ g, negb (bool_decide (st_rule_ids g = []))) (sl_stages story))
    ++ split_ws (default "" (dget "correlation_rule_id" (sl_attributes story))))).
Definition story_incident (tenant_id i : string) (story : Storyline) (entry : TimelineEvent)
    (now : datetime) : IncidentRecord := {|
  in_id := i; in_tenant_id := tenant_id; in_fingerprint := incident_fingerprint story;
  in_title := sl_title story; in_status := "grouped";
  in_severity := if fl_le high_bar (sl_confidence story) then "high" else "medium";
  in_assignee_user_id := None; in_assignee_email := None; in_source_alert_id := None;
  in_storyline_ids := []; in_finding_rule_ids := story_rule_ids story;
  in_event_ids := sl_event_ids story; in_evidence_ids := sl_evidence_ids story;
  in_related_entity_ids := []; in_mitre_techniques := sl_mitre_techniques story; in_notes := [];
  in_tasks := []; in_timeline := [entry]; in_root_cause := None; in_lessons_learned := None;
  in_payload := FromStory story; in_created_at := now; in_updated_at := now |}.
Definition story_record (tenant_id incident_id : string) (story : Storyline) : StorylineRecord := {|
  sr_id := sl_storyline_id story; sr_tenant_id := tenant_id; sr_incident_id := Some incident_id;
  sr_title := sl_title story; sr_fingerprint := incident_fingerprint story;
  sr_confidence := sl_confidence story; sr_payload := story; sr_created_at := sl_start story |}.

Definition stories_like (tenant_id fingerprint : string) (s : db) : list StorylineRecord :=
  select (λ r, (sr_tenant_id r =? tenant_id)%string && (sr_fingerprint r =? fingerprint)%string)
         (d_storylines s).
Definition incidents_like (tenant_id fingerprint : string) (s : db) : list IncidentRecord :=
  select (λ r, (in_tenant_id r =? tenant_id)%string && (in_fingerprint r =? fingerprint)%string)
         (d_incidents s).
(** [db.get(IncidentRecord, story.incident_id) if story.incident_id else None] *)
Definition incident_of (story : option StorylineRecord) (s : db) : option IncidentRecord :=
  r ← story;
  if otrue (sr_incident_id r)
  then find_first (λ i, in_id i =? ostr (sr_incident_id r))%string (d_incidents s) else None.

(** The incident of the fingerprint, created when there is none. *)
Definition find_or_create (tenant_id : string) (story : Storyline) (incident : option IncidentRecord)
    (now : datetime) : M db (IncidentRecord * Z) :=
  match incident with
  | Some row => mret (row, 0)
  | None =>
      i ← new_id_db "inc";
      entry ← _timeline_event "created" "correlation" "Incident grouped from correlated storyline"
                [("confidence", VFloat (sl_confidence story))];
      let row := story_incident tenant_id i story entry now in
      add_unique d_incidents set_incidents same_incident_key row;;
      mret (row, 1)
  end.
(** One storyline of the loop; the accumulator counts storylines and incidents created. *)
Definition persist_one (tenant_id : string) (acc : Z * Z) (story : Storyline) : M db (Z * Z) :=
  let '(created_stories, created_incidents) := acc in
  let fingerprint := incident_fingerprint story in
  s ← get;
  existing_story ← lift (scalar_one_or_none (stories_like tenant_id fingerprint s));
  match incident_of existing_story s with
  | Some _ => mret acc
  | None =>
      found ← lift (scalar_one_or_none (incidents_like tenant_id fingerprint s));
      now ← utcnow_db;
      ic ← find_or_create tenant_id story found now;
      let '(incident, created) := ic in
      match existing_story with
      | Some _ => mret (created_stories, created_incidents + created)
      | None =>
          modify (set_pend_storylines (λ l, l ++ [story_record tenant_id (in_id incident) story]));;
          (if mem (sl_storyline_id story) (in_storyline_ids incident) then mret tt
           else modify (set_incidents (replace_incident
                  (with_storylines (in_storyline_ids incident ++ [sl_storyline_id story]) now incident))));;
          mret (created_stories + 1, created_incidents + created)
      end
  end.

Record persist_counts := { pc_storylines : Z; pc_incidents : Z; pc_total_storylines : Z }.
Definition persist_storylines_and_incidents (tenant_id : string) : M db persist_counts :=
  s ← get;
  let findings := fr_payload <$> list_findings tenant_id s in
  stories ← drawing_db (correlate (load_window tenant_id s) findings);
  acc ← foldM (persist_one tenant_id) (0, 0) stories;
  flush;;
  mret {| pc_storylines := fst acc; pc_incidents := snd acc;
          pc_total_storylines := Z.of_nat (length stories) |}.

(** ** Queries *)

Definition list_incidents (tenant_id : string) (s : db) : list IncidentRecord :=
  sort_by (λ a b, dt_le (in_updated_at b) (in_updated_at a))
    (select (λ r, in_tenant_id r =? tenant_id)%string (d_incidents s)).
Definition list_storylines (tenant_id : string) (s : db) : list StorylineRecord :=
  sort_by (λ a b, dt_le (sr_created_at b) (sr_created_at a))
    (select (λ r, sr_tenant_id r =? tenant_id)%string (d_storylines s)).
Definition get_incident (tenant_id incident_id : string) : M db IncidentRecord :=
  s ← get;
  row ← lift (scalar_one_or_none
    (select (λ r, (in_tenant_id r =? tenant_id)%string && (in_id r =? incident_id)%string)
            (d_incidents s)));
  match row with
  | Some r => mret r
  | None => raise (BlueTeamError "NOT_FOUND" "Incident not found" 404)
  end.

(** ** Alerts into incidents *)

Definition alert_incident (tenant_id i alert_id : string) (alert : Alert) (entry : TimelineEvent)
    (now : datetime) : IncidentRecord := {|
  in_id := i; in_tenant_id := tenant_id; in_fingerprint := "alert:" +:+ alert_id;
  in_title := al_title alert; in_status := "new";
  in_severity := if mem (al_severity alert) SEVERITIES then al_severity alert else "medium";
  in_assignee_user_id := None; in_assignee_email := None; in_source_alert_id := Some (al_id alert);
  in_storyline_ids := []; in_finding_rule_ids := [al_finding_id alert]; in_event_ids := [];
  in_evidence_ids := []; in_related_entity_ids := []; in_mitre_techniques := []; in_notes := [];
  in_tasks := []; in_timeline := [entry]; in_root_cause := None; in_lessons_learned := None;
  in_payload := FromAlert alert_id (al_finding_id alert); in_created_at := now;
  in_updated_at := now |}.
Definition promote_alert (alert_id : string) (rows : list Alert) : list Alert :=
  (λ a, if (al_id a =? alert_id)%string
        then {| al_id := al_id a; al_tenant_id := al_tenant_id a; al_finding_id := al_finding_id a;
                al_title := al_title a; al_severity := al_severity a; al_status := "promoted";
                al_created_at := al_created_at a |}
        else a) <$> rows.
Definition create_from_alert (tenant_id alert_id actor_id : string) : M db IncidentRecord :=
  s ← get;
  found ← lift (scalar_one_or_none
    (select (λ a, (al_tenant_id a =? tenant_id)%string && (al_id a =? alert_id)%string) (d_alerts s)));
  match found with
  | None => raise (BlueTeamError "NOT_FOUND" "Alert not found" 404)
  | Some alert =>
      existing ← lift (scalar_one_or_none
        (select (λ r, (in_tenant_id r =? tenant_id)%string && oeqb (in_source_alert_id r) alert_id)
                (d_incidents s)));
      match existing with
      | Some row => mret row
      | None =>
          now ← utcnow_db;
          i ← new_id_db "inc";
          entry ← _timeline_event "created_from_alert" actor_id
                    ("Alert " +:+ alert_id +:+ " converted to incident")
                    [("alert_id", VStr alert_id); ("finding_id", VStr (al_finding_id alert))];
          let row := alert_incident tenant_id i alert_id alert entry now in
          modify (set_alerts (promote_alert (al_id alert)));;
          add_unique d_incidents set_incidents same_incident_key row;;
          mret row
      end
  end.

(** ** The operations of an analyst *)

(** The arrow of the summary is U+2192 in the code. *)
Definition set_status (incident : IncidentRecord) (status actor_id : string) : M db IncidentRecord :=
  if negb (mem status INCIDENT_STATUSES)
  then raise (BlueTeamError "INVALID_STATUS" ("Unsupported status " +:+ status) 422)
  else
    let before := in_status incident in
    now ← utcnow_db;
    entry ← _timeline_event "status_change" actor_id ("Status " +:+ before +:+ " -> " +:+ status)
              [("before", VStr before); ("after", VStr status)];
    let e := unedited incident in
    save (edited {| ed_status := status; ed_assignee := ed_assignee e;
                    ed_evidence_ids := ed_evidence_ids e; ed_notes := ed_notes e;
                    ed_tasks := ed_tasks e; ed_root_cause := ed_root_cause e;
                    ed_lessons_learned := ed_lessons_learned e |} entry now incident).

Definition assign (incident : IncidentRecord) (assignee_user_id assignee_email actor_id : string)
    : M db IncidentRecord :=
  now ← utcnow_db;
  entry ← _timeline_event "assignment" actor_id ("Assigned to " +:+ assignee_email)
            [("assignee_user_id", VStr assignee_user_id)];
  let e := unedited incident in
  save (edited {| ed_status := if (in_status incident =? "grouped")%string then "triaging"
                               else in_status incident;
                  ed_assignee := (Some assignee_user_id, Some assignee_email);
                  ed_evidence_ids := ed_evidence_ids e; ed_notes := ed_notes e;
                  ed_tasks := ed_tasks e; ed_root_cause := ed_root_cause e;
                  ed_lessons_learned := ed_lessons_learned e |} entry now incident).

Definition add_note (incident : IncidentRecord) (body actor_id : string) : M db IncidentRecord :=
  if negb (nonempty (strip body)) then raise (BlueTeamError "INVALID_NOTE" "Note body required" 422)
  else
    i ← new_id_db "nte";
    at_ ← utcnow_db;
    let note := {| nt_id := i; nt_at := isoformat at_; nt_author_id := actor_id; nt_body := strip body |} in
    entry ← _timeline_event "note" actor_id "Analyst note added" [("note_id", VStr i)];
    now ← utcnow_db;
    let e := unedited incident in
    save (edited {| ed_status := ed_status e; ed_assignee := ed_assignee e;
                    ed_evidence_ids := ed_evidence_ids e; ed_notes := ed_notes e ++ [note];
                    ed_tasks := ed_tasks e; ed_root_cause := ed_root_cause e;
                    ed_lessons_learned := ed_lessons_learned e |} entry now incident).

Definition add_task (incident : IncidentRecord) (title actor_id : string) : M db IncidentRecord :=
  if negb (nonempty (strip title)) then raise (BlueTeamError "INVALID_TASK" "Task title required" 422)
  else
    i ← new_id_db "tsk";
    at_ ← utcnow_db;
    let task := {| tk_id := i; tk_title := strip title; tk_status := "open";
                   tk_created_at := isoformat at_; tk_created_by := actor_id |} in
    entry ← _timeline_event "task" actor_id ("Task added: " +:+ strip title) [("task_id", VStr i)];
    now ← utcnow_db;
    let e := unedited incident in
    save (edited {| ed_status := ed_status e; ed_assignee := ed_assignee e;
                    ed_evidence_ids := ed_evidence_ids e; ed_notes := ed_notes e;
                    ed_tasks := ed_tasks e ++ [task]; ed_root_cause := ed_root_cause e;
                    ed_lessons_learned := ed_lessons_learned e |} entry now incident).

(** [text.strip() or None] *)
Definition strip_or_none (text : string) : option string :=
  if nonempty (strip text) then Some (strip text) else None.
Definition set_root_cause (incident : IncidentRecord) (text actor_id : string) : M db IncidentRecord :=
  now ← utcnow_db;
  entry ← _timeline_event "root_cause" actor_id "Root cause recorded" [];
  let e := unedited incident in
  save (edited {| ed_status := ed_status e; ed_assignee := ed_assignee e;
                  ed_evidence_ids := ed_evidence_ids e; ed_notes := ed_notes e; ed_tasks := ed_tasks e;
                  ed_root_cause := strip_or_none text;
                  ed_lessons_learned := ed_lessons_learned e |} entry now incident).
Definition set_lessons (incident : IncidentRecord) (text actor_id : string) : M db IncidentRecord :=
  now ← utcnow_db;
  entry ← _timeline_event "lessons" actor_id "Lessons learned recorded" [];
  let e := unedited incident in
  save (edited {| ed_status := ed_status e; ed_assignee := ed_assignee e;
                  ed_evidence_ids := ed_evidence_ids e; ed_notes := ed_notes e; ed_tasks := ed_tasks e;
                  ed_root_cause := ed_root_cause e;
                  ed_lessons_learned := strip_or_none text |} entry now incident).

(** The evidence row bound to an incident, with its link recorded. *)
Definition bound (incident_id at_ actor_id : string) (e : Evidence) : Evidence := {|
  ev_id := ev_id e; ev_tenant_id := ev_tenant_id e; ev_incident_id := Some incident_id;
  ev_source := ev_source e; ev_acquisition_method := ev_acquisition_method e;
  ev_original_timestamp := ev_original_timestamp e; ev_ingested_at := ev_ingested_at e;
  ev_collector_identity := ev_collector_identity e; ev_integrity_hash := ev_integrity_hash e;
  ev_object_uri := ev_object_uri e; ev_parser_version := ev_parser_version e;
  ev_transformation_history :=
    ev_transformation_history e ++ [TLink at_ actor_id incident_id (ev_integrity_hash e)];
  ev_confidence_level := ev_confidence_level e; ev_payload_event_id := ev_payload_event_id e;
  ev_payload_raw_hash := ev_payload_raw_hash e; ev_chain_of_custody := ev_chain_of_custody e;
  ev_sealed := ev_sealed e |}.
Definition bind_evidence (evidence_id incident_id at_ actor_id : string) (rows : list Evidence)
    : list Evidence :=
  (λ e, if (ev_id e =? evidence_id)%string then bound incident_id at_ actor_id e else e) <$> rows.

Definition link_evidence (incident : IncidentRecord) (evidence_id actor_id : string)
    : M db IncidentRecord :=
  s ← get;
  found ← lift (scalar_one_or_none
    (select (λ e, (ev_tenant_id e =? in_tenant_id incident)%string && (ev_id e =? evidence_id)%string)
            (d_evidence s)));
  match found with
  | None => raise (BlueTeamError "NOT_FOUND" "Evidence not found" 404)
  | Some evidence =>
      if negb (ev_sealed evidence)
      then raise (BlueTeamError "EVIDENCE_NOT_SEALED" "Only sealed evidence may be linked" 409)
      else if otrue (ev_incident_id evidence) && negb (oeqb (ev_incident_id evidence) (in_id incident))
      then raise (BlueTeamError "EVIDENCE_BOUND" "Evidence already bound to another incident" 409)
      else
        at_ ← utcnow_db;
        modify (set_evidence (bind_evidence evidence_id (in_id incident) (isoformat at_) actor_id));;
        entry ← _timeline_event "evidence_link" actor_id ("Linked sealed evidence " +:+ evidence_id)
                  [("evidence_id", VStr evidence_id);
                   ("integrity_hash", VStr (ev_integrity_hash evidence))];
        now ← utcnow_db;
        let e := unedited incident in
        save (edited {| ed_status := ed_status e; ed_assignee := ed_assignee e;
                        ed_evidence_ids := if mem evidence_id (ed_evidence_ids e) then ed_evidence_ids e
                                           else ed_evidence_ids e ++ [evidence_id];
                        ed_notes := ed_notes e; ed_tasks := ed_tasks e;
                        ed_root_cause := ed_root_cause e;
                        ed_lessons_learned := ed_lessons_learned e |} entry now incident)
  end.
End incidents.

(** ** The routes *)

Definition note_dict (n : Note) : pyval := VDict [
  ("id", VStr (nt_id n)); ("at", VStr (nt_at n)); ("author_id", VStr (nt_author_id n));
  ("body", VStr (nt_body n))].
Definition task_dict (t : Task) : pyval := VDict [
  ("id", VStr (tk_id t)); ("title", VStr (tk_title t)); ("status", VStr (tk_status t));
  ("created_at", VStr (tk_created_at t)); ("created_by", VStr (tk_created_by t))].
Definition timeline_dict (t : TimelineEvent) : pyval := VDict [
  ("id", VStr (tl_id t)); ("at", VStr (tl_at t)); ("kind", VStr (tl_kind t));
  ("actor_id", VStr (tl_actor_id t)); ("summary", VStr (tl_summary t));
  ("detail", VDict (tl_detail t))].
Definition str_list (l : list string) : pyval := VList (VStr <$> l).
Definition serialize_incident (row : IncidentRecord) : pydict := [
  ("id", VStr (in_id row)); ("title", VStr (in_title row)); ("status", VStr (in_status row));
  ("severity", VStr (str_or (in_severity row) "medium"));
  ("assignee_user_id", vopt (in_assignee_user_id row));
  ("assignee_email", vopt (in_assignee_email row));
  ("source_alert_id", vopt (in_source_alert_id row));
  ("storyline_ids", str_list (in_storyline_ids row)); ("event_ids", str_list (in_event_ids row));
  ("evidence_ids", str_list (in_evidence_ids row));
  ("related_entity_ids", str_list (in_related_entity_ids row));
  ("mitre_techniques", str_list (in_mitre_techniques row));
  ("notes", VList (note_dict <$> in_notes row)); ("tasks", VList (task_dict <$> in_tasks row));
  ("timeline", VList (timeline_dict <$> in_timeline row));
  ("root_cause", vopt (in_root_cause row)); ("lessons_learned", vopt (in_lessons_learned row));
  ("created_at", VStr (isoformat (in_created_at row)));
  ("updated_at", VStr (isoformat (in_updated_at row)))].

Section routes.
Context `{Oracle}.

(** [write_audit] with the arguments the routes share. *)
Definition audit_incident (actor : TenantActor) (request_id action target_id : string)
    (before_state after_state : option pydict) : M db AuditLog :=
  write_audit {|
    b_tenant_id := Some (ta_tenant_id actor); b_actor_type := "user";
    b_actor_id := ac_user_id (ta_actor actor); b_request_id := request_id; b_action := action;
    b_target_type := "incident"; b_target_id := Some target_id; b_reason := None;
    b_policy_decision := None; b_approval_status := None; b_before_state := before_state;
    b_after_state := after_state; b_result := "success" |}.
(** [Field(min_length=1)] *)
Definition min_length_1 (v : string) : M db unit :=
  if nonempty v then mret tt else raise (ValueError "String should have at least 1 character").

Definition user_id (actor : TenantActor) : string := ac_user_id (ta_actor actor).
Definition from_alert (actor : TenantActor) (request_id alert_id : string) : M db pydict :=
  row ← create_from_alert (ta_tenant_id actor) alert_id (user_id actor);
  audit_incident actor request_id "incident.from_alert" (in_id row) None
    (Some [("alert_id", VStr alert_id); ("status", VStr (in_status row))]);;
  mret (serialize_incident row).
Definition change_status (actor : TenantActor) (request_id incident_id status : string) : M db pydict :=
  incident ← get_incident (ta_tenant_id actor) incident_id;
  let before := in_status incident in
  row ← set_status incident status (user_id actor);
  audit_incident actor request_id "incident.status" (in_id row) (Some [("status", VStr before)])
    (Some [("status", VStr (in_status row))]);;
  mret (serialize_incident row).
Definition assign_incident (actor : TenantActor)
    (request_id incident_id assignee_user_id assignee_email : string) : M db pydict :=
  incident ← get_incident (ta_tenant_id actor) incident_id;
  row ← assign incident assignee_user_id assignee_email (user_id actor);
  audit_incident actor request_id "incident.assign" (in_id row) None
    (Some [("assignee_user_id", VStr assignee_user_id); ("assignee_email", VStr assignee_email)]);;
  mret (serialize_incident row).
Definition note (actor : TenantActor) (request_id incident_id body : string) : M db pydict :=
  min_length_1 body;;
  incident ← get_incident (ta_tenant_id actor) incident_id;
  row ← add_note incident body (user_id actor);
  audit_incident actor request_id "incident.note" (in_id row) None None;;
  mret (serialize_incident row).
Definition task (actor : TenantActor) (request_id incident_id title : string) : M db pydict :=
  min_length_1 title;;
  incident ← get_incident (ta_tenant_id actor) incident_id;
  row ← add_task incident title (user_id actor);
  audit_incident actor request_id "incident.task" (in_id row) None None;;
  mret (serialize_incident row).
Definition root_cause (actor : TenantActor) (request_id incident_id text : string) : M db pydict :=
  min_length_1 text;;
  incident ← get_incident (ta_tenant_id actor) incident_id;
  row ← set_root_cause incident text (user_id actor);
  audit_incident actor request_id "incident.root_cause" (in_id row) None None;;
  mret (serialize_incident row).
Definition lessons (actor : TenantActor) (request_id incident_id text : string) : M db pydict :=
  min_length_1 text;;
  incident ← get_incident (ta_tenant_id actor) incident_id;
  row ← set_lessons incident text (user_id actor);
  audit_incident actor request_id "incident.lessons" (in_id row) None None;;
  mret (serialize_incident row).
Definition evidence (actor : TenantActor) (request_id incident_id evidence_id : string) : M db pydict :=
  incident ← get_incident (ta_tenant_id actor) incident_id;
  row ← link_evidence incident evidence_id (user_id actor);
  audit_incident actor request_id "incident.evidence_link" (in_id row) None
    (Some [("evidence_id", VStr evidence_id)]);;
  mret (serialize_incident row).

(** The requests of an analyst about incidents. *)
Inductive incident_request :=
| FromAlertReq (alert_id : string)
| StatusReq (incident_id status : string)
| AssignReq (incident_id assignee_user_id assignee_email : string)
| NoteReq (incident_id body : string)
| TaskReq (incident_id title : string)
| RootCauseReq (incident_id text : string)
| LessonsReq (incident_id text : string)
| EvidenceReq (incident_id evidence_id : string).
Definition handle (req : incident_request) (actor : TenantActor) (request_id : string) : M db pydict :=
  match req with
  | FromAlertReq a => from_alert actor request_id a
  | StatusReq i st => change_status actor request_id i st
  | AssignReq i u m => assign_incident actor request_id i u m
  | NoteReq i b => note actor request_id i b
  | TaskReq i t => task actor request_id i t
  | RootCauseReq i t => root_cause actor request_id i t
  | LessonsReq i t => lessons actor request_id i t
  | EvidenceReq i e => evidence actor request_id i e
  end.
(** A request as the framework serves it: the permission first, then the body, in a
    session that commits or rolls back. *)
Definition serve `{AuthLib} (h : headers) (request_id : string) (req : incident_request) : M db pydict :=
  get_db (actor ← require "incidents:write" h request_id; handle req actor request_id).
Definition rebuild (actor : TenantActor) : M db persist_counts :=
  persist_storylines_and_incidents (ta_tenant_id actor).
End routes.

(** ** What the operations change *)

(** One edit of one incident: its columns, one more entry of its timeline by the actor. *)
Record edit_of (actor : string) (incident row : IncidentRecord) : Prop := {
  eo_row : ∃ e entry now, row = edited e entry now incident ∧ tl_actor_id entry = actor;
  eo_status : in_status incident ∈ INCIDENT_STATUSES → in_status row ∈ INCIDENT_STATUSES;
  eo_evidence : in_evidence_ids incident ⊆ in_evidence_ids row;
}.
(** The evidence table is kept, or one sealed row of the tenant is bound to the incident,
    which was not bound to another one. *)
Inductive evidence_change (actor : string) (row : IncidentRecord) (s s' : db) : Prop :=
| evidence_kept : d_evidence s' = d_evidence s → evidence_change actor row s s'
| evidence_bound e at_ : e ∈ d_evidence s → ev_tenant_id e = in_tenant_id row → ev_sealed e = true →
    otrue (ev_incident_id e) = false ∨ ev_incident_id e = Some (in_id row) →
    ev_id e ∈ in_evidence_ids row →
    d_evidence s' = bind_evidence (ev_id e) (in_id row) at_ actor (d_evidence s) →
    evidence_change actor row s s'.
Inductive change (actor : string) (s : db) (row : IncidentRecord) (s' : db) : Prop :=
| change_none : row ∈ d_incidents s → d_incidents s' = d_incidents s →
    d_evidence s' = d_evidence s → change actor s row s'
| change_new : existsb (same_incident_key row) (d_incidents s) = false → nonempty (in_id row) = true →
    in_status row ∈ INCIDENT_STATUSES → in_severity row ∈ SEVERITIES →
    d_incidents s' = d_incidents s ++ [row] → d_evidence s' = d_evidence s → change actor s row s'
| change_edit incident : incident ∈ d_incidents s → edit_of actor incident row →
    d_incidents s' = replace_incident row (d_incidents s) → evidence_change actor row s s' →
    change actor s row s'.

(** ** The states of the tables *)

(** The storylines stored, flushed or not. *)
Definition all_stories (s : db) : list StorylineRecord := d_storylines s ++ d_pend_storylines s.
(** The incident of a storyline: of its tenant and fingerprint, and listing it. *)
Definition story_grouped (s : db) (r : StorylineRecord) : Prop :=
  ∃ i, i ∈ d_incidents s ∧ sr_incident_id r = Some (in_id i) ∧ in_tenant_id i = sr_tenant_id r
       ∧ in_fingerprint i = sr_fingerprint r ∧ sr_id r ∈ in_storyline_ids i.

(** Well-formed tables: identifiers and fingerprints are unique, statuses and severities
    are declared ones, evidence bound to an incident is sealed, belongs to the tenant of
    the incident and is listed by it, and every storyline has its incident. *)
Record incidents_wf (s : db) : Prop := {
  iw_ids : NoDup (in_id <$> d_incidents s);
  iw_keys : NoDup ((λ r, (in_tenant_id r, in_fingerprint r)) <$> d_incidents s);
  iw_row : ∀ r, r ∈ d_incidents s → nonempty (in_id r) = true ∧ in_status r ∈ INCIDENT_STATUSES
                                    ∧ in_severity r ∈ SEVERITIES;
  iw_evidence : NoDup (ev_id <$> d_evidence s);
  iw_bound : ∀ e i, e ∈ d_evidence s → ev_incident_id e = Some i →
    ev_sealed e = true ∧ ∃ r, r ∈ d_incidents s ∧ in_id r = i ∧ in_tenant_id r = ev_tenant_id e
                              ∧ ev_id e ∈ in_evidence_ids r;
  iw_stories : ∀ r, r ∈ all_stories s → story_grouped s r;
}.

(** What later states keep of an incident and of a piece of evidence. *)
Record incident_kept (r r' : IncidentRecord) : Prop := {
  ik_id : in_id r' = in_id r;
  ik_tenant : in_tenant_id r' = in_tenant_id r;
  ik_origin : in_fingerprint r' = in_fingerprint r ∧ in_payload r' = in_payload r
              ∧ in_source_alert_id r' = in_source_alert_id r ∧ in_created_at r' = in_created_at r;
  ik_timeline : in_timeline r `prefix_of` in_timeline r';
  ik_evidence : in_evidence_ids r ⊆ in_evidence_ids r';
  ik_stories : in_storyline_ids r ⊆ in_storyline_ids r';
}.
Record evidence_kept_row (e e' : Evidence) : Prop := {
  ek_id : ev_id e' = ev_id e ∧ ev_tenant_id e' = ev_tenant_id e;
  ek_content : ev_source e' = ev_source e ∧ ev_integrity_hash e' = ev_integrity_hash e
               ∧ ev_chain_of_custody e' = ev_chain_of_custody e ∧ ev_sealed e' = ev_sealed e;
  ek_bound : ∀ i, ev_incident_id e = Some i → ev_incident_id e' = Some i;
  ek_history : ev_transformation_history e `prefix_of` ev_transformation_history e';
}.
Record evolves (s s' : db) : Prop := {
  el_incidents : ∀ r, r ∈ d_incidents s → ∃ r', r' ∈ d_incidents s' ∧ incident_kept r r';
  el_evidence : ∀ e, e ∈ d_evidence s → ∃ e', e' ∈ d_evidence s' ∧ evidence_kept_row e e';
}.

#[export] Instance incident_kept_po : PreOrder incident_kept.
Proof.
  split; [by intros r; split|]. intros a b c [H1 H2 (H3&H4&H5&H6) H7 H8 H9] [K1 K2 (K3&K4&K5&K6) K7 K8 K9].
  split; [congruence | congruence | split_and!; congruence | by etrans | by etrans | by etrans].
Qed.
#[export] Instance evidence_kept_row_po : PreOrder evidence_kept_row.
Proof.
  split; [by intros r; split|].
  intros a b c [[H1 H2] (H3&H4&H5&H6) H7 H8] [[K1 K2] (K3&K4&K5&K6) K7 K8].
  split; [split; congruence | split_and!; congruence | auto | by etrans].
Qed.
#[export] Instance evolves_po : PreOrder evolves.
Proof.
  split; [intros s; split; eauto|].
  - intros r Hr. by exists r.
  - intros e He. by exists e.
  - intros a b c [Ha1 Ha2] [Hb1 Hb2]. split.
    + intros r (r1 & Hr1 & Hk1)%Ha1. destruct (Hb1 r1 Hr1) as (r2 & Hr2 & Hk2).
      exists r2. split; [done | by etrans].
    + intros e (e1 & He1 & Hk1)%Ha2. destruct (Hb2 e1 He1) as (e2 & He2 & Hk2).
      exists e2. split; [done | by etrans].
Qed.

Lemma elem_of_replace row rows r :
  r ∈ replace_incident row rows → r = row ∨ (r ∈ rows ∧ in_id r ≠ in_id row).
Proof.
  intros (x & -> & Hx)%list_elem_of_fmap. destruct (String.eqb_spec (in_id x) (in_id row)); auto.
Qed.
Lemma replace_elem row incident rows :
  incident ∈ rows → in_id row = in_id incident → row ∈ replace_incident row rows.
Proof.
  intros Hin Hid. apply list_elem_of_fmap. exists incident. split; [|done].
  by rewrite Hid, String.eqb_refl.
Qed.
Lemma replace_fmap {B} (f : IncidentRecord → B) row incident rows :
  NoDup (in_id <$> rows) → incident ∈ rows → in_id row = in_id incident → f row = f incident →
  f <$> replace_incident row rows = f <$> rows.
Proof.
  intros Hnd Hin Hid Hf. unfold replace_incident. rewrite <-list_fmap_compose.
  apply list_fmap_ext. intros k x Hx. simpl. destruct (String.eqb_spec (in_id x) (in_id row)) as [He|]; [|done].
  rewrite Hf. f_equal. eapply (NoDup_fmap_eq in_id); [done | done | by eapply list_elem_of_lookup_2 | congruence].
Qed.

Lemma story_grouped_kept s s' :
  (∀ r, r ∈ d_incidents s → ∃ r', r' ∈ d_incidents s' ∧ incident_kept r r') →
  ∀ r, story_grouped s r → story_grouped s' r.
Proof.
  intros Hk r (i & Hi & Hid & Ht & Hf & Hl). destruct (Hk i Hi) as (i' & Hi' & [K1 K2 (K3 & _) _ _ K6]).
  exists i'. split_and!; [done | congruence | congruence | congruence | by apply K6].
Qed.

(** Replacing an incident by a later version of it keeps the tables well-formed. *)
Lemma replace_wf s s' incident row :
  incidents_wf s → incident ∈ d_incidents s → incident_kept incident row →
  in_status row ∈ INCIDENT_STATUSES → in_severity row ∈ SEVERITIES →
  d_incidents s' = replace_incident row (d_incidents s) →
  (d_evidence s' = d_evidence s → (∀ r, r ∈ all_stories s' → r ∈ all_stories s ∨ story_grouped s' r) →
   incidents_wf s')
  ∧ ∀ r, r ∈ d_incidents s → ∃ r', r' ∈ d_incidents s' ∧ incident_kept r r'.
Proof.
  intros [Hi Hk Hr He Hb Hs] Hin [Kid Kt (Kf & Kp & Ks & Kc) Ktl Kev Kst] Hst Hsev Hinc.
  assert (∀ r, r ∈ d_incidents s → ∃ r', r' ∈ d_incidents s' ∧ incident_kept r r') as Hkept.
  { intros r Hr'. rewrite Hinc. destruct (String.eqb_spec (in_id r) (in_id row)) as [Heq|Hne].
    - assert (r = incident) as -> by (eapply (NoDup_fmap_eq in_id); [done..|congruence]).
      exists row. split; [by eapply replace_elem | by split].
    - exists r. split; [|done]. apply list_elem_of_fmap. exists r. split; [|done].
      by destruct (String.eqb_spec (in_id r) (in_id row)). }
  split; [|done]. intros Hev Hall. split.
  - rewrite Hinc, (replace_fmap in_id row incident); done.
  - rewrite Hinc, (replace_fmap (λ r, (in_tenant_id r, in_fingerprint r)) row incident); try done. congruence.
  - intros r Hr'. rewrite Hinc in Hr'. apply elem_of_replace in Hr' as [->|[Hr' _]]; [|by apply Hr].
    split_and!; [|done..]. rewrite Kid. by apply Hr.
  - by rewrite Hev.
  - intros e i. rewrite Hev. intros Hel Hei. destruct (Hb e i Hel Hei) as (? & r & Hr' & Hid & Ht & Hl).
    split; [done|]. destruct (Hkept r Hr') as (r' & Hr'' & [K1 K2 _ _ K3 _]).
    exists r'. split_and!; [done | congruence | congruence | by apply K3].
  - intros r [Hr'|?]%Hall; [|done]. by eapply story_grouped_kept, Hs.
Qed.
Section incident_facts.
Context `{Oracle}.

Lemma all_stories_flush s : all_stories (flush_pending s) = all_stories s.
Proof. unfold all_stories. simpl. apply app_nil_r. Qed.
Ltac run_edit Hs :=
  let Hr := fresh "Hr" in apply pair_inj in Hs as [Hr <-]; injection Hr as <-; split; [|split_and!; [done | done | done | exact (all_stories_flush _)]].

Lemma get_incident_ok t i s r s' :
  get_incident t i s = (Ok r, s') → s' = s ∧ r ∈ d_incidents s ∧ in_tenant_id r = t ∧ in_id r = i.
Proof.
  unfold get_incident, lift. intros Hg. inv_bind Hg. injection Ha as <- <-. inv_bind Hg.
  injection Ha as Hrow <-. destruct a as [x|]; [|discriminate]. injection Hg as <- <-.
  apply scalar_one_Some in Hrow. assert (x ∈ [x]) as Hin by left. rewrite <-Hrow in Hin.
  apply elem_of_select in Hin as [Hin Hp]. by py_bool.
Qed.

(** An operation on an incident: a change that concerns it and leaves the audit log. *)
Definition edits (actor : string) (i : IncidentRecord) (s : db) (row : IncidentRecord) (s' : db) : Prop :=
  change actor s row s' ∧ in_tenant_id row = in_tenant_id i ∧ in_id row = in_id i
  ∧ d_audit s' = d_audit s ∧ all_stories s' = all_stories s.

Lemma set_status_change i st actor s row s' :
  i ∈ d_incidents s → set_status i st actor s = (Ok row, s') →
  edits actor i s row s'.
Proof.
  intros Hi. unfold set_status. destruct (mem st _) eqn:Hm; [|discriminate]. simpl. intros Hs.
  run_edit Hs. apply mem_spec in Hm. eapply change_edit; [exact Hi | | reflexivity | by left].
  split; [by eexists _, _, _ | done | done].
Qed.
Lemma assign_change i u m actor s row s' :
  i ∈ d_incidents s → assign i u m actor s = (Ok row, s') →
  edits actor i s row s'.
Proof.
  intros Hi Hs. unfold assign in Hs. run_edit Hs. eapply change_edit; [exact Hi | | reflexivity | by left].
  split; [by eexists _, _, _ | | done]. simpl. intros Hst. case_match; [|done]. by apply mem_spec.
Qed.
Lemma add_note_change i b actor s row s' :
  i ∈ d_incidents s → add_note i b actor s = (Ok row, s') →
  edits actor i s row s'.
Proof.
  intros Hi. unfold add_note. destruct (nonempty _); [|discriminate]. simpl. intros Hs.
  run_edit Hs. eapply change_edit; [exact Hi | | reflexivity | by left].
  split; [by eexists _, _, _ | done | done].
Qed.
Lemma add_task_change i b actor s row s' :
  i ∈ d_incidents s → add_task i b actor s = (Ok row, s') →
  edits actor i s row s'.
Proof.
  intros Hi. unfold add_task. destruct (nonempty _); [|discriminate]. simpl. intros Hs.
  run_edit Hs. eapply change_edit; [exact Hi | | reflexivity | by left].
  split; [by eexists _, _, _ | done | done].
Qed.
Lemma set_root_cause_change i t actor s row s' :
  i ∈ d_incidents s → set_root_cause i t actor s = (Ok row, s') →
  edits actor i s row s'.
Proof.
  intros Hi Hs. unfold set_root_cause in Hs. run_edit Hs. eapply change_edit; [exact Hi | | reflexivity | by left].
  split; [by eexists _, _, _ | done | done].
Qed.
Lemma set_lessons_change i t actor s row s' :
  i ∈ d_incidents s → set_lessons i t actor s = (Ok row, s') →
  edits actor i s row s'.
Proof.
  intros Hi Hs. unfold set_lessons in Hs. run_edit Hs. eapply change_edit; [exact Hi | | reflexivity | by left].
  split; [by eexists _, _, _ | done | done].
Qed.

Lemma link_evidence_change i eid actor s row s' :
  i ∈ d_incidents s → link_evidence i eid actor s = (Ok row, s') →
  edits actor i s row s'.
Proof.
  intros Hi. unfold link_evidence, lift. intros Hs. inv_bind Hs. injection Ha as <- <-. inv_bind Hs.
  injection Ha as Hrow <-. destruct a as [e|]; [|discriminate].
  apply scalar_one_Some in Hrow. assert (e ∈ [e]) as Hin by left. rewrite <-Hrow in Hin.
  apply elem_of_select in Hin as [Hin Hp]. py_bool. subst eid.
  destruct (ev_sealed e) eqn:Hse; [simpl in Hs|discriminate].
  destruct (otrue (ev_incident_id e) && _) eqn:Hb; [discriminate|].
  run_edit Hs. eapply change_edit; [exact Hi | | reflexivity |].
  - split; [by eexists _, _, _ | done |]. simpl. case_match; set_solver.
  - eapply evidence_bound; [exact Hin | done | done | | | reflexivity].
    + destruct (otrue (ev_incident_id e)); [right | by left]. simpl in Hb.
      apply negb_false_iff in Hb. by apply oeqb_spec.
    + simpl. destruct (mem (ev_id e) (in_evidence_ids i)) eqn:Hm; [by apply mem_spec | set_solver].
Qed.

Lemma create_from_alert_change t a actor s row s' :
  create_from_alert t a actor s = (Ok row, s') →
  change actor s row s' ∧ in_tenant_id row = t ∧ d_audit s' = d_audit s ∧ all_stories s' = all_stories s.
Proof.
  unfold create_from_alert, lift. intros Hs. inv_bind Hs. injection Ha as <- <-. inv_bind Hs.
  injection Ha as _ <-. destruct a0 as [alert|]; [|discriminate]. inv_bind Hs.
  injection Ha as Hrow <-. destruct a0 as [x|].
  - injection Hs as <- <-. apply scalar_one_Some in Hrow.
    assert (x ∈ [x]) as Hin by left. rewrite <-Hrow in Hin.
    apply elem_of_select in Hin as [Hin Hp]. py_bool. split_and!; [|done..]. by apply change_none.
  - do 4 (inv_bind Hs; injection Ha as <- <-). inv_bind Hs. apply add_unique_ok in Ha as [-> Hnew].
    injection Hs as <- <-. split_and!; [|done | done | exact (all_stories_flush _)]. apply change_new; try done;
      cbn [in_status in_severity alert_incident].
    + by apply mem_spec.
    + destruct (mem (al_severity alert) SEVERITIES) eqn:Hm; by apply mem_spec.
Qed.

Lemma write_audit_frame b s r s' :
  write_audit b s = (Ok r, s') →
  d_incidents s' = d_incidents s ∧ d_evidence s' = d_evidence s ∧ all_stories s' = all_stories s.
Proof.
  unfold write_audit. intros Hw. inv_bind Hw. injection Ha as <- <-. inv_bind Hw.
  injection Ha as <- <-. inv_bind Hw. injection Ha as <- <-. inv_bind Hw.
  apply add_unique_ok in Ha as [-> _]. injection Hw as <- <-.
  split_and!; [done | done | exact (all_stories_flush _)].
Qed.

(** The name a request has in the audit log. *)
Definition audit_action (req : incident_request) : string :=
  match req with
  | FromAlertReq _ => "incident.from_alert" | StatusReq _ _ => "incident.status"
  | AssignReq _ _ _ => "incident.assign" | NoteReq _ _ => "incident.note"
  | TaskReq _ _ => "incident.task" | RootCauseReq _ _ => "incident.root_cause"
  | LessonsReq _ _ => "incident.lessons" | EvidenceReq _ _ => "incident.evidence_link"
  end.
(** The entry a served request leaves. *)
Definition audited (req : incident_request) (actor : TenantActor) (rid : string) (row : IncidentRecord)
    (a : AuditLog) : Prop :=
  au_tenant_id a = Some (ta_tenant_id actor) ∧ au_actor_id a = user_id actor
  ∧ au_request_id a = rid ∧ au_action a = audit_action req ∧ au_target_type a = "incident"
  ∧ au_target_id a = Some (in_id row) ∧ au_result a = "success".
Definition handled (req : incident_request) (actor : TenantActor) (rid : string) (s : db)
    (row : IncidentRecord) (s' : db) : Prop :=
  change (user_id actor) s row s' ∧ in_tenant_id row = ta_tenant_id actor
  ∧ all_stories s' = all_stories s
  ∧ ∃ a, d_audit s' = d_audit s ++ [a] ∧ audited req actor rid row a.

Lemma change_frame actor s row s1 s' :
  change actor s row s1 → d_incidents s' = d_incidents s1 → d_evidence s' = d_evidence s1 →
  change actor s row s'.
Proof.
  intros Hc Hi He. destruct Hc as [? ? ?|? ? ? ? ? ?|i ? ? ? Hev].
  - apply change_none; congruence.
  - apply change_new; congruence.
  - eapply change_edit; [done | done | congruence |].
    destruct Hev as [?|e at_ ? ? ? ? ? Hb]; [left; congruence|].
    apply (evidence_bound _ _ _ _ e at_); try done. by rewrite He.
Qed.

(** The audit entry that ends a handler. *)
Lemma audit_end req actor rid row before after s s1 r s' :
  change (user_id actor) s row s1 → in_tenant_id row = ta_tenant_id actor →
  d_audit s1 = d_audit s ∧ all_stories s1 = all_stories s →
  (audit_incident actor rid (audit_action req) (in_id row) before after;;
   mret (serialize_incident row)) s1 = (Ok r, s') →
  r = serialize_incident row ∧ handled req actor rid s row s'.
Proof.
  intros Hc Ht [Ha Hst] Hs. inv_bind Hs. injection Hs as <- <-. unfold audit_incident in Ha0.
  destruct (write_audit_frame _ _ _ _ Ha0) as (Hi & He & Hst').
  apply write_audit_spec in Ha0 as (Hau & _ & _ & Hp & _). injection Hp as Hp.
  split; [done|]. split; [by eapply change_frame|]. split; [done|]. split; [congruence|].
  exists a. rewrite Hau, Ha. split; [done|]. unfold audited.
  unfold vopt in *. simpl in *. destruct (au_tenant_id a), (au_target_id a); naive_solver.
Qed.

Ltac handler_end req Hc Hs :=
  eexists; eapply (audit_end req); [exact Hc | congruence | eassumption | exact Hs].
(** The common start of a handler: the incident of the tenant. *)
Ltac handler_start Hs :=
  inv_bind Hs; match goal with Hg : get_incident _ _ _ = _ |- _ =>
    apply get_incident_ok in Hg as (-> & Hin & Ht & _) end; inv_bind Hs.

Lemma handle_ok req actor rid s r s' :
  handle req actor rid s = (Ok r, s') →
  ∃ row, r = serialize_incident row ∧ handled req actor rid s row s'.
Proof.
  destruct req as [al|i st|i u m|i b|i ti|i tx|i tx|i e]; simpl;
    unfold from_alert, change_status, assign_incident, note, task, root_cause, lessons, evidence,
      min_length_1; intros Hs.
  4-7: case_match; [|discriminate]; inv_bind Hs; injection Ha as <- <-.
  - inv_bind Hs. apply create_from_alert_change in Ha as (Hc & Ht & Ha). handler_end (FromAlertReq al) Hc Hs.
  - handler_start Hs. apply set_status_change in Ha as (Hc & Ht' & _ & Ha); [|done].
    handler_end (StatusReq i st) Hc Hs.
  - handler_start Hs. apply assign_change in Ha as (Hc & Ht' & _ & Ha); [|done].
    handler_end (AssignReq i u m) Hc Hs.
  - handler_start Hs. apply add_note_change in Ha as (Hc & Ht' & _ & Ha); [|done].
    handler_end (NoteReq i b) Hc Hs.
  - handler_start Hs. apply add_task_change in Ha as (Hc & Ht' & _ & Ha); [|done].
    handler_end (TaskReq i ti) Hc Hs.
  - handler_start Hs. apply set_root_cause_change in Ha as (Hc & Ht' & _ & Ha); [|done].
    handler_end (RootCauseReq i tx) Hc Hs.
  - handler_start Hs. apply set_lessons_change in Ha as (Hc & Ht' & _ & Ha); [|done].
    handler_end (LessonsReq i tx) Hc Hs.
  - handler_start Hs. apply link_evidence_change in Ha as (Hc & Ht' & _ & Ha); [|done].
    handler_end (EvidenceReq i e) Hc Hs.
Qed.

(** *** Every change keeps the tables well-formed and what was recorded *)

Lemma new_wf s s' row :
  incidents_wf s → existsb (same_incident_key row) (d_incidents s) = false →
  nonempty (in_id row) = true → in_status row ∈ INCIDENT_STATUSES → in_severity row ∈ SEVERITIES →
  d_incidents s' = d_incidents s ++ [row] → d_evidence s' = d_evidence s →
  all_stories s' = all_stories s → incidents_wf s' ∧ evolves s s'.
Proof.
  intros [Hi Hk Hr He Hb Hs] Hnew Hne Hst Hsev Hinc Hev Hall.
  assert (∀ r, r ∈ d_incidents s → in_id r ≠ in_id row
            ∧ (in_tenant_id r, in_fingerprint r) ≠ (in_tenant_id row, in_fingerprint row)) as Hdiff.
  { intros r Hr'. destruct (same_incident_key row r) eqn:Hsk.
    - exfalso. assert (existsb (same_incident_key row) (d_incidents s) = true); [|congruence].
      apply existsb_exists. exists r. split; [by apply list_elem_of_In | done].
    - unfold same_incident_key in Hsk. apply orb_false_iff in Hsk as [H1 H2]. py_bool.
      split; [congruence|]. intros [= Ht Hf]. rewrite Ht, Hf, !String.eqb_refl in H2. done. }
  split; [|split].
  - split; rewrite ?Hinc, ?Hev, ?fmap_app.
    + apply NoDup_app. split_and!; [done | | apply NoDup_singleton].
      intros x (r & -> & Hr')%list_elem_of_fmap Hx%list_elem_of_singleton.
      by destruct (Hdiff r Hr').
    + apply NoDup_app. split_and!; [done | | apply NoDup_singleton].
      intros x (r & -> & Hr')%list_elem_of_fmap Hx%list_elem_of_singleton.
      by destruct (Hdiff r Hr').
    + intros r [Hr'|Hr'%list_elem_of_singleton]%elem_of_app; [by apply Hr | by subst].
    + done.
    + intros e i Hel Hei. destruct (Hb e i Hel Hei) as (? & r & Hr' & ?). split; [done|].
      exists r. split; [apply elem_of_app; by left | done].
    + rewrite Hall. intros r Hr'. destruct (Hs r Hr') as (i & Hii & Hrest). exists i. rewrite Hinc.
      split; [apply elem_of_app; by left | done].
  - intros r Hr'. exists r. rewrite Hinc. split; [apply elem_of_app; by left | done].
  - intros e Hel. exists e. by rewrite Hev.
Qed.

Lemma edit_of_kept actor incident row :
  edit_of actor incident row → incident_kept incident row ∧ in_severity row = in_severity incident.
Proof.
  intros [(e & entry & now & -> & _) _ Hev]. split; [|done].
  split; try done. simpl. by apply prefix_app_r.
Qed.

Lemma elem_of_bind eid i at_ actor rows e' :
  e' ∈ bind_evidence eid i at_ actor rows →
  ∃ e, e ∈ rows ∧ ((ev_id e = eid ∧ e' = bound i at_ actor e) ∨ (ev_id e ≠ eid ∧ e' = e)).
Proof.
  intros (e & -> & He)%list_elem_of_fmap. exists e. split; [done|].
  destruct (String.eqb_spec (ev_id e) eid); auto.
Qed.

Lemma link_wf s s' incident row actor e at_ :
  incidents_wf s → incident ∈ d_incidents s → edit_of actor incident row →
  d_incidents s' = replace_incident row (d_incidents s) →
  e ∈ d_evidence s → ev_tenant_id e = in_tenant_id row → ev_sealed e = true →
  otrue (ev_incident_id e) = false ∨ ev_incident_id e = Some (in_id row) →
  ev_id e ∈ in_evidence_ids row →
  d_evidence s' = bind_evidence (ev_id e) (in_id row) at_ actor (d_evidence s) →
  all_stories s' = all_stories s → incidents_wf s' ∧ evolves s s'.
Proof.
  intros Hwf Hin Hed Hinc He Het Hsealed Hfree Hlist Hev Hall.
  destruct (edit_of_kept _ _ _ Hed) as [Hkept Hsev].
  destruct (iw_row _ Hwf incident Hin) as (Hne & Hst & Hsv).
  assert (∀ x, x ∈ d_evidence s → ev_id x = ev_id e → x = e) as Huniq.
  { intros x Hx Hid. eapply (NoDup_fmap_eq ev_id); [apply Hwf | done..]. }
  assert (∀ i, ev_incident_id e = Some i → i = in_id row) as Hsame.
  { intros i Hi. destruct Hfree as [Hf|Hf]; [|congruence].
    destruct (iw_bound _ Hwf e i He Hi) as (_ & r & Hr & <- & _).
    destruct (iw_row _ Hwf r Hr) as (Hn & _). rewrite Hi in Hf. simpl in Hf. congruence. }
  set (s1 := set_evidence (λ _, d_evidence s) s').
  destruct (replace_wf s s1 incident row) as [Hwf1 Hkeep]; try done.
  { by apply (eo_status _ _ _ Hed). } { by rewrite Hsev. }
  destruct Hwf1 as [W1 W2 W3 W4 W5 W6];
    [done | intros r Hr; left; rewrite <-Hall; exact Hr|].
  change (d_incidents s1) with (d_incidents s') in *. change (d_evidence s1) with (d_evidence s) in *.
  split; [split; try done|split; [done|]].
  - rewrite Hev. unfold bind_evidence. rewrite <-list_fmap_compose.
    erewrite list_fmap_ext; [exact W4|]. intros k x _. simpl. by case_match.
  - intros x i Hx Hi. rewrite Hev in Hx. apply elem_of_bind in Hx as (y & Hy & [[Hid ->]|[Hid ->]]); [|by apply W5].
    apply Huniq in Hid as ->; [|done]. injection Hi as <-. split; [done|]. exists row.
    rewrite Hinc. split_and!; [|done..]. by eapply replace_elem, Hkept.
  - intros x Hx. destruct (String.eqb_spec (ev_id x) (ev_id e)) as [Hid|Hid].
    + apply Huniq in Hid as ->; [|done]. exists (bound (in_id row) at_ actor e). rewrite Hev. split.
      * apply list_elem_of_fmap. exists e. by rewrite String.eqb_refl.
      * split; try done; simpl; [|by apply prefix_app_r]. intros i Hi. f_equal. symmetry. auto.
    + exists x. rewrite Hev. split; [|done]. apply list_elem_of_fmap. exists x. split; [|done].
      by destruct (String.eqb_spec (ev_id x) (ev_id e)).
Qed.

Lemma change_wf actor s row s' :
  incidents_wf s → change actor s row s' → all_stories s' = all_stories s →
  incidents_wf s' ∧ evolves s s'.
Proof.
  intros Hwf [Hin Hinc Hev|Hnew Hne Hst Hsev Hinc Hev|incident Hin Hed Hinc Hev] Hall.
  - split; [|split; [intros r; rewrite Hinc; by exists r | intros e; rewrite Hev; by exists e]].
    destruct Hwf as [W1 W2 W3 W4 W5 W6]. split; unfold story_grouped in *; by rewrite ?Hinc, ?Hev, ?Hall.
  - by eapply new_wf.
  - destruct (edit_of_kept _ _ _ Hed) as [Hkept Hsev].
    destruct (iw_row _ Hwf incident Hin) as (Hne & Hst & Hsv).
    destruct Hev as [Hev|e at_ He Het Hse Hfree Hlist Hev]; [|by eapply link_wf].
    destruct (replace_wf s s' incident row) as [Hwf' Hkeep]; try done.
    { by apply (eo_status _ _ _ Hed). } { by rewrite Hsev. }
    split; [by apply Hwf'; [|rewrite Hall; left]|]. split; [done|]. intros e He. exists e. by rewrite Hev.
Qed.

(** *** Grouping storylines *)

Lemma find_or_create_ok t story found now s inc n s1 :
  find_or_create t story found now s = (Ok (inc, n), s1) →
  (found = Some inc ∧ n = 0 ∧ s1 = s)
  ∨ (found = None ∧ n = 1 ∧ ∃ i entry, inc = story_incident t i story entry now ∧ nonempty i = true
     ∧ existsb (same_incident_key inc) (d_incidents s) = false
     ∧ d_incidents s1 = d_incidents s ++ [inc] ∧ d_evidence s1 = d_evidence s
     ∧ d_storylines s1 = all_stories s ∧ d_pend_storylines s1 = []).
Proof.
  unfold find_or_create. destruct found as [row|]; [intros [= <- <- <-]; by left|].
  intros Hs. right. do 2 (inv_bind Hs; injection Ha as <- <-). inv_bind Hs.
  apply add_unique_ok in Ha as [-> Hnew]. injection Hs as <- <- <-.
  split; [done|]. split; [done|]. by eexists _, _.
Qed.

(** What grouping one storyline adds. *)
Definition grouped_new (t : string) (story : Storyline) (r : IncidentRecord) : Prop :=
  in_tenant_id r = t ∧ in_payload r = FromStory story ∧ in_evidence_ids r = sl_evidence_ids story
  ∧ in_event_ids r = sl_event_ids story
  ∧ in_severity r = (if fl_le high_bar (sl_confidence story) then "high" else "medium").
(** Grouping changes no more of an incident than its list of storylines. *)
Definition same_case (r r' : IncidentRecord) : Prop :=
  in_id r' = in_id r ∧ in_tenant_id r' = in_tenant_id r ∧ in_payload r' = in_payload r
  ∧ in_evidence_ids r' = in_evidence_ids r ∧ in_event_ids r' = in_event_ids r
  ∧ in_severity r' = in_severity r ∧ in_status r' = in_status r ∧ in_timeline r' = in_timeline r.
Record grouping (t : string) (stories : list Storyline) (n : Z) (s s' : db) : Prop := {
  gr_wf : incidents_wf s';
  gr_evolves : evolves s s';
  gr_all : ∀ story, story ∈ stories → ∃ i, i ∈ d_incidents s' ∧ in_tenant_id i = t
                                            ∧ in_fingerprint i = incident_fingerprint story;
  gr_count : Z.of_nat (length (d_incidents s')) = Z.of_nat (length (d_incidents s)) + n;
  gr_evidence : d_evidence s' = d_evidence s;
  gr_new : ∀ r', r' ∈ d_incidents s' →
    (∃ r, r ∈ d_incidents s ∧ same_case r r')
    ∨ (∃ story, story ∈ stories ∧ grouped_new t story r');
}.

Lemma length_replace row rows : length (replace_incident row rows) = length rows.
Proof. apply length_fmap. Qed.
Lemma with_storylines_kept ids now r :
  in_storyline_ids r ⊆ ids → incident_kept r (with_storylines ids now r).
Proof. intros Hids. by split. Qed.

(** The storyline is recorded under an incident of its tenant and fingerprint. *)
Lemma record_story_ok t story inc now s1 acc' s' (k : Z * Z) :
  incidents_wf s1 → inc ∈ d_incidents s1 → in_tenant_id inc = t →
  in_fingerprint inc = incident_fingerprint story →
  (modify (set_pend_storylines (λ l, l ++ [story_record t (in_id inc) story]));;
   (if mem (sl_storyline_id story) (in_storyline_ids inc) then mret tt
    else modify (set_incidents (replace_incident
           (with_storylines (in_storyline_ids inc ++ [sl_storyline_id story]) now inc))));;
   mret k) s1 = (Ok acc', s') →
  acc' = k ∧ grouping t [story] 0 s1 s'.
Proof.
  intros Hwf Hin Ht Hf Hs. set (rec := story_record t (in_id inc) story) in *.
  inv_bind Hs. injection Ha as <- <-. inv_bind Hs. injection Hs as <- <-.
  set (s2 := set_pend_storylines _ s1) in Ha.
  assert (all_stories s2 = all_stories s1 ++ [rec]) as Hall.
  { unfold all_stories. simpl. apply app_assoc. }
  split; [done|].
  destruct (mem (sl_storyline_id story) (in_storyline_ids inc)) eqn:Hm.
  - injection Ha as <- <-. apply mem_spec in Hm.
    assert (story_grouped s2 rec) as Hrec by (exists inc; by split_and!).
    split; simpl; [| |by intros x ->%list_elem_of_singleton; exists inc | lia | done | by left; eexists].
    + destruct Hwf as [W1 W2 W3 W4 W5 W6]. split; try done. rewrite Hall.
      intros r [Hr|Hr%list_elem_of_singleton]%elem_of_app; [by apply W6 | by subst].
    + split; [intros r Hr; by exists r | intros e He; by exists e].
  - injection Ha as <- <-. set (row := with_storylines _ now inc).
    assert (incident_kept inc row) as Hk by (apply with_storylines_kept; set_solver).
    destruct (iw_row _ Hwf inc Hin) as (_ & Hst & Hsev).
    set (s3 := set_incidents _ s2).
    destruct (replace_wf s1 s3 inc row) as [Hwf' Hkeep]; try done.
    assert (row ∈ d_incidents s3) as Hrow by by eapply replace_elem.
    split; [| |intros x ->%list_elem_of_singleton; by exists row | | done |].
    + apply Hwf'; [done|]. change (all_stories s3) with (all_stories s2). rewrite Hall.
      intros r [Hr|Hr%list_elem_of_singleton]%elem_of_app; [by left|]. right. subst r.
      exists row. split_and!; [done..|]. simpl. set_solver.
    + split; [done|]. intros e He. by exists e.
    + simpl. rewrite length_replace. lia.
    + intros r' [->|[Hr' _]]%elem_of_replace; left; [by exists inc | by exists r'].
Qed.

Lemma grouped_new_same t story r r' : grouped_new t story r → same_case r r' → grouped_new t story r'.
Proof. intros (? & ? & ? & ? & ?) (? & ? & ? & ? & ? & ? & _). split_and!; congruence. Qed.
Lemma same_case_trans a b c : same_case a b → same_case b c → same_case a c.
Proof.
  intros (? & ? & ? & ? & ? & ? & ? & ?) (? & ? & ? & ? & ? & ? & ? & ?). split_and!; congruence.
Qed.

Lemma grouping_nil t s : incidents_wf s → grouping t [] 0 s s.
Proof.
  intros Hwf. split; [done | done | by intros ? ?%not_elem_of_nil | lia | done |].
  intros r Hr. left. by exists r.
Qed.
Lemma grouping_trans t l l' n n' s s1 s2 :
  grouping t l n s s1 → grouping t l' n' s1 s2 → grouping t (l ++ l') (n + n') s s2.
Proof.
  intros [W1 E1 A1 C1 V1 N1] [W2 E2 A2 C2 V2 N2].
  split; [done | by etrans | | lia | congruence |].
  - intros story [Hs|Hs]%elem_of_app; [|by apply A2]. destruct (A1 story Hs) as (i & Hi & Ht & Hf).
    destruct (el_incidents _ _ E2 i Hi) as (i' & Hi' & [_ K2 (K3 & _) _ _ _]).
    exists i'. split_and!; congruence.
  - intros r' [(r & Hr & Hsame)|(story & Hs & Hg)]%N2; [|right; exists story; split; [set_solver | done]].
    apply N1 in Hr as [(r0 & Hr0 & Hsame0)|(story & Hs & Hg)].
    + left. exists r0. split; [done | by eapply same_case_trans].
    + right. exists story. split; [set_solver | by eapply grouped_new_same].
Qed.

Lemma stories_like_elem t f s r :
  scalar_one_or_none (stories_like t f s) = Ok (Some r) →
  r ∈ d_storylines s ∧ sr_tenant_id r = t ∧ sr_fingerprint r = f.
Proof.
  intros Hr%scalar_one_Some. assert (r ∈ [r]) as Hin by left. rewrite <-Hr in Hin.
  apply elem_of_select in Hin as [Hin Hp]. by py_bool.
Qed.
Lemma incidents_like_elem t f s r :
  scalar_one_or_none (incidents_like t f s) = Ok (Some r) →
  r ∈ d_incidents s ∧ in_tenant_id r = t ∧ in_fingerprint r = f.
Proof.
  intros Hr%scalar_one_Some. assert (r ∈ [r]) as Hin by left. rewrite <-Hr in Hin.
  apply elem_of_select in Hin as [Hin Hp]. by py_bool.
Qed.

(** The incident found or created, in the state it leaves. *)
Lemma find_or_create_grouping t story found now s inc n s1 :
  incidents_wf s → scalar_one_or_none (incidents_like t (incident_fingerprint story) s) = Ok found →
  find_or_create t story found now s = (Ok (inc, n), s1) →
  grouping t [story] n s s1 ∧ inc ∈ d_incidents s1 ∧ in_tenant_id inc = t
  ∧ in_fingerprint inc = incident_fingerprint story.
Proof.
  intros Hwf Hfound Hs.
  apply find_or_create_ok in Hs as [(-> & -> & ->)|(_ & -> & i & entry & -> & Hne & Hnew & Hi & He & Hst & Hp)].
  - apply incidents_like_elem in Hfound as (Hin & Ht & Hf). split; [|done].
    destruct (grouping_nil t s Hwf) as [W E _ C V N]. split; try done.
    + intros x ->%list_elem_of_singleton. by exists inc.
    + intros r Hr. left. destruct (N r Hr) as [?|(x & Hx & _)]; [done | by apply not_elem_of_nil in Hx].
  - set (inc := story_incident t i story entry now) in *.
    assert (inc ∈ d_incidents s1) as Hin by (rewrite Hi; set_solver).
    destruct (new_wf s s1 inc) as [W E]; try done.
    { by apply mem_spec. }
    { cbn [in_severity inc story_incident]. case_match; by apply mem_spec. }
    { unfold all_stories at 1. by rewrite Hp, app_nil_r. }
    split; [|done]. split; try done.
    + intros x ->%list_elem_of_singleton. by exists inc.
    + rewrite Hi, length_app. simpl. lia.
    + intros r. rewrite Hi. intros [Hr|Hr%list_elem_of_singleton]%elem_of_app; [left; by exists r|].
      right. exists story. subst r. split; [by left | done].
Qed.

Lemma persist_one_ok t acc story s acc' s' :
  incidents_wf s → persist_one t acc story s = (Ok acc', s') →
  grouping t [story] (snd acc' - snd acc) s s'.
Proof.
  intros Hwf. destruct acc as [cs ci]. unfold persist_one, lift. intros Hs.
  inv_bind Hs. injection Ha as <- <-. inv_bind Hs. injection Ha as Hex <-.
  destruct (incident_of a s) as [inc|] eqn:Hio.
  - injection Hs as <- <-. destruct a as [r|]; [|discriminate].
    apply stories_like_elem in Hex as (Hr & Ht & Hf).
    destruct (iw_stories _ Hwf r) as (i & Hi & _ & Hit & Hif & _); [unfold all_stories; set_solver|].
    destruct (grouping_nil t s Hwf) as [W E _ C V N]. rewrite Z.sub_diag. split; try done.
    + intros x ->%list_elem_of_singleton. exists i. split_and!; congruence.
    + intros x Hx. left. destruct (N x Hx) as [?|(y & Hy & _)]; [done | by apply not_elem_of_nil in Hy].
  - inv_bind Hs. injection Ha as Hfound <-. inv_bind Hs. injection Ha as <- <-. inv_bind Hs.
    destruct a1 as [inc n].
    assert (incidents_wf (set_draws (λ _, tick (d_draws s)) s)) as Hwf' by (by destruct Hwf).
    destruct (find_or_create_grouping _ _ _ _ _ _ _ _ Hwf' Hfound Ha) as (Hg & Hin & Ht & Hf).
    assert (grouping t [story] n s s0) as Hg'.
    { destruct Hg as [W [E1 E2] A C V N]. split; [done | by split | done..]. }
    destruct a as [r|].
    + injection Hs as <- <-. simpl. by replace (ci + n - ci) with n by lia.
    + apply record_story_ok in Hs as [-> Hg2]; try done; [|by apply Hg].
      pose proof (grouping_trans _ _ _ _ _ _ _ _ Hg' Hg2) as [W E A C V N]. simpl.
      replace (ci + n - ci) with (n + 0) by lia. split; try done.
      * intros x Hx. apply A. set_solver.
      * intros x [?|(y & Hy & ?)]%N; [by left | right; exists y; split; [set_solver | done]].
Qed.

Lemma persist_loop_ok t stories acc s acc' s' :
  incidents_wf s → foldM (persist_one t) acc stories s = (Ok acc', s') →
  grouping t stories (snd acc' - snd acc) s s'.
Proof.
  revert acc s. induction stories as [|story stories IH]; intros acc s Hwf Hs; simpl in Hs.
  { injection Hs as <- <-. rewrite Z.sub_diag. by apply grouping_nil. }
  inv_bind Hs. apply persist_one_ok in Ha; [|done]. apply IH in Hs; [|by apply Ha].
  pose proof (grouping_trans _ _ _ _ _ _ _ _ Ha Hs) as Hg. simpl in Hg.
  by replace (snd a - snd acc + (snd acc' - snd a)) with (snd acc' - snd acc) in Hg by lia.
Qed.

(** *** Repeated storylines *)

Definition is_story_of (t f : string) (r : StorylineRecord) : bool :=
  (sr_tenant_id r =? t)%string && (sr_fingerprint r =? f)%string.
Definition stored_of (t f : string) (s : db) : list StorylineRecord := select (is_story_of t f) (all_stories s).

Lemma persist_one_stories t acc story s acc' s' :
  persist_one t acc story s = (Ok acc', s') →
  d_storylines s `prefix_of` d_storylines s' ∧ d_storylines s' `prefix_of` all_stories s
  ∧ ((all_stories s' = all_stories s ∧ stories_like t (incident_fingerprint story) s ≠ [])
     ∨ ∃ i, all_stories s' = all_stories s ++ [story_record t i story]).
Proof.
  destruct acc as [cs ci]. unfold persist_one, lift. intros Hs.
  inv_bind Hs. injection Ha as <- <-. inv_bind Hs. injection Ha as Hex <-.
  assert (d_storylines s `prefix_of` all_stories s) as Hpre by by apply prefix_app_r.
  destruct (incident_of a s) as [inc|] eqn:Hio.
  { injection Hs as <- <-. destruct a as [r|]; [|discriminate]. apply scalar_one_Some in Hex.
    split_and!; [done | done|]. left. split; [done | by rewrite Hex]. }
  inv_bind Hs. injection Ha as Hfound <-. inv_bind Hs. injection Ha as <- <-. inv_bind Hs.
  destruct a1 as [inc n].
  assert (d_storylines s `prefix_of` d_storylines s0 ∧ d_storylines s0 `prefix_of` all_stories s
          ∧ all_stories s0 = all_stories s) as (P1 & P2 & P3).
  { apply find_or_create_ok in Ha as [(_ & _ & ->)|(_ & _ & i & en & _ & _ & _ & _ & _ & Hst & Hp)]; [done|].
    unfold all_stories at 2. rewrite Hst, Hp, app_nil_r. split_and!; done. }
  destruct a as [r|].
  - injection Hs as <- <-. apply scalar_one_Some in Hex. split_and!; [done | done|]. left.
    split; [done | by rewrite Hex].
  - inv_bind Hs. injection Ha0 as <- <-. inv_bind Hs. injection Hs as <- <-.
    assert (d_storylines s1 = d_storylines s0 ∧ all_stories s1 = all_stories s0 ++ [story_record t (in_id inc) story])
      as [-> ->].
    { case_match; injection Ha0 as <- <-; (split; [done|]); unfold all_stories; simpl; apply app_assoc. }
    split_and!; [done | done|]. right. exists (in_id inc). by rewrite P3.
Qed.

Lemma persist_loop_stories t stories acc s acc' s' :
  foldM (persist_one t) acc stories s = (Ok acc', s') →
  d_storylines s `prefix_of` d_storylines s'
  ∧ ∃ new, all_stories s' = all_stories s ++ new
           ∧ Forall (λ r, sr_fingerprint r ∈ incident_fingerprint <$> stories) new.
Proof.
  revert acc s. induction stories as [|story stories IH]; intros acc s Hs; simpl in Hs.
  { injection Hs as <- <-. split; [done|]. exists []. rewrite app_nil_r. by split. }
  inv_bind Hs. apply persist_one_stories in Ha as (P1 & _ & Hone). apply IH in Hs as [P2 (new & Hn & Hf)].
  split; [by etrans|].
  assert (Forall (λ r, sr_fingerprint r ∈ incident_fingerprint <$> story :: stories) new) as Hf'.
  { eapply Forall_impl; [exact Hf|]. simpl. intros r Hr. by right. }
  destruct Hone as [[He _]|[i He]]; rewrite He in Hn; [by exists new|].
  exists (story_record t i story :: new). rewrite Hn, <-app_assoc. split; [done|].
  constructor; [simpl; left | done].
Qed.
(** A loop that returns never met a fingerprint stored twice. *)
Lemma persist_loop_unique t stories acc s acc' s' x :
  foldM (persist_one t) acc stories s = (Ok acc', s') → x ∈ stories →
  (length (stories_like t (incident_fingerprint x) s) ≤ 1)%nat.
Proof.
  revert acc s. induction stories as [|story stories IH]; intros acc s Hs Hx; simpl in Hs.
  { by apply not_elem_of_nil in Hx. }
  inv_bind Hs. apply elem_of_cons in Hx as [->|Hx].
  - destruct acc as [cs ci]. unfold persist_one, lift in Ha. inv_bind Ha. injection Ha0 as <- <-.
    inv_bind Ha. injection Ha0 as Hex _. destruct (stories_like _ _ s) as [|r [|]]; simpl in *; [lia | lia | discriminate].
  - apply persist_one_stories in Ha as [[l Hl] _]. specialize (IH _ _ Hs Hx).
    unfold stories_like in *. rewrite Hl, select_app, length_app in IH. lia.
Qed.

(** Two neighbouring storylines with one fingerprint are both stored. *)
Lemma persist_pair t pre a b post acc s acc' s' :
  let f := incident_fingerprint a in
  f ∉ incident_fingerprint <$> pre → incident_fingerprint b = f → stored_of t f s = [] →
  foldM (persist_one t) acc (pre ++ a :: b :: post) s = (Ok acc', s') → (2 ≤ length (stored_of t f s'))%nat.
Proof.
  intros f Hpre Hb Hnone Hs.
  assert (∀ l l' : list StorylineRecord, l `prefix_of` l' → select (is_story_of t f) l' = [] →
    select (is_story_of t f) l = []) as Hprefix.
  { intros l l' [k ->] Hk. rewrite select_app in Hk. by apply app_nil in Hk as [? _]. }
  assert (∀ i x, incident_fingerprint x = f → is_story_of t f (story_record t i x) = true) as Hrec.
  { intros i x Hx. unfold is_story_of. simpl. by rewrite Hx, !String.eqb_refl. }
  apply foldM_app_ok in Hs as (c1 & s1 & H1 & Hs). simpl in Hs. inv_bind Hs. inv_bind Hs.
  apply persist_loop_stories in H1 as [_ (new & Hn & Hf)].
  assert (select (is_story_of t f) (all_stories s1) = []) as Hn1.
  { rewrite Hn, select_app. unfold stored_of in Hnone. rewrite Hnone. simpl.
    apply select_nil_iff. intros r Hr. destruct (is_story_of t f r) eqn:Hi; [|done].
    exfalso. apply Hpre. unfold is_story_of in Hi. py_bool. rewrite Forall_forall in Hf.
    replace f with (sr_fingerprint r) by congruence. by apply Hf. }
  apply persist_one_stories in Ha as (_ & P1 & [[_ Hc]|[i1 E1]]).
  { exfalso. apply Hc. eapply Hprefix; [|exact Hn1]. by apply prefix_app_r. }
  apply persist_one_stories in Ha0 as (_ & _ & [[_ Hc]|[i2 E2]]).
  { exfalso. apply Hc. rewrite Hb. eapply Hprefix; [exact P1 | exact Hn1]. }
  apply persist_loop_stories in Hs as [_ (new' & Hn' & _)].
  unfold stored_of. rewrite Hn', E2, E1, !select_app, !length_app. unfold select at 2 3.
  rewrite !filter_cons, !decide_True by auto. simpl. lia.
Qed.
End incident_facts.

(** ** Theorems *)

Lemma same_tables_wf s s' :
  incidents_wf s → d_incidents s' = d_incidents s → d_evidence s' = d_evidence s →
  all_stories s' = all_stories s → incidents_wf s' ∧ evolves s s'.
Proof.
  intros [W1 W2 W3 W4 W5 W6] Hinc Hev Hall.
  split; [split; unfold story_grouped in *; by rewrite ?Hinc, ?Hev, ?Hall|].
  split; [intros r; rewrite Hinc; by exists r | intros e; rewrite Hev; by exists e].
Qed.
Lemma flush_wf s : incidents_wf s → incidents_wf (flush_pending s).
Proof.
  intros Hwf. refine (proj1 (same_tables_wf s _ Hwf _ _ _)); [done | done | apply all_stories_flush].
Qed.

(** What happens to incidents, storylines and the binding of evidence: a request of an
    analyst, a grouping of storylines, or another part of the program, which may add evidence
    bound to no incident. A custody event ([append_custody] of [EvidenceLocker]) is not among
    the steps: it touches none of these, and only adds an entry to the chain of custody of
    a row. *)
Inductive ir_step `{Oracle} `{AuthLib} : db → db → Prop :=
| ir_request h rid req s : ir_step s (snd (serve h rid req s))
| ir_group t s : ir_step s (snd (get_db (persist_storylines_and_incidents t) s))
| ir_other s s' new :
    d_incidents s' = d_incidents s → all_stories s' = all_stories s →
    d_evidence s' = d_evidence s ++ new → Forall (λ e, ev_incident_id e = None) new →
    NoDup (ev_id <$> d_evidence s') → ir_step s s'.

Section incident_theorems.
Context `{O : Oracle} {laws : OracleLaws O} `{AuthLib}.

(** A committed request leaves what its handler left, a failed one what it found. *)
Lemma get_db_wf {A} (h : M db A) s :
  incidents_wf s →
  (∀ a s', h s = (Ok a, s') → incidents_wf s' ∧ evolves s s') →
  incidents_wf (snd (get_db h s)) ∧ evolves s (snd (get_db h s)).
Proof.
  intros Hwf Hok. unfold get_db. destruct (h s) as [[a|e] s'] eqn:Hs; simpl.
  - destruct (Hok a s' eq_refl) as [Hwf' Hev]. split; [by apply flush_wf|]. destruct Hev. by split.
  - by apply same_tables_wf.
Qed.

Lemma persist_inv t s c s' :
  persist_storylines_and_incidents t s = (Ok c, s') →
  ∃ stories d' acc s1,
    correlate (load_window t s) (fr_payload <$> list_findings t s) (d_draws s) = (Ok stories, d')
    ∧ foldM (persist_one t) (0, 0) stories (set_draws (λ _, d') s) = (Ok acc, s1)
    ∧ s' = flush_pending s1 ∧ pc_incidents c = snd acc
    ∧ pc_total_storylines c = Z.of_nat (length stories).
Proof.
  unfold persist_storylines_and_incidents. intros Hs. inv_bind Hs. injection Ha as <- <-.
  inv_bind Hs. unfold drawing_db in Ha. destruct (correlate _ _ _) as [[stories|e] d'] eqn:He; [|discriminate].
  injection Ha as <- <-. inv_bind Hs. injection Hs as <- <-. by exists stories, d', a, s0.
Qed.
Lemma persist_ok t s c s' :
  incidents_wf s → persist_storylines_and_incidents t s = (Ok c, s') →
  ∃ stories d', correlate (load_window t s) (fr_payload <$> list_findings t s) (d_draws s) = (Ok stories, d')
    ∧ (∀ st, st ∈ stories → sound_story (load_window t s) (fr_payload <$> list_findings t s) st)
    ∧ pc_total_storylines c = Z.of_nat (length stories) ∧ grouping t stories (pc_incidents c) s s'.
Proof.
  intros Hwf (stories & d' & acc & s1 & He & Hf & -> & -> & ->)%persist_inv. exists stories, d'.
  destruct (correlate_made (load_window t s) (fr_payload <$> list_findings t s) (d_draws s))
    as (stories' & d'' & He' & [_ _ Hsound _ _]). rewrite He in He'. injection He' as <- <-.
  split_and!; [done | done | done|].
  assert (incidents_wf (set_draws (λ _, d') s)) as Hwf' by (by destruct Hwf).
  pose proof (persist_loop_ok _ _ _ _ _ _ Hwf' Hf) as [W [E1 E2] A C V N].
  rewrite Z.sub_0_r in C. split; try done. by apply flush_wf.
Qed.

Lemma serve_ok h rid req s r s' :
  serve h rid req s = (Ok r, s') →
  ∃ actor row s1, authorised h s (ta_tenant_id actor) "incidents:write" (ta_actor actor)
    ∧ r = serialize_incident row ∧ handled req actor rid s row s1 ∧ s' = flush_pending s1.
Proof.
  unfold serve. intros (s1 & He & ->)%get_db_ok. inv_bind He. apply require_ok in Ha as (-> & Hauth & _).
  apply handle_ok in He as (row & -> & Hh). by exists a, row, s1.
Qed.

Lemma ir_step_wf s s' : incidents_wf s → ir_step s s' → incidents_wf s' ∧ evolves s s'.
Proof.
  intros Hwf Hst. destruct Hst as [h rid req s|t s|s s' new Hi Hall Hev Hnew Hnd].
  - unfold serve. apply get_db_wf; [done|]. intros r s' Hs. inv_bind Hs.
    apply require_ok in Ha as (-> & _). apply handle_ok in Hs as (row & _ & Hc & _ & Hall & _).
    by eapply change_wf.
  - apply get_db_wf; [done|]. intros c s' Hs.
    destruct (persist_ok _ _ _ _ Hwf Hs) as (stories & d' & _ & _ & _ & Hg). by destruct Hg.
  - destruct Hwf as [W1 W2 W3 W4 W5 W6]. split; [split; try by rewrite ?Hi|split].
    + intros e i. rewrite Hev, Hi. intros [He|He]%elem_of_app; [by apply W5|].
      rewrite Forall_forall in Hnew. rewrite (Hnew e He). discriminate.
    + rewrite Hall. unfold story_grouped in *. by rewrite Hi.
    + intros r Hr. exists r. by rewrite Hi.
    + intros e He. exists e. rewrite Hev. split; [apply elem_of_app; by left | done].
Qed.

Lemma empty_wf : incidents_wf empty_db.
Proof.
  split; [apply NoDup_nil_2 | apply NoDup_nil_2 | by intros ? ?%not_elem_of_nil | apply NoDup_nil_2
         | by intros ?? ?%not_elem_of_nil | by intros ? ?%not_elem_of_nil].
Qed.
Lemma ir_steps_wf s s' : incidents_wf s → rtc ir_step s s' → incidents_wf s' ∧ evolves s s'.
Proof.
  intros Hwf Hst. induction Hst as [s|s s1 s' H1 _ IH]; [by split|].
  destruct (ir_step_wf _ _ Hwf H1) as [Hwf1 E1]. destruct (IH Hwf1) as [Hwf' E2]. split; [done | by etrans].
Qed.

(** C6. The life of the incidents, over every interleaving of analyst requests, groupings
    of storylines and additions of evidence, failed requests included: identifiers are
    unique and a tenant has at most one incident per fingerprint; statuses and severities
    are declared ones; every stored storyline belongs to an incident of its tenant and
    fingerprint; evidence bound to an incident is sealed, of the same tenant and listed
    by it. From any reachable state on, no incident disappears or changes its tenant,
    its origin or its recorded timeline, these steps alter no evidence, and evidence once bound
    stays bound to the same incident. *)
Theorem incident_lifecycle s s' :
  rtc ir_step empty_db s → rtc ir_step s s' → incidents_wf s' ∧ evolves s s'.
Proof.
  intros Hr Hst. destruct (ir_steps_wf _ _ empty_wf Hr) as [Hwf _]. by apply ir_steps_wf.
Qed.

(** C7. Every analyst request is authorised and accounted for: a request that succeeds is
    by an actor with incidents:write in the tenant it acts for; it touches one incident,
    of that tenant, which is the one it answers with, and leaves all others as they were;
    and it adds exactly one audit record, which names that tenant, actor, request, action
    and incident. A request that fails changes nothing. *)
Theorem incident_requests_audited h rid req s :
  (∀ r s', serve h rid req s = (Ok r, s') →
     ∃ actor row a, authorised h s (ta_tenant_id actor) "incidents:write" (ta_actor actor)
       ∧ r = serialize_incident row ∧ row ∈ d_incidents s' ∧ in_tenant_id row = ta_tenant_id actor
       ∧ (∀ x, in_id x ≠ in_id row → x ∈ d_incidents s ↔ x ∈ d_incidents s')
       ∧ d_audit s' = d_audit s ++ [a] ∧ audited req actor rid row a)
  ∧ (∀ e s', serve h rid req s = (Raise e, s') → s' = set_draws (λ _, d_draws s') s).
Proof.
  split; [|intros e s' Hs; by eapply get_db_raise].
  intros r s' Hs. apply serve_ok in Hs as (actor & row & s1 & Hauth & -> & (Hc & Ht & _ & a & Ha & Had) & ->).
  exists actor, row, a. simpl. split_and!; try done.
  - destruct Hc as [Hin Hi _|_ _ _ _ Hi _|i Hin Hed Hi _]; rewrite Hi; [done | set_solver|].
    destruct (edit_of_kept _ _ _ Hed) as [[Hid _ _ _ _ _] _]. by eapply replace_elem.
  - intros x Hx. destruct Hc as [Hin Hi _|_ _ _ _ Hi _|i Hin Hed Hi _]; rewrite Hi; [done | |].
    + rewrite elem_of_app, list_elem_of_singleton. split; [auto|]. by intros [?| ->].
    + split.
      * intros Hx'. apply list_elem_of_fmap. exists x. split; [|done].
        by destruct (String.eqb_spec (in_id x) (in_id row)).
      * by intros [->|[? _]]%elem_of_replace.
Qed.

(** Grouping leaves no storyline behind: in a well-formed state, a run that returns
    leaves a well-formed state in which every storyline the correlation found, and it
    always finds them, has exactly one incident of its tenant and fingerprint; the run
    counts the storylines and the incidents it created, and what it creates carries the
    events and evidence of a storyline; earlier incidents keep everything but their list
    of storylines. *)
Theorem storylines_grouped t s c s' :
  incidents_wf s → persist_storylines_and_incidents t s = (Ok c, s') →
  ∃ stories d', correlate (load_window t s) (fr_payload <$> list_findings t s) (d_draws s) = (Ok stories, d')
    ∧ pc_total_storylines c = Z.of_nat (length stories)
    ∧ grouping t stories (pc_incidents c) s s'.
Proof.
  intros Hwf Hs. destruct (persist_ok _ _ _ _ Hwf Hs) as (stories & d' & He & _ & Hn & Hg).
  by exists stories, d'.
Qed.

(** The evidence of a grouped incident does not exist: the findings the rules store cite
    placeholder identifiers, which the storyline and then the incident copy, while the
    evidence itself is stored under drawn identifiers. So every evidence identifier of an
    incident created by grouping names no row of the evidence table. And its severity is
    always "high": confidences are percentages, compared with 0.8. *)
Theorem grouped_incidents_dangle t s c s' :
  incidents_wf s → (∀ n, startswith (uuid_hex n) "pending_" = false) →
  (∀ r v, r ∈ d_findings s → v ∈ fi_evidence (fr_payload r) →
     ∃ i, fe_evidence_id v = "evi_pending_" +:+ i) →
  evidence_drawn s → persist_storylines_and_incidents t s = (Ok c, s') →
  ∀ r', r' ∈ d_incidents s' →
    (∃ r, r ∈ d_incidents s ∧ same_case r r')
    ∨ (in_severity r' = "high" ∧ ∀ x, x ∈ in_evidence_ids r' → ∀ e, e ∈ d_evidence s' → ev_id e ≠ x).
Proof.
  intros Hwf Hhex Hpend Hdrawn Hs r' Hr'.
  destruct (persist_ok _ _ _ _ Hwf Hs) as (stories & d' & _ & Hsound & _ & [_ _ _ _ Hev Hnew]).
  destruct (Hnew r' Hr') as [?|(story & Hst & (_ & _ & He & _ & Hsev))]; [by left|]. right.
  destruct (Hsound story Hst) as (cited & [Hc _ _ Hevi _ (conf & Hconf & Hcf)]). split.
  - rewrite Hsev, Hcf. clear -Hconf. repeat (apply elem_of_cons in Hconf as [->|Hconf]; [by vm_compute|]).
    by apply not_elem_of_nil in Hconf.
  - intros x Hx e Hin Heq. rewrite He, Hevi in Hx.
    apply list_elem_of_bind in Hx as (f & Hx & Hf). apply list_elem_of_fmap in Hx as (v & -> & Hv).
    apply Hc, list_elem_of_fmap in Hf as (r & -> & Hr). unfold list_findings in Hr.
    apply elem_of_sort_by, elem_of_select in Hr as [Hr _].
    destruct (Hpend r v Hr Hv) as [i Hi]. rewrite Hev in Hin. destruct (Hdrawn e Hin) as (n & _ & Hn).
    rewrite Hn, Hi in Heq. injection Heq as Heq. specialize (Hhex n). rewrite Heq in Hhex.
    pose proof (prefix_app "pending_" i) as Hp. cbn in Hhex, Hp. congruence.
Qed.

(** Two storylines of one fingerprint found in the same run stop correlation for good:
    neither is visible to the other's query, so both are stored, and every later run in
    which the correlation still finds that fingerprint fails instead of returning, since
    it expects at most one stored storyline. *)
Theorem repeated_storyline_blocks t s c s1 pre a b post d' :
  correlate (load_window t s) (fr_payload <$> list_findings t s) (d_draws s)
    = (Ok (pre ++ a :: b :: post), d') →
  incident_fingerprint a ∉ incident_fingerprint <$> pre →
  incident_fingerprint b = incident_fingerprint a → stored_of t (incident_fingerprint a) s = [] →
  persist_storylines_and_incidents t s = (Ok c, s1) →
  ∀ s2 stories d2 x, d_storylines s2 = d_storylines s1 →
    correlate (load_window t s2) (fr_payload <$> list_findings t s2) (d_draws s2) = (Ok stories, d2) →
    x ∈ stories → incident_fingerprint x = incident_fingerprint a →
    ∀ c2 s3, persist_storylines_and_incidents t s2 ≠ (Ok c2, s3).
Proof.
  intros Hcor Hpre Hb Hnone (stories1 & d1 & acc & s' & Hcor' & Hf & -> & _ & _)%persist_inv.
  rewrite Hcor in Hcor'. injection Hcor' as <- <-.
  apply persist_pair in Hf; [|done..].
  intros s2 stories d2 x Hsame Hcor2 Hx Hfx c2 s3
    (stories2 & d3 & acc2 & s4 & Hcor2' & Hf2 & _)%persist_inv.
  rewrite Hcor2 in Hcor2'. injection Hcor2' as <- <-.
  pose proof (persist_loop_unique _ _ _ _ _ _ _ Hf2 Hx) as Hle. rewrite Hfx in Hle.
  unfold stories_like in Hle. simpl in Hle. rewrite Hsame in Hle. simpl in Hle.
  unfold stored_of, all_stories, is_story_of in Hf. lia.
Qed.
End incident_theorems.

(** ** A concrete investigation *)

#[local] Instance demo_oracle : Oracle :=
  {| uuid_hex := λ n, str_of_nat n; clock := λ n, utc 20000 (60000 + Z.of_nat n) |}.
#[local] Instance demo_laws : OracleLaws demo_oracle.
Proof. constructor. intros a b Hab. apply str_of_Z_inj in Hab. lia. Defined.
#[local] Instance demo_auth : AuthLib := {|
  jwt_encode := λ _, "t"; bcrypt_check := λ _ _, true;
  jwt_decode := λ t, if (t =? "t")%string then Some [("sub", VStr "usr_1")] else None |}.

(** Two sprays of one source, a grant, and a piece of evidence. *)
Definition second_spray : Finding := demo_finding "identity.password_spray" "evt_4" "alice" 50300.
Definition sealed_row : Evidence := {|
  ev_id := "evi_3"; ev_tenant_id := "ten_a"; ev_incident_id := None; ev_source := "event:evt_1";
  ev_acquisition_method := "ingest"; ev_original_timestamp := utc 20000 0;
  ev_ingested_at := utc 20000 0; ev_collector_identity := "usr_1"; ev_integrity_hash := "h";
  ev_object_uri := None; ev_parser_version := "1"; ev_transformation_history := [];
  ev_confidence_level := 1; ev_payload_event_id := "evt_1"; ev_payload_raw_hash := "h";
  ev_chain_of_custody := []; ev_sealed := true |}.
Definition ir_db (findings : list Finding) : db :=
  set_findings (λ _, (λ f, finding_record "ten_a" f []) <$> findings)
    (set_evidence (λ _, [sealed_row]) (set_draws (λ _, MkDraws 10 0) Access.demo_db)).
Definition group (s : db) : result persist_counts * db := persist_storylines_and_incidents "ten_a" s.

Example group_counts : fst (group (ir_db [demo_spray; demo_grant]))
  = Ok {| pc_storylines := 2; pc_incidents := 2; pc_total_storylines := 2 |}.
Proof. vm_compute. reflexivity. Qed.
Example group_twice : let s := snd (group (ir_db [demo_spray; second_spray; demo_grant])) in
  fst (group s) = Raise MultipleResultsFound.
Proof. vm_compute. reflexivity. Qed.

Lemma ir_db_wf findings : incidents_wf (ir_db findings).
Proof.
  split; [apply NoDup_nil_2 | apply NoDup_nil_2 | by intros ? ?%not_elem_of_nil | apply NoDup_singleton
         | | by intros ? ?%not_elem_of_nil].
  by intros e i ->%list_elem_of_singleton.
Qed.

(** An analyst links the sealed evidence to the first incident. *)
Definition grouped_db : db := snd (get_db (persist_storylines_and_incidents "ten_a") (ir_db [demo_spray; demo_grant])).
Definition first_incident : string := match d_incidents grouped_db with r :: _ => in_id r | [] => "" end.
Definition link : result pydict * db :=
  serve (demo_headers None) "req_1" (EvidenceReq first_incident "evi_3") grouped_db.
Example link_served : is_ok (fst link) = true
  ∧ (ev_incident_id <$> d_evidence (snd link)) = [Some first_incident]
  ∧ (au_action <$> d_audit (snd link)) = ["incident.evidence_link"].
Proof. vm_compute. auto. Qed.

Lemma incident_lifecycle_witness : incidents_wf (snd link) ∧ evolves grouped_db (snd link).
Proof.
  apply (incident_lifecycle grouped_db (snd link)); [|apply rtc_once, ir_request].
  eapply rtc_l; [|apply rtc_once, ir_group].
  apply (ir_other empty_db (ir_db [demo_spray; demo_grant]) [sealed_row]); [reflexivity.. | |apply NoDup_singleton].
  by apply Forall_singleton.
Defined.
Lemma storylines_grouped_witness : ∃ stories d',
  correlate (load_window "ten_a" (ir_db [demo_spray; demo_grant]))
    (fr_payload <$> list_findings "ten_a" (ir_db [demo_spray; demo_grant])) (MkDraws 10 0)
    = (Ok stories, d')
  ∧ 2 = Z.of_nat (length stories)
  ∧ grouping "ten_a" stories 2 (ir_db [demo_spray; demo_grant]) (snd (group (ir_db [demo_spray; demo_grant]))).
Proof.
  refine (storylines_grouped "ten_a" (ir_db [demo_spray; demo_grant])
    {| pc_storylines := 2; pc_incidents := 2; pc_total_storylines := 2 |} _ (ir_db_wf _) _).
  vm_compute. reflexivity.
Defined.
Lemma grouped_incidents_dangle_witness :
  Forall (λ r',
    (∃ r, r ∈ d_incidents (ir_db [demo_spray; demo_grant]) ∧ same_case r r')
    ∨ (in_severity r' = "high" ∧ ∀ x, x ∈ in_evidence_ids r' →
         ∀ e, e ∈ d_evidence (snd (group (ir_db [demo_spray; demo_grant]))) → ev_id e ≠ x))
    (d_incidents (snd (group (ir_db [demo_spray; demo_grant])))).
Proof.
  apply Forall_forall.
  refine (grouped_incidents_dangle "ten_a" (ir_db [demo_spray; demo_grant])
    {| pc_storylines := 2; pc_incidents := 2; pc_total_storylines := 2 |} _ (ir_db_wf _) _ _ _ _).
  - intros n. destruct (int_head (Z.of_nat n)) as (c & r & Hc & Hd).
    cbn [uuid_hex demo_oracle]. unfold str_of_nat, startswith. rewrite Hc. cbn [String.prefix].
    destruct (ascii_dec _ _) as [<-|]; [vm_compute in Hd; discriminate | done].
  - intros r v Hr Hv. cbn in Hr. repeat (apply elem_of_cons in Hr as [->|Hr]; [|]).
    + apply list_elem_of_singleton in Hv as ->. by eexists.
    + apply list_elem_of_singleton in Hv as ->. by eexists.
    + by apply not_elem_of_nil in Hr.
  - intros e ->%list_elem_of_singleton. exists 3%nat. split; [cbn; lia | reflexivity].
  - vm_compute. reflexivity.
Defined.

Definition twice_db : db := ir_db [demo_spray; second_spray; demo_grant].
Definition told_by (s : db) : list Storyline :=
  match fst (correlate (load_window "ten_a" s) (fr_payload <$> list_findings "ten_a" s) (d_draws s)) with
  | Ok l => l | Raise _ => [] end.
Definition told_at (n : nat) (s : db) : Storyline :=
  nth n (told_by s) {| sl_storyline_id := ""; sl_tenant_id := ""; sl_title := ""; sl_entities := [];
    sl_stages := []; sl_confidence := fl_of_Z 0; sl_evidence_ids := []; sl_event_ids := [];
    sl_mitre_techniques := []; sl_start := utc 0 0; sl_end := utc 0 0; sl_attributes := [] |}.
Lemma repeated_storyline_blocks_witness :
  ¬ ∃ c2 s3, persist_storylines_and_incidents "ten_a" (snd (group twice_db)) = (Ok c2, s3).
Proof.
  intros (c2 & s3 & Hrun). revert Hrun.
  refine (repeated_storyline_blocks "ten_a" twice_db
    {| pc_storylines := 3; pc_incidents := 2; pc_total_storylines := 3 |} (snd (group twice_db))
    [] (told_at 0 twice_db) (told_at 1 twice_db) (drop 2 (told_by twice_db)) (MkDraws 13 0) _ _ _ _ _
    (snd (group twice_db)) (told_by (snd (group twice_db))) _ (told_at 0 (snd (group twice_db))) eq_refl _ _ _ c2 s3).
  - vm_compute. reflexivity.
  - apply not_elem_of_nil.
  - vm_compute. reflexivity.
  - vm_compute. reflexivity.
  - vm_compute. reflexivity.
  - vm_compute. reflexivity.
  - vm_compute. left.
  - vm_compute. reflexivity.
Defined.
Definition link_answer : pydict := match fst link with Ok r => r | Raise _ => [] end.
Lemma incident_requests_audited_witness :
  ∃ actor row a, authorised (demo_headers None) grouped_db (ta_tenant_id actor) "incidents:write" (ta_actor actor)
    ∧ link_answer = serialize_incident row ∧ row ∈ d_incidents (snd link)
    ∧ in_tenant_id row = ta_tenant_id actor
    ∧ (∀ x, in_id x ≠ in_id row → x ∈ d_incidents grouped_db ↔ x ∈ d_incidents (snd link))
    ∧ d_audit (snd link) = d_audit grouped_db ++ [a]
    ∧ audited (EvidenceReq first_incident "evi_3") actor "req_1" row a.
Proof.
  refine (proj1 (incident_requests_audited (demo_headers None) "req_1"
    (EvidenceReq first_incident "evi_3") grouped_db) link_answer (snd link) _).
  vm_compute. reflexivity.
Defined.
