(* ===== verification/Ingestion.v ===== *)
(** * Ingestion

    Models [services/api/app/services/ingestion.py] and the writing routes of
    [api/events.py]: payloads normalised, enriched, matched with the tenant's indicators,
    deduplicated and stored, and what follows an accepted batch. The normaliser is an
    interface: [router.py] and the adapters it calls implement it. *)
From S2P Require Export Enrichment GraphService Incidents.
Local Open Scope Z_scope.

(** [normalize_payload(payload, tenant_id)]: it draws identifiers and readings of the
    clock, and rejects with [ValueError] (pydantic's [ValidationError] is one). *)
Class Normalizer := { normalize_payload : pydict → string → M draws CanonicalEvent }.
(** The object store of [best_effort_project]: the address of the stored payload, if it
    could be written. *)
Class DataPlane := { object_uri : CanonicalEvent → pydict → option string }.

Record ingest_result := {
  ig_accepted : list string; ig_duplicates : list string; ig_rejected : list pydict; ig_findings : Z }.
Definition accept (i : string) (n : Z) (r : ingest_result) : ingest_result := {|
  ig_accepted := ig_accepted r ++ [i]; ig_duplicates := ig_duplicates r; ig_rejected := ig_rejected r;
  ig_findings := ig_findings r + n |}.
Definition duplicate (i : string) (r : ingest_result) : ingest_result := {|
  ig_accepted := ig_accepted r; ig_duplicates := ig_duplicates r ++ [i]; ig_rejected := ig_rejected r;
  ig_findings := ig_findings r |}.
Definition reject (why : pydict) (r : ingest_result) : ingest_result := {|
  ig_accepted := ig_accepted r; ig_duplicates := ig_duplicates r; ig_rejected := ig_rejected r ++ [why];
  ig_findings := ig_findings r |}.
Definition result_dict (r : ingest_result) : pydict := [
  ("accepted", VList (VStr <$> ig_accepted r)); ("duplicates", VList (VStr <$> ig_duplicates r));
  ("rejected", VList (VDict <$> ig_rejected r)); ("findings_created", VInt (ig_findings r))].

(** The primary key and [uq_event_idempotency]; two absent keys are not equal. *)
Definition same_event (a b : SecurityEvent) : bool :=
  (se_id a =? se_id b)%string
  || ((se_tenant_id a =? se_tenant_id b)%string
      && match se_idempotency_key a, se_idempotency_key b with Some k, Some k' => (k =? k')%string | _, _ => false end).
Definition event_record (tenant_id raw_hash : string) (event : CanonicalEvent) : SecurityEvent := {|
  se_id := e_id event; se_tenant_id := tenant_id; se_timestamp := e_timestamp event;
  se_ingested_at := e_ingested_at event; se_source := e_source event; se_source_type := e_source_type event;
  se_event_type := e_event_type event; se_category := e_category event; se_action := e_action event;
  se_outcome := e_outcome event; se_src_ip := e_src_ip event; se_user_name := user_name event;
  se_idempotency_key := e_idempotency_key event; se_raw_hash := raw_hash; se_payload := event |}.
Definition events_keyed (tenant_id key : string) (s : db) : list SecurityEvent :=
  select (λ r, (se_tenant_id r =? tenant_id)%string && oeqb (se_idempotency_key r) key) (d_events s).
Definition event_by_id (i : string) (s : db) : option SecurityEvent :=
  find_first (λ r, se_id r =? i)%string (d_events s).

Section ingestion.
Context `{Oracle} `{SetOrder} `{IpLib} `{Normalizer} `{DataPlane} (registry : DetectionRegistry).

Definition _dead_letter (tenant_id : string) (payload : pydict) (reason : string) : M db unit :=
  i ← new_id_db "dlq";
  now ← utcnow_db;
  modify (set_pend_dead_letters (λ l, l ++ [{|
    dl_id := i; dl_tenant_id := Some tenant_id; dl_reason := str_take 200 reason; dl_raw_payload := payload;
    dl_created_at := now |}])).

(** The body of the [try]: normalise, enrich, record sightings. *)
Definition prepare (tenant_id : string) (payload : pydict) : M db CanonicalEvent :=
  event ← drawing_db (normalize_payload payload tenant_id);
  tenant_intel ← active_intel_map tenant_id;
  let event := fst (enrich_event event DEFAULT_ASSETS DEFAULT_DIRECTORY (dupdate DEFAULT_INTEL tenant_intel)) in
  record_sightings tenant_id event;;
  mret event.
(** [best_effort_project]: of its effects the program sees the attribute. *)
Definition best_effort_project (event : CanonicalEvent) (payload : pydict) : CanonicalEvent :=
  match object_uri event payload with
  | Some uri => set_attribute "raw_object_uri" (VStr uri) event
  | None => event
  end.
Definition raw_hash_of (event : CanonicalEvent) (payload : pydict) : string :=
  if otrue (e_raw_hash event) then ostr (e_raw_hash event)
  else sha256_hex (canonical_json (VDict match e_raw_event event with [] => payload | raw => raw end)).
Definition find_existing (tenant_id : string) (event : CanonicalEvent) : M db (option SecurityEvent) :=
  if otrue (e_idempotency_key event)
  then s ← get; lift (scalar_one_or_none (events_keyed tenant_id (ostr (e_idempotency_key event)) s))
  else mret None.
Definition store_event (tenant_id actor_id : string) (acc : ingest_result) (payload : pydict)
    (event : CanonicalEvent) : M db ingest_result :=
  keyed ← find_existing tenant_id event;
  s ← get;
  let existing := match keyed with Some x => Some x | None => event_by_id (e_id event) s end in
  match existing with
  | Some x =>
      if bool_decide (keyed = None) && negb (se_tenant_id x =? tenant_id)%string
      then
        _dead_letter tenant_id payload "event id collision across tenants";;
        mret (reject [("reason", VStr "event id collision"); ("id", VStr (e_id event))] acc)
      else mret (duplicate (se_id x) acc)
  | None =>
      let raw_hash := raw_hash_of event payload in
      let event := best_effort_project event payload in
      add_unique d_events set_events same_event (event_record tenant_id raw_hash event);;
      n ← evaluate_and_store registry tenant_id event actor_id;
      mret (accept (e_id event) n acc)
  end.
(** One payload of the loop. *)
Definition ingest_one (tenant_id actor_id : string) (acc : ingest_result) (payload : pydict) : M db ingest_result :=
  λ s, match prepare tenant_id payload s with
       | (Ok event, s') => store_event tenant_id actor_id acc payload event s'
       | (Raise (ValueError message), s') =>
           (_dead_letter tenant_id payload message;; mret (reject [("reason", VStr message)] acc)) s'
       | (Raise e, s') => (Raise e, s')
       end.
Definition nothing_yet : ingest_result :=
  {| ig_accepted := []; ig_duplicates := []; ig_rejected := []; ig_findings := 0 |}.
Definition after_batch (tenant_id : string) : M db unit :=
  project_window tenant_id;;
  persist_storylines_and_incidents tenant_id;;
  mret tt.
Definition ingest_payloads (tenant_id : string) (payloads : list pydict) (actor_id : string) : M db ingest_result :=
  r ← foldM (ingest_one tenant_id actor_id) nothing_yet payloads;
  (if bool_decide (ig_accepted r = []) then mret tt else after_batch tenant_id);;
  mret r.

Definition list_events (tenant_id : string) (s : db) : list SecurityEvent :=
  sort_by (λ a b, dt_le (se_timestamp b) (se_timestamp a)) (select (λ r, se_tenant_id r =? tenant_id)%string (d_events s)).
Definition list_dead_letters (tenant_id : string) (s : db) : list DeadLetterEvent :=
  sort_by (λ a b, dt_le (dl_created_at b) (dl_created_at a))
    (select (λ r, bool_decide (dl_tenant_id r = Some tenant_id)) (d_dead_letters s)).
End ingestion.

(** ** Routes *)

(** [normalize_webhook] and [_stamp]. *)
Definition _stamp (item : pydict) (source : string) (adapter : pyval) : pydict :=
  let stamped := setdefault "source_type" (VStr source) (setdefault "source" (VStr source) item) in
  if vtrue adapter then setdefault "adapter" adapter stamped else stamped.
Fixpoint stamp_items (items : list pyval) (source : string) (adapter : pyval) : result (list pydict) :=
  match items with
  | [] => Ok []
  | VDict item :: rest => (cons (_stamp item source adapter)) <$> stamp_items rest source adapter
  | _ :: _ => Raise (ValueError "webhook events must be objects")
  end.
Definition normalize_webhook (payload : pydict) (source : string) : result (list pydict) :=
  match dget "events" payload with
  | Some (VList items) => stamp_items items source (dgetv "adapter" payload)
  | _ =>
      if vtrue (dgetv "schema_version" payload) || vtrue (dgetv "event_type" payload) || vtrue (dgetv "type" payload)
      then Ok [_stamp payload source (dgetv "adapter" payload)]
      else Raise (ValueError "webhook payload must include events[] or a single event object")
  end.
Record WebhookRequest := {
  wh_source : string; wh_adapter : option string; wh_events : option (list pydict); wh_payload : option pydict }.
Definition webhook_raw (body : WebhookRequest) : pydict :=
  let raw := match wh_payload body with
             | Some (kv :: rest) => kv :: rest
             | _ => [("events", VList (VDict <$> default [] (wh_events body)))] end in
  if otrue (wh_adapter body) then dset "adapter" (VStr (ostr (wh_adapter body))) raw else raw.
Definition syslog_payload (line : string) : pydict := [("adapter", VStr "syslog"); ("syslog_raw", VStr line)].

Section event_routes.
Context `{Oracle} `{SetOrder} `{IpLib} `{Normalizer} `{DataPlane} `{AuthLib} (registry : DetectionRegistry).

Definition ingest_audited (action : string) (payloads : list pydict) (actor : TenantActor) : M db pydict :=
  r ← ingest_payloads registry (ta_tenant_id actor) payloads (actor_user actor);
  audit_actor actor action "security_event" None
    (Some [("accepted", VInt (Z.of_nat (length (ig_accepted r)))); ("rejected", VInt (Z.of_nat (length (ig_rejected r))))]);;
  mret (result_dict r).
Definition ingest (events : list pydict) (actor : TenantActor) : M db pydict :=
  ingest_audited "events.ingest" events actor.
Definition ingest_syslog (lines : list string) (actor : TenantActor) : M db pydict :=
  ingest_audited "events.ingest.syslog" (syslog_payload <$> lines) actor.
Definition ingest_webhook (body : WebhookRequest) (actor : TenantActor) : M db pydict :=
  payloads ← lift (normalize_webhook (webhook_raw body) (wh_source body));
  ingest_audited "events.ingest.webhook" payloads actor.
Definition event_item (row : SecurityEvent) : pydict := [
  ("id", VStr (se_id row)); ("timestamp", VStr (isoformat (se_timestamp row))); ("source", VStr (se_source row));
  ("category", VStr (se_category row)); ("event_type", VStr (se_event_type row));
  ("outcome", ostrv (outcome_str <$> se_outcome row)); ("src_ip", ostrv (se_src_ip row));
  ("user_name", ostrv (se_user_name row)); ("raw_hash", VStr (se_raw_hash row))].
Definition get_events (actor : TenantActor) : M db pydict :=
  s ← get; mret [("items", VList ((λ r, VDict (event_item r)) <$> list_events (ta_tenant_id actor) s))].
Definition dead_letter (actor : TenantActor) : M db pydict :=
  s ← get;
  mret [("items", VList ((λ r, VDict [("id", VStr (dl_id r)); ("reason", VStr (dl_reason r));
                                      ("created_at", VStr (isoformat (dl_created_at r)))])
                         <$> list_dead_letters (ta_tenant_id actor) s))].
End event_routes.

(** ** What the rest of the pipeline leaves alone *)

(** Letters written, flushed or not. *)
Definition letters (s : db) : list DeadLetterEvent := d_dead_letters s ++ d_pend_dead_letters s.
Definition same_stream (s s' : db) : Prop := d_events s' = d_events s ∧ letters s' = letters s.
#[export] Instance same_stream_preorder : PreOrder same_stream.
Proof. split; [done|]. intros a b c [E1 L1] [E2 L2]. split; congruence. Qed.
Lemma stream_flush : keeps same_stream flush.
Proof. intros s. split; [done|]. unfold letters. simpl. apply app_nil_r. Qed.
Lemma stream_flush_findings : keeps same_stream flush_findings.
Proof. intros s. unfold flush_findings. destruct (clashing _ _); [done | apply stream_flush]. Qed.
Lemma stream_modify f : (∀ s, d_events (f s) = d_events s) → (∀ s, letters (f s) = letters s) → keeps same_stream (modify f).
Proof. intros He Hl s. split; [apply He | apply Hl]. Qed.
Lemma stream_draw {A} (m : M draws A) : keeps same_stream (drawing_db m).
Proof. intros s. unfold drawing_db. destruct (m (d_draws s)) as [r d]. by split. Qed.
Lemma stream_utcnow `{Oracle} : keeps same_stream utcnow_db.
Proof. by intros s. Qed.
Lemma stream_new_id `{Oracle} p : keeps same_stream (new_id_db p).
Proof. by intros s. Qed.
Lemma stream_add {A} get_rows set_rows (same : A → A → bool) row :
  (∀ f s, d_events (set_rows f s) = d_events s) → (∀ f s, letters (set_rows f s) = letters s) →
  keeps same_stream (add_unique get_rows set_rows same row).
Proof.
  intros He Hl s. unfold add_unique. destruct (existsb _ _); simpl; [apply stream_flush|].
  etrans; [apply stream_flush|]. by split.
Qed.
#[export] Hint Resolve stream_flush stream_flush_findings stream_draw stream_utcnow stream_new_id : keeps.
#[export] Hint Extern 1 (keeps same_stream (modify _)) => apply stream_modify; reflexivity : keeps.
#[export] Hint Extern 1 (keeps same_stream (add_unique _ _ _ _)) => apply stream_add; reflexivity : keeps.
Ltac stream := repeat first [solve [eauto with keeps nocore] | keeps_step].

Section stream_frames.
Context `{Oracle} `{SetOrder} `{IpLib} `{Normalizer} `{DataPlane} (registry : DetectionRegistry).
Lemma stream_register t e c : keeps same_stream (register_event_evidence t e c).
Proof. unfold register_event_evidence. stream. Qed.
Lemma stream_suppressed t f : keeps same_stream (is_suppressed t f).
Proof. unfold is_suppressed. stream. Qed.
#[local] Hint Resolve stream_register stream_suppressed : keeps.
Lemma stream_store_one t actor acc f : keeps same_stream (store_one t actor acc f).
Proof. unfold store_one. stream. Qed.
#[local] Hint Resolve stream_store_one : keeps.
Lemma stream_evaluate t e actor : keeps same_stream (evaluate_and_store registry t e actor).
Proof. unfold evaluate_and_store, evaluate_and_store_findings. stream. Qed.
Lemma stream_project t : keeps same_stream (project_window t).
Proof. unfold project_window, project_graph, _replace, add_rows. stream. Qed.
Lemma stream_persist t : keeps same_stream (persist_storylines_and_incidents t).
Proof. unfold persist_storylines_and_incidents, persist_one, find_or_create, _timeline_event. stream. Qed.
Lemma stream_intel_map t : keeps same_stream (active_intel_map t).
Proof. unfold active_intel_map, list_iocs. stream. Qed.
Lemma stream_sightings t e : keeps same_stream (record_sightings t e).
Proof. unfold record_sightings, sight_candidate, edit_ioc. stream. Qed.
#[local] Hint Resolve stream_evaluate stream_project stream_persist stream_intel_map stream_sightings : keeps.
Lemma stream_prepare t p : keeps same_stream (prepare t p).
Proof. unfold prepare. stream. Qed.
Lemma stream_after t : keeps same_stream (after_batch t).
Proof. unfold after_batch. stream. Qed.
End stream_frames.

(** ** What a batch does to the stored events *)

Definition event_key (r : SecurityEvent) : option (string * string) := pair (se_tenant_id r) <$> se_idempotency_key r.
Record events_wf (s : db) : Prop := {
  vw_ids : NoDup (se_id <$> d_events s);
  vw_keys : NoDup (omap event_key (d_events s));
}.
Definition letter_for (t : string) (payloads : list pydict) (why : pydict) (l : DeadLetterEvent) : Prop :=
  dl_tenant_id l = Some t ∧ dl_raw_payload l ∈ payloads.
Record batch (t : string) (payloads : list pydict) (r0 r : ingest_result) (s s' : db) : Prop := {
  bt_accepted : ∃ new, d_events s' = d_events s ++ new ∧ ig_accepted r = ig_accepted r0 ++ (se_id <$> new)
    ∧ Forall (λ x, se_tenant_id x = t) new;
  bt_rejected : ∃ rej ls, ig_rejected r = ig_rejected r0 ++ rej ∧ letters s' = letters s ++ ls
    ∧ Forall2 (letter_for t payloads) rej ls;
  bt_duplicates : ∃ dups, ig_duplicates r = ig_duplicates r0 ++ dups
    ∧ ∀ i, i ∈ dups → ∃ x, x ∈ d_events s' ∧ se_id x = i ∧ se_tenant_id x = t;
  bt_count : (length (ig_accepted r) + length (ig_duplicates r) + length (ig_rejected r)
    = length (ig_accepted r0) + length (ig_duplicates r0) + length (ig_rejected r0) + length payloads)%nat;
  bt_wf : events_wf s → events_wf s';
}.
Lemma batch_stream t ps r0 r s s1 s2 s' :
  same_stream s s1 → batch t ps r0 r s1 s2 → same_stream s2 s' → batch t ps r0 r s s'.
Proof.
  intros [E1 L1] [(new & A1 & A2 & A3) (rej & ls & B1 & B2 & B3) (dups & D1 & D2) C W] [E2 L2]. constructor; try done.
  - exists new. split_and!; congruence.
  - exists rej, ls. split_and!; try done; congruence.
  - exists dups. by rewrite E2.
  - intros [V1 V2]. destruct W as [W1 W2]; [constructor; congruence|]. constructor; congruence.
Qed.
Lemma batch_trans t p ps r0 r1 r2 s s1 s2 :
  batch t [p] r0 r1 s s1 → batch t ps r1 r2 s1 s2 → batch t (p :: ps) r0 r2 s s2.
Proof.
  intros [(n1 & A1 & A2 & A3) (j1 & l1 & B1 & B2 & B3) (d1 & D1 & D2) C W]
         [(n2 & A1' & A2' & A3') (j2 & l2 & B1' & B2' & B3') (d2 & D1' & D2') C' W']. constructor.
  - exists (n1 ++ n2). rewrite A1', A1, A2', A2, fmap_app, <-!app_assoc. split_and!; [done..|by apply Forall_app].
  - exists (j1 ++ j2), (l1 ++ l2). rewrite B1', B1, B2', B2, <-!app_assoc. split_and!; [done..|].
    apply Forall2_app; (eapply Forall2_impl; [eassumption|]); intros why l [Ht Hp]; (split; [done|]); set_solver.
  - exists (d1 ++ d2). rewrite D1', D1, <-app_assoc. split; [done|]. intros i [Hi|Hi]%elem_of_app; [|by apply D2'].
    destruct (D2 i Hi) as (x & Hx & ?). exists x. split; [rewrite A1'; set_solver | done].
  - simpl in *. lia.
  - auto.
Qed.

Section batches.
Context `{Oracle} `{SetOrder} `{IpLib} `{Normalizer} `{DataPlane} (registry : DetectionRegistry).

Lemma dead_letter_ok t p m s u s' : _dead_letter t p m s = (Ok u, s') →
  d_events s' = d_events s ∧ ∃ l, letters s' = letters s ++ [l] ∧ dl_tenant_id l = Some t ∧ dl_raw_payload l = p.
Proof.
  intros He. unfold _dead_letter in He. inv_bind He. injection Ha as <- <-. inv_bind He. injection Ha as <- <-.
  injection He as _ <-. split; [done|]. eexists. unfold letters. cbn. rewrite <-app_assoc. by split_and!.
Qed.
Lemma batch_dead t p m why acc s u s' : _dead_letter t p m s = (Ok u, s') → batch t [p] acc (reject why acc) s s'.
Proof.
  intros (He & l & Hl & Ht & Hp)%dead_letter_ok. constructor; simpl.
  - exists []. by rewrite !app_nil_r, He.
  - exists [why], [l]. split_and!; [done..|]. constructor; [|constructor]. split; [done|]. rewrite Hp. by left.
  - exists []. rewrite app_nil_r. split; [done|]. by intros ? ?%not_elem_of_nil.
  - rewrite length_app. simpl. lia.
  - intros []. constructor; by rewrite He.
Qed.
Lemma same_event_spec a b : same_event a b = false ↔ se_id a ≠ se_id b ∧
  ∀ k, event_key a = Some k → event_key b ≠ Some k.
Proof.
  unfold same_event, event_key. rewrite orb_false_iff, String.eqb_neq. apply and_iff_compat_l.
  destruct (se_idempotency_key a) as [ka|], (se_idempotency_key b) as [kb|]; simpl; rewrite ?andb_false_r; try naive_solver.
  rewrite andb_false_iff, !String.eqb_neq. split; [intros [?|?] k [= <-]; congruence|].
  intros Hk. specialize (Hk _ eq_refl). destruct (String.eqb_spec (se_tenant_id a) (se_tenant_id b)) as [Ht|]; [|by left].
  right. intros ->. by rewrite Ht in Hk.
Qed.
Lemma events_wf_snoc s row :
  existsb (same_event row) (d_events s) = false → events_wf s →
  ∀ s', d_events s' = d_events s ++ [row] → events_wf s'.
Proof.
  intros Hn [V1 V2] s' Hs'. assert (∀ r, r ∈ d_events s → same_event row r = false) as Hnew.
  { intros r Hr. apply not_true_iff_false. intros Hx. apply not_true_iff_false in Hn. apply Hn, existsb_exists.
    exists r. by rewrite <-list_elem_of_In. }
  constructor; rewrite Hs'.
  - rewrite fmap_app. apply NoDup_snoc; [|done]. intros (r & Hx & Hr)%list_elem_of_fmap.
    by apply Hnew, same_event_spec in Hr as [? _].
  - rewrite omap_app. simpl. destruct (event_key row) as [k|] eqn:Hk; simpl; [|by rewrite app_nil_r].
    apply NoDup_snoc; [|done]. intros (r & Hr & Hrk)%list_elem_of_omap. apply Hnew, same_event_spec in Hr as [_ Hr].
    by apply (Hr k).
Qed.
Lemma find_existing_ok t e s x s' : find_existing t e s = (Ok x, s') →
  s' = s ∧ match x with
           | Some r => r ∈ d_events s ∧ se_tenant_id r = t ∧ se_idempotency_key r = e_idempotency_key e
                       ∧ otrue (e_idempotency_key e) = true
           | None => otrue (e_idempotency_key e) = false ∨ events_keyed t (ostr (e_idempotency_key e)) s = []
           end.
Proof.
  unfold find_existing. destruct (otrue (e_idempotency_key e)) eqn:Hk; [|intros [= <- <-]; auto].
  intros He. inv_bind He. injection Ha as <- <-. injection He as He <-. split; [done|]. destruct x as [r|].
  - apply scalar_one_Some in He.
    assert (r ∈ events_keyed t (ostr (e_idempotency_key e)) s) as Hr by (rewrite He; by left).
    unfold events_keyed in Hr. apply elem_of_select in Hr as [Hr [Ht%String.eqb_eq Ho%oeqb_spec]%andb_prop].
    split_and!; try done. rewrite Ho. by destruct (e_idempotency_key e).
  - right. by apply scalar_one_None.
Qed.
Lemma store_event_ok t actor acc p e s r s' : store_event registry t actor acc p e s = (Ok r, s') →
  batch t [p] acc r s s'.
Proof.
  unfold store_event. intros He. inv_bind He. apply find_existing_ok in Ha as [-> Hkeyed]. inv_bind He. injection Ha as <- <-.
  destruct (match a with Some x => Some x | None => event_by_id (e_id e) s end) as [x|] eqn:Hex.
  - destruct (bool_decide (a = None) && negb (se_tenant_id x =? t)%string) eqn:Hc.
    + inv_bind He. injection He as <- <-. by eapply batch_dead.
    + injection He as <- <-. constructor; simpl; rewrite ?length_app; simpl; try lia.
      * exists []. by rewrite !app_nil_r.
      * exists [], []. by rewrite !app_nil_r.
      * exists [se_id x]. split; [done|]. intros i ->%list_elem_of_singleton. exists x. destruct a as [y|].
        -- injection Hex as ->. naive_solver.
        -- apply find_first_Some in Hex as [Hx _]. rewrite bool_decide_true in Hc by done. simpl in Hc.
           apply negb_false_iff, String.eqb_eq in Hc. done.
      * done.
  - destruct a as [|]; [done|]. inv_bind He. apply add_unique_ok in Ha as [-> Hu]. inv_bind He.
    apply (keeps_ok _ _ _ _ _ (stream_evaluate registry _ _ _)) in Ha as Hs. injection He as <- <-.
    eapply batch_stream; [apply stream_flush | | exact Hs]. constructor; simpl.
    + eexists [_]. split_and!; [done| |by apply Forall_singleton]. simpl. unfold best_effort_project. by case_match.
    + exists [], []. by rewrite !app_nil_r.
    + exists []. rewrite app_nil_r. split; [done|]. by intros ? ?%not_elem_of_nil.
    + rewrite length_app. simpl. lia.
    + intros Hw. eapply (events_wf_snoc (flush_pending s)); [exact Hu | exact Hw | done].
Qed.
Lemma ingest_one_ok t actor acc p s r s' : ingest_one registry t actor acc p s = (Ok r, s') →
  batch t [p] acc r s s'.
Proof.
  unfold ingest_one. pose proof (stream_prepare t p s) as Hp. destruct (prepare t p s) as [[e|[]] s1]; simpl in Hp; try done.
  - intros He%store_event_ok. by eapply batch_stream; [exact Hp | exact He|].
  - intros He. inv_bind He. injection He as <- <-. eapply batch_stream; [exact Hp | by eapply batch_dead | done].
Qed.
Lemma ingest_loop_ok t actor ps acc s r s' : foldM (ingest_one registry t actor) acc ps s = (Ok r, s') →
  batch t ps acc r s s'.
Proof.
  revert acc s. induction ps as [|p ps IH]; intros acc s He; simpl in He.
  - injection He as <- <-. constructor; simpl; try lia; [exists []; by rewrite !app_nil_r | exists [], []; by rewrite !app_nil_r | |done].
    exists []. rewrite app_nil_r. split; [done|]. by intros ? ?%not_elem_of_nil.
  - inv_bind He. eapply batch_trans; [by eapply ingest_one_ok | by apply IH].
Qed.

(** C8. A batch that returns accounts for every payload: each is accepted, a duplicate or
    rejected. The accepted identifiers are, in order, those of the events added, all of
    them of the tenant, and no stored event is touched; a duplicate names a stored event of
    the tenant; every rejection has one dead letter of the tenant with a payload of the
    batch. Identifiers and idempotency keys of events stay unique. *)
Theorem ingest_accounts t ps actor s r s' : ingest_payloads registry t ps actor s = (Ok r, s') →
  batch t ps nothing_yet r s s'.
Proof.
  unfold ingest_payloads. intros He. inv_bind He. apply ingest_loop_ok in Ha. inv_bind He. injection He as -> <-.
  eapply batch_stream; [reflexivity | exact Ha|].
  case_bool_decide; [by injection Ha0 as _ <-|]. exact (keeps_ok _ _ _ _ _ (stream_after t) Ha0).
Qed.

(** ** Preparing a payload *)

Definition normalized (t : string) (p : pydict) (s : db) : result CanonicalEvent * draws := normalize_payload p t (d_draws s).
Definition intel_rows (t : string) (s : db) : list IndicatorOfCompromise :=
  sort_by newest_first (select (live_at (now_of s)) (iocs_of t s)).
Definition intel_at (t : string) (s : db) : list (string * list (string * string)) :=
  dupdate DEFAULT_INTEL (foldl (λ mapping row, dset (io_value row) (ioc_entry row) mapping) [] (intel_rows t s)).
Lemma intel_map_eval t s : active_intel_map t s =
  (Ok (foldl (λ mapping row, dset (io_value row) (ioc_entry row) mapping) [] (intel_rows t s)), ticked s).
Proof. unfold active_intel_map. by rewrite (M_bind_eval _ _ _ _ _ (list_active_eval t s)). Qed.
Lemma prepare_eval t p s : let s1 := set_draws (λ _, snd (normalized t p s)) s in
  match fst (normalized t p s) with
  | Raise x => prepare t p s = (Raise x, s1)
  | Ok e0 =>
      let e := fst (enrich_event e0 DEFAULT_ASSETS DEFAULT_DIRECTORY (intel_at t s1)) in
      prepare t p s = (Ok e, snd (record_sightings t e (ticked s1)))
  end.
Proof.
  unfold normalized, prepare, drawing_db. destruct (normalize_payload p t (d_draws s)) as [[e0|x] d] eqn:E; simpl.
  - unfold mbind at 1, M_bind. rewrite E. cbv beta iota.
    set (s1 := set_draws (λ _, d) s). pose proof (intel_map_eval t s1) as Hm. unfold mbind, M_bind. rewrite Hm.
    fold (intel_at t s1). set (e := fst _).
    destruct (record_sightings_eval t e (ticked s1)) as (s2 & Hr & _). by rewrite Hr.
  - unfold mbind, M_bind. by rewrite E.
Qed.
Lemma enriched_keys e0 m : let e := fst (enrich_event e0 DEFAULT_ASSETS DEFAULT_DIRECTORY m) in
  e_id e = e_id e0 ∧ e_idempotency_key e = e_idempotency_key e0 ∧ candidates e = candidates e0.
Proof.
  intros e. subst e. rewrite enrich_eval. cbn [fst]. split_and!; [done..|].
  unfold candidates, user_email. cbn [with_parties with_attributes e_user e_src_ip e_dst_ip e_domain e_hash e_url].
  unfold known_as. destruct (known_user DEFAULT_DIRECTORY e0) as [[u known]|] eqn:E; [|done]. simpl.
  by apply known_user_spec in E as [-> _].
Qed.

(** ** Sending a batch again *)

(** A payload whose event has the same identifier and key whatever is drawn, or that is
    always rejected: true of canonical events, which carry their identifier. *)
Definition stable (t : string) (p : pydict) (o : option (string * option string)) : Prop :=
  ∀ d, match fst (normalize_payload p t d) with
       | Ok e => o = Some (e_id e, e_idempotency_key e)
       | Raise _ => o = None
       end.
(** The event of the payload is stored already. *)
Definition known (t : string) (o : option (string * option string)) (l : list SecurityEvent) : Prop :=
  match o with
  | None => True
  | Some (i, k) => (∃ x, x ∈ l ∧ se_id x = i)
                   ∨ (otrue k = true ∧ ∃ x, x ∈ l ∧ se_tenant_id x = t ∧ se_idempotency_key x = k)
  end.
Lemma known_app t o l more : known t o l → known t o (l ++ more).
Proof. destruct o as [[i k]|]; [|done]. intros [(x & Hx & ?)|(Hk & x & Hx & ?)]; [left|right]; set_solver. Qed.
Lemma prepare_stable t p o s e s' : stable t p o → prepare t p s = (Ok e, s') →
  o = Some (e_id e, e_idempotency_key e).
Proof.
  intros Hs Hp. specialize (Hs (d_draws s)). pose proof (prepare_eval t p s) as He. unfold normalized in He.
  destruct (normalize_payload p t (d_draws s)) as [[e0|x] d]; simpl in *; [|congruence].
  rewrite He in Hp. injection Hp as <- _. destruct (enriched_keys e0 (intel_at t (set_draws (λ _, d) s))) as (-> & -> & _). done.
Qed.
Lemma store_event_known t actor acc p e s r s' : store_event registry t actor acc p e s = (Ok r, s') →
  known t (Some (e_id e, e_idempotency_key e)) (d_events s').
Proof.
  intros He. pose proof (store_event_ok _ _ _ _ _ _ _ _ He) as Hb. unfold store_event in He.
  inv_bind He. apply find_existing_ok in Ha as [-> Hkeyed]. inv_bind He. injection Ha as <- <-.
  destruct (bt_accepted _ _ _ _ _ _ Hb) as (new & Hn & Hacc & _).
  destruct a as [x|].
  - destruct Hkeyed as (Hx & Ht & Hk & Ho). right. split; [done|]. exists x. rewrite Hn. set_solver.
  - destruct (event_by_id (e_id e) s) as [x|] eqn:Hid.
    + apply find_first_Some in Hid as [Hx Hi%String.eqb_eq]. left. exists x. rewrite Hn. set_solver.
    + inv_bind He. inv_bind He. injection He as <- _. left. simpl in Hacc. apply (inj (app _)) in Hacc.
      destruct new as [|x new]; [done|]. injection Hacc as Hi _. exists x. split; [rewrite Hn; set_solver|].
      rewrite <-Hi. unfold best_effort_project. by case_match.
Qed.
Lemma ingest_one_known t actor acc p o s r s' : stable t p o → ingest_one registry t actor acc p s = (Ok r, s') →
  known t o (d_events s').
Proof.
  intros Hs. unfold ingest_one. destruct (prepare t p s) as [[e|x] s1] eqn:Hp.
  - intros He. rewrite (prepare_stable _ _ _ _ _ _ Hs Hp). by eapply store_event_known.
  - intros _. pose proof (prepare_eval t p s) as He. specialize (Hs (d_draws s)). unfold normalized in He.
    destruct (normalize_payload p t (d_draws s)) as [[e0|y] d]; simpl in *; [congruence|]. by rewrite Hs.
Qed.
Lemma ingest_loop_known t actor ps acc s r s' p o : stable t p o → p ∈ ps →
  foldM (ingest_one registry t actor) acc ps s = (Ok r, s') → known t o (d_events s').
Proof.
  intros Hs. revert acc s. induction ps as [|q ps IH]; intros acc s; [by intros ?%not_elem_of_nil|].
  intros [->|Hp]%elem_of_cons He; simpl in He; inv_bind He; [|by eapply IH].
  apply (ingest_one_known _ _ _ _ _ _ _ _ Hs) in Ha. apply ingest_loop_ok in He.
  destruct (bt_accepted _ _ _ _ _ _ He) as (new & -> & _). by apply known_app.
Qed.
(** A known payload is not accepted. *)
Lemma ingest_one_again t actor acc p o s r s' : stable t p o → known t o (d_events s) →
  ingest_one registry t actor acc p s = (Ok r, s') → ig_accepted r = ig_accepted acc ∧ ig_findings r = ig_findings acc.
Proof.
  intros Hs Hk He. unfold ingest_one in He. pose proof (stream_prepare t p s) as [Hev _].
  destruct (prepare t p s) as [[e|[]] s1] eqn:Hp; try done; [|by inv_bind He; injection He as <- _].
  simpl in Hev. rewrite (prepare_stable _ _ _ _ _ _ Hs Hp) in Hk. rewrite <-Hev in Hk.
  unfold store_event in He. inv_bind He. apply find_existing_ok in Ha as [-> Hkeyed]. inv_bind He. injection Ha as <- <-.
  destruct (match a with Some x => Some x | None => event_by_id (e_id e) s1 end) as [x|] eqn:Hex.
  - destruct (bool_decide (a = None) && _); [inv_bind He|]; by injection He as <- _.
  - destruct a; [done|]. exfalso. destruct Hk as [(x & Hx & Hi)|(Ho & x & Hx & Ht & Hk)].
    + unfold event_by_id in Hex. apply (find_first_None _ _ x) in Hex; [|done]. cbv beta in Hex. by rewrite Hi, String.eqb_refl in Hex.
    + destruct Hkeyed as [Hn|Hn]; [congruence|]. unfold events_keyed in Hn. rewrite select_nil_iff in Hn.
      specialize (Hn x Hx). apply andb_false_iff in Hn as [Hn|Hn]; [by apply String.eqb_neq in Hn|].
      rewrite Hk in Hn. destruct (e_idempotency_key e); simpl in *; [by rewrite String.eqb_refl in Hn | done].
Qed.

(** Ingestion is idempotent: when every payload of a batch has an event whose
    identifier and key do not depend on what is drawn, then once the batch has been
    ingested, sending it again, by whomever and however much later, accepts nothing,
    stores no event and creates no finding. *)
Theorem replay_stores_nothing t ps actor s r s' actor' s2 r2 s3 more :
  (∀ p, p ∈ ps → ∃ o, stable t p o) → ingest_payloads registry t ps actor s = (Ok r, s') →
  d_events s2 = d_events s' ++ more → ingest_payloads registry t ps actor' s2 = (Ok r2, s3) →
  ig_accepted r2 = [] ∧ ig_findings r2 = 0 ∧ d_events s3 = d_events s2.
Proof.
  intros Hst Hfirst Hmore Hagain.
  assert (∀ p o, p ∈ ps → stable t p o → known t o (d_events s2)) as Hknown.
  { intros p o Hp Hs. rewrite Hmore. apply known_app. unfold ingest_payloads in Hfirst. inv_bind Hfirst. inv_bind Hfirst.
    injection Hfirst as -> <-. apply (ingest_loop_known _ _ _ _ _ _ _ _ _ Hs Hp) in Ha.
    assert (d_events s1 = d_events s0) as ->; [|done]. case_bool_decide; [by injection Ha0 as _ <-|].
    exact (proj1 (keeps_ok _ _ _ _ _ (stream_after t) Ha0)). }
  assert (∀ acc sa rb sb, d_events sa = d_events s2 → foldM (ingest_one registry t actor') acc ps sa = (Ok rb, sb) →
    ig_accepted rb = ig_accepted acc ∧ ig_findings rb = ig_findings acc ∧ d_events sb = d_events s2) as Hloop.
  { clear Hfirst Hagain Hmore. induction ps as [|p ps' IH]; intros acc sa rb sb Hsa He; simpl in He; [by injection He as <- <-|].
    inv_bind He. destruct (Hst p) as [o Ho]; [by left|].
    destruct (ingest_one_again _ _ _ _ _ _ _ _ Ho ltac:(rewrite Hsa; apply (Hknown p o); [by left | done]) Ha) as [A1 A2].
    assert (d_events s0 = d_events s2) as Hs1.
    { destruct (bt_accepted _ _ _ _ _ _ (ingest_one_ok _ _ _ _ _ _ _ Ha)) as (new & Hn & Hacc & _).
      rewrite A1 in Hacc. destruct new; [by rewrite Hn, app_nil_r|]. apply (f_equal length) in Hacc.
      rewrite length_app in Hacc. simpl in Hacc. lia. }
    destruct (IH ltac:(intros; apply Hst; by right) ltac:(intros q o' Hq; apply Hknown; by right) a s0 rb sb Hs1 He) as (B1 & B2 & B3).
    split_and!; congruence. }
  unfold ingest_payloads in Hagain. inv_bind Hagain. destruct (Hloop _ _ _ _ eq_refl Ha) as (A1 & A2 & A3).
  rewrite A1 in Hagain. simpl in Hagain. inv_bind Hagain. injection Ha0 as _ <-. injection Hagain as <- <-. by split_and!.
Qed.

(** ** Indicators that enrich are sighted *)

Lemma mapping_elem rows k v :
  (k, v) ∈ foldl (λ mapping row, dset (io_value row) (ioc_entry row) mapping) [] rows →
  ∃ row, row ∈ rows ∧ k = io_value row ∧ v = ioc_entry row.
Proof.
  induction rows as [|row rows IH] using rev_ind; [by intros ?%not_elem_of_nil|]. rewrite foldl_app. simpl.
  intros [[-> ->]|Hin]%elem_of_dset; [exists row | destruct (IH Hin) as (r & Hr & ?); exists r];
    (split; [apply elem_of_app | done]); [by right; apply list_elem_of_singleton | by left].
Qed.
Lemma default_intel_foreign v entry : dget v DEFAULT_INTEL = Some entry → dget "ioc_id" entry = None.
Proof.
  intros Hd%dget_elem_of. unfold DEFAULT_INTEL in Hd.
  apply elem_of_cons in Hd as [Hd|Hd]; [apply (f_equal snd) in Hd; simpl in Hd; by rewrite Hd|].
  apply list_elem_of_singleton in Hd. apply (f_equal snd) in Hd. simpl in Hd. by rewrite Hd.
Qed.
Lemma intel_at_row t s v entry i : dget v (intel_at t s) = Some entry → dget "ioc_id" entry = Some i →
  ∃ row, row ∈ d_indicators s ∧ io_tenant_id row = t ∧ live_at (now_of s) row = true ∧ io_value row = v ∧ io_id row = i.
Proof.
  unfold intel_at, dupdate. set (mapping := foldl _ [] _). rewrite (dget_foldl_dset fst snd). intros Hd Hi.
  destruct (last (select (λ r, (r.1 =? v)%string) mapping)) as [[k x]|] eqn:Hl; [|by rewrite (default_intel_foreign _ _ Hd) in Hi].
  injection Hd as ->. apply last_Some_elem_of, elem_of_select in Hl as [Hin Hk%String.eqb_eq]. simpl in Hk.
  apply mapping_elem in Hin as (row & Hrow & -> & ->). exists row. unfold intel_rows, iocs_of in Hrow.
  rewrite elem_of_sort_by, !elem_of_select in Hrow. destruct Hrow as ([Hr Ht%String.eqb_eq] & Hl).
  injection Hi as Hi. by split_and!.
Qed.
Lemma intel_hit_spec m e v entry : intel_hit m e = Some (v, entry) →
  Some v ∈ indicators e ∧ nonempty v = true ∧ dget v m = Some entry.
Proof.
  unfold intel_hit. generalize (indicators e). intros l. induction l as [|[x|] l IH]; simpl; [done| |].
  - destruct (nonempty x) eqn:Hx; simpl; [|set_solver]. destruct (dget x m) eqn:Hd; simpl; [|set_solver].
    intros [= -> ->]. split_and!; [by left | done | done].
  - set_solver.
Qed.

(** Enrichment and sightings agree: whenever preparing a payload attaches one of the
    tenant's indicators to the event, that indicator is a stored row of the tenant, active
    and unexpired when the map was read, and its count of sightings has grown and its last
    sighting is set, unless it expired between the two readings of the clock. *)
Theorem intel_hit_sighted `{!SetOrderLaws _} t p s e s' : intel_wf s → prepare t p s = (Ok e, s') →
  ∃ e0, fst (normalized t p s) = Ok e0 ∧
  let s1 := set_draws (λ _, snd (normalized t p s)) s in
  let '(e1, found) := enrich_event e0 DEFAULT_ASSETS DEFAULT_DIRECTORY (intel_at t s1) in
  e = e1 ∧ ∀ i, dget "ioc_id" (en_intel found) = Some i → ∃ row row',
    row ∈ d_indicators s ∧ io_id row = i ∧ io_tenant_id row = t ∧ live_at (now_of s1) row = true
    ∧ row' ∈ d_indicators s' ∧ io_id row' = i
    ∧ (io_sightings row < io_sightings row' ∨ expired_at (now_of (ticked s1)) row = true).
Proof.
  intros Hw Hp. pose proof (prepare_eval t p s) as He. set (s1 := set_draws _ s) in *. destruct (fst (normalized t p s)) as [e0|x].
  2: { rewrite He in Hp. discriminate Hp. }
  exists e0. split; [done|]. cbv zeta in He |- *.
  destruct (enrich_event e0 DEFAULT_ASSETS DEFAULT_DIRECTORY (intel_at t s1)) as [e1 found] eqn:Een. cbn [fst] in He.
  rewrite He in Hp. injection Hp as <- <-. split; [done|]. intros i Hi.
  pose proof (enriched_keys e0 (intel_at t s1)) as (_ & _ & Hc). cbv zeta in Hc. rewrite Een in Hc. cbn [fst] in Hc.
  rewrite enrich_eval in Een. injection Een as _ <-. cbn [result_of en_intel] in Hi.
  destruct (intel_hit (intel_at t s1) e0) as [[v entry]|] eqn:Hhit; [|done].
  rewrite dget_dset_ne in Hi by done. apply intel_hit_spec in Hhit as (Hind & Hne & Hget).
  destruct (intel_at_row _ _ _ _ _ Hget Hi) as (row & Hrow & Ht & Hlive & Hv & Hid).
  destruct (record_sightings_eval t e1 (ticked s1)) as (s2 & Hr & Hrows). rewrite Hr. cbn [snd].
  set (now := now_of (ticked s1)) in *. set (ids := sighted_ids t e1 (ticked s1)) in *.
  exists row, (tally now ids row). split_and!; try done.
  - rewrite Hrows. apply list_elem_of_fmap. by exists row.
  - by rewrite (proj1 (tally_keeps now ids row)).
  - destruct (expired_at now row) eqn:Hex; [by right|]. left. rewrite tally_count.
    assert (io_id row ∈ ids) as Hin.
    { apply elem_of_sighted_ids. exists row, v. split_and!; [done | done | |].
      - rewrite Hc. unfold candidates. apply elem_of_select. split; [|done]. unfold indicators in Hind.
        apply list_elem_of_omap. exists (Some v). split; [|done]. set_solver.
      - unfold meets. fold now. rewrite Hex. apply andb_true_iff. split; [|done]. unfold answers.
        rewrite Ht, String.eqb_refl, Hv. apply andb_prop in Hlive as [-> _]. rewrite <-Hv.
        destruct (iok_value _ (iw_rows _ Hw row Hrow)) as [_ Hstrip]. rewrite Hstrip. simpl. by rewrite String.eqb_refl. }
    assert (io_id row ∈ select (String.eqb (io_id row)) ids) as Hsel by (apply elem_of_select; by rewrite String.eqb_refl).
    destruct (select _ ids); [by apply not_elem_of_nil in Hsel|]. simpl. lia.
Qed.
End batches.

(** ** Stored events are their tenant's

    What the service promises of its rows, if the normaliser promises that an event is the
    tenant's that sent it. *)
Class NormalizerLaws (N : Normalizer) : Prop :=
  normalized_tenant : ∀ payload tenant_id d e d', normalize_payload payload tenant_id d = (Ok e, d') → e_tenant_id e = tenant_id.
Definition row_owned (r : SecurityEvent) : Prop :=
  e_tenant_id (se_payload r) = se_tenant_id r ∧ e_id (se_payload r) = se_id r
  ∧ e_timestamp (se_payload r) = se_timestamp r ∧ e_idempotency_key (se_payload r) = se_idempotency_key r.
Definition rows_owned (s : db) : Prop := Forall row_owned (d_events s).
Definition owning (s s' : db) : Prop := rows_owned s → rows_owned s'.
#[export] Instance owning_preorder : PreOrder owning.
Proof. split; [intros s Hs; exact Hs|]. intros a b c Hab Hbc Ha. by apply Hbc, Hab. Qed.

Section owning.
Context `{Oracle} `{SetOrder} `{IpLib} `{N : Normalizer} `{!NormalizerLaws N} `{DataPlane} (registry : DetectionRegistry).
Lemma owning_stream {A} (m : M db A) : keeps same_stream m → keeps owning m.
Proof. intros Hm s Ho. unfold rows_owned. by destruct (Hm s) as [-> _]. Qed.
Lemma owning_dead t p why : keeps owning (_dead_letter t p why).
Proof. intros s Ho. exact Ho. Qed.
Lemma owning_store t actor acc p e : e_tenant_id e = t → keeps owning (store_event registry t actor acc p e).
Proof.
  intros Ht. unfold store_event. apply (keeps_bind _); [apply owning_stream; unfold find_existing; stream|]. intros keyed.
  apply keeps_get_bind. intros s0. destruct (match keyed with Some x => Some x | None => event_by_id (e_id e) s0 end) as [x|].
  { destruct (_ && _); [|exact (keeps_pure _ (Ok _))].
    apply (keeps_bind _); [apply owning_dead | intros _; exact (keeps_pure _ (Ok _))]. }
  apply (keeps_bind _); [|intros _; apply (keeps_bind _); [apply owning_stream, stream_evaluate | intros ?; exact (keeps_pure _ (Ok _))]].
  intros s Ho. unfold add_unique, rows_owned in *. destruct (existsb _ _); simpl; [done|]. apply Forall_app. split; [done|].
  apply Forall_singleton. unfold best_effort_project. by destruct (object_uri e p).
Qed.
Lemma prepare_tenant t p s e s' : prepare t p s = (Ok e, s') → e_tenant_id e = t.
Proof.
  intros He. pose proof (prepare_eval t p s) as Hp. cbv zeta in Hp. unfold normalized in Hp.
  destruct (normalize_payload p t (d_draws s)) as [[e0|x] d] eqn:E; cbn [fst snd] in Hp; rewrite Hp in He; [|done].
  pose proof (normalized_tenant _ _ _ _ _ E) as Ht. injection He as <- _. by rewrite enrich_eval.
Qed.
Lemma owning_one t actor acc p : keeps owning (ingest_one registry t actor acc p).
Proof.
  intros s. unfold ingest_one. pose proof (owning_stream _ (stream_prepare t p) s) as Hp.
  destruct (prepare t p s) as [[e|x] s1] eqn:E; simpl in Hp.
  - etrans; [exact Hp | exact (owning_store t actor acc p e (prepare_tenant _ _ _ _ _ E) s1)].
  - destruct x; exact Hp.
Qed.
Lemma owning_ingest t ps actor : keeps owning (ingest_payloads registry t ps actor).
Proof.
  unfold ingest_payloads. apply (keeps_bind _); [apply (keeps_foldM _); intros; apply owning_one|]. intros r.
  apply (keeps_bind _); [|intros; exact (keeps_pure _ (Ok _))]. case_bool_decide; [exact (keeps_pure _ (Ok _))|].
  apply owning_stream, stream_after.
Qed.
End owning.

(** ** Concrete batches *)

#[local] Instance demo_oracle : Oracle :=
  {| uuid_hex := λ n, str_of_nat n; clock := λ n, utc 20000 (60 * Z.of_nat n) |}.
#[local] Instance demo_order : SetOrder := {| set_iter := remove_dups |}.
#[local] Instance demo_order_laws : SetOrderLaws demo_order.
Proof. by constructor. Defined.
#[local] Instance demo_ip : IpLib := {| ipv6_private := λ _, None |}.
#[local] Instance demo_plane : DataPlane := {| object_uri := λ e _, Some ("file:///raw/" +:+ e_id e) |}.
Definition text_of (k : string) (p : pydict) : option string :=
  match dget k p with Some (VStr x) => Some x | _ => None end.
Definition demo_event (i t : string) (p : pydict) : CanonicalEvent := {|
  e_id := i; e_tenant_id := t; e_timestamp := utc 20000 0; e_ingested_at := utc 20000 0; e_source := "demo";
  e_source_type := "demo"; e_event_type := "dns"; e_category := "dns"; e_user := None; e_host := None;
  e_process := None; e_parent_process := None; e_src_ip := None; e_dst_ip := None; e_src_port := None;
  e_dst_port := None; e_protocol := None; e_domain := text_of "domain" p; e_url := None; e_file := None;
  e_hash := None; e_identity := None; e_cloud_resource := None; e_action := None; e_outcome := None;
  e_severity := Informational; e_confidence := fl_of_Z 1; e_risk_score := fl_of_Z 0; e_raw_event := p;
  e_schema_version := SCHEMA_VERSION; e_attributes := []; e_idempotency_key := text_of "key" p;
  e_correlation_id := None; e_trace_id := None; e_raw_hash := None |}.
#[local] Instance demo_normalizer : Normalizer := {|
  normalize_payload := λ p t d, match text_of "id" p with
    | Some i => (Ok (demo_event i t p), d)
    | None => (Raise (ValueError "no id"), d) end |}.
Definition demo_registry : DetectionRegistry := build_default_registry [].
Definition dns (i : string) : pydict := [("id", VStr i); ("domain", VStr "evil.example")].
Definition demo_batch : list pydict := [dns "evt_1"; []; dns "evt_2"; dns "evt_1"].
Definition feed : db := snd (upsert_ioc "ten_a" (Intel.evil_body 24) "usr_1" empty_db).
Local Abbreviation first_run := (ingest_payloads demo_registry "ten_a" demo_batch "usr_1" feed).
Local Abbreviation second_run := (ingest_payloads demo_registry "ten_a" demo_batch "usr_2" (snd first_run)).

Example batch_counts : fst first_run = Ok {|
    ig_accepted := ["evt_1"; "evt_2"]; ig_duplicates := ["evt_1"];
    ig_rejected := [[("reason", VStr "no id")]]; ig_findings := 0 |}
  ∧ (se_id <$> d_events (snd first_run)) = ["evt_1"; "evt_2"].
Proof. vm_compute. auto. Qed.
(** Sightings are recorded before deduplication: the six copies of two events are six
    sightings. *)
Example duplicates_sighted :
  (io_sightings <$> d_indicators (snd first_run)) = [3] ∧ (io_sightings <$> d_indicators (snd second_run)) = [6].
Proof. vm_compute. auto. Qed.
(** An empty key is not looked up but is unique in the table: the second event of a batch
    that has one makes the whole request fail. *)
Example empty_key_fails :
  fst (ingest_payloads demo_registry "ten_a"
    [("key", VStr "") :: dns "evt_1"; ("key", VStr "") :: dns "evt_2"] "usr_1" feed)
  = Raise (OtherError "IntegrityError: UNIQUE constraint failed").
Proof. vm_compute. reflexivity. Qed.
(** The lookup of enrichment is by the exact text, the one of sightings also by its lower
    case: this event is a sighting of an indicator it is not enriched with. *)
Example case_mismatch :
  let s := snd (upsert_ioc "ten_a" {| ib_indicator_type := "domain"; ib_value := "bad.example"; ib_source := "feed";
    ib_confidence := fl_of_Z 1; ib_ttl_hours := 24; ib_malware := None; ib_actor := None; ib_campaign := None;
    ib_mitre_techniques := []; ib_tags := []; ib_provenance := [] |} "usr_1" empty_db) in
  let '(r, s') := prepare "ten_a" [("id", VStr "evt_1"); ("domain", VStr "BAD.example")] s in
  match r with Ok e => dhas "intel" (e_attributes e) | Raise _ => true end = false
  ∧ (io_sightings <$> d_indicators s') = [1].
Proof. vm_compute. auto. Qed.

Lemma demo_stable p : p ∈ demo_batch → ∃ o, stable "ten_a" p o.
Proof.
  intros _. exists ((λ i, (i, text_of "key" p)) <$> text_of "id" p). intros d. simpl.
  by destruct (text_of "id" p).
Defined.
Lemma ingest_accounts_witness : ∃ r s', first_run = (Ok r, s') ∧ batch "ten_a" demo_batch nothing_yet r feed s'.
Proof.
  assert (is_ok (fst first_run) = true) as Hok by (vm_compute; reflexivity).
  destruct first_run as [[r|e] s'] eqn:E; [|discriminate Hok]. exists r, s'. split; [reflexivity|].
  exact (ingest_accounts demo_registry "ten_a" demo_batch "usr_1" feed r s' E).
Defined.
Lemma replay_stores_nothing_witness : ∃ r2 s3, second_run = (Ok r2, s3) ∧ ig_accepted r2 = [].
Proof.
  assert (is_ok (fst first_run) = true ∧ is_ok (fst second_run) = true) as [Hok Hok2] by (vm_compute; auto).
  destruct first_run as [[r|e] s'] eqn:E; [|discriminate Hok]. cbn [snd] in *.
  destruct (ingest_payloads demo_registry "ten_a" demo_batch "usr_2" s') as [[r2|e] s3] eqn:E2; [|discriminate Hok2].
  exists r2, s3. split; [reflexivity|].
  exact (proj1 (replay_stores_nothing demo_registry "ten_a" demo_batch "usr_1" feed r s' "usr_2" s' r2 s3 []
    demo_stable E (eq_sym (app_nil_r _)) E2)).
Defined.
Lemma feed_rows_wf : intel_wf feed.
Proof.
  apply (upsert_good "ten_a" (Intel.evil_body 24) "usr_1" empty_db).
  split; [apply NoDup_nil_2 | apply NoDup_nil_2 | by intros ? ?%not_elem_of_nil].
Qed.
Lemma intel_hit_sighted_witness : ∃ e s' row row', prepare "ten_a" (dns "evt_1") feed = (Ok e, s')
  ∧ row ∈ d_indicators feed ∧ row' ∈ d_indicators s' ∧ io_sightings row < io_sightings row'.
Proof.
  assert (is_ok (fst (prepare "ten_a" (dns "evt_1") feed)) = true) as Hok by (vm_compute; reflexivity).
  destruct (prepare "ten_a" (dns "evt_1") feed) as [[e|x] s'] eqn:E; [|discriminate Hok].
  destruct (intel_hit_sighted "ten_a" (dns "evt_1") feed e s' feed_rows_wf E) as (e0 & He0 & Hrest).
  change (Ok (demo_event "evt_1" "ten_a" (dns "evt_1")) = Ok e0) in He0. injection He0 as <-.
  cbv zeta in Hrest. match type of Hrest with let '(_, _) := ?x in _ => destruct x as [e1 found] eqn:Een end.
  destruct Hrest as [_ Hall].
  destruct (Hall "ioc_0") as (row & row' & Hr & _ & _ & _ & Hr' & _ & [Hlt|Hex]).
  - apply (f_equal snd) in Een. cbn [snd] in Een. rewrite <-Een. vm_compute. reflexivity.
  - exists e, s', row, row'. split_and!; [reflexivity | exact Hr | exact Hr' | exact Hlt].
  - exfalso. match type of Hex with expired_at ?n _ = _ =>
      assert (forallb (λ r, negb (expired_at n r)) (d_indicators feed) = true) as Hf by (vm_compute; reflexivity) end.
    rewrite forallb_forall in Hf. apply list_elem_of_In, Hf in Hr. rewrite Hex in Hr. discriminate Hr.
Defined.
