(* ===== verification/IngestAdapters.v ===== *)
(** * Ingest adapters

    Models [packages/ingest-adapters/blueteam_ingest/router.py], which sends a payload to
    the normaliser it is meant for, and gives the ingestion service the normaliser it runs
    on. *)
From S2P Require Export Ingestion Syslog.
Local Open Scope Z_scope.

Section router.
Context `{Oracle} `{IsoLib} `{Pydantic}.

(** The payload claims to be a canonical event. *)
Definition claims_canonical (payload : pydict) : bool :=
  vtrue (dgetv "schema_version" payload) && vtrue (dgetv "id" payload) && vtrue (dgetv "source" payload)
  && vtrue (dgetv "source_type" payload).
Definition ENDPOINT_ADAPTERS : list string := ["sysmon"; "wazuh"; "osquery"; "linux-audit"; "audit"; "auditd"].
Definition adapter_of (payload : pydict) : string := lower (py_str (vor (dgetv "adapter" payload) (VStr ""))).
(** [normalize_payload] *)
Definition normalize_draft (payload : pydict) (tenant_id : string) : M draws Draft :=
  if claims_canonical payload then lift (model_validate (dset "tenant_id" (VStr tenant_id) payload))
  else
    let adapter := adapter_of payload in
    if vtrue (dgetv "syslog_raw" payload) || (adapter =? "syslog")%string
    then parse_syslog_line (py_str (vor (first_of payload "syslog_raw" "message") (VStr ""))) tenant_id
    else if (adapter =? "zeek")%string || vtrue (dgetv "_path" payload) then normalize_zeek payload tenant_id None
    else if (adapter =? "suricata")%string then normalize_suricata payload tenant_id
    else if mem adapter ENDPOINT_ADAPTERS then normalize_endpoint (setdefault "source" (VStr adapter) payload) tenant_id
    else normalize_generic payload tenant_id.

(** The record of an event has times with an offset. A draft whose times have none, which
    the canonical and the generic adapter make of a time written without, has no counterpart
    in it: the service is modelled up to there. *)
Definition settled (d : Draft) : result CanonicalEvent :=
  match dr_timestamp d, dr_ingested_at d with
  | Aware t, Aware i => Ok (dr_event d t i)
  | _, _ => Raise (OtherError "naive datetime")
  end.
#[export] Instance ingest_adapters : Normalizer := {|
  normalize_payload := λ payload tenant_id, d ← normalize_draft payload tenant_id; lift (settled d) |}.
End router.

(** ** What every adapter yields *)

Definition yields {A} (Q : A → Prop) (m : M draws A) : Prop := ∀ s a s', m s = (Ok a, s') → Q a.
Lemma yields_bind {A B} (Q : B → Prop) (m : M draws A) k : (∀ a, yields Q (k a)) → yields Q (m ≫= k).
Proof. intros Hk s d s' He. inv_bind He. by eapply Hk. Qed.
Lemma yields_lift_bind {A B} (Q : B → Prop) (r : result A) k : (∀ a, r = Ok a → yields Q (k a)) → yields Q (lift r ≫= k).
Proof. intros Hk s d s' He. inv_bind He. injection Ha as -> <-. by eapply Hk. Qed.
Lemma yields_raise {A} (Q : A → Prop) e : yields Q (raise e).
Proof. by intros s a s' [=]. Qed.
Lemma yields_lift {A} (Q : A → Prop) r : (∀ a, r = Ok a → Q a) → yields Q (lift r).
Proof. intros Hq s a s' [= He _]. by apply Hq. Qed.
Lemma yields_mono {A} (Q Q' : A → Prop) m : yields Q m → (∀ a, Q a → Q' a) → yields Q' m.
Proof. intros Hm HQ s a s' He. by eapply HQ, Hm. Qed.
(** A call that can fail only with a [ValueError]. *)
Definition soft_result {A} (r : result A) : Prop := match r with Raise (ValueError _) | Ok _ => True | _ => False end.
Definition soft {A} (m : M draws A) : Prop := ∀ s, soft_result (fst (m s)).
Lemma soft_bind {A B} (m : M draws A) (k : A → M draws B) : soft m → (∀ a, soft (k a)) → soft (m ≫= k).
Proof.
  intros Hm Hk s. unfold mbind, M_bind. specialize (Hm s). destruct (m s) as [[a|e] s1]; simpl in *; [apply Hk | done].
Qed.
Lemma soft_lift {A} (r : result A) : soft_result r → soft (lift r).
Proof. by intros Hr s. Qed.
Lemma soft_ret {A} (a : A) : soft (mret a).
Proof. by intros s. Qed.

Section adapter_facts.
Context `{Oracle} `{IsoLib} `{P : Pydantic} `{!PydanticLaws P}.

(** The event is the tenant's and is valid whatever its times. *)
Definition owned (tenant_id : string) (dr : Draft) : Prop := ∀ t i,
  let e := dr_event dr t i in e_tenant_id e = tenant_id ∧ validate_event e = Ok e.
(** It keeps the record it was made of, and its hash, if it has one, is of that record. *)
Definition evidences (raw : pydict) (dr : Draft) : Prop := ∀ t i,
  let e := dr_event dr t i in e_raw_event e = raw ∧ ∀ h, e_raw_hash e = Some h → h = sha256_hex (canonical_json (VDict raw)).

Lemma model_owned p d dr tenant_id : event_model p d = Good dr → dget "tenant_id" d = Some (VStr tenant_id) → owned tenant_id dr.
Proof.
  intros D%event_model_good Ht t i. split; [|by eapply drafted_valid].
  pose proof (df_tenant _ _ _ D t i) as (v & Hv & [Hs _]%as_tenant_ok)%required_good.
  apply as_str_iff in Hs as ->. congruence.
Qed.
Lemma canonical_owned a d dr tenant_id : canonical_event a d = Ok dr → dget "tenant_id" d = Some (VStr tenant_id) → owned tenant_id dr.
Proof. intros Hd%validated_ok. by eapply model_owned. Qed.
Lemma model_evidences p d dr raw : event_model p d = Good dr → dget "raw_event" d = Some (VDict raw) →
  dget "raw_hash" d = None ∨ dget "raw_hash" d = Some (raw_digest raw) → evidences raw dr.
Proof.
  intros D%event_model_good Hr Hh t i. split.
  - pose proof (df_raw_event _ _ _ D t i) as [[? _]|(v & Hv & Hd)]%defaulted_good; [congruence|].
    assert (v = VDict raw) as -> by congruence. by injection Hd.
  - intros h Heq. pose proof (df_raw_hash _ _ _ D t i) as [[_ Hn]|(v & Hv & Hs)]%defaulted_good; [congruence|].
    destruct Hh as [|Hh]; [congruence|]. assert (v = raw_digest raw) as -> by congruence. simpl in Hs.
    destruct (as_str (raw_digest raw)) as [h'|] eqn:E; [|done]. apply as_str_iff in E. injection Hs as Hs. injection E as <-. congruence.
Qed.
Lemma canonical_evidences a d dr raw : canonical_event a d = Ok dr → dget "raw_event" d = Some (VDict raw) →
  dget "raw_hash" d = None ∨ dget "raw_hash" d = Some (raw_digest raw) → evidences raw dr.
Proof. intros Hd%validated_ok. by eapply model_evidences. Qed.

Definition made_of (tenant_id : string) (raw : pydict) (dr : Draft) : Prop := owned tenant_id dr ∧ evidences raw dr.
Lemma canonical_made a d dr tenant_id raw : canonical_event a d = Ok dr → dget "tenant_id" d = Some (VStr tenant_id) →
  dget "raw_event" d = Some (VDict raw) → dget "raw_hash" d = None ∨ dget "raw_hash" d = Some (raw_digest raw) →
  made_of tenant_id raw dr.
Proof. intros Hd Ht Hr Hh. split; [by eapply canonical_owned | by eapply canonical_evidences]. Qed.
Lemma network_made tenant_id source ty et c raw host file fields :
  yields (made_of tenant_id raw) (network_event tenant_id source ty et c raw host file fields).
Proof. do 4 (apply yields_bind; intros ?). apply yields_lift. intros dr He. by eapply canonical_made; eauto. Qed.
Lemma endpoint_made tenant_id source et c raw user host process parent file fields :
  yields (made_of tenant_id raw) (endpoint_event tenant_id source et c raw user host process parent file fields).
Proof. do 3 (apply yields_bind; intros ?). apply yields_lift. intros dr He. by eapply canonical_made; eauto. Qed.

(** The record an event keeps has every entry of the payload; the hash that Zeek's file
    records get may be new. *)
Definition retains (payload raw : pydict) : Prop := ∀ k v, k ≠ "file_hash" → dget k payload = Some v → dget k raw = Some v.
Lemma retains_refl payload : retains payload payload.
Proof. by intros k v. Qed.
Lemma retains_file_hash v payload : retains payload (dset "file_hash" v payload).
Proof. intros k w Hk Hw. by rewrite dget_dset_ne. Qed.
Lemma retains_setdefault k v payload : retains payload (setdefault k v payload).
Proof.
  intros k' w _ Hw. unfold setdefault, dhas. destruct (dget k payload) eqn:E; [done|].
  rewrite <-dset_fresh by (by apply dget_None). rewrite dget_dset_ne; [done|]. intros ->. congruence.
Qed.
Definition keeps_payload (tenant_id : string) (payload : pydict) (dr : Draft) : Prop :=
  ∃ raw, made_of tenant_id raw dr ∧ retains payload raw.
Lemma network_keeps tenant_id source ty et c payload raw host file fields : retains payload raw →
  yields (keeps_payload tenant_id payload) (network_event tenant_id source ty et c raw host file fields).
Proof. intros Hr. eapply yields_mono; [apply network_made|]. by exists raw. Qed.
Lemma endpoint_keeps tenant_id source et c payload raw user host process parent file fields : retains payload raw →
  yields (keeps_payload tenant_id payload) (endpoint_event tenant_id source et c raw user host process parent file fields).
Proof. intros Hr. eapply yields_mono; [apply endpoint_made|]. by exists raw. Qed.
Lemma zeek_keeps raw tenant_id log_type : yields (keeps_payload tenant_id raw) (normalize_zeek raw tenant_id log_type).
Proof.
  apply yields_lift_bind. intros [[[[kind host] file] raw'] fields] Hz. apply network_keeps. unfold zeek_fields in Hz.
  apply result_bind_ok in Hz as (k & _ & Hz). destruct (mem k ZEEK_SOURCES); [|done]. cbn [negb] in Hz.
  do 5 (apply result_bind_ok in Hz as (? & _ & Hz)). injection Hz as _ _ _ <- _.
  destruct (k =? "files")%string; [apply retains_file_hash | apply retains_refl].
Qed.
Lemma suricata_keeps raw tenant_id : yields (keeps_payload tenant_id raw) (normalize_suricata raw tenant_id).
Proof. apply yields_lift_bind. intros [[[kind host] file] fields] _. by apply network_keeps, retains_refl. Qed.
Lemma endpoint_adapters_keep payload raw tenant_id : retains payload raw →
  yields (keeps_payload tenant_id payload) (normalize_endpoint raw tenant_id).
Proof.
  intros Hr. unfold normalize_endpoint, normalize_wazuh, normalize_osquery, normalize_linux_audit, normalize_sysmon.
  repeat first [apply endpoint_keeps, Hr | apply yields_bind; intros ? | case_match].
Qed.

(** A payload the generic adapter takes for a canonical event, and one the router sends to
    the syslog adapter, with the line it hands over. *)
Definition ready_made (payload : pydict) : bool :=
  claims_canonical payload
  || vtrue (dgetv "schema_version" payload) && vtrue (dgetv "id" payload) && vtrue (dgetv "tenant_id" payload).
Definition syslog_line (payload : pydict) : string := py_str (vor (first_of payload "syslog_raw" "message") (VStr "")).
Definition keeps_line (tenant_id : string) (payload : pydict) (dr : Draft) : Prop :=
  ∃ raw, made_of tenant_id raw dr ∧ dget "syslog_raw" raw = Some (VStr (strip (syslog_line payload))).

Lemma generic_owned payload tenant_id : yields (owned tenant_id) (normalize_generic payload tenant_id).
Proof.
  unfold normalize_generic. destruct (_ && _).
  - apply yields_lift_bind. intros dr He. destruct (dr_tenant dr =? tenant_id)%string eqn:Ht; [|apply yields_raise].
    intros s d s' [= <- _] ts i. apply validated_ok, event_model_good in He. split; [|by eapply drafted_valid].
    apply String.eqb_eq in Ht as <-. unfold dr_tenant.
    pose proof (df_tenant _ _ _ He ts i) as H1. pose proof (df_tenant _ _ _ He epoch epoch) as H2. congruence.
  - repeat (apply yields_bind; intros ?). apply yields_lift. intros dr He. by eapply canonical_owned.
Qed.
Lemma generic_keeps payload tenant_id : ready_made payload = false →
  yields (keeps_payload tenant_id payload) (normalize_generic payload tenant_id).
Proof.
  intros [_ Hc]%orb_false_iff. unfold normalize_generic. rewrite Hc.
  repeat (apply yields_bind; intros ?). apply yields_lift. intros dr He. exists payload. split; [|apply retains_refl].
  by eapply canonical_made; eauto.
Qed.
Lemma rfc5424_keys text parsed : rfc5424 text = Some parsed →
  dkeys parsed = ["pri"; "version"; "ts"; "host"; "app"; "proc"; "msgid"; "rest"].
Proof.
  unfold rfc5424. intros He. repeat (apply bind_Some in He as ([? ?] & _ & He)). apply bind_Some in He as (? & _ & He). by injection He as <-.
Qed.
Lemma rfc3164_keys text parsed : rfc3164 text = Some parsed → dkeys parsed = ["pri"; "ts"; "host"; "rest"].
Proof.
  unfold rfc3164. intros He. repeat (apply bind_Some in He as ([? ?] & _ & He)). apply bind_Some in He as (? & _ & He). by injection He as <-.
Qed.
Lemma parsed_keys text : yields (λ r : list (string * string) * py_datetime * string * string * string,
  "syslog_raw" ∉ dkeys r.1.1.1.1) (parse_line text).
Proof.
  unfold parse_line. destruct (rfc5424 text) as [parsed|] eqn:E5.
  - apply yields_bind. intros ?. intros s r s' [= <- _]. simpl. rewrite (rfc5424_keys _ _ E5). by apply (bool_decide_unpack _).
  - apply yields_bind. intros ?. destruct (rfc3164 text) as [parsed|] eqn:E3; intros s r s' [= <- _]; simpl.
    + rewrite (rfc3164_keys _ _ E3). by apply (bool_decide_unpack _).
    + by apply (bool_decide_unpack _).
Qed.
Lemma syslog_raw_line text message parsed : "syslog_raw" ∉ dkeys parsed →
  dget "syslog_raw" (syslog_raw text message parsed) = Some (VStr text).
Proof.
  intros Hk. unfold syslog_raw, dupdate. rewrite dget_foldl_other; [done|].
  intros (kv & Hkv & (kv' & -> & [Hin _]%elem_of_select)%list_elem_of_fmap)%list_elem_of_fmap. apply Hk. simpl in Hkv. subst. unfold dkeys.
  apply list_elem_of_fmap. by exists kv'.
Qed.
Lemma syslog_keeps payload tenant_id : yields (keeps_line tenant_id payload) (parse_syslog_line (syslog_line payload) tenant_id).
Proof.
  unfold parse_syslog_line. destruct (nonempty _); [|apply yields_raise]. cbn [negb]. intros s dr s' He. inv_bind He.
  apply parsed_keys in Ha. destruct a as [[[[parsed ts] host] app] message]. revert s0 dr s' He.
  intros s1 dr s' He. do 4 inv_bind He. injection He as He _.
  eexists. split; [eapply canonical_made; [exact He | reflexivity | reflexivity | by left] | by apply syslog_raw_line].
Qed.

Lemma syslog_owned line tenant_id : yields (owned tenant_id) (parse_syslog_line line tenant_id).
Proof.
  unfold parse_syslog_line. destruct (nonempty _); [|apply yields_raise]. cbn [negb].
  apply yields_bind. intros [[[[parsed ts] host] app] message]. do 4 (apply yields_bind; intros ?).
  apply yields_lift. intros dr He. by eapply canonical_owned.
Qed.
Lemma keeps_owned tenant_id payload dr : keeps_payload tenant_id payload dr → owned tenant_id dr.
Proof. by intros (raw & [? _] & _). Qed.

(** C10. Whatever a payload says of itself, the event an adapter makes of it is the
    tenant's that sent it, and passes the validators of the model: a prefixed tenant and
    scores between 0 and 100. *)
Theorem normalized_for_tenant payload tenant_id s dr s' : normalize_draft payload tenant_id s = (Ok dr, s') → ∀ t i,
  let e := dr_event dr t i in e_tenant_id e = tenant_id ∧ validate_event e = Ok e.
Proof.
  revert s dr s'. change (yields (owned tenant_id) (normalize_draft payload tenant_id)). unfold normalize_draft.
  repeat case_match.
  - apply yields_lift. intros dr He%validated_ok. eapply model_owned; [exact He | apply dget_dset_eq].
  - apply syslog_owned.
  - eapply yields_mono; [apply zeek_keeps | apply keeps_owned].
  - eapply yields_mono; [apply suricata_keeps | apply keeps_owned].
  - eapply yields_mono; [eapply endpoint_adapters_keep, retains_setdefault | apply keeps_owned].
  - apply generic_owned.
Qed.
(** A payload that is no canonical event already is kept: the raw record of its event
    has every entry of the payload, or, for the syslog adapter, the line; and where the
    event has a hash, it is the hash of that record. *)
Theorem records_kept payload tenant_id s dr s' : ready_made payload = false →
  normalize_draft payload tenant_id s = (Ok dr, s') → ∃ raw,
    (retains payload raw ∨ dget "syslog_raw" raw = Some (VStr (strip (syslog_line payload))))
    ∧ ∀ t i, let e := dr_event dr t i in
      e_raw_event e = raw ∧ ∀ h, e_raw_hash e = Some h → h = sha256_hex (canonical_json (VDict raw)).
Proof.
  intros Hr He. assert (claims_canonical payload = false) as Hc by by apply orb_false_iff in Hr as [? _].
  unfold normalize_draft in He. rewrite Hc in He. revert He.
  assert (∀ m, yields (keeps_payload tenant_id payload) m → m s = (Ok dr, s') → ∃ raw,
    (retains payload raw ∨ dget "syslog_raw" raw = Some (VStr (strip (syslog_line payload)))) ∧ evidences raw dr) as Hk.
  { intros m Hm (raw & [_ He] & Ht)%Hm. exists raw. by split; [left|]. }
  repeat case_match.
  - intros (raw & [_ He] & Hl)%syslog_keeps. exists raw. by split; [right|].
  - apply Hk, zeek_keeps.
  - apply Hk, suricata_keeps.
  - apply Hk, endpoint_adapters_keep, retains_setdefault.
  - by apply Hk, generic_keeps.
Qed.

(** *** Failures *)

Lemma soft_validated {A} (c : checked A) : soft_result (validated c).
Proof. by destruct c. Qed.
Lemma soft_canonical a d : soft_result (canonical_event a d).
Proof. apply soft_validated. Qed.
Lemma soft_iso text : soft_result (parse_iso text).
Proof. unfold parse_iso. by destruct (fromisoformat _). Qed.
Lemma soft_id p : soft (new_id_d p).
Proof. by intros s. Qed.
Lemma soft_now : soft utcnow_d.
Proof. by intros s. Qed.
Lemma soft_raise m : soft (A := Draft) (raise (ValueError m)).
Proof. by intros s. Qed.
Lemma soft_fmap {A B} (f : A → B) (m : M draws A) : soft m → soft (f <$> m).
Proof. intros Hm s. specialize (Hm s). unfold fmap, M_fmap. by destruct (m s) as [[a|e] s1]. Qed.
Ltac soft_step :=
  match goal with
  | |- soft (_ ≫= _) => apply soft_bind; [|intros ?]
  | |- soft (_ <$> _) => apply soft_fmap
  | |- soft (mret _) => apply soft_ret
  | |- soft (raise (ValueError _)) => apply soft_raise
  | |- soft (new_id_d _) => apply soft_id
  | |- soft utcnow_d => apply soft_now
  | |- soft (lift (validated _)) => apply soft_lift, soft_validated
  | |- soft (lift (canonical_event _ _)) => apply soft_lift, soft_canonical
  | |- soft (lift (parse_iso _)) => apply soft_lift, soft_iso
  | |- soft (match ?x with _ => _ end) => destruct x
  end.
Lemma soft_generic payload tenant_id : soft (normalize_generic payload tenant_id).
Proof. unfold normalize_generic, model_validate, user_named. repeat soft_step. Qed.
Lemma soft_syslog line tenant_id : soft (parse_syslog_line line tenant_id).
Proof. unfold parse_syslog_line, parse_line, syslog_ts, user_named. repeat soft_step. Qed.

(** The payloads that go to the adapter of a vendor. *)
Definition for_vendor (payload : pydict) : bool :=
  negb (claims_canonical payload) && negb (vtrue (dgetv "syslog_raw" payload) || (adapter_of payload =? "syslog")%string)
  && (mem (adapter_of payload) (["zeek"; "suricata"] ++ ENDPOINT_ADAPTERS) || vtrue (dgetv "_path" payload)).
(** A canonical, syslog or generic payload that cannot be normalised fails with a
    [ValueError], which the ingestion loop turns into a dead letter; only a vendor's record
    can fail otherwise. *)
Theorem only_vendor_records_fail_hard payload tenant_id s e s' : for_vendor payload = false →
  normalize_draft payload tenant_id s = (Raise e, s') → ∃ m, e = ValueError m.
Proof.
  intros Hv He. assert (soft (normalize_draft payload tenant_id)) as Hs.
  { unfold for_vendor in Hv. unfold normalize_draft. destruct (claims_canonical payload).
    { apply soft_lift, soft_validated. }
    destruct (vtrue (dgetv "syslog_raw" payload) || (adapter_of payload =? "syslog")%string); [apply soft_syslog|].
    simpl in Hv. unfold ENDPOINT_ADAPTERS. simpl. destruct (adapter_of payload =? "zeek")%string; [done|].
    destruct (adapter_of payload =? "suricata")%string; [done|]. simpl in *.
    destruct (vtrue (dgetv "_path" payload)); [by rewrite orb_true_r in Hv|]. rewrite orb_false_r in Hv. rewrite Hv.
    apply soft_generic. }
  specialize (Hs s). rewrite He in Hs. destruct e; try done. eauto.
Qed.
End adapter_facts.

(** ** The service on its adapters *)

#[export] Instance ingest_adapters_laws `{Oracle} `{IsoLib} `{P : Pydantic} `{!PydanticLaws P} : NormalizerLaws ingest_adapters.
Proof.
  intros payload tenant_id d e d' He. cbn in He. inv_bind He. injection He as He _. unfold settled in He.
  destruct (dr_timestamp a), (dr_ingested_at a); try done. injection He as <-. by eapply normalized_for_tenant.
Qed.
(** A batch of payloads, whatever they are and however it ends, stores no event of
    another tenant: of every row, the payload's tenant, identifier, time and key are the
    row's, and rows that were sound stay so. *)
Theorem ingested_events_isolated `{Oracle} `{IsoLib} `{P : Pydantic} `{!PydanticLaws P} `{SetOrder} `{IpLib} `{DataPlane}
    registry t ps actor s r s' : rows_owned s →
  ingest_payloads registry t ps actor s = (r, s') →
  rows_owned s' ∧ ∀ row, row ∈ d_events s' → e_tenant_id (se_payload row) = se_tenant_id row.
Proof.
  intros Ho He. assert (rows_owned s') as Ho'.
  { pose proof (owning_ingest registry t ps actor s Ho) as Hk. by rewrite He in Hk. }
  split; [done|]. intros row Hr. unfold rows_owned in Ho'. rewrite Forall_forall in Ho'. by apply Ho'.
Qed.

(** ** Concrete payloads *)

#[local] Instance demo_oracle : Oracle :=
  {| uuid_hex := λ n, str_of_nat n; clock := λ n, utc 20000 (60 * Z.of_nat n) |}.
#[local] Instance demo_iso : IsoLib := {| other_iso := λ _, None |}.
#[local] Instance demo_pydantic : Pydantic := {|
  as_str := λ v, match v with VStr s => Some s | _ => None end;
  as_int := λ v, match v with VInt z => Some z | VStr s => int_of_str s | _ => None end;
  as_float := λ v, match v with VFloat f => Some f | VInt z => Some (fl_of_Z z) | _ => None end;
  as_datetime := λ v, match v with VStr s => fromisoformat (replace_char "Z" "+00:00" s) | _ => None end;
  validation_message := λ failing, "validation errors: " +:+ join ", " failing.*1 |}.
#[local] Instance demo_pydantic_laws : PydanticLaws demo_pydantic.
Proof. constructor; try reflexivity. intros [] x; simpl; split; congruence. Defined.
Definition demo_draws : draws := {| n_uuid := 0; n_clock := 0 |}.
Definition alert_record : pydict := [
  ("adapter", VStr "suricata"); ("event_type", VStr "alert"); ("timestamp", VFloat (fl_of_decimal false 17280000025 (-1)));
  ("src_ip", VStr "10.0.0.1"); ("dest_ip", VStr "10.0.0.2"); ("src_port", VInt 4000);
  ("alert", VDict [("severity", VInt 1); ("signature", VStr "beacon")])].
Definition refused : pydict := [
  ("schema_version", VStr "1.0.0"); ("id", VStr "evt_1"); ("source", VStr "x"); ("source_type", VStr "y"); ("confidence", VInt 300)].
Local Abbreviation alert_draft := (normalize_draft alert_record "ten_a" demo_draws).

(** Records of vendors on which the adapters fail with an error the loop does not catch: a
    batch with one of them is lost as a whole. *)
Example hard_failures :
  fst (normalize_draft [("adapter", VStr "zeek"); ("_path", VInt 5)] "ten_a" demo_draws)
    = Raise (OtherError "AttributeError: 'int' object has no attribute 'lower'")
  ∧ fst (normalize_draft [("adapter", VStr "wazuh"); ("agent", VNone)] "ten_a" demo_draws)
    = Raise (OtherError "AttributeError: 'NoneType' object has no attribute 'get'")
  ∧ fst (normalize_draft [("adapter", VStr "zeek"); ("rcode_name", VList [])] "ten_a" demo_draws)
    = Raise (TypeError "unhashable type: 'list'").
Proof. vm_compute. auto. Qed.
(** The generic adapter leaves a time without an offset as it is, and takes a structured user
    for a name although it knows the dotted key. *)
Example generic_surprises :
  match fst (normalize_draft [("user", VDict [("name", VStr "bob")]); ("timestamp", VStr "2024-10-04T00:00:02")] "ten_a" demo_draws) with
  | Ok d => (dr_timestamp d, user_name (dr_event d epoch epoch)) = (Naive 1728000002000000, Some "{'name': 'bob'}")
  | Raise _ => False
  end.
Proof. vm_compute. reflexivity. Qed.

Lemma normalized_for_tenant_witness : ∃ dr s', alert_draft = (Ok dr, s') ∧ e_tenant_id (dr_event dr epoch epoch) = "ten_a".
Proof.
  assert (is_ok (fst alert_draft) = true) as Hok by (vm_compute; reflexivity).
  destruct alert_draft as [[dr|e] s'] eqn:E; [|discriminate Hok]. exists dr, s'. split; [reflexivity|].
  exact (proj1 (normalized_for_tenant alert_record "ten_a" demo_draws dr s' E epoch epoch)).
Defined.
Lemma records_kept_witness : ∃ dr s', alert_draft = (Ok dr, s') ∧ ∃ raw, e_raw_event (dr_event dr epoch epoch) = raw.
Proof.
  assert (is_ok (fst alert_draft) = true) as Hok by (vm_compute; reflexivity).
  destruct alert_draft as [[dr|e] s'] eqn:E; [|discriminate Hok]. exists dr, s'. split; [reflexivity|].
  destruct (records_kept alert_record "ten_a" demo_draws dr s' eq_refl E) as (raw & _ & Hr). exists raw.
  exact (proj1 (Hr epoch epoch)).
Defined.
Lemma only_vendor_records_fail_hard_witness : ∃ m, fst (normalize_draft refused "ten_a" demo_draws) = Raise (ValueError m).
Proof.
  assert (is_ok (fst (normalize_draft refused "ten_a" demo_draws)) = false) as Hok by (vm_compute; reflexivity).
  destruct (normalize_draft refused "ten_a" demo_draws) as [[dr|e] s'] eqn:E; [discriminate Hok|].
  destruct (only_vendor_records_fail_hard refused "ten_a" demo_draws e s' eq_refl E) as [m ->]. exists m. reflexivity.
Defined.
Lemma network_records_graded_witness : ∃ dr s', normalize_suricata alert_record "ten_a" demo_draws = (Ok dr, s')
  ∧ ∃ kind, e_event_type (dr_event dr epoch epoch) = kind ∧ mem kind SURICATA_SOURCES = true.
Proof.
  assert (is_ok (fst (normalize_suricata alert_record "ten_a" demo_draws)) = true) as Hok by (vm_compute; reflexivity).
  destruct (normalize_suricata alert_record "ten_a" demo_draws) as [[dr|e] s'] eqn:E; [|discriminate Hok].
  exists dr, s'. split; [reflexivity|].
  destruct (proj1 (network_records_graded alert_record "ten_a" demo_draws dr s') E) as (kind & level & alert & Hk & _ & _ & Hd).
  exists kind. split; [exact (proj1 (proj2 (Hd epoch epoch))) | exact Hk].
Defined.
#[local] Instance demo_order : SetOrder := {| set_iter := remove_dups |}.
#[local] Instance demo_ip : IpLib := {| ipv6_private := λ _, None |}.
#[local] Instance demo_plane : DataPlane := {| object_uri := λ _ _, None |}.
Lemma ingested_events_isolated_witness :
  rows_owned (snd (ingest_payloads (build_default_registry []) "ten_a" [alert_record; []] "usr_1" empty_db)).
Proof.
  destruct (ingest_payloads (build_default_registry []) "ten_a" [alert_record; []] "usr_1" empty_db) as [r s'] eqn:E.
  exact (proj1 (ingested_events_isolated (build_default_registry []) "ten_a" [alert_record; []] "usr_1" empty_db r s' (Forall_nil_2 _) E)).
Defined.
