(* ===== verification/Vulns.v ===== *)
(** * Vulnerabilities

    Models [packages/vuln-engine/blueteam_vuln/__init__.py] (the priority of a finding and
    the import of a scanner's rows), [services/api/app/services/vulns.py] and the routes of
    [api/vulns.py]. Scores are doubles, computed as the code computes them. *)
From S2P Require Export Routes PyFloat.
Local Open Scope Z_scope.

(** ** [remediation_priority] *)

(** [max(low, min(high, value))]: Python keeps the first argument unless the second is
    strictly smaller, or greater, so that a value that is not a number becomes [high]. *)
Definition clamp (value : float) : float :=
  let x := if fl_lt value (fl_of_Z 100) then value else fl_of_Z 100 in
  if fl_lt (fl_of_Z 0) x then x else fl_of_Z 0.
Definition percent (n : Z) : float := fl_of_decimal false n (-2).
Definition weighted (cvss_norm exploit criticality threat : float) : float :=
  fl_add (fl_add (fl_add (fl_mul (percent 40) cvss_norm) (fl_mul (percent 25) exploit)) (fl_mul (percent 20) criticality))
         (fl_mul (percent 15) threat).
(** Service level and band of a score. *)
Definition band_of (score : float) : Z * string :=
  if fl_le (fl_of_Z 80) score then (7, "critical")
  else if fl_le (fl_of_Z 50) score then (14, "high")
  else if fl_le (fl_of_Z 25) score then (30, "medium")
  else (90, "low").
Record Priority := {
  pr_priority : float; pr_band : string; pr_sla_days : Z; pr_cvss_norm : float; pr_exploitability : float;
  pr_asset_criticality : float; pr_threat_activity : float; pr_formula : string }.
Definition FORMULA : string := "0.40*cvss_norm + 0.25*exploitability + 0.20*asset_criticality + 0.15*threat_activity".
Definition priority_score (cvss exploitability asset_criticality threat_activity : float) : float :=
  clamp (weighted (clamp (fl_mul cvss (fl_of_Z 10))) (clamp exploitability) (clamp asset_criticality) (clamp threat_activity)).
Definition remediation_priority (cvss exploitability asset_criticality threat_activity : float) : Priority :=
  let score := priority_score cvss exploitability asset_criticality threat_activity in
  {| pr_priority := fl_round 2 score; pr_band := (band_of score).2; pr_sla_days := (band_of score).1;
     pr_cvss_norm := fl_round 2 (clamp (fl_mul cvss (fl_of_Z 10))); pr_exploitability := fl_round 2 (clamp exploitability);
     pr_asset_criticality := fl_round 2 (clamp asset_criticality); pr_threat_activity := fl_round 2 (clamp threat_activity);
     pr_formula := FORMULA |}.

(** ** [import_scanner_findings] *)

Record VulnerabilityFinding := {
  vf_cve_id : string; vf_title : string; vf_cvss : float; vf_exploitability : float; vf_asset_id : string;
  vf_asset_criticality : float; vf_threat_activity : float; vf_scanner : string; vf_status : string }.
(** The finding and what is computed of it: together the dict that [scored] returns. *)
Definition scored_finding (f : VulnerabilityFinding) : VulnerabilityFinding * Priority :=
  (f, remediation_priority (vf_cvss f) (vf_exploitability f) (vf_asset_criticality f) (vf_threat_activity f)).
(** [row.get(k1) or row.get(k2) or dflt] *)
Definition either (keys : list string) (dflt : pyval) (row : pydict) : pyval :=
  foldr (λ k rest, vor (dgetv k row) rest) dflt keys.
Definition finding_of (row : pydict) : result VulnerabilityFinding :=
  let text keys dflt := py_str (either keys (VStr dflt) row) in
  cvss ← py_float (either ["cvss"; "cvss_score"] (VInt 0) row);
  exploitability ← py_float (either ["exploitability"; "epss"] (VInt 0) row);
  criticality ← py_float (either ["asset_criticality"; "criticality"] (VInt 50) row);
  threat ← py_float (either ["threat_activity"] (VInt 0) row);
  Ok {| vf_cve_id := text ["cve_id"; "cve"] "CVE-UNKNOWN"; vf_title := text ["title"; "name"; "cve_id"] "vulnerability";
        vf_cvss := cvss; vf_exploitability := exploitability; vf_asset_id := text ["asset_id"; "asset"] "unknown";
        vf_asset_criticality := criticality; vf_threat_activity := threat; vf_scanner := text ["scanner"] "import";
        vf_status := text ["status"] "open" |}.
Definition by_priority (a b : VulnerabilityFinding * Priority) : bool := fl_le (pr_priority b.2) (pr_priority a.2).
Definition import_scanner_findings (rows : list pydict) : result (list (VulnerabilityFinding * Priority)) :=
  out ← mapM finding_of rows;
  Ok (sort_by by_priority (scored_finding <$> out)).

(** ** [services/vulns.py] *)

Definition same_vuln (a b : VulnerabilityRecord) : bool := (vu_id a =? vu_id b)%string.
Definition vuln_item (item : VulnerabilityRecord) : pydict := [
  ("id", VStr (vu_id item)); ("cve_id", VStr (vu_cve_id item)); ("title", VStr (vu_title item)); ("cvss", VFloat (vu_cvss item));
  ("exploitability", VFloat (vu_exploitability item)); ("asset_id", VStr (vu_asset_id item));
  ("asset_criticality", VFloat (vu_asset_criticality item)); ("threat_activity", VFloat (vu_threat_activity item));
  ("priority", VFloat (vu_priority item)); ("band", VStr (vu_band item)); ("sla_days", VInt (vu_sla_days item));
  ("scanner", VStr (vu_scanner item)); ("status", VStr (vu_status item)); ("formula", VStr (vu_formula item));
  ("created_at", VStr (isoformat (vu_created_at item))); ("updated_at", VStr (isoformat (vu_updated_at item)))].
Definition list_vulns (tenant_id : string) (s : db) : list pydict :=
  vuln_item <$> sort_by (λ a b, fl_le (vu_priority b) (vu_priority a))
                  (select (λ r, vu_tenant_id r =? tenant_id)%string (d_vulns s)).
Definition vuln_record (tenant_id : string) (now : datetime) (i : string) (item : VulnerabilityFinding * Priority)
    : VulnerabilityRecord :=
  let (f, p) := item in {|
  vu_id := i; vu_tenant_id := tenant_id; vu_cve_id := vf_cve_id f; vu_title := vf_title f; vu_cvss := vf_cvss f;
  vu_exploitability := vf_exploitability f; vu_asset_id := vf_asset_id f; vu_asset_criticality := vf_asset_criticality f;
  vu_threat_activity := vf_threat_activity f; vu_priority := pr_priority p; vu_band := pr_band p; vu_sla_days := pr_sla_days p;
  vu_scanner := vf_scanner f; vu_status := vf_status f; vu_formula := pr_formula p; vu_created_at := now; vu_updated_at := now |}.

Record ImportBody := { im_findings : list pydict }.

Section vulns.
Context `{Oracle}.
Definition import_vulns (tenant_id : string) (rows : list pydict) : M db (list VulnerabilityRecord) :=
  scored ← lift (import_scanner_findings rows);
  now ← utcnow_db;
  created ← mapM' (λ item, i ← new_id_db "vul"; mret (vuln_record tenant_id now i item)) scored;
  flush;;
  add_rows d_vulns set_vulns same_vuln (λ r, r) created;;
  mret created.

(** ** [api/vulns.py] *)

Context `{AuthLib}.
Definition items_dict (items : list pydict) : pydict := [
  ("items", VList (VDict <$> items)); ("count", VInt (Z.of_nat (length items)))].
Definition get_vulns (actor : TenantActor) : M db pydict :=
  items ← gets (list_vulns (ta_tenant_id actor)); mret (items_dict items).
Definition post_import (body : ImportBody) (actor : TenantActor) (request_id : string) : M db pydict :=
  items ← import_vulns (ta_tenant_id actor) (im_findings body);
  audit_user actor request_id "vulns.import" "vulnerability" None (Some [("count", VInt (Z.of_nat (length items)))]);;
  mret (items_dict (vuln_item <$> items)).
Definition serve_get_vulns (h : headers) (request_id : string) : M db pydict :=
  served "detections:read" h request_id get_vulns.
Definition serve_post_import (h : headers) (request_id : string) (body : ImportBody) : M db pydict :=
  served "detections:write" h request_id (λ actor, post_import body actor request_id).
End vulns.

(** ** Priorities *)

Lemma clamp_percent v : fl_percent (clamp v) = true.
Proof.
  unfold clamp. set (x := if fl_lt v (fl_of_Z 100) then v else fl_of_Z 100).
  assert (fl_num x = true ∧ fl_le x (fl_of_Z 100) = true) as [Hn Hx].
  { subst x. destruct (fl_lt v (fl_of_Z 100)) eqn:E; [|done]. split; [by destruct v | by apply fl_lt_le]. }
  clearbody x. destruct (fl_lt (fl_of_Z 0) x) eqn:E; [|done]. unfold fl_percent, fl_hundred. by rewrite Hx, (fl_lt_le _ _ E).
Qed.
Lemma clamp_fits v : fl_fits v = true → fl_fits (clamp v) = true.
Proof.
  intros Hv. unfold clamp. destruct (fl_lt v (fl_of_Z 100)); [destruct (fl_lt (fl_of_Z 0) v)|destruct (fl_lt (fl_of_Z 0) (fl_of_Z 100))]; done.
Qed.
Lemma weighted_fits a b c d : fl_fits (weighted a b c d) = true.
Proof. unfold weighted. by repeat (apply fl_add_fits || apply fl_mul_fits). Qed.
Lemma score_percent a b c d : fl_percent (priority_score a b c d) = true ∧ fl_fits (priority_score a b c d) = true.
Proof. split; [apply clamp_percent | apply clamp_fits, weighted_fits]. Qed.
Lemma priority_percent f : fl_percent (pr_priority (scored_finding f).2) = true.
Proof. by apply fl_round_percent; apply score_percent. Qed.

(** Whatever the inputs, not-a-number and infinities included, a priority and the
    score of the weakness in it are numbers from 0 to 100, rounded to two decimals; the
    band and the days to remedy are those of the interval the unrounded score is in, so a
    higher band never has more days. *)
Theorem priority_bounded cvss exploitability criticality threat :
  let p := remediation_priority cvss exploitability criticality threat in
  let score := priority_score cvss exploitability criticality threat in
  fl_percent (pr_priority p) = true ∧ fl_percent (pr_cvss_norm p) = true ∧ pr_priority p = fl_round 2 score
  ∧ (pr_band p = "critical" ∧ pr_sla_days p = 7 ∧ fl_le (fl_of_Z 80) score = true
     ∨ pr_band p = "high" ∧ pr_sla_days p = 14 ∧ fl_le (fl_of_Z 50) score = true ∧ fl_lt score (fl_of_Z 80) = true
     ∨ pr_band p = "medium" ∧ pr_sla_days p = 30 ∧ fl_le (fl_of_Z 25) score = true ∧ fl_lt score (fl_of_Z 50) = true
     ∨ pr_band p = "low" ∧ pr_sla_days p = 90 ∧ fl_lt score (fl_of_Z 25) = true).
Proof.
  intros p score. destruct (score_percent cvss exploitability criticality threat) as [Hp Hf]. fold score in Hp, Hf.
  assert (∀ z, fl_num (fl_of_Z z) = true → fl_le (fl_of_Z z) score = false → fl_lt score (fl_of_Z z) = true) as Hlt.
  { intros z Hz H. destruct (fl_lt score (fl_of_Z z)) eqn:E; [done|].
    apply fl_not_lt in E; [|by apply fl_percent_num|done]. by rewrite E in H. }
  split_and!; [by apply fl_round_percent | apply fl_round_percent; [apply clamp_fits, fl_mul_fits | apply clamp_percent] | done |].
  unfold p, remediation_priority. cbn [pr_band pr_sla_days]. fold score. unfold band_of.
  destruct (fl_le (fl_of_Z 80) score) eqn:E80; [tauto|]. right.
  destruct (fl_le (fl_of_Z 50) score) eqn:E50; [left; auto|]. right.
  destruct (fl_le (fl_of_Z 25) score) eqn:E25; [left; auto|right; auto].
Qed.

(** *** Imports *)

Definition ranked (a b : VulnerabilityRecord) : Prop := fl_le (vu_priority b) (vu_priority a) = true.
(** A row of the table that reports a finding of a scanner. *)
Definition reports (tenant_id : string) (r : VulnerabilityRecord) (f : VulnerabilityFinding) : Prop :=
  r = vuln_record tenant_id (vu_created_at r) (vu_id r) (scored_finding f).
Lemma import_sorted rows items : import_scanner_findings rows = Ok items → ∃ out,
  Forall2 (λ row f, finding_of row = Ok f) rows out ∧ items ≡ₚ scored_finding <$> out
  ∧ StronglySorted (λ a b, by_priority a b = true) items.
Proof.
  unfold import_scanner_findings. destruct (mapM finding_of rows) as [out|] eqn:E; [|done]. intros [= <-].
  exists out. split; [by apply mapM_result_ok|]. split; [apply sort_by_perm|].
  apply (sort_by_sorted_on _ (λ x, fl_num (pr_priority x.2) = true)).
  - apply Forall_fmap, Forall_true. intros f. apply fl_percent_num, priority_percent.
  - intros a b Ha Hb. by apply fl_le_total.
  - intros a b c Ha Hb Hc H1 H2. by apply (fl_le_trans _ (pr_priority b.2)).
Qed.
Lemma reports_made tenant_id now i f : reports tenant_id (vuln_record tenant_id now i (scored_finding f)) f.
Proof. exact eq_refl. Qed.

Lemma recorded_import f g n n' s :
  flush_pending (set_audit g (flush_pending (set_draws (λ _, n') (set_vulns f (flush_pending (set_draws (λ _, n) s))))))
  = set_audit g (set_vulns f (flush_pending (set_draws (λ _, n') s))).
Proof.
  transitivity (set_audit g (set_vulns f (flush_pending (flush_pending (flush_pending (set_draws (λ _, n') s))))));
    [reflexivity | by rewrite !flush_idem].
Qed.

Section imports.
Context `{Oracle} `{AuthLib}.
Lemma records_ok tenant_id now items s created s' :
  mapM' (λ item, i ← new_id_db "vul"; mret (vuln_record tenant_id now i item)) items s = (Ok created, s') →
  Forall2 (λ item r, ∃ i, r = vuln_record tenant_id now i item) items created ∧ ∃ n, s' = set_draws (λ _, n) s.
Proof.
  revert s created. induction items as [|x items IH]; intros s created He; simpl in He.
  { injection He as <- <-. split; [constructor | by exists (d_draws s); destruct s]. }
  inv_bind He. inv_bind Ha. injection Ha as <- <-. injection Ha0 as <- <-. inv_bind He. injection He as <- <-.
  apply IH in Ha as [Hl [n ->]]. split; [constructor; eauto | by exists n].
Qed.
Lemma records_ranked tenant_id now items created : StronglySorted (λ a b, by_priority a b = true) items →
  Forall2 (λ item r, ∃ i, r = vuln_record tenant_id now i item) items created → StronglySorted ranked created.
Proof.
  intros Hs. revert created. induction Hs as [|x l Hl IH Hx]; intros created Hf.
  { apply Forall2_nil_inv_l in Hf as ->. constructor. }
  apply Forall2_cons_inv_l in Hf as (r & rs & [i ->] & Hf & ->). constructor; [by apply IH|].
  apply Forall_forall. intros r Hr. destruct (Forall2_in_r _ _ _ _ Hf Hr) as (y & Hy & [j ->]).
  rewrite Forall_forall in Hx. specialize (Hx y Hy). unfold by_priority in Hx. unfold ranked. by destruct x, y.
Qed.
Lemma import_vulns_ok tenant_id rows s created s' : import_vulns tenant_id rows s = (Ok created, s') →
  (∃ out, Forall2 (λ row f, finding_of row = Ok f) rows out
     ∧ ∃ sorted, sorted ≡ₚ out ∧ Forall2 (λ f r, reports tenant_id r f) sorted created)
  ∧ StronglySorted ranked created
  ∧ ∃ n, s' = set_vulns (λ l, l ++ created) (flush_pending (set_draws (λ _, n) s)).
Proof.
  intros He. unfold import_vulns in He. inv_bind He. unfold lift in Ha. injection Ha as Hi <-. inv_bind He. injection Ha as <- <-.
  inv_bind He. apply records_ok in Ha as [Hf [n ->]]. inv_bind He. injection Ha as _ <-. inv_bind He.
  apply (add_rows_ok d_vulns set_vulns) in Ha as ->; [|apply flush_idem]. injection He as <- <-.
  apply import_sorted in Hi as (out & Hout & Hp & Hs). split_and!.
  - exists out. split; [done|]. apply Permutation_map_inv in Hp as (sorted & -> & Hp). exists sorted. split; [done|].
    apply Forall2_fmap_l in Hf. eapply Forall2_impl; [exact Hf|]. intros f r [i ->]. apply reports_made.
  - by eapply records_ranked.
  - exists n. by rewrite list_fmap_id.
Qed.

(** An import that succeeds is by an actor with [detections:write] in the tenant: the
    table gains one row of the tenant per row of the scanner, computed from it, and returns
    them from the highest to the lowest priority; the audit log gains one record with their
    number, and nothing else changes. An import that fails, for one row whose score is no
    number, stores none of them. *)
Theorem import_ranked h rid body s :
  (∀ d s', serve_post_import h rid body s = (Ok d, s') → ∃ actor out sorted created record n,
     authorised h s (ta_tenant_id actor) "detections:write" (ta_actor actor)
     ∧ Forall2 (λ row f, finding_of row = Ok f) (im_findings body) out
     ∧ sorted ≡ₚ out ∧ Forall2 (λ f r, reports (ta_tenant_id actor) r f) sorted created ∧ StronglySorted ranked created
     ∧ d = items_dict (vuln_item <$> created)
     ∧ record_of actor "vulns.import" "vulnerability" None record
     ∧ s' = set_audit (λ l, l ++ [record]) (set_vulns (λ l, l ++ created) (flush_pending (set_draws (λ _, n) s))))
  ∧ (∀ e s', serve_post_import h rid body s = (Raise e, s') → s' = set_draws (λ _, d_draws s') s)
  ∧ (∀ row e, row ∈ im_findings body → finding_of row = Raise e →
       is_ok (fst (serve_post_import h rid body s)) = false).
Proof.
  assert (∀ d s', serve_post_import h rid body s = (Ok d, s') → ∃ actor out sorted created record n,
     authorised h s (ta_tenant_id actor) "detections:write" (ta_actor actor)
     ∧ Forall2 (λ row f, finding_of row = Ok f) (im_findings body) out
     ∧ sorted ≡ₚ out ∧ Forall2 (λ f r, reports (ta_tenant_id actor) r f) sorted created ∧ StronglySorted ranked created
     ∧ d = items_dict (vuln_item <$> created)
     ∧ record_of actor "vulns.import" "vulnerability" None record
     ∧ s' = set_audit (λ l, l ++ [record]) (set_vulns (λ l, l ++ created) (flush_pending (set_draws (λ _, n) s)))) as Hok.
  { intros d s' (actor & s1 & Hauth & He & ->)%served_ok. unfold post_import in He. inv_bind He.
    apply import_vulns_ok in Ha as ((out & Hout & sorted & Hp & Hr) & Hs & n & ->). inv_bind He.
    apply audit_user_ok in Ha as (Hrec & n' & ->). injection He as <- <-.
    exists actor, out, sorted, a, a0, n'. split_and!; try done.
    apply recorded_import. }
  split_and!; [exact Hok | intros e s'; apply served_raise|].
  intros row e Hrow He. destruct (serve_post_import h rid body s) as [[d|e'] s'] eqn:E; [|done].
  destruct (Hok _ _ eq_refl) as (_ & out & _ & _ & _ & _ & _ & Hf & _).
  destruct (Forall2_in_l _ _ _ _ Hf Hrow) as (f & _ & Hx). by rewrite He in Hx.
Qed.
End imports.

(** ** A concrete import *)

#[local] Instance demo_oracle : Oracle :=
  {| uuid_hex := λ n, str_of_nat n; clock := λ n, utc 20000 (3600 * Z.of_nat n) |}.
#[local] Instance demo_auth : AuthLib := {|
  jwt_encode := λ _, "t"; bcrypt_check := λ _ _, true;
  jwt_decode := λ t, if (t =? "t")%string then Some [("sub", VStr "usr_1")] else None |}.
Definition demo_rows : list pydict := [
  [("cve", VStr "CVE-1"); ("cvss", VInt 3); ("criticality", VInt 0)];
  [("cve_id", VStr "CVE-2"); ("cvss_score", VStr "9.8"); ("epss", VStr "0.97"); ("asset_criticality", VInt 90);
   ("threat_activity", VInt 80)]].
(** An explicit criticality of zero counts as fifty, and a probability of exploitation of
    97% counts as less than one percent of the scale. *)
Example import_surprises : match import_scanner_findings demo_rows with
  | Ok l => map (λ x, (fl_repr (vf_asset_criticality x.1), fl_repr (pr_exploitability x.2), pr_band x.2)) l
  | Raise _ => []
  end = [("90.0", "0.97", "high"); ("50.0", "0.0", "low")].
Proof. vm_compute. reflexivity. Qed.
(** A priority that is shown as 80 can be in the band below 80. *)
Example band_of_unrounded :
  let p := remediation_priority (fl_of_Z 8) (fl_of_Z 80) (fl_of_Z 80) (fl_of_decimal false 7998 (-2)) in
  fl_repr (pr_priority p) = "80.0" ∧ pr_band p = "high" ∧ pr_sla_days p = 14.
Proof. vm_compute. auto. Qed.
Example nan_is_worst : fl_repr (pr_priority (remediation_priority S754_nan S754_nan S754_nan S754_nan)) = "100.0".
Proof. vm_compute. reflexivity. Qed.
Definition import_db : db := set_memberships (λ _, [{|
  me_id := "mem_1"; me_tenant_id := "ten_a"; me_user_id := "usr_1"; me_role_key := "detection_engineer" |}]) Access.demo_db.
Lemma import_ranked_witness : ∃ d s',
  serve_post_import (demo_headers None) "req_1" {| im_findings := demo_rows |} import_db = (Ok d, s') ∧ length (d_vulns s') = 2%nat.
Proof.
  destruct (serve_post_import (demo_headers None) "req_1" {| im_findings := demo_rows |} import_db) as [r s'] eqn:E.
  assert (is_ok (fst (serve_post_import (demo_headers None) "req_1" {| im_findings := demo_rows |} import_db)) = true) as Hok
    by (vm_compute; reflexivity).
  rewrite E in Hok. destruct r as [d|e]; [|discriminate Hok]. exists d, s'. split; [reflexivity|].
  destruct (proj1 (import_ranked (demo_headers None) "req_1" {| im_findings := demo_rows |} import_db) d s' E)
    as (actor & out & sorted & created & record & n & _ & Ho & Hp & Hr & _ & _ & _ & ->).
  apply Forall2_length in Ho, Hr. apply Permutation_length in Hp. simpl in Ho.
  change (length ([] ++ created) = 2%nat). rewrite app_nil_l. lia.
Defined.
