(* ===== verification/Hunting.v ===== *)
(** * Hunting

    Models [services/api/app/services/hunting.py] and the routes of [api/hunts.py], on the
    events of the tenant and over [BlueQL], the process tree, the network sessions, the
    indicators and the stored graph. The SQL hunts are in [SqlHunts]. *)
From S2P Require Export BlueQL ProcessTree Intel DetectionService GraphService.
Local Open Scope Z_scope.

(** How pydantic writes a datetime in JSON. *)
Class PydanticJson := { json_datetime : datetime → string }.

Record StructuredHuntRequest := {
  hr_start : option string; hr_end : option string; hr_src_ip : option string; hr_dst_ip : option string;
  hr_user : option string; hr_host : option string; hr_domain : option string; hr_process_name : option string;
  hr_source_type : option string; hr_category : option string; hr_ioc : option string; hr_limit : Z }.
Definition no_filters : StructuredHuntRequest := {|
  hr_start := None; hr_end := None; hr_src_ip := None; hr_dst_ip := None; hr_user := None; hr_host := None;
  hr_domain := None; hr_process_name := None; hr_source_type := None; hr_category := None; hr_ioc := None;
  hr_limit := 200 |}.

(** ** [structured_search] *)

Definition zulu : ascii := "Z".
Definition _parse_time `{IsoLib} (value : option string) : result (option py_datetime) :=
  if otrue value
  then match fromisoformat (replace_char zulu "+00:00" (strip (ostr value))) with
       | Some d => Ok (Some d)
       | None => Raise (ValueError "Invalid isoformat string")
       end
  else Ok None.
(** [a < b] of an aware datetime and any other. *)
Definition before (a : datetime) (b : py_datetime) : result bool :=
  match b with
  | Aware b => Ok (dt_lt a b)
  | Naive _ => Raise (TypeError "can't compare offset-naive and offset-aware datetimes")
  end.
Definition after (a : datetime) (b : py_datetime) : result bool :=
  match b with
  | Aware b => Ok (dt_lt b a)
  | Naive _ => Raise (TypeError "can't compare offset-naive and offset-aware datetimes")
  end.
(** [f and x != f], and [f and f.lower() not in x.lower()], for a filter that is given. *)
Definition unequal (f : option string) (x : option string) : bool := otrue f && negb (bool_decide (x = f)).
Definition lacks (f : option string) (x : string) : bool := otrue f && negb (contains (lower x) (lower (ostr f))).
Definition haystack (event : CanonicalEvent) : string :=
  lower (join " " (select nonempty (omap id [e_src_ip event; e_dst_ip event; e_domain event; e_hash event;
                                              e_url event; user_email event]))).
(** The tests after the times, each of which skips the event. *)
Definition filtered_out (q : StructuredHuntRequest) (event : CanonicalEvent) : bool :=
  unequal (hr_src_ip q) (e_src_ip event) || unequal (hr_dst_ip q) (e_dst_ip event)
  || lacks (hr_user q) (ostr (user_name event))
  || lacks (hr_host q) (ostr (oor (host_name event) (e_src_ip event)))
  || (otrue (hr_domain q) && negb (lower (ostr (e_domain event)) =? lower (ostr (hr_domain q)))%string)
  || lacks (hr_process_name q) (ostr (process_name event))
  || (otrue (hr_source_type q) && negb (oeqb (hr_source_type q) (e_source_type event)))
  || (otrue (hr_category q) && negb (oeqb (hr_category q) (e_category event)))
  || (otrue (hr_ioc q) && negb (contains (haystack event) (lower (ostr (hr_ioc q))))).
Definition skipped (start_dt end_dt : option py_datetime) (q : StructuredHuntRequest) (event : CanonicalEvent)
    : result bool :=
  early ← match start_dt with Some d => before (e_timestamp event) d | None => Ok false end;
  if early : bool then Ok true
  else
    late ← match end_dt with Some d => after (e_timestamp event) d | None => Ok false end;
    Ok (late || filtered_out q event).
(** The loop, which stops when [limit] events matched. *)
Fixpoint search (start_dt end_dt : option py_datetime) (q : StructuredHuntRequest) (limit : Z)
    (matches : list CanonicalEvent) (events : list CanonicalEvent) : result (list CanonicalEvent) :=
  match events with
  | [] => Ok matches
  | event :: rest =>
      skip ← skipped start_dt end_dt q event;
      if skip : bool then search start_dt end_dt q limit matches rest
      else
        let matches := matches ++ [event] in
        if limit <=? Z.of_nat (length matches) then Ok matches
        else search start_dt end_dt q limit matches rest
  end.
Definition clamp_limit (limit : Z) : Z := Z.max 1 (Z.min limit 1000).
Definition hunt_item (event : CanonicalEvent) : pydict := [
  ("id", VStr (e_id event)); ("timestamp", VStr (isoformat (e_timestamp event))); ("source", VStr (e_source event));
  ("source_type", VStr (e_source_type event)); ("event_type", VStr (e_event_type event));
  ("category", VStr (e_category event)); ("src_ip", vostr (e_src_ip event)); ("dst_ip", vostr (e_dst_ip event));
  ("domain", vostr (e_domain event)); ("user", vostr (user_name event)); ("process", vostr (process_name event));
  ("host", vostr (host_name event))].
Definition search_dict (limit : Z) (matches : list CanonicalEvent) : pydict := [
  ("count", VInt (Z.of_nat (length matches))); ("limit", VInt limit);
  ("items", VList ((λ e, VDict (hunt_item e)) <$> matches)); ("store", VStr "control_plane_events")].
Definition matching `{IsoLib} (q : StructuredHuntRequest) (events : list CanonicalEvent) : result (list CanonicalEvent) :=
  start_dt ← _parse_time (hr_start q);
  end_dt ← _parse_time (hr_end q);
  search start_dt end_dt q (clamp_limit (hr_limit q)) [] events.
Definition structured_search `{IsoLib} (tenant_id : string) (q : StructuredHuntRequest) (s : db) : result pydict :=
  matches ← matching q (load_window tenant_id s);
  Ok (search_dict (clamp_limit (hr_limit q)) matches).
Definition authentication_history `{IsoLib} (tenant_id : string) (user : option string) (limit : Z) (s : db)
    : result pydict :=
  result ← structured_search tenant_id {|
    hr_start := None; hr_end := None; hr_src_ip := None; hr_dst_ip := None; hr_user := user; hr_host := None;
    hr_domain := None; hr_process_name := None; hr_source_type := None; hr_category := Some "authentication";
    hr_ioc := None; hr_limit := limit |} s;
  Ok (dset "view" (VStr "authentication_history") result).

(** ** The other views *)

(** [session.model_dump(mode="json")] *)
Definition session_dict `{PydanticJson} (n : NetworkSession) : pydict := [
  ("session_id", VStr (ns_session_id n)); ("tenant_id", VStr (ns_tenant_id n)); ("src", VStr (ns_src n));
  ("dst", VStr (ns_dst n)); ("protocol", VStr (ns_protocol n)); ("start", VStr (json_datetime (ns_start n)));
  ("end", VStr (json_datetime (ns_end n))); ("duration_ms", VInt (ns_duration_ms n));
  ("bytes_in", VInt (ns_bytes_in n)); ("bytes_out", VInt (ns_bytes_out n)); ("packets", VInt (ns_packets n));
  ("dns", VList (VStr <$> ns_dns n)); ("tls", VList (VStr <$> ns_tls n)); ("http", VList (VStr <$> ns_http n));
  ("zeek_refs", VList (VStr <$> ns_zeek_refs n)); ("suricata_refs", VList (VStr <$> ns_suricata_refs n));
  ("risk", VFloat (ns_risk n)); ("attributes", VDict [])].
(** [f and payload.get(k) != f and payload.get(k') != f] *)
Definition is_text (f : option string) (v : pyval) : bool := match v with VStr x => oeqb f x | _ => false end.
Definition misses (f : option string) (k k' : string) (payload : pydict) : bool :=
  otrue f && negb (is_text f (dgetv k payload)) && negb (is_text f (dgetv k' payload)).
Definition network_session_search `{PydanticJson} (tenant_id : string) (src_ip dst_ip : option string) (s : db)
    : result pydict :=
  sessions ← sessions_from_events (load_window tenant_id s);
  let items := select (λ p, negb (misses src_ip "src_ip" "source_ip" p) && negb (misses dst_ip "dst_ip" "destination_ip" p))
                 (session_dict <$> sessions) in
  Ok [("view", VStr "network_sessions"); ("count", VInt (Z.of_nat (length items))); ("items", VList (VDict <$> items));
      ("manufactured", VBool false)].
Definition process_tree_view (tenant_id : string) (s : db) : pydict :=
  dset "view" (VStr "process_tree") (build_process_tree (load_window tenant_id s)).
Definition entity_hit (q : string) (row : EntityRecord) : bool :=
  contains (lower (er_display_name row)) q || contains (lower (er_key row)) q || (q =? lower (er_id row))%string.
Definition entity_lookup (tenant_id query : string) (s : db) : result pydict :=
  let q := lower (strip query) in
  if negb (nonempty q) then Raise (BlueTeamError "INVALID_QUERY" "entity query required" 422)
  else
    let hits := select (entity_hit q) (entities_of tenant_id s) in
    Ok [("query", VStr query); ("count", VInt (Z.of_nat (length hits)));
        ("items", VList ((λ row, VDict [
           ("id", VStr (er_id row)); ("entity_type", VStr (er_entity_type row));
           ("display_name", VStr (er_display_name row)); ("risk_score", VFloat (er_risk_score row));
           ("criticality", VStr (er_criticality row))]) <$> hits))].

Section hunting.
Context `{Oracle} `{IsoLib} `{PydanticJson}.

Definition ioc_match (row : IndicatorOfCompromise) : M db pyval :=
  now ← utcnow_db;
  mret (VDict [("id", VStr (io_id row)); ("type", VStr (io_indicator_type row)); ("source", VStr (io_source row));
    ("confidence", VFloat (io_confidence row)); ("expired", VBool (expired_at now row));
    ("sightings", VInt (io_sightings row)); ("provenance", VDict (io_provenance row))]).
Definition ioc_lookup (tenant_id value : string) : M db pydict :=
  let value := strip value in
  rows ← list_iocs tenant_id true;
  let iocs := select (λ r, (lower (io_value r) =? lower value)%string || contains (lower (io_value r)) (lower value)) rows in
  s ← get;
  telemetry ← lift (structured_search tenant_id {|
    hr_start := None; hr_end := None; hr_src_ip := None; hr_dst_ip := None; hr_user := None; hr_host := None;
    hr_domain := None; hr_process_name := None; hr_source_type := None; hr_category := None; hr_ioc := Some value;
    hr_limit := 50 |} s);
  intel_matches ← mapM' ioc_match iocs;
  mret [("indicator", VStr value); ("intel_matches", VList intel_matches); ("telemetry", VDict telemetry)].

Record SaveHuntBody := { sv_name : string; sv_hunt_type : string; sv_query : pydict; sv_description : string }.
Definition same_hunt (a b : SavedHunt) : bool := (sh_id a =? sh_id b)%string.
Definition save_hunt (tenant_id actor_id : string) (body : SaveHuntBody) : M db SavedHunt :=
  if negb (mem (sv_hunt_type body) ["blueql"; "structured"; "sql"])
  then raise (BlueTeamError "INVALID_HUNT_TYPE" "hunt_type must be blueql|structured|sql" 422)
  else if negb (nonempty (strip (sv_name body))) then raise (BlueTeamError "INVALID_NAME" "name required" 422)
  else
    now ← utcnow_db;
    i ← new_id_db "hnt";
    let row := {| sh_id := i; sh_tenant_id := tenant_id; sh_name := strip (sv_name body);
      sh_description := strip (sv_description body); sh_hunt_type := sv_hunt_type body; sh_query := sv_query body;
      sh_created_by := actor_id; sh_created_at := now; sh_updated_at := now |} in
    add_unique d_hunts set_hunts same_hunt row;;
    mret row.
Definition list_saved_hunts (tenant_id : string) (s : db) : list SavedHunt :=
  sort_by (λ a b, dt_le (sh_updated_at b) (sh_updated_at a)) (select (λ r, sh_tenant_id r =? tenant_id)%string (d_hunts s)).

(** [str(item.get(h, "")).replace(",", " ")] *)
Definition comma : ascii := ",".
Definition newline : string := String (chr 10) "".
Definition csv_row (headers : list string) (item : pydict) : string :=
  join "," ((λ h, replace_char comma " " (py_str (dget_or h (VStr "") item))) <$> headers).
Definition csv_text (items : list pydict) : string :=
  let headers := sorted_set (mjoin (dkeys <$> items)) in
  join newline (join "," headers :: (csv_row headers <$> items)).
Definition export_events (items : list pydict) (fmt : string) : result pydict :=
  let count := VInt (Z.of_nat (length items)) in
  if negb (mem fmt ["json"; "csv"]) then Raise (BlueTeamError "INVALID_EXPORT" "format must be json|csv" 422)
  else if (fmt =? "json")%string
  then Ok [("format", VStr "json"); ("count", count); ("payload", VList (VDict <$> items))]
  else Ok [("format", VStr "csv"); ("count", count); ("payload", VStr (csv_text items))].
Definition event_count (tenant_id : string) (s : db) : Z :=
  Z.of_nat (length (select (λ r, se_tenant_id r =? tenant_id)%string (d_events s))).
End hunting.

(** ** Routes *)

Section hunt_routes.
Context `{Oracle} `{IsoLib} `{PydanticJson} `{AuthLib}.

Inductive hunt_request :=
| RunBlueql (query : string) (dry_run : bool) | RunStructured (body : StructuredHuntRequest)
| AuthHistory (user : option string) | NetworkSessions (src_ip dst_ip : option string) | ViewProcessTree
| Entity (q : string) | Ioc (value : string) | Saved | CreateSaved (body : SaveHuntBody)
| Export (format : string) (items : list pydict).

Definition hunt_audit (actor : TenantActor) (request_id action target_type : string) (after_state : pydict) : M db AuditLog :=
  audit_user actor request_id action target_type None (Some after_state).
Definition run_blueql (query : string) (dry_run : bool) (actor : TenantActor) (request_id : string) : M db pydict :=
  ast ← lift (match parse query with
              | Raise (ValueError m) => Raise (BlueTeamError "BLUEQL_INVALID" m 422)
              | r => r end);
  let explained := explain ast in
  if dry_run then
    hunt_audit actor request_id "hunt.blueql.validate" "hunt" [("query", VStr query)];;
    mret [("dry_run", VBool true); ("explain", VDict explained); ("matches", VList [])]
  else
    events ← gets (load_window (ta_tenant_id actor));
    matches ← lift (execute query events);
    let count := VInt (Z.of_nat (length matches)) in
    hunt_audit actor request_id "hunt.blueql.execute" "hunt" [("query", VStr query); ("count", count)];;
    mret [("dry_run", VBool false); ("explain", VDict explained); ("matches", VList ((λ e, VStr (e_id e)) <$> matches));
          ("count", count)].
(** [body.model_dump(exclude_none=True)] *)
Definition filters_dict (q : StructuredHuntRequest) : pydict :=
  select (λ kv, match kv.2 with VNone => false | _ => true end) [
    ("start", vostr (hr_start q)); ("end", vostr (hr_end q)); ("src_ip", vostr (hr_src_ip q));
    ("dst_ip", vostr (hr_dst_ip q)); ("user", vostr (hr_user q)); ("host", vostr (hr_host q));
    ("domain", vostr (hr_domain q)); ("process_name", vostr (hr_process_name q));
    ("source_type", vostr (hr_source_type q)); ("category", vostr (hr_category q)); ("ioc", vostr (hr_ioc q));
    ("limit", VInt (hr_limit q))].
Definition run_structured (q : StructuredHuntRequest) (actor : TenantActor) (request_id : string) : M db pydict :=
  s ← get;
  result ← lift (structured_search (ta_tenant_id actor) q s);
  hunt_audit actor request_id "hunt.structured" "hunt"
    [("filters", VDict (filters_dict q)); ("count", dgetv "count" result)];;
  mret result.
Definition auth_history (user : option string) (actor : TenantActor) (request_id : string) : M db pydict :=
  s ← get;
  result ← lift (authentication_history (ta_tenant_id actor) user 100 s);
  hunt_audit actor request_id "hunt.auth_history" "hunt" [("user", vostr user); ("count", dgetv "count" result)];;
  mret result.
Definition network_sessions (src_ip dst_ip : option string) (actor : TenantActor) : M db pydict :=
  s ← get; lift (network_session_search (ta_tenant_id actor) src_ip dst_ip s).
Definition process_tree (actor : TenantActor) : M db pydict :=
  s ← get; mret (process_tree_view (ta_tenant_id actor) s).
Definition entity (q : string) (actor : TenantActor) (request_id : string) : M db pydict :=
  s ← get;
  result ← lift (entity_lookup (ta_tenant_id actor) q s);
  hunt_audit actor request_id "hunt.entity_lookup" "entity" [("q", VStr q); ("count", dgetv "count" result)];;
  mret result.
Definition ioc (value : string) (actor : TenantActor) (request_id : string) : M db pydict :=
  result ← ioc_lookup (ta_tenant_id actor) value;
  hunt_audit actor request_id "hunt.ioc_lookup" "ioc" [("value", VStr value)];;
  mret result.
Definition saved_item (row : SavedHunt) : pydict := [
  ("id", VStr (sh_id row)); ("name", VStr (sh_name row)); ("description", VStr (sh_description row));
  ("hunt_type", VStr (sh_hunt_type row)); ("query", VDict (sh_query row)); ("created_by", VStr (sh_created_by row));
  ("created_at", VStr (isoformat (sh_created_at row)))].
Definition saved (actor : TenantActor) : M db pydict :=
  s ← get; mret [("items", VList ((λ r, VDict (saved_item r)) <$> list_saved_hunts (ta_tenant_id actor) s))].
Definition create_saved (body : SaveHuntBody) (actor : TenantActor) (request_id : string) : M db pydict :=
  row ← save_hunt (ta_tenant_id actor) (actor_user actor) body;
  audit_user actor request_id "hunt.save" "saved_hunt" (Some (sh_id row)) None;;
  mret [("id", VStr (sh_id row)); ("name", VStr (sh_name row)); ("hunt_type", VStr (sh_hunt_type row))].
Definition export (format : string) (items : list pydict) (actor : TenantActor) (request_id : string) : M db pydict :=
  result ← lift (export_events items format);
  hunt_audit actor request_id "hunt.export" "hunt" [("format", VStr format); ("count", dgetv "count" result)];;
  mret result.
Definition hunt_handler (req : hunt_request) (request_id : string) (actor : TenantActor) : M db pydict :=
  match req with
  | RunBlueql query dry_run => run_blueql query dry_run actor request_id
  | RunStructured body => run_structured body actor request_id
  | AuthHistory user => auth_history user actor request_id
  | NetworkSessions src_ip dst_ip => network_sessions src_ip dst_ip actor
  | ViewProcessTree => process_tree actor
  | Entity q => entity q actor request_id
  | Ioc value => ioc value actor request_id
  | Saved => saved actor
  | CreateSaved body => create_saved body actor request_id
  | Export format items => export format items actor request_id
  end.
Definition serve_hunt (h : headers) (request_id : string) (req : hunt_request) : M db pydict :=
  served "hunts:execute" h request_id (hunt_handler req request_id).
End hunt_routes.

(** ** Searching *)

(** *** What the filters mean

    A filter that is not given, or is empty, holds of every event. *)
Definition asked (f : option string) (P : string → Prop) : Prop := ∀ v, f = Some v → v ≠ "" → P v.
(** Without regard to case: the text has [v] in it; the optional text is there and has it. *)
Definition holds_in (text v : string) : Prop := ∃ a b, lower text = a +:+ lower v +:+ b.
Definition names (o : option string) (v : string) : Prop := ∃ text, o = Some text ∧ holds_in text v.
(** The event is one the hunter asked for. *)
Record wanted (q : StructuredHuntRequest) (event : CanonicalEvent) : Prop := {
  wa_src_ip : asked (hr_src_ip q) (λ v, e_src_ip event = Some v);
  wa_dst_ip : asked (hr_dst_ip q) (λ v, e_dst_ip event = Some v);
  wa_user : asked (hr_user q) (names (user_name event));
  (* the address stands for a host without a name *)
  wa_host : asked (hr_host q) (λ v, (∃ n, host_name event = Some n ∧ n ≠ "" ∧ holds_in n v)
              ∨ ((host_name event = None ∨ host_name event = Some "") ∧ names (e_src_ip event) v));
  wa_domain : asked (hr_domain q) (λ v, ∃ name, e_domain event = Some name ∧ lower name = lower v);
  wa_process : asked (hr_process_name q) (names (process_name event));
  wa_source_type : asked (hr_source_type q) (λ v, e_source_type event = v);
  wa_category : asked (hr_category q) (λ v, e_category event = v);
  (* any of these, or two and the space between them *)
  wa_ioc : asked (hr_ioc q) (holds_in (join " " (select nonempty (omap id
    [e_src_ip event; e_dst_ip event; e_domain event; e_hash event; e_url event; user_email event])))) }.
(** And it is not before the one bound nor after the other. *)
Definition within (a b : option datetime) (event : CanonicalEvent) : Prop :=
  (∀ d, a = Some d → instant d ≤ instant (e_timestamp event)) ∧ (∀ d, b = Some d → instant (e_timestamp event) ≤ instant d).

Lemma asked_test f (P : string → Prop) (t : bool) : (∀ v, f = Some v → v ≠ "" → t = true ↔ P v) →
  otrue f && negb t = false ↔ asked f P.
Proof.
  intros Ht. unfold asked. destruct f as [v|]; [|by split]. cbn [otrue]. destruct (nonempty v) eqn:Hv; cbn [andb].
  - apply nonempty_spec in Hv. specialize (Ht v eq_refl Hv). rewrite negb_false_iff, Ht. split; [by intros HP ? [= <-] | auto].
  - split; [|done]. intros _ w [= <-] Hw. apply nonempty_spec in Hw. congruence.
Qed.
Lemma contains_holds text v : contains (lower text) (lower v) = true ↔ holds_in text v.
Proof. apply contains_spec. Qed.
Lemma lower_empty v : lower v = "" → v = "".
Proof. by destruct v. Qed.
Lemma names_text o v : v ≠ "" → holds_in (ostr o) v ↔ names o v.
Proof.
  intros Hv. unfold names. destruct o as [text|]; cbn [ostr default].
  - split; [by exists text | by intros (? & [= <-] & ?)].
  - split; [|by intros (? & ? & ?)]. intros (a & b & Hab). exfalso. apply Hv, lower_empty.
    destruct a, (lower v); done.
Qed.
Lemma lacks_given f o : lacks f (ostr o) = false ↔ asked f (names o).
Proof. apply asked_test. intros v -> Hv. change (ostr (Some v)) with v. by rewrite contains_holds, names_text. Qed.
Lemma unequal_given f x : unequal f x = false ↔ asked f (λ v, x = Some v).
Proof. apply asked_test. intros v -> _. by rewrite bool_decide_eq_true. Qed.
Lemma host_given f h ip : lacks f (ostr (oor h ip)) = false
  ↔ asked f (λ v, (∃ n, h = Some n ∧ n ≠ "" ∧ holds_in n v) ∨ ((h = None ∨ h = Some "") ∧ names ip v)).
Proof.
  rewrite lacks_given. unfold asked, oor. apply forall_proper. intros v. apply forall_proper. intros _. apply forall_proper. intros Hv.
  destruct h as [n|]; cbn [otrue]; [destruct (nonempty n) eqn:Hn; [apply nonempty_spec in Hn|]|].
  - unfold names. split; [intros (? & [= <-] & ?); left; by exists n | intros [(? & [= <-] & _ & ?)|[[?|[= ->]] _]]; [by exists n | done..]].
  - assert (n = "") as -> by (destruct n; done). split; [by auto | by intros [(? & [= <-] & ? & _)|[_ ?]]].
  - split; [by auto | by intros [(? & ? & _)|[_ ?]]].
Qed.
Lemma domain_given f o : otrue f && negb (lower (ostr o) =? lower (ostr f))%string = false
  ↔ asked f (λ v, ∃ name, o = Some name ∧ lower name = lower v).
Proof.
  apply asked_test. intros v -> Hv. rewrite String.eqb_eq. destruct o as [name|]; cbn [ostr default].
  - split; [by exists name | by intros (? & [= <-] & ?)].
  - split; [|by intros (? & ? & _)]. intros He. symmetry in He. by apply lower_empty in He.
Qed.
Lemma same_given f x : otrue f && negb (oeqb f x) = false ↔ asked f (λ v, x = v).
Proof. apply asked_test. intros v -> _. rewrite oeqb_spec. split; congruence. Qed.
Lemma filtered_out_wanted q event : filtered_out q event = false ↔ wanted q event.
Proof.
  unfold filtered_out. rewrite !orb_false_iff, !unequal_given, host_given, !lacks_given, domain_given, !same_given.
  rewrite (asked_test (hr_ioc q) (holds_in (join " " (select nonempty (omap id
    [e_src_ip event; e_dst_ip event; e_domain event; e_hash event; e_url event; user_email event]))))).
  2:{ intros v -> _. change (ostr (Some v)) with v. apply contains_holds. }
  split; [intros ((((((((? & ?) & ?) & ?) & ?) & ?) & ?) & ?) & ?); by constructor | by intros []; split_and!].
Qed.
Lemma skipped_aware a b q event : ∃ out, skipped (Aware <$> a) (Aware <$> b) q event = Ok (negb out)
  ∧ (out = true ↔ within a b event ∧ wanted q event).
Proof.
  exists (negb (from_option (dt_lt (e_timestamp event)) false a || from_option (λ d, dt_lt d (e_timestamp event)) false b
                || filtered_out q event)). split.
  - unfold skipped. rewrite negb_involutive. destruct a as [a|]; simpl; [destruct (dt_lt (e_timestamp event) a); [done|]|]; by destruct b.
  - rewrite negb_true_iff, !orb_false_iff, filtered_out_wanted. unfold within.
    assert (∀ (o : option datetime) (t : datetime → bool) (P : datetime → Prop), (∀ d, t d = false ↔ P d) →
      from_option t false o = false ↔ ∀ d, o = Some d → P d) as Ho.
    { intros [d|] t P Ht; cbn; [rewrite Ht|]; split; try done; [by intros ? ? [= <-] | auto]. }
    by rewrite (Ho a _ (λ d, instant d ≤ instant (e_timestamp event))), (Ho b _ (λ d, instant (e_timestamp event) ≤ instant d))
      by (intros d; unfold dt_lt; lia).
Qed.

(** *** The loop is a filter *)

Lemma search_exact a b q (p : CanonicalEvent → bool) limit matches events :
  (∀ event, skipped a b q event = Ok (negb (p event))) → Z.of_nat (length matches) < limit →
  search a b q limit matches events = Ok (matches ++ take (Z.to_nat limit - length matches) (select p events)).
Proof.
  intros Hp. revert matches. induction events as [|event events IH]; intros matches Hlt; simpl.
  { unfold select. rewrite filter_nil, take_nil. by rewrite app_nil_r. }
  rewrite Hp. simpl. unfold select in *. rewrite filter_cons.
  destruct (p event); simpl; [|by apply IH]. rewrite length_app. simpl.
  destruct (Z.to_nat limit - length matches)%nat as [|n] eqn:En; [lia|]. simpl. destruct (Z.leb_spec limit (Z.of_nat (length matches + 1))).
  - assert (n = 0%nat) as -> by lia. done.
  - rewrite IH by (rewrite length_app; simpl; lia). rewrite length_app, <-app_assoc. simpl.
    by replace (Z.to_nat limit - (length matches + 1))%nat with n by lia.
Qed.
(** With a last bound that has no offset, the first event that reaches it ends the search. *)
Lemma search_naive_end a wall q limit events :
  (∃ event, event ∈ events ∧ within a None event) →
  ∃ m, search (Aware <$> a) (Some (Naive wall)) q limit [] events = Raise (TypeError m).
Proof.
  intros (x & Hx & Hw). induction events as [|event events IH]; [by apply not_elem_of_nil in Hx|]. cbn [search]. unfold skipped at 1.
  destruct a as [a|]; cbn; [|by eexists]. destruct (dt_lt (e_timestamp event) a) eqn:E; cbn; [|by eexists].
  apply elem_of_cons in Hx as [->|Hx]; [|by apply IH]. destruct Hw as [Hw _]. specialize (Hw a eq_refl). unfold dt_lt in E. lia.
Qed.
Lemma search_naive_end_early a wall q limit events : (∀ event, event ∈ events → ¬ within a None event) →
  search (Aware <$> a) (Some (Naive wall)) q limit [] events = Ok [].
Proof.
  induction events as [|event events IH]; intros Hall; [done|]. cbn [search]. unfold skipped at 1.
  assert (¬ within a None event) as Hn by (apply Hall; left). destruct a as [a|]; cbn; [|by destruct Hn].
  destruct (dt_lt (e_timestamp event) a) eqn:E; cbn; [apply IH; intros x Hx; apply Hall; by right|].
  destruct Hn. split; [|done]. intros d [= <-]. unfold dt_lt in E. lia.
Qed.
(** The window: what is stored of the tenant, in order of time. *)
Lemma load_window_rows tenant_id s : ∃ rows, load_window tenant_id s = se_payload <$> rows
  ∧ rows ≡ₚ select (λ r, se_tenant_id r =? tenant_id)%string (d_events s)
  ∧ sorted_by (λ r1 r2, dt_le (se_timestamp r1) (se_timestamp r2)) rows.
Proof.
  eexists. split; [reflexivity|]. split; [apply sort_by_perm|].
  apply sort_by_sorted; unfold dt_le; intros; lia.
Qed.

Section searching.
Context `{IsoLib}.
(** C40. The structured search is the filter it stands for. The window it searches is what is
    stored of the tenant, in order of time; the limit is forced between 1 and 1000. When the
    bounds are absent or have an offset, the answer is the first [limit] events of the
    window, in its order, that are within the bounds and are wanted: every filter that is
    given and not empty holds of them, each with its own meaning. A first bound without an
    offset makes the search of a window that is not empty fail. A last bound without an
    offset makes it fail as soon as an event is not before the first bound, and finds
    nothing where there is no such event. *)
Theorem structured_search_exact tenant_id q s :
  let limit := clamp_limit (hr_limit q) in let window := load_window tenant_id s in
  1 ≤ limit ≤ 1000 ∧ (1 ≤ hr_limit q ≤ 1000 → limit = hr_limit q)
  ∧ (∃ rows, window = se_payload <$> rows ∧ rows ≡ₚ select (λ r, se_tenant_id r =? tenant_id)%string (d_events s)
       ∧ sorted_by (λ r1 r2, dt_le (se_timestamp r1) (se_timestamp r2)) rows)
  ∧ (∀ a b, _parse_time (hr_start q) = Ok (Aware <$> a) → _parse_time (hr_end q) = Ok (Aware <$> b) →
      ∃ out, (∀ event, out event = true ↔ within a b event ∧ wanted q event)
        ∧ structured_search tenant_id q s = Ok (search_dict limit (take (Z.to_nat limit) (select out window))))
  ∧ (∀ wall b, _parse_time (hr_start q) = Ok (Some (Naive wall)) → _parse_time (hr_end q) = Ok b → window ≠ [] →
      ∃ m, structured_search tenant_id q s = Raise (TypeError m))
  ∧ (∀ a wall, _parse_time (hr_start q) = Ok (Aware <$> a) → _parse_time (hr_end q) = Ok (Some (Naive wall)) →
      ((∃ event, event ∈ window ∧ within a None event) → ∃ m, structured_search tenant_id q s = Raise (TypeError m))
      ∧ ((∀ event, event ∈ window → ¬ within a None event) → structured_search tenant_id q s = Ok (search_dict limit []))).
Proof.
  intros limit window. assert (1 ≤ limit ≤ 1000 ∧ (1 ≤ hr_limit q ≤ 1000 → limit = hr_limit q)) as [Hl Hl'] by (unfold limit, clamp_limit; lia).
  split; [done|]. split; [done|]. split; [apply load_window_rows|]. unfold structured_search, matching. split; [|split].
  - intros a b -> ->. exists (λ event, negb (from_option id true (match skipped (Aware <$> a) (Aware <$> b) q event with
                                                            | Ok x => Some x | Raise _ => None end))).
    assert (∀ event, ∃ out, skipped (Aware <$> a) (Aware <$> b) q event = Ok (negb out)
      ∧ (out = true ↔ within a b event ∧ wanted q event)) as Hs by (intros event; apply skipped_aware).
    split.
    + intros event. destruct (Hs event) as (out & -> & Hout). cbn. by rewrite negb_involutive.
    + simpl. rewrite (search_exact _ _ q (λ event, negb (from_option id true (match skipped (Aware <$> a) (Aware <$> b) q event with
                                                            | Ok x => Some x | Raise _ => None end)))).
      * simpl. by rewrite Nat.sub_0_r.
      * intros event. destruct (Hs event) as (out & -> & _). cbn. by rewrite negb_involutive.
      * simpl. fold limit. lia.
  - intros wall b -> ->. simpl. fold window. destruct window as [|e rest]; [done|]. intros _. by eexists.
  - intros a wall -> ->. simpl. fold window. split.
    + intros Hx. destruct (search_naive_end a wall q (clamp_limit (hr_limit q)) window Hx) as [m ->]. by exists m.
    + intros Hn. by rewrite search_naive_end_early.
Qed.
End searching.

(** The keys the filter reads are not keys of a session: with a filter the search of
    sessions finds nothing, whatever the traffic. *)
Lemma session_filter_finds_nothing `{PydanticJson} tenant_id src_ip dst_ip s d :
  otrue src_ip || otrue dst_ip = true → network_session_search tenant_id src_ip dst_ip s = Ok d →
  dget "count" d = Some (VInt 0).
Proof.
  intros Hf (sessions & _ & [= <-])%result_bind_ok.
  rewrite (proj2 (select_nil_iff _ _)); [done|]. intros p (n & -> & _)%list_elem_of_fmap.
  unfold misses. change (dgetv _ (session_dict n)) with VNone. simpl. rewrite !andb_true_r.
  by apply orb_prop in Hf as [-> | ->]; rewrite ?andb_false_r.
Qed.

(** ** What a hunt changes *)

Section hunt_facts.
Context `{Oracle} `{IsoLib} `{PydanticJson} `{AuthLib}.

Definition audited (req : hunt_request) : bool :=
  match req with NetworkSessions _ _ | ViewProcessTree | Saved => false | _ => true end.
(** A state that differs from [s] by these records and hunts. *)
Definition hunted (recs : list AuditLog) (hunts : list SavedHunt) (s s' : db) : Prop :=
  flush_pending s'
  = set_audit (λ l, l ++ recs) (set_hunts (λ l, l ++ hunts) (flush_pending (set_draws (λ _, d_draws s') s))).
Lemma set_audit_nil s : s = set_audit (λ l, l ++ []) s.
Proof. unfold set_audit. rewrite app_nil_r. by destruct s. Qed.
Lemma hunted_nil s : s = set_audit (λ l, l ++ []) (set_hunts (λ l, l ++ []) s).
Proof.
  transitivity (set_hunts (λ l, l ++ []) s); [|apply set_audit_nil]. unfold set_hunts. rewrite app_nil_r. by destruct s.
Qed.
Lemma hunted_refl s d : hunted [] [] s (set_draws (λ _, d) s).
Proof. exact (hunted_nil (flush_pending (set_draws (λ _, d) s))). Qed.
Lemma hunted_same s : hunted [] [] s s.
Proof. pose proof (hunted_refl s (d_draws s)) as Hh. by replace (set_draws (λ _, d_draws s) s) with s in Hh by by destruct s. Qed.
Lemma set_audit_app recs r s : set_audit (λ l, (l ++ recs) ++ [r]) s = set_audit (λ l, l ++ (recs ++ [r])) s.
Proof. unfold set_audit. by rewrite <-app_assoc. Qed.
Lemma flush_audit_draws f d s :
  flush_pending (set_audit f (flush_pending (set_draws (λ _, d) s))) = set_audit f (set_draws (λ _, d) (flush_pending s)).
Proof. exact (f_equal (λ x, set_audit f (set_draws (λ _, d) x)) (flush_idem s)). Qed.
Lemma hunted_audit ty actor rid action target i after recs hunts s s1 r s' :
  hunted recs hunts s s1 → audit_route ty actor rid action target i after s1 = (Ok r, s') →
  hunted (recs ++ [r]) hunts s s' ∧ au_tenant_id r = Some (ta_tenant_id actor) ∧ au_actor_id r = actor_user actor.
Proof.
  intros Hh (Hr & d & ->)%audit_route_ok. split; [|by destruct Hr as (? & ? & _)]. unfold hunted in *.
  rewrite flush_audit_draws, Hh.
  exact (set_audit_app recs r (set_hunts (λ l, l ++ hunts) (flush_pending (set_draws (λ _, d) s)))).
Qed.
Definition mine (actor : TenantActor) (recs : list AuditLog) (hunts : list SavedHunt) : Prop :=
  Forall (λ r, au_tenant_id r = Some (ta_tenant_id actor) ∧ au_actor_id r = actor_user actor) recs
  ∧ Forall (λ h, sh_tenant_id h = ta_tenant_id actor ∧ sh_created_by h = actor_user actor
                 ∧ sh_hunt_type h ∈ ["blueql"; "structured"; "sql"]) hunts.
Lemma hunt_end {A} ty actor rid action target i after hunts s s1 (a b : A) s' :
  hunted [] hunts s s1 → Forall (λ h, sh_tenant_id h = ta_tenant_id actor ∧ sh_created_by h = actor_user actor
                 ∧ sh_hunt_type h ∈ ["blueql"; "structured"; "sql"]) hunts →
  (audit_route ty actor rid action target i after ;; mret b) s1 = (Ok a, s') →
  ∃ recs, hunted recs hunts s s' ∧ length recs = 1%nat ∧ mine actor recs hunts.
Proof.
  intros Hh Hm He. inv_bind He. injection He as _ <-. destruct (hunted_audit _ _ _ _ _ _ _ _ _ _ _ _ _ Hh Ha) as (Hh' & Ht & Hi).
  exists ([] ++ [a0]). split; [done|]. split; [done|]. split; [by repeat constructor | done].
Qed.
Lemma hunt_still {A} (a : A) actor s : ∃ recs, hunted recs [] s s ∧ length recs = 0%nat ∧ mine actor recs [].
Proof. exists []. split; [apply hunted_same | split; [done | by split; constructor]]. Qed.
Lemma ioc_matches_draws rows s l s' : mapM' ioc_match rows s = (Ok l, s') → ∃ d, s' = set_draws (λ _, d) s.
Proof.
  revert l s. induction rows as [|r rows IH]; intros l s He; simpl in He.
  - injection He as _ <-. exists (d_draws s). by destruct s.
  - inv_bind He. inv_bind He. injection He as _ <-. apply IH in Ha0 as [d ->]. unfold ioc_match in Ha. inv_bind Ha.
    injection Ha0 as _ <-. injection Ha as _ <-. by exists d.
Qed.
Lemma save_hunt_ok t a body s row s' : save_hunt t a body s = (Ok row, s') →
  hunted [] [row] s s' ∧ sh_tenant_id row = t ∧ sh_created_by row = a ∧ sh_hunt_type row ∈ ["blueql"; "structured"; "sql"].
Proof.
  unfold save_hunt. destruct (mem _ _) eqn:Hty; [|done]. destruct (nonempty _); [|done]. cbn [negb].
  intros He. inv_bind He. injection Ha as <- <-. inv_bind He. injection Ha as <- <-. inv_bind He.
  apply add_unique_ok in Ha as [-> _]. injection He as <- <-. split; [|by split_and!; [..|by apply mem_spec]].
  unfold hunted. refine (eq_trans _ (set_audit_nil _)).
  exact (f_equal (set_hunts _) (flush_idem (set_draws (λ _, fresh_uuid (tick (d_draws s))) s))).
Qed.
Lemma hunt_handler_ok req rid actor s d s' : hunt_handler req rid actor s = (Ok d, s') →
  ∃ recs hunts, hunted recs hunts s s' ∧ length recs = (if audited req then 1 else 0)%nat ∧ mine actor recs hunts
    ∧ length hunts = (match req with CreateSaved _ => 1 | _ => 0 end)%nat.
Proof.
  intros He.
  pose proof (hunted_same s) as Hs.
  destruct req; cbn [hunt_handler audited] in *.
  - unfold run_blueql, hunt_audit, audit_user in He. inv_bind He. injection Ha as _ <-. destruct dry_run.
    + destruct (hunt_end _ _ _ _ _ _ _ _ _ _ _ _ _ Hs (Forall_nil_2 _) He) as (recs & ? & ? & ?). by exists recs, [].
    + inv_bind He. injection Ha as <- <-. inv_bind He. injection Ha as _ <-.
      destruct (hunt_end _ _ _ _ _ _ _ _ _ _ _ _ _ Hs (Forall_nil_2 _) He) as (recs & ? & ? & ?). by exists recs, [].
  - unfold run_structured, hunt_audit, audit_user in He. inv_bind He. injection Ha as <- <-. inv_bind He. injection Ha as _ <-.
    destruct (hunt_end _ _ _ _ _ _ _ _ _ _ _ _ _ Hs (Forall_nil_2 _) He) as (recs & ? & ? & ?). by exists recs, [].
  - unfold auth_history, hunt_audit, audit_user in He. inv_bind He. injection Ha as <- <-. inv_bind He. injection Ha as _ <-.
    destruct (hunt_end _ _ _ _ _ _ _ _ _ _ _ _ _ Hs (Forall_nil_2 _) He) as (recs & ? & ? & ?). by exists recs, [].
  - unfold network_sessions in He. inv_bind He. injection Ha as <- <-. injection He as _ <-.
    destruct (hunt_still d actor s) as (recs & ? & ? & ?). by exists recs, [].
  - unfold process_tree in He. inv_bind He. injection Ha as <- <-. injection He as _ <-.
    destruct (hunt_still d actor s) as (recs & ? & ? & ?). by exists recs, [].
  - unfold entity, hunt_audit, audit_user in He. inv_bind He. injection Ha as <- <-. inv_bind He. injection Ha as _ <-.
    destruct (hunt_end _ _ _ _ _ _ _ _ _ _ _ _ _ Hs (Forall_nil_2 _) He) as (recs & ? & ? & ?). by exists recs, [].
  - unfold ioc, hunt_audit, audit_user in He. inv_bind He. unfold ioc_lookup in Ha. inv_bind Ha.
    assert (s1 = s) as -> by (unfold list_iocs in Ha0; inv_bind Ha0; injection Ha1 as <- <-; by injection Ha0 as _ <-).
    inv_bind Ha. injection Ha1 as <- <-. inv_bind Ha. injection Ha1 as _ <-. inv_bind Ha. injection Ha as _ <-.
    apply ioc_matches_draws in Ha1 as [dr ->].
    destruct (hunt_end _ _ _ _ _ _ _ _ _ _ _ _ _ (hunted_refl s dr) (Forall_nil_2 _) He) as (recs & ? & ? & ?). by exists recs, [].
  - unfold saved in He. inv_bind He. injection Ha as <- <-. injection He as _ <-.
    destruct (hunt_still d actor s) as (recs & ? & ? & ?). by exists recs, [].
  - unfold create_saved, audit_user in He. inv_bind He. apply save_hunt_ok in Ha as (Hh & Ht & Hc & Hty).
    destruct (hunt_end _ _ _ _ _ _ _ [a] _ _ _ _ _ Hh ltac:(by apply Forall_singleton) He) as (recs & ? & ? & ?). by exists recs, [a].
  - unfold export, hunt_audit, audit_user in He. inv_bind He. injection Ha as _ <-.
    destruct (hunt_end _ _ _ _ _ _ _ _ _ _ _ _ _ Hs (Forall_nil_2 _) He) as (recs & ? & ? & ?). by exists recs, [].
Qed.

(** Hunting reads: a hunt that succeeds is by an actor with [hunts:execute] in the
    tenant and changes nothing but the audit log, with one record that names tenant and
    actor (none for the three plain views), and, for a hunt that is saved, one saved hunt
    of the tenant and actor with a supported type; a hunt that fails leaves no trace. *)
Theorem hunts_read_only h rid req s :
  (∀ d s', serve_hunt h rid req s = (Ok d, s') → ∃ actor recs hunts,
     authorised h s (ta_tenant_id actor) "hunts:execute" (ta_actor actor)
     ∧ hunted recs hunts s s' ∧ mine actor recs hunts
     ∧ length recs = (if audited req then 1 else 0)%nat
     ∧ length hunts = (match req with CreateSaved _ => 1 | _ => 0 end)%nat)
  ∧ (∀ e s', serve_hunt h rid req s = (Raise e, s') → s' = set_draws (λ _, d_draws s') s).
Proof.
  split; [|intros e s'; apply served_raise].
  intros d s' (actor & s1 & Hauth & He & ->)%served_ok.
  destruct (hunt_handler_ok _ _ _ _ _ _ He) as (recs & hunts & Hh & Hr & Hm & Hn).
  exists actor, recs, hunts. split_and!; try done. unfold hunted in *. rewrite flush_idem. exact Hh.
Qed.
End hunt_facts.

(** ** A concrete hunt *)

#[local] Instance demo_oracle : Oracle :=
  {| uuid_hex := λ n, str_of_nat n; clock := λ n, utc 20000 (3600 * Z.of_nat n) |}.
#[local] Instance demo_iso : IsoLib := {| other_iso := λ _, None |}.
#[local] Instance demo_json : PydanticJson := {| json_datetime := isoformat |}.
#[local] Instance demo_auth : AuthLib := {|
  jwt_encode := λ _, "t"; bcrypt_check := λ _ _, true;
  jwt_decode := λ t, if (t =? "t")%string then Some [("sub", VStr "usr_1")] else None |}.
Definition hunt_row (e : CanonicalEvent) : SecurityEvent := {|
  se_id := e_id e; se_tenant_id := "ten_a"; se_timestamp := e_timestamp e; se_ingested_at := e_ingested_at e;
  se_source := e_source e; se_source_type := e_source_type e; se_event_type := e_event_type e;
  se_category := e_category e; se_action := e_action e; se_outcome := e_outcome e; se_src_ip := e_src_ip e;
  se_user_name := user_name e; se_idempotency_key := None; se_raw_hash := ""; se_payload := e |}.
Definition hunt_db : db := set_events (λ _, [hunt_row listing; hunt_row shell]) Access.demo_db.
Definition by_listing : StructuredHuntRequest := {|
  hr_start := Some "2024-10-04T00:00:02Z"; hr_end := None; hr_src_ip := Some "10.0.0.1"; hr_dst_ip := None;
  hr_user := None; hr_host := None; hr_domain := None; hr_process_name := Some "LS"; hr_source_type := None;
  hr_category := None; hr_ioc := None; hr_limit := 0 |}.
Definition demo_save : SaveHuntBody :=
  {| sv_name := " shells "; sv_hunt_type := "structured"; sv_query := []; sv_description := "" |}.
Lemma structured_search_exact_witness : ∃ out, structured_search "ten_a" by_listing hunt_db
    = Ok (search_dict 1 (take 1 (select out (load_window "ten_a" hunt_db))))
  ∧ (out listing = true ↔ within (Some (utc 20000 2)) None listing ∧ wanted by_listing listing).
Proof.
  destruct (structured_search_exact "ten_a" by_listing hunt_db) as (_ & _ & _ & Hx & _).
  destruct (Hx (Some (utc 20000 2)) None eq_refl eq_refl) as (out & Hout & Hs). exists out. split; [exact Hs | exact (Hout listing)].
Defined.
Lemma hunts_read_only_witness : ∃ row,
  sh_hunt_type row ∈ ["blueql"; "structured"; "sql"] ∧ row ∈ d_hunts (flush_pending
    (snd (serve_hunt (demo_headers None) "req_1" (CreateSaved demo_save) hunt_db))).
Proof.
  destruct (serve_hunt (demo_headers None) "req_1" (CreateSaved demo_save) hunt_db) as [r s'] eqn:E.
  assert (is_ok (fst (serve_hunt (demo_headers None) "req_1" (CreateSaved demo_save) hunt_db)) = true) as Hok
    by (vm_compute; reflexivity).
  rewrite E in Hok. destruct r as [d|e]; [|discriminate Hok].
  destruct (proj1 (hunts_read_only (demo_headers None) "req_1" (CreateSaved demo_save) hunt_db) d s' E)
    as (actor & recs & hunts & _ & Hh & [_ Hm] & _ & Hn).
  destruct hunts as [|row hunts]; [discriminate Hn|]. apply Forall_cons in Hm as [(_ & _ & Hty) _].
  exists row. split; [exact Hty|]. cbn [snd]. unfold hunted in Hh. rewrite Hh. apply elem_of_app. right. apply list_elem_of_here.
Defined.
