(* ===== verification/Gateway.v ===== *)
(** * The AI gateway

    Models [services/ai-gateway/app/gateway.py], the only path on which a feature may ask
    for a model, and the routes of [services/api/app/api/ai_analyst.py] over it. Ledger,
    cache and budget are the state of the process; they survive a request that fails. *)
From S2P Require Export Syslog EvidenceLocker Routes.
Local Open Scope Z_scope.

(** ** Redaction *)

Definition is_any (l : list N) (c : ascii) : bool := existsb (N.eqb (code c)) l.
(** [[:=]] and [[a-z0-9\-._~+/]], in any case. *)
Definition assign_char (c : ascii) : bool := is_any [58; 61]%N c.
Definition token_char (c : ascii) : bool := is_letter c || is_digit c || is_any [45; 46; 95; 126; 43; 47]%N c.
Definition equals_char (c : ascii) : bool := is_any [61]%N c.
(** The words of the first pattern ([api[_-]?key] is three of them), and the text after one
    of them, in any case. *)
Definition SECRET_WORDS : list string := ["password"; "secret"; "api_key"; "api-key"; "apikey"; "token"].
Definition after_word (k s : string) : option string :=
  if startswith (lower s) k then Some (str_drop (String.length k) s) else None.
Definition spaces (s : string) : string := (span is_space s).2.
(** What follows a match of a pattern at the start of a text: that of the first word for
    which the rest of the pattern matches too. *)
Definition first_match (f : string → option string) (words : list string) : option string :=
  find_first (λ _, true) (omap f words).
Definition assigned (s k : string) : option string :=
  s ← after_word k s;
  '(_, s) ← exactly assign_char (spaces s);
  '(_, s) ← some non_space (spaces s);
  Some s.
Definition assignment (s : string) : option string := first_match (assigned s) SECRET_WORDS.
Definition borne (s k : string) : option string :=
  s ← after_word k s;
  '(_, s) ← some is_space s;
  '(_, s) ← some token_char s;
  Some (span equals_char s).2.
Definition bearer (s : string) : option string := first_match (borne s) ["bearer"].
Abbreviation pattern := (string → option string).
Definition SECRET_PATTERNS : list pattern := [assignment; bearer].
Definition REDACTED : string := "[REDACTED]".
(** [pattern.sub("[REDACTED]", text)]; [skip] counts what is left of a match. *)
Fixpoint sub (m : pattern) (skip : nat) (s : string) : string :=
  match s, skip with
  | EmptyString, _ => ""
  | String _ s', S skip => sub m skip s'
  | String c s', O =>
      match m s with
      | Some rest => REDACTED +:+ sub m (String.length s - String.length rest - 1) s'
      | None => String c (sub m 0 s')
      end
  end.
Definition redact (text : string) : string := foldl (λ cleaned m, sub m 0 cleaned) text SECRET_PATTERNS.

(** ** Requests, decisions, ledger

    The dash in a reason is outside the characters of the model and is written in UTF-8. *)

Record AIRequest := {
  rq_tenant_id : string; rq_feature : string; rq_task_type : string; rq_context_refs : list string;
  rq_requested_capability : string; rq_max_cost : float; rq_max_tokens : Z; rq_sensitivity : string;
  rq_structured_output_schema : pydict; rq_prompt : string }.
Inductive decision := DeterministicOnly | DenyPolicy | DenyBudget | Local | Frontier | Cached.
Definition decision_str (d : decision) : string :=
  match d with
  | DeterministicOnly => "deterministic_only" | DenyPolicy => "deny_policy" | DenyBudget => "deny_budget"
  | Local => "local" | Frontier => "frontier" | Cached => "cached"
  end.
Record AIDecision := {
  ad_decision : decision; ad_reason : string; ad_provider : option string; ad_model : option string;
  ad_redacted_prompt : option string; ad_cost_estimate : float; ad_cached : bool }.
Record gateway := {
  g_calls : Z; g_denials : Z; g_deterministic : Z; g_spend : float; g_cache_hits : Z; g_audit : list pydict;
  g_cache : list (string * AIDecision); g_budget : float }.
Definition fresh_gateway : gateway := {|
  g_calls := 0; g_denials := 0; g_deterministic := 0; g_spend := fl_of_Z 0; g_cache_hits := 0; g_audit := [];
  g_cache := []; g_budget := fl_of_Z 5 |}.

(** [json.dumps(payload, sort_keys=True)] with the default separators. *)
Fixpoint json_text (v : pyval) : string :=
  match v with
  | VList l => "[" +:+ join ", " (map json_text l) +:+ "]"
  | VDict d => "{" +:+ join ", " (map (λ kv, json_str kv.1 +:+ ": " +:+ json_text kv.2) d) +:+ "}"
  | _ => json_enc v
  end.
Definition audit_entry (request : AIRequest) (d : AIDecision) : pydict := [
  ("tenant_id", VStr (rq_tenant_id request)); ("feature", VStr (rq_feature request));
  ("task_type", VStr (rq_task_type request)); ("decision", VStr (decision_str (ad_decision d)));
  ("reason", VStr (ad_reason d)); ("context_refs", VList (VStr <$> rq_context_refs request));
  ("schema", VStr (str_take 200 (json_text (json_norm (VDict (rq_structured_output_schema request))))))].
Definition cache_key (request : AIRequest) (redacted : string) : string :=
  sha256_hex (join ":" [rq_tenant_id request; rq_feature request; rq_task_type request; redacted]).
Definition decided (d : decision) (reason redacted : string) : AIDecision := {|
  ad_decision := d; ad_reason := reason; ad_provider := None; ad_model := None; ad_redacted_prompt := Some redacted;
  ad_cost_estimate := fl_of_Z 0; ad_cached := false |}.
Definition from_cache (cached : AIDecision) (redacted : string) : AIDecision := {|
  ad_decision := ad_decision cached; ad_reason := ad_reason cached; ad_provider := ad_provider cached;
  ad_model := ad_model cached; ad_redacted_prompt := Some redacted; ad_cost_estimate := fl_of_Z 0; ad_cached := true |}.
(** The tests after the cache, in order. *)
Definition CRITICAL_TASKS : list string := ["detect"; "correlate"; "score"; "ingest"; "contain"].
Definition decide_request (g : gateway) (request : AIRequest) (ai_enabled : bool) (redacted : string) : AIDecision :=
  if mem (rq_task_type request) CRITICAL_TASKS
  then decided DeterministicOnly "Security-critical path must not call a model" redacted
  else if negb ai_enabled then decided DeterministicOnly "AI gateway disabled — operate offline" redacted
  else if mem (rq_sensitivity request) ["secret"; "restricted"]
  then decided DenyPolicy "Sensitivity class is not eligible for model dispatch" redacted
  else if fl_lt (g_budget g) (rq_max_cost request) || fl_lt (g_budget g) (fl_add (g_spend g) (rq_max_cost request))
  then decided DenyBudget "Token/cost budget exceeded" redacted
  else decided DenyPolicy "No approved provider configured" redacted.
Definition is_deterministic (d : AIDecision) : bool := match ad_decision d with DeterministicOnly => true | _ => false end.
(** What a decision that was taken, and one from the cache, change. *)
Definition book (key : string) (request : AIRequest) (d : AIDecision) (g : gateway) : gateway := {|
  g_calls := g_calls g; g_denials := if is_deterministic d then g_denials g else g_denials g + 1;
  g_deterministic := if is_deterministic d then g_deterministic g + 1 else g_deterministic g;
  g_spend := g_spend g; g_cache_hits := g_cache_hits g; g_audit := g_audit g ++ [audit_entry request d];
  g_cache := if is_deterministic d then dset key d (g_cache g) else g_cache g; g_budget := g_budget g |}.
Definition book_hit (request : AIRequest) (d : AIDecision) (g : gateway) : gateway := {|
  g_calls := g_calls g; g_denials := g_denials g; g_deterministic := g_deterministic g; g_spend := g_spend g;
  g_cache_hits := g_cache_hits g + 1; g_audit := g_audit g ++ [audit_entry request d]; g_cache := g_cache g;
  g_budget := g_budget g |}.
Definition called (budget : option float) (g : gateway) : gateway := {|
  g_calls := g_calls g + 1; g_denials := g_denials g; g_deterministic := g_deterministic g; g_spend := g_spend g;
  g_cache_hits := g_cache_hits g; g_audit := g_audit g; g_cache := g_cache g; g_budget := default (g_budget g) budget |}.
Definition route (request : AIRequest) (ai_enabled : bool) (budget : option float) (g : gateway) : AIDecision * gateway :=
  let g := called budget g in
  let redacted := redact (rq_prompt request) in
  let key := cache_key request redacted in
  match dget key (g_cache g) with
  | Some cached => let d := from_cache cached redacted in (d, book_hit request d g)
  | None => let d := decide_request g request ai_enabled redacted in (d, book key request d g)
  end.
Definition ledger (g : gateway) : pydict := [
  ("calls", VInt (g_calls g)); ("denials", VInt (g_denials g)); ("deterministic", VInt (g_deterministic g));
  ("spend", VFloat (g_spend g)); ("cache_hits", VInt (g_cache_hits g)); ("budget", VFloat (g_budget g));
  ("audit_tail", VList (VDict <$> drop (length (g_audit g) - 20) (g_audit g)))].
(** [for key in required: if key not in payload] *)
Definition missing_key (payload : pydict) (key : pyval) : result (option string) :=
  match key with
  | VStr k => Ok (if dhas k payload then None else Some ("missing:" +:+ k))
  | VList _ | VDict _ => Raise (TypeError ("unhashable type: '" +:+ type_name key +:+ "'"))
  | _ => Ok (Some ("missing:" +:+ py_str key))
  end.
Fixpoint missing_keys (payload : pydict) (keys : list pyval) : result (list string) :=
  match keys with
  | [] => Ok []
  | key :: rest => o ← missing_key payload key; l ← missing_keys payload rest; Ok (option_list o ++ l)
  end.
Definition validate_structured (payload schema : pydict) : result (list string) :=
  required ← iterate (vor (dgetv "required" schema) (VList [])); missing_keys payload required.

Example redactions :
  redact "x Password = hunter2, ok" = "x [REDACTED] ok" ∧ redact "Authorization: Bearer abc.def== end" = "Authorization: [REDACTED] end"
  ∧ redact "api-key:1 apikey=2 secret: " = "[REDACTED] [REDACTED] secret: ".
Proof. vm_compute. auto. Qed.
(** The first pattern takes the word [Bearer] for the secret, and leaves the token. *)
Example bearer_token_leaks : redact "token: Bearer eyJhbGciOi" = "[REDACTED] eyJhbGciOi".
Proof. vm_compute. reflexivity. Qed.

(** ** What redaction leaves *)

(** No match of a pattern starts anywhere. *)
Fixpoint clean (m : pattern) (s : string) : Prop :=
  m s = None ∧ match s with String _ s' => clean m s' | EmptyString => True end.
Lemma sub_clean m s : clean m s → sub m 0 s = s.
Proof. induction s as [|c s IH]; [done|]. intros [Hm Hc]. simpl. by rewrite Hm, IH. Qed.
Lemma first_match_Some f words r : first_match f words = Some r → ∃ k, k ∈ words ∧ is_Some (f k).
Proof.
  intros [Hin _]%find_first_Some. apply list_elem_of_omap in Hin as (k & Hk & Hf). eauto.
Qed.
Lemma first_match_is_Some f words k : k ∈ words → is_Some (f k) → first_match f words ≠ None.
Proof.
  unfold first_match. intros Hk [r Hr] Hn. assert (r ∈ omap f words) as Hin by (apply list_elem_of_omap; eauto).
  destruct (omap f words); [by apply not_elem_of_nil in Hin | done].
Qed.

Section passing.
(** A pattern whose matches start at a character that is no space. *)
Context (m : pattern) (m_head : ∀ s r, m s = Some r → match s with String c _ => is_space c = false | EmptyString => False end).
Definition bracket_char : ascii := "[".
Lemma sub_step c s : sub m 0 (String c s) = match m (String c s) with
  | Some r => REDACTED +:+ sub m (String.length (String c s) - String.length r - 1) s | None => String c (sub m 0 s) end.
Proof. done. Qed.
Lemma sub_spaces s : span is_space (sub m 0 s) = ((span is_space s).1, sub m 0 (span is_space s).2).
Proof.
  induction s as [|c s IH]; [done|]. rewrite sub_step. destruct (m (String c s)) as [r|] eqn:E.
  - apply m_head in E as Hc. simpl. rewrite Hc. cbn [fst snd]. by rewrite sub_step, E.
  - simpl. destruct (is_space c) eqn:Hc; [rewrite IH; by destruct (span is_space s)|]. cbn [fst snd]. by rewrite sub_step, E.
Qed.
Lemma sub_word k s t : str_all (λ c, negb (Ascii.eqb c bracket_char)) k = true → after_word k (sub m 0 s) = Some t →
  ∃ s', after_word k s = Some s' ∧ t = sub m 0 s'.
Proof.
  revert s t. induction k as [|a k IH]; intros s t Hk; [intros Ht; exists s; split; [by destruct s|]; destruct (sub m 0 s); unfold after_word in Ht; simpl in Ht; congruence|].
  simpl in Hk. apply andb_prop in Hk as [Ha%negb_true_iff%Ascii.eqb_neq Hk].
  destruct s as [|c s]; [done|]. rewrite sub_step. unfold after_word, startswith.
  destruct (m (String c s)) as [r|]; simpl.
  - destruct (ascii_dec a _) as [Heq|]; [|done]. exfalso. apply Ha. rewrite Heq. done.
  - destruct (ascii_dec a (lower_char c)); [|done]. exact (IH s t Hk).
Qed.
Lemma sub_exactly p s x t : p bracket_char = false → exactly p (sub m 0 s) = Some (x, t) →
  ∃ s', exactly p s = Some (x, s') ∧ t = sub m 0 s'.
Proof.
  intros Hp. destruct s as [|c s]; [done|]. rewrite sub_step. destruct (m (String c s)) as [r|]; simpl.
  - fold bracket_char. by rewrite Hp.
  - destruct (p c); [|done]. intros [= <- <-]. by exists s.
Qed.
Lemma some_head p s : is_Some (some p s) ↔ match s with String c _ => p c = true | EmptyString => False end.
Proof.
  unfold some. destruct s as [|c s]; simpl; [by split; [intros [? ?]|]|]. destruct (p c); [|by split; [intros [? ?]|]].
  destruct (span p s). simpl. split; [done | by intros _; eexists].
Qed.
(** The first pattern's class holds the bracket, the second's does not. *)
Lemma sub_some p s : (p bracket_char = false ∨ ∀ c, is_space c = false → p c = true) →
  is_Some (some p (sub m 0 s)) → is_Some (some p s).
Proof.
  rewrite !some_head. intros Hp. destruct s as [|c s]; [done|]. rewrite sub_step. destruct (m (String c s)) as [r|] eqn:E; [|done].
  simpl. apply m_head in E. destruct Hp as [Hp|Hp]; [change (p bracket_char = true → p c = true); by rewrite Hp | by intros _; apply Hp].
Qed.
Lemma sub_assigned s k : k ∈ SECRET_WORDS → is_Some (assigned (sub m 0 s) k) → is_Some (assigned s k).
Proof.
  intros Hk (r & (t & Hw & He)%bind_Some). apply sub_word in Hw as (s1 & Hw & ->);
    [|by repeat (apply elem_of_cons in Hk as [->|Hk]; [done|]); apply not_elem_of_nil in Hk].
  unfold assigned. rewrite Hw. simpl. apply bind_Some in He as ([x t] & Hx & He). unfold spaces in *. rewrite sub_spaces in Hx. simpl in Hx.
  apply sub_exactly in Hx as (s2 & -> & ->); [|done]. simpl. rewrite sub_spaces in He. simpl in He.
  apply bind_Some in He as ([y u] & Hy & _).
  destruct (sub_some non_space (span is_space s2).2) as [[y' u'] ->]; [by right; unfold non_space; intros c -> | by eexists | by eexists].
Qed.
Lemma sub_borne s : is_Some (borne (sub m 0 s) "bearer") → is_Some (borne s "bearer").
Proof.
  intros (r & (t & Hw & He)%bind_Some). apply sub_word in Hw as (s1 & Hw & ->); [|done].
  unfold borne. rewrite Hw. simpl. apply bind_Some in He as ([x t] & Hx & He). apply bind_Some in He as ([y u] & Hy & _).
  assert (∃ b, some is_space s1 = Some (x, b) ∧ t = sub m 0 b) as (b & -> & ->).
  { unfold some in *. rewrite sub_spaces in Hx. destruct (span is_space s1) as [a b]. simpl in Hx.
    destruct (nonempty a); [|done]. injection Hx as <- <-. by exists b. }
  simpl. destruct (sub_some token_char b) as [[y' u'] ->]; [by left | by eexists | by eexists].
Qed.
(** Replacing makes no new match. *)
Lemma sub_pattern m' s : m' ∈ SECRET_PATTERNS → m' s = None → m' (sub m 0 s) = None.
Proof.
  intros Hm' Hs. destruct (m' (sub m 0 s)) as [r|] eqn:E; [|done]. exfalso.
  apply elem_of_cons in Hm' as [->|[->|[]%not_elem_of_nil]%elem_of_cons]; apply first_match_Some in E as (k & Hk & Hf).
  - by apply (first_match_is_Some _ _ _ Hk (sub_assigned _ _ Hk Hf)) in Hs.
  - apply list_elem_of_singleton in Hk as ->. by apply (first_match_is_Some (borne s) ["bearer"] "bearer" (list_elem_of_here _ _) (sub_borne _ Hf)) in Hs.
Qed.
End passing.
Lemma clean_redacted m s : m ∈ SECRET_PATTERNS → clean m s → clean m (REDACTED +:+ s).
Proof. intros Hm Hs. by apply elem_of_cons in Hm as [->|[->|[]%not_elem_of_nil]%elem_of_cons]; repeat split. Qed.
Lemma word_head a k s t : after_word (String a k) s = Some t → match s with String c _ => lower_char c = a | EmptyString => False end.
Proof.
  unfold after_word. destruct s as [|c s]; [done|]. unfold startswith. simpl. by destruct (ascii_dec a (lower_char c)).
Qed.
Lemma head_space a s : match s with String c _ => lower_char c = a | EmptyString => False end → is_space a = false →
  match s with String c _ => is_space c = false | EmptyString => False end.
Proof. destruct s as [|c s]; [done|]. intros <-. by rewrite is_space_lower. Qed.
Lemma pattern_head m s r : m ∈ SECRET_PATTERNS → m s = Some r →
  match s with String c _ => is_space c = false | EmptyString => False end.
Proof.
  intros Hm E. apply elem_of_cons in Hm as [->|[->|[]%not_elem_of_nil]%elem_of_cons];
    apply first_match_Some in E as (k & Hk & (r' & (t & Hw & _)%bind_Some)).
  - repeat (apply elem_of_cons in Hk as [->|Hk]; [by apply word_head, head_space in Hw|]). by apply not_elem_of_nil in Hk.
  - apply list_elem_of_singleton in Hk as ->. by apply word_head, head_space in Hw.
Qed.
Lemma pattern_bracket m s : m ∈ SECRET_PATTERNS → m (REDACTED +:+ s) = None.
Proof. intros Hm. by apply elem_of_cons in Hm as [->|[->|[]%not_elem_of_nil]%elem_of_cons]. Qed.
Lemma pattern_empty m : m ∈ SECRET_PATTERNS → m "" = None.
Proof. intros Hm. by apply elem_of_cons in Hm as [->|[->|[]%not_elem_of_nil]%elem_of_cons]. Qed.
(** A pass with a pattern leaves none of its matches, and none of another's if there was
    none. *)
Lemma clean_sub m m' k s : m ∈ SECRET_PATTERNS → m' ∈ SECRET_PATTERNS → (m' = m ∨ clean m' s) → clean m' (sub m k s).
Proof.
  intros Hm Hm'. revert k. induction s as [|c s IH]; intros k Hc.
  { destruct k; (split; [by apply pattern_empty | done]). }
  assert (m' = m ∨ clean m' s) as Hs by (destruct Hc as [|[_ ?]]; auto).
  destruct k as [|k]; [|by apply IH]. pose proof (sub_step m c s) as Hstep. destruct (m (String c s)) as [r|] eqn:E.
  - rewrite Hstep. apply clean_redacted; [done | by apply IH].
  - rewrite Hstep. split; [|by apply IH]. rewrite <-Hstep. apply sub_pattern; [intros s0 r0 E0; exact (pattern_head m s0 r0 Hm E0) | done|].
    destruct Hc as [->|[? _]]; assumption.
Qed.
(** C36. Redaction is complete: what it leaves has no match of any of the patterns, so that
    redacting again changes nothing. *)
Theorem redact_complete text : (∀ m, m ∈ SECRET_PATTERNS → clean m (redact text)) ∧ redact (redact text) = redact text.
Proof.
  assert (∀ m, m ∈ SECRET_PATTERNS → clean m (redact text)) as Hc.
  { intros m Hm. unfold redact. simpl. assert (assignment ∈ SECRET_PATTERNS ∧ bearer ∈ SECRET_PATTERNS) as [Ha Hb].
    { split; [left | right; left]. }
    apply clean_sub; [done..|]. apply elem_of_cons in Hm as [->|[->|[]%not_elem_of_nil]%elem_of_cons]; [right|by left].
    apply clean_sub; auto. }
  split; [done|]. unfold redact at 1. simpl. rewrite (sub_clean assignment), (sub_clean bearer); [done|apply Hc; right; left|apply Hc; left].
Qed.

(** ** What the gateway decides *)

Record gateway_sound (g : gateway) : Prop := {
  gs_calls : g_calls g = g_denials g + g_deterministic g + g_cache_hits g;
  gs_audit : g_calls g = Z.of_nat (length (g_audit g));
  gs_spend : g_spend g = fl_of_Z 0;
  gs_cache : ∀ k d, (k, d) ∈ g_cache g → is_deterministic d = true ∧ ad_provider d = None ∧ ad_model d = None }.
(** A decision to call a model. *)
Definition dispatches (d : decision) : bool := match d with Local | Frontier => true | _ => false end.
Definition call : Type := AIRequest * bool * option float.
Definition routed (g : gateway) (c : call) : AIDecision * gateway := route c.1.1 c.1.2 c.2 g.
Definition run_calls (g : gateway) (calls : list call) : gateway := foldl (λ g c, snd (routed g c)) g calls.
Lemma decide_cases g r e red : let d := decide_request g r e red in
  ad_provider d = None ∧ ad_model d = None ∧ ad_cost_estimate d = fl_of_Z 0
  ∧ dispatches (ad_decision d) = false
  ∧ (mem (rq_task_type r) CRITICAL_TASKS || negb e = true → is_deterministic d = true).
Proof.
  intros d. subst d. unfold decide_request. destruct (mem (rq_task_type r) CRITICAL_TASKS), e; cbn [negb orb];
    [| |destruct (mem (rq_sensitivity r) ["secret"; "restricted"]); [|destruct (fl_lt _ _ || _)]|];
    (split_and!; [reflexivity..|]; by intros).
Qed.
Lemma route_sound r e b g : gateway_sound g → let (d, g') := route r e b g in
  gateway_sound g' ∧ ad_provider d = None ∧ ad_model d = None ∧ ad_cost_estimate d = fl_of_Z 0
  ∧ dispatches (ad_decision d) = false
  ∧ (mem (rq_task_type r) CRITICAL_TASKS || negb e = true → is_deterministic d = true)
  ∧ g_calls g' = g_calls g + 1.
Proof.
  intros [Hc Ha Hs Hk]. unfold route. cbv zeta. change (g_cache (called b g)) with (g_cache g).
  set (red := redact (rq_prompt r)). set (key := cache_key r red).
  destruct (dget key (g_cache g)) as [cached|] eqn:E.
  - apply dget_elem_of, Hk in E as (Hd & Hp & Hm). unfold is_deterministic in Hd. destruct (ad_decision cached) eqn:Ed; try done.
    split; [constructor; simpl; rewrite ?length_app; simpl; try lia; done|]. simpl. unfold is_deterministic. simpl. rewrite Ed.
    by split_and!.
  - destruct (decide_cases (called b g) r e red) as (Hp & Hm & Hcost & Hd & Hdet). set (d := decide_request _ _ _ _) in *.
    split; [|by split_and!]. constructor; simpl; rewrite ?length_app; simpl; [destruct (is_deterministic d); lia | lia | done |].
    intros k d' Hin. destruct (is_deterministic d) eqn:Ed; [|by apply (Hk k)].
    apply elem_of_dset in Hin as [[_ ->]|Hin]; [done | by apply (Hk k)].
Qed.
Lemma run_calls_sound calls g : gateway_sound g → gateway_sound (run_calls g calls).
Proof.
  revert g. induction calls as [|c calls IH]; intros g Hg; [done|]. apply IH. unfold routed.
  pose proof (route_sound c.1.1 c.1.2 c.2 g Hg) as Hr. destruct (route _ _ _ g). by destruct Hr.
Qed.
Lemma fresh_sound : gateway_sound fresh_gateway.
Proof. constructor; try done. by intros k d ?%not_elem_of_nil. Qed.
(** After any sequence of requests the gateway has called no model and spent nothing:
    every decision is to answer deterministically or to deny, whatever the switch, the
    budget and the cache, and a task on the critical path, or any task while models are
    switched off, is answered deterministically. Every request is counted once and audited
    once, and a denial is never cached. *)
Theorem gateway_never_dispatches calls request ai_enabled budget :
  let g := run_calls fresh_gateway calls in let (d, g') := route request ai_enabled budget g in
  dispatches (ad_decision d) = false ∧ ad_provider d = None ∧ ad_model d = None ∧ ad_cost_estimate d = fl_of_Z 0
  ∧ (mem (rq_task_type request) CRITICAL_TASKS || negb ai_enabled = true → is_deterministic d = true)
  ∧ g_calls g' = Z.of_nat (S (length calls)) ∧ length (g_audit g') = S (length calls)
  ∧ g_denials g' + g_deterministic g' + g_cache_hits g' = g_calls g' ∧ g_spend g' = fl_of_Z 0
  ∧ ∀ k c, (k, c) ∈ g_cache g' → is_deterministic c = true.
Proof.
  intros g. assert (∀ l g0, gateway_sound g0 → g_calls (run_calls g0 l) = g_calls g0 + Z.of_nat (length l)) as Hn.
  { induction l as [|c l IH]; intros g0 Hg; simpl; [lia|]. pose proof (route_sound c.1.1 c.1.2 c.2 g0 Hg) as Hr.
    unfold routed. destruct (route c.1.1 c.1.2 c.2 g0) as [d g1]. destruct Hr as (Hg1 & _ & _ & _ & _ & _ & Hc1).
    simpl. rewrite IH by done. lia. }
  pose proof (run_calls_sound calls _ fresh_sound) as Hg. fold g in Hg. specialize (Hn calls _ fresh_sound). fold g in Hn. simpl in Hn.
  pose proof (route_sound request ai_enabled budget g Hg) as Hr. destruct (route request ai_enabled budget g) as [d g'].
  destruct Hr as ([Hc Ha Hs Hk] & Hp & Hm & Hcost & Hd & Hdet & Hc').
  split_and!; try done; [lia | lia | by intros k c Hin; apply (Hk k)].
Qed.

(** ** [ai_analyst.py] *)

Definition ask (request : AIRequest) (ai_enabled : bool) : M (process gateway) AIDecision := on_module (λ g,
  let (d, g') := route request ai_enabled None g in (Ok d, g')).
Record AnalystBody := {
  an_task : string; an_incident_id : option string; an_alert_id : option string; an_evidence_ids : list string; an_question : string }.
Definition analyst_claim (body : AnalystBody) (tenant_id : string) : IncidentClaim := {|
  cl_id := "clm_ai"; cl_tenant_id := tenant_id; cl_incident_id := None; cl_claim_text := str_or (an_question body) (an_task body);
  cl_confidence := fl_of_decimal false 4 (-1); cl_supporting_evidence_ids := an_evidence_ids body;
  cl_contradicting_evidence_ids := []; cl_inference_type := AI_INTERPRETATION;
  cl_model_or_rule_version := "ai-analyst-offline-1"; cl_unknowns := []; cl_analyst_disposition := None |}.
Definition analyst_schema : pydict := [("required", VList [VStr "summary"; VStr "fabricated"])].
Definition analyst_request (body : AnalystBody) (tenant_id : string) : AIRequest := {|
  rq_tenant_id := tenant_id; rq_feature := "soc-analyst"; rq_task_type := "summarise"; rq_context_refs := an_evidence_ids body;
  rq_requested_capability := an_task body; rq_max_cost := fl_of_decimal false 5 (-1); rq_max_tokens := 800;
  rq_sensitivity := "low"; rq_structured_output_schema := analyst_schema; rq_prompt := an_question body |}.
Definition _offline_summary (evidence_ids : list string) (task question : string) : pydict := [
  ("task", VStr task); ("mode", VStr "deterministic_offline");
  ("summary", VStr ("Offline analyst response for " +:+ task +:+ ". Grounded only on evidence refs "
     +:+ py_str (VList (VStr <$> match evidence_ids with [] => ["none"] | ids => ids end)) +:+ ". No model was invoked."));
  ("suggested_queries", VList [
     VDict [("dsl", VStr "blueql"); ("query", VStr "events where severity in ['high','critical'] | limit 50")];
     VDict [("dsl", VStr "structured"); ("query", VDict [("category", VStr "authentication"); ("outcome", VStr "failure")])]]);
  ("unknowns", VList [VStr "Live model summarisation unavailable while AI gateway is offline"]);
  ("question", VStr question); ("fabricated", VBool false)].

Section analyst.
Context `{Oracle} `{AuthLib} (ai_enabled : bool).
Definition ai_analyst (body : AnalystBody) (actor : TenantActor) (request_id : string) : M (process gateway) pydict :=
  s ← on_db get;
  let known := ev_id <$> list_evidence (ta_tenant_id actor) s in
  (match an_evidence_ids body with
   | [] => mret tt
   | _ => lift (validate_claim (ta_tenant_id actor) (analyst_claim body (ta_tenant_id actor)) s)
   end);;
  d ← ask (analyst_request body (ta_tenant_id actor)) ai_enabled;
  let payload := _offline_summary (an_evidence_ids body) (an_task body) (an_question body) in
  errors ← lift (validate_structured payload analyst_schema);
  on_db (audit_user actor request_id "ai.analyst" "ai" (Some (an_task body))
    (Some [("decision", VStr (decision_str (ad_decision d))); ("evidence_ids", VList (VStr <$> an_evidence_ids body));
           ("schema_errors", VList (VStr <$> errors))]));;
  p ← get;
  mret [("decision", VStr (decision_str (ad_decision d))); ("reason", VStr (ad_reason d)); ("provider", vostr (ad_provider d));
        ("known_evidence", VList (VStr <$> take 20 (sorted_set known))); ("result", VDict payload);
        ("schema_errors", VList (VStr <$> errors)); ("ledger", VDict (ledger (pr_module p)))].
Definition gateway_status : M (process gateway) pydict :=
  p ← get; mret [("ai_enabled", VBool ai_enabled); ("ledger", VDict (ledger (pr_module p)))].
Definition serve_analyst (h : headers) (request_id : string) (body : AnalystBody) : M (process gateway) pydict :=
  in_session (actor ← on_db (require "detections:read" h request_id); ai_analyst body actor request_id).
Definition serve_status (h : headers) (request_id : string) : M (process gateway) pydict :=
  in_session (on_db (require "quality:read" h request_id);; gateway_status).

Lemma analyst_errors body : validate_structured (_offline_summary (an_evidence_ids body) (an_task body) (an_question body)) analyst_schema = Ok [].
Proof. done. Qed.

Definition keeps_gateway (g g' : gateway) : Prop := gateway_sound g → gateway_sound g'.
#[local] Instance keeps_gateway_preorder : PreOrder keeps_gateway.
Proof. split; [intros p Hp; exact Hp|]. intros a b c Hab Hbc Ha. by apply Hbc, Hab. Qed.
Lemma gateway_serve h rid body : keeps (module_keeps keeps_gateway) (serve_analyst h rid body).
Proof.
  apply module_session; try apply _. unfold ai_analyst.
  repeat match goal with
  | |- keeps _ (on_db _) => apply module_on_db, _
  | |- keeps _ (ask _ _) => apply module_on_module
  | |- keeps keeps_gateway _ => intros g Hg
  | |- _ => keeps_step
  end.
  pose proof (route_sound (analyst_request body (ta_tenant_id a)) ai_enabled None g Hg) as Hr.
  destruct (route _ ai_enabled None g). by destruct Hr.
Qed.

Definition cites (body : AnalystBody) (tenant_id : string) (s : db) : Prop :=
  ∀ i, i ∈ an_evidence_ids body → ∃ e, e ∈ d_evidence s ∧ ev_id e = i ∧ ev_tenant_id e = tenant_id.
Lemma claim_cites body tenant_id s u : validate_claim tenant_id (analyst_claim body tenant_id) s = Ok u → cites body tenant_id s.
Proof.
  unfold validate_claim. destruct (validate_evidence_refs _ _) as [[]|[]] eqn:E; try done. intros _.
  apply validate_evidence_refs_ok in E as [Hs _]. intros i (e & -> & [He [Ht%String.eqb_eq _]%andb_prop]%elem_of_select)%Hs%list_elem_of_fmap.
  by exists e.
Qed.
Lemma ai_analyst_ok body actor rid p d p' : ai_analyst body actor rid p = (Ok d, p') → ∃ dec record n,
  route (analyst_request body (ta_tenant_id actor)) ai_enabled None (pr_module p) = (dec, pr_module p')
  ∧ dget "provider" d = Some (vostr (ad_provider dec)) ∧ cites body (ta_tenant_id actor) (pr_db p)
  ∧ record_of actor "ai.analyst" "ai" (Some (an_task body)) record
  ∧ pr_db p' = set_audit (λ l, l ++ [record]) (flush_pending (set_draws (λ _, n) (pr_db p))).
Proof.
  intros E. unfold ai_analyst in E. inv_bind E. apply on_db_ok in Ha as [Hget Hg1]. injection Hget as <- Hs1.
  inv_bind E. assert (s0 = s ∧ cites body (ta_tenant_id actor) (pr_db p)) as [-> Hc].
  { unfold cites. destruct (an_evidence_ids body) as [|i ids] eqn:Eb; [injection Ha as _ <-; by split; [|intros i ?%not_elem_of_nil]|].
    injection Ha as Hv <-. apply claim_cites in Hv. unfold cites in Hv. by rewrite Eb in Hv. }
  inv_bind E. inv_bind E. rewrite analyst_errors in Ha1. injection Ha1 as <- <-.
  inv_bind E. apply on_db_ok in Ha1 as [Ha1 Hg2]. apply audit_user_ok in Ha1 as (Hrec & n & Hdb). inv_bind E. injection Ha1 as <- <-. injection E as <- <-.
  unfold ask in Ha0. apply on_module_ok in Ha0 as [Hask Hs0]. destruct (route (analyst_request body (ta_tenant_id actor)) ai_enabled None (pr_module s)) as [dec g] eqn:Er.
  injection Hask as <- Hg. rewrite Hs0, <-Hs1 in Hdb. exists dec. eexists. exists n. rewrite Hg2, <-Hg, <-Hg1.
  split_and!; [exact Er | reflexivity | exact Hc | exact Hrec | exact Hdb].
Qed.

(** C37. An analyst's question that is answered comes from an actor of the tenant with
    [detections:read] and cites evidence of the tenant only; no model is called, one audit
    record is added and nothing else in the database changes. A question that cites unknown
    evidence is refused before the gateway is asked, and a refused one leaves no trace in
    the database. *)
Theorem analyst_grounded h rid body p : gateway_sound (pr_module p) →
  (∀ d p', serve_analyst h rid body p = (Ok d, p') → ∃ actor record,
     authorised h (pr_db p) (ta_tenant_id actor) "detections:read" (ta_actor actor)
     ∧ cites body (ta_tenant_id actor) (pr_db p)
     ∧ dget "provider" d = Some VNone
     ∧ record_of actor "ai.analyst" "ai" (Some (an_task body)) record
     ∧ (∃ n, pr_db p' = set_audit (λ l, l ++ [record]) (flush_pending (set_draws (λ _, n) (pr_db p))))
     ∧ g_calls (pr_module p') = g_calls (pr_module p) + 1 ∧ gateway_sound (pr_module p'))
  ∧ (∀ e p', serve_analyst h rid body p = (Raise e, p') →
     pr_db p' = set_draws (λ _, d_draws (pr_db p')) (pr_db p) ∧ gateway_sound (pr_module p')).
Proof.
  intros Hg. assert (∀ r p', serve_analyst h rid body p = (r, p') → gateway_sound (pr_module p')) as Hkeep.
  { intros r p' He. pose proof (gateway_serve h rid body p) as Hk. rewrite He in Hk. by apply Hk. }
  split.
  - intros d p' He. pose proof (Hkeep _ _ He) as Hg'. apply session_ok in He as (p1 & E & Hdb' & Hmod).
    inv_bind E. apply on_db_ok in Ha as [(Hs & Hauth & _)%require_ok Hgw].
    apply ai_analyst_ok in E as (dec & record & n & Hr & Hp & Hc & Hrec & Hdb). rewrite Hgw in Hr. rewrite Hs in Hc, Hdb.
    pose proof (route_sound (analyst_request body (ta_tenant_id a)) ai_enabled None (pr_module p) Hg) as Hsound. rewrite Hr in Hsound.
    destruct Hsound as (_ & Hprov & _ & _ & _ & _ & Hcalls).
    exists a, record. split_and!; [done | exact Hc | by rewrite Hp, Hprov | done | | by rewrite Hmod | done].
    exists n. rewrite Hdb', Hdb. exact (f_equal (set_audit (λ l, l ++ [record])) (flush_idem (set_draws (λ _, n) (pr_db p)))).
  - intros e p' He. split; [by eapply session_raise | by eapply Hkeep].
Qed.
End analyst.

(** ** Concrete requests *)

#[local] Instance demo_oracle : Oracle :=
  {| uuid_hex := λ n, str_of_nat n; clock := λ n, utc 20000 (60 * Z.of_nat n) |}.
#[local] Instance demo_auth : AuthLib := {|
  jwt_encode := λ _, "t"; bcrypt_check := λ _ _, true;
  jwt_decode := λ t, if (t =? "t")%string then Some [("sub", VStr "usr_1")] else None |}.
Definition demo_request (tenant feature task : string) : AIRequest := {|
  rq_tenant_id := tenant; rq_feature := feature; rq_task_type := task; rq_context_refs := []; rq_requested_capability := "";
  rq_max_cost := fl_of_decimal false 5 (-1); rq_max_tokens := 10; rq_sensitivity := "low"; rq_structured_output_schema := [];
  rq_prompt := "hello" |}.
(** The answer given while models were off stays in the cache when they are switched on. *)
Example switch_is_cached :
  let '(_, g) := route (demo_request "ten_a" "f" "t") false None fresh_gateway in
  let '(d, _) := route (demo_request "ten_a" "f" "t") true None g in
  ad_cached d = true ∧ ad_decision d = DeterministicOnly
  ∧ ad_decision (fst (route (demo_request "ten_a" "f" "t") true None fresh_gateway)) = DenyPolicy.
Proof. vm_compute. auto. Qed.
(** The parts of a key are joined without marking where one ends. *)
Example keys_collide :
  cache_key (demo_request "ten_a" "f:g" "t") "hello" = cache_key (demo_request "ten_a" "f" "g:t") "hello".
Proof. reflexivity. Qed.
Definition demo_body : AnalystBody := {|
  an_task := "incident_summary"; an_incident_id := None; an_alert_id := None; an_evidence_ids := []; an_question := "token=abc" |}.
Definition demo_process : process gateway := {| pr_db := Access.demo_db; pr_module := fresh_gateway |}.
Lemma analyst_grounded_witness : ∃ d p', serve_analyst false (demo_headers None) "req_1" demo_body demo_process = (Ok d, p')
  ∧ dget "provider" d = Some VNone.
Proof.
  destruct (serve_analyst false (demo_headers None) "req_1" demo_body demo_process) as [r p'] eqn:E.
  assert (is_ok (fst (serve_analyst false (demo_headers None) "req_1" demo_body demo_process)) = true) as Hok
    by (vm_compute; reflexivity).
  rewrite E in Hok. destruct r as [d|e]; [|discriminate Hok]. exists d, p'. split; [reflexivity|].
  destruct (proj1 (analyst_grounded false (demo_headers None) "req_1" demo_body demo_process fresh_sound) d p' E)
    as (_ & _ & _ & _ & Hp & _). exact Hp.
Defined.
