(* ===== verification/RuleLifecycle.v ===== *)
(** * The lifecycle of a detection rule

    Models [services/api/app/services/rules.py] and the rule routes of
    [services/api/app/api/detections.py]: revisions of the rules of the catalogue, their
    status changes, and promotion behind the regression gate of the replay lab
    ([regression_gate] of [services/api/app/api/replay.py]). *)
From S2P Require Export DetectionService Replay.
Local Open Scope Z_scope.

Definition ALLOWED_TRANSITIONS : list (string * list string) := [
  ("draft", ["tested"; "disabled"]);
  ("tested", ["promoted"; "disabled"; "draft"]);
  ("promoted", ["disabled"; "tested"]);
  ("disabled", ["draft"; "tested"])].
Definition known_status (status : string) : bool := dhas status ALLOWED_TRANSITIONS.
(** [status in ALLOWED_TRANSITIONS.get(current, set())] *)
Definition allowed (current status : string) : bool :=
  mem status (default [] (dget current ALLOWED_TRANSITIONS)).

Definition created_desc (a b : RuleRevision) : bool := dt_le (rr_created_at b) (rr_created_at a).
Definition list_history (rule_id : string) (s : db) : list RuleRevision :=
  sort_by created_desc (select (λ r, rr_rule_id r =? rule_id)%string (d_revisions s)).
Definition latest_revision (rule_id : string) (s : db) : option RuleRevision :=
  head (list_history rule_id s).
(** [regression_gate]: the lab is an object of the process. *)
Definition regression_gate (lab : ReplayLab) (rule_id : string) : bool :=
  rule_regression_passed rule_id lab.

Section lifecycle.
Context `{Oracle} (registry : DetectionRegistry).

Definition catalog_revision (i : string) (meta : RuleMeta) (now : datetime) : RuleRevision := {|
  rr_id := i; rr_rule_id := rm_rule_id meta; rr_version := rm_version meta;
  rr_status := if known_status (rm_status meta) then rm_status meta else "tested";
  rr_name := rm_name meta;
  rr_checksum := sha256_hex (rm_rule_id meta +:+ ":" +:+ rm_version meta +:+ ":" +:+ rm_description meta);
  rr_mitre_techniques := rm_mitre_techniques meta; rr_execution := rm_execution meta;
  rr_created_at := now; rr_created_by := "catalog" |}.
Definition same_revision (meta : RuleMeta) (r : RuleRevision) : bool :=
  (rr_rule_id r =? rm_rule_id meta)%string && (rr_version r =? rm_version meta)%string.
(** One rule of the loop. The rows are added to the session and flushed at the end, so
    the queries of the loop see the table as it was. *)
Definition sync_one (stored : list RuleRevision) (created : list RuleRevision) (rule : DetectionRule)
    : M db (list RuleRevision) :=
  if existsb (same_revision (dr_meta rule)) stored then mret created
  else
    i ← new_id_db "rlv";
    now ← utcnow_db;
    mret (created ++ [catalog_revision i (dr_meta rule) now]).
Definition sync_catalog_revisions : M db (list RuleRevision) :=
  stored ← gets d_revisions;
  created ← foldM (sync_one stored) [] (all_rules registry);
  modify (set_revisions (λ l, l ++ created));;
  flush;;
  mret created.

Definition next_revision (i status actor_id : string) (now : datetime) (current : RuleRevision)
    : RuleRevision := {|
  rr_id := i; rr_rule_id := rr_rule_id current; rr_version := rr_version current;
  rr_status := status; rr_name := rr_name current; rr_checksum := rr_checksum current;
  rr_mitre_techniques := rr_mitre_techniques current; rr_execution := rr_execution current;
  rr_created_at := now; rr_created_by := actor_id |}.
(** A new revision after the current one, if the transition is allowed. *)
Definition try_move (rule_id status actor_id : string) (current : option RuleRevision) : M db RuleRevision :=
  match current with
  | None => raise (ValueError ("unknown rule " +:+ rule_id))
  | Some current =>
      if negb (allowed (rr_status current) status)
      then raise (ValueError ("cannot move " +:+ rr_status current +:+ " -> " +:+ status))
      else
        i ← new_id_db "rlv";
        now ← utcnow_db;
        let row := next_revision i status actor_id now current in
        modify (set_revisions (λ l, l ++ [row]));;
        flush;;
        mret row
  end.
Definition set_status (rule_id status actor_id : string) : M db RuleRevision :=
  if negb (known_status status) then raise (ValueError ("invalid status " +:+ status))
  else
    found ← gets (latest_revision rule_id);
    current ← match found with
              | Some _ => mret found
              | None => sync_catalog_revisions;; gets (latest_revision rule_id)
              end;
    try_move rule_id status actor_id current.
Definition promote (lab : ReplayLab) (rule_id actor_id : string) (bypass_regression : bool)
    : M db RuleRevision :=
  if negb bypass_regression && negb (regression_gate lab rule_id)
  then raise (BlueTeamError "REGRESSION_GATE"
                ("Promotion blocked: no passing replay job covering " +:+ rule_id) 409)
  else set_status rule_id "promoted" actor_id.

(** ** The routes, in their session *)

Definition rule_history (rule_id : string) : M db (list RuleRevision) :=
  get_db (sync_catalog_revisions;; gets (list_history rule_id)).
Definition promote_rule (lab : ReplayLab) (rule_id actor_id : string) : M db RuleRevision :=
  get_db (sync_catalog_revisions;; promote lab rule_id actor_id false).
Definition change_status (rule_id status actor_id : string) : M db RuleRevision :=
  get_db (sync_catalog_revisions;; set_status rule_id status actor_id).
End lifecycle.

(** ** The life of a rule *)

(** The statuses a rule may go through, oldest first. *)
Inductive lifecycle : list string → Prop :=
| life_none : lifecycle []
| life_first st : known_status st = true → lifecycle [st]
| life_move l current st : lifecycle (l ++ [current]) → allowed current st = true →
    lifecycle ((l ++ [current]) ++ [st]).
(** The revisions of a rule in the order they were stored. *)
Definition history (rule_id : string) (s : db) : list RuleRevision :=
  select (λ r, rr_rule_id r =? rule_id)%string (d_revisions s).
Definition earlier (a b : RuleRevision) : Prop := instant (rr_created_at a) < instant (rr_created_at b).

(** A registry has one rule per identifier. *)
Definition one_per_id (registry : DetectionRegistry) : Prop :=
  NoDup ((λ rule, rm_rule_id (dr_meta rule)) <$> all_rules registry).

Section lifecycle_facts.
Context `{Oracle} (registry : DetectionRegistry).
Hypothesis increasing : clock_increases.
Hypothesis distinct : one_per_id registry.

Definition read_between (n n' : nat) (r : RuleRevision) : Prop :=
  ∃ k, (n ≤ k < n')%nat ∧ rr_created_at r = clock k.
Record rules_inv (s : db) : Prop := {
  ri_read : Forall (read_between 0 (n_clock (d_draws s))) (d_revisions s);
  ri_sorted : StronglySorted earlier (d_revisions s);
  ri_rule : ∀ r, r ∈ d_revisions s → ∃ rule, rule ∈ all_rules registry
              ∧ rr_rule_id r = rm_rule_id (dr_meta rule) ∧ rr_version r = rm_version (dr_meta rule);
  ri_life : ∀ rule_id, lifecycle (rr_status <$> history rule_id s);
}.

Lemma sorted_app (l l' : list RuleRevision) n n' :
  Forall (read_between 0 n) l → StronglySorted earlier l →
  Forall (read_between n n') l' → StronglySorted earlier l' → StronglySorted earlier (l ++ l').
Proof.
  intros Hl Hs Hl' Hs'. induction Hs as [|x l Hs IH Hx]; simpl; [done|].
  apply Forall_cons in Hl as [(k & Hk & Hxk) Hl]. constructor; [by apply IH|].
  apply Forall_app. split; [done|]. eapply Forall_impl; [exact Hl'|]. simpl.
  intros y (m & Hm & Hym). unfold earlier. rewrite Hxk, Hym. apply increasing. lia.
Qed.
Lemma sorted_select (p : RuleRevision → bool) l :
  StronglySorted earlier l → StronglySorted earlier (select p l).
Proof.
  unfold select. induction 1 as [|x l Hs IH Hx]; [constructor|]. rewrite filter_cons.
  case_decide; [|done]. constructor; [done|]. apply Forall_forall. intros y [_ Hy]%list_elem_of_filter.
  rewrite Forall_forall in Hx. by apply Hx.
Qed.
Lemma latest_is_last rule_id s :
  StronglySorted earlier (d_revisions s) → latest_revision rule_id s = last (history rule_id s).
Proof.
  intros Hs. unfold latest_revision, list_history. change (select _ _) with (history rule_id s).
  assert (StronglySorted earlier (history rule_id s)) as Hh by by apply sorted_select.
  destruct (history rule_id s) as [|x l _] using rev_ind; [done|]. rewrite last_snoc.
  destruct (sort_snoc_first created_desc l x) as [t ->]; [|done].
  intros y Hy. unfold created_desc, dt_le. apply Z.leb_gt.
  clear -Hh Hy. induction l as [|z l IH]; [by apply not_elem_of_nil in Hy|].
  inversion Hh as [|? ? Hh' Hz]; subst. apply elem_of_cons in Hy as [->|Hy]; [|by apply IH].
  rewrite Forall_forall in Hz. apply Hz. set_solver.
Qed.

(** *** Synchronisation with the catalogue *)

Lemma sync_fold stored rules created s :
  NoDup ((λ rule, rm_rule_id (dr_meta rule)) <$> rules) →
  ∃ new d', foldM (sync_one stored) created rules s = (Ok (created ++ new), set_draws (λ _, d') s)
    ∧ (n_clock (d_draws s) ≤ n_clock d')%nat
    ∧ Forall (read_between (n_clock (d_draws s)) (n_clock d')) new ∧ StronglySorted earlier new
    ∧ NoDup (rr_rule_id <$> new)
    ∧ ∀ r, r ∈ new → known_status (rr_status r) = true ∧ ∃ rule, rule ∈ rules
        ∧ existsb (same_revision (dr_meta rule)) stored = false
        ∧ rr_rule_id r = rm_rule_id (dr_meta rule) ∧ rr_version r = rm_version (dr_meta rule).
Proof.
  revert created s. induction rules as [|rule rules IH]; intros created s Hnd.
  { exists [], (d_draws s). rewrite app_nil_r. split_and!; [by destruct s | done | constructor..|].
    by intros r Hr%not_elem_of_nil. }
  rewrite fmap_cons in Hnd. apply NoDup_cons in Hnd as [Hni Hnd]. cbn [foldM].
  destruct (existsb (same_revision (dr_meta rule)) stored) eqn:Hex.
  - assert (sync_one stored created rule s = (Ok created, s)) as Hone by (unfold sync_one; by rewrite Hex).
    rewrite (M_bind_eval _ _ _ _ _ Hone).
    destruct (IH created s Hnd) as (new & d' & He & Hle & Hr & Hs & Hids & Hall).
    exists new, d'. split_and!; try done. intros r Hr'. destruct (Hall r Hr') as (Hk & x & Hx & Hrest).
    split; [done|]. exists x. split; [by right | done].
  - set (now := clock (n_clock (d_draws s))). set (d1 := tick (fresh_uuid (d_draws s))).
    set (row := catalog_revision ("rlv_" +:+ uuid_hex (n_uuid (d_draws s))) (dr_meta rule) now).
    assert (sync_one stored created rule s = (Ok (created ++ [row]), set_draws (λ _, d1) s)) as Hone
      by (unfold sync_one; by rewrite Hex).
    rewrite (M_bind_eval _ _ _ _ _ Hone).
    destruct (IH (created ++ [row]) (set_draws (λ _, d1) s) Hnd) as (new & d' & He & Hle & Hr & Hs & Hids & Hall).
    exists (row :: new), d'. split_and!.
    + rewrite <-app_assoc in He. exact He.
    + simpl in Hle. lia.
    + constructor; [exists (n_clock (d_draws s)); simpl in Hle; split; [lia | done]|].
      eapply Forall_impl; [exact Hr|]. intros x (k & Hk & Hxk). exists k. simpl in Hk. split; [lia | done].
    + constructor; [done|]. eapply Forall_impl; [exact Hr|]. intros x (k & Hk & Hxk).
      unfold earlier. rewrite Hxk. apply increasing. simpl in Hk. lia.
    + apply NoDup_cons. split; [|done]. simpl. intros (x & Hxe & Hx)%list_elem_of_fmap. apply Hni.
      destruct (Hall x Hx) as (_ & y & Hy & _ & Hid & _). simpl. rewrite Hxe, Hid.
      by apply (list_elem_of_fmap_2 (λ rule, rm_rule_id (dr_meta rule))).
    + intros r [->|Hr']%elem_of_cons.
      * split; [|by exists rule; split_and!; [left|..]]. simpl.
        destruct (known_status (rm_status (dr_meta rule))) eqn:Hk; done.
      * destruct (Hall r Hr') as (Hk & x & Hx & Hrest). split; [done|].
        exists x. split; [by right | done].
Qed.

(** A new revision of a rule is its first and only one. *)
Lemma fresh_revisions s new rule_id :
  rules_inv s → NoDup (rr_rule_id <$> new) →
  (∀ r, r ∈ new → known_status (rr_status r) = true ∧ ∃ rule, rule ∈ all_rules registry
     ∧ existsb (same_revision (dr_meta rule)) (d_revisions s) = false
     ∧ rr_rule_id r = rm_rule_id (dr_meta rule) ∧ rr_version r = rm_version (dr_meta rule)) →
  let fresh := select (λ r, rr_rule_id r =? rule_id)%string new in
  fresh = [] ∨ (history rule_id s = [] ∧ ∃ r, fresh = [r] ∧ known_status (rr_status r) = true).
Proof.
  intros [_ _ Hrule _] Hids Hall fresh.
  assert (∀ r, r ∈ fresh → r ∈ new ∧ rr_rule_id r = rule_id) as Hfresh.
  { intros r [Hr' Hid]%elem_of_select. by py_bool. }
  assert (NoDup (rr_rule_id <$> fresh)) as Hnd.
  { eapply sublist_NoDup; [exact Hids|]. apply fmap_sublist. unfold fresh, select. apply sublist_filter. }
  destruct fresh as [|r rest]; [by left|]. right.
  destruct (Hfresh r) as [Hr' Hid]; [by left|].
  destruct (Hall r Hr') as (Hk & x & Hx & Hno & Hxid & Hv). split.
  - apply select_nil_iff. intros y Hy. destruct (rr_rule_id y =? rule_id)%string eqn:Hyid; [|done].
    exfalso. py_bool. destruct (Hrule y Hy) as (z & Hz & Hzid & Hzv).
    assert (z = x) as -> by (eapply (NoDup_fmap_eq (λ rule, rm_rule_id (dr_meta rule)));
      [exact distinct | done | done | congruence]).
    assert (existsb (same_revision (dr_meta x)) (d_revisions s) = true); [|congruence].
    apply existsb_exists. exists y. split; [by apply list_elem_of_In|].
    unfold same_revision. by rewrite Hzid, Hzv, !String.eqb_refl.
  - destruct rest as [|r' rest]; [by exists r|]. exfalso.
    destruct (Hfresh r') as [_ Hid']; [right; by left|].
    apply NoDup_cons in Hnd as [Hni _]. apply Hni. simpl. rewrite Hid, <-Hid'. by left.
Qed.

Lemma sync_ok s :
  rules_inv s →
  ∃ created d' s', sync_catalog_revisions registry s = (Ok created, s')
    ∧ s' = flush_pending (set_revisions (λ l, l ++ created) (set_draws (λ _, d') s))
    ∧ (n_clock (d_draws s) ≤ n_clock (d_draws s'))%nat ∧ rules_inv s'
    ∧ ∀ rule_id, history rule_id s ≠ [] → history rule_id s' = history rule_id s.
Proof.
  intros Hinv. unfold sync_catalog_revisions.
  destruct (sync_fold (d_revisions s) (all_rules registry) [] s distinct)
    as (new & d' & He & Hle & Hnr & Hns & Hids & Hall).
  pose proof (λ rule_id, fresh_revisions s new rule_id Hinv Hids Hall) as Hfresh.
  exists new, d'. eexists. split.
  { unfold gets, mbind at 1, M_bind at 1. by rewrite (M_bind_eval _ _ _ _ _ He). }
  split; [done|]. split; [done|].
  assert (∀ rule_id, history rule_id (flush_pending (set_revisions (λ l, l ++ new) (set_draws (λ _, d') s)))
    = history rule_id s ++ select (λ r, rr_rule_id r =? rule_id)%string new) as Hhist.
  { intros rule_id. unfold history. simpl. apply select_app. }
  split; [|intros rule_id Hne; rewrite Hhist; destruct (Hfresh rule_id) as [->|[? _]]; [apply app_nil_r | done]].
  destruct Hinv as [Hr Hs Hrule Hlife]. split; simpl.
  - apply Forall_app. split; (eapply Forall_impl; [eassumption|]); intros x (k & Hk & Hx);
      exists k; (split; [lia | done]).
  - by eapply sorted_app.
  - intros r [Hr'|Hr']%elem_of_app; [by apply Hrule|].
    destruct (Hall r Hr') as (_ & x & Hx & _ & Hid & Hv). by exists x.
  - intros rule_id. rewrite Hhist. destruct (Hfresh rule_id) as [->|(-> & r & -> & Hk)].
    + rewrite app_nil_r. apply Hlife.
    + by apply life_first.
Qed.

(** *** Status changes *)

Lemma rules_inv_frame s s' :
  rules_inv s → d_revisions s' = d_revisions s → (n_clock (d_draws s) ≤ n_clock (d_draws s'))%nat →
  rules_inv s'.
Proof.
  intros [Hr Hs Hrule Hlife] Hrev Hle. split; rewrite ?Hrev; try done.
  - eapply Forall_impl; [exact Hr|]. intros x (k & Hk & Hx). exists k. split; [lia | done].
  - intros rule_id. unfold history. rewrite Hrev. apply Hlife.
Qed.

(** The state after the row of a status change is stored. *)
Definition after_move (row : RuleRevision) (s : db) : db :=
  flush_pending (set_revisions (λ l, l ++ [row]) (set_draws (λ _, tick (fresh_uuid (d_draws s))) s)).
Definition move_row (status actor_id : string) (current : RuleRevision) (s : db) : RuleRevision :=
  next_revision ("rlv_" +:+ uuid_hex (n_uuid (d_draws s))) status actor_id
    (clock (n_clock (d_draws s))) current.

Lemma latest_history rule_id s current :
  rules_inv s → latest_revision rule_id s = Some current →
  rr_rule_id current = rule_id ∧ current ∈ d_revisions s ∧ ∃ l, history rule_id s = l ++ [current].
Proof.
  intros Hinv Hl. rewrite (latest_is_last _ _ (ri_sorted _ Hinv)) in Hl.
  apply last_Some in Hl as [l Hl]. assert (current ∈ history rule_id s) as Hin by (rewrite Hl; set_solver).
  apply elem_of_select in Hin as [Hin Hid]. py_bool. split_and!; [done | done | by exists l].
Qed.
Lemma history_snoc rule_id row s s' :
  d_revisions s' = d_revisions s ++ [row] →
  history rule_id s' = history rule_id s ++ (if (rr_rule_id row =? rule_id)%string then [row] else []).
Proof.
  intros Hs. unfold history. rewrite Hs, select_app. f_equal. unfold select. rewrite filter_cons.
  destruct (rr_rule_id row =? rule_id)%string; [by rewrite decide_True | by rewrite decide_False].
Qed.

Lemma move_inv rule_id status actor s current :
  rules_inv s → latest_revision rule_id s = Some current → allowed (rr_status current) status = true →
  let s' := after_move (move_row status actor current s) s in
  rules_inv s' ∧ latest_revision rule_id s' = Some (move_row status actor current s).
Proof.
  intros Hinv Hl Hal s'. set (row := move_row status actor current s).
  destruct (latest_history _ _ _ Hinv Hl) as (Hid & Hin & l & Hh).
  assert (history rule_id s' = history rule_id s ++ [row]) as Hh'.
  { rewrite (history_snoc rule_id row s s' eq_refl). simpl. by rewrite Hid, String.eqb_refl. }
  destruct Hinv as [Hr Hs Hrule Hlife].
  assert (rules_inv s') as Hinv'.
  { split; simpl.
    - apply Forall_app. split.
      + eapply Forall_impl; [exact Hr|]. intros x (k & Hk & Hx). exists k. split; [lia | done].
      + apply Forall_singleton. exists (n_clock (d_draws s)). split; [lia | done].
    - eapply sorted_app; [exact Hr | done | | by repeat constructor].
      apply Forall_singleton. exists (n_clock (d_draws s)). split; [|done].
      split; [lia | apply Nat.lt_succ_diag_r].
    - intros r [Hr'| ->%list_elem_of_singleton]%elem_of_app; [by apply Hrule | by apply Hrule in Hin].
    - intros rid. destruct (String.eqb_spec rid rule_id) as [->|Hne].
      + rewrite Hh', Hh, !fmap_app. apply life_move; [|done]. pose proof (Hlife rule_id) as Hc. by rewrite Hh, fmap_app in Hc.
      + rewrite (history_snoc rid row s s' eq_refl). simpl.
        destruct (String.eqb_spec (rr_rule_id current) rid); [congruence|]. rewrite app_nil_r. apply Hlife. }
  split; [done|]. rewrite (latest_is_last _ _ (ri_sorted _ Hinv')), Hh'. apply last_snoc.
Qed.

(** A call that keeps the invariant when it returns and moves the clock forward only. *)
Definition keeps {A} (m : M db A) : Prop := ∀ s, rules_inv s →
  (n_clock (d_draws s) ≤ n_clock (d_draws (snd (m s))))%nat
  ∧ ∀ a, fst (m s) = Ok a → rules_inv (snd (m s)).
Lemma keeps_seq {A B} (m : M db A) (k : A → M db B) :
  keeps m → (∀ a, keeps (k a)) → keeps (m ≫= k).
Proof.
  intros Hm Hk s Hs. destruct (Hm s Hs) as [Hle Hok]. unfold mbind, M_bind.
  destruct (m s) as [[a|e] s1]; simpl in *; [|by split].
  destruct (Hk a s1 (Hok a eq_refl)) as [Hle' Hok']. split; [lia | done].
Qed.
Lemma keeps_same {A} (f : db → result A) : keeps (λ s, (f s, s)).
Proof. by intros s Hs. Qed.
Lemma keeps_sync : keeps (sync_catalog_revisions registry).
Proof.
  intros s Hs. destruct (sync_ok s Hs) as (created & d' & s' & -> & _ & Hle & Hinv & _). by split.
Qed.

Lemma try_move_ok rule_id status actor s :
  rules_inv s →
  let m := try_move rule_id status actor (latest_revision rule_id s) s in
  (n_clock (d_draws s) ≤ n_clock (d_draws (snd m)))%nat
  ∧ ∀ row, fst m = Ok row → rules_inv (snd m).
Proof.
  intros Hs. unfold try_move. destruct (latest_revision rule_id s) as [current|] eqn:Hl; simpl; [|by split].
  destruct (allowed _ _) eqn:Hal; simpl; [|by split].
  destruct (move_inv _ _ actor _ _ Hs Hl Hal) as [Hinv _]. split; [simpl; lia | done].
Qed.
Lemma set_status_eval rule_id status actor s :
  set_status registry rule_id status actor s =
  if negb (known_status status) then (Raise (ValueError ("invalid status " +:+ status)), s)
  else match latest_revision rule_id s with
       | Some current => try_move rule_id status actor (Some current) s
       | None =>
           match sync_catalog_revisions registry s with
           | (Ok _, s1) => try_move rule_id status actor (latest_revision rule_id s1) s1
           | (Raise e, s1) => (Raise e, s1)
           end
       end.
Proof.
  unfold set_status. destruct (negb _); [done|]. unfold gets, mbind, M_bind.
  destruct (latest_revision rule_id s); [done|]. by destruct (sync_catalog_revisions registry s) as [[?|?] ?].
Qed.
Lemma keeps_set_status rule_id status actor : keeps (set_status registry rule_id status actor).
Proof.
  intros s Hs. rewrite set_status_eval. destruct (negb _); [by split|].
  pose proof (try_move_ok rule_id status actor s Hs) as Hmove.
  destruct (latest_revision rule_id s) as [current|]; [done|].
  destruct (sync_ok s Hs) as (created & d' & s' & -> & _ & Hle & Hinv & _).
  destruct (try_move_ok rule_id status actor _ Hinv) as [Hle' Hok]. split; [simpl in *; lia | done].
Qed.
Lemma keeps_promote lab rule_id actor bypass : keeps (promote registry lab rule_id actor bypass).
Proof.
  unfold promote. destruct (_ && _); [apply (keeps_same (λ _, Raise _)) | apply keeps_set_status].
Qed.
Lemma keeps_get_db {A} (m : M db A) s : keeps m → rules_inv s → rules_inv (snd (get_db m s)).
Proof.
  intros Hm Hs. destruct (Hm s Hs) as [Hle Hok]. unfold get_db.
  destruct (m s) as [[a|e] s']; simpl in *; [|by eapply rules_inv_frame].
  by eapply rules_inv_frame; [by eapply Hok|..].
Qed.

(** What happens to the revisions: the three routes, and everything else. *)
Inductive rule_step : db → db → Prop :=
| step_history rule_id s : rule_step s (snd (rule_history registry rule_id s))
| step_promote lab rule_id actor s : rule_step s (snd (promote_rule registry lab rule_id actor s))
| step_status rule_id status actor s : rule_step s (snd (change_status registry rule_id status actor s))
| step_other s s' : d_revisions s' = d_revisions s →
    (n_clock (d_draws s) ≤ n_clock (d_draws s'))%nat → rule_step s s'.
Lemma rule_step_inv s s' : rules_inv s → rule_step s s' → rules_inv s'.
Proof.
  intros Hs Hst. destruct Hst as [rule_id s|lab rule_id actor s|rule_id status actor s|s s1 Hr Hle].
  - apply keeps_get_db; [|done]. apply keeps_seq; [apply keeps_sync | intros _; apply (keeps_same (λ s, Ok _))].
  - apply keeps_get_db; [|done]. apply keeps_seq; [apply keeps_sync | intros _; apply keeps_promote].
  - apply keeps_get_db; [|done]. apply keeps_seq; [apply keeps_sync | intros _; apply keeps_set_status].
  - by eapply rules_inv_frame.
Qed.
Definition rules_reachable (s : db) : Prop := ∃ s0, d_revisions s0 = [] ∧ rtc rule_step s0 s.
Lemma reachable_inv s : rules_reachable s → rules_inv s.
Proof.
  intros (s0 & H0 & Hst). assert (rules_inv s0) as Hi.
  { split; rewrite ?H0; [constructor | constructor | by intros r Hr%not_elem_of_nil|].
    intros rule_id. unfold history. rewrite H0. constructor. }
  clear H0. induction Hst as [s|s s1 s2 H1 _ IH]; [done|]. by apply IH, (rule_step_inv s).
Qed.

(** A rule moves only along the declared transitions: whatever requests arrive and in
    whatever order, the revisions stored for a rule start with the one the catalogue
    declares, each later status is an allowed successor of the one before, and the
    revision the service takes as current is the one stored last. *)
Theorem rule_history_lifecycle s rule_id :
  rules_reachable s →
  lifecycle (rr_status <$> history rule_id s)
  ∧ latest_revision rule_id s = last (history rule_id s).
Proof.
  intros Hr. pose proof (reachable_inv s Hr) as Hi.
  split; [apply Hi | apply latest_is_last, Hi].
Qed.

(** The regression gate guards one of two doors: for a rule in status tested that no
    passing replay job covers, the promotion route refuses and stores nothing, while the
    status route stores a promoted revision and makes it the current one. *)
Theorem status_route_skips_gate s lab rule_id actor current :
  rules_reachable s → latest_revision rule_id s = Some current → rr_status current = "tested" →
  regression_gate lab rule_id = false →
  (∃ msg s1, promote_rule registry lab rule_id actor s = (Raise (BlueTeamError "REGRESSION_GATE" msg 409), s1)
             ∧ d_revisions s1 = d_revisions s)
  ∧ ∃ row s2, change_status registry rule_id "promoted" actor s = (Ok row, s2)
              ∧ rr_status row = "promoted" ∧ latest_revision rule_id s2 = Some row.
Proof.
  intros Hr Hl Hst Hgate. pose proof (reachable_inv s Hr) as Hi.
  destruct (sync_ok s Hi) as (created & d' & s1 & Hsync & -> & _ & Hinv & Hkeep).
  set (s1 := flush_pending _) in *.
  split.
  - unfold promote_rule, get_db. rewrite (M_bind_eval _ _ _ _ _ Hsync). unfold promote. rewrite Hgate. simpl.
    by eexists _, _.
  - assert (latest_revision rule_id s1 = Some current) as Hl1.
    { rewrite (latest_is_last _ _ (ri_sorted _ Hinv)), Hkeep, <-Hl; [symmetry; apply latest_is_last, Hi|].
      destruct (latest_history _ _ _ Hi Hl) as (_ & _ & l & ->). by destruct l. }
    unfold change_status, get_db. rewrite (M_bind_eval _ _ _ _ _ Hsync), set_status_eval, Hl1. simpl.
    rewrite Hst. destruct (move_inv _ "promoted" actor _ _ Hinv Hl1) as [_ Hnew]; [by rewrite Hst|].
    eexists _, _. split; [reflexivity|]. split; [done|]. exact Hnew.
Qed.
End lifecycle_facts.

(** ** The status of a rule and its evaluation *)

(** A call that neither reads nor writes the revisions. *)
Definition blind {A} (m : M db A) : Prop := ∀ f s,
  m (set_revisions f s) = (fst (m s), set_revisions f (snd (m s))).

Lemma blind_bind {A B} (m : M db A) (k : A → M db B) : blind m → (∀ a, blind (k a)) → blind (m ≫= k).
Proof.
  intros Hm Hk f s. unfold mbind, M_bind. rewrite Hm. destruct (m s) as [[a|e] s1]; simpl; [apply Hk | done].
Qed.
Lemma blind_get {A} (k : db → M db A) :
  (∀ f s, k (set_revisions f s) = k s) → (∀ s, blind (k s)) → blind (get ≫= k).
Proof. intros Hk Hb f s. unfold mbind, M_bind, get. rewrite Hk. apply Hb. Qed.
Lemma blind_fmap {A B} (g : A → B) (m : M db A) : blind m → blind (g <$> m).
Proof. intros Hm f s. unfold fmap, M_fmap. rewrite Hm. by destruct (m s) as [[a|e] s1]. Qed.
Lemma blind_pure {A} (r : result A) : blind (λ s, (r, s)).
Proof. done. Qed.
Lemma blind_foldM {A B} (g : B → A → M db B) l b : (∀ b x, blind (g b x)) → blind (foldM g b l).
Proof.
  intros Hg. revert b. induction l as [|x l IH]; intros b; [apply blind_pure|].
  apply blind_bind; [apply Hg | intros b'; apply IH].
Qed.
Lemma blind_mapM {A B} (g : A → M db B) l : (∀ x, blind (g x)) → blind (mapM' g l).
Proof.
  intros Hg. induction l as [|x l IH]; [apply blind_pure|].
  apply blind_bind; [apply Hg|]. intros y. apply blind_bind; [apply IH | intros ys; apply blind_pure].
Qed.
Ltac blind_step :=
  match goal with
  | |- blind (get ≫= _) => apply blind_get; [intros ? ?; reflexivity | intros ?]
  | |- blind (_ ≫= _) => apply blind_bind; [|intros ?]
  | |- blind (mret ?a) => exact (blind_pure (Ok a))
  | |- blind (raise ?e) => exact (blind_pure (Raise e))
  | |- blind (lift ?r) => exact (blind_pure r)
  | |- blind (foldM _ _ _) => apply blind_foldM; intros ? ?
  | |- blind (mapM' _ _) => apply blind_mapM; intros ?
  | |- blind (match ?x with _ => _ end) => destruct x
  | |- blind (if ?x then _ else _) => destruct x
  | |- blind (modify _) => intros ? ?; reflexivity
  | |- blind flush => intros ? ?; reflexivity
  | |- blind flush_findings => intros ? ?; unfold flush_findings; cbn -[clashing]; destruct (clashing _ _); reflexivity
  | |- blind utcnow_db => intros ? ?; reflexivity
  | |- blind (new_id_db _) => intros ? ?; reflexivity
  end.

Section evaluation.
Context `{Oracle} (registry : DetectionRegistry).

Lemma blind_register t e c : blind (register_event_evidence t e c).
Proof. unfold register_event_evidence. repeat blind_step. Qed.
Lemma blind_store_one t actor acc f : blind (store_one t actor acc f).
Proof.
  unfold store_one. destruct acc. apply blind_bind; [intros ? ?; reflexivity|]. intros b.
  repeat (apply blind_register || blind_step).
Qed.
Lemma blind_drawing {A} (m : M draws A) : blind (drawing_db m).
Proof. intros f s. unfold drawing_db. simpl. by destruct (m (d_draws s)). Qed.
Lemma blind_evaluate t event ctx actor : blind (evaluate_and_store_findings registry t event ctx actor).
Proof.
  unfold evaluate_and_store_findings. repeat (apply blind_drawing || apply blind_store_one || blind_step).
Qed.

(** Disabling a rule does not disable it: evaluating an event, and the scheduled run,
    give the same answer and store the same findings, evidence and alerts whatever
    revisions and statuses the rules have. *)
Theorem rule_status_not_consulted t event actor revisions s :
  evaluate_and_store registry t event actor (set_revisions revisions s)
  = (fst (evaluate_and_store registry t event actor s),
     set_revisions revisions (snd (evaluate_and_store registry t event actor s)))
  ∧ run_scheduled registry t actor (set_revisions revisions s)
    = (fst (run_scheduled registry t actor s), set_revisions revisions (snd (run_scheduled registry t actor s))).
Proof.
  split; revert revisions s.
  - unfold evaluate_and_store. apply blind_bind; [done|]. intros ctx. apply blind_fmap, blind_evaluate.
  - unfold run_scheduled. apply blind_bind; [done|]. intros ctx. apply blind_fmap, blind_foldM.
    intros [created c] event'. apply blind_bind; [apply blind_evaluate | intros nc; blind_step].
Qed.
End evaluation.

(** ** The catalogue's brute-force rule *)

#[local] Instance demo_oracle : Oracle :=
  {| uuid_hex := λ n, str_of_nat n; clock := λ n, utc 20000 (Z.of_nat n) |}.
#[local] Instance demo_ip : IpLib := {| ipv6_private := λ _, None |}.
Definition rules_registry : DetectionRegistry := build_default_registry [].
Lemma demo_clock : clock_increases.
Proof. intros n m Hnm. unfold instant. simpl. unfold second. lia. Qed.
Lemma demo_distinct : one_per_id rules_registry.
Proof. apply (bool_decide_unpack _). vm_compute. exact I. Qed.

Definition synced_db : db := snd (rule_history rules_registry "identity.brute_force" empty_db).
Lemma synced_reachable : rules_reachable rules_registry synced_db.
Proof.
  exists empty_db. split; [done|].
  exact (rtc_once _ _ (step_history rules_registry "identity.brute_force" empty_db)).
Qed.
Definition bf_current : RuleRevision :=
  default {| rr_id := ""; rr_rule_id := ""; rr_version := ""; rr_status := ""; rr_name := "";
             rr_checksum := ""; rr_mitre_techniques := []; rr_execution := "";
             rr_created_at := utc 0 0; rr_created_by := "" |}
    (latest_revision "identity.brute_force" synced_db).

Lemma rule_history_lifecycle_witness :
  lifecycle (rr_status <$> history "identity.brute_force"
    (snd (change_status rules_registry "identity.brute_force" "disabled" "usr_1" synced_db)))
  ∧ (rr_status <$> history "identity.brute_force"
      (snd (change_status rules_registry "identity.brute_force" "disabled" "usr_1" synced_db)))
    = ["tested"; "disabled"].
Proof.
  split; [|vm_compute; reflexivity].
  refine (proj1 (rule_history_lifecycle rules_registry demo_clock demo_distinct _ "identity.brute_force" _)).
  exists empty_db. split; [done|].
  exact (rtc_l _ _ synced_db _ (step_history rules_registry "identity.brute_force" empty_db)
           (rtc_once _ _ (step_status rules_registry "identity.brute_force" "disabled" "usr_1" synced_db))).
Defined.
Lemma status_route_skips_gate_witness :
  ∃ row s2, change_status rules_registry "identity.brute_force" "promoted" "usr_1" synced_db = (Ok row, s2)
            ∧ rr_status row = "promoted" ∧ latest_revision "identity.brute_force" s2 = Some row.
Proof.
  refine (proj2 (status_route_skips_gate rules_registry demo_clock demo_distinct synced_db
    (new_lab (MkDraws 0 0)) "identity.brute_force" "usr_1" bf_current synced_reachable _ _ _)).
  - vm_compute. reflexivity.
  - vm_compute. reflexivity.
  - reflexivity.
Defined.
