(* ===== verification/Coverage.v ===== *)
(** * ATT&CK coverage and telemetry health

    Models [packages/attack-coverage/blueteam_attack/__init__.py] with the routes of
    [services/api/app/api/attack.py], and
    [packages/telemetry-health/blueteam_telemetry/__init__.py] with the route of
    [api/telemetry.py]: two reports computed from rules, events and findings. *)
From S2P Require Export Ingestion Replay ProcessTree.
Local Open Scope Z_scope.

(** ** [compute_coverage] *)

Definition technique (i name tactic : string) : string * (string * string) := (i, (name, tactic)).
Definition TECHNIQUE_CATALOGUE : list (string * (string * string)) := [
  technique "T1110" "Brute Force" "Credential Access"; technique "T1110.001" "Password Guessing" "Credential Access";
  technique "T1110.003" "Password Spraying" "Credential Access"; technique "T1078" "Valid Accounts" "Defense Evasion";
  technique "T1098" "Account Manipulation" "Persistence";
  technique "T1059" "Command and Scripting Interpreter" "Execution"; technique "T1059.001" "PowerShell" "Execution";
  technique "T1059.003" "Windows Command Shell" "Execution"; technique "T1204" "User Execution" "Execution";
  technique "T1547" "Boot or Logon Autostart Execution" "Persistence";
  technique "T1053" "Scheduled Task/Job" "Persistence";
  technique "T1047" "Windows Management Instrumentation" "Execution";
  technique "T1021" "Remote Services" "Lateral Movement"; technique "T1021.002" "SMB/Windows Admin Shares" "Lateral Movement";
  technique "T1046" "Network Service Discovery" "Discovery";
  technique "T1048" "Exfiltration Over Alternative Protocol" "Exfiltration";
  technique "T1071" "Application Layer Protocol" "Command and Control";
  technique "T1071.001" "Web Protocols" "Command and Control"; technique "T1071.004" "DNS" "Command and Control";
  technique "T1573" "Encrypted Channel" "Command and Control";
  technique "T1105" "Ingress Tool Transfer" "Command and Control"; technique "T1486" "Data Encrypted for Impact" "Impact"].
Definition TELEMETRY_TECHNIQUE_HINTS : list (string * list string) := [
  ("identity", ["T1110"; "T1110.001"; "T1110.003"; "T1078"; "T1098"]); ("authentication", ["T1110"; "T1110.003"; "T1078"]);
  ("endpoint", ["T1059"; "T1059.001"; "T1204"; "T1547"; "T1053"]); ("process", ["T1059"; "T1059.001"; "T1047"]);
  ("network", ["T1046"; "T1071"; "T1021"]); ("zeek", ["T1046"; "T1071"; "T1071.004"; "T1573"]);
  ("suricata", ["T1046"; "T1071"; "T1105"]); ("dns", ["T1071.004"]); ("http", ["T1071.001"]); ("tls", ["T1573"]);
  ("wazuh", ["T1059"; "T1547"; "T1053"])].

Record TechniqueCoverage := {
  tq_technique_id : string; tq_name : string; tq_tactic : string; tq_detections : list string;
  tq_telemetry_sources : list string; tq_finding_count : Z; tq_validated : bool; tq_coverage_score : float;
  tq_gap_severity : string; tq_gaps : list string }.
Definition new_technique (i name tactic : string) : TechniqueCoverage := {|
  tq_technique_id := i; tq_name := name; tq_tactic := tactic; tq_detections := []; tq_telemetry_sources := [];
  tq_finding_count := 0; tq_validated := false; tq_coverage_score := fl_of_Z 0; tq_gap_severity := "critical"; tq_gaps := [] |}.
(** [(rule_id, mitre_techniques, data_sources, status)] *)
Record detection_map := { dm_rule_id : string; dm_techniques : list string; dm_data_sources : list string; dm_status : string }.

(** [if x not in l: l.append(x)] *)
Definition append_new (l : list string) (x : string) : list string := if mem x l then l else l ++ [x].
Definition validates (validated_rule_ids : list string) (m : detection_map) : bool :=
  mem (dm_status m) ["tested"; "promoted"] || mem (dm_rule_id m) validated_rule_ids.
Definition note_detection (validated_rule_ids : list string) (m : detection_map) (row : TechniqueCoverage) : TechniqueCoverage := {|
  tq_technique_id := tq_technique_id row; tq_name := tq_name row; tq_tactic := tq_tactic row;
  tq_detections := append_new (tq_detections row) (dm_rule_id m);
  tq_telemetry_sources := foldl append_new (tq_telemetry_sources row) (select nonempty (dm_data_sources m));
  tq_finding_count := tq_finding_count row; tq_validated := tq_validated row || validates validated_rule_ids m;
  tq_coverage_score := tq_coverage_score row; tq_gap_severity := tq_gap_severity row; tq_gaps := tq_gaps row |}.
Definition note_technique (validated_rule_ids : list string) (by_tech : list (string * TechniqueCoverage))
    (x : detection_map * string) : list (string * TechniqueCoverage) :=
  let tech := upper x.2 in
  let row := default (new_technique tech tech "Unknown") (dget tech by_tech) in
  dset tech (note_detection validated_rule_ids x.1 row) by_tech.
Definition add_source (source_type : string) (row : TechniqueCoverage) : TechniqueCoverage := {|
  tq_technique_id := tq_technique_id row; tq_name := tq_name row; tq_tactic := tq_tactic row;
  tq_detections := tq_detections row; tq_telemetry_sources := append_new (tq_telemetry_sources row) source_type;
  tq_finding_count := tq_finding_count row; tq_validated := tq_validated row; tq_coverage_score := tq_coverage_score row;
  tq_gap_severity := tq_gap_severity row; tq_gaps := tq_gaps row |}.
Definition set_count (count : Z) (row : TechniqueCoverage) : TechniqueCoverage := {|
  tq_technique_id := tq_technique_id row; tq_name := tq_name row; tq_tactic := tq_tactic row;
  tq_detections := tq_detections row; tq_telemetry_sources := tq_telemetry_sources row; tq_finding_count := count;
  tq_validated := tq_validated row; tq_coverage_score := tq_coverage_score row; tq_gap_severity := tq_gap_severity row;
  tq_gaps := tq_gaps row |}.
(** [if tech in by_tech: ...] *)
Definition touch (tech : string) (f : TechniqueCoverage → TechniqueCoverage) (by_tech : list (string * TechniqueCoverage))
    : list (string * TechniqueCoverage) :=
  match dget tech by_tech with Some row => dset tech (f row) by_tech | None => by_tech end.
Definition note_source (by_tech : list (string * TechniqueCoverage)) (x : string * string) : list (string * TechniqueCoverage) :=
  touch x.2 (add_source x.1) by_tech.
Definition note_count (by_tech : list (string * TechniqueCoverage)) (x : string * Z) : list (string * TechniqueCoverage) :=
  touch (upper x.1) (set_count x.2) by_tech.

Definition _gap_severity (score : float) : string :=
  if fl_le (fl_of_decimal false 75 (-2)) score then "low"
  else if fl_le (fl_of_decimal false 4 (-1)) score then "medium"
  else if fl_lt (fl_of_Z 0) score then "high" else "critical".
Definition empty (l : list string) : bool := match l with [] => true | _ => false end.
(** The parts of a score. *)
Definition part (present : bool) (hundredths : Z) : float :=
  if present then fl_of_decimal false hundredths (-2) else fl_of_Z 0.
Definition score_of (detected telemetry validated found : bool) : float :=
  fl_add (fl_add (fl_add (part detected 45) (part telemetry 25)) (part validated 20)) (part found 10).
Definition graded_technique (row : TechniqueCoverage) : TechniqueCoverage :=
  let detected := negb (empty (tq_detections row)) in
  let telemetry := negb (empty (tq_telemetry_sources row)) in
  let score := score_of detected telemetry (tq_validated row) (0 <? tq_finding_count row) in {|
  tq_technique_id := tq_technique_id row; tq_name := tq_name row; tq_tactic := tq_tactic row;
  tq_detections := tq_detections row; tq_telemetry_sources := tq_telemetry_sources row;
  tq_finding_count := tq_finding_count row; tq_validated := tq_validated row; tq_coverage_score := score;
  tq_gap_severity := _gap_severity score;
  tq_gaps := (if detected then [] else ["no_detection"]) ++ (if telemetry then [] else ["no_telemetry"])
    ++ (if tq_validated row then [] else ["unvalidated"])
    ++ (if (tq_finding_count row =? 0) && detected then ["no_observed_findings"] else []) |}.
Definition by_score (a b : TechniqueCoverage) : bool :=
  if fl_eqb (tq_coverage_score a) (tq_coverage_score b) then str_le (tq_technique_id a) (tq_technique_id b)
  else fl_lt (tq_coverage_score a) (tq_coverage_score b).
Definition catalogued : list (string * TechniqueCoverage) :=
  (λ t, (t.1, new_technique t.1 t.2.1 t.2.2)) <$> TECHNIQUE_CATALOGUE.
Definition collect (detection_maps : list detection_map) (telemetry_source_types : list string)
    (finding_technique_counts : list (string * Z)) (validated_rule_ids : list string) : list (string * TechniqueCoverage) :=
  let detected := foldl (note_technique validated_rule_ids) catalogued
    (m ← detection_maps; tech ← dm_techniques m; [(m, tech)]) in
  let seen := foldl note_source detected
    (source_type ← telemetry_source_types; tech ← default [] (dget source_type TELEMETRY_TECHNIQUE_HINTS); [(source_type, tech)]) in
  foldl note_count seen finding_technique_counts.
Record Coverage := { cv_techniques : list TechniqueCoverage; cv_covered : Z; cv_gaps : Z; cv_mean : float }.
Definition compute_coverage (detection_maps : list detection_map) (telemetry_source_types : list string)
    (finding_technique_counts : list (string * Z)) (validated_rule_ids : list string) : Coverage :=
  let items := sort_by by_score (graded_technique <$>
    (collect detection_maps telemetry_source_types finding_technique_counts validated_rule_ids).*2) in {|
  cv_techniques := items;
  cv_covered := Z.of_nat (length (select (λ i, fl_le (fl_of_decimal false 4 (-1)) (tq_coverage_score i)) items));
  cv_gaps := Z.of_nat (length (select (λ i, mem (tq_gap_severity i) ["critical"; "high"]) items));
  cv_mean := fl_round 3 (fl_div (fl_sum (tq_coverage_score <$> items)) (fl_of_Z (Z.max (Z.of_nat (length items)) 1))) |}.

Definition technique_dict (i : TechniqueCoverage) : pydict := [
  ("technique_id", VStr (tq_technique_id i)); ("name", VStr (tq_name i)); ("tactic", VStr (tq_tactic i));
  ("detections", VList (VStr <$> tq_detections i)); ("telemetry_sources", VList (VStr <$> tq_telemetry_sources i));
  ("finding_count", VInt (tq_finding_count i)); ("validated", VBool (tq_validated i));
  ("coverage_score", VFloat (fl_round 2 (tq_coverage_score i))); ("gap_severity", VStr (tq_gap_severity i));
  ("gaps", VList (VStr <$> tq_gaps i))].
Definition coverage_dict (c : Coverage) : pydict := [
  ("techniques", VList ((λ i, VDict (technique_dict i)) <$> cv_techniques c));
  ("summary", VDict [("technique_count", VInt (Z.of_nat (length (cv_techniques c)))); ("covered", VInt (cv_covered c));
                     ("gaps", VInt (cv_gaps c)); ("mean_coverage", VFloat (cv_mean c))])].
Definition technique_detail (c : Coverage) (technique_id : string) : option TechniqueCoverage :=
  find_first (λ i, upper (tq_technique_id i) =? upper technique_id)%string (cv_techniques c).
Definition technique_list : list pydict :=
  (λ t, [("technique_id", VStr t.1); ("name", VStr t.2.1); ("tactic", VStr t.2.2)]) <$>
    sort_by (λ a b, str_le a.1 b.1) TECHNIQUE_CATALOGUE.

(** ** [api/attack.py] *)

(** [counter[k] += 1] *)
Definition count_key (counter : list (string * Z)) (k : string) : list (string * Z) :=
  dset k (default 0 (dget k counter) + 1) counter.
Definition detection_map_of (rule : DetectionRule) : detection_map := {|
  dm_rule_id := rm_rule_id (dr_meta rule); dm_techniques := rm_mitre_techniques (dr_meta rule);
  dm_data_sources := rm_data_sources (dr_meta rule); dm_status := rm_status (dr_meta rule) |}.
Definition _build_coverage (registry : DetectionRegistry) (tenant_id : string) (s : db) : Coverage :=
  let rules := all_rules registry in
  let validated := (λ r, rm_rule_id (dr_meta r)) <$> select (λ r, mem (rm_status (dr_meta r)) ["tested"; "promoted"]) rules in
  let events := load_window tenant_id s in
  let source_types := sorted_set ((e_source_type <$> events) ++ (e_category <$> events)) in
  let finding_counts := foldl count_key []
    (f ← list_findings tenant_id s; fr_mitre_techniques f ++ fi_mitre_techniques (fr_payload f)) in
  compute_coverage (detection_map_of <$> rules) source_types finding_counts validated.

Section attack.
Context `{Oracle} `{AuthLib} (registry : DetectionRegistry).
Definition get_catalogue : M db pydict := mret [("items", VList (VDict <$> technique_list))].
Definition coverage (actor : TenantActor) : M db pydict :=
  body ← gets (_build_coverage registry (ta_tenant_id actor));
  mret (dupdate [("tenant_id", VStr (ta_tenant_id actor))] (coverage_dict body)).
Definition get_technique (technique_id : string) (actor : TenantActor) : M db pydict :=
  body ← gets (_build_coverage registry (ta_tenant_id actor));
  match technique_detail body technique_id with
  | None => raise (BlueTeamError "NOT_FOUND" ("Technique " +:+ technique_id +:+ " not in coverage set") 404)
  | Some detail => mret (technique_dict detail)
  end.
Inductive attack_request := Catalogue | CoverageReport | OneTechnique (technique_id : string).
Definition serve_attack (h : headers) (request_id : string) (req : attack_request) : M db pydict :=
  served "detections:read" h request_id (λ actor,
    match req with
    | Catalogue => get_catalogue
    | CoverageReport => coverage actor
    | OneTechnique technique_id => get_technique technique_id actor
    end).
End attack.

(** ** Telemetry health *)

Definition EXPECTED_SOURCES : list string := ["identity"; "endpoint"; "network"; "zeek"; "suricata"; "wazuh"; "azure-ad"; "cloud"].
(** [by_source.get(source)] *)
Definition events_of_source (source : string) (events : list CanonicalEvent) : list CanonicalEvent :=
  e ← events; name ← [e_source e; e_source_type e]; if (name =? source)%string then [e] else [].
Definition latest (e : CanonicalEvent) (rows : list CanonicalEvent) : datetime := foldl dt_max (e_timestamp e) (e_timestamp <$> rows).
(** An expected source is missing, or silent for some seconds, or neither. *)
Inductive silence := Missing | Silent (age : Z).
Definition silence_of (now : datetime) (silent_seconds : Z) (events : list CanonicalEvent) (source : string) : result (option silence) :=
  match events_of_source source events with
  | [] => Ok (Some Missing)
  | e :: rows =>
      let age := total_seconds (dt_sub now (latest e rows)) in
      if fl_lt (fl_of_Z silent_seconds) age then n ← fl_trunc age; Ok (Some (Silent n)) else Ok None
  end.
Definition silent_sensor (x : string * silence) : pydict :=
  match x.2 with
  | Missing => [("source", VStr x.1); ("reason", VStr "missing_expected_data_source")]
  | Silent age => [("source", VStr x.1); ("reason", VStr "silent"); ("age_seconds", VInt age)]
  end.
Definition stale_integration (x : string * silence) : option pydict :=
  match x.2 with Missing => None | Silent age => Some [("source", VStr x.1); ("age_seconds", VInt age)] end.
Definition lag_of (lag_warn_seconds : Z) (event : CanonicalEvent) : result (option pydict) :=
  let lag := total_seconds (dt_sub (e_ingested_at event) (e_timestamp event)) in
  if fl_lt (fl_of_Z lag_warn_seconds) lag
  then n ← fl_trunc lag; Ok (Some [("event_id", VStr (e_id event)); ("lag_seconds", VInt n); ("source", VStr (e_source event))])
  else Ok None.
Definition volume_anomaly (now : datetime) (volume_window_minutes : Z) (events : list CanonicalEvent) : option pydict :=
  let window_start := dt_add now (- minutes volume_window_minutes) in
  let prior_start := dt_add window_start (- minutes volume_window_minutes) in
  let recent := Z.of_nat (length (select (λ e, dt_le window_start (e_timestamp e)) events)) in
  let prior := Z.of_nat (length (select (λ e, dt_le prior_start (e_timestamp e) && dt_lt (e_timestamp e) window_start) events)) in
  let ratio := fl_div (fl_of_Z recent) (fl_of_Z (Z.max prior 1)) in
  if (prior =? 0) then None
  else if fl_le (fl_of_Z 3) ratio || fl_le ratio (fl_of_decimal false 25 (-2))
  then Some [("recent", VInt recent); ("prior", VInt prior); ("ratio", VFloat (fl_round 3 ratio));
             ("window_minutes", VInt volume_window_minutes)]
  else None.
Definition warning (kind : string) (rest : pydict) : pydict := dupdate [("kind", VStr kind)] rest.
Definition drift_reasons (reasons : list string) : list string :=
  select (λ r, contains (lower r) "schema" || contains (lower r) "validation") reasons.
Definition warnings_of (silent : list (string * silence)) (parser_failures : Z) (lags : list pydict) (volume : option pydict)
    (drift : list string) : list pydict :=
  (warning "silent_sensor" <$> (silent_sensor <$> silent))
  ++ (if parser_failures =? 0 then [] else [warning "parser_failures" [("count", VInt parser_failures)]])
  ++ (match lags with
      | [] => []
      | _ => [warning "ingestion_lag" [("count", VInt (Z.of_nat (length lags))); ("samples", VList (VDict <$> take 5 lags))]]
      end)
  ++ (match volume with Some v => [warning "event_volume_anomaly" v] | None => [] end)
  ++ (match drift with [] => [] | _ => [warning "schema_drift" [("samples", VList (VStr <$> take 5 drift))]] end)
  ++ (warning "stale_integration" <$> omap stale_integration silent).
Definition health_status (warnings : list pydict) (silent : list (string * silence)) (parser_failures : Z) : string :=
  match warnings with
  | [] => "healthy"
  | _ => if negb (bool_decide (silent = [])) || negb (parser_failures =? 0) then "degraded" else "warn"
  end.
#[export] Instance silence_eq_dec : EqDecision silence.
Proof. solve_decision. Defined.
Definition named_silence (now : datetime) (silent_seconds : Z) (events : list CanonicalEvent) (source : string)
    : result (option (string * silence)) :=
  o ← silence_of now silent_seconds events source; Ok (match o with Some x => Some (source, x) | None => None end).
(** The silent sources, in the order they are expected. *)
Definition silent_sources (now : datetime) (silent_seconds : Z) (events : list CanonicalEvent) (expected : list string)
    : result (list (string * silence)) :=
  found ← mapM (named_silence now silent_seconds events) expected;
  Ok (omap id found).
Definition evaluate_telemetry_health (now : datetime) (events : list CanonicalEvent) (dead_letter_count : Z)
    (dead_letter_reasons : list string) (expected_sources : option (list string))
    (lag_warn_seconds silent_seconds volume_window_minutes : Z) : result pydict :=
  let expected := match expected_sources with Some (x :: l) => x :: l | _ => EXPECTED_SOURCES end in
  silent ← silent_sources now silent_seconds events expected;
  lagging ← mapM (lag_of lag_warn_seconds) events;
  let lags := omap id lagging in
  let warnings := warnings_of silent dead_letter_count lags (volume_anomaly now volume_window_minutes events)
                    (drift_reasons dead_letter_reasons) in
  Ok [("status", VStr (health_status warnings silent dead_letter_count)); ("warnings", VList (VDict <$> warnings));
      ("counts", VDict [("events", VInt (Z.of_nat (length events)));
         ("sources_seen", VList (VStr <$> sorted_set (e_source <$> events))); ("dead_letter", VInt dead_letter_count);
         ("silent_sensors", VInt (Z.of_nat (length silent))); ("lagging_events", VInt (Z.of_nat (length lags)))]);
      ("source_volume", VDict ((λ kv, (kv.1, VInt kv.2)) <$> foldl count_key [] (e_source <$> events)));
      ("note", VStr "Platform warns when required telemetry is absent or unhealthy.")].

(** *** [api/telemetry.py] *)

Definition telemetry_health `{Oracle} (actor : TenantActor) : M db pydict :=
  s ← get;
  let events := load_window (ta_tenant_id actor) s in
  let dead := list_dead_letters (ta_tenant_id actor) s in
  now ← utcnow_db;
  body ← lift (evaluate_telemetry_health now events (Z.of_nat (length dead)) (dl_reason <$> dead) None 900 3600 60);
  mret (dupdate [("tenant_id", VStr (ta_tenant_id actor))] body).
Definition serve_telemetry_health `{Oracle} `{AuthLib} (h : headers) (request_id : string) : M db pydict :=
  served "events:read" h request_id telemetry_health.

(** ** What a coverage report says *)

Definition names (m : detection_map) (t : string) : Prop := ∃ tech, tech ∈ dm_techniques m ∧ upper tech = t.
Definition hinted (x t : string) : Prop := t ∈ default [] (dget x TELEMETRY_TECHNIQUE_HINTS).

Lemma elem_of_append_new l x y : y ∈ append_new l x ↔ y ∈ l ∨ y = x.
Proof.
  unfold append_new. destruct (mem x l) eqn:E; [|set_solver]. apply mem_spec in E. set_solver.
Qed.
Lemma NoDup_append_new l x : NoDup l → NoDup (append_new l x).
Proof.
  intros Hl. unfold append_new. destruct (mem x l) eqn:E; [done|]. apply NoDup_snoc; [|done].
  intros Hx%mem_spec. by rewrite E in Hx.
Qed.
Lemma elem_of_append_all l k y : y ∈ foldl append_new l k ↔ y ∈ l ∨ y ∈ k.
Proof. revert l. induction k as [|x k IH]; intros l; simpl; [set_solver|]. rewrite IH, elem_of_append_new. set_solver. Qed.

(** What a row says after the rules of [P] and the hints of [Q] were noted. *)
Record row_says (validated_rule_ids : list string) (P : list (detection_map * string)) (Q : list (string * string)) (t : string)
    (row : TechniqueCoverage) : Prop := {
  rs_id : tq_technique_id row = t;
  rs_distinct : NoDup (tq_detections row);
  rs_detections : ∀ r, r ∈ tq_detections row ↔ ∃ x, x ∈ P ∧ upper x.2 = t ∧ dm_rule_id x.1 = r;
  rs_telemetry : ∀ s, s ∈ tq_telemetry_sources row ↔
    (∃ x, x ∈ P ∧ upper x.2 = t ∧ s ∈ dm_data_sources x.1 ∧ nonempty s = true) ∨ (s, t) ∈ Q;
  rs_validated : tq_validated row = true ↔ ∃ x, x ∈ P ∧ upper x.2 = t ∧ validates validated_rule_ids x.1 = true }.
Record table_says (validated_rule_ids : list string) (P : list (detection_map * string)) (Q : list (string * string))
    (by_tech : list (string * TechniqueCoverage)) : Prop := {
  ts_distinct : NoDup (dkeys by_tech);
  ts_keys : ∀ t, t ∈ dkeys by_tech ↔ t ∈ dkeys TECHNIQUE_CATALOGUE ∨ ∃ x, x ∈ P ∧ upper x.2 = t;
  ts_rows : ∀ t row, dget t by_tech = Some row →
    row_says validated_rule_ids P Q t row }.
Section report.
Context (validated : list string).
Abbreviation says := (row_says validated).
Abbreviation all_say := (table_says validated).
Lemma row_fresh t i name tactic : i = t → says [] [] t (new_technique i name tactic).
Proof.
  assert (∀ F : detection_map * string → Prop, (∃ x, x ∈ @nil (detection_map * string) ∧ F x) ↔ False) as Hx.
  { intros F. split; [by intros (x & ?%not_elem_of_nil & _) | done]. }
  intros ->. constructor; cbn; [done | constructor | | |]; [intros r; rewrite Hx | intros s; rewrite Hx | rewrite Hx].
  - split; [by intros ?%not_elem_of_nil | done].
  - split; [by intros ?%not_elem_of_nil | intros [[]|?%not_elem_of_nil]; done].
  - done.
Qed.
Lemma row_detected P Q t row m tech : upper tech = t → says P Q t row →
  says (P ++ [(m, tech)]) Q t (note_detection validated m row).
Proof.
  intros Ht [Hi Hn Hd Hs Hv]. assert (∀ F : detection_map * string → Prop,
    (∃ x, x ∈ P ++ [(m, tech)] ∧ upper x.2 = t ∧ F x) ↔ (∃ x, x ∈ P ∧ upper x.2 = t ∧ F x) ∨ F (m, tech)) as Hx.
  { intros F. setoid_rewrite elem_of_app. setoid_rewrite list_elem_of_singleton. split.
    - intros (x & [Hx| ->] & ? & ?); [left; by exists x | by right].
    - intros [(x & ? & ? & ?)|?]; [exists x; auto | exists (m, tech); auto]. }
  constructor; simpl; [done | by apply NoDup_append_new | intros r | intros s |].
  - rewrite elem_of_append_new, Hd, Hx. simpl. naive_solver.
  - rewrite elem_of_append_all, Hs, elem_of_select, Hx. simpl. tauto.
  - rewrite orb_true_iff, Hv, Hx. done.
Qed.
Lemma row_other P Q t row x : upper x.2 ≠ t → says P Q t row → says (P ++ [x]) Q t row.
Proof.
  intros Ht [Hi Hn Hd Hs Hv]. assert (∀ F : detection_map * string → Prop,
    (∃ y, y ∈ P ++ [x] ∧ upper y.2 = t ∧ F y) ↔ (∃ y, y ∈ P ∧ upper y.2 = t ∧ F y)) as Hx.
  { intros F. setoid_rewrite elem_of_app. setoid_rewrite list_elem_of_singleton. split; [|naive_solver].
    intros (y & [Hy| ->] & ? & ?); [by exists y | done]. }
  constructor; [done..| | |]; [intros r; by rewrite Hd, Hx | intros s; by rewrite Hs, Hx | by rewrite Hv, Hx].
Qed.
Lemma table_fresh : all_say [] [] catalogued.
Proof.
  assert (dkeys catalogued = dkeys TECHNIQUE_CATALOGUE) as Hk by (vm_compute; reflexivity).
  constructor.
  - rewrite Hk. by apply (bool_decide_unpack _); vm_compute.
  - intros t. rewrite Hk. split; [by left | intros [?|(x & ?%not_elem_of_nil & _)]; done].
  - intros t row (x & [= -> ->] & _)%dget_elem_of%list_elem_of_fmap. by apply row_fresh.
Qed.
Lemma table_detected P D x : all_say P [] D → all_say (P ++ [x]) [] (note_technique validated D x).
Proof.
  intros [Hn Hk Hr]. destruct x as [m tech]. unfold note_technique. simpl. set (t := upper tech).
  assert (∀ u, u ∈ dkeys D ∨ u = t ↔ u ∈ dkeys TECHNIQUE_CATALOGUE ∨ ∃ x, x ∈ P ++ [(m, tech)] ∧ upper x.2 = u) as Hk'.
  { intros u. rewrite Hk. setoid_rewrite elem_of_app. setoid_rewrite list_elem_of_singleton. split; [|naive_solver].
    intros [[?|(x & ? & ?)]| ->]; [by left | right; exists x; auto | right; exists (m, tech); auto]. }
  constructor.
  - by apply NoDup_dset.
  - intros u. rewrite <-Hk', dkeys_dset. case_bool_decide; set_solver.
  - intros u row. rewrite dget_dset. destruct (decide (u = t)) as [->|Hu]; [intros [= <-]|intros Hrow].
    + apply row_detected; [done|]. destruct (dget t D) as [row|] eqn:E; [by apply Hr|]. simpl.
      assert (t ∉ dkeys D) as Ht by by apply dget_None.
      destruct (row_fresh t t t "Unknown" eq_refl) as [Hi Hd Hds Hs Hv].
      assert (∀ F : detection_map * string → Prop, ¬ (∃ x, x ∈ P ∧ upper x.2 = t ∧ F x)) as Hno.
      { intros F (x & ? & ? & _). apply Ht, Hk. right. by exists x. }
      constructor; [done | done | | |]; simpl in *.
      * intros r. split; [by intros ?%not_elem_of_nil | by intros ?%Hno].
      * intros s. split; [by intros ?%not_elem_of_nil|]. by intros [?%Hno|?%not_elem_of_nil].
      * split; [done | by intros ?%Hno].
    + apply row_other; [by intros E; apply Hu | by apply Hr].
Qed.
Lemma row_sourced P Q t row s : says P Q t row → says P (Q ++ [(s, t)]) t (add_source s row).
Proof.
  intros [Hi Hn Hd Hs Hv]. constructor; try done. intros u. simpl. rewrite elem_of_append_new, Hs, elem_of_app, list_elem_of_singleton.
  naive_solver.
Qed.
Lemma row_unsourced P Q t row q : q.2 ≠ t → says P Q t row → says P (Q ++ [q]) t row.
Proof.
  intros Hq [Hi Hn Hd Hs Hv]. constructor; try done. intros u. rewrite Hs, elem_of_app, list_elem_of_singleton.
  destruct q. simpl in Hq. naive_solver.
Qed.
(** An edit of one row that is there. *)
Lemma table_touched P Q Q' D t f : all_say P Q D →
  (∀ row, says P Q t row → says P Q' t (f row)) → (∀ u row, u ≠ t → says P Q u row → says P Q' u row) →
  (t ∉ dkeys D → ∀ u row, u ∈ dkeys D → says P Q u row → says P Q' u row) →
  all_say P Q' (touch t f D).
Proof.
  intros [Hn Hk Hr] Hf Ho Hm. unfold touch. destruct (dget t D) as [row|] eqn:E.
  - assert (t ∈ dkeys D) as Ht by (apply dget_is_Some; eauto). constructor.
    + by apply NoDup_dset.
    + intros u. rewrite dkeys_dset, bool_decide_true by done. apply Hk.
    + intros u r. rewrite dget_dset. destruct (decide (u = t)) as [->|Hu]; [intros [= <-]; by apply Hf, Hr|].
      intros Hu'. by apply Ho, Hr.
  - constructor; [done..|]. intros u r Hu. apply Hm; [by apply dget_None | apply dget_is_Some; eauto | by apply Hr].
Qed.
Lemma table_sourced P Q D q : all_say P Q D → all_say P (Q ++ [q]) (note_source D q).
Proof.
  intros HD. destruct q as [s t]. unfold note_source. simpl. eapply table_touched; [exact HD|..].
  - intros row. apply row_sourced.
  - intros u row Hu. by apply row_unsourced.
  - intros Ht u row Hu. apply row_unsourced. simpl. by intros ->.
Qed.
Lemma table_counted P Q D x : all_say P Q D → all_say P Q (note_count D x).
Proof.
  intros HD. unfold note_count. eapply table_touched; [exact HD| |done|done]. intros row [Hi Hn Hd Hs Hv]. by constructor.
Qed.
Lemma table_collected maps types counts : all_say
  (m ← maps; tech ← dm_techniques m; [(m, tech)])
  (x ← types; tech ← default [] (dget x TELEMETRY_TECHNIQUE_HINTS); [(x, tech)])
  (collect maps types counts validated).
Proof.
  unfold collect. set (P := m ← maps; _). set (Q := x ← types; _).
  assert (all_say P [] (foldl (note_technique validated) catalogued P)) as H1.
  { generalize P. clear P. intros P. induction P as [|x P IH] using rev_ind; [apply table_fresh|].
    rewrite foldl_app. by apply table_detected. }
  assert (all_say P Q (foldl note_source (foldl (note_technique validated) catalogued P) Q)) as H2.
  { revert H1. generalize (foldl (note_technique validated) catalogued P). intros D HD. generalize Q. clear Q. intros Q.
    induction Q as [|q Q IH] using rev_ind; [done|]. rewrite foldl_app. by apply table_sourced. }
  revert H2. generalize (foldl note_source (foldl (note_technique validated) catalogued P) Q). intros D HD.
  induction counts as [|x counts IH] using rev_ind; [done|]. rewrite foldl_app. by apply table_counted.
Qed.
End report.
Lemma elem_of_pairs (maps : list detection_map) (t : string) (F : detection_map → Prop) :
  (∃ x, x ∈ (m ← maps; tech ← dm_techniques m; [(m, tech)]) ∧ upper x.2 = t ∧ F x.1) ↔ ∃ m, m ∈ maps ∧ names m t ∧ F m.
Proof.
  setoid_rewrite list_elem_of_bind. setoid_rewrite list_elem_of_bind. setoid_rewrite list_elem_of_singleton. unfold names.
  split; [intros (x & (m & (tech & -> & ?) & ?) & ? & ?); exists m; eauto |].
  intros (m & ? & (tech & ? & ?) & ?). exists (m, tech). simpl. split; [|done]. exists m. split; [|done]. by exists tech.
Qed.
Lemma elem_of_hints (types : list string) s t :
  (s, t) ∈ (x ← types; tech ← default [] (dget x TELEMETRY_TECHNIQUE_HINTS); [(x, tech)]) ↔ s ∈ types ∧ hinted s t.
Proof.
  rewrite list_elem_of_bind. setoid_rewrite list_elem_of_bind. setoid_rewrite list_elem_of_singleton. unfold hinted.
  split; [by intros (x & (tech & [= -> ->] & ?) & ?) | intros [Hs Ht]; exists s; split; [by exists t | done]].
Qed.
Lemma length_select_split {A} (p : A → bool) l : (length (select p l) + length (select (λ x, negb (p x)) l) = length l)%nat.
Proof.
  unfold select. induction l as [|x l IH]; [done|]. rewrite !filter_cons. destruct (p x); simpl; lia.
Qed.
Lemma empty_spec l : empty l = true ↔ l = [].
Proof. by destruct l. Qed.
Lemma score_thresholds d t v f : (v = true → d = true) →
  (fl_le (fl_of_decimal false 4 (-1)) (score_of d t v f) = d)
  ∧ ((_gap_severity (score_of d t v f) =? "critical")%string = negb (d || t || f))
  ∧ mem (_gap_severity (score_of d t v f)) ["critical"; "high"] = negb d.
Proof.
  destruct d, t, v, f; intros Hv; try discriminate (Hv eq_refl); vm_compute; auto.
Qed.

(** How the score of a row is read. *)
Definition graded (i : TechniqueCoverage) : Prop :=
  fl_le (fl_of_decimal false 4 (-1)) (tq_coverage_score i) = negb (empty (tq_detections i))
  ∧ mem (tq_gap_severity i) ["critical"; "high"] = negb (negb (empty (tq_detections i)))
  ∧ (tq_gap_severity i = "critical" ↔ tq_detections i = [] ∧ tq_telemetry_sources i = [] ∧ tq_finding_count i ≤ 0).
Lemma row_graded validated P Q t row : row_says validated P Q t row → graded (graded_technique row).
Proof.
  intros Hrow. unfold graded. cbn [graded_technique tq_coverage_score tq_detections tq_telemetry_sources tq_finding_count tq_gap_severity].
  set (d := negb (empty (tq_detections row))). set (tel := negb (empty (tq_telemetry_sources row))).
  destruct (score_thresholds d tel (tq_validated row) (0 <? tq_finding_count row)) as (H1 & H2 & H3).
  { intros (x & Hx & Ht & _)%(rs_validated _ _ _ _ _ Hrow). apply negb_true_iff, not_true_iff_false. rewrite empty_spec. intros E.
    pose proof (proj2 (rs_detections _ _ _ _ _ Hrow (dm_rule_id x.1))) as Hd. rewrite E in Hd.
    apply (not_elem_of_nil (dm_rule_id x.1)), Hd. eauto. }
  split_and!; [done..|]. rewrite <-String.eqb_eq, H2. unfold d, tel.
  rewrite negb_true_iff, !orb_false_iff, !negb_false_iff, !empty_spec, Z.ltb_ge. tauto.
Qed.

(** C38. The coverage report is about each technique of the catalogue, and each a rule names,
    exactly once. Of a technique it lists the rules that name it, whatever their case, and as
    telemetry what those rules need and what of the sources seen hints at it; it is
    validated when one of those rules is. It counts as covered exactly when a rule names
    it, as a gap otherwise, and the gap is critical when nothing at all is known of it. *)
Theorem coverage_exact maps types counts validated :
  let c := compute_coverage maps types counts validated in
  NoDup (tq_technique_id <$> cv_techniques c)
  ∧ (∀ t, t ∈ tq_technique_id <$> cv_techniques c ↔ t ∈ dkeys TECHNIQUE_CATALOGUE ∨ ∃ m, m ∈ maps ∧ names m t)
  ∧ (∀ i, i ∈ cv_techniques c → let t := tq_technique_id i in
      NoDup (tq_detections i) ∧ (∀ r, r ∈ tq_detections i ↔ ∃ m, m ∈ maps ∧ names m t ∧ dm_rule_id m = r)
      ∧ (∀ s, s ∈ tq_telemetry_sources i ↔
           (∃ m, m ∈ maps ∧ names m t ∧ s ∈ dm_data_sources m ∧ nonempty s = true) ∨ s ∈ types ∧ hinted s t)
      ∧ (tq_validated i = true ↔ ∃ m, m ∈ maps ∧ names m t ∧ validates validated m = true)
      ∧ (tq_gap_severity i = "critical" ↔ tq_detections i = [] ∧ tq_telemetry_sources i = [] ∧ tq_finding_count i ≤ 0))
  ∧ cv_covered c = Z.of_nat (length (select (λ i, negb (empty (tq_detections i))) (cv_techniques c)))
  ∧ cv_covered c + cv_gaps c = Z.of_nat (length (cv_techniques c)).
Proof.
  intros c. destruct (table_collected validated maps types counts) as [Hn Hk Hr].
  set (D := collect maps types counts validated) in *.
  assert (cv_techniques c ≡ₚ graded_technique <$> D.*2) as Hp by apply sort_by_perm.
  assert (tq_technique_id <$> (graded_technique <$> D.*2) = dkeys D) as Hids.
  { unfold dkeys. rewrite <-!list_fmap_compose. apply list_fmap_ext. intros j [t row] Hx%list_elem_of_lookup_2. simpl.
    by destruct (Hr t row (elem_of_dget _ _ _ Hn Hx)). }
  assert (∀ i, i ∈ cv_techniques c → ∃ row, i = graded_technique row ∧ row_says validated
    (m ← maps; tech ← dm_techniques m; [(m, tech)])
    (x ← types; tech ← default [] (dget x TELEMETRY_TECHNIQUE_HINTS); [(x, tech)]) (tq_technique_id i) row) as Hrows.
  { intros i. rewrite Hp. intros (row & -> & ([t row'] & -> & Hx)%list_elem_of_fmap)%list_elem_of_fmap. exists row'. split; [done|].
    assert (dget t D = Some row') as Hx' by by apply elem_of_dget. pose proof (Hr _ _ Hx') as Hrow.
    by rewrite <-(rs_id _ _ _ _ _ Hrow) in Hrow. }
  assert (∀ i, i ∈ cv_techniques c → graded i) as Hg by (intros i (row & -> & Hrow)%Hrows; by eapply row_graded).
  split_and!.
  - rewrite Hp, Hids. exact Hn.
  - intros t. rewrite Hp, Hids, Hk. split; (intros [?|Hx]; [by left|right]).
    + destruct Hx as (x & Hx & Ht). destruct (proj1 (elem_of_pairs maps t (λ _, True))) as (m & ? & ? & _); eauto.
    + destruct Hx as (m & Hm & Ht). destruct (proj2 (elem_of_pairs maps t (λ _, True))) as (x & ? & ? & _); eauto.
  - intros i Hi. destruct (Hg i Hi) as (_ & _ & Hcrit). destruct (Hrows i Hi) as (row & Ei & [Hid Hnd Hd Hs Hv]).
    set (t := tq_technique_id i) in *. rewrite Ei. cbn [graded_technique tq_detections tq_telemetry_sources tq_validated].
    split_and!; [done | | | | by rewrite Ei in Hcrit].
    + intros r. rewrite Hd. apply (elem_of_pairs maps t (λ m, dm_rule_id m = r)).
    + intros s. rewrite Hs, elem_of_hints. by rewrite (elem_of_pairs maps t (λ m, s ∈ dm_data_sources m ∧ nonempty s = true)).
    + rewrite Hv. apply (elem_of_pairs maps t (λ m, validates validated m = true)).
  - unfold c, compute_coverage. cbn [cv_covered cv_techniques]. f_equal. f_equal. apply select_ext. intros i Hi. by destruct (Hg i Hi).
  - unfold c, compute_coverage. cbn [cv_covered cv_gaps cv_techniques]. fold (cv_techniques c).
    rewrite (select_ext _ (λ i, negb (empty (tq_detections i)))) by (intros i Hi; by destruct (Hg i Hi)).
    rewrite (select_ext (λ i, mem (tq_gap_severity i) _) (λ i, negb (negb (empty (tq_detections i))))) by (intros i Hi; by destruct (Hg i Hi) as (_ & ? & _)).
    rewrite <-Nat2Z.inj_add, length_select_split. done.
Qed.
(** Counts of one technique under two spellings do not add up: the last one stays. *)
Example counts_overwritten :
  tq_finding_count <$> dget "T1059" (collect [] [] [("T1059", 3); ("t1059", 1)] []) = Some 1.
Proof. vm_compute. reflexivity. Qed.
(** Without rules nothing is covered, however much telemetry there is. *)
Example telemetry_is_no_coverage :
  let c := compute_coverage [] ["zeek"; "endpoint"] [] [] in cv_covered c = 0 ∧ cv_gaps c = 22 ∧ fl_repr (cv_mean c) = "0.102".
Proof. vm_compute. auto. Qed.
