(* ===== verification/Architecture.v ===== *)
(** * Architecture centre and metrics

    Models [packages/architecture/blueteam_architecture/__init__.py] with the routes of
    [services/api/app/api/architecture.py], and the registry of
    [packages/observability/blueteam_obs/__init__.py] with those of [api/observability.py].
    Both keep their state in a module of the process, beside the database. *)
From S2P Require Export Coverage RuleLifecycle Normalize.
Local Open Scope Z_scope.

(** ** Graphs *)

Inductive NodeKind := Zone | TrustBoundary | Asset | Identity | Control | Sensor | Dependency.
#[export] Instance node_kind_eq_dec : EqDecision NodeKind.
Proof. solve_decision. Defined.
Definition node_kind_str (k : NodeKind) : string :=
  match k with
  | Zone => "zone" | TrustBoundary => "trust_boundary" | Asset => "asset" | Identity => "identity" | Control => "control"
  | Sensor => "sensor" | Dependency => "dependency"
  end.
Record ArchNode := { an_id : string; an_kind : NodeKind; an_name : string; an_attributes : pydict }.
Record ArchEdge := { ae_source : string; ae_target : string; ae_relation : string; ae_attributes : pydict }.
Record ArchitectureGraph := {
  ag_graph_id : string; ag_tenant_id : string; ag_version : Z; ag_nodes : list ArchNode; ag_edges : list ArchEdge;
  ag_created_at : string }.
Definition arch_dict (g : ArchitectureGraph) : pydict := [
  ("graph_id", VStr (ag_graph_id g)); ("tenant_id", VStr (ag_tenant_id g)); ("version", VInt (ag_version g));
  ("created_at", VStr (ag_created_at g));
  ("nodes", VList ((λ n, VDict [("id", VStr (an_id n)); ("kind", VStr (node_kind_str (an_kind n))); ("name", VStr (an_name n));
                                ("attributes", VDict (an_attributes n))]) <$> ag_nodes g));
  ("edges", VList ((λ e, VDict [("source", VStr (ae_source e)); ("target", VStr (ae_target e));
                                ("relation", VStr (ae_relation e)); ("attributes", VDict (ae_attributes e))]) <$> ag_edges g))].
Definition node (i : string) (k : NodeKind) (name : string) (attributes : pydict) : ArchNode :=
  {| an_id := i; an_kind := k; an_name := name; an_attributes := attributes |}.
Definition edge_to (s t relation : string) : ArchEdge :=
  {| ae_source := s; ae_target := t; ae_relation := relation; ae_attributes := [] |}.
Definition lab_nodes : list ArchNode := [
  node "zone_corp" Zone "Corporate" []; node "zone_dmz" Zone "DMZ" []; node "tb_edge" TrustBoundary "Internet edge" [];
  node "asset_dc" Asset "dc-01" [("criticality", VStr "critical")]; node "id_alice" Identity "alice" [];
  node "ctrl_mfa" Control "MFA" [("coverage", VList [VStr "T1078"])];
  node "sensor_zeek" Sensor "Zeek" [("telemetry", VList [VStr "network"; VStr "dns"])];
  node "sensor_wazuh" Sensor "Wazuh" [("telemetry", VList [VStr "endpoint"])]; node "dep_idp" Dependency "IdP" []].
Definition lab_edges : list ArchEdge := [
  edge_to "zone_corp" "tb_edge" "bounded_by"; edge_to "zone_dmz" "tb_edge" "bounded_by";
  edge_to "asset_dc" "zone_corp" "resides_in"; edge_to "id_alice" "asset_dc" "authenticates_to";
  edge_to "ctrl_mfa" "id_alice" "protects"; edge_to "sensor_zeek" "zone_dmz" "monitors";
  edge_to "sensor_wazuh" "asset_dc" "monitors"; edge_to "dep_idp" "id_alice" "provides"].
Definition default_lab_architecture `{Oracle} (tenant_id : string) : M db ArchitectureGraph :=
  i ← new_id_db "arch";
  now ← utcnow_db;
  mret {| ag_graph_id := i; ag_tenant_id := tenant_id; ag_version := 1; ag_nodes := lab_nodes; ag_edges := lab_edges;
          ag_created_at := isoformat now |}.

(** [for tech in node.attributes.get("coverage") or []], of strings. *)
Fixpoint uncovered (name : string) (covered : list string) (techs : list pyval) : result (list pydict) :=
  match techs with
  | [] => Ok []
  | tech :: rest =>
      t ← str_of "upper" tech;
      gaps ← uncovered name covered rest;
      Ok (if mem (upper t) covered then gaps
          else [("control", VStr name); ("technique", VStr t); ("gap", VStr "control_without_detection")] :: gaps)
  end.
Definition node_gaps (covered : list string) (n : ArchNode) : result (list pydict) :=
  if negb (bool_decide (an_kind n = Control)) then Ok []
  else techs ← iterate (vor (dgetv "coverage" (an_attributes n)) (VList [])); uncovered (an_name n) covered techs.
Definition sensors_of (g : ArchitectureGraph) : list string :=
  an_name <$> select (λ n, bool_decide (an_kind n = Sensor)) (ag_nodes g).
Definition detection_gaps (g : ArchitectureGraph) (covered_techniques : list string) : result (list pydict) :=
  gaps ← mapM (node_gaps (upper <$> covered_techniques)) (ag_nodes g);
  Ok (concat gaps ++ (if mem "Zeek" (sensors_of g) then [] else [[("gap", VStr "missing_network_sensor")]])).

(** ** The store *)

Definition ArchitectureStore : Type := list (string * list ArchitectureGraph).
Definition at_version (v : Z) (g : ArchitectureGraph) : ArchitectureGraph := {|
  ag_graph_id := ag_graph_id g; ag_tenant_id := ag_tenant_id g; ag_version := v; ag_nodes := ag_nodes g;
  ag_edges := ag_edges g; ag_created_at := ag_created_at g |}.
Definition versions_of (tenant_id : string) (st : ArchitectureStore) : list ArchitectureGraph := default [] (dget tenant_id st).
Definition save_graph (g : ArchitectureGraph) : M ArchitectureStore ArchitectureGraph := λ st,
  let versions := versions_of (ag_tenant_id g) st in
  let g := at_version (Z.of_nat (length versions) + 1) g in
  (Ok g, dset (ag_tenant_id g) (versions ++ [g]) st).
Definition latest_graph (tenant_id : string) (st : ArchitectureStore) : option ArchitectureGraph := last (versions_of tenant_id st).
Definition graph_history (tenant_id : string) (st : ArchitectureStore) : list ArchitectureGraph := versions_of tenant_id st.

Section architecture_routes.
Context `{Oracle} `{AuthLib} (registry : DetectionRegistry).
(** [STORE.save(default_lab_architecture(tenant))] *)
Definition seed_lab (tenant_id : string) : M (process ArchitectureStore) ArchitectureGraph :=
  g ← on_db (default_lab_architecture tenant_id); on_module (save_graph g).
Definition latest_or_seed (tenant_id : string) : M (process ArchitectureStore) ArchitectureGraph :=
  p ← get;
  match latest_graph tenant_id (pr_module p) with Some g => mret g | None => seed_lab tenant_id end.
Definition get_architecture (actor : TenantActor) : M (process ArchitectureStore) pydict :=
  arch_dict <$> latest_or_seed (ta_tenant_id actor).
Definition seed_architecture (actor : TenantActor) (request_id : string) : M (process ArchitectureStore) pydict :=
  g ← seed_lab (ta_tenant_id actor);
  on_db (audit_user actor request_id "architecture.seed" "architecture" (Some (ag_graph_id g))
           (Some [("version", VInt (ag_version g))]));;
  mret (arch_dict g).
Definition detected (t : TechniqueCoverage) : bool := match tq_detections t with [] => false | _ => true end.
Definition architecture_gaps (actor : TenantActor) : M (process ArchitectureStore) pydict :=
  g ← latest_or_seed (ta_tenant_id actor);
  let coverage := compute_coverage (detection_map_of <$> all_rules registry) [] [] [] in
  gaps ← lift (detection_gaps g (tq_technique_id <$> select detected (cv_techniques coverage)));
  mret [("graph_id", VStr (ag_graph_id g)); ("version", VInt (ag_version g)); ("gaps", VList (VDict <$> gaps));
        ("count", VInt (Z.of_nat (length gaps)))].
Definition list_versions (actor : TenantActor) : M (process ArchitectureStore) pydict :=
  p ← get;
  let items := arch_dict <$> graph_history (ta_tenant_id actor) (pr_module p) in
  mret [("items", VList (VDict <$> items)); ("count", VInt (Z.of_nat (length items)))].
Inductive architecture_request := GetArchitecture | SeedArchitecture | ArchitectureGaps | ListVersions.
Definition serve_architecture (h : headers) (request_id : string) (req : architecture_request)
    : M (process ArchitectureStore) pydict :=
  in_session (
    actor ← on_db (require (match req with SeedArchitecture => "detections:write" | _ => "detections:read" end) h request_id);
    match req with
    | GetArchitecture => get_architecture actor
    | SeedArchitecture => seed_architecture actor request_id
    | ArchitectureGaps => architecture_gaps actor
    | ListVersions => list_versions actor
    end).
End architecture_routes.

(** ** Metrics *)

Record MetricsRegistry := {
  mt_counters : list (string * float); mt_gauges : pydict; mt_timings : list (string * list float) }.
Definition METRICS : MetricsRegistry := {| mt_counters := []; mt_gauges := []; mt_timings := [] |}.
Definition incr (name : string) (value : float) (m : MetricsRegistry) : MetricsRegistry := {|
  mt_counters := dset name (fl_add (default (fl_of_Z 0) (dget name (mt_counters m))) value) (mt_counters m);
  mt_gauges := mt_gauges m; mt_timings := mt_timings m |}.
Definition gauge (name : string) (value : pyval) (m : MetricsRegistry) : MetricsRegistry := {|
  mt_counters := mt_counters m; mt_gauges := dset name value (mt_gauges m); mt_timings := mt_timings m |}.
Definition observe (name : string) (secs : float) (m : MetricsRegistry) : MetricsRegistry := {|
  mt_counters := mt_counters m; mt_gauges := mt_gauges m;
  mt_timings := dset name (default [] (dget name (mt_timings m)) ++ [secs]) (mt_timings m) |}.
Definition by_metric {A} (l : list (string * A)) : list (string * A) := sort_by (λ a b, str_le a.1 b.1) l.
Definition average (samples : list float) : float := fl_div (fl_sum samples) (fl_of_Z (Z.of_nat (length samples))).
Definition counter_values (m : MetricsRegistry) : pydict := (λ kv, (kv.1, VFloat kv.2)) <$> mt_counters m.
Definition as_prometheus (m : MetricsRegistry) : string :=
  let simple kind (kv : string * pyval) := ["# TYPE " +:+ kv.1 +:+ " " +:+ kind; kv.1 +:+ " " +:+ py_str kv.2] in
  let timing (kv : string * list float) :=
    match kv.2 with
    | [] => []
    | samples => ["# TYPE " +:+ kv.1 +:+ "_avg gauge"; kv.1 +:+ "_avg " +:+ fl_repr (average samples);
                  "# TYPE " +:+ kv.1 +:+ "_count counter"; kv.1 +:+ "_count " +:+ str_of_nat (length samples)]
    end in
  join (String (chr 10) "") (
    ["# HELP btos_info Blue Team OS control-plane metrics"; "# TYPE btos_info gauge"; "btos_info 1"]
    ++ (by_metric (counter_values m) ≫= simple "counter") ++ (by_metric (mt_gauges m) ≫= simple "gauge")
    ++ (by_metric (mt_timings m) ≫= timing)) +:+ String (chr 10) "".
Definition snapshot (m : MetricsRegistry) : pydict := [
  ("counters", VDict (counter_values m)); ("gauges", VDict (mt_gauges m));
  ("timings", VDict ((λ kv, (kv.1, VDict [
     ("count", VInt (Z.of_nat (length kv.2)));
     ("avg", match kv.2 with [] => VInt 0 | samples => VFloat (average samples) end)])) <$> mt_timings m))].
Section metric_routes.
Context `{Oracle} `{AuthLib}.
Definition prometheus_metrics (h : headers) (request_id : string) : M (process MetricsRegistry) string :=
  in_session (on_db (require "quality:read" h request_id);;
    on_module (modify (gauge "btos_up" (VInt 1)));; p ← get; mret (as_prometheus (pr_module p))).
Definition observability_snapshot (h : headers) (request_id : string) : M (process MetricsRegistry) pydict :=
  in_session (on_db (require "quality:read" h request_id);; p ← get; mret (snapshot (pr_module p))).
End metric_routes.

(** ** Versions *)

Definition numbered (t : string) (gs : list ArchitectureGraph) : Prop :=
  ∀ i g, gs !! i = Some g → ag_version g = Z.of_nat i + 1 ∧ ag_tenant_id g = t.
Definition store_sound (st : ArchitectureStore) : Prop := ∀ t, numbered t (versions_of t st).
Definition grows_store (st st' : ArchitectureStore) : Prop :=
  store_sound st → store_sound st' ∧ ∀ t, versions_of t st `prefix_of` versions_of t st'.
#[local] Instance grows_store_preorder : PreOrder grows_store.
Proof.
  split; [intros st Hs; split; [exact Hs | intros t; reflexivity]|]. intros a b c Hab Hbc Ha. destruct (Hab Ha) as [Hb H1]. destruct (Hbc Hb) as [Hc H2].
  split; [done|]. intros t. etrans; [apply H1 | apply H2].
Qed.
Lemma versions_of_dset t t' gs st : versions_of t (dset t' gs st) = if decide (t = t') then gs else versions_of t st.
Proof. unfold versions_of. rewrite dget_dset. by destruct (decide (t = t')). Qed.
Lemma grows_save g : keeps grows_store (save_graph g).
Proof.
  intros st Hs. unfold save_graph. cbn [snd]. cbv zeta.
  change (ag_tenant_id (at_version _ g)) with (ag_tenant_id g). split.
  - intros t. rewrite versions_of_dset. destruct (decide (t = ag_tenant_id g)) as [->|]; [|apply Hs].
    intros i x [Hx|[Hi Hx]]%lookup_app_Some; [by apply Hs|].
    apply list_lookup_singleton_Some in Hx as [Hi0 <-]. cbn. split; [lia | done].
  - intros t. rewrite versions_of_dset. destruct (decide (t = ag_tenant_id g)) as [->|]; [|done]. by eexists.
Qed.
Ltac store_step :=
  match goal with
  | |- keeps _ (on_db _) => apply module_on_db, _
  | |- keeps _ (on_module (save_graph _)) => apply module_on_module, grows_save
  | |- _ => keeps_step
  end.
Lemma grows_seed `{Oracle} t : keeps (module_keeps grows_store) (seed_lab t).
Proof. unfold seed_lab. repeat store_step. Qed.
Lemma grows_latest `{Oracle} t : keeps (module_keeps grows_store) (latest_or_seed t).
Proof. unfold latest_or_seed. repeat first [apply grows_seed | store_step]. Qed.
(** Whatever requests arrive, and whether they succeed, the graphs a tenant has are
    versions one, two and so on, all of them the tenant's, and none is lost or replaced. *)
Theorem architecture_versions `{Oracle} `{AuthLib} registry h rid req p r p' :
  serve_architecture registry h rid req p = (r, p') → store_sound (pr_module p) →
  store_sound (pr_module p') ∧ ∀ t, versions_of t (pr_module p) `prefix_of` versions_of t (pr_module p').
Proof.
  intros He. assert (keeps (module_keeps grows_store) (serve_architecture registry h rid req)) as Hk.
  { apply module_session; try apply _. unfold get_architecture, seed_architecture, architecture_gaps, list_versions.
    repeat first [apply grows_seed | apply grows_latest | store_step]. }
  specialize (Hk p). rewrite He in Hk. exact Hk.
Qed.
