(* ===== verification/Improve.v ===== *)
(** * Self-improvement

    Models [packages/self-improvement/blueteam_improve/{engine,metrics}.py], the routes of
    [services/api/app/api/improve.py] and those of [api/replay.py]: candidates for the
    improvement of rules, replayed in the lab and judged by it. Engine and lab are objects of
    the process beside the database, shared by all tenants. *)
From S2P Require Export RuleLifecycle Coverage.
Local Open Scope Z_scope.

(** ** The engine *)

Inductive CandidateStatus := Proposed | Replayed | Approved | Rejected | Promoted.
Definition candidate_status_str (s : CandidateStatus) : string :=
  match s with
  | Proposed => "proposed" | Replayed => "replayed" | Approved => "approved" | Rejected => "rejected" | Promoted => "promoted"
  end.
Record ImprovementCandidate := {
  ic_candidate_id : string; ic_rule_id : string; ic_rationale : string; ic_status : CandidateStatus; ic_metrics : pydict;
  ic_created_at : string; ic_ai_suggested : bool; ic_replay_job_id : option string }.
Definition may_auto_promote (policy_allows : bool) : bool := policy_allows.
Definition candidate_dict (c : ImprovementCandidate) : pydict := [
  ("candidate_id", VStr (ic_candidate_id c)); ("rule_id", VStr (ic_rule_id c)); ("rationale", VStr (ic_rationale c));
  ("status", VStr (candidate_status_str (ic_status c))); ("metrics", VDict (ic_metrics c));
  ("created_at", VStr (ic_created_at c)); ("ai_suggested", VBool (ic_ai_suggested c));
  ("replay_job_id", vostr (ic_replay_job_id c)); ("may_auto_promote", VBool (may_auto_promote false))].
Definition engine : Type := list (string * ImprovementCandidate).
Definition new_candidate (i created_at rule_id rationale : string) (metrics : pydict) (ai_suggested : bool) : ImprovementCandidate := {|
  ic_candidate_id := i; ic_rule_id := rule_id; ic_rationale := rationale; ic_status := Proposed; ic_metrics := metrics;
  ic_created_at := created_at; ic_ai_suggested := ai_suggested; ic_replay_job_id := None |}.
Definition with_status (status : CandidateStatus) (replay_job_id : option string) (c : ImprovementCandidate) : ImprovementCandidate := {|
  ic_candidate_id := ic_candidate_id c; ic_rule_id := ic_rule_id c; ic_rationale := ic_rationale c; ic_status := status;
  ic_metrics := ic_metrics c; ic_created_at := ic_created_at c; ic_ai_suggested := ic_ai_suggested c;
  ic_replay_job_id := if otrue replay_job_id then replay_job_id else ic_replay_job_id c |}.
Definition is_promoted (status : CandidateStatus) : bool := match status with Promoted => true | _ => false end.
(** [ImprovementEngine.set_status] *)
Definition set_candidate_status (candidate_id : string) (status : CandidateStatus) (replay_job_id : option string)
    : M engine ImprovementCandidate := λ e,
  match dget candidate_id e with
  | None => (Raise (KeyError candidate_id), e)
  | Some row =>
      if is_promoted status && ic_ai_suggested row && negb (may_auto_promote false)
      then (Raise (PermissionError "AI-suggested candidates cannot promote directly"), e)
      else let row := with_status status replay_job_id row in (Ok row, dset candidate_id row e)
  end.

(** *** [analyse_findings] *)

Record LanguageMetric := {
  lm_language : string; lm_artefact_id : string; lm_true_positives : Z; lm_false_positives : Z; lm_replay_score : option float }.
Definition language_metric_dict (m : LanguageMetric) : pydict := [
  ("language", VStr (lm_language m)); ("artefact_id", VStr (lm_artefact_id m)); ("true_positives", VInt (lm_true_positives m));
  ("false_positives", VInt (lm_false_positives m));
  ("replay_score", match lm_replay_score m with Some f => VFloat f | None => VNone end)].
Definition findings_by_rule (findings : list pydict) : list (string * Z) :=
  foldl count_key [] ((λ item, py_str (dgetv "rule_id" item)) <$> findings).
Definition revision_names (revisions : list pydict) : list (string * Z) :=
  foldl count_key [] ((λ rev, py_str (vor (dgetv "name" rev) (dgetv "rule_id" rev))) <$> revisions).
Definition noisy_rules (by_rule : list (string * Z)) : list pydict :=
  (λ kv, [("rule_id", VStr kv.1); ("count", VInt kv.2)]) <$> select (λ kv, 20 <=? kv.2) by_rule.
Definition duplicate_rules (names : list (string * Z)) : list pydict :=
  (λ kv, [("name", VStr kv.1); ("revisions", VInt kv.2)]) <$> select (λ kv, 3 <? kv.2) names.
Definition analyse_findings (findings revisions : list pydict) : pydict :=
  let by_rule := findings_by_rule findings in [
  ("finding_counts", VDict ((λ kv, (kv.1, VInt kv.2)) <$> by_rule)); ("noisy_rules", VList (VDict <$> noisy_rules by_rule));
  ("duplicate_rules", VList (VDict <$> duplicate_rules (revision_names revisions)));
  ("language_metrics", VList ((λ kv, VDict (language_metric_dict {|
     lm_language := "python"; lm_artefact_id := kv.1; lm_true_positives := kv.2; lm_false_positives := 0;
     lm_replay_score := None |})) <$> take 20 by_rule))].

(** ** The workshop: engine and lab *)

Record workshop := { ws_lab : ReplayLab; ws_engine : engine }.
Definition on_lab {A} (m : M ReplayLab A) : M workshop A := λ w,
  let (r, l) := m (ws_lab w) in (r, {| ws_lab := l; ws_engine := ws_engine w |}).
Definition on_engine {A} (m : M engine A) : M workshop A := λ w,
  let (r, e) := m (ws_engine w) in (r, {| ws_lab := ws_lab w; ws_engine := e |}).

Section workshop.
Context `{Oracle} `{AuthLib} `{ScenarioFiles} (registry : DetectionRegistry).

(** The first dataset, or one of all scenarios when there is none. *)
Definition some_dataset : M ReplayLab ReplayDataset :=
  l ← get;
  match rl_datasets l with
  | [] => register_dataset "auto-improve" "."
  | (_, dataset) :: _ => mret dataset
  end.
(** A candidate is replayed, and judged by the job. *)
Definition replay_and_judge (candidate_id : string) : M workshop (ReplayJob * ImprovementCandidate) :=
  w ← get;
  match dget candidate_id (ws_engine w) with
  | None => raise (BlueTeamError "NOT_FOUND" "Candidate not found" 404)
  | Some _ =>
      dataset ← on_lab some_dataset;
      job ← on_lab (run_job (ds_dataset_id dataset) registry None "current");
      updated ← on_engine (set_candidate_status candidate_id (if rj_passed job then Replayed else Rejected) (Some (rj_job_id job)));
      mret (job, updated)
  end.

(** *** [api/replay.py] *)

Definition dataset_dict (d : ReplayDataset) : pydict := [
  ("dataset_id", VStr (ds_dataset_id d)); ("name", VStr (ds_name d)); ("path", VStr (path_str (ds_path d)));
  ("checksum", VStr (ds_checksum d)); ("scenario_ids", VList (VStr <$> ds_scenario_ids d))].
Definition assertion_dict (a : DetectionAssertion) : pydict := [
  ("rule_id", VStr (da_rule_id a)); ("expected_min", VInt (da_expected_min a)); ("observed", VInt (da_observed a));
  ("passed", VBool (da_passed a))].
Definition range_result_dict (r : RangeResult) : pydict := [
  ("scenario_id", VStr (rr_scenario_id r)); ("passed", VBool (rr_passed r)); ("latency_seconds", VFloat (rr_latency_seconds r));
  ("errors", VList (VStr <$> rr_errors r)); ("assertions", VList ((λ a, VDict (assertion_dict a)) <$> rr_assertions r))].
Definition comparison_dict (c : Comparison) : pydict := [
  ("current_passed", VInt (cm_current_passed c)); ("candidate_passed", VInt (cm_candidate_passed c));
  ("current_latency", VFloat (cm_current_latency c)); ("candidate_latency", VFloat (cm_candidate_latency c));
  ("regressions", VList (VStr <$> cm_regressions c))].
Definition job_dict (j : ReplayJob) : pydict := [
  ("job_id", VStr (rj_job_id j)); ("dataset_id", VStr (rj_dataset_id j)); ("mode", VStr (rj_mode j)); ("passed", VBool (rj_passed j));
  ("started_at", VStr (rj_started_at j)); ("finished_at", VStr (rj_finished_at j));
  ("latency_seconds", VFloat (rj_latency_seconds j)); ("results", VList ((λ r, VDict (range_result_dict r)) <$> rj_results j));
  ("comparison", match rj_comparison j with Some c => VDict (comparison_dict c) | None => VNone end);
  ("rule_ids", VList (VStr <$> rj_rule_ids j))].
Definition item_list {A} (f : A → pydict) (items : list A) : pydict := [
  ("items", VList ((λ i, VDict (f i)) <$> items)); ("count", VInt (Z.of_nat (length items)))].
Definition post_dataset (name relative_path : string) (actor : TenantActor) (request_id : string) : M (process workshop) pydict :=
  dataset ← on_module (on_lab (register_dataset name relative_path));
  on_db (audit_user actor request_id "replay.dataset.register" "replay_dataset" (Some (ds_dataset_id dataset))
           (Some (dataset_dict dataset)));;
  mret (dataset_dict dataset).
Definition post_job (dataset_id mode : string) (actor : TenantActor) (request_id : string) : M (process workshop) pydict :=
  job ← on_module (on_lab (run_job dataset_id registry None mode));
  on_db (write_audit {|
    b_tenant_id := Some (ta_tenant_id actor); b_actor_type := "user"; b_actor_id := actor_user actor; b_request_id := request_id;
    b_action := "replay.job.run"; b_target_type := "replay_job"; b_target_id := Some (rj_job_id job); b_reason := None;
    b_policy_decision := None; b_approval_status := None; b_before_state := None;
    b_after_state := Some [("passed", VBool (rj_passed job)); ("mode", VStr (rj_mode job))];
    b_result := if rj_passed job then "success" else "denied" |});;
  mret (job_dict job).
Definition get_job (job_id : string) : M (process workshop) pydict :=
  p ← get;
  match dget job_id (rl_jobs (ws_lab (pr_module p))) with
  | None => raise (BlueTeamError "NOT_FOUND" ("Replay job " +:+ job_id +:+ " not found") 404)
  | Some job => mret (job_dict job)
  end.

(** *** [api/improve.py] *)

Record CandidateBody := { cb_rule_id : string; cb_rationale : string; cb_ai_suggested : bool; cb_metrics : pydict }.
Definition create_candidate (body : CandidateBody) (actor : TenantActor) (request_id : string) : M (process workshop) pydict :=
  i ← on_db (new_id_db "imp");
  now ← on_db utcnow_db;
  let row := new_candidate i (isoformat now) (cb_rule_id body) (cb_rationale body) (cb_metrics body) (cb_ai_suggested body) in
  on_module (on_engine (modify (dset i row)));;
  on_db (audit_user actor request_id "improve.candidate.create" "improvement" (Some i) (Some (candidate_dict row)));;
  mret (candidate_dict row).
Definition replay_candidate (candidate_id : string) (actor : TenantActor) (request_id : string) : M (process workshop) pydict :=
  '(job, updated) ← on_module (replay_and_judge candidate_id);
  on_db (audit_user actor request_id "improve.candidate.replay" "improvement" (Some candidate_id)
           (Some [("passed", VBool (rj_passed job)); ("job_id", VStr (rj_job_id job))]));;
  mret [("candidate", VDict (candidate_dict updated)); ("job", VDict (job_dict job))].
Definition revision_dict (r : RuleRevision) : pydict := [
  ("rule_id", VStr (rr_rule_id r)); ("name", VStr (rr_name r)); ("status", VStr (rr_status r))].
Definition of_kind (kinds : list string) (v : pyval) : bool :=
  match v with
  | VDict w => match dget "kind" w with Some (VStr kind) => mem kind kinds | _ => false end
  | _ => false
  end.
Definition analytics (actor : TenantActor) : M db pydict :=
  let tenant_id := ta_tenant_id actor in
  sync_catalog_revisions registry;;
  s ← get;
  let findings := (λ row, [("rule_id", VStr (fr_rule_id row))]) <$> list_findings tenant_id s in
  let revisions := (rule ← all_rules registry; revision_dict <$> list_history (rm_rule_id (dr_meta rule)) s) in
  let perf := analyse_findings findings revisions in
  let coverage := compute_coverage (detection_map_of <$> all_rules registry)
                    (sorted_set (e_source_type <$> load_window tenant_id s)) [] [] in
  let attack_gaps := take 20 (select (λ i, mem (tq_gap_severity i) ["critical"; "high"]) (cv_techniques coverage)) in
  now ← utcnow_db;
  telem ← lift (evaluate_telemetry_health now (load_window tenant_id s) 0 [] None 900 3600 60);
  let warnings := match dgetv "warnings" telem with VList l => l | _ => [] end in
  mret [("performance", VDict perf); ("attack_gaps", VList ((λ i, VDict (technique_dict i)) <$> attack_gaps));
        ("telemetry_gaps", VList (select (of_kind ["silent_sensor"; "missing_expected_data_source"]) warnings));
        ("promotion_policy", VDict [("ai_may_auto_promote", VBool false)])].

(** *** Requests *)

Inductive workshop_request :=
  | PostDataset (name relative_path : string) | ListDatasets | PostJob (dataset_id mode : string) | ListJobs | GetJob (job_id : string)
  | Analytics | CreateCandidate (body : CandidateBody) | ListCandidates | ReplayCandidate (candidate_id : string).
Definition workshop_permission (req : workshop_request) : string :=
  match req with
  | PostDataset _ _ | PostJob _ _ | ReplayCandidate _ => "blue_range:execute"
  | CreateCandidate _ => "detections:write"
  | ListDatasets | ListJobs | GetJob _ | Analytics | ListCandidates => "detections:read"
  end.
Definition workshop_handler (req : workshop_request) (actor : TenantActor) (request_id : string) : M (process workshop) pydict :=
  match req with
  | PostDataset name relative_path => post_dataset name relative_path actor request_id
  | ListDatasets => p ← get; mret (item_list dataset_dict (rl_datasets (ws_lab (pr_module p))).*2)
  | PostJob dataset_id mode => post_job dataset_id mode actor request_id
  | ListJobs => p ← get; mret (item_list job_dict (rl_jobs (ws_lab (pr_module p))).*2)
  | GetJob job_id => get_job job_id
  | Analytics => on_db (analytics actor)
  | CreateCandidate body => create_candidate body actor request_id
  | ListCandidates => p ← get; mret (item_list candidate_dict (ws_engine (pr_module p)).*2)
  | ReplayCandidate candidate_id => replay_candidate candidate_id actor request_id
  end.
Definition serve_workshop (h : headers) (request_id : string) (req : workshop_request) : M (process workshop) pydict :=
  in_session (actor ← on_db (require (workshop_permission req) h request_id); workshop_handler req actor request_id).
End workshop.

(** ** Verdicts *)

(** A candidate is as its last replay left it. *)
Definition judged (lab : ReplayLab) (c : ImprovementCandidate) : Prop :=
  match ic_status c with
  | Proposed => ic_replay_job_id c = None
  | Replayed => ∃ i job, ic_replay_job_id c = Some i ∧ dget i (rl_jobs lab) = Some job ∧ rj_passed job = true
  | Rejected => ∃ i job, ic_replay_job_id c = Some i ∧ dget i (rl_jobs lab) = Some job ∧ rj_passed job = false
  | Approved | Promoted => False
  end.
Section verdicts.
Context `{o : Oracle} {laws : OracleLaws o} `{ScenarioFiles}.

Record workshop_sound (w : workshop) : Prop := {
  wo_lab : lab_inv (ws_lab w);
  wo_ids : ∀ i c, dget i (ws_engine w) = Some c → ic_candidate_id c = i;
  wo_judged : ∀ i c, dget i (ws_engine w) = Some c → judged (ws_lab w) c }.
(** Jobs are never lost nor changed. *)
Definition lab_grows (l l' : ReplayLab) : Prop :=
  lab_inv l → lab_inv l' ∧ ∀ i j, dget i (rl_jobs l) = Some j → dget i (rl_jobs l') = Some j.
#[local] Instance lab_grows_preorder : PreOrder lab_grows.
Proof.
  split; [by intros l Hl|]. intros a b c Hab Hbc Ha. destruct (Hab Ha) as [Hb H1]. destruct (Hbc Hb) as [Hc H2]. split; [done|]. auto.
Qed.
Definition keeps_verdicts (w w' : workshop) : Prop := workshop_sound w → workshop_sound w'.
#[local] Instance keeps_verdicts_preorder : PreOrder keeps_verdicts.
Proof. split; [intros w Hw; exact Hw|]. intros a b c Hab Hbc Ha. by apply Hbc, Hab. Qed.
Lemma judged_grows l l' c : (∀ i j, dget i (rl_jobs l) = Some j → dget i (rl_jobs l') = Some j) → judged l c → judged l' c.
Proof. intros Hj. unfold judged. destruct (ic_status c); try done; intros (i & job & ? & ? & ?); exists i, job; auto. Qed.

Lemma M_bind_fails {S A B} (m : M S A) (f : A → M S B) s e s1 : m s = (Raise e, s1) → (m ≫= f) s = (Raise e, s1).
Proof. unfold mbind, M_bind. by intros ->. Qed.
Lemma grows_drawing {A} (m : M draws A) : forward m → keeps lab_grows (drawing m).
Proof.
  intros Hf l Hl. destruct (keeps_lab_drawing (λ _, True) m Hf (λ _ _ _ _, I) l Hl) as [Hi _]. split; [done|].
  unfold drawing. by destruct (m (rl_draws l)).
Qed.
Lemma grows_record (job : string → ReplayJob) : (∀ i, rj_job_id (job i) = i ∧ job_honest (job i)) →
  keeps lab_grows (i ← drawing (new_id_d "rpl"); modify (record_job (job i));; mret (job i)).
Proof.
  intros Hjob l Hl. destruct (keeps_lab_record job Hjob l Hl) as [Hi _]. split; [done|]. intros i j Hj.
  change (dget i (dset (rj_job_id (job ("rpl_" +:+ uuid_hex (n_uuid (rl_draws l))))) (job ("rpl_" +:+ uuid_hex (n_uuid (rl_draws l)))) (rl_jobs l)) = Some j).
  rewrite (proj1 (Hjob _)), dget_dset_ne; [done|]. intros ->.
  destruct (lv_ids _ Hl _ (proj1 (dget_is_Some _ _) (ex_intro _ _ Hj))) as (n & Hn & He).
  injection He as He%uuid_hex_inj. lia.
Qed.
Lemma grows_run dataset_id current mode : Forall RuleSound (all_rules current) →
  keeps lab_grows (run_job dataset_id current None mode).
Proof.
  intros Hcur. unfold run_job. apply keeps_get_bind. intros l0.
  destruct (dget dataset_id (rl_datasets l0)) as [ds|]; [|exact (keeps_pure _ (Raise _))].
  assert (forward utcnow_d) as Hnow by (intros d; simpl; lia).
  apply (keeps_bind _); [by apply grows_drawing|]. intros started.
  apply (keeps_bind _); [exact (keeps_pure _ _)|]. intros scenarios. intros l Hl.
  (* the results are honest, so what follows is judged on its own *)
  destruct (keeps_lab_scenarios current scenarios Hcur l Hl) as [Hi Hh].
  assert (keeps lab_grows (drawing (mapM' (run_scenario current) scenarios))) as Hg.
  { apply grows_drawing, forward_mapM. intros x. by apply forward_scenario. }
  specialize (Hg l Hl).
  destruct (drawing (mapM' (run_scenario current) scenarios) l) as [[res|e] l1] eqn:El; simpl in Hi, Hh, Hg;
    [rewrite (M_bind_eval _ _ _ _ _ El) | rewrite (M_bind_fails _ _ _ _ _ El); exact Hg].
  destruct Hg as [Hl1 Hg]. specialize (Hh res eq_refl).
  rewrite (M_bind_eval (mret None : M ReplayLab (option (list RangeResult))) _ l1 None l1 eq_refl).
  destruct (judge res None mode) as [[results comparison] passed] eqn:Hj.
  apply judge_passed in Hj as [[->|?] Hp]; [|done].
  assert (keeps lab_grows (finished ← drawing utcnow_d; i ← drawing (new_id_d "rpl");
    let job := {| rj_job_id := i; rj_dataset_id := dataset_id; rj_mode := mode; rj_passed := passed;
      rj_started_at := isoformat started; rj_finished_at := isoformat finished;
      rj_latency_seconds := total_seconds (dt_sub finished started); rj_results := res; rj_comparison := comparison;
      rj_rule_ids := covered_rules res |} in modify (record_job job);; mret job)) as Hend.
  { apply (keeps_bind _); [by apply grows_drawing|]. intros finished. apply (grows_record (λ i, {| rj_job_id := i |})).
    intros i. split; [done|]. unfold job_honest. simpl. split_and!; [by apply Hh | done | done]. }
  destruct (Hend l1 Hl1) as [Hl2 Hg2]. split; [exact Hl2|]. intros i j Hj. by apply Hg2, Hg.
Qed.
Lemma run_stored dataset_id current mode l job l' : run_job dataset_id current None mode l = (Ok job, l') →
  dget (rj_job_id job) (rl_jobs l') = Some job.
Proof.
  unfold run_job. intros E. inv_bind E. destruct (dget dataset_id (rl_datasets a)) as [ds|]; [|done].
  inv_bind E. inv_bind E. inv_bind E. inv_bind E. destruct (judge a2 a3 mode) as [[results comparison] passed].
  inv_bind E. inv_bind E. inv_bind E. injection Ha6 as _ <-. injection E as <- <-. simpl. apply dget_dset_eq.
Qed.

Lemma grows_register name relative : keeps lab_grows (register_dataset name relative).
Proof.
  unfold register_dataset. repeat match goal with
  | |- keeps _ (drawing _) => apply grows_drawing; intros d; simpl; lia
  | |- keeps _ (modify _) => intros l Hl; destruct Hl; by split
  | |- _ => keeps_step
  end.
Qed.
Lemma grows_dataset : keeps lab_grows some_dataset.
Proof. unfold some_dataset. repeat (keeps_step || apply grows_register). Qed.

Lemma sound_on_lab {A} (m : M ReplayLab A) : keeps lab_grows m → keeps keeps_verdicts (on_lab m).
Proof.
  intros Hm w [Hl Hi Hj]. unfold on_lab. specialize (Hm (ws_lab w) Hl). destruct (m (ws_lab w)) as [r l].
  destruct Hm as [Hl' Hg]. constructor; simpl; [done | done|]. intros i c Hc. eapply judged_grows; [exact Hg | by eapply Hj].
Qed.
Lemma on_lab_ok {A} (m : M ReplayLab A) w a w' : on_lab m w = (Ok a, w') →
  m (ws_lab w) = (Ok a, ws_lab w') ∧ ws_engine w' = ws_engine w.
Proof. unfold on_lab. destruct (m (ws_lab w)) as [r l]. by intros [= -> <-]. Qed.
Lemma sound_judged registry candidate_id : Forall RuleSound (all_rules registry) →
  keeps keeps_verdicts (replay_and_judge registry candidate_id).
Proof.
  intros Hr w Hw. unfold replay_and_judge. rewrite (M_bind_eval get _ w w w eq_refl).
  destruct (dget candidate_id (ws_engine w)) as [c|] eqn:Ec; [|exact Hw].
  pose proof (sound_on_lab _ grows_dataset w Hw) as Hw1.
  destruct (on_lab some_dataset w) as [[ds|e] w1] eqn:E1; [rewrite (M_bind_eval _ _ _ _ _ E1) | by rewrite (M_bind_fails _ _ _ _ _ E1)].
  apply on_lab_ok in E1 as [_ He1]. simpl in Hw1.
  pose proof (sound_on_lab _ (grows_run (ds_dataset_id ds) registry "current" Hr) w1 Hw1) as Hw2.
  destruct (on_lab (run_job _ registry None "current") w1) as [[job|e] w2] eqn:E2;
    [rewrite (M_bind_eval _ _ _ _ _ E2) | by rewrite (M_bind_fails _ _ _ _ _ E2)].
  apply on_lab_ok in E2 as [Hjob%run_stored He2]. simpl in Hw2. destruct Hw2 as [Hl Hi Hj].
  assert (dget candidate_id (ws_engine w2) = Some c) as Ec2 by by rewrite He2, He1.
  set (status := if rj_passed job then Replayed else Rejected).
  assert (on_engine (set_candidate_status candidate_id status (Some (rj_job_id job))) w2
    = (Ok (with_status status (Some (rj_job_id job)) c),
       {| ws_lab := ws_lab w2; ws_engine := dset candidate_id (with_status status (Some (rj_job_id job)) c) (ws_engine w2) |})) as E3.
  { unfold on_engine, set_candidate_status. rewrite Ec2. subst status. by destruct (rj_passed job). }
  rewrite (M_bind_eval _ _ _ _ _ E3). constructor; simpl; [done|..]; intros i c'; rewrite dget_dset; case_decide as Hid; [|by apply Hi| |by apply Hj].
  - intros [= <-]. simpl. rewrite Hid. by apply Hi.
  - intros [= <-]. assert (otrue (Some (rj_job_id job)) = true) as Ho.
    { destruct (lv_ids _ Hl _ (proj1 (dget_is_Some _ _) (ex_intro _ _ Hjob))) as (n & _ & ->). done. }
    unfold judged. simpl in Ho |- *. rewrite Ho. subst status.
    destruct (rj_passed job) eqn:Ep; exists (rj_job_id job), job; by rewrite Hjob.
Qed.

(** Every request leaves the verdicts sound. *)
Lemma sound_created i row e : ic_candidate_id row = i → ic_status row = Proposed → ic_replay_job_id row = None →
  ∀ w, workshop_sound w → ws_engine w = e → workshop_sound {| ws_lab := ws_lab w; ws_engine := dset i row e |}.
Proof.
  intros Hid Hs Hn w [Hl Hi Hj] <-. constructor; simpl; [done|..]; intros j c; rewrite dget_dset; case_decide as Hij; try (by apply Hi); try (by apply Hj).
  - intros [= <-]. by rewrite Hid.
  - intros [= <-]. unfold judged. by rewrite Hs.
Qed.
Context `{AuthLib} (registry : DetectionRegistry) (registry_sound : Forall RuleSound (all_rules registry)).
Lemma sound_handler req actor rid : keeps (module_keeps keeps_verdicts) (workshop_handler registry req actor rid).
Proof.
  destruct req; cbn [workshop_handler]; unfold post_dataset, post_job, get_job, create_candidate, replay_candidate;
    repeat match goal with
    | |- keeps _ (on_db _) => apply module_on_db, _
    | |- keeps _ (on_module (on_lab (register_dataset _ _))) => apply module_on_module, sound_on_lab, grows_register
    | |- keeps _ (on_module (on_lab (run_job _ _ _ _))) => apply module_on_module, sound_on_lab, grows_run, registry_sound
    | |- keeps _ (on_module (replay_and_judge _ _)) => apply module_on_module, sound_judged, registry_sound
    | |- keeps _ (on_module (on_engine (modify _))) => apply module_on_module; intros w Hw; by apply sound_created
    | |- _ => keeps_step
    end.
Qed.
Lemma sound_served h rid req : keeps (module_keeps keeps_verdicts) (serve_workshop registry h rid req).
Proof.
  apply module_session; try apply _. apply (keeps_bind _); [apply module_on_db, _ | intros actor; apply sound_handler].
Qed.
Inductive requested : process workshop → process workshop → Prop :=
| workshop_served h rid req p : requested p (snd (serve_workshop registry h rid req p)).

(** Only the analytics touch the revisions of the rules. *)
Definition same_revisions (s s' : db) : Prop := d_revisions s' = d_revisions s.
Definition process_revisions (p p' : process workshop) : Prop := same_revisions (pr_db p) (pr_db p').
#[local] Instance same_revisions_preorder : PreOrder same_revisions.
Proof. split; [done|]. unfold same_revisions. intros a b c. congruence. Qed.
#[local] Instance process_revisions_preorder : PreOrder process_revisions.
Proof. split; [done|]. unfold process_revisions. intros a b c. by etrans. Qed.
Lemma revisions_on_db {A} (m : M db A) : keeps same_revisions m → keeps process_revisions (on_db m).
Proof. intros Hm p. unfold on_db, process_revisions. specialize (Hm (pr_db p)). by destruct (m (pr_db p)). Qed.
Lemma revisions_on_module {A} (m : M workshop A) : keeps process_revisions (on_module m).
Proof. intros p. unfold on_module, process_revisions. by destruct (m (pr_module p)). Qed.
Lemma revisions_audit b : keeps same_revisions (write_audit b).
Proof.
  unfold write_audit. repeat match goal with
  | |- keeps _ (add_unique _ _ _ _) => intros s; unfold add_unique, same_revisions; by case_match
  | |- keeps _ utcnow_db => by intros s
  | |- keeps _ (new_id_db _) => by intros s
  | |- _ => keeps_step
  end.
Qed.
Lemma revisions_kept req actor rid : req ≠ Analytics → keeps process_revisions (workshop_handler registry req actor rid).
Proof.
  intros Hreq. destruct req; cbn [workshop_handler]; try done; unfold post_dataset, post_job, get_job, create_candidate, replay_candidate;
    repeat match goal with
    | |- keeps _ (on_db (write_audit _)) => apply revisions_on_db, revisions_audit
    | |- keeps _ (on_db (audit_user _ _ _ _ _ _)) => apply revisions_on_db, revisions_audit
    | |- keeps _ (on_db utcnow_db) => apply revisions_on_db; by intros s
    | |- keeps _ (on_db (new_id_db _)) => apply revisions_on_db; by intros s
    | |- keeps _ (on_module _) => apply revisions_on_module
    | |- _ => keeps_step
    end.
Qed.
Definition fresh_workshop (d : draws) : workshop := {| ws_lab := new_lab d; ws_engine := [] |}.
Lemma fresh_workshop_sound d : workshop_sound (fresh_workshop d).
Proof. constructor; [apply new_lab_inv | done | done]. Qed.

(** C35. After any sequence of requests each candidate is as its last replay left it:
    proposed and never replayed, or replayed or rejected by a job that is still in the lab
    and did pass, or did not. None was ever approved or promoted. Each request that succeeds
    is by an actor with its permission; none but the analytics, which register the catalogue,
    changes a revision of a rule; and one that fails leaves no trace in the database. *)
Theorem improvement_never_promotes d p p' : pr_module p = fresh_workshop d → rtc requested p p' →
  (∀ i c, dget i (ws_engine (pr_module p')) = Some c → ic_candidate_id c = i ∧ judged (ws_lab (pr_module p')) c)
  ∧ ∀ h rid req,
      (∀ a p2, serve_workshop registry h rid req p' = (Ok a, p2) → ∃ actor,
         authorised h (pr_db p') (ta_tenant_id actor) (workshop_permission req) (ta_actor actor)
         ∧ (req ≠ Analytics → d_revisions (pr_db p2) = d_revisions (pr_db p')))
      ∧ (∀ e p2, serve_workshop registry h rid req p' = (Raise e, p2) →
           pr_db p2 = set_draws (λ _, d_draws (pr_db p2)) (pr_db p')).
Proof.
  intros Hp Hst. assert (workshop_sound (pr_module p')) as [Hl Hi Hj].
  { assert (workshop_sound (pr_module p)) as Hs by (rewrite Hp; apply fresh_workshop_sound). clear Hp.
    induction Hst as [|p1 p2 p3 [h rid req p0] _ IH]; [done|]. apply IH. by apply sound_served. }
  split; [by split; [apply Hi | eapply Hj]|]. intros h rid req. split.
  - intros a p2 (p1 & E & Hdb & _)%session_ok. inv_bind E. apply on_db_ok in Ha as [(Hs & Hauth & _)%require_ok _].
    exists a0. split; [done|]. intros Hreq. rewrite Hdb. change (d_revisions (pr_db p1) = d_revisions (pr_db p')).
    pose proof (revisions_kept req a0 rid Hreq s) as Hk. rewrite E in Hk. unfold process_revisions, same_revisions in Hk. simpl in Hk.
    by rewrite Hk, Hs.
  - intros e p2. apply session_raise.
Qed.
End verdicts.

(** ** A concrete candidate *)

#[local] Instance demo_oracle : Oracle :=
  {| uuid_hex := λ n, str_of_nat n; clock := λ n, utc 20000 (Z.of_nat n) |}.
#[local] Instance demo_laws : OracleLaws demo_oracle.
Proof. constructor. intros a b Hab. apply str_of_Z_inj in Hab. lia. Defined.
#[local] Instance demo_auth : AuthLib := {|
  jwt_encode := λ _, "t"; bcrypt_check := λ _ _, true;
  jwt_decode := λ t, if (t =? "t")%string then Some [("sub", VStr "usr_1")] else None |}.
#[local] Instance demo_files : ScenarioFiles := {|
  scenario_root := ["range"]; resolve_under := λ rel, if (rel =? ".")%string then ["range"] else ["range"; rel];
  path_exists := λ _, true; path_is_dir := λ _, true; load_scenarios := λ p, Ok [echo_scenario 2] |}.
Definition workshop_db : db := set_memberships (λ _, [{|
  me_id := "mem_1"; me_tenant_id := "ten_a"; me_user_id := "usr_1"; me_role_key := "detection_engineer" |}]) Access.demo_db.
Definition demo_candidate : CandidateBody := {|
  cb_rule_id := "demo.echo"; cb_rationale := "noisy"; cb_ai_suggested := true; cb_metrics := [] |}.
Definition workshop0 : process workshop := {| pr_db := workshop_db; pr_module := fresh_workshop (MkDraws 0 0) |}.
Definition workshop1 : process workshop :=
  snd (serve_workshop echo_registry (demo_headers None) "req_1" (CreateCandidate demo_candidate) workshop0).
Definition workshop2 : process workshop :=
  snd (serve_workshop echo_registry (demo_headers None) "req_2" (ReplayCandidate "imp_0") workshop1).
(** A suggestion is replayed; what it is analysed from counts the rules that are noisy. *)
Example candidate_replayed : (λ c, (candidate_status_str (ic_status c), ic_replay_job_id c)) <$> (dget "imp_0" (ws_engine (pr_module workshop2)))
  = Some ("replayed", Some "rpl_3").
Proof. vm_compute. reflexivity. Qed.
Local Strategy expand [workshop1 workshop2].
Lemma workshop_step1 : requested echo_registry workshop0 workshop1.
Proof. unfold workshop1. apply workshop_served. Qed.
Lemma workshop_step2 : requested echo_registry workshop1 workshop2.
Proof. unfold workshop2. apply workshop_served. Qed.
Lemma workshop_steps : rtc (requested echo_registry) workshop0 workshop2.
Proof. eapply rtc_l; [exact workshop_step1 | apply rtc_once, workshop_step2]. Qed.
Lemma improvement_never_promotes_witness : ∃ c, dget "imp_0" (ws_engine (pr_module workshop2)) = Some c
  ∧ judged (ws_lab (pr_module workshop2)) c.
Proof.
  pose proof candidate_replayed as Hc. destruct (dget "imp_0" (ws_engine (pr_module workshop2))) as [c|] eqn:E; [|discriminate Hc].
  exists c. split; [reflexivity|].
  exact (proj2 (proj1 (improvement_never_promotes echo_registry (proj2 (Forall_singleton _ _) echo_sound) (MkDraws 0 0)
    workshop0 workshop2 eq_refl workshop_steps) "imp_0" c E)).
Defined.
