(* ===== verification/Connectors.v ===== *)
(** * Connectors

    Models [packages/connectors/blueteam_connectors/__init__.py] (Wazuh: health, inventory,
    alerts, endpoint actions), [packages/cloud-adapters/blueteam_cloud/__init__.py] (the
    fixture of Azure AD) and the routes of [services/api/app/api/connectors.py], over the
    ingestion service and its adapters. *)
From S2P Require Export IngestAdapters Hunting.
Local Open Scope Z_scope.

(** ** Wazuh *)

Record ConnectorHealth := {
  ch_connector_id : string; ch_name : string; ch_status : string; ch_agents_total : Z; ch_agents_active : Z;
  ch_last_event_at : option string; ch_details : pydict }.
Definition health_dict (h : ConnectorHealth) : pydict := [
  ("connector_id", VStr (ch_connector_id h)); ("name", VStr (ch_name h)); ("status", VStr (ch_status h));
  ("agents_total", VInt (ch_agents_total h)); ("agents_active", VInt (ch_agents_active h));
  ("last_event_at", ostrv (ch_last_event_at h)); ("details", VDict (ch_details h))].
Record EndpointActionRequest := { aq_action : string; aq_agent_id : string; aq_params : pydict; aq_dry_run : bool }.
Record EndpointActionResult := {
  ax_action_id : string; ax_action : string; ax_agent_id : string; ax_status : string; ax_policy : string;
  ax_message : string; ax_outputs : pydict }.
Definition action_dict (r : EndpointActionResult) : pydict := [
  ("action_id", VStr (ax_action_id r)); ("action", VStr (ax_action r)); ("agent_id", VStr (ax_agent_id r));
  ("status", VStr (ax_status r)); ("policy", VStr (ax_policy r)); ("message", VStr (ax_message r));
  ("outputs", VDict (ax_outputs r))].
Definition BLOCKED_ACTIONS : list string := ["isolate_host"; "kill_process"; "wipe_disk"; "disable_account"; "block_ip"].
Definition READ_ONLY_ACTIONS : list string := ["collect_processes"; "collect_logs"; "agent_status"; "list_agents"].

Definition wazuh_rule (event : CanonicalEvent) : pyval := dgetv "wazuh_rule_id" (e_attributes event).
(** The negation of the loops' [continue]. *)
Definition of_wazuh (event : CanonicalEvent) : bool := (e_source event =? "wazuh")%string || vtrue (wazuh_rule event).
Record agent_row := {
  ag_agent_id : string; ag_name : string; ag_status : string; ag_last_seen : string; ag_event_count : Z; ag_alerts : Z }.
Definition agent_dict (r : agent_row) : pydict := [
  ("agent_id", VStr (ag_agent_id r)); ("name", VStr (ag_name r)); ("status", VStr (ag_status r));
  ("last_seen", VStr (ag_last_seen r)); ("event_count", VInt (ag_event_count r)); ("alerts", VInt (ag_alerts r))].
Definition agent_of (event : CanonicalEvent) : string :=
  ostr (oor (oor (h ← e_host event; h_id h) (host_name event)) (Some "unknown")).
Definition alerting (event : CanonicalEvent) : result bool :=
  n ← py_int (vor (wazuh_rule event) (VInt 0));
  Ok (negb (n =? 0) || mem (severity_str (e_severity event)) ["high"; "critical"]).
Definition note_agent (by_agent : list (string * agent_row)) (event : CanonicalEvent)
    : result (list (string * agent_row)) :=
  if negb (of_wazuh event) then Ok by_agent
  else
    let agent_id := agent_of event in
    let agent_name := ostr (oor (host_name event) (Some agent_id)) in
    let row := default {| ag_agent_id := agent_id; ag_name := agent_name; ag_status := "active";
                          ag_last_seen := isoformat (e_timestamp event); ag_event_count := 0; ag_alerts := 0 |}
                 (dget agent_id by_agent) in
    alert ← alerting event;
    Ok (dset agent_id {| ag_agent_id := ag_agent_id row; ag_name := ag_name row; ag_status := ag_status row;
                         ag_last_seen := isoformat (e_timestamp event); ag_event_count := ag_event_count row + 1;
                         ag_alerts := if alert : bool then ag_alerts row + 1 else ag_alerts row |} by_agent).
Fixpoint note_agents (by_agent : list (string * agent_row)) (events : list CanonicalEvent)
    : result (list (string * agent_row)) :=
  match events with
  | [] => Ok by_agent
  | event :: rest => rows ← note_agent by_agent event; note_agents rows rest
  end.
Definition by_agent_name (a b : agent_row) : bool := str_le (ag_name a) (ag_name b).
Definition wazuh_inventory (events : list CanonicalEvent) : result (list agent_row) :=
  by_agent ← note_agents [] events;
  Ok (sort_by by_agent_name by_agent.*2).
(** [max(timestamps, default=None)] *)
Definition latest_of (l : list datetime) : option datetime :=
  match l with [] => None | t :: rest => Some (foldl (λ m x, if dt_lt m x then x else m) t rest) end.
Definition wazuh_health (events : list CanonicalEvent) : result ConnectorHealth :=
  let wazuh_events := select of_wazuh events in
  agents ← wazuh_inventory events;
  Ok {| ch_connector_id := "wazuh"; ch_name := "Wazuh";
        ch_status := match wazuh_events with [] => "awaiting_telemetry" | _ => "healthy" end;
        ch_agents_total := Z.of_nat (length agents);
        ch_agents_active := Z.of_nat (length (select (λ r, ag_status r =? "active")%string agents));
        ch_last_event_at := isoformat <$> latest_of (e_timestamp <$> wazuh_events);
        ch_details := [("events_seen", VInt (Z.of_nat (length wazuh_events)))] |}.
Definition alert_item (event : CanonicalEvent) : pydict := [
  ("event_id", VStr (e_id event)); ("timestamp", VStr (isoformat (e_timestamp event))); ("host", vostr (host_name event));
  ("rule_id", wazuh_rule event); ("action", vostr (e_action event)); ("severity", VStr (severity_str (e_severity event)));
  ("user", vostr (user_name event))].
Definition wazuh_alerts (events : list CanonicalEvent) : list pydict := alert_item <$> select of_wazuh events.

Definition normalize_alert `{Oracle} `{IsoLib} `{Pydantic} (raw : pydict) (tenant_id : string) : M draws Draft :=
  normalize_wazuh (setdefault "source" (VStr "wazuh") raw) tenant_id.

Section endpoint_actions.
Context `{Oracle}.
Definition action_result (request : EndpointActionRequest) (action_id status policy message : string) (outputs : pydict)
    : EndpointActionResult := {|
  ax_action_id := action_id; ax_action := aq_action request; ax_agent_id := aq_agent_id request; ax_status := status;
  ax_policy := policy; ax_message := message; ax_outputs := outputs |}.
Definition request_action (request : EndpointActionRequest) : M db EndpointActionResult :=
  action_id ← new_id_db "wxa";
  if mem (aq_action request) BLOCKED_ACTIONS then
    mret (action_result request action_id "denied" "REQUIRE_POLICY_ENGINE"
            "High-impact endpoint actions require the policy engine; connector refuses direct execution." [])
  else if negb (mem (aq_action request) READ_ONLY_ACTIONS) then
    raise (BlueTeamError "UNSUPPORTED_ACTION" ("Unknown endpoint action " +:+ aq_action request) 422)
  else if negb (aq_dry_run request) then
    mret (action_result request action_id "awaiting_approval" "REQUIRE_APPROVAL"
            "Live endpoint actions are not executed by the connector without broker/policy approval." [])
  else
    now ← utcnow_db;
    mret (action_result request action_id "planned" "ALLOW_DRY_RUN" "Dry-run accepted."
            [("planned_at", VStr (isoformat now)); ("params", VDict (aq_params request))]).
End endpoint_actions.

(** ** Azure AD *)

Record CloudInventory := {
  ci_identities : list pydict; ci_assets : list pydict; ci_risky_configs : list pydict; ci_privileged_ops : list pydict }.
Definition RISKY_CONFIGS : list pydict := [
  [("id", VStr "cfg_public_storage"); ("asset", VStr "stg-logs-prod"); ("issue", VStr "public_blob_container");
   ("severity", VStr "high"); ("mitre", VList [VStr "T1190"])];
  [("id", VStr "cfg_admin_no_mfa"); ("asset", VStr "role-global-admin"); ("issue", VStr "privileged_role_without_mfa");
   ("severity", VStr "critical"); ("mitre", VList [VStr "T1078"])]].
Definition exposed (item : pydict) : bool :=
  match dget_or "issue" (VStr "") item with VStr issue => contains issue "public" | _ => false end.
Definition cloud_dict (c : CloudInventory) : pydict :=
  let items l := VList (VDict <$> l) in [
  ("identities", items (ci_identities c)); ("assets", items (ci_assets c)); ("risky_configs", items (ci_risky_configs c));
  ("privileged_ops", items (ci_privileged_ops c)); ("public_exposure", items (select exposed (ci_risky_configs c)))].
Definition privileged_op (event : CanonicalEvent) : bool :=
  match dgetv "privileged" (e_attributes event) with VStr "true" => true | _ => false end
  || (e_event_type event =? "privilege_change")%string.
Definition note_identity (d : list (string * pydict)) (event : CanonicalEvent) : list (string * pydict) :=
  match e_user event with
  | Some u => if otrue (u_name u) then
      dset (ostr (u_name u)) [("id", VStr (ostr (oor (u_id u) (u_name u)))); ("name", VStr (ostr (u_name u)));
                              ("source", VStr "azure-ad"); ("last_seen", VStr (isoformat (e_timestamp event)))] d
      else d
  | None => d
  end.
Definition note_asset (d : list (string * pydict)) (event : CanonicalEvent) : list (string * pydict) :=
  match e_host event with
  | Some h => if otrue (h_name h) then
      dset (ostr (h_name h)) [("id", VStr (ostr (oor (h_id h) (h_name h)))); ("name", VStr (ostr (h_name h)));
                              ("kind", VStr "directory_resource"); ("cloud", VStr "azure")] d
      else d
  | None => d
  end.
Definition privileged_item (event : CanonicalEvent) : pydict := [
  ("event_id", VStr (e_id event)); ("action", vostr (e_action event)); ("user", vostr (user_name event));
  ("timestamp", VStr (isoformat (e_timestamp event)))].
Definition by_key (l : list (string * pydict)) : list pydict := (sort_by (λ a b, str_le a.1 b.1) l).*2.
Definition azure_inventory_of (events : list CanonicalEvent) : CloudInventory := {|
  ci_identities := by_key (foldl note_identity [] events); ci_assets := by_key (foldl note_asset [] events);
  ci_risky_configs := RISKY_CONFIGS; ci_privileged_ops := privileged_item <$> select privileged_op events |}.

Section azure.
Context `{Oracle} `{IsoLib} `{Pydantic}.
Definition azure_activity (raw : pydict) : string :=
  py_str (vor (vor (first_of raw "activityDisplayName" "operationName") (dgetv "action" raw)) (VStr "audit")).
(** [raw["initiatedBy"]["user"]["userPrincipalName"]], where they are there. *)
Definition initiator (raw : pydict) : result pyval :=
  match dgetv "initiatedBy" raw with
  | VDict d => user ← dict_of (dget_or "user" (VDict []) d); Ok (dgetv "userPrincipalName" user)
  | _ => Ok VNone
  end.
Definition azure_target (raw : pydict) : pyval :=
  match vor (first_of raw "targetResources" "resource") (VDict []) with
  | VList l => default (VDict []) (head l)
  | v => v
  end.
Definition azure_kind (raw : pydict) : string * string :=
  let activity := azure_activity raw in
  if contains activity "Role" || vtrue (dgetv "privileged" raw) then ("privilege_change", "directory")
  else
    (if contains activity "Add member" || contains (lower activity) "add_to_group" then "group_change" else "login",
     match dgetv "category" raw with
     | VStr "audit" => "cloud_audit"
     | _ => if contains (lower activity) "role" || contains (lower activity) "group" then "directory" else "authentication"
     end).
Definition azure_outcome (raw : pydict) : string :=
  if mem (lower (py_str (vor (dgetv "result" raw) (VStr "")))) ["failure"; "failed"] then "failure" else "success".
Definition normalize_audit (raw : pydict) (tenant_id : string) : M draws Draft :=
  named ← lift (initiator raw);
  let user_name := vor (vor named (dgetv "user" raw)) (dgetv "caller" raw) in
  event_id ← (if vtrue (dgetv "id" raw) then mret (py_str (dgetv "id" raw)) else new_id_d "evt");
  timestamp ← ts_or_now endpoint_ts (dgetv "activityDateTime" raw);
  now ← utcnow_d;
  user ← (if vtrue user_name then Some <$> lift (Normalize.user_named (VStr (py_str user_name))) else mret None);
  target ← lift (dict_of (azure_target raw));
  host ← lift (validated (host_model [("name", VStr (py_str (vor (first_of target "displayName" "id") (VStr "azure-ad"))))]));
  lift (canonical_event {|
    ar_timestamp := Aware timestamp; ar_ingested_at := now; ar_user := user; ar_host := Some host; ar_process := None;
    ar_parent_process := None; ar_file := None |} [
      ("id", VStr event_id); ("tenant_id", VStr tenant_id); ("source", VStr "azure-ad"); ("source_type", VStr "cloud");
      ("event_type", VStr (azure_kind raw).1); ("category", VStr (azure_kind raw).2);
      ("action", VStr (azure_activity raw)); ("outcome", VStr (azure_outcome raw)); ("src_ip", first_of raw "ipAddress" "src_ip");
      ("severity", VStr (if vtrue (dgetv "privileged" raw) then "high" else "informational"));
      ("raw_event", VDict raw); ("raw_hash", raw_digest raw);
      ("attributes", VDict [
        ("cloud", VStr "azure"); ("connector", VStr "azure_ad"); ("resource", str_or_empty (dgetv "id" target));
        ("privileged", VStr (if vtrue (dgetv "privileged" raw) then "true" else "false")); ("raw_reference", raw_digest raw)])]).
End azure.

(** *** [event.model_dump(mode="json")] *)

(** How pydantic writes a dict of values of any type. *)
Class JsonDump := { json_dict : pydict → pydict }.
Definition vint_opt (o : option Z) : pyval := match o with Some z => VInt z | None => VNone end.
Definition vmodel {A} (dump : A → pydict) (o : option A) : pyval := match o with Some a => VDict (dump a) | None => VNone end.
Definition user_dump (u : CanonicalUser) : pydict := [
  ("name", vostr (u_name u)); ("id", vostr (u_id u)); ("email", vostr (u_email u)); ("domain", vostr (u_domain u))].
Definition host_dump (h : CanonicalHost) : pydict := [
  ("name", vostr (h_name h)); ("id", vostr (h_id h)); ("os", vostr (h_os h)); ("ip", vostr (h_ip h))].
Definition process_dump (p : CanonicalProcess) : pydict := [
  ("name", vostr (p_name p)); ("pid", vint_opt (p_pid p)); ("command_line", vostr (p_command_line p));
  ("hash", vostr (p_hash p)); ("path", vostr (p_path p))].
Definition file_dump (f : CanonicalFile) : pydict := [
  ("name", vostr (f_name f)); ("path", vostr (f_path f)); ("hash_md5", vostr (f_hash_md5 f));
  ("hash_sha1", vostr (f_hash_sha1 f)); ("hash_sha256", vostr (f_hash_sha256 f)); ("size", vint_opt (f_size f))].
Definition identity_dump (i : CanonicalIdentity) : pydict := [
  ("id", vostr (i_id i)); ("type", vostr (i_type i)); ("provider", vostr (i_provider i))].
Definition cloud_dump (c : CanonicalCloudResource) : pydict := [
  ("provider", vostr (c_provider c)); ("account_id", vostr (c_account_id c)); ("resource_id", vostr (c_resource_id c));
  ("resource_type", vostr (c_resource_type c)); ("region", vostr (c_region c))].
Definition event_dump `{PydanticJson} `{JsonDump} (e : CanonicalEvent) : pydict := [
  ("id", VStr (e_id e)); ("tenant_id", VStr (e_tenant_id e)); ("timestamp", VStr (json_datetime (e_timestamp e)));
  ("ingested_at", VStr (json_datetime (e_ingested_at e))); ("source", VStr (e_source e));
  ("source_type", VStr (e_source_type e)); ("event_type", VStr (e_event_type e)); ("category", VStr (e_category e));
  ("user", vmodel user_dump (e_user e)); ("host", vmodel host_dump (e_host e)); ("process", vmodel process_dump (e_process e));
  ("parent_process", vmodel process_dump (e_parent_process e)); ("src_ip", vostr (e_src_ip e)); ("dst_ip", vostr (e_dst_ip e));
  ("src_port", vint_opt (e_src_port e)); ("dst_port", vint_opt (e_dst_port e)); ("protocol", vostr (e_protocol e));
  ("domain", vostr (e_domain e)); ("url", vostr (e_url e)); ("file", vmodel file_dump (e_file e)); ("hash", vostr (e_hash e));
  ("identity", vmodel identity_dump (e_identity e)); ("cloud_resource", vmodel cloud_dump (e_cloud_resource e));
  ("action", vostr (e_action e)); ("outcome", vostr (outcome_str <$> e_outcome e));
  ("severity", VStr (severity_str (e_severity e))); ("confidence", VFloat (e_confidence e));
  ("risk_score", VFloat (e_risk_score e)); ("raw_event", VDict (json_dict (e_raw_event e)));
  ("schema_version", VStr (e_schema_version e)); ("attributes", VDict (json_dict (e_attributes e)));
  ("idempotency_key", vostr (e_idempotency_key e)); ("correlation_id", vostr (e_correlation_id e));
  ("trace_id", vostr (e_trace_id e)); ("raw_hash", vostr (e_raw_hash e))].

(** ** [api/connectors.py] *)

(** [json.loads]. *)
Class JsonLoads := { json_loads : string → result pyval }.
(** [{**v, k: x}] *)
Definition spread (v : pyval) (k : string) (x : pyval) : result pydict :=
  match v with
  | VDict d => Ok (dset k x d)
  | _ => Raise (TypeError ("'" +:+ type_name v +:+ "' object is not a mapping"))
  end.
(** [str.splitlines] *)
Definition line_break (c : ascii) : bool := in_range 10 13 c || in_range 28 30 c || (code c =? 133)%N.
Fixpoint lines_from (line : string) (after_cr : bool) (s : string) : list string :=
  match s with
  | EmptyString => if nonempty line then [line] else []
  | String c rest =>
      if after_cr && (code c =? 10)%N then lines_from "" false rest
      else if line_break c then line :: lines_from "" (code c =? 13)%N rest
      else lines_from (line +:+ String c "") false rest
  end.
Definition splitlines (s : string) : list string := lines_from "" false s.

Record NetworkBatchBody := { nb_source : string; nb_events : list pydict; nb_jsonl : option string }.
Record ActionBody := { ab_action : string; ab_agent_id : string; ab_params : pydict; ab_dry_run : bool }.
Definition stage_dict `{PydanticJson} (g : StorylineStage) : pydict := [
  ("name", VStr (st_name g)); ("rule_ids", VList (VStr <$> st_rule_ids g)); ("event_ids", VList (VStr <$> st_event_ids g));
  ("evidence_ids", VList (VStr <$> st_evidence_ids g));
  ("timestamp", match st_timestamp g with Some t => VStr (json_datetime t) | None => VNone end)].
Definition story_dict `{PydanticJson} (st : Storyline) : pydict := [
  ("storyline_id", VStr (sl_storyline_id st)); ("tenant_id", VStr (sl_tenant_id st)); ("title", VStr (sl_title st));
  ("entities", VDict ((λ kv, (kv.1, VList (VStr <$> kv.2))) <$> sl_entities st));
  ("stages", VList ((λ g, VDict (stage_dict g)) <$> sl_stages st)); ("confidence", VFloat (sl_confidence st));
  ("evidence_ids", VList (VStr <$> sl_evidence_ids st)); ("event_ids", VList (VStr <$> sl_event_ids st));
  ("mitre_techniques", VList (VStr <$> sl_mitre_techniques st)); ("start", VStr (json_datetime (sl_start st)));
  ("end", VStr (json_datetime (sl_end st))); ("attributes", VDict ((λ kv, (kv.1, VStr kv.2)) <$> sl_attributes st))].
Definition NETWORK_TYPES : list string := ["zeek"; "suricata"; "network"].
Definition ENDPOINT_SOURCES : list string := ["wazuh"; "sysmon"; "osquery"].
Definition from_network (event : CanonicalEvent) : bool := mem (e_source_type event) NETWORK_TYPES.
Definition from_endpoint (event : CanonicalEvent) : bool :=
  (e_source_type event =? "endpoint")%string || mem (e_source event) ENDPOINT_SOURCES.
(** The events of a story that are known, each identifier standing for its last event. *)
Definition told_events (events : list CanonicalEvent) (story : Storyline) : list CanonicalEvent :=
  let event_map := foldl (λ m e, dset (e_id e) e m) [] events in
  omap (λ eid, dget eid event_map) (sl_event_ids story).
Definition cross_source (events : list CanonicalEvent) (story : Storyline) : bool :=
  existsb from_endpoint (told_events events story) && existsb from_network (told_events events story).
Definition host_ip (event : CanonicalEvent) : option string := h ← e_host event; h_ip h.
(** [{src_ip, dst_ip, host.ip} - {None, ""}] *)
Definition addresses (event : CanonicalEvent) : list string :=
  select nonempty (omap id [e_src_ip event; e_dst_ip event; host_ip event]).
Definition shares (ips : list string) (net : CanonicalEvent) : bool :=
  let known o := match o with Some ip => mem ip ips | None => false end in
  known (e_src_ip net) || known (e_dst_ip net) || known (host_ip net).
Record ip_join := { ij_join_key : list string; ij_endpoint : string; ij_network : list string; ij_sources : list string }.
Definition join_dict (j : ip_join) : pydict := [
  ("join_key", VList (VStr <$> ij_join_key j)); ("endpoint_event_ids", VList [VStr (ij_endpoint j)]);
  ("network_event_ids", VList (VStr <$> ij_network j)); ("sources", VList (VStr <$> ij_sources j))].
Definition joined_by_ip (network_events : list CanonicalEvent) (endpoint : CanonicalEvent) : option ip_join :=
  let ips := addresses endpoint in
  match select (shares ips) network_events with
  | [] => None
  | matches => Some {|
      ij_join_key := sorted_set ips; ij_endpoint := e_id endpoint; ij_network := e_id <$> matches;
      ij_sources := sorted_set (e_source endpoint :: (e_source <$> matches)) |}
  end.
Definition ip_joins (events : list CanonicalEvent) : list ip_join :=
  omap (joined_by_ip (select from_network events)) (select from_endpoint events).
Definition counting (category : string) (events : list CanonicalEvent) : pyval :=
  VInt (Z.of_nat (length (select (λ e, e_category e =? category)%string events))).

Section connector_routes.
Context `{Oracle} `{SetOrder} `{IpLib} `{DataPlane} `{IsoLib} `{Pydantic} `{PydanticJson} `{JsonDump} `{JsonLoads} `{AuthLib}.
Context (registry : DetectionRegistry).

(** [write_audit] with the connector as the target. *)
Definition audit_connector (actor : TenantActor) (request_id connector : string) (after_state : pydict) : M db AuditLog :=
  audit_user actor request_id ("connector." +:+ connector +:+ ".ingest") "connector" (Some connector) (Some after_state).
Definition accepted_count (r : ingest_result) : string * pyval := ("accepted", VInt (Z.of_nat (length (ig_accepted r)))).
Definition list_connectors : pydict := [("items", VList ((λ c : string * string * string,
    VDict [("connector_id", VStr c.1.1); ("name", VStr c.1.2); ("kind", VStr c.2)]) <$> [
  ("wazuh", "Wazuh", "endpoint"); ("zeek", "Zeek", "network"); ("suricata", "Suricata", "network");
  ("azure_ad", "Azure AD (fixture)", "cloud")]))].
Definition get_wazuh_health (actor : TenantActor) : M db pydict :=
  events ← gets (load_window (ta_tenant_id actor));
  health_dict <$> lift (wazuh_health events).
Definition get_wazuh_inventory (actor : TenantActor) : M db pydict :=
  events ← gets (load_window (ta_tenant_id actor));
  items ← lift (wazuh_inventory events);
  mret [("items", VList ((λ r, VDict (agent_dict r)) <$> items)); ("count", VInt (Z.of_nat (length items)))].
Definition get_wazuh_alerts (actor : TenantActor) : M db pydict :=
  events ← gets (load_window (ta_tenant_id actor));
  let items := wazuh_alerts events in
  mret [("items", VList (VDict <$> items)); ("count", VInt (Z.of_nat (length items)))].
Definition wazuh_ingest (alerts : list pydict) (actor : TenantActor) (request_id : string) : M db pydict :=
  result ← ingest_payloads registry (ta_tenant_id actor) (dset "adapter" (VStr "wazuh") <$> alerts) (actor_user actor);
  audit_connector actor request_id "wazuh" [accepted_count result];;
  mret (result_dict result).
Definition wazuh_action (body : ActionBody) (actor : TenantActor) (request_id : string) : M db pydict :=
  result ← request_action {| aq_action := ab_action body; aq_agent_id := ab_agent_id body; aq_params := ab_params body;
                             aq_dry_run := ab_dry_run body |};
  write_audit {|
    b_tenant_id := Some (ta_tenant_id actor); b_actor_type := "user"; b_actor_id := actor_user actor;
    b_request_id := request_id; b_action := "connector.wazuh.action"; b_target_type := "endpoint_action";
    b_target_id := Some (ax_action_id result); b_reason := None; b_policy_decision := None; b_approval_status := None;
    b_before_state := None; b_after_state := Some (action_dict result);
    b_result := if (ax_status result =? "denied")%string then "denied" else "success" |};;
  mret (action_dict result).

(** The records of a batch, each marked with its source. *)
Fixpoint jsonl_payloads (source : string) (lines : list string) : result (list pydict) :=
  match lines with
  | [] => Ok []
  | line :: rest =>
      if negb (nonempty (strip line)) then jsonl_payloads source rest
      else
        v ← json_loads line;
        payload ← spread v "adapter" (VStr source);
        cons payload <$> jsonl_payloads source rest
  end.
Definition network_payloads (source : string) (body : NetworkBatchBody) : result (list pydict) :=
  parsed ← (if otrue (nb_jsonl body) then jsonl_payloads source (splitlines (ostr (nb_jsonl body))) else Ok []);
  Ok (parsed ++ (dset "adapter" (VStr source) <$> nb_events body)).
Definition normalize_network (source tenant_id : string) (payload : pydict) : M draws Draft :=
  if (source =? "zeek")%string then normalize_zeek payload tenant_id None else normalize_suricata payload tenant_id.
Definition batch_source (body : NetworkBatchBody) : string := strip (lower (nb_source body)).
Definition network_ingest (body : NetworkBatchBody) (actor : TenantActor) (request_id : string) : M db pydict :=
  let source := batch_source body in
  if negb (mem source ["zeek"; "suricata"])
  then raise (BlueTeamError "INVALID_SOURCE" "source must be zeek|suricata" 422)
  else
    payloads ← lift (network_payloads source body);
    match payloads with
    | [] => raise (BlueTeamError "EMPTY_BATCH" "No network events provided" 422)
    | _ =>
        mapM' (λ p, drawing_db (normalize_network source (ta_tenant_id actor) p)) payloads;;
        result ← ingest_payloads registry (ta_tenant_id actor) payloads (actor_user actor);
        let normalized := ("normalized", VInt (Z.of_nat (length payloads))) in
        audit_connector actor request_id source [accepted_count result; normalized];;
        mret (result_dict result ++ [normalized])
    end.
Definition get_network_sessions (actor : TenantActor) : M db pydict :=
  window ← gets (load_window (ta_tenant_id actor));
  let events := select from_network window in
  sessions ← lift (sessions_from_events events);
  mret [("items", VList ((λ n, VDict (session_dict n)) <$> sessions)); ("count", VInt (Z.of_nat (length sessions)));
        ("dns", counting "dns" events); ("http", counting "http" events); ("tls", counting "tls" events);
        ("ids_alerts", counting "alert" events)].
Definition network_endpoint_correlate (actor : TenantActor) : M db pydict :=
  s ← get;
  let events := load_window (ta_tenant_id actor) s in
  let findings := fr_payload <$> list_findings (ta_tenant_id actor) s in
  stories ← drawing_db (correlate events findings);
  let cross := select (cross_source events) stories in
  let joins := ip_joins events in
  mret [("storylines", VList ((λ st, VDict (story_dict st)) <$> stories));
        ("cross_source", VList ((λ st, VDict (story_dict st)) <$> cross));
        ("ip_joins", VList ((λ j, VDict (join_dict j)) <$> joins));
        ("count", VInt (Z.of_nat (length cross) + Z.of_nat (length joins)));
        ("note", VStr "Cross-source requires endpoint + network evidence (storyline and/or shared IP).")].
Definition azure_ingest (events : list pydict) (actor : TenantActor) (request_id : string) : M db pydict :=
  payloads ← mapM' (λ raw, event ← drawing_db (d ← normalize_audit raw (ta_tenant_id actor); lift (settled d));
                           mret (event_dump event)) events;
  result ← ingest_payloads registry (ta_tenant_id actor) payloads (actor_user actor);
  audit_connector actor request_id "azure_ad" [accepted_count result];;
  mret (result_dict result).
Definition azure_inventory (actor : TenantActor) : M db pydict :=
  events ← gets (λ s, select (λ e, e_source e =? "azure-ad")%string (load_window (ta_tenant_id actor) s));
  mret (cloud_dict (azure_inventory_of events)).

Inductive connector_request :=
| ListConnectors | WazuhHealth | WazuhInventory | WazuhAlerts | WazuhIngest (alerts : list pydict) | WazuhAction (body : ActionBody)
| NetworkIngest (body : NetworkBatchBody) | GetNetworkSessions | NetworkCorrelate | AzureIngest (events : list pydict)
| AzureInventory.
Definition connector_permission (req : connector_request) : string :=
  match req with
  | WazuhAlerts => "alerts:read"
  | WazuhIngest _ | NetworkIngest _ | AzureIngest _ => "events:ingest"
  | WazuhAction _ => "response:tier0"
  | NetworkCorrelate => "detections:read"
  | _ => "events:read"
  end.
Definition connector_handler (req : connector_request) (request_id : string) (actor : TenantActor) : M db pydict :=
  match req with
  | ListConnectors => mret list_connectors
  | WazuhHealth => get_wazuh_health actor
  | WazuhInventory => get_wazuh_inventory actor
  | WazuhAlerts => get_wazuh_alerts actor
  | WazuhIngest alerts => wazuh_ingest alerts actor request_id
  | WazuhAction body => wazuh_action body actor request_id
  | NetworkIngest body => network_ingest body actor request_id
  | GetNetworkSessions => get_network_sessions actor
  | NetworkCorrelate => network_endpoint_correlate actor
  | AzureIngest events => azure_ingest events actor request_id
  | AzureInventory => azure_inventory actor
  end.
Definition serve_connector (h : headers) (request_id : string) (req : connector_request) : M db pydict :=
  served (connector_permission req) h request_id (connector_handler req request_id).
End connector_routes.

(** ** Endpoint actions *)

Section actions.
Context `{Oracle} `{SetOrder} `{IpLib} `{DataPlane} `{IsoLib} `{Pydantic} `{PydanticJson} `{JsonDump} `{JsonLoads} `{AuthLib}.
Context (registry : DetectionRegistry).

(** What the connector answers to an action it knows. *)
Definition action_status (body : ActionBody) : string :=
  if mem (ab_action body) BLOCKED_ACTIONS then "denied"
  else if ab_dry_run body then "planned" else "awaiting_approval".
Definition known_action (action : string) : bool := mem action (BLOCKED_ACTIONS ++ READ_ONLY_ACTIONS).
Lemma known_action_split action :
  known_action action = mem action BLOCKED_ACTIONS || mem action READ_ONLY_ACTIONS.
Proof. unfold known_action, mem. by rewrite existsb_app. Qed.
Lemma request_action_ok body s r s' :
  request_action {| aq_action := ab_action body; aq_agent_id := ab_agent_id body; aq_params := ab_params body;
                    aq_dry_run := ab_dry_run body |} s = (Ok r, s') →
  known_action (ab_action body) = true ∧ ax_action r = ab_action body ∧ ax_agent_id r = ab_agent_id body
  ∧ ax_status r = action_status body ∧ (ax_status r ≠ "planned" → ax_outputs r = [])
  ∧ ∃ d, s' = set_draws (λ _, d) s.
Proof.
  rewrite known_action_split. unfold request_action, action_status. cbn [aq_action aq_dry_run].
  intros He. inv_bind He. injection Ha as <- <-. destruct (mem (ab_action body) BLOCKED_ACTIONS).
  { injection He as <- <-. split_and!; try done. by eexists. }
  destruct (mem (ab_action body) READ_ONLY_ACTIONS); [|done]. cbn [negb] in He.
  destruct (ab_dry_run body); cbn [negb] in He.
  - inv_bind He. injection Ha as <- <-. injection He as <- <-. split_and!; try done. by eexists.
  - injection He as <- <-. split_and!; try done. by eexists.
Qed.
Lemma request_action_refused request s : known_action (aq_action request) = false →
  ∃ d, request_action request s
    = (Raise (BlueTeamError "UNSUPPORTED_ACTION" ("Unknown endpoint action " +:+ aq_action request) 422), set_draws (λ _, d) s).
Proof.
  rewrite known_action_split. intros [Hb Hr]%orb_false_iff. unfold request_action. rewrite Hb, Hr. by eexists.
Qed.

(** The connector executes nothing. An action that is answered is asked for by an actor
    with [response:tier0] in the tenant; it is one of the nine known, blocked ones are denied,
    the others planned in a dry run and left to await approval otherwise; only a plan has
    outputs. The answer is recorded in one audit record, denied exactly when the action was,
    and nothing else of the database changes. An unknown action is refused with 422, and a
    request that fails changes nothing. *)
Theorem connector_actions_never_execute h rid body s :
  (∀ d s', serve_connector registry h rid (WazuhAction body) s = (Ok d, s') → ∃ actor result record draws,
     authorised h s (ta_tenant_id actor) "response:tier0" (ta_actor actor)
     ∧ d = action_dict result ∧ known_action (ab_action body) = true
     ∧ ax_action result = ab_action body ∧ ax_agent_id result = ab_agent_id body ∧ ax_status result = action_status body
     ∧ (ax_status result ≠ "planned" → ax_outputs result = [])
     ∧ au_tenant_id record = Some (ta_tenant_id actor) ∧ au_action record = "connector.wazuh.action"
     ∧ (au_result record = "denied" ↔ mem (ab_action body) BLOCKED_ACTIONS = true)
     ∧ s' = flush_pending (set_audit (λ rows, rows ++ [record]) (flush_pending (set_draws (λ _, draws) s))))
  ∧ (known_action (ab_action body) = false → is_ok (fst (serve_connector registry h rid (WazuhAction body) s)) = false)
  ∧ (∀ e s', serve_connector registry h rid (WazuhAction body) s = (Raise e, s') → s' = set_draws (λ _, d_draws s') s).
Proof.
  split; [|split].
  - intros d s' (actor & s1 & Hauth & He & ->)%served_ok. unfold connector_handler, wazuh_action in He.
    inv_bind He. apply request_action_ok in Ha as (Hk & Ha & Hg & Hst & Ho & d0 & ->). inv_bind He.
    injection He as <- <-. pose proof (write_audit_spec _ _ _ _ Ha0) as (_ & _ & _ & Hp & _).
    apply write_audit_state in Ha0 as [d1 ->]. exists actor, a, a0, d1. split_and!; try done.
    + unfold row_payload, body_payload in Hp. simpl in Hp. injection Hp as ? Ht. by destruct (au_tenant_id a0); simpl in Ht; congruence.
    + unfold row_payload, body_payload in Hp. simpl in Hp. by injection Hp.
    + assert (au_result a0 = if (ax_status a =? "denied")%string then "denied" else "success") as ->.
      { unfold row_payload, body_payload in Hp. simpl in Hp. by injection Hp. }
      rewrite Hst. unfold action_status. by destruct (mem (ab_action body) BLOCKED_ACTIONS), (ab_dry_run body).
  - intros Hk. destruct (serve_connector registry h rid (WazuhAction body) s) as [[d|e] s'] eqn:E; [|done].
    apply served_ok in E as (actor & s1 & _ & He & _). unfold connector_handler, wazuh_action in He.
    inv_bind He. apply request_action_ok in Ha as (Hk' & _). congruence.
  - intros e s'. apply served_raise.
Qed.
End actions.

(** ** Batches of network records *)

Section network.
Context `{Oracle} `{IsoLib} `{P : Pydantic} `{!PydanticLaws P}.

Lemma dget_cons_ne {A} k j (v : A) d : k ≠ j → dget k ((j, v) :: d) = dget k d.
Proof. intros Hk. simpl. destruct (String.eqb_spec j k); congruence. Qed.
Lemma with_field_intro {A B} (f : checked (A → B)) x g a : f = Good g → x = Good a → with_field f x = Good (g a).
Proof. by intros -> ->. Qed.
Lemma required_skip {A} (conv : pyval → option A) k i d : k ≠ "id" → required conv k (("id", VStr i) :: d) = required conv k d.
Proof. intros Hk. unfold required, dgetv. by rewrite (dget_cons_ne _ _ _ _ Hk). Qed.
Lemma defaulted_skip {A} (conv : pyval → option A) x k i d : k ≠ "id" → defaulted conv x k (("id", VStr i) :: d) = defaulted conv x k d.
Proof. intros Hk. unfold defaulted. by rewrite required_skip, (dget_cons_ne _ _ _ _ Hk). Qed.
Lemma nested_skip {A} (model : pydict → checked A) k i d : k ≠ "id" → nested model k (("id", VStr i) :: d) = nested model k d.
Proof. intros Hk. unfold nested, dgetv. by rewrite (dget_cons_ne _ _ _ _ Hk). Qed.
Lemma required_id i d : required as_str "id" (("id", VStr i) :: d) = Good i.
Proof. apply required_good. exists (VStr i). split; [done|]. by apply as_str_iff. Qed.
Ltac rebuild_model :=
  first [apply with_field_intro; [rebuild_model | first [eassumption | reflexivity | apply required_id]] | reflexivity].
(** Whether a model can be built depends on neither identifier nor times, where these are
    well-formed. *)
Definition retimed (a : Args) (timestamp : py_datetime) (now : datetime) : Args := {|
  ar_timestamp := timestamp; ar_ingested_at := now; ar_user := ar_user a; ar_host := ar_host a; ar_process := ar_process a;
  ar_parent_process := ar_parent_process a; ar_file := ar_file a |}.
Lemma canonical_retimed a i d dr i' t n : canonical_event a (("id", VStr i) :: d) = Ok dr →
  ∃ dr', canonical_event (retimed a t n) (("id", VStr i') :: d) = Ok dr' ∧ dr_timestamp dr' = t ∧ dr_ingested_at dr' = Aware n.
Proof.
  intros He%validated_ok.
  assert (∃ dr', event_model {|
    pt_timestamp := Good t; pt_ingested_at := Good (Aware n); pt_user := Good (ar_user a); pt_host := Good (ar_host a);
    pt_process := Good (ar_process a); pt_parent_process := Good (ar_parent_process a); pt_file := Good (ar_file a) |}
    (("id", VStr i') :: d) = Good dr') as [dr' Hd].
  { unfold event_model, text, nullable in *.
    repeat (rewrite required_skip in He by done || rewrite defaulted_skip in He by done || rewrite nested_skip in He by done).
    repeat (rewrite required_skip by done || rewrite defaulted_skip by done || rewrite nested_skip by done).
    repeat (apply with_field_good in He; let g := fresh "g" in let x := fresh "x" in let H1 := fresh "Hf" in
            let H2 := fresh "Hx" in destruct He as (g & x & He & H2 & H1); clear H1).
    eexists. rebuild_model. }
  exists dr'. split; [by apply validated_ok|]. apply event_model_good in Hd as D. split.
  - pose proof (df_timestamp _ _ _ D) as Ht. by injection Ht.
  - pose proof (df_ingested_at _ _ _ D) as Ht. by injection Ht.
Qed.

Lemma ts_or_now_total ts v d t d1 d2 : ts_or_now ts v d = (Ok t, d1) → ∃ t' d2', ts_or_now ts v d2 = (Ok t', d2').
Proof. unfold ts_or_now. destruct (vtrue v); intros He; [injection He as -> <-|]; by eexists _, _. Qed.
(** A normaliser that succeeds does so whatever is drawn, with times that have an offset. *)
Definition timely (dr : Draft) : Prop := ∃ e, settled dr = Ok e.
Lemma aware_timely dr t i : dr_timestamp dr = Aware t → dr_ingested_at dr = Aware i → timely dr.
Proof. intros Ht Hi. unfold timely, settled. rewrite Ht, Hi. by eexists. Qed.
Lemma network_event_total tenant_id source ty et c raw host file fields d dr d1 d2 :
  network_event tenant_id source ty et c raw host file fields d = (Ok dr, d1) →
  ∃ dr' d2', network_event tenant_id source ty et c raw host file fields d2 = (Ok dr', d2') ∧ timely dr'.
Proof.
  unfold network_event. set (v := vor (vor _ _) _). set (w := vor (dgetv "ts" raw) _). intros He.
  do 4 inv_bind He. injection He as He _.
  assert (∀ m d0, ∃ i d', (if vtrue v then mret (py_str v) else new_id_d m) d0 = (Ok i, d')) as Hid.
  { intros m d0. destruct (vtrue v); by eexists _, _. }
  destruct (Hid "evt" d2) as (i & d3 & E3). rewrite (M_bind_eval _ _ _ _ _ E3).
  assert (∃ i' d', (if startswith i "evt_" then mret i else new_id_d "evt") d3 = (Ok i', d')) as (i' & d4 & E4).
  { destruct (startswith i "evt_"); by eexists _, _. }
  rewrite (M_bind_eval _ _ _ _ _ E4). destruct (ts_or_now_total _ _ _ _ _ d4 Ha1) as (t & d5 & E5).
  rewrite (M_bind_eval _ _ _ _ _ E5), (M_bind_eval utcnow_d _ d5 _ _ eq_refl).
  destruct (canonical_retimed _ _ _ _ i' (Aware t) (clock (n_clock d5)) He) as (dr' & Hc & Ht & Hi).
  exists dr'. eexists. split; [|by eapply aware_timely]. unfold lift. f_equal. exact Hc.
Qed.
Lemma normalize_network_total source tenant_id p d dr d1 d2 : normalize_network source tenant_id p d = (Ok dr, d1) →
  ∃ dr' d2', normalize_network source tenant_id p d2 = (Ok dr', d2') ∧ timely dr'.
Proof.
  unfold normalize_network, normalize_zeek, normalize_suricata. destruct (source =? "zeek")%string; intros He; inv_bind He; injection Ha as Hf <-.
  - destruct a as [[[[kind host] file] raw] fields]. eapply network_event_total in He as (dr' & d2' & E & ?).
    exists dr', d2'. split; [|done]. rewrite Hf. rewrite (M_bind_eval (lift _) _ d2 _ _ eq_refl). exact E.
  - destruct a as [[[kind host] file] fields]. eapply network_event_total in He as (dr' & d2' & E & ?).
    exists dr', d2'. split; [|done]. rewrite Hf. rewrite (M_bind_eval (lift _) _ d2 _ _ eq_refl). exact E.
Qed.

(** The records the router sends to the normaliser of their source. *)
Definition plain (source : string) (payload : pydict) : Prop :=
  claims_canonical payload = false ∧ vtrue (dgetv "syslog_raw" payload) = false ∧ dget "adapter" payload = Some (VStr source)
  ∧ (source = "suricata" → vtrue (dgetv "_path" payload) = false).
Definition network_source (source : string) : Prop := source = "zeek" ∨ source = "suricata".
Lemma plain_dispatch source tenant_id p : network_source source → plain source p →
  normalize_draft p tenant_id = normalize_network source tenant_id p.
Proof.
  intros Hs (Hc & Hy & Ha & Hp). unfold normalize_draft, normalize_network. rewrite Hc, Hy.
  assert (adapter_of p = source) as ->. { unfold adapter_of, dgetv. rewrite Ha. by destruct Hs as [-> | ->]. }
  destruct Hs as [-> | ->]; [reflexivity|]. by rewrite Hp.
Qed.
Definition readable (source tenant_id : string) (p : pydict) : Prop :=
  ∀ d, is_ok (fst (normalize_network source tenant_id p d)) = true.
Lemma readable_once source tenant_id p d dr d' : normalize_network source tenant_id p d = (Ok dr, d') → readable source tenant_id p.
Proof. intros He d2. destruct (normalize_network_total _ _ _ _ _ _ d2 He) as (? & ? & -> & _). done. Qed.
Lemma plain_normalized source tenant_id p d : network_source source → plain source p → readable source tenant_id p →
  ∃ e, fst (normalize_payload p tenant_id d) = Ok e.
Proof.
  intros Hs Hp Hr. unfold normalize_payload, ingest_adapters. rewrite (plain_dispatch _ _ _ Hs Hp). specialize (Hr d).
  destruct (normalize_network source tenant_id p d) as [[dr0|e] d1] eqn:E; [|done].
  destruct (normalize_network_total _ _ _ _ _ _ d E) as (dr & d2 & E2 & e & Hse). rewrite (M_bind_eval _ _ _ _ _ E2).
  exists e. exact Hse.
Qed.
Lemma check_ok source tenant_id ps s u s' :
  mapM' (λ p, drawing_db (normalize_network source tenant_id p)) ps s = (Ok u, s') →
  (∀ p, p ∈ ps → readable source tenant_id p) ∧ ∃ d, s' = set_draws (λ _, d) s.
Proof.
  revert s u s'. induction ps as [|p ps IH]; intros s u s' He.
  { injection He as _ <-. split; [by intros p ?%not_elem_of_nil|]. exists (d_draws s). by destruct s. }
  cbn in He. inv_bind He. inv_bind He. injection He as _ <-. apply IH in Ha0 as [Hr [d ->]].
  unfold drawing_db in Ha. destruct (normalize_network source tenant_id p (d_draws s)) as [r d0] eqn:E.
  injection Ha as -> <-. split; [|by exists d].
  intros q [->|Hq]%elem_of_cons; [by eapply readable_once | by apply Hr].
Qed.
End network.

(** *** Ingesting them *)

Section network_batches.
Context `{Oracle} `{SetOrder} `{IpLib} `{DataPlane} `{IsoLib} `{P : Pydantic} `{!PydanticLaws P}.
Context (registry : DetectionRegistry).

Definition collision (why : pydict) : Prop := ∃ i, why = [("reason", VStr "event id collision"); ("id", VStr i)].
Lemma store_rejects t actor acc p e s r s' : store_event registry t actor acc p e s = (Ok r, s') →
  Forall collision (ig_rejected acc) → Forall collision (ig_rejected r).
Proof.
  unfold store_event. intros He Hacc. inv_bind He. inv_bind He. injection Ha0 as <- <-.
  destruct (match a with Some x => Some x | None => event_by_id (e_id e) s0 end) as [x|].
  - destruct (bool_decide (a = None) && negb (se_tenant_id x =? t)%string).
    + inv_bind He. injection He as <- <-. simpl. apply Forall_app. split; [done|]. apply Forall_singleton. by eexists.
    + by injection He as <- <-.
  - inv_bind He. inv_bind He. by injection He as <- <-.
Qed.
Lemma plain_batch source t actor ps acc s r s' : network_source source →
  (∀ p, p ∈ ps → plain source p ∧ readable source t p) →
  foldM (ingest_one registry t actor) acc ps s = (Ok r, s') →
  Forall collision (ig_rejected acc) → Forall collision (ig_rejected r).
Proof.
  intros Hs. revert acc s. induction ps as [|p ps IH]; intros acc s Hp He Hacc; [by injection He as <- <-|].
  cbn in He. inv_bind He. destruct (Hp p) as [Hpl Hr]; [by left|].
  eapply IH; [intros q Hq; apply Hp; by right | exact He|]. unfold ingest_one in Ha.
  pose proof (prepare_eval t p s) as Hpr. cbv zeta in Hpr. destruct (plain_normalized source t p (d_draws s) Hs Hpl Hr) as [e Hn].
  unfold normalized in Hpr. rewrite Hn in Hpr. cbv zeta in Hpr. rewrite Hpr in Ha. by eapply store_rejects.
Qed.
End network_batches.

Section network_routes.
Context `{Oracle} `{SetOrder} `{IpLib} `{DataPlane} `{IsoLib} `{P : Pydantic} `{!PydanticLaws P} `{PydanticJson} `{JsonDump}
  `{JsonLoads} `{AuthLib}.
Context (registry : DetectionRegistry).

(** A network batch is all or nothing. It is answered only for an actor with
    [events:ingest] in the tenant, a known source and at least one record, and only when every
    record can be read by the normaliser of that source, whatever identifiers and times are
    drawn; then ingestion stores it. Where the records are plain ones of the source, which the
    router sends to that normaliser again, ingestion rejects none of them, except for an event
    identifier another tenant holds. In every other case, an unreadable record among them, the
    database is left as it was. *)
Theorem network_batch_checked h rid body s :
  (∀ d s', serve_connector registry h rid (NetworkIngest body) s = (Ok d, s') → ∃ actor payloads result draws s1 record,
     authorised h s (ta_tenant_id actor) "events:ingest" (ta_actor actor)
     ∧ network_source (batch_source body) ∧ network_payloads (batch_source body) body = Ok payloads ∧ payloads ≠ []
     ∧ (∀ p, p ∈ payloads → readable (batch_source body) (ta_tenant_id actor) p)
     ∧ ingest_payloads registry (ta_tenant_id actor) payloads (actor_user actor) (set_draws (λ _, draws) s) = (Ok result, s1)
     ∧ d = result_dict result ++ [("normalized", VInt (Z.of_nat (length payloads)))]
     ∧ ((∀ p, p ∈ payloads → plain (batch_source body) p) → Forall collision (ig_rejected result))
     ∧ record_of actor ("connector." +:+ batch_source body +:+ ".ingest") "connector" (Some (batch_source body)) record
     ∧ d_audit s' = d_audit s1 ++ [record])
  ∧ (∀ e s', serve_connector registry h rid (NetworkIngest body) s = (Raise e, s') → s' = set_draws (λ _, d_draws s') s).
Proof.
  split; [|intros e s'; apply served_raise].
  intros d s' (actor & s1 & Hauth & He & ->)%served_ok. unfold connector_handler, network_ingest in He. set (source := batch_source body) in *.
  destruct (mem source ["zeek"; "suricata"]) eqn:Hm; [|done]. cbn [negb] in He.
  assert (network_source source) as Hs.
  { unfold network_source. apply mem_spec in Hm. set_solver. }
  inv_bind He. injection Ha as Hp <-. destruct a as [|p ps]; [done|]. set (payloads := p :: ps) in *.
  inv_bind He. apply check_ok in Ha as [Hr [d0 ->]]. inv_bind He. inv_bind He. injection He as <- <-.
  unfold audit_connector in Ha0. apply audit_user_ok in Ha0 as [Hrec [d1 ->]]. exists actor, payloads, a0, d0, s0, a1.
  split; [exact Hauth|]. split; [exact Hs|]. split; [exact Hp|]. split; [discriminate|]. split; [exact Hr|].
  split; [exact Ha|]. split; [reflexivity|]. split; [|split; [exact Hrec | reflexivity]].
  intros Hpl. unfold ingest_payloads in Ha. inv_bind Ha. inv_bind Ha. injection Ha as <- <-.
  eapply plain_batch; [exact Hs | | exact Ha0 | by apply Forall_nil]. intros q Hq. by split; [apply Hpl | apply Hr].
Qed.
End network_routes.

(** ** Events that are sent as JSON *)

Section dumps.
Context `{Oracle} `{IsoLib} `{P : Pydantic} `{!PydanticLaws P} `{PydanticJson} `{JsonDump}.

(** Pydantic reads a time as it wrote it. *)
Definition rereadable (t : datetime) : Prop := as_datetime (VStr (json_datetime t)) = Some (Aware t).
(** The values of a dict are written as they are: JSON values, as in a record that came as
    JSON. *)
Definition json_ready (d : pydict) : Prop := json_dict d = d.
Lemma required_of {A} (conv : pyval → option A) k d v a : dget k d = Some v → conv v = Some a → required conv k d = Good a.
Proof. intros Hk Hv. apply required_good. eauto. Qed.
Lemma nullable_of {A} (conv : pyval → option A) (inj : A → pyval) (o : option A) k d :
  (∀ a, conv (inj a) = Some a ∧ inj a ≠ VNone) → dget k d = Some (match o with Some a => inj a | None => VNone end) →
  nullable conv k d = Good o.
Proof.
  intros Hi Hk. apply defaulted_good. right. eexists. split; [exact Hk|]. destruct o as [a|]; [|done].
  destruct (Hi a) as [Hc Hn]. unfold optional. rewrite Hc. by destruct (inj a).
Qed.
Lemma text_of_str o k d : dget k d = Some (vostr o) → text k d = Good o.
Proof. apply nullable_of. intros a. split; [by apply as_str_iff | done]. Qed.
Lemma int_of_int o k d : dget k d = Some (vint_opt o) → nullable as_int k d = Good o.
Proof. apply nullable_of. intros a. split; [apply as_int_int | done]. Qed.
Lemma outcome_of_str o k d : dget k d = Some (vostr (outcome_str <$> o)) → nullable as_outcome k d = Good o.
Proof.
  intros Hk. apply (nullable_of _ (λ o, VStr (outcome_str o))); [|by destruct o]. intros []; by split.
Qed.
Lemma nested_of {A} (model : pydict → checked A) (dump : A → pydict) (o : option A) k d :
  (∀ a, model (dump a) = Good a) → dget k d = Some (vmodel dump o) → nested model k d = Good o.
Proof. intros Hm Hk. unfold nested, dgetv. rewrite Hk. destruct o as [a|]; [|done]. simpl. by rewrite Hm. Qed.
Lemma defaulted_of {A} (conv : pyval → option A) x k d v a : dget k d = Some v → conv v = Some a → defaulted conv x k d = Good a.
Proof. intros Hk Hv. apply defaulted_good. eauto. Qed.
Lemma score_of_float f : score_in_bounds f = true → as_score (VFloat f) = Some f.
Proof. intros Hf. unfold as_score. rewrite as_float_float. simpl. by rewrite Hf. Qed.

Ltac read_field :=
  first [ apply text_of_str; reflexivity | apply int_of_int; reflexivity
        | eapply required_of; [reflexivity | by apply as_str_iff] | eapply defaulted_of; [reflexivity | by apply as_str_iff]
        | eassumption ].
Ltac read_model := first [apply with_field_intro; [read_model | read_field] | reflexivity].
Lemma model_eq {A} (c : checked A) a b : c = Good a → a = b → c = Good b.
Proof. congruence. Qed.
Lemma user_read u : user_model (user_dump u) = Good u.
Proof. eapply model_eq; [unfold user_model; read_model | by destruct u]. Qed.
Lemma host_read h : host_model (host_dump h) = Good h.
Proof. eapply model_eq; [unfold host_model; read_model | by destruct h]. Qed.
Lemma process_read p : process_model (process_dump p) = Good p.
Proof. eapply model_eq; [unfold process_model; read_model | by destruct p]. Qed.
Lemma file_read f : file_model (file_dump f) = Good f.
Proof. eapply model_eq; [unfold file_model; read_model | by destruct f]. Qed.
Lemma identity_read i : identity_model (identity_dump i) = Good i.
Proof. eapply model_eq; [unfold identity_model; read_model | by destruct i]. Qed.
Lemma cloud_read c : cloud_model (cloud_dump c) = Good c.
Proof. eapply model_eq; [unfold cloud_model; read_model | by destruct c]. Qed.

Lemma dump_read e : validate_event e = Ok e → rereadable (e_timestamp e) → rereadable (e_ingested_at e) →
  json_ready (e_raw_event e) → json_ready (e_attributes e) →
  ∃ dr, model_validate (event_dump e) = Ok dr ∧ settled dr = Ok e.
Proof.
  intros Hv Ht Hi Hr Ha. set (d := event_dump e).
  assert (score_in_bounds (e_confidence e) = true ∧ score_in_bounds (e_risk_score e) = true ∧ tenant_ok (e_tenant_id e) = true)
    as (Hc & Hk & Hn).
  { unfold validate_event in Hv. destruct (score_in_bounds (e_confidence e)), (score_in_bounds (e_risk_score e)),
      (tenant_ok (e_tenant_id e)); done. }
  assert (required as_tenant "tenant_id" d = Good (e_tenant_id e)) as F1.
  { eapply required_of; [reflexivity|]. unfold as_tenant. rewrite (proj2 (as_str_iff _ _) eq_refl). simpl. by rewrite Hn. }
  assert (required as_datetime "timestamp" d = Good (Aware (e_timestamp e))) as F2 by by eapply required_of; [reflexivity|].
  assert (required as_datetime "ingested_at" d = Good (Aware (e_ingested_at e))) as F3 by by eapply required_of; [reflexivity|].
  assert (nested user_model "user" d = Good (e_user e)) as F4 by (eapply nested_of; [apply user_read | reflexivity]).
  assert (nested host_model "host" d = Good (e_host e)) as F5 by (eapply nested_of; [apply host_read | reflexivity]).
  assert (nested process_model "process" d = Good (e_process e)) as F6 by (eapply nested_of; [apply process_read | reflexivity]).
  assert (nested process_model "parent_process" d = Good (e_parent_process e)) as F7
    by (eapply nested_of; [apply process_read | reflexivity]).
  assert (nested file_model "file" d = Good (e_file e)) as F8 by (eapply nested_of; [apply file_read | reflexivity]).
  assert (nested identity_model "identity" d = Good (e_identity e)) as F9 by (eapply nested_of; [apply identity_read | reflexivity]).
  assert (nested cloud_model "cloud_resource" d = Good (e_cloud_resource e)) as F10
    by (eapply nested_of; [apply cloud_read | reflexivity]).
  assert (nullable as_outcome "outcome" d = Good (e_outcome e)) as F11 by by apply outcome_of_str.
  assert (defaulted as_severity Informational "severity" d = Good (e_severity e)) as F12.
  { eapply defaulted_of; [reflexivity|]. by destruct (e_severity e). }
  assert (defaulted as_score (fl_of_Z 1) "confidence" d = Good (e_confidence e)) as F13
    by (eapply defaulted_of; [reflexivity | by apply score_of_float]).
  assert (defaulted as_score (fl_of_Z 0) "risk_score" d = Good (e_risk_score e)) as F14
    by (eapply defaulted_of; [reflexivity | by apply score_of_float]).
  assert (defaulted dict_value [] "raw_event" d = Good (e_raw_event e)) as F15
    by (eapply defaulted_of; [reflexivity | simpl; by rewrite Hr]).
  assert (defaulted dict_value [] "attributes" d = Good (e_attributes e)) as F16
    by (eapply defaulted_of; [reflexivity | simpl; by rewrite Ha]).
  assert (∃ dr, event_model {|
    pt_timestamp := required as_datetime "timestamp" d; pt_ingested_at := required as_datetime "ingested_at" d;
    pt_user := nested user_model "user" d; pt_host := nested host_model "host" d;
    pt_process := nested process_model "process" d; pt_parent_process := nested process_model "parent_process" d;
    pt_file := nested file_model "file" d |} d = Good dr ∧ settled dr = Ok e) as (dr & Hd & Hs).
  { eexists. split.
    - unfold event_model. cbn [pt_timestamp pt_ingested_at pt_user pt_host pt_process pt_parent_process pt_file].
      clear -F1 F2 F3 F4 F5 F6 F7 F8 F9 F10 F11 F12 F13 F14 F15 F16 PydanticLaws0. read_model.
    - by destruct e. }
  exists dr. split; [by apply validated_ok | done].
Qed.

(** C39. An event that a connector normalised itself reaches ingestion unchanged: a valid event
    whose identifier, source, type of source and version of the schema are not empty, whose
    raw event and attributes are plain JSON already, and whose times are read back from the
    JSON form they are written in, when it is written as JSON and sent as a payload of its
    tenant, is taken by the router for a canonical event and read back as the same event,
    drawing nothing. *)
Theorem dumped_event_unchanged e d : validate_event e = Ok e →
  rereadable (e_timestamp e) → rereadable (e_ingested_at e) → json_ready (e_raw_event e) → json_ready (e_attributes e) →
  Forall (λ s, nonempty s = true) [e_id e; e_source e; e_source_type e; e_schema_version e] →
  normalize_payload (event_dump e) (e_tenant_id e) d = (Ok e, d).
Proof.
  intros Hv Ht Hi Hr Ha Hne. rewrite !Forall_cons in Hne. destruct Hne as (Hid & Hso & Hst & Hsv & _).
  destruct (dump_read e Hv Ht Hi Hr Ha) as (dr & Hd & Hs).
  assert (claims_canonical (event_dump e) = true) as Hc.
  { unfold claims_canonical, dgetv. cbn -[nonempty]. by rewrite Hid, Hso, Hst, Hsv. }
  unfold normalize_payload, ingest_adapters, normalize_draft. rewrite Hc.
  change (dset "tenant_id" (VStr (e_tenant_id e)) (event_dump e)) with (event_dump e). rewrite Hd.
  rewrite (M_bind_eval (lift _) _ d _ _ eq_refl). unfold lift. f_equal. exact Hs.
Qed.
End dumps.

(** ** Concrete requests *)

#[local] Instance demo_oracle : Oracle :=
  {| uuid_hex := λ n, str_of_nat n; clock := λ n, utc 20000 (60 * Z.of_nat n) |}.
#[local] Instance demo_iso : IsoLib := {| other_iso := λ _, None |}.
#[local] Instance demo_order : SetOrder := {| set_iter := remove_dups |}.
#[local] Instance demo_ip : IpLib := {| ipv6_private := λ _, None |}.
#[local] Instance demo_plane : DataPlane := {| object_uri := λ _ _, None |}.
#[local] Instance demo_pydantic : Pydantic := {|
  as_str := λ v, match v with VStr s => Some s | _ => None end;
  as_int := λ v, match v with VInt z => Some z | VStr s => int_of_str s | _ => None end;
  as_float := λ v, match v with VFloat f => Some f | VInt z => Some (fl_of_Z z) | _ => None end;
  as_datetime := λ v, match v with VStr s => fromisoformat (replace_char "Z" "+00:00" s) | _ => None end;
  validation_message := λ failing, "validation errors: " +:+ join ", " failing.*1 |}.
#[local] Instance demo_pydantic_laws : PydanticLaws demo_pydantic.
Proof. constructor; try reflexivity. intros [] x; simpl; split; congruence. Defined.
#[local] Instance demo_json : PydanticJson := {| json_datetime := isoformat |}.
#[local] Instance demo_dump : JsonDump := {| json_dict := λ d, d |}.
#[local] Instance demo_loads : JsonLoads := {|
  json_loads := λ s, if (s =? "[]")%string then Ok (VList []) else Raise (ValueError "Expecting value") |}.
#[local] Instance demo_auth : AuthLib := {|
  jwt_encode := λ _, "t"; bcrypt_check := λ _ _, true;
  jwt_decode := λ t, if (t =? "t")%string then Some [("sub", VStr "usr_1")] else None |}.
Definition owner_db : db := set_memberships (λ _, [{|
  me_id := "mem_1"; me_tenant_id := "ten_a"; me_user_id := "usr_1"; me_role_key := "tenant_owner" |}]) Access.demo_db.
Local Abbreviation connect req := (serve_connector (build_default_registry []) (demo_headers None) "req_1" req owner_db).
Definition acting (action : string) (dry_run : bool) : ActionBody :=
  {| ab_action := action; ab_agent_id := "a1"; ab_params := []; ab_dry_run := dry_run |}.
Definition dns_record : pydict := [
  ("_path", VStr "dns"); ("uid", VStr "evt_1"); ("ts", VInt 1728000002); ("id.orig_h", VStr "10.0.0.1"); ("query", VStr "a.example")].
Definition zeek_batch (records : list pydict) : NetworkBatchBody :=
  {| nb_source := "Zeek "; nb_events := records; nb_jsonl := None |}.
Definition azure_record : pydict := [
  ("activityDisplayName", VStr "Add member to role"); ("activityDateTime", VStr "2024-10-04T00:00:02Z");
  ("id", VStr "evt_9"); ("initiatedBy", VDict [("user", VDict [("userPrincipalName", VStr "eve@corp")])]);
  ("targetResources", VList [VDict [("id", VStr "grp_1"); ("displayName", VStr "Admins")]])].
Definition azure_event : CanonicalEvent := Eval vm_compute in
  match (d ← normalize_audit azure_record "ten_a"; lift (settled d)) (d_draws owner_db) with
  | (Ok e, _) => e
  | _ => listing
  end.

(** A line that is JSON but no object, and a record of an unknown log, fail the batch. A record
    that also claims to be canonical passes the check, but the router reads it as what it claims
    to be. An alert with a [source] of its own is not read as a Wazuh alert; a rule identifier
    that is no number breaks the inventory. *)
Example connector_surprises :
  fst (connect (NetworkIngest {| nb_source := "zeek"; nb_events := []; nb_jsonl := Some "[]" |}))
    = Raise (TypeError "'list' object is not a mapping")
  ∧ is_ok (fst (connect (NetworkIngest (zeek_batch [[("_path", VStr "smb")]])))) = false
  ∧ (match fst (connect (NetworkIngest (zeek_batch [dns_record ++ [
        ("schema_version", VStr "1"); ("id", VStr "x"); ("source", VStr "x"); ("source_type", VStr "x")]]))) with
     | Ok d => match dget "rejected" d with Some (VList l) => length l | _ => 0%nat end
     | Raise _ => 0%nat
     end = 1%nat)
  ∧ match fst (normalize_draft [("adapter", VStr "wazuh"); ("source", VStr "x")] "ten_a" (d_draws owner_db)) with
    | Ok d => e_source (dr_event d epoch epoch) = "sysmon"
    | Raise _ => False
    end
  ∧ is_ok (alerting (set_attribute "wazuh_rule_id" (VStr "sid") listing)) = false.
Proof. vm_compute. auto. Qed.

Lemma connector_actions_never_execute_witness : ∃ d s', connect (WazuhAction (acting "kill_process" false)) = (Ok d, s')
  ∧ ∃ record, au_result record = "denied".
Proof.
  assert (is_ok (fst (connect (WazuhAction (acting "kill_process" false)))) = true) as Hok by (vm_compute; reflexivity).
  destruct (connect (WazuhAction (acting "kill_process" false))) as [[d|e] s'] eqn:E; [|discriminate Hok].
  exists d, s'. split; [reflexivity|].
  destruct (proj1 (connector_actions_never_execute (build_default_registry []) (demo_headers None) "req_1"
    (acting "kill_process" false) owner_db) d s' E) as (actor & result & record & draws & _ & _ & _ & _ & _ & _ & _ & _ & _ & Hr & _).
  exists record. exact (proj2 Hr eq_refl).
Defined.
Lemma zeek_source records : batch_source (zeek_batch records) = "zeek".
Proof. vm_compute. reflexivity. Qed.
Lemma zeek_payloads : network_payloads "zeek" (zeek_batch [dns_record]) = Ok [dset "adapter" (VStr "zeek") dns_record].
Proof. reflexivity. Qed.
Lemma network_batch_checked_witness : ∃ d s' t, connect (NetworkIngest (zeek_batch [dns_record])) = (Ok d, s')
  ∧ readable "zeek" t (dset "adapter" (VStr "zeek") dns_record).
Proof.
  assert (is_ok (fst (connect (NetworkIngest (zeek_batch [dns_record])))) = true) as Hok by (vm_compute; reflexivity).
  destruct (connect (NetworkIngest (zeek_batch [dns_record]))) as [[d|e] s'] eqn:E; [|discriminate Hok].
  destruct (proj1 (network_batch_checked (build_default_registry []) (demo_headers None) "req_1" (zeek_batch [dns_record]) owner_db) d s' E)
    as (actor & payloads & result & draws & s1 & record & _ & _ & Hp & _ & Hr & _).
  exists d, s', (ta_tenant_id actor). split; [reflexivity|]. rewrite zeek_source in Hp, Hr.
  rewrite zeek_payloads in Hp. injection Hp as <-. exact (Hr _ (list_elem_of_here _ _)).
Defined.
Lemma dumped_event_unchanged_witness : normalize_payload (event_dump azure_event) "ten_a" (d_draws owner_db)
  = (Ok azure_event, d_draws owner_db).
Proof.
  apply (dumped_event_unchanged azure_event (d_draws owner_db)); try (vm_compute; reflexivity).
  repeat constructor.
Defined.
