(* ===== verification/Yara.v ===== *)
(** * YARA engine

    Models [packages/yara-engine/blueteam_yara/engine.py]: the subset scanner, its reading of
    a rule's text, the choice between it and libYARA, and the scan of the broker. The binding
    of libYARA, the decoders of Python and the clock are parameters. *)
From S2P Require Export PyValue PyFloat.
Local Open Scope Z_scope.

(** ** What surrounds the scanner *)

Record LibYaraMatch := {
  ly_rule_id : string; ly_matched_strings : list string; ly_meta : list (string * string); ly_duration_ms : float }.
Class YaraLib := {
  libyara_available : bool;
  libyara_scan : string → string → result (option LibYaraMatch);
  unicode_escape : string → result string;  (** [bytes(s, 'utf-8').decode('unicode_escape')] *)
  b64decode : string → result string;       (** [base64.b64decode(s, validate=True)] *)
  scan_ms : string → string → float }.      (** how long the subset scan takes *)

(** ** Reading a rule *)

Fixpoint take_while (p : ascii → bool) (s : string) : string * string :=
  match s with
  | String c rest => if p c then let (w, r) := take_while p rest in (String c w, r) else ("", s)
  | EmptyString => ("", s)
  end.
Definition id_start (c : ascii) : bool := is_letter c || (code c =? 95)%N.
Definition id_char (c : ascii) : bool := id_start c || is_digit c.
Definition skip_space (s : string) : string := (take_while is_space s).2.
(** The word [rule], white space and an identifier at the start of a text, and the first
    match in a text. *)
Definition head_here (s : string) : option string :=
  if startswith s "rule" then
    let (gap, rest) := take_while is_space (str_drop 4 s) in
    match rest with
    | String c _ => if nonempty gap && id_start c then Some (take_while id_char rest).1 else None
    | EmptyString => None
    end
  else None.
Fixpoint RULE_HEAD (s : string) : option string :=
  match head_here s with
  | Some name => Some name
  | None => match s with String _ rest => RULE_HEAD rest | EmptyString => None end
  end.
(** The body of a string up to its closing quote, escaped characters included, with what
    follows. *)
Fixpoint quoted_body (s : string) : option (string * string) :=
  match s with
  | EmptyString => None
  | String c rest =>
      if Ascii.eqb c dquote_ch then Some ("", rest)
      else if (code c =? 92)%N then
        match rest with
        | String d rest' =>
            if (code d =? 10)%N then None
            else '(body, after) ← quoted_body rest'; Some (String c (String d body), after)
        | EmptyString => None
        end
      else '(body, after) ← quoted_body rest; Some (String c body, after)
  end.
(** An equals sign and an opening quote between white space, with what follows. *)
Definition assigns (s : string) : option string :=
  match skip_space s with
  | String e rest =>
      if (code e =? 61)%N then
        match skip_space rest with
        | String q rest' => if Ascii.eqb q dquote_ch then Some rest' else None
        | EmptyString => None
        end
      else None
  | EmptyString => None
  end.
(** [STRING_DEF] at the start of a text. *)
Definition definition_here (s : string) : option (string * string * string) :=
  match s with
  | String d rest =>
      if (code d =? 36)%N then
        let (name, after) := take_while (λ c, is_letter c || is_digit c || (code c =? 95)%N) rest in
        if nonempty name then
          body ← assigns after;
          '(value, after) ← quoted_body body;
          Some (name, value, after)
        else None
      else None
  | EmptyString => None
  end.
Fixpoint string_defs (fuel : nat) (s : string) : list (string * string) :=
  match fuel, s with
  | S n, String _ rest =>
      match definition_here s with
      | Some (name, value, after) => (name, value) :: string_defs n after
      | None => string_defs n rest
      end
  | _, _ => []
  end.
Definition STRING_DEF (text : string) : list (string * string) := string_defs (String.length text) text.
(** [META_LINE] at a start of line. *)
Definition meta_here (s : string) : option (string * string * string) :=
  match skip_space s with
  | String c _ as rest =>
      if id_start c then
        let (name, after) := take_while id_char rest in
        body ← assigns after;
        let (value, tail) := take_while (λ c, negb (Ascii.eqb c dquote_ch)) body in
        match tail with String _ after => Some (name, value, after) | EmptyString => None end
      else None
  | EmptyString => None
  end.
Fixpoint meta_lines (fuel : nat) (line_start : bool) (s : string) : list (string * string) :=
  match fuel, s with
  | S n, String c rest =>
      match (if line_start then meta_here s else None) with
      | Some (name, value, after) => (name, value) :: meta_lines n false after
      | None => meta_lines n (code c =? 10)%N rest
      end
  | _, _ => []
  end.
Definition last_wins {A} (l : list (string * A)) : list (string * A) := foldl (λ d kv, dset kv.1 kv.2 d) [] l.
Definition rule_metadata (text : string) : list (string * string) := last_wins (meta_lines (String.length text) true text).
(** The text after the first occurrence of a word. *)
Fixpoint after_first (word s : string) : option string :=
  if startswith s word then Some (str_drop (String.length word) s)
  else match s with String _ rest => after_first word rest | EmptyString => None end.
Definition brace : ascii := "}".
Definition condition_text (text : string) : string :=
  match after_first "condition:" text with
  | Some rest => strip (default "" (head (split_on brace rest)))
  | None => ""
  end.
Definition FORBIDDEN : list string := ["import "; "entrypoint"; "for all"; "for any"; "at "; "int8("; "uint32("].
Definition validate_rule (text : string) : result string :=
  match RULE_HEAD text with
  | None => Raise (ValueError "YARA rule must declare a rule identifier")
  | Some name =>
      if negb (contains text "strings:") || negb (contains text "condition:")
      then Raise (ValueError "YARA rule requires strings and condition sections")
      else match find_first (contains text) FORBIDDEN with
           | Some token => Raise (ValueError ("unsupported YARA feature in subset matcher: " +:+ strip token))
           | None => Ok name
           end
  end.

(** ** Scanning *)

Record YaraMatch := {
  ym_rule_id : string; ym_matched_strings : list string; ym_engine : string; ym_meta : list (string * string);
  ym_duration_ms : float; ym_rule_version : string; ym_source : string }.
Definition MAX_BYTES : Z := 8 * 1024 * 1024.
(** The UTF-8 encoding of a text of code points below 256. *)
Fixpoint utf8 (s : string) : string :=
  match s with
  | EmptyString => ""
  | String c rest =>
      if (code c <? 128)%N then String c (utf8 rest)
      else String (chr (192 + code c / 64)) (String (chr (128 + code c mod 64)) (utf8 rest))
  end.

Definition from_libyara (l : LibYaraMatch) : YaraMatch := {|
  ym_rule_id := ly_rule_id l; ym_matched_strings := ly_matched_strings l; ym_engine := "libyara"; ym_meta := ly_meta l;
  ym_duration_ms := ly_duration_ms l; ym_rule_version := default "1.0.0" (dget "version" (ly_meta l));
  ym_source := "security-languages/yara" |}.

Section scanner.
Context `{YaraLib}.
Fixpoint decoded (defs : list (string * string)) : result (list (string * string)) :=
  match defs with
  | [] => Ok []
  | (name, value) :: rest => v ← unicode_escape value; cons (name, v) <$> decoded rest
  end.
Definition _strings (text : string) : result (list (string * string)) := last_wins <$> decoded (STRING_DEF text).
(** A decoded string is in the content as UTF-8, or byte for byte. *)
Definition string_occurs (content value : string) : bool := contains content (utf8 value) || contains content value.
Definition condition_holds (condition : string) (strings : list (string * string)) (found : list string) : result bool :=
  if contains condition "all of them" then Ok (length found =? length strings)%nat
  else if contains condition "any of them" || negb (nonempty condition) then Ok (negb (bool_decide (found = [])))
  else Raise (ValueError "unsupported condition — use 'all of them' or 'any of them'").
Definition _subset_scan (content rule_text : string) : result (option YaraMatch) :=
  rule_id ← validate_rule rule_text;
  strings ← _strings rule_text;
  if bool_decide (strings = []) then Raise (ValueError "no string identifiers found")
  else
    let found := (select (λ kv, string_occurs content kv.2) strings).*1 in
    ok ← condition_holds (condition_text rule_text) strings found;
    if negb ok then Ok None
    else
      let meta := rule_metadata rule_text in
      Ok (Some {| ym_rule_id := rule_id; ym_matched_strings := found; ym_engine := "blueteam_yara.subset"; ym_meta := meta;
                  ym_duration_ms := fl_round 3 (scan_ms content rule_text);
                  ym_rule_version := default "1.0.0" (dget "version" meta); ym_source := "security-languages/yara" |}).
Definition scan_bytes (content rule_text : string) (prefer_libyara : bool) : result (option YaraMatch) :=
  if MAX_BYTES <? Z.of_nat (String.length content)
  then Raise (ValueError ("scan payload exceeds " +:+ str_of_Z MAX_BYTES +:+ " bytes"))
  else if prefer_libyara && libyara_available then
    m ← libyara_scan content rule_text;
    Ok (from_libyara <$> (m : option LibYaraMatch))
  else _subset_scan content rule_text.
(** [load_rules(root)], of the texts of its files in the order they are found. *)
Fixpoint load_rules (rules : list (string * string)) (texts : list string) : result (list (string * string)) :=
  match texts with
  | [] => Ok rules
  | text :: rest => name ← validate_rule text; load_rules (dset name text rules) rest
  end.
Definition active_engine : string := if libyara_available then "libyara" else "blueteam_yara.subset".
Definition scan_b64 (texts : list string) (params : pydict) : result pydict :=
  let rule_id := py_str (vor (dgetv "rule_id" params) (VStr "")) in
  payload ← b64decode (py_str (vor (dgetv "content_b64" params) (VStr "")));
  rules ← load_rules [] texts;
  match dget rule_id rules with
  | None => Raise (ValueError ("unknown approved YARA rule " +:+ rule_id))
  | Some text =>
      m ← scan_bytes payload text true;
      let engine := match m with Some x => ym_engine x | None => active_engine end in
      let matched := VList (VStr <$> match m with Some x => ym_matched_strings x | None => [] end) in
      Ok [("rule_id", VStr rule_id); ("filename", dgetv "filename" params);
          ("matched", VBool match m with Some _ => true | None => false end); ("matched_strings", matched);
          ("engine", VStr engine);
          ("rule_version", VStr match m with
                                | Some x => ym_rule_version x
                                | None => default "1.0.0" (dget "version" (rule_metadata text)) end);
          ("duration_ms", VFloat match m with Some x => ym_duration_ms x | None => fl_of_Z 0 end);
          ("source", VStr "security-languages/yara");
          ("evidence", match m with
                       | Some _ => VDict [("kind", VStr "yara.match"); ("rule_id", VStr rule_id); ("engine", VStr engine);
                                          ("filename", dgetv "filename" params); ("matched_strings", matched)]
                       | None => VNone
                       end)]
  end.
End scanner.

(** ** What a scan reports *)

Section scans.
Context `{YaraLib}.

(** A rule as the scanner reads it. *)
Record reads (text rule_id : string) (strings : list (string * string)) (condition : string) : Prop := {
  rd_head : RULE_HEAD text = Some rule_id;
  rd_sections : contains text "strings:" = true ∧ contains text "condition:" = true;
  rd_features : ∀ token, token ∈ FORBIDDEN → contains text token = false;
  rd_strings : _strings text = Ok strings;
  rd_condition : condition_text text = condition }.
Definition is_in (content value : string) : Prop := ∃ a b, content = a +:+ utf8 value +:+ b ∨ content = a +:+ value +:+ b.
Lemma string_occurs_spec content value : string_occurs content value = true ↔ is_in content value.
Proof.
  unfold string_occurs, is_in. rewrite orb_true_iff, !contains_spec. split.
  - intros [(a & b & Ha)|(a & b & Ha)]; exists a, b; auto.
  - intros (a & b & [Ha|Ha]); [left | right]; eauto.
Qed.
Definition every (content : string) (strings : list (string * string)) : Prop := ∀ n v, (n, v) ∈ strings → is_in content v.
Definition some_in (content : string) (strings : list (string * string)) : Prop := ∃ n v, (n, v) ∈ strings ∧ is_in content v.
Lemma validate_ok text rule_id : validate_rule text = Ok rule_id ↔
  RULE_HEAD text = Some rule_id ∧ contains text "strings:" = true ∧ contains text "condition:" = true
  ∧ ∀ token, token ∈ FORBIDDEN → contains text token = false.
Proof.
  unfold validate_rule. destruct (RULE_HEAD text) as [name|]; [|naive_solver].
  destruct (contains text "strings:"), (contains text "condition:"); cbn [negb orb]; try naive_solver.
  destruct (find_first (contains text) FORBIDDEN) as [token|] eqn:E.
  - apply find_first_Some in E as [Hin Hc]. split; [done|]. intros (_ & _ & _ & Hf). rewrite (Hf token Hin) in Hc. done.
  - split; [|naive_solver]. intros [= <-]. split_and!; try done. intros token. by apply find_first_None.
Qed.
Lemma select_true {A} (p : A → bool) l : (∀ x, x ∈ l → p x = true) → select p l = l.
Proof.
  unfold select. induction l as [|x l IH]; intros Hp; [done|]. rewrite filter_cons, decide_True by (apply Hp; by left).
  f_equal. apply IH. intros y Hy. apply Hp. by right.
Qed.
Definition found_in (content : string) (strings : list (string * string)) : list string :=
  (select (λ kv, string_occurs content kv.2) strings).*1.
Lemma found_all content strings : length (found_in content strings) = length strings ↔ every content strings.
Proof.
  unfold found_in, every. rewrite length_fmap. split.
  - intros Hl n v Hin. apply string_occurs_spec.
    assert (select (λ kv, string_occurs content kv.2) strings = strings) as Hs.
    { clear Hin. unfold select in *. induction strings as [|x l IH]; [done|]. rewrite filter_cons in Hl |- *.
      case_decide; [f_equal; apply IH; simpl in Hl; lia|].
      pose proof (length_filter (λ x : string * string, string_occurs content x.2 = true) l). simpl in Hl. lia. }
    rewrite <-Hs in Hin. by apply elem_of_select in Hin as [_ ?].
  - intros Hall. f_equal. apply select_true. intros [n v] Hin. apply string_occurs_spec. by eapply Hall.
Qed.
Lemma found_some content strings : found_in content strings ≠ [] ↔ some_in content strings.
Proof.
  unfold found_in, some_in. split.
  - destruct (select _ strings) as [|[n v] l] eqn:E; [done|]. intros _.
    assert ((n, v) ∈ select (λ kv, string_occurs content kv.2) strings) as Hin by (rewrite E; left).
    apply elem_of_select in Hin as [Hin Ho]. exists n, v. by rewrite <-string_occurs_spec.
  - intros (n & v & Hin & Ho%string_occurs_spec) He. apply fmap_nil_inv in He.
    assert ((n, v) ∈ select (λ kv, string_occurs content kv.2) strings) as Hs by (by apply elem_of_select).
    rewrite He in Hs. by apply not_elem_of_nil in Hs.
Qed.

Definition satisfied (condition content : string) (strings : list (string * string)) : Prop :=
  if contains condition "all of them" then every content strings else some_in content strings.
Definition supported (condition : string) : bool :=
  contains condition "all of them" || contains condition "any of them" || negb (nonempty condition).
(** On a rule it can read the subset scanner is exact: it matches exactly when the
    condition is satisfied, every string of the rule being in the content for [all of them],
    some string otherwise; the match names the rule, says it is the subset engine's and lists
    exactly the strings that are there. It refuses only a condition that says neither, and a
    rule without strings. *)
Theorem subset_scan_exact text rule_id strings condition content : reads text rule_id strings condition →
  match _subset_scan content text with
  | Ok (Some m) => satisfied condition content strings ∧ ym_rule_id m = rule_id ∧ ym_engine m = "blueteam_yara.subset"
      ∧ ∀ n, n ∈ ym_matched_strings m ↔ ∃ v, (n, v) ∈ strings ∧ is_in content v
  | Ok None => ¬ satisfied condition content strings ∧ strings ≠ []
  | Raise e => (strings = [] ∨ supported condition = false) ∧ ∃ message, e = ValueError message
  end.
Proof.
  intros [Hh [Hs Hc] Hf Hst Hcond]. unfold _subset_scan.
  rewrite (proj2 (validate_ok text rule_id)) by by split_and!. cbn [mbind result_bind]. rewrite Hst. cbn [mbind result_bind].
  destruct (decide (strings = [])) as [->|Hne]; [rewrite bool_decide_true by done; eauto|]. rewrite bool_decide_false by done.
  rewrite Hcond. fold (found_in content strings).
  assert (∀ n, n ∈ found_in content strings ↔ ∃ v, (n, v) ∈ strings ∧ is_in content v) as Hfound.
  { intros n. unfold found_in. rewrite list_elem_of_fmap. split.
    - intros ([n' v] & -> & [Hin Ho]%elem_of_select). exists v. by rewrite <-string_occurs_spec.
    - intros (v & Hin & Ho%string_occurs_spec). exists (n, v). split; [done|]. by apply elem_of_select. }
  unfold condition_holds, satisfied, supported. destruct (contains condition "all of them").
  - cbn [mbind result_bind]. destruct (length (found_in content strings) =? length strings)%nat eqn:El; cbn [negb].
    + apply Nat.eqb_eq, found_all in El. by split_and!.
    + apply Nat.eqb_neq in El. split; [|done]. by intros ?%found_all.
  - cbn [orb]. destruct (contains condition "any of them" || negb (nonempty condition)); [|split; [by right | by eexists]].
    cbn [mbind result_bind]. rewrite negb_involutive. case_bool_decide as He; cbn [negb].
    + split; [|done]. by intros ?%found_some.
    + apply found_some in He. by split_and!.
Qed.
End scans.

(** ** The rule of the repository *)

(** A decoder that knows no escape, as the rule uses none. *)
#[local] Instance demo_yara : YaraLib := {|
  libyara_available := false; libyara_scan := λ _ _, Raise (OtherError "ImportError"); unicode_escape := Ok;
  b64decode := Ok; scan_ms := λ _ _, fl_of_Z 1 |}.
Definition newline : string := String (chr 10) "".
Definition quote (s : string) : string := String dquote_ch (s +:+ String dquote_ch "").
(** [security-languages/yara/webshells/webshell_eval.yar] *)
Definition webshell_rule : string := join newline [
  "rule Webshell_Eval_Marker"; "{"; "    meta:"; "        author = " +:+ quote "blueteam-os";
  "        description = " +:+ quote "Common PHP webshell eval/assert markers. Subset matcher only.";
  "        version = " +:+ quote "1.0.0"; "    strings:"; "        $a = " +:+ quote "eval($_POST";
  "        $b = " +:+ quote "assert($_POST"; "        $c = " +:+ quote "eval($_GET"; "    condition:"; "        any of them"; "}"; ""].
Definition webshell_strings : list (string * string) := [("a", "eval($_POST"); ("b", "assert($_POST"); ("c", "eval($_GET")].
Lemma webshell_reads : reads webshell_rule "Webshell_Eval_Marker" webshell_strings "any of them".
Proof.
  constructor; [vm_compute; reflexivity | split; vm_compute; reflexivity | | vm_compute; reflexivity | vm_compute; reflexivity].
  assert (forallb (λ token, negb (contains webshell_rule token)) FORBIDDEN = true) as Hf by (vm_compute; reflexivity).
  intros token Hin. apply negb_true_iff. rewrite forallb_forall in Hf. by apply Hf, list_elem_of_In.
Qed.
Example webshell_metadata : dget "version" (rule_metadata webshell_rule) = Some "1.0.0"
  ∧ match scan_bytes "<?php eval($_POST['x']);" webshell_rule true with
    | Ok (Some m) => ym_matched_strings m = ["a"]
    | _ => False
    end
  ∧ scan_bytes "<?php echo 1;" webshell_rule true = Ok None.
Proof. vm_compute. auto. Qed.
(** Words of a description can be taken for features of the language. *)
Example description_refused : validate_rule ("rule r { meta: description = " +:+ quote "looks at files"
  +:+ " strings: $a = " +:+ quote "x" +:+ " condition: all of them }")
  = Raise (ValueError "unsupported YARA feature in subset matcher: at").
Proof. vm_compute. reflexivity. Qed.
Lemma subset_scan_exact_witness : ¬ satisfied "any of them" "<?php echo 1;" webshell_strings ∧ webshell_strings ≠ [].
Proof.
  assert (_subset_scan "<?php echo 1;" webshell_rule = Ok None) as E by (vm_compute; reflexivity).
  pose proof (subset_scan_exact webshell_rule "Webshell_Eval_Marker" webshell_strings "any of them" "<?php echo 1;" webshell_reads) as Hs.
  rewrite E in Hs. exact Hs.
Defined.
