(* ===== verification/DataClients.v ===== *)
(** * Clients of the data plane

    Models [packages/clickhouse-store/blueteam_clickhouse/client.py] and
    [packages/dataplane-clients/blueteam_dataplane/search.py]. What leaves the process is
    recorded: a client is a function of the effects so far, and what the other end answers
    is a parameter that may depend on all of them. *)
From S2P Require Export Catalog Normalize.
Local Open Scope Z_scope.

(** ** The world outside *)

Inductive http_body := NoBody | Content (text : string) | Json (v : pyval).
Record http_request := {
  rq_method : string; rq_url : string; rq_params : pydict; rq_body : http_body;
  rq_auth : option (string * string); rq_headers : list (string * string) }.
Record http_response := { rs_status : Z; rs_text : string; rs_content : string; rs_json : result pyval }.
(** [httpx] answers, raises an [HTTPError], or another error such as an invalid address. *)
Inductive http_outcome := Answered (r : http_response) | HTTPError (message : string) | OtherFailure (e : exn).
(** A use of the Kafka client. *)
Inductive kafka_call :=
| KConnect (timeout_ms : Z) | KCreateTopics (names : list string) | KProduce (topic key : string) (value : pydict)
| KPoll (topic group : string) (max_records : Z) | KCommit (topic group : string) | KPositions (topic : string).
(** A request, a statement run on a fresh SQLite database that holds only [rows], and a use
    of the Kafka client of a cluster. *)
Inductive outward :=
| Sent (r : http_request) | RanSqlite (sql : string) (rows : list (list pyval)) (bound : pydict)
| Kafka (bootstrap : string) (c : kafka_call).
Definition world : Type := list outward.
Class Outside := {
  answer : world → http_request → http_outcome;
  sqlite_rows : world → string → list (list pyval) → pydict → result (list pydict);
  url_credentials : string → result (option string * option string) }.  (** [urlparse] *)

Section clients.
Context `{Outside}.
Definition request (r : http_request) : M world http_response := λ w,
  match answer w r with
  | Answered a => (Ok a, w ++ [Sent r])
  | HTTPError m => (Raise (OtherError ("HTTPError: " +:+ m)), w ++ [Sent r])
  | OtherFailure e => (Raise e, w ++ [Sent r])
  end.
Definition sqlite (sql : string) (rows : list (list pyval)) (bound : pydict) : M world (list pydict) := λ w,
  (sqlite_rows w sql rows bound, w ++ [RanSqlite sql rows bound]).
(** [try: m except Exception: h] *)
Definition try_except {S A} (m : M S A) (h : exn → M S A) : M S A := λ s,
  match m s with (Raise e, s') => h e s' | r => r end.

(** ** ClickHouse *)

Definition ClickHouseUnavailable (message : string) : exn := OtherError ("ClickHouseUnavailable: " +:+ message).
Record ClickHouseClient := { ch_url : string; ch_auth : string * string }.
(** [s.rstrip(c)] of a character, and of white space then. *)
Fixpoint rstrip_char (c : ascii) (s : string) : string :=
  match s with
  | EmptyString => ""
  | String d rest => match rstrip_char c rest with
                     | EmptyString => if Ascii.eqb c d then "" else String d ""
                     | r => String d r
                     end
  end.
Definition slash : ascii := "/".
Definition semicolon : ascii := ";".
Definition _credentials (url : string) : result (string * string) :=
  '(user, password) ← url_credentials url;
  Ok (ostr (oor user (Some "blueteam")), ostr (oor password (Some "dev_only_ch"))).
Definition new_client (url : string) : result ClickHouseClient :=
  if negb (nonempty url) then Raise (ClickHouseUnavailable "BTOS_CLICKHOUSE_URL is empty")
  else auth ← _credentials url; Ok {| ch_url := rstrip_char slash url; ch_auth := auth |}.
Definition plain_get (url : string) : http_request := {|
  rq_method := "GET"; rq_url := url; rq_params := []; rq_body := NoBody; rq_auth := None; rq_headers := [] |}.
Definition ping_clickhouse (c : ClickHouseClient) : M world bool := λ w,
  let r := plain_get (ch_url c +:+ "/ping") in
  match answer w r with
  | Answered a => (Ok ((rs_status a =? 200) && (strip (rs_text a) =? "Ok.")%string), w ++ [Sent r])
  | HTTPError _ => (Ok false, w ++ [Sent r])
  | OtherFailure e => (Raise e, w ++ [Sent r])
  end.
(** [";" in sql.strip().rstrip(";")], and a word of a list in the statement. *)
Definition many_statements (sql : string) : bool := contains (rstrip_char semicolon (strip sql)) ";".
Definition any_token (tokens : list string) (sql : string) : bool := existsb (contains (lower sql)) tokens.
Definition CH_FORBIDDEN : list string := ["insert "; "update "; "delete "; "drop "; "alter "; "attach "; "truncate "].
Definition query_request (c : ClickHouseClient) (sql : string) (params : pydict) : http_request := {|
  rq_method := "GET"; rq_url := ch_url c;
  rq_params := foldl (λ d kv, dset ("param_" +:+ kv.1) kv.2 d)
                 [("query", VStr (rstrip_char semicolon (rstrip sql) +:+ " FORMAT JSON"))] params;
  rq_body := NoBody; rq_auth := Some (ch_auth c); rq_headers := [] |}.
Definition raise_for (a : http_response) : M world unit :=
  if 400 <=? rs_status a then raise (ClickHouseUnavailable (str_take 500 (rs_text a))) else mret tt.
Definition query_clickhouse (c : ClickHouseClient) (sql : string) (params : pydict) : M world (list pyval) :=
  if many_statements sql then raise (ValueError "multiple statements are forbidden")
  else if any_token CH_FORBIDDEN sql then raise (ValueError "mutating SQL is forbidden on the hunt path")
  else
    a ← request (query_request c sql params);
    raise_for a;;
    payload ← lift (rs_json a);
    d ← lift (dict_of payload);
    lift (iterate (vor (dgetv "data" d) (VList []))).
Definition post (c : ClickHouseClient) (url body : string) : http_request := {|
  rq_method := "POST"; rq_url := url; rq_params := []; rq_body := Content body; rq_auth := Some (ch_auth c);
  rq_headers := [] |}.
Definition command (c : ClickHouseClient) (sql : string) : M world string :=
  a ← request (post c (ch_url c) sql); raise_for a;; mret (rs_text a).
(** [apply_schema()], of the text of the schema file. *)
Definition apply_schema (c : ClickHouseClient) (schema : string) : M world unit :=
  foldM (λ _ statement, command c statement;; mret tt) tt (select nonempty (strip <$> split_on semicolon schema)).

(** [json.dumps(v)], with its default separators. *)
Fixpoint json_dumps (v : pyval) : string :=
  match v with
  | VList l => String "[" (join ", " (map json_dumps l) +:+ "]")
  | VDict d => String "{" (join ", " (map (λ kv, json_str kv.1 +:+ ": " +:+ json_dumps kv.2) d) +:+ "}")
  | _ => json_enc v
  end.
(** [value.replace(tzinfo=None).isoformat(sep=" ", timespec="milliseconds")] *)
Definition _ch_time (d : datetime) : string :=
  let us := dt_wall d mod day_us in
  let s := us / second in
  date_iso d +:+ " " +:+ pad 2 (s / 3600) +:+ ":" +:+ pad 2 (s / 60 mod 60) +:+ ":" +:+ pad 2 (s mod 60)
  +:+ "." +:+ pad 3 (us mod second / 1000).
(** [x.f if x else ""], [x or ""] and [n or 0]. *)
Definition part_of {A} (f : A → option string) (o : option A) : pyval := match o with Some a => vostr (f a) | None => VStr "" end.
Definition text_or (o : option string) : pyval := VStr (ostr o).
Definition port_or (o : option Z) : pyval := VInt (default 0 o).
Definition _row (event : CanonicalEvent) : pydict := [
  ("event_id", VStr (e_id event)); ("tenant_id", VStr (e_tenant_id event)); ("timestamp", VStr (_ch_time (e_timestamp event)));
  ("ingested_at", VStr (_ch_time (e_ingested_at event))); ("source", VStr (e_source event));
  ("source_type", VStr (e_source_type event)); ("event_type", VStr (e_event_type event)); ("category", VStr (e_category event));
  ("host_id", match e_host event with
              | Some h => if otrue (h_id h) then vostr (h_id h) else vostr (h_name h)
              | None => VStr ""
              end);
  ("user_id", VStr (ostr (user_name event))); ("src_ip", text_or (e_src_ip event)); ("dst_ip", text_or (e_dst_ip event));
  ("src_port", port_or (e_src_port event)); ("dst_port", port_or (e_dst_port event)); ("protocol", text_or (e_protocol event));
  ("process_name", part_of p_name (e_process event)); ("parent_process_name", part_of p_name (e_parent_process event));
  ("command_line", part_of p_command_line (e_process event)); ("domain", text_or (e_domain event)); ("url", text_or (e_url event));
  ("file_path", part_of f_path (e_file event));
  ("file_hash", if otrue (e_hash event) then vostr (e_hash event) else part_of f_hash_sha256 (e_file event));
  ("action", text_or (e_action event)); ("outcome", VStr (from_option outcome_str "" (e_outcome event)));
  ("severity", VStr (severity_str (e_severity event))); ("confidence", VFloat (e_confidence event));
  ("schema_version", VStr (e_schema_version event)); ("attributes", VStr (json_dumps (VDict (e_attributes event))));
  ("raw_reference", VStr (ostr (oor (e_raw_hash event) (Some (e_id event)))))].
Definition newline : string := String (chr 10) "".
Definition insert_events (c : ClickHouseClient) (events : list CanonicalEvent) : M world Z :=
  match events with
  | [] => mret 0
  | _ =>
      let rows := _row <$> events in
      let body := join newline ((λ row, json_dumps (VDict row)) <$> rows) in
      a ← request (post c (ch_url c +:+ "/?query=INSERT+INTO+blueteam.events+FORMAT+JSONEachRow") body);
      raise_for a;;
      mret (Z.of_nat (length rows))
  end.
Definition connect_clickhouse (url : string) : M world ClickHouseClient :=
  client ← lift (new_client url);
  up ← ping_clickhouse client;
  if up : bool then mret client else raise (ClickHouseUnavailable ("ClickHouse ping failed at " +:+ url)).

(** ** OpenSearch *)

Record OpenSearchStore := { os_url : string }.
Definition open_search (url : string) : result OpenSearchStore :=
  if negb (nonempty url) then Raise (ValueError "opensearch url empty") else Ok {| os_url := rstrip_char slash url |}.
Definition search_ping (c : OpenSearchStore) : M world bool :=
  a ← request (plain_get (os_url c)); mret (rs_status a <? 500).
(** [tenant_id[-8:]] *)
Definition index_of (tenant_id : string) : string := "btos-events-" +:+ str_drop (String.length tenant_id - 8) tenant_id.
Definition index_event (c : OpenSearchStore) (tenant_id event_id : string) (document : pydict) : M world string :=
  let index := index_of tenant_id in
  a ← request {| rq_method := "PUT"; rq_url := os_url c +:+ "/" +:+ index +:+ "/_doc/" +:+ event_id; rq_params := [];
                 rq_body := Json (VDict document); rq_auth := None; rq_headers := [] |};
  if 400 <=? rs_status a then raise (OtherError ("opensearch index failed: " +:+ str_of_Z (rs_status a))) else mret index.
Definition hit_source (hit : pyval) : result pyval := d ← dict_of hit; Ok (dget_or "_source" (VDict []) d).
Definition search_events (c : OpenSearchStore) (tenant_id text : string) (size : Z) : M world (list pyval) :=
  a ← request {| rq_method := "POST"; rq_url := os_url c +:+ "/" +:+ index_of tenant_id +:+ "/_search"; rq_params := [];
                 rq_body := Json (VDict [("size", VInt size); ("query", VDict [("query_string", VDict [("query", VStr text)])])]);
                 rq_auth := None; rq_headers := [] |};
  if 400 <=? rs_status a then mret []
  else
    payload ← lift (rs_json a);
    d ← lift (dict_of payload);
    outer ← lift (dict_of (dget_or "hits" (VDict []) d));
    hits ← lift (iterate (dget_or "hits" (VList []) outer));
    lift (mapM hit_source hits).
End clients.

(** ** What is lost *)

(** A time is written without its offset, and not converted first. *)
Example offset_lost : let a := {| dt_wall := 0; dt_offset := 0 |} in let b := {| dt_wall := 0; dt_offset := hours 2 |} in
  dt_eqb a b = false ∧ _ch_time a = _ch_time b ∧ _ch_time a = "1970-01-01 00:00:00.000".
Proof. vm_compute. auto. Qed.
(** Tenants whose identifiers end alike share an index. *)
Example index_shared : index_of "ten_alpha_12345678" = index_of "ten_beta_12345678" ∧ index_of "ten_a" = "btos-events-ten_a".
Proof. vm_compute. auto. Qed.
