(* ===== verification/SqlHunts.v ===== *)
(** * SQL hunts

    Models [packages/sql-hunts/blueteam_sql/engine.py] and the SQL routes of
    [services/api/app/api/hunts.py]: hunts are registered as files, a caller chooses one and
    gives its declared parameters, and the statement is run on ClickHouse or, when that
    fails, on an SQLite copy of the tenant's events. *)
From S2P Require Export DataClients Hunting Enrichment.
Local Open Scope Z_scope.

(** ** Registered hunts *)

(** What PyYAML reads from the files under [security-languages/sql], in the order of their
    paths. *)
Class HuntFiles := { sql_files : list pyval }.
Definition FORBIDDEN : list string :=
  ["insert "; "update "; "delete "; "drop "; "attach "; "pragma "; "alter "; "truncate "].
Definition list_hunts `{HuntFiles} : list pyval := sql_files.
Fixpoint find_hunt (query_id : string) (hunts : list pyval) : result pydict :=
  match hunts with
  | [] => Raise (ValueError ("unknown SQL hunt " +:+ query_id))
  | hunt :: rest =>
      d ← dict_of hunt;
      if is_text (Some query_id) (dgetv "id" d) then Ok d else find_hunt query_id rest
  end.
Definition describe `{HuntFiles} (query_id : string) : result pydict := find_hunt query_id list_hunts.
Definition _validate_sql (v : pyval) : result string :=
  sql ← str_of "strip" v;
  if many_statements sql then Raise (ValueError "multiple statements are forbidden")
  else if any_token FORBIDDEN sql then Raise (ValueError "mutating SQL is forbidden")
  else Ok sql.
(** [hunt["sql"]] *)
Definition sql_of (hunt : pydict) : result pyval :=
  match dget "sql" hunt with Some v => Ok v | None => Raise (KeyError "sql") end.

Section hunts.
Context `{HuntFiles} `{SetOrder} `{Outside}.

(** [set(hunt.get("parameters") or [])]; the names of parameters are strings. *)
Definition allowed_of (hunt : pydict) : result (list string) :=
  names ← iterate (vor (dgetv "parameters" hunt) (VList []));
  Ok (set_iter (sorted_set (py_str <$> names))).
(** [incoming.get(key, hunt.get("defaults", {}).get(key))] *)
Definition bound_param (hunt incoming : pydict) (key : string) : result (string * pyval) :=
  defaults ← dict_of (dget_or "defaults" (VDict []) hunt);
  Ok (key, dget_or key (dgetv key defaults) incoming).
Definition _bound_params (hunt incoming : pydict) : result pydict :=
  allowed ← allowed_of hunt;
  match select (λ k, negb (mem k allowed)) (dkeys incoming) with
  | [] => mapM (bound_param hunt incoming) allowed
  | extra => Raise (ValueError ("undeclared parameters: " +:+ py_repr (VList (VStr <$> sort_by str_le extra))))
  end.
(** [{**bound, "tenant_id": t}] for the caller's tenant or that of the first event. *)
Definition with_tenant (tenant_id : string) (events : list CanonicalEvent) (bound : pydict) : pydict :=
  if nonempty tenant_id then dset "tenant_id" (VStr tenant_id) bound
  else match events with e :: _ => dset "tenant_id" (VStr (e_tenant_id e)) bound | [] => bound end.
Definition _execute_clickhouse (hunt bound : pydict) (url : string) : M world (list pyval) :=
  statement ← lift (if vtrue (dgetv "clickhouse_sql" hunt) then Ok (dgetv "clickhouse_sql" hunt) else sql_of hunt);
  sql ← lift (_validate_sql statement);
  if contains sql ":" && negb (contains sql "{")
  then raise (ValueError "ClickHouse hunt requires clickhouse_sql with {param:Type} bindings")
  else client ← connect_clickhouse url; query_clickhouse client sql bound.
(** The row of an event in the table of the fixture. *)
Definition sqlite_row (event : CanonicalEvent) : list pyval :=
  let of_part {A} (f : A → option string) (o : option A) := vostr (a ← o; f a) in [
  VStr (e_id event); VStr (e_tenant_id event); VStr (isoformat (e_timestamp event)); VStr (isoformat (e_ingested_at event));
  VStr (e_source event); VStr (e_source_type event); VStr (e_event_type event); VStr (e_category event);
  of_part h_id (e_host event); of_part u_id (e_user event); vostr (e_src_ip event); vostr (e_dst_ip event);
  vint (e_src_port event); vint (e_dst_port event); vostr (e_protocol event); of_part p_name (e_process event);
  of_part p_name (e_parent_process event); of_part p_command_line (e_process event); vostr (e_domain event);
  vostr (e_url event); of_part f_path (e_file event);
  if otrue (e_hash event) then vostr (e_hash event) else of_part f_hash_sha256 (e_file event);
  vostr (e_action event); vostr (outcome_str <$> e_outcome event); VStr (severity_str (e_severity event));
  VFloat (e_confidence event); VStr (e_schema_version event); vostr (user_name event)].
Definition _execute_sqlite (hunt : pydict) (events : list CanonicalEvent) (bound : pydict) : M world (list pydict) :=
  statement ← lift (sql_of hunt);
  sql ← lift (_validate_sql statement);
  sqlite sql (sqlite_row <$> events) bound.
Definition hunt_answer (query_id backend : string) (rows : list pyval) : pydict :=
  [("query_id", VStr query_id); ("backend", VStr backend); ("rows", VList rows)].
Definition on_sqlite (query_id : string) (hunt : pydict) (events : list CanonicalEvent) (bound : pydict) : M world pydict :=
  rows ← _execute_sqlite hunt events bound; mret (hunt_answer query_id "sqlite-fixture" (VDict <$> rows)).
Definition execute_hunt (query_id : string) (events : list CanonicalEvent) (params : pydict) (clickhouse_url tenant_id : string)
    : M world pydict :=
  hunt ← lift (describe query_id);
  bound ← lift (_bound_params hunt params);
  let bound := with_tenant tenant_id events bound in
  if nonempty clickhouse_url
  then try_except (rows ← _execute_clickhouse hunt bound clickhouse_url; mret (hunt_answer query_id "clickhouse" rows))
         (λ _, on_sqlite query_id hunt events bound)
  else on_sqlite query_id hunt events bound.

(** ** Routes *)

Section sql_routes.
Context `{Oracle} `{AuthLib} (clickhouse_url : string).
Record SQLHuntRequest := { sq_query_id : string; sq_params : pydict }.
Definition sql_invalid {A} (r : result A) : result A :=
  match r with Raise (ValueError m) => Raise (BlueTeamError "SQL_HUNT_INVALID" m 422) | _ => r end.
Definition run_sql (body : SQLHuntRequest) (actor : TenantActor) (request_id : string) : M (process world) pydict :=
  events ← on_db (gets (load_window (ta_tenant_id actor)));
  result ← on_module (λ w, let '(r, w') := execute_hunt (sq_query_id body) events (sq_params body) clickhouse_url
                                             (ta_tenant_id actor) w in (sql_invalid r, w'));
  on_db (hunt_audit actor request_id "hunt.sql.execute" "hunt" [("query_id", VStr (sq_query_id body))]);;
  mret result.
Inductive sql_request := SqlCatalogue | RunSql (body : SQLHuntRequest).
Definition serve_sql (h : headers) (request_id : string) (req : sql_request) : M (process world) pydict :=
  in_session (
    actor ← on_db (require "hunts:execute" h request_id);
    match req with
    | SqlCatalogue => mret [("items", VList list_hunts)]
    | RunSql body => run_sql body actor request_id
    end).
End sql_routes.
End hunts.

(** ** What a hunt does outside *)

(** One statement: no semicolon but at the end. *)
Definition one_statement (sql : string) : Prop := ∃ body n,
  strip sql = body +:+ Nat.iter n (String semicolon) "" ∧ contains body ";" = false.
Lemma rstrip_char_spec c s : ∃ n, s = rstrip_char c s +:+ Nat.iter n (String c) "".
Proof.
  induction s as [|d s [n IH]]; [by exists 0%nat|]. cbn [rstrip_char]. destruct (rstrip_char c s) as [|d' r] eqn:E.
  - destruct (Ascii.eqb_spec c d) as [->|_].
    + exists (S n). cbn. by rewrite IH.
    + exists n. rewrite IH at 1. done.
  - exists n. rewrite IH at 1. done.
Qed.
Lemma many_statements_spec sql : many_statements sql = false → one_statement sql.
Proof.
  intros Hm. destruct (rstrip_char_spec semicolon (strip sql)) as [n Hn]. by exists (rstrip_char semicolon (strip sql)), n.
Qed.
Section outside.
Context `{HuntFiles} `{SetOrder} `{!SetOrderLaws _} `{Outside} `{Oracle} `{AuthLib} (clickhouse_url : string).

(** A statement of a registered hunt that is one statement without a mutating word. *)
Definition registered (sql : string) : Prop :=
  (∃ hunt, VDict hunt ∈ sql_files ∧ (dget "sql" hunt = Some (VStr sql) ∨ dget "clickhouse_sql" hunt = Some (VStr sql)))
  ∧ one_statement sql ∧ ∀ token, token ∈ FORBIDDEN → contains (lower sql) token = false.
Definition base_url : string := rstrip_char slash clickhouse_url.
(** What leaves the process for a hunt of a tenant on a window of events. *)
Definition reads_only (tenant_id : string) (window : list CanonicalEvent) (e : outward) : Prop :=
  match e with
  | Sent r => rq_method r = "GET" ∧ rq_body r = NoBody
      ∧ ((rq_url r = base_url +:+ "/ping" ∧ rq_params r = [])
         ∨ ∃ sql, registered sql ∧ rq_url r = base_url
             ∧ dget "query" (rq_params r) = Some (VStr (rstrip_char semicolon (rstrip sql) +:+ " FORMAT JSON"))
             ∧ dget "param_tenant_id" (rq_params r) = Some (VStr tenant_id))
  | RanSqlite sql rows bound =>
      registered sql ∧ rows = sqlite_row <$> window ∧ dget "tenant_id" bound = Some (VStr tenant_id)
  | Kafka _ _ => False
  end.
Definition only_reads (tenant_id : string) (window : list CanonicalEvent) (w w' : world) : Prop :=
  ∃ es, w' = w ++ es ∧ Forall (reads_only tenant_id window) es.
#[local] Instance only_reads_preorder t window : PreOrder (only_reads t window).
Proof.
  split; [intros w; exists []; by rewrite app_nil_r|]. intros a b c (es & -> & He) (es' & -> & He').
  exists (es ++ es'). rewrite app_assoc. split; [done | by apply Forall_app].
Qed.
Lemma keeps_lift_bind {S A B} (R : S → S → Prop) `{!PreOrder R} (r : result A) (k : A → M S B) :
  (∀ a, r = Ok a → keeps R (k a)) → keeps R (lift r ≫= k).
Proof. intros Hk s. unfold mbind, M_bind, lift. destruct r as [a|e]; [by apply Hk | reflexivity]. Qed.
Lemma find_hunt_ok i hunts hunt : find_hunt i hunts = Ok hunt → VDict hunt ∈ hunts.
Proof.
  induction hunts as [|v hunts IH]; [done|]. cbn [find_hunt]. intros (d & Hd & Hf)%result_bind_ok.
  destruct v; try discriminate Hd. injection Hd as ->. destruct (is_text _ _); [|right; by apply IH].
  injection Hf as ->. left.
Qed.
Lemma validated_registered hunt v sql : VDict hunt ∈ sql_files → _validate_sql v = Ok sql →
  dget "sql" hunt = Some v ∨ dget "clickhouse_sql" hunt = Some v → registered sql ∧ many_statements sql = false.
Proof.
  intros Hin (sql' & Hs & Hv)%result_bind_ok Hd. destruct v; try discriminate Hs. injection Hs as ->.
  destruct (many_statements sql') eqn:Hm; [done|]. destruct (any_token FORBIDDEN sql') eqn:Ha; [done|]. injection Hv as ->.
  split; [|done]. split; [by exists hunt|]. split; [by apply many_statements_spec|]. intros token Htok. unfold any_token in Ha.
  destruct (contains (lower sql) token) eqn:E; [|done]. exfalso. apply not_true_iff_false in Ha. apply Ha, existsb_exists.
  exists token. split; [by apply list_elem_of_In | done].
Qed.
(** The parameters bound. *)
Lemma mapM_keys {A} (f : string → result (string * A)) keys d : (∀ k x, f k = Ok x → x.1 = k) → mapM f keys = Ok d → dkeys d = keys.
Proof.
  intros Hf Hm%mapM_result_ok. unfold dkeys. induction Hm as [|k x keys d Hx Hm IH]; [done|]. cbn. by rewrite (Hf _ _ Hx), IH.
Qed.
Lemma bound_keys hunt incoming bound : _bound_params hunt incoming = Ok bound → NoDup (dkeys bound).
Proof.
  intros (allowed & Ha & Hb)%result_bind_ok. destruct (select _ _) as [|? ?]; [|done].
  assert (dkeys bound = allowed) as ->.
  { eapply mapM_keys; [|exact Hb]. intros k x (defaults & _ & [= <-])%result_bind_ok. done. }
  apply result_bind_ok in Ha as (names & _ & [= <-]). rewrite set_iter_perm. apply NoDup_remove_dups.
Qed.
Lemma query_params_get c sql params k v : NoDup (dkeys params) → dget k params = Some v →
  dget ("param_" +:+ k) (rq_params (query_request c sql params)) = Some v
  ∧ dget "query" (rq_params (query_request c sql params)) = Some (VStr (rstrip_char semicolon (rstrip sql) +:+ " FORMAT JSON")).
Proof.
  intros Hnd Hk. cbn [query_request rq_params]. pose (named := (λ kv : string * pyval, ("param_" +:+ kv.1, kv.2)) <$> params).
  set (start := [("query", _)]).
  assert (foldl (λ d kv, dset ("param_" +:+ kv.1) kv.2 d) start params = foldl (λ d kv, dset kv.1 kv.2 d) start named) as ->.
  { unfold named. clear. generalize start. induction params as [|[j x] l IH]; intros d; [done | apply IH]. }
  assert (dkeys named = (λ j, "param_" +:+ j) <$> dkeys params) as Hkeys.
  { unfold named, dkeys. rewrite <-!list_fmap_compose. done. }
  split.
  - apply dget_foldl_dset_in.
    + rewrite Hkeys. apply NoDup_fmap_2; [|done]. intros a b [= ?]. done.
    + apply list_elem_of_fmap. exists (k, v). split; [done | by apply dget_elem_of].
  - rewrite dget_foldl_other; [done|]. rewrite Hkeys. intros (j & Hj & _)%list_elem_of_fmap. discriminate Hj.
Qed.
Section tenant.
Context (tenant_id : string) (window : list CanonicalEvent).
Local Abbreviation quiet := (keeps (only_reads tenant_id window)).
Lemma quiet_effect {A} (m : M world A) e : reads_only tenant_id window e → (∀ w, snd (m w) = w ++ [e]) → quiet m.
Proof. intros He Hm w. rewrite Hm. exists [e]. split; [done | by constructor]. Qed.
Lemma quiet_connect url c : url = clickhouse_url → new_client url = Ok c → ch_url c = base_url ∧ quiet (ping_clickhouse c).
Proof.
  intros -> Hc. assert (ch_url c = base_url) as Hu.
  { unfold new_client in Hc. destruct (nonempty clickhouse_url); [|done]. cbn [negb] in Hc.
    apply result_bind_ok in Hc as (auth & _ & [= <-]). done. }
  split; [done|]. eapply (quiet_effect _ (Sent (plain_get (base_url +:+ "/ping")))); [by split; [|split; [|left]]|].
  intros w. unfold ping_clickhouse. rewrite Hu. by destruct (answer w _).
Qed.
Lemma quiet_query c sql bound : ch_url c = base_url → registered sql → NoDup (dkeys bound) →
  dget "tenant_id" bound = Some (VStr tenant_id) → quiet (query_clickhouse c sql bound).
Proof.
  intros Hu Hr Hnd Ht. unfold query_clickhouse. destruct (many_statements sql), (any_token CH_FORBIDDEN sql); try by repeat keeps_step.
  apply keeps_bind; [apply _| |].
  - apply (quiet_effect _ (Sent (query_request c sql bound))).
    + destruct (query_params_get c sql bound _ _ Hnd Ht) as [Hp Hq]. split; [done|]. split; [done|]. right. by exists sql.
    + intros w. unfold request. by destruct (answer w _).
  - intros a. unfold raise_for. repeat keeps_step.
Qed.
Lemma quiet_clickhouse hunt bound : VDict hunt ∈ sql_files → NoDup (dkeys bound) →
  dget "tenant_id" bound = Some (VStr tenant_id) → quiet (_execute_clickhouse hunt bound clickhouse_url).
Proof.
  intros Hin Hnd Ht. unfold _execute_clickhouse. apply keeps_lift_bind; [apply _|]. intros v Hv.
  apply keeps_lift_bind; [apply _|]. intros sql Hsql. destruct (contains sql ":" && negb (contains sql "{")); [repeat keeps_step|].
  assert (dget "sql" hunt = Some v ∨ dget "clickhouse_sql" hunt = Some v) as Hd.
  { unfold sql_of, dgetv in Hv. destruct (dget "clickhouse_sql" hunt) as [x|]; cbn in Hv.
    - destruct (vtrue x); [injection Hv as ->; by right|]. destruct (dget "sql" hunt); [injection Hv as ->; by left | done].
    - destruct (dget "sql" hunt); [injection Hv as ->; by left | done]. }
  destruct (validated_registered _ _ _ Hin Hsql Hd) as [Hreg _]. unfold connect_clickhouse.
  intros w. unfold mbind, M_bind, lift. destruct (new_client clickhouse_url) as [c|e] eqn:Hc; [|reflexivity].
  destruct (quiet_connect _ c eq_refl Hc) as [Hu Hp]. specialize (Hp w).
  destruct (ping_clickhouse c w) as [[[]|e] w1]; cbn in Hp |- *; [|done|done].
  etrans; [exact Hp|]. by apply quiet_query.
Qed.
Lemma quiet_sqlite i hunt bound : VDict hunt ∈ sql_files → dget "tenant_id" bound = Some (VStr tenant_id) →
  quiet (on_sqlite i hunt window bound).
Proof.
  intros Hin Ht. unfold on_sqlite, _execute_sqlite. apply keeps_bind; [apply _| |intros rows; keeps_step].
  apply keeps_lift_bind; [apply _|]. intros v Hv. apply keeps_lift_bind; [apply _|]. intros sql Hsql.
  unfold sql_of in Hv. destruct (dget "sql" hunt) as [x|] eqn:Hd; [|done]. injection Hv as ->.
  destruct (validated_registered _ _ _ Hin Hsql (or_introl Hd)) as [Hreg _].
  by apply (quiet_effect _ (RanSqlite sql (sqlite_row <$> window) bound)).
Qed.
Lemma quiet_execute i params : nonempty tenant_id = true → quiet (execute_hunt i window params clickhouse_url tenant_id).
Proof.
  intros Hne. unfold execute_hunt. apply keeps_lift_bind; [apply _|]. intros hunt Hh%find_hunt_ok.
  apply keeps_lift_bind; [apply _|]. intros bound Hb%bound_keys. unfold with_tenant. rewrite Hne.
  set (b := dset "tenant_id" (VStr tenant_id) bound). assert (NoDup (dkeys b)) as Hnd by by apply NoDup_dset.
  assert (dget "tenant_id" b = Some (VStr tenant_id)) as Ht by apply dget_dset_eq.
  destruct (nonempty clickhouse_url); [|by apply quiet_sqlite]. intros w. unfold try_except.
  pose proof (keeps_bind _ _ (λ rows, mret (hunt_answer i "clickhouse" rows)) (quiet_clickhouse hunt b Hh Hnd Ht)
    (λ rows, keeps_pure _ (Ok _)) w) as Hk.
  set (m := _execute_clickhouse _ _ _ ≫= _) in *. destruct (m w) as [[d|e] w1]; cbn in Hk; [exact Hk|].
  etrans; [exact Hk | by apply quiet_sqlite].
Qed.
End tenant.

Lemma run_sql_quiet body actor rid p : ta_tenant_id actor ≠ "" →
  only_reads (ta_tenant_id actor) (load_window (ta_tenant_id actor) (pr_db p)) (pr_module p)
    (pr_module (snd (run_sql clickhouse_url body actor rid p))).
Proof.
  intros Hne%nonempty_spec. set (t := ta_tenant_id actor) in *. set (window := load_window t (pr_db p)).
  pose proof (quiet_execute t window (sq_query_id body) (sq_params body) Hne (pr_module p)) as Hk.
  unfold run_sql, mbind, M_bind, on_db at 1, gets, on_module. fold t window. cbn [pr_module].
  destruct (execute_hunt _ _ _ _ _ _) as [r w] in Hk |- *. cbn in Hk |- *. destruct (sql_invalid r) as [d|e]; [|exact Hk].
  unfold on_db. cbn. by destruct (hunt_audit _ _ _ _ _ _) as [[a|e] s'].
Qed.
Lemma run_sql_db body actor rid p d p' : run_sql clickhouse_url body actor rid p = (Ok d, p') →
  ∃ recs, hunted recs [] (pr_db p) (pr_db p') ∧ length recs = 1%nat ∧ mine actor recs [].
Proof.
  intros He. inv_bind He. apply on_db_ok in Ha as [[= _ Hs1] Hm1]. inv_bind He. apply on_module_ok in Ha as [_ Hs2].
  inv_bind He. injection He as -> <-. apply on_db_ok in Ha as [Hau _]. rewrite Hs2, <-Hs1 in Hau.
  eapply (hunt_end "user" actor rid _ _ _ _ [] _ _ d d); [apply hunted_same | constructor|].
  unfold hunt_audit, audit_user in Hau. by rewrite (M_bind_eval _ _ _ _ _ Hau).
Qed.
(** C24. Whatever a caller asks of the SQL hunts, and however it ends, all that leaves the
    process are plain readings of ClickHouse and runs on a private SQLite copy; every statement is
    one a registered hunt has, is one statement, has none of the mutating words, and is bound
    to the tenant the caller is authorised for; the copy has exactly that tenant's window.
    Without authorisation nothing leaves, and the database is not changed except for the
    audit record of a success. *)
Theorem sql_hunts_only_read h rid req p r p' : serve_sql clickhouse_url h rid req p = (r, p') →
  (pr_module p' = pr_module p
   ∨ ∃ actor, authorised h (pr_db p) (ta_tenant_id actor) "hunts:execute" (ta_actor actor)
       ∧ (ta_tenant_id actor ≠ "" → only_reads (ta_tenant_id actor) (load_window (ta_tenant_id actor) (pr_db p))
            (pr_module p) (pr_module p')))
  ∧ match r with
    | Ok _ => ∃ actor recs, authorised h (pr_db p) (ta_tenant_id actor) "hunts:execute" (ta_actor actor)
        ∧ hunted recs [] (pr_db p) (pr_db p') ∧ mine actor recs []
        ∧ length recs = match req with RunSql _ => 1%nat | SqlCatalogue => 0%nat end
    | Raise _ => pr_db p' = set_draws (λ _, d_draws (pr_db p')) (pr_db p)
    end.
Proof.
  intros He. split.
  - unfold serve_sql, in_session, mbind, M_bind, on_db at 1 in He.
    destruct (require "hunts:execute" h rid (pr_db p)) as [[actor|e] s1] eqn:Er; [|injection He as _ <-; by left].
    apply require_ok in Er as (-> & Hauth & _). destruct req as [|body]; [injection He as _ <-; by left|].
    right. exists actor. split; [done|]. intros Hne. destruct p as [s w].
    pose proof (run_sql_quiet body actor rid {| pr_db := s; pr_module := w |} Hne) as Hq. cbn [pr_db pr_module] in *.
    destruct (run_sql _ _ _ _ _) as [[d|e] p1] in He, Hq; by injection He as _ <-.
  - destruct r as [d|e]; [|by eapply session_raise].
    apply session_ok in He as (p1 & He & Hdb & _). inv_bind He. apply on_db_ok in Ha as [Hr Hm].
    apply require_ok in Hr as (Hs & Hauth & _). exists a. destruct req as [|body].
    + injection He as _ <-. exists []. split; [done|]. split; [|split; [by split; constructor | done]].
      rewrite Hdb, Hs. unfold hunted. rewrite flush_idem. exact (hunted_same (pr_db p)).
    + apply run_sql_db in He as (recs & Hh & Hl & Hmine). exists recs. rewrite Hs in Hh. split; [done|]. split; [|done].
      rewrite Hdb. unfold hunted in *. rewrite flush_idem. exact Hh.
Qed.
End outside.

(** ** A registered hunt *)

#[local] Instance demo_oracle : Oracle :=
  {| uuid_hex := λ n, str_of_nat n; clock := λ n, utc 20000 (3600 * Z.of_nat n) |}.
#[local] Instance demo_auth : AuthLib := {|
  jwt_encode := λ _, "t"; bcrypt_check := λ _ _, true;
  jwt_decode := λ t, if (t =? "t")%string then Some [("sub", VStr "usr_1")] else None |}.
#[local] Instance demo_order : SetOrder := {| set_iter := remove_dups |}.
#[local] Instance demo_order_laws : SetOrderLaws demo_order.
Proof. constructor. intros l. reflexivity. Qed.
(** A server that is up and answers one row, and an SQLite that is not asked. *)
#[local] Instance demo_outside : Outside := {|
  answer := λ _ r, Answered (if nonempty (ostr (match dgetv "query" (rq_params r) with VStr q => Some q | _ => None end))
    then {| rs_status := 200; rs_text := ""; rs_content := ""; rs_json := Ok (VDict [("data", VList [VDict [("n", VInt 1)]])]) |}
    else {| rs_status := 200; rs_text := "Ok." +:+ DataClients.newline; rs_content := ""; rs_json := Raise (ValueError "json") |});
  sqlite_rows := λ _ _ _ _, Ok []; url_credentials := λ _, Ok (None, None) |}.
(** [security-languages/sql/telemetry-health/volume_drop.yaml] *)
Definition volume_sql : string := "SELECT category, COUNT(*) AS event_count FROM events GROUP BY category".
#[local] Instance demo_files : HuntFiles := {| sql_files := [VDict [
  ("id", VStr "sql.telemetry.volume"); ("parameters", VList []); ("defaults", VDict []); ("sql", VStr volume_sql);
  ("clickhouse_sql", VStr ("SELECT category, count() AS event_count FROM blueteam.events "
     +:+ "WHERE tenant_id = {tenant_id:String} GROUP BY category"))]] |}.
Definition hunt_process : process world := {| pr_db := Access.demo_db; pr_module := [] |}.
Local Abbreviation volume_hunt url params :=
  (serve_sql url (demo_headers None) "req_1" (RunSql {| sq_query_id := "sql.telemetry.volume"; sq_params := params |}) hunt_process).
Example volume_on_clickhouse :
  fst (volume_hunt "http://ch:8123/" []) = Ok (hunt_answer "sql.telemetry.volume" "clickhouse" [VDict [("n", VInt 1)]])
  ∧ fst (volume_hunt "" []) = Ok (hunt_answer "sql.telemetry.volume" "sqlite-fixture" [])
  ∧ fst (volume_hunt "" [("limit", VInt 3)])
    = Raise (BlueTeamError "SQL_HUNT_INVALID" "undeclared parameters: ['limit']" 422).
Proof. vm_compute. auto. Qed.
(** The words are looked for with a space after them: another white space hides them. *)
Definition tab : string := String (chr 9) "".
Example tab_hides_a_word : _validate_sql (VStr ("DROP" +:+ tab +:+ "TABLE events")) = Ok ("DROP" +:+ tab +:+ "TABLE events")
  ∧ _validate_sql (VStr "DROP TABLE events") = Raise (ValueError "mutating SQL is forbidden")
  ∧ _validate_sql (VStr "SELECT 1; SELECT 2;") = Raise (ValueError "multiple statements are forbidden").
Proof. vm_compute. auto. Qed.
Lemma sql_hunts_only_read_witness : ∃ actor es, pr_module (snd (volume_hunt "http://ch:8123/" [])) = es
  ∧ authorised (demo_headers None) Access.demo_db (ta_tenant_id actor) "hunts:execute" (ta_actor actor)
  ∧ (ta_tenant_id actor ≠ "" → Forall (reads_only "http://ch:8123/" (ta_tenant_id actor) []) es).
Proof.
  destruct (volume_hunt "http://ch:8123/" []) as [r p'] eqn:E.
  assert (length (pr_module (snd (volume_hunt "http://ch:8123/" []))) = 2%nat) as Hl by (vm_compute; reflexivity).
  rewrite E in Hl. cbn [snd] in Hl |- *.
  destruct (sql_hunts_only_read "http://ch:8123/" _ _ _ _ _ _ E) as [[Hsame|(actor & Hauth & Hr)] _].
  - exfalso. rewrite Hsame in Hl. discriminate Hl.
  - exists actor, (pr_module p'). split; [reflexivity|]. split; [exact Hauth|]. intros Hne.
    destruct (Hr Hne) as (es & -> & Hf). exact Hf.
Defined.
