(* ===== verification/ObjectStore.v ===== *)
(** * Object store

    Models [packages/object-store/blueteam_objects/store.py]: objects in a directory of the
    local file system or behind the interface of S3. The file system is a map from absolute
    paths to directories and files, without symbolic links, in which the process has a
    working directory. *)
From S2P Require Export DataClients.
Local Open Scope Z_scope.

(** ** Files *)

Inductive fnode := Directory | FileOf (bytes : string).
Abbreviation files := (gmap (list string) fnode).
Definition OSError (name : string) : exn := OtherError name.

(** A path of [pathlib]: parts that are empty or a dot are dropped, two dots are kept. *)
Record path := { pa_absolute : bool; pa_parts : list string }.
Definition real_part (w : string) : bool := nonempty w && negb (w =? ".")%string.
Definition parts_of (s : string) : list string := select real_part (split_on slash s).
Definition path_of (s : string) : path := {| pa_absolute := startswith s "/"; pa_parts := parts_of s |}.
(** [p / s] *)
Definition join_path (p : path) (s : string) : path :=
  if startswith s "/" then path_of s else {| pa_absolute := pa_absolute p; pa_parts := pa_parts p ++ parts_of s |}.
Definition up (d : list string) : list string := removelast d.
Definition is_up (n : string) : bool := (n =? "..")%string.

(** [path.mkdir(parents=True, exist_ok=True)] below a directory, which is returned. *)
Fixpoint make_dirs (d : list string) (names : list string) : M files (list string) :=
  match names with
  | [] => mret d
  | n :: rest =>
      if is_up n then make_dirs (up d) rest
      else
        fs ← get;
        match fs !! (d ++ [n]) with
        | Some Directory => make_dirs (d ++ [n]) rest
        | Some (FileOf _) => raise (OSError (if bool_decide (rest = []) then "FileExistsError" else "NotADirectoryError"))
        | None => modify <[d ++ [n] := Directory]>;; make_dirs (d ++ [n]) rest
        end
  end.
(** The directory some names lead to. *)
Fixpoint walk (d : list string) (names : list string) (fs : files) : result (list string) :=
  match names with
  | [] => Ok d
  | n :: rest =>
      if is_up n then walk (up d) rest fs
      else match fs !! (d ++ [n]) with
           | Some Directory => walk (d ++ [n]) rest fs
           | Some (FileOf _) => Raise (OSError "NotADirectoryError")
           | None => Raise (OSError "FileNotFoundError")
           end
  end.

Section store.
Context (cwd : list string).
Definition start (p : path) : list string := if pa_absolute p then [] else cwd.
Definition mkdir (p : path) : M files unit := make_dirs (start p) (pa_parts p);; mret tt.
Definition parent (p : path) : path := {| pa_absolute := pa_absolute p; pa_parts := removelast (pa_parts p) |}.
Definition write_bytes (p : path) (payload : string) : M files unit :=
  match last (pa_parts p) with
  | None => raise (OSError "IsADirectoryError")
  | Some name =>
      fs ← get;
      d ← lift (walk (start p) (pa_parts (parent p)) fs);
      if is_up name then raise (OSError "IsADirectoryError")
      else match fs !! (d ++ [name]) with
           | Some Directory => raise (OSError "IsADirectoryError")
           | _ => modify <[d ++ [name] := FileOf payload]>
           end
  end.
Definition read_bytes (p : path) (fs : files) : result string :=
  match last (pa_parts p) with
  | None => Raise (OSError "IsADirectoryError")
  | Some name =>
      d ← walk (start p) (pa_parts (parent p)) fs;
      if is_up name then Raise (OSError "IsADirectoryError")
      else match fs !! (d ++ [name]) with
           | Some (FileOf b) => Ok b
           | Some Directory => Raise (OSError "IsADirectoryError")
           | None => Raise (OSError "FileNotFoundError")
           end
  end.

(** ** The stores *)

(** What a process of the data plane shares. *)
Record machine := { mc_draws : draws; mc_files : files; mc_world : world }.
Definition on_files {A} (m : M files A) : M machine A := λ s,
  let (r, fs) := m (mc_files s) in (r, {| mc_draws := mc_draws s; mc_files := fs; mc_world := mc_world s |}).
Definition on_world {A} (m : M world A) : M machine A := λ s,
  let (r, w) := m (mc_world s) in (r, {| mc_draws := mc_draws s; mc_files := mc_files s; mc_world := w |}).

Record ObjectRef := {
  or_object_id : string; or_uri : string; or_sha256 : string; or_bytes_written : Z; or_backend : string }.
Definition backslash : ascii := chr 92.
(** [sha256_hex] of bytes. *)
Definition sha256_bytes (payload : string) : string :=
  Sha256.hexdigest (Sha256.digest (code <$> list_ascii_of_string payload)).
Fixpoint lstrip_char (c : ascii) (s : string) : string :=
  match s with String d rest => if Ascii.eqb c d then lstrip_char c rest else s | EmptyString => "" end.

Record LocalObjectStore := { lo_root : path }.
Definition local_store (root : string) : M files LocalObjectStore :=
  mkdir (path_of root);; mret {| lo_root := path_of root |}.
Definition safe_key (key : string) : string := lstrip_char slash (replace_char backslash "/" key).
Definition object_path (st : LocalObjectStore) (tenant_id key : string) : path :=
  join_path (join_path (lo_root st) tenant_id) (safe_key key).
Definition local_get (st : LocalObjectStore) (uri : string) (fs : files) : result string :=
  if negb (startswith uri "local://") then Raise (ValueError "not a local object uri")
  else read_bytes (join_path (lo_root st) (str_drop 8 uri)) fs.
Definition local_ping (st : LocalObjectStore) : M files bool :=
  mkdir (lo_root st);;
  let probe := join_path (lo_root st) ".health" in
  write_bytes probe "ok";;
  fs ← get;
  text ← lift (read_bytes probe fs);
  mret (text =? "ok")%string.

Record S3ObjectStore := { s3_endpoint : string; s3_bucket : string; s3_access_key : string; s3_secret_key : string }.
Definition s3_store (endpoint bucket access_key secret_key : string) : result S3ObjectStore :=
  if negb (nonempty endpoint) || negb (nonempty access_key) || negb (nonempty secret_key)
  then Raise (ValueError "s3 endpoint and credentials are required")
  else Ok {| s3_endpoint := rstrip_char slash endpoint; s3_bucket := bucket; s3_access_key := access_key;
             s3_secret_key := secret_key |}.
Definition s3_url (st : S3ObjectStore) (key : string) : string := s3_endpoint st +:+ "/" +:+ s3_bucket st +:+ "/" +:+ key.
Definition _unsigned_hint (secret : string) : string := str_take 16 (sha256_hex secret).

Section stores.
Context `{Oracle} `{Outside}.
Definition new_id_machine : string → M machine string :=
  new_id mc_draws (λ d s, {| mc_draws := d; mc_files := mc_files s; mc_world := mc_world s |}).
Definition local_put (st : LocalObjectStore) (tenant_id key payload : string) : M machine ObjectRef :=
  let digest := sha256_bytes payload in
  let p := object_path st tenant_id key in
  on_files (mkdir (parent p));;
  on_files (write_bytes p payload);;
  i ← new_id_machine "obj";
  mret {| or_object_id := i; or_uri := "local://" +:+ tenant_id +:+ "/" +:+ safe_key key; or_sha256 := digest;
          or_bytes_written := Z.of_nat (String.length payload); or_backend := "local" |}.
Definition s3_put (st : S3ObjectStore) (tenant_id key payload content_type : string) : M machine ObjectRef :=
  let object_key := tenant_id +:+ "/" +:+ key in
  let digest := sha256_bytes payload in
  a ← on_world (request {| rq_method := "PUT"; rq_url := s3_url st object_key; rq_params := []; rq_body := Content payload;
        rq_auth := None;
        rq_headers := [("Content-Type", content_type); ("x-amz-content-sha256", digest);
          ("Authorization", "AWS " +:+ s3_access_key st +:+ ":" +:+ _unsigned_hint (s3_secret_key st))] |});
  if 400 <=? rs_status a then raise (OtherError ("s3 put failed: " +:+ str_of_Z (rs_status a)))
  else
    i ← new_id_machine "obj";
    mret {| or_object_id := i; or_uri := "s3://" +:+ s3_bucket st +:+ "/" +:+ object_key; or_sha256 := digest;
            or_bytes_written := Z.of_nat (String.length payload); or_backend := "s3" |}.
(** What follows the first occurrence of a text, or all of it: [s.split(t, 1)[-1]]. *)
Fixpoint after_text (t s : string) : option string :=
  if startswith s t then Some (str_drop (String.length t) s)
  else match s with String _ rest => after_text t rest | EmptyString => None end.
Definition s3_key (st : S3ObjectStore) (uri : string) : string :=
  if startswith uri "s3://" then default uri (after_text ("s3://" +:+ s3_bucket st +:+ "/") uri) else uri.
Definition s3_get (st : S3ObjectStore) (uri : string) : M world string :=
  a ← request (plain_get (s3_url st (s3_key st uri)));
  if (200 <=? rs_status a) && (rs_status a <? 300) then mret (rs_content a) else raise (OtherError "HTTPStatusError").
Definition s3_ping (st : S3ObjectStore) : M world bool :=
  a ← request (plain_get (s3_endpoint st +:+ "/" +:+ s3_bucket st)); mret (rs_status a <? 500).

Inductive ObjectStore := Local (st : LocalObjectStore) | S3 (st : S3ObjectStore).
Definition DEFAULT_ROOT : string := "./data/objects".
(** [open_store(...)]; [url_path] is [urlparse(root).path]. *)
Definition open_store (url_path : string → result string) (root endpoint bucket access_key secret_key : string) : M machine ObjectStore :=
  if nonempty endpoint && nonempty access_key && nonempty secret_key
  then st ← lift (s3_store endpoint (if nonempty bucket then bucket else "blueteam-evidence") access_key secret_key); mret (S3 st)
  else
    let where_ := if nonempty root then root else DEFAULT_ROOT in
    parsed ← lift (url_path where_);
    st ← on_files (local_store (if nonempty parsed then parsed else where_));
    mret (Local st).
Definition put_object (store : ObjectStore) (tenant_id key payload : string) : M machine ObjectRef :=
  match store with
  | Local st => local_put st tenant_id key payload
  | S3 st => s3_put st tenant_id key payload "application/json"
  end.
End stores.
End store.

(** ** What a put leaves behind *)

(** Where some names lead, were they all directories. *)
Definition lexical (d : list string) (names : list string) : list string :=
  foldl (λ d n, if is_up n then up d else d ++ [n]) d names.
(** More directories and the same files. *)
Lemma dir_weaken (fs fs' : files) p x : fs ⊆ fs' → fs !! p = Some x → fs' !! p = Some x.
Proof. intros Hs E. exact (lookup_weaken fs fs' p x E Hs). Qed.
Definition more_dirs (fs fs' : files) : Prop :=
  fs ⊆ fs' ∧ ∀ p b, fs' !! p = Some (FileOf b) → fs !! p = Some (FileOf b).
#[local] Instance more_dirs_preorder : PreOrder more_dirs.
Proof.
  split; [intros fs; by split|]. intros a b c [H1 H2] [H3 H4]. split; [by etrans|]. intros p x Hp. by apply H2, H4.
Qed.
Lemma more_make d names : keeps more_dirs (make_dirs d names).
Proof.
  revert d. induction names as [|n rest IH]; intros d; cbn [make_dirs]; [keeps_step|]. destruct (is_up n); [apply IH|].
  intros fs. unfold mbind, M_bind, get. destruct (fs !! (d ++ [n])) as [[|b]|] eqn:E; [apply IH | reflexivity |].
  cbn. etrans; [|apply IH]. split; [by apply insert_subseteq|]. intros p b [[_ ?]|[_ Hp]]%lookup_insert_Some; done.
Qed.
Lemma walk_more d names fs fs' d' : fs ⊆ fs' → walk d names fs = Ok d' → walk d names fs' = Ok d'.
Proof.
  intros Hs. revert d. induction names as [|n rest IH]; intros d; cbn [walk]; [done|]. destruct (is_up n); [apply IH|].
  destruct (fs !! (d ++ [n])) as [[|b]|] eqn:E; try done. rewrite (dir_weaken _ _ _ _ Hs E). apply IH.
Qed.
Lemma make_walk d names fs d' fs' : make_dirs d names fs = (Ok d', fs') → walk d names fs' = Ok d' ∧ d' = lexical d names.
Proof.
  revert d fs. induction names as [|n rest IH]; intros d fs; cbn [make_dirs walk].
  { intros [= <- <-]. done. }
  unfold lexical. cbn [foldl]. destruct (is_up n); [apply IH|]. unfold mbind, M_bind, get.
  destruct (fs !! (d ++ [n])) as [[|b]|] eqn:E; [|done|]; intros He.
  - pose proof (more_make (d ++ [n]) rest fs) as [Hm _]. rewrite He in Hm. cbn [snd] in Hm. rewrite (dir_weaken _ _ _ _ Hm E).
    by eapply IH.
  - cbn in He. pose proof (more_make (d ++ [n]) rest (<[d ++ [n] := Directory]> fs)) as [Hm _]. rewrite He in Hm. cbn [snd] in Hm.
    rewrite (dir_weaken _ _ (d ++ [n]) Directory Hm) by by rewrite lookup_insert_eq. by eapply IH.
Qed.
Lemma walk_write d names fs d' p b : fs !! p ≠ Some Directory → walk d names fs = Ok d' →
  walk d names (<[p := FileOf b]> fs) = Ok d'.
Proof.
  intros Hp. revert d. induction names as [|n rest IH]; intros d; cbn [walk]; [done|]. destruct (is_up n); [apply IH|].
  destruct (fs !! (d ++ [n])) as [[|c]|] eqn:E; try done. rewrite lookup_insert_ne by congruence. rewrite E. apply IH.
Qed.
Lemma write_read cwd p payload fs fs' : write_bytes cwd p payload fs = (Ok tt, fs') →
  read_bytes cwd p fs' = Ok payload
  ∧ ∃ name d, last (pa_parts p) = Some name ∧ is_up name = false ∧ walk (start cwd p) (pa_parts (parent p)) fs = Ok d
      ∧ fs' = <[d ++ [name] := FileOf payload]> fs.
Proof.
  unfold write_bytes, read_bytes. destruct (last (pa_parts p)) as [name|]; [|done]. intros He. inv_bind He. injection Ha as <- <-.
  apply M_bind_ok in He as (d & fs1 & [= Hw <-] & He). destruct (is_up name) eqn:Hn; [done|].
  destruct (fs !! (d ++ [name])) as [[|c]|] eqn:E; [done| |]; injection He as <-.
  all: rewrite (walk_write _ _ _ d) by (done || congruence); cbn [mbind result_bind]; rewrite lookup_insert_eq; split; [done|]; by exists name, d.
Qed.

(** ** Paths *)

Lemma split_on_app c a b : split_on c (a +:+ String c b) = split_on c a ++ split_on c b.
Proof.
  induction a as [|x a IH]; cbn; [by rewrite Ascii.eqb_refl|]. destruct (Ascii.eqb x c); [by rewrite IH|]. rewrite IH.
  destruct (split_on c a) as [|w ws] eqn:E; [|done]. exfalso. destruct a as [|y a]; [done|]. cbn in E. destruct (Ascii.eqb y c); [done|].
  by destruct (split_on c a).
Qed.
Lemma parts_app a b : parts_of (a +:+ "/" +:+ b) = parts_of a ++ parts_of b.
Proof. unfold parts_of. change ("/" +:+ b) with (String slash b). rewrite split_on_app. apply filter_app. Qed.
Lemma safe_relative key : startswith (safe_key key) "/" = false.
Proof.
  unfold safe_key. generalize (replace_char backslash "/" key). intros s. induction s as [|c s IH]; [done|]. cbn [lstrip_char].
  destruct (Ascii.eqb_spec slash c) as [|Hne]; [done|]. unfold startswith, String.prefix.
  by destruct (Ascii.ascii_dec "/" c) as [E|E].
Qed.
Lemma starts_slash t s : t ≠ "" → startswith (t +:+ s) "/" = startswith t "/".
Proof.
  destruct t as [|c t]; [done|]. intros _. change (String c t +:+ s) with (String c (t +:+ s)). unfold startswith. cbn [String.prefix].
  destruct (Ascii.ascii_dec "/" c); [|done]. by destruct (t +:+ s), t.
Qed.
Lemma object_path_uri st t key : t ≠ "" → join_path (lo_root st) (t +:+ "/" +:+ safe_key key) = object_path st t key.
Proof.
  intros Ht. unfold object_path, join_path. rewrite safe_relative, (starts_slash t _ Ht).
  destruct (startswith t "/") eqn:E; unfold path_of; cbn [pa_absolute pa_parts]; rewrite parts_app; [|by rewrite app_assoc].
  by rewrite (starts_slash t _ Ht), E.
Qed.

(** ** Round trip and confinement *)

Lemma local_prefix s : startswith ("local://" +:+ s) "local://" = true.
Proof. unfold startswith. cbn. by destruct s. Qed.
Lemma local_rest s : str_drop 8 ("local://" +:+ s) = s.
Proof. by destruct s. Qed.
Section round_trip.
Context (cwd : list string) `{Oracle} `{Outside}.
(** An identifier that is one name of a directory. *)
Definition plain (t : string) : Prop := parts_of t = [t] ∧ is_up t = false ∧ startswith t "/" = false.
Definition no_up (names : list string) : Prop := Forall (λ n, is_up n = false) names.
Lemma lexical_app d a b : lexical d (a ++ b) = lexical (lexical d a) b.
Proof. apply foldl_app. Qed.
Lemma lexical_down d names : no_up names → lexical d names = d ++ names.
Proof.
  unfold lexical. intros Hn. revert d. induction Hn as [|n names Hn _ IH]; intros d; cbn [foldl]; [by rewrite app_nil_r|].
  rewrite Hn, IH. exact (eq_sym (app_assoc d [n] names)).
Qed.
(** The directory of a store. *)
Definition base_dir (st : LocalObjectStore) : list string := lexical (start cwd (lo_root st)) (pa_parts (lo_root st)).
Lemma last_removelast (l : list string) x : last l = Some x → removelast l ++ [x] = l.
Proof. intros (l' & ->)%last_Some. by rewrite removelast_last. Qed.
Definition same_files (fs fs' : files) : Prop := ∀ q b, fs' !! q = Some (FileOf b) ↔ fs !! q = Some (FileOf b).
Lemma more_same fs fs' : more_dirs fs fs' → same_files fs fs'.
Proof. intros [Hs Hf] q b. split; [apply Hf | by apply dir_weaken]. Qed.
Lemma plain_file st t key : plain t → no_up (parts_of (safe_key key)) → ∀ name, last (pa_parts (object_path st t key)) = Some name →
  (base_dir st ++ [t]) `prefix_of` (lexical (start cwd (object_path st t key)) (pa_parts (parent (object_path st t key))) ++ [name]).
Proof.
  intros (Hp & Hu & Hr) Hk name. unfold object_path, join_path. rewrite safe_relative, Hr. unfold parent, start. cbn [pa_parts pa_absolute].
  rewrite Hp, <-app_assoc. set (tail := [t] ++ parts_of (safe_key key)). intros Hl.
  assert (no_up tail) as Ht by by constructor. unfold base_dir.
  assert (tail ≠ []) as Hne by done. rewrite (removelast_app _ Hne), lexical_app.
  rewrite last_app in Hl. destruct (last tail) as [x|] eqn:El; [|by apply last_None in El]. injection Hl as ->.
  rewrite (lexical_down _ (removelast tail)).
  - rewrite <-app_assoc, (last_removelast _ _ El). unfold tail, start. rewrite app_assoc. apply prefix_app_r. reflexivity.
  - rewrite <-(last_removelast _ _ El) in Ht. by apply Forall_app in Ht as [? _].
Qed.
(** C23. An object put in the local store, under any tenant with a name and any key, is there
    to be got by its address, byte for byte, with its digest and size on the reference; no
    other file changes, and whatever fails changes no file at all. If the tenant is a plain name and
    the key has no two dots the file lies in the tenant's directory of the store. *)
Theorem object_roundtrip st t key payload m r m' : local_put cwd st t key payload m = (r, m') →
  mc_world m' = mc_world m ∧
  match r with
  | Ok ref => or_sha256 ref = sha256_bytes payload ∧ or_bytes_written ref = Z.of_nat (String.length payload)
      ∧ (t ≠ "" → local_get cwd st (or_uri ref) (mc_files m') = Ok payload)
      ∧ ∃ p, mc_files m' !! p = Some (FileOf payload)
          ∧ (∀ q b, q ≠ p → mc_files m' !! q = Some (FileOf b) ↔ mc_files m !! q = Some (FileOf b))
          ∧ (plain t → no_up (parts_of (safe_key key)) → (base_dir st ++ [t]) `prefix_of` p)
  | Raise _ => ∀ q b, mc_files m' !! q = Some (FileOf b) ↔ mc_files m !! q = Some (FileOf b)
  end.
Proof.
  unfold local_put, mkdir. intros He. set (p := object_path st t key) in *.
  unfold mbind, M_bind, on_files at 1, mret at 1, M_ret in He.
  pose proof (more_make (start cwd (parent p)) (pa_parts (parent p)) (mc_files m)) as Hm.
  destruct (make_dirs _ _ (mc_files m)) as [[d|e] fs1] eqn:Emk; cbn [snd] in Hm.
  2:{ injection He as <- <-. split; [done|]. by apply more_same. }
  apply make_walk in Emk as [Hwalk Hd]. unfold on_files at 1 in He. cbn [mc_files mc_draws mc_world] in He.
  destruct (write_bytes cwd p payload fs1) as [[[]|e] fs2] eqn:Ew.
  2:{ injection He as <- <-. split; [done|]. cbn [mc_files].
      assert (fs2 = fs1) as ->; [|by apply more_same].
      unfold write_bytes, mbind, M_bind, get, lift in Ew. destruct (last (pa_parts p)); [|by injection Ew].
      destruct (walk _ _ fs1); [|by injection Ew]. destruct (is_up _); [by injection Ew|].
      by destruct (fs1 !! _) as [[]|]; injection Ew. }
  destruct (write_read _ _ _ _ _ Ew) as [Hread (name & d' & Hlast & Hnu & Hw & ->)].
  change (start cwd (parent p)) with (start cwd p) in *. rewrite Hwalk in Hw. injection Hw as ->.
  cbn in He. injection He as <- <-. cbn [mc_world mc_files or_sha256 or_bytes_written or_uri]. split; [done|].
  split; [done|]. split; [done|]. split.
  { intros Hne.
    enough (local_get cwd st ("local://" +:+ (t +:+ "/" +:+ safe_key key)) (<[d' ++ [name] := FileOf payload]> fs1) = Ok payload) as E
      by exact E.
    unfold local_get. rewrite local_prefix, local_rest. cbn [negb].
    rewrite object_path_uri by done. exact Hread. }
  exists (d' ++ [name]). split; [by rewrite lookup_insert_eq|]. split.
  - intros q b Hq. rewrite lookup_insert_ne by done. by apply more_same.
  - intros Hp Hk. rewrite Hd. by apply plain_file.
Qed.
End round_trip.

(** ** A store *)

#[local] Instance demo_oracle : Oracle :=
  {| uuid_hex := λ n, str_of_nat n; clock := λ n, utc 20000 (3600 * Z.of_nat n) |}.
Definition demo_machine : machine := {| mc_draws := MkDraws 0 0; mc_files := ∅; mc_world := [] |}.
Definition demo_store : LocalObjectStore := {| lo_root := path_of DEFAULT_ROOT |}.
Local Abbreviation put_at t key payload m := (local_put ["srv"] demo_store t key payload m).
(** A key with two dots leads out of the directory of its tenant, into that of another. *)
Example two_dots_escape :
  local_get ["srv"] demo_store "local://ten_b/raw/evt_1.json"
    (mc_files (snd (put_at "ten_a" "../ten_b/raw/evt_1.json" "forged"
                      (snd (put_at "ten_b" "raw/evt_1.json" "original" demo_machine))))) = Ok "forged".
Proof. vm_compute. reflexivity. Qed.
Example absolute_key : fst (put_at "ten_a" "/raw\evt_1.json" "{}" demo_machine)
  = Ok {| or_object_id := "obj_0"; or_uri := "local://ten_a/raw/evt_1.json"; or_sha256 := sha256_bytes "{}";
          or_bytes_written := 2; or_backend := "local" |}.
Proof. vm_compute. reflexivity. Qed.
Lemma object_roundtrip_witness : ∃ p payload,
  mc_files (snd (put_at "ten_a" "raw/evt_1.json" "{}" demo_machine)) !! p = Some (FileOf payload) ∧ payload = "{}"
  ∧ ["srv"; "data"; "objects"; "ten_a"] `prefix_of` p.
Proof.
  destruct (put_at "ten_a" "raw/evt_1.json" "{}" demo_machine) as [r m'] eqn:E.
  assert (is_ok (fst (put_at "ten_a" "raw/evt_1.json" "{}" demo_machine)) = true) as Hok by (vm_compute; reflexivity).
  rewrite E in Hok. destruct r as [ref|e]; [|discriminate Hok].
  destruct (object_roundtrip ["srv"] _ _ _ _ _ _ _ E) as (_ & _ & _ & _ & p & Hp & _ & Hin).
  exists p, "{}". split; [exact Hp|]. split; [reflexivity|]. apply Hin.
  - by split.
  - repeat constructor.
Defined.
