(* ===== verification/Redpanda.v ===== *)
(** * Event fabric on Redpanda

    Models [packages/event-fabric/blueteam_fabric/kafka.py]: the fabric whose topics are on a
    Kafka cluster. The client library and the cluster are parameters; what a fabric object
    keeps is the keys it has consumed. *)
From S2P Require Export Fabric DataClients.
Local Open Scope Z_scope.

(** ** The client *)

Inductive topics_outcome := TopicsCreated | TopicAlreadyExists | TopicsFailed (class_name message : string).
Class KafkaLib := {
  kafka_client_available : bool;
  k_connect : world → string → result unit;
  k_create : world → string → list string → topics_outcome;
  k_produce : world → string → string → string → pydict → result unit;     (** [send] and [flush] *)
  k_poll : world → string → string → string → Z → result (list (list pyval)); (** the values of [poll()] *)
  k_commit : world → string → string → string → result unit;
  (** For each partition of a topic, its end offset and what the group committed. *)
  k_positions : world → string → string → result (list (Z * option Z)) }.
(** [model_dump(mode="json")] and [model_validate] of an envelope. *)
Class EnvelopeJson := { envelope_json : FabricEnvelope → pydict; envelope_of : pyval → result FabricEnvelope }.
Definition MAX_RETRIES : Z := 3.
Definition KafkaUnavailable (message : string) : exn := OtherError ("KafkaUnavailable: " +:+ message).

Record KafkaFabric := { kf_bootstrap : string; kf_consumed : list string }.
(** A fabric object and what has left the process. *)
Definition fabric_state : Type := KafkaFabric * world.
Section kafka.
Context `{KafkaLib} `{EnvelopeJson}.
Definition noted {A} (bootstrap : string) (c : kafka_call) (r : world → result A) : M world A := λ w,
  (r w, w ++ [Kafka bootstrap c]).
Definition new_kafka (bootstrap : string) : M world KafkaFabric :=
  if negb (nonempty bootstrap) then raise (KafkaUnavailable "kafka bootstrap is empty")
  else if negb kafka_client_available then raise (KafkaUnavailable "kafka-python is not installed")
  else try_except (noted bootstrap (KConnect 4000) (λ w, k_connect w bootstrap);;
                   mret {| kf_bootstrap := bootstrap; kf_consumed := [] |})
         (λ e, raise (KafkaUnavailable ("Redpanda not reachable at " +:+ bootstrap +:+ ": " +:+ exn_str e))).
Definition ensure_topics (f : KafkaFabric) : M world (list string) :=
  noted (kf_bootstrap f) (KConnect 8000) (λ w, k_connect w (kf_bootstrap f));;
  noted (kf_bootstrap f) (KCreateTopics ALL_TOPICS) (λ w,
    match k_create w (kf_bootstrap f) ALL_TOPICS with
    | TopicsCreated | TopicAlreadyExists => Ok ALL_TOPICS
    | TopicsFailed cls message =>
        if negb (contains (lower message) "already exists") && negb (contains cls "TopicExists")
        then Raise (OtherError message) else Ok ALL_TOPICS
    end).
Definition kafka_publish (message : FabricEnvelope) (f : KafkaFabric) : M world string :=
  let key := if nonempty (mv_partition_key message) then mv_partition_key message else mv_tenant_id message in
  let value := envelope_json message in
  noted (kf_bootstrap f) (KProduce (mv_topic message) key value)
    (λ w, k_produce w (kf_bootstrap f) (mv_topic message) key value);;
  mret (mv_event_id message).
(** [f"{group}:{payload.get('idempotency_key')}"] *)
Definition payload_key (group : string) (payload : pyval) : result string :=
  d ← dict_of payload; Ok (group +:+ ":" +:+ py_str (dgetv "idempotency_key" d)).
(** The loops over the packets: the batch, with the keys consumed so far even when a record
    is refused. *)
Fixpoint take_records (group : string) (records : list pyval) (consumed : list string)
    : result (list FabricEnvelope) * list string :=
  match records with
  | [] => (Ok [], consumed)
  | payload :: rest =>
      match payload_key group payload with
      | Raise e => (Raise e, consumed)
      | Ok key =>
          if mem key consumed then take_records group rest consumed
          else match envelope_of payload with
               | Raise e => (Raise e, consumed ++ [key])
               | Ok m => let '(batch, consumed') := take_records group rest (consumed ++ [key]) in (cons m <$> batch, consumed')
               end
      end
  end.
Definition kafka_consume (topic : string) (max_records : Z) (group : string) : M fabric_state (list FabricEnvelope) := λ s,
  let '(f, w) := s in
  let w1 := w ++ [Kafka (kf_bootstrap f) (KPoll topic group max_records)] in
  match k_poll w (kf_bootstrap f) topic group max_records with
  | Raise e => (Raise e, (f, w1))
  | Ok packets =>
      let '(batch, consumed) := take_records group (mjoin packets) (kf_consumed f) in
      let f := {| kf_bootstrap := kf_bootstrap f; kf_consumed := consumed |} in
      match batch with
      | Raise e => (Raise e, (f, w1))
      | Ok batch => (_ ← k_commit w1 (kf_bootstrap f) topic group; Ok batch,
                     (f, w1 ++ [Kafka (kf_bootstrap f) (KCommit topic group)]))
      end
  end.
Definition kafka_dead_letter (message : FabricEnvelope) (reason : string) (f : KafkaFabric) : M world string :=
  kafka_publish (poisoned message reason) f.
(** [max(0, end - committed)], with 0 for what is not committed. *)
Definition behind (p : Z * option Z) : Z := Z.max 0 (p.1 - default 0 p.2).
Definition topic_lag (f : KafkaFabric) (topic : string) : M world (string * Z) :=
  positions ← noted (kf_bootstrap f) (KPositions topic) (λ w, k_positions w (kf_bootstrap f) topic);
  mret (topic, foldl Z.add 0 (behind <$> positions)).
Definition kafka_lag (f : KafkaFabric) : M world (list (string * Z)) :=
  noted (kf_bootstrap f) (KConnect 4000) (λ w, k_connect w (kf_bootstrap f));;
  mapM' (topic_lag f) ALL_TOPICS.
Definition kafka_stats (f : KafkaFabric) : M world pydict :=
  lag ← kafka_lag f;
  mret [("backend", VStr "redpanda"); ("bootstrap", VStr (kf_bootstrap f));
        ("lag", VDict ((λ kv, (kv.1, VInt kv.2)) <$> lag))].

(** ** Delivery *)

(** What a sequence of records delivers: payloads with their keys, none consumed before. *)
Definition delivers (group : string) (records : list pyval) (consumed consumed' : list string) (batch : list FabricEnvelope) : Prop :=
  ∃ keys, consumed' = consumed ++ keys ∧ NoDup keys ∧ (∀ k, k ∈ keys → k ∉ consumed)
    ∧ Forall2 (λ k m, ∃ payload, payload ∈ records ∧ payload_key group payload = Ok k ∧ envelope_of payload = Ok m) keys batch.
Lemma take_grows group records consumed : ∃ keys, (take_records group records consumed).2 = consumed ++ keys ∧ NoDup keys
  ∧ ∀ k, k ∈ keys → k ∉ consumed.
Proof.
  revert consumed. induction records as [|payload rest IH]; intros consumed; cbn [take_records].
  { exists []. rewrite app_nil_r. split; [done|]. split; [constructor | by intros k ?%not_elem_of_nil]. }
  assert (∃ keys, consumed = consumed ++ keys ∧ NoDup keys ∧ ∀ k, k ∈ keys → k ∉ consumed) as Hnone.
  { exists []. rewrite app_nil_r. split; [done|]. split; [constructor | by intros k ?%not_elem_of_nil]. }
  destruct (payload_key group payload) as [key|e]; [|done]. destruct (mem key consumed) eqn:Hm; [apply IH|].
  assert (key ∉ consumed) as Hk by (rewrite <-mem_spec; congruence).
  destruct (envelope_of payload) as [m|e].
  - destruct (IH (consumed ++ [key])) as (keys & Hc & Hn & Hf). destruct (take_records group rest (consumed ++ [key])) as [b c].
    cbn [snd] in *. exists (key :: keys). rewrite Hc, <-app_assoc. split; [done|]. split.
    + apply NoDup_cons. split; [|done]. intros Hin. apply (Hf key Hin). apply elem_of_app. right. left.
    + intros k [->|Hin]%elem_of_cons; [done|]. intros Hc'. apply (Hf k Hin), elem_of_app. by left.
  - cbn [snd]. exists [key]. split; [done|]. split; [apply NoDup_singleton|]. by intros k ->%list_elem_of_singleton.
Qed.
Lemma take_delivers group records consumed batch consumed' :
  take_records group records consumed = (Ok batch, consumed') → delivers group records consumed consumed' batch.
Proof.
  revert consumed batch consumed'. induction records as [|payload rest IH]; intros consumed batch consumed'; cbn [take_records].
  { intros [= <- <-]. exists []. rewrite app_nil_r. split_and!; [done | constructor | by intros k ?%not_elem_of_nil | constructor]. }
  assert (∀ keys (batch : list FabricEnvelope),
    Forall2 (λ k m, ∃ p, p ∈ rest ∧ payload_key group p = Ok k ∧ envelope_of p = Ok m) keys batch →
    Forall2 (λ k m, ∃ p, p ∈ payload :: rest ∧ payload_key group p = Ok k ∧ envelope_of p = Ok m) keys batch) as Hmore.
  { intros keys b Hb. eapply Forall2_impl; [exact Hb|]. intros k m (p & Hp & ?). exists p. split; [by right | done]. }
  destruct (payload_key group payload) as [key|e] eqn:Ek; [|done]. destruct (mem key consumed) eqn:Hm.
  { intros (keys & -> & Hn & Hf & Hb)%IH. exists keys. by split_and!; [..|apply Hmore]. }
  destruct (envelope_of payload) as [m|e] eqn:Em; [|done].
  destruct (take_records group rest (consumed ++ [key])) as [[b|e] c] eqn:Et; [|done]. intros [= <- <-].
  apply IH in Et as (keys & -> & Hn & Hf & Hb). exists (key :: keys). rewrite <-app_assoc. split; [done|].
  assert (key ∉ consumed) as Hk by (rewrite <-mem_spec; congruence). split_and!.
  - apply NoDup_cons. split; [|done]. intros Hin. apply (Hf key Hin). apply elem_of_app. right. left.
  - intros k [->|Hin]%elem_of_cons; [done|]. intros Hc'. apply (Hf k Hin), elem_of_app. by left.
  - constructor; [|by apply Hmore]. exists payload. by split; [left|].
Qed.
(** C21. A fabric object delivers at most once: a batch is made of records polled, one for
    each of some keys that are new to the object and distinct, and whatever a call does the
    keys it has consumed only grow, so that no later batch has a record of one of them. *)
Theorem redpanda_delivers_at_most_once topic max_records group f w r f' w' :
  kafka_consume topic max_records group (f, w) = (r, (f', w')) →
  kf_bootstrap f' = kf_bootstrap f ∧ kf_consumed f `prefix_of` kf_consumed f'
  ∧ ∀ batch, r = Ok batch → ∃ packets, k_poll w (kf_bootstrap f) topic group max_records = Ok packets
      ∧ delivers group (mjoin packets) (kf_consumed f) (kf_consumed f') batch.
Proof.
  unfold kafka_consume. destruct (k_poll _ _ _ _ _) as [packets|e]; [|by intros [= <- <- <-]; split_and!].
  destruct (take_records group (mjoin packets) (kf_consumed f)) as [b c] eqn:Et.
  destruct (take_grows group (mjoin packets) (kf_consumed f)) as (keys & Hc & _). rewrite Et in Hc. cbn [snd] in Hc. subst c.
  destruct b as [batch|e]; intros [= <- <- <-]; (split; [done|]); (split; [by exists keys|]); [|done].
  intros batch' Hb. exists packets. split; [done|]. apply take_delivers. rewrite Et.
  destruct (k_commit _ _ _ _) as [[]|e]; [|done]. by injection Hb as <-.
Qed.
End kafka.

(** ** A record that is not an envelope *)

Definition demo_envelope (i : string) : FabricEnvelope := {|
  mv_event_id := i; mv_tenant_id := "ten_a"; mv_schema_version := "1.0.0"; mv_topic := RAW; mv_produced_at := utc 20000 0;
  mv_idempotency_key := i; mv_payload := PRaw []; mv_attempt := 0; mv_poison := false; mv_partition_key := "ten_a" |}.
#[local] Instance demo_envelopes : EnvelopeJson := {|
  envelope_json := λ m, [("event_id", VStr (mv_event_id m)); ("idempotency_key", VStr (mv_idempotency_key m))];
  envelope_of := λ v, match v with
                      | VDict d => match dget "event_id" d with Some (VStr i) => Ok (demo_envelope i) | _ => Raise (ValueError "event_id") end
                      | _ => Raise (ValueError "object")
                      end |}.
Definition record (i : string) : pyval := VDict (envelope_json (demo_envelope i)).
Definition malformed : pyval := VDict [("idempotency_key", VStr "k")].
(** A cluster whose first packet has a malformed record after a good one; nothing is
    committed, so the next poll starts at the same place. *)
#[local] Instance demo_kafka : KafkaLib := {|
  kafka_client_available := true; k_connect := λ _ _, Ok tt; k_create := λ _ _ _, TopicAlreadyExists;
  k_produce := λ _ _ _ _ _, Ok tt; k_commit := λ _ _ _ _, Ok tt; k_positions := λ _ _ _, Ok [(7, Some 3); (2, None)];
  k_poll := λ _ _ _ _ n, Ok (if n =? 1 then [[record "e1"]] else [[record "e1"; malformed]; [record "e2"]]) |}.
Definition demo_fabric : KafkaFabric := {| kf_bootstrap := "redpanda:9092"; kf_consumed := [] |}.
(** The good record that was read before the malformed one is never delivered: its key
    counts as consumed. *)
Example malformed_loses_good :
  let first := kafka_consume RAW 100 "g" (demo_fabric, []) in
  fst first = Raise (ValueError "event_id")
  ∧ match fst (kafka_consume RAW 100 "g" (snd first)) with
    | Ok batch => mv_event_id <$> batch = ["e2"]
    | Raise _ => False
    end.
Proof. vm_compute. auto. Qed.
Example demo_lag : fst (topic_lag demo_fabric RAW []) = Ok (RAW, 6).
Proof. vm_compute. reflexivity. Qed.
Lemma redpanda_delivers_at_most_once_witness :
  delivers "g" [record "e1"] [] (kf_consumed (fst (snd (kafka_consume RAW 1 "g" (demo_fabric, []))))) [demo_envelope "e1"].
Proof.
  destruct (kafka_consume RAW 1 "g" (demo_fabric, [])) as [r [f' w']] eqn:E.
  destruct (redpanda_delivers_at_most_once RAW 1 "g" demo_fabric [] r f' w' E) as (_ & _ & Hd).
  assert (fst (kafka_consume RAW 1 "g" (demo_fabric, [])) = Ok [demo_envelope "e1"]) as Hr by (vm_compute; reflexivity).
  rewrite E in Hr. cbn [fst] in Hr. destruct (Hd _ Hr) as (packets & Hp & Hdel). cbn [fst snd].
  vm_compute in Hp. injection Hp as <-. exact Hdel.
Defined.
