(* ===== verification/DualWrite.v ===== *)
(** * Dual write and retention

    Models [services/api/app/services/dataplane.py], which copies an accepted event to the
    object store, ClickHouse, Redpanda and OpenSearch, and
    [packages/dataplane-clients/blueteam_dataplane/retention.py], which deletes a tenant's
    old rows. *)
From S2P Require Export ObjectStore Redpanda Connectors.
Local Open Scope Z_scope.

(** ** Projection *)

Record Settings := {
  st_clickhouse_url : string; st_opensearch_url : string; st_kafka_bootstrap : string; st_s3_endpoint : string;
  st_s3_bucket : string; st_s3_access_key : string; st_s3_secret_key : string; st_object_store_root : string }.
(** [urlparse(s).path], and [type(exc).__name__]. *)
Class PythonNames := { url_path : string → result string; exn_class : exn → string }.

Section projection.
Context (settings : Settings) (cwd : list string).
Context `{Oracle} `{Outside} `{KafkaLib} `{EnvelopeJson} `{PydanticJson} `{JsonDump} `{PythonNames}.
(** The bytes kept: the raw payload, or the raw event, or the dump of the event. *)
Definition raw_bytes (event : CanonicalEvent) (raw_payload : option pydict) : string :=
  canonical_json (vor (vor (match raw_payload with Some d => VDict d | None => VNone end) (VDict (e_raw_event event)))
                    (VDict (event_dump event))).
Definition on_draws {A} (m : M draws A) : M machine A := λ s,
  let (r, d) := m (mc_draws s) in (r, {| mc_draws := d; mc_files := mc_files s; mc_world := mc_world s |}).
(** One destination: what its write gives, or the class of what it raised. *)
Definition attempted {A} (m : M machine A) (done : A → string) : M machine (string * option A) :=
  try_except (a ← m; mret (done a, Some a)) (λ e, mret ("skipped:" +:+ exn_class e, None)).
Definition store_raw (event : CanonicalEvent) (raw : string) : M machine ObjectRef :=
  store ← open_store cwd url_path (st_object_store_root settings) (st_s3_endpoint settings) (st_s3_bucket settings)
            (st_s3_access_key settings) (st_s3_secret_key settings);
  put_object cwd store (e_tenant_id event) ("raw/" +:+ e_id event +:+ ".json") raw.
Definition write_clickhouse (event : CanonicalEvent) : M machine Z :=
  on_world (client ← connect_clickhouse (st_clickhouse_url settings); insert_events client [event]).
Definition publish_raw (event : CanonicalEvent) : M machine string :=
  fabric ← on_world (new_kafka (st_kafka_bootstrap settings));
  on_world (ensure_topics fabric);;
  message ← on_draws (envelope RAW (e_tenant_id event) (PRaw (event_dump event)) (VStr (e_id event)) None);
  on_world (kafka_publish message fabric).
Definition index_raw (event : CanonicalEvent) : M machine string :=
  on_world (search ← lift (open_search (st_opensearch_url settings));
            index_event search (e_tenant_id event) (e_id event) (event_dump event)).
(** A destination that is used only if it is configured. *)
Definition if_configured {A} (setting : string) (m : M machine A) (said : string) : M machine string :=
  if nonempty setting then fst <$> attempted m (λ _, said) else mret "unconfigured".
(** The status of each destination, with the event and the attribute set on it. *)
Definition best_effort_project (event : CanonicalEvent) (raw_payload : option pydict) : M machine (CanonicalEvent * pydict) :=
  let raw := raw_bytes event raw_payload in
  '(object_storage, ref) ← attempted (store_raw event raw) (λ ref, "written:" +:+ or_backend ref);
  let event := match ref with Some ref => set_attribute "raw_object_uri" (VStr (or_uri ref)) event | None => event end in
  clickhouse ← if_configured (st_clickhouse_url settings) (write_clickhouse event) "written";
  redpanda ← if_configured (st_kafka_bootstrap settings) (publish_raw event) "published";
  opensearch ← if_configured (st_opensearch_url settings) (index_raw event) "indexed";
  mret (event, [("clickhouse", VStr clickhouse); ("redpanda", VStr redpanda); ("opensearch", VStr opensearch);
                ("object_storage", VStr object_storage)]).
End projection.

(** ** Retention *)

Record RetentionPolicy := { rp_events_days : Z; rp_dead_letter_days : Z; rp_findings_days : Z }.
Definition default_policy : RetentionPolicy := {| rp_events_days := 90; rp_dead_letter_days := 30; rp_findings_days := 365 |}.
Definition policy_dict (p : RetentionPolicy) : pydict := [
  ("events_days", VInt (rp_events_days p)); ("dead_letter_days", VInt (rp_dead_letter_days p));
  ("findings_days", VInt (rp_findings_days p))].
Definition dated (wall : Z) : bool := (days_from_civil 1 1 1 * day_us <=? wall) && (wall <? days_from_civil 10000 1 1 * day_us).
(** [now - timedelta(days=n)], within the range of [timedelta] and of [datetime]. *)
Definition days_before (now : datetime) (n : Z) : result datetime :=
  let wall := dt_wall now - n * day_us in
  if negb (Z.abs n <=? 999999999) then Raise (OtherError "OverflowError: days out of range")
  else if dated wall then Ok {| dt_wall := wall; dt_offset := dt_offset now |}
  else Raise (OtherError "OverflowError: date value out of range").
(** [DELETE ... WHERE tenant_id = t AND column < cutoff], and its row count. *)
Definition expired_row {A} (tenant : A → option string) (stamp : A → datetime) (t : string) (cutoff : datetime) (row : A) : bool :=
  bool_decide (tenant row = Some t) && dt_lt (stamp row) cutoff.
Definition delete_rows {A} (get_rows : db → list A) (set_rows : (list A → list A) → db → db) (old : A → bool) : M db Z :=
  rows ← gets get_rows;
  modify (set_rows (select (λ r, negb (old r))));;
  mret (Z.of_nat (length (select old rows))).
Definition apply_retention `{Oracle} (tenant_id : string) (policy : RetentionPolicy) : M db pydict :=
  now ← utcnow_db;
  before_events ← lift (days_before now (rp_events_days policy));
  events ← delete_rows d_events set_events (expired_row (Some ∘ se_tenant_id) se_ingested_at tenant_id before_events);
  before_dlq ← lift (days_before now (rp_dead_letter_days policy));
  dlq ← delete_rows d_dead_letters set_dead_letters (expired_row dl_tenant_id dl_created_at tenant_id before_dlq);
  before_findings ← lift (days_before now (rp_findings_days policy));
  findings ← delete_rows d_findings set_findings (expired_row (Some ∘ fr_tenant_id) fr_created_at tenant_id before_findings);
  flush;;
  mret [("events_deleted", VInt events); ("dead_letter_deleted", VInt dlq); ("findings_deleted", VInt findings)].

(** ** Best effort *)

Section best_effort.
Context (settings : Settings) (cwd : list string).
Context `{Oracle} `{Outside} `{KafkaLib} `{EnvelopeJson} `{PydanticJson} `{JsonDump} `{PythonNames}.
Lemma attempted_ok {A} (m : M machine A) done s : ∃ said r s', attempted m done s = (Ok (said, r), s')
  ∧ match r with
    | Some a => m s = (Ok a, s') ∧ said = done a
    | None => ∃ e, m s = (Raise e, s') ∧ said = "skipped:" +:+ exn_class e
    end.
Proof.
  unfold attempted, try_except, mbind, M_bind, mret, M_ret. destruct (m s) as [[a|e] s'].
  - by exists (done a), (Some a), s'.
  - exists ("skipped:" +:+ exn_class e), None, s'. split; [done|]. by exists e.
Qed.
(** What is said of a destination: that it is not configured, what was done, or the class of
    what was raised. *)
Definition reported {A} (setting : string) (m : M machine A) (done said : string) (s s' : machine) : Prop :=
  if nonempty setting
  then (∃ a, m s = (Ok a, s') ∧ said = done) ∨ ∃ e, m s = (Raise e, s') ∧ said = "skipped:" +:+ exn_class e
  else s' = s ∧ said = "unconfigured".
Lemma if_configured_ok {A} setting (m : M machine A) done s : ∃ said s',
  if_configured setting m done s = (Ok said, s') ∧ reported setting m done said s s'.
Proof.
  unfold if_configured, reported. destruct (nonempty setting); [|by eexists _, _].
  destruct (attempted_ok m (λ _, done) s) as (said & r & s' & E & Hr). unfold fmap, M_fmap. rewrite E. exists said, s'. split; [done|].
  destruct r as [a|]; [destruct Hr; left; by exists a | by right].
Qed.
(** C31. The projection of an accepted event never raises, whatever the four destinations do:
    each that is configured is tried once, in order, and its status says what happened; the
    event is changed in one attribute at most, which is the address of an object that was
    stored, and then the other destinations get the event with it. *)
Theorem projection_never_raises event raw_payload s : ∃ event' status s1 s2 s3 s' storage clickhouse redpanda opensearch,
  best_effort_project settings cwd event raw_payload s = (Ok (event', status), s')
  ∧ status = [("clickhouse", VStr clickhouse); ("redpanda", VStr redpanda); ("opensearch", VStr opensearch);
              ("object_storage", VStr storage)]
  ∧ ((∃ ref, store_raw settings cwd event (raw_bytes event raw_payload) s = (Ok ref, s1)
        ∧ storage = "written:" +:+ or_backend ref ∧ event' = set_attribute "raw_object_uri" (VStr (or_uri ref)) event)
     ∨ ∃ e, store_raw settings cwd event (raw_bytes event raw_payload) s = (Raise e, s1)
        ∧ storage = "skipped:" +:+ exn_class e ∧ event' = event)
  ∧ reported (st_clickhouse_url settings) (write_clickhouse settings event') "written" clickhouse s1 s2
  ∧ reported (st_kafka_bootstrap settings) (publish_raw settings event') "published" redpanda s2 s3
  ∧ reported (st_opensearch_url settings) (index_raw settings event') "indexed" opensearch s3 s'.
Proof.
  unfold best_effort_project.
  destruct (attempted_ok (store_raw settings cwd event (raw_bytes event raw_payload)) (λ ref, "written:" +:+ or_backend ref) s)
    as (storage & r & s1 & E & Hr).
  set (event' := match r with Some ref => set_attribute "raw_object_uri" (VStr (or_uri ref)) event | None => event end).
  destruct (if_configured_ok (st_clickhouse_url settings) (write_clickhouse settings event') "written" s1) as (c & s2 & Ec & Hc).
  destruct (if_configured_ok (st_kafka_bootstrap settings) (publish_raw settings event') "published" s2) as (k & s3 & Ek & Hk).
  destruct (if_configured_ok (st_opensearch_url settings) (index_raw settings event') "indexed" s3) as (o & s4 & Eo & Ho).
  eexists event', _, s1, s2, s3, s4, storage, c, k, o. rewrite (M_bind_eval _ _ _ _ _ E). fold event'.
  rewrite (M_bind_eval _ _ _ _ _ Ec), (M_bind_eval _ _ _ _ _ Ek), (M_bind_eval _ _ _ _ _ Eo).
  split; [done|]. split; [done|]. split; [|done]. destruct r as [ref|].
  - left. exists ref. by destruct Hr.
  - right. destruct Hr as (e & ? & ?). by exists e.
Qed.
(** What ingestion sees of the projection is the attribute: its model, which takes the address
    as a parameter, is this one without the state. *)
Lemma projection_attribute event payload s event' status s' :
  best_effort_project settings cwd event (Some payload) s = (Ok (event', status), s') →
  ∃ uri, event' = @Ingestion.best_effort_project {| object_uri := λ _ _, uri |} event payload.
Proof.
  unfold best_effort_project. intros He. inv_bind He. destruct a as [storage ref].
  apply M_bind_ok in He as (c & s2 & _ & He). apply M_bind_ok in He as (k & s3 & _ & He).
  apply M_bind_ok in He as (o & s4 & _ & He). injection He as <- _ _. exists (or_uri <$> ref). by destruct ref.
Qed.
End best_effort.

(** ** What retention deletes *)

Section retention.
Context `{Oracle}.
(** A row of the tenant stamped before some days ago. *)
Definition too_old (tenant_id : string) (now : datetime) (n : Z) (owner : option string) (stamp : datetime) : Prop :=
  owner = Some tenant_id ∧ instant stamp < instant now - n * day_us.
Lemma expired_iff {A} (tenant : A → option string) stamp t now n cutoff row : days_before now n = Ok cutoff →
  expired_row tenant stamp t cutoff row = true ↔ too_old t now n (tenant row) (stamp row).
Proof.
  unfold days_before. destruct (Z.abs n <=? 999999999); [|done]. cbn [negb].
  destruct (dated _); [|done]. intros [= <-]. unfold expired_row, too_old, dt_lt, instant. cbn [dt_wall dt_offset].
  rewrite andb_true_iff, bool_decide_eq_true, Z.ltb_lt. split; (intros [? ?]; split; [done | lia]).
Qed.
Lemma kept_iff {A} (tenant : A → option string) stamp t now n cutoff l row : days_before now n = Ok cutoff →
  row ∈ select (λ r, negb (expired_row tenant stamp t cutoff r)) l ↔ row ∈ l ∧ ¬ too_old t now n (tenant row) (stamp row).
Proof.
  intros Hc. rewrite elem_of_select, negb_true_iff, <-not_true_iff_false, (expired_iff _ _ _ _ _ _ _ Hc). tauto.
Qed.
Lemma days_before_raise now n e : days_before now n = Raise e → ∃ m, e = OtherError m.
Proof.
  unfold days_before. destruct (negb _); [intros [= <-]; by eexists|]. generalize (dated (dt_wall now - n * day_us)). intros b.
  destruct b; [discriminate|]. intros [= <-]. by eexists.
Qed.
(** The rows that stay, and those counted. *)
Lemma deleted_length {A} (p : A → bool) l :
  Z.of_nat (length (select p l)) = Z.of_nat (length l) - Z.of_nat (length (select (λ r, negb (p r)) l)).
Proof.
  unfold select. induction l as [|x l IH]; [done|]. rewrite !filter_cons. destruct (p x); cbn [negb].
  - rewrite decide_True, decide_False by done. cbn [length]. lia.
  - rewrite decide_False, decide_True by done. cbn [length]. lia.
Qed.
Lemma select_sublist {A} (p : A → bool) l : select p l `sublist_of` l.
Proof. apply sublist_filter. Qed.
(** C32. Retention deletes, of each of the three tables, exactly the tenant's rows stamped
    before the days its policy gives: it counts them, and no row of another tenant, no younger row
    and no other table is touched; it fails only when a limit is beyond the range of
    dates. *)
Theorem retention_exact t policy s r s' : apply_retention t policy s = (r, s') →
  let now := clock (n_clock (d_draws s)) in
  match r with
  | Ok d => ∃ events dlq findings,
      s' = flush_pending (set_findings (λ _, findings) (set_dead_letters (λ _, dlq) (set_events (λ _, events) (set_draws tick s))))
      ∧ (∀ x, x ∈ events ↔ x ∈ d_events s ∧ ¬ too_old t now (rp_events_days policy) (Some (se_tenant_id x)) (se_ingested_at x))
      ∧ (∀ x, x ∈ dlq ↔ x ∈ d_dead_letters s ∧ ¬ too_old t now (rp_dead_letter_days policy) (dl_tenant_id x) (dl_created_at x))
      ∧ (∀ x, x ∈ findings ↔ x ∈ d_findings s ∧ ¬ too_old t now (rp_findings_days policy) (Some (fr_tenant_id x)) (fr_created_at x))
      ∧ events `sublist_of` d_events s ∧ dlq `sublist_of` d_dead_letters s ∧ findings `sublist_of` d_findings s
      ∧ d = [("events_deleted", VInt (Z.of_nat (length (d_events s)) - Z.of_nat (length events)));
             ("dead_letter_deleted", VInt (Z.of_nat (length (d_dead_letters s)) - Z.of_nat (length dlq)));
             ("findings_deleted", VInt (Z.of_nat (length (d_findings s)) - Z.of_nat (length findings)))]
  | Raise e => ∃ n m, n ∈ [rp_events_days policy; rp_dead_letter_days policy; rp_findings_days policy] ∧ days_before now n = Raise e
      ∧ e = OtherError m
  end.
Proof.
  intros He. cbv zeta. set (now := clock _). unfold apply_retention, mbind, M_bind, utcnow_db, utcnow at 1, lift in He. fold now in He.
  cbv beta iota zeta in He.
  destruct (days_before now (rp_events_days policy)) as [c1|e] eqn:E1.
  2:{ injection He as <- <-. destruct (days_before_raise _ _ _ E1) as [m Hm]. exists (rp_events_days policy), m.
      split_and!; [by left | done | done]. }
  cbn -[delete_rows days_before flush] in He.
  destruct (days_before now (rp_dead_letter_days policy)) as [c2|e] eqn:E2.
  2:{ cbn in He. injection He as <- <-. destruct (days_before_raise _ _ _ E2) as [m Hm]. exists (rp_dead_letter_days policy), m.
      split_and!; [right; left | done | done]. }
  cbn -[days_before flush] in He.
  destruct (days_before now (rp_findings_days policy)) as [c3|e] eqn:E3.
  2:{ cbn in He. injection He as <- <-. destruct (days_before_raise _ _ _ E3) as [m Hm]. exists (rp_findings_days policy), m.
      split_and!; [right; right; left | done | done]. }
  cbn in He. injection He as <- <-.
  do 3 eexists. split; [reflexivity|].
  split; [intros x; apply (kept_iff (Some ∘ se_tenant_id) se_ingested_at t now _ c1 _ x E1)|].
  split; [intros x; apply (kept_iff dl_tenant_id dl_created_at t now _ c2 _ x E2)|].
  split; [intros x; apply (kept_iff (Some ∘ fr_tenant_id) fr_created_at t now _ c3 _ x E3)|].
  split_and!; try apply select_sublist.
  by rewrite (deleted_length _ (d_events s)), (deleted_length _ (d_dead_letters s)), (deleted_length _ (d_findings s)).
Qed.
End retention.

(** ** A retention pass *)

#[local] Instance demo_oracle : Oracle :=
  {| uuid_hex := λ n, str_of_nat n; clock := λ n, utc 20100 (3600 * Z.of_nat n) |}.
(** An event stored on a day, of a tenant. *)
Definition stored_on (t : string) (day : Z) : SecurityEvent := {|
  se_id := "evt_" +:+ t +:+ str_of_Z day; se_tenant_id := t; se_timestamp := utc day 0; se_ingested_at := utc day 0; se_source := "zeek";
  se_source_type := "network"; se_event_type := "dns"; se_category := "dns"; se_action := None; se_outcome := None;
  se_src_ip := None; se_user_name := None; se_idempotency_key := None; se_raw_hash := "";
  se_payload := blank_event "evt" t (utc day 0) |}.
Definition aged_db : db := set_events (λ _, [stored_on "ten_a" 20000; stored_on "ten_b" 20000; stored_on "ten_a" 20050]) empty_db.
Example aged_pass : se_id <$> d_events (snd (apply_retention "ten_a" default_policy aged_db)) = ["evt_ten_b20000"; "evt_ten_a20050"].
Proof. vm_compute. reflexivity. Qed.
Lemma retention_exact_witness : ∃ events, d_events (snd (apply_retention "ten_a" default_policy aged_db)) = events
  ∧ stored_on "ten_b" 20000 ∈ events.
Proof.
  destruct (apply_retention "ten_a" default_policy aged_db) as [r s'] eqn:E.
  assert (is_ok (fst (apply_retention "ten_a" default_policy aged_db)) = true) as Hok by (vm_compute; reflexivity).
  rewrite E in Hok. destruct r as [d|e]; [|discriminate Hok]. cbn [snd].
  destruct (retention_exact "ten_a" default_policy aged_db _ _ E) as (events & dlq & findings & -> & Hev & _).
  exists events. split; [reflexivity|]. apply Hev. split; [right; left|]. intros [Ho _]. discriminate Ho.
Defined.
