(* ===== verification/Quality.v ===== *)
(** * Quality index

    Models [packages/schemas/blueteam_schemas/quality.py] and
    [packages/quality-engine/blueteam_quality/engine.py]: the domains and their ceilings, the
    bands, the checks and the index that is computed from them. The checks themselves and
    the routes are in QualityChecks.v. *)
From S2P Require Export Architecture Improve Gateway Connectors Vulns Sigma Incidents.
Local Open Scope Z_scope.

(** ** The schema *)

Definition QUALITY_DOMAINS : list (string * Z) := [
  ("network_defence", 100); ("endpoint_defence", 100); ("incident_response", 100); ("dfir", 80);
  ("detection_engineering", 100); ("threat_hunting", 80); ("identity_security", 80); ("cloud_security", 70);
  ("defensive_architecture", 70); ("threat_intelligence", 50); ("response_automation", 60); ("continuous_monitoring", 50)].
Inductive MaturityBand := Prototype | BasicSoc | Professional | Advanced | Expert | GseCalibre | Elite.
#[export] Instance band_eq_dec : EqDecision MaturityBand.
Proof. solve_decision. Defined.
Definition band_str (b : MaturityBand) : string :=
  match b with
  | Prototype => "prototype" | BasicSoc => "basic_soc" | Professional => "professional" | Advanced => "advanced"
  | Expert => "expert" | GseCalibre => "gse_calibre" | Elite => "elite"
  end.
Definition maturity_band (score : Z) : MaturityBand :=
  if 975 <=? score then Elite else if 925 <=? score then GseCalibre else if 850 <=? score then Expert
  else if 750 <=? score then Advanced else if 650 <=? score then Professional else if 500 <=? score then BasicSoc
  else Prototype.
Record QualityCheckResult := {
  qc_check_id : string; qc_domain : string; qc_title : string; qc_max_points : Z; qc_awarded_points : Z; qc_passed : bool;
  qc_evidence_ids : list string; qc_reason : string }.
Record QualityIndex := {
  qx_model_version : string; qx_computed_at : datetime; qx_total : Z; qx_band : MaturityBand;
  qx_domains : list (string * Z); qx_checks : list QualityCheckResult }.
Definition check_dict (c : QualityCheckResult) : pydict := [
  ("check_id", VStr (qc_check_id c)); ("domain", VStr (qc_domain c)); ("title", VStr (qc_title c));
  ("max_points", VInt (qc_max_points c)); ("awarded_points", VInt (qc_awarded_points c)); ("passed", VBool (qc_passed c));
  ("evidence_ids", VList (VStr <$> qc_evidence_ids c)); ("reason", VStr (qc_reason c))].

(** ** The engine *)

Definition MODEL_VERSION : string := "qi-1.0.0".
(** [check.model_copy(update=...)] *)
Definition copied (passed : bool) (reason : string) (c : QualityCheckResult) : QualityCheckResult := {|
  qc_check_id := qc_check_id c; qc_domain := qc_domain c; qc_title := qc_title c; qc_max_points := qc_max_points c;
  qc_awarded_points := 0; qc_passed := passed; qc_evidence_ids := qc_evidence_ids c; qc_reason := reason |}.
(** What a check is worth, and the check that is reported. *)
Definition judged (c : QualityCheckResult) : Z * QualityCheckResult :=
  match qc_evidence_ids c with
  | [] => (0, copied false (qc_reason c +:+ " Missing evidence — score withheld.") c)
  | _ => if negb (qc_passed c) then (0, copied (qc_passed c) (qc_reason c) c) else (qc_awarded_points c, c)
  end.
Definition tally_check (acc : list (string * Z) * list QualityCheckResult) (c : QualityCheckResult)
    : result (list (string * Z) * list QualityCheckResult) :=
  let (awarded_by_domain, normalized) := acc in
  if negb (dhas (qc_domain c) QUALITY_DOMAINS) then Raise (ValueError ("unknown quality domain: " +:+ qc_domain c))
  else
    let (awarded, c) := judged c in
    Ok (dset (qc_domain c) (default 0 (dget (qc_domain c) awarded_by_domain) + awarded) awarded_by_domain, normalized ++ [c]).
Fixpoint tally_checks (acc : list (string * Z) * list QualityCheckResult) (checks : list QualityCheckResult)
    : result (list (string * Z) * list QualityCheckResult) :=
  match checks with
  | [] => Ok acc
  | c :: rest => acc ← tally_check acc c; tally_checks acc rest
  end.
Fixpoint sum_Z (l : list Z) : Z := match l with [] => 0 | x :: l => x + sum_Z l end.
Definition compute_quality_index (checks : list QualityCheckResult) (computed_at : datetime) (model_version : string)
    : result QualityIndex :=
  '(awarded_by_domain, normalized) ← tally_checks ([], []) checks;
  let domain_scores := (λ d : string * Z, (d.1, Z.min d.2 (default 0 (dget d.1 awarded_by_domain)))) <$> QUALITY_DOMAINS in
  let total := sum_Z domain_scores.*2 in
  Ok {| qx_model_version := model_version; qx_computed_at := computed_at; qx_total := total; qx_band := maturity_band total;
        qx_domains := domain_scores; qx_checks := normalized |}.

(** *** What the index is *)

(** The points a check earns: none without evidence or when it failed. *)
Definition earned (c : QualityCheckResult) : Z :=
  if qc_passed c && negb (bool_decide (qc_evidence_ids c = [])) then qc_awarded_points c else 0.
Definition earned_in (domain : string) (checks : list QualityCheckResult) : Z :=
  sum_Z (earned <$> select (λ c, qc_domain c =? domain)%string checks).
Lemma judged_earned c : (judged c).1 = earned c ∧ qc_domain (judged c).2 = qc_domain c.
Proof.
  unfold judged, earned. destruct (qc_evidence_ids c) as [|i ids]; [by rewrite andb_false_r|].
  by destruct (qc_passed c).
Qed.
Lemma sum_app l m : sum_Z (l ++ m) = sum_Z l + sum_Z m.
Proof. induction l as [|x l IH]; cbn [app sum_Z]; [done|]. rewrite IH. lia. Qed.
Lemma earned_in_snoc d checks c : earned_in d (checks ++ [c]) = earned_in d checks + (if (qc_domain c =? d)%string then earned c else 0).
Proof.
  unfold earned_in. rewrite select_app, fmap_app, sum_app, select_one. f_equal.
  destruct (qc_domain c =? d)%string; cbn; lia.
Qed.
Definition known_domain (c : QualityCheckResult) : bool := dhas (qc_domain c) QUALITY_DOMAINS.
Lemma find_first_cons {A} (p : A → bool) x l : find_first p (x :: l) = if p x then Some x else find_first p l.
Proof. done. Qed.
Lemma tally_spec seen checks acc :
  (∀ d, default 0 (dget d acc.1) = earned_in d seen) → acc.2 = snd ∘ judged <$> seen →
  match tally_checks acc checks with
  | Ok (awarded, normalized) =>
      forallb known_domain checks = true ∧ (∀ d, default 0 (dget d awarded) = earned_in d (seen ++ checks))
      ∧ normalized = snd ∘ judged <$> seen ++ checks
  | Raise e => ∃ c, find_first (λ c, negb (known_domain c)) checks = Some c ∧ e = ValueError ("unknown quality domain: " +:+ qc_domain c)
  end.
Proof.
  revert seen acc. induction checks as [|c checks IH]; intros seen [awarded normalized] Ha Hn; cbn [fst snd] in *.
  { cbn. rewrite app_nil_r. split_and!; [done | exact Ha | exact Hn]. }
  cbn [tally_checks forallb find_first]. unfold tally_check.
  change (dhas (qc_domain c) QUALITY_DOMAINS) with (known_domain c).
  destruct (known_domain c) eqn:Hd; cbn [negb mbind result_bind]; [|by exists c; rewrite find_first_cons, Hd].
  destruct (judged c) as [pts c'] eqn:Ej. pose proof (judged_earned c) as [H1 H2]. rewrite Ej in H1, H2. cbn [fst snd] in H1, H2.
  set (acc := (_, normalized ++ [c'])). specialize (IH (seen ++ [c]) acc). rewrite <-app_assoc in IH. cbn [app] in IH.
  assert (∀ d, default 0 (dget d acc.1) = earned_in d (seen ++ [c])) as Hacc.
  { intros d. cbn. rewrite dget_dset, H2, earned_in_snoc, <-Ha, H1. destruct (decide (d = qc_domain c)) as [->|Hne].
    - by rewrite String.eqb_refl.
    - destruct (String.eqb_spec (qc_domain c) d); [congruence|]. lia. }
  specialize (IH Hacc). cbn [mbind result_bind]. destruct (tally_checks acc checks) as [[awarded' normalized']|e].
  - cbn [andb]. apply IH. cbn. by rewrite fmap_app, Hn; cbn; rewrite Ej.
  - destruct IH as (c0 & Hc0 & ->); [cbn; by rewrite fmap_app, Hn; cbn; rewrite Ej|]. exists c0. by rewrite find_first_cons, Hd.
Qed.
Lemma index_spec checks at_ v :
  match compute_quality_index checks at_ v with
  | Ok x => forallb known_domain checks = true
      ∧ qx_domains x = (λ d : string * Z, (d.1, Z.min d.2 (earned_in d.1 checks))) <$> QUALITY_DOMAINS
      ∧ qx_total x = sum_Z (qx_domains x).*2 ∧ qx_band x = maturity_band (qx_total x)
      ∧ qx_checks x = snd ∘ judged <$> checks ∧ qx_model_version x = v ∧ qx_computed_at x = at_
  | Raise e => ∃ c, find_first (λ c, negb (known_domain c)) checks = Some c ∧ e = ValueError ("unknown quality domain: " +:+ qc_domain c)
  end.
Proof.
  unfold compute_quality_index. pose proof (tally_spec [] checks ([], []) (λ d, eq_refl) eq_refl) as Ht.
  destruct (tally_checks ([], []) checks) as [[awarded normalized]|e]; [|exact Ht].
  cbn [mbind result_bind]. destruct Ht as (Hk & Ha & Hn). cbn [qx_domains qx_total qx_band qx_checks qx_model_version qx_computed_at].
  split_and!; try done. apply list_fmap_ext. intros i d _. by rewrite Ha.
Qed.
Lemma sum_capped (l : list (string * Z)) (f : string → Z) :
  sum_Z ((λ d : string * Z, (d.1, Z.min d.2 (f d.1))) <$> l).*2 ≤ sum_Z l.*2.
Proof. induction l as [|[k z] l IH]; [done|]. rewrite !fmap_cons. cbn [fst snd sum_Z]. lia. Qed.
