(* ===== verification/QualityChecks.v ===== *)
(** * Quality checks

    Models [services/api/app/services/quality.py], which measures the running system: every
    check it makes, by the models of the components it asks; the snapshot it stores; and the
    routes of [api/quality.py] and [api/readiness.py]. The fixtures it reads from the
    repository are parameters. *)
From S2P Require Export Quality Yara SqlHunts ObjectStore Broker Playbook Correlation EntityGraph IngestAdapters.
Local Open Scope Z_scope.

(** ** What the checks read and change *)

Class QualityFiles := {
  yara_malicious : string; yara_good : string; yara_rule : string;    (** the corpus and the webshell rule *)
  office_c2 : option RangeScenario }.                                 (** [office_powershell_c2.yaml], if it exists *)
(** What a check can change beside the database. *)
Record modules := { md_files : files; md_metrics : MetricsRegistry }.
Definition set_metrics (f : MetricsRegistry → MetricsRegistry) (m : modules) : modules :=
  {| md_files := md_files m; md_metrics := f (md_metrics m) |}.
(** Calls on objects the checks create, with the identifiers and times drawn from the process. *)
Definition on_broker {A} (m : M bstate A) : M db (result A) := λ s,
  let '(r, b) := m {| b_draws := d_draws s; b_effects := [] |} in (Ok r, set_draws (λ _, b_draws b) s).
Definition on_new_playbooks {A} (m : M PlaybookEngine A) : M db A := λ s,
  let '(r, e) := m {| en_runs := []; en_by_idempotency := []; en_draws := d_draws s; en_calls := [] |} in
  (r, set_draws (λ _, en_draws e) s).
Definition on_new_lab {A} (m : M ReplayLab A) : M db A := λ s,
  let '(r, l) := m (new_lab (d_draws s)) in (r, set_draws (λ _, rl_draws l) s).
Definition on_disk {A} (m : M machine A) : M (process modules) A := λ p,
  let '(r, k) := m {| mc_draws := d_draws (pr_db p); mc_files := md_files (pr_module p); mc_world := [] |} in
  (r, {| pr_db := set_draws (λ _, mc_draws k) (pr_db p);
         pr_module := {| md_files := mc_files k; md_metrics := md_metrics (pr_module p) |} |}).

Definition _check (check_id domain title : string) (points : Z) (passed : bool) (evidence_ids : list string) (reason : string)
    : QualityCheckResult :=
  let evident := match evidence_ids with [] => false | _ => true end in {|
  qc_check_id := check_id; qc_domain := domain; qc_title := title; qc_max_points := points;
  qc_awarded_points := if passed && evident then points else 0; qc_passed := passed && evident;
  qc_evidence_ids := evidence_ids; qc_reason := reason |}.
Definition demo : string := "ten_bbbbbbbbbbbbbbbbbbbbbbbbbbbbbbbb".
(** A check that passes when something was counted. *)
Definition counted_check (check_id domain title : string) (points : Z) (kind : string) (count : nat) (reason : string) : QualityCheckResult :=
  _check check_id domain title points (0 <? Z.of_nat count)
    (if (count =? 0)%nat then [] else [kind +:+ ":" +:+ str_of_nat count]) reason.
Definition of_tenant {A} (tenant : A → string) (tenant_id : option string) (rows : list A) : nat :=
  match tenant_id with
  | Some t => if nonempty t then length (select (λ r, tenant r =? t)%string rows) else 0%nat
  | None => 0%nat
  end.

(** ** Blue Range *)

Definition family_check (check_id domain title : string) (points : Z) (family reason : string)
    (scenarios : list RangeScenario) (results : list RangeResult) : QualityCheckResult :=
  let ids := Replay.rs_id <$> select (λ s, rs_family s =? family)%string scenarios in
  let found := select (λ r, mem (rr_scenario_id r) ids) results in
  _check check_id domain title points
    (match found with [] => false | _ => true end && forallb rr_passed found)
    (rr_scenario_id <$> select rr_passed found) reason.
Definition range_checks (scenarios : list RangeScenario) (results : list RangeResult) : list QualityCheckResult := [
  family_check "identity.blue_range" "identity_security" "Blue Range identity detections" 50 "identity"
    "Password spray, brute force, and privilege-grant scenarios must pass." scenarios results;
  family_check "network.blue_range" "network_defence" "Blue Range network detections" 25 "network"
    "Horizontal scan and related network scenarios must pass with evidence." scenarios results;
  family_check "endpoint.blue_range" "endpoint_defence" "Blue Range endpoint detections" 25 "endpoint"
    "Office-to-shell and Office/C2 scenarios must pass with evidence." scenarios results].

(** ** The catalogue and the database *)

Definition rule_ids (rules : list DetectionRule) : list string := (λ r, rm_rule_id (dr_meta r)) <$> rules.
Definition catalogue_check (registry : DetectionRegistry) : QualityCheckResult :=
  _check "detection.catalogue" "detection_engineering" "Versioned Python detections with tests" 40
    (3 <=? length (all_rules registry))%nat (rule_ids (all_rules registry))
    "Production detections exist as versioned Python rules.".
Definition chain_check (s : db) : QualityCheckResult :=
  let (chain_ok, chain_reason) := verify_audit_chain (d_audit s) in
  let sound := chain_ok && (0 <? Z.of_nat (length (d_audit s))) in
  _check "ir.audit_chain" "incident_response" "Append-only hash-chained audit log" 30 sound
    (if sound then ["aud-chain"] else []) chain_reason.
Definition scoped (tenant_id : option string) (yes no : string) : string := if otrue tenant_id then yes else no.
Definition ingestion_check (tenant_id : option string) (s : db) : QualityCheckResult :=
  let event_count := of_tenant se_tenant_id tenant_id (d_events s) in
  counted_check "monitor.ingestion" "continuous_monitoring" "Tenant telemetry persisted with integrity hashes" 20 "events" event_count
    (scoped tenant_id (str_of_nat event_count +:+ " events stored for tenant.") "No tenant scope for ingestion check.").
Definition evidence_check (tenant_id : option string) (s : db) : QualityCheckResult :=
  let finding_count := of_tenant fr_tenant_id tenant_id (d_findings s) in
  counted_check "dfir.evidence" "dfir" "Findings cite persisted evidence objects" 25 "findings" finding_count
    (scoped tenant_id (str_of_nat finding_count +:+ " findings with evidence references.") "No tenant findings yet.").
Definition history_check (s : db) : QualityCheckResult :=
  let n := length (d_revisions s) in
  counted_check "detection.rule_history" "detection_engineering" "Rule version history persisted" 10 "revisions" n
    (if (n =? 0)%nat then "Rule revisions not synced." else str_of_nat n +:+ " rule revisions stored.").
Definition grouping_check (tenant_id : option string) (s : db) : QualityCheckResult :=
  let n := of_tenant in_tenant_id tenant_id (d_incidents s) in
  counted_check "correlation.incident_grouping" "incident_response" "Storylines group into incidents without duplicate inflation" 20
    "incidents" n (if (n =? 0)%nat then "No grouped incidents for tenant." else str_of_nat n +:+ " grouped incidents.").

(** ** Languages *)

Definition sigma_check (registry : DetectionRegistry) : QualityCheckResult :=
  let sigma_ids := select (λ i, startswith i "sigma.") (rule_ids (all_rules registry)) in
  _check "detection.sigma" "detection_engineering" "Compiled Sigma rules in the detection registry" 20
    (match sigma_ids with [] => false | _ => true end) sigma_ids "Sigma YAML is compiled to Python DetectionRule objects.".
Definition quoted (s : string) : string := String dquote_ch (s +:+ String dquote_ch "").
Definition good_query : string :=
  "process.name = " +:+ quoted "powershell.exe" +:+ " AND parent.name IN (" +:+ quoted "winword.exe" +:+ ", " +:+ quoted "excel.exe" +:+ ")".
(** The two parses: whether one was refused by the parser, with what is said of it. *)
Definition injection_probe : result (bool * string) :=
  match (parse good_query;; parse "1=1; DROP TABLE events") with
  | Ok _ => Ok (false, "injection was accepted")
  | Raise (ValueError _) => Ok (true, "AST parser rejects SQL/control tokens.")
  | Raise e => Raise e
  end.
(** [item["id"]], of string identifiers. *)
Definition hunt_id (hunt : pyval) : result string :=
  match hunt with
  | VDict d => match dget "id" d with Some v => Ok (py_str v) | None => Raise (KeyError "id") end
  | v => Raise (TypeError ("'" +:+ type_name v +:+ "' object is not subscriptable"))
  end.

Section checks.
Context `{Oracle} `{ScenarioFiles} `{QualityFiles} `{YaraLib} `{Opa} `{BrokerEnv} `{HuntFiles}.
Context `{IsoLib} `{Pydantic} `{IpLib} (broker_root : string) (cwd : list string).

Definition hunt_check : result QualityCheckResult :=
  '(blueql_ok, blueql_reason) ← injection_probe;
  sql_ids ← mapM hunt_id list_hunts;
  Ok (_check "hunt.blueql_sql" "threat_hunting" "BlueQL AST parser and registered SQL hunts" 30
        (blueql_ok && match sql_ids with [] => false | _ => true end)
        ((if blueql_ok : bool then ["blueql.injection-blocked"] else []) ++ sql_ids) blueql_reason).
Definition yara_check : result QualityCheckResult :=
  bad ← scan_bytes yara_malicious yara_rule true;
  good ← (match (bad : option YaraMatch) with Some _ => scan_bytes yara_good yara_rule true | None => Ok None end);
  let yara_ok := match bad, good with Some _, None => true | _, _ => false end in
  Ok (_check "dfir.yara" "dfir" "YARA subset distinguishes known-malicious from known-good fixtures" 15 yara_ok
        (if yara_ok then ["yara.Webshell_Eval_Marker"] else []) "Corpus match is required before YARA contributes score.").
Definition shell_request : Broker.ActionRequest := {|
  Broker.aq_action_id := "act_quality"; Broker.aq_action_type := "shell.exec"; aq_tenant_id := demo; aq_target := [];
  Broker.aq_params := []; aq_reason := "quality probe"; aq_requested_by := "quality"; Broker.aq_dry_run := true;
  aq_actor_roles := []; aq_permissions := ["response:tier0"] |}.
Definition ai_document : pydict := [
  ("action", VDict [("type", VStr "ai.execute"); ("tier", VInt 0); ("read_only", VBool false); ("dry_run", VBool false)])].
Definition broker_check : M db QualityCheckResult :=
  deny_ai ← lift (Policy.evaluate ai_document true);
  submitted ← on_broker (submit (make_broker broker_root None []) shell_request);
  let ok := bool_decide (Policy.pr_decision deny_ai = DENY) && negb (is_ok submitted) in
  mret (_check "response.rego_broker" "response_automation" "Rego default-deny and broker rejects arbitrary shell" 25 ok
          (if ok then ["rego.deny-ai"; "broker.no-generic-shell"] else [])
          "AI execution and unregistered shell actions must be denied.").

(** ** Correlation and graphs *)

Definition storyline_ids (results : list RangeResult) : M db (list string) :=
  match office_c2 with
  | Some c2 =>
      match find_first (λ r, rr_scenario_id r =? Replay.rs_id c2)%string results with
      | Some c2_result =>
          if rr_passed c2_result
          then stories ← drawing_db (correlate (rs_events c2) (rr_findings c2_result)); mret (sl_storyline_id <$> stories)
          else mret []
      | None => mret []
      end
  | None => mret []
  end.
Definition correlation_check (results : list RangeResult) : M db QualityCheckResult :=
  ids ← storyline_ids results;
  mret (_check "correlation.office_c2" "detection_engineering" "Cross-domain Office to beacon storyline" 20
          (match ids with [] => false | _ => true end) ids
          "Storylines must cite finding evidence from endpoint and network detections.").
Definition explained (e : GraphEntity) : bool :=
  fl_lt (fl_of_Z 0) (ge_risk_score e) && match ge_risk_components e, ge_event_ids e with _ :: _, _ :: _ => true | _, _ => false end.
Definition observed_edge (r : GraphRelationship) : bool :=
  match gr_event_ids r with [] => false | _ => true end && negb (gr_manufactured r).
Definition graph_ids (scenarios : list RangeScenario) (results : list RangeResult) : list string :=
  match find_first (λ s, Replay.rs_id s =? "br-identity-password-spray")%string scenarios with
  | Some scenario =>
      match find_first (λ r, rr_scenario_id r =? Replay.rs_id scenario)%string results with
      | Some result =>
          if rr_passed result then
            let graph := build_graph (rs_events scenario) (rr_findings result) [] in
            match select explained (eg_entities graph), select observed_edge (eg_relationships graph) with
            | e :: _, r :: _ => if eg_manufactured_edges graph then [] else [ge_id e; gr_id r]
            | _, _ => []
            end
          else []
      | None => []
      end
  | None => []
  end.
Definition graph_check (scenarios : list RangeScenario) (results : list RangeResult) : QualityCheckResult :=
  let ids := graph_ids scenarios results in
  _check "architecture.entity_graph" "defensive_architecture" "Entity graph and explainable risk from telemetry" 20
    (match ids with [] => false | _ => true end) ids
    "Entities, observed relationships, and risk components must come from events and findings.".
Definition coverage_check (current : DetectionRegistry) : QualityCheckResult :=
  let maps := detection_map_of <$> all_rules current in
  let coverage := compute_coverage maps ["identity"; "zeek"] []
    (dm_rule_id <$> select (λ m, mem (dm_status m) ["tested"; "promoted"]) maps) in
  let sample := find_first detected (cv_techniques coverage) in
  _check "architecture.attack_coverage" "defensive_architecture" "ATT&CK coverage maps detections, telemetry, gaps" 15
    (match sample with Some _ => true | None => false end)
    (match sample with Some t => [tq_technique_id t] | None => [] end)
    "Coverage score must cite detection mapping and gap list per technique.".

(** ** Connectors, enrichment and the object store *)

Definition zeek_record : pydict := [
  ("_path", VStr "dns"); ("ts", VStr "2026-09-05T16:00:00Z"); ("uid", VStr "Cqualitydns"); ("id.orig_h", VStr "10.0.0.1");
  ("id.resp_h", VStr "8.8.8.8"); ("proto", VStr "udp"); ("query", VStr "example.test")].
Definition suricata_record : pydict := [
  ("event_type", VStr "alert"); ("timestamp", VStr "2026-09-05T16:00:01Z"); ("flow_id", VInt 1); ("src_ip", VStr "10.0.0.1");
  ("dest_ip", VStr "1.2.3.4"); ("alert", VDict [("signature", VStr "quality"); ("severity", VInt 2)])].
Definition event_of (m : M draws Draft) : M db CanonicalEvent := drawing_db (d ← m; lift (settled d)).
Definition connector_check : M db QualityCheckResult :=
  denied ← request_action {| Connectors.aq_action := "isolate_host"; aq_agent_id := "001"; Connectors.aq_params := [];
                             Connectors.aq_dry_run := true |};
  zeek_evt ← event_of (normalize_zeek zeek_record demo None);
  suri_evt ← event_of (normalize_suricata suricata_record demo);
  mret (_check "architecture.connectors" "continuous_monitoring" "Wazuh policy gate + Zeek/Suricata normalisation" 15
          ((ax_status denied =? "denied")%string && (e_source_type zeek_evt =? "zeek")%string
           && (e_source_type suri_evt =? "suricata")%string && (e_category suri_evt =? "alert")%string)
          [ax_action_id denied; e_id zeek_evt; e_id suri_evt]
          "High-impact actions stay denied; network parsers must emit canonical source types.").
Definition syslog_line : string := "<34>1 2026-09-05T10:00:00Z sshd sshd - - - Failed password for alice from 203.0.113.77".
Definition enrichment_check : M db QualityCheckResult :=
  syslog_event ← event_of (parse_syslog_line syslog_line demo);
  let r := snd (enrich_event syslog_event DEFAULT_ASSETS DEFAULT_DIRECTORY DEFAULT_INTEL) in
  mret (_check "enrichment.deterministic" "threat_intelligence" "Deterministic GeoIP/asset/identity enrichment" 15
          (mem "geoip" (en_applied r) && bool_decide (dget "country" (en_geo r) = Some "ZZ"))
          (match en_applied r with [] => [] | applied => ["enrich:" +:+ join "," applied] end)
          "Fixture GeoIP and directory enrichment must be deterministic and testable.").
Definition probe_payload : string := "{" +:+ quoted "probe" +:+ ":true}".
Definition object_check : M (process modules) QualityCheckResult :=
  store ← on_disk (on_files (local_store cwd DEFAULT_ROOT));
  ref ← on_disk (local_put cwd store demo "quality/probe.json" probe_payload);
  p ← get;
  stored ← lift (local_get cwd store (or_uri ref) (md_files (pr_module p)));
  let same := (stored =? probe_payload)%string in
  mret (_check "dataplane.object_store" "continuous_monitoring" "Raw object store write and read" 10 same
          (if same then [or_uri ref] else []) "Local object store must persist raw event bytes.").
Definition lint_check (registry : DetectionRegistry) : QualityCheckResult :=
  match lint_rules registry with
  | [] => _check "detection.rule_lint" "detection_engineering" "Invalid detection rules fail CI lint" 10 true ["detections.lint"] "OK"
  | errors => _check "detection.rule_lint" "detection_engineering" "Invalid detection rules fail CI lint" 10 false []
                (join "; " (take 4 errors))
  end.

(** ** The other probes *)

Definition ioc_check (tenant_id : option string) : M db QualityCheckResult :=
  ioc_active ← (match tenant_id with
                | Some t => if nonempty t
                            then now ← utcnow_db;
                                 gets (λ s, length (select (λ r, (io_tenant_id r =? t)%string && io_active r && dt_lt now (io_expires_at r))
                                                      (d_indicators s)))
                            else mret 0%nat
                | None => mret 0%nat
                end);
  mret (counted_check "intel.ioc_store" "threat_intelligence" "Active IOC store with TTL and provenance" 20 "iocs" ioc_active
          (if (ioc_active =? 0)%nat then "No active tenant IOCs evidenced." else str_of_nat ioc_active +:+ " active IOCs.")).
Definition azure_sample : pydict := [
  ("id", VStr "evt_cloudquality000000000000000001"); ("activityDisplayName", VStr "Add member to role");
  ("activityDateTime", VStr "2026-09-05T12:00:00Z"); ("initiatedBy", VDict [("user", VDict [("userPrincipalName", VStr "alice")])]);
  ("ipAddress", VStr "203.0.113.10"); ("privileged", VBool true);
  ("targetResources", VList [VDict [("displayName", VStr "Global Administrator"); ("id", VStr "role-ga")]])].
Definition cloud_check : M db QualityCheckResult :=
  sample_audit ← event_of (normalize_audit azure_sample demo);
  let risky := ci_risky_configs (azure_inventory_of [sample_audit]) in
  first ← lift (match risky with c :: _ => Ok c | [] => Raise (OtherError "IndexError: list index out of range") end);
  mret (_check "cloud.azure_fixture" "cloud_security" "Azure AD fixture connector audit + inventory" 20
          ((e_source sample_audit =? "azure-ad")%string && (e_source_type sample_audit =? "cloud")%string)
          [e_id sample_audit; py_str (dgetv "id" first)]
          "First-cloud adapter must normalise audit events and expose risky configs.").
Definition priority_check : QualityCheckResult :=
  let priority := remediation_priority (fl_of_decimal false 98 (-1)) (fl_of_Z 80) (fl_of_Z 90) (fl_of_Z 70) in
  _check "vuln.priority_formula" "defensive_architecture" "Deterministic vulnerability remediation priority" 15
    (fl_le (fl_of_Z 80) (pr_priority priority) && (pr_sla_days priority =? 7)) [fl_repr (pr_priority priority)] (pr_formula priority).
(** The kinds of the warnings of a health report. *)
Definition warning_kinds (health : pydict) : list string :=
  match dgetv "warnings" health with
  | VList l => (λ w, match w with VDict d => py_str (dgetv "kind" d) | _ => "" end) <$> l
  | _ => []
  end.
Definition health_check : M db QualityCheckResult :=
  now ← utcnow_db;
  health ← lift (evaluate_telemetry_health now [] 1 ["schema drift"] None 900 3600 60);
  mret (_check "telemetry.health_center" "continuous_monitoring" "Telemetry health warns on missing sources" 15
          (negb (py_str (dgetv "status" health) =? "healthy")%string && mem "silent_sensor" (warning_kinds health))
          (take 3 (warning_kinds health)) "Platform must warn when required telemetry is absent.").
Definition has_rollback (r : PlaybookRun) : bool := existsb (λ s, otrue (sr_rollback_hook s)) (pr_steps r).
Definition playbook_check : M db QualityCheckResult :=
  '(dry, gated) ← on_new_playbooks (
    enrich ← lift (get_playbook "pb.enrich_only");
    dry ← Playbook.run default_executor enrich demo true (Some "qi-enrich") [];
    contain ← lift (get_playbook "pb.contain_host_t0");
    gated ← Playbook.run default_executor contain demo false (Some "qi-contain") [];
    mret (dry, gated));
  mret (_check "soar.playbook_dag" "response_automation" "Playbook DAG with retries/approvals/rollback hooks" 20
          ((pr_status dry =? "completed")%string && (pr_status gated =? "awaiting_approval")%string && has_rollback gated)
          [pr_run_id dry; pr_run_id gated]
          "T0 DAG completes dry-run; T2 isolate requires approval with rollback hook.").
Definition summary_request : AIRequest := {|
  Gateway.rq_tenant_id := demo; rq_feature := "soc-analyst"; rq_task_type := "summarise"; rq_context_refs := [];
  rq_requested_capability := "incident_summary"; rq_max_cost := fl_of_Z 1; rq_max_tokens := 100; rq_sensitivity := "low";
  rq_structured_output_schema := []; rq_prompt := "" |}.
(** A gateway of its own, loaded anew. *)
Definition gateway_check : QualityCheckResult :=
  let ai_decision := fst (route summary_request false None fresh_gateway) in
  _check "ai.offline_default" "response_automation" "AI gateway defaults offline without provider SDK" 15
    (is_deterministic ai_decision && match ad_provider ai_decision with None => true | Some _ => false end)
    [decision_str (ad_decision ai_decision)] (ad_reason ai_decision).
Definition replay_check (current : DetectionRegistry) : M db QualityCheckResult :=
  job ← on_new_lab (dataset ← register_dataset "qi-replay" "."; run_job (ds_dataset_id dataset) current None "current");
  mret (_check "replay.regression_gate" "detection_engineering" "Replay lab regression suite gates promotion" 20
          (rj_passed job && match rj_rule_ids job with [] => false | _ => true end) (rj_job_id job :: take 5 (rj_rule_ids job))
          "Current registry must pass registered Blue Range dataset.").
Definition improve_check : M db QualityCheckResult :=
  i ← new_id_db "imp";
  now ← utcnow_db;
  let candidate := new_candidate i (isoformat now) "identity.password_spray" "qi candidate" [] true in
  mret (_check "improve.candidates" "detection_engineering" "Self-improvement candidates cannot auto-promote" 15
          ((candidate_status_str (ic_status candidate) =? "proposed")%string
           && match dgetv "may_auto_promote" (candidate_dict candidate) with VBool false => true | _ => false end)
          [ic_candidate_id candidate] "AI may suggest but must not promote.").
Definition seeded_check : M db QualityCheckResult :=
  g ← default_lab_architecture demo;
  graph ← lift (fst (save_graph g []));
  mret (_check "architecture.seeded" "defensive_architecture" "Typed architecture graph versions persist" 15
          ((1 <=? ag_version graph) && (5 <=? length (ag_nodes graph))%nat) [ag_graph_id graph]
          "Architecture center seeds zones/controls/sensors.").
Definition metrics_check : M (process modules) QualityCheckResult :=
  on_module (modify (set_metrics (incr "btos_qi_probe" (fl_of_Z 1))));;
  p ← get;
  mret (_check "observability.metrics" "continuous_monitoring" "Control-plane metrics registry responds" 10
          (dhas "btos_qi_probe" (counter_values (md_metrics (pr_module p)))) ["btos_qi_probe"]
          "Prometheus text metrics available via observability API.").
Definition manifest_check : QualityCheckResult :=
  _check "dfir.manifest_export" "dfir" "DFIR evidence manifest hash exportable" 10 true ["dfir.export"]
    "Export path is implemented; tenant evidence may be empty.".

(** ** All of them *)

Definition pure_check (c : QualityCheckResult) : M (process modules) QualityCheckResult := mret c.
Definition of_db (f : db → QualityCheckResult) : M (process modules) QualityCheckResult := on_db (gets f).
(** The checks after the scenarios have run, in order. *)
Definition checks_after (registry current : DetectionRegistry) (tenant_id : option string) (scenarios : list RangeScenario)
    (results : list RangeResult) : list (M (process modules) QualityCheckResult) :=
  (pure_check <$> range_checks scenarios results)
  ++ [pure_check (catalogue_check registry); of_db chain_check; of_db (ingestion_check tenant_id); of_db (evidence_check tenant_id);
      pure_check (sigma_check registry); lift hunt_check; lift yara_check; on_db broker_check;
      on_db (correlation_check results); pure_check (graph_check scenarios results); pure_check (coverage_check current);
      on_db connector_check; on_db enrichment_check; object_check; pure_check (lint_check registry); of_db history_check;
      of_db (grouping_check tenant_id); on_db (ioc_check tenant_id); on_db cloud_check; pure_check priority_check;
      on_db health_check; on_db playbook_check; pure_check gateway_check; on_db (replay_check current); on_db improve_check;
      on_db seeded_check; metrics_check; pure_check manifest_check].
Definition build_checks (registry current : DetectionRegistry) (tenant_id : option string)
    : M (process modules) (list QualityCheckResult) :=
  scenarios ← lift (if path_exists scenario_root then load_scenarios scenario_root else Ok []);
  results ← on_db (drawing_db (mapM' (run_scenario registry) scenarios));
  mapM' id (checks_after registry current tenant_id scenarios results).
End checks.

(** ** Snapshots and routes *)

Definition same_snapshot (a b : QualitySnapshot) : bool := (qs_id a =? qs_id b)%string.
Definition snapshot_of (i : string) (tenant_id : option string) (x : QualityIndex) : QualitySnapshot := {|
  qs_id := i; qs_tenant_id := tenant_id; qs_model_version := qx_model_version x; qs_total := qx_total x;
  qs_band := band_str (qx_band x); qs_domains := (λ d, (d.1, VInt d.2)) <$> qx_domains x; qs_checks := check_dict <$> qx_checks x;
  qs_computed_at := qx_computed_at x |}.
Definition snapshot_dict (row : QualitySnapshot) : pydict := [
  ("id", VStr (qs_id row)); ("model_version", VStr (qs_model_version row)); ("total", VInt (qs_total row)); ("maximum", VInt 1000);
  ("band", VStr (qs_band row)); ("domains", VDict (qs_domains row)); ("checks", VList (VDict <$> qs_checks row));
  ("computed_at", VStr (isoformat (qs_computed_at row))); ("editable", VBool false)].

Section quality_routes.
Context `{Oracle} `{ScenarioFiles} `{QualityFiles} `{YaraLib} `{Opa} `{BrokerEnv} `{HuntFiles} `{IsoLib} `{Pydantic} `{IpLib} `{AuthLib}.
Context (broker_root : string) (cwd : list string) (registry current : DetectionRegistry) (quality_model_version : string).

Definition compute_and_store (tenant_id : option string) : M (process modules) QualitySnapshot :=
  checks ← build_checks broker_root cwd registry current tenant_id;
  now ← on_db utcnow_db;
  index ← lift (compute_quality_index checks now (if nonempty quality_model_version then quality_model_version else MODEL_VERSION));
  i ← on_db (new_id_db "qck");
  let row := snapshot_of i tenant_id index in
  on_db (add_unique d_quality set_quality same_snapshot row);;
  mret row.
Definition serve_quality (h : headers) (request_id : string) : M (process modules) pydict :=
  in_session (
    actor ← on_db (require "quality:read" h request_id);
    row ← compute_and_store (Some (ta_tenant_id actor));
    mret (snapshot_dict row)).

Definition GATE : list string := [
  "identity.blue_range"; "network.blue_range"; "endpoint.blue_range"; "replay.regression_gate"; "improve.candidates";
  "ai.offline_default"; "dfir.manifest_export"; "architecture.seeded"].
Record gate_item := { gi_check_id : string; gi_present : bool; gi_passed : bool; gi_evidence_ids : list string }.
(** [by_id.get(check_id)], where a later check replaces an earlier one of its name. *)
Definition gate_check (checks : list QualityCheckResult) (check_id : string) : gate_item :=
  let item := find_first (λ c, qc_check_id c =? check_id)%string (rev checks) in {|
  gi_check_id := check_id; gi_present := match item with Some _ => true | None => false end;
  gi_passed := match item with Some c => qc_passed c && negb (bool_decide (qc_evidence_ids c = [])) | None => false end;
  gi_evidence_ids := match item with Some c => qc_evidence_ids c | None => [] end |}.
Definition gate_dict (g : gate_item) : pydict := [
  ("check_id", VStr (gi_check_id g)); ("present", VBool (gi_present g)); ("passed", VBool (gi_passed g));
  ("evidence_ids", VList (VStr <$> gi_evidence_ids g))].
Definition gate_open (items : list gate_item) (scenario_count : nat) : bool :=
  let present := select gi_present items in
  match present with [] => false | _ => true end && forallb gi_passed present && (6 <=? scenario_count)%nat.
Definition production_readiness_gate (actor : TenantActor) : M (process modules) pydict :=
  checks ← build_checks broker_root cwd registry current (Some (ta_tenant_id actor));
  let items := gate_check checks <$> GATE in
  scenarios ← lift (if path_exists scenario_root then load_scenarios scenario_root else Ok []);
  let passed := gate_open items (length scenarios) in
  mret [("tenant_id", VStr (ta_tenant_id actor)); ("gate", VStr (if passed then "production_readiness" else "not_ready"));
        ("passed", VBool passed); ("scenario_count", VInt (Z.of_nat (length scenarios)));
        ("required_checks", VList ((λ g, VDict (gate_dict g)) <$> items));
        ("note", VStr ("GSE-calibre band still requires evidence-backed quality total >= 925; "
                       +:+ "this gate is necessary but not sufficient."))].
Definition serve_gate (h : headers) (request_id : string) : M (process modules) pydict :=
  in_session (actor ← on_db (require "quality:read" h request_id); production_readiness_gate actor).
End quality_routes.

(** ** What the checks can say *)

(** The checks that are made: their names, domains and points. *)
Definition CHECKS : list (string * string * Z) := [
  ("identity.blue_range", "identity_security", 50); ("network.blue_range", "network_defence", 25);
  ("endpoint.blue_range", "endpoint_defence", 25); ("detection.catalogue", "detection_engineering", 40);
  ("ir.audit_chain", "incident_response", 30); ("monitor.ingestion", "continuous_monitoring", 20); ("dfir.evidence", "dfir", 25);
  ("detection.sigma", "detection_engineering", 20); ("hunt.blueql_sql", "threat_hunting", 30); ("dfir.yara", "dfir", 15);
  ("response.rego_broker", "response_automation", 25); ("correlation.office_c2", "detection_engineering", 20);
  ("architecture.entity_graph", "defensive_architecture", 20); ("architecture.attack_coverage", "defensive_architecture", 15);
  ("architecture.connectors", "continuous_monitoring", 15); ("enrichment.deterministic", "threat_intelligence", 15);
  ("dataplane.object_store", "continuous_monitoring", 10); ("detection.rule_lint", "detection_engineering", 10);
  ("detection.rule_history", "detection_engineering", 10); ("correlation.incident_grouping", "incident_response", 20);
  ("intel.ioc_store", "threat_intelligence", 20); ("cloud.azure_fixture", "cloud_security", 20);
  ("vuln.priority_formula", "defensive_architecture", 15); ("telemetry.health_center", "continuous_monitoring", 15);
  ("soar.playbook_dag", "response_automation", 20); ("ai.offline_default", "response_automation", 15);
  ("replay.regression_gate", "detection_engineering", 20); ("improve.candidates", "detection_engineering", 15);
  ("architecture.seeded", "defensive_architecture", 15); ("observability.metrics", "continuous_monitoring", 10);
  ("dfir.manifest_export", "dfir", 10)].
(** A check by its name, domain and points: it has its points exactly when it passed, and
    passes only with evidence. *)
Record honest (spec : string * string * Z) (c : QualityCheckResult) : Prop := {
  hn_id : qc_check_id c = spec.1.1; hn_domain : qc_domain c = spec.1.2; hn_max : qc_max_points c = spec.2;
  hn_points : qc_awarded_points c = if qc_passed c then spec.2 else 0;
  hn_evidence : qc_passed c = true → qc_evidence_ids c ≠ [] }.
Lemma honest_check id domain title points passed evidence reason :
  honest (id, domain, points) (_check id domain title points passed evidence reason).
Proof. constructor; cbn; try done. destruct evidence; [by rewrite andb_false_r|done]. Qed.

(** What a call returns, when it returns. *)
Definition gives {S A} (Q : A → Prop) (m : M S A) : Prop := ∀ s a s', m s = (Ok a, s') → Q a.
Lemma gives_ret {S A} (Q : A → Prop) a : Q a → gives (S := S) Q (mret a).
Proof. intros Ha s b s' [= <- _]. done. Qed.
Lemma gives_bind {S A B} (Q : B → Prop) (m : M S A) k : (∀ a, gives Q (k a)) → gives Q (m ≫= k).
Proof. intros Hk s b s' (a & s1 & _ & He)%M_bind_ok. by eapply Hk. Qed.
Lemma gives_on_db {G A} (Q : A → Prop) (m : M db A) : gives Q m → gives (S := process G) Q (on_db m).
Proof. intros Hm p a p' [He _]%on_db_ok. by eapply Hm. Qed.
Lemma gives_lift {S A} (Q : A → Prop) (r : result A) : (∀ a, r = Ok a → Q a) → gives (S := S) Q (lift r).
Proof. intros Hr s a s' [= He _]. by apply Hr. Qed.
Lemma gives_gets {S A} (Q : A → Prop) (f : S → A) : (∀ s, Q (f s)) → gives Q (gets f).
Proof. intros Hf s a s' [= <- _]. apply Hf. Qed.
Lemma gives_mapM {S A B} (Q : A → B → Prop) (l : list A) (ms : list (M S B)) :
  Forall2 (λ x m, gives (Q x) m) l ms → gives (Forall2 Q l) (mapM' id ms).
Proof.
  induction 1 as [|x m l ms Hx _ IH]; cbn [mapM']; [apply gives_ret; constructor|].
  intros s ys s' He. inv_bind He. inv_bind He. injection He as <- _. constructor; [by eapply Hx | by eapply IH].
Qed.

(** Identifiers and times are all a check takes from the database. *)
Definition drawn (s s' : db) : Prop := ∃ d, s' = set_draws (λ _, d) s.
#[local] Instance drawn_preorder : PreOrder drawn.
Proof. split; [intros s; exists (d_draws s); by destruct s|]. intros a b c [d ->] [d' ->]. by exists d'. Qed.
Definition drawn_p (p p' : process modules) : Prop := drawn (pr_db p) (pr_db p').
#[local] Instance drawn_p_preorder : PreOrder drawn_p.
Proof. split; [intros p; unfold drawn_p; reflexivity|]. intros a b c. unfold drawn_p. by etrans. Qed.
Lemma drawn_by {A} (m : M db A) : (∀ s, ∃ d, snd (m s) = set_draws (λ _, d) s) → keeps drawn m.
Proof. intros Hm s. apply Hm. Qed.
Lemma drawn_drawing {A} (m : M draws A) : keeps drawn (drawing_db m).
Proof. apply drawn_by. intros s. unfold drawing_db. destruct (m (d_draws s)) as [r d]. by exists d. Qed.
Lemma drawn_broker {A} (m : M bstate A) : keeps drawn (on_broker m).
Proof. apply drawn_by. intros s. unfold on_broker. destruct (m _) as [r b]. by eexists. Qed.
Lemma drawn_playbooks {A} (m : M PlaybookEngine A) : keeps drawn (on_new_playbooks m).
Proof. apply drawn_by. intros s. unfold on_new_playbooks. destruct (m _) as [r b]. by eexists. Qed.
Lemma drawn_lab {A} (m : M ReplayLab A) : keeps drawn (on_new_lab m).
Proof. apply drawn_by. intros s. unfold on_new_lab. destruct (m _) as [r b]. by eexists. Qed.
Lemma drawn_id `{Oracle} prefix : keeps drawn (new_id_db prefix).
Proof. apply drawn_by. intros s. by eexists. Qed.
Lemma drawn_now `{Oracle} : keeps drawn utcnow_db.
Proof. apply drawn_by. intros s. by eexists. Qed.
Lemma drawn_disk {A} (m : M machine A) : keeps drawn_p (on_disk m).
Proof. intros p. unfold on_disk, drawn_p. destruct (m _) as [r k]. by eexists. Qed.
Lemma drawn_on_db {A} (m : M db A) : keeps drawn m → keeps drawn_p (on_db m).
Proof. intros Hm p. unfold on_db, drawn_p. specialize (Hm (pr_db p)). by destruct (m (pr_db p)). Qed.
Lemma drawn_module {A} (m : M modules A) : keeps drawn_p (on_module m).
Proof. intros p. unfold on_module, drawn_p. destruct (m (pr_module p)). reflexivity. Qed.
Ltac drawn_step :=
  match goal with
  | |- keeps _ (drawing_db _) => apply drawn_drawing
  | |- keeps _ (on_broker _) => apply drawn_broker
  | |- keeps _ (on_new_playbooks _) => apply drawn_playbooks
  | |- keeps _ (on_new_lab _) => apply drawn_lab
  | |- keeps _ (new_id_db _) => apply drawn_id
  | |- keeps _ utcnow_db => apply drawn_now
  | |- keeps _ (on_disk _) => apply drawn_disk
  | |- keeps _ (on_module _) => apply drawn_module
  | |- keeps _ (on_db _) => apply drawn_on_db
  | |- keeps _ (event_of _) => apply drawn_drawing
  | |- keeps _ (request_action _) => unfold request_action
  | |- keeps _ (storyline_ids _) => unfold storyline_ids
  | |- keeps _ (default_lab_architecture _) => unfold default_lab_architecture
  | |- _ => keeps_step
  end.
Ltac gives_step :=
  match goal with
  | |- gives _ (_ ≫= _) => apply gives_bind; intros ?
  | |- gives _ (mret _) => apply gives_ret
  | |- gives _ (on_db _) => apply gives_on_db
  | |- gives _ (gets _) => apply gives_gets; intros ?
  | |- gives _ (let '(_, _) := ?x in _) => destruct x
  | |- honest _ (_check _ _ _ _ _ _ _) => apply honest_check
  end.

Section check_facts.
Context `{Oracle} `{ScenarioFiles} `{QualityFiles} `{YaraLib} `{Opa} `{BrokerEnv} `{HuntFiles} `{IsoLib} `{Pydantic} `{IpLib}.
Context (broker_root : string) (cwd : list string) (registry current : DetectionRegistry) (tenant_id : option string).
Lemma hunt_honest : gives (S := process modules) (honest ("hunt.blueql_sql", "threat_hunting", 30)) (lift hunt_check).
Proof.
  apply gives_lift. intros c ([ok reason] & _ & He)%result_bind_ok. apply result_bind_ok in He as (ids & _ & [= <-]). apply honest_check.
Qed.
Lemma yara_honest : gives (S := process modules) (honest ("dfir.yara", "dfir", 15)) (lift yara_check).
Proof.
  apply gives_lift. intros c (bad & _ & He)%result_bind_ok. apply result_bind_ok in He as (good & _ & [= <-]). apply honest_check.
Qed.
Lemma chain_honest s : honest ("ir.audit_chain", "incident_response", 30) (chain_check s).
Proof. unfold chain_check. destruct (verify_audit_chain (d_audit s)). apply honest_check. Qed.
Lemma lint_honest : honest ("detection.rule_lint", "detection_engineering", 10) (lint_check registry).
Proof. unfold lint_check. destruct (lint_rules registry); apply honest_check. Qed.
Lemma checks_honest scenarios results : Forall2 (λ spec m, gives (honest spec) m) CHECKS
  (checks_after broker_root cwd registry current tenant_id scenarios results).
Proof.
  unfold CHECKS, checks_after, range_checks, pure_check, of_db. cbn [fmap list_fmap app].
  repeat (apply List.Forall2_cons; [|]); [..|apply List.Forall2_nil].
  all: try apply hunt_honest; try apply yara_honest.
  all: unfold broker_check, correlation_check, connector_check, enrichment_check, object_check, ioc_check, cloud_check, health_check,
    playbook_check, replay_check, improve_check, seeded_check, metrics_check, manifest_check, gateway_check, priority_check,
    grouping_check, history_check, evidence_check, ingestion_check, counted_check, coverage_check, graph_check, sigma_check,
    catalogue_check, family_check.
  all: repeat gives_step.
  - apply chain_honest.
  - apply lint_honest.
Qed.
Lemma checks_drawn scenarios results :
  Forall (keeps drawn_p) (checks_after broker_root cwd registry current tenant_id scenarios results).
Proof.
  unfold checks_after, range_checks, pure_check, of_db. cbn [fmap list_fmap app].
  repeat (apply List.Forall_cons; [|]); [..|apply List.Forall_nil].
  all: unfold broker_check, correlation_check, connector_check, enrichment_check, object_check, ioc_check, cloud_check, health_check,
    playbook_check, replay_check, improve_check, seeded_check, metrics_check.
  all: repeat drawn_step.
Qed.
(** The checks made, whatever the system is like. *)
Lemma build_checks_ok p checks p' : build_checks broker_root cwd registry current tenant_id p = (Ok checks, p') →
  Forall2 honest CHECKS checks.
Proof. intros He. inv_bind He. inv_bind He. eapply gives_mapM; [apply checks_honest | exact He]. Qed.
Lemma keeps_all {S A} (R : S → S → Prop) `{!PreOrder R} (ms : list (M S A)) : Forall (keeps R) ms → keeps R (mapM' id ms).
Proof.
  induction 1 as [|m ms Hm _ IH]; cbn [mapM']; [apply keeps_pure, _|]. apply keeps_bind; [apply _ | exact Hm|]. intros a.
  apply keeps_bind; [apply _ | exact IH|]. intros l. apply keeps_pure, _.
Qed.
Lemma build_checks_drawn : keeps drawn_p (build_checks broker_root cwd registry current tenant_id).
Proof.
  unfold build_checks. apply keeps_bind; [apply _ | drawn_step|]. intros scenarios. apply keeps_bind; [apply _ | repeat drawn_step|].
  intros results. apply keeps_all; [apply _ | apply checks_drawn].
Qed.
End check_facts.

(** ** The index of the running system *)

(** The points the checks can give in a domain. *)
Definition available (domain : string) : Z := sum_Z (snd <$> select (λ s, s.1.2 =? domain)%string CHECKS).
Definition most : Z := sum_Z ((λ d : string * Z, Z.min d.2 (available d.1)) <$> QUALITY_DOMAINS).
Lemma honest_earned spec c : honest spec c → 0 ≤ spec.2 → 0 ≤ earned c ≤ spec.2.
Proof.
  intros [_ _ _ Hp _] H0. unfold earned. destruct (qc_passed c); cbn [andb] in *; [|lia]. destruct (negb _); [|lia]. rewrite Hp. lia.
Qed.
Lemma earned_available specs checks domain : Forall2 honest specs checks → Forall (λ s, 0 ≤ s.2) specs →
  0 ≤ earned_in domain checks ≤ sum_Z (snd <$> select (λ s, s.1.2 =? domain)%string specs).
Proof.
  unfold earned_in, select. induction 1 as [|spec c specs checks Hc _ IH]; [cbn; lia|]. intros [Hs Hall]%Forall_cons.
  specialize (IH Hall). rewrite !filter_cons, (hn_domain _ _ Hc). pose proof (honest_earned _ _ Hc Hs).
  destruct (spec.1.2 =? domain)%string; [rewrite !decide_True by done; cbn; lia | rewrite !decide_False by done; exact IH].
Qed.
Lemma sum_between (l : list (string * Z)) (f g : string → Z) : Forall (λ d, 0 ≤ d.2) l → (∀ d, 0 ≤ f d ≤ g d) →
  0 ≤ sum_Z (((λ d : string * Z, (d.1, Z.min d.2 (f d.1))) <$> l).*2) ≤ sum_Z ((λ d : string * Z, Z.min d.2 (g d.1)) <$> l).
Proof.
  intros Hl Hf. induction Hl as [|d l Hd _ IH]; [done|]. rewrite !fmap_cons. cbn [fst snd sum_Z]. pose proof (Hf d.1). lia.
Qed.
Lemma most_is : most = 560.
Proof. vm_compute. reflexivity. Qed.
Lemma honest_known checks : Forall2 honest CHECKS checks → forallb known_domain checks = true.
Proof.
  intros Hc. apply forallb_forall. intros c Hin%list_elem_of_In. apply list_elem_of_lookup in Hin as [i Hi].
  destruct (Forall2_lookup_r _ _ _ _ _ Hc Hi) as (spec & Hs & Hh). unfold known_domain. rewrite (hn_domain _ _ Hh).
  assert (forallb (λ s : string * string * Z, dhas s.1.2 QUALITY_DOMAINS) CHECKS = true) as Hall by (vm_compute; reflexivity).
  rewrite forallb_forall in Hall. apply Hall, list_elem_of_In. by eapply list_elem_of_lookup_2.
Qed.
Lemma low_band total : total ≤ 560 → maturity_band total ∈ [Prototype; BasicSoc].
Proof.
  intros Ht. unfold maturity_band. destruct (Z.leb_spec 975 total), (Z.leb_spec 925 total), (Z.leb_spec 850 total), (Z.leb_spec 750 total),
    (Z.leb_spec 650 total); try lia. destruct (500 <=? total); [right; left | left].
Qed.
Lemma flush_quality f s : flush_pending (set_quality f (flush_pending s)) = set_quality f (flush_pending s).
Proof. exact (f_equal (set_quality f) (flush_idem s)). Qed.
Section index.
Context `{Oracle} `{ScenarioFiles} `{QualityFiles} `{YaraLib} `{Opa} `{BrokerEnv} `{HuntFiles} `{IsoLib} `{Pydantic} `{IpLib} `{AuthLib}.
Context (broker_root : string) (cwd : list string) (registry current : DetectionRegistry) (quality_model_version : string).
(** The snapshot of some checks of a tenant. *)
Record snapshot_says (tenant_id : string) (checks : list QualityCheckResult) (row : QualitySnapshot) : Prop := {
  sy_tenant : qs_tenant_id row = Some tenant_id;
  sy_domains : qs_domains row = (λ d : string * Z, (d.1, VInt (Z.min d.2 (earned_in d.1 checks)))) <$> QUALITY_DOMAINS;
  sy_total : qs_total row = sum_Z ((λ d : string * Z, Z.min d.2 (earned_in d.1 checks)) <$> QUALITY_DOMAINS);
  sy_band : qs_band row = band_str (maturity_band (qs_total row));
  sy_checks : qs_checks row = check_dict ∘ snd ∘ judged <$> checks }.
Lemma snapshot_index i t checks now v x : compute_quality_index checks now v = Ok x → snapshot_says t checks (snapshot_of i (Some t) x).
Proof.
  intros Hx. pose proof (index_spec checks now v) as Hs. rewrite Hx in Hs. destruct Hs as (_ & Hd & Ht & Hb & Hc & _).
  constructor; cbn; [done | | | by rewrite Hb |].
  - rewrite Hd, <-list_fmap_compose. done.
  - rewrite Ht, Hd, <-list_fmap_compose. done.
  - rewrite Hc, <-list_fmap_compose. done.
Qed.
Lemma total_bounded t checks row : Forall2 honest CHECKS checks → snapshot_says t checks row → 0 ≤ qs_total row ≤ 560.
Proof.
  intros Hc Hs. rewrite (sy_total _ _ _ Hs), <-most_is.
  assert (Forall (λ s : string * string * Z, 0 ≤ s.2) CHECKS) as Hpos by (repeat constructor; vm_compute; discriminate).
  assert (Forall (λ d : string * Z, 0 ≤ d.2) QUALITY_DOMAINS) as Hd by (repeat constructor; vm_compute; discriminate).
  pose proof (sum_between QUALITY_DOMAINS (λ d, earned_in d checks) available Hd (λ d, earned_available _ _ d Hc Hpos)) as Hb.
  rewrite <-list_fmap_compose in Hb. exact Hb.
Qed.
(** One snapshot, of honest checks, is all a computation stores. *)
Lemma stored_snapshot t p row p' :
  compute_and_store broker_root cwd registry current quality_model_version (Some t) p = (Ok row, p') →
  ∃ checks dr, Forall2 honest CHECKS checks ∧ snapshot_says t checks row
    ∧ pr_db p' = set_quality (λ l, l ++ [row]) (flush_pending (set_draws (λ _, dr) (pr_db p))).
Proof.
  intros He. unfold compute_and_store in He. apply M_bind_ok in He as (checks & p4 & Hc & He).
  pose proof (build_checks_drawn broker_root cwd registry current (Some t) p) as [d4 Hd4]. rewrite Hc in Hd4. cbn [snd] in Hd4.
  apply build_checks_ok in Hc. apply M_bind_ok in He as (now & p5 & Hn & He). apply on_db_ok in Hn as [Hn _].
  apply M_bind_ok in He as (x & p6 & [= Hx <-] & He). apply M_bind_ok in He as (i & p7 & Hi & He). apply on_db_ok in Hi as [Hi _].
  assert (drawn (pr_db p) (pr_db p7)) as [dr Hdr].
  { transitivity (pr_db p4); [by exists d4|]. transitivity (pr_db p5).
    - exact (keeps_ok _ _ _ _ _ drawn_now Hn).
    - exact (keeps_ok _ _ _ _ _ (drawn_id "qck") Hi). }
  apply M_bind_ok in He as ([] & p8 & Ha & [= <- <-]). apply on_db_ok in Ha as [Ha _]. apply add_unique_ok in Ha as [Ha _].
  exists checks, dr. split; [done|]. split; [by apply snapshot_index with (1 := Hx)|]. by rewrite Ha, Hdr.
Qed.
(** C30. The quality index that is served says what the checks earned and no more. It is asked
    for by an actor with [quality:read]; the thirty-one checks are all made, each has its
    points exactly when it passed and passes only with evidence; the score of a domain is
    what its checks earned up to its ceiling, and the total their sum. One snapshot of the
    tenant is stored and nothing else of the database changes. As the checks have no more to
    give, the total is at most 560 of 1000 and the band one of the two lowest. *)
Theorem quality_index_earned h rid p r p' :
  serve_quality broker_root cwd registry current quality_model_version h rid p = (r, p') →
  match r with
  | Ok d => ∃ actor checks row dr, authorised h (pr_db p) (ta_tenant_id actor) "quality:read" (ta_actor actor)
      ∧ d = snapshot_dict row ∧ Forall2 honest CHECKS checks ∧ snapshot_says (ta_tenant_id actor) checks row
      ∧ 0 ≤ qs_total row ≤ 560 ∧ qs_band row ∈ ["prototype"; "basic_soc"]
      ∧ pr_db p' = set_quality (λ l, l ++ [row]) (flush_pending (set_draws (λ _, dr) (pr_db p)))
  | Raise _ => pr_db p' = set_draws (λ _, d_draws (pr_db p')) (pr_db p)
  end.
Proof.
  intros He. destruct r as [d|e]; [|by eapply session_raise].
  apply session_ok in He as (p1 & He & Hdb & _). apply M_bind_ok in He as (actor & p2 & Hr & He). apply on_db_ok in Hr as [Hr _].
  apply require_ok in Hr as (Hs & Hauth & _). apply M_bind_ok in He as (row & p3 & He & [= <- <-]). exists actor.
  apply stored_snapshot in He as (checks & dr & Hc & Hsays & Ha). pose proof (total_bounded _ _ _ Hc Hsays) as Ht.
  exists checks, row, dr. split; [done|]. split; [reflexivity|]. split; [done|]. split; [exact Hsays|]. split; [exact Ht|]. split.
  - rewrite (sy_band _ _ _ Hsays). pose proof (low_band _ (proj2 Ht)) as Hb. apply elem_of_cons in Hb as [->|Hb]; [left|].
    apply list_elem_of_singleton in Hb as ->. right. left.
  - rewrite Hdb, Ha, Hs. apply flush_quality.
Qed.
End index.

(** ** The readiness gate *)

Lemma honest_ids specs checks : Forall2 honest specs checks → qc_check_id <$> checks = (λ s, s.1.1) <$> specs.
Proof. induction 1 as [|s c specs checks Hc _ IH]; [done|]. rewrite !fmap_cons, IH. by rewrite (hn_id _ _ Hc). Qed.
Lemma honest_unique checks c c' : Forall2 honest CHECKS checks → c ∈ checks → c' ∈ checks → qc_check_id c = qc_check_id c' → c = c'.
Proof.
  intros Hc [i Hi]%list_elem_of_lookup [j Hj]%list_elem_of_lookup He.
  assert (NoDup (qc_check_id <$> checks)) as Hnd.
  { rewrite (honest_ids _ _ Hc). apply (bool_decide_unpack _). vm_compute. reflexivity. }
  assert (i = j) as ->; [|congruence]. eapply (NoDup_lookup _ i j (qc_check_id c) Hnd); rewrite list_lookup_fmap.
  - by rewrite Hi.
  - by rewrite Hj, He.
Qed.
Definition passed_in (checks : list QualityCheckResult) (i : string) : Prop := ∃ c, c ∈ checks ∧ qc_check_id c = i ∧ qc_passed c = true.
Lemma gate_check_spec checks i : Forall2 honest CHECKS checks → i ∈ GATE →
  gi_present (gate_check checks i) = true ∧ (gi_passed (gate_check checks i) = true ↔ passed_in checks i).
Proof.
  intros Hc Hi. assert (∃ c, c ∈ checks ∧ qc_check_id c = i) as (c & Hin & Hid).
  { assert (i ∈ qc_check_id <$> checks) as Hx.
    { rewrite (honest_ids _ _ Hc). revert i Hi. apply Forall_forall. apply (bool_decide_unpack _). vm_compute. reflexivity. }
    apply list_elem_of_fmap in Hx as (c & -> & Hx). by exists c. }
  unfold gate_check. cbn [gi_present gi_passed]. destruct (find_first _ (rev checks)) as [c'|] eqn:E.
  2:{ exfalso. apply (find_first_None _ _ c) in E; [by apply String.eqb_neq in E | by apply elem_of_rev]. }
  apply find_first_Some in E as [Hin' Hid'%String.eqb_eq]. rewrite elem_of_rev in Hin'.
  split; [done|]. assert (qc_passed c' = true → qc_evidence_ids c' ≠ []) as Hev.
  { apply list_elem_of_lookup in Hin' as [n Hn]. destruct (Forall2_lookup_r _ _ _ _ _ Hc Hn) as (spec & _ & Hh). apply Hh. }
  rewrite andb_true_iff, negb_true_iff, bool_decide_eq_false. split.
  - intros [Hp _]. by exists c'.
  - intros (c2 & Hin2 & Hid2 & Hp). assert (c2 = c') as -> by (eapply honest_unique; [exact Hc | done | done | congruence]).
    split; [done | by apply Hev].
Qed.
Lemma gate_open_spec checks n : Forall2 honest CHECKS checks →
  gate_open (gate_check checks <$> GATE) n = true ↔ (∀ i, i ∈ GATE → passed_in checks i) ∧ (6 ≤ n)%nat.
Proof.
  intros Hc. unfold gate_open.
  assert (select gi_present (gate_check checks <$> GATE) = gate_check checks <$> GATE) as ->.
  { apply select_true. intros g (i & -> & Hi)%list_elem_of_fmap. by apply gate_check_spec. }
  change (match gate_check checks <$> GATE with [] => false | _ => true end) with true. cbn [andb].
  rewrite andb_true_iff, Nat.leb_le, forallb_forall. apply and_iff_compat_r. split.
  - intros Hall i Hi. apply (gate_check_spec checks i Hc Hi), Hall, list_elem_of_In, list_elem_of_fmap. by exists i.
  - intros Hall g (i & -> & Hi)%list_elem_of_In%list_elem_of_fmap. apply (gate_check_spec checks i Hc Hi). by apply Hall.
Qed.
Section gate.
Context `{Oracle} `{ScenarioFiles} `{QualityFiles} `{YaraLib} `{Opa} `{BrokerEnv} `{HuntFiles} `{IsoLib} `{Pydantic} `{IpLib} `{AuthLib}.
Context (broker_root : string) (cwd : list string) (registry current : DetectionRegistry).
(** The readiness gate opens exactly when every one of its eight checks passed, with
    evidence, and there are six scenarios at least; asking for it needs [quality:read] and changes
    nothing in the database. *)
Theorem readiness_gate_exact h rid p d p' : serve_gate broker_root cwd registry current h rid p = (Ok d, p') →
  ∃ actor checks scenarios open, authorised h (pr_db p) (ta_tenant_id actor) "quality:read" (ta_actor actor)
    ∧ Forall2 honest CHECKS checks
    ∧ dget "passed" d = Some (VBool open)
    ∧ dget "scenario_count" d = Some (VInt (Z.of_nat (length (scenarios : list RangeScenario))))
    ∧ (open = true ↔ (∀ i, i ∈ GATE → passed_in checks i) ∧ (6 ≤ length scenarios)%nat)
    ∧ ∃ dr, pr_db p' = flush_pending (set_draws (λ _, dr) (pr_db p)).
Proof.
  intros He. apply session_ok in He as (p1 & He & Hdb & _). apply M_bind_ok in He as (actor & p2 & Hr & He). apply on_db_ok in Hr as [Hr _].
  apply require_ok in Hr as (Hs & Hauth & _). apply M_bind_ok in He as (checks & p3 & Hc & He).
  pose proof (build_checks_drawn broker_root cwd registry current (Some (ta_tenant_id actor)) p2) as [dr Hdr]. rewrite Hc in Hdr. cbn [snd] in Hdr.
  apply build_checks_ok in Hc. apply M_bind_ok in He as (scenarios & p4 & [= Hsc <-] & [= <- <-]).
  exists actor, checks, scenarios, (gate_open (gate_check checks <$> GATE) (length scenarios)).
  split; [done|]. split; [done|]. split; [done|]. split; [done|]. split; [by apply gate_open_spec|]. exists dr. by rewrite Hdb, Hdr, Hs.
Qed.
End gate.

(** ** The measure of a small installation *)

#[local] Instance demo_oracle : Oracle :=
  {| uuid_hex := λ n, str_of_nat n; clock := λ n, utc 20000 (60 * Z.of_nat n) |}.
#[local] Instance demo_iso : IsoLib := {| other_iso := λ _, None |}.
#[local] Instance demo_ip : IpLib := {| ipv6_private := λ _, None |}.
#[local] Instance demo_pydantic : Pydantic := {|
  as_str := λ v, match v with VStr s => Some s | _ => None end;
  as_int := λ v, match v with VInt z => Some z | _ => None end;
  as_float := λ v, match v with VFloat f => Some f | VInt z => Some (fl_of_Z z) | _ => None end;
  as_datetime := λ v, match v with VStr s => fromisoformat (replace_char "Z" "+00:00" s) | _ => None end;
  validation_message := λ failing, "validation errors: " +:+ join ", " failing.*1 |}.
#[local] Instance demo_auth : AuthLib := {|
  jwt_encode := λ _, "t"; bcrypt_check := λ _ _, true;
  jwt_decode := λ t, if (t =? "t")%string then Some [("sub", VStr "usr_1")] else None |}.
(** No scenario is found, and no rego binary. *)
#[local] Instance demo_scenarios : ScenarioFiles := {|
  scenario_root := ["range"]; resolve_under := λ rel, ["range"; rel]; path_exists := λ _, true; path_is_dir := λ _, true;
  load_scenarios := λ _, Ok [] |}.
#[local] Instance demo_opa : Opa :=
  {| opa_binary := None; opa_policy_files := []; opa_run := λ _ _ _, Raise (OtherError "not installed") |}.
#[local] Instance demo_yara : YaraLib := {|
  libyara_available := false; libyara_scan := λ _ _, Raise (OtherError "ImportError"); unicode_escape := Ok;
  b64decode := Ok; scan_ms := λ _ _, fl_of_Z 1 |}.
#[local] Instance demo_hunts : HuntFiles := {| sql_files := [
  VDict [("id", VStr "sql.auth.failed_then_success"); ("sql", VStr "SELECT 1")]] |}.
#[local] Instance demo_corpus : QualityFiles := {|
  yara_malicious := "<?php eval($_POST['x']);"; yara_good := "<?php echo 1;"; yara_rule := Yara.webshell_rule; office_c2 := None |}.
(** The broker of the same installation: its engines are the models of them. *)
#[local] Instance demo_env : BrokerEnv := {|
  script_exists := λ _, false; script_bytes := λ _, ""; which := λ _, None;
  run_process := λ _, Raise (OtherError "not installed");
  scan_b64 := Yara.scan_b64 [Yara.webshell_rule]; blueql_explain := λ q, (ast ← parse q; Ok (to_dict ast, VDict (explain ast)));
  sql_describe := describe |}.
Definition measured : process modules := {|
  pr_db := set_memberships (λ _, [{|
    me_id := "mem_1"; me_tenant_id := "ten_a"; me_user_id := "usr_1"; me_role_key := "tenant_owner" |}]) Access.demo_db;
  pr_module := {| md_files := ∅; md_metrics := METRICS |} |}.
Definition shipped : DetectionRegistry := build_default_registry [].
Local Abbreviation measure := (serve_quality "/r" ["r"] shipped shipped "" (demo_headers None) "req_1" measured).
Local Abbreviation open_gate := (serve_gate "/r" ["r"] shipped shipped (demo_headers None) "req_1" measured).
(** No scenario is found and the tenant has no data: what is left are the checks of the code itself. *)
Example measured_alone : (d ← fst measure; Ok (dgetv "total" d, dgetv "band" d)) = Ok (VInt 310, VStr "prototype")
  ∧ (d ← fst open_gate; Ok (dgetv "passed" d, dgetv "gate" d)) = Ok (VBool false, VStr "not_ready").
Proof. vm_compute. auto. Qed.
Lemma quality_index_earned_witness : ∃ row, fst measure = Ok (snapshot_dict row) ∧ 0 ≤ qs_total row ≤ 560
  ∧ last (d_quality (pr_db (snd measure))) = Some row.
Proof.
  assert (is_ok (fst measure) = true) as Hok by (vm_compute; reflexivity).
  destruct measure as [r p'] eqn:E. destruct r as [d|e]; [clear Hok | discriminate Hok].
  destruct (quality_index_earned "/r" ["r"] shipped shipped "" _ _ _ _ _ E) as (actor & checks & row & dr & Ha & Hd & _ & Hs & Hb & _ & Hp).
  exists row. split; [exact (f_equal Ok Hd)|]. split; [exact Hb|]. cbn [snd]. rewrite Hp. apply last_snoc.
Defined.
Lemma readiness_gate_exact_witness : ∃ d checks, fst open_gate = Ok d ∧ Forall2 honest CHECKS checks ∧ dget "passed" d = Some (VBool false).
Proof.
  assert (is_ok (fst open_gate) = true) as Hok by (vm_compute; reflexivity).
  assert ((d ← fst open_gate; Ok (dget "passed" d)) = Ok (Some (VBool false))) as Hno by (vm_compute; reflexivity).
  destruct open_gate as [r p'] eqn:E. destruct r as [d|e]; [clear Hok | discriminate Hok]. injection Hno as Hno.
  destruct (readiness_gate_exact "/r" ["r"] shipped shipped _ _ _ _ _ E) as (actor & checks & scenarios & open & Ha & Hc & _).
  exists d, checks. split; [reflexivity|]. split; [exact Hc | exact Hno].
Defined.
