(* ===== verification/Dfir.v ===== *)
(** * Forensic views

    Models [packages/dfir/blueteam_dfir/__init__.py], the timelines of a host and of the
    network and the files that were seen, and the routes of [services/api/app/api/dfir.py],
    the export of the evidence manifest included. *)
From S2P Require Export Calendar GraphService DetectionService.
Local Open Scope Z_scope.

(** ** The helpers *)

Definition concerns (host : option string) (event : CanonicalEvent) : bool :=
  negb (otrue host && negb (bool_decide (host_name event = host)) && negb (bool_decide (e_src_ip event = host))).
Definition host_row (event : CanonicalEvent) : pydict := [
  ("event_id", VStr (e_id event)); ("timestamp", VStr (isoformat (e_timestamp event))); ("source", VStr (e_source event));
  ("category", VStr (e_category event)); ("action", vostr (e_action event)); ("host", vostr (host_name event));
  ("user", vostr (user_name event)); ("file_hash", vostr (f ← e_file event; f_hash_sha256 f))].
(** [sorted(rows, key=lambda item: item["timestamp"])], of the texts. *)
Definition timestamp_of (row : pydict) : string := match dgetv "timestamp" row with VStr s => s | _ => "" end.
Definition by_timestamp : list pydict → list pydict := sort_by (λ a b, str_le (timestamp_of a) (timestamp_of b)).
Definition host_timeline (events : list CanonicalEvent) (host : option string) : list pydict :=
  by_timestamp (host_row <$> select (concerns host) events).
Definition on_network (event : CanonicalEvent) : bool :=
  mem (e_source_type event) ["zeek"; "suricata"; "network"] || mem (e_category event) ["dns"; "http"; "tls"; "network"; "alert"].
Definition network_row (event : CanonicalEvent) : pydict := [
  ("event_id", VStr (e_id event)); ("timestamp", VStr (isoformat (e_timestamp event))); ("source", VStr (e_source event));
  ("category", VStr (e_category event)); ("src_ip", vostr (e_src_ip event)); ("dst_ip", vostr (e_dst_ip event));
  ("domain", vostr (e_domain event)); ("url", vostr (e_url event))].
Definition network_timeline (events : list CanonicalEvent) : list pydict :=
  by_timestamp (network_row <$> select on_network events).
Definition file_key (event : CanonicalEvent) (file : CanonicalFile) : string :=
  ostr (oor (f_hash_sha256 file) (oor (f_path file) (Some (e_id event)))).
Definition file_row (event : CanonicalEvent) (file : CanonicalFile) : pydict := [
  ("path", vostr (f_path file)); ("hash_sha256", vostr (f_hash_sha256 file)); ("hash_md5", vostr (f_hash_md5 file));
  ("size", vint (f_size file)); ("event_id", VStr (e_id event)); ("timestamp", VStr (isoformat (e_timestamp event)))].
Definition with_file (event : CanonicalEvent) : option (CanonicalEvent * CanonicalFile) := (λ f, (event, f)) <$> e_file event.
Definition files_seen (events : list CanonicalEvent) : list (string * pydict) :=
  foldl (λ seen ef, dset (file_key ef.1 ef.2) (file_row ef.1 ef.2) seen) [] (omap with_file events).
Definition file_artefacts (events : list CanonicalEvent) : list pydict := (files_seen events).*2.
Definition browser_artefact_contract : pydict := [
  ("adapter", VStr "browser"); ("status", VStr "contract_only");
  ("fields", VList [VStr "url"; VStr "title"; VStr "visit_time"; VStr "profile"]); ("note", VStr "No live browser collector in this slice.")].
Definition memory_artefact_contract : pydict := [
  ("adapter", VStr "memory"); ("status", VStr "contract_only"); ("interfaces", VList [VStr "volatility"; VStr "velociraptor"]);
  ("note", VStr "Memory analysis is an adapter contract only — no kernel agent.")].

(** ** The routes *)

Definition counted_items (items : list pydict) : pydict :=
  [("items", VList (VDict <$> items)); ("count", VInt (Z.of_nat (length items)))].
Definition manifest_row (row : Evidence) : pydict := [
  ("id", VStr (ev_id row)); ("integrity_hash", VStr (ev_integrity_hash row)); ("object_uri", vostr (ev_object_uri row));
  ("sealed", VBool (ev_sealed row)); ("source", VStr (ev_source row))].
Definition manifest_of (tenant_id : string) (s : db) : pydict :=
  let rows := list_evidence tenant_id s in [
  ("tenant_id", VStr tenant_id); ("count", VInt (Z.of_nat (length rows))); ("items", VList ((λ r, VDict (manifest_row r)) <$> rows));
  ("manifest_hash", VStr (evidence_manifest_hash tenant_id s))].
Inductive dfir_request := HostTimeline (host : option string) | NetworkTimeline | FileArtefacts | ArtefactContracts | ExportManifest.
Definition dfir_permission (req : dfir_request) : string :=
  match req with ExportManifest => "evidence:export" | _ => "evidence:read" end.

Section dfir_routes.
Context `{Oracle} `{AuthLib}.
Definition export_manifest (actor : TenantActor) (request_id : string) : M db pydict :=
  manifest ← gets (manifest_of (ta_tenant_id actor));
  audit_user actor request_id "dfir.evidence.export" "evidence_manifest" None
    (Some [("count", dgetv "count" manifest); ("manifest_hash", dgetv "manifest_hash" manifest)]);;
  mret manifest.
Definition dfir_handler (req : dfir_request) (request_id : string) (actor : TenantActor) : M db pydict :=
  match req with
  | HostTimeline host => gets (λ s, counted_items (host_timeline (load_window (ta_tenant_id actor) s) host))
  | NetworkTimeline => gets (λ s, counted_items (network_timeline (load_window (ta_tenant_id actor) s)))
  | FileArtefacts => gets (λ s, [("items", VList (VDict <$> file_artefacts (load_window (ta_tenant_id actor) s)))])
  | ArtefactContracts => mret [("browser", VDict browser_artefact_contract); ("memory", VDict memory_artefact_contract)]
  | ExportManifest => export_manifest actor request_id
  end.
Definition serve_dfir (h : headers) (request_id : string) (req : dfir_request) : M db pydict :=
  served (dfir_permission req) h request_id (dfir_handler req request_id).
End dfir_routes.

(** ** What the views say *)

Lemma insert_by_fmap {A B} (f : A → B) (le : B → B → bool) x l :
  insert_by le (f x) (f <$> l) = f <$> insert_by (λ a b, le (f a) (f b)) x l.
Proof. induction l as [|y l IH]; [done|]. cbn. destruct (le (f x) (f y)); [done|]. cbn. by rewrite <-IH. Qed.
Lemma sort_by_fmap {A B} (f : A → B) (le : B → B → bool) l : sort_by le (f <$> l) = f <$> sort_by (λ a b, le (f a) (f b)) l.
Proof. induction l as [|x l IH]; [done|]. rewrite fmap_cons. cbn [sort_by foldr]. fold (sort_by le (f <$> l)). rewrite IH. apply insert_by_fmap. Qed.
Definition no_later (a b : CanonicalEvent) : Prop := instant (e_timestamp a) ≤ instant (e_timestamp b).
(** The times of some events are on one clock: of the years of Python, with one offset. *)
Definition one_clock (events : list CanonicalEvent) : Prop :=
  ∃ off, Forall (λ e, in_years (dt_wall (e_timestamp e)) ∧ dt_offset (e_timestamp e) = off) events.
(** The rows of some events, each once, in the order of time if they are on one clock. *)
Definition timeline_of (row : CanonicalEvent → pydict) (events : list CanonicalEvent) (items : list pydict) : Prop :=
  ∃ es, items = row <$> es ∧ es ≡ₚ events ∧ (one_clock events → StronglySorted no_later es).
Lemma timeline_spec row l : (∀ e, timestamp_of (row e) = isoformat (e_timestamp e)) → timeline_of row l (by_timestamp (row <$> l)).
Proof.
  intros Hrow. unfold by_timestamp. rewrite sort_by_fmap. eexists. split; [reflexivity|]. split; [apply sort_by_perm|].
  intros [off Hall]. set (le := λ a b, _).
  assert (∀ a b, (in_years (dt_wall (e_timestamp a)) ∧ dt_offset (e_timestamp a) = off) →
    (in_years (dt_wall (e_timestamp b)) ∧ dt_offset (e_timestamp b) = off) → (le a b = true ↔ no_later a b)) as Hle.
  { intros a b [Ha Hoa] [Hb Hob]. subst le. cbn. rewrite !Hrow, isoformat_le by (done || congruence). apply dt_le_spec. }
  assert (sorted_by le (sort_by le l)) as Hs.
  { apply (sort_by_sorted_on le _ l Hall).
    - intros a b Ha Hb Hn. apply Hle; [done..|]. apply not_true_iff_false in Hn. rewrite (Hle a b Ha Hb) in Hn. unfold no_later in *. lia.
    - intros a b c Ha Hb Hc. rewrite !Hle by done. unfold no_later. lia. }
  assert (Forall (λ e, in_years (dt_wall (e_timestamp e)) ∧ dt_offset (e_timestamp e) = off) (sort_by le l)) as Hall' by by rewrite sort_by_perm.
  revert Hall'. induction Hs as [|e es Hs IH He]; intros Hall'; [constructor|]. apply Forall_cons in Hall' as [H0 Hall'].
  constructor; [by apply IH|]. rewrite Forall_forall in He, Hall' |- *. intros x Hx. apply (Hle e x); auto.
Qed.
(** The files of some events: one row for each that is named, of the last event that names it. *)
Definition files_of (events : list CanonicalEvent) (items : list pydict) : Prop :=
  ∃ seen, items = seen.*2 ∧ NoDup (dkeys seen)
    ∧ ∀ k, dget k seen = (λ ef, file_row ef.1 ef.2) <$> last (select (λ ef, file_key ef.1 ef.2 =? k)%string (omap with_file events)).
Lemma files_spec events : files_of events (file_artefacts events).
Proof.
  exists (files_seen events). split; [reflexivity|]. unfold files_seen. split.
  - generalize (omap with_file events). intros l. assert (∀ d, NoDup (dkeys d) →
      NoDup (dkeys (foldl (λ seen ef, dset (file_key ef.1 ef.2) (file_row ef.1 ef.2) seen) d l))) as Hl; [|apply Hl; constructor].
    induction l as [|x l IH]; intros d Hd; [done|]. cbn. apply IH. rewrite dkeys_dset. case_bool_decide as Hk; [done|].
    apply NoDup_app. split; [done|]. split; [|apply NoDup_singleton]. intros x0 Hx ->%list_elem_of_singleton. by apply Hk.
  - intros k. rewrite (dget_foldl_dset (λ ef : CanonicalEvent * CanonicalFile, file_key ef.1 ef.2) (λ ef, file_row ef.1 ef.2)).
    by destruct (last _).
Qed.

Section dfir_facts.
Context `{Oracle} `{AuthLib}.
(** The forensic views say what the tenant's stored events and evidence say, to an actor
    with the permission. A timeline has one row for each event of the tenant that concerns
    the host, or the network, and no other; the rows are sorted by the texts of their times,
    which is the order of time where the events are on one clock. Of each file that is named
    there is one row, of the last event that names it. The manifest counts the tenant's
    evidence, and giving it out leaves one record in the audit log; no view changes anything
    else. A request that fails changes nothing. *)
Theorem dfir_views_exact h rid req s r s' : serve_dfir h rid req s = (r, s') →
  match r with
  | Ok d => ∃ actor, authorised h s (ta_tenant_id actor) (dfir_permission req) (ta_actor actor)
      ∧ let window := load_window (ta_tenant_id actor) s in
        match req with
        | HostTimeline host => ∃ items, d = counted_items items ∧ timeline_of host_row (select (concerns host) window) items
        | NetworkTimeline => ∃ items, d = counted_items items ∧ timeline_of network_row (select on_network window) items
        | FileArtefacts => ∃ items, d = [("items", VList (VDict <$> items))] ∧ files_of window items
        | ArtefactContracts => True
        | ExportManifest => d = manifest_of (ta_tenant_id actor) s
            ∧ ∃ record dr, record_of actor "dfir.evidence.export" "evidence_manifest" None record
              ∧ s' = flush_pending (set_audit (λ rows, rows ++ [record]) (flush_pending (set_draws (λ _, dr) s)))
        end
        ∧ (req ≠ ExportManifest → s' = flush_pending s)
  | Raise _ => s' = set_draws (λ _, d_draws s') s
  end.
Proof.
  intros He. destruct r as [d|e]; [|by eapply served_raise]. apply served_ok in He as (actor & s1 & Hauth & He & ->).
  exists actor. split; [done|]. destruct req as [host| | | |]; cbn [dfir_handler] in He.
  - injection He as <- <-. split; [|done]. eexists. split; [reflexivity|]. by apply timeline_spec.
  - injection He as <- <-. split; [|done]. eexists. split; [reflexivity|]. by apply timeline_spec.
  - injection He as <- <-. split; [|done]. eexists. split; [reflexivity|]. apply files_spec.
  - injection He as <- <-. done.
  - unfold export_manifest in He. inv_bind He. injection Ha as <- <-. inv_bind He. injection He as <- <-.
    apply audit_user_ok in Ha as (Hr & dr & ->). split; [|done]. split; [done|]. by exists a, dr.
Qed.
End dfir_facts.

(** ** Two events *)

#[local] Instance demo_oracle : Oracle :=
  {| uuid_hex := λ n, str_of_nat n; clock := λ n, utc 20000 (60 * Z.of_nat n) |}.
#[local] Instance demo_auth : AuthLib := {|
  jwt_encode := λ _, "t"; bcrypt_check := λ _ _, true;
  jwt_decode := λ t, if (t =? "t")%string then Some [("sub", VStr "usr_1")] else None |}.
Definition stored (e : CanonicalEvent) : SecurityEvent := {|
  se_id := e_id e; se_tenant_id := e_tenant_id e; se_timestamp := e_timestamp e; se_ingested_at := e_ingested_at e;
  se_source := e_source e; se_source_type := e_source_type e; se_event_type := e_event_type e;
  se_category := e_category e; se_action := e_action e; se_outcome := e_outcome e; se_src_ip := e_src_ip e;
  se_user_name := user_name e; se_idempotency_key := None; se_raw_hash := ""; se_payload := e |}.
Definition events_db (events : list CanonicalEvent) : db := set_events (λ _, stored <$> events) Access.demo_db.
Definition seen_at (i : string) (at_ : datetime) : CanonicalEvent := blank_event i "ten_a" at_.
(** Eight o'clock, written with an offset of two hours, and nine o'clock. *)
Definition eight : CanonicalEvent := seen_at "evt_8" (MkDatetime (20000 * day_us + hours 10) (hours 2)).
Definition nine : CanonicalEvent := seen_at "evt_9" (utc 20000 32400).
Local Abbreviation timeline events := (serve_dfir (demo_headers None) "req_1" (HostTimeline None) (events_db events)).
Example offsets_disorder : fst (timeline [eight; nine]) = Ok (counted_items [host_row nine; host_row eight])
  ∧ dt_lt (e_timestamp eight) (e_timestamp nine) = true.
Proof. vm_compute. auto. Qed.
Definition two_events : list CanonicalEvent := [nine; seen_at "evt_7" (utc 20000 25200)].
Lemma dfir_views_exact_witness : ∃ actor items, fst (timeline two_events) = Ok (counted_items items)
  ∧ timeline_of host_row (select (concerns None) (load_window (ta_tenant_id actor) (events_db two_events))) items.
Proof.
  assert (is_ok (fst (timeline two_events)) = true) as Hok by (vm_compute; reflexivity).
  destruct (timeline two_events) as [r s'] eqn:E. destruct r as [d|e]; [|discriminate Hok].
  destruct (dfir_views_exact (demo_headers None) "req_1" (HostTimeline None) _ _ _ E) as (actor & _ & (items & Hd & Ht) & _).
  exists actor, items. split; [exact (f_equal Ok Hd) | exact Ht].
Defined.
