(* ===== verification/Startup.v ===== *)
(** * Starting up and signing in

    Models what the process does before its first request, [core/config.py] where the code
    decides by it, [services/seed.py] and the start of [main.py], and the routes of
    [api/auth.py]. *)
From S2P Require Export Routes RuleLifecycle.
Local Open Scope Z_scope.

(** ** Settings *)

(** The settings that are decided by; the others are passed on. *)
Record Settings := {
  st_env : string; st_web_origin : string; st_cors_origins : string; st_cors_origin_regex : string; st_dev_seed : bool;
  st_dev_password : string; st_dev_operator_email : string }.
Definition is_production (settings : Settings) : bool := (lower (st_env settings) =? "production")%string.
Definition comma : ascii := ",".
Definition cors_candidates (settings : Settings) : list string :=
  (if nonempty (strip (st_cors_origins settings)) then select nonempty (strip <$> split_on comma (st_cors_origins settings)) else [])
  ++ (if nonempty (strip (st_web_origin settings)) then [strip (st_web_origin settings)] else [])
  ++ (if is_production settings then [] else ["http://localhost:3000"; "http://127.0.0.1:3000"]).
Definition add_origin (deduped : list string) (origin : string) : list string :=
  if nonempty origin && negb (mem origin deduped) then deduped ++ [origin] else deduped.
Definition cors_allow_origins (settings : Settings) : list string := foldl add_origin [] (cors_candidates settings).
Definition preview_regex : string := "https://.*" +:+ String (chr 92) ".vercel" +:+ String (chr 92) ".app".
Definition cors_allow_origin_regex (settings : Settings) : option string :=
  let value := strip (st_cors_origin_regex settings) in
  if nonempty value then Some value else if is_production settings then None else Some preview_regex.

(** ** Development accounts *)

(** [bcrypt.hashpw], of a salt and a password. *)
Class PasswordLib := { bcrypt_hash : string → string → string }.
(** What [checkpw] and [hashpw] promise each other. *)
Definition hashes_check `{AuthLib} `{PasswordLib} : Prop := ∀ salt password, bcrypt_check password (bcrypt_hash salt password) = true.
Definition same_tenant (a b : Tenant) : bool := (te_id a =? te_id b)%string || (te_slug a =? te_slug b)%string.
Definition same_user (a b : User) : bool := (us_id a =? us_id b)%string || (us_email a =? us_email b)%string.
Definition same_membership (a b : Membership) : bool :=
  (me_id a =? me_id b)%string
  || ((me_tenant_id a =? me_tenant_id b)%string && (me_user_id a =? me_user_id b)%string && (me_role_key a =? me_role_key b)%string).
Definition PLATFORM_TENANT_ID : string := "ten_aaaaaaaaaaaaaaaaaaaaaaaaaaaaaaaa".
Definition DEMO_TENANT_ID : string := "ten_bbbbbbbbbbbbbbbbbbbbbbbbbbbbbbbb".
(** The accounts of the seed: address, name, whether an administrator, and roles. *)
Definition seed_users (operator_email : string) : list (string * string * bool * list (string * string)) := [
  (operator_email, "Primary Operator", true, [(PLATFORM_TENANT_ID, "platform_super_admin"); (DEMO_TENANT_ID, "tenant_owner")]);
  ("platform@blueteam.local", "Platform Admin", true, [(PLATFORM_TENANT_ID, "platform_super_admin")]);
  ("owner@demo.blueteam.local", "Demo Owner", false, [(DEMO_TENANT_ID, "tenant_owner")]);
  ("analyst@demo.blueteam.local", "Demo Analyst", false, [(DEMO_TENANT_ID, "analyst")]);
  ("hunter@demo.blueteam.local", "Demo Hunter", false, [(DEMO_TENANT_ID, "threat_hunter")]);
  ("detector@demo.blueteam.local", "Demo Detection Engineer", false, [(DEMO_TENANT_ID, "detection_engineer")]);
  ("auditor@demo.blueteam.local", "Demo Auditor", false, [(DEMO_TENANT_ID, "auditor")])].
Definition operator_email (settings : Settings) : string := lower (strip (st_dev_operator_email settings)).

Section startup.
Context `{Oracle} `{AuthLib} `{PasswordLib} (settings : Settings).

Definition lift_gets {A} (f : db → result A) : M db A := s ← get; lift (f s).
(** [bcrypt.gensalt()] draws from the same source as [uuid4]. *)
Definition gensalt : M db string := λ s, (Ok (uuid_hex (n_uuid (d_draws s))), set_draws fresh_uuid s).
Definition hash_password (password : string) : M db string := salt ← gensalt; mret (bcrypt_hash salt password).
Definition add_tenant (tenant_id slug name : string) (now : datetime) : M db unit :=
  add_unique d_tenants set_tenants same_tenant
    {| te_id := tenant_id; te_slug := slug; te_name := name; te_status := "active"; te_created_at := now |}.
Definition add_user (email name password_hash : string) (is_admin : bool) : M db string :=
  i ← new_id_db "usr";
  add_unique d_users set_users same_user {| us_id := i; us_email := email; us_display_name := name;
    us_password_hash := password_hash; us_status := "active"; us_is_platform_admin := is_admin |};;
  mret i.
Definition add_membership (user_id : string) (role : string * string) : M db unit :=
  i ← new_id_db "mem";
  add_unique d_memberships set_memberships same_membership
    {| me_id := i; me_tenant_id := role.1; me_user_id := user_id; me_role_key := role.2 |}.
Fixpoint seed_accounts (password_hash : string) (seen : list string) (users : list (string * string * bool * list (string * string)))
    : M db unit :=
  match users with
  | [] => mret tt
  | (email, name, is_admin, roles) :: rest =>
      if mem email seen then seed_accounts password_hash seen rest
      else
        i ← add_user email name password_hash is_admin;
        foldM (λ _ role, add_membership i role) tt roles;;
        seed_accounts password_hash (seen ++ [email]) rest
  end.
Definition seed_audit : AuditBody := {|
  b_tenant_id := Some DEMO_TENANT_ID; b_actor_type := "system"; b_actor_id := "seed"; b_request_id := "req_seed";
  b_action := "platform.seed"; b_target_type := "tenant"; b_target_id := Some DEMO_TENANT_ID;
  b_reason := Some "Development seed"; b_policy_decision := None; b_approval_status := None; b_before_state := None;
  b_after_state := None; b_result := "success" |}.
Definition seed_if_empty : M db unit :=
  if is_production settings || negb (st_dev_seed settings) then mret tt
  else
    tenants ← gets d_tenants;
    match tenants with
    | _ :: _ => mret tt
    | [] =>
        now ← utcnow_db;
        add_tenant PLATFORM_TENANT_ID "platform" "Platform" now;;
        add_tenant DEMO_TENANT_ID "demo" "Demo SOC" now;;
        password_hash ← hash_password (st_dev_password settings);
        seed_accounts password_hash [] (seed_users (operator_email settings));;
        write_audit seed_audit;;
        flush
    end.
(** The role of a new operator in a tenant, if there is the tenant. *)
Definition operator_role (user_id tenant_id role_key : string) : M db unit :=
  found ← lift_gets (λ s, scalar_one_or_none (select (λ t, te_id t =? tenant_id)%string (d_tenants s)));
  match found with Some _ => add_membership user_id (tenant_id, role_key) | None => mret tt end.
Definition refreshed (password_hash user_id : string) (u : User) : User :=
  if (us_id u =? user_id)%string
  then {| us_id := us_id u; us_email := us_email u; us_display_name := us_display_name u; us_password_hash := password_hash;
          us_status := "active"; us_is_platform_admin := true |}
  else u.
Definition with_password (password_hash : string) (u : User) : User := {|
  us_id := us_id u; us_email := us_email u; us_display_name := us_display_name u; us_password_hash := password_hash;
  us_status := us_status u; us_is_platform_admin := us_is_platform_admin u |}.
Definition ensure_dev_credentials : M db unit :=
  if is_production settings || negb (st_dev_seed settings) then mret tt
  else if negb (nonempty (operator_email settings)) then mret tt
  else
    utcnow_db;;
    password_hash ← hash_password (st_dev_password settings);
    found ← lift_gets (λ s, scalar_one_or_none (select (λ u, us_email u =? operator_email settings)%string (d_users s)));
    match found with
    | None =>
        i ← add_user (operator_email settings) "Primary Operator" password_hash true;
        operator_role i DEMO_TENANT_ID "tenant_owner";;
        operator_role i PLATFORM_TENANT_ID "platform_super_admin"
    | Some user => modify (set_users (fmap (refreshed password_hash (us_id user))))
    end;;
    modify (set_users (fmap (with_password password_hash)));;
    flush.
(** The start of the process: one session, committed when all of it went well. *)
Definition lifespan (registry : DetectionRegistry) : M db unit :=
  get_db (seed_if_empty;; ensure_dev_credentials;; sync_catalog_revisions registry;; mret tt).
End startup.

(** ** Signing in *)

Record LoginRequest := { lq_email : string; lq_password : string }.
Section login.
Context `{Oracle} `{AuthLib} (access_token_minutes : Z).
Definition login_audit (tenant_id : option string) (actor_id request_id : string) (target_id reason : option string) (outcome : string)
    : AuditBody := {|
  b_tenant_id := tenant_id; b_actor_type := "user"; b_actor_id := actor_id; b_request_id := request_id; b_action := "auth.login";
  b_target_type := "user"; b_target_id := target_id; b_reason := reason; b_policy_decision := None; b_approval_status := None;
  b_before_state := None; b_after_state := None; b_result := outcome |}.
(** Any exception of the password check is recorded and raised again. *)
Definition checked_password (body : LoginRequest) (request_id : string) : M db User := λ s,
  match authenticate_password (lq_email body) (lq_password body) s with
  | (Raise e, s1) =>
      (write_audit (login_audit None (lq_email body) request_id None (Some "invalid credentials") "denied");; raise e) s1
  | ok => ok
  end.
(** The tenants the sign-in is recorded for: none stands for an account without any. *)
Definition login_tenants (user_id : string) (s : db) : list (option string) :=
  match memberships_of user_id s with [] => [None] | rows => (λ m, Some (me_tenant_id m)) <$> rows end.
Definition login_answer (token : string) (user : User) : pydict := [
  ("access_token", VStr token); ("token_type", VStr "bearer");
  ("user", VDict [("id", VStr (us_id user)); ("email", VStr (us_email user)); ("display_name", VStr (us_display_name user));
                  ("is_platform_admin", VBool (us_is_platform_admin user))])].
Definition login_body (body : LoginRequest) (request_id : string) : M db pydict :=
  user ← checked_password body request_id;
  token ← issue_token access_token_minutes user;
  tenant_ids ← gets (login_tenants (us_id user));
  foldM (λ _ t, write_audit (login_audit t (us_id user) request_id (Some (us_id user)) None "success");; mret tt) tt tenant_ids;;
  mret (login_answer token user).
Definition login (body : LoginRequest) (request_id : string) : M db pydict := get_db (login_body body request_id).
Definition me (h : headers) (request_id : string) : M db pydict :=
  get_db (
    actor ← get_actor h request_id;
    mret [("id", VStr (ac_user_id actor)); ("email", vostr (ac_email actor)); ("display_name", VStr (ac_display_name actor));
          ("is_platform_admin", VBool (ac_is_platform_admin actor)); ("tenant_ids", VList (VStr <$> ac_tenant_ids actor));
          ("actor_type", VStr (actor_type_str (ac_actor_type actor)))]).
End login.

(** ** What signing in gives *)

Section login_facts.
Context `{Oracle} `{AuthLib} (access_token_minutes : Z).
Lemma password_ok email password s user s' : authenticate_password email password s = (Ok user, s') →
  s' = s ∧ user ∈ d_users s ∧ us_email user = lower email ∧ us_status user = "active"
  ∧ bcrypt_check password (us_password_hash user) = true.
Proof.
  unfold authenticate_password. intros He. inv_bind He. injection Ha as <- <-. inv_bind He. injection Ha as Hf <-.
  destruct a as [u|]; [|discriminate]. apply scalar_one_Some in Hf.
  assert (u ∈ [u]) as Hin by left. rewrite <-Hf in Hin. apply elem_of_select in Hin as [Hin Hmail%String.eqb_eq].
  destruct (us_status u =? "active")%string eqn:Hst; [|discriminate]. destruct (bcrypt_check password (us_password_hash u)) eqn:Hb; [|discriminate].
  injection He as <- <-. apply String.eqb_eq in Hst. done.
Qed.
Lemma password_raises email password s e s' : authenticate_password email password s = (Raise e, s') → s' = s.
Proof.
  unfold authenticate_password, lift, get, mbind, M_bind. destruct (scalar_one_or_none _) as [[u|]|e']; [|by intros [= _ <-]..].
  destruct (_ || _); by intros [= _ <-].
Qed.
(** The claims of a token, at the time it is issued. *)
Definition claims_of (user : User) (s : db) (now : datetime) : pydict := [
  ("sub", VStr (us_id user)); ("iat", VInt (timestamp now)); ("exp", VInt (timestamp (dt_add now (minutes access_token_minutes))));
  ("tenant_ids", VList (VStr <$> tenant_ids_of (us_id user) s)); ("is_platform_admin", VBool (us_is_platform_admin user));
  ("typ", VStr "access")].
Lemma login_records user rid ts s0 s s1 recs u : audited recs s0 s →
  foldM (λ _ t, write_audit (login_audit t (us_id user) rid (Some (us_id user)) None "success");; mret tt) tt ts s = (Ok u, s1) →
  ∃ new, Forall2 (λ t r, is_record (login_audit t (us_id user) rid (Some (us_id user)) None "success") r) ts new
    ∧ audited (recs ++ new) s0 s1.
Proof.
  revert s recs. induction ts as [|t ts IH]; intros s recs Hs He.
  { injection He as _ <-. exists []. split; [constructor|]. by rewrite app_nil_r. }
  cbn [foldM] in He. inv_bind He. inv_bind Ha. injection Ha as _ <-. destruct (audited_snoc _ _ _ _ _ _ Hs Ha0) as [Hs' Hr].
  destruct a. destruct (IH _ _ Hs' He) as (new & Hf & Hn). exists (a0 :: new). split; [by constructor|].
  by rewrite <-app_assoc in Hn.
Qed.
(** C33. Signing in needs the account's password: the account is in the table under the
    address in lower case, active, and the password is checked against its hash. The token
    says who the account is, which tenants it is a member of and when it expires. The sign-in
    leaves one record in the audit log for each membership, or one without a tenant, and
    nothing else. A sign-in that is refused leaves nothing: the record of the denial that the
    route writes is rolled back with its session. *)
Theorem login_exact body rid s r s' : login access_token_minutes body rid s = (r, s') →
  match r with
  | Ok d => ∃ user recs now, user ∈ d_users s ∧ us_email user = lower (lq_email body) ∧ us_status user = "active"
      ∧ bcrypt_check (lq_password body) (us_password_hash user) = true
      ∧ d = login_answer (jwt_encode (claims_of user s now)) user
      ∧ Forall2 (λ t r, is_record (login_audit t (us_id user) rid (Some (us_id user)) None "success") r)
          (match select (λ m, me_user_id m =? us_id user)%string (d_memberships s) with
           | [] => [None] | rows => (λ m, Some (me_tenant_id m)) <$> rows end) recs
      ∧ s' = set_audit (λ l, l ++ recs) (flush_pending (set_draws (λ _, d_draws s') s))
  | Raise _ => d_audit s' = d_audit s ∧ s' = set_draws (λ _, d_draws s') s
  end.
Proof.
  unfold login. intros He. destruct r as [d|e]; [|apply get_db_raise in He; rewrite He; done].
  apply get_db_ok in He as (s1 & He & ->). unfold login_body in He. inv_bind He.
  unfold checked_password in Ha. destruct (authenticate_password _ _ s) as [[user|e] s2] eqn:Ep.
  2:{ inv_bind Ha. discriminate Ha. }
  injection Ha as <- <-. apply password_ok in Ep as (-> & Hin & Hm & Hst & Hb). inv_bind He.
  unfold issue_token, create_access_token in Ha. inv_bind Ha. injection Ha0 as <- <-. inv_bind Ha. injection Ha0 as <- <-.
  injection Ha as <- <-. inv_bind He. injection Ha as <- <-. inv_bind He. injection He as <- <-.
  destruct (login_records user rid _ s _ _ [] _ (audited_draws s _) Ha) as (recs & Hf & Hr).
  exists user, recs. eexists. split_and!; try done.
Qed.
End login_facts.

(** ** What starting up does to the accounts *)

Section start_facts.
Context `{Oracle} `{AuthLib} `{PasswordLib} (settings : Settings).
Lemma add_user_ok email name h admin s i s' : add_user email name h admin s = (Ok i, s') →
  d_users s' = d_users s ++ [{| us_id := i; us_email := email; us_display_name := name; us_password_hash := h;
                               us_status := "active"; us_is_platform_admin := admin |}].
Proof.
  unfold add_user. intros He. inv_bind He. injection Ha as <- <-. inv_bind He. injection He as <- <-. by apply add_unique_ok in Ha as [-> _].
Qed.
Lemma add_membership_ok i role s u s' : add_membership i role s = (Ok u, s') → d_users s' = d_users s.
Proof. unfold add_membership. intros He. inv_bind He. injection Ha as <- <-. by apply add_unique_ok in He as [-> _]. Qed.
Lemma operator_role_ok i t k s u s' : operator_role i t k s = (Ok u, s') → d_users s' = d_users s.
Proof.
  unfold operator_role, lift_gets. intros He. inv_bind He. inv_bind Ha. injection Ha0 as <- <-. injection Ha as _ <-.
  destruct a; [by apply add_membership_ok in He | by injection He as _ <-].
Qed.
(** How an account of before is found after: its password replaced, and the operator's
    account active and an administrator's. *)
Definition reopened (salt : string) (u u' : User) : Prop :=
  us_id u' = us_id u ∧ us_email u' = us_email u ∧ us_password_hash u' = bcrypt_hash salt (st_dev_password settings)
  ∧ (us_status u' = us_status u ∧ us_is_platform_admin u' = us_is_platform_admin u
     ∨ us_status u' = "active" ∧ us_is_platform_admin u' = true).
Definition operates (salt : string) (u : User) : Prop :=
  us_email u = operator_email settings ∧ us_status u = "active" ∧ us_is_platform_admin u = true
  ∧ us_password_hash u = bcrypt_hash salt (st_dev_password settings).
Lemma ensure_ok s u s' : is_production settings = false → st_dev_seed settings = true → operator_email settings ≠ "" →
  ensure_dev_credentials settings s = (Ok u, s') →
  ∃ salt new, Forall (operates salt) new ∧ Exists (operates salt) (d_users s')
    ∧ ∃ old, d_users s' = old ++ new ∧ Forall2 (reopened salt) (d_users s) old.
Proof.
  intros Hp Hd Hop. unfold ensure_dev_credentials. rewrite Hp, Hd. cbn [negb orb].
  apply nonempty_spec in Hop as ->. cbn [negb]. intros He. inv_bind He. injection Ha as _ <-. inv_bind He.
  unfold hash_password, gensalt in Ha. inv_bind Ha. injection Ha0 as <- <-. injection Ha as <- <-.
  set (salt := uuid_hex _) in *. exists salt. apply M_bind_ok in He as (found & s1 & Hf & He).
  unfold lift_gets in Hf. inv_bind Hf. injection Ha as <- <-. injection Hf as Hf <-.
  apply M_bind_ok in He as (u1 & s1 & Ha & He). inv_bind He. injection Ha0 as _ <-. injection He as _ <-. change (d_users (flush_pending ?x)) with (d_users x).
  change (d_users (set_users ?f ?x)) with (f (d_users x)). set (h := bcrypt_hash salt (st_dev_password settings)) in *.
  destruct found as [user|].
  - injection Ha as _ <-. apply scalar_one_Some in Hf. assert (user ∈ [user]) as Hin by left. rewrite <-Hf in Hin.
    apply elem_of_select in Hin as [Hin Hmail%String.eqb_eq]. exists []. split; [constructor|]. split.
    + apply Exists_exists. exists (with_password h (refreshed h (us_id user) user)). split.
      * change (d_users (set_users ?f ?x)) with (f (d_users x)). apply list_elem_of_fmap. eexists. split; [reflexivity|].
        apply list_elem_of_fmap. by exists user.
      * unfold operates, refreshed. rewrite String.eqb_refl. done.
    + eexists. split; [by rewrite app_nil_r|]. change (d_users (set_users ?f ?x)) with (f (d_users x)).
      rewrite <-list_fmap_compose. apply Forall2_fmap_r, Forall_Forall2_diag, Forall_forall. intros x _. unfold reopened, refreshed. cbn.
      destruct (us_id x =? us_id user)%string; cbn; split_and!; auto.
  - apply M_bind_ok in Ha as (i & s2 & E0 & Ha). apply add_user_ok in E0. apply M_bind_ok in Ha as ([] & s3 & E1 & Ha).
    apply operator_role_ok in E1, Ha. assert (∃ op, operates salt op ∧ d_users s1 = d_users s ++ [op]) as (op & Hop & ->).
    { eexists. split; [|rewrite Ha, E1, E0; reflexivity]. done. }
    exists [with_password h op]. assert (operates salt (with_password h op)) as Hw by (destruct Hop as (? & ? & ? & ?); done).
    split; [by apply Forall_singleton|]. rewrite fmap_app. split; [apply Exists_app; right; by apply Exists_cons_hd|].
    eexists. split; [reflexivity|]. apply Forall2_fmap_r, Forall_Forall2_diag, Forall_forall. intros x _. unfold reopened. cbn. split_and!; auto.
Qed.
(** *** The whole start *)

Definition accounts_kept (s s' : db) : Prop :=
  d_users s' = d_users s ∧ d_memberships s' = d_memberships s ∧ d_tenants s' = d_tenants s ∧ d_audit s' = d_audit s.
#[export] Instance accounts_kept_preorder : PreOrder accounts_kept.
Proof. split; [by intros s | intros a b c (? & ? & ? & ?) (? & ? & ? & ?); unfold accounts_kept; split_and!; congruence]. Qed.
Definition users_grow (s s' : db) : Prop := ∃ new, d_users s' = d_users s ++ new.
#[export] Instance users_grow_preorder : PreOrder users_grow.
Proof.
  split; [intros s; exists []; by rewrite app_nil_r|]. intros a b c [n Hn] [m Hm]. exists (n ++ m). by rewrite Hm, Hn, app_assoc.
Qed.
Lemma sync_accounts registry : Prelude.keeps accounts_kept (sync_catalog_revisions registry).
Proof.
  unfold sync_catalog_revisions, flush, modify. repeat keeps_step; try by intros s.
  unfold sync_one. repeat keeps_step; by intros s.
Qed.
Lemma users_same s s' : d_users s' = d_users s → users_grow s s'.
Proof. intros Hs. exists []. by rewrite app_nil_r. Qed.
Lemma add_row_users {A} get_rows set_rows same (row : A) :
  (∀ s, users_grow s (set_rows (λ rows, rows ++ [row]) s)) → Prelude.keeps users_grow (add_unique get_rows set_rows same row).
Proof.
  intros Hset s. unfold add_unique. destruct (existsb _ _); [by apply users_same|]. destruct (Hset (flush_pending s)) as [new Hn].
  by exists new.
Qed.
Lemma new_id_grow prefix : Prelude.keeps users_grow (new_id_db prefix).
Proof. intros s. by apply users_same. Qed.
Lemma add_membership_grow i role : Prelude.keeps users_grow (add_membership i role).
Proof. unfold add_membership. keeps_step; [apply new_id_grow|]. apply add_row_users. intros s. by apply users_same. Qed.
Lemma add_user_grow email name h admin : Prelude.keeps users_grow (add_user email name h admin).
Proof.
  unfold add_user. keeps_step; [apply new_id_grow|]. keeps_step; [|by keeps_step]. apply add_row_users. intros s. by eexists.
Qed.
Lemma seed_accounts_grow h seen users : Prelude.keeps users_grow (seed_accounts h seen users).
Proof.
  revert seen. induction users as [|[[[email name] admin] roles] users IH]; intros seen; cbn [seed_accounts]; [by keeps_step|].
  destruct (mem email seen); [apply IH|]. keeps_step; [apply add_user_grow|]. keeps_step; [|apply IH].
  repeat (keeps_step || apply add_membership_grow).
Qed.
Lemma write_audit_grow b : Prelude.keeps users_grow (write_audit b).
Proof.
  unfold write_audit. repeat keeps_step; try (intros s; by apply users_same). apply add_row_users. intros s. by apply users_same.
Qed.
Lemma seed_grow : Prelude.keeps users_grow (seed_if_empty settings).
Proof.
  unfold seed_if_empty, add_tenant, hash_password, flush, modify.
  repeat (keeps_step || apply seed_accounts_grow || apply write_audit_grow
          || (apply add_row_users; intros s; by apply users_same) || (intros s; by apply users_same)).
Qed.
(** The account found by the address and checked, when addresses are unique. *)
Lemma opens password u s : NoDup (us_email <$> d_users s) → u ∈ d_users s → lower (us_email u) = us_email u → us_status u = "active" →
  bcrypt_check password (us_password_hash u) = true → authenticate_password (us_email u) password s = (Ok u, s).
Proof.
  intros Hnd Hin Hl Hst Hb. unfold authenticate_password. rewrite Hl.
  assert (select (λ u0, us_email u0 =? us_email u)%string (d_users s) = [u]) as Hs.
  { apply list_elem_of_split in Hin as (l & r & Hs). rewrite Hs in Hnd |- *. rewrite fmap_app, fmap_cons in Hnd.
    apply NoDup_app in Hnd as (_ & Hl' & Hr). apply NoDup_cons in Hr as [Hr _]. rewrite select_app, (select_app _ [u] r), select_one, String.eqb_refl.
    assert (∀ x : User, x ∈ l ∨ x ∈ r → (us_email x =? us_email u)%string = false) as Hne.
    { intros x Hx. apply String.eqb_neq. intros He. destruct Hx as [Hx|Hx].
      - apply (Hl' (us_email x)); [by apply list_elem_of_fmap_2 | rewrite He; left].
      - apply Hr. rewrite <-He. by apply list_elem_of_fmap_2. }
    rewrite (proj2 (select_nil_iff _ l)), (proj2 (select_nil_iff _ r)) by auto. done. }
  unfold get, lift, mbind, M_bind. rewrite Hs. cbn [scalar_one_or_none]. by rewrite Hst, Hb.
Qed.
(** What starting the process does to the accounts. In production, or with the seed
    switched off, nothing: users, memberships, tenants and the audit log are as they were.
    Otherwise there is an active administrator under the operator's address afterwards, no
    account is lost, and the password of EVERY account in the database is the configured
    one, whoever it belonged to: each active account whose address is in lower case can
    be signed in to with it. A start that fails commits nothing. *)
Theorem start_exact registry s r s' : hashes_check → lifespan settings registry s = (r, s') →
  match r with
  | Ok _ => if is_production settings || negb (st_dev_seed settings) then accounts_kept s s'
      else operator_email settings ≠ "" →
        (∃ op, op ∈ d_users s' ∧ us_email op = operator_email settings ∧ us_status op = "active" ∧ us_is_platform_admin op = true)
        ∧ (∀ u, u ∈ d_users s → ∃ u', u' ∈ d_users s' ∧ us_id u' = us_id u ∧ us_email u' = us_email u)
        ∧ ∀ u, u ∈ d_users s' → bcrypt_check (st_dev_password settings) (us_password_hash u) = true
            ∧ (NoDup (us_email <$> d_users s') → lower (us_email u) = us_email u → us_status u = "active" →
               authenticate_password (us_email u) (st_dev_password settings) s' = (Ok u, s'))
  | Raise _ => s' = set_draws (λ _, d_draws s') s
  end.
Proof.
  intros Hchk. unfold lifespan. intros He. destruct r as [u|e]; [|by apply get_db_raise in He].
  apply get_db_ok in He as (s4 & He & ->). apply M_bind_ok in He as ([] & s1 & E1 & He). apply M_bind_ok in He as ([] & s2 & E2 & He).
  apply M_bind_ok in He as (revs & s3 & E3 & He). injection He as <- <-. pose proof (keeps_ok _ _ _ _ _ (sync_accounts registry) E3) as Hk.
  destruct (is_production settings || negb (st_dev_seed settings)) eqn:Hmode.
  { unfold seed_if_empty in E1. rewrite Hmode in E1. injection E1 as <-. unfold ensure_dev_credentials in E2. rewrite Hmode in E2.
    injection E2 as <-. exact Hk. }
  intros Hop. apply orb_false_iff in Hmode as [Hp Hd%negb_false_iff]. pose proof (keeps_ok _ _ _ _ _ seed_grow E1) as [grown Hg].
  destruct (ensure_ok _ _ _ Hp Hd Hop E2) as (salt & new & Hnew & Hex & old & Hold & Hre).
  assert (d_users (flush_pending s3) = old ++ new) as Hu by (destruct Hk as (Hk & _); change (d_users (flush_pending s3)) with (d_users s3); congruence).
  rewrite Hu. rewrite Hold in Hex. split; [|split].
  - apply Exists_exists in Hex as (op & Hin & Ho). exists op. destruct Ho as (? & ? & ? & ?). done.
  - intros x Hx. assert (x ∈ d_users s1) as Hx1 by (rewrite Hg; apply elem_of_app; by left).
    apply list_elem_of_lookup in Hx1 as [i Hi]. destruct (Forall2_lookup_l _ _ _ _ _ Hre Hi) as (x' & Hi' & Hid & Hem & _).
    exists x'. split; [|done]. apply elem_of_app. left. by apply list_elem_of_lookup_2 in Hi'.
  - intros x Hx. assert (us_password_hash x = bcrypt_hash salt (st_dev_password settings)) as Hh.
    { apply elem_of_app in Hx as [Hx|Hx].
      - apply list_elem_of_lookup in Hx as [i Hi]. by destruct (Forall2_lookup_r _ _ _ _ _ Hre Hi) as (x' & _ & _ & _ & Hh & _).
      - rewrite Forall_forall in Hnew. by destruct (Hnew x Hx) as (_ & _ & _ & Hh). }
    assert (bcrypt_check (st_dev_password settings) (us_password_hash x) = true) as Hb by (rewrite Hh; apply Hchk).
    split; [done|]. intros Hnd Hl Hst. apply opens; try done; by rewrite Hu.
Qed.
End start_facts.

(** ** Origins *)

(** The origins that browsers may use: each once, none empty, and in production only those
    that are configured. *)
Lemma cors_origins_exact settings : NoDup (cors_allow_origins settings)
  ∧ (∀ o, o ∈ cors_allow_origins settings ↔ o ∈ cors_candidates settings)
  ∧ (is_production settings = true → ∀ o, o ∈ cors_allow_origins settings →
       o = strip (st_web_origin settings) ∨ ∃ item, item ∈ split_on comma (st_cors_origins settings) ∧ o = strip item).
Proof.
  assert (∀ l acc, NoDup acc → Forall (λ o, nonempty o = true) l →
    NoDup (foldl add_origin acc l) ∧ ∀ o, o ∈ foldl add_origin acc l ↔ o ∈ acc ∨ o ∈ l) as Hfold.
  { induction l as [|x l IH]; intros acc Hacc Hne; [split; [done|]; cbn; intros o; split; [by left | by intros [?|?%not_elem_of_nil]]|].
    apply Forall_cons in Hne as [Hx Hne]. cbn [foldl]. unfold add_origin at 2 4. rewrite Hx. cbn [andb].
    destruct (mem x acc) eqn:Hm; cbn [negb].
    - destruct (IH acc Hacc Hne) as [Hn Hin]. split; [done|]. intros o. rewrite Hin, elem_of_cons. apply mem_spec in Hm. naive_solver.
    - apply mem_false in Hm. destruct (IH (acc ++ [x])) as [Hn Hin]; [|done|].
      + apply NoDup_app. split; [done|]. split; [|apply NoDup_singleton]. by intros y Hy ->%list_elem_of_singleton.
      + split; [done|]. intros o. rewrite Hin, elem_of_app, list_elem_of_singleton, elem_of_cons. naive_solver. }
  assert (Forall (λ o, nonempty o = true) (cors_candidates settings)) as Hne.
  { unfold cors_candidates. apply Forall_app. split; [|apply Forall_app; split].
    - destruct (nonempty (strip (st_cors_origins settings))); [|constructor]. apply Forall_forall. by intros o [_ Ho]%elem_of_select.
    - destruct (nonempty (strip (st_web_origin settings))) eqn:Hw; [by apply Forall_singleton | constructor].
    - destruct (is_production settings); [constructor | by repeat constructor]. }
  destruct (Hfold _ [] (NoDup_nil_2) Hne) as [Hn Hin]. split; [done|]. unfold cors_allow_origins.
  split; [intros o; rewrite Hin; split; [by intros [?%not_elem_of_nil|?] | by right]|].
  intros Hp o [?%not_elem_of_nil|Ho]%Hin; [done|]. unfold cors_candidates in Ho. rewrite Hp, app_nil_r in Ho.
  apply elem_of_app in Ho as [Ho|Ho].
  - destruct (nonempty (strip (st_cors_origins settings))); [|by apply not_elem_of_nil in Ho].
    apply elem_of_select in Ho as [(item & -> & Hi)%list_elem_of_fmap _]. right. by exists item.
  - destruct (nonempty (strip (st_web_origin settings))); [left; by apply list_elem_of_singleton in Ho | by apply not_elem_of_nil in Ho].
Qed.

(** ** A first start *)

#[local] Instance demo_oracle : Oracle :=
  {| uuid_hex := λ n, str_of_nat n; clock := λ n, utc 20000 (60 * Z.of_nat n) |}.
#[local] Instance demo_auth : AuthLib := {|
  jwt_encode := λ _, "t"; jwt_decode := λ _, None; bcrypt_check := λ p h, (h =? "bcrypt:" +:+ p)%string |}.
#[local] Instance demo_passwords : PasswordLib := {| bcrypt_hash := λ _ p, "bcrypt:" +:+ p |}.
Lemma demo_checks : hashes_check.
Proof. intros salt password. apply String.eqb_refl. Qed.
(** The defaults of [core/config.py]. *)
Definition default_settings : Settings := {|
  st_env := "development"; st_web_origin := "http://127.0.0.1:3000"; st_cors_origins := ""; st_cors_origin_regex := "";
  st_dev_seed := true; st_dev_password := "dev_only_change_me"; st_dev_operator_email := "detector@demo.blueteam.local" |}.
Definition started : db := snd (lifespan default_settings [] empty_db).
(** The address of the operator is that of the demonstration's detection engineer, who is
    therefore not created: six accounts, and the engineer's address is an administrator's. *)
Example first_start : ((λ u, (us_email u, us_is_platform_admin u)) <$> d_users started) = [
    ("detector@demo.blueteam.local", true); ("platform@blueteam.local", true); ("owner@demo.blueteam.local", false);
    ("analyst@demo.blueteam.local", false); ("hunter@demo.blueteam.local", false); ("auditor@demo.blueteam.local", false)]
  ∧ length (d_memberships started) = 7%nat ∧ (au_action <$> d_audit started) = ["platform.seed"]
  ∧ d_users (snd (lifespan default_settings [] started)) = d_users started
  ∧ cors_allow_origins default_settings = ["http://127.0.0.1:3000"; "http://localhost:3000"].
Proof. vm_compute. auto. Qed.
Local Abbreviation sign_in email := (login 30 {| lq_email := email; lq_password := "dev_only_change_me" |} "req_1" started).
Lemma start_exact_witness : ∃ op, op ∈ d_users started ∧ us_is_platform_admin op = true
  ∧ bcrypt_check "dev_only_change_me" (us_password_hash op) = true.
Proof.
  assert (lifespan default_settings [] empty_db = (Ok tt, started)) as E.
  { unfold started. destruct (lifespan default_settings [] empty_db) as [r s'] eqn:E. 
    assert (fst (lifespan default_settings [] empty_db) = Ok tt) as Hr by (vm_compute; reflexivity). rewrite E in Hr. cbn in Hr. by rewrite Hr. }
  destruct (start_exact default_settings [] empty_db (Ok tt) started demo_checks E ltac:(vm_compute; discriminate)) as ((op & Hin & _ & _ & Hadm) & _ & Hall).
  exists op. split; [exact Hin|]. split; [exact Hadm|]. exact (proj1 (Hall op Hin)).
Defined.
Lemma login_exact_witness : ∃ user d, fst (sign_in "Owner@demo.blueteam.local") = Ok d ∧ user ∈ d_users started
  ∧ us_email user = lower "Owner@demo.blueteam.local" ∧ us_status user = "active".
Proof.
  assert (is_ok (fst (sign_in "Owner@demo.blueteam.local")) = true) as Hok by (vm_compute; reflexivity).
  destruct (sign_in "Owner@demo.blueteam.local") as [r s'] eqn:E. destruct r as [d|e]; [|discriminate Hok].
  destruct (login_exact 30 _ _ _ _ _ E) as (user & recs & now & Hin & Hm & Hst & _). exists user, d.
  split; [reflexivity|]. split; [exact Hin|]. split; [exact Hm | exact Hst].
Defined.
