(* ===== verification/Console.v ===== *)
(** * The console's routes

    Models the routes that show and change what other components keep: [api/alerts.py],
    [api/audit.py], [api/evidence.py], [api/tenants.py], [api/investigate.py],
    [api/detections.py], and the reading routes of [api/incidents.py]. *)
From S2P Require Export Startup Connectors.
Local Open Scope Z_scope.

(** ** What is shown *)

Definition alert_dict (row : Alert) : pydict := [
  ("id", VStr (al_id row)); ("finding_id", VStr (al_finding_id row)); ("title", VStr (al_title row));
  ("severity", VStr (al_severity row)); ("status", VStr (al_status row)); ("created_at", VStr (isoformat (al_created_at row)))].
Definition audit_dict (row : AuditLog) : pydict := [
  ("id", VStr (au_id row)); ("sequence", VInt (au_sequence row)); ("tenant_id", vostr (au_tenant_id row));
  ("actor_type", VStr (au_actor_type row)); ("actor_id", VStr (au_actor_id row)); ("action", VStr (au_action row));
  ("target_type", VStr (au_target_type row)); ("target_id", vostr (au_target_id row)); ("result", VStr (au_result row));
  ("timestamp", VStr (isoformat (au_timestamp row))); ("record_hash", VStr (au_record_hash row))].
Definition evidence_dict (row : Evidence) : pydict := [
  ("id", VStr (ev_id row)); ("source", VStr (ev_source row)); ("integrity_hash", VStr (ev_integrity_hash row));
  ("confidence_level", VInt (ev_confidence_level row)); ("sealed", VBool (ev_sealed row));
  ("ingested_at", VStr (isoformat (ev_ingested_at row)))].
Definition verdict_dict (evidence_id : string) (v : verdict) : pydict :=
  match v with
  | Intact integrity_hash => [("id", VStr evidence_id); ("intact", VBool true); ("integrity_hash", VStr integrity_hash)]
  | NotIntact => [("id", VStr evidence_id); ("intact", VBool false); ("reason", VStr "hash mismatch or missing source")]
  end.
Definition custody_dict (event : Custody) : pydict := [
  ("id", vostr (cu_id event)); ("action", VStr (cu_action event)); ("actor_id", VStr (cu_actor_id event));
  ("timestamp", VStr (isoformat (cu_timestamp event))); ("notes", vostr (cu_notes event))].
Definition tenant_dict (row : Tenant) : pydict := [
  ("id", VStr (te_id row)); ("slug", VStr (te_slug row)); ("name", VStr (te_name row)); ("status", VStr (te_status row))].
Definition role_dict (r : RoleDefinition) : pydict := [
  ("key", VStr (ro_key r)); ("name", VStr (ro_name r)); ("description", VStr (ro_description r));
  ("permissions", VList (VStr <$> ro_permissions r))].
Definition member_dict (membership : Membership) (user : User) : pydict := [
  ("id", VStr (us_id user)); ("email", VStr (us_email user)); ("display_name", VStr (us_display_name user));
  ("role_key", VStr (me_role_key membership)); ("status", VStr (us_status user))].
(** The members of a tenant that have an account. *)
Definition members_of (tenant_id : string) (s : db) : list pydict :=
  omap (λ m, member_dict m <$> find_first (λ u, us_id u =? me_user_id m)%string (d_users s))
    (select (λ m, me_tenant_id m =? tenant_id)%string (d_memberships s)).
Definition finding_row (row : FindingRecord) : pydict := [
  ("id", VStr (fr_id row)); ("rule_id", VStr (fr_rule_id row)); ("rule_version", VStr (fr_rule_version row));
  ("title", VStr (fr_title row)); ("severity", VStr (severity_str (fr_severity row))); ("confidence", VFloat (fr_confidence row));
  ("explanation", VStr (fr_explanation row)); ("mitre_techniques", VList (VStr <$> fr_mitre_techniques row));
  ("event_ids", VList (VStr <$> fr_event_ids row)); ("evidence_ids", VList (VStr <$> fr_evidence_ids row));
  ("created_at", VStr (isoformat (fr_created_at row)))].
Definition suppression_dict (row : Suppression) : pydict := [
  ("id", VStr (su_id row)); ("rule_id", VStr (su_rule_id row)); ("entity_key", VStr (su_entity_key row));
  ("entity_value", VStr (su_entity_value row)); ("reason", VStr (su_reason row));
  ("expires_at", vostr (isoformat <$> su_expires_at row))].
Definition exception_dict (row : DetectionException) : pydict := [
  ("id", VStr (ex_id row)); ("rule_id", VStr (ex_rule_id row)); ("entity_key", VStr (ex_entity_key row));
  ("entity_value", VStr (ex_entity_value row)); ("reason", VStr (ex_reason row))].
Definition history_dict (row : RuleRevision) : pydict := [
  ("id", VStr (rr_id row)); ("version", VStr (rr_version row)); ("status", VStr (rr_status row)); ("checksum", VStr (rr_checksum row));
  ("created_at", VStr (isoformat (rr_created_at row))); ("created_by", VStr (rr_created_by row))].
Definition moved_dict (row : RuleRevision) : pydict :=
  [("rule_id", VStr (rr_rule_id row)); ("version", VStr (rr_version row)); ("status", VStr (rr_status row))].
Definition items_only (items : list pydict) : pydict := [("items", VList (VDict <$> items))].

(** ** Requests *)

Record ClaimRequest := {
  cr_claim_text : string; cr_confidence : float; cr_supporting : list string; cr_contradicting : list string;
  cr_inference_type : Z; cr_model_or_rule_version : string }.
Record CustodyBody := { cb_action : string; cb_notes : option string }.
Record SuppressionBody := { sb_rule_id : string; sb_entity_key : string; sb_entity_value : string; sb_reason : string }.
Definition confidence_level (z : Z) : option ConfidenceLevel :=
  dget (str_of_Z z) [("1", PRIMARY_TELEMETRY); ("2", DETERMINISTIC_DERIVED); ("3", STATISTICAL_INFERENCE); ("4", AI_INTERPRETATION);
                     ("5", ANALYST_ASSESSMENT)].
(** The claim of a body: the model refuses an inference type that is no level, with an
    exception that is not a validation of the request. *)
Definition preview_claim (body : ClaimRequest) (tenant_id : string) : result IncidentClaim :=
  match confidence_level (cr_inference_type body) with
  | Some level => Ok {|
      cl_id := "clm_preview"; cl_tenant_id := tenant_id; cl_incident_id := None; cl_claim_text := cr_claim_text body;
      cl_confidence := cr_confidence body; cl_supporting_evidence_ids := cr_supporting body;
      cl_contradicting_evidence_ids := cr_contradicting body; cl_inference_type := level;
      cl_model_or_rule_version := cr_model_or_rule_version body; cl_unknowns := []; cl_analyst_disposition := None |}
  | None => Raise (OtherError "ValidationError: inference_type")
  end.
(** What is only read, of the actor's tenant. *)
Inductive view := GetAlerts | GetAudit | GetEvidence | VerifyEvidence (evidence_id : string) | ValidateClaim (body : ClaimRequest)
| ListRoles | ListUsers | ListRules | GetFindings | GetSuppressions | InvestigateSessions | InvestigateTree
| GetIncidents | GetStorylines | GetOne (incident_id : string).
Inductive change := CustodyEvent (evidence_id : string) (body : CustodyBody) | ScheduledRun
| AddSuppression (body : SuppressionBody) | AddException (body : SuppressionBody) | RuleHistory (rule_id : string)
| PromoteRule (rule_id : string) | ChangeStatus (rule_id status : string) | Storylines.
Definition view_permission (v : view) : string :=
  match v with
  | GetAlerts => "alerts:read" | GetAudit => "audit:read" | GetEvidence | VerifyEvidence _ | ValidateClaim _ => "evidence:read"
  | ListRoles => "roles:read" | ListUsers => "users:read" | ListRules | GetFindings | GetSuppressions => "detections:read"
  | InvestigateSessions | InvestigateTree => "events:read"
  | GetIncidents | GetOne _ => "incidents:read" | GetStorylines => "detections:read"
  end.
Definition change_permission (c : change) : string :=
  match c with
  | CustodyEvent _ _ => "evidence:write" | RuleHistory _ | Storylines => "detections:read"
  | _ => "detections:write"
  end.

Section console.
Context `{Oracle} `{AuthLib} `{PydanticJson} (registry : DetectionRegistry).

Definition session_items (events : list CanonicalEvent) : result pydict :=
  sessions ← sessions_from_events events;
  Ok [("items", VList ((λ n, VDict (session_dict n)) <$> sessions)); ("count", VInt (Z.of_nat (length sessions)));
      ("manufactured", VBool false)].
Definition look (v : view) (actor : TenantActor) (s : db) : result pydict :=
  let t := ta_tenant_id actor in
  match v with
  | GetAlerts => Ok (items_only (alert_dict <$> list_alerts t s))
  | GetAudit => Ok (items_only (audit_dict <$> list_audit (d_audit s) (Some t) (ac_is_platform_admin (ta_actor actor))))
  | GetEvidence => Ok (items_only (evidence_dict <$> list_evidence t s) ++ [("manifest_hash", VStr (evidence_manifest_hash t s))])
  | VerifyEvidence i => verdict_dict i <$> verify_evidence t i s
  | ValidateClaim body => claim ← preview_claim body t; validate_claim t claim s;; Ok [("valid", VBool true)]
  | ListRoles => Ok (items_only (role_dict <$> ROLE_CATALOG.*2))
  | ListUsers => Ok (items_only (members_of t s))
  | ListRules => Ok (items_only (catalogue registry))
  | GetFindings => Ok (items_only (finding_row <$> list_findings t s))
  | GetSuppressions => Ok [("suppressions", VList (VDict <$> (suppression_dict <$> list_suppressions t s)));
                           ("exceptions", VList (VDict <$> (exception_dict <$> list_exceptions t s)))]
  | InvestigateSessions => session_items (load_window t s)
  | InvestigateTree => Ok (build_process_tree (load_window t s))
  | GetIncidents => Ok (items_only (serialize_incident <$> list_incidents t s)
      ++ [("lifecycle", VStr "ir-v1"); ("allowed_statuses", VList (VStr <$> sort_by str_le INCIDENT_STATUSES))])
  | GetStorylines => let rows := list_storylines t s in
      Ok (items_only ((λ r, story_dict (sr_payload r)) <$> rows) ++ [("count", VInt (Z.of_nat (length rows)))])
  | GetOne incident_id => serialize_incident <$> fst (get_incident t incident_id s)
  end.
Definition serve_view (h : headers) (request_id : string) (v : view) : M db pydict :=
  served (view_permission v) h request_id (λ actor, lift_gets (look v actor)).

(** The lab is an object of the process. *)
Definition make_change (lab : ReplayLab) (c : change) (actor : TenantActor) : M db pydict :=
  let t := ta_tenant_id actor in
  match c with
  | CustodyEvent i body =>
      event ← append_custody t i (actor_user actor) (cb_action body) (cb_notes body);
      mret [("evidence_id", VStr i); ("event", VDict (custody_dict event))]
  | ScheduledRun =>
      created ← run_scheduled registry t (actor_user actor);
      mret [("findings_created", VInt created); ("execution", VStr "scheduled")]
  | AddSuppression body =>
      row ← create_suppression t (sb_rule_id body) (sb_entity_key body) (sb_entity_value body) (sb_reason body) (actor_user actor) None;
      mret [("id", VStr (su_id row)); ("rule_id", VStr (su_rule_id row))]
  | AddException body =>
      row ← create_exception t (sb_rule_id body) (sb_entity_key body) (sb_entity_value body) (sb_reason body) (actor_user actor);
      mret [("id", VStr (ex_id row)); ("rule_id", VStr (ex_rule_id row))]
  | RuleHistory rule_id =>
      sync_catalog_revisions registry;;
      rows ← gets (list_history rule_id);
      mret ([("rule_id", VStr rule_id)] ++ items_only (history_dict <$> rows))
  | PromoteRule rule_id =>
      sync_catalog_revisions registry;; moved_dict <$> promote registry lab rule_id (actor_user actor) false
  | ChangeStatus rule_id status =>
      sync_catalog_revisions registry;; moved_dict <$> RuleLifecycle.set_status registry rule_id status (actor_user actor)
  | Storylines =>
      persist_storylines_and_incidents t;;
      stored ← gets (list_storylines t);
      match stored with
      | _ :: _ => mret [("items", VList ((λ r, VDict (story_dict (sr_payload r))) <$> stored));
                        ("count", VInt (Z.of_nat (length stored))); ("persisted", VBool true)]
      | [] =>
          s ← get;
          items ← drawing_db (correlate (load_window t s) (fr_payload <$> list_findings t s));
          mret [("items", VList ((λ st, VDict (story_dict st)) <$> items)); ("count", VInt (Z.of_nat (length items)));
                ("persisted", VBool false)]
      end
  end.
Definition serve_change (lab : ReplayLab) (h : headers) (request_id : string) (c : change) : M db pydict :=
  served (change_permission c) h request_id (make_change lab c).

(** The two routes without a tenant of their own. *)
Definition tenants_shown (actor : Actor) (s : db) : list Tenant :=
  let allowed := match ac_tenant_ids actor with [] => ["__none__"] | ids => ids end in
  sort_by (λ a b, str_le (te_name a) (te_name b))
    (if ac_is_platform_admin actor then d_tenants s else select (λ t, mem (te_id t) allowed) (d_tenants s)).
Definition list_tenants (h : headers) (request_id : string) : M db pydict :=
  get_db (actor ← get_actor h request_id; gets (λ s, items_only (tenant_dict <$> tenants_shown actor s))).
Definition audit_integrity (h : headers) (request_id : string) : M db pydict :=
  served "audit:read" h request_id (λ _, gets (λ s, let (ok, reason) := verify_audit_chain (d_audit s) in
    [("intact", VBool ok); ("reason", VStr reason)])).
End console.

(** ** A view shows one tenant *)

(** Two databases with the same rows of a tenant, whatever they have of others. *)
Record tenant_agrees (t : string) (s1 s2 : db) : Prop := {
  ag_alerts : select (λ r, al_tenant_id r =? t)%string (d_alerts s1) = select (λ r, al_tenant_id r =? t)%string (d_alerts s2);
  ag_evidence : select (λ r, ev_tenant_id r =? t)%string (d_evidence s1) = select (λ r, ev_tenant_id r =? t)%string (d_evidence s2);
  ag_events : select (λ r, se_tenant_id r =? t)%string (d_events s1) = select (λ r, se_tenant_id r =? t)%string (d_events s2);
  ag_findings : select (λ r, fr_tenant_id r =? t)%string (d_findings s1) = select (λ r, fr_tenant_id r =? t)%string (d_findings s2);
  ag_suppressions : list_suppressions t s1 = list_suppressions t s2;
  ag_exceptions : list_exceptions t s1 = list_exceptions t s2;
  ag_members : select (λ m, me_tenant_id m =? t)%string (d_memberships s1) = select (λ m, me_tenant_id m =? t)%string (d_memberships s2);
  ag_accounts : ∀ m, m ∈ d_memberships s1 → me_tenant_id m = t →
    find_first (λ u, us_id u =? me_user_id m)%string (d_users s1) = find_first (λ u, us_id u =? me_user_id m)%string (d_users s2);
  ag_incidents : select (λ r, in_tenant_id r =? t)%string (d_incidents s1) = select (λ r, in_tenant_id r =? t)%string (d_incidents s2);
  ag_storylines : list_storylines t s1 = list_storylines t s2;
  ag_audit : select (λ r, bool_decide (au_tenant_id r = Some t)) (d_audit s1) = select (λ r, bool_decide (au_tenant_id r = Some t)) (d_audit s2) }.

Section isolation.
Context `{Oracle} `{AuthLib} `{PydanticJson} (registry : DetectionRegistry) (t : string) (s1 s2 : db).
Hypothesis agrees : tenant_agrees t s1 s2.
Lemma same_evidence p : find_evidence t p s1 = find_evidence t p s2.
Proof.
  assert (∀ s, find_evidence t p s = select p (select (λ r, ev_tenant_id r =? t)%string (d_evidence s))) as Hs.
  { intros s. unfold find_evidence. by rewrite select_select. }
  by rewrite !Hs, (ag_evidence _ _ _ agrees).
Qed.
Lemma same_event i : find_event t i s1 = find_event t i s2.
Proof.
  assert (∀ s, find_event t i s = select (λ r, se_id r =? i)%string (select (λ r, se_tenant_id r =? t)%string (d_events s))) as Hs.
  { intros s. unfold find_event. by rewrite select_select. }
  by rewrite !Hs, (ag_events _ _ _ agrees).
Qed.
Lemma same_members : members_of t s1 = members_of t s2.
Proof.
  unfold members_of. rewrite <-(ag_members _ _ _ agrees).
  assert (∀ m, m ∈ select (λ m, me_tenant_id m =? t)%string (d_memberships s1) →
    find_first (λ u, us_id u =? me_user_id m)%string (d_users s1) = find_first (λ u, us_id u =? me_user_id m)%string (d_users s2)) as Hm.
  { intros m [Hm Ht%String.eqb_eq]%elem_of_select. by apply (ag_accounts _ _ _ agrees). }
  revert Hm. induction (select _ _) as [|m l IH]; intros Hm; [done|]. cbn [omap list_omap]. rewrite (Hm m) by left.
  destruct (member_dict m <$> _); [f_equal|]; apply IH; intros x Hx; apply Hm; by right.
Qed.
Lemma same_window : load_window t s1 = load_window t s2.
Proof. unfold load_window. by rewrite (ag_events _ _ _ agrees). Qed.
Lemma same_incident i : fst (get_incident t i s1) = fst (get_incident t i s2).
Proof.
  unfold get_incident. cbn [mbind M_bind]. unfold mbind, M_bind, get, lift.
  rewrite <-!(select_select (λ r, in_id r =? i)%string (λ r, in_tenant_id r =? t)%string), (ag_incidents _ _ _ agrees).
  by destruct (scalar_one_or_none _) as [[row|]|e].
Qed.
Lemma same_look v actor : ta_tenant_id actor = t → (v = GetAudit → ac_is_platform_admin (ta_actor actor) = true → d_audit s1 = d_audit s2) →
  look registry v actor s1 = look registry v actor s2.
Proof.
  intros Ht Haudit. destruct v; cbn [look]; rewrite ?Ht; try done.
  - unfold list_alerts. by rewrite (ag_alerts _ _ _ agrees).
  - unfold list_audit. destruct (ac_is_platform_admin (ta_actor actor)); [by rewrite Haudit | by rewrite (ag_audit _ _ _ agrees)].
  - unfold evidence_manifest_hash, list_evidence. by rewrite same_evidence.
  - unfold verify_evidence. rewrite same_evidence. destruct (scalar_one_or_none _) as [[row|]|]; [|done..]. cbn [mbind result_bind].
    destruct (startswith _ _); [|done]. by rewrite same_event.
  - destruct (preview_claim body t) as [claim|]; [|done]. cbn [mbind result_bind]. unfold validate_claim. by rewrite same_evidence.
  - by rewrite same_members.
  - unfold list_findings. by rewrite (ag_findings _ _ _ agrees).
  - by rewrite (ag_suppressions _ _ _ agrees), (ag_exceptions _ _ _ agrees).
  - by rewrite same_window.
  - by rewrite same_window.
  - unfold list_incidents. by rewrite (ag_incidents _ _ _ agrees).
  - by rewrite (ag_storylines _ _ _ agrees).
  - by rewrite same_incident.
Qed.
End isolation.

(** *** The actor comes from the accounts *)

(** The accounts decide who a request is let through as. *)
Record same_accounts (s1 s2 : db) : Prop := {
  sa_users : d_users s1 = d_users s2; sa_memberships : d_memberships s1 = d_memberships s2;
  sa_api_keys : d_api_keys s1 = d_api_keys s2 }.
(** A call that reads two states alike, and changes neither. *)
Definition reads_alike {A} (s1 s2 : db) (m : M db A) : Prop := ∃ r, m s1 = (r, s1) ∧ m s2 = (r, s2).
Section accounts.
Context `{Oracle} `{AuthLib} (s1 s2 : db) (accounts : same_accounts s1 s2).
Lemma alike_bind {A B} (m : M db A) (f : A → M db B) :
  reads_alike s1 s2 m → (∀ a, reads_alike s1 s2 (f a)) → reads_alike s1 s2 (m ≫= f).
Proof.
  intros ([a|e] & H1 & H2) Hf; [destruct (Hf a) as (r & H3 & H4); exists r | exists (Raise e)];
    unfold mbind, M_bind; by rewrite H1, H2.
Qed.
Lemma alike_lift {A} (x : result A) : reads_alike s1 s2 (lift x).
Proof. by exists x. Qed.
Lemma alike_ret {A} (x : A) : reads_alike s1 s2 (mret x).
Proof. by exists (Ok x). Qed.
Lemma alike_raise {A} (e : exn) : reads_alike s1 s2 (raise e : M db A).
Proof. by exists (Raise e). Qed.
Lemma alike_get {B} (f : db → M db B) : (∃ r, f s1 s1 = (r, s1) ∧ f s2 s2 = (r, s2)) → reads_alike s1 s2 (get ≫= f).
Proof. done. Qed.
Lemma get_actor_alike h rid : reads_alike s1 s2 (get_actor h rid).
Proof.
  unfold get_actor. destruct (otrue (hd_api_key h)); [|destruct (_ && _); [|apply alike_raise]].
  - apply alike_get. unfold actor_from_api_key. rewrite (sa_api_keys _ _ accounts). unfold mbind, M_bind, lift.
    destruct (scalar_one_or_none _) as [[k|]|e]; by eexists.
  - unfold actor_from_bearer. destruct (jwt_decode _) as [payload|]; [|apply alike_raise]. apply alike_get.
    rewrite (sa_users _ _ accounts). destruct (find_first _ _) as [u|]; [|by eexists]. destruct (negb _); [by eexists|].
    unfold tenant_ids_of, memberships_of. rewrite (sa_memberships _ _ accounts). by eexists.
Qed.
Lemma bind_tenant_alike a t : reads_alike s1 s2 (bind_tenant a t).
Proof.
  unfold bind_tenant. destruct (_ && _); [apply alike_raise|]. apply alike_get. rewrite (sa_memberships _ _ accounts).
  destruct (bool_decide _ && negb _); by eexists.
Qed.
Lemma require_alike permission h rid : reads_alike s1 s2 (require permission h rid).
Proof.
  unfold require. apply alike_bind; [apply get_actor_alike|]. intros actor. apply alike_bind.
  { unfold get_tenant_actor. destruct (otrue _); [apply bind_tenant_alike|].
    destruct (ac_tenant_ids actor) as [|i [|]]; [apply alike_raise | apply bind_tenant_alike | apply alike_raise]. }
  intros ta. apply alike_bind; [|intros _; apply alike_ret]. unfold require_permission.
  destruct (ac_is_platform_admin _); [apply alike_ret|]. destruct (negb _); [apply alike_raise | apply alike_ret].
Qed.
End accounts.
(** A view is the permission and one look. *)
Lemma serve_view_looks `{Oracle} `{AuthLib} `{PydanticJson} registry h rid v s r s1 : require (view_permission v) h rid s = (r, s1) → s1 = s →
  fst (serve_view registry h rid v s) = (actor ← r; look registry v actor s).
Proof.
  intros Hr ->. unfold serve_view, served, get_db. unfold mbind at 1, M_bind at 1. rewrite Hr. destruct r as [actor|e]; [|done].
  cbn [mbind result_bind]. unfold lift_gets, mbind, M_bind, get, lift. by destruct (look registry v actor s).
Qed.
(** C11. A view of the console shows one tenant and changes nothing. It is answered to an actor
    with the permission in a tenant, from what is looked up for it; and that look is the same
    in every database that has the same rows of that tenant, whatever it has of others. The
    whole request, whether it is answered or raises, ends the same in every database that has
    the same accounts and, once the request is let through, the same rows of the actor's
    tenant. The audit log of a platform administrator is the one exception: it is
    everyone's. *)
Theorem console_views_isolated `{Oracle} `{AuthLib} `{PydanticJson} registry h rid v s r s' :
  serve_view registry h rid v s = (r, s') →
  match r with
  | Ok d => ∃ actor, authorised h s (ta_tenant_id actor) (view_permission v) (ta_actor actor) ∧ s' = flush_pending s
      ∧ ∀ s2, tenant_agrees (ta_tenant_id actor) s s2 →
          (v = GetAudit → ac_is_platform_admin (ta_actor actor) = true → d_audit s = d_audit s2) →
          look registry v actor s2 = Ok d
  | Raise _ => s' = set_draws (λ _, d_draws s') s
  end
  ∧ ∀ s2, same_accounts s s2 →
      (∀ actor, fst (require (view_permission v) h rid s) = Ok actor → tenant_agrees (ta_tenant_id actor) s s2
         ∧ (v = GetAudit → ac_is_platform_admin (ta_actor actor) = true → d_audit s = d_audit s2)) →
      fst (serve_view registry h rid v s2) = r.
Proof.
  intros He. split.
  - destruct r as [d|e]; [|by eapply served_raise]. apply served_ok in He as (actor & s1 & Hauth & He & ->).
    unfold lift_gets in He. inv_bind He. injection Ha as <- <-. injection He as Hl <-. exists actor. split; [done|]. split; [done|].
    intros s2 Hag Haudit. rewrite <-Hl. symmetry. by apply (same_look registry (ta_tenant_id actor)).
  - intros s2 Hacc Hag. destruct (require_alike s s2 Hacc (view_permission v) h rid) as (x & Hr1 & Hr2).
    rewrite (serve_view_looks registry h rid v s2 x s2 Hr2 eq_refl).
    assert (fst (serve_view registry h rid v s) = r) as <- by by rewrite He.
    rewrite (serve_view_looks registry h rid v s x s Hr1 eq_refl). destruct x as [actor|e]; [|done]. rewrite Hr1 in Hag.
    destruct (Hag actor eq_refl) as [Hag' Haudit]. cbn [mbind result_bind]. symmetry. by apply (same_look registry (ta_tenant_id actor)).
Qed.

(** ** Two tenants' alerts *)

#[local] Instance demo_oracle : Oracle :=
  {| uuid_hex := λ n, str_of_nat n; clock := λ n, utc 20000 (60 * Z.of_nat n) |}.
#[local] Instance demo_auth : AuthLib := {|
  jwt_encode := λ _, "t"; bcrypt_check := λ _ _, true;
  jwt_decode := λ t, if (t =? "t")%string then Some [("sub", VStr "usr_1")] else None |}.
#[local] Instance demo_json : PydanticJson := {| json_datetime := isoformat |}.
Definition an_alert (i tenant_id : string) : Alert := {|
  al_id := i; al_tenant_id := tenant_id; al_finding_id := "fnd_1"; al_title := "Password spray"; al_severity := "high";
  al_status := "open"; al_created_at := utc 20000 0 |}.
Definition alerts_db (alerts : list Alert) : db := set_alerts (λ _, alerts) Access.demo_db.
Definition one_tenant : db := alerts_db [an_alert "alt_1" "ten_a"].
Definition two_tenants : db := alerts_db [an_alert "alt_1" "ten_a"; an_alert "alt_2" "ten_b"].
Local Abbreviation alerts_of s := (fst (serve_view [] (demo_headers None) "req_1" GetAlerts s)).
Example other_alert_unseen : alerts_of two_tenants = alerts_of one_tenant
  ∧ alerts_of one_tenant = Ok (items_only [alert_dict (an_alert "alt_1" "ten_a")])
  ∧ fst (serve_change [] (new_lab (MkDraws 0 0)) (demo_headers None) "req_1" ScheduledRun one_tenant)
    = Raise (PermissionDeniedError "Missing permission detections:write").
Proof. vm_compute. auto. Qed.
Lemma console_views_isolated_witness : alerts_of two_tenants = alerts_of one_tenant.
Proof.
  destruct (serve_view [] (demo_headers None) "req_1" GetAlerts one_tenant) as [r s'] eqn:E.
  destruct (console_views_isolated [] _ _ _ _ _ _ E) as [_ Hsame]. apply Hsame; [by constructor|].
  intros actor Hr. split; [|intros Hv; discriminate Hv].
  assert (ta_tenant_id <$> fst (require (view_permission GetAlerts) (demo_headers None) "req_1" one_tenant) = Ok "ten_a") as Ht
    by (vm_compute; reflexivity).
  rewrite Hr in Ht. injection Ht as Ht. rewrite Ht. constructor; reflexivity.
Defined.
(** An inference type that is no level is an exception of the model, not a refusal of the request. *)
Example unknown_level : fst (serve_view [] (demo_headers None) "req_1" (ValidateClaim {|
    cr_claim_text := "c"; cr_confidence := fl_of_Z 1; cr_supporting := ["ev_1"]; cr_contradicting := []; cr_inference_type := 9;
    cr_model_or_rule_version := "1" |}) one_tenant) = Raise (OtherError "ValidationError: inference_type").
Proof. vm_compute. reflexivity. Qed.
