(* ===== verification/Operations.v ===== *)
(** * Operating the platform

    Models the routes that make the platform do something: [api/broker.py],
    [api/playbooks.py], [api/blue_range.py] with [services/blue_range.py], and the catalogue of
    [api/languages.py]. The broker and the playbook engine are objects of the process. *)
From S2P Require Export Broker Playbook Console SqlHunts Yara Policy.
Local Open Scope Z_scope.

(** ** Actions *)

Record BrokerSubmit := {
  bs_action_type : string; bs_reason : string; bs_dry_run : bool; bs_params : pydict; bs_target : pydict }.
Definition decision_str_of (d : PolicyDecision) : string :=
  match d with ALLOW => "ALLOW" | DENY => "DENY" | REQUIRE_APPROVAL => "REQUIRE_APPROVAL" end.
Definition action_result_dict `{PydanticJson} (r : ActionResult) : pydict := [
  ("action_id", VStr (ar_action_id r)); ("action_type", VStr (ar_action_type r)); ("tenant_id", VStr (ar_tenant_id r));
  ("policy_decision", VStr (decision_str_of (ar_policy_decision r))); ("approval_status", vostr (ar_approval_status r));
  ("executor", VStr (ar_executor r)); ("rollback_available", VBool (ar_rollback_available r)); ("status", VStr (ar_status r));
  ("dry_run", VBool (ar_dry_run r)); ("outputs", VDict (ar_outputs r)); ("evidence_ids", VList (VStr <$> ar_evidence_ids r));
  ("skip_reason", vostr (ar_skip_reason r)); ("error", vostr (ar_error r)); ("completed_at", vostr (json_datetime <$> ar_completed_at r))].

Section broker_route.
Context `{Oracle} `{AuthLib} `{PydanticJson} `{Opa} `{BrokerEnv} (root : string).
(** The broker of the process; beside the database, what it started. *)
Definition the_broker : ExecutionBroker := make_broker root None [].
Definition through_broker {A} (m : M bstate A) : M (process (list effect)) A := λ p,
  let (r, b) := m {| b_draws := d_draws (pr_db p); b_effects := pr_module p |} in
  (r, {| pr_db := set_draws (λ _, b_draws b) (pr_db p); pr_module := b_effects b |}).
Definition request_of (i : string) (body : BrokerSubmit) (actor : TenantActor) : Broker.ActionRequest := {|
  Broker.aq_action_id := i; Broker.aq_action_type := bs_action_type body; aq_tenant_id := ta_tenant_id actor; aq_target := bs_target body;
  Broker.aq_params := bs_params body; aq_reason := bs_reason body; aq_requested_by := actor_user actor;
  Broker.aq_dry_run := bs_dry_run body; aq_actor_roles := ta_role_keys actor;
  aq_permissions := sort_by str_le (remove_dups (ta_permissions actor
    ++ (if ac_is_platform_admin (ta_actor actor) then ["admin:platform"] else []))) |}.
Definition submit_audit (body : BrokerSubmit) (actor : TenantActor) (result : ActionResult) : AuditBody := {|
  b_tenant_id := Some (ta_tenant_id actor); b_actor_type := actor_type_str (ac_actor_type (ta_actor actor));
  b_actor_id := actor_user actor; b_request_id := ac_request_id (ta_actor actor); b_action := "broker.submit"; b_target_type := "action";
  b_target_id := Some (ar_action_id result); b_reason := Some (bs_reason body);
  b_policy_decision := Some (decision_str_of (ar_policy_decision result)); b_approval_status := None; b_before_state := None;
  b_after_state := Some [("action_type", VStr (bs_action_type body)); ("status", VStr (ar_status result)); ("dry_run", VBool (bs_dry_run body))];
  b_result := if mem (ar_status result) ["denied"; "failed"] then "denied" else "success" |}.
Definition submit_action (body : BrokerSubmit) (actor : TenantActor) : M (process (list effect)) pydict :=
  i ← on_db (new_id_db "act");
  result ← through_broker (submit the_broker (request_of i body actor));
  on_db (write_audit (submit_audit body actor result));;
  mret (action_result_dict result).
Definition serve_submit (h : headers) (request_id : string) (body : BrokerSubmit) : M (process (list effect)) pydict :=
  in_session (actor ← on_db (require "broker:execute" h request_id); submit_action body actor).

Lemma through_broker_effects {A} (m : M bstate A) p r p' : through_broker m p = (r, p') →
  ∃ s s', m s = (r, s') ∧ b_effects s = pr_module p ∧ pr_module p' = b_effects s' ∧ pr_db p' = set_draws (λ _, b_draws s') (pr_db p).
Proof. unfold through_broker. destruct (m _) as [x b] eqn:E. intros [= <- <-]. eexists _, b. by rewrite E. Qed.
(** What a submission may have started: a process, of a read-only action that the policy
    allows, outside a dry run. *)
Definition startable (request : Broker.ActionRequest) (e : effect) : Prop :=
  ∃ spec cmd reason, e = ESubprocess cmd ∧ admit_request the_broker request = Ok spec
    ∧ decide_action request spec = Ok (ALLOW, reason) ∧ as_read_only spec = true ∧ Broker.aq_dry_run request = false.
Lemma submit_starts request s : ∃ l, b_effects (snd (submit the_broker request s)) = b_effects s ++ l ∧ Forall (startable request) l.
Proof.
  destruct (submit_effects the_broker request s) as (l & Hl & Hor). exists l. split; [done|].
  destruct Hor as [->|(spec & d & reason & Ha & Hd & Hstep & Hx)]; [constructor|].
  destruct Hstep as [|x Hx'|cmd Hrun]; [constructor | discriminate |]. apply Forall_singleton.
  destruct Hrun as (script & binary & _ & _ & _ & Hdry & _). destruct Hx as [Hx|[-> Hro]]; [congruence|]. by exists spec, cmd, reason.
Qed.
(** What the broker of the process does with the request of an actor. *)
Definition submitted (body : BrokerSubmit) (actor : TenantActor) (p : process (list effect)) (out : result ActionResult * bstate) : Prop :=
  ∃ i s, new_id_db "act" (pr_db p) = (Ok i, s)
    ∧ out = submit the_broker (request_of i body actor) {| b_draws := d_draws s; b_effects := pr_module p |}.
Lemma serve_submit_raises h rid body p e s : require "broker:execute" h rid (pr_db p) = (Raise e, s) →
  ∃ s', serve_submit h rid body p = (Raise e, {| pr_db := s'; pr_module := pr_module p |}).
Proof.
  intros Hr. eexists. unfold serve_submit, in_session. unfold mbind at 1, M_bind at 1, on_db at 1. rewrite Hr. reflexivity.
Qed.
(** Once the actor is known: what is started is what the broker started for it, and an answer
    is the broker's with one more record. *)
Lemma submit_action_steps body actor p r p' : submit_action body actor p = (r, p') →
  ∃ out, submitted body actor p out ∧ pr_module p' = b_effects (snd out)
    ∧ match r with
      | Ok d => ∃ result record, fst out = Ok result ∧ d = action_result_dict result ∧ is_record (submit_audit body actor result) record
          ∧ audited [record] (pr_db p) (pr_db p')
      | Raise _ => True end.
Proof.
  unfold submit_action. unfold mbind at 1, M_bind at 1, on_db at 1.
  destruct (new_id_db "act" (pr_db p)) as [[i|e] s] eqn:Ei; [|discriminate Ei]. set (p1 := {| pr_db := s; pr_module := pr_module p |}).
  destruct (submit the_broker (request_of i body actor) {| b_draws := d_draws s; b_effects := pr_module p |}) as [x b] eqn:Es.
  unfold mbind at 1, M_bind at 1. assert (through_broker (submit the_broker (request_of i body actor)) p1
    = (x, {| pr_db := set_draws (λ _, b_draws b) s; pr_module := b_effects b |})) as ->.
  { unfold through_broker. cbn [pr_db pr_module p1]. by rewrite Es. }
  intros He. exists (x, b). split; [by exists i, s|]. destruct x as [result|e]; [|by injection He as <- <-].
  unfold mbind at 1, M_bind at 1, on_db at 1 in He. cbn [pr_db pr_module] in He.
  destruct (write_audit _ _) as [[record|e] s3] eqn:Ew; injection He as <- <-; (split; [done|]); [|done].
  exists result, record. injection Ei as _ <-. destruct (audited_snoc _ _ _ _ _ _ (audited_draws (pr_db p) (b_draws b)) Ew) as [Haud Hrec].
  done.
Qed.
Lemma submitted_starts body actor p out : submitted body actor p out →
  ∃ i l, b_effects (snd out) = pr_module p ++ l ∧ Forall (startable (request_of i body actor)) l ∧ (l ≠ [] → bs_dry_run body = false).
Proof.
  intros (i & s & _ & ->). destruct (submit_starts (request_of i body actor) {| b_draws := d_draws s; b_effects := pr_module p |}) as (l & Hl & Hf).
  exists i, l. split; [exact Hl|]. split; [done|]. destruct Hf as [|? ? (? & ? & ? & _ & _ & _ & _ & Hdry) _]; [done | by intros _].
Qed.
(** C12. What is submitted through the API is recorded, and little of it is started. A request
    that is not let through with [broker:execute] gets that exception and starts nothing. The
    actor it is let through as is the one the broker acts for: what is started, by the
    broker's run of that actor's request, are processes of a read-only action that the policy
    allows, outside a dry run. A submission that is answered, a denied one too, is answered
    with the broker's result, and leaves exactly one audit record, of the actor's tenant, with
    the decision and the status of that result, denied exactly when the action was denied or
    failed. A submission that raises leaves no record and nothing else in the database, not
    even when it started a process first. *)
Theorem submissions_recorded h rid body p r p' : serve_submit h rid body p = (r, p') →
  match fst (require "broker:execute" h rid (pr_db p)) with
  | Raise e => r = Raise e ∧ pr_module p' = pr_module p
  | Ok actor => authorised h (pr_db p) (ta_tenant_id actor) "broker:execute" (ta_actor actor)
      ∧ ∃ out, submitted body actor p out ∧ pr_module p' = b_effects (snd out)
        ∧ (∃ i l, pr_module p' = pr_module p ++ l ∧ Forall (startable (request_of i body actor)) l
             ∧ (l ≠ [] → bs_dry_run body = false))
        ∧ match r with
          | Ok d => ∃ result record, fst out = Ok result ∧ d = action_result_dict result
              ∧ is_record (submit_audit body actor result) record
              ∧ pr_db p' = set_audit (λ rows, rows ++ [record]) (flush_pending (set_draws (λ _, d_draws (pr_db p')) (pr_db p)))
          | Raise _ => True
          end
  end
  ∧ (is_ok r = false → pr_db p' = set_draws (λ _, d_draws (pr_db p')) (pr_db p)).
Proof.
  intros He. split; [|destruct r as [|e]; [done | intros _; by eapply session_raise]].
  destruct (require "broker:execute" h rid (pr_db p)) as [[actor|e] s1] eqn:Er; cbn [fst].
  2:{ destruct (serve_submit_raises h rid body p e s1 Er) as [s' Hr]. rewrite He in Hr. by injection Hr as -> ->. }
  apply require_ok in Er as Hok. destruct Hok as (-> & Hauth & _). split; [exact Hauth|].
  unfold serve_submit, in_session in He. unfold mbind at 1, M_bind at 1, on_db at 1 in He. rewrite Er in He.
  assert ({| pr_db := pr_db p; pr_module := pr_module p |} = p) as Hp by by destruct p. rewrite Hp in He.
  destruct (submit_action body actor p) as [x p1] eqn:Ea. apply submit_action_steps in Ea as (out & Hout & Hmod & Hx).
  assert (pr_module p' = b_effects (snd out)) as Hmod' by (destruct x; injection He as <- <-; exact Hmod).
  exists out. split; [done|]. split; [done|]. split; [rewrite Hmod'; by apply submitted_starts|].
  destruct x as [d|e]; injection He as <- <-; [|done]. destruct Hx as (result & record & Ho & Hd & Hrec & Haud).
  exists result, record. done.
Qed.
End broker_route.

(** ** The catalogue of languages *)

Definition spec_row (spec : ActionSpec) : pydict := [
  ("action_type", VStr (as_action_type spec)); ("language", VStr (language_str (as_language spec))); ("tier", VInt (as_tier spec));
  ("read_only", VBool (as_read_only spec)); ("description", VStr (as_description spec))].
(** [{"id": item["id"], "name": item["name"], "version": item["version"]}] *)
Definition hunt_row_of (item : pyval) : result pydict :=
  d ← dict_of item;
  let field k := match dget k d with Some v => Ok (k, v) | None => Raise (KeyError k) end in
  mapM field ["id"; "name"; "version"].
Definition language_catalogue `{HuntFiles} `{YaraLib} `{Opa} (root clickhouse_url kafka_bootstrap : string) : result pydict :=
  hunts ← mapM hunt_row_of list_hunts;
  Ok [("python_orchestrates", VBool true); ("ai_executes_os_commands", VBool false); ("generic_shell", VBool false);
      ("actions", VList ((λ kv, VDict (spec_row kv.2)) <$> default_registry root)); ("sql_hunts", VList (VDict <$> hunts));
      ("runtimes", VDict [("yara", VStr Yara.active_engine); ("rego", VStr Policy.active_engine);
                          ("clickhouse_configured", VBool (nonempty clickhouse_url));
                          ("redpanda_configured", VBool (nonempty kafka_bootstrap))]);
      ("optional", VDict [("ebpf", VDict [("mandatory", VBool false); ("enabled_by", VStr "BTOS_EBPF_ENABLED");
                                          ("status", VStr "specification_only")]);
                          ("cpp", VDict [("restricted_to", VStr "specialist low-level components")])])].
Definition serve_languages `{AuthLib} `{HuntFiles} `{YaraLib} `{Opa} (root clickhouse_url kafka_bootstrap : string) (h : headers)
    (request_id : string) : M db pydict :=
  served "languages:read" h request_id (λ _, lift (language_catalogue root clickhouse_url kafka_bootstrap)).

(** ** Blue Range *)

(** What the files of the scenario root give, in the order a walk meets them. *)
Class RangeFiles := { range_files : list (result RangeScenario) }.
Definition role_str (r : EvidenceRole) : string :=
  match r with Trigger => "trigger" | Supporting => "supporting" | ContextRole => "context" end.
Definition evidence_ref (e : FindingEvidence) : pydict :=
  [("evidence_id", VStr (fe_evidence_id e)); ("event_id", vostr (fe_event_id e)); ("role", VStr (role_str (fe_role e)))].
Definition finding_dump `{PydanticJson} (f : Finding) : pydict := [
  ("id", VStr (fi_id f)); ("tenant_id", VStr (fi_tenant_id f)); ("rule_id", VStr (fi_rule_id f)); ("rule_version", VStr (fi_rule_version f));
  ("title", VStr (fi_title f)); ("description", VStr (fi_description f)); ("severity", VStr (severity_str (fi_severity f)));
  ("confidence", VFloat (fi_confidence f)); ("fingerprint", VStr (fi_fingerprint f));
  ("mitre_tactics", VList (VStr <$> fi_mitre_tactics f)); ("mitre_techniques", VList (VStr <$> fi_mitre_techniques f));
  ("event_ids", VList (VStr <$> fi_event_ids f)); ("evidence", VList ((λ e, VDict (evidence_ref e)) <$> fi_evidence f));
  ("explanation", VStr (fi_explanation f)); ("created_at", VStr (json_datetime (fi_created_at f)));
  ("attributes", VDict ((λ kv, (kv.1, VStr kv.2)) <$> fi_attributes f))].
Definition assertion_dict (a : DetectionAssertion) : pydict := [
  ("rule_id", VStr (da_rule_id a)); ("expected_min", VInt (da_expected_min a)); ("observed", VInt (da_observed a));
  ("passed", VBool (da_passed a))].
Definition range_dict `{PydanticJson} (r : RangeResult) : pydict := [
  ("scenario_id", VStr (rr_scenario_id r)); ("passed", VBool (rr_passed r)); ("started_at", VStr (json_datetime (rr_started_at r)));
  ("finished_at", VStr (json_datetime (rr_finished_at r))); ("latency_seconds", VFloat (rr_latency_seconds r));
  ("event_count", VInt (rr_event_count r)); ("findings", VList ((λ f, VDict (finding_dump f)) <$> rr_findings r));
  ("assertions", VList ((λ a, VDict (assertion_dict a)) <$> rr_assertions r));
  ("unexpected_rule_ids", VList (VStr <$> rr_unexpected_rule_ids r)); ("errors", VList (VStr <$> rr_errors r))].
Section blue_range.
Context `{Oracle} `{AuthLib} `{PydanticJson} `{ScenarioFiles} `{RangeFiles} (registry : DetectionRegistry).
Definition execute_all : M db (list RangeResult) :=
  scenarios ← lift (load_scenarios scenario_root);
  drawing_db (mapM' (run_scenario registry) scenarios).
(** The first scenario of that name; a file that cannot be read before it raises. *)
Fixpoint find_scenario (scenario_id : string) (files : list (result RangeScenario)) : result (option RangeScenario) :=
  match files with
  | [] => Ok None
  | file :: rest => scenario ← file; if (Replay.rs_id scenario =? scenario_id)%string then Ok (Some scenario) else find_scenario scenario_id rest
  end.
Definition execute_one (scenario_id : string) : M db RangeResult :=
  found ← lift (find_scenario scenario_id range_files);
  match found with
  | Some scenario => drawing_db (run_scenario registry scenario)
  | None => raise (OtherError ("HTTPException 404: Scenario not found"))
  end.
Definition range_audit (actor : TenantActor) (action : string) (target_id : option string) (after_state : option pydict) (outcome : string)
    : AuditBody := {|
  b_tenant_id := Some (ta_tenant_id actor); b_actor_type := actor_type_str (ac_actor_type (ta_actor actor));
  b_actor_id := actor_user actor; b_request_id := ac_request_id (ta_actor actor); b_action := action; b_target_type := "blue_range";
  b_target_id := target_id; b_reason := None; b_policy_decision := None; b_approval_status := None; b_before_state := None;
  b_after_state := after_state; b_result := outcome |}.
Definition run_all_audit (actor : TenantActor) (results : list RangeResult) : AuditBody :=
  range_audit actor "blue_range.run" None
    (Some [("scenarios", VInt (Z.of_nat (length results))); ("passed", VInt (count_passed results))]) "success".
Definition run_one_audit (actor : TenantActor) (scenario_id : string) (r : RangeResult) : AuditBody :=
  range_audit actor "blue_range.run_one" (Some scenario_id) None (if rr_passed r then "success" else "error").
Definition run_range (scenario_id : option string) (actor : TenantActor) : M db pydict :=
  match scenario_id with
  | None =>
      results ← execute_all;
      write_audit (run_all_audit actor results);;
      mret (items_only (range_dict <$> results))
  | Some i =>
      r ← execute_one i;
      write_audit (run_one_audit actor i r);;
      mret (range_dict r)
  end.
Definition serve_range (h : headers) (request_id : string) (scenario_id : option string) : M db pydict :=
  served "blue_range:execute" h request_id (run_range scenario_id).
End blue_range.

(** ** Playbooks *)

Record RunBody := { rb_playbook_id : string; rb_dry_run : bool; rb_idempotency_key : option string }.
Definition step_row (step : PlaybookStepDef) : pydict := [
  ("id", VStr (ps_id step)); ("action_type", VStr (ps_action_type step)); ("tier", VInt (ps_tier step));
  ("depends_on", VList (VStr <$> ps_depends_on step)); ("retries", VInt (ps_retries step));
  ("rollback_action", vostr (ps_rollback_action step))].
Definition playbook_row (item : PlaybookDef) : pydict := [
  ("playbook_id", VStr (pb_playbook_id item)); ("name", VStr (pb_name item)); ("description", VStr (pb_description item));
  ("steps", VList ((λ st, VDict (step_row st)) <$> pb_steps item))].
Definition list_playbooks : pydict :=
  [("items", VList ((λ kv, VDict (playbook_row kv.2)) <$> CATALOGUE)); ("count", VInt (Z.of_nat (length CATALOGUE)))].
Definition playbook_audit (actor : TenantActor) (request_id action : string) (approval : option string) (r : PlaybookRun) (outcome : string)
    : AuditBody := {|
  b_tenant_id := Some (ta_tenant_id actor); b_actor_type := "user"; b_actor_id := actor_user actor; b_request_id := request_id;
  b_action := action; b_target_type := "playbook"; b_target_id := Some (pr_run_id r); b_reason := None; b_policy_decision := None;
  b_approval_status := approval; b_before_state := None; b_after_state := Some (run_as_dict r); b_result := outcome |}.
Definition run_outcome (r : PlaybookRun) : string :=
  if mem (pr_status r) ["completed"; "awaiting_approval"] then "success" else "denied".
Inductive playbook_request := ListPlaybooks | RunPlaybook (body : RunBody) | GetRun (run_id : string)
| ApproveRun (run_id : string) (step_ids : list string).
Definition playbook_permission (req : playbook_request) : string :=
  match req with ApproveRun _ _ => "response:tier2" | _ => "broker:execute" end.
Definition no_run (run_id : string) : exn := BlueTeamError "NOT_FOUND" ("Playbook run " +:+ run_id +:+ " not found") 404.

Section playbook_routes.
Context `{Oracle} `{AuthLib} (executor : Executor).
Definition playbook_handler (req : playbook_request) (request_id : string) (actor : TenantActor) : M (process PlaybookEngine) pydict :=
  match req with
  | ListPlaybooks => mret list_playbooks
  | RunPlaybook body =>
      playbook ← lift (get_playbook (rb_playbook_id body));
      r ← on_module (Playbook.run executor playbook (ta_tenant_id actor) (rb_dry_run body) (rb_idempotency_key body) []);
      on_db (write_audit (playbook_audit actor request_id "playbook.run" None r (run_outcome r)));;
      mret (run_as_dict r)
  | GetRun run_id =>
      found ← on_module (get_run run_id);
      match found with None => raise (no_run run_id) | Some r => mret (run_as_dict r) end
  | ApproveRun run_id step_ids =>
      found ← on_module (get_run run_id);
      match found with
      | None => raise (no_run run_id)
      | Some prior =>
          playbook ← lift (get_playbook (pr_playbook_id prior));
          r ← on_module (Playbook.approve executor run_id (match step_ids with [] => pr_approval_required prior | l => l end) playbook);
          on_db (write_audit (playbook_audit actor request_id "playbook.approve" (Some "approved") r "success"));;
          mret (run_as_dict r)
      end
  end.
Definition serve_playbook (h : headers) (request_id : string) (req : playbook_request) : M (process PlaybookEngine) pydict :=
  in_session (actor ← on_db (require (playbook_permission req) h request_id); playbook_handler req request_id actor).
End playbook_routes.

(** ** What running leaves behind *)

Section running.
Context `{Oracle} `{AuthLib} `{PydanticJson} `{ScenarioFiles} `{RangeFiles} (registry : DetectionRegistry) (executor : Executor).
(** One record was written, and nothing else of the database changed. *)
Definition recorded (b : AuditBody) (s s' : db) : Prop :=
  ∃ record, is_record b record ∧ s' = set_audit (λ rows, rows ++ [record]) (flush_pending (set_draws (λ _, d_draws s') s)).
Lemma recorded_after b s s1 record s' : audited [] s s1 → write_audit b s1 = (Ok record, s') → recorded b s (flush_pending s').
Proof. intros Hs Hw. destruct (audited_snoc _ _ _ _ _ _ Hs Hw) as [Ha Hr]. by exists record. Qed.
Lemma audited_drawing {A} (m : M draws A) s r s' : drawing_db m s = (r, s') → audited [] s s'.
Proof. unfold drawing_db. destruct (m (d_draws s)) as [x d]. intros [= _ <-]. apply audited_draws. Qed.
(** The results of running some scenarios one after the other. *)
Inductive ran : list RangeScenario → list RangeResult → Prop :=
| ran_nil : ran [] []
| ran_cons sc r scs rs d d' : run_scenario registry sc d = (Ok r, d') → ran scs rs → ran (sc :: scs) (r :: rs).
Lemma mapM_ran scs d rs d' : mapM' (run_scenario registry) scs d = (Ok rs, d') → ran scs rs.
Proof.
  revert d rs d'. induction scs as [|sc scs IH]; intros d rs d' Hm; cbn [mapM'] in Hm; [injection Hm as <- _; constructor|].
  inv_bind Hm. inv_bind Hm. injection Hm as <- _. econstructor; [exact Ha | by eapply IH].
Qed.
(** A run of the Blue Range is of the scenarios that are there, in their order, or of the
    first one with the name that is asked for, by an actor with [blue_range:execute]; it
    leaves one audit record, which counts the scenarios and those that passed, or says
    whether the one passed, and nothing else: what a scenario detects is stored nowhere.
    Without such a scenario the request fails and leaves nothing. *)
Theorem range_runs_recorded h rid which s r s' : serve_range registry h rid which s = (r, s') →
  match r with
  | Ok d => ∃ actor, authorised h s (ta_tenant_id actor) "blue_range:execute" (ta_actor actor)
      ∧ match which with
        | None => ∃ scenarios results, load_scenarios scenario_root = Ok scenarios ∧ ran scenarios results
            ∧ d = items_only (range_dict <$> results) ∧ recorded (run_all_audit actor results) s s'
        | Some i => ∃ scenario result, find_scenario i range_files = Ok (Some scenario) ∧ Replay.rs_id scenario = i
            ∧ ran [scenario] [result] ∧ d = range_dict result ∧ recorded (run_one_audit actor i result) s s'
        end
  | Raise _ => s' = set_draws (λ _, d_draws s') s
  end.
Proof.
  intros He. destruct r as [d|e]; [|by eapply served_raise]. apply served_ok in He as (actor & s1 & Hauth & He & ->).
  exists actor. split; [done|]. destruct which as [i|]; cbn [run_range] in He.
  - apply M_bind_ok in He as (result & s2 & Hx & He). apply M_bind_ok in He as (record & s3 & Hw & [= <- <-]).
    unfold execute_one in Hx. apply M_bind_ok in Hx as (found & s4 & [= Hf <-] & Hx). destruct found as [scenario|]; [|discriminate Hx].
    exists scenario, result. split; [done|]. split.
    + clear -Hf. induction range_files as [|[sc|e] files IH]; cbn in Hf; [discriminate | | discriminate].
      destruct (String.eqb_spec (Replay.rs_id sc) i) as [He|]; [by injection Hf as <- | by apply IH].
    + split; [|split; [done|]; eapply recorded_after; [by eapply audited_drawing | done]].
      unfold drawing_db in Hx. destruct (run_scenario registry scenario (d_draws s)) as [[x|e] d] eqn:Er; [|discriminate Hx].
      injection Hx as <- _. econstructor; [exact Er | constructor].
  - apply M_bind_ok in He as (results & s2 & Hx & He). apply M_bind_ok in He as (record & s3 & Hw & [= <- <-]).
    unfold execute_all in Hx. apply M_bind_ok in Hx as (scenarios & s4 & [= Hl <-] & Hx). exists scenarios, results. split; [done|]. split.
    + unfold drawing_db in Hx. destruct (mapM' (run_scenario registry) scenarios (d_draws s)) as [[x|e] d] eqn:Er; [|discriminate Hx].
      injection Hx as <- _. by eapply mapM_ran.
    + split; [done|]. eapply recorded_after; [by eapply audited_drawing | done].
Qed.
(** A playbook that is run or approved through the API leaves one audit record, of the
    actor's tenant and with the whole run; approving needs [response:tier2], everything else
    [broker:execute]. The catalogue and a run that is looked up change nothing. A request
    that fails leaves nothing in the database; the engine keeps what it did. *)
Theorem playbook_runs_recorded h rid req p r p' : serve_playbook executor h rid req p = (r, p') →
  match r with
  | Ok d => ∃ actor, authorised h (pr_db p) (ta_tenant_id actor) (playbook_permission req) (ta_actor actor)
      ∧ match req with
        | ListPlaybooks => d = list_playbooks ∧ p' = {| pr_db := flush_pending (pr_db p); pr_module := pr_module p |}
        | GetRun i => ∃ run, dget i (en_runs (pr_module p)) = Some run ∧ d = run_as_dict run
            ∧ p' = {| pr_db := flush_pending (pr_db p); pr_module := pr_module p |}
        | RunPlaybook body => ∃ playbook run, get_playbook (rb_playbook_id body) = Ok playbook ∧ d = run_as_dict run
            ∧ Playbook.run executor playbook (ta_tenant_id actor) (rb_dry_run body) (rb_idempotency_key body) [] (pr_module p)
              = (Ok run, pr_module p')
            ∧ recorded (playbook_audit actor rid "playbook.run" None run (run_outcome run)) (pr_db p) (pr_db p')
        | ApproveRun i steps => ∃ prior run, dget i (en_runs (pr_module p)) = Some prior ∧ d = run_as_dict run
            ∧ recorded (playbook_audit actor rid "playbook.approve" (Some "approved") run "success") (pr_db p) (pr_db p')
        end
  | Raise _ => pr_db p' = set_draws (λ _, d_draws (pr_db p')) (pr_db p)
  end.
Proof.
  intros He. destruct r as [d|e]; [|by eapply session_raise]. apply session_ok in He as (p1 & He & Hdb & Hmod).
  apply M_bind_ok in He as (actor & p2 & Hr & He). apply on_db_ok in Hr as [Hr Hm2]. apply require_ok in Hr as (Hs & Hauth & _).
  exists actor. split; [done|]. destruct req as [|body|i|i steps]; cbn [playbook_handler] in He.
  - injection He as <- <-. split; [done|]. destruct p'. cbn in *. by rewrite Hdb, Hmod, Hs, Hm2.
  - apply M_bind_ok in He as (playbook & p3 & [= Hpb <-] & He). apply M_bind_ok in He as (run & p4 & Hrun & He).
    apply on_module_ok in Hrun as [Hrun Hdb4]. apply M_bind_ok in He as (record & p5 & Hw & [= <- <-]). apply on_db_ok in Hw as [Hw Hm5].
    exists playbook, run. split; [done|]. split; [done|]. rewrite Hmod, Hm5, <-Hm2. split; [done|].
    rewrite Hdb. eapply recorded_after; [|exact Hw]. rewrite Hdb4, Hs. apply audited_same.
  - apply M_bind_ok in He as (found & p3 & Hf & He). apply on_module_ok in Hf as [Hf Hdb3]. injection Hf as Hf Hm3.
    destruct found as [run|]; [|discriminate He]. injection He as <- <-. exists run. rewrite Hm2 in Hf. split; [done|]. split; [done|].
    destruct p'. cbn in *. rewrite Hdb, Hmod, Hdb3, <-Hm3, Hm2. by rewrite Hs.
  - apply M_bind_ok in He as (found & p3 & Hf & He). apply on_module_ok in Hf as [Hf Hdb3]. injection Hf as Hf Hm3.
    destruct found as [prior|]; [|discriminate He]. apply M_bind_ok in He as (playbook & p4 & [= _ <-] & He).
    apply M_bind_ok in He as (run & p5 & Hrun & He). apply on_module_ok in Hrun as [_ Hdb5].
    apply M_bind_ok in He as (record & p6 & Hw & [= <- <-]). apply on_db_ok in Hw as [Hw _]. exists prior, run.
    rewrite Hm2 in Hf. split; [done|]. split; [done|]. rewrite Hdb. eapply recorded_after; [|exact Hw].
    rewrite Hdb5, Hdb3, Hs. apply audited_same.
Qed.
End running.

(** ** A collector that is run *)

#[local] Instance demo_oracle : Oracle :=
  {| uuid_hex := λ n, str_of_nat n; clock := λ n, utc 20000 (60 * Z.of_nat n) |}.
#[local] Instance demo_auth : AuthLib := {|
  jwt_encode := λ _, "t"; bcrypt_check := λ _ _, true;
  jwt_decode := λ t, if (t =? "t")%string then Some [("sub", VStr "usr_1")] else None |}.
#[local] Instance demo_json : PydanticJson := {| json_datetime := isoformat |}.
#[local] Instance demo_opa : Opa :=
  {| opa_binary := None; opa_policy_files := []; opa_run := λ _ _ _, Raise (OtherError "not installed") |}.
(** A host with a shell, where the script ends well. *)
#[local] Instance demo_env : BrokerEnv := {|
  script_exists := λ _, true; script_bytes := λ _, "ps"; which := λ b, Some ("/usr/bin/" +:+ b);
  run_process := λ _, Ok {| ps_returncode := 0; ps_stdout := "1 init"; ps_stderr := "" |};
  Broker.scan_b64 := λ _, Ok []; blueql_explain := λ _, Ok (VNone, VNone); sql_describe := λ _, Ok [] |}.
(** The same where a script runs out of time. *)
Definition slow_env : BrokerEnv := {|
  script_exists := λ _, true; script_bytes := λ _, "ps"; which := λ b, Some ("/usr/bin/" +:+ b);
  run_process := λ _, Raise (OtherError "TimeoutExpired");
  Broker.scan_b64 := λ _, Ok []; blueql_explain := λ _, Ok (VNone, VNone); sql_describe := λ _, Ok [] |}.
Definition operator : process (list effect) := {|
  pr_db := set_memberships (λ _, [{|
    me_id := "mem_1"; me_tenant_id := "ten_a"; me_user_id := "usr_1"; me_role_key := "tenant_owner" |}]) Access.demo_db;
  pr_module := [] |}.
Definition collecting (dry_run : bool) : BrokerSubmit := {|
  bs_action_type := "collect.linux.processes"; bs_reason := "triage"; bs_dry_run := dry_run; bs_params := []; bs_target := [] |}.
Local Abbreviation collect dry_run := (serve_submit "/r" (demo_headers None) "req_1" (collecting dry_run) operator).
Definition started_and_recorded (p : process (list effect)) : nat * list string :=
  (length (pr_module p), au_result <$> d_audit (pr_db p)).
(** A dry run starts nothing. A script that runs out of time was started and is recorded nowhere. *)
Example collected : started_and_recorded (snd (collect true)) = (0%nat, ["success"])
  ∧ started_and_recorded (snd (collect false)) = (1%nat, ["success"])
  ∧ started_and_recorded (snd (serve_submit (H3 := slow_env) "/r" (demo_headers None) "req_1" (collecting false) operator)) = (1%nat, []).
Proof. vm_compute. auto. Qed.
Lemma submissions_recorded_witness : ∃ actor result record cmd i, fst (require "broker:execute" (demo_headers None) "req_1" (pr_db operator)) = Ok actor
  ∧ fst (collect false) = Ok (action_result_dict result)
  ∧ is_record (submit_audit (collecting false) actor result) record ∧ pr_module (snd (collect false)) = [ESubprocess cmd]
  ∧ startable "/r" (request_of i (collecting false) actor) (ESubprocess cmd).
Proof.
  assert (is_ok (fst (collect false)) = true) as Hok by (vm_compute; reflexivity).
  assert (match pr_module (snd (collect false)) with [ESubprocess _] => true | _ => false end = true) as Hone by (vm_compute; reflexivity).
  destruct (collect false) as [r p'] eqn:E. destruct r as [d|e]; [|discriminate Hok].
  destruct (submissions_recorded "/r" _ _ _ _ _ _ E) as [Hall _].
  destruct (fst (require "broker:execute" _ _ _)) as [actor|e] eqn:Er; [|by destruct Hall].
  destruct Hall as (_ & out & _ & _ & (i & l & Hl & Hf & _) & result & record & _ & Hd & Hr & _).
  change (pr_module operator ++ l) with l in Hl. cbn [snd] in Hone |- *. rewrite Hl in Hone |- *.
  destruct l as [|[|cmd] [|]]; try discriminate Hone. exists actor, result, record, cmd, i. split; [reflexivity|].
  split; [exact (f_equal Ok Hd)|]. split; [exact Hr|]. split; [reflexivity|]. exact (Forall_inv Hf).
Defined.
