(* ===== verification/Command.v ===== *)
(** * The state of the platform

    Models [packages/dataplane-clients/blueteam_dataplane/probes.py], which asks each
    service the platform may use whether it answers, [api/health.py], which reports that to
    anyone, and [api/command.py], the overview of a tenant. *)
From S2P Require Export QualityChecks DualWrite Coverage Console.
Local Open Scope Z_scope.

(** ** Probes *)

Record ProbeSettings := {
  pv_store : DualWrite.Settings; pv_database_url : string; pv_redis_url : string; pv_supabase_url : string;
  pv_ai_enabled : bool; pv_retention : RetentionPolicy }.
Record Probe := { po_configured : bool; po_connected : bool; po_backend : string; po_detail : string }.
Definition probe_dict (name : string) (p : Probe) : pydict := [
  ("name", VStr name); ("configured", VBool (po_configured p)); ("connected", VBool (po_connected p));
  ("backend", VStr (po_backend p)); ("detail", VStr (po_detail p))].
(** What answers outside, or the class of the exception instead: [SELECT 1] on a database, a
    connection to a port, what comes back on it for a [PING], the status of a [GET]. The host
    and the port of an address raise when it has no such form. *)
Class Probing := {
  answers_sql : string → option string;
  host_port : string → result (option string * option Z);
  tcp_connect : string → Z → option string;
  tcp_ping : string → Z → string + string;
  http_status : string → string + Z }.

Definition unconfigured (detail : string) : Probe :=
  {| po_configured := false; po_connected := false; po_backend := ""; po_detail := detail |}.
Definition probed (backend : string) (connected : bool) (detail : string) : Probe :=
  {| po_configured := true; po_connected := connected; po_backend := backend; po_detail := detail |}.
Definition failed_probe (backend : string) (failure : option string) : Probe :=
  match failure with None => probed backend true "" | Some e => probed backend false e end.
Section probes.
Context `{Probing} `{PythonNames} `{Oracle} `{Outside} (cwd : list string).
Definition probe_postgres (url : string) : Probe :=
  if negb (nonempty url) then unconfigured "database url empty"
  else failed_probe (if startswith url "sqlite" then "sqlite" else "postgresql") (answers_sql url).
Definition probe_redis (url : string) : result Probe :=
  if negb (nonempty url) then Ok (unconfigured "")
  else
    '(hostname, port) ← host_port url;
    let host := ostr (oor hostname (Some "127.0.0.1")) in
    let port := match port with None | Some 0 => 6379 | Some n => n end in
    Ok match tcp_ping host port with
       | inl e => probed "redis" false e
       | inr reply => let ok := contains reply "PONG" in probed "redis" ok (if ok then "" else "no pong")
       end.
Definition http_probe (backend url : string) (up : Z → bool) : Probe :=
  match http_status url with inl e => probed backend false e | inr status => probed backend (up status) "" end.
Definition probe_clickhouse (url : string) : Probe :=
  if negb (nonempty url) then unconfigured ""
  else http_probe "clickhouse" (rstrip_char slash url +:+ "/ping") (λ status, status =? 200).
Definition probe_opensearch (url : string) : Probe :=
  if negb (nonempty url) then unconfigured "" else http_probe "opensearch" (rstrip_char slash url) (λ status, status <? 500).
(** [s.partition(":")], without the separator. *)
Fixpoint partition_colon (s : string) : string * string :=
  match s with
  | EmptyString => ("", "")
  | String c rest => if Ascii.eqb c ":" then ("", rest) else let (a, b) := partition_colon rest in (String c a, b)
  end.
Definition probe_kafka (bootstrap : string) : result Probe :=
  if negb (nonempty bootstrap) then Ok (unconfigured "")
  else
    let (host, port_text) := partition_colon bootstrap in
    port ← py_int (VStr (if nonempty port_text then port_text else "9092"));
    Ok (failed_probe "redpanda" (tcp_connect host port)).
Definition store_backend (store : ObjectStore) : string := match store with Local _ => "local" | S3 _ => "s3" end.
Definition ping_store (store : ObjectStore) : M machine bool :=
  match store with Local st => on_files (local_ping cwd st) | S3 st => on_world (s3_ping st) end.
(** The store of an endpoint, without its bucket and its credentials. *)
Definition probe_object_store (endpoint local_root : string) : M machine Probe :=
  try_except
    (store ← open_store cwd url_path local_root endpoint "" "" "";
     ok ← ping_store store;
     mret (probed (store_backend store) ok ""))
    (λ e, mret {| po_configured := nonempty endpoint || nonempty local_root; po_connected := false; po_backend := "";
                  po_detail := exn_class e |}).

Definition plane : Type := list (string * Probe).
Definition probe_all (settings : ProbeSettings) : M machine plane :=
  let st := pv_store settings in
  redis ← lift (probe_redis (pv_redis_url settings));
  kafka ← lift (probe_kafka (st_kafka_bootstrap st));
  object_storage ← probe_object_store (st_s3_endpoint st) (st_object_store_root st);
  mret [("postgres", probe_postgres (pv_database_url settings)); ("redis", redis);
        ("clickhouse", probe_clickhouse (st_clickhouse_url st)); ("opensearch", probe_opensearch (st_opensearch_url st));
        ("kafka", kafka); ("object_storage", object_storage)].
Definition connected_of (p : plane) : list string := fst <$> select (λ i, po_connected i.2) p.
Definition all_configured_connected (p : plane) : bool := forallb (λ i, po_connected i.2) (select (λ i, po_configured i.2) p).
Definition probes_dict (p : plane) : pydict := (λ i, (i.1, VDict (probe_dict i.1 i.2))) <$> p.
(** ** Health *)

Definition health (settings : ProbeSettings) : M machine pydict :=
  p ← probe_all settings;
  let postgres := probe_postgres (pv_database_url settings) in
  mret [("status", VStr (if po_connected postgres then "ok" else "degraded")); ("service", VStr "blueteam-api");
        ("ai_enabled", VBool (pv_ai_enabled settings)); ("ai_required", VBool false);
        ("database_backend", VStr (po_backend postgres)); ("supabase_configured", VBool (nonempty (pv_supabase_url settings)));
        ("data_plane", VDict (probes_dict p)); ("data_plane_connected", VList (VStr <$> connected_of p));
        ("all_configured_connected", VBool (all_configured_connected p)); ("retention", VDict (policy_dict (pv_retention settings)))].
End probes.

(** ** The overview *)

Definition zero_counts : list (string * Z) :=
  [("critical", 0); ("high", 0); ("medium", 0); ("low", 0); ("informational", 0)].
Definition severity_counts (alerts : list Alert) : list (string * Z) := foldl count_key zero_counts (al_severity <$> alerts).
Definition finding_techniques (finding : FindingRecord) : list string :=
  fr_mitre_techniques finding ++ fi_mitre_techniques (fr_payload finding).
Definition technique_counts (findings : list FindingRecord) (incidents : list IncidentRecord) : list (string * Z) :=
  foldl count_key [] ((finding ← findings; finding_techniques finding) ++ (incident ← incidents; in_mitre_techniques incident)).
(** [counter.most_common(n)]: equal counts stay in the order in which they were first met. *)
Definition most_common (n : nat) (counts : list (string * Z)) : list (string * Z) :=
  take n (sort_by (λ a b, b.2 <=? a.2) counts).
Definition technique_row (t : string * Z) : pydict := [("technique", VStr t.1); ("count", VInt t.2)].
Definition is_open (item : IncidentRecord) : bool := negb (mem (in_status item) ["closed"; "recovered"]).
Definition queue_row (item : IncidentRecord) : pydict := [
  ("id", VStr (in_id item)); ("title", VStr (in_title item)); ("status", VStr (in_status item)); ("queue", VStr "incident_response");
  ("updated_at", VStr (isoformat (in_updated_at item)))].
Definition automation_queue (incidents : list IncidentRecord) : list IncidentRecord :=
  take 12 (select (λ i, mem (in_status i) ["new"; "triaging"; "investigating"; "contained"]) (select is_open incidents)).
Definition alert_row (item : Alert) : pydict := [
  ("id", VStr (al_id item)); ("title", VStr (al_title item)); ("severity", VStr (al_severity item));
  ("created_at", VStr (isoformat (al_created_at item)))].
Definition int_dict (counts : list (string * Z)) : pydict := (λ c, (c.1, VInt c.2)) <$> counts.
Definition len {A} (l : list A) : Z := Z.of_nat (length l).
Definition open_alerts (alerts : list Alert) : Z := len (select (λ a, al_status a =? "open")%string alerts).
(** What is read before the quality index is computed, and what is read after it. *)
Definition overview_dict (t : string) (before after : db) (quality : QualitySnapshot) (p : plane) (catalog : list pydict) : pydict :=
  let alerts := list_alerts t before in
  let findings := list_findings t before in
  let events := len (list_events t before) in
  let dlq := len (list_dead_letters t before) in
  let incidents := list_incidents t before in
  let revisions := d_revisions after in
  [("tenant_id", VStr t); ("open_alerts", VInt (open_alerts alerts)); ("findings", VInt (len findings)); ("events", VInt events);
   ("dead_letter", VInt dlq); ("incidents", VInt (len incidents)); ("detections", VInt (len catalog));
   ("severity", VDict (int_dict (severity_counts alerts)));
   ("quality", VDict [("total", VInt (qs_total quality)); ("band", VStr (qs_band quality));
                      ("model_version", VStr (qs_model_version quality))]);
   ("ai_required", VBool false);
   ("telemetry_health", VDict [("events", VInt events); ("dead_letter", VInt dlq);
      ("dead_letter_ratio", VFloat (fl_div (fl_of_Z dlq) (fl_of_Z (Z.max (events + dlq) 1))));
      ("data_plane", VDict (probes_dict p)); ("all_configured_connected", VBool (all_configured_connected p))]);
   ("detection_health", VDict [("catalogue_rules", VInt (len catalog)); ("revisions", VInt (len revisions));
      ("by_status", VDict (int_dict (foldl count_key [] (rr_status <$> revisions)))); ("findings", VInt (len findings));
      ("open_alerts", VInt (open_alerts alerts))]);
   ("attack_overview", VDict [("techniques_observed", VInt (len (technique_counts findings incidents)));
      ("top_techniques", VList ((λ c, VDict (technique_row c)) <$> most_common 8 (technique_counts findings incidents)))]);
   ("automation_queue", VList ((λ i, VDict (queue_row i)) <$> automation_queue incidents));
   ("top_risk_entities", VList ((λ e, VDict (serialize_entity e)) <$>
      take 8 (select (λ e, fl_lt (fl_of_Z 0) (er_risk_score e)) (list_entities t after))));
   ("top_incidents", VList ((λ i, VDict (serialize_incident i)) <$> take 8 (select is_open incidents)));
   ("top_alerts", VList ((λ a, VDict (alert_row a)) <$> take 8 alerts))].

Section overview.
Context `{Oracle} `{ScenarioFiles} `{QualityFiles} `{YaraLib} `{Opa} `{BrokerEnv} `{HuntFiles} `{IsoLib} `{Pydantic} `{IpLib} `{AuthLib}.
Context `{Probing} `{PythonNames} `{Outside}.
Context (broker_root : string) (cwd : list string) (registry current : DetectionRegistry) (quality_model_version : string).
Context (settings : ProbeSettings).
Definition overview (actor : TenantActor) : M (process modules) pydict :=
  let t := ta_tenant_id actor in
  before ← on_db get;
  quality ← compute_and_store broker_root cwd registry current quality_model_version (Some t);
  p ← on_disk (probe_all cwd settings);
  after ← on_db get;
  mret (overview_dict t before after quality p (catalogue current)).
Definition serve_overview (h : headers) (request_id : string) : M (process modules) pydict :=
  in_session (actor ← on_db (require "alerts:read" h request_id); overview actor).
End overview.

(** ** What the health report says *)

Definition PLANE : list string := ["postgres"; "redis"; "clickhouse"; "opensearch"; "kafka"; "object_storage"].
(** The port in a Kafka address: one host and one port, and not a list of brokers. *)
Definition kafka_port (bootstrap : string) : result Z :=
  let port_text := snd (partition_colon bootstrap) in py_int (VStr (if nonempty port_text then port_text else "9092")).
(** What a probe may say: who answers is configured. *)
Definition sound_probe (x : Probe) : Prop := po_connected x = true → po_configured x = true.
Lemma sound_failed backend failure : sound_probe (failed_probe backend failure).
Proof. by destruct failure. Qed.

Lemma select_cons {A} (f : A → bool) x l : select f (x :: l) = if f x then x :: select f l else select f l.
Proof. unfold select. rewrite filter_cons. by destruct (f x). Qed.

Section health_facts.
Context `{Probing} `{PythonNames} `{Oracle} `{Outside} (cwd : list string).
Lemma sound_postgres url : sound_probe (probe_postgres url).
Proof. unfold probe_postgres. destruct (negb _); [done | apply sound_failed]. Qed.
Lemma sound_http backend url up : sound_probe (http_probe backend url up).
Proof. unfold http_probe. by destruct (http_status url). Qed.
Lemma redis_spec url : match probe_redis url with
  | Ok x => sound_probe x
  | Raise e => nonempty url = true ∧ host_port url = Raise e
  end.
Proof.
  unfold probe_redis. destruct (nonempty url); [|done]. cbn. unfold mbind, result_bind. destruct (host_port url) as [[host port]|e]; [|done].
  by destruct (tcp_ping _ _).
Qed.
Lemma kafka_spec url : match probe_kafka url with
  | Ok x => sound_probe x
  | Raise e => nonempty url = true ∧ kafka_port url = Raise e
  end.
Proof.
  unfold probe_kafka, kafka_port. destruct (nonempty url); [|done]. cbn [negb]. destruct (partition_colon url) as [host text]. cbn [snd].
  unfold mbind, result_bind. destruct (py_int _); [apply sound_failed | done].
Qed.
(** The store is the one on disk, whatever the endpoint is: no credentials are passed. *)
Lemma object_probe_spec endpoint root m :
  ∃ x fs, probe_object_store cwd endpoint root m = (Ok x, {| mc_draws := mc_draws m; mc_files := fs; mc_world := mc_world m |})
    ∧ po_backend x ∈ ["local"; ""] ∧ sound_probe x.
Proof.
  unfold probe_object_store, try_except, open_store. rewrite andb_false_r.
  destruct m as [d fs w]. unfold mbind, M_bind, lift, on_files.
  destruct (url_path _) as [text|e]; [|eexists _, fs; split; [reflexivity | split; [right; left | done]]].
  cbn [mc_files mc_draws mc_world]. destruct (local_store cwd _ fs) as [[st|e] fs1]; cbn;
    [|eexists _, fs1; split; [reflexivity | split; [right; left | done]]].
  unfold on_files. cbn [mc_files]. destruct (local_ping cwd st fs1) as [[ok|e] fs2]; eexists _, fs2; (split; [reflexivity|]).
  - split; [left | done].
  - split; [right; left | done].
Qed.
Lemma connected_fewer (p : plane) : Forall (λ i : string * Probe, sound_probe i.2) p →
  (length (select (λ i, po_connected i.2) p) ≤ length (select (λ i, po_configured i.2) p))%nat.
Proof.
  induction 1 as [|i p Hi _ IH]; [done|]. rewrite !select_cons. unfold sound_probe in Hi.
  destruct (po_connected i.2), (po_configured i.2); cbn; lia || by specialize (Hi eq_refl).
Qed.
Lemma connected_sound p : Forall (λ i : string * Probe, sound_probe i.2) p →
  all_configured_connected p = true ↔ connected_of p = fst <$> select (λ i, po_configured i.2) p.
Proof.
  unfold all_configured_connected, connected_of. induction 1 as [|i p Hi Hp IH]; [done|].
  rewrite !select_cons. unfold sound_probe in Hi. destruct (po_configured i.2) eqn:Ec.
  - cbn [forallb]. destruct (po_connected i.2); cbn [andb].
    + rewrite !fmap_cons, IH. split; [by intros -> | by intros [= ->]].
    + split; [done|]. intros Hl%(f_equal length). rewrite fmap_cons in Hl. cbn in Hl. rewrite !length_fmap in Hl.
      pose proof (connected_fewer p Hp). lia.
  - destruct (po_connected i.2); [by specialize (Hi eq_refl) | exact IH].
Qed.

(** The health report is honest, within limits. It changes nothing of the database and
    asks nothing of the object store of the configured endpoint: that probe always writes to
    the local disk. Of the six services nothing unconfigured is shown as connected; the
    platform is [ok] exactly when its database is configured and answers; and all configured
    services are said to be connected exactly when the two lists of names are the same. The
    report fails, though, when the address of Redis has no port that can be read, or the
    Kafka address is not one host with one port, a list of brokers for instance. *)
Theorem health_honest settings m r m' : health cwd settings m = (r, m') →
  mc_draws m' = mc_draws m ∧ mc_world m' = mc_world m ∧
  match r with
  | Ok d => ∃ p, probe_all cwd settings m = (Ok p, m') ∧ p.*1 = PLANE ∧ dget "data_plane" d = Some (VDict (probes_dict p))
      ∧ Forall (λ i : string * Probe, sound_probe i.2) p
      ∧ (dget "status" d = Some (VStr "ok") ↔ nonempty (pv_database_url settings) = true ∧ answers_sql (pv_database_url settings) = None)
      ∧ (dget "all_configured_connected" d = Some (VBool true) ↔ connected_of p = fst <$> select (λ i, po_configured i.2) p)
      ∧ (∀ x, ("object_storage", x) ∈ p → po_backend x ∈ ["local"; ""])
  | Raise e => nonempty (pv_redis_url settings) = true ∧ host_port (pv_redis_url settings) = Raise e
      ∨ nonempty (st_kafka_bootstrap (pv_store settings)) = true ∧ kafka_port (st_kafka_bootstrap (pv_store settings)) = Raise e
  end.
Proof.
  unfold health, probe_all. pose proof (redis_spec (pv_redis_url settings)) as Hredis.
  pose proof (kafka_spec (st_kafka_bootstrap (pv_store settings))) as Hkafka. unfold mbind, M_bind, lift.
  destruct (probe_redis _) as [redis|e]; [|intros [= <- <-]; auto].
  destruct (object_probe_spec (st_s3_endpoint (pv_store settings)) (st_object_store_root (pv_store settings)) m) as (x & fs & Eo & Hb & Hx).
  destruct (probe_kafka _) as [kafka|e]; [|intros [= <- <-]; auto]. rewrite Eo. intros [= <- <-]. split; [done|]. split; [done|].
  eexists. split; [reflexivity|]. split; [done|]. split; [done|].
  assert (Forall (λ i : string * Probe, sound_probe i.2) [("postgres", probe_postgres (pv_database_url settings)); ("redis", redis);
    ("clickhouse", probe_clickhouse (st_clickhouse_url (pv_store settings)));
    ("opensearch", probe_opensearch (st_opensearch_url (pv_store settings))); ("kafka", kafka); ("object_storage", x)]) as Hall.
  { repeat (apply List.Forall_cons; [|]); [..|apply List.Forall_nil]; cbn [snd]; [apply sound_postgres | done | | | done | done].
    - unfold probe_clickhouse. destruct (negb _); [done | apply sound_http].
    - unfold probe_opensearch. destruct (negb _); [done | apply sound_http]. }
  split; [exact Hall|]. split.
  - change (dget "status" _) with (Some (VStr (if po_connected (probe_postgres (pv_database_url settings)) then "ok" else "degraded"))).
    unfold probe_postgres. destruct (nonempty _); cbn; [|by split; [intros [=] | intros [? _]]].
    destruct (answers_sql _); cbn; split; naive_solver.
  - split.
    + rewrite <-(connected_sound _ Hall). match type of Hall with Forall _ ?q => set (p := q) end.
      change (dget "all_configured_connected" _) with (Some (VBool (all_configured_connected p))). split; congruence.
    + intros y Hy. repeat (apply elem_of_cons in Hy as [Hy|Hy]; [try done|]); [by injection Hy as -> | by apply not_elem_of_nil in Hy].
Qed.
End health_facts.

(** ** Counting *)

(** How often a text occurs in a list. *)
Definition occurrences (k : string) (l : list string) : Z := len (select (String.eqb k) l).
Lemma counted k l init : default 0 (dget k (foldl count_key init l)) = default 0 (dget k init) + occurrences k l.
Proof.
  unfold occurrences, len. revert init. induction l as [|x l IH]; intros init; [cbn; lia|]. cbn [foldl]. rewrite IH, select_cons.
  unfold count_key. rewrite dget_dset. destruct (String.eqb_spec k x) as [->|Hk].
  - rewrite decide_True by done. cbn [from_option length]. unfold id. lia.
  - by rewrite decide_False.
Qed.
Lemma severity_counted sev alerts : default 0 (dget sev (severity_counts alerts)) = occurrences sev (al_severity <$> alerts).
Proof.
  unfold severity_counts. rewrite counted. unfold zero_counts. cbn [dget].
  repeat (destruct (String.eqb _ sev); [done|]). done.
Qed.
(** What is shown as most common, compared with what is not. *)
Lemma most_common_le n counts : Forall (λ a, Forall (λ b, b.2 <= a.2) (drop n (sort_by (λ a b, b.2 <=? a.2) counts))) (most_common n counts).
Proof.
  unfold most_common. assert (sorted_by (λ a b : string * Z, b.2 <=? a.2) (sort_by (λ a b, b.2 <=? a.2) counts)) as Hs.
  { apply sort_by_sorted; intros; lia. }
  revert n. induction Hs as [|a l Hl IH Ha]; intros [|n]; [done..|]. cbn. constructor; [|apply IH].
  apply Forall_drop. eapply Forall_impl; [exact Ha|]. cbn. intros b Hb. lia.
Qed.
(** A technique of a finding is counted once for its row and once for its payload. *)
Lemma technique_counted tech findings incidents :
  default 0 (dget tech (technique_counts findings incidents)) =
    occurrences tech (f ← findings; fr_mitre_techniques f) + occurrences tech (f ← findings; fi_mitre_techniques (fr_payload f))
    + occurrences tech (i ← incidents; in_mitre_techniques i).
Proof.
  unfold technique_counts. rewrite counted. cbn [dget from_option]. unfold occurrences, len, finding_techniques.
  rewrite select_app, length_app. assert (∀ l : list FindingRecord,
    length (select (String.eqb tech) (f ← l; fr_mitre_techniques f ++ fi_mitre_techniques (fr_payload f)))
    = (length (select (String.eqb tech) (f ← l; fr_mitre_techniques f))
       + length (select (String.eqb tech) (f ← l; fi_mitre_techniques (fr_payload f))))%nat) as ->; [|lia].
  induction l as [|f l IH]; [done|]. rewrite !bind_cons, !select_app, !length_app, IH. lia.
Qed.

(** ** The overview of a tenant *)

Section overview_facts.
Context `{Oracle} `{ScenarioFiles} `{QualityFiles} `{YaraLib} `{Opa} `{BrokerEnv} `{HuntFiles} `{IsoLib} `{Pydantic} `{IpLib} `{AuthLib}.
Context `{Probing} `{PythonNames} `{Outside}.
Context (broker_root : string) (cwd : list string) (registry current : DetectionRegistry) (quality_model_version : string).
Context (settings : ProbeSettings).
Lemma probing_db p r p' : on_disk (probe_all cwd settings) p = (r, p') → pr_db p' = pr_db p.
Proof.
  unfold on_disk. set (m := {| mc_draws := _; mc_files := _; mc_world := _ |}).
  assert (mc_draws (snd (probe_all cwd settings m)) = mc_draws m) as Hd.
  { unfold probe_all, mbind, M_bind, lift. destruct (probe_redis _); [|done]. destruct (probe_kafka _); [|done].
    by destruct (object_probe_spec cwd (st_s3_endpoint (pv_store settings)) (st_object_store_root (pv_store settings)) m) as (x & fs & -> & _). }
  destruct (probe_all cwd settings m) as [x k]. cbn [snd] in Hd. intros [= _ <-]. cbn. rewrite Hd. by destruct (pr_db p).
Qed.
(** The overview shows an actor with [alerts:read] its own tenant: what is shown is
    computed from the tenant's rows as they were, with the quality index of honest checks. It
    is not only a view: each look at it stores one snapshot of the index, and nothing
    else. The alerts are counted by severity and the techniques by their occurrences in
    findings, twice where row and payload agree, and incidents; an overview that fails
    leaves the database alone. *)
Theorem overview_exact h rid p r p' :
  serve_overview broker_root cwd registry current quality_model_version settings h rid p = (r, p') →
  match r with
  | Ok d => ∃ actor checks row pl dr, authorised h (pr_db p) (ta_tenant_id actor) "alerts:read" (ta_actor actor)
      ∧ Forall2 honest CHECKS checks ∧ snapshot_says (ta_tenant_id actor) checks row
      ∧ d = overview_dict (ta_tenant_id actor) (pr_db p) (pr_db p') row pl (catalogue current)
      ∧ pr_db p' = set_quality (λ l, l ++ [row]) (flush_pending (set_draws (λ _, dr) (pr_db p)))
  | Raise _ => pr_db p' = set_draws (λ _, d_draws (pr_db p')) (pr_db p)
  end.
Proof.
  intros He. destruct r as [d|e]; [|by eapply session_raise].
  apply session_ok in He as (p1 & He & Hdb & _). apply M_bind_ok in He as (actor & p2 & Hr & He). apply on_db_ok in Hr as [Hr _].
  apply require_ok in Hr as (Hs & Hauth & _). unfold overview in He. apply M_bind_ok in He as (before & p3 & Hb & He).
  apply on_db_ok in Hb as [[= <- Hb] _]. apply M_bind_ok in He as (row & p4 & Hq & He).
  apply stored_snapshot in Hq as (checks & dr & Hc & Hsays & Hq). apply M_bind_ok in He as (pl & p5 & Hp & He).
  apply probing_db in Hp. apply M_bind_ok in He as (after & p6 & Ha & [= <- <-]). apply on_db_ok in Ha as [[= <- Ha] _].
  assert (pr_db p' = pr_db p5) as Hafter by (rewrite Hdb, <-Ha, Hp, Hq; apply flush_quality).
  exists actor, checks, row, pl, dr. split; [done|]. split; [done|]. split; [done|]. split.
  - by rewrite Hafter, Hs.
  - by rewrite Hafter, Hp, Hq, <-Hb, Hs.
Qed.
End overview_facts.

(** ** Two reports *)

#[local] Instance demo_probing : Probing := {|
  answers_sql := λ url, if (url =? "sqlite:///./data/blueteam.db")%string then None else Some "OperationalError";
  host_port := λ _, Ok (Some "redis", None); tcp_connect := λ host _, if (host =? "kafka")%string then None else Some "gaierror";
  tcp_ping := λ _ _, inr "+PONG"; http_status := λ _, inl "ConnectError" |}.
#[local] Instance demo_names : PythonNames := {| url_path := Ok; exn_class := λ _, "Exception" |}.
#[local] Instance demo_draws : Oracle :=
  {| uuid_hex := λ n, str_of_nat n; clock := λ n, utc 20000 (60 * Z.of_nat n) |}.
#[local] Instance demo_outside : Outside := {|
  answer := λ _ _, HTTPError "unreachable"; sqlite_rows := λ _ _ _ _, Ok []; url_credentials := λ _, Ok (None, None) |}.
Definition demo_settings (kafka : string) : ProbeSettings := {|
  pv_store := {| st_clickhouse_url := ""; st_opensearch_url := ""; st_kafka_bootstrap := kafka; st_s3_endpoint := "https://s3.example";
                 st_s3_bucket := "evidence"; st_s3_access_key := "k"; st_s3_secret_key := "s"; st_object_store_root := "data" |};
  pv_database_url := "sqlite:///./data/blueteam.db"; pv_redis_url := "redis://redis"; pv_supabase_url := ""; pv_ai_enabled := false;
  pv_retention := default_policy |}.
Definition demo_machine : machine := {| mc_draws := {| n_uuid := 0; n_clock := 0 |}; mc_files := ∅; mc_world := [] |}.
(** The store of the endpoint is configured, with its credentials, and the report is of the disk. *)
Example disk_reported : match fst (probe_all [] (demo_settings "kafka:9092") demo_machine) with
  | Ok p => (λ i, (i.1, po_connected i.2, po_backend i.2)) <$> select (λ i, po_configured i.2) p
  | Raise _ => [] end
  = [("postgres", true, "sqlite"); ("redis", true, "redis"); ("kafka", true, "redpanda"); ("object_storage", true, "local")].
Proof. vm_compute. reflexivity. Qed.
(** A list of brokers is no address with one port. *)
Example brokers_refused : is_ok (fst (health [] (demo_settings "kafka:9092,kafka2:9092") demo_machine)) = false.
Proof. vm_compute. reflexivity. Qed.
Lemma health_honest_witness : ∃ d, fst (health [] (demo_settings "kafka:9092") demo_machine) = Ok d
  ∧ dget "status" d = Some (VStr "ok") ∧ dget "all_configured_connected" d = Some (VBool true).
Proof.
  destruct (health [] (demo_settings "kafka:9092") demo_machine) as [r m'] eqn:E.
  assert (is_ok (fst (health [] (demo_settings "kafka:9092") demo_machine)) = true) as Hok by (vm_compute; reflexivity).
  rewrite E in Hok. destruct r as [d|e]; [|discriminate Hok]. exists d. split; [reflexivity|].
  pose proof (health_honest [] (demo_settings "kafka:9092") demo_machine _ _ E) as (_ & _ & p & Hp & _ & _ & _ & Hst & Hall & _).
  split; [apply Hst; split; vm_compute; reflexivity|]. apply Hall.
  assert (match fst (probe_all [] (demo_settings "kafka:9092") demo_machine) with
    | Ok p => connected_of p = fst <$> select (λ i, po_configured i.2) p | Raise _ => False end) as Hc by (vm_compute; reflexivity).
  rewrite Hp in Hc. exact Hc.
Defined.
