(* ===== verification/Http.v ===== *)
(** * Requests and answers

    Models what stands around the routes: [core/middleware.py], which names a request and
    marks its answer, [core/errors.py], which turns exceptions into answers, and
    [core/schema_patches.py], which adds columns to a database made by an earlier version.
    The order is the framework's: the answer to an exception that nothing else handles is
    made outside of the middleware. *)
From S2P Require Export Operations Dfir Command.
Local Open Scope Z_scope.

(** ** Answers *)

Record response := { rp_status : Z; rp_content : pydict; rp_headers : list (string * string) }.
Definition error_content (code message request_id : string) : pydict :=
  [("error", VDict [("code", VStr code); ("message", VStr message); ("request_id", VStr request_id)])].
Definition plain_response (status : Z) (content : pydict) : response := {| rp_status := status; rp_content := content; rp_headers := [] |}.
Definition blueteam_error_handler (code message : string) (status : Z) (request_id : string) : response :=
  plain_response status (error_content code message request_id).
Definition http_code (status : Z) : string :=
  if status =? 401 then "UNAUTHORIZED" else if status =? 403 then "PERMISSION_DENIED" else if status =? 404 then "NOT_FOUND" else "HTTP_ERROR".
Definition http_error_handler (status : Z) (detail request_id : string) : response :=
  plain_response status (error_content (http_code status) detail request_id).
Definition unhandled_error_handler (request_id : string) : response :=
  plain_response 500 (error_content "INTERNAL_ERROR" "An unexpected error occurred" request_id).
(** [HTTPException(status_code=404)], the only one that is raised. *)
Definition not_found_mark : string := "HTTPException 404: ".
Definition http_exception (e : exn) : option string :=
  match e with
  | OtherError m => if startswith m not_found_mark then Some (str_drop (String.length not_found_mark) m) else None
  | _ => None
  end.
(** The handlers that stand inside the middleware. *)
Definition handled (e : exn) (request_id : string) : option response :=
  match e with
  | BlueTeamError code message status => Some (blueteam_error_handler code message status request_id)
  | _ => (λ detail, http_error_handler 404 detail request_id) <$> http_exception e
  end.

Definition context_headers (request_id : string) : list (string * string) := [
  ("X-Request-ID", request_id); ("X-Content-Type-Options", "nosniff"); ("X-Frame-Options", "DENY"); ("Referrer-Policy", "no-referrer");
  ("Cache-Control", "no-store")].
Definition with_headers (request_id : string) (r : response) : response := {|
  rp_status := rp_status r; rp_content := rp_content r;
  rp_headers := foldl (λ acc kv, dset kv.1 kv.2 acc) (rp_headers r) (context_headers request_id) |}.

Section answering.
Context {S : Type} (new_request_id : M S string).
Definition dispatch (sent : option string) (handler : string → M S pydict) : M S response :=
  request_id ← (if otrue sent then mret (ostr sent) else new_request_id);
  try_except
    (content ← handler request_id; mret (with_headers request_id (plain_response 200 content)))
    (λ e, match handled e request_id with
          | Some r => mret (with_headers request_id r)
          | None => mret (unhandled_error_handler request_id)  (* outside: no header is set *)
          end).
End answering.

(** ** Additive patches *)

Definition INCIDENT_COLUMNS : list (string * string) := [
  ("severity", "VARCHAR(32) DEFAULT 'medium'"); ("assignee_user_id", "VARCHAR(40)"); ("assignee_email", "VARCHAR(240)");
  ("source_alert_id", "VARCHAR(40)"); ("related_entity_ids", "JSON"); ("notes", "JSON"); ("tasks", "JSON"); ("timeline", "JSON");
  ("root_cause", "TEXT"); ("lessons_learned", "TEXT")].
(** The columns of each table. *)
Definition schema : Type := list (string * list string).
Inductive dialect := Sqlite | OtherDialect.
(** [ALTER TABLE incidents ADD COLUMN name type] *)
Record alteration := { at_column : string; at_type : string; at_if_missing : bool }.
Definition alter (d : dialect) (column : string * string) : alteration :=
  match d with
  | Sqlite => {| at_column := column.1; at_if_missing := false;
      at_type := if (column.1 =? "severity")%string then "VARCHAR(32) DEFAULT 'medium'"
                 else if startswith column.2 "JSON" || startswith column.2 "TEXT" then "TEXT" else "VARCHAR(40)" |}
  | OtherDialect => {| at_column := column.1; at_type := column.2; at_if_missing := true |}
  end.
(** What the server does: a second column of a name is refused, unless it was only to be
    added when missing. *)
Definition execute_alter (a : alteration) (s : schema) : result schema :=
  match dget "incidents" s with
  | None => Raise (OtherError "OperationalError: no such table")
  | Some columns =>
      if mem (at_column a) columns
      then if at_if_missing a then Ok s else Raise (OtherError "OperationalError: duplicate column name")
      else Ok (dset "incidents" (columns ++ [at_column a]) s)
  end.
Fixpoint execute_all_alters (l : list alteration) (s : schema) : result schema :=
  match l with [] => Ok s | a :: rest => s ← execute_alter a s; execute_all_alters rest s end.
(** The statements run in one transaction; what was applied is returned. *)
Definition ensure_schema_patches (d : dialect) : M schema (list string) := λ s,
  match dget "incidents" s with
  | None => (Ok [], s)
  | Some existing =>
      let missing := select (λ c, negb (mem c.1 existing)) INCIDENT_COLUMNS in
      match execute_all_alters (alter d <$> missing) s with
      | Ok s' => (Ok ((λ c, "incidents." +:+ c.1) <$> missing), s')
      | Raise e => (Raise e, s)
      end
  end.

(** ** What is answered *)

Lemma with_headers_all rid r : rp_headers r = [] → rp_headers (with_headers rid r) = context_headers rid.
Proof. intros Hr. unfold with_headers. cbn [rp_headers]. rewrite Hr. reflexivity. Qed.
Lemma handled_plain e rid r : handled e rid = Some r → rp_headers r = [].
Proof. destruct e; cbn; try done; try by intros [= <-]. destruct (startswith _ _); [by intros [= <-] | done]. Qed.

Section answered.
Context `{Oracle} `{AuthLib}.
(** C34. Every request to a route is answered, under one identifier: the one the client sends,
    or else one that is drawn for it. What the handler returns is answered with a status 200.
    What it raises becomes an error with its own code, message and status when it is one of
    the application's, and a "not found" with its own text when it is the HTTP exception that
    a route raises; any other exception gives the same answer whatever it says, a status 500
    that names the request and nothing of the error. All but the last have the headers of the
    middleware. After an exception the database is as it was. *)
Theorem answers_exact permission h sent (body : TenantActor → M db pydict) s r s' :
  dispatch (new_id_db "req") sent (λ rid, served permission h rid body) s = (r, s') →
  ∃ rid s1 resp, r = Ok resp
    ∧ (if otrue sent then sent = Some rid ∧ s1 = s
       else rid = "req_" +:+ uuid_hex (n_uuid (d_draws s)) ∧ s1 = set_draws fresh_uuid s)
    ∧ match served permission h rid body s1 with
      | (Ok d, s2) => s' = s2 ∧ rp_status resp = 200 ∧ rp_content resp = d ∧ rp_headers resp = context_headers rid
      | (Raise e, _) => s' = set_draws (λ _, d_draws s') s ∧
          match e, http_exception e with
          | BlueTeamError code message status, _ => rp_status resp = status ∧ rp_content resp = error_content code message rid
              ∧ rp_headers resp = context_headers rid
          | _, Some detail => rp_status resp = 404 ∧ rp_content resp = error_content "NOT_FOUND" detail rid
              ∧ rp_headers resp = context_headers rid
          | _, None => rp_status resp = 500 ∧ rp_headers resp = []
              ∧ rp_content resp = error_content "INTERNAL_ERROR" "An unexpected error occurred" rid
          end
      end.
Proof.
  unfold dispatch, mbind at 1, M_bind at 1. intros He.
  assert (∃ rid s1, (if otrue sent then mret (ostr sent) else new_id_db "req") s = (Ok rid, s1)
    ∧ (if otrue sent then sent = Some rid ∧ s1 = s
       else rid = "req_" +:+ uuid_hex (n_uuid (d_draws s)) ∧ s1 = set_draws fresh_uuid s)
    ∧ s1 = set_draws (λ _, d_draws s1) s) as (rid & s1 & E & Hsent & Hs1).
  { destruct sent as [i|]; [|by eexists _, _]. cbn [otrue ostr]. destruct (nonempty i); [|by eexists _, _].
    exists i, s. split; [done|]. split; [done | by destruct s]. }
  rewrite E in He. exists rid, s1. unfold try_except, mbind, M_bind, mret, M_ret in He.
  destruct (served permission h rid body s1) as [[d|e] s2] eqn:Es.
  - injection He as <- <-. eexists. split; [done|]. split; [done|]. by rewrite with_headers_all.
  - apply served_raise in Es. assert (s2 = set_draws (λ _, d_draws s2) s) as Hs2 by (by rewrite Es, Hs1).
    destruct (handled e rid) as [resp|] eqn:Eh; injection He as <- <-; eexists; (split; [reflexivity|]; split; [done|]; split; [done|]).
    + pose proof (handled_plain _ _ _ Eh) as Hp. destruct e; try discriminate Eh;
        [injection Eh as <- | unfold handled in Eh; destruct (http_exception _) as [detail|]; [|discriminate Eh]; injection Eh as <-];
        by rewrite with_headers_all.
    + destruct e; try discriminate Eh; try done. unfold handled in Eh. by destruct (http_exception _).
Qed.
End answered.

(** ** What a patch leaves *)

Lemma alters_ok d l columns s : dget "incidents" s = Some columns → NoDup (l.*1) → Forall (λ c, mem c.1 columns = false) l →
  ∃ s', execute_all_alters (alter d <$> l) s = Ok s' ∧ dget "incidents" s' = Some (columns ++ l.*1)
    ∧ ∀ t, t ≠ "incidents" → dget t s' = dget t s.
Proof.
  revert columns s. induction l as [|[name ddl] l IH]; intros columns s Hc Hnd Hl; cbn.
  - exists s. by rewrite app_nil_r.
  - apply NoDup_cons in Hnd as [Hn Hnd]. apply Forall_cons in Hl as [Hx Hl]. cbn [fst] in *.
    unfold execute_alter at 1. rewrite Hc. assert (at_column (alter d (name, ddl)) = name) as -> by (by destruct d). rewrite Hx.
    cbn [mbind result_bind]. destruct (IH (columns ++ [name]) (dset "incidents" (columns ++ [name]) s)) as (s' & He & Hi & Ho).
    + apply dget_dset_eq.
    + done.
    + apply Forall_forall. intros c Hin. rewrite Forall_forall in Hl. specialize (Hl c Hin).
      apply not_true_iff_false. intros Hm%mem_spec. apply elem_of_app in Hm as [Hm%mem_spec|Hm]; [congruence|].
      apply list_elem_of_singleton in Hm. apply Hn. rewrite <-Hm. apply list_elem_of_fmap. by exists c.
    + exists s'. split; [done|]. split; [by rewrite Hi, <-app_assoc|]. intros t Ht. rewrite Ho by done. by apply dget_dset_ne.
Qed.
Lemma columns_unique : NoDup (INCIDENT_COLUMNS.*1).
Proof. apply (bool_decide_unpack _). vm_compute. reflexivity. Qed.
Lemma select_nodup {A} (f : string * A → bool) l : NoDup (l.*1) → NoDup ((select f l).*1).
Proof.
  induction l as [|x l IH]; [done|]. rewrite fmap_cons. intros [Hn Hd]%NoDup_cons. rewrite select_cons. destruct (f x); [|by apply IH].
  rewrite fmap_cons.
  apply NoDup_cons. split; [|by apply IH]. intros (y & Hy & [Hin _]%elem_of_select)%list_elem_of_fmap. apply Hn.
  rewrite Hy. apply list_elem_of_fmap. by exists y.
Qed.
(** Patching a schema always succeeds: where there is a table of incidents every column
    the models need is there afterwards, those it had are kept in their order and the other
    tables are not touched; patching again finds nothing to do. *)
Theorem patches_complete d s r s' : ensure_schema_patches d s = (r, s') →
  ∃ applied, r = Ok applied ∧ (∀ t, t ≠ "incidents" → dget t s' = dget t s)
    ∧ match dget "incidents" s with
      | None => s' = s ∧ applied = []
      | Some existing => ∃ added, dget "incidents" s' = Some (existing ++ added) ∧ applied = (λ n, "incidents." +:+ n) <$> added
          ∧ (∀ c, c ∈ INCIDENT_COLUMNS → c.1 ∈ existing ++ added) ∧ (∀ n, n ∈ added → n ∉ existing)
          ∧ ensure_schema_patches d s' = (Ok [], s')
      end.
Proof.
  unfold ensure_schema_patches at 1. destruct (dget "incidents" s) as [existing|] eqn:Ei; [|intros [= <- <-]; by exists []].
  set (missing := select _ INCIDENT_COLUMNS).
  assert (NoDup (missing.*1)) as Hnd.
  { apply select_nodup, columns_unique. }
  assert (Forall (λ c : string * string, mem c.1 existing = false) missing) as Hm.
  { apply Forall_forall. intros c [_ Hc%negb_true_iff]%elem_of_select. done. }
  destruct (alters_ok d missing existing s Ei Hnd Hm) as (s2 & -> & Hi & Ho). intros [= <- <-].
  eexists. split; [reflexivity|]. split; [done|].
  assert (∀ c, c ∈ INCIDENT_COLUMNS → c.1 ∈ existing ++ missing.*1) as Hall.
  { intros c Hc. apply elem_of_app. destruct (mem c.1 existing) eqn:E; [left; by apply mem_spec|]. right.
    apply list_elem_of_fmap. exists c. split; [done|]. apply elem_of_select. by rewrite E. }
  exists (missing.*1). split; [done|]. split; [by rewrite <-list_fmap_compose|]. split; [done|]. split.
  - intros n (c & -> & Hc)%list_elem_of_fmap Hin%mem_spec. rewrite Forall_forall in Hm. by rewrite Hm in Hin.
  - unfold ensure_schema_patches. rewrite Hi. assert (select (λ c, negb (mem c.1 (existing ++ missing.*1))) INCIDENT_COLUMNS = []) as ->; [|done].
    apply select_nil_iff. intros c Hc%Hall%mem_spec. by rewrite Hc.
Qed.

(** ** An error that is not told *)

#[local] Instance demo_oracle : Oracle :=
  {| uuid_hex := λ n, str_of_nat n; clock := λ n, utc 20000 (60 * Z.of_nat n) |}.
#[local] Instance demo_auth : AuthLib := {|
  jwt_encode := λ _, "t"; bcrypt_check := λ _ _, true;
  jwt_decode := λ t, if (t =? "t")%string then Some [("sub", VStr "usr_1")] else None |}.
(** A body that raises what the routes do not expect, and one that finds nothing. *)
Definition failing (e : exn) (sent : option string) : response :=
  match fst (dispatch (new_id_db "req") sent (λ rid, served "alerts:read" (demo_headers None) rid (λ _, raise (A := pydict) e)) Access.demo_db) with
  | Ok r => r | Raise _ => plain_response 0 [] end.
Example no_leak : failing (OtherError "OperationalError: password of db") (Some "r1")
  = plain_response 500 (error_content "INTERNAL_ERROR" "An unexpected error occurred" "r1").
Proof. vm_compute. reflexivity. Qed.
Example not_found_route : failing (OtherError "HTTPException 404: Scenario not found") (Some "r1")
  = {| rp_status := 404; rp_content := error_content "NOT_FOUND" "Scenario not found" "r1"; rp_headers := context_headers "r1" |}
  ∧ rp_headers (failing (NotFoundError "Alert not found") None) = context_headers ("req_" +:+ "0").
Proof. vm_compute. auto. Qed.
Example not_found : rp_status (failing (NotFoundError "Alert not found") None) = 404.
Proof. vm_compute. reflexivity. Qed.
(** The tables of an installation before incidents had notes. *)
Definition old_schema : schema := [("alerts", ["id"]); ("incidents", ["id"; "severity"; "tasks"])].
Lemma patches_complete_witness : ∃ s', ensure_schema_patches Sqlite old_schema
    = (Ok ["incidents.assignee_user_id"; "incidents.assignee_email"; "incidents.source_alert_id"; "incidents.related_entity_ids";
           "incidents.notes"; "incidents.timeline"; "incidents.root_cause"; "incidents.lessons_learned"], s')
  ∧ ensure_schema_patches Sqlite s' = (Ok [], s').
Proof.
  destruct (ensure_schema_patches Sqlite old_schema) as [r s'] eqn:E. exists s'.
  assert (fst (ensure_schema_patches Sqlite old_schema) = Ok ["incidents.assignee_user_id"; "incidents.assignee_email";
    "incidents.source_alert_id"; "incidents.related_entity_ids"; "incidents.notes"; "incidents.timeline"; "incidents.root_cause";
    "incidents.lessons_learned"]) as Hr by (vm_compute; reflexivity).
  rewrite E in Hr. cbn [fst] in Hr. subst r. split; [reflexivity|].
  destruct (patches_complete Sqlite old_schema _ _ E) as (applied & _ & _ & added & _ & _ & _ & _ & Hagain). exact Hagain.
Defined.
Lemma answers_exact_witness : ∃ s', dispatch (new_id_db "req") (Some "r1")
    (λ rid, served "alerts:read" (demo_headers None) rid (λ _, raise (A := pydict) (KeyError "x"))) Access.demo_db
    = (Ok (plain_response 500 (error_content "INTERNAL_ERROR" "An unexpected error occurred" "r1")), s').
Proof.
  destruct (dispatch (new_id_db "req") (Some "r1") (λ rid, served "alerts:read" (demo_headers None) rid
    (λ _, raise (A := pydict) (KeyError "x"))) Access.demo_db) as [r s'] eqn:E. exists s'.
  destruct (answers_exact "alerts:read" (demo_headers None) (Some "r1") (λ _, raise (KeyError "x")) Access.demo_db r s' E)
    as (rid & s1 & resp & -> & [[= <-] ->] & Hr).
  assert (fst (served "alerts:read" (demo_headers None) "r1" (λ _, raise (A := pydict) (KeyError "x")) Access.demo_db) = Raise (KeyError "x")) as He
    by (vm_compute; reflexivity).
  destruct (served "alerts:read" (demo_headers None) "r1" (λ _, raise (A := pydict) (KeyError "x")) Access.demo_db) as [x s2].
  cbn [fst] in He. subst x. destruct Hr as [_ (Hs & Hh & Hc)]. destruct resp as [status content hs].
  cbn in Hs, Hh, Hc. by rewrite Hs, Hh, Hc.
Defined.
